(* ===== verification/_CoqProject ===== *)
-Q . S2P
Prelude.v
Machine.v
Serial.v
JoystickSerial.v
Bridge.v
StdDescriptors.v
HIDClass.v
Descriptors.v
ConfigDescriptors.v
HIDParser.v
UsbCore.v
Endpoint.v
EndpointStream.v
DeviceStandardReq.v
StreamTransfers.v
UsbController.v
MemorySafety.v
JoystickApp.v
Firmware.v
Endianness.v
RingBuffer.v
HIDClassDevice.v
MassStorage.v
RNDISMessages.v
BulkPort.v
RNDISClassDevice.v
CDCClassDevice.v
PrinterClassDevice.v
MIDIClassDevice.v
AudioClassDevice.v
VirtualFAT.v
BootloaderSCSI.v
BootloaderMassStorage.v
