(* ===== verification/Prelude.v ===== *)
(** * Firmware of a serial-driven game controller: a verification library

    The repository turns an AVR microcontroller with a USB device controller
    into a game pad whose state arrives over a serial line.  A program on a PC
    (bridge.py) samples a controller and sends one line of fourteen hexadecimal
    digits per sample; the firmware (Joystick.c) decodes the lines and offers
    the state to a game console as an eight-byte HID report.  The USB side is
    the LUFA library in lufa/LUFA, of which the firmware links the AVR8 device
    stack.  Of the programs that ship with the library the mass storage
    bootloader is modelled too: it shows the memories of the processor as files of
    a disk, so that a program is updated by copying a file.

    ** How programs are modelled

    A C function is a program of the monad [M] of [Machine]: it runs on a
    [platform] (what the hardware answers to a register access, as a function of
    all accesses so far, and a bound on the rounds of a loop) and on a [world]
    (the objects of the program and the log of register accesses), and ends with
    a value, with [Fault] (an access outside an object, where C has no
    behaviour) or with [NoFuel].  Nothing is assumed about the hardware except
    where a theorem says so, in a named hypothesis on the platform.  Volatile
    objects that interrupts share with the main program ([USB_DeviceState],
    [USB_IsInitialized]) are accessed through the log like registers.  Integers
    are [Z] with the wrap-around of their C type written out ([u8], [u16],
    [u32]); buffers are lists with checked indices ([aget], [aset]); pointers are
    offsets.  [wp nf m Q p w] says that [m] has a behaviour and that its result
    satisfies [Q]; with [nf] false it also says that the loops end.

    Fuel: [fuel p] bounds the rounds of each loop.  Theorems that say a function
    ends state how much is enough (for instance the length of the data plus 65
    for a control write, 101 frames for [Endpoint_WaitUntilReady], the number of
    polls within which the host reacts); theorems about every run take [nf] to be
    [True] and hold for any fuel.

    ** Files

    - [Prelude] (this file): widths, checked arrays, little-endian layout, tactics
      and hints.
    - [Machine]: the monad, registers, the log, [wp] and its rules, loops with
      invariants and variants.
    - [Serial]: Serial_AVR8.c, Serial_AVR8.h: the USART driver.
    - [JoystickSerial]: Joystick.c, lines 30 to 94: the receive interrupt, the
      256-byte ring and [Serial_Task]; module [SerialInterleaving] runs the two
      against each other access by access.
    - [Bridge]: bridge.py, the sender.
    - [StdDescriptors], [HIDClass], [Descriptors]: StdDescriptors.h with the packed
      layout of each structure, the macros of HIDReportData.h and
      HIDClassCommon.h, and Descriptors.c: the descriptors of this device.
    - [ConfigDescriptors], [HIDParser]: the walker of configuration descriptors and
      the parser of HID report descriptors, which stand for what a host reads.
    - [UsbCore], [Endpoint], [EndpointStream]: requests, device states and objects of
      the stack; Endpoint_AVR8.c and .h; EndpointStream_AVR8.c with its three
      templates.
    - [DeviceStandardReq]: DeviceStandardReq.c and USBTask.c.  The application
      enters through the class [UsbApplication] (its events and its descriptor
      callback) and what the stack relies on through [UsbApplicationOk].
    - [StreamTransfers]: what the read streams store, and streams in several calls.
    - [UsbController]: USBController_AVR8.c, USBInterrupt_AVR8.c: start-up, shutdown
      and the general interrupt, with an abstract interrupt machine.
    - [MemorySafety]: a small logic for the absence of faults, used for every
      function of the stack, against the interface [SafeApplication].
    - [JoystickApp]: the rest of Joystick.c: events, [HID_Task], [GetNextReport],
      [main].
    - [Firmware]: the whole system as a step relation: the calls of [main], the
      receive interrupt and the USB interrupt in any order.
    - [Endianness], [RingBuffer], [HIDClassDevice]: LUFA's byte swapping, its ring
      buffer for one writer and one reader, and its HID class driver.
    - [MassStorage]: LUFA's mass storage class driver for devices.
    - [RNDISMessages]: the messages of its network adapter, built and answered in one
      buffer.
    - [BulkPort]: what a pair of data endpoints holds, the byte functions of the serial
      and the printer driver and the machine they implement, and items of one size in
      packets.  [handed] reads from the log of register accesses, byte by byte, the
      packets handed over: a bank changes hands when FIFOCON is written as zero.
      [served] ties a [port] to the log and says how the registers show it while the
      host collects packets in time and sends no request.
    - [RNDISClassDevice]: the driver of the network adapter, on the control endpoint
      and on a pair of data endpoints.
    - [CDCClassDevice], [PrinterClassDevice], [MIDIClassDevice], [AudioClassDevice]:
      LUFA's drivers for a serial port, a printer, MIDI and audio.
    - [VirtualFAT]: Bootloaders/MassStorage: Lib/VirtualFAT.c, the disk made up of the
      memories, and the functions of BootloaderAPI.c that program them; with a
      reader of FAT12 volumes as reference.  The sizes of the processor are the
      class [BootChip], what the sources rely on of them [BootChipOk].
    - [BootloaderSCSI]: Lib/SCSI.c: the commands, on the endpoints of [BulkPort] and the
      interface of [MassStorage].
    - [BootloaderMassStorage]: BootloaderMassStorage.c and Descriptors.c: descriptors,
      events, the callback, the loop of [main], the way out and the check at start.

    ** What the theorems show

    The system: no run of the firmware leaves an object, whatever the hardware
    and the host do, as long as no line has more than fourteen digits and the
    ring is not overrun ([firmware_never_crashes]); the report after
    [Serial_Task] is the last complete line ([firmware_reports_last_frame]); and
    a state sampled by bridge.py is, bit for bit, what a host that parsed the
    firmware's own report descriptor reads ([bridge_state_reaches_host]).

    The serial line: [Serial_Task] implements the line format and always empties
    the ring, the ring refines a queue under interleaving, and what an overrun
    does.  The descriptors: every descriptor is well formed, reads back, and is
    delivered whole.  The parser and the walker: memory safety on bounded
    descriptors, every array of the parser included, the exact field a report item
    names, that the controller's descriptor describes its report structure, round
    trips, and the inputs on which they misbehave.  The endpoint driver and the streams: configuration
    keeps other endpoints, waits are sound and end, control writes deliver, control
    reads store, and resumed data streams are complete.  The standard requests:
    addressing, configuration, features and descriptors each have the effect they
    name, and what is not served is stalled.  The controller: the interrupt handler
    refines an abstract machine.  The HID class driver and the ring buffer: the
    policy by which reports are sent, the settings of the host, and a lock-free
    queue.  The mass storage driver: no command block makes it leave its objects as
    long as the management task keeps away from the block, a command gets one status
    and a failed one a stall, and a run in which a configuration in the middle of a
    command breaks both.  The network adapter: its messages refine a specification on
    the message as received although the response overwrites it, its list of
    objects is exact, a command gets its response, frames are handed over and taken
    whole, and runs in which a host makes it leave its buffer.  The drivers on pairs of data
    endpoints: any sequence of byte calls behaves as two byte streams, transfers
    are delimited, events and samples cross the bus whole and in order, the
    settings and properties the host writes are those the application sees, and
    the requests and packets that stop the printer and the MIDI driver.

    The bootloader: a host that follows boot block, table and directory reads the
    memories as the two files; blocks of the files read back and no other block
    changes; no sequence of blocks reaches the bootloader itself; READ (10) and the
    commands that answer send their data and a status, and what is refused changes
    nothing but the sense data; writing an image and ejecting the disk ends the loop
    with the image in the program memory, and the reset that follows starts it.
    Assumed of the host are that it collects packets in time, sends no request in
    between and clears a stall ([served], and the hypothesis on the stall bit), of the
    board that its LEDs are other registers.  1026 rounds are enough for a loop over a
    block (two per byte and two more), 131072 for an answer of any allocation length,
    and the number of commands plus 256 for the loop of [main].

    ** What is not modelled

    Interrupts that preempt a call of [main] other than [Serial_Task]: in
    [Firmware] they fall between the calls.  The host-mode half of LUFA with its
    class drivers, the UC3 and XMEGA ports and the board drivers are not linked
    into this firmware; the other bootloaders, the demos and the projects are other
    programs, some built on third-party code.  Of the mass storage bootloader,
    SetupHardware, the interrupt that toggles the LEDs, the branches for boards with a
    mode pin and the functions for the signature, the fuses and the lock bits are left
    out; it runs on the stack as the controller builds it, which differs from its own
    build in requests on the control endpoint (a control endpoint of 8 bytes, served
    in an interrupt, descriptors in RAM, endpoints in ascending order) and in the call
    of the management task between packets, which its model leaves out.
    Of the class drivers for devices, the functions that store pointers in a FILE
    of the C library are left out.
    The Python front ends other than the sampling of bridge.py are input and
    output through libraries.  The signature row, the watchdog, the clock
    prescaler, SDL and the contents of uninitialised memory are parameters. *)

From Stdlib Require Import ZArith Lia.
From stdpp Require Export base list numbers option.

#[export] Set Default Goal Selector "!".
Open Scope Z_scope.

(** ** Machine-width integers

    A C object of an unsigned type of [w] bits is a [Z] in [0, 2^w); the
    conversions below are the wrap-around the code gets from its types. *)
Definition u8 (z : Z) : Z := z mod 256.
Definition u16 (z : Z) : Z := z mod 65536.
Definition u32 (z : Z) : Z := z mod 4294967296.

Definition is_u8 (z : Z) : Prop := 0 <= z < 256.
Definition is_u16 (z : Z) : Prop := 0 <= z < 65536.
Definition is_u32 (z : Z) : Prop := 0 <= z < 4294967296.

#[export] Instance is_u8_dec z : Decision (is_u8 z).
Proof. unfold is_u8. apply _. Defined.
#[export] Instance is_u16_dec z : Decision (is_u16 z).
Proof. unfold is_u16. apply _. Defined.

(** Linear arithmetic with the division and modulus by constants that the
    widths introduce. *)
Ltac word_lia :=
  unfold is_u8, is_u16, is_u32, u8, u16, u32 in *;
  Z.to_euclidean_division_equations; lia.

Create HintDb words discriminated.
Create Rewrite HintDb words.

Lemma u8_range z : is_u8 (u8 z).
Proof. word_lia. Qed.
Lemma u16_range z : is_u16 (u16 z).
Proof. word_lia. Qed.
Lemma u32_range z : is_u32 (u32 z).
Proof. word_lia. Qed.
Lemma u8_small z : is_u8 z -> u8 z = z.
Proof. apply Z.mod_small. Qed.
Lemma u16_small z : is_u16 z -> u16 z = z.
Proof. apply Z.mod_small. Qed.
Lemma u32_small z : is_u32 z -> u32 z = z.
Proof. apply Z.mod_small. Qed.
Lemma u8_u16 z : is_u8 z -> is_u16 z.
Proof. word_lia. Qed.

#[export] Hint Resolve u8_range u16_range u32_range u8_u16 : words.
#[export] Hint Rewrite u8_small u16_small u32_small using (solve [auto with words | word_lia]) : words.

(** ** Single bits of a register, as the code writes them *)

(** [v & (1 << b)] used as a condition. *)
Definition bit_tst (v b : Z) : bool := negb (Z.land v (Z.shiftl 1 b) =? 0).
(** [v |= (1 << b)]. *)
Definition bit_set (v b : Z) : Z := Z.lor v (Z.shiftl 1 b).
(** [v &= ~(1 << b)]. *)
Definition bit_clr (v b : Z) : Z := Z.land v (Z.lnot (Z.shiftl 1 b)).

Lemma testbit_one b i : 0 <= b -> Z.testbit (Z.shiftl 1 b) i = (i =? b).
Proof.
  intros Hb. rewrite Z.shiftl_mul_pow2, Z.mul_1_l by done.
  destruct (Z.eqb_spec i b) as [->|Hne].
  - by apply Z.pow2_bits_true.
  - apply Z.pow2_bits_false. congruence.
Qed.

Lemma bit_tst_testbit v b : 0 <= b -> bit_tst v b = Z.testbit v b.
Proof.
  intros Hb. unfold bit_tst. destruct (Z.testbit v b) eqn:E.
  - destruct (Z.eqb_spec (Z.land v (Z.shiftl 1 b)) 0) as [H|]; [|done].
    apply (f_equal (fun z => Z.testbit z b)) in H.
    rewrite Z.land_spec, testbit_one, E, Z.eqb_refl, Z.bits_0 in H by done. done.
  - destruct (Z.eqb_spec (Z.land v (Z.shiftl 1 b)) 0) as [|H]; [done|].
    exfalso. apply H. apply Z.bits_inj'. intros i _.
    rewrite Z.land_spec, testbit_one, Z.bits_0 by done.
    destruct (Z.eqb_spec i b) as [->|]; [by rewrite E|apply andb_false_r].
Qed.

Lemma bit_tst_set v b i : 0 <= b -> 0 <= i ->
  bit_tst (bit_set v b) i = (i =? b) || bit_tst v i.
Proof.
  intros Hb Hi. rewrite !bit_tst_testbit by done. unfold bit_set.
  by rewrite Z.lor_spec, testbit_one, orb_comm by done.
Qed.

Lemma bit_tst_clr v b i : 0 <= b -> 0 <= i ->
  bit_tst (bit_clr v b) i = negb (i =? b) && bit_tst v i.
Proof.
  intros Hb Hi. rewrite !bit_tst_testbit by done. unfold bit_clr.
  by rewrite Z.land_spec, Z.lnot_spec, testbit_one, andb_comm by done.
Qed.

(** ** Lists as C arrays *)

(** [a[i]] with [i] an integer expression; [None] outside the object. *)
Definition aget {A} (a : list A) (i : Z) : option A :=
  if decide (0 <= i) then a !! Z.to_nat i else None.

(** [a[i] = x]; [None] outside the object, where C has no behaviour. *)
Definition aset {A} (a : list A) (i : Z) (x : A) : option (list A) :=
  if decide (0 <= i < Z.of_nat (length a)) then Some (<[Z.to_nat i := x]> a) else None.

Lemma aget_Some {A} (a : list A) i :
  0 <= i < Z.of_nat (length a) -> is_Some (aget a i).
Proof.
  intros Hi. unfold aget. rewrite decide_True by lia.
  apply lookup_lt_is_Some. lia.
Qed.

Lemma aset_Some {A} (a : list A) i x :
  0 <= i < Z.of_nat (length a) -> aset a i x = Some (<[Z.to_nat i := x]> a).
Proof. intros Hi. unfold aset. by rewrite decide_True. Qed.

Lemma aset_None {A} (a : list A) i x :
  ~ (0 <= i < Z.of_nat (length a)) -> aset a i x = None.
Proof. intros Hi. unfold aset. by rewrite decide_False. Qed.

Lemma aset_length {A} (a : list A) i x a' : aset a i x = Some a' -> length a' = length a.
Proof. unfold aset. case_decide; [|done]. intros [= <-]. apply length_insert. Qed.

(** [bs] stored from position [base] on, inside the array. *)
Definition patch {A} (base : nat) (bs cb : list A) : list A := take base cb ++ bs ++ drop (base + length bs) cb.

Lemma patch_nil {A} base (cb : list A) : patch base [] cb = cb.
Proof. unfold patch. cbn. rewrite Nat.add_0_r. apply take_drop. Qed.

Lemma patch_snoc {A} base (bs cb : list A) v : (base + length bs < length cb)%nat ->
  <[(base + length bs)%nat := v]> (patch base bs cb) = patch base (bs ++ [v]) cb.
Proof.
  intros Hl. unfold patch. assert (length (take base cb) = base) as Hb by (rewrite length_take; lia).
  rewrite insert_app_r_alt by lia. rewrite Hb. f_equal. rewrite insert_app_r_alt by lia. rewrite <- app_assoc. f_equal.
  replace (base + length bs - base - length bs)%nat with 0%nat by lia.
  destruct (lookup_lt_is_Some_2 cb (base + length bs)%nat) as [x Hx]; [lia|]. rewrite (drop_S _ _ _ Hx). cbn.
  rewrite length_app. cbn [length]. do 2 f_equal. lia.
Qed.

Lemma patch_patch {A} (a b : nat) (bytes cb : list A) : (a + b <= length bytes)%nat ->
  patch a (take b (drop a bytes)) (patch 0 (take a bytes) cb) = patch 0 (take (a + b) bytes) cb.
Proof.
  intros Hl. unfold patch. rewrite !take_0, !app_nil_l, !Nat.add_0_l.
  assert (length (take a bytes) = a) as Ha by (rewrite length_take; lia).
  assert (length (take b (drop a bytes)) = b) as Hb by (rewrite length_take, length_drop; lia).
  rewrite take_app_length' by done. rewrite Ha, Hb, <- drop_drop, (drop_app_length' _ _ a) by done.
  rewrite app_assoc, take_take_drop. rewrite length_take, !drop_drop. do 2 f_equal. lia.
Qed.

Lemma patch_length {A} base (bs l : list A) : (base + length bs <= length l)%nat -> length (patch base bs l) = length l.
Proof. intros Hl. unfold patch. rewrite !length_app, length_take, length_drop. lia. Qed.

Lemma patch_lookup {A} base (bs l : list A) i : (base + length bs <= length l)%nat ->
  patch base bs l !! i = if decide (base <= i < base + length bs)%nat then bs !! (i - base)%nat else l !! i.
Proof.
  intros Hl. unfold patch. case_decide as Hi.
  - rewrite lookup_app_r by (rewrite length_take; lia). rewrite length_take, Nat.min_l by lia. by rewrite lookup_app_l by lia.
  - destruct (decide (i < base)%nat).
    + rewrite lookup_app_l by (rewrite length_take; lia). by rewrite lookup_take_lt.
    + rewrite lookup_app_r by (rewrite length_take; lia). rewrite length_take, Nat.min_l by lia.
      rewrite lookup_app_r by lia. rewrite lookup_drop. f_equal. lia.
Qed.

Lemma patch_next {A} base (x y z l : list A) : (length z <= length y)%nat -> (base + length x + length y <= length l)%nat ->
  patch (base + length x) y (patch base (x ++ z) l) = patch base (x ++ y) l.
Proof.
  intros Hz Hl. apply list_eq. intros i. rewrite !patch_lookup; rewrite ?patch_length; rewrite ?length_app; [|lia..].
  repeat case_decide; try lia; try done.
  - rewrite lookup_app_r by lia. f_equal. lia.
  - rewrite !lookup_app_l by lia. done.
Qed.

Lemma patch_segment {A} base (x y l : list A) n : (base + length x + length y <= length l)%nat -> n = length y ->
  take n (drop (base + length x) (patch base (x ++ y) l)) = y.
Proof.
  intros Hl ->. apply list_eq. intros i. destruct (decide (i < length y)%nat) as [Hi|Hi].
  - rewrite lookup_take_lt, lookup_drop, patch_lookup by (rewrite ?length_app; lia). rewrite length_app, decide_True by lia.
    rewrite lookup_app_r by lia. f_equal. lia.
  - rewrite lookup_take_ge, lookup_ge_None_2 by lia. done.
Qed.

(** ** Little-endian layout of the scalars stored in a packed struct *)
Definition le16 (v : Z) : list Z := [Z.land v 255; Z.land (Z.shiftr v 8) 255].

Lemma land_255 v : Z.land v 255 = u8 v.
Proof. change 255 with (Z.ones 8). by rewrite Z.land_ones. Qed.

Lemma le16_eq v : le16 v = [u8 v; u8 (v / 256)].
Proof.
  unfold le16. rewrite !land_255. by rewrite Z.shiftr_div_pow2.
Qed.

(** Reading a 16-bit scalar back from its two bytes. *)
Definition of_le16 (lo hi : Z) : Z := Z.lor (Z.shiftl hi 8) lo.

Lemma land_shiftl_low hi lo n :
  0 <= n -> 0 <= lo < 2 ^ n -> Z.land (Z.shiftl hi n) lo = 0.
Proof.
  intros Hn Hlo. apply Z.bits_inj'. intros i Hi.
  rewrite Z.land_spec, Z.bits_0. destruct (decide (i < n)).
  - by rewrite Z.shiftl_spec_low.
  - rewrite <- (Z.mod_small lo (2 ^ n)), <- Z.land_ones, Z.land_spec by done.
    rewrite Z.ones_spec_high by lia. by rewrite !andb_false_r.
Qed.

Lemma lor_shiftl_add hi lo n :
  0 <= n -> 0 <= lo < 2 ^ n -> Z.lor (Z.shiftl hi n) lo = hi * 2 ^ n + lo.
Proof.
  intros Hn Hlo. rewrite <- Z.shiftl_mul_pow2 by done.
  rewrite Z.add_nocarry_lxor by (by apply land_shiftl_low).
  symmetry. apply Z.lxor_lor. by apply land_shiftl_low.
Qed.

Lemma of_le16_eq lo hi : is_u8 lo -> of_le16 lo hi = hi * 256 + lo.
Proof. intros. unfold of_le16. by rewrite lor_shiftl_add. Qed.

Lemma le16_roundtrip v : is_u16 v -> of_le16 (u8 v) (u8 (v / 256)) = v.
Proof. intros Hv. rewrite of_le16_eq by apply u8_range. word_lia. Qed.

Lemma forallb_range (P : Z -> bool) (n : nat) :
  forallb P (Z.of_nat <$> seq 0 n) = true -> forall z, 0 <= z < Z.of_nat n -> P z = true.
Proof.
  rewrite forallb_forall. intros H z Hz. apply H.
  apply list_elem_of_In, list_elem_of_fmap.
  exists (Z.to_nat z). split; [lia|]. apply elem_of_seq. lia.
Qed.
