(* ===== verification/Machine.v ===== *)
(** * The execution model of the firmware

    The drivers of the firmware read and write memory-mapped registers of the
    AVR USB controller and USART.  The chip is not part of the sources, so its
    behaviour is a parameter: a [platform] answers every register read from the
    whole history of accesses, and that is all the model knows of it.  A
    program is a state transformer that appends its accesses to a log; objects
    that the C sources declare [volatile] and that interrupt handlers write
    ([USB_DeviceState], [USB_IsInitialized]) are accessed the same way, since a
    read of them may return a value no code of the running function stored.

    Bit positions and constants of <avr/io.h> are the fields of class [Avr]. *)

From S2P Require Import Prelude.

(** ** Registers and the access log *)

(** The registers the modelled sources access; the last two are the volatile
    objects that interrupt handlers share with the main program. *)
Inductive reg :=
  | UENUM | UECFG0X | UECFG1X | UEIENX | UEINTX | UECONX | UESTA0X | UERST
  | UEINT | UEDATX | UEBCLX | UEBCHX
  | UDADDR | UDCON | UDIEN | UDINT | UDFNUM
  | USBCON | USBINT | USBSTA | UHWCON | REGCR | PLLCSR | PLLFRQ
  | UBRR1 | UCSR1A | UCSR1B | UCSR1C | UDR1 | DDRD | PORTD | MCUSR | SREG
  | V_USB_DeviceState | V_USB_IsInitialized.

#[export] Instance reg_eq_dec : EqDecision reg.
Proof. solve_decision. Defined.

(** The only 16-bit registers accessed are the frame number and the baud rate. *)
Definition reg_wrap (r : reg) (v : Z) : Z :=
  match r with UDFNUM | UBRR1 => u16 v | _ => u8 v end.

Inductive event :=
  | Rd (r : reg) (v : Z)
  | Wr (r : reg) (v : Z).

(** Most recent access first. *)
Abbreviation log := (list event).

(** ** Targets *)

(** The two controller series the README supports: ATmega16U2 (series 2) and
    ATmega32U4 (series 4). *)
Inductive usb_series := USB_SERIES_2_AVR | USB_SERIES_4_AVR.

#[export] Instance usb_series_eq_dec : EqDecision usb_series.
Proof. solve_decision. Defined.

(** Names of <avr/io.h> the sources use: bit positions in the registers above. *)
Class Avr := {
  series : usb_series;
  (* UEINTX *)
  TXINI : Z; RXOUTI : Z; RXSTPI : Z; RWAL : Z; FIFOCON : Z;
  (* UECONX *)
  EPEN : Z; STALLRQ : Z; STALLRQC : Z; RSTDT : Z;
  (* UECFG0X, UECFG1X *)
  EPDIR : Z; EPTYPE0 : Z; ALLOC : Z; EPBK0 : Z; EPSIZE0 : Z;
  (* UESTA0X, UEIENX, UDADDR, UDCON *)
  CFGOK : Z; NBUSYBK0 : Z; RXSTPE : Z; ADDEN : Z; DETACH : Z; LSM : Z; RMWKUP : Z;
  (* UDINT / UDIEN *)
  WAKEUPI : Z; SUSPI : Z; EORSTI : Z; SOFI : Z;
  WAKEUPE : Z; SUSPE : Z; EORSTE : Z; SOFE : Z;
  (* USBCON, USBINT, USBSTA, UHWCON, REGCR, PLLCSR, PLLFRQ *)
  USBE : Z; FRZCLK : Z; OTGPADE : Z; VBUSTE : Z; VBUSTI : Z; VBUS : Z;
  UVREGE : Z; REGDIS : Z; PLLE : Z; PLOCK : Z; PDIV2 : Z;
  PLLP0 : Z; PINDIV : Z;
  (* USART *)
  UCSZ10 : Z; UCSZ11 : Z; U2X1 : Z; TXEN1 : Z; RXEN1 : Z; RXC1 : Z; UDRE1 : Z; TXC1 : Z;
  RXCIE1 : Z; WDRF : Z
}.

(** What the data sheets say of the registers and the proofs use: flags of one
    register are different bits of a byte, and the address enable bit is the one
    above the seven bits of the address. *)
Class AvrOk `{Avr} : Prop := {
  ueintx_bits : Forall (fun b => 0 <= b < 8) [TXINI; RXOUTI; RXSTPI; RWAL; FIFOCON];
  ueintx_nodup : NoDup [TXINI; RXOUTI; RXSTPI; RWAL; FIFOCON];
  ueconx_bits : Forall (fun b => 0 <= b < 8) [EPEN; STALLRQ; STALLRQC; RSTDT];
  ueconx_nodup : NoDup [EPEN; STALLRQ; STALLRQC; RSTDT];
  udint_bits : Forall (fun b => 0 <= b < 8) [WAKEUPI; SUSPI; EORSTI; SOFI];
  udint_nodup : NoDup [WAKEUPI; SUSPI; EORSTI; SOFI];
  udien_bits : Forall (fun b => 0 <= b < 8) [WAKEUPE; SUSPE; EORSTE; SOFE];
  udien_nodup : NoDup [WAKEUPE; SUSPE; EORSTE; SOFE];
  udcon_bits : 0 <= DETACH < 8;
  udaddr_bits : ADDEN = 7;
  uecfg_bits : Forall (fun b => 0 <= b < 8) [EPDIR; EPTYPE0; ALLOC; EPBK0; EPSIZE0]
}.

(** The bit positions of the ATmega16U2 and ATmega32U4 data sheets, for concrete
    runs; no theorem about the firmware depends on them. *)
Definition datasheet (sr : usb_series) : Avr := {|
  series := sr;
  TXINI := 0; RXOUTI := 2; RXSTPI := 3; RWAL := 5; FIFOCON := 7;
  EPEN := 0; STALLRQ := 5; STALLRQC := 4; RSTDT := 3;
  EPDIR := 0; EPTYPE0 := 6; ALLOC := 1; EPBK0 := 2; EPSIZE0 := 4;
  CFGOK := 7; NBUSYBK0 := 0; RXSTPE := 3; ADDEN := 7; DETACH := 0; LSM := 2; RMWKUP := 1;
  WAKEUPI := 4; SUSPI := 0; EORSTI := 3; SOFI := 2;
  WAKEUPE := 4; SUSPE := 0; EORSTE := 3; SOFE := 2;
  USBE := 7; FRZCLK := 5; OTGPADE := 4; VBUSTE := 0; VBUSTI := 0; VBUS := 0;
  UVREGE := 0; REGDIS := 0; PLLE := 1; PLOCK := 0; PDIV2 := 2; PLLP0 := 2; PINDIV := 4;
  UCSZ10 := 1; UCSZ11 := 2; U2X1 := 1; TXEN1 := 3; RXEN1 := 4; RXC1 := 7; UDRE1 := 5; TXC1 := 6;
  RXCIE1 := 7; WDRF := 3
|}.

Lemma datasheet_ok sr : @AvrOk (datasheet sr).
Proof.
  split; cbn; try lia; try (repeat constructor; lia).
  all: by apply (bool_decide_unpack _).
Qed.

(** ** Programs *)

(** The hardware and the number of iterations any one loop may take. *)
Record platform := {
  respond : log -> reg -> Z;
  fuel : nat
}.

(** State [G] of the C objects, and the log of accesses so far. *)
Record world (G : Type) := World { st : G; hist : log }.
Arguments World {G} st hist.
Arguments st {G} w.
Arguments hist {G} w.

(** [Fault]: the C code has no behaviour (an access outside an object).
    [NoFuel]: a loop ran for more than [fuel] iterations. *)
Inductive outcome (G A : Type) :=
  | Done (a : A) (w : world G)
  | Fault
  | NoFuel.
Arguments Done {G A} a w.
Arguments Fault {G A}.
Arguments NoFuel {G A}.

Definition M (G A : Type) : Type := platform -> world G -> outcome G A.

Section Programs.
Context {G : Type}.

Definition ret {A} (a : A) : M G A := fun _ w => Done a w.
Definition bind {A B} (m : M G A) (k : A -> M G B) : M G B := fun p w =>
  match m p w with
  | Done a w' => k a p w'
  | Fault => Fault
  | NoFuel => NoFuel
  end.
Definition mfault {A} : M G A := fun _ _ => Fault.
Definition mnofuel {A} : M G A := fun _ _ => NoFuel.
Definition mget : M G G := fun _ w => Done (st w) w.
Definition mmodify (f : G -> G) : M G unit := fun _ w => Done tt (World (f (st w)) (hist w)).
Definition mfuel : M G nat := fun p w => Done (fuel p) w.

(** A read and a write of a register, of its width. *)
Definition rd (r : reg) : M G Z := fun p w =>
  let v := reg_wrap r (respond p (hist w) r) in
  Done v (World (st w) (Rd r v :: hist w)).
Definition wr (r : reg) (v : Z) : M G unit := fun _ w =>
  Done tt (World (st w) (Wr r (reg_wrap r v) :: hist w)).

Definition mlift {A} (o : option A) : M G A :=
  match o with Some a => ret a | None => mfault end.

(** A C loop: [body] yields the next loop state or the value the loop ends
    with; [n] bounds the iterations. *)
Fixpoint loop {X R} (n : nat) (body : X -> M G (X + R)) (x : X) : M G R :=
  match n with
  | O => mnofuel
  | S n' => bind (body x) (fun y =>
      match y with inl x' => loop n' body x' | inr r => ret r end)
  end.

(** A [for] loop over given values; a round may end the loop with a value
    ([return] or [break]) or go on to the next ([None]). *)
Fixpoint for_each {X R} (l : list X) (body : X -> M G (option R)) : M G (option R) :=
  match l with
  | [] => ret None
  | x :: l' => bind (body x) (fun y =>
      match y with Some r => ret (Some r) | None => for_each l' body end)
  end.

(** A loop with the iteration bound of the platform. *)
Definition while_ {X R} (body : X -> M G (X + R)) (x : X) : M G R :=
  bind mfuel (fun n => loop n body x).
End Programs.

Declare Scope prog_scope.
Delimit Scope prog_scope with prog.
Notation "x <- m ;; k" := (bind m (fun x => k))
  (at level 100, m at next level, right associativity) : prog_scope.
Notation "m ;;; k" := (bind m (fun _ => k))
  (at level 100, right associativity) : prog_scope.
Open Scope prog_scope.

(** [r |= 1 << b] and [r &= ~(1 << b)]: a read, then a write. *)
Definition reg_or {G} (r : reg) (b : Z) : M G unit :=
  v <- rd r;; wr r (bit_set v b).
Definition reg_andn {G} (r : reg) (b : Z) : M G unit :=
  v <- rd r;; wr r (bit_clr v b).
(** [r & (1 << b)] as a condition. *)
Definition reg_bit {G} (r : reg) (b : Z) : M G bool :=
  v <- rd r;; ret (bit_tst v b).

(** A program over a part of the state. *)
Definition zoom {G A X} (get : G -> X) (put : X -> G -> G) (m : M X A) : M G A := fun p w =>
  match m p (World (get (st w)) (hist w)) with
  | Done a w' => Done a (World (put (st w') (st w)) (hist w'))
  | Fault => Fault
  | NoFuel => NoFuel
  end.

Definition when {G} (b : bool) (m : M G unit) : M G unit := if b then m else ret tt.

(** ** Postconditions

    [wp nf m Q p w]: from world [w] on platform [p], [m] has a behaviour, and
    when it returns the result satisfies [Q].  [nf] is what a run out of fuel
    has to satisfy: [True] for statements about every run that returns,
    [False] for statements that include the return. *)
Definition wp {G A} (nf : Prop) (m : M G A) (Q : A -> world G -> Prop)
    (p : platform) (w : world G) : Prop :=
  match m p w with
  | Done a w' => Q a w'
  | Fault => False
  | NoFuel => nf
  end.

Create HintDb wps discriminated.

Section WP.
Context {G : Type} (nf : Prop) (p : platform).
Implicit Types w : world G.

Lemma wp_ret {A} (a : A) Q w : Q a w -> wp nf (ret a) Q p w.
Proof. done. Qed.

Lemma wp_bind {A B} (m : M G A) (k : A -> M G B) Q w :
  wp nf m (fun a w' => wp nf (k a) Q p w') p w -> wp nf (bind m k) Q p w.
Proof. unfold wp, bind. by destruct (m p w). Qed.

Lemma wp_mono {A} (m : M G A) (Q Q' : A -> world G -> Prop) w :
  wp nf m Q p w -> (forall a w', Q a w' -> Q' a w') -> wp nf m Q' p w.
Proof. unfold wp. destruct (m p w); auto. Qed.

Lemma wp_conj {A} (m : M G A) (Q Q' : A -> world G -> Prop) w :
  wp nf m Q p w -> wp nf m Q' p w -> wp nf m (fun a w' => Q a w' /\ Q' a w') p w.
Proof. unfold wp. destruct (m p w); auto. Qed.

(** Loops with equal bodies are equal. *)
Lemma while_ext {X R} (b b' : X -> M G (X + R)) x w :
  (forall x p w, b x p w = b' x p w) -> while_ b x p w = while_ b' x p w.
Proof.
  intros E. unfold while_, bind at 1 2, mfuel. generalize (fuel p) as n. intros n. revert x w.
  induction n as [|n IH]; intros x w; [done|]. cbn [loop]. unfold bind. rewrite E.
  destruct (b' x p w) as [[x'|r] w1| |]; [apply IH|done..].
Qed.

Lemma wp_get Q w : Q (st w) w -> wp nf mget Q p w.
Proof. done. Qed.

Lemma wp_modify f Q w : Q tt (World (f (st w)) (hist w)) -> wp nf (mmodify f) Q p w.
Proof. done. Qed.

Lemma wp_fuel Q w : Q (fuel p) w -> wp nf mfuel Q p w.
Proof. done. Qed.

Lemma reg_wrap_u8 r v : r <> UDFNUM -> r <> UBRR1 -> is_u8 (reg_wrap r v).
Proof. destruct r; intros; try done; apply u8_range. Qed.

(** Whatever the hardware answers. *)
Lemma wp_rd r Q w :
  (forall v, v = reg_wrap r (respond p (hist w) r) ->
     Q v (World (st w) (Rd r v :: hist w))) ->
  wp nf (rd r) Q p w.
Proof. unfold wp, rd. auto. Qed.

Lemma wp_wr r v Q w :
  Q tt (World (st w) (Wr r (reg_wrap r v) :: hist w)) -> wp nf (wr r v) Q p w.
Proof. done. Qed.

Lemma wp_lift {A} (o : option A) a Q w : o = Some a -> Q a w -> wp nf (mlift o) Q p w.
Proof. by intros ->. Qed.

Lemma wp_reg_or r b Q w :
  (forall v, v = reg_wrap r (respond p (hist w) r) ->
     Q tt (World (st w) (Wr r (reg_wrap r (bit_set v b)) :: Rd r v :: hist w))) ->
  wp nf (reg_or r b) Q p w.
Proof. intros H. by apply H. Qed.

Lemma wp_reg_andn r b Q w :
  (forall v, v = reg_wrap r (respond p (hist w) r) ->
     Q tt (World (st w) (Wr r (reg_wrap r (bit_clr v b)) :: Rd r v :: hist w))) ->
  wp nf (reg_andn r b) Q p w.
Proof. intros H. by apply H. Qed.

Lemma wp_reg_bit r b Q w :
  (forall v, v = reg_wrap r (respond p (hist w) r) ->
     Q (bit_tst v b) (World (st w) (Rd r v :: hist w))) ->
  wp nf (reg_bit r b) Q p w.
Proof. intros H. by apply H. Qed.

Lemma wp_zoom {A X} (get : G -> X) (put : X -> G -> G) (m : M X A) Q w :
  wp nf m (fun a (w' : world X) => Q a (World (put (st w') (st w)) (hist w'))) p
     (World (get (st w)) (hist w)) ->
  wp nf (zoom get put m) Q p w.
Proof. unfold wp, zoom. by destruct (m p _). Qed.

Lemma wp_when (b : bool) m Q w :
  (b = true -> wp nf m Q p w) -> (b = false -> Q tt w) -> wp nf (when b m) Q p w.
Proof. destruct b; intros H1 H2; [by apply H1|by apply H2]. Qed.

(** Loop rule: an invariant preserved by each round; runs that exceed the
    bound only have to satisfy [nf]. *)
Lemma wp_loop {X R} (I : X -> world G -> Prop) (body : X -> M G (X + R)) n Q :
  nf ->
  (forall x w, I x w ->
     wp nf (body x) (fun y w' => match y with inl x' => I x' w' | inr r => Q r w' end) p w) ->
  forall x w, I x w -> wp nf (loop n body x) Q p w.
Proof.
  intros Hnf Hbody. induction n as [|n IH]; intros x w HI; [done|].
  simpl. apply wp_bind. eapply wp_mono; [by apply Hbody|].
  intros [x'|r] w' H; [by apply IH|done].
Qed.

(** Invariant rule of a [for] loop: [I done] holds before the values [done] have
    been followed by the rest. *)
Lemma wp_for_each {X R} (l : list X) (I : list X -> world G -> Prop) (body : X -> M G (option R)) Q :
  (forall dn x rest w, l = dn ++ x :: rest -> I dn w ->
     wp nf (body x) (fun y w' => match y with Some r => Q (Some r) w' | None => I (dn ++ [x]) w' end) p w) ->
  (forall w, I l w -> Q None w) ->
  forall w, I [] w -> wp nf (for_each l body) Q p w.
Proof.
  intros Hbody Hend. assert (forall rest dn w, l = dn ++ rest -> I dn w -> wp nf (for_each rest body) Q p w) as H.
  { induction rest as [|x rest IH]; intros dn w Hl HI.
    - rewrite app_nil_r in Hl. subst. apply wp_ret. by apply Hend.
    - simpl. apply wp_bind. eapply wp_mono; [by eapply Hbody|].
      intros [r|] w' HQ; [by apply wp_ret|]. apply (IH (dn ++ [x])); [by rewrite <- app_assoc|done]. }
  intros w HI. by apply (H l []).
Qed.

(** Loop rule with a variant: the loop ends within the bound. *)
Lemma wp_loop_variant {X R} (I : X -> world G -> Prop) (mu : X -> world G -> nat)
    (body : X -> M G (X + R)) Q :
  (forall x w, I x w ->
     wp nf (body x) (fun y w' =>
       match y with inl x' => I x' w' /\ (mu x' w' < mu x w)%nat | inr r => Q r w' end) p w) ->
  forall n x w, I x w -> (mu x w < n)%nat -> wp nf (loop n body x) Q p w.
Proof.
  intros Hbody. induction n as [|n IH]; intros x w HI Hmu; [lia|].
  simpl. apply wp_bind. eapply wp_mono; [by apply Hbody|].
  intros [x'|r] w' H; [destruct H; apply IH; [done|lia]|done].
Qed.

(** A loop with a variant, when running out of fuel may also be acceptable. *)
Lemma wp_while_either {X R} (I : X -> world G -> Prop) (mu : X -> world G -> nat)
    (body : X -> M G (X + R)) Q x w :
  (forall x w, I x w ->
     wp nf (body x) (fun y w' =>
       match y with inl x' => I x' w' /\ (mu x' w' < mu x w)%nat | inr r => Q r w' end) p w) ->
  I x w -> (nf \/ (mu x w < fuel p)%nat) -> wp nf (while_ body x) Q p w.
Proof.
  intros Hbody HI [Hnf|Hmu]; apply wp_bind, wp_fuel.
  - apply (wp_loop I body _ _ Hnf); [|done]. intros x1 w1 H1.
    eapply wp_mono; [by apply Hbody|]. intros [x2|r] w2; [by intros [? _]|done].
  - by eapply (wp_loop_variant I mu).
Qed.

Lemma wp_while {X R} (I : X -> world G -> Prop) (body : X -> M G (X + R)) Q x w :
  nf ->
  (forall x w, I x w ->
     wp nf (body x) (fun y w' => match y with inl x' => I x' w' | inr r => Q r w' end) p w) ->
  I x w -> wp nf (while_ body x) Q p w.
Proof. intros. apply wp_bind, wp_fuel. by eapply wp_loop. Qed.

Lemma wp_while_variant {X R} (I : X -> world G -> Prop) (mu : X -> world G -> nat)
    (body : X -> M G (X + R)) Q x w :
  (forall x w, I x w ->
     wp nf (body x) (fun y w' =>
       match y with inl x' => I x' w' /\ (mu x' w' < mu x w)%nat | inr r => Q r w' end) p w) ->
  I x w -> (mu x w < fuel p)%nat -> wp nf (while_ body x) Q p w.
Proof. intros. apply wp_bind, wp_fuel. by eapply wp_loop_variant. Qed.
End WP.

(** A program that goes on with [f] after [m] returned. *)
Lemma bind_outcome {G A B} (p : platform) (R : outcome G B -> Prop) (m : M G A) (f : A -> M G B) (w : world G) :
  wp False m (fun a w1 => R (f a p w1)) p w -> R (bind m f p w).
Proof. unfold wp, bind. by destruct (m p w). Qed.

(** One step of symbolic execution over the goal's program. *)
Ltac wp_step :=
  lazymatch goal with
  | |- wp _ (bind _ _) _ _ _ => apply wp_bind
  | |- wp _ (ret _) _ _ _ => apply wp_ret
  | |- wp _ (rd _) _ _ _ => apply wp_rd; intros ? ?
  | |- wp _ (wr _ _) _ _ _ => apply wp_wr
  | |- wp _ (reg_or _ _) _ _ _ => apply wp_reg_or; intros ? ?
  | |- wp _ (reg_andn _ _) _ _ _ => apply wp_reg_andn; intros ? ?
  | |- wp _ (reg_bit _ _) _ _ _ => apply wp_reg_bit; intros ? ?
  | |- wp _ mget _ _ _ => apply wp_get
  | |- wp _ (mmodify _) _ _ _ => apply wp_modify
  | |- wp _ mfuel _ _ _ => apply wp_fuel
  | |- wp _ (when _ _) _ _ _ => apply wp_when; intros ?
  | |- wp _ (if ?b then _ else _) _ _ _ => destruct b eqn:?
  end; cbn [st hist].
Ltac wp_steps := repeat wp_step.

(** ** What a run did to the hardware *)

(** Values written to [r], oldest first. *)
Definition written (r : reg) (l : log) : list Z :=
  rev (omap (fun e => match e with Wr r' v => if decide (r' = r) then Some v else None | _ => None end) l).

Definition read_from (r : reg) (l : log) : list Z :=
  rev (omap (fun e => match e with Rd r' v => if decide (r' = r) then Some v else None | _ => None end) l).

Lemma written_wr r v l : written r (Wr r v :: l) = written r l ++ [v].
Proof. unfold written. simpl. by rewrite decide_True. Qed.
Lemma written_wr_ne r r' v l : r' <> r -> written r (Wr r' v :: l) = written r l.
Proof. intros. unfold written. simpl. by rewrite decide_False. Qed.
Lemma written_rd r r' v l : written r (Rd r' v :: l) = written r l.
Proof. done. Qed.
Lemma read_from_rd r v l : read_from r (Rd r v :: l) = read_from r l ++ [v].
Proof. unfold read_from. simpl. by rewrite decide_True. Qed.
Lemma read_from_rd_ne r r' v l : r' <> r -> read_from r (Rd r' v :: l) = read_from r l.
Proof. intros. unfold read_from. simpl. by rewrite decide_False. Qed.
Lemma read_from_wr r r' v l : read_from r (Wr r' v :: l) = read_from r l.
Proof. done. Qed.
Lemma written_app r new h : written r (new ++ h) = written r h ++ written r new.
Proof. unfold written. by rewrite omap_app, rev_app_distr. Qed.
Lemma read_from_app r new h : read_from r (new ++ h) = read_from r h ++ read_from r new.
Proof. unfold read_from. by rewrite omap_app, rev_app_distr. Qed.

Arguments written : simpl never.
Arguments read_from : simpl never.

Create Rewrite HintDb logs.
#[export] Hint Rewrite @written_wr @written_rd @read_from_rd @read_from_wr : logs.
#[export] Hint Rewrite @written_wr_ne @read_from_rd_ne using done : logs.

Ltac logs := cbn [hist st]; autorewrite with logs; cbn [hist st].
