(* ===== verification/Serial.v ===== *)
(** * The USART driver: LUFA/Drivers/Peripheral/AVR8/Serial_AVR8.[ch]

    Byte-level send and receive over the USART registers, the two stream
    callbacks that <stdio.h> calls for [stdin] and [stdout], and the send loops
    over strings and buffers.  The theorems say which bytes reach the data
    register, for every behaviour of the hardware, and that sending ends when
    the transmitter keeps becoming ready. *)

From S2P Require Import Prelude Machine.

Section Serial.
Context {G : Type} `{Avr}.
Implicit Types w : world G.

(** makefile: [F_CPU = 16000000]. *)
Definition F_CPU : Z := 16000000.

Definition SERIAL_UBBRVAL (Baud : Z) : Z := (F_CPU / 16 + Baud / 2) / Baud - 1.
Definition SERIAL_2X_UBBRVAL (Baud : Z) : Z := (F_CPU / 8 + Baud / 2) / Baud - 1.

Definition Serial_Init (BaudRate : Z) (DoubleSpeed : bool) : M G unit :=
  wr UBRR1 (if DoubleSpeed then SERIAL_2X_UBBRVAL BaudRate else SERIAL_UBBRVAL BaudRate);;;
  wr UCSR1C (Z.lor (Z.shiftl 1 UCSZ11) (Z.shiftl 1 UCSZ10));;;
  wr UCSR1A (if DoubleSpeed then Z.shiftl 1 U2X1 else 0);;;
  wr UCSR1B (Z.lor (Z.shiftl 1 TXEN1) (Z.shiftl 1 RXEN1));;;
  reg_or DDRD 3;;;
  reg_or PORTD 2.

Definition Serial_Disable : M G unit :=
  wr UCSR1B 0;;;
  wr UCSR1A 0;;;
  wr UCSR1C 0;;;
  wr UBRR1 0;;;
  reg_andn DDRD 3;;;
  reg_andn PORTD 2.

Definition Serial_IsCharReceived : M G bool := reg_bit UCSR1A RXC1.
Definition Serial_IsSendReady : M G bool := reg_bit UCSR1A UDRE1.
Definition Serial_IsSendComplete : M G bool := reg_bit UCSR1A TXC1.

Definition Serial_SendByte (DataByte : Z) : M G unit :=
  while_ (fun _ : unit =>
    r <- Serial_IsSendReady;; ret (if r then inr tt else inl tt)) tt;;;
  wr UDR1 DataByte.

(** [int16_t]: -1 when nothing was received. *)
Definition Serial_ReceiveByte : M G Z :=
  r <- Serial_IsCharReceived;;
  if negb r then ret (-1) else rd UDR1.

(** Callbacks of the stream set up by [Serial_CreateStream]; [None] stands
    for [_FDEV_EOF]. *)
Definition Serial_putchar (DataByte : Z) : M G Z :=
  Serial_SendByte DataByte;;; ret 0.

Definition Serial_getchar : M G (option Z) :=
  r <- Serial_IsCharReceived;;
  if negb r then ret None else v <- Serial_ReceiveByte;; ret (Some v).

Definition Serial_getchar_Blocking : M G Z :=
  while_ (fun _ : unit =>
    r <- Serial_IsCharReceived;; ret (if r then inr tt else inl tt)) tt;;;
  Serial_ReceiveByte.

(** A NUL-terminated string in memory from the pointer on; reading past the
    object is a fault. *)
Definition Serial_SendString (str : list Z) : M G unit :=
  while_ (fun StringPtr : Z =>
    CurrByte <- mlift (aget str StringPtr);;
    if CurrByte =? 0 then ret (inr tt)
    else Serial_SendByte CurrByte;;; ret (inl (StringPtr + 1))) 0.

(** The same loop reading program memory. *)
Definition Serial_SendString_P (str : list Z) : M G unit :=
  while_ (fun FlashStringPtr : Z =>
    CurrByte <- mlift (aget str FlashStringPtr);;
    if CurrByte =? 0 then ret (inr tt)
    else Serial_SendByte CurrByte;;; ret (inl (FlashStringPtr + 1))) 0.

(** [while (Length--) Serial_SendByte( *(CurrByte++));] *)
Definition Serial_SendData (Buffer : list Z) (Length : Z) : M G unit :=
  while_ (fun '(CurrByte, Length) =>
    if Length =? 0 then ret (inr tt)
    else c <- mlift (aget Buffer CurrByte);;
         Serial_SendByte c;;;
         ret (inl (CurrByte + 1, u16 (Length - 1)))) (0, Length).

(** <stdio.h> over the stream: [printf] of a literal without conversions
    hands each character to the put callback, [fgetc] asks the get callback
    and reports [EOF] as -1. *)
Definition stdout_puts (s : list Z) : M G unit :=
  foldr (fun c k => Serial_putchar c;;; k) (ret tt) s.

Definition fgetc_stdin : M G Z :=
  r <- Serial_getchar;; ret (match r with Some v => u8 v | None => -1 end).

(** ** Behaviour *)

(** The C objects, and every register except the status register that is
    polled and the data register, are left alone. *)
Lemma wp_SendByte nf p c (Q : unit -> world G -> Prop) w :
  nf ->
  (forall polls, Forall (fun e => exists v, e = Rd UCSR1A v) polls ->
     Q tt (World (st w) (Wr UDR1 (u8 c) :: polls ++ hist w))) ->
  wp nf (Serial_SendByte c) Q p w.
Proof.
  intros Hnf HQ. unfold Serial_SendByte. wp_step.
  apply wp_while with (I := fun _ w' => st w' = st w /\
    exists polls, Forall (fun e => exists v, e = Rd UCSR1A v) polls /\
      hist w' = polls ++ hist w); [done| |].
  - intros [] w' (Hst & polls & Hp & Hh). unfold Serial_IsSendReady. wp_steps.
    destruct (bit_tst v UDRE1); cbn [st hist].
    + wp_steps. rewrite Hst, Hh. apply (HQ (Rd UCSR1A v :: polls)). eauto.
    + split; [done|]. exists (Rd UCSR1A v :: polls). rewrite Hh. eauto.
  - split; [done|]. by exists [].
Qed.

Lemma polls_written polls l :
  Forall (fun e => exists v, e = Rd UCSR1A v) polls ->
  written UDR1 (polls ++ l) = written UDR1 l.
Proof. induction 1 as [|e polls [v ->] _ IH]; simpl; logs; done. Qed.

Lemma polls_read polls l :
  Forall (fun e => exists v, e = Rd UCSR1A v) polls ->
  read_from UDR1 (polls ++ l) = read_from UDR1 l.
Proof. induction 1 as [|e polls [v ->] _ IH]; simpl; logs; done. Qed.

Lemma wp_puts1 p c (Q : unit -> world G -> Prop) w :
  (forall h', written UDR1 h' = written UDR1 (hist w) ++ [u8 c] ->
     read_from UDR1 h' = read_from UDR1 (hist w) -> Q tt (World (st w) h')) ->
  wp True (stdout_puts [c]) Q p w.
Proof.
  intros HQ. unfold stdout_puts. cbn [foldr]. unfold Serial_putchar. wp_step. wp_step.
  apply wp_SendByte; [done|]. intros polls Hp. wp_steps. apply HQ; logs;
    [by rewrite polls_written|by apply polls_read].
Qed.

(** A character from [stdin]: the data register, or 0xFF in a byte when the
    status register shows nothing received. *)
Lemma wp_fgetc_stdin nf p (Q : Z -> world G -> Prop) w :
  (forall c h', written UDR1 h' = written UDR1 (hist w) ->
     (u8 c = 255 /\ read_from UDR1 h' = read_from UDR1 (hist w)) \/
     (is_u8 c /\ read_from UDR1 h' = read_from UDR1 (hist w) ++ [c]) ->
     Q c (World (st w) h')) ->
  wp nf fgetc_stdin Q p w.
Proof.
  intros HQ. unfold fgetc_stdin, Serial_getchar, Serial_ReceiveByte, Serial_IsCharReceived.
  wp_steps; apply HQ; logs; auto. right. subst. cbn.
  rewrite (u8_small (u8 _)) by auto with words. auto with words.
Qed.

(** Sending a buffer: whatever the hardware does, the bytes that have reached
    the data register are the buffer's, in order, and a normal return means
    all [Length] of them. *)
Lemma Serial_SendData_spec p Buffer Length w :
  is_u16 Length -> Length <= Z.of_nat (length Buffer) ->
  wp True (Serial_SendData Buffer Length)
    (fun _ w' => st w' = st w /\
       written UDR1 (hist w') =
         written UDR1 (hist w) ++ (u8 <$> take (Z.to_nat Length) Buffer)) p w.
Proof.
  intros HL Hlen. unfold Serial_SendData.
  apply wp_while with (I := fun '(i, n) w' => 0 <= i /\ n = Length - i /\ 0 <= n /\
    st w' = st w /\
    written UDR1 (hist w') = written UDR1 (hist w) ++ (u8 <$> take (Z.to_nat i) Buffer));
    [done| |].
  - intros [i n] w' (Hi & -> & Hn & Hst & Hw). wp_step.
    + wp_steps. assert (i = Length) as -> by lia. done.
    + destruct (aget_Some Buffer i) as [c Hc]; [lia|].
      wp_step. eapply wp_lift; [exact Hc|]. wp_step.
      apply wp_SendByte; [done|]. intros polls Hp. wp_steps. cbn.
      split_and!; [lia|rewrite u16_small by word_lia; lia|
        rewrite u16_small by word_lia; lia|done|].
      logs. rewrite polls_written, Hw by done.
      unfold aget in Hc. rewrite decide_True in Hc by lia.
      rewrite <- app_assoc. f_equal.
      replace (Z.to_nat (i + 1)) with (S (Z.to_nat i)) by lia.
      by rewrite (take_S_r _ _ _ Hc), fmap_app.
  - split_and!; [lia|lia|word_lia|done|]. cbn. by rewrite app_nil_r.
Qed.

(** With a transmitter that is always ready, sending a byte returns. *)
Lemma Serial_SendByte_ready p c w :
  (0 < fuel p)%nat ->
  (forall l, bit_tst (reg_wrap UCSR1A (respond p l UCSR1A)) UDRE1 = true) ->
  wp False (Serial_SendByte c)
    (fun _ w' => st w' = st w /\ written UDR1 (hist w') = written UDR1 (hist w) ++ [u8 c]) p w.
Proof.
  intros Hf Hr. unfold Serial_SendByte. wp_step.
  apply wp_while_variant with (I := fun _ w' => w' = w) (mu := fun _ _ => 0%nat); [|done|lia].
  intros [] w' ->. unfold Serial_IsSendReady. wp_steps.
  subst v. rewrite Hr. wp_steps. by logs.
Qed.
End Serial.
