(* ===== verification/JoystickSerial.v ===== *)
(** * The serial input of the firmware: Joystick.c, [Serial_Task] and the
      receive interrupt

    Bytes arrive in the interrupt handler, which stores them in a 256-byte
    circular buffer; [Serial_Task], called from the main loop, takes them out
    and assembles lines of fourteen hexadecimal digits into the state of the
    pad.  [SerialLine] models the assembly of one line, [SerialRing] the
    buffer, and [SerialInterleaving] the two running against each other: the
    handler may run between any two accesses of [Serial_Task] to the shared
    objects. *)

From S2P Require Import Prelude Machine Serial.

(** ** Data of Joystick.c *)

(** The objects [buttons], [HAT2], [LX2], [LY2], [RX2], [RY2]. *)
Record pad := Pad {
  buttons : Z; HAT2 : Z; LX2 : Z; LY2 : Z; RX2 : Z; RY2 : Z
}.

(** The static objects of [Serial_Task]: the number of digits taken from the
    current line and the bytes they make up. *)
Record line := Line { l : Z; b : list Z }.

(** [buffer], [buffer_head], [buffer_tail]. *)
Record ring := Ring { buffer : list Z; buffer_head : Z; buffer_tail : Z }.

#[export] Instance pad_eq_dec : EqDecision pad.
Proof. solve_decision. Defined.
#[export] Instance line_eq_dec : EqDecision line.
Proof. solve_decision. Defined.

(** Initial values of these objects. *)
Definition pad_init : pad := Pad 0 0 0 0 0 0.
Definition line_init : line := Line 0 (replicate 7 0).
Definition ring_init : ring := Ring (replicate 256 0) 0 0.

Definition pad_ok (q : pad) : Prop :=
  is_u16 (buttons q) /\ is_u8 (HAT2 q) /\ is_u8 (LX2 q) /\ is_u8 (LY2 q) /\
  is_u8 (RX2 q) /\ is_u8 (RY2 q).

Definition chr_CR : Z := 13.
Definition chr_LF : Z := 10.
Definition chr_0 : Z := 48.
Definition chr_9 : Z := 57.
Definition chr_a : Z := 97.
Definition chr_f : Z := 102.
Definition chr_A : Z := 65.
Definition chr_F : Z := 70.
Definition chr_U : Z := 85.
Definition chr_X : Z := 88.

Module SerialLine.

(** [val] for a character: the digit, or [0xff]. *)
Definition digit_val (c : Z) : Z :=
  if (chr_0 <=? c) && (c <=? chr_9) then u8 (c - chr_0)
  else if (chr_a <=? c) && (c <=? chr_f) then u8 ((c - chr_a) + 10)
  else if (chr_A <=? c) && (c <=? chr_F) then u8 ((c - chr_A) + 10)
  else 255.

(** The end of a line: a full line becomes the state of the pad; in either
    case the line is cleared. *)
Definition end_of_line (q : pad) (s : line) : option (pad * line) :=
  if l s =? 14 then
    b0 ← aget (b s) 0; b1 ← aget (b s) 1; b2 ← aget (b s) 2; b3 ← aget (b s) 3;
    b4 ← aget (b s) 4; b5 ← aget (b s) 5; b6 ← aget (b s) 6;
    Some (Pad (u16 (Z.lor (Z.shiftl b1 8) b2)) b0 b3 b4 b5 b6, line_init)
  else Some (q, line_init).

(** [b[l/2] |= val << (4*((l+1)%2)); l += 1;] *)
Definition store_digit (val : Z) (s : line) : option line :=
  let i := l s / 2 in
  old ← aget (b s) i;
  b' ← aset (b s) i (u8 (Z.lor old (Z.shiftl val (4 * ((l s + 1) mod 2)))));
  Some (Line (u8 (l s + 1)) b').

(** The body of the loop of [Serial_Task] for the character [c]; [None] when
    it accesses [b] outside its seven bytes. *)
Definition process_char (c : Z) (qs : pad * line) : option (pad * line) :=
  let '(q, s) := qs in
  if (c =? chr_CR) || (c =? chr_LF) then end_of_line q s
  else
    let val := digit_val c in
    if val =? 255 then Some (q, s)
    else s' ← store_digit val s; Some (q, s').

Fixpoint process_all (cs : list Z) (qs : pad * line) : option (pad * line) :=
  match cs with
  | [] => Some qs
  | c :: cs => qs' ← process_char c qs; process_all cs qs'
  end.

Arguments process_char : simpl never.
Arguments end_of_line : simpl never.
Arguments store_digit : simpl never.

Lemma process_all_app cs1 cs2 qs :
  process_all (cs1 ++ cs2) qs = process_all cs1 qs ≫= process_all cs2.
Proof.
  revert qs. induction cs1 as [|c cs1 IH]; intros qs; [done|].
  simpl. destruct (process_char c qs); simpl; [apply IH|done].
Qed.

(** ** What a line means *)

(** The digit a character stands for. *)
Definition hexdigit (c : Z) : option Z :=
  if decide (48 <= c <= 57) then Some (c - 48)
  else if decide (97 <= c <= 102) then Some (c - 87)
  else if decide (65 <= c <= 70) then Some (c - 55)
  else None.

Definition digits (cs : list Z) : list Z := omap hexdigit cs.

Arguments digits : simpl never.

Lemma digits_cons c cs :
  digits (c :: cs) = match hexdigit c with Some d => d :: digits cs | None => digits cs end.
Proof. done. Qed.

(** Digit [j] of a line, 0 when it has fewer. *)
Definition dnth (ds : list Z) (j : nat) : Z := default 0 (ds !! j).

(** Byte [i] of a list of digits, high digit first. *)
Definition dbyte (ds : list Z) (i : nat) : Z :=
  16 * dnth ds (2 * i) + dnth ds (2 * i + 1).

(** The seven bytes of [b] while [ds] have been taken. *)
Definition packed (ds : list Z) : list Z := dbyte ds <$> seq 0 7.

Arguments packed : simpl never.
Arguments dbyte : simpl never.

Lemma length_packed ds : length (packed ds) = 7%nat.
Proof. done. Qed.

(** The pad a complete line describes: hat, buttons (16 bits), the four
    axes. *)
Definition pad_of (ds : list Z) : pad :=
  Pad (256 * dbyte ds 1 + dbyte ds 2) (dbyte ds 0) (dbyte ds 3) (dbyte ds 4)
      (dbyte ds 5) (dbyte ds 6).

Definition frame (cs : list Z) : option pad :=
  if decide (length (digits cs) = 14%nat) then Some (pad_of (digits cs)) else None.

Definition is_eol (c : Z) : Prop := c = chr_CR \/ c = chr_LF.
#[export] Instance is_eol_dec c : Decision (is_eol c).
Proof. unfold is_eol. apply _. Defined.

(** Line states reached from well-formed lines: [ds] taken so far. *)
Definition line_of (ds : list Z) : line := Line (Z.of_nat (length ds)) (packed ds).

Definition digits_ok (ds : list Z) : Prop := Forall (fun d => 0 <= d < 16) ds.

(** ** The assembly of a line *)

Lemma hexdigit_range c d : hexdigit c = Some d -> 0 <= d < 16.
Proof. unfold hexdigit. intros H. repeat (case_decide; [simplify_eq; lia|]). done. Qed.

Lemma digits_range cs : digits_ok (digits cs).
Proof.
  unfold digits, digits_ok. apply Forall_forall. intros d Hd.
  apply list_elem_of_In, list_elem_of_omap in Hd as (c & _ & Hc). by eapply hexdigit_range.
Qed.

Lemma digit_val_spec c :
  digit_val c = match hexdigit c with Some d => d | None => 255 end.
Proof.
  unfold digit_val, hexdigit, chr_0, chr_9, chr_a, chr_f, chr_A, chr_F.
  repeat (case_decide || case_match); try lia; rewrite ?u8_small by word_lia; lia.
Qed.

Lemma line_of_nil : line_of [] = line_init.
Proof. done. Qed.

Lemma dbyte_snoc_other ds d i :
  i <> (length ds / 2)%nat -> dbyte (ds ++ [d]) i = dbyte ds i.
Proof.
  intros Hi. unfold dbyte. pose proof (Nat.div_mod_eq (length ds) 2) as Hd.
  pose proof (Nat.mod_upper_bound (length ds) 2 ltac:(lia)) as Hm.
  assert (forall j, j <> length ds -> dnth (ds ++ [d]) j = dnth ds j) as E.
  { intros j Hj. unfold dnth. f_equal.
    destruct (decide (j < length ds)%nat).
    - by apply lookup_app_l.
    - rewrite !lookup_ge_None_2; [done|lia|]. rewrite length_app. simpl. lia. }
  rewrite !E; [done|lia|lia].
Qed.

Lemma dnth_snoc (ds : list Z) d : dnth (ds ++ [d]) (length ds) = d.
Proof. unfold dnth. by rewrite lookup_app_r, Nat.sub_diag by done. Qed.

Lemma dnth_out (ds : list Z) j : (length ds <= j)%nat -> dnth ds j = 0.
Proof. intros. unfold dnth. by rewrite lookup_ge_None_2. Qed.

Lemma digits_lookup ds j : digits_ok ds -> 0 <= dnth ds j < 16.
Proof.
  intros Hok. unfold dnth. destruct (ds !! j) as [d|] eqn:E; simpl; [|lia].
  by apply (Forall_lookup_1 _ _ _ _ Hok E).
Qed.

Lemma dbyte_range ds i : digits_ok ds -> is_u8 (dbyte ds i).
Proof.
  intros Hok. unfold dbyte, is_u8.
  pose proof (digits_lookup ds (2 * i) Hok). pose proof (digits_lookup ds (2 * i + 1) Hok). lia.
Qed.

(** Or-ing a digit into the byte being assembled adds it. *)
Lemma dbyte_snoc_self ds d :
  digits_ok ds -> 0 <= d < 16 ->
  u8 (Z.lor (dbyte ds (length ds / 2))
            (Z.shiftl d (4 * ((Z.of_nat (length ds) + 1) mod 2)))) =
  dbyte (ds ++ [d]) (length ds / 2).
Proof.
  intros Hok Hd. pose proof (Nat.div_mod_eq (length ds) 2) as Hn.
  pose proof (Nat.mod_upper_bound (length ds) 2 ltac:(lia)) as Hm.
  assert (length ds mod 2 = 0 \/ length ds mod 2 = 1)%nat as [E|E] by lia; rewrite E in Hn.
  - assert (2 * (length ds / 2) = length ds)%nat as Hi by lia.
    replace ((Z.of_nat (length ds) + 1) mod 2) with 1 by (Z.to_euclidean_division_equations; lia).
    unfold dbyte. rewrite Hi, dnth_snoc.
    rewrite (dnth_out ds), (dnth_out ds),
      (dnth_out (ds ++ [d])) by (rewrite ?length_app; simpl; lia).
    rewrite Z.lor_0_l, Z.shiftl_mul_pow2 by lia. rewrite u8_small by word_lia. lia.
  - assert (2 * (length ds / 2) + 1 = length ds)%nat as Hi by lia.
    replace ((Z.of_nat (length ds) + 1) mod 2) with 0 by (Z.to_euclidean_division_equations; lia).
    unfold dbyte. rewrite Hi, dnth_snoc, (dnth_out ds (length ds)) by done.
    assert (dnth (ds ++ [d]) (2 * (length ds / 2)) = dnth ds (2 * (length ds / 2))) as ->.
    { unfold dnth. f_equal. apply lookup_app_l. lia. }
    pose proof (digits_lookup ds (2 * (length ds / 2)) Hok) as Hr.
    rewrite Z.add_0_r, Z.shiftl_0_r. replace (16 * _) with (Z.shiftl (dnth ds (2 * (length ds / 2))) 4)
      by (rewrite Z.shiftl_mul_pow2; lia).
    rewrite lor_shiftl_add by lia. rewrite u8_small by word_lia.
    rewrite Z.shiftl_mul_pow2 by lia. lia.
Qed.

Lemma aget_packed ds i : 0 <= i < 7 -> aget (packed ds) i = Some (dbyte ds (Z.to_nat i)).
Proof.
  intros Hi. unfold aget, packed. rewrite decide_True by lia.
  rewrite list_lookup_fmap, lookup_seq_lt by lia. done.
Qed.

(** Taking one more digit. *)
Lemma store_digit_line ds d :
  digits_ok ds -> 0 <= d < 16 -> (length ds < 14)%nat ->
  store_digit d (line_of ds) = Some (line_of (ds ++ [d])).
Proof.
  intros Hok Hd Hlen. unfold store_digit, line_of. cbn [l b].
  pose proof (Nat.Div0.div_lt_upper_bound (length ds) 2 7 ltac:(lia)) as Hi.
  replace (Z.of_nat (length ds) / 2) with (Z.of_nat (length ds / 2)) by (by rewrite Nat2Z.inj_div).
  rewrite aget_packed, Nat2Z.id by lia. cbn [mbind option_bind].
  rewrite aset_Some by (rewrite length_packed; lia). cbn [mbind option_bind].
  f_equal. rewrite Nat2Z.id, dbyte_snoc_self, length_app by done.
  f_equal; [rewrite u8_small by word_lia; simpl; lia|].
  apply list_eq. intros i. destruct (decide (i = length ds / 2)%nat) as [->|Hne].
  - rewrite list_lookup_insert_eq by (rewrite length_packed; lia).
    unfold packed. by rewrite list_lookup_fmap, lookup_seq_lt by lia.
  - rewrite list_lookup_insert_ne by done. unfold packed. rewrite !list_lookup_fmap.
    destruct (seq 0 7 !! i) as [j|] eqn:E; [|done]. simpl. f_equal.
    apply lookup_seq in E as [-> _]. by rewrite dbyte_snoc_other.
Qed.

(** A fifteenth digit is stored outside [b]. *)
Lemma store_digit_overflow ds d :
  length ds = 14%nat -> store_digit d (line_of ds) = None.
Proof. intros Hlen. unfold store_digit, line_of. cbn [l b]. by rewrite Hlen. Qed.

Lemma end_of_line_line q ds :
  digits_ok ds -> (length ds <= 14)%nat ->
  end_of_line q (line_of ds) =
    Some (if decide (length ds = 14%nat) then pad_of ds else q, line_init).
Proof.
  intros Hok Hlen. unfold end_of_line, line_of. cbn [l b].
  case_decide as Hd; [|by replace (Z.of_nat (length ds) =? 14) with false by lia].
  rewrite Hd. replace (Z.of_nat 14 =? 14) with true by done.
  rewrite !aget_packed by lia.
  change (Z.to_nat 0) with 0%nat. change (Z.to_nat 1) with 1%nat.
  change (Z.to_nat 2) with 2%nat. simpl. unfold pad_of.
  pose proof (dbyte_range ds 1 Hok). pose proof (dbyte_range ds 2 Hok).
  rewrite lor_shiftl_add by word_lia. do 3 f_equal. rewrite u16_small by word_lia. lia.
Qed.

Lemma hexdigit_eol c : is_eol c -> hexdigit c = None.
Proof. by intros [-> | ->]. Qed.

Lemma process_char_eol c q s : is_eol c -> process_char c (q, s) = end_of_line q s.
Proof. by intros [-> | ->]. Qed.

Lemma process_char_body c q s :
  ~ is_eol c ->
  process_char c (q, s) =
    match hexdigit c with
    | None => Some (q, s)
    | Some d => s' ← store_digit d s; Some (q, s')
    end.
Proof.
  intros Hc. unfold process_char.
  replace ((c =? chr_CR) || (c =? chr_LF)) with false
    by (symmetry; apply orb_false_iff; unfold is_eol in Hc; lia).
  rewrite digit_val_spec. destruct (hexdigit c) as [d|] eqn:E; [|done].
  apply hexdigit_range in E. by replace (d =? 255) with false by lia.
Qed.

(** Characters of a line before its end. *)
Lemma process_all_body cs q ds :
  Forall (fun c => ~ is_eol c) cs -> digits_ok ds ->
  (length (ds ++ digits cs) <= 14)%nat ->
  process_all cs (q, line_of ds) = Some (q, line_of (ds ++ digits cs)).
Proof.
  intros Hcs. revert ds. induction Hcs as [|c cs Hc _ IH]; intros ds Hok Hlen.
  { by rewrite app_nil_r. }
  simpl. rewrite process_char_body by done. rewrite digits_cons in *.
  destruct (hexdigit c) as [d|] eqn:E; simpl; [|by apply IH].
  pose proof (hexdigit_range _ _ E) as Hd.
  rewrite length_app in Hlen. simpl in Hlen.
  rewrite store_digit_line by (done || lia). simpl.
  rewrite IH, <- app_assoc; [done| |rewrite <- app_assoc, length_app; simpl; lia].
  apply Forall_app. auto.
Qed.

Lemma process_all_overlong cs q ds :
  Forall (fun c => ~ is_eol c) cs -> digits_ok ds -> (length ds <= 14)%nat ->
  (14 < length (ds ++ digits cs))%nat ->
  process_all cs (q, line_of ds) = None.
Proof.
  intros Hcs. revert ds. induction Hcs as [|c cs Hc _ IH]; intros ds Hok H14 Hlen.
  { rewrite app_nil_r in Hlen. lia. }
  simpl. rewrite process_char_body by done. rewrite digits_cons in *.
  destruct (hexdigit c) as [d|] eqn:E; simpl; [|by apply IH].
  pose proof (hexdigit_range _ _ E) as Hd.
  destruct (decide (length ds = 14)%nat) as [He|]; [by rewrite store_digit_overflow|].
  rewrite store_digit_line by (done || lia). simpl.
  apply IH; [by apply Forall_app; auto|rewrite length_app; simpl; lia|].
  by rewrite <- app_assoc.
Qed.

(** ** Lines *)

(** A line: its characters, then its terminator. *)
Definition text (ln : list Z * Z) : list Z := ln.1 ++ [ln.2].
Definition line_text_ok (ln : list Z * Z) : Prop :=
  Forall (fun c => ~ is_eol c) ln.1 /\ is_eol ln.2.
#[export] Instance line_text_ok_dec ln : Decision (line_text_ok ln).
Proof. unfold line_text_ok. apply _. Defined.

(** The pad after a sequence of lines: the last complete frame. *)
Definition pad_after (q : pad) (lns : list (list Z * Z)) : pad :=
  foldl (fun q ln => default q (frame ln.1)) q lns.

Lemma process_line q ln :
  line_text_ok ln -> (length (digits ln.1) <= 14)%nat ->
  process_all (text ln) (q, line_init) = Some (default q (frame ln.1), line_init).
Proof.
  intros [Hcs Heol] Hlen. unfold text. rewrite process_all_app, <- line_of_nil.
  rewrite process_all_body by (done || constructor). simpl.
  rewrite process_char_eol by done.
  rewrite end_of_line_line by (done || apply digits_range). simpl.
  unfold frame. by case_decide.
Qed.

Lemma process_lines q lns :
  Forall line_text_ok lns ->
  Forall (fun ln => length (digits ln.1) <= 14)%nat lns ->
  process_all (mjoin (text <$> lns)) (q, line_init) = Some (pad_after q lns, line_init).
Proof.
  intros Hok Hlen. revert q. induction Hok as [|ln lns Hln _ IH]; intros q; [done|].
  apply Forall_cons_iff in Hlen as [H1 H2]. cbn [fmap list_fmap mjoin list_join].
  rewrite process_all_app, process_line by done. simpl. by rewrite IH.
Qed.
End SerialLine.

(** ** The circular buffer *)
Module SerialRing.

Definition ring_ok (r : ring) : Prop :=
  length (buffer r) = 256%nat /\ is_u8 (buffer_head r) /\ is_u8 (buffer_tail r).

(** Number of bytes between tail and head. *)
Definition count (r : ring) : nat := Z.to_nat (u8 (buffer_head r - buffer_tail r)).

(** The byte [i] places after the tail. *)
Definition slot (r : ring) (i : nat) : Z :=
  default 0 (buffer r !! Z.to_nat (u8 (buffer_tail r + Z.of_nat i))).

(** The bytes waiting in the buffer, oldest first. *)
Definition contents (r : ring) : list Z := slot r <$> seq 0 (count r).

(** [buffer[buffer_head++] = c] in the handler. *)
Definition rx_store (c : Z) (r : ring) : option ring :=
  b' ← aset (buffer r) (buffer_head r) (u8 c);
  Some (Ring b' (u8 (buffer_head r + 1)) (buffer_tail r)).

(** The test of the handler.  Both operands are promoted to [int], so the
    right one is -1 when the tail is 0. *)
Definition rx_full (r : ring) : bool := buffer_head r =? buffer_tail r - 1.

(** [c = buffer[buffer_tail]] and [buffer_tail++] of [Serial_Task]. *)
Definition ring_load (r : ring) : option Z := aget (buffer r) (buffer_tail r).
Definition ring_advance (r : ring) : ring :=
  Ring (buffer r) (buffer_head r) (u8 (buffer_tail r + 1)).

Arguments contents : simpl never.
Arguments count : simpl never.

Lemma ring_init_ok : ring_ok ring_init.
Proof. unfold ring_ok, ring_init. cbn. split; [done|word_lia]. Qed.

Lemma length_contents r : length (contents r) = count r.
Proof. unfold contents. by rewrite length_fmap, length_seq. Qed.

Lemma count_lt r : (count r < 256)%nat.
Proof. unfold count. pose proof (u8_range (buffer_head r - buffer_tail r)). word_lia. Qed.

Lemma ring_empty r : ring_ok r -> buffer_tail r = buffer_head r <-> contents r = [].
Proof.
  intros (_ & Hh & Ht). rewrite <- length_zero_iff_nil, length_contents. unfold count.
  split; [intros ->; by rewrite Z.sub_diag|]. intros H. word_lia.
Qed.

Lemma rx_store_ok c r : ring_ok r ->
  rx_store c r = Some (Ring (<[Z.to_nat (buffer_head r) := u8 c]> (buffer r))
                            (u8 (buffer_head r + 1)) (buffer_tail r)).
Proof.
  intros (Hl & Hh & Ht). unfold rx_store. by rewrite aset_Some by (rewrite Hl; word_lia).
Qed.

Lemma rx_store_pres c r r' : ring_ok r -> rx_store c r = Some r' -> ring_ok r'.
Proof.
  intros Hr. rewrite rx_store_ok by done. intros [= <-]. destruct Hr as (Hl & Hh & Ht).
  unfold ring_ok. cbn. rewrite length_insert. auto with words.
Qed.

(** Storing appends, while a byte of the buffer is left unused. *)
Lemma rx_store_contents c r r' :
  ring_ok r -> (count r < 255)%nat -> rx_store c r = Some r' ->
  contents r' = contents r ++ [u8 c].
Proof.
  intros Hr Hc. rewrite rx_store_ok by done. intros [= <-]. destruct Hr as (Hl & Hh & Ht).
  unfold contents at 1. unfold count in Hc |- * at 1. cbn [buffer_head buffer_tail].
  replace (Z.to_nat (u8 (u8 (buffer_head r + 1) - buffer_tail r))) with (S (count r))
    by (unfold count; word_lia).
  rewrite seq_S, fmap_app. f_equal.
  - unfold contents. apply list_fmap_ext. intros i x Hx%lookup_seq.
    unfold slot. cbn. rewrite list_lookup_insert_ne; [done|].
    destruct Hx as [-> Hx]. unfold count in Hx. word_lia.
  - cbn. f_equal. unfold slot. cbn.
    replace (Z.to_nat (u8 (buffer_tail r + Z.of_nat (count r)))) with (Z.to_nat (buffer_head r))
      by (unfold count; word_lia).
    by rewrite list_lookup_insert_eq by (rewrite Hl; word_lia).
Qed.

(** Storing the 256th byte makes the buffer look empty. *)
Lemma rx_store_overrun c r r' :
  ring_ok r -> count r = 255%nat -> rx_store c r = Some r' -> contents r' = [].
Proof.
  intros Hr Hc H. pose proof (rx_store_pres _ _ _ Hr H) as Hr'.
  apply ring_empty; [done|]. rewrite rx_store_ok in H by done.
  injection H as <-. destruct Hr as (Hl & Hh & Ht). unfold count in Hc. cbn. word_lia.
Qed.

(** The handler's test is right except for a tail of 0. *)
Lemma rx_full_spec r : ring_ok r ->
  rx_full r = true <-> count r = 255%nat /\ buffer_tail r <> 0.
Proof. intros (_ & Hh & Ht). unfold rx_full, count. word_lia. Qed.

Lemma ring_load_contents r c cs :
  ring_ok r -> contents r = c :: cs -> ring_load r = Some c.
Proof.
  intros (Hl & Hh & Ht) Hc. unfold ring_load.
  destruct (aget_Some (buffer r) (buffer_tail r)) as [x Hx]; [rewrite Hl; word_lia|].
  rewrite Hx. f_equal. unfold contents in Hc. destruct (count r) eqn:E; [done|].
  cbn in Hc. injection Hc as <- _. unfold slot.
  unfold aget in Hx. rewrite decide_True in Hx by word_lia.
  rewrite Z.add_0_r, u8_small by done. by rewrite Hx.
Qed.

Lemma ring_advance_pres r : ring_ok r -> ring_ok (ring_advance r).
Proof. intros (Hl & Hh & Ht). unfold ring_ok. cbn. auto with words. Qed.

Lemma ring_advance_contents r c cs :
  ring_ok r -> contents r = c :: cs -> contents (ring_advance r) = cs.
Proof.
  intros (Hl & Hh & Ht) Hc.
  assert (count r = S (length cs)) as Hn by (rewrite <- length_contents, Hc; done).
  assert (count (ring_advance r) = length cs) as Hn'.
  { unfold count in *. cbn. word_lia. }
  unfold contents in *. rewrite Hn' . rewrite Hn in Hc. cbn in Hc.
  injection Hc as _ <-. rewrite <- fmap_S_seq, <- list_fmap_compose, length_fmap, length_seq.
  apply list_fmap_ext. intros i x Hx%lookup_seq. unfold slot. cbn. do 3 f_equal. word_lia.
Qed.
End SerialRing.

(** ** The handler and the task *)

(** All objects of Joystick.c that the serial input uses. *)
Record joystick := Joystick { jpad : pad; jline : line; jring : ring }.

Definition joystick_init : joystick := Joystick pad_init line_init ring_init.

Definition set_ring (r : ring) (j : joystick) : joystick := Joystick (jpad j) (jline j) r.

Module SerialTask.
Import SerialLine SerialRing.

Section Task.
Context `{Avr}.

(** [ISR(USART1_RX_vect)]. *)
Definition USART1_RX_vect : M joystick unit :=
  j <- mget;;
  when (rx_full (jring j)) (stdout_puts [chr_X]);;;
  c <- fgetc_stdin;;
  j <- mget;;
  r' <- mlift (rx_store c (jring j));;
  mmodify (set_ring r').

(** One round of the loop of [Serial_Task], when no byte arrives meanwhile. *)
Definition Serial_Task_round (_ : unit) : M joystick (unit + unit) :=
  j <- mget;;
  if buffer_tail (jring j) =? buffer_head (jring j) then ret (inr tt)
  else
    c <- mlift (ring_load (jring j));;
    qs <- mlift (process_char c (jpad j, jline j));;
    mmodify (fun j => Joystick qs.1 qs.2 (jring j));;;
    mmodify (fun j => set_ring (ring_advance (jring j)) j);;;
    ret (inl tt).

Definition Serial_Task : M joystick unit := while_ Serial_Task_round tt.

(** The ring after the task: nothing is left between tail and head. *)
Definition drained (r : ring) : ring := Ring (buffer r) (buffer_head r) (buffer_head r).

Lemma Serial_Task_loop n p j h cs :
  ring_ok (jring j) -> contents (jring j) = cs -> (length cs < n)%nat ->
  loop n Serial_Task_round tt p (World j h) =
  match process_all cs (jpad j, jline j) with
  | Some qs => Done tt (World (Joystick qs.1 qs.2 (drained (jring j))) h)
  | None => Fault
  end.
Proof.
  revert j cs. induction n as [|n IH]; intros j cs Hr Hcs Hn; [lia|].
  cbn [loop]. unfold bind at 1, Serial_Task_round at 1, bind at 1, mget. cbn [st].
  destruct (Z.eqb_spec (buffer_tail (jring j)) (buffer_head (jring j))) as [He|Hne].
  - apply ring_empty in He as Hnil; [|done]. rewrite Hnil in Hcs. subst cs. simpl.
    destruct j as [q s [bf hd tl]]. unfold drained. cbn in *. by subst.
  - destruct cs as [|c cs].
    { exfalso. apply Hne, ring_empty; done. }
    unfold bind. rewrite (ring_load_contents _ _ _ Hr Hcs). simpl.
    destruct (process_char c (jpad j, jline j)) as [[q' s']|]; [|done]. simpl.
    rewrite (IH _ cs); [done| | |simpl in Hn; lia].
    + by apply ring_advance_pres.
    + by eapply ring_advance_contents.
Qed.

(** What the receive handler does, whatever the hardware answers: the byte
    of the data register (0xFF when the status register shows none) goes
    into the buffer, and an 'X' is sent before that when its test says the
    buffer is full. *)
Lemma wp_USART1_RX_vect p (j : joystick) h :
  ring_ok (jring j) ->
  wp True USART1_RX_vect (fun _ w' => exists c r',
    rx_store c (jring j) = Some r' /\ st w' = set_ring r' j /\
    ((u8 c = 255 /\ read_from UDR1 (hist w') = read_from UDR1 h) \/
     (is_u8 c /\ read_from UDR1 (hist w') = read_from UDR1 h ++ [c])) /\
    written UDR1 (hist w') =
      written UDR1 h ++ (if rx_full (jring j) then [chr_X] else [])) p (World j h).
Proof.
  intros Hr. unfold USART1_RX_vect. wp_steps.
  - apply wp_puts1. cbn. intros h1 Hw1 Hr1. wp_step.
    apply wp_fgetc_stdin. intros c h2 Hw2 Hr2. wp_steps. cbn in *.
    eapply wp_lift; [by apply rx_store_ok|]. wp_steps. exists c. eexists.
    rewrite rx_store_ok, H0 by done. split_and!; [done|done| |cbn; by rewrite Hw2, Hw1].
    rewrite <- Hr1. done.
  - apply wp_fgetc_stdin. intros c h2 Hw2 Hr2. wp_steps. cbn in *.
    eapply wp_lift; [by apply rx_store_ok|]. wp_steps. exists c. eexists.
    rewrite rx_store_ok, H0 by done. rewrite app_nil_r. split_and!; done.
Qed.
End Task.
End SerialTask.

(** ** The handler against the task

    Between any two accesses of [Serial_Task] to the shared objects the receive
    interrupt may run; the handler itself runs to its end. *)
Module SerialInterleaving.
Import SerialLine SerialRing.

(** Where the main program is: outside [Serial_Task], about to evaluate the
    loop condition, to read [buffer[buffer_tail]], to process [c], to
    increment [buffer_tail], or past an access outside [b]. *)
Inductive pc := Outside | Check | Load | Body (c : Z) | Inc (c : Z) | Crashed.

Record fw := Fw { at_ : pc; fj : joystick }.

(** [Rx c]: the handler stored [c]; [Took c]: [Serial_Task] has finished with
    [c]. *)
Inductive label := Rx (c : Z) | Took (c : Z) | Tau.

Inductive step : fw -> label -> fw -> Prop :=
  | step_isr at_ j c r' :
      rx_store c (jring j) = Some r' ->
      step (Fw at_ j) (Rx (u8 c)) (Fw at_ (set_ring r' j))
  | step_enter j : step (Fw Outside j) Tau (Fw Check j)
  | step_check_empty j :
      buffer_tail (jring j) = buffer_head (jring j) ->
      step (Fw Check j) Tau (Fw Outside j)
  | step_check j :
      buffer_tail (jring j) <> buffer_head (jring j) ->
      step (Fw Check j) Tau (Fw Load j)
  | step_load j c :
      ring_load (jring j) = Some c -> step (Fw Load j) Tau (Fw (Body c) j)
  | step_body j c q s :
      process_char c (jpad j, jline j) = Some (q, s) ->
      step (Fw (Body c) j) Tau (Fw (Inc c) (Joystick q s (jring j)))
  | step_crash j c :
      process_char c (jpad j, jline j) = None ->
      step (Fw (Body c) j) Tau (Fw Crashed j)
  | step_inc j c :
      step (Fw (Inc c) j) (Took c) (Fw Check (set_ring (ring_advance (jring j)) j)).

Inductive run : fw -> list label -> fw -> Prop :=
  | run_nil s : run s [] s
  | run_snoc s tr s' lb s'' : run s tr s' -> step s' lb s'' -> run s (tr ++ [lb]) s''.

(** Bytes received and bytes taken, in order. *)
Definition received (tr : list label) : list Z :=
  omap (fun lb => match lb with Rx c => Some c | _ => None end) tr.
Definition taken (tr : list label) : list Z :=
  omap (fun lb => match lb with Took c => Some c | _ => None end) tr.

(** The writer never gets 256 bytes ahead of the task. *)
Definition no_overrun (tr : list label) : Prop :=
  forall tr1 tr2, tr = tr1 ++ tr2 ->
    (length (received tr1) <= length (taken tr1) + 255)%nat.

Definition fw_init : fw := Fw Outside joystick_init.

(** The bytes whose processing shows in the pad and the line. *)
Definition processed (tr : list label) (k : pc) : list Z :=
  taken tr ++ match k with Inc c => [c] | _ => [] end.

Definition inv (tr : list label) (s : fw) : Prop :=
  let r := jring (fj s) in
  ring_ok r /\
  received tr = taken tr ++ contents r /\
  match at_ s with
  | Load => contents r <> []
  | Body c | Inc c => exists cs, contents r = c :: cs
  | _ => True
  end /\
  (at_ s <> Crashed ->
   process_all (processed tr (at_ s)) (pad_init, line_init) = Some (jpad (fj s), jline (fj s))) /\
  (at_ s = Crashed -> exists c cs, contents r = c :: cs /\
     process_all (taken tr ++ [c]) (pad_init, line_init) = None).

Lemma received_snoc tr lb :
  received (tr ++ [lb]) = received tr ++ match lb with Rx c => [c] | _ => [] end.
Proof. unfold received. rewrite omap_app. by destruct lb. Qed.
Lemma taken_snoc tr lb :
  taken (tr ++ [lb]) = taken tr ++ match lb with Took c => [c] | _ => [] end.
Proof. unfold taken. rewrite omap_app. by destruct lb. Qed.

Lemma no_overrun_prefix tr tr' : no_overrun (tr ++ tr') -> no_overrun tr.
Proof. intros H tr1 tr2 ->. apply (H tr1 (tr2 ++ tr')). by rewrite app_assoc. Qed.

Lemma inv_isr tr k j c r' :
  rx_store c (jring j) = Some r' -> no_overrun (tr ++ [Rx (u8 c)]) ->
  inv tr (Fw k j) -> inv (tr ++ [Rx (u8 c)]) (Fw k (set_ring r' j)).
Proof.
  intros Hst Hno (Hr & Hrc & Hpc & Hp & Hcr). cbn in *.
  assert (count (jring j) < 255)%nat as Hc.
  { specialize (Hno _ [] (eq_sym (app_nil_r _))).
    rewrite received_snoc, taken_snoc, Hrc, !length_app, length_contents in Hno. simpl in Hno. lia. }
  pose proof (rx_store_contents _ _ _ Hr Hc Hst) as Hct.
  unfold inv, processed. cbn. rewrite received_snoc, taken_snoc, app_nil_r, Hct, Hrc.
  split_and!; [by eapply rx_store_pres|by rewrite app_assoc| |done|].
  - destruct k; try done.
    + by destruct (contents (jring j)).
    + destruct Hpc as [cs ->]. by exists (cs ++ [u8 c]).
    + destruct Hpc as [cs ->]. by exists (cs ++ [u8 c]).
  - intros Hk. destruct (Hcr Hk) as (c' & cs & Hcs & Hn). exists c', (cs ++ [u8 c]).
    by rewrite Hcs.
Qed.

Lemma inv_step tr s lb s' :
  step s lb s' -> no_overrun (tr ++ [lb]) -> inv tr s -> inv (tr ++ [lb]) s'.
Proof.
  intros Hs Hno Hi. destruct Hs as [k j c r' Hst|j|j He|j Hne|j c Hl|j c q s Hpc|j c Hpc|j c].
  { by apply inv_isr. }
  all: destruct Hi as (Hr & Hrc & Hk & Hp & Hcr); cbn in *;
    unfold inv, processed in *; cbn; rewrite received_snoc, taken_snoc; rewrite ?app_nil_r in *;
    specialize (Hp ltac:(done)).
  - by split_and!.
  - by split_and!.
  - split_and!; try done. by intros Hn%ring_empty.
  - destruct (contents (jring j)) as [|c' cs] eqn:E; [done|].
    rewrite (ring_load_contents _ _ _ Hr E) in Hl. injection Hl as ->.
    split_and!; try done. by exists cs.
  - split_and!; try done. intros _.
    rewrite process_all_app, Hp. simpl. by rewrite Hpc.
  - split_and!; try done. intros _. destruct Hk as [cs Hcs]. exists c, cs. split; [done|].
    rewrite process_all_app, Hp. simpl. by rewrite Hpc.
  - destruct Hk as [cs Hcs]. rewrite Hrc, Hcs.
    split_and!; [by apply ring_advance_pres| |done|done|done].
    rewrite (ring_advance_contents _ _ _ Hr Hcs). by rewrite <- app_assoc.
Qed.

Lemma inv_run tr s : run fw_init tr s -> no_overrun tr -> inv tr s.
Proof.
  remember fw_init as s0 eqn:E0. induction 1 as [s|s0 tr s' lb s'' Hrun IH Hstep]; intros Hno.
  - subst. split; [apply ring_init_ok|]. by split_and!.
  - eapply inv_step; [done|done|]. apply IH; [done|]. by eapply no_overrun_prefix.
Qed.
End SerialInterleaving.

(** ** Theorems *)
Section SerialTheorems.
Import SerialLine SerialRing SerialTask SerialInterleaving.

Lemma process_lines_overlong q lns :
  Forall line_text_ok lns ->
  ~ Forall (fun ln => length (digits ln.1) <= 14)%nat lns ->
  process_all (mjoin (text <$> lns)) (q, line_init) = None.
Proof.
  intros Hok. revert q. induction Hok as [|ln lns Hln _ IH]; intros q Hlen.
  { by destruct Hlen. }
  cbn [fmap list_fmap mjoin list_join]. rewrite process_all_app.
  destruct (decide (length (digits ln.1) <= 14)%nat) as [Hle|Hgt].
  - rewrite process_line by done. simpl. apply IH. intros H. by apply Hlen; constructor.
  - unfold text. rewrite process_all_app, <- line_of_nil, process_all_overlong; [done| | | |].
    + apply Hln.
    + constructor.
    + simpl. lia.
    + simpl. lia.
Qed.

(** C3: [Serial_Task] reads a stream of terminated lines as the sequence of its
    frames.  If no line has more than fourteen hexadecimal digits, the pad
    ends up as the last line with exactly fourteen of them describes it (other
    lines and characters change nothing) and the line state is clear again; if
    some line has more, the task writes outside its seven-byte array [b]. *)
Theorem serial_lines_decode q lns :
  Forall line_text_ok lns ->
  (Forall (fun ln => length (digits ln.1) <= 14)%nat lns ->
     process_all (mjoin (text <$> lns)) (q, line_init) = Some (pad_after q lns, line_init)) /\
  (~ Forall (fun ln => length (digits ln.1) <= 14)%nat lns ->
     process_all (mjoin (text <$> lns)) (q, line_init) = None).
Proof. split; [by apply process_lines|by apply process_lines_overlong]. Qed.

(** One good frame after a comment line, and one line of fifteen digits. *)
Definition demo_lines : list (list Z * Z) :=
  [([35; 33], 13); ([48; 56; 50; 48; 48; 49; 56; 48; 56; 48; 32; 102; 102; 48; 49], 10)].

Lemma serial_lines_decode_witness :
  process_all (mjoin (text <$> demo_lines)) (pad_init, line_init) =
    Some (Pad 8193 8 128 128 255 1, line_init) /\
  process_all (mjoin (text <$> [(replicate 15 48, 10)])) (pad_init, line_init) = None.
Proof.
  split.
  - destruct (serial_lines_decode pad_init demo_lines) as [H _].
    { by apply (bool_decide_unpack _). }
    rewrite H; [done|by apply (bool_decide_unpack _)].
  - destruct (serial_lines_decode pad_init [(replicate 15 48, 10)]) as [_ H].
    { by apply (bool_decide_unpack _). }
    apply H. intros Hf. inversion Hf as [|? ? Hle]. vm_compute in Hle. lia.
Defined.

Context `{Avr}.

(** C33: [Serial_Task] terminates and empties the buffer.  On a platform that
    allows 256 rounds of a loop, a call that no interrupt disturbs processes
    exactly the waiting bytes, oldest first, and returns with the buffer empty
    (or faults where processing that byte sequence does); it touches no
    register. *)
Theorem serial_task_drains p j h :
  ring_ok (jring j) -> (256 <= fuel p)%nat ->
  Serial_Task p (World j h) =
    match process_all (contents (jring j)) (jpad j, jline j) with
    | Some qs => Done tt (World (Joystick qs.1 qs.2 (drained (jring j))) h)
    | None => Fault
    end /\
  contents (drained (jring j)) = [].
Proof.
  intros Hr Hf. split.
  - apply Serial_Task_loop; [done|done|]. rewrite length_contents.
    pose proof (count_lt (jring j)). lia.
  - destruct Hr as (Hl & Hh & Ht). apply ring_empty; [|done]. by split_and!.
Qed.

(** A waiting line feed after a full line. *)
Definition demo_joystick : joystick :=
  Joystick pad_init (Line 14 [8; 0; 1; 128; 128; 128; 128]) (Ring (10 :: replicate 255 0) 1 0).

Lemma demo_ring_ok : ring_ok (jring demo_joystick).
Proof. split; [done|]. cbn. unfold is_u8. lia. Qed.

Lemma serial_task_drains_witness :
  Serial_Task {| respond := fun _ _ => 0; fuel := 256 |} (World demo_joystick []) =
    Done tt (World (Joystick (Pad 1 8 128 128 128 128) line_init
              (Ring (10 :: replicate 255 0) 1 1)) []).
Proof.
  destruct (serial_task_drains {| respond := fun _ _ => 0; fuel := 256 |} demo_joystick []
    demo_ring_ok) as [-> _]; [|by vm_compute].
  cbn. lia.
Defined.

(** The receive handler, for every behaviour of the USART: exactly one byte
    is stored (the one read from the data register, or 0xFF when the status
    register shows none), nothing else of the firmware's state changes, and
    an 'X' goes out exactly when its full test holds. *)
Theorem rx_handler_spec p (j : joystick) h :
  ring_ok (jring j) ->
  wp True USART1_RX_vect (fun _ w' => exists c r',
    rx_store c (jring j) = Some r' /\ ring_ok r' /\ st w' = set_ring r' j /\
    ((u8 c = 255 /\ read_from UDR1 (hist w') = read_from UDR1 h) \/
     (is_u8 c /\ read_from UDR1 (hist w') = read_from UDR1 h ++ [c])) /\
    written UDR1 (hist w') =
      written UDR1 h ++ (if rx_full (jring j) then [chr_X] else [])) p (World j h).
Proof.
  intros Hr. eapply wp_mono; [by apply wp_USART1_RX_vect|].
  intros _ w' (c & r' & Hst & Hw). exists c, r'.
  split; [done|]. split; [by eapply rx_store_pres|done].
Qed.
End SerialTheorems.

(** With a byte 'a' in the data register and 255 bytes waiting behind tail 1. *)
Lemma rx_handler_spec_witness :
  let p := {| respond := fun _ r => match r with UCSR1A => 160 | UDR1 => 97 | _ => 0 end; fuel := 1 |} in
  let j := Joystick pad_init line_init (Ring (replicate 256 7) 0 1) in
  wp True (@SerialTask.USART1_RX_vect (datasheet USB_SERIES_2_AVR)) (fun _ w' => exists c r',
    SerialRing.rx_store c (jring j) = Some r' /\ SerialRing.ring_ok r' /\ st w' = set_ring r' j /\
    ((u8 c = 255 /\ read_from UDR1 (hist w') = read_from UDR1 []) \/
     (is_u8 c /\ read_from UDR1 (hist w') = read_from UDR1 [] ++ [c])) /\
    written UDR1 (hist w') = written UDR1 [] ++ [chr_X]) p (World j []) /\
  @SerialTask.USART1_RX_vect (datasheet USB_SERIES_2_AVR) p (World j []) <> NoFuel.
Proof.
  split; [|by vm_compute].
  apply (@rx_handler_spec (datasheet USB_SERIES_2_AVR)
    {| respond := fun _ r => match r with UCSR1A => 160 | UDR1 => 97 | _ => 0 end; fuel := 1 |}
    (Joystick pad_init line_init (Ring (replicate 256 7) 0 1)) []).
  split; [done|]. cbn. unfold is_u8. lia.
Defined.

Section InterleavingTheorems.
Import SerialLine SerialRing SerialInterleaving.

(** C7: the circular buffer is a queue between the interrupt handler and the
    task.  In every interleaving of the two in which the handler never gets
    256 bytes ahead, the bytes taken are a prefix of the bytes received, the
    rest is in the buffer in order, the pad and the line are what processing
    the taken bytes one by one gives, and the task accesses [b] out of bounds
    only if processing the received bytes does. *)
Theorem serial_queue_refines tr s :
  run fw_init tr s -> no_overrun tr ->
  received tr = taken tr ++ contents (jring (fj s)) /\
  (at_ s = Outside ->
     process_all (taken tr) (pad_init, line_init) = Some (jpad (fj s), jline (fj s))) /\
  (at_ s = Crashed -> process_all (received tr) (pad_init, line_init) = None).
Proof.
  intros Hrun Hno. destruct (inv_run _ _ Hrun Hno) as (Hr & Hrc & Hk & Hp & Hcr).
  split_and!; [done| |].
  - intros E. rewrite E in Hp. unfold processed in Hp. rewrite app_nil_r in Hp. by apply Hp.
  - intros E. destruct (Hcr E) as (c & cs & Hcs & Hn). rewrite Hrc, Hcs.
    change (c :: cs) with ([c] ++ cs). rewrite app_assoc, process_all_app, Hn. done.
Qed.

Lemma no_overrun_short tr : (length (received tr) <= 255)%nat -> no_overrun tr.
Proof.
  intros Hle tr1 tr2 ->. unfold received in *. rewrite omap_app, length_app in Hle.
  unfold received. lia.
Qed.

(** A byte received while the task runs. *)
Definition demo_trace : list label := [Rx 49; Tau; Tau; Tau; Rx 50; Tau; Took 49].

Lemma run_cons s lb s' tr s'' : step s lb s' -> run s' tr s'' -> run s (lb :: tr) s''.
Proof.
  intros Hst. induction 1 as [s'|s' tr s1 lb' s2 _ IH Hst'].
  - apply (run_snoc _ [] s); [constructor|done].
  - apply (run_snoc _ (lb :: tr) s1); auto.
Qed.

Lemma demo_run : exists s, run fw_init demo_trace s /\
  at_ s = Check /\ jline (fj s) = Line 1 [16; 0; 0; 0; 0; 0; 0] /\ contents (jring (fj s)) = [50].
Proof.
  eexists. split; [|split].
  - eapply run_cons; [by eapply (step_isr _ _ 49)|].
    eapply run_cons; [apply step_enter|].
    eapply run_cons; [by apply step_check|].
    eapply run_cons; [by apply step_load|].
    eapply run_cons; [by eapply (step_isr _ _ 50)|].
    eapply run_cons; [by apply step_body|].
    eapply run_cons; [apply step_inc|apply run_nil].
  - done.
  - split; [done|]. by vm_compute.
Qed.

Lemma serial_queue_refines_witness :
  exists s, run fw_init demo_trace s /\ no_overrun demo_trace /\
    received demo_trace = taken demo_trace ++ contents (jring (fj s)) /\
    contents (jring (fj s)) = [50].
Proof.
  destruct demo_run as (s & Hrun & _ & _ & Hc). exists s.
  assert (no_overrun demo_trace) as Hno by (apply no_overrun_short; vm_compute; lia).
  split; [done|]. split; [done|]. split; [|done].
  apply (serial_queue_refines demo_trace s Hrun Hno).
Defined.

(** C35: overrun.  With 255 bytes waiting, one more byte leaves the buffer
    looking empty, so all 256 are lost; the handler reports it ('X') exactly
    when [buffer_tail] is not 0, because [buffer_tail - 1] is computed in
    [int] and is -1 there.  With fewer bytes waiting, the byte is appended and
    nothing is reported. *)
Theorem rx_overrun_behaviour r c r' :
  ring_ok r -> rx_store c r = Some r' ->
  (count r = 255%nat -> contents r' = [] /\ (rx_full r = true <-> buffer_tail r <> 0)) /\
  ((count r < 255)%nat -> contents r' = contents r ++ [u8 c] /\ rx_full r = false).
Proof.
  intros Hr Hst. pose proof (rx_full_spec r Hr) as Hfull. split; intros Hc.
  - split; [by eapply rx_store_overrun|]. rewrite Hfull. intuition.
  - split; [by eapply rx_store_contents|]. apply not_true_iff_false.
    rewrite Hfull. lia.
Qed.

(** The undetected overrun: tail 0, head 255. *)
Lemma rx_overrun_behaviour_witness :
  let r := Ring (replicate 256 7) 255 0 in
  exists r', rx_store 1 r = Some r' /\ contents r' = [] /\ rx_full r = false.
Proof.
  intros r. exists (Ring (<[255%nat := 1]> (replicate 256 7)) 0 0).
  destruct (rx_overrun_behaviour r 1 (Ring (<[255%nat := 1]> (replicate 256 7)) 0 0))
    as [H _]; [split; [done|vm_compute; split; split; congruence]|done|].
  destruct (H eq_refl) as [Hc Hf]. split_and!; [done|done|done].
Defined.
End InterleavingTheorems.
