(* ===== verification/Bridge.v ===== *)
(** * The sender: bridge.py

    The program on the PC side of the serial line: it samples a game controller
    through SDL and sends one line of fourteen hexadecimal digits per sample.
    SDL is not part of the sources: the answers of [SDL_GameControllerGetButton]
    and [SDL_GameControllerGetAxis] are parameters.  The theorems connect the
    sender with the line reader of the firmware. *)

From S2P Require Import Prelude Machine Serial JoystickSerial.
Import SerialLine.

(** ** Names of SDL the tables mention *)
Inductive sdl_button :=
  | BUTTON_INVALID | BUTTON_A | BUTTON_B | BUTTON_X | BUTTON_Y | BUTTON_BACK | BUTTON_GUIDE
  | BUTTON_START | BUTTON_LEFTSTICK | BUTTON_RIGHTSTICK | BUTTON_LEFTSHOULDER
  | BUTTON_RIGHTSHOULDER | BUTTON_DPAD_UP | BUTTON_DPAD_DOWN | BUTTON_DPAD_LEFT | BUTTON_DPAD_RIGHT.

Inductive sdl_axis :=
  | AXIS_LEFTX | AXIS_LEFTY | AXIS_RIGHTX | AXIS_RIGHTY | AXIS_TRIGGERLEFT | AXIS_TRIGGERRIGHT.

(** ** Tables *)
Definition buttonmapping : list sdl_button :=
  [BUTTON_X; BUTTON_A; BUTTON_B; BUTTON_Y; BUTTON_LEFTSHOULDER; BUTTON_RIGHTSHOULDER;
   BUTTON_INVALID; BUTTON_INVALID; BUTTON_INVALID; BUTTON_START; BUTTON_LEFTSTICK;
   BUTTON_RIGHTSTICK; BUTTON_GUIDE; BUTTON_BACK].

Definition axismapping : list sdl_axis := [AXIS_LEFTX; AXIS_LEFTY; AXIS_RIGHTX; AXIS_RIGHTY].

Definition hatmapping : list sdl_button :=
  [BUTTON_DPAD_UP; BUTTON_DPAD_RIGHT; BUTTON_DPAD_DOWN; BUTTON_DPAD_LEFT].

Definition hatcodes : list Z := [8; 0; 2; 1; 4; 8; 3; 8; 6; 7; 8; 8; 5; 8; 8].

Definition axis_deadzone : Z := 10000.
Definition trigger_deadzone : Z := 0.

(** ** Encoding *)

(** [struct.pack('>BHBBBB', ...)]; [None] is [struct.error]. *)
Definition pack_BHBBBB (hat btn lx ly rx ry : Z) : option (list Z) :=
  if decide (is_u8 hat /\ is_u16 btn /\ is_u8 lx /\ is_u8 ly /\ is_u8 rx /\ is_u8 ry)
  then Some [hat; btn / 256; btn mod 256; lx; ly; rx; ry] else None.

(** [binascii.hexlify]: two lower-case digits per byte. *)
Definition hexchar (d : Z) : Z := if d <? 10 then 48 + d else 87 + d.
Definition hexlify (bs : list Z) : list Z := mjoin ((fun x => [hexchar (x / 16); hexchar (x mod 16)]) <$> bs).

(** [sum([x << n for n, x in enumerate(xs)])]. *)
Definition bitsum (xs : list Z) : Z :=
  foldr Z.add 0 (imap (fun n x => Z.shiftl x (Z.of_nat n)) xs).

Section Controller.
Variable get_button : sdl_button -> Z.
Variable get_axis : sdl_axis -> Z.

(** One turn of the loop of [controller_states]: the line it yields, or
    [None] when it raises (an index outside [hatcodes], a value outside the
    range [struct.pack] accepts). *)
Definition sample_buttons : Z :=
  let buttons := bitsum (get_button <$> buttonmapping) in
  let buttons := Z.lor buttons
    (Z.shiftl (Z.b2z (trigger_deadzone <? Z.abs (get_axis AXIS_TRIGGERLEFT))) 6) in
  Z.lor buttons
    (Z.shiftl (Z.b2z (trigger_deadzone <? Z.abs (get_axis AXIS_TRIGGERRIGHT))) 7).

Definition sample_hat : option Z := aget hatcodes (bitsum (get_button <$> hatmapping)).

Definition sample_axis (n : sdl_axis) : Z :=
  let x := get_axis n in
  Z.shiftr (if Z.abs x <? axis_deadzone then 0 else x) 8 + 128.

Definition controller_state : option (list Z) :=
  hat ← sample_hat;
  rawbytes ← pack_BHBBBB hat sample_buttons (sample_axis AXIS_LEFTX) (sample_axis AXIS_LEFTY)
               (sample_axis AXIS_RIGHTX) (sample_axis AXIS_RIGHTY);
  Some (hexlify rawbytes ++ [chr_LF]).
End Controller.

(** ** Hexadecimal text *)

Lemma hexdigit_hexchar d : 0 <= d < 16 -> hexdigit (hexchar d) = Some d.
Proof.
  intros Hd. unfold hexdigit, hexchar. destruct (Z.ltb_spec d 10).
  - rewrite decide_True by lia. f_equal. lia.
  - rewrite decide_False, decide_True by lia. f_equal. lia.
Qed.

Lemma hexchar_not_eol d : 0 <= d < 16 -> ~ is_eol (hexchar d).
Proof. intros Hd. unfold is_eol, hexchar, chr_CR, chr_LF. destruct (Z.ltb_spec d 10); lia. Qed.

Definition nibbles (bs : list Z) : list Z := mjoin ((fun x => [x / 16; x mod 16]) <$> bs).

Lemma hexlify_cons x bs :
  hexlify (x :: bs) = hexchar (x / 16) :: hexchar (x mod 16) :: hexlify bs.
Proof. done. Qed.
Lemma nibbles_cons x bs : nibbles (x :: bs) = x / 16 :: x mod 16 :: nibbles bs.
Proof. done. Qed.

Lemma digits_hexlify bs : Forall is_u8 bs -> digits (hexlify bs) = nibbles bs.
Proof.
  induction 1 as [|x bs Hx _ IH]; [done|]. rewrite hexlify_cons, nibbles_cons.
  rewrite !digits_cons, !hexdigit_hexchar by word_lia. by rewrite IH.
Qed.

Lemma hexlify_not_eol bs : Forall is_u8 bs -> Forall (fun c => ~ is_eol c) (hexlify bs).
Proof.
  induction 1 as [|x bs Hx _ IH]; [constructor|]. rewrite hexlify_cons.
  repeat constructor; [| |done]; apply hexchar_not_eol; word_lia.
Qed.

(** A packed sample, as the firmware reads it. *)
Lemma frame_packed hat btn lx ly rx ry bs :
  pack_BHBBBB hat btn lx ly rx ry = Some bs ->
  frame (hexlify bs) = Some (Pad btn hat lx ly rx ry) /\ Forall is_u8 bs /\ length bs = 7%nat.
Proof.
  unfold pack_BHBBBB. case_decide as Hr; [|done]. intros [= <-].
  assert (Forall is_u8 [hat; btn / 256; btn mod 256; lx; ly; rx; ry]) as Hok.
  { repeat constructor; word_lia. }
  split; [|done]. unfold frame. rewrite digits_hexlify by done. cbn [fmap list_fmap mjoin].
  rewrite decide_True by done. f_equal. unfold pad_of, dbyte, dnth. cbn -[Z.div Z.modulo Z.mul].
  f_equal; word_lia.
Qed.

Lemma message_text hat btn lx ly rx ry bs q :
  pack_BHBBBB hat btn lx ly rx ry = Some bs ->
  process_all (hexlify bs ++ [chr_LF]) (q, line_init) = Some (Pad btn hat lx ly rx ry, line_init).
Proof.
  intros Hp. destruct (frame_packed _ _ _ _ _ _ _ Hp) as (Hf & Hok & Hlen).
  pose proof (process_line q (hexlify bs, chr_LF)) as H. unfold text in H. simpl in H.
  rewrite H, Hf; [done| |].
  - split; [by apply hexlify_not_eol|by right].
  - unfold frame in Hf. case_decide as Hd; [|done]. lia.
Qed.

(** ** Sums of bits *)

Definition is_bit (x : Z) : Prop := x = 0 \/ x = 1.

Lemma bitsum_shift xs (k : nat) :
  foldr Z.add 0 (imap (fun n x => Z.shiftl x (Z.of_nat (k + n))) xs) = 2 ^ Z.of_nat k * bitsum xs.
Proof.
  unfold bitsum. revert k. induction xs as [|x xs IH]; intros k; [simpl; lia|].
  cbn [imap foldr]. rewrite Nat.add_0_r, Z.shiftl_0_r.
  rewrite (imap_ext _ (fun n y => Z.shiftl y (Z.of_nat (S k + n))))
    by (intros; cbn; do 2 f_equal; lia).
  rewrite IH. rewrite (imap_ext (_ ∘ S) (fun n y => Z.shiftl y (Z.of_nat (1 + n)))) by done.
  rewrite (IH 1%nat). rewrite Z.shiftl_mul_pow2 by lia.
  rewrite Nat2Z.inj_succ, Z.pow_succ_r by lia. lia.
Qed.

Lemma bitsum_cons x xs : bitsum (x :: xs) = x + 2 * bitsum xs.
Proof.
  unfold bitsum at 1. cbn [imap foldr]. rewrite Z.shiftl_0_r.
  rewrite (imap_ext (_ ∘ S) (fun n y => Z.shiftl y (Z.of_nat (1 + n)))) by done.
  by rewrite (bitsum_shift xs 1).
Qed.

Lemma bitsum_testbit xs (i : nat) :
  Forall is_bit xs -> Z.testbit (bitsum xs) (Z.of_nat i) = bool_decide (xs !! i = Some 1).
Proof.
  intros Hx. revert i. induction Hx as [|x xs Hx _ IH]; intros i.
  { unfold bitsum. simpl. rewrite Z.bits_0. by destruct i. }
  rewrite bitsum_cons. destruct i as [|i]; cbn [lookup list_lookup].
  - change (Z.of_nat 0) with 0. destruct Hx as [-> | ->].
    + by rewrite Z.add_0_l, Z.testbit_even_0.
    + by rewrite Z.add_comm, Z.testbit_odd_0.
  - rewrite Nat2Z.inj_succ. destruct Hx as [-> | ->].
    + rewrite Z.add_0_l, Z.testbit_even_succ by lia. apply IH.
    + rewrite Z.add_comm, Z.testbit_odd_succ by lia. apply IH.
Qed.

Lemma bitsum_range xs : Forall is_bit xs -> 0 <= bitsum xs < 2 ^ Z.of_nat (length xs).
Proof.
  induction 1 as [|x xs Hx _ IH]; [done|]. rewrite bitsum_cons. simpl length.
  rewrite Nat2Z.inj_succ, Z.pow_succ_r by lia. destruct Hx as [-> | ->]; lia.
Qed.

(** ** The sender against the reader *)

(** Joystick.h: the values of the hat. *)
Definition HAT_TOP : Z := 0.
Definition HAT_TOP_RIGHT : Z := 1.
Definition HAT_RIGHT : Z := 2.
Definition HAT_BOTTOM_RIGHT : Z := 3.
Definition HAT_BOTTOM : Z := 4.
Definition HAT_BOTTOM_LEFT : Z := 5.
Definition HAT_LEFT : Z := 6.
Definition HAT_TOP_LEFT : Z := 7.
Definition HAT_CENTER : Z := 8.
Definition STICK_MIN : Z := 0.
Definition STICK_CENTER : Z := 128.
Definition STICK_MAX : Z := 255.

(** The direction four buttons stand for; contradictory ones are neutral. *)
Definition hat_of (up right down left : bool) : Z :=
  match up, right, down, left with
  | true, false, false, false => HAT_TOP
  | true, true, false, false => HAT_TOP_RIGHT
  | false, true, false, false => HAT_RIGHT
  | false, true, true, false => HAT_BOTTOM_RIGHT
  | false, false, true, false => HAT_BOTTOM
  | false, false, true, true => HAT_BOTTOM_LEFT
  | false, false, false, true => HAT_LEFT
  | true, false, false, true => HAT_TOP_LEFT
  | _, _, _, _ => HAT_CENTER
  end.

Section BridgeTheorems.
Variable get_button : sdl_button -> Z.
Variable get_axis : sdl_axis -> Z.
Hypothesis get_button_bit : forall x, is_bit (get_button x).
Hypothesis get_axis_int16 : forall x, -32768 <= get_axis x <= 32767.

Local Abbreviation pressed x := (get_button x =? 1).
Local Abbreviation pulled x := (0 <? Z.abs (get_axis x)).
Local Abbreviation all_dpad :=
  (pressed BUTTON_DPAD_UP && pressed BUTTON_DPAD_RIGHT &&
   pressed BUTTON_DPAD_DOWN && pressed BUTTON_DPAD_LEFT).

Lemma buttons_bits xs : Forall is_bit (get_button <$> xs).
Proof. induction xs; constructor; auto. Qed.

Lemma sample_hat_spec :
  sample_hat get_button =
    if all_dpad then None
    else Some (hat_of (pressed BUTTON_DPAD_UP) (pressed BUTTON_DPAD_RIGHT)
                      (pressed BUTTON_DPAD_DOWN) (pressed BUTTON_DPAD_LEFT)).
Proof.
  unfold sample_hat, hatmapping. cbn [fmap list_fmap].
  destruct (get_button_bit BUTTON_DPAD_UP) as [-> | ->],
    (get_button_bit BUTTON_DPAD_RIGHT) as [-> | ->],
    (get_button_bit BUTTON_DPAD_DOWN) as [-> | ->],
    (get_button_bit BUTTON_DPAD_LEFT) as [-> | ->]; reflexivity.
Qed.

Lemma sample_axis_range n : is_u8 (sample_axis get_axis n).
Proof.
  unfold sample_axis, axis_deadzone. pose proof (get_axis_int16 n).
  rewrite Z.shiftr_div_pow2 by done. destruct (Z.ltb_spec (Z.abs (get_axis n)) 10000);
    change (2 ^ 8) with 256; word_lia.
Qed.

Lemma sample_buttons_testbit (n : nat) :
  Z.testbit (sample_buttons get_button get_axis) (Z.of_nat n) =
    bool_decide ((get_button <$> buttonmapping) !! n = Some 1) ||
    (n =? 6)%nat && pulled AXIS_TRIGGERLEFT ||
    (n =? 7)%nat && pulled AXIS_TRIGGERRIGHT.
Proof.
  unfold sample_buttons, trigger_deadzone. rewrite !Z.lor_spec.
  rewrite bitsum_testbit by apply buttons_bits.
  rewrite !Z.shiftl_spec by lia. f_equal; [f_equal|].
  - destruct (Nat.eqb_spec n 6) as [->|Hn].
    + by destruct (0 <? _).
    + destruct (0 <? _); cbn [Z.b2z andb]; [|apply Z.bits_0].
      destruct (decide (n < 6)%nat); [apply Z.testbit_neg_r; lia|].
      apply Z.bits_above_log2; [done|]. cbn. lia.
  - destruct (Nat.eqb_spec n 7) as [->|Hn].
    + by destruct (0 <? _).
    + destruct (0 <? _); cbn [Z.b2z andb]; [|apply Z.bits_0].
      destruct (decide (n < 7)%nat); [apply Z.testbit_neg_r; lia|].
      apply Z.bits_above_log2; [done|]. cbn. lia.
Qed.

Lemma lor_lt_pow2 a c n : 0 <= n -> 0 <= a < 2 ^ n -> 0 <= c < 2 ^ n -> 0 <= Z.lor a c < 2 ^ n.
Proof.
  intros Hn Ha Hc. split; [apply Z.lor_nonneg; lia|].
  destruct (Z.eqb_spec (Z.lor a c) 0) as [->|Hne]; [lia|].
  assert (0 <= Z.lor a c) by (apply Z.lor_nonneg; lia).
  apply Z.log2_lt_pow2; [lia|]. rewrite Z.log2_lor by lia.
  assert (forall z, 0 <= z < 2 ^ n -> z = 0 \/ Z.log2 z < n) as E.
  { intros z Hz. destruct (Z.eqb_spec z 0) as [|Hz0]; [by left|right].
    apply Z.log2_lt_pow2; lia. }
  assert (0 < n).
  { destruct (Z.eqb_spec n 0) as [->|]; [|lia]. assert (a = 0) by lia. assert (c = 0) by lia. subst.
    done. }
  destruct (E a Ha) as [-> |], (E c Hc) as [-> |]; change (Z.log2 0) with 0; lia.
Qed.

Lemma sample_buttons_range : is_u16 (sample_buttons get_button get_axis).
Proof.
  unfold sample_buttons, is_u16. change 65536 with (2 ^ 16).
  assert (forall x : bool, forall k, 0 <= k < 15 -> 0 <= Z.shiftl (Z.b2z x) k < 2 ^ 16) as E.
  { intros x k Hk. rewrite Z.shiftl_mul_pow2 by lia.
    assert (2 ^ k < 2 ^ 16) by (apply Z.pow_lt_mono_r; lia).
    assert (0 < 2 ^ k) by (apply Z.pow_pos_nonneg; lia). destruct x; cbn [Z.b2z]; lia. }
  apply lor_lt_pow2; [done| |apply E; lia]. apply lor_lt_pow2; [done| |apply E; lia].
  pose proof (bitsum_range _ (buttons_bits buttonmapping)) as H.
  change (Z.of_nat (length (get_button <$> buttonmapping))) with 14 in H.
  change (2 ^ 14) with 16384 in H. change (2 ^ 16) with 65536. lia.
Qed.

(** What the sampled controller should become on the console's side. *)
Definition sampled_pad : pad :=
  Pad (sample_buttons get_button get_axis)
      (hat_of (pressed BUTTON_DPAD_UP) (pressed BUTTON_DPAD_RIGHT)
              (pressed BUTTON_DPAD_DOWN) (pressed BUTTON_DPAD_LEFT))
      (sample_axis get_axis AXIS_LEFTX) (sample_axis get_axis AXIS_LEFTY)
      (sample_axis get_axis AXIS_RIGHTX) (sample_axis get_axis AXIS_RIGHTY).

Lemma hat_of_range u r d lf : is_u8 (hat_of u r d lf).
Proof. destruct u, r, d, lf; vm_compute; split; congruence. Qed.

Lemma sampled_pad_ok : pad_ok sampled_pad.
Proof.
  unfold pad_ok. cbn.
  split_and!; auto using hat_of_range, sample_buttons_range, sample_axis_range.
Qed.

Lemma controller_state_spec :
  if all_dpad then controller_state get_button get_axis = None
  else exists ln, controller_state get_button get_axis = Some ln /\ length ln = 15%nat /\
    forall q, process_all ln (q, line_init) = Some (sampled_pad, line_init).
Proof.
  unfold controller_state. rewrite sample_hat_spec. destruct all_dpad; [done|]. cbn [mbind option_bind].
  assert (is_Some (pack_BHBBBB
    (hat_of (pressed BUTTON_DPAD_UP) (pressed BUTTON_DPAD_RIGHT) (pressed BUTTON_DPAD_DOWN)
       (pressed BUTTON_DPAD_LEFT)) (sample_buttons get_button get_axis)
    (sample_axis get_axis AXIS_LEFTX) (sample_axis get_axis AXIS_LEFTY)
    (sample_axis get_axis AXIS_RIGHTX) (sample_axis get_axis AXIS_RIGHTY))) as [bs Hbs].
  { unfold pack_BHBBBB. rewrite decide_True; [done|].
    split_and!; auto using hat_of_range, sample_buttons_range, sample_axis_range. }
  rewrite Hbs. cbn [mbind option_bind]. eexists. split; [done|]. split.
  - destruct (frame_packed _ _ _ _ _ _ _ Hbs) as (_ & _ & Hl).
    do 8 (destruct bs as [|? bs]; try done).
  - intros q. by apply message_text.
Qed.

(** C6: what the PC samples is what the firmware reads.  For every state of the
    game controller ([SDL] answering 0 or 1 for buttons and 16-bit axes), the
    line [controller_states] sends makes [Serial_Task] set the pad to the
    sampled buttons, bit by bit, the hat direction of Joystick.h, and the four
    axes; [None] (an exception) is possible only when all four directions of
    the directional pad are pressed at once. *)
Theorem bridge_line_roundtrip :
  (all_dpad = true <-> controller_state get_button get_axis = None) /\
  (forall ln q, controller_state get_button get_axis = Some ln ->
     process_all ln (q, line_init) = Some (sampled_pad, line_init)) /\
  pad_ok sampled_pad /\
  (forall (n : nat) x, buttonmapping !! n = Some x -> n <> 6%nat -> n <> 7%nat ->
     Z.testbit (buttons sampled_pad) (Z.of_nat n) = pressed x) /\
  (forall a, sample_axis get_axis a = STICK_CENTER \/ axis_deadzone <= Z.abs (get_axis a)).
Proof.
  pose proof controller_state_spec as H. split_and!.
  - destruct all_dpad; [done|]. destruct H as (ln & -> & _). done.
  - intros ln q Hln. destruct all_dpad; [congruence|].
    destruct H as (ln' & Heq & _ & Hp). rewrite Heq in Hln. injection Hln as <-. apply Hp.
  - apply sampled_pad_ok.
  - intros n x Hx H6 H7. cbn [buttons sampled_pad].
    rewrite sample_buttons_testbit, list_lookup_fmap, Hx. cbn.
    rewrite (proj2 (Nat.eqb_neq n 6) H6), (proj2 (Nat.eqb_neq n 7) H7), !orb_false_r.
    destruct (get_button_bit x) as [-> | ->]; done.
  - intros a. unfold sample_axis. destruct (Z.ltb_spec (Z.abs (get_axis a)) axis_deadzone); auto.
Qed.
End BridgeTheorems.

(** A controller with B, the left trigger and up/right pressed, the left stick
    pushed to the right. *)
Definition demo_button (x : sdl_button) : Z :=
  match x with BUTTON_A | BUTTON_DPAD_UP | BUTTON_DPAD_RIGHT => 1 | _ => 0 end.
Definition demo_axis (x : sdl_axis) : Z :=
  match x with AXIS_LEFTX => 32767 | AXIS_TRIGGERLEFT => 12000 | AXIS_RIGHTY => -9999 | _ => 0 end.

Lemma bridge_line_roundtrip_witness :
  controller_state demo_button demo_axis =
    Some [48; 49; 48; 48; 52; 50; 102; 102; 56; 48; 56; 48; 56; 48; 10] /\
  process_all [48; 49; 48; 48; 52; 50; 102; 102; 56; 48; 56; 48; 56; 48; 10] (pad_init, line_init) =
    Some (Pad 66 1 255 128 128 128, line_init).
Proof.
  split; [by vm_compute|].
  refine (proj1 (proj2 (bridge_line_roundtrip demo_button demo_axis _ _)) _ pad_init _).
  - intros []; (left; reflexivity) || (right; reflexivity).
  - intros []; cbn; lia.
  - by vm_compute.
Defined.
