(* ===== verification/StdDescriptors.v ===== *)
(** * Standard descriptors (LUFA/Drivers/USB/Core/StdDescriptors.h)

    The descriptor structures of the USB stack, their layout in memory (the
    structures are packed and the scalars little endian) and the constants and
    macros that fill them in.  Class [Packed] is what the rest of the library
    relies on: storing a structure and casting the bytes back are inverse. *)

From S2P Require Import Prelude.

(** ** Packed structures *)

(** A scalar of [n] bytes, low byte first. *)
Fixpoint le_bytes (n : nat) (v : Z) : list Z :=
  match n with
  | O => []
  | S n' => u8 v :: le_bytes n' (v / 256)
  end.

Fixpoint of_le_bytes (bs : list Z) : Z :=
  match bs with
  | [] => 0
  | b :: bs' => b + 256 * of_le_bytes bs'
  end.

Lemma le_bytes_length n v : length (le_bytes n v) = n.
Proof. revert v. induction n as [|n IH]; intros v; simpl; [done|]. by rewrite IH. Qed.

Lemma le_bytes_u8 n v : Forall is_u8 (le_bytes n v).
Proof. revert v. induction n as [|n IH]; intros v; simpl; constructor; [apply u8_range|apply IH]. Qed.

Lemma of_le_bytes_le n v : 0 <= v < 256 ^ Z.of_nat n -> of_le_bytes (le_bytes n v) = v.
Proof.
  revert v. induction n as [|n IH]; intros v Hv; simpl.
  - lia.
  - rewrite Nat2Z.inj_succ, Z.pow_succ_r in Hv by lia.
    rewrite IH.
    + unfold u8. pose proof (Z.div_mod v 256). lia.
    + split; [apply Z.div_pos; lia|]. apply Z.div_lt_upper_bound; lia.
Qed.

Lemma le_bytes_of_le bs : Forall is_u8 bs -> le_bytes (length bs) (of_le_bytes bs) = bs.
Proof.
  induction 1 as [|b bs Hb _ IH]; simpl; [done|].
  assert (u8 (b + 256 * of_le_bytes bs) = b) as -> by word_lia.
  assert ((b + 256 * of_le_bytes bs) / 256 = of_le_bytes bs) as -> by word_lia.
  by rewrite IH.
Qed.

Lemma of_le_bytes_range bs :
  Forall is_u8 bs -> 0 <= of_le_bytes bs < 256 ^ Z.of_nat (length bs).
Proof.
  induction 1 as [|b bs Hb _ IH]; cbn [of_le_bytes length]; [lia|].
  rewrite Nat2Z.inj_succ, Z.pow_succ_r by lia. unfold is_u8 in Hb. lia.
Qed.

(** Scalars stored one after the other; [ws] are their sizes in bytes. *)
Fixpoint encode (ws : list nat) (vs : list Z) : list Z :=
  match ws, vs with
  | w :: ws', v :: vs' => le_bytes w v ++ encode ws' vs'
  | _, _ => []
  end.

Fixpoint decode (ws : list nat) (bs : list Z) : list Z :=
  match ws with
  | [] => []
  | w :: ws' => of_le_bytes (take w bs) :: decode ws' (drop w bs)
  end.

Definition fits (w : nat) (v : Z) : Prop := 0 <= v < 256 ^ Z.of_nat w.

#[export] Instance fits_dec w v : Decision (fits w v).
Proof. unfold fits. apply _. Defined.

Lemma encode_length ws vs : length vs = length ws -> length (encode ws vs) = sum_list ws.
Proof.
  revert vs. induction ws as [|w ws IH]; intros [|v vs]; try done.
  intros [= H]. simpl. rewrite length_app, le_bytes_length, IH; [|done]. done.
Qed.

Lemma decode_length ws bs : length (decode ws bs) = length ws.
Proof. revert bs. induction ws as [|w ws IH]; intros bs; simpl; [done|]. by rewrite IH. Qed.

Lemma decode_encode ws vs rest :
  Forall2 fits ws vs -> decode ws (encode ws vs ++ rest) = vs.
Proof.
  induction 1 as [|w v ws vs Hv _ IH]; simpl; [done|].
  rewrite <- app_assoc, take_app_length', drop_app_length' by by rewrite le_bytes_length.
  by rewrite of_le_bytes_le, IH.
Qed.

Lemma encode_decode ws bs :
  Forall is_u8 bs -> (sum_list ws <= length bs)%nat ->
  encode ws (decode ws bs) = take (sum_list ws) bs /\ Forall2 fits ws (decode ws bs).
Proof.
  revert bs. induction ws as [|w ws IH]; intros bs Hb Hl; cbn [encode decode sum_list] in *.
  { by rewrite take_0. }
  change (sum_list_with id ws) with (sum_list ws) in *.
  assert (length (take w bs) = w) as Hw by (rewrite length_take; simpl in Hl; lia).
  assert (Forall is_u8 (take w bs)) as Ht by by apply Forall_take.
  destruct (IH (drop w bs)) as [H1 H2].
  - by apply Forall_drop.
  - rewrite length_drop. simpl in Hl. lia.
  - split.
    + rewrite H1. rewrite <- Hw at 1. rewrite le_bytes_of_le by done.
      simpl. by rewrite take_take_drop.
    + constructor; [|done]. pose proof (of_le_bytes_range _ Ht) as Hr.
      by rewrite Hw in Hr.
Qed.

(** A packed structure: the sizes of its scalars and their values. *)
Class Packed (A : Type) := {
  widths : list nat;
  fields : A -> list Z;
  of_fields : list Z -> option A
}.
Class PackedOk (A : Type) `{Packed A} : Prop := {
  fields_length a : length (fields a) = length widths;
  of_fields_fields a : of_fields (fields a) = Some a;
  of_fields_total vs : length vs = length widths ->
    exists a, of_fields vs = Some a /\ fields a = vs
}.

Section Pack.
Context {A : Type} `{PackedOk A}.

Definition sizeof : Z := Z.of_nat (sum_list widths).
(** The bytes of the object. *)
Definition pack (a : A) : list Z := encode widths (fields a).
(** The object a pointer cast finds at the start of [bs]; [None] when the
    memory is too short. *)
Definition unpack (bs : list Z) : option A :=
  if decide (sum_list widths <= length bs)%nat then of_fields (decode widths bs) else None.
Definition in_range (a : A) : Prop := Forall2 fits widths (fields a).

Lemma pack_length a : length (pack a) = sum_list widths.
Proof. apply encode_length, fields_length. Qed.

Lemma unpack_pack a rest : in_range a -> unpack (pack a ++ rest) = Some a.
Proof.
  intros Ha. unfold unpack. rewrite decide_True.
  - unfold pack. rewrite decode_encode by done. apply of_fields_fields.
  - rewrite length_app, pack_length. lia.
Qed.

Lemma pack_unpack bs :
  Forall is_u8 bs -> (sum_list widths <= length bs)%nat ->
  exists a, unpack bs = Some a /\ pack a = take (sum_list widths) bs /\ in_range a.
Proof.
  intros Hb Hl. destruct (encode_decode _ _ Hb Hl) as [He Hf].
  destruct (of_fields_total (decode widths bs)) as (a & Ha & Hv).
  - apply decode_length.
  - exists a. unfold unpack, pack, in_range. rewrite decide_True, Hv by done. done.
Qed.

Lemma unpack_short bs : (length bs < sum_list widths)%nat -> unpack bs = None.
Proof. intros Hl. unfold unpack. by rewrite decide_False by lia. Qed.
End Pack.
Arguments sizeof A {_}.

Lemma pack_u8 {A} `{Packed A} (a : A) : Forall is_u8 (pack a).
Proof.
  unfold pack. generalize (fields a). induction widths as [|n ws IH]; intros [|v vs]; cbn [encode]; [done..|].
  apply Forall_app. split; [apply le_bytes_u8|apply IH].
Qed.

#[export] Instance in_range_dec {A} `{Packed A} (a : A) : Decision (in_range a).
Proof. unfold in_range. apply _. Defined.

Ltac packed_ok :=
  split;
  [ done
  | intros a; destruct a; repeat match goal with h : _ |- _ => destruct h; [] end; done
  | intros vs Hvs; cbn in Hvs;
    repeat (destruct vs as [|? vs]; try discriminate Hvs); [];
    eexists; split; reflexivity ].

(** ** Descriptor structures *)

(** Each structure is declared twice in the header, with LUFA's field names and
    with the names of the USB specification. *)
Record USB_Descriptor_Header_t := {
  Header_Size : Z;
  Header_Type : Z
}.

#[export] Instance USB_Descriptor_Header_t_packed : Packed USB_Descriptor_Header_t := {|
  widths := [1; 1]%nat;
  fields d := [Header_Size d; Header_Type d];
  of_fields vs := match vs with [v0; v1] => Some {|
      Header_Size := v0; Header_Type := v1 |} | _ => None end
|}.
#[export] Instance USB_Descriptor_Header_t_packed_ok : PackedOk USB_Descriptor_Header_t.
Proof. packed_ok. Qed.

Record USB_StdDescriptor_Header_t := {
  StdHeader_bLength : Z;
  StdHeader_bDescriptorType : Z
}.

#[export] Instance USB_StdDescriptor_Header_t_packed : Packed USB_StdDescriptor_Header_t := {|
  widths := [1; 1]%nat;
  fields d := [StdHeader_bLength d; StdHeader_bDescriptorType d];
  of_fields vs := match vs with [v0; v1] => Some {|
      StdHeader_bLength := v0; StdHeader_bDescriptorType := v1 |} | _ => None end
|}.
#[export] Instance USB_StdDescriptor_Header_t_packed_ok : PackedOk USB_StdDescriptor_Header_t.
Proof. packed_ok. Qed.

Record USB_Descriptor_Device_t := {
  Device_Header : USB_Descriptor_Header_t;
  Device_USBSpecification : Z;
  Device_Class : Z;
  Device_SubClass : Z;
  Device_Protocol : Z;
  Device_Endpoint0Size : Z;
  Device_VendorID : Z;
  Device_ProductID : Z;
  Device_ReleaseNumber : Z;
  Device_ManufacturerStrIndex : Z;
  Device_ProductStrIndex : Z;
  Device_SerialNumStrIndex : Z;
  Device_NumberOfConfigurations : Z
}.

#[export] Instance USB_Descriptor_Device_t_packed : Packed USB_Descriptor_Device_t := {|
  widths := [1; 1; 2; 1; 1; 1; 1; 2; 2; 2; 1; 1; 1; 1]%nat;
  fields d := [Header_Size (Device_Header d); Header_Type (Device_Header d);
             Device_USBSpecification d; Device_Class d; Device_SubClass d;
             Device_Protocol d; Device_Endpoint0Size d; Device_VendorID d;
             Device_ProductID d; Device_ReleaseNumber d; Device_ManufacturerStrIndex d;
             Device_ProductStrIndex d; Device_SerialNumStrIndex d;
             Device_NumberOfConfigurations d];
  of_fields vs := match vs with [a; b; v0; v1; v2; v3; v4; v5; v6; v7; v8; v9; v10;
    v11] => Some {|
      Device_Header := {| Header_Size := a; Header_Type := b |};
      Device_USBSpecification := v0; Device_Class := v1; Device_SubClass := v2;
      Device_Protocol := v3; Device_Endpoint0Size := v4; Device_VendorID := v5;
      Device_ProductID := v6; Device_ReleaseNumber := v7; Device_ManufacturerStrIndex := v8;
      Device_ProductStrIndex := v9; Device_SerialNumStrIndex := v10;
      Device_NumberOfConfigurations := v11 |} | _ => None end
|}.
#[export] Instance USB_Descriptor_Device_t_packed_ok : PackedOk USB_Descriptor_Device_t.
Proof. packed_ok. Qed.

Record USB_StdDescriptor_Device_t := {
  StdDevice_bLength : Z;
  StdDevice_bDescriptorType : Z;
  StdDevice_bcdUSB : Z;
  StdDevice_bDeviceClass : Z;
  StdDevice_bDeviceSubClass : Z;
  StdDevice_bDeviceProtocol : Z;
  StdDevice_bMaxPacketSize0 : Z;
  StdDevice_idVendor : Z;
  StdDevice_idProduct : Z;
  StdDevice_bcdDevice : Z;
  StdDevice_iManufacturer : Z;
  StdDevice_iProduct : Z;
  StdDevice_iSerialNumber : Z;
  StdDevice_bNumConfigurations : Z
}.

#[export] Instance USB_StdDescriptor_Device_t_packed : Packed USB_StdDescriptor_Device_t := {|
  widths := [1; 1; 2; 1; 1; 1; 1; 2; 2; 2; 1; 1; 1; 1]%nat;
  fields d := [StdDevice_bLength d; StdDevice_bDescriptorType d; StdDevice_bcdUSB d;
             StdDevice_bDeviceClass d; StdDevice_bDeviceSubClass d;
             StdDevice_bDeviceProtocol d; StdDevice_bMaxPacketSize0 d; StdDevice_idVendor d;
             StdDevice_idProduct d; StdDevice_bcdDevice d; StdDevice_iManufacturer d;
             StdDevice_iProduct d; StdDevice_iSerialNumber d;
             StdDevice_bNumConfigurations d];
  of_fields vs := match vs with [v0; v1; v2; v3; v4; v5; v6; v7; v8; v9; v10; v11; v12;
    v13] => Some {|
      StdDevice_bLength := v0; StdDevice_bDescriptorType := v1; StdDevice_bcdUSB := v2;
      StdDevice_bDeviceClass := v3; StdDevice_bDeviceSubClass := v4;
      StdDevice_bDeviceProtocol := v5; StdDevice_bMaxPacketSize0 := v6;
      StdDevice_idVendor := v7; StdDevice_idProduct := v8; StdDevice_bcdDevice := v9;
      StdDevice_iManufacturer := v10; StdDevice_iProduct := v11;
      StdDevice_iSerialNumber := v12; StdDevice_bNumConfigurations := v13 |} | _ => None end
|}.
#[export] Instance USB_StdDescriptor_Device_t_packed_ok : PackedOk USB_StdDescriptor_Device_t.
Proof. packed_ok. Qed.

Record USB_Descriptor_DeviceQualifier_t := {
  Qualifier_Header : USB_Descriptor_Header_t;
  Qualifier_USBSpecification : Z;
  Qualifier_Class : Z;
  Qualifier_SubClass : Z;
  Qualifier_Protocol : Z;
  Qualifier_Endpoint0Size : Z;
  Qualifier_NumberOfConfigurations : Z;
  Qualifier_Reserved : Z
}.

#[export] Instance USB_Descriptor_DeviceQualifier_t_packed : Packed USB_Descriptor_DeviceQualifier_t := {|
  widths := [1; 1; 2; 1; 1; 1; 1; 1; 1]%nat;
  fields d := [Header_Size (Qualifier_Header d); Header_Type (Qualifier_Header d);
             Qualifier_USBSpecification d; Qualifier_Class d; Qualifier_SubClass d;
             Qualifier_Protocol d; Qualifier_Endpoint0Size d;
             Qualifier_NumberOfConfigurations d; Qualifier_Reserved d];
  of_fields vs := match vs with [a; b; v0; v1; v2; v3; v4; v5; v6] => Some {|
      Qualifier_Header := {| Header_Size := a; Header_Type := b |};
      Qualifier_USBSpecification := v0; Qualifier_Class := v1; Qualifier_SubClass := v2;
      Qualifier_Protocol := v3; Qualifier_Endpoint0Size := v4;
      Qualifier_NumberOfConfigurations := v5; Qualifier_Reserved := v6 |} | _ => None end
|}.
#[export] Instance USB_Descriptor_DeviceQualifier_t_packed_ok : PackedOk USB_Descriptor_DeviceQualifier_t.
Proof. packed_ok. Qed.

Record USB_StdDescriptor_DeviceQualifier_t := {
  StdQualifier_bLength : Z;
  StdQualifier_bDescriptorType : Z;
  StdQualifier_bcdUSB : Z;
  StdQualifier_bDeviceClass : Z;
  StdQualifier_bDeviceSubClass : Z;
  StdQualifier_bDeviceProtocol : Z;
  StdQualifier_bMaxPacketSize0 : Z;
  StdQualifier_bNumConfigurations : Z;
  StdQualifier_bReserved : Z
}.

#[export] Instance USB_StdDescriptor_DeviceQualifier_t_packed : Packed USB_StdDescriptor_DeviceQualifier_t := {|
  widths := [1; 1; 2; 1; 1; 1; 1; 1; 1]%nat;
  fields d := [StdQualifier_bLength d; StdQualifier_bDescriptorType d;
             StdQualifier_bcdUSB d; StdQualifier_bDeviceClass d;
             StdQualifier_bDeviceSubClass d; StdQualifier_bDeviceProtocol d;
             StdQualifier_bMaxPacketSize0 d; StdQualifier_bNumConfigurations d;
             StdQualifier_bReserved d];
  of_fields vs := match vs with [v0; v1; v2; v3; v4; v5; v6; v7; v8] => Some {|
      StdQualifier_bLength := v0; StdQualifier_bDescriptorType := v1;
      StdQualifier_bcdUSB := v2; StdQualifier_bDeviceClass := v3;
      StdQualifier_bDeviceSubClass := v4; StdQualifier_bDeviceProtocol := v5;
      StdQualifier_bMaxPacketSize0 := v6; StdQualifier_bNumConfigurations := v7;
      StdQualifier_bReserved := v8 |} | _ => None end
|}.
#[export] Instance USB_StdDescriptor_DeviceQualifier_t_packed_ok : PackedOk USB_StdDescriptor_DeviceQualifier_t.
Proof. packed_ok. Qed.

Record USB_Descriptor_Configuration_Header_t := {
  Config_Header : USB_Descriptor_Header_t;
  Config_TotalConfigurationSize : Z;
  Config_TotalInterfaces : Z;
  Config_ConfigurationNumber : Z;
  Config_ConfigurationStrIndex : Z;
  Config_ConfigAttributes : Z;
  Config_MaxPowerConsumption : Z
}.

#[export] Instance USB_Descriptor_Configuration_Header_t_packed : Packed USB_Descriptor_Configuration_Header_t := {|
  widths := [1; 1; 2; 1; 1; 1; 1; 1]%nat;
  fields d := [Header_Size (Config_Header d); Header_Type (Config_Header d);
             Config_TotalConfigurationSize d; Config_TotalInterfaces d;
             Config_ConfigurationNumber d; Config_ConfigurationStrIndex d;
             Config_ConfigAttributes d; Config_MaxPowerConsumption d];
  of_fields vs := match vs with [a; b; v0; v1; v2; v3; v4; v5] => Some {|
      Config_Header := {| Header_Size := a; Header_Type := b |};
      Config_TotalConfigurationSize := v0; Config_TotalInterfaces := v1;
      Config_ConfigurationNumber := v2; Config_ConfigurationStrIndex := v3;
      Config_ConfigAttributes := v4; Config_MaxPowerConsumption := v5 |} | _ => None end
|}.
#[export] Instance USB_Descriptor_Configuration_Header_t_packed_ok : PackedOk USB_Descriptor_Configuration_Header_t.
Proof. packed_ok. Qed.

Record USB_StdDescriptor_Configuration_Header_t := {
  StdConfig_bLength : Z;
  StdConfig_bDescriptorType : Z;
  StdConfig_wTotalLength : Z;
  StdConfig_bNumInterfaces : Z;
  StdConfig_bConfigurationValue : Z;
  StdConfig_iConfiguration : Z;
  StdConfig_bmAttributes : Z;
  StdConfig_bMaxPower : Z
}.

#[export] Instance USB_StdDescriptor_Configuration_Header_t_packed : Packed USB_StdDescriptor_Configuration_Header_t := {|
  widths := [1; 1; 2; 1; 1; 1; 1; 1]%nat;
  fields d := [StdConfig_bLength d; StdConfig_bDescriptorType d; StdConfig_wTotalLength d;
             StdConfig_bNumInterfaces d; StdConfig_bConfigurationValue d;
             StdConfig_iConfiguration d; StdConfig_bmAttributes d; StdConfig_bMaxPower d];
  of_fields vs := match vs with [v0; v1; v2; v3; v4; v5; v6; v7] => Some {|
      StdConfig_bLength := v0; StdConfig_bDescriptorType := v1;
      StdConfig_wTotalLength := v2; StdConfig_bNumInterfaces := v3;
      StdConfig_bConfigurationValue := v4; StdConfig_iConfiguration := v5;
      StdConfig_bmAttributes := v6; StdConfig_bMaxPower := v7 |} | _ => None end
|}.
#[export] Instance USB_StdDescriptor_Configuration_Header_t_packed_ok : PackedOk USB_StdDescriptor_Configuration_Header_t.
Proof. packed_ok. Qed.

Record USB_Descriptor_Interface_t := {
  Interface_Header : USB_Descriptor_Header_t;
  Interface_InterfaceNumber : Z;
  Interface_AlternateSetting : Z;
  Interface_TotalEndpoints : Z;
  Interface_Class : Z;
  Interface_SubClass : Z;
  Interface_Protocol : Z;
  Interface_InterfaceStrIndex : Z
}.

#[export] Instance USB_Descriptor_Interface_t_packed : Packed USB_Descriptor_Interface_t := {|
  widths := [1; 1; 1; 1; 1; 1; 1; 1; 1]%nat;
  fields d := [Header_Size (Interface_Header d); Header_Type (Interface_Header d);
             Interface_InterfaceNumber d; Interface_AlternateSetting d;
             Interface_TotalEndpoints d; Interface_Class d; Interface_SubClass d;
             Interface_Protocol d; Interface_InterfaceStrIndex d];
  of_fields vs := match vs with [a; b; v0; v1; v2; v3; v4; v5; v6] => Some {|
      Interface_Header := {| Header_Size := a; Header_Type := b |};
      Interface_InterfaceNumber := v0; Interface_AlternateSetting := v1;
      Interface_TotalEndpoints := v2; Interface_Class := v3; Interface_SubClass := v4;
      Interface_Protocol := v5; Interface_InterfaceStrIndex := v6 |} | _ => None end
|}.
#[export] Instance USB_Descriptor_Interface_t_packed_ok : PackedOk USB_Descriptor_Interface_t.
Proof. packed_ok. Qed.

Record USB_StdDescriptor_Interface_t := {
  StdInterface_bLength : Z;
  StdInterface_bDescriptorType : Z;
  StdInterface_bInterfaceNumber : Z;
  StdInterface_bAlternateSetting : Z;
  StdInterface_bNumEndpoints : Z;
  StdInterface_bInterfaceClass : Z;
  StdInterface_bInterfaceSubClass : Z;
  StdInterface_bInterfaceProtocol : Z;
  StdInterface_iInterface : Z
}.

#[export] Instance USB_StdDescriptor_Interface_t_packed : Packed USB_StdDescriptor_Interface_t := {|
  widths := [1; 1; 1; 1; 1; 1; 1; 1; 1]%nat;
  fields d := [StdInterface_bLength d; StdInterface_bDescriptorType d;
             StdInterface_bInterfaceNumber d; StdInterface_bAlternateSetting d;
             StdInterface_bNumEndpoints d; StdInterface_bInterfaceClass d;
             StdInterface_bInterfaceSubClass d; StdInterface_bInterfaceProtocol d;
             StdInterface_iInterface d];
  of_fields vs := match vs with [v0; v1; v2; v3; v4; v5; v6; v7; v8] => Some {|
      StdInterface_bLength := v0; StdInterface_bDescriptorType := v1;
      StdInterface_bInterfaceNumber := v2; StdInterface_bAlternateSetting := v3;
      StdInterface_bNumEndpoints := v4; StdInterface_bInterfaceClass := v5;
      StdInterface_bInterfaceSubClass := v6; StdInterface_bInterfaceProtocol := v7;
      StdInterface_iInterface := v8 |} | _ => None end
|}.
#[export] Instance USB_StdDescriptor_Interface_t_packed_ok : PackedOk USB_StdDescriptor_Interface_t.
Proof. packed_ok. Qed.

Record USB_Descriptor_Interface_Association_t := {
  Association_Header : USB_Descriptor_Header_t;
  Association_FirstInterfaceIndex : Z;
  Association_TotalInterfaces : Z;
  Association_Class : Z;
  Association_SubClass : Z;
  Association_Protocol : Z;
  Association_IADStrIndex : Z
}.

#[export] Instance USB_Descriptor_Interface_Association_t_packed : Packed USB_Descriptor_Interface_Association_t := {|
  widths := [1; 1; 1; 1; 1; 1; 1; 1]%nat;
  fields d := [Header_Size (Association_Header d); Header_Type (Association_Header d);
             Association_FirstInterfaceIndex d; Association_TotalInterfaces d;
             Association_Class d; Association_SubClass d; Association_Protocol d;
             Association_IADStrIndex d];
  of_fields vs := match vs with [a; b; v0; v1; v2; v3; v4; v5] => Some {|
      Association_Header := {| Header_Size := a; Header_Type := b |};
      Association_FirstInterfaceIndex := v0; Association_TotalInterfaces := v1;
      Association_Class := v2; Association_SubClass := v3; Association_Protocol := v4;
      Association_IADStrIndex := v5 |} | _ => None end
|}.
#[export] Instance USB_Descriptor_Interface_Association_t_packed_ok : PackedOk USB_Descriptor_Interface_Association_t.
Proof. packed_ok. Qed.

Record USB_StdDescriptor_Interface_Association_t := {
  StdAssociation_bLength : Z;
  StdAssociation_bDescriptorType : Z;
  StdAssociation_bFirstInterface : Z;
  StdAssociation_bInterfaceCount : Z;
  StdAssociation_bFunctionClass : Z;
  StdAssociation_bFunctionSubClass : Z;
  StdAssociation_bFunctionProtocol : Z;
  StdAssociation_iFunction : Z
}.

#[export] Instance USB_StdDescriptor_Interface_Association_t_packed : Packed USB_StdDescriptor_Interface_Association_t := {|
  widths := [1; 1; 1; 1; 1; 1; 1; 1]%nat;
  fields d := [StdAssociation_bLength d; StdAssociation_bDescriptorType d;
             StdAssociation_bFirstInterface d; StdAssociation_bInterfaceCount d;
             StdAssociation_bFunctionClass d; StdAssociation_bFunctionSubClass d;
             StdAssociation_bFunctionProtocol d; StdAssociation_iFunction d];
  of_fields vs := match vs with [v0; v1; v2; v3; v4; v5; v6; v7] => Some {|
      StdAssociation_bLength := v0; StdAssociation_bDescriptorType := v1;
      StdAssociation_bFirstInterface := v2; StdAssociation_bInterfaceCount := v3;
      StdAssociation_bFunctionClass := v4; StdAssociation_bFunctionSubClass := v5;
      StdAssociation_bFunctionProtocol := v6;
      StdAssociation_iFunction := v7 |} | _ => None end
|}.
#[export] Instance USB_StdDescriptor_Interface_Association_t_packed_ok : PackedOk USB_StdDescriptor_Interface_Association_t.
Proof. packed_ok. Qed.

Record USB_Descriptor_Endpoint_t := {
  Endpoint_Header : USB_Descriptor_Header_t;
  Endpoint_EndpointAddress : Z;
  Endpoint_Attributes : Z;
  Endpoint_EndpointSize : Z;
  Endpoint_PollingIntervalMS : Z
}.

#[export] Instance USB_Descriptor_Endpoint_t_packed : Packed USB_Descriptor_Endpoint_t := {|
  widths := [1; 1; 1; 1; 2; 1]%nat;
  fields d := [Header_Size (Endpoint_Header d); Header_Type (Endpoint_Header d);
             Endpoint_EndpointAddress d; Endpoint_Attributes d; Endpoint_EndpointSize d;
             Endpoint_PollingIntervalMS d];
  of_fields vs := match vs with [a; b; v0; v1; v2; v3] => Some {|
      Endpoint_Header := {| Header_Size := a; Header_Type := b |};
      Endpoint_EndpointAddress := v0; Endpoint_Attributes := v1;
      Endpoint_EndpointSize := v2; Endpoint_PollingIntervalMS := v3 |} | _ => None end
|}.
#[export] Instance USB_Descriptor_Endpoint_t_packed_ok : PackedOk USB_Descriptor_Endpoint_t.
Proof. packed_ok. Qed.

Record USB_StdDescriptor_Endpoint_t := {
  StdEndpoint_bLength : Z;
  StdEndpoint_bDescriptorType : Z;
  StdEndpoint_bEndpointAddress : Z;
  StdEndpoint_bmAttributes : Z;
  StdEndpoint_wMaxPacketSize : Z;
  StdEndpoint_bInterval : Z
}.

#[export] Instance USB_StdDescriptor_Endpoint_t_packed : Packed USB_StdDescriptor_Endpoint_t := {|
  widths := [1; 1; 1; 1; 2; 1]%nat;
  fields d := [StdEndpoint_bLength d; StdEndpoint_bDescriptorType d;
             StdEndpoint_bEndpointAddress d; StdEndpoint_bmAttributes d;
             StdEndpoint_wMaxPacketSize d; StdEndpoint_bInterval d];
  of_fields vs := match vs with [v0; v1; v2; v3; v4; v5] => Some {|
      StdEndpoint_bLength := v0; StdEndpoint_bDescriptorType := v1;
      StdEndpoint_bEndpointAddress := v2; StdEndpoint_bmAttributes := v3;
      StdEndpoint_wMaxPacketSize := v4; StdEndpoint_bInterval := v5 |} | _ => None end
|}.
#[export] Instance USB_StdDescriptor_Endpoint_t_packed_ok : PackedOk USB_StdDescriptor_Endpoint_t.
Proof. packed_ok. Qed.

(** ** Constants and macros *)

Definition NO_DESCRIPTOR : Z := 0.
Definition USB_CONFIG_POWER_MA (mA : Z) : Z := Z.shiftr mA 1.
Definition USB_STRING_LEN (UnicodeChars : Z) : Z :=
  sizeof USB_Descriptor_Header_t + Z.shiftl UnicodeChars 1.
Definition VERSION_BCD (Major Minor Revision : Z) : Z :=
  u16 (Z.lor (Z.lor (Z.shiftl (Z.land Major 255) 8) (Z.shiftl (Z.land Minor 15) 4))
             (Z.land Revision 15)).
Definition LANGUAGE_ID_ENG : Z := 0x0409.

Definition USB_CONFIG_ATTR_RESERVED : Z := 0x80.
Definition USB_CONFIG_ATTR_SELFPOWERED : Z := 0x40.
Definition USB_CONFIG_ATTR_REMOTEWAKEUP : Z := 0x20.
Definition ENDPOINT_ATTR_NO_SYNC : Z := Z.shiftl 0 2.
Definition ENDPOINT_ATTR_ASYNC : Z := Z.shiftl 1 2.
Definition ENDPOINT_ATTR_ADAPTIVE : Z := Z.shiftl 2 2.
Definition ENDPOINT_ATTR_SYNC : Z := Z.shiftl 3 2.
Definition ENDPOINT_USAGE_DATA : Z := Z.shiftl 0 4.
Definition ENDPOINT_USAGE_FEEDBACK : Z := Z.shiftl 1 4.
Definition ENDPOINT_USAGE_IMPLICIT_FEEDBACK : Z := Z.shiftl 2 4.

Inductive USB_DescriptorTypes_t :=
  | DTYPE_Device | DTYPE_Configuration | DTYPE_String | DTYPE_Interface | DTYPE_Endpoint
  | DTYPE_DeviceQualifier | DTYPE_Other | DTYPE_InterfacePower | DTYPE_InterfaceAssociation
  | DTYPE_CSInterface | DTYPE_CSEndpoint.

(** The values of the enumerators. *)
Definition dtype (t : USB_DescriptorTypes_t) : Z :=
  match t with
  | DTYPE_Device => 0x01
  | DTYPE_Configuration => 0x02
  | DTYPE_String => 0x03
  | DTYPE_Interface => 0x04
  | DTYPE_Endpoint => 0x05
  | DTYPE_DeviceQualifier => 0x06
  | DTYPE_Other => 0x07
  | DTYPE_InterfacePower => 0x08
  | DTYPE_InterfaceAssociation => 0x0B
  | DTYPE_CSInterface => 0x24
  | DTYPE_CSEndpoint => 0x25
  end.

Definition USB_CSCP_NoDeviceClass : Z := 0x00.
Definition USB_CSCP_NoDeviceSubclass : Z := 0x00.
Definition USB_CSCP_NoDeviceProtocol : Z := 0x00.

(** A string descriptor is a header and 16-bit code units; [sizeof(wchar_t)]
    is 2 on this target.  A wide string literal ends with a NUL unit, which is
    part of the object and not of the length its header announces. *)
Record USB_Descriptor_String_t := {
  String_Header : USB_Descriptor_Header_t;
  String_UnicodeString : list Z
}.

Definition string_bytes (d : USB_Descriptor_String_t) : list Z :=
  pack (String_Header d) ++ concat (le_bytes 2 <$> String_UnicodeString d).

(** [sizeof(String) - 2] for a literal of [length chars] characters. *)
Definition USB_STRING_DESCRIPTOR (chars : list Z) : USB_Descriptor_String_t :=
  {| String_Header :=
       {| Header_Size :=
            u8 (sizeof USB_Descriptor_Header_t + (2 * Z.of_nat (length (chars ++ [0])) - 2));
          Header_Type := dtype DTYPE_String |};
     String_UnicodeString := chars ++ [0] |}.

(** [sizeof((uint16_t){...})] is 2 whatever the list: a compound literal of a
    scalar type. *)
Definition USB_STRING_DESCRIPTOR_ARRAY (units : list Z) : USB_Descriptor_String_t :=
  {| String_Header :=
       {| Header_Size := u8 (sizeof USB_Descriptor_Header_t + 2);
          Header_Type := dtype DTYPE_String |};
     String_UnicodeString := units |}.

(** The two names of a structure are one layout: a cast to either type finds
    the same scalars. *)
Definition same_layout (A B : Type) `{Packed A, Packed B} : Prop :=
  forall bs, fields <$> unpack (A := A) bs = fields <$> unpack (A := B) bs.

Lemma same_layout_widths (A B : Type) `{PackedOk A, PackedOk B} :
  widths (A := A) = widths (A := B) -> same_layout A B.
Proof.
  intros Hw bs. unfold unpack. rewrite Hw. case_decide as Hd; [|done].
  destruct (of_fields_total (A := A) (decode (widths (A := B)) bs)) as (a & -> & Ha).
  { by rewrite decode_length, Hw. }
  destruct (of_fields_total (A := B) (decode (widths (A := B)) bs)) as (b & -> & Hb).
  { by rewrite decode_length. }
  simpl. by rewrite Ha, Hb.
Qed.

(** For every descriptor the header file declares under two names, the
    structure with LUFA's field names and the structure with the field names
    of the USB specification read the same scalar values out of any memory. *)
Theorem descriptor_views_agree :
  same_layout USB_Descriptor_Header_t USB_StdDescriptor_Header_t /\
  same_layout USB_Descriptor_Device_t USB_StdDescriptor_Device_t /\
  same_layout USB_Descriptor_DeviceQualifier_t USB_StdDescriptor_DeviceQualifier_t /\
  same_layout USB_Descriptor_Configuration_Header_t USB_StdDescriptor_Configuration_Header_t /\
  same_layout USB_Descriptor_Interface_t USB_StdDescriptor_Interface_t /\
  same_layout USB_Descriptor_Interface_Association_t USB_StdDescriptor_Interface_Association_t /\
  same_layout USB_Descriptor_Endpoint_t USB_StdDescriptor_Endpoint_t.
Proof. split_and!; refine (same_layout_widths _ _ _); done. Qed.
