(* ===== verification/HIDClass.v ===== *)
(** * HID report descriptors (LUFA HIDReportData.h, HIDClassCommon.h)

    The macros that build a HID report descriptor byte by byte, the ready made
    descriptors for joysticks, keyboards, mice and vendor defined reports, and
    the HID descriptor structure. *)

From S2P Require Import Prelude StdDescriptors.

(** ** Report items *)

Definition HID_RI_DATA_SIZE_MASK : Z := 0x03.
Definition HID_RI_TYPE_MASK : Z := 0x0C.
Definition HID_RI_TAG_MASK : Z := 0xF0.

Definition HID_RI_TYPE_MAIN : Z := 0x00.
Definition HID_RI_TYPE_GLOBAL : Z := 0x04.
Definition HID_RI_TYPE_LOCAL : Z := 0x08.

(** The [DataBits] argument of the item macros: 0, 8, 16 or 32. *)
Inductive data_bits := Bits0 | Bits8 | Bits16 | Bits32.

Definition HID_RI_DATA_BITS (n : data_bits) : Z :=
  match n with Bits0 => 0x00 | Bits8 => 0x01 | Bits16 => 0x02 | Bits32 => 0x03 end.

(** The bytes each [_HID_RI_ENCODE_n] adds after the prefix. *)
Definition HID_RI_ENCODE_8 (Data : Z) : list Z := [Z.land Data 0xFF].
Definition HID_RI_ENCODE_16 (Data : Z) : list Z :=
  HID_RI_ENCODE_8 Data ++ HID_RI_ENCODE_8 (Z.shiftr Data 8).
Definition HID_RI_ENCODE_32 (Data : Z) : list Z :=
  HID_RI_ENCODE_16 Data ++ HID_RI_ENCODE_16 (Z.shiftr Data 16).
Definition HID_RI_ENCODE (n : data_bits) (Data : Z) : list Z :=
  match n with
  | Bits0 => []
  | Bits8 => HID_RI_ENCODE_8 Data
  | Bits16 => HID_RI_ENCODE_16 Data
  | Bits32 => HID_RI_ENCODE_32 Data
  end.

Definition HID_RI_ENTRY (Type_ Tag : Z) (n : data_bits) (Data : Z) : list Z :=
  Z.lor (Z.lor Type_ Tag) (HID_RI_DATA_BITS n) :: HID_RI_ENCODE n Data.

Definition HID_RI_INPUT := HID_RI_ENTRY HID_RI_TYPE_MAIN 0x80.
Definition HID_RI_OUTPUT := HID_RI_ENTRY HID_RI_TYPE_MAIN 0x90.
Definition HID_RI_COLLECTION := HID_RI_ENTRY HID_RI_TYPE_MAIN 0xA0.
Definition HID_RI_FEATURE := HID_RI_ENTRY HID_RI_TYPE_MAIN 0xB0.
Definition HID_RI_END_COLLECTION := HID_RI_ENTRY HID_RI_TYPE_MAIN 0xC0.
Definition HID_RI_USAGE_PAGE := HID_RI_ENTRY HID_RI_TYPE_GLOBAL 0x00.
Definition HID_RI_LOGICAL_MINIMUM := HID_RI_ENTRY HID_RI_TYPE_GLOBAL 0x10.
Definition HID_RI_LOGICAL_MAXIMUM := HID_RI_ENTRY HID_RI_TYPE_GLOBAL 0x20.
Definition HID_RI_PHYSICAL_MINIMUM := HID_RI_ENTRY HID_RI_TYPE_GLOBAL 0x30.
Definition HID_RI_PHYSICAL_MAXIMUM := HID_RI_ENTRY HID_RI_TYPE_GLOBAL 0x40.
Definition HID_RI_UNIT_EXPONENT := HID_RI_ENTRY HID_RI_TYPE_GLOBAL 0x50.
Definition HID_RI_UNIT := HID_RI_ENTRY HID_RI_TYPE_GLOBAL 0x60.
Definition HID_RI_REPORT_SIZE := HID_RI_ENTRY HID_RI_TYPE_GLOBAL 0x70.
Definition HID_RI_REPORT_ID := HID_RI_ENTRY HID_RI_TYPE_GLOBAL 0x80.
Definition HID_RI_REPORT_COUNT := HID_RI_ENTRY HID_RI_TYPE_GLOBAL 0x90.
Definition HID_RI_PUSH := HID_RI_ENTRY HID_RI_TYPE_GLOBAL 0xA0.
Definition HID_RI_POP := HID_RI_ENTRY HID_RI_TYPE_GLOBAL 0xB0.
Definition HID_RI_USAGE := HID_RI_ENTRY HID_RI_TYPE_LOCAL 0x00.
Definition HID_RI_USAGE_MINIMUM := HID_RI_ENTRY HID_RI_TYPE_LOCAL 0x10.
Definition HID_RI_USAGE_MAXIMUM := HID_RI_ENTRY HID_RI_TYPE_LOCAL 0x20.

(** Flags of input, output and feature items. *)
Definition HID_IOF_CONSTANT : Z := Z.shiftl 1 0.
Definition HID_IOF_DATA : Z := Z.shiftl 0 0.
Definition HID_IOF_VARIABLE : Z := Z.shiftl 1 1.
Definition HID_IOF_ARRAY : Z := Z.shiftl 0 1.
Definition HID_IOF_RELATIVE : Z := Z.shiftl 1 2.
Definition HID_IOF_ABSOLUTE : Z := Z.shiftl 0 2.
Definition HID_IOF_WRAP : Z := Z.shiftl 1 3.
Definition HID_IOF_NO_WRAP : Z := Z.shiftl 0 3.
Definition HID_IOF_NON_LINEAR : Z := Z.shiftl 1 4.
Definition HID_IOF_LINEAR : Z := Z.shiftl 0 4.
Definition HID_IOF_NO_PREFERRED_STATE : Z := Z.shiftl 1 5.
Definition HID_IOF_PREFERRED_STATE : Z := Z.shiftl 0 5.
Definition HID_IOF_NULLSTATE : Z := Z.shiftl 1 6.
Definition HID_IOF_NO_NULL_POSITION : Z := Z.shiftl 0 6.
Definition HID_IOF_VOLATILE : Z := Z.shiftl 1 7.
Definition HID_IOF_NON_VOLATILE : Z := Z.shiftl 0 7.
Definition HID_IOF_BUFFERED_BYTES : Z := Z.shiftl 1 8.
Definition HID_IOF_BITFIELD : Z := Z.shiftl 0 8.

(** ** Ready made report descriptors *)

Definition HID_DESCRIPTOR_JOYSTICK (MinAxisVal MaxAxisVal MinPhysicalVal MaxPhysicalVal Buttons : Z) : list Z :=
  concat [
    HID_RI_USAGE_PAGE Bits8 0x01;
    HID_RI_USAGE Bits8 0x04;
    HID_RI_COLLECTION Bits8 0x01;
    HID_RI_USAGE Bits8 0x01;
    HID_RI_COLLECTION Bits8 0x00;
    HID_RI_USAGE Bits8 0x30;
    HID_RI_USAGE Bits8 0x31;
    HID_RI_USAGE Bits8 0x32;
    HID_RI_LOGICAL_MINIMUM Bits16 MinAxisVal;
    HID_RI_LOGICAL_MAXIMUM Bits16 MaxAxisVal;
    HID_RI_PHYSICAL_MINIMUM Bits16 MinPhysicalVal;
    HID_RI_PHYSICAL_MAXIMUM Bits16 MaxPhysicalVal;
    HID_RI_REPORT_COUNT Bits8 3;
    HID_RI_REPORT_SIZE Bits8 (if (-128 <=? MinAxisVal) && (MaxAxisVal <=? 127) then 8 else 16);
    HID_RI_INPUT Bits8 (Z.lor (Z.lor HID_IOF_DATA HID_IOF_VARIABLE) HID_IOF_ABSOLUTE);
    HID_RI_END_COLLECTION Bits0 0;
    HID_RI_USAGE_PAGE Bits8 0x09;
    HID_RI_USAGE_MINIMUM Bits8 0x01;
    HID_RI_USAGE_MAXIMUM Bits8 Buttons;
    HID_RI_LOGICAL_MINIMUM Bits8 0x00;
    HID_RI_LOGICAL_MAXIMUM Bits8 0x01;
    HID_RI_REPORT_SIZE Bits8 0x01;
    HID_RI_REPORT_COUNT Bits8 Buttons;
    HID_RI_INPUT Bits8 (Z.lor (Z.lor HID_IOF_DATA HID_IOF_VARIABLE) HID_IOF_ABSOLUTE);
    HID_RI_REPORT_SIZE Bits8 (if Z.rem Buttons 8 =? 0 then 0 else 8 - Z.rem Buttons 8);
    HID_RI_REPORT_COUNT Bits8 0x01;
    HID_RI_INPUT Bits8 HID_IOF_CONSTANT;
    HID_RI_END_COLLECTION Bits0 0
  ].

Definition HID_DESCRIPTOR_KEYBOARD (MaxKeys : Z) : list Z :=
  concat [
    HID_RI_USAGE_PAGE Bits8 0x01;
    HID_RI_USAGE Bits8 0x06;
    HID_RI_COLLECTION Bits8 0x01;
    HID_RI_USAGE_PAGE Bits8 0x07;
    HID_RI_USAGE_MINIMUM Bits8 0xE0;
    HID_RI_USAGE_MAXIMUM Bits8 0xE7;
    HID_RI_LOGICAL_MINIMUM Bits8 0x00;
    HID_RI_LOGICAL_MAXIMUM Bits8 0x01;
    HID_RI_REPORT_SIZE Bits8 0x01;
    HID_RI_REPORT_COUNT Bits8 0x08;
    HID_RI_INPUT Bits8 (Z.lor (Z.lor HID_IOF_DATA HID_IOF_VARIABLE) HID_IOF_ABSOLUTE);
    HID_RI_REPORT_COUNT Bits8 0x01;
    HID_RI_REPORT_SIZE Bits8 0x08;
    HID_RI_INPUT Bits8 HID_IOF_CONSTANT;
    HID_RI_USAGE_PAGE Bits8 0x08;
    HID_RI_USAGE_MINIMUM Bits8 0x01;
    HID_RI_USAGE_MAXIMUM Bits8 0x05;
    HID_RI_REPORT_COUNT Bits8 0x05;
    HID_RI_REPORT_SIZE Bits8 0x01;
    HID_RI_OUTPUT Bits8 (Z.lor (Z.lor (Z.lor HID_IOF_DATA HID_IOF_VARIABLE) HID_IOF_ABSOLUTE) HID_IOF_NON_VOLATILE);
    HID_RI_REPORT_COUNT Bits8 0x01;
    HID_RI_REPORT_SIZE Bits8 0x03;
    HID_RI_OUTPUT Bits8 HID_IOF_CONSTANT;
    HID_RI_LOGICAL_MINIMUM Bits8 0x00;
    HID_RI_LOGICAL_MAXIMUM Bits16 0xFF;
    HID_RI_USAGE_PAGE Bits8 0x07;
    HID_RI_USAGE_MINIMUM Bits8 0x00;
    HID_RI_USAGE_MAXIMUM Bits8 0xFF;
    HID_RI_REPORT_COUNT Bits8 MaxKeys;
    HID_RI_REPORT_SIZE Bits8 0x08;
    HID_RI_INPUT Bits8 (Z.lor (Z.lor HID_IOF_DATA HID_IOF_ARRAY) HID_IOF_ABSOLUTE);
    HID_RI_END_COLLECTION Bits0 0
  ].

Definition HID_DESCRIPTOR_MOUSE (MinAxisVal MaxAxisVal MinPhysicalVal MaxPhysicalVal Buttons : Z) (AbsoluteCoords : bool) : list Z :=
  concat [
    HID_RI_USAGE_PAGE Bits8 0x01;
    HID_RI_USAGE Bits8 0x02;
    HID_RI_COLLECTION Bits8 0x01;
    HID_RI_USAGE Bits8 0x01;
    HID_RI_COLLECTION Bits8 0x00;
    HID_RI_USAGE_PAGE Bits8 0x09;
    HID_RI_USAGE_MINIMUM Bits8 0x01;
    HID_RI_USAGE_MAXIMUM Bits8 Buttons;
    HID_RI_LOGICAL_MINIMUM Bits8 0x00;
    HID_RI_LOGICAL_MAXIMUM Bits8 0x01;
    HID_RI_REPORT_COUNT Bits8 Buttons;
    HID_RI_REPORT_SIZE Bits8 0x01;
    HID_RI_INPUT Bits8 (Z.lor (Z.lor HID_IOF_DATA HID_IOF_VARIABLE) HID_IOF_ABSOLUTE);
    HID_RI_REPORT_COUNT Bits8 0x01;
    HID_RI_REPORT_SIZE Bits8 (if Z.rem Buttons 8 =? 0 then 0 else 8 - Z.rem Buttons 8);
    HID_RI_INPUT Bits8 HID_IOF_CONSTANT;
    HID_RI_USAGE_PAGE Bits8 0x01;
    HID_RI_USAGE Bits8 0x30;
    HID_RI_USAGE Bits8 0x31;
    HID_RI_LOGICAL_MINIMUM Bits16 MinAxisVal;
    HID_RI_LOGICAL_MAXIMUM Bits16 MaxAxisVal;
    HID_RI_PHYSICAL_MINIMUM Bits16 MinPhysicalVal;
    HID_RI_PHYSICAL_MAXIMUM Bits16 MaxPhysicalVal;
    HID_RI_REPORT_COUNT Bits8 0x02;
    HID_RI_REPORT_SIZE Bits8 (if (-128 <=? MinAxisVal) && (MaxAxisVal <=? 127) then 8 else 16);
    HID_RI_INPUT Bits8 (Z.lor (Z.lor HID_IOF_DATA HID_IOF_VARIABLE) (if AbsoluteCoords : bool then HID_IOF_ABSOLUTE else HID_IOF_RELATIVE));
    HID_RI_END_COLLECTION Bits0 0;
    HID_RI_END_COLLECTION Bits0 0
  ].

Definition HID_DESCRIPTOR_VENDOR (VendorPageNum CollectionUsage DataINUsage DataOUTUsage NumBytes : Z) : list Z :=
  concat [
    HID_RI_USAGE_PAGE Bits16 (Z.lor 0xFF00 VendorPageNum);
    HID_RI_USAGE Bits8 CollectionUsage;
    HID_RI_COLLECTION Bits8 0x01;
    HID_RI_USAGE Bits8 DataINUsage;
    HID_RI_LOGICAL_MINIMUM Bits8 0x00;
    HID_RI_LOGICAL_MAXIMUM Bits8 0xFF;
    HID_RI_REPORT_SIZE Bits8 0x08;
    HID_RI_REPORT_COUNT Bits8 NumBytes;
    HID_RI_INPUT Bits8 (Z.lor (Z.lor HID_IOF_DATA HID_IOF_VARIABLE) HID_IOF_ABSOLUTE);
    HID_RI_USAGE Bits8 DataOUTUsage;
    HID_RI_LOGICAL_MINIMUM Bits8 0x00;
    HID_RI_LOGICAL_MAXIMUM Bits8 0xFF;
    HID_RI_REPORT_SIZE Bits8 0x08;
    HID_RI_REPORT_COUNT Bits8 NumBytes;
    HID_RI_OUTPUT Bits8 (Z.lor (Z.lor (Z.lor HID_IOF_DATA HID_IOF_VARIABLE) HID_IOF_ABSOLUTE) HID_IOF_NON_VOLATILE);
    HID_RI_END_COLLECTION Bits0 0
  ].

(** ** The HID descriptor and the HID constants *)

Record USB_HID_Descriptor_HID_t := {
  HID_Header : USB_Descriptor_Header_t;
  HID_HIDSpec : Z;
  HID_CountryCode : Z;
  HID_TotalReportDescriptors : Z;
  HID_HIDReportType : Z;
  HID_HIDReportLength : Z
}.

#[export] Instance USB_HID_Descriptor_HID_t_packed : Packed USB_HID_Descriptor_HID_t := {|
  widths := [1; 1; 2; 1; 1; 1; 2]%nat;
  fields d := [Header_Size (HID_Header d); Header_Type (HID_Header d); HID_HIDSpec d;
             HID_CountryCode d; HID_TotalReportDescriptors d; HID_HIDReportType d;
             HID_HIDReportLength d];
  of_fields vs := match vs with [a; b; v0; v1; v2; v3; v4] => Some {|
      HID_Header := {| Header_Size := a; Header_Type := b |}; HID_HIDSpec := v0;
      HID_CountryCode := v1; HID_TotalReportDescriptors := v2; HID_HIDReportType := v3;
      HID_HIDReportLength := v4 |} | _ => None end
|}.
#[export] Instance USB_HID_Descriptor_HID_t_packed_ok : PackedOk USB_HID_Descriptor_HID_t.
Proof. packed_ok. Qed.

Record USB_HID_StdDescriptor_HID_t := {
  StdHID_bLength : Z;
  StdHID_bDescriptorType : Z;
  StdHID_bcdHID : Z;
  StdHID_bCountryCode : Z;
  StdHID_bNumDescriptors : Z;
  StdHID_bDescriptorType2 : Z;
  StdHID_wDescriptorLength : Z
}.

#[export] Instance USB_HID_StdDescriptor_HID_t_packed : Packed USB_HID_StdDescriptor_HID_t := {|
  widths := [1; 1; 2; 1; 1; 1; 2]%nat;
  fields d := [StdHID_bLength d; StdHID_bDescriptorType d; StdHID_bcdHID d;
             StdHID_bCountryCode d; StdHID_bNumDescriptors d; StdHID_bDescriptorType2 d;
             StdHID_wDescriptorLength d];
  of_fields vs := match vs with [v0; v1; v2; v3; v4; v5; v6] => Some {|
      StdHID_bLength := v0; StdHID_bDescriptorType := v1; StdHID_bcdHID := v2;
      StdHID_bCountryCode := v3; StdHID_bNumDescriptors := v4;
      StdHID_bDescriptorType2 := v5; StdHID_wDescriptorLength := v6 |} | _ => None end
|}.
#[export] Instance USB_HID_StdDescriptor_HID_t_packed_ok : PackedOk USB_HID_StdDescriptor_HID_t.
Proof. packed_ok. Qed.

Definition HID_CSCP_HIDClass : Z := 0x03.
Definition HID_CSCP_NonBootSubclass : Z := 0x00.
Definition HID_CSCP_BootSubclass : Z := 0x01.
Definition HID_CSCP_NonBootProtocol : Z := 0x00.
Definition HID_CSCP_KeyboardBootProtocol : Z := 0x01.
Definition HID_CSCP_MouseBootProtocol : Z := 0x02.
Definition HID_REQ_GetReport : Z := 0x01.
Definition HID_REQ_GetIdle : Z := 0x02.
Definition HID_REQ_GetProtocol : Z := 0x03.
Definition HID_REQ_SetReport : Z := 0x09.
Definition HID_REQ_SetIdle : Z := 0x0A.
Definition HID_REQ_SetProtocol : Z := 0x0B.
Definition HID_DTYPE_HID : Z := 0x21.
Definition HID_DTYPE_Report : Z := 0x22.

(** Kinds of reports, with the index their bits are counted under. *)
Inductive HID_ReportItemTypes_t := HID_REPORT_ITEM_In | HID_REPORT_ITEM_Out | HID_REPORT_ITEM_Feature.

#[export] Instance HID_ReportItemTypes_t_eq_dec : EqDecision HID_ReportItemTypes_t.
Proof. solve_decision. Defined.
