(* ===== verification/Descriptors.v ===== *)
(** * The descriptors of the controller (Descriptors.c, Descriptors.h)

    The report, device, configuration and string descriptors the firmware
    stores in flash, and [CALLBACK_USB_GetDescriptor], which the device stack
    asks for them.  The configuration object is laid out in the order of the
    members of [USB_Descriptor_Configuration_t]; the initialiser in
    Descriptors.c names the two endpoints in the other order. *)

From Stdlib Require Import Ascii String.
From S2P Require Import Prelude StdDescriptors HIDClass.

(** USBController.h *)
Definition ENDPOINT_DIR_MASK : Z := 0x80.
Definition ENDPOINT_DIR_OUT : Z := 0x00.
Definition ENDPOINT_DIR_IN : Z := 0x80.
Definition EP_TYPE_MASK : Z := 0x03.
Definition EP_TYPE_CONTROL : Z := 0x00.
Definition EP_TYPE_ISOCHRONOUS : Z := 0x01.
Definition EP_TYPE_BULK : Z := 0x02.
Definition EP_TYPE_INTERRUPT : Z := 0x03.

(** Config/LUFAConfig.h *)
Definition FIXED_CONTROL_ENDPOINT_SIZE : Z := 64.
Definition FIXED_NUM_CONFIGURATIONS : Z := 1.

(** Descriptors.h *)
Definition INTERFACE_ID_Joystick : Z := 0.
Definition STRING_ID_Language : Z := 0.
Definition STRING_ID_Manufacturer : Z := 1.
Definition STRING_ID_Product : Z := 2.
Definition JOYSTICK_IN_EPADDR : Z := Z.lor ENDPOINT_DIR_IN 1.
Definition JOYSTICK_OUT_EPADDR : Z := Z.lor ENDPOINT_DIR_OUT 2.
Definition JOYSTICK_EPSIZE : Z := 64.
Definition DTYPE_HID : Z := 0x21.
Definition DTYPE_Report : Z := 0x22.

Definition JoystickReport : list Z := List.concat [
  HID_RI_USAGE_PAGE Bits8 1;
  HID_RI_USAGE Bits8 5;
  HID_RI_COLLECTION Bits8 1;
  (* buttons *)
  HID_RI_LOGICAL_MINIMUM Bits8 0;
  HID_RI_LOGICAL_MAXIMUM Bits8 1;
  HID_RI_PHYSICAL_MINIMUM Bits8 0;
  HID_RI_PHYSICAL_MAXIMUM Bits8 1;
  HID_RI_REPORT_SIZE Bits8 1;
  HID_RI_REPORT_COUNT Bits8 14;
  HID_RI_USAGE_PAGE Bits8 9;
  HID_RI_USAGE_MINIMUM Bits8 1;
  HID_RI_USAGE_MAXIMUM Bits8 14;
  HID_RI_INPUT Bits8 2;
  HID_RI_REPORT_COUNT Bits8 2;
  HID_RI_INPUT Bits8 1;
  (* hat switch *)
  HID_RI_USAGE_PAGE Bits8 1;
  HID_RI_LOGICAL_MAXIMUM Bits8 7;
  HID_RI_PHYSICAL_MAXIMUM Bits16 315;
  HID_RI_REPORT_SIZE Bits8 4;
  HID_RI_REPORT_COUNT Bits8 1;
  HID_RI_UNIT Bits8 20;
  HID_RI_USAGE Bits8 57;
  HID_RI_INPUT Bits8 66;
  HID_RI_UNIT Bits8 0;
  HID_RI_REPORT_COUNT Bits8 1;
  HID_RI_INPUT Bits8 1;
  (* sticks *)
  HID_RI_LOGICAL_MAXIMUM Bits16 255;
  HID_RI_PHYSICAL_MAXIMUM Bits16 255;
  HID_RI_USAGE Bits8 48;
  HID_RI_USAGE Bits8 49;
  HID_RI_USAGE Bits8 50;
  HID_RI_USAGE Bits8 53;
  HID_RI_REPORT_SIZE Bits8 8;
  HID_RI_REPORT_COUNT Bits8 4;
  HID_RI_INPUT Bits8 2;
  (* vendor byte *)
  HID_RI_REPORT_SIZE Bits8 8;
  HID_RI_REPORT_COUNT Bits8 1;
  HID_RI_INPUT Bits8 1;
  HID_RI_END_COLLECTION Bits0 0
].

Definition DeviceDescriptor : USB_Descriptor_Device_t := {|
  Device_Header := {| Header_Size := sizeof USB_Descriptor_Device_t; Header_Type := dtype DTYPE_Device |};
  Device_USBSpecification := VERSION_BCD 2 0 0;
  Device_Class := USB_CSCP_NoDeviceClass;
  Device_SubClass := USB_CSCP_NoDeviceSubclass;
  Device_Protocol := USB_CSCP_NoDeviceProtocol;
  Device_Endpoint0Size := FIXED_CONTROL_ENDPOINT_SIZE;
  Device_VendorID := 0x0F0D;
  Device_ProductID := 0x00C1;
  Device_ReleaseNumber := VERSION_BCD 5 7 2;
  Device_ManufacturerStrIndex := STRING_ID_Manufacturer;
  Device_ProductStrIndex := STRING_ID_Product;
  Device_SerialNumStrIndex := NO_DESCRIPTOR;
  Device_NumberOfConfigurations := FIXED_NUM_CONFIGURATIONS
|}.

Record USB_Descriptor_Configuration_t := {
  Config : USB_Descriptor_Configuration_Header_t;
  HID_Interface : USB_Descriptor_Interface_t;
  HID_JoystickHID : USB_HID_Descriptor_HID_t;
  HID_ReportOUTEndpoint : USB_Descriptor_Endpoint_t;
  HID_ReportINEndpoint : USB_Descriptor_Endpoint_t
}.

Definition sizeof_Configuration : Z :=
  sizeof USB_Descriptor_Configuration_Header_t + sizeof USB_Descriptor_Interface_t
  + sizeof USB_HID_Descriptor_HID_t + sizeof USB_Descriptor_Endpoint_t
  + sizeof USB_Descriptor_Endpoint_t.

Definition configuration_bytes (c : USB_Descriptor_Configuration_t) : list Z :=
  pack (Config c) ++ pack (HID_Interface c) ++ pack (HID_JoystickHID c)
  ++ pack (HID_ReportOUTEndpoint c) ++ pack (HID_ReportINEndpoint c).

Definition joystick_endpoint (EndpointAddress : Z) : USB_Descriptor_Endpoint_t := {|
  Endpoint_Header := {| Header_Size := sizeof USB_Descriptor_Endpoint_t; Header_Type := dtype DTYPE_Endpoint |};
  Endpoint_EndpointAddress := EndpointAddress;
  Endpoint_Attributes := Z.lor (Z.lor EP_TYPE_INTERRUPT ENDPOINT_ATTR_NO_SYNC) ENDPOINT_USAGE_DATA;
  Endpoint_EndpointSize := JOYSTICK_EPSIZE;
  Endpoint_PollingIntervalMS := 0x05
|}.

Definition ConfigurationDescriptor : USB_Descriptor_Configuration_t := {|
  Config := {|
    Config_Header := {| Header_Size := sizeof USB_Descriptor_Configuration_Header_t;
                        Header_Type := dtype DTYPE_Configuration |};
    Config_TotalConfigurationSize := sizeof_Configuration;
    Config_TotalInterfaces := 1;
    Config_ConfigurationNumber := 1;
    Config_ConfigurationStrIndex := NO_DESCRIPTOR;
    Config_ConfigAttributes := 0x80;
    Config_MaxPowerConsumption := USB_CONFIG_POWER_MA 250 |};
  HID_Interface := {|
    Interface_Header := {| Header_Size := sizeof USB_Descriptor_Interface_t;
                           Header_Type := dtype DTYPE_Interface |};
    Interface_InterfaceNumber := INTERFACE_ID_Joystick;
    Interface_AlternateSetting := 0x00;
    Interface_TotalEndpoints := 2;
    Interface_Class := HID_CSCP_HIDClass;
    Interface_SubClass := HID_CSCP_NonBootSubclass;
    Interface_Protocol := HID_CSCP_NonBootProtocol;
    Interface_InterfaceStrIndex := NO_DESCRIPTOR |};
  HID_JoystickHID := {|
    HID_Header := {| Header_Size := sizeof USB_HID_Descriptor_HID_t; Header_Type := HID_DTYPE_HID |};
    HID_HIDSpec := VERSION_BCD 1 1 1;
    HID_CountryCode := 0x00;
    HID_TotalReportDescriptors := 1;
    HID_HIDReportType := HID_DTYPE_Report;
    HID_HIDReportLength := Z.of_nat (List.length JoystickReport) |};
  HID_ReportINEndpoint := joystick_endpoint JOYSTICK_IN_EPADDR;
  HID_ReportOUTEndpoint := joystick_endpoint JOYSTICK_OUT_EPADDR
|}.

(** Code units of a wide string literal. *)
Definition wide (s : string) : list Z :=
  (fun c => Z.of_N (N_of_ascii c)) <$> list_ascii_of_string s.

Definition LanguageString : USB_Descriptor_String_t := USB_STRING_DESCRIPTOR_ARRAY [LANGUAGE_ID_ENG].
Definition ManufacturerString : USB_Descriptor_String_t := USB_STRING_DESCRIPTOR (wide "HORI CO.,LTD.").
Definition ProductString : USB_Descriptor_String_t := USB_STRING_DESCRIPTOR (wide "HORIPAD S").

(** ** Flash memory and the callback *)

(** The descriptor objects, and a pointer into one of them. *)
Inductive flash_object :=
  | O_JoystickReport | O_DeviceDescriptor | O_ConfigurationDescriptor
  | O_LanguageString | O_ManufacturerString | O_ProductString.

Definition flash (o : flash_object) : list Z :=
  match o with
  | O_JoystickReport => JoystickReport
  | O_DeviceDescriptor => pack DeviceDescriptor
  | O_ConfigurationDescriptor => configuration_bytes ConfigurationDescriptor
  | O_LanguageString => string_bytes LanguageString
  | O_ManufacturerString => string_bytes ManufacturerString
  | O_ProductString => string_bytes ProductString
  end.

Inductive address := NULL | Flash (o : flash_object) (offset : nat).

(** The bytes of the object from a pointer on. *)
Definition memory_at (a : address) : list Z :=
  match a with NULL => [] | Flash o n => drop n (flash o) end.

(** [pgm_read_byte] of the [Header.Size] member of a string object. *)
Definition string_size (d : USB_Descriptor_String_t) : Z := Header_Size (String_Header d).

(** [offsetof(USB_Descriptor_Configuration_t, HID_JoystickHID)]. *)
Definition offset_HID : nat :=
  Z.to_nat (sizeof USB_Descriptor_Configuration_Header_t + sizeof USB_Descriptor_Interface_t).

(** The pointer stored through [DescriptorAddress], and the size returned. *)
Definition CALLBACK_USB_GetDescriptor (wValue wIndex : Z) : address * Z :=
  let DescriptorType := u8 (Z.shiftr wValue 8) in
  let DescriptorNumber := u8 (Z.land wValue 0xFF) in
  if DescriptorType =? dtype DTYPE_Device then
    (Flash O_DeviceDescriptor 0, sizeof USB_Descriptor_Device_t)
  else if DescriptorType =? dtype DTYPE_Configuration then
    (Flash O_ConfigurationDescriptor 0, sizeof_Configuration)
  else if DescriptorType =? dtype DTYPE_String then
    if DescriptorNumber =? STRING_ID_Language then
      (Flash O_LanguageString 0, string_size LanguageString)
    else if DescriptorNumber =? STRING_ID_Manufacturer then
      (Flash O_ManufacturerString 0, string_size ManufacturerString)
    else if DescriptorNumber =? STRING_ID_Product then
      (Flash O_ProductString 0, string_size ProductString)
    else (NULL, NO_DESCRIPTOR)
  else if DescriptorType =? DTYPE_HID then
    (Flash O_ConfigurationDescriptor offset_HID, sizeof USB_HID_Descriptor_HID_t)
  else if DescriptorType =? DTYPE_Report then
    (Flash O_JoystickReport 0, Z.of_nat (List.length JoystickReport))
  else (NULL, NO_DESCRIPTOR).

(** What the host reads: the bytes from the pointer, as many as the size says. *)
Definition descriptor_bytes (wValue wIndex : Z) : list Z :=
  let '(a, size) := CALLBACK_USB_GetDescriptor wValue wIndex in
  take (Z.to_nat size) (memory_at a).

(** ** What the host is given *)

(** A boolean summary of one descriptor: the memory behind the pointer covers
    the size, its bytes are bytes, it starts with a header that says the type
    asked for and its own length (a configuration: its header's length, with
    the total in the header). *)
Definition wf_descriptor (t : Z) (size : Z) (mem : list Z) : bool :=
  let bs := take (Z.to_nat size) mem in
  (size <=? Z.of_nat (List.length mem)) && forallb (fun b => bool_decide (is_u8 b)) bs &&
  if t =? DTYPE_Report then true
  else if t =? dtype DTYPE_Configuration then
    match unpack (A := USB_Descriptor_Configuration_Header_t) bs with
    | Some c => (Config_TotalConfigurationSize c =? size)
                && (Header_Size (Config_Header c) =? sizeof USB_Descriptor_Configuration_Header_t)
                && (Header_Type (Config_Header c) =? t)
    | None => false
    end
  else
    match unpack (A := USB_Descriptor_Header_t) bs with
    | Some h => (Header_Size h =? size) && (Header_Type h =? t)
    | None => false
    end.

(** The descriptor types the firmware serves. *)
Definition served (t n : Z) : bool :=
  (t =? dtype DTYPE_Device) || (t =? dtype DTYPE_Configuration)
  || ((t =? dtype DTYPE_String) && (n <=? 2)) || (t =? DTYPE_HID) || (t =? DTYPE_Report).

Ltac case_type :=
  match goal with
  | |- context [if ?a =? ?b then _ else _] => destruct (Z.eqb_spec a b) as [?Ht|?Ht]
  end.

Lemma callback_cases wValue wIndex :
  let t := u8 (Z.shiftr wValue 8) in
  let n := u8 (Z.land wValue 0xFF) in
  let '(a, size) := CALLBACK_USB_GetDescriptor wValue wIndex in
  if served t n then size <> 0 /\ wf_descriptor t size (memory_at a) = true
  else a = NULL /\ size = 0.
Proof.
  unfold CALLBACK_USB_GetDescriptor.
  generalize (u8 (Z.shiftr wValue 8)) as t. intros t.
  pose proof (u8_range (Z.land wValue 0xFF)) as Hn. revert Hn.
  generalize (u8 (Z.land wValue 0xFF)) as n. intros n Hn.
  cbv zeta. repeat case_type; subst; try (split; [done|by vm_compute]); unfold served.
  1: replace (n <=? 2) with false; [by vm_compute|].
  - unfold is_u8, STRING_ID_Product, STRING_ID_Language, STRING_ID_Manufacturer in *. lia.
  - repeat match goal with H : ?a <> ?b |- _ => rewrite (proj2 (Z.eqb_neq a b) H) end. done.
Qed.

(** C36: for every value of [wValue] and [wIndex], [CALLBACK_USB_GetDescriptor]
    either serves a descriptor (device, configuration, the three strings, HID,
    report) or answers a null pointer with [NO_DESCRIPTOR].  A served
    descriptor lies wholly inside its flash object, is made of bytes, and (the
    report descriptor apart) begins with a header that holds the requested
    type and the returned size; a configuration holds the returned size as its
    total. *)
Theorem get_descriptor_wellformed wValue wIndex :
  let t := u8 (Z.shiftr wValue 8) in
  let n := u8 (Z.land wValue 0xFF) in
  let '(a, size) := CALLBACK_USB_GetDescriptor wValue wIndex in
  if served t n then size <> 0 /\ wf_descriptor t size (memory_at a) = true
  else a = NULL /\ size = 0.
Proof. apply callback_cases. Qed.

(** What the host reads back is what Descriptors.c initialises: the bytes
    served for the device and the HID descriptor decode to the structures
    themselves, the five parts of the configuration decode in the order of the
    structure's members, and the report length in the HID descriptor is the
    length of the report descriptor served. *)
Theorem descriptors_roundtrip wIndex :
  unpack (descriptor_bytes 0x0100 wIndex) = Some DeviceDescriptor /\
  unpack (descriptor_bytes 0x2100 wIndex) = Some (HID_JoystickHID ConfigurationDescriptor) /\
  (let c := descriptor_bytes 0x0200 wIndex in
   unpack c = Some (Config ConfigurationDescriptor) /\
   unpack (drop 9 c) = Some (HID_Interface ConfigurationDescriptor) /\
   unpack (drop 18 c) = Some (HID_JoystickHID ConfigurationDescriptor) /\
   unpack (drop 27 c) = Some (joystick_endpoint JOYSTICK_OUT_EPADDR) /\
   unpack (drop 34 c) = Some (joystick_endpoint JOYSTICK_IN_EPADDR) /\
   List.length c = 41%nat) /\
  HID_HIDReportLength (HID_JoystickHID ConfigurationDescriptor)
    = Z.of_nat (List.length (descriptor_bytes 0x2200 wIndex)).
Proof. by vm_compute. Qed.

(** The string descriptors the host reads: the length in the header leaves out
    the terminating NUL. *)
Definition string_text (bs : list Z) : list Z := decode (replicate (Nat.div2 (List.length bs) - 1) 2%nat) (drop 2 bs).

(** The text the host reads from the string descriptors is the language
    identifier and the literals of Descriptors.c, without the terminating NUL
    that the objects in flash carry. *)
Theorem string_descriptors_text wIndex :
  string_text (descriptor_bytes 0x0300 wIndex) = [LANGUAGE_ID_ENG] /\
  string_text (descriptor_bytes 0x0301 wIndex) = wide "HORI CO.,LTD." /\
  string_text (descriptor_bytes 0x0302 wIndex) = wide "HORIPAD S" /\
  List.length (flash O_ManufacturerString) = (List.length (descriptor_bytes 0x0301 wIndex) + 2)%nat.
Proof. by vm_compute. Qed.
