(* ===== verification/ConfigDescriptors.v ===== *)
(** * Walking a configuration descriptor (LUFA ConfigDescriptors.c, ConfigDescriptors.h)

    The routines that step over the sub-descriptors of a configuration and
    search for one of a given type, between two types, or accepted by a
    comparator.  The two objects they update through pointers, [*BytesRem] and
    [*CurrConfigLoc], are the program state; [CurrConfigLoc] is an offset into
    the memory [mem] that holds the configuration. *)

From S2P Require Import Prelude StdDescriptors HIDClass Descriptors Machine.

Record cursor := Cursor { BytesRem : Z; CurrConfigLoc : Z }.

Inductive DSearch_Return_ErrorCodes_t :=
  | DESCRIPTOR_SEARCH_Found | DESCRIPTOR_SEARCH_Fail | DESCRIPTOR_SEARCH_NotFound.
Inductive DSearch_Comp_Return_ErrorCodes_t :=
  | DESCRIPTOR_SEARCH_COMP_Found | DESCRIPTOR_SEARCH_COMP_Fail
  | DESCRIPTOR_SEARCH_COMP_EndOfDescriptor.

Section Walk.
Variable mem : list Z.

(** Members of the header found at an address; [None] outside the memory. *)
Definition DESCRIPTOR_SIZE (loc : Z) : option Z := aget mem loc.
Definition DESCRIPTOR_TYPE (loc : Z) : option Z := aget mem (loc + 1).

Definition USB_GetNextDescriptor : M cursor unit :=
  c <- mget;;
  size <- mlift (DESCRIPTOR_SIZE (CurrConfigLoc c));;
  let CurrDescriptorSize := if BytesRem c <? size then BytesRem c else size in
  mmodify (fun c => Cursor (u16 (BytesRem c - CurrDescriptorSize))
                           (CurrConfigLoc c + CurrDescriptorSize)).

(** The type member at the current location. *)
Definition current_type : M cursor Z :=
  c <- mget;; mlift (DESCRIPTOR_TYPE (CurrConfigLoc c)).

Definition USB_GetNextDescriptorOfType (Type_ : Z) : M cursor unit :=
  while_ (fun _ : unit =>
    c <- mget;;
    if BytesRem c =? 0 then ret (inr tt) else
    USB_GetNextDescriptor;;;
    t <- current_type;;
    ret (if t =? Type_ then inr tt else inl tt)) tt.

Definition USB_GetNextDescriptorOfTypeBefore (Type_ BeforeType : Z) : M cursor unit :=
  while_ (fun _ : unit =>
    c <- mget;;
    if BytesRem c =? 0 then ret (inr tt) else
    USB_GetNextDescriptor;;;
    t <- current_type;;
    if t =? Type_ then ret (inr tt)
    else if t =? BeforeType then
      mmodify (fun c => Cursor 0 (CurrConfigLoc c));;; ret (inr tt)
    else ret (inl tt)) tt.

Definition USB_GetNextDescriptorOfTypeAfter (Type_ AfterType : Z) : M cursor unit :=
  USB_GetNextDescriptorOfType AfterType;;;
  c <- mget;;
  if BytesRem c =? 0 then ret tt else USB_GetNextDescriptorOfType Type_.

(** The comparator is a function the caller supplies: what it answers for the
    descriptor at an address. *)
Definition USB_GetNextDescriptorComp (ComparatorRoutine : Z -> DSearch_Return_ErrorCodes_t) :
    M cursor DSearch_Comp_Return_ErrorCodes_t :=
  while_ (fun _ : unit =>
    c <- mget;;
    if BytesRem c =? 0 then ret (inr DESCRIPTOR_SEARCH_COMP_EndOfDescriptor) else
    USB_GetNextDescriptor;;;
    c' <- mget;;
    match ComparatorRoutine (CurrConfigLoc c') with
    | DESCRIPTOR_SEARCH_NotFound => ret (inl tt)
    | DESCRIPTOR_SEARCH_Found => ret (inr DESCRIPTOR_SEARCH_COMP_Found)
    | DESCRIPTOR_SEARCH_Fail =>
        mmodify (fun _ => c);;; ret (inr DESCRIPTOR_SEARCH_COMP_Fail)
    end) tt.
End Walk.

(** ** The memory as a chain of descriptors *)

(** A descriptor as it lies in memory: its length, its type, its body. *)
Definition wf_desc (d : list Z) : Prop :=
  (2 <= length d < 256)%nat /\ head d = Some (Z.of_nat (length d)).

#[export] Instance wf_desc_dec d : Decision (wf_desc d).
Proof. unfold wf_desc. apply _. Defined.

Definition desc_type (d : list Z) : option Z := d !! 1%nat.

Definition total (ds : list (list Z)) : Z := Z.of_nat (length (concat ds)).

(** The cursor of the last descriptors [ds] of a configuration that ends at
    address [e]. *)
Definition cursor_at (e : Z) (ds : list (list Z)) : cursor := Cursor (total ds) (e - total ds).

(** [mem] holds the descriptors [ds] up to address [e], where two more bytes can
    be read. *)
Definition chain (mem : list Z) (e : Z) (ds : list (list Z)) : Prop :=
  exists pre post, mem = pre ++ concat ds ++ post /\
    e = Z.of_nat (length pre) + total ds /\ (2 <= length post)%nat /\
    Forall wf_desc ds /\ is_u16 (total ds).

(** First of the descriptors after the current one that [P] accepts, with
    those behind it. *)
Fixpoint first_suffix (P : list Z -> bool) (ds : list (list Z)) : list (list Z) :=
  match ds with
  | [] => []
  | d :: ds' => if P d then ds else first_suffix P ds'
  end.

Definition has_type (t : Z) (d : list Z) : bool := bool_decide (desc_type d = Some t).

Lemma has_type_eq t d : desc_type d = Some t -> has_type t d = true.
Proof. intros. unfold has_type. by rewrite bool_decide_true. Qed.

Section ChainLemmas.
Context {mem : list Z} {e : Z}.

Lemma total_cons d ds : total (d :: ds) = Z.of_nat (length d) + total ds.
Proof. unfold total. simpl. rewrite length_app. lia. Qed.

Lemma chain_tail d ds : chain mem e (d :: ds) -> chain mem e ds.
Proof.
  intros (pre & post & -> & -> & Hp & Hw & Ht). exists (pre ++ d), post.
  rewrite total_cons in *. apply Forall_cons_iff in Hw as [Hd Hw].
  simpl. rewrite length_app, <- !app_assoc.
  split_and!; [done|lia|done|done|]. revert Ht. unfold is_u16, total. lia.
Qed.

Lemma chain_lookup ds (i : nat) x :
  chain mem e ds -> concat ds !! i = Some x -> aget mem (e - total ds + Z.of_nat i) = Some x.
Proof.
  intros (pre & post & -> & -> & _) Hx. unfold aget. rewrite decide_True by lia.
  replace (Z.to_nat _) with (length pre + i)%nat by lia.
  rewrite lookup_app_r by lia.
  replace (length pre + i - length pre)%nat with i by lia.
  rewrite lookup_app_l; [done|]. by eapply lookup_lt_Some.
Qed.

Lemma chain_size d ds : chain mem e (d :: ds) ->
  DESCRIPTOR_SIZE mem (e - total (d :: ds)) = Some (Z.of_nat (length d)).
Proof.
  intros Hc. unfold DESCRIPTOR_SIZE.
  rewrite <- (chain_lookup (d :: ds) 0 (Z.of_nat (length d)) Hc).
  - f_equal. lia.
  - destruct Hc as (? & ? & _ & _ & _ & Hw & _).
    apply Forall_cons_iff in Hw as [[Hl Hd] _]. destruct d; [done|]. simpl in *. congruence.
Qed.

(** The type read at the current location: that of the current descriptor, or
    whatever the memory holds after the end. *)
Lemma chain_type ds : chain mem e ds ->
  exists t, DESCRIPTOR_TYPE mem (e - total ds) = Some t /\
    match ds with [] => True | d :: _ => desc_type d = Some t end.
Proof.
  intros Hc. destruct ds as [|d ds].
  - destruct Hc as (pre & post & -> & -> & Hp & _).
    destruct post as [|a [|b post]]; simpl in Hp; try lia.
    exists b. split; [|done]. unfold DESCRIPTOR_TYPE, aget. rewrite decide_True by (unfold total; simpl; lia).
    replace (Z.to_nat _) with (length pre + 1)%nat by (unfold total; simpl; lia).
    rewrite lookup_app_r by lia. replace (length pre + 1 - length pre)%nat with 1%nat by lia. done.
  - pose proof Hc as (? & ? & _ & _ & _ & Hw & _).
    apply Forall_cons_iff in Hw as [[Hl Hd] _].
    destruct d as [|a [|t d]]; simpl in Hl; try lia.
    exists t. split; [|done]. unfold DESCRIPTOR_TYPE.
    by apply (chain_lookup ((a :: t :: d) :: ds) 1 t Hc).
Qed.

(** One step from a descriptor to the next. *)
Lemma wp_next nf d ds Q p (w : world cursor) :
  chain mem e (d :: ds) -> st w = cursor_at e (d :: ds) ->
  Q tt (World (cursor_at e ds) (hist w)) ->
  wp nf (USB_GetNextDescriptor mem) Q p w.
Proof.
  intros Hc Hst HQ. unfold USB_GetNextDescriptor. wp_step. wp_step. rewrite Hst.
  apply wp_bind. eapply wp_lift; [by apply chain_size|].
  wp_step. rewrite Hst. unfold cursor_at in *. cbn [BytesRem CurrConfigLoc].
  pose proof (chain_tail _ _ Hc) as (? & ? & _ & _ & _ & _ & Ht).
  rewrite total_cons in *. rewrite (proj2 (Z.ltb_ge _ _)) by (unfold total; lia).
  replace (Z.of_nat (length d) + total ds - Z.of_nat (length d)) with (total ds) by lia.
  rewrite u16_small by done.
  replace (e - (Z.of_nat (length d) + total ds) + Z.of_nat (length d)) with (e - total ds) by lia.
  done.
Qed.

Lemma total_pos d ds : chain mem e (d :: ds) -> (total (d :: ds) =? 0) = false.
Proof.
  intros (? & ? & _ & _ & _ & Hw & _). apply Forall_cons_iff in Hw as [[Hl _] _].
  rewrite total_cons. apply Z.eqb_neq. unfold total. lia.
Qed.
End ChainLemmas.

(** ** The searches *)

(** Where a search that must come before another type ends. *)
Definition search_before (Type_ BeforeType : Z) (e : Z) (ds : list (list Z)) : cursor :=
  let r := first_suffix (fun d => has_type Type_ d || has_type BeforeType d) ds in
  match r with
  | d :: _ => if has_type Type_ d then cursor_at e r else Cursor 0 (e - total r)
  | [] => cursor_at e []
  end.

(** A comparator search along a chain: the code returned and the cursor. *)
Fixpoint search_comp (C : Z -> DSearch_Return_ErrorCodes_t) (e : Z) (ds : list (list Z)) :
    DSearch_Comp_Return_ErrorCodes_t * cursor :=
  match ds with
  | [] => (DESCRIPTOR_SEARCH_COMP_EndOfDescriptor, cursor_at e [])
  | d :: ds' =>
      match C (e - total ds') with
      | DESCRIPTOR_SEARCH_Found => (DESCRIPTOR_SEARCH_COMP_Found, cursor_at e ds')
      | DESCRIPTOR_SEARCH_Fail => (DESCRIPTOR_SEARCH_COMP_Fail, cursor_at e ds)
      | DESCRIPTOR_SEARCH_NotFound => search_comp C e ds'
      end
  end.

Section Searches.
Context {mem : list Z} {e : Z} (p : platform).

Lemma wp_next_type {B} nf d ds (k : Z -> M cursor B) Q (w : world cursor) :
  chain mem e (d :: ds) -> st w = cursor_at e (d :: ds) ->
  (forall t, match ds with [] => True | d' :: _ => desc_type d' = Some t end ->
     wp nf (k t) Q p (World (cursor_at e ds) (hist w))) ->
  wp nf (USB_GetNextDescriptor mem;;; t <- current_type mem;; k t) Q p w.
Proof.
  intros Hc Hst HQ. apply wp_bind. eapply (wp_next _ d ds); [done..|].
  apply wp_bind. unfold current_type. wp_step. wp_step.
  destruct (chain_type ds (chain_tail _ _ Hc)) as (t & Ht & Hd).
  eapply wp_lift; [exact Ht|]. by apply HQ.
Qed.

Definition remaining (w : world cursor) : nat := Z.to_nat (BytesRem (st w)).

Lemma remaining_tail d ds h h' : chain mem e (d :: ds) ->
  (remaining (World (cursor_at e ds) h) < remaining (World (cursor_at e (d :: ds)) h'))%nat.
Proof.
  intros Hc. pose proof (total_pos _ _ Hc) as Hp. apply Z.eqb_neq in Hp.
  destruct Hc as (? & ? & _ & _ & _ & Hw & _). apply Forall_cons_iff in Hw as [[Hl _] _].
  unfold remaining, cursor_at. cbn. rewrite total_cons in *. unfold total in *. lia.
Qed.

Lemma remaining_fuel ds (w : world cursor) :
  chain mem e ds -> st w = cursor_at e ds -> 65536 <= Z.of_nat (fuel p) ->
  (remaining w < fuel p)%nat.
Proof.
  intros (? & ? & _ & _ & _ & _ & Ht) Hst Hf. unfold remaining. rewrite Hst.
  cbn [cursor_at BytesRem]. unfold is_u16 in Ht. lia.
Qed.

(** One round of a search loop: at the end of the chain it stops; otherwise it
    has stepped to the next descriptor and read its type. *)
Lemma wp_round {R} nf ds (r : R) (k : Z -> M cursor (unit + R)) (Q : unit + R -> world cursor -> Prop) (w : world cursor) :
  chain mem e ds -> st w = cursor_at e ds ->
  (ds = [] -> Q (inr r) w) ->
  (forall d ds' t, ds = d :: ds' ->
     match ds' with [] => True | d' :: _ => desc_type d' = Some t end ->
     wp nf (k t) Q p (World (cursor_at e ds') (hist w))) ->
  wp nf (c <- mget;;
         if BytesRem c =? 0 then ret (inr r) else
         USB_GetNextDescriptor mem;;; t <- current_type mem;; k t) Q p w.
Proof.
  intros Hc Hst H0 HQ. apply wp_bind, wp_get. rewrite Hst. cbn [cursor_at BytesRem].
  destruct ds as [|d ds]; [apply wp_ret, H0; done|].
  rewrite (total_pos _ _ Hc). apply (wp_next_type nf d ds); [done..|].
  intros t Ht. by apply (HQ d ds t).
Qed.

Lemma wp_of_type nf Type_ ds Q (w : world cursor) :
  chain mem e ds -> st w = cursor_at e ds -> 65536 <= Z.of_nat (fuel p) ->
  Q tt (World (cursor_at e (first_suffix (has_type Type_) (tail ds))) (hist w)) ->
  wp nf (USB_GetNextDescriptorOfType mem Type_) Q p w.
Proof.
  intros Hc Hst Hf HQ. unfold USB_GetNextDescriptorOfType.
  apply (wp_while_variant nf p
    (fun _ w' => exists ds', chain mem e ds' /\ st w' = cursor_at e ds' /\ hist w' = hist w /\
       first_suffix (has_type Type_) (tail ds') = first_suffix (has_type Type_) (tail ds))
    (fun _ w' => remaining w')).
  - intros _ [s h] (ds' & Hc' & Hs & Hh & He). cbn [st hist] in *. subst s h.
    apply (wp_round nf ds'); [done..| |].
    + intros ->. cbn [tail first_suffix] in He. rewrite <- He in HQ. exact HQ.
    + intros d ds2 t -> Ht. cbn [tail] in He. apply wp_ret. destruct (Z.eqb_spec t Type_) as [->|Hne].
      * rewrite <- He in HQ. destruct ds2 as [|d2 ds2]; [exact HQ|].
        cbn [first_suffix] in HQ. unfold has_type in HQ. rewrite bool_decide_true in HQ by done. exact HQ.
      * split; [|by apply remaining_tail]. exists ds2.
        split_and!; [by eapply chain_tail|done|done|]. rewrite <- He.
        destruct ds2 as [|d2 ds2]; [done|]. cbn [first_suffix tail]. unfold has_type at 2.
        rewrite bool_decide_false; [done|]. congruence.
  - eauto.
  - by eapply remaining_fuel.
Qed.
End Searches.

(** In a memory that holds a chain of well-formed descriptors (each with its
    own length, at least 2, in its first byte) and two readable bytes after it,
    [USB_GetNextDescriptorOfType] ends and leaves the cursor at the first later
    descriptor of the type asked for, with the bytes that remain from there; if
    there is none the cursor is at the end with no bytes remaining.
    [USB_GetNextDescriptorOfTypeAfter] composes two such searches. *)
Theorem next_of_type_finds mem e ds Type_ AfterType p (w : world cursor) :
  chain mem e ds -> st w = cursor_at e ds -> 65536 <= Z.of_nat (fuel p) ->
  wp False (USB_GetNextDescriptorOfType mem Type_)
    (fun _ w' => st w' = cursor_at e (first_suffix (has_type Type_) (tail ds))) p w /\
  wp False (USB_GetNextDescriptorOfTypeAfter mem Type_ AfterType)
    (fun _ w' => st w' = cursor_at e
       (first_suffix (has_type Type_) (tail (first_suffix (has_type AfterType) (tail ds))))) p w.
Proof.
  intros Hc Hst Hf. split; [by apply (wp_of_type (e := e) p False Type_ ds)|].
  unfold USB_GetNextDescriptorOfTypeAfter. apply wp_bind.
  apply (wp_of_type (e := e) p False AfterType ds); [done..|].
  set (ds1 := first_suffix (has_type AfterType) (tail ds)).
  assert (chain mem e ds1) as Hc1.
  { subst ds1. destruct ds as [|d ds]; [done|]. apply chain_tail in Hc. cbn [tail].
    clear Hst. induction ds as [|d' ds IH]; [done|]. cbn [first_suffix].
    destruct (has_type AfterType d'); [done|]. apply IH. by eapply chain_tail. }
  apply wp_bind, wp_get. cbn [st cursor_at BytesRem].
  destruct (Z.eqb_spec (total ds1) 0) as [H0|H0].
  - apply wp_ret. destruct ds1 as [|d1 ds1]; [done|].
    pose proof (total_pos _ _ Hc1) as Hp. by apply Z.eqb_neq in Hp.
  - by apply (wp_of_type (e := e) p False Type_ ds1).
Qed.

(** Under the same conditions [USB_GetNextDescriptorOfTypeBefore] ends at the
    first later descriptor of either type: with the cursor there when it has
    the type searched for, and with no bytes remaining when the barrier type
    comes first or the chain ends. *)
Theorem next_of_type_before_stops mem e ds Type_ BeforeType p (w : world cursor) :
  chain mem e ds -> st w = cursor_at e ds -> 65536 <= Z.of_nat (fuel p) ->
  wp False (USB_GetNextDescriptorOfTypeBefore mem Type_ BeforeType)
    (fun _ w' => st w' = search_before Type_ BeforeType e (tail ds)) p w.
Proof.
  intros Hc Hst Hf. unfold USB_GetNextDescriptorOfTypeBefore.
  apply (wp_while_variant False p
    (fun _ w' => exists ds', chain mem e ds' /\ st w' = cursor_at e ds' /\
       search_before Type_ BeforeType e (tail ds') = search_before Type_ BeforeType e (tail ds))
    (fun _ w' => remaining w')).
  - intros _ [s h] (ds' & Hc' & Hs & <-). cbn [st hist] in *. subst s.
    apply (wp_round (e := e) p False ds'); [done..|by intros ->|].
    intros d ds2 t -> Ht. cbn [tail].
    assert (forall x, t <> x -> match ds2 with [] => False | d2 :: _ => has_type x d2 = true end -> False) as Hno.
    { intros x Hx. destruct ds2; [done|]. unfold has_type. rewrite bool_decide_eq_true. congruence. }
    destruct (Z.eqb_spec t Type_) as [->|H1]; [|destruct (Z.eqb_spec t BeforeType) as [->|H2]].
    + apply wp_ret. unfold search_before. destruct ds2 as [|d2 ds2]; [done|]. cbn [first_suffix st].
      by rewrite (has_type_eq _ _ Ht), orb_true_l, (has_type_eq _ _ Ht).
    + apply wp_bind, wp_modify, wp_ret. cbn [st]. unfold search_before.
      destruct ds2 as [|d2 ds2]; [done|]. cbn [first_suffix].
      specialize (Hno _ H1). cbn in Hno. destruct (has_type Type_ d2) eqn:E; [by destruct Hno|].
      by rewrite (has_type_eq _ _ Ht), orb_true_r, E.
    + apply wp_ret. split; [|by eapply remaining_tail]. exists ds2.
      split_and!; [by eapply chain_tail|done|]. unfold search_before.
      destruct ds2 as [|d2 ds2]; [done|]. cbn [first_suffix tail].
      pose proof (Hno _ H1) as Hn1. pose proof (Hno _ H2) as Hn2. cbn in Hn1, Hn2.
      destruct (has_type Type_ d2), (has_type BeforeType d2); tauto.
  - eauto.
  - by eapply remaining_fuel.
Qed.

(** [USB_GetNextDescriptorComp] asks the comparator about each later
    descriptor in turn, and last about the address after the chain, and returns
    at the first answer other than not found; a failing comparator leaves the
    cursor on the descriptor before the one that failed. *)
Theorem next_comp_searches mem e ds C p (w : world cursor) :
  chain mem e ds -> st w = cursor_at e ds -> 65536 <= Z.of_nat (fuel p) ->
  wp False (USB_GetNextDescriptorComp mem C)
    (fun r w' => (r, st w') = search_comp C e ds) p w.
Proof.
  intros Hc Hst Hf. unfold USB_GetNextDescriptorComp.
  apply (wp_while_variant False p
    (fun _ w' => exists ds', chain mem e ds' /\ st w' = cursor_at e ds' /\
       search_comp C e ds' = search_comp C e ds)
    (fun _ w' => remaining w')).
  - intros _ [s h] (ds' & Hc' & Hs & <-). cbn [st hist] in *. subst s.
    apply wp_bind, wp_get. cbn [st cursor_at BytesRem].
    destruct ds' as [|d ds2]; [by apply wp_ret|]. rewrite (total_pos _ _ Hc').
    apply wp_bind. eapply (wp_next _ d ds2); [done..|].
    apply wp_bind, wp_get. cbn [st hist]. cbn [search_comp cursor_at CurrConfigLoc].
    destruct (C (e - total ds2)) eqn:HC.
    + by apply wp_ret.
    + by apply wp_bind, wp_modify, wp_ret.
    + apply wp_ret. split; [|by eapply remaining_tail]. exists ds2.
      split_and!; [by eapply chain_tail|done|done].
  - eauto.
  - by eapply remaining_fuel.
Qed.

(** A sub-descriptor whose length byte is 0 stops the walk for good: the
    search for any other type never ends, whatever the number of iterations
    allowed. *)
Theorem zero_length_descriptor_hangs mem loc rem t Type_ p (w : world cursor) :
  aget mem loc = Some 0 -> aget mem (loc + 1) = Some t -> t <> Type_ ->
  st w = Cursor rem loc -> 0 < rem < 65536 ->
  USB_GetNextDescriptorOfType mem Type_ p w = NoFuel.
Proof.
  intros H0 H1 Hne Hst Hr. unfold USB_GetNextDescriptorOfType, while_, bind at 1, mfuel.
  destruct w as [s h]. cbn [st] in Hst. subst s.
  induction (fuel p) as [|n IH]; [done|]. cbn [loop]. unfold bind at 1.
  match goal with |- match ?m with _ => _ end = _ =>
    assert (m = Done (inl tt) (World (Cursor rem loc) h)) as -> end; [|exact IH].
  unfold USB_GetNextDescriptor, current_type, DESCRIPTOR_SIZE, DESCRIPTOR_TYPE.
  unfold bind, mget, mmodify, mlift, ret. cbn [st hist BytesRem CurrConfigLoc].
  rewrite (proj2 (Z.eqb_neq rem 0)) by lia. cbn [st hist BytesRem CurrConfigLoc].
  rewrite H0. cbn [st hist BytesRem CurrConfigLoc].
  rewrite (proj2 (Z.ltb_ge rem 0)), Z.add_0_r, Z.sub_0_r, H1, u16_small by (unfold is_u16; lia).
  by rewrite (proj2 (Z.eqb_neq t Type_)).
Qed.

(** ** The walk over the controller's own configuration *)

(** The five descriptors of [ConfigurationDescriptor] as they lie in flash. *)
Definition own_chain : list (list Z) :=
  let c := ConfigurationDescriptor in
  [pack (Config c); pack (HID_Interface c); pack (HID_JoystickHID c);
   pack (HID_ReportOUTEndpoint c); pack (HID_ReportINEndpoint c)].

Definition own_memory : list Z := configuration_bytes ConfigurationDescriptor ++ [0; 0].

Definition any_platform : platform := {| respond := fun _ _ => 0; fuel := Z.to_nat 65536 |}.

Lemma own_chain_ok : chain own_memory 41 own_chain.
Proof.
  exists [], [0; 0]. split_and!; [reflexivity|reflexivity|simpl; lia| |vm_compute; split; congruence].
  by apply (bool_decide_unpack _).
Qed.

Lemma any_platform_fuel : 65536 <= Z.of_nat (fuel any_platform).
Proof. unfold any_platform. cbn [fuel]. lia. Qed.

Definition at_start : world cursor := World (cursor_at 41 own_chain) [].

(** The searches end at the OUT endpoint descriptor (27 bytes in, 14 left). *)
Lemma next_of_type_finds_witness :
  chain own_memory 41 own_chain /\
  wp False (USB_GetNextDescriptorOfType own_memory (dtype DTYPE_Endpoint))
    (fun _ w' => st w' = Cursor 14 27) any_platform at_start.
Proof.
  split; [apply own_chain_ok|].
  exact (proj1 (next_of_type_finds own_memory 41 own_chain (dtype DTYPE_Endpoint) 0 any_platform
                  at_start own_chain_ok eq_refl any_platform_fuel)).
Defined.

Lemma next_of_type_before_stops_witness :
  wp False (USB_GetNextDescriptorOfTypeBefore own_memory (dtype DTYPE_Endpoint) DTYPE_HID)
    (fun _ w' => st w' = Cursor 0 18) any_platform at_start.
Proof.
  exact (next_of_type_before_stops own_memory 41 own_chain (dtype DTYPE_Endpoint) DTYPE_HID
           any_platform at_start own_chain_ok eq_refl any_platform_fuel).
Defined.

Lemma next_comp_searches_witness :
  wp False (USB_GetNextDescriptorComp own_memory
              (fun loc => if decide (loc = 34) then DESCRIPTOR_SEARCH_Fail else DESCRIPTOR_SEARCH_NotFound))
    (fun r w' => (r, st w') = (DESCRIPTOR_SEARCH_COMP_Fail, Cursor 14 27)) any_platform at_start.
Proof.
  exact (next_comp_searches own_memory 41 own_chain _ any_platform at_start own_chain_ok eq_refl
           any_platform_fuel).
Defined.

Lemma zero_length_descriptor_hangs_witness :
  USB_GetNextDescriptorOfType [0; 4; 9; 9] 5 any_platform (World (Cursor 4 0) []) = NoFuel.
Proof. apply (zero_length_descriptor_hangs _ 0 4 4); (reflexivity || lia). Defined.
