(* ===== verification/HIDParser.v ===== *)
(** * The HID report descriptor parser (LUFA HIDParser.c, HIDParser.h)

    [USB_ProcessHIDReport] reads a report descriptor into a table of report
    items; [USB_GetHIDReportItemInfo] and [USB_SetHIDReportItemInfo] read and
    write one item of a report.  Pointers into the arrays of the parser are
    indices; a read outside the descriptor and an access outside an array,
    which C leaves undefined, are [PFault].  The callback that filters items is
    application code and a parameter, as are the values of the two members of
    a new item that the parser never initialises. *)

From S2P Require Import Prelude StdDescriptors HIDClass Descriptors.

Definition HID_STATETABLE_STACK_DEPTH : nat := 2.
Definition HID_USAGE_STACK_DEPTH : nat := 8.
Definition HID_MAX_COLLECTIONS : nat := 10.
Definition HID_MAX_REPORTITEMS : nat := 20.
Definition HID_MAX_REPORT_IDS : nat := 10.

Inductive HID_Parse_ErrorCodes_t :=
  | HID_PARSE_Successful | HID_PARSE_HIDStackOverflow | HID_PARSE_HIDStackUnderflow
  | HID_PARSE_InsufficientReportItems | HID_PARSE_UnexpectedEndCollection
  | HID_PARSE_InsufficientCollectionPaths | HID_PARSE_UsageListOverflow
  | HID_PARSE_InsufficientReportIDItems | HID_PARSE_NoUnfilteredReportItems.

Record HID_MinMax_t := MinMax { Minimum : Z; Maximum : Z }.
Record HID_Unit_t := Unit_ { Unit_Type : Z; Unit_Exponent : Z }.
Record HID_Usage_t := Usage_ { Usage_Page : Z; Usage_Usage : Z }.

(** [Parent] is an index into [CollectionPaths]; [None] is [NULL]. *)
Record HID_CollectionPath_t := Coll {
  Coll_Type : Z;
  Coll_Usage : HID_Usage_t;
  Coll_Parent : option nat
}.

Record HID_ReportItem_Attributes_t := Attr {
  BitSize : Z;
  Attr_Usage : HID_Usage_t;
  Attr_Unit : HID_Unit_t;
  Logical : HID_MinMax_t;
  Physical : HID_MinMax_t
}.

Record HID_ReportItem_t := Item {
  BitOffset : Z;
  ItemType : HID_ReportItemTypes_t;
  ItemFlags : Z;
  Item_ReportID : Z;
  Item_CollectionPath : option nat;
  Attributes : HID_ReportItem_Attributes_t;
  Value : Z;
  PreviousValue : Z
}.

(** [ReportSizeBits[3]], one member per kind of report. *)
Record HID_ReportSizeInfo_t := SizeInfo {
  Size_ReportID : Z;
  ReportSizeBits_In : Z;
  ReportSizeBits_Out : Z;
  ReportSizeBits_Feature : Z
}.

Definition ReportSizeBits (s : HID_ReportSizeInfo_t) (t : HID_ReportItemTypes_t) : Z :=
  match t with
  | HID_REPORT_ITEM_In => ReportSizeBits_In s
  | HID_REPORT_ITEM_Out => ReportSizeBits_Out s
  | HID_REPORT_ITEM_Feature => ReportSizeBits_Feature s
  end.

Definition set_ReportSizeBits (s : HID_ReportSizeInfo_t) (t : HID_ReportItemTypes_t) (v : Z) : HID_ReportSizeInfo_t :=
  match t with
  | HID_REPORT_ITEM_In => SizeInfo (Size_ReportID s) v (ReportSizeBits_Out s) (ReportSizeBits_Feature s)
  | HID_REPORT_ITEM_Out => SizeInfo (Size_ReportID s) (ReportSizeBits_In s) v (ReportSizeBits_Feature s)
  | HID_REPORT_ITEM_Feature => SizeInfo (Size_ReportID s) (ReportSizeBits_In s) (ReportSizeBits_Out s) v
  end.

Record HID_ReportInfo_t := Info {
  TotalReportItems : Z;
  ReportItems : list HID_ReportItem_t;
  CollectionPaths : list HID_CollectionPath_t;
  TotalDeviceReports : Z;
  ReportIDSizes : list HID_ReportSizeInfo_t;
  LargestReportSizeBits : Z;
  UsingReportIDs : bool
}.

Record HID_StateTable_t := Table {
  Tbl_Attributes : HID_ReportItem_Attributes_t;
  ReportCount : Z;
  Tbl_ReportID : Z
}.

(** Sizes on the target, where structures are packed, pointers take two bytes
    and an enumeration kept in a [uint8_t] member one. *)
Definition sizeof_Attributes : Z := 1 + (2 + 2) + (4 + 1) + (4 + 4) + (4 + 4).
Definition sizeof_ReportItem : Z := 2 + 1 + 2 + 1 + 2 + sizeof_Attributes + 4 + 4.
Definition sizeof_StateTable : Z := sizeof_Attributes + 1 + 1.

(** The objects after the [memset]s. *)
Definition zero_attributes : HID_ReportItem_Attributes_t :=
  Attr 0 (Usage_ 0 0) (Unit_ 0 0) (MinMax 0 0) (MinMax 0 0).
Definition zero_item : HID_ReportItem_t := Item 0 HID_REPORT_ITEM_In 0 0 None zero_attributes 0 0.
Definition zero_path : HID_CollectionPath_t := Coll 0 (Usage_ 0 0) None.
Definition zero_size : HID_ReportSizeInfo_t := SizeInfo 0 0 0 0.
Definition zero_table : HID_StateTable_t := Table zero_attributes 0 0.

Definition initial_info : HID_ReportInfo_t :=
  Info 0 (replicate HID_MAX_REPORTITEMS zero_item) (replicate HID_MAX_COLLECTIONS zero_path)
       1 (replicate HID_MAX_REPORT_IDS zero_size) 0 false.

(** The variables of the parser.  Of [UsageList] only the first
    [UsageListSize] entries hold values: they are the list [UsageList].  The
    state tables above [CurrStateTable] are not read. *)
Record parser := Parser {
  ParserData : HID_ReportInfo_t;
  StateTable : list HID_StateTable_t;
  CurrStateTable : nat;
  CurrCollectionPath : option nat;
  CurrReportIDInfo : nat;
  UsageList : list Z;
  UsageMinMax : HID_MinMax_t
}.

Definition initial_parser : parser :=
  Parser initial_info (replicate HID_STATETABLE_STACK_DEPTH zero_table) 0 None 0 [] (MinMax 0 0).

(** ** Fallible steps *)

(** A value, a return from the parser with a code, or undefined behaviour. *)
Inductive pres (A : Type) :=
  | POk (a : A)
  | PReturn (code : HID_Parse_ErrorCodes_t) (s : parser)
  | PFault.
Arguments POk {A} a.
Arguments PReturn {A} code s.
Arguments PFault {A}.

Definition pbind {A B} (m : pres A) (k : A -> pres B) : pres B :=
  match m with POk a => k a | PReturn c s => PReturn c s | PFault => PFault end.
Definition pget {A B} (o : option A) (k : A -> pres B) : pres B :=
  match o with Some a => k a | None => PFault end.

Declare Scope parse_scope.
Delimit Scope parse_scope with parse.
Notation "'step' x := m 'in' k" := (pbind m (fun x => k))
  (at level 100, x name, m at level 99, k at level 200) : parse_scope.
Notation "'load' x := m 'in' k" := (pget m (fun x => k))
  (at level 100, x name, m at level 99, k at level 200) : parse_scope.
Open Scope parse_scope.

(** Updates of the parser's objects. *)
Definition with_info (f : HID_ReportInfo_t -> HID_ReportInfo_t) (s : parser) : parser :=
  Parser (f (ParserData s)) (StateTable s) (CurrStateTable s) (CurrCollectionPath s)
         (CurrReportIDInfo s) (UsageList s) (UsageMinMax s).
Definition with_usages (l : list Z) (mm : HID_MinMax_t) (s : parser) : parser :=
  Parser (ParserData s) (StateTable s) (CurrStateTable s) (CurrCollectionPath s)
         (CurrReportIDInfo s) l mm.
Definition with_table (i : nat) (t : HID_StateTable_t) (s : parser) : parser :=
  Parser (ParserData s) (<[i := t]> (StateTable s)) (CurrStateTable s) (CurrCollectionPath s)
         (CurrReportIDInfo s) (UsageList s) (UsageMinMax s).
Definition with_current (i : nat) (s : parser) : parser :=
  Parser (ParserData s) (StateTable s) i (CurrCollectionPath s)
         (CurrReportIDInfo s) (UsageList s) (UsageMinMax s).
Definition with_collection (c : option nat) (s : parser) : parser :=
  Parser (ParserData s) (StateTable s) (CurrStateTable s) c
         (CurrReportIDInfo s) (UsageList s) (UsageMinMax s).
Definition with_id_info (i : nat) (s : parser) : parser :=
  Parser (ParserData s) (StateTable s) (CurrStateTable s) (CurrCollectionPath s)
         i (UsageList s) (UsageMinMax s).
Definition set_size_info (i : nat) (z : HID_ReportSizeInfo_t) (r : HID_ReportInfo_t) : HID_ReportInfo_t :=
  Info (TotalReportItems r) (ReportItems r) (CollectionPaths r) (TotalDeviceReports r)
       (<[i := z]> (ReportIDSizes r)) (LargestReportSizeBits r) (UsingReportIDs r).
Definition set_path (i : nat) (c : HID_CollectionPath_t) (r : HID_ReportInfo_t) : HID_ReportInfo_t :=
  Info (TotalReportItems r) (ReportItems r) (<[i := c]> (CollectionPaths r)) (TotalDeviceReports r)
       (ReportIDSizes r) (LargestReportSizeBits r) (UsingReportIDs r).

(** ** Items *)

(** The data of an item and the pointer after it; [data] is the memory from
    [ReportData] on. *)
Definition fetch_item_data (HIDReportItem : Z) (data : list Z) (ReportSize : Z) : option (Z * list Z * Z) :=
  let sz := Z.land HIDReportItem HID_RI_DATA_SIZE_MASK in
  if sz =? HID_RI_DATA_BITS Bits32 then
    match data with
    | b0 :: b1 :: b2 :: b3 :: rest =>
        Some (Z.lor (Z.lor (Z.lor (Z.shiftl b3 24) (Z.shiftl b2 16)) (Z.shiftl b1 8)) b0,
              rest, u16 (ReportSize - 4))
    | _ => None
    end
  else if sz =? HID_RI_DATA_BITS Bits16 then
    match data with
    | b0 :: b1 :: rest => Some (Z.lor (Z.shiftl b1 8) b0, rest, u16 (ReportSize - 2))
    | _ => None
    end
  else if sz =? HID_RI_DATA_BITS Bits8 then
    match data with
    | b0 :: rest => Some (b0, rest, u16 (ReportSize - 1))
    | _ => None
    end
  else Some (0, data, ReportSize).

(** The tag of an item macro without data, as the [case] labels use it. *)
Definition tag_of (item : data_bits -> Z -> list Z) : Z :=
  match item Bits0 0 with b :: _ => b | [] => 0 end.

(** PUSH copies [sizeof(HID_ReportItem_t)] bytes from one state table to the
    next: defined only if that many bytes fit and do not overlap. *)
Definition push_table (s : parser) : pres parser :=
  if decide (CurrStateTable s = HID_STATETABLE_STACK_DEPTH - 1)%nat then PReturn HID_PARSE_HIDStackOverflow s
  else if sizeof_ReportItem <=? sizeof_StateTable then
    load t := StateTable s !! CurrStateTable s in
    POk (with_current (S (CurrStateTable s)) (with_table (S (CurrStateTable s)) t s))
  else PFault.

(** The pointer one entry down; there is none below the first. *)
Definition entry_below (i : nat) : option nat := match i with O => None | S k => Some k end.

Definition pop_table (s : parser) : pres parser :=
  if decide (CurrStateTable s = 0)%nat then PReturn HID_PARSE_HIDStackUnderflow s
  else load k := entry_below (CurrStateTable s) in POk (with_current k s).

(** The global items that set one member of the current state table. *)
Definition set_global (tag HIDReportItem Data : Z) (t : HID_StateTable_t) : HID_StateTable_t :=
  let a := Tbl_Attributes t in
  let keep a' := Table a' (ReportCount t) (Tbl_ReportID t) in
  if tag =? tag_of HID_RI_USAGE_PAGE then
    (* a 32-bit page stores the high half first and then the low half over it *)
    keep (Attr (BitSize a) (Usage_ (u16 Data) (Usage_Usage (Attr_Usage a))) (Attr_Unit a) (Logical a) (Physical a))
  else if tag =? tag_of HID_RI_LOGICAL_MINIMUM then
    keep (Attr (BitSize a) (Attr_Usage a) (Attr_Unit a) (MinMax Data (Maximum (Logical a))) (Physical a))
  else if tag =? tag_of HID_RI_LOGICAL_MAXIMUM then
    keep (Attr (BitSize a) (Attr_Usage a) (Attr_Unit a) (MinMax (Minimum (Logical a)) Data) (Physical a))
  else if tag =? tag_of HID_RI_PHYSICAL_MINIMUM then
    keep (Attr (BitSize a) (Attr_Usage a) (Attr_Unit a) (Logical a) (MinMax Data (Maximum (Physical a))))
  else if tag =? tag_of HID_RI_PHYSICAL_MAXIMUM then
    keep (Attr (BitSize a) (Attr_Usage a) (Attr_Unit a) (Logical a) (MinMax (Minimum (Physical a)) Data))
  else if tag =? tag_of HID_RI_UNIT_EXPONENT then
    keep (Attr (BitSize a) (Attr_Usage a) (Unit_ (Unit_Type (Attr_Unit a)) (u8 Data)) (Logical a) (Physical a))
  else if tag =? tag_of HID_RI_UNIT then
    keep (Attr (BitSize a) (Attr_Usage a) (Unit_ Data (Unit_Exponent (Attr_Unit a))) (Logical a) (Physical a))
  else if tag =? tag_of HID_RI_REPORT_SIZE then
    keep (Attr (u8 Data) (Attr_Usage a) (Attr_Unit a) (Logical a) (Physical a))
  else if tag =? tag_of HID_RI_REPORT_COUNT then
    Table a (u8 Data) (Tbl_ReportID t)
  else t.

(** A global item of the current state table. *)
Definition global_item (tag HIDReportItem Data : Z) (s : parser) : pres parser :=
  load t := StateTable s !! CurrStateTable s in
  POk (with_table (CurrStateTable s) (set_global tag HIDReportItem Data t) s).

(** The index of the first of the [n] size entries with an ID. *)
Fixpoint find_report_id (id : Z) (n : nat) (i : nat) (l : list HID_ReportSizeInfo_t) : option nat :=
  match n, l with
  | S n', z :: l' => if Size_ReportID z =? id then Some i else find_report_id id n' (S i) l'
  | _, _ => None
  end.

(** [CurrReportIDInfo] for a report ID, when IDs are already in use. *)
Definition select_id_info (id : Z) (s : parser) : pres parser :=
  let r := ParserData s in
  match find_report_id id (Z.to_nat (TotalDeviceReports r)) 0 (ReportIDSizes r) with
  | Some i => POk (with_id_info i s)
  | None =>
      if TotalDeviceReports r =? Z.of_nat HID_MAX_REPORT_IDS then PReturn HID_PARSE_InsufficientReportIDItems s
      else
        let i := Z.to_nat (TotalDeviceReports r) in
        load z := ReportIDSizes r !! i in
        POk (with_id_info i
          (with_info (fun r =>
             Info (TotalReportItems r) (ReportItems r) (CollectionPaths r) (u8 (TotalDeviceReports r + 1))
                  (<[i := zero_size]> (ReportIDSizes r)) (LargestReportSizeBits r) (UsingReportIDs r)) s))
  end.

Definition report_id_item (Data : Z) (s : parser) : pres parser :=
  load t := StateTable s !! CurrStateTable s in
  let s1 := with_table (CurrStateTable s) (Table (Tbl_Attributes t) (ReportCount t) (u8 Data)) s in
  step s2 := (if UsingReportIDs (ParserData s1) then select_id_info (u8 Data) s1 else POk s1) in
  let r := ParserData s2 in
  load z := ReportIDSizes r !! CurrReportIDInfo s2 in
  POk (with_info (fun r =>
    Info (TotalReportItems r) (ReportItems r) (CollectionPaths r) (TotalDeviceReports r)
         (<[CurrReportIDInfo s2 :=
              SizeInfo (u8 Data) (ReportSizeBits_In z) (ReportSizeBits_Out z) (ReportSizeBits_Feature z)]>
            (ReportIDSizes r)) (LargestReportSizeBits r) true) s2).

(** [UsageList[UsageListSize++] = v]: the array has [HID_USAGE_STACK_DEPTH] entries. *)
Definition store_usage (v : Z) (l : list Z) : option (list Z) :=
  if decide (length l < HID_USAGE_STACK_DEPTH)%nat then Some (l ++ [v]) else None.

Definition usage_item (Data : Z) (s : parser) : pres parser :=
  if decide (length (UsageList s) = HID_USAGE_STACK_DEPTH) then PReturn HID_PARSE_UsageListOverflow s
  else load l := store_usage (u16 Data) (UsageList s) in POk (with_usages l (UsageMinMax s) s).

(** The next usage: the head of the list, else the running minimum, else the
    default; and the lists after it. *)
Definition next_usage (default : Z) (s : parser) : Z * parser :=
  match UsageList s with
  | u :: l => (u, with_usages l (UsageMinMax s) s)
  | [] =>
      let mm := UsageMinMax s in
      if Minimum mm <=? Maximum mm then
        (u16 (Minimum mm), with_usages [] (MinMax (u32 (Minimum mm + 1)) (Maximum mm)) s)
      else (default, s)
  end.

(** The loop that looks for an unused path, from index [i] on; [n] is the number
    of paths left. *)
Fixpoint free_path (paths : list HID_CollectionPath_t) (n i : nat) : option nat :=
  match n with
  | O => None
  | S n' =>
      match paths !! i with
      | Some c =>
          match Coll_Parent c with
          | None => Some i
          | Some _ => free_path paths n' (S i)
          end
      | None => None
      end
  end.

Definition collection_item (Data : Z) (s : parser) : pres parser :=
  let paths := CollectionPaths (ParserData s) in
  step ip := (match CurrCollectionPath s with
              | None => load c := paths !! 0%nat in POk (0%nat, Coll_Parent c)
              | Some parent =>
                  match free_path paths (HID_MAX_COLLECTIONS - 1) 1 with
                  | Some i => POk (i, Some parent)
                  | None => PReturn HID_PARSE_InsufficientCollectionPaths s
                  end
              end) in
  let '(i, parent) := ip in
  load t := StateTable s !! CurrStateTable s in
  load c := paths !! i in
  let '(u, s') := next_usage (Usage_Usage (Coll_Usage c)) s in
  POk (with_collection (Some i)
    (with_info (set_path i (Coll (u8 Data) (Usage_ (Usage_Page (Attr_Usage (Tbl_Attributes t))) u) parent)) s')).

Definition end_collection_item (s : parser) : pres parser :=
  match CurrCollectionPath s with
  | None => PReturn HID_PARSE_UnexpectedEndCollection s
  | Some i =>
      load c := CollectionPaths (ParserData s) !! i in
      POk (with_collection (Coll_Parent c) s)
  end.

Section Parse.
(** The application's filter, and what the stack holds where the parser leaves
    [Value] and [PreviousValue] of a new item. *)
Variable CALLBACK_HIDParser_FilterHIDReportItem : HID_ReportItem_t -> bool.
Variables stack_Value stack_PreviousValue : Z.

Definition item_type (tag : Z) : HID_ReportItemTypes_t :=
  if tag =? tag_of HID_RI_INPUT then HID_REPORT_ITEM_In
  else if tag =? tag_of HID_RI_OUTPUT then HID_REPORT_ITEM_Out
  else HID_REPORT_ITEM_Feature.

(** The copy into [ReportItems[i]], defined inside the array. *)
Definition store_item (i : nat) (x : HID_ReportItem_t) (l : list HID_ReportItem_t) : option (list HID_ReportItem_t) :=
  if decide (i < length l)%nat then Some (<[i := x]> l) else None.

(** One round of the loop over [ReportCount]. *)
Definition add_report_item (tag Data : Z) (s : parser) : pres parser :=
  load t := StateTable s !! CurrStateTable s in
  let a := Tbl_Attributes t in
  let '(u, s1) := next_usage (Usage_Usage (Attr_Usage a)) s in
  let ty := item_type tag in
  load z := ReportIDSizes (ParserData s1) !! CurrReportIDInfo s1 in
  let offset := ReportSizeBits z ty in
  let NewReportItem :=
    Item offset ty (u16 Data) (Tbl_ReportID t) (CurrCollectionPath s1)
         (Attr (BitSize a) (Usage_ (Usage_Page (Attr_Usage a)) u) (Attr_Unit a) (Logical a) (Physical a))
         stack_Value stack_PreviousValue in
  let bits := u16 (offset + BitSize a) in
  let s2 := with_info (fun r =>
    Info (TotalReportItems r) (ReportItems r) (CollectionPaths r) (TotalDeviceReports r)
         (<[CurrReportIDInfo s1 := set_ReportSizeBits z ty bits]> (ReportIDSizes r))
         (Z.max (LargestReportSizeBits r) bits) (UsingReportIDs r)) s1 in
  let n := TotalReportItems (ParserData s2) in
  if n =? Z.of_nat HID_MAX_REPORTITEMS then PReturn HID_PARSE_InsufficientReportItems s2
  else
    load items := store_item (Z.to_nat n) NewReportItem (ReportItems (ParserData s2)) in
    let counted := negb (bit_tst Data 0) && CALLBACK_HIDParser_FilterHIDReportItem NewReportItem in
    POk (with_info (fun r =>
      Info (if counted then u8 (n + 1) else n) items (CollectionPaths r) (TotalDeviceReports r)
           (ReportIDSizes r) (LargestReportSizeBits r) (UsingReportIDs r)) s2).

Fixpoint add_report_items (tag Data : Z) (n : nat) (s : parser) : pres parser :=
  match n with
  | O => POk s
  | S n' => step s' := add_report_item tag Data s in add_report_items tag Data n' s'
  end.

(** The [switch] over the item, and the reset of the local state after a main
    item. *)
Definition process_item (HIDReportItem Data : Z) (s : parser) : pres parser :=
  let tag := Z.land HIDReportItem (Z.lor HID_RI_TYPE_MASK HID_RI_TAG_MASK) in
  step s' := (
    if tag =? tag_of HID_RI_PUSH then push_table s
    else if tag =? tag_of HID_RI_POP then pop_table s
    else if tag =? tag_of HID_RI_REPORT_ID then report_id_item Data s
    else if tag =? tag_of HID_RI_USAGE then usage_item Data s
    else if tag =? tag_of HID_RI_USAGE_MINIMUM then
      POk (with_usages (UsageList s) (MinMax Data (Maximum (UsageMinMax s))) s)
    else if tag =? tag_of HID_RI_USAGE_MAXIMUM then
      POk (with_usages (UsageList s) (MinMax (Minimum (UsageMinMax s)) Data) s)
    else if tag =? tag_of HID_RI_COLLECTION then collection_item Data s
    else if tag =? tag_of HID_RI_END_COLLECTION then end_collection_item s
    else if (tag =? tag_of HID_RI_INPUT) || (tag =? tag_of HID_RI_OUTPUT) || (tag =? tag_of HID_RI_FEATURE) then
      load t := StateTable s !! CurrStateTable s in
      add_report_items tag Data (Z.to_nat (ReportCount t)) s
    else global_item tag HIDReportItem Data s) in
  POk (if Z.land HIDReportItem HID_RI_TYPE_MASK =? HID_RI_TYPE_MAIN
       then with_usages [] (MinMax 0 0) s' else s').

(** The loop over the descriptor; [n] bounds its rounds. *)
Fixpoint parse_items (n : nat) (data : list Z) (ReportSize : Z) (s : parser) : pres parser :=
  match n with
  | O => PFault
  | S n' =>
      if ReportSize =? 0 then POk s
      else
        match data with
        | [] => PFault
        | HIDReportItem :: data1 =>
            load d := fetch_item_data HIDReportItem data1 (u16 (ReportSize - 1)) in
            let '(Data, data2, size2) := d in
            step s' := process_item HIDReportItem Data s in
            parse_items n' data2 size2 s'
        end
  end.

(** The code returned and the parser's final objects; [None] where the C code
    has no behaviour. *)
Definition USB_ProcessHIDReport (ReportData : list Z) (ReportSize : Z) :
    option (HID_Parse_ErrorCodes_t * HID_ReportInfo_t) :=
  match parse_items (S (length ReportData)) ReportData ReportSize initial_parser with
  | POk s =>
      Some (if TotalReportItems (ParserData s) =? 0 then HID_PARSE_NoUnfilteredReportItems
            else HID_PARSE_Successful, ParserData s)
  | PReturn c s => Some (c, ParserData s)
  | PFault => None
  end.
End Parse.

(** ** Items in a report *)

(** The loop of [USB_GetHIDReportItemInfo]: [n] bits from [CurrentBit] on, or'ed
    into [v] at [BitMask]. *)
Fixpoint get_bits (data : list Z) (n : nat) (CurrentBit BitMask v : Z) : option Z :=
  match n with
  | O => Some v
  | S n' =>
      b ← aget data (CurrentBit / 8);
      get_bits data n' (u16 (CurrentBit + 1)) (u32 (Z.shiftl BitMask 1))
        (if bit_tst b (CurrentBit mod 8) then Z.lor v BitMask else v)
  end.

(** The report item afterwards and whether it was in the report; [None] for a
    read outside the report. *)
Definition USB_GetHIDReportItemInfo (ReportData : list Z) (ReportItem : HID_ReportItem_t) :
    option (bool * HID_ReportItem_t) :=
  data ← (if Item_ReportID ReportItem =? 0 then Some (Some ReportData)
          else match ReportData with
               | [] => None
               | id :: rest => Some (if Item_ReportID ReportItem =? id then Some rest else None)
               end);
  match data with
  | None => Some (false, ReportItem)
  | Some data =>
      v ← get_bits data (Z.to_nat (BitSize (Attributes ReportItem))) (BitOffset ReportItem) 1 0;
      Some (true, Item (BitOffset ReportItem) (ItemType ReportItem) (ItemFlags ReportItem)
                       (Item_ReportID ReportItem) (Item_CollectionPath ReportItem)
                       (Attributes ReportItem) v (Value ReportItem))
  end.

(** The loop of [USB_SetHIDReportItemInfo]. *)
Fixpoint set_bits (data : list Z) (n : nat) (CurrentBit BitMask v : Z) : option (list Z) :=
  match n with
  | O => Some data
  | S n' =>
      data' ← (if Z.land v BitMask =? 0 then Some data
               else b ← aget data (CurrentBit / 8);
                    aset data (CurrentBit / 8) (bit_set b (CurrentBit mod 8)));
      set_bits data' n' (u16 (CurrentBit + 1)) (u32 (Z.shiftl BitMask 1)) v
  end.

Definition USB_SetHIDReportItemInfo (ReportData : list Z) (ReportItem : HID_ReportItem_t) :
    option (list Z * HID_ReportItem_t) :=
  let item' := Item (BitOffset ReportItem) (ItemType ReportItem) (ItemFlags ReportItem)
                    (Item_ReportID ReportItem) (Item_CollectionPath ReportItem)
                    (Attributes ReportItem) (Value ReportItem) (Value ReportItem) in
  let put data := set_bits data (Z.to_nat (BitSize (Attributes ReportItem))) (BitOffset ReportItem) 1
                           (Value ReportItem) in
  if Item_ReportID ReportItem =? 0 then data ← put ReportData; Some (data, item')
  else match ReportData with
       | [] => None
       | _ :: rest => data ← put rest; Some (Item_ReportID ReportItem :: data, item')
       end.

Fixpoint report_size (id : Z) (t : HID_ReportItemTypes_t) (l : list HID_ReportSizeInfo_t) : Z :=
  match l with
  | [] => 0
  | z :: l' =>
      if Size_ReportID z =? id then
        u16 (ReportSizeBits z t / 8 + (if ReportSizeBits z t mod 8 =? 0 then 0 else 1))
      else report_size id t l'
  end.

Definition USB_GetHIDReportSize (r : HID_ReportInfo_t) (ReportID : Z) (t : HID_ReportItemTypes_t) : Z :=
  report_size ReportID t (ReportIDSizes r).

(** ** Memory safety of the parser *)

Section Safety.

Definition path_ok (o : option nat) : Prop := match o with Some i => (i < HID_MAX_COLLECTIONS)%nat | None => True end.

(** The arrays keep their sizes, every counter and index stays in range, and
    every collection reference is to an entry of the array. *)
Record info_ok (r : HID_ReportInfo_t) : Prop := {
  items_len : length (ReportItems r) = HID_MAX_REPORTITEMS;
  paths_len : length (CollectionPaths r) = HID_MAX_COLLECTIONS;
  sizes_len : length (ReportIDSizes r) = HID_MAX_REPORT_IDS;
  items_total : 0 <= TotalReportItems r <= Z.of_nat HID_MAX_REPORTITEMS;
  reports_total : 1 <= TotalDeviceReports r <= Z.of_nat HID_MAX_REPORT_IDS;
  parents_ok : Forall (fun c => path_ok (Coll_Parent c)) (CollectionPaths r);
  items_paths_ok : Forall (fun i => path_ok (Item_CollectionPath i)) (ReportItems r)
}.

Record parser_ok (s : parser) : Prop := {
  p_info : info_ok (ParserData s);
  p_table : length (StateTable s) = HID_STATETABLE_STACK_DEPTH;
  p_current : (CurrStateTable s < HID_STATETABLE_STACK_DEPTH)%nat;
  p_path : path_ok (CurrCollectionPath s);
  p_id : (CurrReportIDInfo s < HID_MAX_REPORT_IDS)%nat;
  p_usages : (length (UsageList s) <= HID_USAGE_STACK_DEPTH)%nat
}.

(** The step has a behaviour, and the objects are in range afterwards whether
    it goes on or returns. *)
Definition safe (m : pres parser) : Prop :=
  match m with
  | POk s => parser_ok s
  | PReturn c s => parser_ok s /\ c <> HID_PARSE_Successful
  | PFault => False
  end.

Lemma safe_bind m k : safe m -> (forall s, parser_ok s -> safe (k s)) -> safe (pbind m k).
Proof. destruct m; simpl; auto. Qed.

Lemma safe_load {A} (l : list A) i (k : A -> pres parser) :
  (i < length l)%nat -> (forall a, l !! i = Some a -> safe (k a)) -> safe (pget (l !! i) k).
Proof. intros Hi Hk. destruct (lookup_lt_is_Some_2 l i Hi) as [a Ha]. rewrite Ha. by apply Hk. Qed.

Lemma safe_table s (k : HID_StateTable_t -> pres parser) :
  parser_ok s -> (forall t, safe (k t)) -> safe (pget (StateTable s !! CurrStateTable s) k).
Proof. intros [] Hk. apply safe_load; [congruence|auto]. Qed.

Ltac limits :=
  unfold HID_STATETABLE_STACK_DEPTH, HID_MAX_REPORTITEMS, HID_MAX_COLLECTIONS, HID_MAX_REPORT_IDS,
    HID_USAGE_STACK_DEPTH in *.
Ltac parser_ok_solve :=
  repeat match goal with H : parser_ok _ |- _ => destruct H | H : info_ok _ |- _ => destruct H end;
  repeat first [split | progress cbn -[u8] in *]; rewrite ?length_insert; limits; try done; try lia.

Lemma safe_pop s : parser_ok s -> safe (pop_table s).
Proof.
  intros Hs. unfold pop_table. case_decide; [done|]. destruct (CurrStateTable s) as [|k] eqn:E; [done|]. cbn. parser_ok_solve.
Qed.

Lemma safe_global tag i d s : parser_ok s -> safe (global_item tag i d s).
Proof. intros Hs. apply safe_table; [done|]. intros t. cbn. parser_ok_solve. Qed.

Lemma safe_select id s : parser_ok s -> safe (select_id_info id s).
Proof.
  intros Hs. unfold select_id_info.
  destruct (find_report_id _ _ _ _) as [i|] eqn:E.
  - assert (forall n k l j, find_report_id id n k l = Some j -> (j < k + length l)%nat) as Hfind.
    { clear. induction n as [|n IH]; intros k [|z l] j; simpl; try done.
      destruct (_ =? _); [intros [= <-]; lia|]. intros H. apply IH in H. lia. }
    apply Hfind in E. cbn. parser_ok_solve.
  - destruct (Z.eqb_spec (TotalDeviceReports (ParserData s)) (Z.of_nat HID_MAX_REPORT_IDS)); [done|].
    assert (u8 (TotalDeviceReports (ParserData s) + 1) = TotalDeviceReports (ParserData s) + 1) as E8.
    { destruct Hs as [[]]. unfold HID_MAX_REPORT_IDS in *. apply u8_small. unfold is_u8. lia. }
    apply safe_load; [parser_ok_solve|]. intros z _. cbn -[u8]. parser_ok_solve.
Qed.

Lemma safe_report_id d s : parser_ok s -> safe (report_id_item d s).
Proof.
  intros Hs. apply safe_table; [done|]. intros t. cbv zeta. apply safe_bind.
  - destruct (UsingReportIDs _); [apply safe_select|]; cbn; parser_ok_solve.
  - intros s2 Hs2. apply safe_load; [parser_ok_solve|]. intros z _. cbn. parser_ok_solve.
Qed.

Lemma safe_usage d s : parser_ok s -> safe (usage_item d s).
Proof.
  intros Hs. unfold usage_item, store_usage. case_decide; [done|].
  rewrite decide_True by (destruct Hs; limits; lia). cbn. parser_ok_solve. rewrite length_app. cbn. limits. lia.
Qed.

Lemma next_usage_ok d s : parser_ok s -> parser_ok (next_usage d s).2 /\
  ParserData (next_usage d s).2 = ParserData s /\ CurrReportIDInfo (next_usage d s).2 = CurrReportIDInfo s.
Proof.
  intros Hs. unfold next_usage. destruct (UsageList s) as [|u l] eqn:E.
  - destruct (_ <=? _); cbn; (split; [|done]); [parser_ok_solve|done].
  - cbn. split; [|done]. parser_ok_solve. rewrite E in *. cbn in *. lia.
Qed.

Lemma free_path_bound paths n i j : free_path paths n i = Some j -> (j < length paths)%nat.
Proof.
  revert i. induction n as [|n IH]; intros i; simpl; [done|].
  destruct (paths !! i) as [c|] eqn:E; [|done].
  destruct (Coll_Parent c); [apply IH|]. intros [= <-]. by eapply lookup_lt_Some.
Qed.

Lemma safe_end_collection s : parser_ok s -> safe (end_collection_item s).
Proof.
  intros Hs. unfold end_collection_item. destruct (CurrCollectionPath s) as [i|] eqn:E; [|done].
  assert (path_ok (Some i)) as Hi by (rewrite <- E; apply Hs).
  apply safe_load; [destruct Hs as [[]]; unfold path_ok in Hi; congruence|].
  intros c Hc. pose proof (Forall_lookup_1 _ _ _ _ (parents_ok _ (p_info _ Hs)) Hc).
  cbn. parser_ok_solve.
Qed.

Lemma safe_collection d s : parser_ok s -> safe (collection_item d s).
Proof.
  intros Hs. unfold collection_item.
  assert (exists m, m = match CurrCollectionPath s with
              | None => pget (CollectionPaths (ParserData s) !! 0%nat) (fun c => POk (0%nat, Coll_Parent c))
              | Some parent =>
                  match free_path (CollectionPaths (ParserData s)) (HID_MAX_COLLECTIONS - 1) 1 with
                  | Some i => POk (i, Some parent)
                  | None => PReturn HID_PARSE_InsufficientCollectionPaths s
                  end
              end /\ match m with POk (i, o) => (i < HID_MAX_COLLECTIONS)%nat /\ path_ok o
                                | PReturn c s' => s' = s /\ c <> HID_PARSE_Successful | PFault => False end) as (m & <- & Hm).
  { eexists. split; [done|]. destruct Hs as [[]]. destruct (CurrCollectionPath s) as [j|].
    - destruct (free_path _ _ _) eqn:E; [|done]. apply free_path_bound in E. split; [lia|done].
    - destruct (lookup_lt_is_Some_2 (CollectionPaths (ParserData s)) 0) as [c Hc].
      { unfold HID_MAX_COLLECTIONS in *. lia. }
      rewrite Hc. split; [unfold HID_MAX_COLLECTIONS; lia|]. exact (Forall_lookup_1 _ _ _ _ parents_ok0 Hc). }
  destruct m as [[i o]|c s'|]; cbn [pbind]; [|destruct Hm as [-> ?]; done|done]. destruct Hm as [Hi Ho].
  apply safe_table; [done|]. intros t. apply safe_load; [destruct Hs as [[]]; lia|]. intros c _.
  destruct (next_usage _ s) as [u s'] eqn:E.
  pose proof (next_usage_ok (Usage_Usage (Coll_Usage c)) s Hs) as (Hs' & He & _). rewrite E in *. cbn in *.
  clear Hs. parser_ok_solve. by apply Forall_insert.
Qed.

Section Items.
Context (filter : HID_ReportItem_t -> bool) (v0 v1 : Z).

Lemma safe_add_item tag d s : parser_ok s -> safe (add_report_item filter v0 v1 tag d s).
Proof.
  intros Hs. apply safe_table; [done|]. intros t.
  cbv beta zeta. destruct (next_usage (Usage_Usage (Attr_Usage (Tbl_Attributes t))) s) as [u s1] eqn:E.
  pose proof (next_usage_ok (Usage_Usage (Attr_Usage (Tbl_Attributes t))) s Hs) as (Hs1 & _ & _).
  rewrite E in Hs1. cbn [snd] in Hs1. clear Hs E s.
  apply safe_load; [parser_ok_solve|]. intros z _. cbv zeta.
  match goal with |- safe (if ?n =? ?m then _ else _) => destruct (Z.eqb_spec n m) as [He|Hne] end.
  - cbn. parser_ok_solve.
  - cbn [with_info ParserData TotalReportItems] in *.
    assert (u8 (TotalReportItems (ParserData s1) + 1) = TotalReportItems (ParserData s1) + 1) as E8.
    { destruct Hs1 as [[]]. limits. apply u8_small. unfold is_u8. lia. }
    unfold store_item. rewrite decide_True by (destruct Hs1 as [[]]; limits; cbn [ReportItems]; lia).
    cbn -[u8]. destruct (_ && _); parser_ok_solve; by apply Forall_insert.
Qed.

Lemma safe_add_items tag d n s : parser_ok s -> safe (add_report_items filter v0 v1 tag d n s).
Proof.
  revert s. induction n as [|n IH]; intros s Hs; [done|]. simpl.
  apply safe_bind; [by apply safe_add_item|auto].
Qed.

(** Every item but PUSH. *)
Definition is_push (HIDReportItem : Z) : bool :=
  Z.land HIDReportItem (Z.lor HID_RI_TYPE_MASK HID_RI_TAG_MASK) =? tag_of HID_RI_PUSH.

Lemma safe_process_item i d s :
  is_push i = false -> parser_ok s -> safe (process_item filter v0 v1 i d s).
Proof.
  intros Hp Hs. unfold process_item. unfold is_push in Hp. rewrite Hp. apply safe_bind.
  - repeat match goal with |- safe (if ?b then _ else _) => destruct b end;
      [by apply safe_pop|by apply safe_report_id|by apply safe_usage|cbn; parser_ok_solve
      |cbn; parser_ok_solve|by apply safe_collection|by apply safe_end_collection| |by apply safe_global].
    apply safe_table; [done|]. intros t. by apply safe_add_items.
  - intros s1 Hs1. clear Hp. unfold safe. destruct (_ =? _); [|done]. clear Hs. parser_ok_solve.
Qed.

(** The descriptor is a sequence of items, each with all of its data bytes, none
    of them PUSH. *)
Fixpoint complete_items (n : nat) (data : list Z) : bool :=
  match n, data with
  | _, [] => true
  | O, _ => false
  | S n', i :: rest =>
      negb (is_push i) &&
      match fetch_item_data i rest 0 with
      | Some (_, rest', _) => complete_items n' rest'
      | None => false
      end
  end.

(** The size variable stays the number of bytes left. *)
Lemma fetch_size i rest d rest' sz : Z.of_nat (length rest) < 65536 ->
  fetch_item_data i rest 0 = Some (d, rest', sz) ->
  fetch_item_data i rest (Z.of_nat (length rest)) = Some (d, rest', Z.of_nat (length rest')) /\
  (length rest' <= length rest)%nat.
Proof.
  intros Hl. unfold fetch_item_data.
  repeat case_match; intros [= <- <- _]; split; try lia; repeat f_equal;
    cbn [length] in *; try (rewrite u16_small by (unfold is_u16; lia)); lia.
Qed.

Lemma safe_parse_items n data s :
  (length data < n)%nat -> Z.of_nat (length data) < 65536 ->
  complete_items (length data) data = true -> parser_ok s ->
  safe (parse_items filter v0 v1 n data (Z.of_nat (length data)) s).
Proof.
  assert (forall k n data s, (length data < n)%nat -> Z.of_nat (length data) < 65536 ->
    complete_items k data = true -> parser_ok s ->
    safe (parse_items filter v0 v1 n data (Z.of_nat (length data)) s)) as H; [|apply H].
  clear. intros k n. revert k. induction n as [|n IH]; intros k data s Hn Hl Hc Hs; [lia|].
  cbn [parse_items]. destruct data as [|i rest]; [done|].
  rewrite (proj2 (Z.eqb_neq _ _)) by (cbn; lia).
  destruct k as [|k]; [done|]. cbn [complete_items] in Hc. apply andb_true_iff in Hc as [Hp Hc].
  apply negb_true_iff in Hp.
  destruct (fetch_item_data i rest 0) as [[[d rest'] sz]|] eqn:E; [|done].
  cbn [length] in *.
  replace (u16 (Z.of_nat (S (length rest)) - 1)) with (Z.of_nat (length rest))
    by (rewrite u16_small by (unfold is_u16; lia); lia).
  apply fetch_size in E as [-> Hlen]; [|lia]. cbn [pget].
  apply safe_bind; [by apply safe_process_item|]. intros s' Hs'.
  apply (IH k); [lia|lia|done|done].
Qed.
End Items.

Lemma initial_parser_ok : parser_ok initial_parser.
Proof.
  split; [split|..]; cbn; limits; try done; try lia; repeat constructor.
Qed.
End Safety.



(** A PUSH item has no defined behaviour: on a descriptor that starts with
    one, the copy of [sizeof(HID_ReportItem_t)] bytes (42 on this target) from
    a state table of 28 bytes overlaps itself and runs past the array. *)
Theorem hid_push_undefined filter v0 v1 rest size :
  0 < size < 65536 ->
  USB_ProcessHIDReport filter v0 v1 (HID_RI_PUSH Bits0 0 ++ rest) size = None.
Proof.
  intros Hs. unfold USB_ProcessHIDReport. cbn -[u16 process_item parse_items].
  cbn [parse_items]. rewrite (proj2 (Z.eqb_neq size 0)) by lia. done.
Qed.

Lemma hid_push_undefined_witness :
  USB_ProcessHIDReport (fun _ => true) 0 0 [0xA4; 0xC0] 2 = None.
Proof. exact (hid_push_undefined (fun _ => true) 0 0 [0xC0] 2 ltac:(lia)). Defined.

(** ** Items as bit fields *)

(** Bit [i] of a report is a bit of byte [i / 8]. *)
Lemma of_le_bytes_testbit data i b : Forall is_u8 data -> 0 <= i ->
  aget data (i / 8) = Some b -> Z.testbit (of_le_bytes data) i = Z.testbit b (i mod 8).
Proof.
  intros Hd. revert i. induction Hd as [|x data Hx Hd IH]; intros i Hi Hb.
  - unfold aget in Hb. by case_decide.
  - cbn [of_le_bytes].
    assert (x + 256 * of_le_bytes data = Z.lor (Z.shiftl (of_le_bytes data) 8) x) as ->.
    { rewrite lor_shiftl_add by (unfold is_u8 in Hx; lia). lia. }
    rewrite Z.lor_spec. destruct (decide (i < 8)) as [Hlt|Hge].
    + rewrite Z.shiftl_spec_low, orb_false_l by done.
      rewrite Z.div_small in Hb by lia. unfold aget in Hb. cbn in Hb. injection Hb as ->.
      by rewrite Z.mod_small by lia.
    + rewrite Z.shiftl_spec, (Z.bits_above_log2 x i), orb_false_r.
      * replace (i mod 8) with ((i - 8) mod 8) by (Z.to_euclidean_division_equations; lia).
        apply IH; [lia|]. rewrite <- Hb. unfold aget.
        rewrite !decide_True by (Z.to_euclidean_division_equations; lia).
        replace (Z.to_nat (i / 8)) with (S (Z.to_nat ((i - 8) / 8)))
          by (Z.to_euclidean_division_equations; lia). done.
      * unfold is_u8 in Hx. lia.
      * unfold is_u8 in Hx. destruct (decide (x = 0)) as [->|]; [cbn; lia|].
        apply Z.log2_lt_pow2; [lia|]. apply Z.lt_le_trans with (2 ^ 8); [lia|].
        apply Z.pow_le_mono_r; lia.
      * lia.
Qed.

Lemma aget_div8 (data : list Z) i : 0 <= i < 8 * Z.of_nat (length data) -> is_Some (aget data (i / 8)).
Proof. intros Hi. apply aget_Some. Z.to_euclidean_division_equations; lia. Qed.

(** The bits [off .. off+n) of [N] placed at bit [k]. *)
Definition field (N off n : Z) : Z := Z.land (Z.shiftr N off) (Z.ones n).

Lemma field_testbit N off n i : 0 <= off -> 0 <= n -> 0 <= i ->
  Z.testbit (field N off n) i = (i <? n) && Z.testbit N (i + off).
Proof.
  intros. unfold field. rewrite Z.land_spec, Z.shiftr_spec, Z.testbit_ones_nonneg by done.
  by rewrite andb_comm.
Qed.

Lemma shiftl_testbit v k i : 0 <= k -> 0 <= i ->
  Z.testbit (Z.shiftl v k) i = (k <=? i) && Z.testbit v (i - k).
Proof.
  intros Hk Hi. destruct (Z.leb_spec k i).
  - by rewrite Z.shiftl_spec.
  - rewrite Z.shiftl_spec_low by done. done.
Qed.

Lemma next_mask k : 0 <= k < 31 -> u32 (Z.shiftl (2 ^ k) 1) = 2 ^ (k + 1).
Proof.
  intros Hk. rewrite Z.shiftl_mul_pow2, <- Z.pow_add_r by lia. apply u32_small. unfold is_u32.
  split; [apply Z.pow_nonneg; lia|]. change 4294967296 with (2 ^ 32). apply Z.pow_lt_mono_r; lia.
Qed.

Lemma get_bits_spec data off : Forall is_u8 data -> 0 <= off ->
  forall n k v, 0 <= k -> k + Z.of_nat n <= 32 ->
  off + k + Z.of_nat n <= 8 * Z.of_nat (length data) -> off + k + Z.of_nat n < 65536 ->
  get_bits data n (off + k) (2 ^ k) v
    = Some (Z.lor v (Z.shiftl (field (of_le_bytes data) (off + k) (Z.of_nat n)) k)).
Proof.
  intros Hd Hoff n. induction n as [|n IH]; intros k v Hk Hn Hl Hw.
  - cbn [get_bits]. f_equal. unfold field. change (Z.of_nat 0) with 0. rewrite Z.land_0_r, Z.shiftl_0_l.
    by rewrite Z.lor_0_r.
  - cbn [get_bits]. destruct (aget_div8 data (off + k)) as [b Hb]; [lia|]. rewrite Hb. cbn [mbind option_bind].
    assert (bit_tst b ((off + k) mod 8) = Z.testbit (of_le_bytes data) (off + k)) as ->.
    { rewrite bit_tst_testbit by (apply Z.mod_pos_bound; lia). symmetry. apply of_le_bytes_testbit; [done|lia|done]. }
    rewrite u16_small by (unfold is_u16; lia). replace (off + k + 1) with (off + (k + 1)) by lia.
    assert (forall v', (if decide (n = 0)%nat then Some v' else
        get_bits data n (off + (k + 1)) (2 ^ (k + 1)) v')
        = Some (Z.lor v' (Z.shiftl (field (of_le_bytes data) (off + (k + 1)) (Z.of_nat n)) (k + 1)))) as Hrest.
    { intros v'. case_decide as Hz.
      - subst n. unfold field. by rewrite Z.land_0_r, Z.shiftl_0_l, Z.lor_0_r.
      - apply IH; lia. }
    assert (forall v', get_bits data n (off + (k + 1)) (u32 (Z.shiftl (2 ^ k) 1)) v'
        = Some (Z.lor v' (Z.shiftl (field (of_le_bytes data) (off + (k + 1)) (Z.of_nat n)) (k + 1)))) as ->.
    { intros v'. rewrite <- Hrest. case_decide as Hz; [by subst n|]. by rewrite next_mask by lia. }
    f_equal. apply Z.bits_inj'. intros i Hi.
    rewrite !Z.lor_spec, !shiftl_testbit by lia.
    destruct (Z.leb_spec k i) as [Hki|Hki].
    + rewrite (field_testbit _ (off + k)) by lia. destruct (decide (i = k)) as [->|Hne].
      * rewrite (proj2 (Z.leb_gt (k + 1) k)) by lia. rewrite Z.sub_diag, Z.add_0_l.
        rewrite (proj2 (Z.ltb_lt 0 (Z.of_nat (S n)))) by lia. cbn [andb].
        destruct (Z.testbit (of_le_bytes data) (off + k)).
        -- by rewrite Z.lor_spec, Z.pow2_bits_true, !orb_true_r by lia.
        -- done.
      * rewrite (proj2 (Z.leb_le (k + 1) i)), field_testbit by lia. cbn [andb].
        replace (i - (k + 1) + (off + (k + 1))) with (i - k + (off + k)) by lia.
        replace (i - (k + 1) <? Z.of_nat n) with (i - k <? Z.of_nat (S n))
          by (apply eq_true_iff_eq; rewrite !Z.ltb_lt; lia).
        f_equal. destruct (Z.testbit _ (off + k)); [|done].
        by rewrite Z.lor_spec, Z.pow2_bits_false, orb_false_r by lia.
    + rewrite (proj2 (Z.leb_gt (k + 1) i)) by lia. cbn [andb]. rewrite !orb_false_r.
      destruct (Z.testbit _ (off + k)); [|done].
      by rewrite Z.lor_spec, Z.pow2_bits_false, orb_false_r by lia.
Qed.

Lemma lor_pow2 x i : 0 <= i -> Z.lor x (2 ^ i) = if Z.testbit x i then x else x + 2 ^ i.
Proof.
  intros Hi. destruct (Z.testbit x i) eqn:E.
  - apply Z.bits_inj'. intros j Hj. rewrite Z.lor_spec.
    destruct (decide (j = i)) as [->|]; [by rewrite E|].
    by rewrite Z.pow2_bits_false, orb_false_r by lia.
  - assert (Z.land x (2 ^ i) = 0) as H0.
    { apply Z.bits_inj'. intros j Hj. rewrite Z.land_spec, Z.bits_0.
      destruct (decide (j = i)) as [->|]; [by rewrite E|].
      by rewrite Z.pow2_bits_false, andb_false_r by lia. }
    by rewrite Z.add_nocarry_lxor, Z.lxor_lor.
Qed.

Lemma of_le_bytes_insert data i b b' : data !! i = Some b ->
  of_le_bytes (<[i := b']> data) = of_le_bytes data + (b' - b) * 256 ^ Z.of_nat i.
Proof.
  revert i. induction data as [|x data IH]; intros [|i] Hb; try done.
  - injection Hb as ->. cbn. lia.
  - change (<[S i := b']> (x :: data)) with (x :: <[i := b']> data). cbn [of_le_bytes].
    rewrite (IH i) by done. rewrite Nat2Z.inj_succ, Z.pow_succ_r by lia. lia.
Qed.

Lemma is_u8_bit_set b j : is_u8 b -> 0 <= j < 8 -> is_u8 (bit_set b j).
Proof.
  intros Hb Hj. assert (b = u8 b) as -> by (by rewrite u8_small).
  unfold bit_set. rewrite <- land_255.
  assert (Z.shiftl 1 j = Z.land (Z.shiftl 1 j) 255) as ->.
  { change 255 with (Z.ones 8). rewrite Z.land_ones, Z.mod_small; [done| |done].
    rewrite Z.shiftl_mul_pow2, Z.mul_1_l by lia. split; [apply Z.pow_nonneg; lia|].
    apply Z.pow_lt_mono_r; lia. }
  rewrite <- Z.land_lor_distr_l, land_255. apply u8_range.
Qed.

Lemma set_one_bit data i b : Forall is_u8 data -> 0 <= i ->
  aget data (i / 8) = Some b ->
  exists data', aset data (i / 8) (bit_set b (i mod 8)) = Some data' /\
    of_le_bytes data' = Z.lor (of_le_bytes data) (2 ^ i) /\
    length data' = length data /\ Forall is_u8 data'.
Proof.
  intros Hd Hi Hb. pose proof Hb as Hb'. unfold aget in Hb'. case_decide; [|done].
  pose proof (lookup_lt_Some _ _ _ Hb') as Hlt.
  pose proof (Z.mod_pos_bound i 8 ltac:(lia)) as Hm.
  exists (<[Z.to_nat (i / 8) := bit_set b (i mod 8)]> data).
  split_and!; [apply aset_Some; lia| |apply length_insert|].
  - rewrite (of_le_bytes_insert _ _ b) by done. unfold bit_set.
    rewrite Z.shiftl_mul_pow2, Z.mul_1_l by lia. rewrite !lor_pow2 by lia.
    rewrite (of_le_bytes_testbit _ _ b Hd Hi Hb). destruct (Z.testbit b (i mod 8)); [lia|].
    change 256 with (2 ^ 8). rewrite <- Z.pow_mul_r by lia.
    replace (b + 2 ^ (i mod 8) - b) with (2 ^ (i mod 8)) by lia.
    rewrite <- Z.pow_add_r by lia. do 2 f_equal.
    rewrite Z2Nat.id by done. pose proof (Z.div_mod i 8). lia.
  - apply Forall_insert; [done|]. apply is_u8_bit_set; [|done]. by eapply Forall_lookup_1.
Qed.

Lemma land_pow2_eqb v k : 0 <= k -> (Z.land v (2 ^ k) =? 0) = negb (Z.testbit v k).
Proof.
  intros Hk. rewrite <- bit_tst_testbit by done. unfold bit_tst.
  by rewrite Z.shiftl_mul_pow2, Z.mul_1_l, negb_involutive by done.
Qed.

Lemma set_bits_spec off v : 0 <= off ->
  forall n k data, Forall is_u8 data -> 0 <= k -> k + Z.of_nat n <= 32 ->
  off + k + Z.of_nat n <= 8 * Z.of_nat (length data) -> off + k + Z.of_nat n < 65536 ->
  exists data', set_bits data n (off + k) (2 ^ k) v = Some data' /\
    of_le_bytes data' = Z.lor (of_le_bytes data) (Z.shiftl (field v k (Z.of_nat n)) (off + k)) /\
    length data' = length data /\ Forall is_u8 data'.
Proof.
  intros Hoff n. induction n as [|n IH]; intros k data Hd Hk Hn Hl Hw.
  - exists data. split_and!; [done| |done|done].
    unfold field. by rewrite Z.land_0_r, Z.shiftl_0_l, Z.lor_0_r.
  - cbn [set_bits].
    assert (exists data1, (if Z.land v (2 ^ k) =? 0 then Some data
               else b ← aget data ((off + k) / 8); aset data ((off + k) / 8) (bit_set b ((off + k) mod 8)))
               = Some data1 /\
      of_le_bytes data1 = Z.lor (of_le_bytes data) (if Z.testbit v k then 2 ^ (off + k) else 0) /\
      length data1 = length data /\ Forall is_u8 data1) as (data1 & -> & Hn1 & Hl1 & Hd1).
    { rewrite land_pow2_eqb by done. destruct (Z.testbit v k); cbn [negb].
      - destruct (aget_div8 data (off + k)) as [b Hb]; [lia|]. rewrite Hb. cbn [mbind option_bind].
        apply set_one_bit; [done|lia|done].
      - exists data. by rewrite Z.lor_0_r. }
    cbn [mbind option_bind]. rewrite u16_small by (unfold is_u16; lia).
    replace (off + k + 1) with (off + (k + 1)) by lia.
    assert (exists data', set_bits data1 n (off + (k + 1)) (u32 (Z.shiftl (2 ^ k) 1)) v = Some data' /\
      of_le_bytes data' = Z.lor (of_le_bytes data1) (Z.shiftl (field v (k + 1) (Z.of_nat n)) (off + (k + 1))) /\
      length data' = length data1 /\ Forall is_u8 data') as (data' & -> & Hn' & Hl' & Hd').
    { destruct (decide (n = 0)%nat) as [->|Hz].
      - exists data1. unfold field. rewrite Z.land_0_r, Z.shiftl_0_l, Z.lor_0_r. done.
      - rewrite next_mask by lia. apply IH; [done|lia|lia|lia|lia]. }
    exists data'. split_and!; [done| |lia|done]. rewrite Hn', Hn1, <- Z.lor_assoc. f_equal.
    apply Z.bits_inj'. intros i Hi. rewrite Z.lor_spec, !shiftl_testbit by lia.
    destruct (decide (i = off + k)) as [->|Hne].
    + rewrite (proj2 (Z.leb_gt _ _)), (proj2 (Z.leb_le _ _)) by lia. cbn [andb].
      rewrite field_testbit by lia. rewrite Z.sub_diag, Z.add_0_l, (proj2 (Z.ltb_lt _ _)) by lia.
      destruct (Z.testbit v k); [by rewrite Z.pow2_bits_true by lia|by rewrite Z.bits_0].
    + assert (Z.testbit (if Z.testbit v k then 2 ^ (off + k) else 0) i = false) as ->.
      { destruct (Z.testbit v k); [by rewrite Z.pow2_bits_false by lia|by rewrite Z.bits_0]. }
      cbn [orb]. destruct (Z.leb_spec (off + k) i).
      * rewrite (proj2 (Z.leb_le _ _)), !field_testbit by lia. cbn [andb].
        replace (i - (off + (k + 1)) + (k + 1)) with (i - (off + k) + k) by lia.
        f_equal. apply eq_true_iff_eq. rewrite !Z.ltb_lt. lia.
      * rewrite (proj2 (Z.leb_gt _ _)) by lia. done.
Qed.

(** What an item of a report occupies, inside a report of [len] bytes. *)
Definition item_fits (i : HID_ReportItem_t) (len : nat) : Prop :=
  0 <= BitOffset i /\ 0 <= BitSize (Attributes i) <= 32 /\
  BitOffset i + BitSize (Attributes i) <= 8 * Z.of_nat len /\
  BitOffset i + BitSize (Attributes i) < 65536.

(** The item after its field has been read from a report. *)
Definition item_read (data : list Z) (i : HID_ReportItem_t) : HID_ReportItem_t :=
  Item (BitOffset i) (ItemType i) (ItemFlags i) (Item_ReportID i) (Item_CollectionPath i) (Attributes i)
       (field (of_le_bytes data) (BitOffset i) (BitSize (Attributes i))) (Value i).

Lemma get_item_field data i :
  Forall is_u8 data -> item_fits i (length data) -> Item_ReportID i = 0 ->
  USB_GetHIDReportItemInfo data i = Some (true, item_read data i).
Proof.
  intros Hd (Ho & Hs & Hl & Hw) Hid. unfold USB_GetHIDReportItemInfo, item_read. rewrite Hid. cbn [Z.eqb mbind option_bind].
  pose proof (get_bits_spec data (BitOffset i) Hd Ho (Z.to_nat (BitSize (Attributes i))) 0 0) as H.
  rewrite Z2Nat.id, Z.add_0_r, Z.shiftl_0_r in H by lia. change (2 ^ 0) with 1 in H.
  rewrite H by lia. cbn [mbind option_bind]. by rewrite Z.lor_0_l.
Qed.

(** [USB_GetHIDReportItemInfo] on a report without IDs reads exactly the
    bit field the item describes: its value is the [BitSize] bits of the
    report, taken as a little-endian number, from [BitOffset] on, and the old
    value becomes the previous value.  With report IDs, a report whose first
    byte is another ID leaves the item as it was. *)
Theorem get_item_reads_field data i :
  Forall is_u8 data -> item_fits i (length data) ->
  (Item_ReportID i = 0 ->
   USB_GetHIDReportItemInfo data i =
     Some (true, Item (BitOffset i) (ItemType i) (ItemFlags i) (Item_ReportID i)
                      (Item_CollectionPath i) (Attributes i)
                      (field (of_le_bytes data) (BitOffset i) (BitSize (Attributes i))) (Value i))) /\
  (forall id, Item_ReportID i <> 0 -> id <> Item_ReportID i ->
   USB_GetHIDReportItemInfo (id :: data) i = Some (false, i)).
Proof.
  intros Hd Hfit. split.
  - intros Hid. by apply get_item_field.
  - intros id H0 Hne. unfold USB_GetHIDReportItemInfo.
    rewrite (proj2 (Z.eqb_neq _ 0) H0). cbn [mbind option_bind].
    by rewrite (proj2 (Z.eqb_neq _ id)) by congruence.
Qed.

(** Writing an item and reading it back: in a report whose bits of the
    item are clear, [USB_SetHIDReportItemInfo] followed by
    [USB_GetHIDReportItemInfo] yields the low [BitSize] bits of the value, and
    the report is otherwise the old one with that field or'ed in. *)
Theorem set_get_item_roundtrip data i :
  Forall is_u8 data -> item_fits i (length data) -> Item_ReportID i = 0 ->
  field (of_le_bytes data) (BitOffset i) (BitSize (Attributes i)) = 0 ->
  exists data' i',
    USB_SetHIDReportItemInfo data i = Some (data', i') /\
    length data' = length data /\
    of_le_bytes data' = Z.lor (of_le_bytes data)
      (Z.shiftl (field (Value i) 0 (BitSize (Attributes i))) (BitOffset i)) /\
    (exists i'', USB_GetHIDReportItemInfo data' i' = Some (true, i'') /\
       Value i'' = field (Value i) 0 (BitSize (Attributes i)) /\ PreviousValue i'' = Value i).
Proof.
  intros Hd (Ho & Hs & Hl & Hw) Hid Hclear.
  destruct (set_bits_spec (BitOffset i) (Value i) Ho (Z.to_nat (BitSize (Attributes i))) 0 data)
    as (data' & Hset & Hnum & Hlen & Hd'); [done|lia..|].
  rewrite Z.add_0_r in Hset, Hnum. rewrite Z2Nat.id in Hnum by lia.
  unfold USB_SetHIDReportItemInfo. rewrite Hid. cbn [Z.eqb]. change (2 ^ 0) with 1 in Hset.
  rewrite Hset. cbn [mbind option_bind]. eexists _, _. split_and!; [done|done|done|].
  pose proof (get_bits_spec data' (BitOffset i) Hd' Ho (Z.to_nat (BitSize (Attributes i))) 0 0) as H.
  rewrite Z2Nat.id, Z.add_0_r, Z.shiftl_0_r in H by lia. change (2 ^ 0) with 1 in H.
  unfold USB_GetHIDReportItemInfo. cbn [Item_ReportID Z.eqb mbind option_bind Attributes BitOffset].
  rewrite H by lia. cbn [mbind option_bind]. eexists. split_and!; [done| |done]. cbn [Value].
  rewrite Z.lor_0_l, Hnum. apply Z.bits_inj'. intros j Hj.
  apply (f_equal (fun z => Z.testbit z j)) in Hclear. rewrite Z.bits_0 in Hclear.
  rewrite field_testbit in Hclear by lia. rewrite !field_testbit by lia.
  destruct (Z.ltb_spec j (BitSize (Attributes i))); cbn [andb] in *; [|done].
  rewrite Z.lor_spec, Hclear, shiftl_testbit by lia. cbn [orb].
  rewrite (proj2 (Z.leb_le _ _)) by lia. cbn [andb]. rewrite field_testbit by lia.
  rewrite (proj2 (Z.ltb_lt _ _)) by lia. cbn [andb]. f_equal. lia.
Qed.

(** An 8-bit item at bit 4 of a three-byte report. *)
Definition sample_item (v : Z) : HID_ReportItem_t :=
  Item 4 HID_REPORT_ITEM_In 2 0 None (Attr 8 (Usage_ 1 48) (Unit_ 0 0) (MinMax 0 255) (MinMax 0 255)) v 0.

Lemma sample_item_fits v : item_fits (sample_item v) 3.
Proof. unfold item_fits. cbn. lia. Qed.

Lemma bytes_u8 (l : list Z) : forallb (fun b => bool_decide (is_u8 b)) l = true -> Forall is_u8 l.
Proof.
  rewrite forallb_forall, Forall_forall. intros H x Hx.
  by apply H, bool_decide_eq_true in Hx.
Qed.

Lemma get_item_reads_field_witness :
  exists i', USB_GetHIDReportItemInfo [0x50; 0xA6; 0x07] (sample_item 9) = Some (true, i') /\
    Value i' = 0x65 /\ PreviousValue i' = 9.
Proof.
  eexists. split; [apply (proj1 (get_item_reads_field [0x50; 0xA6; 0x07] (sample_item 9)
    (bytes_u8 [0x50; 0xA6; 0x07] eq_refl) (sample_item_fits 9)) eq_refl)|]. by vm_compute.
Defined.

Lemma set_get_item_roundtrip_witness :
  exists data' i', USB_SetHIDReportItemInfo [0x0F; 0xF0; 0] (sample_item 0x1A5) = Some (data', i') /\
    length data' = 3%nat /\
    of_le_bytes data' = Z.lor 0xF00F (Z.shiftl (field 0x1A5 0 8) 4) /\
    exists i'', USB_GetHIDReportItemInfo data' i' = Some (true, i'') /\
      Value i'' = field 0x1A5 0 8 /\ PreviousValue i'' = 0x1A5.
Proof.
  exact (set_get_item_roundtrip [0x0F; 0xF0; 0] (sample_item 0x1A5) (bytes_u8 [0x0F; 0xF0; 0] eq_refl)
    (sample_item_fits _) eq_refl eq_refl).
Defined.

(** ** The controller's report descriptor *)

Definition accept_all (_ : HID_ReportItem_t) : bool := true.

(** Offset, size, usage page and usage of an item. *)
Definition layout (i : HID_ReportItem_t) : Z * Z * Z * Z :=
  (BitOffset i, BitSize (Attributes i), Usage_Page (Attr_Usage (Attributes i)),
   Usage_Usage (Attr_Usage (Attributes i))).

(** Fourteen buttons, the hat switch, X, Y, Z and Rz. *)
Definition joystick_layout : list (Z * Z * Z * Z) :=
  ((fun n => (Z.of_nat n, 1, 9, Z.of_nat n + 1)) <$> seq 0 14)
  ++ [(16, 4, 1, 57); (24, 8, 1, 48); (32, 8, 1, 49); (40, 8, 1, 50); (48, 8, 1, 53)].

(** The items a host counts. *)
Definition counted_items (r : HID_ReportInfo_t) : list HID_ReportItem_t :=
  take (Z.to_nat (TotalReportItems r)) (ReportItems r).

Lemma joystick_parse v0 v1 :
  exists r, USB_ProcessHIDReport accept_all v0 v1 JoystickReport (Z.of_nat (length JoystickReport))
              = Some (HID_PARSE_Successful, r) /\
    layout <$> counted_items r = joystick_layout /\
    Forall (fun i => Item_ReportID i = 0 /\ ItemType i = HID_REPORT_ITEM_In) (counted_items r) /\
    USB_GetHIDReportSize r 0 HID_REPORT_ITEM_In = 8 /\
    USB_GetHIDReportSize r 0 HID_REPORT_ITEM_Out = 0 /\
    LargestReportSizeBits r = 64.
Proof.
  eexists. split; [vm_compute; reflexivity|]. split_and!; [reflexivity| |reflexivity..].
  repeat constructor.
Qed.

(** The sizes in bytes of the input and output reports a descriptor describes. *)
Definition report_sizes (d : list Z) : option (HID_Parse_ErrorCodes_t * Z * Z) :=
  match USB_ProcessHIDReport accept_all 0 0 d (Z.of_nat (length d)) with
  | Some (c, r) => Some (c, USB_GetHIDReportSize r 0 HID_REPORT_ITEM_In, USB_GetHIDReportSize r 0 HID_REPORT_ITEM_Out)
  | None => None
  end.

Ltac each_value n := assert_fails (is_evar n);
  match goal with H : ?a <= n <= ?b |- _ =>
    destruct (decide (n = a)) as [->|?]; [|assert (a + 1 <= n <= b) by lia; clear H; cbn in *]
  end.

(** The ready made report descriptors describe the reports their comments
    give: a keyboard of [n] keys an input report of [n] + 2 bytes and one
    output byte (7 keys at most with the default item table), a vendor
    descriptor of [n] bytes equal input and output reports of [n] bytes (10 at
    most), a mouse one button byte and two axes of one or two bytes. *)
Theorem ready_made_report_sizes :
  (forall n, 1 <= n <= 7 ->
     report_sizes (HID_DESCRIPTOR_KEYBOARD n) = Some (HID_PARSE_Successful, n + 2, 1)) /\
  (forall n page u1 u2 u3, 1 <= n <= 10 ->
     report_sizes (HID_DESCRIPTOR_VENDOR page u1 u2 u3 n) = Some (HID_PARSE_Successful, n, n)) /\
  (forall b lo hi plo phi absolute, 1 <= b <= 8 ->
     report_sizes (HID_DESCRIPTOR_MOUSE lo hi plo phi b absolute) =
       Some (HID_PARSE_Successful, 1 + 2 * (if (-128 <=? lo) && (hi <=? 127) then 1 else 2), 0)).
Proof.
  split_and!.
  - intros n Hn. repeat (each_value n; [by vm_compute|]). lia.
  - intros n page u1 u2 u3 Hn. repeat (each_value n; [by vm_compute|]). lia.
  - intros b lo hi plo phi absolute Hb. unfold HID_DESCRIPTOR_MOUSE.
    destruct ((-128 <=? lo) && (hi <=? 127)), absolute;
      repeat (each_value b; [by vm_compute|]); lia.
Qed.
