(* ===== verification/UsbCore.v ===== *)
(** * Requests, device states and the shared USB objects

    The control request header and its constants (LUFA StdRequestType.h), the
    device states (Device.h), the objects the device stack keeps
    (DeviceStandardReq.c, USBTask.c), and the device-mode register helpers of
    Device_AVR8.h.  Programs of the stack are polymorphic in the state of the
    application; class [UsbState] is what they need of it. *)

From S2P Require Import Prelude StdDescriptors Machine.

(** ** Control requests *)

Definition CONTROL_REQTYPE_DIRECTION : Z := 0x80.
Definition CONTROL_REQTYPE_TYPE : Z := 0x60.
Definition CONTROL_REQTYPE_RECIPIENT : Z := 0x1F.
Definition REQDIR_HOSTTODEVICE : Z := Z.shiftl 0 7.
Definition REQDIR_DEVICETOHOST : Z := Z.shiftl 1 7.
Definition REQTYPE_STANDARD : Z := Z.shiftl 0 5.
Definition REQTYPE_CLASS : Z := Z.shiftl 1 5.
Definition REQTYPE_VENDOR : Z := Z.shiftl 2 5.
Definition REQREC_DEVICE : Z := Z.shiftl 0 0.
Definition REQREC_INTERFACE : Z := Z.shiftl 1 0.
Definition REQREC_ENDPOINT : Z := Z.shiftl 2 0.
Definition REQREC_OTHER : Z := Z.shiftl 3 0.

(** [dir | type | recipient]. *)
Definition reqtype (dir type recipient : Z) : Z := Z.lor (Z.lor dir type) recipient.

Record USB_Request_Header_t := Request {
  bmRequestType : Z;
  bRequest : Z;
  wValue : Z;
  wIndex : Z;
  wLength : Z
}.

#[export] Instance USB_Request_Header_t_packed : Packed USB_Request_Header_t := {|
  widths := [1; 1; 2; 2; 2]%nat;
  fields r := [bmRequestType r; bRequest r; wValue r; wIndex r; wLength r];
  of_fields vs := match vs with [a; b; c; d; e] => Some (Request a b c d e) | _ => None end
|}.
#[export] Instance USB_Request_Header_t_packed_ok : PackedOk USB_Request_Header_t.
Proof. packed_ok. Qed.

Inductive USB_Control_Request_t :=
  | REQ_GetStatus | REQ_ClearFeature | REQ_SetFeature | REQ_SetAddress | REQ_GetDescriptor
  | REQ_SetDescriptor | REQ_GetConfiguration | REQ_SetConfiguration | REQ_GetInterface
  | REQ_SetInterface | REQ_SynchFrame.

Definition request_code (r : USB_Control_Request_t) : Z :=
  match r with
  | REQ_GetStatus => 0 | REQ_ClearFeature => 1 | REQ_SetFeature => 3 | REQ_SetAddress => 5
  | REQ_GetDescriptor => 6 | REQ_SetDescriptor => 7 | REQ_GetConfiguration => 8
  | REQ_SetConfiguration => 9 | REQ_GetInterface => 10 | REQ_SetInterface => 11 | REQ_SynchFrame => 12
  end.

Definition FEATURE_SEL_EndpointHalt : Z := 0x00.
Definition FEATURE_SEL_DeviceRemoteWakeup : Z := 0x01.
Definition FEATURE_SEL_TestMode : Z := 0x02.
Definition FEATURE_SELFPOWERED_ENABLED : Z := Z.shiftl 1 0.
Definition FEATURE_REMOTE_WAKEUP_ENABLED : Z := Z.shiftl 1 1.

(** ** Device states *)

Inductive USB_Device_States_t :=
  | DEVICE_STATE_Unattached | DEVICE_STATE_Powered | DEVICE_STATE_Default
  | DEVICE_STATE_Addressed | DEVICE_STATE_Configured | DEVICE_STATE_Suspended.

#[export] Instance USB_Device_States_t_eq_dec : EqDecision USB_Device_States_t.
Proof. solve_decision. Defined.

Definition state_code (s : USB_Device_States_t) : Z :=
  match s with
  | DEVICE_STATE_Unattached => 0 | DEVICE_STATE_Powered => 1 | DEVICE_STATE_Default => 2
  | DEVICE_STATE_Addressed => 3 | DEVICE_STATE_Configured => 4 | DEVICE_STATE_Suspended => 5
  end.

(** ** The objects of the stack *)

(** Those that are not [volatile]; [USB_DeviceState] and [USB_IsInitialized]
    are accessed through the log. *)
Record usb_globals := UsbGlobals {
  USB_ControlRequest : USB_Request_Header_t;
  USB_Device_ConfigurationNumber : Z;
  USB_Device_CurrentlySelfPowered : bool;
  USB_Device_RemoteWakeupEnabled : bool
}.

Definition set_request (r : USB_Request_Header_t) (u : usb_globals) : usb_globals :=
  UsbGlobals r (USB_Device_ConfigurationNumber u) (USB_Device_CurrentlySelfPowered u)
             (USB_Device_RemoteWakeupEnabled u).
Definition set_configuration (n : Z) (u : usb_globals) : usb_globals :=
  UsbGlobals (USB_ControlRequest u) n (USB_Device_CurrentlySelfPowered u)
             (USB_Device_RemoteWakeupEnabled u).
Definition set_self_powered (b : bool) (u : usb_globals) : usb_globals :=
  UsbGlobals (USB_ControlRequest u) (USB_Device_ConfigurationNumber u) b
             (USB_Device_RemoteWakeupEnabled u).
Definition set_remote_wakeup (b : bool) (u : usb_globals) : usb_globals :=
  UsbGlobals (USB_ControlRequest u) (USB_Device_ConfigurationNumber u)
             (USB_Device_CurrentlySelfPowered u) b.

(** A program state that holds these objects. *)
Class UsbState (G : Type) := {
  usb : G -> usb_globals;
  put_usb : usb_globals -> G -> G
}.
Class UsbStateOk (G : Type) `{UsbState G} : Prop := {
  usb_put u g : usb (put_usb u g) = u;
  put_put u u' g : put_usb u (put_usb u' g) = put_usb u g;
  put_same g : put_usb (usb g) g = g
}.

#[export] Instance usb_alone : UsbState usb_globals := {| usb u := u; put_usb u _ := u |}.
#[export] Instance usb_alone_ok : UsbStateOk usb_globals.
Proof. by split. Qed.

Section UsbObjects.
Context {G : Type} `{UsbState G} `{Avr}.

Definition get_usb : M G usb_globals := g <- mget;; ret (usb g).
Definition mod_usb (f : usb_globals -> usb_globals) : M G unit :=
  mmodify (fun g => put_usb (f (usb g)) g).
Definition get_request : M G USB_Request_Header_t := u <- get_usb;; ret (USB_ControlRequest u).

Definition set_DeviceState (s : USB_Device_States_t) : M G unit := wr V_USB_DeviceState (state_code s).
(** [USB_DeviceState == s] *)
Definition is_DeviceState (s : USB_Device_States_t) : M G bool :=
  v <- rd V_USB_DeviceState;; ret (v =? state_code s).

(** Device_AVR8.h *)
Definition USB_Device_GetFrameNumber : M G Z := rd UDFNUM.
Definition USB_Device_EnableSOFEvents : M G unit := reg_or UDIEN SOFE.
Definition USB_Device_DisableSOFEvents : M G unit := reg_andn UDIEN SOFE.
Definition USB_Device_SetLowSpeed : M G unit := reg_or UDCON LSM.
Definition USB_Device_SetFullSpeed : M G unit := reg_andn UDCON LSM.
Definition USB_Device_SetDeviceAddress (Address : Z) : M G unit :=
  v <- rd UDADDR;; wr UDADDR (Z.lor (Z.land v (Z.shiftl 1 ADDEN)) (Z.land Address 0x7F)).
Definition USB_Device_EnableDeviceAddress (Address : Z) : M G unit := reg_or UDADDR ADDEN.
Definition USB_Device_IsAddressSet : M G bool := reg_bit UDADDR ADDEN.

(** Common.h: [SREG] holds the global interrupt enable flag in bit 7. *)
Definition GetGlobalInterruptMask : M G Z := rd SREG.
Definition SetGlobalInterruptMask (mask : Z) : M G unit := wr SREG mask.
Definition GlobalInterruptEnable : M G unit := reg_or SREG 7.
Definition GlobalInterruptDisable : M G unit := reg_andn SREG 7.
End UsbObjects.

Definition USE_INTERNAL_SERIAL : Z := 0xDC.
Definition INTERNAL_SERIAL_LENGTH_BITS : Z := 80.
Definition INTERNAL_SERIAL_START_ADDRESS : Z := 0x0E.

(** ** The serial number of the chip *)

Section SerialString.
Context {G : Type}.
(** avr-libc's read of the signature row of the chip. *)
Variable boot_signature_byte_get : Z -> Z.

(** The hexadecimal digit of the low nibble. *)
Definition serial_char (SerialByte : Z) : Z :=
  let d := Z.land SerialByte 0x0F in
  u16 (if 10 <=? d then (65 - 10) + d else 48 + d).

(** The characters from character [n] on, [k] of them; [SigReadAddress] moves on
    after the high nibble. *)
Fixpoint serial_chars (k : nat) (n SigReadAddress : Z) : list Z :=
  match k with
  | O => []
  | S k' =>
      let SerialByte := u8 (boot_signature_byte_get SigReadAddress) in
      if Z.testbit n 0
      then serial_char (Z.shiftr SerialByte 4) :: serial_chars k' (n + 1) (u8 (SigReadAddress + 1))
      else serial_char SerialByte :: serial_chars k' (n + 1) SigReadAddress
  end.

Definition USB_Device_GetSerialString : M G (list Z) :=
  CurrentGlobalInt <- GetGlobalInterruptMask;;
  GlobalInterruptDisable;;;
  let s := serial_chars (Z.to_nat (INTERNAL_SERIAL_LENGTH_BITS / 4)) 0 INTERNAL_SERIAL_START_ADDRESS in
  SetGlobalInterruptMask CurrentGlobalInt;;;
  ret s.
End SerialString.

(** ** What the stack calls *)

(** The events of Events.h a device application may define; the ones it does
    not are aliases of the empty [USB_Event_Stub]. *)
Definition USB_Event_Stub {G} : M G unit := ret tt.

(** The application of a device: its event handlers and its descriptors, as the
    memory behind the pointer [CALLBACK_USB_GetDescriptor] hands out and the
    size it returns. *)
Class UsbApplication (G : Type) := {
  EVENT_USB_Device_ControlRequest : M G unit;
  EVENT_USB_Device_ConfigurationChanged : M G unit;
  EVENT_USB_Device_Connect : M G unit;
  EVENT_USB_Device_Disconnect : M G unit;
  EVENT_USB_Device_Reset : M G unit;
  EVENT_USB_Device_Suspend : M G unit;
  EVENT_USB_Device_WakeUp : M G unit;
  EVENT_USB_Device_StartOfFrame : M G unit;
  GetDescriptor : Z -> Z -> list Z * Z
}.

(** Whether a request has the standard type. *)
Definition is_standard (r : USB_Request_Header_t) : bool :=
  Z.land (bmRequestType r) CONTROL_REQTYPE_TYPE =? REQTYPE_STANDARD.

(** What the stack relies on: the application leaves standard requests alone,
    and the descriptors it hands out are bytes within their memory. *)
Class UsbApplicationOk (G : Type) `{UsbState G} `{UsbApplication G} : Prop := {
  app_ignores_standard p (w : world G) : is_standard (USB_ControlRequest (usb (st w))) = true ->
    EVENT_USB_Device_ControlRequest p w = Done tt w;
  app_descriptor_bytes v i : Forall is_u8 (fst (GetDescriptor v i));
  app_descriptor_size v i : 0 <= snd (GetDescriptor v i) < 65536 /\
    snd (GetDescriptor v i) <= Z.of_nat (length (fst (GetDescriptor v i)))
}.
