(* ===== verification/Endpoint.v ===== *)
(** * The endpoint driver (LUFA Endpoint_AVR8.h, Endpoint_AVR8.c)

    The operations on the selected endpoint's registers, endpoint
    configuration, the status stage of control transfers and the wait for an
    endpoint with its frame-counted timeout. *)

From S2P Require Import Prelude StdDescriptors HIDClass Descriptors Machine UsbCore.

Definition ENDPOINT_EPNUM_MASK : Z := 0x0F.
Definition ENDPOINT_CONTROLEP : Z := 0.
Definition USB_STREAM_TIMEOUT_MS : Z := 100.
Definition USB_Device_ControlEndpointSize : Z := FIXED_CONTROL_ENDPOINT_SIZE.

Definition ENDPOINT_TOTAL_ENDPOINTS `{Avr} : Z :=
  match series with USB_SERIES_4_AVR => 7 | USB_SERIES_2_AVR => 5 end.

Record USB_Endpoint_Table_t := EndpointEntry {
  Entry_Address : Z;
  Entry_Size : Z;
  Entry_Type : Z;
  Entry_Banks : Z
}.

Inductive Endpoint_WaitUntilReady_ErrorCodes_t :=
  | ENDPOINT_READYWAIT_NoError | ENDPOINT_READYWAIT_EndpointStalled
  | ENDPOINT_READYWAIT_DeviceDisconnected | ENDPOINT_READYWAIT_BusSuspended
  | ENDPOINT_READYWAIT_Timeout.

#[export] Instance wait_code_eq_dec : EqDecision Endpoint_WaitUntilReady_ErrorCodes_t.
Proof. solve_decision. Defined.

(** A table entry with its type set. *)
Definition of_type (t : Z) (e : USB_Endpoint_Table_t) : USB_Endpoint_Table_t :=
  EndpointEntry (Entry_Address e) (Entry_Size e) t (Entry_Banks e).

Section Endpoint.
Context {G : Type} `{UsbState G} `{Avr}.
Implicit Types w : world G.

(** ** Registers of the selected endpoint *)

Definition Endpoint_BytesInEndpoint : M G Z :=
  match series with
  | USB_SERIES_4_AVR => hi <- rd UEBCHX;; lo <- rd UEBCLX;; ret (Z.lor (Z.shiftl hi 8) lo)
  | USB_SERIES_2_AVR => rd UEBCLX
  end.
Definition Endpoint_GetEndpointDirection : M G Z :=
  d <- reg_bit UECFG0X EPDIR;; ret (if d then ENDPOINT_DIR_IN else ENDPOINT_DIR_OUT).
Definition Endpoint_GetCurrentEndpoint : M G Z :=
  n <- rd UENUM;;
  d <- Endpoint_GetEndpointDirection;;
  ret (Z.lor (Z.land n ENDPOINT_EPNUM_MASK) d).
Definition Endpoint_SelectEndpoint (Address : Z) : M G unit :=
  wr UENUM (Z.land Address ENDPOINT_EPNUM_MASK).
Definition Endpoint_ResetEndpoint (Address : Z) : M G unit :=
  wr UERST (Z.shiftl 1 (Z.land Address ENDPOINT_EPNUM_MASK));;; wr UERST 0.
Definition Endpoint_EnableEndpoint : M G unit := reg_or UECONX EPEN.
Definition Endpoint_DisableEndpoint : M G unit := reg_andn UECONX EPEN.
Definition Endpoint_IsEnabled : M G bool := reg_bit UECONX EPEN.
Definition Endpoint_GetBusyBanks : M G Z :=
  v <- rd UESTA0X;; ret (Z.land v (Z.shiftl 0x03 NBUSYBK0)).
Definition Endpoint_AbortPendingIN : M G unit :=
  while_ (fun _ : unit =>
    b <- Endpoint_GetBusyBanks;;
    if b =? 0 then ret (inr tt) else
    reg_or UEINTX RXOUTI;;;
    while_ (fun _ : unit => r <- reg_bit UEINTX RXOUTI;; ret (if r then inl tt else inr tt)) tt;;;
    ret (inl tt)) tt.
Definition Endpoint_IsReadWriteAllowed : M G bool := reg_bit UEINTX RWAL.
Definition Endpoint_IsConfigured : M G bool := reg_bit UESTA0X CFGOK.
Definition Endpoint_GetEndpointInterrupts : M G Z := rd UEINT.
Definition Endpoint_HasEndpointInterrupted (Address : Z) : M G bool :=
  v <- Endpoint_GetEndpointInterrupts;;
  ret (bit_tst v (Z.land Address ENDPOINT_EPNUM_MASK)).
Definition Endpoint_IsINReady : M G bool := reg_bit UEINTX TXINI.
Definition Endpoint_IsOUTReceived : M G bool := reg_bit UEINTX RXOUTI.
Definition Endpoint_IsSETUPReceived : M G bool := reg_bit UEINTX RXSTPI.
Definition Endpoint_ClearSETUP : M G unit := reg_andn UEINTX RXSTPI.
(** [UEINTX &= ~((1 << a) | (1 << b))] *)
Definition clear_flags (a b : Z) : M G unit :=
  v <- rd UEINTX;; wr UEINTX (Z.land v (Z.lnot (Z.lor (Z.shiftl 1 a) (Z.shiftl 1 b)))).
Definition Endpoint_ClearIN : M G unit := clear_flags TXINI FIFOCON.
Definition Endpoint_ClearOUT : M G unit := clear_flags RXOUTI FIFOCON.
Definition Endpoint_StallTransaction : M G unit := reg_or UECONX STALLRQ.
Definition Endpoint_ClearStall : M G unit := reg_or UECONX STALLRQC.
Definition Endpoint_IsStalled : M G bool := reg_bit UECONX STALLRQ.
Definition Endpoint_ResetDataToggle : M G unit := reg_or UECONX RSTDT.
Definition Endpoint_SetEndpointDirection (DirectionMask : Z) : M G unit :=
  v <- rd UECFG0X;;
  wr UECFG0X (Z.lor (bit_clr v EPDIR) (if DirectionMask =? 0 then 0 else Z.shiftl 1 EPDIR)).

(** ** Data of the selected endpoint *)

Definition Endpoint_Read_8 : M G Z := rd UEDATX.
Definition Endpoint_Write_8 (Data : Z) : M G unit := wr UEDATX Data.
Definition Endpoint_Discard_8 : M G unit := rd UEDATX;;; ret tt.
Definition Endpoint_Read_16_LE : M G Z :=
  b0 <- rd UEDATX;; b1 <- rd UEDATX;; ret (of_le_bytes [b0; b1]).
Definition Endpoint_Read_16_BE : M G Z :=
  b1 <- rd UEDATX;; b0 <- rd UEDATX;; ret (of_le_bytes [b0; b1]).
Definition Endpoint_Write_16_LE (Data : Z) : M G unit :=
  wr UEDATX (Z.land Data 0xFF);;; wr UEDATX (Z.shiftr Data 8).
Definition Endpoint_Write_16_BE (Data : Z) : M G unit :=
  wr UEDATX (Z.shiftr Data 8);;; wr UEDATX (Z.land Data 0xFF).
Definition Endpoint_Discard_16 : M G unit := rd UEDATX;;; rd UEDATX;;; ret tt.
Definition Endpoint_Read_32_LE : M G Z :=
  b0 <- rd UEDATX;; b1 <- rd UEDATX;; b2 <- rd UEDATX;; b3 <- rd UEDATX;; ret (of_le_bytes [b0; b1; b2; b3]).
Definition Endpoint_Read_32_BE : M G Z :=
  b3 <- rd UEDATX;; b2 <- rd UEDATX;; b1 <- rd UEDATX;; b0 <- rd UEDATX;; ret (of_le_bytes [b0; b1; b2; b3]).
Definition Endpoint_Write_32_LE (Data : Z) : M G unit :=
  wr UEDATX (Z.land Data 0xFF);;; wr UEDATX (Z.shiftr Data 8);;;
  wr UEDATX (Z.shiftr Data 16);;; wr UEDATX (Z.shiftr Data 24).
Definition Endpoint_Write_32_BE (Data : Z) : M G unit :=
  wr UEDATX (Z.shiftr Data 24);;; wr UEDATX (Z.shiftr Data 16);;;
  wr UEDATX (Z.shiftr Data 8);;; wr UEDATX (Z.land Data 0xFF).
Definition Endpoint_Discard_32 : M G unit :=
  rd UEDATX;;; rd UEDATX;;; rd UEDATX;;; rd UEDATX;;; ret tt.

(** ** Configuration *)

(** The bank size field for a size in bytes: doubles a 16-bit counter until it
    reaches the size. *)
Definition Endpoint_BytesToEPSizeMask (Bytes : Z) : M G Z :=
  while_ (fun '(MaskVal, CheckBytes) =>
    ret (if CheckBytes <? Bytes then inl (u8 (MaskVal + 1), u16 (Z.shiftl CheckBytes 1))
         else inr (u8 (Z.shiftl MaskVal EPSIZE0)))) (0, 8).

(** Values [a], [a + 1], ..., below [b]. *)
Definition range (a b : Z) : list Z := (fun i => a + Z.of_nat i) <$> seq 0 (Z.to_nat (b - a)).

(** The selected endpoint gets new configuration bytes: disabled, deallocated,
    enabled, written; whether the controller accepts them. *)
Definition write_configuration (UECFG0XTemp UECFG1XTemp UEIENXTemp : Z) : M G bool :=
  Endpoint_DisableEndpoint;;;
  reg_andn UECFG1X ALLOC;;;
  Endpoint_EnableEndpoint;;;
  wr UECFG0X UECFG0XTemp;;;
  wr UECFG1X UECFG1XTemp;;;
  wr UEIENX UEIENXTemp;;;
  Endpoint_IsConfigured.

Definition Endpoint_ConfigureEndpoint_Prv (Number UECFG0XData UECFG1XData : Z) : M G bool :=
  r <- for_each (range Number ENDPOINT_TOTAL_ENDPOINTS) (fun EPNum =>
    Endpoint_SelectEndpoint EPNum;;;
    cfg <- (if EPNum =? Number then ret (UECFG0XData, UECFG1XData, 0)
            else a <- rd UECFG0X;; b <- rd UECFG1X;; c <- rd UEIENX;; ret (a, b, c));;
    let '(UECFG0XTemp, UECFG1XTemp, UEIENXTemp) := cfg in
    if negb (bit_tst UECFG1XTemp ALLOC) then ret None else
    ok <- write_configuration UECFG0XTemp UECFG1XTemp UEIENXTemp;;
    ret (if ok then None else Some false));;
  match r with
  | Some b => ret b
  | None => Endpoint_SelectEndpoint Number;;; ret true
  end.

Definition Endpoint_ConfigureEndpoint (Address Type_ Size Banks : Z) : M G bool :=
  let Number := Z.land Address ENDPOINT_EPNUM_MASK in
  if ENDPOINT_TOTAL_ENDPOINTS <=? Number then ret false else
  mask <- Endpoint_BytesToEPSizeMask Size;;
  Endpoint_ConfigureEndpoint_Prv Number
    (u8 (Z.lor (Z.shiftl Type_ EPTYPE0) (if Z.land Address ENDPOINT_DIR_IN =? 0 then 0 else Z.shiftl 1 EPDIR)))
    (u8 (Z.lor (Z.lor (Z.shiftl 1 ALLOC) (if 1 <? Banks then Z.shiftl 1 EPBK0 else 0)) mask)).

Definition Endpoint_ConfigureEndpointTable (Table : list USB_Endpoint_Table_t) : M G bool :=
  r <- for_each Table (fun e =>
    if Entry_Address e =? 0 then ret None else
    ok <- Endpoint_ConfigureEndpoint (Entry_Address e) (Entry_Type e) (Entry_Size e) (Entry_Banks e);;
    ret (if ok then None else Some false));;
  ret (match r with Some b => b | None => true end).

Definition Endpoint_ClearEndpoints : M G unit :=
  wr UEINT 0;;;
  for_each (R := unit) (range 0 ENDPOINT_TOTAL_ENDPOINTS) (fun EPNum =>
    Endpoint_SelectEndpoint EPNum;;;
    wr UEIENX 0;;; wr UEINTX 0;;; wr UECFG1X 0;;;
    Endpoint_DisableEndpoint;;; ret None);;;
  ret tt.

(** ** Waiting for the host *)

(** [while (!(flag)) if (USB_DeviceState == Unattached) return;] then [clear]. *)
Definition status_wait (flag : M G bool) (clear : M G unit) : M G unit :=
  ready <- while_ (fun _ : unit =>
    f <- flag;;
    if f then ret (inr true) else
    u <- is_DeviceState DEVICE_STATE_Unattached;;
    ret (if u then inr false else inl tt)) tt;;
  if ready then clear else ret tt.

Definition Endpoint_ClearStatusStage : M G unit :=
  r <- get_request;;
  if negb (Z.land (bmRequestType r) REQDIR_DEVICETOHOST =? 0)
  then status_wait Endpoint_IsOUTReceived Endpoint_ClearOUT
  else status_wait Endpoint_IsINReady Endpoint_ClearIN.

Definition Endpoint_WaitUntilReady : M G Endpoint_WaitUntilReady_ErrorCodes_t :=
  f0 <- USB_Device_GetFrameNumber;;
  while_ (fun '(TimeoutMSRem, PreviousFrameNumber) =>
    d <- Endpoint_GetEndpointDirection;;
    ready <- (if d =? ENDPOINT_DIR_IN then Endpoint_IsINReady else Endpoint_IsOUTReceived);;
    if ready then ret (inr ENDPOINT_READYWAIT_NoError) else
    USB_DeviceState_LCL <- rd V_USB_DeviceState;;
    if USB_DeviceState_LCL =? state_code DEVICE_STATE_Unattached
    then ret (inr ENDPOINT_READYWAIT_DeviceDisconnected)
    else if USB_DeviceState_LCL =? state_code DEVICE_STATE_Suspended
    then ret (inr ENDPOINT_READYWAIT_BusSuspended)
    else
      stalled <- Endpoint_IsStalled;;
      if stalled then ret (inr ENDPOINT_READYWAIT_EndpointStalled) else
      CurrentFrameNumber <- USB_Device_GetFrameNumber;;
      ret (if CurrentFrameNumber =? PreviousFrameNumber then inl (TimeoutMSRem, PreviousFrameNumber)
           else if TimeoutMSRem =? 0 then inr ENDPOINT_READYWAIT_Timeout
           else inl (u8 (TimeoutMSRem - 1), CurrentFrameNumber)))
    (USB_STREAM_TIMEOUT_MS, f0).
End Endpoint.

(** ** Bank size field *)

Section EPSize.
Context {G : Type} `{Avr}.

(** The loop state after [k] doublings that have not wrapped. *)
Lemma epsize_rounds Bytes p (w : world G) Q nf k n :
  0 <= k <= 12 -> 8 * 2 ^ k < 65536 -> 0 <= Bytes <= 32768 ->
  (forall j, 0 <= j < k -> 8 * 2 ^ j < Bytes) ->
  (Z.to_nat (13 - k) <= n)%nat ->
  (forall j, 0 <= j <= 12 -> Bytes <= 8 * 2 ^ j -> (forall i, 0 <= i < j -> 8 * 2 ^ i < Bytes) ->
     Q (u8 (Z.shiftl j EPSIZE0)) w) ->
  wp nf (loop n (fun '(MaskVal, CheckBytes) =>
    ret (if CheckBytes <? Bytes then inl (u8 (MaskVal + 1), u16 (Z.shiftl CheckBytes 1))
         else inr (u8 (Z.shiftl MaskVal EPSIZE0)))) (k, 8 * 2 ^ k)) Q p w.
Proof.
  revert k. induction n as [|n IH]; intros k Hk Hk2 HB Hlow Hn HQ; [lia|].
  cbn [loop]. apply wp_bind, wp_ret. destruct (Z.ltb_spec (8 * 2 ^ k) Bytes) as [Hlt|Hge].
  - assert (k < 12) as Hk12.
    { destruct (decide (k = 12)) as [->|]; [|lia]. change (2 ^ 12) with 4096 in Hlt. lia. }
    assert (8 * 2 ^ (k + 1) = 2 * (8 * 2 ^ k)) as Hp by (rewrite Z.pow_add_r by lia; lia).
    assert (8 * 2 ^ (k + 1) < 65536) as Hlt2 by lia.
    rewrite u8_small by (unfold is_u8; lia). rewrite Z.shiftl_mul_pow2 by lia.
    replace (u16 (8 * 2 ^ k * 2 ^ 1)) with (8 * 2 ^ (k + 1))
      by (rewrite u16_small by (unfold is_u16; pose proof (Z.pow_pos_nonneg 2 k); lia); lia).
    apply IH; [lia|done|done| |lia|done].
    intros j Hj. destruct (decide (j = k)) as [->|]; [lia|apply Hlow; lia].
  - apply wp_ret. apply HQ; [lia|done|done].
Qed.

(** [Endpoint_BytesToEPSizeMask] returns the field of the smallest bank of
    8, 16, 32, ... bytes that holds the requested size, for every size up to
    32768; for a larger size the 16-bit counter wraps to 0 and the loop never
    ends, whatever the number of iterations. *)
Theorem bytes_to_epsize_spec Bytes p (w : world G) :
  (0 <= Bytes <= 32768 -> (13 <= fuel p)%nat ->
   wp False (Endpoint_BytesToEPSizeMask Bytes)
     (fun v w' => w' = w /\ exists k, 0 <= k <= 12 /\ v = u8 (Z.shiftl k EPSIZE0) /\
        Bytes <= 8 * 2 ^ k /\ (forall j, 0 <= j < k -> 8 * 2 ^ j < Bytes)) p w) /\
  (32768 < Bytes < 65536 -> Endpoint_BytesToEPSizeMask Bytes p w = NoFuel).
Proof.
  split.
  - intros HB Hf. unfold Endpoint_BytesToEPSizeMask. apply wp_bind, wp_fuel.
    apply (epsize_rounds Bytes p w _ False 0); [lia|cbn; lia|done|lia|lia|].
    intros j Hj HB1 HB2. split; [done|]. exists j. done.
  - intros HB. unfold Endpoint_BytesToEPSizeMask, while_, bind at 1, mfuel.
    assert (forall n m c, (c = 0 \/ exists k, 0 <= k <= 12 /\ c = 8 * 2 ^ k) ->
      loop (G := G) n (fun '(MaskVal, CheckBytes) =>
        ret (if CheckBytes <? Bytes then inl (u8 (MaskVal + 1), u16 (Z.shiftl CheckBytes 1))
             else inr (u8 (Z.shiftl MaskVal EPSIZE0)))) (m, c) p w = NoFuel) as Hl.
    { clear -HB. induction n as [|n IH]; intros m c Hc; [done|]. cbn [loop]. unfold bind, ret.
      assert (0 <= c <= 32768) as Hr.
      { destruct Hc as [->|(k & Hk & ->)]; [lia|]. change 32768 with (8 * 2 ^ 12).
        pose proof (Z.pow_le_mono_r 2 k 12). pose proof (Z.pow_pos_nonneg 2 k). lia. }
      rewrite (proj2 (Z.ltb_lt c Bytes)) by lia. apply IH.
      rewrite Z.shiftl_mul_pow2 by lia. change (2 ^ 1) with 2.
      destruct Hc as [->|(k & Hk & ->)]; [by left|].
      destruct (decide (k = 12)) as [->|Hne]; [by left|right].
      exists (k + 1). split; [lia|]. rewrite Z.pow_add_r by lia. change (2 ^ 1) with 2.
      assert (2 ^ k <= 2 ^ 11) by (apply Z.pow_le_mono_r; lia). change (2 ^ 11) with 2048 in *.
      pose proof (Z.pow_pos_nonneg 2 k). rewrite u16_small by (unfold is_u16; lia). lia. }
    apply Hl. right. by exists 0.
Qed.
End EPSize.

(** The joystick's endpoints ask for 64 bytes; a size of 40000 loops. *)
Lemma bytes_to_epsize_spec_witness :
  (exists k, 0 <= k <= 12 /\ 64 <= 8 * 2 ^ k /\
     @Endpoint_BytesToEPSizeMask unit (datasheet USB_SERIES_2_AVR) 64
       {| respond := fun _ _ => 0; fuel := 13 |} (World tt []) = Done (u8 (Z.shiftl k 4)) (World tt [])) /\
  @Endpoint_BytesToEPSizeMask unit (datasheet USB_SERIES_2_AVR) 40000
    {| respond := fun _ _ => 0; fuel := 1000 |} (World tt []) = NoFuel.
Proof.
  split.
  - pose proof (proj1 (@bytes_to_epsize_spec unit (datasheet USB_SERIES_2_AVR) 64
      {| respond := fun _ _ => 0; fuel := 13 |} (World tt [])) ltac:(lia) ltac:(cbn; lia)) as Hw.
    exists 3. split; [lia|]. split; [reflexivity|]. vm_compute in Hw. vm_compute. reflexivity.
  - apply bytes_to_epsize_spec. lia.
Defined.

(** ** Flags *)

Section Flags.
Context {G : Type} `{AvrOk}.

Lemma testbit_two a b i : 0 <= a -> 0 <= b -> 0 <= i ->
  Z.testbit (Z.lnot (Z.lor (Z.shiftl 1 a) (Z.shiftl 1 b))) i = negb (i =? a) && negb (i =? b).
Proof.
  intros. by rewrite Z.lnot_spec, Z.lor_spec, !testbit_one, negb_orb by done.
Qed.

Lemma testbit_u8 v i : 0 <= i < 8 -> Z.testbit (u8 v) i = Z.testbit v i.
Proof. intros. unfold u8. change 256 with (2 ^ 8). by rewrite Z.mod_pow2_bits_low by lia. Qed.

(** What an acknowledgement writes: the flags read, with two of them cleared. *)
Lemma clear_flags_run a b p (w : world G) : 0 <= a < 8 -> 0 <= b < 8 ->
  exists v v', clear_flags a b p w = Done tt (World (st w) (Wr UEINTX v' :: Rd UEINTX v :: hist w)) /\
    forall i, 0 <= i < 8 -> bit_tst v' i = negb (i =? a) && negb (i =? b) && bit_tst v i.
Proof.
  intros Ha Hb. eexists _, _. split; [reflexivity|]. intros i Hi. cbn [reg_wrap].
  rewrite !bit_tst_testbit, testbit_u8, Z.land_spec, testbit_two by lia. apply andb_comm.
Qed.

Lemma flag_facts :
  (0 <= TXINI < 8 /\ 0 <= RXOUTI < 8 /\ 0 <= RXSTPI < 8 /\ 0 <= FIFOCON < 8) /\
  TXINI <> RXOUTI /\ TXINI <> RXSTPI /\ TXINI <> FIFOCON /\ RXOUTI <> RXSTPI /\
  RXOUTI <> FIFOCON /\ RXSTPI <> FIFOCON.
Proof.
  pose proof ueintx_bits as Hb. pose proof ueintx_nodup as Hn.
  rewrite !Forall_cons_iff in Hb. rewrite !list.NoDup_cons, !not_elem_of_cons in Hn. tauto.
Qed.

(** Acknowledging IN data never acknowledges a SETUP or an OUT packet, and
    acknowledging OUT data never a SETUP or an IN packet: each performs one
    read and one write of [UEINTX], and the value written has its own two
    flags clear and every other flag as it was read. *)
Theorem acknowledge_only_own_flags p (w : world G) :
  (exists v v', Endpoint_ClearIN p w = Done tt (World (st w) (Wr UEINTX v' :: Rd UEINTX v :: hist w)) /\
     bit_tst v' TXINI = false /\ bit_tst v' FIFOCON = false /\
     bit_tst v' RXSTPI = bit_tst v RXSTPI /\ bit_tst v' RXOUTI = bit_tst v RXOUTI) /\
  (exists v v', Endpoint_ClearOUT p w = Done tt (World (st w) (Wr UEINTX v' :: Rd UEINTX v :: hist w)) /\
     bit_tst v' RXOUTI = false /\ bit_tst v' FIFOCON = false /\
     bit_tst v' RXSTPI = bit_tst v RXSTPI /\ bit_tst v' TXINI = bit_tst v TXINI).
Proof.
  destruct flag_facts as ((B1 & B2 & B3 & B4) & N1 & N2 & N3 & N4 & N5 & N6).
  split.
  - destruct (clear_flags_run TXINI FIFOCON p w B1 B4) as (v & v' & Hr & Hv).
    exists v, v'. split; [exact Hr|]. rewrite !Hv by done. rewrite !Z.eqb_refl.
    rewrite !(proj2 (Z.eqb_neq _ _)) by congruence. by rewrite !andb_false_r.
  - destruct (clear_flags_run RXOUTI FIFOCON p w B2 B4) as (v & v' & Hr & Hv).
    exists v, v'. split; [exact Hr|]. rewrite !Hv by done. rewrite !Z.eqb_refl.
    rewrite !(proj2 (Z.eqb_neq _ _)) by congruence. by rewrite !andb_false_r.
Qed.
End Flags.

Lemma acknowledge_only_own_flags_witness :
  exists v v', @Endpoint_ClearIN unit (datasheet USB_SERIES_2_AVR) {| respond := fun _ _ => 0xFF; fuel := 0 |}
      (World tt []) = Done tt (World tt [Wr UEINTX v'; Rd UEINTX v]) /\
    bit_tst v' 0 = false /\ bit_tst v' 7 = false /\ bit_tst v' 3 = bit_tst v 3 /\ bit_tst v' 2 = bit_tst v 2.
Proof.
  exact (proj1 (@acknowledge_only_own_flags unit (datasheet USB_SERIES_2_AVR) (datasheet_ok _)
    {| respond := fun _ _ => 0xFF; fuel := 0 |} (World tt []))).
Defined.

(** ** Scalars through the data register *)

Section Scalars.
Context {G : Type}.

(** The program writes exactly [bs] to the data register. *)
Definition sends (m : M G unit) (bs : list Z) : Prop := forall p (w : world G),
  wp False m (fun _ w' => st w' = st w /\ written UEDATX (hist w') = written UEDATX (hist w) ++ bs) p w.
(** The program reads [n] bytes from it and returns [f] of them. *)
Definition receives (n : nat) (m : M G Z) (f : list Z -> Z) : Prop := forall p (w : world G),
  wp False m (fun v w' => st w' = st w /\ exists bs, length bs = n /\ v = f bs /\
    read_from UEDATX (hist w') = read_from UEDATX (hist w) ++ bs) p w.

Lemma le_bytes_shifts d :
  le_bytes 2 d = [u8 (Z.land d 255); u8 (Z.shiftr d 8)] /\
  le_bytes 4 d = [u8 (Z.land d 255); u8 (Z.shiftr d 8); u8 (Z.shiftr d 16); u8 (Z.shiftr d 24)].
Proof.
  assert (u8 (Z.land d 255) = u8 d) as -> by (rewrite land_255; unfold u8; apply Z.mod_mod; lia).
  rewrite !Z.shiftr_div_pow2 by lia. cbn [le_bytes].
  rewrite !Z.div_div by lia. done.
Qed.

(** The 16- and 32-bit transfers of an endpoint put the bytes of a scalar
    into the data register in the order their names say, low byte first for
    LE and last for BE, and the reads assemble a scalar from the next bytes in
    the same orders, so that a scalar written and read back in one order is
    itself. *)
Theorem endpoint_scalar_io d :
  sends (Endpoint_Write_16_LE d) (le_bytes 2 d) /\
  sends (Endpoint_Write_16_BE d) (rev (le_bytes 2 d)) /\
  sends (Endpoint_Write_32_LE d) (le_bytes 4 d) /\
  sends (Endpoint_Write_32_BE d) (rev (le_bytes 4 d)) /\
  receives 2 Endpoint_Read_16_LE of_le_bytes /\
  receives 2 Endpoint_Read_16_BE (fun bs => of_le_bytes (rev bs)) /\
  receives 4 Endpoint_Read_32_LE of_le_bytes /\
  receives 4 Endpoint_Read_32_BE (fun bs => of_le_bytes (rev bs)) /\
  (is_u16 d -> of_le_bytes (le_bytes 2 d) = d) /\
  (is_u32 d -> of_le_bytes (le_bytes 4 d) = d).
Proof.
  destruct (le_bytes_shifts d) as [E2 E4].
  split_and!.
  1-4: intros p w; rewrite ?E2, ?E4;
    unfold Endpoint_Write_16_LE, Endpoint_Write_16_BE, Endpoint_Write_32_LE, Endpoint_Write_32_BE;
    wp_steps; cbn [reg_wrap]; logs; (split; [done|]); rewrite <- ?app_assoc; done.
  1-4: intros p w;
    unfold Endpoint_Read_16_LE, Endpoint_Read_16_BE, Endpoint_Read_32_LE, Endpoint_Read_32_BE;
    wp_steps; (split; [done|]); logs; rewrite <- ?app_assoc; eexists; split_and!; [| |reflexivity]; done.
  - intros Hd. apply of_le_bytes_le. unfold is_u16 in Hd. cbn. lia.
  - intros Hd. apply of_le_bytes_le. unfold is_u32 in Hd. cbn. lia.
Qed.
End Scalars.

(** ** Endpoint configuration *)

(** Each endpoint has its own configuration registers; [UENUM] selects whose
    are accessed.  [selected] and [banked r ep] are the endpoint selected and
    the last value written to its register [r], according to a log. *)
Fixpoint selected (h : log) : Z :=
  match h with
  | [] => 0
  | Wr UENUM v :: _ => v
  | _ :: h' => selected h'
  end.

Fixpoint banked (r : reg) (ep : Z) (h : log) : Z :=
  match h with
  | [] => 0
  | Wr r' v :: h' => if decide (r' = r /\ selected h' = ep) then u8 v else banked r ep h'
  | Rd _ _ :: h' => banked r ep h'
  end.

Definition config_regs : list reg := [UECFG0X; UECFG1X; UEIENX].

(** The data sheet's description of the configuration registers: a read returns
    what was last written for the selected endpoint. *)
Definition readback (p : platform) : Prop :=
  forall h r, r ∈ config_regs -> reg_wrap r (respond p h r) = banked r (selected h) h.

Section Configure.
Context {G : Type} `{AvrOk} (p : platform) (Hp : readback p).
Implicit Types w : world G.

Lemma selected_rd r v h : selected (Rd r v :: h) = selected h.
Proof. done. Qed.
Lemma selected_wr r v h : r <> UENUM -> selected (Wr r v :: h) = selected h.
Proof. by destruct r. Qed.
Lemma banked_wr r ep r' v h : r' <> r -> banked r ep (Wr r' v :: h) = banked r ep h.
Proof. intros. cbn. rewrite decide_False; [done|]. by intros [? _]. Qed.
Lemma banked_wr_other r ep v h : selected h <> ep -> banked r ep (Wr r v :: h) = banked r ep h.
Proof. intros. cbn. rewrite decide_False; [done|]. by intros [_ ?]. Qed.
Lemma banked_u8 r ep h : is_u8 (banked r ep h).
Proof.
  induction h as [|[r' v|r' v] h IH]; cbn -[u8]; [done|done|]. case_decide; [apply u8_range|done].
Qed.

(** The registers of the endpoints other than [ep] are as in [h0]. *)
Definition others_kept (ep : Z) (h0 h : log) : Prop :=
  forall r e, r ∈ config_regs -> e <> ep -> banked r e h = banked r e h0.

(** The configuration of [ep] is [a], [b] with no interrupts [c]. *)
Definition configured_as (ep a b c : Z) (h : log) : Prop :=
  banked UECFG0X ep h = a /\ banked UECFG1X ep h = b /\ banked UEIENX ep h = c.

(** The controller accepts every configuration. *)
Definition accepts : Prop := forall h, bit_tst (reg_wrap UESTA0X (respond p h UESTA0X)) CFGOK = true.

Lemma wp_write_configuration nf ep a b c Q w :
  selected (hist w) = ep -> is_u8 a -> is_u8 b -> is_u8 c ->
  (forall ok h, selected h = ep -> configured_as ep a b c h -> others_kept ep (hist w) h ->
     (accepts -> ok = true) -> Q ok (World (st w) h)) ->
  wp nf (write_configuration a b c) Q p w.
Proof.
  intros Hs Ha Hb Hc HQ.
  unfold write_configuration, Endpoint_DisableEndpoint, Endpoint_EnableEndpoint, Endpoint_IsConfigured.
  wp_steps. cbn [reg_wrap]. rewrite !(u8_small a), !(u8_small b), !(u8_small c) by done.
  apply HQ; [done| | |].
  - subst ep. unfold configured_as. split_and!; cbn -[u8];
      repeat first [rewrite decide_True by done | rewrite decide_False by (by intros [? _])];
      by apply u8_small.
  - intros r e Hr He. cbn -[u8].
    repeat (rewrite decide_False by (intros [? ?]; congruence)). done.
  - intros Hacc. match goal with H : ?v = reg_wrap UESTA0X _ |- _ => rewrite H end. apply Hacc.
Qed.

Lemma config_reg_ne r : r ∈ config_regs -> UENUM <> r.
Proof. intros Hr <-. by apply (bool_decide_eq_true_2 _) in Hr. Qed.

Lemma banked_rd r ep r' v h : banked r ep (Rd r' v :: h) = banked r ep h.
Proof. done. Qed.

Lemma others_select ep v h0 h : others_kept ep h0 h -> others_kept ep h0 (Wr UENUM v :: h).
Proof. intros Hk r e Hr He. rewrite banked_wr by (by apply config_reg_ne). by apply Hk. Qed.

Lemma configured_select ep a b c v h : configured_as ep a b c h -> configured_as ep a b c (Wr UENUM v :: h).
Proof. intros (<- & <- & <-). unfold configured_as. by rewrite !banked_wr. Qed.

(** The three reads that save the configuration of another endpoint. *)
Lemma wp_read_configuration {B} nf ep h (g : G) (k : Z * Z * Z -> M G B) Q :
  (let v r := banked r ep h in
   wp nf (k (v UECFG0X, v UECFG1X, v UEIENX)) Q p
     (World g (Rd UEIENX (v UEIENX) :: Rd UECFG1X (v UECFG1X) :: Rd UECFG0X (v UECFG0X) :: Wr UENUM ep :: h))) ->
  wp nf (cfg <- (x <- rd UECFG0X;; y <- rd UECFG1X;; z <- rd UEIENX;; ret (x, y, z));; k cfg) Q p
     (World g (Wr UENUM ep :: h)).
Proof.
  intros HQ. apply wp_bind. wp_step. apply wp_rd. intros x ->. wp_step. apply wp_rd. intros y ->.
  wp_step. apply wp_rd. intros z ->. apply wp_ret. cbn [hist st].
  rewrite !Hp by (by apply (bool_decide_unpack _)). cbn [selected]. rewrite !banked_rd, !banked_wr by done. exact HQ.
Qed.

Lemma select_value e : 0 <= e < 7 -> reg_wrap UENUM (Z.land e ENDPOINT_EPNUM_MASK) = e.
Proof.
  intros He. cbn [reg_wrap]. unfold ENDPOINT_EPNUM_MASK. change 15 with (Z.ones 4).
  rewrite Z.land_ones, Z.mod_small by lia. apply u8_small. unfold is_u8. lia.
Qed.

(** The endpoint a round deals with. *)
Lemma range_round Number dn ep rest : 0 <= Number < ENDPOINT_TOTAL_ENDPOINTS ->
  range Number ENDPOINT_TOTAL_ENDPOINTS = dn ++ ep :: rest -> 0 <= ep < 7 /\ (ep = Number <-> dn = []).
Proof.
  intros HN Hl.
  assert (ENDPOINT_TOTAL_ENDPOINTS <= 7) as Htot by (unfold ENDPOINT_TOTAL_ENDPOINTS; destruct series; lia).
  assert (range Number ENDPOINT_TOTAL_ENDPOINTS !! length dn = Some ep) as Hlk.
  { rewrite Hl, lookup_app_r, Nat.sub_diag by done. done. }
  unfold range in Hlk. rewrite list_lookup_fmap in Hlk.
  destruct (seq _ _ !! length dn) as [i|] eqn:E; [|done]. injection Hlk as <-.
  apply lookup_seq in E as [-> Hi]. split; [lia|].
  rewrite Nat.add_0_l. destruct dn; cbn in *; split; intros; first [done|lia].
Qed.

(** A configuration written over an equal one changes no register. *)
Lemma same_configuration ep h0 h :
  configured_as ep (banked UECFG0X ep h0) (banked UECFG1X ep h0) (banked UEIENX ep h0) h ->
  others_kept ep h0 h -> forall r e, r ∈ config_regs -> banked r e h = banked r e h0.
Proof.
  intros (Hc1 & Hc2 & Hc3) Hk r e Hr. destruct (decide (e = ep)) as [->|He]; [|by apply Hk].
  unfold config_regs in Hr. rewrite !elem_of_cons, elem_of_nil in Hr. by destruct Hr as [->|[->|[->|[]]]].
Qed.

Lemma configure_run Number a b w :
  0 <= Number < ENDPOINT_TOTAL_ENDPOINTS -> is_u8 a -> is_u8 b -> bit_tst b ALLOC = true ->
  wp False (Endpoint_ConfigureEndpoint_Prv Number a b)
    (fun ok w' => st w' = st w /\ others_kept Number (hist w) (hist w') /\
       (ok = true -> selected (hist w') = Number /\ configured_as Number a b 0 (hist w')) /\
       (accepts -> ok = true)) p w.
Proof.
  intros HN Ha Hb Halloc. unfold Endpoint_ConfigureEndpoint_Prv. apply wp_bind.
  apply (wp_for_each False p (range Number ENDPOINT_TOTAL_ENDPOINTS)
    (fun dn w' => st w' = st w /\ others_kept Number (hist w) (hist w') /\
       (dn <> [] -> configured_as Number a b 0 (hist w')))).
  - intros dn ep rest w1 Hl (Hst & Hoth & Hown). destruct (range_round _ _ _ _ HN Hl) as [Hep Hfirst].
    unfold Endpoint_SelectEndpoint. wp_step. wp_step. rewrite select_value by done.
    apply wp_bind. destruct (Z.eqb_spec ep Number) as [->|Hne].
    + apply wp_ret. rewrite Halloc. cbn [negb]. apply wp_bind.
      apply (wp_write_configuration False Number); [done..|by split|].
      intros ok h Hsel Hcfg Hk Hacc. apply wp_ret.
      assert (others_kept Number (hist w) h) as Hk'.
      { intros r e Hr He. rewrite (Hk r e Hr He). by apply (others_select _ _ _ _ Hoth). }
      destruct ok; cbv iota; [done|]. apply wp_ret. split_and!; [done|done|done|]. intros H'. by apply Hacc in H'.
    + destruct (Hown ltac:(intros ->; by apply Hne, Hfirst)) as (Ho1 & Ho2 & Ho3).
      apply wp_read_configuration. cbn [hist st].
      set (h1 := Rd UEIENX _ :: _). set (w2 := World (st w1) h1).
      apply wp_ret. destruct (bit_tst (banked UECFG1X ep (hist w1)) ALLOC); cbn [negb].
      2: { apply wp_ret. split; [done|split; [by apply (others_select _ _ _ _ Hoth)|]]. intros _.
           exact (configured_select _ _ _ _ ep _ (conj Ho1 (conj Ho2 Ho3))). }
      apply wp_bind. apply (wp_write_configuration False ep); [done|apply banked_u8..|].
      intros ok h Hsel Hcfg Hk Hacc. apply wp_ret.
      assert (forall r e, r ∈ config_regs -> banked r e h = banked r e (hist w1)) as Hall.
      { apply (same_configuration ep); [done|]. intros r e Hr He. rewrite (Hk r e Hr He). unfold w2, h1. cbn [hist].
        rewrite !banked_rd. by rewrite banked_wr by (by apply config_reg_ne). }
      assert (others_kept Number (hist w) h) as Hk' by (intros r e Hr He; rewrite Hall by done; by apply Hoth).
      destruct ok; cbv iota; [split_and!; [done|done|]|apply wp_ret; split_and!; [done|done|done|]].
      * intros _. unfold configured_as. rewrite !Hall by (by apply (bool_decide_unpack _)). done.
      * intros H'. by apply Hacc in H'.
  - intros w' (Hst & Hoth & Hown).
    assert (ENDPOINT_TOTAL_ENDPOINTS <= 7) as Htot by (unfold ENDPOINT_TOTAL_ENDPOINTS; destruct series; lia).
    unfold Endpoint_SelectEndpoint. wp_steps. rewrite select_value by lia.
    split_and!; [done|by apply others_select| |done]. intros _. split; [done|]. apply configured_select, Hown.
    unfold range. intros Hnil. apply (f_equal length) in Hnil. rewrite length_fmap, length_seq in Hnil. cbn in Hnil. lia.
  - split_and!; [done| |done]. by intros r e _ _.
Qed.

(** With configuration registers that read back what was written,
    configuring endpoint [Number] ends, and leaves the configuration and
    interrupt registers of every other endpoint as they were although the
    higher endpoints are deallocated and reallocated on the way; when it
    reports success, endpoint [Number] is the selected one and its registers
    hold the requested configuration with its interrupts off; and it reports
    success whenever the controller accepts every configuration. *)
Theorem configure_endpoint_keeps_others Number a b w :
  0 <= Number < ENDPOINT_TOTAL_ENDPOINTS -> is_u8 a -> is_u8 b -> bit_tst b ALLOC = true ->
  wp False (Endpoint_ConfigureEndpoint_Prv Number a b)
    (fun ok w' => st w' = st w /\ others_kept Number (hist w) (hist w') /\
       (ok = true -> selected (hist w') = Number /\ configured_as Number a b 0 (hist w')) /\
       (accepts -> ok = true)) p w.
Proof. apply configure_run. Qed.
End Configure.

(** Register files of a log, for concrete runs: the last value written to a
    configuration register of the selected endpoint, and [other] elsewhere. *)
Definition register_file (other : log -> reg -> Z) (n : nat) : platform := {|
  respond h r := if bool_decide (r ∈ config_regs) then banked r (selected h) h else other h r;
  fuel := n
|}.

Lemma register_file_readback other n : readback (register_file other n).
Proof.
  intros h r Hr. cbn [register_file respond]. rewrite bool_decide_true by done.
  pose proof (banked_u8 r (selected h) h) as Hu.
  unfold config_regs in Hr. rewrite !elem_of_cons, elem_of_nil in Hr.
  by destruct Hr as [->|[->|[->|[]]]]; apply u8_small.
Qed.

(** Endpoint 1 configured below an allocated endpoint 2, on a controller that
    always accepts a configuration. *)
Lemma configure_endpoint_keeps_others_witness :
  let p := register_file (fun _ _ => 0xFF) 0 in
  let w := World tt [Wr UECFG1X 0x32; Wr UECFG0X 0xC0; Wr UENUM 2] in
  wp False (@Endpoint_ConfigureEndpoint_Prv unit (datasheet USB_SERIES_2_AVR) 1 0xC1 0x32)
    (fun ok w' => st w' = st w /\ others_kept 1 (hist w) (hist w') /\
       (ok = true -> selected (hist w') = 1 /\ configured_as 1 0xC1 0x32 0 (hist w')) /\
       (@accepts (datasheet USB_SERIES_2_AVR) p -> ok = true)) p w /\
  (exists w', @Endpoint_ConfigureEndpoint_Prv unit (datasheet USB_SERIES_2_AVR) 1 0xC1 0x32 p w = Done true w').
Proof.
  intros p w. split.
  - apply (@configure_endpoint_keeps_others unit (datasheet USB_SERIES_2_AVR) p (register_file_readback _ _));
      [cbn; lia|by apply (bool_decide_unpack _)..|reflexivity].
  - eexists. vm_compute. reflexivity.
Defined.

(** ** Waiting with a timeout *)

Section Wait.
Context {G : Type} `{Avr}.
Implicit Types w : world G.

(** Values read from [r], newest first. *)
Fixpoint reads (r : reg) (h : log) : list Z :=
  match h with
  | [] => []
  | Rd r' v :: h' => if decide (r' = r) then v :: reads r h' else reads r h'
  | Wr _ _ :: h' => reads r h'
  end.

Lemma reads_app r h1 h2 : reads r (h1 ++ h2) = reads r h1 ++ reads r h2.
Proof.
  induction h1 as [|[r' v|r' v] h1 IH]; simpl; [done| |done]. case_decide; [|done]. simpl. by f_equal.
Qed.

(** How often the value read changed. *)
Fixpoint changes (l : list Z) : nat :=
  match l with
  | x :: l' => match l' with y :: _ => if x =? y then changes l' else S (changes l') | [] => 0 end
  | [] => 0
  end.

Lemma changes_cons x y l :
  changes (x :: y :: l) = if x =? y then changes (y :: l) else S (changes (y :: l)).
Proof. reflexivity. Qed.

Fixpoint run_length (v : Z) (l : list Z) : nat :=
  match l with x :: l' => if x =? v then S (run_length v l') else 0 | [] => 0 end.

(** The frame counter of a running bus: after [k] equal reads it has moved on. *)
Definition frames_advance (k : nat) (p : platform) : Prop :=
  forall h v, (k <= run_length v (reads UDFNUM h))%nat -> reg_wrap UDFNUM (respond p h UDFNUM) <> v.

Definition is_read (e : event) : Prop := match e with Rd _ _ => True | Wr _ _ => False end.

(** Why the wait ended, told from the accesses it made, newest first. *)
Definition wait_reason (code : Endpoint_WaitUntilReady_ErrorCodes_t) (h : log) : Prop :=
  match code with
  | ENDPOINT_READYWAIT_NoError => exists v c h', h = Rd UEINTX v :: Rd UECFG0X c :: h' /\
      bit_tst v (if bit_tst c EPDIR then TXINI else RXOUTI) = true
  | ENDPOINT_READYWAIT_DeviceDisconnected =>
      exists h', h = Rd V_USB_DeviceState (state_code DEVICE_STATE_Unattached) :: h'
  | ENDPOINT_READYWAIT_BusSuspended =>
      exists h', h = Rd V_USB_DeviceState (state_code DEVICE_STATE_Suspended) :: h'
  | ENDPOINT_READYWAIT_EndpointStalled => exists v h', h = Rd UECONX v :: h' /\ bit_tst v STALLRQ = true
  | ENDPOINT_READYWAIT_Timeout => Z.of_nat (changes (reads UDFNUM h)) = USB_STREAM_TIMEOUT_MS + 1
  end.

(** The body of the loop. *)
Definition wait_round (x : Z * Z) : M G (Z * Z + Endpoint_WaitUntilReady_ErrorCodes_t) :=
  let '(TimeoutMSRem, PreviousFrameNumber) := x in
  d <- Endpoint_GetEndpointDirection;;
  ready <- (if d =? ENDPOINT_DIR_IN then Endpoint_IsINReady else Endpoint_IsOUTReceived);;
  if ready then ret (inr ENDPOINT_READYWAIT_NoError) else
  USB_DeviceState_LCL <- rd V_USB_DeviceState;;
  if USB_DeviceState_LCL =? state_code DEVICE_STATE_Unattached
  then ret (inr ENDPOINT_READYWAIT_DeviceDisconnected)
  else if USB_DeviceState_LCL =? state_code DEVICE_STATE_Suspended
  then ret (inr ENDPOINT_READYWAIT_BusSuspended)
  else
    stalled <- Endpoint_IsStalled;;
    if stalled then ret (inr ENDPOINT_READYWAIT_EndpointStalled) else
    CurrentFrameNumber <- USB_Device_GetFrameNumber;;
    ret (if CurrentFrameNumber =? PreviousFrameNumber then inl (TimeoutMSRem, PreviousFrameNumber)
         else if TimeoutMSRem =? 0 then inr ENDPOINT_READYWAIT_Timeout
         else inl (u8 (TimeoutMSRem - 1), CurrentFrameNumber)).

Lemma wait_unfold :
  Endpoint_WaitUntilReady = (f0 <- USB_Device_GetFrameNumber;; while_ wait_round (USB_STREAM_TIMEOUT_MS, f0)).
Proof. reflexivity. Qed.

(** Before a round: [new] are the accesses of this call so far. *)
Definition wait_inv w0 (x : Z * Z) w : Prop :=
  exists new, st w = st w0 /\ hist w = new ++ hist w0 /\ Forall is_read new /\
    0 <= fst x <= USB_STREAM_TIMEOUT_MS /\
    (exists older, reads UDFNUM new = snd x :: older) /\
    Z.of_nat (changes (reads UDFNUM new)) = USB_STREAM_TIMEOUT_MS - fst x.

Lemma wp_wait_round nf p w0 x w Q :
  wait_inv w0 x w ->
  (forall code w', (exists new, st w' = st w0 /\ hist w' = new ++ hist w0 /\ Forall is_read new /\
      wait_reason code new) -> Q (inr code) w') ->
  (forall x' w' f, wait_inv w0 x' w' -> reads UDFNUM (hist w') = f :: reads UDFNUM (hist w) ->
     (exists h, f = reg_wrap UDFNUM (respond p h UDFNUM) /\ reads UDFNUM h = reads UDFNUM (hist w)) ->
     (f = snd x /\ x' = x \/ f <> snd x /\ 0 < fst x /\ x' = (fst x - 1, f)) -> Q (inl x') w') ->
  wp nf (wait_round x) Q p w.
Proof.
  intros (new & Hst & Hh & Hr & Hx & (older & Hold) & Hc) Hret Hgo.
  destruct x as [rem prev]. cbn [fst snd] in *. unfold wait_round, Endpoint_GetEndpointDirection.
  apply wp_bind, wp_bind, wp_reg_bit. intros c _. apply wp_ret. cbn [st hist].
  assert ((if (if bit_tst c EPDIR then ENDPOINT_DIR_IN else ENDPOINT_DIR_OUT) =? ENDPOINT_DIR_IN
           then Endpoint_IsINReady else Endpoint_IsOUTReceived) =
          reg_bit (G := G) UEINTX (if bit_tst c EPDIR then TXINI else RXOUTI)) as ->
    by (by destruct (bit_tst c EPDIR)).
  apply wp_bind, wp_reg_bit. intros v _. cbn [st hist].
  destruct (bit_tst v _) eqn:Ev.
  { apply wp_ret, Hret. exists (Rd UEINTX v :: Rd UECFG0X c :: new). rewrite Hh.
    split_and!; [done|done|by repeat constructor|]. by exists v, c, new. }
  apply wp_bind, wp_rd. intros s _. cbn [st hist].
  destruct (Z.eqb_spec s (state_code DEVICE_STATE_Unattached)) as [->|_].
  { apply wp_ret, Hret. eexists (_ :: _ :: _ :: new). rewrite Hh.
    split_and!; [done|reflexivity|by repeat constructor|]. by eexists. }
  destruct (Z.eqb_spec s (state_code DEVICE_STATE_Suspended)) as [->|_].
  { apply wp_ret, Hret. eexists (_ :: _ :: _ :: new). rewrite Hh.
    split_and!; [done|reflexivity|by repeat constructor|]. by eexists. }
  apply wp_bind, wp_reg_bit. intros u _. cbn [st hist]. destruct (bit_tst u STALLRQ) eqn:Eu.
  { apply wp_ret, Hret. eexists (_ :: _ :: _ :: _ :: new). rewrite Hh.
    split_and!; [done|reflexivity|by repeat constructor|]. by eexists _, _. }
  apply wp_bind, wp_rd. intros f Hf. apply wp_ret. cbn [st hist] in *.
  set (new' := Rd UDFNUM f :: Rd UECONX u :: Rd V_USB_DeviceState s :: Rd UEINTX v :: Rd UECFG0X c :: new).
  assert (Forall is_read new') as Hr' by (by repeat constructor).
  assert (reads UDFNUM new' = f :: prev :: older) as Hrd by (by rewrite <- Hold).
  destruct (Z.eqb_spec f prev) as [->|Hne]; [|destruct (Z.eqb_spec rem 0) as [->|Hz]].
  - apply (Hgo (rem, prev) _ prev); [|by rewrite Hh|by eexists|by left].
    exists new'. rewrite Hh. split_and!; [done|done|done|cbn; lia..|by eexists|].
    rewrite Hrd, changes_cons, Z.eqb_refl, <- Hold. done.
  - apply Hret. exists new'. rewrite Hh. split_and!; [done|done|done|].
    unfold wait_reason. rewrite Hrd, changes_cons, (proj2 (Z.eqb_neq _ _)) by done.
    rewrite <- Hold. lia.
  - rewrite u8_small by (unfold is_u8, USB_STREAM_TIMEOUT_MS in *; lia).
    apply (Hgo (rem - 1, f) _ f); [|by rewrite Hh|by eexists|right; cbn; split_and!; [done|lia|done]].
    exists new'. rewrite Hh. split_and!; [done|done|done|cbn; lia..|by eexists|].
    rewrite Hrd, changes_cons, (proj2 (Z.eqb_neq _ _)) by done. rewrite <- Hold. cbn [fst]. lia.
Qed.

Lemma wait_start p w : let f := reg_wrap UDFNUM (respond p (hist w) UDFNUM) in
  wait_inv w (USB_STREAM_TIMEOUT_MS, f) (World (st w) (Rd UDFNUM f :: hist w)).
Proof.
  intros f. exists [Rd UDFNUM f]. unfold fst, snd, USB_STREAM_TIMEOUT_MS.
  split_and!; [done|done|by repeat constructor|lia|lia|by exists []|done].
Qed.

(** What the caller learns. *)
Definition wait_post w0 (code : Endpoint_WaitUntilReady_ErrorCodes_t) w : Prop :=
  exists new, st w = st w0 /\ hist w = new ++ hist w0 /\ Forall is_read new /\ wait_reason code new.

Lemma wp_wait_partial p w Q :
  (forall code w', wait_post w code w' -> Q code w') -> wp True Endpoint_WaitUntilReady Q p w.
Proof.
  intros HQ. rewrite wait_unfold. apply wp_bind, wp_rd. intros f ->. cbn [st hist].
  apply (wp_while True p (wait_inv w)); [done| |apply wait_start].
  intros x w1 HI. eapply wp_wait_round; [done|auto|auto].
Qed.

Lemma wp_wait_total k p w Q :
  frames_advance k p -> (101 * (k + 1) <= fuel p)%nat ->
  (forall code w', wait_post w code w' -> Q code w') -> wp False Endpoint_WaitUntilReady Q p w.
Proof.
  intros Hk Hf HQ. rewrite wait_unfold. apply wp_bind, wp_rd. intros f ->. cbn [st hist].
  apply (wp_while_variant False p (wait_inv w)
    (fun x w1 => (Z.to_nat (fst x) * (k + 1) + (k - run_length (snd x) (reads UDFNUM (hist w1))))%nat)).
  - intros x w1 HI. eapply wp_wait_round; [done|auto|].
    intros x' w' f HI' Hrd (h & Hfh & Hrh) Hcase. split; [done|]. rewrite Hrd.
    destruct Hcase as [[-> ->]|(Hne & Hpos & ->)].
    + assert (run_length (snd x) (reads UDFNUM (hist w1)) < k)%nat as Hlt.
      { destruct (le_lt_dec k (run_length (snd x) (reads UDFNUM (hist w1)))) as [Hge|]; [|done].
        rewrite <- Hrh in Hge. apply Hk in Hge. congruence. }
      cbn [run_length]. rewrite Z.eqb_refl. lia.
    + cbn [fst snd run_length]. rewrite Z.eqb_refl.
      replace (Z.to_nat (fst x)) with (S (Z.to_nat (fst x - 1))) by lia. cbn [Nat.mul]. lia.
  - apply wait_start.
  - cbn [fst snd]. change (Z.to_nat USB_STREAM_TIMEOUT_MS) with 100%nat. lia.
Qed.
End Wait.

(** C34: [Endpoint_WaitUntilReady] only reads registers and reports a reason it
    has just seen: a ready flag of the endpoint's own direction, the device
    state, a stall, or, for a timeout, exactly 101 changes of the frame number
    during the call; and it returns within a bounded number of polls on every
    platform whose frame number changes at least every [k] reads. *)
Theorem wait_until_ready_sound {G} `{Avr} k p (w : world G) :
  wp True Endpoint_WaitUntilReady (wait_post w) p w /\
  (frames_advance k p -> (101 * (k + 1) <= fuel p)%nat ->
   wp False Endpoint_WaitUntilReady (wait_post w) p w).
Proof. split; [by apply wp_wait_partial|]. intros. by apply (wp_wait_total k). Qed.

(** A frame number that counts every read; an endpoint that is never ready. *)
Definition frame_counter (n : nat) : platform := {|
  respond h r := match r with
                 | UDFNUM => match reads UDFNUM h with v :: _ => v + 1 | [] => 0 end
                 | V_USB_DeviceState => state_code DEVICE_STATE_Configured
                 | _ => 0
                 end;
  fuel := n
|}.

Lemma frame_counter_advances n : frames_advance 1 (frame_counter n).
Proof.
  intros h v Hk. cbn [frame_counter respond reg_wrap]. destruct (reads UDFNUM h) as [|x l]; [cbn in Hk; lia|].
  cbn [run_length] in Hk. destruct (Z.eqb_spec x v) as [->|]; [|lia]. word_lia.
Qed.

Lemma wait_until_ready_sound_witness :
  wp False (@Endpoint_WaitUntilReady unit (datasheet USB_SERIES_2_AVR))
    (@wait_post unit (datasheet USB_SERIES_2_AVR) (World tt []))
    (frame_counter 202) (World tt []) /\
  (exists w', @Endpoint_WaitUntilReady unit (datasheet USB_SERIES_2_AVR) (frame_counter 202) (World tt [])
     = Done ENDPOINT_READYWAIT_Timeout w').
Proof.
  split.
  - refine (proj2 (@wait_until_ready_sound unit (datasheet USB_SERIES_2_AVR) 1 _ _) _ _);
      [apply frame_counter_advances|cbn [fuel frame_counter]; lia].
  - eexists. vm_compute. reflexivity.
Defined.

(** The serial values of the scalar theorem at a concrete scalar. *)
Lemma endpoint_scalar_io_witness :
  @sends unit (Endpoint_Write_32_BE 0x12345678) [0x12; 0x34; 0x56; 0x78] /\
  of_le_bytes (le_bytes 4 0x12345678) = 0x12345678.
Proof.
  pose proof (@endpoint_scalar_io unit 0x12345678) as (_ & _ & _ & H & _ & _ & _ & _ & _ & H').
  split; [exact H|]. apply H'. unfold is_u32. lia.
Defined.
