(* ===== verification/EndpointStream.v ===== *)
(** * Stream transfers (LUFA EndpointStream_AVR8.c and its templates)

    The C sources generate the stream functions from three templates, one for
    data endpoints ([Template_Endpoint_RW.c]) and two for the control endpoint
    ([Template_Endpoint_Control_W.c], [Template_Endpoint_Control_R.c]); here
    each template is a definition over the macros that configure it, and each
    function an instance.  A buffer pointer is an offset into the memory it
    points into; an access outside that memory is a fault. *)

From S2P Require Import Prelude StdDescriptors HIDClass Descriptors Machine UsbCore Endpoint.

Inductive Endpoint_Stream_RW_ErrorCodes_t :=
  | ENDPOINT_RWSTREAM_NoError | ENDPOINT_RWSTREAM_EndpointStalled
  | ENDPOINT_RWSTREAM_DeviceDisconnected | ENDPOINT_RWSTREAM_BusSuspended
  | ENDPOINT_RWSTREAM_Timeout | ENDPOINT_RWSTREAM_IncompleteTransfer.

Inductive Endpoint_ControlStream_RW_ErrorCodes_t :=
  | ENDPOINT_RWCSTREAM_NoError | ENDPOINT_RWCSTREAM_HostAborted
  | ENDPOINT_RWCSTREAM_DeviceDisconnected | ENDPOINT_RWCSTREAM_BusSuspended.

(** The wait codes returned as stream codes: the enumerators have equal values. *)
Definition stream_code (c : Endpoint_WaitUntilReady_ErrorCodes_t) : Endpoint_Stream_RW_ErrorCodes_t :=
  match c with
  | ENDPOINT_READYWAIT_NoError => ENDPOINT_RWSTREAM_NoError
  | ENDPOINT_READYWAIT_EndpointStalled => ENDPOINT_RWSTREAM_EndpointStalled
  | ENDPOINT_READYWAIT_DeviceDisconnected => ENDPOINT_RWSTREAM_DeviceDisconnected
  | ENDPOINT_READYWAIT_BusSuspended => ENDPOINT_RWSTREAM_BusSuspended
  | ENDPOINT_READYWAIT_Timeout => ENDPOINT_RWSTREAM_Timeout
  end.

(** The values of the codes the functions return. *)
Definition stream_value (c : Endpoint_Stream_RW_ErrorCodes_t) : Z :=
  match c with
  | ENDPOINT_RWSTREAM_NoError => 0
  | ENDPOINT_RWSTREAM_EndpointStalled => 1
  | ENDPOINT_RWSTREAM_DeviceDisconnected => 2
  | ENDPOINT_RWSTREAM_BusSuspended => 3
  | ENDPOINT_RWSTREAM_Timeout => 4
  | ENDPOINT_RWSTREAM_IncompleteTransfer => 5
  end.

Section Streams.
Context {G : Type} `{UsbState G} `{Avr}.

(** ** Template for data endpoints *)

Section RW.
(** The management task the write and read streams run between packets. *)
Variable USB_USBTask : M G unit.
Context {B : Type}.
Variable TEMPLATE_TRANSFER_BYTE : B -> M G B.
Variable TEMPLATE_BUFFER_MOVE : Z -> B -> B.
Variable TEMPLATE_CLEAR_ENDPOINT : M G unit.

(** The code returned, the buffer, and [*BytesProcessed]; [None] is a null
    [BytesProcessed]. *)
Definition Template_Endpoint_RW (DataStream0 : B) (Length0 : Z) (BytesProcessed : option Z) :
    M G (Endpoint_Stream_RW_ErrorCodes_t * B * option Z) :=
  code <- Endpoint_WaitUntilReady;;
  if negb (bool_decide (code = ENDPOINT_READYWAIT_NoError))
  then ret (stream_code code, DataStream0, BytesProcessed) else
  let '(DataStream1, Length1) := match BytesProcessed with
    | Some n => (TEMPLATE_BUFFER_MOVE n DataStream0, u16 (Length0 - n))
    | None => (DataStream0, Length0)
    end in
  while_ (fun '(DataStream, Length, BytesInTransfer) =>
    if Length =? 0 then ret (inr (ENDPOINT_RWSTREAM_NoError, DataStream, BytesProcessed)) else
    rw <- Endpoint_IsReadWriteAllowed;;
    if negb rw then
      TEMPLATE_CLEAR_ENDPOINT;;;
      USB_USBTask;;;
      match BytesProcessed with
      | Some n => ret (inr (ENDPOINT_RWSTREAM_IncompleteTransfer, DataStream, Some (u16 (n + BytesInTransfer))))
      | None =>
          code <- Endpoint_WaitUntilReady;;
          ret (if bool_decide (code = ENDPOINT_READYWAIT_NoError)
               then inl (DataStream, Length, BytesInTransfer)
               else inr (stream_code code, DataStream, BytesProcessed))
      end
    else
      DataStream' <- TEMPLATE_TRANSFER_BYTE DataStream;;
      ret (inl (TEMPLATE_BUFFER_MOVE 1 DataStream', u16 (Length - 1), u16 (BytesInTransfer + 1))))
    (DataStream1, Length1, 0).
End RW.

(** [Endpoint_Discard_Stream] and [Endpoint_Null_Stream]: the same loop without
    a buffer and without the management task. *)
Definition plain_stream (transfer clear : M G unit) (Length0 : Z) (BytesProcessed : option Z) :
    M G (Endpoint_Stream_RW_ErrorCodes_t * option Z) :=
  code <- Endpoint_WaitUntilReady;;
  if negb (bool_decide (code = ENDPOINT_READYWAIT_NoError)) then ret (stream_code code, BytesProcessed) else
  let Length1 := match BytesProcessed with Some n => u16 (Length0 - n) | None => Length0 end in
  while_ (fun '(Length, BytesInTransfer) =>
    if Length =? 0 then ret (inr (ENDPOINT_RWSTREAM_NoError, BytesProcessed)) else
    rw <- Endpoint_IsReadWriteAllowed;;
    if negb rw then
      clear;;;
      match BytesProcessed with
      | Some n => ret (inr (ENDPOINT_RWSTREAM_IncompleteTransfer, Some (u16 (n + BytesInTransfer))))
      | None =>
          code <- Endpoint_WaitUntilReady;;
          ret (if bool_decide (code = ENDPOINT_READYWAIT_NoError) then inl (Length, BytesInTransfer)
               else inr (stream_code code, BytesProcessed))
      end
    else
      transfer;;;
      ret (inl (u16 (Length - 1), u16 (BytesInTransfer + 1)))) (Length1, 0).

Definition Endpoint_Discard_Stream := plain_stream Endpoint_Discard_8 Endpoint_ClearOUT.
Definition Endpoint_Null_Stream := plain_stream (Endpoint_Write_8 0) Endpoint_ClearIN.

(** ** Templates for the control endpoint *)

Section Control.
Context {B : Type}.
Variable TEMPLATE_TRANSFER_BYTE : B -> M G B.
Variable TEMPLATE_BUFFER_MOVE : Z -> B -> B.

(** The tests of the device state at the head of the loops; [k] otherwise. *)
Definition unless_gone {A} (done : Endpoint_ControlStream_RW_ErrorCodes_t -> A) (k : M G A) : M G A :=
  USB_DeviceState_LCL <- rd V_USB_DeviceState;;
  if USB_DeviceState_LCL =? state_code DEVICE_STATE_Unattached
  then ret (done ENDPOINT_RWCSTREAM_DeviceDisconnected)
  else if USB_DeviceState_LCL =? state_code DEVICE_STATE_Suspended
  then ret (done ENDPOINT_RWCSTREAM_BusSuspended)
  else k.

(** One packet: bytes until the data or the bank of 64 bytes is exhausted. *)
Definition fill_packet (DataStream0 : B) (Length0 BytesInEndpoint0 : Z) : M G (B * Z * Z) :=
  while_ (fun '(DataStream, Length, BytesInEndpoint) =>
    if negb (Length =? 0) && (BytesInEndpoint <? USB_Device_ControlEndpointSize) then
      DataStream' <- TEMPLATE_TRANSFER_BYTE DataStream;;
      ret (inl (TEMPLATE_BUFFER_MOVE 1 DataStream', u16 (Length - 1), u16 (BytesInEndpoint + 1)))
    else ret (inr (DataStream, Length, BytesInEndpoint)))
    (DataStream0, Length0, BytesInEndpoint0).

(** A round of the data stage; the stage ends with [None] when all is sent or
    the host went on to the status stage, and with [Some] when the function
    returns. *)
Definition control_w_round (x : B * Z * bool) :
    M G (B * Z * bool + option Endpoint_ControlStream_RW_ErrorCodes_t) :=
  let '(DataStream, Length, LastPacketFull) := x in
  if (Length =? 0) && negb LastPacketFull then ret (inr None) else
  unless_gone (fun c => inr (Some c)) (
    setup <- Endpoint_IsSETUPReceived;;
    if setup then ret (inr (Some ENDPOINT_RWCSTREAM_HostAborted)) else
    out <- Endpoint_IsOUTReceived;;
    if out then ret (inr None) else
    ready <- Endpoint_IsINReady;;
    if ready then
      n <- Endpoint_BytesInEndpoint;;
      r <- fill_packet DataStream Length n;;
      let '(DataStream', Length', BytesInEndpoint) := r in
      Endpoint_ClearIN;;;
      ret (inl (DataStream', Length', BytesInEndpoint =? USB_Device_ControlEndpointSize))
    else ret (inl (DataStream, Length, LastPacketFull))).

Definition control_w_data (DataStream0 : B) (Length0 : Z) :
    M G (option Endpoint_ControlStream_RW_ErrorCodes_t) :=
  while_ control_w_round (DataStream0, Length0, false).

(** The wait for the status stage. *)
Definition control_w_status : M G Endpoint_ControlStream_RW_ErrorCodes_t :=
  while_ (fun _ : unit =>
    out <- Endpoint_IsOUTReceived;;
    if out then ret (inr ENDPOINT_RWCSTREAM_NoError) else
    unless_gone inr (
      setup <- Endpoint_IsSETUPReceived;;
      ret (if setup then inr ENDPOINT_RWCSTREAM_HostAborted else inl tt))) tt.

Definition Template_Endpoint_Control_W (DataStream0 : B) (Length0 : Z) :
    M G Endpoint_ControlStream_RW_ErrorCodes_t :=
  r <- get_request;;
  Length1 <- (if wLength r <? Length0 then ret (wLength r)
              else if Length0 =? 0 then Endpoint_ClearIN;;; ret Length0 else ret Length0);;
  e <- control_w_data DataStream0 Length1;;
  match e with
  | Some code => ret code
  | None => control_w_status
  end.

(** The bytes of one OUT packet. *)
Definition drain_packet (DataStream0 : B) (Length0 : Z) : M G (B * Z) :=
  while_ (fun '(DataStream, Length) =>
    if Length =? 0 then ret (inr (DataStream, Length)) else
    n <- Endpoint_BytesInEndpoint;;
    if n =? 0 then ret (inr (DataStream, Length)) else
    DataStream' <- TEMPLATE_TRANSFER_BYTE DataStream;;
    ret (inl (TEMPLATE_BUFFER_MOVE 1 DataStream', u16 (Length - 1))))
    (DataStream0, Length0).

Definition control_r_data (DataStream0 : B) (Length0 : Z) :
    M G (option Endpoint_ControlStream_RW_ErrorCodes_t * B) :=
  while_ (fun '(DataStream, Length) =>
    if Length =? 0 then ret (inr (None, DataStream)) else
    unless_gone (fun c => inr (Some c, DataStream)) (
      setup <- Endpoint_IsSETUPReceived;;
      if setup then ret (inr (Some ENDPOINT_RWCSTREAM_HostAborted, DataStream)) else
      out <- Endpoint_IsOUTReceived;;
      if out then
        r <- drain_packet DataStream Length;;
        Endpoint_ClearOUT;;;
        ret (inl r)
      else ret (inl (DataStream, Length))))
    (DataStream0, Length0).

Definition control_r_status : M G Endpoint_ControlStream_RW_ErrorCodes_t :=
  while_ (fun _ : unit =>
    ready <- Endpoint_IsINReady;;
    if ready then ret (inr ENDPOINT_RWCSTREAM_NoError) else unless_gone inr (ret (inl tt))) tt.

Definition Template_Endpoint_Control_R (DataStream0 : B) (Length0 : Z) :
    M G (Endpoint_ControlStream_RW_ErrorCodes_t * B) :=
  (if Length0 =? 0 then Endpoint_ClearOUT else ret tt);;;
  r <- control_r_data DataStream0 Length0;;
  let '(e, DataStream) := r in
  match e with
  | Some code => ret (code, DataStream)
  | None => code <- control_r_status;; ret (code, DataStream)
  end.
End Control.

(** ** The instances *)

(** [Endpoint_Write_8( *BufferPtr)]: RAM, flash and EEPROM differ in the
    instruction that loads the byte, not in the byte. *)
Definition send_byte (mem : list Z) (i : Z) : M G Z :=
  b <- mlift (aget mem i);; Endpoint_Write_8 b;;; ret i.
(** [*BufferPtr = Endpoint_Read_8()]; the memory and the pointer. *)
Definition store_byte (m : list Z * Z) : M G (list Z * Z) :=
  v <- Endpoint_Read_8;;
  mem' <- mlift (aset (fst m) (snd m) v);;
  ret (mem', snd m).

Definition move_up (n i : Z) : Z := i + n.
Definition move_down (n i : Z) : Z := i - n.
Definition move_up_in (n : Z) (m : list Z * Z) : list Z * Z := (fst m, snd m + n).
Definition move_down_in (n : Z) (m : list Z * Z) : list Z * Z := (fst m, snd m - n).

Definition Endpoint_Write_Stream_LE (task : M G unit) (Buffer : list Z) (Length : Z) (BytesProcessed : option Z) :=
  Template_Endpoint_RW task (send_byte Buffer) move_up Endpoint_ClearIN 0 Length BytesProcessed.
Definition Endpoint_Write_Stream_BE (task : M G unit) (Buffer : list Z) (Length : Z) (BytesProcessed : option Z) :=
  Template_Endpoint_RW task (send_byte Buffer) move_down Endpoint_ClearIN (Length - 1) Length BytesProcessed.
Definition Endpoint_Read_Stream_LE (task : M G unit) (Buffer : list Z) (Length : Z) (BytesProcessed : option Z) :=
  Template_Endpoint_RW task store_byte move_up_in Endpoint_ClearOUT (Buffer, 0) Length BytesProcessed.
Definition Endpoint_Read_Stream_BE (task : M G unit) (Buffer : list Z) (Length : Z) (BytesProcessed : option Z) :=
  Template_Endpoint_RW task store_byte move_down_in Endpoint_ClearOUT (Buffer, Length - 1) Length BytesProcessed.
Definition Endpoint_Write_PStream_LE := Endpoint_Write_Stream_LE.
Definition Endpoint_Write_PStream_BE := Endpoint_Write_Stream_BE.
Definition Endpoint_Write_EStream_LE := Endpoint_Write_Stream_LE.
Definition Endpoint_Write_EStream_BE := Endpoint_Write_Stream_BE.
Definition Endpoint_Read_EStream_LE := Endpoint_Read_Stream_LE.
Definition Endpoint_Read_EStream_BE := Endpoint_Read_Stream_BE.

Definition Endpoint_Write_Control_Stream_LE (Buffer : list Z) (Length : Z) :=
  Template_Endpoint_Control_W (send_byte Buffer) move_up 0 Length.
Definition Endpoint_Write_Control_Stream_BE (Buffer : list Z) (Length : Z) :=
  Template_Endpoint_Control_W (send_byte Buffer) move_down (Length - 1) Length.
Definition Endpoint_Read_Control_Stream_LE (Buffer : list Z) (Length : Z) :=
  Template_Endpoint_Control_R store_byte move_up_in (Buffer, 0) Length.
Definition Endpoint_Read_Control_Stream_BE (Buffer : list Z) (Length : Z) :=
  Template_Endpoint_Control_R store_byte move_down_in (Buffer, Length - 1) Length.
Definition Endpoint_Write_Control_PStream_LE := Endpoint_Write_Control_Stream_LE.
Definition Endpoint_Write_Control_PStream_BE := Endpoint_Write_Control_Stream_BE.
Definition Endpoint_Write_Control_EStream_LE := Endpoint_Write_Control_Stream_LE.
Definition Endpoint_Write_Control_EStream_BE := Endpoint_Write_Control_Stream_BE.
Definition Endpoint_Read_Control_EStream_LE := Endpoint_Read_Control_Stream_LE.
Definition Endpoint_Read_Control_EStream_BE := Endpoint_Read_Control_Stream_BE.
End Streams.

(** ** Packets in a log *)

(** Packets completed (oldest first) and the bytes of the open one: the data
    register fills a packet, an acknowledgement in [UEINTX] sends it. *)
Fixpoint packets (h : log) : list (list Z) * list Z :=
  match h with
  | [] => ([], [])
  | Wr UEDATX v :: h' => let '(ps, cur) := packets h' in (ps, cur ++ [v])
  | Wr UEINTX _ :: h' => let '(ps, cur) := packets h' in (ps ++ [cur], [])
  | _ :: h' => packets h'
  end.

(** How data is cut into packets of the control endpoint: full ones, then a
    short one, which is empty when the data ends with a full packet. *)
Fixpoint usb_packets_aux (n : nat) (d : list Z) : list (list Z) :=
  match n with
  | O => []
  | S n' => if decide (length d < 64)%nat then [d] else take 64 d :: usb_packets_aux n' (drop 64 d)
  end.
Definition usb_packets (d : list Z) : list (list Z) := usb_packets_aux (S (length d)) d.

Lemma usb_packets_enough d n m :
  (length d < n)%nat -> (length d < m)%nat -> usb_packets_aux n d = usb_packets_aux m d.
Proof.
  revert d m. induction n as [|n IH]; intros d m Hn Hm; [lia|]. destruct m as [|m]; [lia|].
  simpl. case_decide; [done|]. f_equal. apply IH; rewrite length_drop; lia.
Qed.

Lemma usb_packets_short d : (length d < 64)%nat -> usb_packets d = [d].
Proof. intros Hd. unfold usb_packets. simpl. by rewrite decide_True. Qed.

Lemma usb_packets_full d : (64 <= length d)%nat -> usb_packets d = take 64 d :: usb_packets (drop 64 d).
Proof.
  intros Hd. unfold usb_packets at 1. simpl usb_packets_aux. rewrite decide_False by lia. f_equal.
  apply usb_packets_enough; rewrite length_drop; lia.
Qed.

Lemma usb_packets_concat d : concat (usb_packets d) = d.
Proof.
  induction d as [d IH] using (induction_ltof1 _ (@length Z)). unfold ltof in IH.
  destruct (decide (length d < 64)%nat) as [Hs|Hs].
  - rewrite usb_packets_short by done. simpl. by rewrite app_nil_r.
  - rewrite usb_packets_full by lia. simpl. rewrite IH by (rewrite length_drop; lia).
    apply take_drop.
Qed.

(** Every packet fits the endpoint, and only the last one is short. *)
Lemma usb_packets_sizes d :
  exists full lst, usb_packets d = full ++ [lst] /\ Forall (fun q => length q = 64%nat) full /\
    (length lst < 64)%nat.
Proof.
  induction d as [d IH] using (induction_ltof1 _ (@length Z)). unfold ltof in IH.
  destruct (decide (length d < 64)%nat) as [Hs|Hs].
  - exists [], d. by rewrite usb_packets_short.
  - destruct (IH (drop 64 d)) as (full & lst & E & Hf & Hl); [rewrite length_drop; lia|].
    exists (take 64 d :: full), lst. rewrite usb_packets_full, E by lia. split_and!; [done| |done].
    constructor; [|done]. rewrite length_take. lia.
Qed.

(** Log of the bytes of [bs] going to the data register. *)
Definition sent (bs : list Z) : log := rev (Wr UEDATX <$> bs).

Lemma sent_snoc bs b : sent (bs ++ [b]) = Wr UEDATX b :: sent bs.
Proof. unfold sent. by rewrite fmap_app, rev_app_distr. Qed.

Lemma packets_sent bs h : packets (sent bs ++ h) = (fst (packets h), snd (packets h) ++ bs).
Proof.
  induction bs as [|b bs IH] using rev_ind.
  - change (sent [] ++ h) with h. rewrite app_nil_r. by destruct (packets h).
  - rewrite sent_snoc. simpl. rewrite IH. by rewrite app_assoc.
Qed.

Lemma packets_app new h : snd (packets h) = [] ->
  packets (new ++ h) = (fst (packets h) ++ fst (packets new), snd (packets new)).
Proof.
  intros Hh. induction new as [|[r v|r v] new IH]; simpl.
  - destruct (packets h) as [ps cur]. simpl in *. subst. by rewrite app_nil_r.
  - done.
  - destruct r; simpl; try done; rewrite IH; destruct (packets new) as [ps cur]; simpl; by rewrite ?app_assoc.
Qed.

(** The byte counter of the selected endpoint counts the bytes written into the
    open packet. *)
Definition counts_bytes (p : platform) : Prop :=
  forall h, (length (snd (packets h)) <= 64)%nat ->
    u8 (respond p h UEBCLX) = Z.of_nat (length (snd (packets h))) /\ u8 (respond p h UEBCHX) = 0.

(** ** Sources of bytes *)

(** What the write templates need of the macros that configure them: the [k]-th
    transfer puts the [k]-th byte of [data] into the data register. *)
Class Source {G B} (transfer : B -> M G B) (move : Z -> B -> B) (ptr : nat -> B) (data : list Z) : Prop := {
  source_step k b p (w : world G) : data !! k = Some b ->
    transfer (ptr k) p w = Done (ptr k) (World (st w) (Wr UEDATX b :: hist w));
  source_move k : move 1 (ptr k) = ptr (S k)
}.

Lemma source_up {G} mem : Forall is_u8 mem ->
  Source (G := G) (send_byte mem) move_up Z.of_nat mem.
Proof.
  intros Hm. split.
  - intros k b p w Hb. unfold send_byte, bind, mlift, Endpoint_Write_8, wr, ret.
    unfold aget. rewrite decide_True, Nat2Z.id, Hb by lia. cbn [reg_wrap].
    rewrite u8_small; [done|]. by eapply Forall_lookup_1.
  - intros k. unfold move_up. lia.
Qed.

Lemma source_down {G} mem (n : nat) : Forall is_u8 mem -> (n <= length mem)%nat ->
  Source (G := G) (send_byte mem) move_down (fun k => Z.of_nat n - 1 - Z.of_nat k) (reverse (take n mem)).
Proof.
  intros Hm Hn. split.
  - intros k b p w Hb. unfold send_byte, bind, mlift, Endpoint_Write_8, wr, ret.
    pose proof (lookup_lt_Some _ _ _ Hb) as Hk. rewrite length_reverse, length_take in Hk.
    rewrite reverse_lookup, length_take in Hb by (rewrite length_take; lia).
    rewrite lookup_take_lt in Hb by lia.
    unfold aget. rewrite decide_True by lia.
    replace (Z.to_nat _) with (min n (length mem) - S k)%nat by lia. rewrite Hb. cbn [reg_wrap].
    rewrite u8_small; [done|]. by eapply Forall_lookup_1.
  - intros k. unfold move_down. lia.
Qed.

(** ** Control writes *)

Section ControlWrite.
Context {G : Type} `{UsbState G} `{Avr} {B : Type}.
Context (transfer : B -> M G B) (move : Z -> B -> B) (ptr : nat -> B) (data : list Z).
Context `{!Source transfer move ptr data}.
Context (p : platform).
Implicit Types w : world G.

Lemma wp_source nf k b Q w : data !! k = Some b ->
  Q (ptr k) (World (st w) (Wr UEDATX b :: hist w)) -> wp nf (transfer (ptr k)) Q p w.
Proof. intros Hb HQ. unfold wp. by rewrite (source_step k b). Qed.

Lemma take_S_drop (d : list Z) k j b : d !! (k + j)%nat = Some b ->
  take (S j) (drop k d) = take j (drop k d) ++ [b].
Proof. intros Hb. apply take_S_r. by rewrite lookup_drop. Qed.

(** One packet takes as many bytes as are left, 64 at most. *)
Lemma wp_fill nf k (L : nat) Q w :
  (k + L <= length data)%nat -> Z.of_nat L < 65536 -> (nf \/ (64 < fuel p)%nat) ->
  (let m := min L 64 in
   Q (ptr (k + m)%nat, Z.of_nat (L - m), Z.of_nat m)
     (World (st w) (sent (take m (drop k data)) ++ hist w))) ->
  wp nf (fill_packet transfer move (ptr k) (Z.of_nat L) 0) Q p w.
Proof.
  intros Hk HL Hf HQ. unfold fill_packet.
  apply (wp_while_either nf p
    (fun x w' => exists j, (j <= min L 64)%nat /\ x = (ptr (k + j)%nat, Z.of_nat (L - j), Z.of_nat j) /\
       w' = World (st w) (sent (take j (drop k data)) ++ hist w))
    (fun x _ => 64 - Z.to_nat (snd x))%nat).
  - intros [[ds len] n] w1 (j & Hj & [= -> -> ->] & ->).
    destruct (negb (Z.of_nat (L - j) =? 0) && (Z.of_nat j <? USB_Device_ControlEndpointSize)) eqn:E.
    + apply andb_true_iff in E as [E1 E2]. apply negb_true_iff, Z.eqb_neq in E1.
      apply Z.ltb_lt in E2. unfold USB_Device_ControlEndpointSize, FIXED_CONTROL_ENDPOINT_SIZE in E2.
      destruct (lookup_lt_is_Some_2 data (k + j)%nat) as [b Hb]; [lia|].
      apply wp_bind, (wp_source nf _ b _ _ Hb), wp_ret. cbn [st hist snd].
      split; [|rewrite u16_small by (unfold is_u16; lia); lia].
      exists (S j). rewrite source_move, !u16_small by (unfold is_u16; lia).
      split; [lia|]. split.
      * repeat f_equal; lia.
      * rewrite (take_S_drop _ _ _ _ Hb), sent_snoc. done.
    + apply wp_ret. replace j with (min L 64); [exact HQ|].
      apply andb_false_iff in E as [E|E].
      * apply negb_false_iff, Z.eqb_eq in E. lia.
      * apply Z.ltb_ge in E. unfold USB_Device_ControlEndpointSize, FIXED_CONTROL_ENDPOINT_SIZE in E. lia.
  - exists 0%nat. rewrite Nat.add_0_r, Nat.sub_0_r, take_0. split_and!; [lia|done|by destruct w].
  - destruct Hf as [Hf|Hf]; [by left|right]. cbn [snd]. lia.
Qed.

(** A log that wrote only data and flags, and put the packets [P]. *)
Definition stream_log (h : log) (P : list (list Z)) : Prop :=
  packets h = (P, []) /\
  Forall (fun e => match e with Wr r _ => r = UEDATX \/ r = UEINTX | Rd _ _ => True end) h.

Lemma stream_reads rds h P : Forall is_read rds -> stream_log h P -> stream_log (rds ++ h) P.
Proof.
  intros Hr [Hp Ho]. split.
  - induction Hr as [|[r x|r x] rds Hx _ IH]; simpl; done.
  - apply Forall_app. split; [|done]. eapply Forall_impl; [|exact Hr]. by intros [r x|r x] Hx.
Qed.

(** The bytes of the data stage. *)
Context (total : nat) (Htotal : (total <= length data)%nat) (Hwide : Z.of_nat total < 65536).
Let d := take total data.

Lemma d_length : length d = total.
Proof. unfold d. rewrite length_take. lia. Qed.

(** Before a round of the data stage that began at log [h0]: [k] bytes are out,
    in packets [P]. *)
Definition stage_inv (w0 : world G) (x : B * Z * bool) w : Prop :=
  exists new P (k : nat), st w = st w0 /\ hist w = new ++ hist w0 /\ stream_log new P /\
    (k <= total)%nat /\ x.1.1 = ptr k /\ x.1.2 = Z.of_nat (total - k) /\
    if (x.1.2 =? 0) && negb x.2 then P = usb_packets d else P ++ usb_packets (drop k d) = usb_packets d.

Lemma stage_prefix w0 x w : stage_inv w0 x w ->
  exists new P, st w = st w0 /\ hist w = new ++ hist w0 /\ stream_log new P /\ P `prefix_of` usb_packets d.
Proof.
  intros (new & P & k & Hst & Hh & Hp & _ & _ & _ & Hd). exists new, P. split_and!; [done..|].
  destruct (_ && _); [by subst|]. by eexists.
Qed.

(** Sending one packet. *)
Lemma stage_packet w0 ds len full w1 (k : nat) new P (L := (total - k)%nat) v v' rd1 :
  let m := min L 64 in
  st w1 = st w0 -> hist w1 = new ++ hist w0 -> stream_log new P -> (k <= total)%nat ->
  ds = ptr k -> len = Z.of_nat L -> (len =? 0) && negb full = false ->
  P ++ usb_packets (drop k d) = usb_packets d ->
  Forall is_read rd1 ->
  stage_inv w0 (ptr (k + m)%nat, Z.of_nat (L - m), Z.of_nat m =? USB_Device_ControlEndpointSize)
    (World (st w1) (Wr UEINTX v' :: Rd UEINTX v :: sent (take m (drop k data)) ++ rd1 ++ hist w1)).
Proof.
  intros m Hst Hh Hp Hk -> -> Hrun HP Hrd.
  assert (take m (drop k data) = take 64 (drop k d)) as Htake.
  { unfold d. rewrite skipn_firstn_comm, take_take. f_equal. unfold m, L. lia. }
  assert (length (drop k d) = L) as HL by (rewrite length_drop, d_length; done).
  exists (Wr UEINTX v' :: Rd UEINTX v :: sent (take m (drop k data)) ++ rd1 ++ new),
    (P ++ [take 64 (drop k d)]), (k + m)%nat.
  assert (stream_log (rd1 ++ new) P) as [Hrp Hro] by (by apply stream_reads).
  split_and!; [done|cbn [hist app]; by rewrite Hh, <- !app_assoc| |subst m L; lia|done|cbn; lia|].
  - split.
    + cbn [packets]. rewrite packets_sent, Hrp. cbn [fst snd]. by rewrite app_nil_l, Htake.
    + constructor; [by right|]. constructor; [done|]. apply Forall_app. split; [|done].
      unfold sent. apply Forall_rev, Forall_fmap, Forall_true. by left.
  - cbn [fst snd]. unfold USB_Device_ControlEndpointSize, FIXED_CONTROL_ENDPOINT_SIZE.
    destruct (decide (L < 64)%nat) as [Hs|Hs].
    + rewrite (proj2 (Z.eqb_eq (Z.of_nat (L - m)) 0)) by (subst m; lia).
      rewrite (proj2 (Z.eqb_neq (Z.of_nat m) 64)) by (subst m; lia). cbn [andb negb].
      rewrite <- HP, (usb_packets_short (drop k d)) by lia. by rewrite take_ge by lia.
    + rewrite (proj2 (Z.eqb_eq (Z.of_nat m) 64)) by (subst m; lia). rewrite andb_false_r.
      rewrite <- HP, (usb_packets_full (drop k d)) by lia. rewrite <- app_assoc. simpl.
      rewrite drop_drop. by replace m with 64%nat by (subst m; lia).
Qed.

(** A value the flag register, or the device state, showed while only reads
    happened since [w]. *)
Definition polled (r : reg) (w : world G) (v : Z) : Prop :=
  exists rds, Forall is_read rds /\ v = reg_wrap r (respond p (rds ++ hist w) r).

Definition abort_reason (w : world G) (c : Endpoint_ControlStream_RW_ErrorCodes_t) : Prop :=
  match c with
  | ENDPOINT_RWCSTREAM_DeviceDisconnected => polled V_USB_DeviceState w (state_code DEVICE_STATE_Unattached)
  | ENDPOINT_RWCSTREAM_BusSuspended => polled V_USB_DeviceState w (state_code DEVICE_STATE_Suspended)
  | ENDPOINT_RWCSTREAM_HostAborted => exists v, polled UEINTX w v /\ bit_tst v RXSTPI = true
  | ENDPOINT_RWCSTREAM_NoError => False
  end.

Lemma wp_unless_gone {A} nf (done : Endpoint_ControlStream_RW_ErrorCodes_t -> A) k Q w :
  (forall c rds, Forall is_read rds -> abort_reason w c -> Q (done c) (World (st w) (rds ++ hist w))) ->
  (forall v, wp nf k Q p (World (st w) ([Rd V_USB_DeviceState v] ++ hist w))) ->
  wp nf (unless_gone done k) Q p w.
Proof.
  intros Hgone Hk. unfold unless_gone. apply wp_bind, wp_rd. intros v Hv.
  destruct (Z.eqb_spec v (state_code DEVICE_STATE_Unattached)) as [->|_].
  { apply wp_ret. apply (Hgone _ [_]); [by repeat constructor|]. by exists []. }
  destruct (Z.eqb_spec v (state_code DEVICE_STATE_Suspended)) as [->|_].
  { apply wp_ret. apply (Hgone _ [_]); [by repeat constructor|]. by exists []. }
  apply Hk.
Qed.

(** Polling a flag. *)
Lemma wp_poll nf r b Q (w w0 : world G) rds :
  hist w = rds ++ hist w0 -> Forall is_read rds ->
  (forall v, polled r w0 v -> Q (bit_tst v b) (World (st w) ((Rd r v :: rds) ++ hist w0))) ->
  wp nf (reg_bit r b) Q p w.
Proof.
  intros Hh Hr HQ. apply wp_reg_bit. intros v Hv. rewrite Hh in *. apply HQ. by exists rds.
Qed.

(** The byte counter of an empty packet. *)
Lemma wp_bytes_zero nf Q w : counts_bytes p -> snd (packets (hist w)) = [] ->
  (forall rds, Forall is_read rds -> Q 0 (World (st w) (rds ++ hist w))) ->
  wp nf Endpoint_BytesInEndpoint Q p w.
Proof.
  intros Hc Hs HQ. unfold Endpoint_BytesInEndpoint.
  assert (forall h, snd (packets h) = [] -> u8 (respond p h UEBCLX) = 0 /\ u8 (respond p h UEBCHX) = 0) as Hz.
  { intros h Hh. destruct (Hc h) as [-> ->]; rewrite Hh; cbn; [lia|done]. }
  destruct series.
  - apply wp_rd. intros v ->. cbn [reg_wrap]. rewrite (proj1 (Hz _ Hs)).
    apply (HQ [_]). by repeat constructor.
  - apply wp_bind, wp_rd. intros hi ->. apply wp_bind, wp_rd. intros lo ->. apply wp_ret. cbn [reg_wrap st hist].
    rewrite (proj2 (Hz (hist w) Hs)), (proj1 (Hz (Rd UEBCHX 0 :: hist w) Hs)).
    apply (HQ [_; _]). by repeat constructor.
Qed.

Definition rounds_left (x : B * Z * bool) : nat := (Z.to_nat x.1.2 + (if x.2 then 1 else 0))%nat.

Lemma wp_stage_round nf w0 x w Q :
  counts_bytes p -> snd (packets (hist w0)) = [] -> (nf \/ (64 < fuel p)%nat) ->
  stage_inv w0 x w ->
  ((x.1.2 =? 0) && negb x.2 = true -> Q (inr None) w) ->
  (forall c rds, Forall is_read rds -> abort_reason w c -> Q (inr (Some c)) (World (st w) (rds ++ hist w))) ->
  (forall v rds, (x.1.2 =? 0) && negb x.2 = false ->
     Forall is_read rds -> polled UEINTX w v -> bit_tst v RXOUTI = true ->
     Q (inr None) (World (st w) (rds ++ hist w))) ->
  (forall v rds, Forall is_read rds -> polled UEINTX w v -> bit_tst v TXINI = false ->
     Q (inl x) (World (st w) (rds ++ hist w))) ->
  (forall x' w', stage_inv w0 x' w' -> (rounds_left x' < rounds_left x)%nat -> Q (inl x') w') ->
  wp nf (control_w_round transfer move x) Q p w.
Proof.
  intros Hcount Hopen Hf HI Hend Habort Hout Hwait Hgo.
  destruct x as [[ds len] full]. cbn [fst snd] in *. unfold control_w_round.
  destruct ((len =? 0) && negb full) eqn:Erun; [by apply wp_ret, Hend|].
  pose proof HI as (new & P & k & Hst & Hh & HP & Hk & Hds & Hlen & Hd). cbn [fst snd] in Hds, Hlen, Hd.
  rewrite Erun in Hd. subst ds len.
  apply wp_unless_gone; [auto|]. intros s. cbn [st hist].
  apply wp_bind. eapply wp_poll; [reflexivity|by repeat constructor|]. intros v1 Hv1.
  destruct (bit_tst v1 RXSTPI) eqn:E1.
  { apply wp_ret, Habort; [by repeat constructor|]. by exists v1. }
  apply wp_bind. eapply wp_poll; [reflexivity|by repeat constructor|]. intros v2 Hv2.
  destruct (bit_tst v2 RXOUTI) eqn:E2.
  { apply wp_ret, (Hout v2); [done|by repeat constructor|done|done]. }
  apply wp_bind. eapply wp_poll; [reflexivity|by repeat constructor|]. intros v3 Hv3.
  destruct (bit_tst v3 TXINI) eqn:E3; [|by apply wp_ret, (Hwait v3); [by repeat constructor|..]].
  cbn [st hist]. apply wp_bind, wp_bytes_zero; [done| |].
  { cbn [hist app packets]. rewrite Hh, packets_app, (proj1 HP) by done. done. }
  intros rds Hrds. apply wp_bind. cbn [st hist].
  apply wp_fill; [lia|lia|done|]. cbv zeta. set (m := min (total - k) 64).
  unfold Endpoint_ClearIN, clear_flags. wp_steps.
  match goal with |- context [Wr UEINTX ?a :: Rd UEINTX ?b :: _] =>
    pose proof (stage_packet w0 (ptr k) (Z.of_nat (total - k)) full w k new P b a
      (rds ++ [Rd UEINTX v3; Rd UEINTX v2; Rd UEINTX v1; Rd V_USB_DeviceState s])) as Hnew end.
  cbv zeta in Hnew. apply Hgo.
  - rewrite <- app_assoc in Hnew. apply Hnew; [done..|].
    apply Forall_app. split; [done|by repeat constructor].
  - unfold rounds_left. cbn [fst snd]. unfold USB_Device_ControlEndpointSize, FIXED_CONTROL_ENDPOINT_SIZE.
    destruct (Z.eqb_spec (Z.of_nat m) 64); subst m; [destruct full; lia|].
    destruct full; [lia|]. apply andb_false_iff in Erun as [E|E]; [|done]. apply Z.eqb_neq in E. lia.
Qed.

(** ** The data stage as a whole *)

(** At the end of the stage. *)
Definition stage_post (w0 : world G) w (P : list (list Z)) : Prop :=
  exists new, st w = st w0 /\ hist w = new ++ hist w0 /\ stream_log new P.

Lemma stage_post_reads w0 w P rds :
  Forall is_read rds -> stage_post w0 w P -> stage_post w0 (World (st w) (rds ++ hist w)) P.
Proof.
  intros Hr (new & Hst & Hh & HP). exists (rds ++ new). cbn [st hist].
  rewrite Hh, app_assoc. split_and!; [done|done|by apply stream_reads].
Qed.

Lemma stage_post_prefix w0 x w : stage_inv w0 x w ->
  exists P, stage_post w0 w P /\ P `prefix_of` usb_packets d.
Proof.
  intros HI. destruct (stage_prefix _ _ _ HI) as (new & P & ? & ? & ? & ?).
  exists P. split; [by exists new|done].
Qed.

Lemma stage_start w0 : (0 < total)%nat -> stage_inv w0 (ptr 0, Z.of_nat total, false) w0.
Proof.
  intros Ht. exists [], [], 0%nat. split_and!; [done..|lia|done|cbn; lia|].
  cbn [fst snd]. by rewrite (proj2 (Z.eqb_neq _ _)) by lia.
Qed.

Lemma stage_inv_reads w0 x w rds :
  Forall is_read rds -> stage_inv w0 x w -> stage_inv w0 x (World (st w) (rds ++ hist w)).
Proof.
  intros Hr (new & P & k & Hst & Hh & HP & Hrest). exists (rds ++ new), P, k. cbn [st hist].
  split_and!; [done|by rewrite Hh, app_assoc|by apply stream_reads|apply Hrest..].
Qed.

(** For any host: what was sent is a prefix of the packets of the data. *)
Lemma wp_stage_partial w0 :
  counts_bytes p -> snd (packets (hist w0)) = [] -> (0 < total)%nat ->
  wp True (control_w_data transfer move (ptr 0) (Z.of_nat total))
    (fun _ w' => exists P, stage_post w0 w' P /\ P `prefix_of` usb_packets d) p w0.
Proof.
  intros Hc Ho Ht. apply (wp_while True p (stage_inv w0)); [done| |by apply stage_start].
  intros x w HI. eapply wp_stage_round; [done|done|by left|done|..].
  - intros _. by apply (stage_post_prefix w0 x).
  - intros c rds Hr _. destruct (stage_post_prefix _ _ _ HI) as (P & HP & Hpre).
    exists P. split; [by apply stage_post_reads|done].
  - intros v rds _ Hr _ _. destruct (stage_post_prefix _ _ _ HI) as (P & HP & Hpre).
    exists P. split; [by apply stage_post_reads|done].
  - intros v rds Hr _ _. by apply stage_inv_reads.
  - by intros.
Qed.

(** A host that takes every packet at once, never aborts, and goes on to the
    status stage when it has seen a short packet or all it asked for. *)
Definition host_done (asked : Z) (P : list (list Z)) : bool :=
  (asked <=? Z.of_nat (length (concat P))) ||
  match list.last P with Some q => bool_decide (length q < 64)%nat | None => false end.

Definition host_accepts (asked : Z) (h0 : log) : Prop := forall new,
  let v := reg_wrap UEINTX (respond p (new ++ h0) UEINTX) in
  bit_tst v TXINI = true /\ bit_tst v RXSTPI = false /\
  bit_tst v RXOUTI = host_done asked (fst (packets new)) /\
  reg_wrap V_USB_DeviceState (respond p (new ++ h0) V_USB_DeviceState)
    ∉ [state_code DEVICE_STATE_Unattached; state_code DEVICE_STATE_Suspended].

Lemma host_polled asked w0 w new P v : host_accepts asked (hist w0) -> hist w = new ++ hist w0 ->
  stream_log new P -> polled UEINTX w v ->
  bit_tst v TXINI = true /\ bit_tst v RXSTPI = false /\ bit_tst v RXOUTI = host_done asked P.
Proof.
  intros Hhost Hh HP (rds & Hr & ->). rewrite Hh, app_assoc.
  destruct (Hhost (rds ++ new)) as (-> & -> & -> & _). by rewrite (proj1 (stream_reads _ _ _ Hr HP)).
Qed.

Lemma host_no_abort asked w0 w new P c : host_accepts asked (hist w0) -> hist w = new ++ hist w0 ->
  stream_log new P -> abort_reason w c -> False.
Proof.
  intros Hhost Hh HP. destruct c; cbn; [done|..].
  - intros (v & Hv & Hb). destruct (host_polled asked w0 w new P v) as (_ & E & _); [done..|]. congruence.
  - intros (rds & Hr & Hv). rewrite Hh, app_assoc in Hv.
    destruct (Hhost (rds ++ new)) as (_ & _ & _ & E). rewrite <- Hv in E. by apply E; apply (bool_decide_unpack _).
  - intros (rds & Hr & Hv). rewrite Hh, app_assoc in Hv.
    destruct (Hhost (rds ++ new)) as (_ & _ & _ & E). rewrite <- Hv in E. by apply E; apply (bool_decide_unpack _).
Qed.

(** A host that asked for no less than is sent is done exactly when it has all. *)
Lemma host_done_all asked P k :
  Z.of_nat total <= asked -> P ++ usb_packets (drop k d) = usb_packets d ->
  host_done asked P = true -> concat P = d.
Proof.
  intros Ha HP Hd. assert (concat P ++ drop k d = d) as Hc.
  { rewrite <- (usb_packets_concat (drop k d)), <- concat_app, HP. apply usb_packets_concat. }
  unfold host_done in Hd. apply orb_true_iff in Hd as [Hd|Hd].
  - apply Z.leb_le in Hd. pose proof (f_equal length Hc) as Hl.
    rewrite length_app, d_length in Hl.
    destruct (drop k d); [by rewrite app_nil_r in Hc|cbn in Hl; lia].
  - destruct (usb_packets_sizes d) as (full & lst & E & Hfull & Hlst).
    destruct (usb_packets_sizes (drop k d)) as (full' & lst' & E' & _).
    rewrite E, E', app_assoc in HP. apply app_inj_tail in HP as [HP _].
    rewrite <- HP in Hfull. apply Forall_app in Hfull as [Hfull _].
    destruct (list.last P) as [q|] eqn:El; [|done]. apply bool_decide_eq_true in Hd.
    apply last_Some in El as [P' ->]. apply Forall_app in Hfull as [_ Hq].
    apply Forall_cons_iff in Hq as [Hq _]. lia.
Qed.

Lemma host_done_packets asked : host_done asked (usb_packets d) = true.
Proof.
  destruct (usb_packets_sizes d) as (full & lst & -> & _ & Hl). unfold host_done.
  rewrite last_snoc, bool_decide_true by done. apply orb_true_r.
Qed.

Lemma wp_stage_total asked w0 :
  counts_bytes p -> snd (packets (hist w0)) = [] -> (0 < total)%nat ->
  Z.of_nat total <= asked -> host_accepts asked (hist w0) -> (total + 65 <= fuel p)%nat ->
  wp False (control_w_data transfer move (ptr 0) (Z.of_nat total))
    (fun r w' => r = None /\ exists P, stage_post w0 w' P /\ concat P = d /\
       P `prefix_of` usb_packets d /\ host_done asked P = true) p w0.
Proof.
  intros Hc Ho Ht Ha Hhost Hf.
  apply (wp_while_variant False p (stage_inv w0) (fun x _ => rounds_left x)); [|by apply stage_start|].
  2: { unfold rounds_left. cbn. lia. }
  intros x w HI. pose proof HI as (new & P & k & Hst & Hh & HP & Hk & Hds & Hlen & Hd).
  eapply wp_stage_round; [done|done|right; lia|done|..].
  - intros E. rewrite E in Hd. split; [done|]. exists P. subst P.
    split_and!; [by exists new|apply usb_packets_concat|done|apply host_done_packets].
  - intros c rds _ Hr. exfalso. by eapply host_no_abort.
  - intros v rds E Hr Hv Hb. rewrite E in Hd. split; [done|]. exists P.
    destruct (host_polled asked w0 w new P v) as (_ & _ & Eo); [done..|]. rewrite Hb in Eo.
    split_and!; [apply stage_post_reads; [done|by exists new]|by eapply host_done_all|by eexists|done].
  - intros v rds Hr Hv Hb. exfalso.
    destruct (host_polled asked w0 w new P v) as (E & _); [done..|]. congruence.
  - intros x' w' HI' Hlt. done.
Qed.

Lemma wp_status_partial w0 w P :
  stage_post w0 w P -> wp True control_w_status (fun _ w' => stage_post w0 w' P) p w.
Proof.
  intros HP. apply (wp_while True p (fun _ w' => stage_post w0 w' P)); [done| |done].
  intros _ w1 H1. apply wp_bind. eapply (wp_poll _ _ _ _ _ w1 []); [done|done|]. intros v _.
  destruct (bit_tst v RXOUTI); [apply wp_ret; by apply (stage_post_reads _ _ _ [_]); [by repeat constructor|]|].
  apply wp_unless_gone; cbn [st hist].
  - intros c rds Hr _. apply (stage_post_reads _ (World (st w1) _) _ rds Hr).
    by apply (stage_post_reads _ _ _ [_]); [by repeat constructor|].
  - intros u. apply wp_bind. unfold Endpoint_IsSETUPReceived. apply wp_reg_bit. intros v2 _. apply wp_ret. cbn [st hist].
    assert (stage_post w0 (World (st w1) ([Rd UEINTX v2; Rd V_USB_DeviceState u; Rd UEINTX v] ++ hist w1)) P)
      by (apply stage_post_reads; [by repeat constructor|done]).
    by destruct (bit_tst v2 RXSTPI).
Qed.

Lemma wp_status_total asked w0 w P :
  stage_post w0 w P -> host_accepts asked (hist w0) -> host_done asked P = true -> (1 <= fuel p)%nat ->
  wp False control_w_status (fun c w' => c = ENDPOINT_RWCSTREAM_NoError /\ stage_post w0 w' P) p w.
Proof.
  intros HP Hhost Hd Hf. unfold control_w_status. apply wp_bind, wp_fuel.
  destruct (fuel p); [lia|]. cbn [loop]. apply wp_bind, wp_bind.
  eapply (wp_poll _ _ _ _ _ w []); [done|done|]. intros v Hv.
  pose proof HP as (new & _ & Hh & Hp). destruct (host_polled asked w0 w new P v) as (_ & _ & ->); [done..|].
  rewrite Hd. apply wp_ret, wp_ret. split; [done|]. by apply (stage_post_reads _ _ _ [_]); [by repeat constructor|].
Qed.

End ControlWrite.

(** ** Control writes of a buffer *)

Section ControlWriteBuffer.
Context {G : Type} `{UsbState G} `{Avr} {B : Type}.
Context (transfer : B -> M G B) (move : Z -> B -> B) (ptr : nat -> B) (data : list Z).
Context `{!Source transfer move ptr data}.
Context (p : platform) (Hcount : counts_bytes p).
Implicit Types w : world G.

(** The bytes a control write sends: no more than the host asked for. *)
Definition requested (Len : nat) w : list Z :=
  take (min Len (Z.to_nat (wLength (USB_ControlRequest (usb (st w)))))) data.

Context (Len : nat) (w : world G).
Context (Hlen : (Len <= length data)%nat) (Hwide : Z.of_nat Len < 65536).
Context (Hreq : is_u16 (wLength (USB_ControlRequest (usb (st w))))) (Hopen : snd (packets (hist w)) = []).

Lemma control_w_zero nf w1 Q : Q None w1 -> (nf \/ (1 <= fuel p)%nat) ->
  wp nf (control_w_data transfer move (ptr 0) 0) Q p w1.
Proof.
  intros HQ Hf. unfold control_w_data. apply wp_bind, wp_fuel.
  destruct (fuel p) as [|n]; [by destruct Hf; [|lia]|]. by apply wp_bind, wp_ret.
Qed.

(** What is left after the data stage. *)
Definition after_data (e : option Endpoint_ControlStream_RW_ErrorCodes_t) : M G Endpoint_ControlStream_RW_ErrorCodes_t :=
  match e with Some code => ret code | None => control_w_status end.

Let n := wLength (USB_ControlRequest (usb (st w))).
Let tot := min Len (Z.to_nat n).

(** A control write starts with no data, having sent nothing or one empty
    packet, or with a data stage. *)
Lemma control_w_cases nf Q :
  (forall P w1, stage_post w w1 P -> tot = 0%nat -> (P = [] /\ n = 0 \/ P = [[]]) -> wp nf (after_data None) Q p w1) ->
  ((0 < tot)%nat -> wp nf (control_w_data transfer move (ptr 0) (Z.of_nat tot))
     (fun e w' => wp nf (after_data e) Q p w') p w) ->
  (nf \/ (1 <= fuel p)%nat) ->
  wp nf (Template_Endpoint_Control_W transfer move (ptr 0) (Z.of_nat Len)) Q p w.
Proof.
  intros Hzero Hdata Hf. unfold Template_Endpoint_Control_W, get_request, get_usb.
  apply wp_bind, wp_bind, wp_bind, wp_get, wp_ret, wp_ret, wp_bind. fold n.
  unfold is_u16 in Hreq. fold n in Hreq.
  destruct (Z.ltb_spec n (Z.of_nat Len)) as [Hlt|Hge].
  - apply wp_ret, wp_bind. destruct (decide (n = 0)) as [E|E].
    + rewrite E. apply control_w_zero; [|done].
      apply (Hzero []); [exists []; split_and!; [done|done|by split]|unfold tot; rewrite E; cbn; lia|by left].
    + replace n with (Z.of_nat tot) by (unfold tot; lia). apply Hdata. unfold tot. lia.
  - destruct (Z.eqb_spec (Z.of_nat Len) 0) as [E|E].
    + apply wp_bind. unfold Endpoint_ClearIN, clear_flags. wp_steps. cbn [st hist]. rewrite E.
      apply control_w_zero; [|done].
      match goal with |- context [Wr UEINTX ?a :: Rd UEINTX ?b :: _] =>
        apply (Hzero [[]]); [exists [Wr UEINTX a; Rd UEINTX b]; split_and!; [done|done|split; [done|constructor; [by right|by repeat constructor]]]|unfold tot; lia|by right] end.
    + apply wp_ret, wp_bind. replace (Z.of_nat Len) with (Z.of_nat tot) by (unfold tot; lia).
      apply Hdata. unfold tot. lia.
Qed.

Lemma requested_none : tot = 0%nat -> requested Len w = [].
Proof. intros E. unfold requested. fold n tot. by rewrite E. Qed.

Lemma control_w_partial :
  wp True (Template_Endpoint_Control_W transfer move (ptr 0) (Z.of_nat Len))
    (fun _ w' => exists P, stage_post w w' P /\ P `prefix_of` usb_packets (requested Len w)) p w.
Proof.
  assert (forall e P w1, stage_post w w1 P -> P `prefix_of` usb_packets (requested Len w) ->
    wp True (after_data e) (fun _ w' => exists P, stage_post w w' P /\
      P `prefix_of` usb_packets (requested Len w)) p w1) as Hstat.
  { intros [c|] P w1 HP Hpre; [by apply wp_ret; exists P|].
    eapply wp_mono; [by apply wp_status_partial|]. intros c w2 H2. by exists P. }
  apply control_w_cases; [| |by left].
  - intros P w1 HP Ht HP2. apply (Hstat _ P); [done|]. rewrite requested_none by done.
    rewrite usb_packets_short by (cbn; lia). destruct HP2 as [[-> _]| ->]; [apply prefix_nil|done].
  - intros Hpos. eapply wp_mono.
    + apply (wp_stage_partial transfer move ptr data p tot); [unfold tot; lia|unfold tot; lia|done|done|done].
    + intros e w1 (P & HP & Hpre). by apply (Hstat e P).
Qed.

Lemma control_w_total :
  host_accepts p n (hist w) -> (tot + 65 <= fuel p)%nat ->
  wp False (Template_Endpoint_Control_W transfer move (ptr 0) (Z.of_nat Len))
    (fun c w' => c = ENDPOINT_RWCSTREAM_NoError /\ exists P, stage_post w w' P /\
       concat P = requested Len w /\ P `prefix_of` usb_packets (requested Len w)) p w.
Proof.
  intros Hhost Hf. unfold is_u16 in Hreq. fold n in Hreq.
  assert (forall P w1, stage_post w w1 P -> concat P = requested Len w ->
    P `prefix_of` usb_packets (requested Len w) -> host_done n P = true ->
    wp False (after_data None) (fun c w' => c = ENDPOINT_RWCSTREAM_NoError /\ exists P, stage_post w w' P /\
       concat P = requested Len w /\ P `prefix_of` usb_packets (requested Len w)) p w1) as Hstat.
  { intros P w1 HP Hc Hpre Hd. eapply wp_mono; [apply (wp_status_total data p 0 ltac:(lia) n w w1 P); [done..|lia]|].
    intros c w2 [-> H2]. split; [done|]. by exists P. }
  apply control_w_cases; [| |right; lia].
  - intros P w1 HP Ht HP2. apply (Hstat P); [done|..]; rewrite ?requested_none by done.
    + by destruct HP2 as [[-> _]| ->].
    + rewrite usb_packets_short by (cbn; lia). destruct HP2 as [[-> _]| ->]; [apply prefix_nil|done].
    + destruct HP2 as [[-> E]| ->]; [by unfold host_done; rewrite E|apply orb_true_r].
  - intros Hpos. eapply wp_mono.
    + apply (wp_stage_total transfer move ptr data p tot) with (asked := n); [unfold tot; lia|unfold tot; lia|done|done|done| |done|lia].
      unfold tot. lia.
    + intros e w1 (-> & P & HP & Hc & Hpre & Hd). by apply (Hstat P).
Qed.
End ControlWriteBuffer.

(** ** Writes to a data endpoint with room *)

Section ReadyWrite.
Context {G : Type} `{UsbState G} `{Avr} {B : Type}.
Context (transfer : B -> M G B) (move : Z -> B -> B) (ptr : nat -> B) (data : list Z).
Context `{!Source transfer move ptr data}.
Context (task : M G unit) (p : platform).
Implicit Types w : world G.

(** Reads, and data written. *)
Definition data_log (h : log) : Prop :=
  Forall (fun e => match e with Wr r _ => r = UEDATX | Rd _ _ => True end) h.

(** The selected endpoint is an IN endpoint with room for [n] bytes more. *)
Definition in_room (n : nat) (h0 : log) : Prop := forall new, data_log new ->
  (length (written UEDATX new) < n)%nat ->
  bit_tst (reg_wrap UECFG0X (respond p (new ++ h0) UECFG0X)) EPDIR = true /\
  bit_tst (reg_wrap UEINTX (respond p (new ++ h0) UEINTX)) TXINI = true /\
  bit_tst (reg_wrap UEINTX (respond p (new ++ h0) UEINTX)) RWAL = true.

(** The wait ends at its first poll. *)
Lemma wp_wait_room nf Q w n : in_room n (hist w) -> (0 < n)%nat -> (nf \/ (1 <= fuel p)%nat) ->
  (forall rds, Forall is_read rds -> Q ENDPOINT_READYWAIT_NoError (World (st w) (rds ++ hist w))) ->
  wp nf Endpoint_WaitUntilReady Q p w.
Proof.
  intros Hr Hn Hf HQ. unfold Endpoint_WaitUntilReady, USB_Device_GetFrameNumber. apply wp_bind, wp_rd. intros f _.
  cbn [st hist]. apply wp_bind, wp_fuel. destruct (fuel p) as [|m]; [by destruct Hf; [|lia]|]. cbn [loop].
  apply wp_bind. unfold Endpoint_GetEndpointDirection. apply wp_bind, wp_bind, wp_reg_bit. intros c Hc. cbn [st hist] in *.
  destruct (Hr [Rd UDFNUM f]) as (Ed & _); [by repeat constructor|done|]. cbn [app] in Ed. rewrite <- Hc in Ed. rewrite Ed.
  apply wp_ret. rewrite Z.eqb_refl. apply wp_bind. unfold Endpoint_IsINReady. apply wp_reg_bit. intros v Hv. cbn [st hist] in *.
  destruct (Hr [Rd UECFG0X c; Rd UDFNUM f]) as (_ & Et & _); [by repeat constructor|done|]. cbn [app] in Et.
  rewrite <- Hv in Et. rewrite Et. apply wp_ret, wp_ret. apply (HQ [_; _; _]). by repeat constructor.
Qed.

Lemma written_sent bs h : written UEDATX (sent bs ++ h) = written UEDATX h ++ bs.
Proof.
  induction bs as [|b bs IH] using rev_ind; [by rewrite app_nil_r|].
  rewrite sent_snoc. cbn [app]. by rewrite written_wr, IH, app_assoc.
Qed.

Lemma written_reads rds h : Forall is_read rds -> written UEDATX (rds ++ h) = written UEDATX h.
Proof. induction 1 as [|[r v|r v] rds Hr _ IH]; [done|cbn [app]; by rewrite written_rd|done]. Qed.

Lemma data_log_reads rds : Forall is_read rds -> data_log rds.
Proof. intros Hr. eapply Forall_impl; [|exact Hr]. by intros [r v|r v]. Qed.

(** [Len] bytes into an endpoint with room for them. *)
Lemma wp_write_room nf (Len : nat) Q w :
  (0 < Len <= length data)%nat -> Z.of_nat Len < 65536 -> in_room Len (hist w) -> (nf \/ (Len < fuel p)%nat) ->
  (forall new, data_log new -> written UEDATX new = take Len data ->
     Q (ENDPOINT_RWSTREAM_NoError, ptr Len, None) (World (st w) (new ++ hist w))) ->
  wp nf (Template_Endpoint_RW task transfer move Endpoint_ClearIN (ptr 0) (Z.of_nat Len) None) Q p w.
Proof.
  intros HL Hw Hroom Hf HQ. unfold Template_Endpoint_RW. apply wp_bind.
  apply (wp_wait_room nf _ _ Len); [done|lia|destruct Hf; [by left|right; lia]|]. intros rds Hrds.
  rewrite bool_decide_true by done. cbn [negb].
  apply (wp_while_either nf p (fun x w' => exists (j : nat) new, (j <= Len)%nat /\
      x = (ptr j, Z.of_nat (Len - j), Z.of_nat j) /\ w' = World (st w) (new ++ hist w) /\
      data_log new /\ written UEDATX new = take j data)
    (fun x _ => Z.to_nat x.1.2)).
  - intros [[ds len] cnt] w1 (j & new & Hj & [= -> -> ->] & -> & Hlog & Hwr).
    destruct (Z.eqb_spec (Z.of_nat (Len - j)) 0) as [E|E].
    { apply wp_ret. replace j with Len in * by lia. by apply HQ. }
    assert (length (written UEDATX new) < Len)%nat as Hlt by (rewrite Hwr, length_take; lia).
    apply wp_bind. unfold Endpoint_IsReadWriteAllowed. apply wp_reg_bit. intros v Hv. cbn [st hist] in *.
    destruct (Hroom new Hlog Hlt) as (_ & _ & Erw). rewrite <- Hv in Erw. rewrite Erw. cbn [negb].
    destruct (lookup_lt_is_Some_2 data j) as [b Hb]; [lia|].
    apply wp_bind. unfold wp at 1. rewrite (source_step j b _ _ Hb). apply wp_ret. cbn [st hist fst snd].
    rewrite source_move, !u16_small by (unfold is_u16; lia). split; [|lia].
    exists (S j), (Wr UEDATX b :: Rd UEINTX v :: new). split_and!; [lia|repeat f_equal; lia|done| |].
    + by repeat constructor.
    + rewrite written_wr, written_rd, Hwr. symmetry. by apply take_S_r.
  - exists 0%nat, rds. rewrite Nat.sub_0_r. split_and!; [lia|done|done|by apply data_log_reads|].
    rewrite <- (app_nil_r rds), written_reads by done. done.
  - destruct Hf as [Hf|Hf]; [by left|right]. cbn [fst snd]. lia.
Qed.
End ReadyWrite.

(** The control request the stack is answering. *)
Definition asked_length {G} `{UsbState G} (w : world G) : Z := wLength (USB_ControlRequest (usb (st w))).

(** Whatever the host does, a control write of [Len] bytes of a buffer sends
    a prefix of the packets of the requested data, which is the first
    [min Len wLength] bytes of the buffer (of the reversed buffer for the BE
    function), cut into packets of 64 bytes with a short last one; it changes
    no object and reads nothing outside the buffer. *)
Theorem control_write_prefix {G} `{UsbState G} `{Avr} mem (Len : nat) p (w : world G) :
  Forall is_u8 mem -> (Len <= length mem)%nat -> Z.of_nat Len < 65536 ->
  is_u16 (asked_length w) -> counts_bytes p -> snd (packets (hist w)) = [] ->
  wp True (Endpoint_Write_Control_Stream_LE mem (Z.of_nat Len))
    (fun _ w' => exists P, stage_post w w' P /\
       P `prefix_of` usb_packets (take (min Len (Z.to_nat (asked_length w))) mem)) p w /\
  wp True (Endpoint_Write_Control_Stream_BE mem (Z.of_nat Len))
    (fun _ w' => exists P, stage_post w w' P /\
       P `prefix_of` usb_packets (take (min Len (Z.to_nat (asked_length w))) (reverse (take Len mem)))) p w.
Proof.
  intros Hm Hl Hwide Hreq Hc Ho. split.
  - by apply (control_w_partial _ _ _ mem (Source0 := source_up mem Hm)).
  - unfold Endpoint_Write_Control_Stream_BE.
    replace (Z.of_nat Len - 1) with ((fun k => Z.of_nat Len - 1 - Z.of_nat k) 0%nat) by (cbn; lia).
    apply (control_w_partial _ _ (fun k => Z.of_nat Len - 1 - Z.of_nat k) (reverse (take Len mem))
             (Source0 := source_down mem Len Hm Hl)); [done| |done|done|done].
    rewrite length_reverse, length_take. lia.
Qed.

(** C23: with a host that accepts packets and turns to the status stage on a
    short packet or on the number of bytes it asked for, a control write
    returns without error, and the packets it sent hold exactly the requested
    bytes. *)
Theorem control_write_delivers {G} `{UsbState G} `{Avr} mem (Len : nat) p (w : world G) :
  Forall is_u8 mem -> (Len <= length mem)%nat -> Z.of_nat Len < 65536 ->
  is_u16 (asked_length w) -> counts_bytes p -> snd (packets (hist w)) = [] ->
  host_accepts p (asked_length w) (hist w) -> (Len + 65 <= fuel p)%nat ->
  wp False (Endpoint_Write_Control_Stream_LE mem (Z.of_nat Len))
    (fun c w' => c = ENDPOINT_RWCSTREAM_NoError /\ exists P, stage_post w w' P /\
       concat P = take (min Len (Z.to_nat (asked_length w))) mem /\
       P `prefix_of` usb_packets (concat P)) p w.
Proof.
  intros Hm Hl Hwide Hreq Hc Ho Hh Hf. eapply wp_mono.
  - apply (control_w_total _ _ _ mem (Source0 := source_up mem Hm)); [done..|lia].
  - intros c w' (-> & P & HP & E & Hpre). split; [done|]. exists P. by rewrite E.
Qed.

(** A host for concrete runs: it accepts every packet, and its controller counts
    bytes. *)
Definition patient_host (asked : Z) (n : nat) : platform := {|
  respond h r := match r with
    | UEBCLX => Z.of_nat (length (snd (packets h)))
    | UEINTX => if host_done asked (fst (packets h)) then 5 else 1
    | V_USB_DeviceState => state_code DEVICE_STATE_Configured
    | _ => 0
    end;
  fuel := n
|}.

Lemma patient_host_counts asked n : counts_bytes (patient_host asked n).
Proof. intros h Hh. cbn [patient_host respond]. split; [|done]. apply u8_small. unfold is_u8. lia. Qed.

Lemma patient_host_accepts asked n : @host_accepts (datasheet USB_SERIES_2_AVR) (patient_host asked n) asked [].
Proof.
  intros new. cbn [patient_host respond]. rewrite app_nil_r. cbv zeta.
  destruct (host_done asked (fst (packets new)));
    (split_and!; [done..|by apply (bool_decide_unpack _)]).
Qed.

Definition request_for (len : Z) : usb_globals := UsbGlobals (Request 0x80 6 0x2200 0 len) 0 false false.

(** The report descriptor of the controller, 80 bytes, in two packets. *)
Lemma control_write_delivers_witness :
  wp False (@Endpoint_Write_Control_Stream_LE usb_globals usb_alone (datasheet USB_SERIES_2_AVR) JoystickReport 80)
    (fun c w' => c = ENDPOINT_RWCSTREAM_NoError /\ exists P,
       stage_post (World (request_for 200) []) w' P /\ concat P = JoystickReport /\
       P `prefix_of` usb_packets (concat P))
    (patient_host 200 150) (World (request_for 200) []).
Proof.
  refine (@control_write_delivers usb_globals usb_alone (datasheet USB_SERIES_2_AVR) JoystickReport 80
    (patient_host 200 150) (World (request_for 200) []) _ _ _ _ (patient_host_counts _ _) eq_refl
    (patient_host_accepts _ _) _).
  - by apply (bool_decide_unpack _).
  - by vm_compute.
  - lia.
  - unfold is_u16. cbn. lia.
  - cbn [patient_host fuel]. lia.
Defined.

Lemma control_write_prefix_witness :
  wp True (@Endpoint_Write_Control_Stream_BE usb_globals usb_alone (datasheet USB_SERIES_2_AVR) [1; 2; 3] 3)
    (fun _ w' => exists P, stage_post (World (request_for 2) []) w' P /\
       P `prefix_of` usb_packets [3; 2])
    (patient_host 2 100) (World (request_for 2) []).
Proof.
  refine (proj2 (@control_write_prefix usb_globals usb_alone (datasheet USB_SERIES_2_AVR) [1; 2; 3] 3
    (patient_host 2 100) (World (request_for 2) []) _ _ _ _ (patient_host_counts _ _) eq_refl)).
  - by apply (bool_decide_unpack _).
  - cbn; lia.
  - lia.
  - unfold is_u16. cbn. lia.
Defined.
