(* ===== verification/DeviceStandardReq.v ===== *)
(** * Standard control requests (LUFA DeviceStandardReq.c, USBTask.c)

    The task that looks for a SETUP packet on the control endpoint, the
    dispatch of standard requests and their handlers, as configured by
    LUFAConfig.h: one configuration, flash descriptors, remote wakeup, self
    power and the chip's serial number enabled. *)

From S2P Require Import Prelude StdDescriptors HIDClass Descriptors Machine UsbCore Endpoint EndpointStream.

Section Requests.
Context {G : Type} `{UsbState G} `{Avr} `{UsbApplication G}.
Variable boot_signature_byte_get : Z -> Z.

(** [while (!(Endpoint_IsINReady()));] *)
Definition await_in : M G unit :=
  while_ (fun _ : unit => r <- Endpoint_IsINReady;; if r then ret (inr tt) else ret (inl tt)) tt.

Definition USB_Device_SetAddress : M G unit :=
  r <- get_request;;
  let DeviceAddress := u8 (Z.land (wValue r) 0x7F) in
  USB_Device_SetDeviceAddress DeviceAddress;;;
  Endpoint_ClearSETUP;;;
  Endpoint_ClearStatusStage;;;
  await_in;;;
  USB_Device_EnableDeviceAddress DeviceAddress;;;
  set_DeviceState (if DeviceAddress =? 0 then DEVICE_STATE_Default else DEVICE_STATE_Addressed).

Definition USB_Device_SetConfiguration : M G unit :=
  r <- get_request;;
  if FIXED_NUM_CONFIGURATIONS <? u8 (wValue r) then ret tt else
  Endpoint_ClearSETUP;;;
  mod_usb (set_configuration (u8 (wValue r)));;;
  Endpoint_ClearStatusStage;;;
  u <- get_usb;;
  (if negb (USB_Device_ConfigurationNumber u =? 0) then set_DeviceState DEVICE_STATE_Configured
   else
     a <- USB_Device_IsAddressSet;;
     set_DeviceState (if a then DEVICE_STATE_Configured else DEVICE_STATE_Powered));;;
  EVENT_USB_Device_ConfigurationChanged.

Definition USB_Device_GetConfiguration : M G unit :=
  Endpoint_ClearSETUP;;;
  u <- get_usb;;
  Endpoint_Write_8 (USB_Device_ConfigurationNumber u);;;
  Endpoint_ClearIN;;;
  Endpoint_ClearStatusStage.

(** The signature descriptor in memory: its header, then the characters. *)
Definition signature_descriptor (UnicodeString : list Z) : list Z :=
  pack {| Header_Size := USB_STRING_LEN (INTERNAL_SERIAL_LENGTH_BITS / 4); Header_Type := dtype DTYPE_String |}
  ++ flat_map (le_bytes 2) UnicodeString.

Definition USB_Device_GetInternalSerialDescriptor : M G unit :=
  UnicodeString <- USB_Device_GetSerialString boot_signature_byte_get;;
  let SignatureDescriptor := signature_descriptor UnicodeString in
  Endpoint_ClearSETUP;;;
  Endpoint_Write_Control_Stream_LE SignatureDescriptor (Z.of_nat (length SignatureDescriptor));;;
  Endpoint_ClearOUT.

Definition USB_Device_GetDescriptor : M G unit :=
  r <- get_request;;
  if wValue r =? Z.lor (Z.shiftl (dtype DTYPE_String) 8) USE_INTERNAL_SERIAL
  then USB_Device_GetInternalSerialDescriptor else
  let '(DescriptorPointer, DescriptorSize) := GetDescriptor (wValue r) (wIndex r) in
  if DescriptorSize =? NO_DESCRIPTOR then ret tt else
  Endpoint_ClearSETUP;;;
  Endpoint_Write_Control_PStream_LE DescriptorPointer DescriptorSize;;;
  Endpoint_ClearOUT.

(** The end of [USB_Device_GetStatus], once the status is known. *)
Definition send_status (CurrentStatus : Z) : M G unit :=
  Endpoint_ClearSETUP;;;
  Endpoint_Write_16_LE CurrentStatus;;;
  Endpoint_ClearIN;;;
  Endpoint_ClearStatusStage.

Definition USB_Device_GetStatus : M G unit :=
  u <- get_usb;;
  let r := USB_ControlRequest u in
  if bmRequestType r =? reqtype REQDIR_DEVICETOHOST REQTYPE_STANDARD REQREC_DEVICE then
    send_status (Z.lor (if USB_Device_CurrentlySelfPowered u then FEATURE_SELFPOWERED_ENABLED else 0)
                       (if USB_Device_RemoteWakeupEnabled u then FEATURE_REMOTE_WAKEUP_ENABLED else 0))
  else if bmRequestType r =? reqtype REQDIR_DEVICETOHOST REQTYPE_STANDARD REQREC_ENDPOINT then
    let EndpointIndex := Z.land (u8 (wIndex r)) ENDPOINT_EPNUM_MASK in
    if ENDPOINT_TOTAL_ENDPOINTS <=? EndpointIndex then ret tt else
    Endpoint_SelectEndpoint EndpointIndex;;;
    stalled <- Endpoint_IsStalled;;
    Endpoint_SelectEndpoint ENDPOINT_CONTROLEP;;;
    send_status (if stalled then 1 else 0)
  else ret tt.

(** The halt feature of one data endpoint. *)
Definition clear_set_halt (halt : bool) (EndpointIndex : Z) : M G unit :=
  Endpoint_SelectEndpoint EndpointIndex;;;
  enabled <- Endpoint_IsEnabled;;
  when enabled
    (if halt then Endpoint_StallTransaction
     else Endpoint_ClearStall;;; Endpoint_ResetEndpoint EndpointIndex;;; Endpoint_ResetDataToggle).

(** The end of [USB_Device_ClearSetFeature]. *)
Definition feature_done : M G unit :=
  Endpoint_SelectEndpoint ENDPOINT_CONTROLEP;;;
  Endpoint_ClearSETUP;;;
  Endpoint_ClearStatusStage.

Definition USB_Device_ClearSetFeature : M G unit :=
  r <- get_request;;
  let recipient := Z.land (bmRequestType r) CONTROL_REQTYPE_RECIPIENT in
  let halt := bRequest r =? request_code REQ_SetFeature in
  if recipient =? REQREC_DEVICE then
    if u8 (wValue r) =? FEATURE_SEL_DeviceRemoteWakeup
    then mod_usb (set_remote_wakeup halt);;; feature_done
    else ret tt
  else if recipient =? REQREC_ENDPOINT then
    if u8 (wValue r) =? FEATURE_SEL_EndpointHalt then
      let EndpointIndex := Z.land (u8 (wIndex r)) ENDPOINT_EPNUM_MASK in
      if (EndpointIndex =? ENDPOINT_CONTROLEP) || (ENDPOINT_TOTAL_ENDPOINTS <=? EndpointIndex) then ret tt else
      clear_set_halt halt EndpointIndex;;; feature_done
    else feature_done
  else ret tt.

(** ** The dispatch *)

(** [n] bytes from the selected endpoint. *)
Fixpoint read_bytes (n : nat) : M G (list Z) :=
  match n with
  | O => ret []
  | S n' => b <- Endpoint_Read_8;; bs <- read_bytes n';; ret (b :: bs)
  end.

(** The request header, filled byte by byte. *)
Definition read_request : M G unit :=
  bs <- read_bytes (Z.to_nat (sizeof USB_Request_Header_t));;
  h <- mlift (unpack bs);;
  mod_usb (set_request h).

(** The [switch] over [bRequest]. *)
Definition standard_request (r : USB_Request_Header_t) : M G unit :=
  let ask dir rcp := bmRequestType r =? reqtype dir REQTYPE_STANDARD rcp in
  let b := bRequest r in
  if b =? request_code REQ_GetStatus then
    when (ask REQDIR_DEVICETOHOST REQREC_DEVICE || ask REQDIR_DEVICETOHOST REQREC_ENDPOINT) USB_Device_GetStatus
  else if (b =? request_code REQ_ClearFeature) || (b =? request_code REQ_SetFeature) then
    when (ask REQDIR_HOSTTODEVICE REQREC_DEVICE || ask REQDIR_HOSTTODEVICE REQREC_ENDPOINT) USB_Device_ClearSetFeature
  else if b =? request_code REQ_SetAddress then
    when (ask REQDIR_HOSTTODEVICE REQREC_DEVICE) USB_Device_SetAddress
  else if b =? request_code REQ_GetDescriptor then
    when (ask REQDIR_DEVICETOHOST REQREC_DEVICE || ask REQDIR_DEVICETOHOST REQREC_INTERFACE) USB_Device_GetDescriptor
  else if b =? request_code REQ_GetConfiguration then
    when (ask REQDIR_DEVICETOHOST REQREC_DEVICE) USB_Device_GetConfiguration
  else if b =? request_code REQ_SetConfiguration then
    when (ask REQDIR_HOSTTODEVICE REQREC_DEVICE) USB_Device_SetConfiguration
  else ret tt.

Definition USB_Device_ProcessControlRequest : M G unit :=
  read_request;;;
  EVENT_USB_Device_ControlRequest;;;
  setup <- Endpoint_IsSETUPReceived;;
  when setup (r <- get_request;; standard_request r);;;
  setup' <- Endpoint_IsSETUPReceived;;
  when setup' (Endpoint_ClearSETUP;;; Endpoint_StallTransaction).

(** ** USBTask.c *)

Definition USB_DeviceTask : M G unit :=
  unattached <- is_DeviceState DEVICE_STATE_Unattached;;
  if unattached then ret tt else
  PrevEndpoint <- Endpoint_GetCurrentEndpoint;;
  Endpoint_SelectEndpoint ENDPOINT_CONTROLEP;;;
  setup <- Endpoint_IsSETUPReceived;;
  when setup USB_Device_ProcessControlRequest;;;
  Endpoint_SelectEndpoint PrevEndpoint.

Definition USB_USBTask : M G unit := USB_DeviceTask.
End Requests.

(** ** What a program wrote *)

(** Register writes of a log, oldest first. *)
Definition writes (h : log) : list (reg * Z) :=
  rev (omap (fun e => match e with Wr r v => Some (r, v) | Rd _ _ => None end) h).

Lemma writes_app new h : writes (new ++ h) = writes h ++ writes new.
Proof. unfold writes. by rewrite omap_app, rev_app_distr. Qed.
Lemma writes_wr r v h : writes (Wr r v :: h) = writes h ++ [(r, v)].
Proof. done. Qed.
Lemma writes_rd r v h : writes (Rd r v :: h) = writes h.
Proof. done. Qed.
Lemma writes_reads rds : Forall is_read rds -> writes rds = [].
Proof. induction 1 as [|[r v|r v] rds Hr _ IH]; [done|by rewrite writes_rd|done]. Qed.
Arguments writes : simpl never.

(** From [w] to [w'] a program made the writes [ws] and left the objects [g]. *)
Definition did {G} (w w' : world G) (g : G) (ws : list (reg * Z)) : Prop :=
  st w' = g /\ exists new, hist w' = new ++ hist w /\ writes new = ws.

Lemma did_nothing {G} (w : world G) : did w w (st w) [].
Proof. split; [done|by exists []]. Qed.
Lemma did_trans {G} (w w1 w2 : world G) g1 g2 ws1 ws2 :
  did w w1 g1 ws1 -> did w1 w2 g2 ws2 -> did w w2 g2 (ws1 ++ ws2).
Proof.
  intros (_ & n1 & E1 & W1) (Hs & n2 & E2 & W2). split; [done|]. exists (n2 ++ n1).
  rewrite E2, E1, app_assoc. split; [done|]. by rewrite writes_app, W1, W2.
Qed.

Lemma did_log {G} (w : world G) g new : did w (World g (new ++ hist w)) g (writes new).
Proof. split; [done|]. by exists new. Qed.

Lemma did_wr {G} (w : world G) g r v : did w (World g (Wr r v :: hist w)) g [(r, v)].
Proof. apply (did_log w g [Wr r v]). Qed.
Lemma did_rw {G} (w : world G) g r u v : did w (World g (Wr r v :: Rd r u :: hist w)) g [(r, v)].
Proof. apply (did_log w g [Wr r v; Rd r u]). Qed.

Lemma did_reads {G} (w w' : world G) g ws rds :
  Forall is_read rds -> did w w' g ws -> did w (World (st w') (rds ++ hist w')) g ws.
Proof.
  intros Hr Hd. rewrite <- (app_nil_r ws), <- (writes_reads rds Hr).
  eapply did_trans; [done|]. destruct Hd as [<- _]. apply did_log.
Qed.

(** Data written to an endpoint. *)
Lemma data_log_writes new : data_log new -> writes new = (UEDATX,.) <$> written UEDATX new.
Proof.
  induction 1 as [|[r v|r v] new Hr _ IH]; [done|by rewrite writes_rd, written_rd|].
  subst r. by rewrite writes_wr, written_wr, fmap_app, IH.
Qed.

Lemma data_log_selected new h : data_log new -> selected (new ++ h) = selected h.
Proof. induction 1 as [|[r v|r v] new Hr _ IH]; [done|done|]. by subst r. Qed.

(** The configuration of the endpoints depends on the writes alone. *)
Lemma registers_of_writes h h' : writes h = writes h' ->
  selected h = selected h' /\ forall r e, banked r e h = banked r e h'.
Proof.
  assert (forall h, selected h = selected (rev ((fun x => Wr x.1 x.2) <$> writes h)) /\
    forall r e, banked r e h = banked r e (rev ((fun x => Wr x.1 x.2) <$> writes h))) as Hs.
  { clear. induction h as [|[r v|r v] h [IH1 IH2]]; [done|done|]. rewrite writes_wr, fmap_app, rev_app_distr.
    cbn [fmap list_fmap rev app fst snd]. split; [cbn; by rewrite IH1|].
    intros r' e. cbn [banked]. by rewrite IH1, IH2. }
  intros E. destruct (Hs h) as [-> H1], (Hs h') as [-> H2]. rewrite E. split; [done|].
  intros r e. by rewrite H1, H2, E.
Qed.

(** Whether the SETUP packet was acknowledged: its flag written as zero. *)
Definition acked `{Avr} (ws : list (reg * Z)) : bool :=
  existsb (fun '(r, v) => bool_decide (r = UEINTX) && negb (bit_tst v RXSTPI)) ws.

(** One SETUP packet waits at [h0]: its flag reads as set until it is
    acknowledged, and no other packet follows. *)
Definition one_setup `{Avr} (p : platform) (h0 : log) : Prop := forall new,
  bit_tst (reg_wrap UEINTX (respond p (new ++ h0) UEINTX)) RXSTPI = negb (acked (writes new)).

(** Polling sees a flag within [k] reads: reads of [r] that miss bit [b], since
    the last write. *)
Fixpoint misses (r : reg) (b : Z) (h : log) : nat :=
  match h with
  | Rd r' v :: h' => if decide (r' = r) then if bit_tst v b then 0 else S (misses r b h') else misses r b h'
  | _ => 0
  end.
Definition flag_within (k : nat) (r : reg) (b : Z) (p : platform) : Prop := forall h,
  (k <= misses r b h)%nat -> bit_tst (reg_wrap r (respond p h r)) b = true.

Section Effects.
Context {G : Type} `{UsbState G} `{AvrOk} (p : platform).
Implicit Types w : world G.

(** A flag register with the flags [cs] cleared. *)
Definition cleared (cs : list Z) (v v' : Z) : Prop :=
  forall i, 0 <= i < 8 -> bit_tst v' i = bit_tst v i && bool_decide (i ∉ cs).

Lemma clear_setup_did nf Q w :
  (forall v v' w', cleared [RXSTPI] v v' -> v = u8 (respond p (hist w) UEINTX) ->
     did w w' (st w) [(UEINTX, v')] -> Q tt w') ->
  wp nf Endpoint_ClearSETUP Q p w.
Proof.
  intros HQ. unfold Endpoint_ClearSETUP. apply wp_reg_andn. intros v Hv.
  eapply (HQ v); [|done|split; [done|by exists [Wr UEINTX (u8 (bit_clr v RXSTPI)); Rd UEINTX v]]].
  destruct flag_facts as ((_ & _ & B & _) & _). intros i Hi.
  rewrite !bit_tst_testbit, testbit_u8, <- bit_tst_testbit, bit_tst_clr, bit_tst_testbit by lia.
  destruct (Z.eqb_spec i RXSTPI) as [->|Hne]; cbn [negb].
  - rewrite andb_comm. f_equal. symmetry. apply bool_decide_false. intros Hn. apply Hn. left.
  - rewrite bool_decide_true; [by rewrite andb_comm|]. by rewrite elem_of_cons, elem_of_nil; intros [?|[]].
Qed.

Lemma clear_flags_cleared a b w : 0 <= a < 8 -> 0 <= b < 8 -> exists v v',
  clear_flags a b p w = Done tt (World (st w) (Wr UEINTX v' :: Rd UEINTX v :: hist w)) /\ cleared [a; b] v v' /\
  v = u8 (respond p (hist w) UEINTX).
Proof.
  intros Ha Hb. destruct (clear_flags_run a b p w Ha Hb) as (v & v' & Hr & Hv). exists v, v'. split; [done|].
  injection Hr as Ev' Ev. split; [|done]. intros i Hi. rewrite Hv by done. rewrite andb_comm. f_equal.
  destruct (Z.eqb_spec i a), (Z.eqb_spec i b); cbn; symmetry;
    first [apply bool_decide_true | apply bool_decide_false];
    rewrite !elem_of_cons, elem_of_nil; tauto.
Qed.
Lemma clear_flags_did nf a b Q w : 0 <= a < 8 -> 0 <= b < 8 ->
  (forall v v' w', cleared [a; b] v v' -> v = u8 (respond p (hist w) UEINTX) ->
     did w w' (st w) [(UEINTX, v')] -> Q tt w') ->
  wp nf (clear_flags a b) Q p w.
Proof.
  intros Ha Hb HQ. destruct (clear_flags_cleared a b w Ha Hb) as (v & v' & Hr & Hc & Hv).
  unfold wp. rewrite Hr. apply (HQ v v'); [done|done|]. split; [done|by exists [Wr UEINTX v'; Rd UEINTX v]].
Qed.
End Effects.

(** ** Polling *)

Section Polling.
Context {G : Type} `{UsbState G} `{AvrOk} (p : platform) (k : nat).
Implicit Types w : world G.

(** The enough-fuel condition of a poll: either running out of fuel is
    acceptable, or the flag comes within [k] reads and [k] rounds are allowed. *)
Definition poll_ends (nf : Prop) (r : reg) (b : Z) : Prop := nf \/ flag_within k r b p /\ (k < fuel p)%nat.
Definition polls_end (nf : Prop) (b : Z) : Prop := poll_ends nf UEINTX b.

Lemma misses_lt r b h v : flag_within k r b p ->
  v = reg_wrap r (respond p h r) -> bit_tst v b = false -> (misses r b h < k)%nat.
Proof.
  intros Hk -> Hb. destruct (le_lt_dec k (misses r b h)) as [Hle|]; [|done].
  apply Hk in Hle. congruence.
Qed.

(** A loop that polls a flag of a register and otherwise makes accesses [P] only. *)
Lemma wp_poll_only (P : event -> Prop) {R} nf r b (found : R) (other : M G (unit + R)) Q w :
  (forall v, P (Rd r v)) -> poll_ends nf r b ->
  (forall h, Forall P h -> wp nf other (fun y w' => exists rds, Forall P rds /\
       misses r b (rds ++ h ++ hist w) = misses r b (h ++ hist w) /\
       w' = World (st w) (rds ++ h ++ hist w) /\
       match y with inl _ => True | inr y => Q y w' end) p (World (st w) (h ++ hist w))) ->
  (forall h v, Forall P h -> bit_tst v b = true ->
     Q found (World (st w) (Rd r v :: h ++ hist w))) ->
  wp nf (while_ (fun _ : unit => f <- reg_bit r b;; if f then ret (inr found) else other) tt) Q p w.
Proof.
  intros HP Hend Hother Hfound.
  set (I := fun (_ : unit) w' => exists h, Forall P h /\ w' = World (st w) (h ++ hist w)).
  assert (forall u w', I u w' -> wp nf (f <- reg_bit r b;; if f then ret (inr found) else other)
    (fun y w2 => match y with
       | inl _ => I tt w2 /\ (flag_within k r b p ->
            (k - misses r b (hist w2) < k - misses r b (hist w'))%nat)
       | inr y => Q y w2 end) p w') as Hround.
  { intros u w' (h & Hh & ->). apply wp_bind, wp_reg_bit. intros v Hv. cbn [st hist] in *.
    destruct (bit_tst v b) eqn:Eb; [by apply wp_ret, Hfound|].
    assert (Forall P (Rd r v :: h)) as Hh' by (by constructor).
    eapply wp_mono; [apply (Hother _ Hh')|]. intros [[]|y] w2 (rds & Hrds & Hm & -> & Hq); [|done].
    split; [exists (rds ++ Rd r v :: h); split; [by apply Forall_app|by rewrite <- app_assoc]|].
    intros Hk. cbn [hist] in *. rewrite Hm. cbn [misses app]. rewrite decide_True, Eb by done.
    pose proof (misses_lt r b _ v Hk Hv Eb). lia. }
  destruct Hend as [Hnf|[Hk Hf]].
  - apply (wp_while nf p I); [done| |exists []; by destruct w].
    intros x w' HI. eapply wp_mono; [by apply (Hround x)|]. intros [[]|y] w2; [by intros [? _]|done].
  - apply (wp_while_variant nf p I (fun _ w' => k - misses r b (hist w'))%nat); [|exists []; by destruct w|lia].
    intros x w' HI. eapply wp_mono; [by apply (Hround x)|]. intros [[]|y] w2; [|done].
    intros [? Hlt]. split; [done|]. by apply Hlt.
Qed.

(** The same with nothing but reads. *)
Lemma wp_poll_loop {R} nf r b (found : R) (other : M G (unit + R)) Q w :
  poll_ends nf r b ->
  (forall h, Forall is_read h -> wp nf other (fun y w' => exists rds, Forall is_read rds /\
       misses r b (rds ++ h ++ hist w) = misses r b (h ++ hist w) /\
       w' = World (st w) (rds ++ h ++ hist w) /\
       match y with inl _ => True | inr y => Q y w' end) p (World (st w) (h ++ hist w))) ->
  (forall h v, Forall is_read h -> bit_tst v b = true ->
     Q found (World (st w) (Rd r v :: h ++ hist w))) ->
  wp nf (while_ (fun _ : unit => f <- reg_bit r b;; if f then ret (inr found) else other) tt) Q p w.
Proof. by apply (wp_poll_only is_read). Qed.

Lemma await_in_did nf Q w : polls_end nf TXINI ->
  (forall w', did w w' (st w) [] -> Q tt w') -> wp nf await_in Q p w.
Proof.
  intros Hend HQ. unfold await_in, Endpoint_IsINReady.
  apply (wp_poll_loop nf UEINTX TXINI tt (ret (inl tt))); [done| |].
  - intros h Hh. apply wp_ret. by exists [].
  - intros h v Hh _. apply HQ, (did_reads w w (st w) [] (Rd UEINTX v :: h)); [by constructor|].
    split; [done|by exists []].
Qed.

(** The device state never reads as unattached. *)
Definition attached : Prop := forall h,
  reg_wrap V_USB_DeviceState (respond p h V_USB_DeviceState) <> state_code DEVICE_STATE_Unattached.

(** What a program that only polls a flag and the device state has read. *)
Definition polling (e : event) : Prop :=
  match e with Rd r _ => r = UEINTX \/ r = V_USB_DeviceState | Wr _ _ => False end.

(** An attached device waits for the flag, and goes on. *)
Lemma wp_status_wait nf a m Q w : attached -> polls_end nf a ->
  (forall h, Forall polling h -> wp nf m Q p (World (st w) (h ++ hist w))) ->
  wp nf (status_wait (reg_bit UEINTX a) m) Q p w.
Proof.
  intros Hatt Hend HQ. unfold status_wait. apply wp_bind. apply (wp_poll_only polling nf UEINTX a true); [by left|done| |].
  - intros h Hh. unfold is_DeviceState. apply wp_bind, wp_bind, wp_rd. intros s Hs. cbn [st hist] in *.
    apply wp_ret, wp_ret. exists [Rd V_USB_DeviceState s]. split_and!; [constructor; [by right|done]|done|done|].
    destruct (Z.eqb_spec s (state_code DEVICE_STATE_Unattached)) as [->|_]; [|done]. by destruct (Hatt (h ++ hist w)).
  - intros h v Hh Hb. apply (HQ (Rd UEINTX v :: h)). constructor; [by left|done].
Qed.

(** The writes of a status stage: the acknowledgement of the flag [a], or none
    when the device was found unattached. *)
Definition status_writes (a : Z) (ss : list (reg * Z)) : Prop :=
  (ss = [] /\ ~ attached) \/ exists v v', cleared [a; FIFOCON] v v' /\ ss = [(UEINTX, v')].

Lemma status_wait_did nf a Q w : 0 <= a < 8 -> polls_end nf a ->
  (forall ss w', status_writes a ss -> did w w' (st w) ss -> Q tt w') ->
  wp nf (status_wait (reg_bit UEINTX a) (clear_flags a FIFOCON)) Q p w.
Proof.
  intros Ha Hend HQ. unfold status_wait. apply wp_bind.
  destruct flag_facts as ((_ & _ & _ & HF) & _).
  assert (forall h, Forall is_read h -> did w (World (st w) (h ++ hist w)) (st w) []) as Hreads.
  { intros h Hh. apply (did_reads w w); [done|]. split; [done|by exists []]. }
  apply (wp_poll_loop nf UEINTX a true); [done| |].
  - intros h Hh. unfold is_DeviceState. apply wp_bind, wp_bind, wp_rd. intros s Hs. cbn [st hist] in *.
    apply wp_ret, wp_ret. exists [Rd V_USB_DeviceState s]. split_and!; [by repeat constructor|done|done|].
    destruct (Z.eqb_spec s (state_code DEVICE_STATE_Unattached)) as [->|_]; [|done].
    apply wp_ret, (HQ []); [|apply (Hreads (_ :: h)); by constructor].
    left. split; [done|]. intros Hatt. by apply (Hatt (h ++ hist w)).
  - intros h v Hh Hb. apply clear_flags_did; [done|done|]. intros v1 v2 w' Hc _ Hd. cbn [st] in Hd.
    apply (HQ [(UEINTX, v2)]); [by right; exists v1, v2|].
    eapply (did_trans _ _ _ _ _ []); [|exact Hd]. apply (Hreads (_ :: h)). by constructor.
Qed.

(** The direction of the request decides whose turn it is. *)
Definition status_flag (r : USB_Request_Header_t) : Z :=
  if Z.land (bmRequestType r) REQDIR_DEVICETOHOST =? 0 then TXINI else RXOUTI.

Lemma status_stage_did nf Q w :
  let a := status_flag (USB_ControlRequest (usb (st w))) in
  polls_end nf a ->
  (forall ss w', status_writes a ss -> did w w' (st w) ss -> Q tt w') ->
  wp nf Endpoint_ClearStatusStage Q p w.
Proof.
  intros a Hend HQ. unfold Endpoint_ClearStatusStage, get_request, get_usb.
  apply wp_bind, wp_bind, wp_bind, wp_get, wp_ret, wp_ret.
  destruct flag_facts as ((B1 & B2 & _) & _). unfold a, status_flag in *.
  destruct (Z.land _ _ =? 0); cbn [negb]; by apply status_wait_did.
Qed.
End Polling.

(** ** The request of a SETUP packet *)

(** The next [n] bytes the data register delivers after [h], and the log then. *)
Fixpoint incoming (p : platform) (n : nat) (h : log) : list Z * log :=
  match n with
  | O => ([], h)
  | S n' => let b := u8 (respond p h UEDATX) in
            let '(bs, h') := incoming p n' (Rd UEDATX b :: h) in (b :: bs, h')
  end.

Lemma incoming_facts p n h : let '(bs, h') := incoming p n h in
  length bs = n /\ Forall is_u8 bs /\ exists rds, h' = rds ++ h /\ Forall is_read rds.
Proof.
  revert h. induction n as [|n IH]; intros h; cbn [incoming].
  - split_and!; [done|done|by exists []].
  - specialize (IH (Rd UEDATX (u8 (respond p h UEDATX)) :: h)).
    destruct (incoming p n _) as [bs h']. destruct IH as (Hl & Hb & rds & -> & Hr).
    split_and!; [cbn; by rewrite Hl|constructor; [apply u8_range|done]|].
    exists (rds ++ [Rd UEDATX (u8 (respond p h UEDATX))]). rewrite <- app_assoc. split; [done|].
    apply Forall_app. split; [done|by repeat constructor].
Qed.

(** The packet waiting at [h] holds request [r]. *)
Definition setup_at (p : platform) (h : log) (r : USB_Request_Header_t) : Prop :=
  fst (incoming p 8 h) = pack r /\ in_range r.

Lemma setup_exists p h : exists r, setup_at p h r.
Proof.
  pose proof (incoming_facts p 8 h) as Hf. destruct (incoming p 8 h) as [bs h'] eqn:E.
  destruct Hf as (Hl & Hb & _). destruct (pack_unpack (A := USB_Request_Header_t) bs Hb) as (r & _ & Hp & Hr).
  { rewrite Hl. by vm_compute. }
  exists r. unfold setup_at. rewrite E. cbn [fst]. rewrite Hp, take_ge; [done|]. rewrite Hl. by vm_compute.
Qed.

Section Process.
Context {G : Type} `{UsbStateOk G} `{AvrOk} `{!UsbApplication G} `{!UsbApplicationOk G}.
Variable boot_signature_byte_get : Z -> Z.
Context (p : platform).
Implicit Types w : world G.
Local Abbreviation process := (USB_Device_ProcessControlRequest boot_signature_byte_get).
Local Abbreviation standard := (standard_request boot_signature_byte_get).

Lemma read_bytes_run n w : read_bytes n p w =
  Done (fst (incoming p n (hist w))) (World (st w) (snd (incoming p n (hist w)))).
Proof.
  revert w. induction n as [|n IH]; intros w; cbn [read_bytes incoming].
  - by destruct w.
  - unfold bind at 1, Endpoint_Read_8, rd. cbn [reg_wrap]. unfold bind. rewrite IH. cbn [hist st].
    by destruct (incoming p n _).
Qed.

(** The objects with request [r] in place. *)
Definition with_request (r : USB_Request_Header_t) w : G := put_usb (set_request r (usb (st w))) (st w).

Lemma with_request_usb r w : usb (with_request r w) = set_request r (usb (st w)).
Proof. apply usb_put. Qed.

Lemma wp_read_request nf r Q w : setup_at p (hist w) r ->
  (forall w', did w w' (with_request r w) [] -> Q tt w') -> wp nf read_request Q p w.
Proof.
  intros [Hb Hr] HQ. unfold read_request. apply wp_bind. unfold wp at 1.
  change (Z.to_nat (sizeof USB_Request_Header_t)) with 8%nat. rewrite read_bytes_run, Hb.
  apply wp_bind, (wp_lift _ _ _ r).
  { rewrite <- (app_nil_r (pack r)). by apply unpack_pack. }
  apply wp_modify. cbn [st hist]. apply HQ. split; [done|]. cbn [hist].
  pose proof (incoming_facts p 8 (hist w)) as Hf. destruct (incoming p 8 (hist w)) as [bs h'].
  destruct Hf as (_ & _ & rds & -> & Hrds). exists rds. split; [done|by apply writes_reads].
Qed.

(** The flag of the SETUP packet, polled after the writes [ws]. *)
Lemma wp_setup_flag nf Q w w1 g ws : one_setup p (hist w) -> did w w1 g ws ->
  (forall w2, did w w2 g ws -> Q (negb (acked ws)) w2) -> wp nf Endpoint_IsSETUPReceived Q p w1.
Proof.
  intros Hone (<- & new & Hh & Hw) HQ. unfold Endpoint_IsSETUPReceived. apply wp_reg_bit. intros v Hv.
  rewrite Hh in Hv. rewrite Hv, Hone, Hw. apply HQ. rewrite <- Hv. split; [done|]. exists (Rd UEINTX v :: new).
  by rewrite Hh, writes_rd.
Qed.

Lemma wp_get_request nf Q w : Q (USB_ControlRequest (usb (st w))) w -> wp nf get_request Q p w.
Proof. intros HQ. unfold get_request, get_usb. by apply wp_bind, wp_bind, wp_get, wp_ret, wp_ret. Qed.
Lemma wp_get_usb nf Q w : Q (usb (st w)) w -> wp nf get_usb Q p w.
Proof. intros HQ. unfold get_usb. by apply wp_bind, wp_get, wp_ret. Qed.

(** The writes that refuse a request. *)
Definition refused (ws : list (reg * Z)) : Prop := exists v v' c,
  cleared [RXSTPI] v v' /\ bit_tst c STALLRQ = true /\ ws = [(UEINTX, v'); (UECONX, c)].

Lemma ueconx_bit : 0 <= STALLRQ < 8.
Proof. pose proof ueconx_bits as Hb. rewrite !Forall_cons_iff in Hb. tauto. Qed.

(** A standard request is left to its handler, and refused if the handler did
    not acknowledge it. *)
Lemma wp_process nf r Q w : one_setup p (hist w) -> setup_at p (hist w) r -> is_standard r = true ->
  (forall w1, did w w1 (with_request r w) [] ->
     wp nf (standard r) (fun _ w2 => exists g ws, did w w2 g ws /\
       if acked ws then forall w', did w w' g ws -> Q tt w'
       else forall fs w', refused fs -> did w w' g (ws ++ fs) -> Q tt w') p w1) ->
  wp nf process Q p w.
Proof.
  intros Hone Hat Hstd Hhandler. unfold USB_Device_ProcessControlRequest.
  apply wp_bind, (wp_read_request nf r); [done|]. intros w1 Hd1.
  assert (USB_ControlRequest (usb (st w1)) = r) as Er by (destruct Hd1 as [-> _]; by rewrite with_request_usb).
  apply wp_bind. unfold wp at 1. rewrite app_ignores_standard by (by rewrite Er).
  apply wp_bind. eapply wp_setup_flag; [done..|]. intros w2 Hd2. change (negb (acked [])) with true.
  assert (USB_ControlRequest (usb (st w2)) = r) as Er2 by (destruct Hd2 as [-> _]; by rewrite with_request_usb).
  apply wp_bind, wp_when; [intros _|done]. apply wp_bind, wp_get_request. rewrite Er2.
  eapply wp_mono; [by apply Hhandler|]. clear w1 w2 Er Er2 Hd1 Hd2.
  intros [] w2 (g & ws & Hd & Hq). apply wp_bind. eapply wp_setup_flag; [done..|]. intros w3 Hd3.
  destruct (acked ws) eqn:Ea; apply wp_when; try done; intros _.
  - by apply Hq.
  - apply wp_bind, clear_setup_did. intros v v' w4 Hc _ Hd4. unfold Endpoint_StallTransaction.
    apply wp_reg_or. intros c _. pose proof ueconx_bit as Hs.
    eapply Hq; [exists v, v', (u8 (bit_set c STALLRQ)); split_and!; [done| |reflexivity]|].
    + rewrite bit_tst_testbit, testbit_u8, <- bit_tst_testbit, bit_tst_set, Z.eqb_refl by lia. done.
    + pose proof Hd3 as [E3 _]. pose proof Hd4 as [E4 _]. rewrite E4, E3.
      eapply did_trans; [exact Hd3|]. eapply (did_trans _ _ _ _ _ [_] [_]); [exact Hd4|].
      cbn [reg_wrap]. apply (did_log w4 g [Wr UECONX _; Rd UECONX c]).
Qed.

(** ** Requests the stack refuses *)

Definition endpoint_index (r : USB_Request_Header_t) : Z := Z.land (u8 (wIndex r)) ENDPOINT_EPNUM_MASK.

(** The standard requests the stack serves, from the USB specification's table
    of requests: by code, request type, and the values it can act upon. *)
Definition supported (r : USB_Request_Header_t) : bool :=
  let to_device := bmRequestType r =? 0x00 in
  let to_endpoint := bmRequestType r =? 0x02 in
  let from_device := bmRequestType r =? 0x80 in
  let from_interface := bmRequestType r =? 0x81 in
  let from_endpoint := bmRequestType r =? 0x82 in
  let e := endpoint_index r in
  match bRequest r with
  | 0 => from_device || from_endpoint && (e <? ENDPOINT_TOTAL_ENDPOINTS)
  | 1 | 3 => to_device && (u8 (wValue r) =? 1)
             || to_endpoint && (negb (u8 (wValue r) =? 0) || (0 <? e) && (e <? ENDPOINT_TOTAL_ENDPOINTS))
  | 5 => to_device
  | 6 => (from_device || from_interface)
         && ((wValue r =? 0x03DC) || negb (snd (GetDescriptor (wValue r) (wIndex r)) =? 0))
  | 8 => from_device
  | 9 => to_device && (u8 (wValue r) <=? 1)
  | _ => false
  end.

Lemma endpoint_index_range r : 0 <= endpoint_index r < 16.
Proof.
  unfold endpoint_index, ENDPOINT_EPNUM_MASK. change 15 with (Z.ones 4).
  rewrite Z.land_ones by lia. apply Z.mod_pos_bound. lia.
Qed.

Lemma standard_ends {A} nf (Q : A -> world G -> Prop) (a : A) w b (m : M G A) :
  b = true -> Q a w -> wp nf (if b then ret a else m) Q p w.
Proof. by intros ->. Qed.

(** Each handler returns without an access when it cannot serve its request. *)
Lemma get_status_refuses nf r Q w : USB_ControlRequest (usb (st w)) = r ->
  (bmRequestType r =? 128) || (bmRequestType r =? 130) && (endpoint_index r <? ENDPOINT_TOTAL_ENDPOINTS) = false ->
  Q tt w -> wp nf USB_Device_GetStatus Q p w.
Proof.
  intros Er Hs HQ. apply orb_false_iff in Hs as [H80 H82]. unfold USB_Device_GetStatus.
  apply wp_bind, wp_get_usb. rewrite Er. fold (endpoint_index r).
  change (reqtype _ _ REQREC_DEVICE) with 128. change (reqtype _ _ REQREC_ENDPOINT) with 130.
  cbv zeta. rewrite H80. destruct (bmRequestType r =? 130); [|done]. apply standard_ends; [cbn in H82; lia|done].
Qed.

Lemma feature_refuses nf r Q w : USB_ControlRequest (usb (st w)) = r ->
  (bmRequestType r =? 0) || (bmRequestType r =? 2) = true ->
  (bmRequestType r =? 0) && (u8 (wValue r) =? 1)
  || (bmRequestType r =? 2) && (negb (u8 (wValue r) =? 0)
     || (0 <? endpoint_index r) && (endpoint_index r <? ENDPOINT_TOTAL_ENDPOINTS)) = false ->
  Q tt w -> wp nf USB_Device_ClearSetFeature Q p w.
Proof.
  intros Er Hc Hs HQ. pose proof (endpoint_index_range r) as He.
  unfold USB_Device_ClearSetFeature. apply wp_bind, wp_get_request. rewrite Er.
  fold (endpoint_index r). unfold FEATURE_SEL_DeviceRemoteWakeup, FEATURE_SEL_EndpointHalt.
  apply orb_true_iff in Hc as [E|E]; apply Z.eqb_eq in E; rewrite E in *.
  - change (Z.land 0 CONTROL_REQTYPE_RECIPIENT =? REQREC_DEVICE) with true. cbv iota zeta.
    change (0 =? 0) with true in Hs. change (0 =? 2) with false in Hs. cbn [andb orb] in Hs.
    rewrite orb_false_r in Hs. by rewrite Hs.
  - change (Z.land 2 CONTROL_REQTYPE_RECIPIENT =? REQREC_DEVICE) with false.
    change (Z.land 2 CONTROL_REQTYPE_RECIPIENT =? REQREC_ENDPOINT) with true. cbv iota zeta.
    change (2 =? 0) with false in Hs. change (2 =? 2) with true in Hs. cbn [andb orb] in Hs.
    apply orb_false_iff in Hs as [Hz Hi]. apply negb_false_iff in Hz. rewrite Hz.
    apply standard_ends; [unfold ENDPOINT_CONTROLEP; lia|done].
Qed.

Lemma get_descriptor_refuses nf r Q w : USB_ControlRequest (usb (st w)) = r ->
  (wValue r =? 0x03DC) || negb (snd (GetDescriptor (wValue r) (wIndex r)) =? 0) = false ->
  Q tt w -> wp nf (USB_Device_GetDescriptor boot_signature_byte_get) Q p w.
Proof.
  intros Er Hs HQ. apply orb_false_iff in Hs as [Hv Hz]. apply negb_false_iff in Hz.
  unfold USB_Device_GetDescriptor. apply wp_bind, wp_get_request. rewrite Er.
  change (Z.lor _ _) with 0x03DC. rewrite Hv. destruct (GetDescriptor _ _) as [mem size].
  cbn [snd] in Hz. change NO_DESCRIPTOR with 0. by rewrite Hz.
Qed.

Lemma unsupported_no_access nf r Q w : USB_ControlRequest (usb (st w)) = r -> supported r = false ->
  Q tt w -> wp nf (standard r) Q p w.
Proof.
  intros Er Hs HQ. unfold standard_request. cbv zeta.
  unfold supported in Hs. cbv zeta in Hs. cbn [request_code].
  change (reqtype REQDIR_DEVICETOHOST REQTYPE_STANDARD REQREC_DEVICE) with 128.
  change (reqtype REQDIR_DEVICETOHOST REQTYPE_STANDARD REQREC_INTERFACE) with 129.
  change (reqtype REQDIR_DEVICETOHOST REQTYPE_STANDARD REQREC_ENDPOINT) with 130.
  change (reqtype REQDIR_HOSTTODEVICE REQTYPE_STANDARD REQREC_DEVICE) with 0.
  change (reqtype REQDIR_HOSTTODEVICE REQTYPE_STANDARD REQREC_ENDPOINT) with 2.
  destruct (Z.eqb_spec (bRequest r) 0) as [Eb|_].
  { rewrite Eb in Hs. apply wp_when; [intros Hc|done]. by apply (get_status_refuses _ r). }
  destruct ((bRequest r =? 1) || (bRequest r =? 3)) eqn:E13.
  { apply wp_when; [intros Hc|done]. apply (feature_refuses _ r); [done..| |done].
    by apply orb_true_iff in E13 as [E|E]; apply Z.eqb_eq in E; rewrite E in Hs. }
  destruct (Z.eqb_spec (bRequest r) 5) as [Eb|_].
  { rewrite Eb in Hs. apply wp_when; [congruence|done]. }
  destruct (Z.eqb_spec (bRequest r) 6) as [Eb|_].
  { rewrite Eb in Hs. apply wp_when; [intros Hc|done]. rewrite Hc in Hs. by apply (get_descriptor_refuses _ r). }
  destruct (Z.eqb_spec (bRequest r) 8) as [Eb|_].
  { rewrite Eb in Hs. apply wp_when; [congruence|done]. }
  destruct (Z.eqb_spec (bRequest r) 9) as [Eb|_]; [|done].
  rewrite Eb in Hs. apply wp_when; [intros Hc|done]. rewrite Hc in Hs.
  unfold USB_Device_SetConfiguration. apply wp_bind, wp_get_request. rewrite Er.
  apply standard_ends; [unfold FIXED_NUM_CONFIGURATIONS; cbn [andb] in Hs; lia|done].
Qed.

(** A standard request the stack does not serve (an unknown request or
    request type, a configuration, descriptor, feature or endpoint that does
    not exist) is refused: the handling always ends, the only writes are the
    acknowledgement of the SETUP packet, which leaves every other flag of the
    endpoint as it was read, followed by a stall request, and no object changes
    but the copy of the request. *)
Theorem unsupported_requests_stall r w :
  one_setup p (hist w) -> setup_at p (hist w) r -> is_standard r = true -> supported r = false ->
  wp False process (fun _ w' => exists fs, refused fs /\ did w w' (with_request r w) fs) p w.
Proof.
  intros Hone Hat Hstd Hs. apply (wp_process False r); [done..|]. intros w1 Hd.
  apply unsupported_no_access; [|done|].
  - destruct Hd as [-> _]. by rewrite with_request_usb.
  - exists (with_request r w), []. split; [done|]. intros fs w' Hf Hd'. by exists fs.
Qed.

(** ** Setting the address *)

(** The value a register was last written, [d] if never. *)
Definition last_value (r : reg) (ws : list (reg * Z)) (d : Z) : Z :=
  fold_left (fun a '(r', v) => if decide (r' = r) then v else a) ws d.

(** A register that reads back the last value written; [d] is its reset value. *)
Definition reads_back (r : reg) (d : Z) : Prop := forall h,
  reg_wrap r (respond p h r) = reg_wrap r (last_value r (writes h) d).

Lemma acked_cleared cs v v' ws1 ws2 : cleared cs v v' -> RXSTPI ∈ cs ->
  acked (ws1 ++ (UEINTX, v') :: ws2) = true.
Proof.
  intros Hc Hin. unfold acked. apply existsb_exists. exists (UEINTX, v'). split.
  - apply in_or_app. right. by left.
  - destruct flag_facts as ((_ & _ & B & _) & _). rewrite bool_decide_true, (Hc RXSTPI) by done.
    rewrite (bool_decide_false (RXSTPI ∉ cs)) by (intros Hn; by apply Hn). by rewrite andb_false_r.
Qed.

(** The address register: bit 7 enables, the rest is the address. *)
Lemma address_bits v a : is_u8 v -> 0 <= a < 128 ->
  let x := (if bit_tst v 7 then 128 else 0) + a in
  u8 (Z.lor (Z.land v (Z.shiftl 1 7)) (Z.land a 0x7F)) = x /\ u8 (bit_set x 7) = 128 + a.
Proof.
  intros Hv Ha. cbv zeta.
  assert (forallb (fun v => forallb (fun a =>
    (u8 (Z.lor (Z.land v (Z.shiftl 1 7)) (Z.land a 0x7F)) =? (if bit_tst v 7 then 128 else 0) + a) &&
    (u8 (bit_set ((if bit_tst v 7 then 128 else 0) + a) 7) =? 128 + a)) (Z.of_nat <$> seq 0 128))
    (Z.of_nat <$> seq 0 256) = true) as Hall by (vm_compute; reflexivity).
  pose proof (forallb_range _ 128 (forallb_range _ 256 Hall v Hv) a Ha) as Hone. cbv beta in Hone. apply andb_true_iff in Hone as [E1 E2].
  apply Z.eqb_eq in E1. apply Z.eqb_eq in E2. exact (conj E1 E2).
Qed.

Lemma address_range r : 0 <= u8 (Z.land (wValue r) 0x7F) < 128.
Proof.
  change 0x7F%Z with (Z.ones 7). rewrite Z.land_ones by lia. pose proof (Z.mod_pos_bound (wValue r) (2 ^ 7)).
  rewrite u8_small by (unfold is_u8; lia). lia.
Qed.

(** What [USB_Device_SetAddress] writes for address [a], when the address
    register held [v0]. *)
Definition address_writes (v0 a : Z) (ws : list (reg * Z)) : Prop := exists v v' ss,
  cleared [RXSTPI] v v' /\ status_writes p TXINI ss /\
  ws = [(UDADDR, (if bit_tst v0 7 then 128 else 0) + a); (UEINTX, v')] ++ ss ++
       [(UDADDR, 128 + a);
        (V_USB_DeviceState, state_code (if a =? 0 then DEVICE_STATE_Default else DEVICE_STATE_Addressed))].

Lemma last_value_status a ss ws d : status_writes p a ss -> last_value UDADDR (ws ++ ss) d = last_value UDADDR ws d.
Proof.
  unfold last_value. rewrite fold_left_app. by intros [[-> _]|(v & v' & _ & ->)].
Qed.

Lemma set_address_did k nf d Q w :
  reads_back UDADDR d -> polls_end p k nf TXINI ->
  let r := USB_ControlRequest (usb (st w)) in
  status_flag r = TXINI ->
  (forall ws w', address_writes (u8 (last_value UDADDR (writes (hist w)) d)) (u8 (Z.land (wValue r) 0x7F)) ws ->
     did w w' (st w) ws -> Q tt w') ->
  wp nf USB_Device_SetAddress Q p w.
Proof.
  intros Hrb Hend r Hdir HQ. unfold USB_Device_SetAddress. apply wp_bind, wp_get_request. fold r.
  set (a := u8 (Z.land (wValue r) 0x7F)) in *. cbv zeta. pose proof (address_range r) as Ha. fold a in Ha.
  unfold USB_Device_SetDeviceAddress. apply wp_bind, wp_bind, wp_rd. intros v0 Hv0. apply wp_wr. cbn [st hist].
  cbn [reg_wrap] in *. assert (is_u8 v0) as Hu0 by (subst; apply u8_range).
  rewrite udaddr_bits. destruct (address_bits v0 a Hu0 Ha) as [-> Hset].
  pose proof (did_rw w (st w) UDADDR v0 ((if bit_tst v0 7 then 128 else 0) + a)) as D0.
  revert D0. generalize (World (st w) (Wr UDADDR ((if bit_tst v0 7 then 128 else 0) + a) :: Rd UDADDR v0 :: hist w)).
  intros w0 D0. apply wp_bind, clear_setup_did. intros v v' w1 Hc _ D1. pose proof D0 as [S0 _].
  rewrite S0 in D1. pose proof D1 as [S1 _].
  apply wp_bind, (status_stage_did p k); rewrite S1; fold r; rewrite Hdir; [done|].
  intros ss w2 Hss D2. pose proof D2 as [S2 _].
  apply wp_bind, (await_in_did p k); [done|]. intros w3 D3. rewrite S2 in D3.
  apply wp_bind. unfold USB_Device_EnableDeviceAddress, set_DeviceState. apply wp_reg_or. intros x Hx. apply wp_wr.
  pose proof (did_trans _ _ _ _ _ _ _ (did_trans _ _ _ _ _ _ _ (did_trans _ _ _ _ _ _ _ D0 D1) D2) D3) as D.
  rewrite app_nil_r in D.
  assert (x = (if bit_tst v0 7 then 128 else 0) + a) as ->.
  { rewrite Hx. pose proof D as (_ & new & Hh & Hw). rewrite Hrb, Hh, writes_app, Hw, app_assoc.
    rewrite (last_value_status _ _ _ _ Hss). unfold last_value. rewrite !fold_left_app. cbn -[u8].
    apply u8_small. unfold is_u8. destruct (bit_tst v0 7); lia. }
  cbn [reg_wrap st hist]. rewrite udaddr_bits, Hset. pose proof D as [S3 _]. rewrite S3.
  pose proof (did_trans _ _ _ _ _ _ _ D (did_trans _ _ _ _ _ _ _
    (did_rw w3 (st w) UDADDR ((if bit_tst v0 7 then 128 else 0) + a) (128 + a))
    (did_wr _ (st w) V_USB_DeviceState
       (u8 (state_code (if a =? 0 then DEVICE_STATE_Default else DEVICE_STATE_Addressed)))))) as DD.
  rewrite <- app_assoc in DD. eapply HQ; [|exact DD].
  exists v, v', ss. split_and!; [done|done|].
  change (u8 (last_value UDADDR (writes (hist w)) d)) with (reg_wrap UDADDR (last_value UDADDR (writes (hist w)) d)).
  rewrite <- (Hrb (hist w)). cbn [reg_wrap]. rewrite <- Hv0. by destruct (a =? 0).
Qed.

(** [SET_ADDRESS] takes the address from the low seven bits of [wValue] and
    puts it into the address register at once, but enables it only after the
    status stage has been acknowledged and the controller has sent it, so that
    the status stage still uses the old address; then the device state becomes
    Addressed, or Default for address 0.  The handling ends whenever the host
    lets the endpoint become ready within [k] polls. *)
Theorem set_address_protocol k d v i len w :
  let r := Request 0 5 v i len in
  one_setup p (hist w) -> setup_at p (hist w) r -> reads_back UDADDR d ->
  flag_within k UEINTX TXINI p -> (k < fuel p)%nat ->
  wp False process (fun _ w' => exists ws,
    address_writes (u8 (last_value UDADDR (writes (hist w)) d)) (u8 (Z.land v 0x7F)) ws /\
    did w w' (with_request r w) ws) p w.
Proof.
  intros r Hone Hat Hrb Hfl Hf. apply (wp_process False r); [done..|]. intros w1 Hd1.
  pose proof Hd1 as (S1 & new & Hh & Hw).
  assert (USB_ControlRequest (usb (st w1)) = r) as Er by (rewrite S1; by rewrite with_request_usb).
  apply (set_address_did k _ d); [done|by right|by rewrite Er|]. rewrite Er, Hh, writes_app, Hw, app_nil_r.
  intros ws w2 Hws Hd2. rewrite S1 in Hd2. exists (with_request r w), ws.
  pose proof (did_trans _ _ _ _ _ _ _ Hd1 Hd2) as Hd. split; [done|].
  assert (acked ws = true) as ->.
  { destruct Hws as (u & u' & ss & Hc & _ & ->). apply (acked_cleared [RXSTPI] u u' [_]); [done|left]. }
  intros w' Hd'. by exists ws.
Qed.

(** ** Setting the configuration *)

(** The device state after [SET_CONFIGURATION] of [n], given whether an address
    is enabled. *)
Definition configuration_state (n : Z) (addressed : bool) : USB_Device_States_t :=
  if negb (n =? 0) then DEVICE_STATE_Configured
  else if addressed then DEVICE_STATE_Configured else DEVICE_STATE_Powered.

Definition configuration_writes (n : Z) (addressed : bool) (ws : list (reg * Z)) : Prop := exists v v' ss,
  cleared [RXSTPI] v v' /\ status_writes p TXINI ss /\
  ws = [(UEINTX, v')] ++ ss ++ [(V_USB_DeviceState, state_code (configuration_state n addressed))].

(** The objects with configuration [n] selected. *)
Definition with_configuration (n : Z) (g : G) : G := put_usb (set_configuration n (usb g)) g.

Lemma set_configuration_did k nf d Q w :
  let r := USB_ControlRequest (usb (st w)) in
  let n := u8 (wValue r) in
  let addressed := bit_tst (last_value UDADDR (writes (hist w)) d) 7 in
  reads_back UDADDR d ->
  polls_end p k nf TXINI -> status_flag r = TXINI -> n <= 1 ->
  (forall ws w1, configuration_writes n addressed ws -> did w w1 (with_configuration n (st w)) ws ->
     wp nf EVENT_USB_Device_ConfigurationChanged Q p w1) ->
  wp nf USB_Device_SetConfiguration Q p w.
Proof.
  intros r n addressed Hrb Hend Hdir Hn HQ. unfold USB_Device_SetConfiguration. apply wp_bind, wp_get_request. fold r n.
  replace (FIXED_NUM_CONFIGURATIONS <? n) with false by (unfold FIXED_NUM_CONFIGURATIONS; lia).
  apply wp_bind, clear_setup_did. intros v v' w1 Hc _ D1. pose proof D1 as [S1 _].
  apply wp_bind. unfold mod_usb. apply wp_modify. rewrite S1. fold (with_configuration n (st w)).
  assert (did w (World (with_configuration n (st w)) (hist w1)) (with_configuration n (st w)) [(UEINTX, v')]) as D1'
    by (split; [done|apply D1]).
  clear D1 S1. generalize dependent (World (with_configuration n (st w)) (hist w1)). intros w1' D1.
  pose proof D1 as [S1 _]. apply wp_bind, (status_stage_did p k); rewrite S1; unfold with_configuration;
    rewrite usb_put; cbn [set_configuration USB_ControlRequest]; fold r; rewrite Hdir; [done|].
  fold (with_configuration n (st w)). intros ss w2 Hss D2. pose proof D2 as [S2 _].
  pose proof (did_trans _ _ _ _ _ _ _ D1 D2) as D. apply wp_bind, wp_get_usb. rewrite S2.
  unfold with_configuration at 1. rewrite usb_put. cbn [set_configuration USB_Device_ConfigurationNumber].
  assert (forall rds, Forall is_read rds -> wp nf EVENT_USB_Device_ConfigurationChanged Q p
    (World (st w2) (Wr V_USB_DeviceState (state_code (configuration_state n addressed)) :: rds ++ hist w2))) as Hlast.
  { intros rds Hr. eapply (HQ (([(UEINTX, v')] ++ ss) ++ [(V_USB_DeviceState, _)])).
    - exists v, v', ss. split_and!; [done|done|]. by rewrite <- app_assoc.
    - pose proof (did_reads _ _ _ _ rds Hr D) as Dr. rewrite S2 in Dr |- *.
      eapply did_trans; [exact Dr|]. apply (did_wr (World (with_configuration n (st w)) (rds ++ hist w2))). }
  unfold configuration_state in Hlast. apply wp_bind. destruct (n =? 0); cbn [negb] in *.
  - unfold USB_Device_IsAddressSet. apply wp_bind, wp_reg_bit. intros a Ha. unfold set_DeviceState. apply wp_wr.
    assert (bit_tst a ADDEN = addressed) as ->.
    { rewrite Ha, Hrb. destruct D as (_ & new & -> & Hw). rewrite writes_app, Hw, app_assoc.
      rewrite (last_value_status _ _ _ _ Hss), udaddr_bits. unfold last_value. rewrite fold_left_app.
      cbn [reg_wrap]. rewrite bit_tst_testbit, testbit_u8, <- bit_tst_testbit by lia. done. }
    specialize (Hlast [Rd UDADDR a] ltac:(by repeat constructor)). by destruct addressed.
  - unfold set_DeviceState. apply wp_wr. by apply (Hlast []).
Qed.

(** A request that selects a configuration: the event of the application runs
    last, and any objects and writes it leaves are the final ones. *)
Lemma wp_process_configuration k nf d v i len Q w :
  let r := Request 0 9 v i len in
  let g := with_configuration (u8 v) (with_request r w) in
  one_setup p (hist w) -> setup_at p (hist w) r -> reads_back UDADDR d -> polls_end p k nf TXINI -> u8 v <= 1 ->
  (forall ws w1, configuration_writes (u8 v) (bit_tst (last_value UDADDR (writes (hist w)) d) 7) ws ->
     did w w1 g ws ->
     wp nf EVENT_USB_Device_ConfigurationChanged (fun _ w2 => exists es, did w1 w2 g es /\
       (forall w', did w w' g (ws ++ es) -> Q tt w')) p w1) ->
  wp nf process Q p w.
Proof.
  intros r g Hone Hat Hrb Hend Hv Hev. apply (wp_process nf r); [done..|]. intros w1 Hd1.
  pose proof Hd1 as (S1 & new & Hh & Hw).
  assert (USB_ControlRequest (usb (st w1)) = r) as Er by (rewrite S1; by rewrite with_request_usb).
  apply (set_configuration_did k _ d); rewrite ?Er; [done..|]. rewrite S1, Hh, writes_app, Hw, app_nil_r.
  cbn [wValue r]. intros ws w2 Hws Hd2. pose proof (did_trans _ _ _ _ _ _ _ Hd1 Hd2) as Hd. cbn [app] in Hd.
  eapply wp_mono; [by apply (Hev ws)|]. intros [] w3 (es & Hes & HQ). exists g, (ws ++ es).
  split; [by eapply did_trans|]. destruct Hws as (u & u' & ss & Hc & _ & ->).
  pose proof (acked_cleared [RXSTPI] u u' [] (ss ++ [(V_USB_DeviceState, state_code (configuration_state (u8 v)
    (bit_tst (last_value UDADDR (writes (hist w)) d) 7)))] ++ es) Hc ltac:(left)) as Ha.
  cbn [app] in Ha, HQ |- *. rewrite <- app_assoc in *. cbn [app] in *. by rewrite Ha.
Qed.

(** ** Descriptors *)

(** The bytes that went to the data register. *)
Definition sent_data (ws : list (reg * Z)) : list Z :=
  omap (fun '(r, v) => if decide (r = UEDATX) then Some v else None) ws.

(** Only data and flags of the endpoint were written; in particular nothing was
    stalled. *)
Definition data_and_flags (ws : list (reg * Z)) : Prop := Forall (fun x => x.1 = UEDATX \/ x.1 = UEINTX) ws.

Lemma packets_data h : sent_data (writes h) = concat (fst (packets h)) ++ snd (packets h).
Proof.
  induction h as [|[r v|r v] h IH]; [done|done|]. rewrite writes_wr. unfold sent_data in *.
  rewrite omap_app, IH. destruct r; cbn [packets omap list_omap fst snd]; rewrite ?app_nil_r; try done;
    destruct (packets h) as [ps cur]; cbn [fst snd omap list_omap].
  - rewrite concat_app. cbn. by rewrite !app_nil_r.
  - by rewrite app_assoc.
Qed.

Lemma stream_log_writes h P : stream_log h P -> sent_data (writes h) = concat P /\ data_and_flags (writes h).
Proof.
  intros [Hp Ho]. split; [by rewrite packets_data, Hp, app_nil_r|]. clear Hp. unfold data_and_flags.
  induction Ho as [|[r v|r v] h Hr _ IH]; [by constructor|done|]. rewrite writes_wr.
  apply Forall_app. split; [done|]. by apply Forall_singleton.
Qed.

(** A host that reads an answer of at most [asked] bytes: once the SETUP packet
    of [h0] is acknowledged, it accepts packets, turns to the status stage on
    a short one or when it has all, and sends no other request. *)
Definition host_reads (asked : Z) (h0 : log) : Prop := forall before v v',
  acked (writes before) = false -> bit_tst v' RXSTPI = false ->
  host_accepts p asked (Wr UEINTX v' :: Rd UEINTX v :: before ++ h0).

Lemma control_stream_did mem (Len : nat) before v v' Q w :
  Forall is_u8 mem -> (Len <= length mem)%nat -> Z.of_nat Len < 65536 ->
  is_u16 (asked_length w) -> counts_bytes p -> (Len + 65 <= fuel p)%nat ->
  hist w = Wr UEINTX v' :: Rd UEINTX v :: before ->
  host_accepts p (asked_length w) (hist w) ->
  (forall ws w', data_and_flags ws -> sent_data ws = take (min Len (Z.to_nat (asked_length w))) mem ->
     did w w' (st w) ws -> Q ENDPOINT_RWCSTREAM_NoError w') ->
  wp False (Endpoint_Write_Control_Stream_LE mem (Z.of_nat Len)) Q p w.
Proof.
  intros Hm Hl Hw Ha Hc Hf Hh Hacc HQ. eapply wp_mono.
  - apply (control_w_total _ _ _ mem (Source0 := source_up mem Hm)); [done|done|done| |done|].
    + rewrite Hh. cbn [packets]. by destruct (packets before).
    + unfold asked_length in *. lia.
  - intros c w' (-> & P & (new & Hst & Hn & Hlog) & Hcat & _).
    destruct (stream_log_writes _ _ Hlog) as [Hd Ho].
    apply (HQ (writes new)); [done|by rewrite Hd|]. split; [done|by exists new].
Qed.

Lemma clear_setup_log nf Q w :
  (forall v v', bit_tst v' RXSTPI = false ->
     Q tt (World (st w) (Wr UEINTX v' :: Rd UEINTX v :: hist w))) ->
  wp nf Endpoint_ClearSETUP Q p w.
Proof.
  intros HQ. unfold Endpoint_ClearSETUP. apply wp_reg_andn. intros u _. apply HQ. cbn [reg_wrap].
  destruct flag_facts as ((_ & _ & B & _) & _).
  rewrite bit_tst_testbit, testbit_u8, <- bit_tst_testbit, bit_tst_clr, Z.eqb_refl by lia. done.
Qed.

(** What an answer of the bytes [data] wrote. *)
Definition answer_writes (data : list Z) (ws : list (reg * Z)) : Prop :=
  acked ws = true /\ data_and_flags ws /\ sent_data ws = data.

(** Handled without data: acknowledged, nothing sent, nothing stalled. *)
Definition accepted (g : G) w w' : Prop :=
  exists ws, did w w' g ws /\ acked ws = true /\ data_and_flags ws /\ sent_data ws = [].
(** Answered with [bs], with no object changed. *)
Definition answered_with (bs : list Z) w w' : Prop := exists ws, did w w' (st w) ws /\ answer_writes bs ws.

(** A request without an answer: flags, then the status stage. *)
Lemma accepted_status a g flags ss w w' : Forall (fun x => x.1 = UEINTX) flags -> acked flags = true -> status_writes p a ss ->
  did w w' g (flags ++ ss) -> accepted g w w'.
Proof.
  intros Hf Ha Hss D. exists (flags ++ ss). split; [done|]. unfold acked, data_and_flags, sent_data in *. rewrite existsb_app, Ha, Forall_app, omap_app.
  split; [done|]. assert (omap (fun '(r, v) => if decide (r = UEDATX) then Some v else None) flags = []) as ->.
  { clear Ha D. induction Hf as [|[r v] l E _ IH]; [done|]. cbn in *. subst r. exact IH. }
  destruct Hss as [[-> _]|(y & y' & _ & ->)]; (split; [split; [|by repeat constructor; right]|done]);
    (revert Hf; apply Forall_impl; intros x Hx; by right).
Qed.

(** The head of a class driver's handler: a request is waiting. *)
Lemma wp_class_setup nf r (k : USB_Request_Header_t -> M G unit) Q w :
  USB_ControlRequest (usb (st w)) = r -> one_setup p (hist w) ->
  (forall w1, did w w1 (st w) [] -> wp nf (k r) Q p w1) ->
  wp nf (setup <- Endpoint_IsSETUPReceived;; if negb setup then ret tt else r <- get_request;; k r) Q p w.
Proof.
  intros Hr Hone HQ. apply wp_bind. apply (wp_setup_flag _ _ w w (st w) []); [done|split; [done|by exists []]|]. intros w1 D1.
  cbn [negb acked existsb]. pose proof D1 as [S1 _]. unfold get_request, get_usb. apply wp_bind, wp_bind, wp_bind, wp_get, wp_ret, wp_ret.
  rewrite S1, Hr. by apply HQ.
Qed.

(** Acknowledge, stream, and acknowledge the status stage. *)
Lemma answer_did mem size Q w :
  let asked := asked_length w in
  Forall is_u8 mem -> 0 <= size < 65536 -> size <= Z.of_nat (length mem) -> is_u16 asked ->
  host_reads asked (hist w) -> counts_bytes p -> (Z.to_nat size + 65 <= fuel p)%nat ->
  (forall ws w', answer_writes (take (min (Z.to_nat size) (Z.to_nat asked)) mem) ws ->
     did w w' (st w) ws -> Q tt w') ->
  wp False (Endpoint_ClearSETUP;;; Endpoint_Write_Control_Stream_LE mem size;;; Endpoint_ClearOUT) Q p w.
Proof.
  intros asked Hb Hs Hl Hlen Hhost Hc Hf HQ. apply wp_bind, clear_setup_log. intros u u' Hu'.
  set (w2 := World (st w) (Wr UEINTX u' :: Rd UEINTX u :: hist w)).
  apply wp_bind. rewrite <- (Z2Nat.id size) by lia.
  eapply (control_stream_did mem (Z.to_nat size) _ _ _ _ w2); [done|lia|lia|done|done|done|reflexivity| |].
  { apply (Hhost []); done. }
  intros ws w3 Ho Hdata D3. destruct flag_facts as ((_ & B2 & _ & B4) & _).
  apply clear_flags_did; [done|done|]. intros x x' w4 Hx _ D4. pose proof D3 as [S3 _]. rewrite S3 in D4.
  pose proof (did_trans _ _ _ _ _ _ _ (did_trans _ _ _ _ _ _ _ (did_rw w (st w) UEINTX u u') D3) D4) as D.
  eapply HQ; [|exact D]. split_and!.
  - unfold acked. rewrite <- app_assoc. cbn [app existsb]. by rewrite bool_decide_true, Hu'.
  - unfold data_and_flags in *. rewrite !Forall_app.
    split_and!; [apply Forall_singleton; by right|done|apply Forall_singleton; by right].
  - unfold sent_data in *. rewrite !omap_app. cbn. by rewrite Hdata, app_nil_r.
Qed.

Lemma setup_at_length bm b v i len h : setup_at p h (Request bm b v i len) -> is_u16 len.
Proof.
  intros [_ Hr]. by apply (Forall2_lookup_lr fits [1; 1; 2; 2; 2]%nat [bm; b; v; i; len] 4 2%nat len Hr).
Qed.

(** C9: a request for a descriptor the application has is answered with that
    descriptor: the handling ends without error, the bytes put into the data
    register are exactly the first [min size wLength] bytes of the memory
    behind the descriptor pointer, the SETUP packet is acknowledged, nothing is
    stalled and no object but the copy of the request changes. *)
Theorem get_descriptor_delivers bm v i len w :
  let r := Request bm 6 v i len in
  let '(mem, size) := GetDescriptor v i in
  (bm = 0x80 \/ bm = 0x81) -> v <> 0x03DC -> size <> 0 ->
  one_setup p (hist w) -> setup_at p (hist w) r -> host_reads len (hist w) -> counts_bytes p ->
  (Z.to_nat size + 65 <= fuel p)%nat ->
  wp False process (fun _ w' => exists ws, did w w' (with_request r w) ws /\
    answer_writes (take (min (Z.to_nat size) (Z.to_nat len)) mem) ws) p w.
Proof.
  intros r. pose proof (app_descriptor_bytes v i) as Hb. pose proof (app_descriptor_size v i) as [Hs Hl].
  destruct (GetDescriptor v i) as [mem size] eqn:Eg. cbn [fst snd] in *.
  intros Hbm Hv Hz Hone Hat Hhost Hc Hf. apply (wp_process False r); [done|done|by destruct Hbm as [-> | ->]|].
  intros w1 D1. pose proof D1 as (S1 & n1 & Hh1 & Hw1).
  assert (usb (st w1) = set_request r (usb (st w))) as Er by (by rewrite S1, with_request_usb).
  assert (standard r = USB_Device_GetDescriptor boot_signature_byte_get) as -> by (by destruct Hbm as [-> | ->]).
  unfold USB_Device_GetDescriptor. apply wp_bind, wp_get_request. rewrite Er.
  cbn [set_request USB_ControlRequest r wValue wIndex]. change (Z.lor _ _) with 0x03DC%Z.
  rewrite (proj2 (Z.eqb_neq v _)), Eg by done. change NO_DESCRIPTOR with 0. rewrite (proj2 (Z.eqb_neq size 0)) by done.
  assert (asked_length w1 = len) as Ea by (unfold asked_length; by rewrite Er).
  apply answer_did; rewrite ?Ea; [done|done|done|by eapply setup_at_length| |done|done|].
  { intros before. rewrite Hh1, app_assoc. intros u u' Ha Hu. apply Hhost; [|done].
    rewrite writes_app, Hw1. done. }
  intros ws w2 Hws D2. exists (with_request r w), ws. rewrite S1 in D2.
  pose proof (did_trans _ _ _ _ _ _ _ D1 D2) as D. split; [done|]. destruct Hws as (Hack & Hrest).
  rewrite Hack. intros w' D'. exists ws. done.
Qed.

(** ** Status and configuration *)

(** A program that only puts the bytes [bs] into the data register. *)
Definition puts (m : M G unit) (bs : list Z) : Prop := forall nf Q w,
  (forall w', did w w' (st w) ((UEDATX,.) <$> bs) -> Q tt w') -> wp nf m Q p w.

Lemma puts_8 v : is_u8 v -> puts (Endpoint_Write_8 v) [v].
Proof.
  intros Hv nf Q w HQ. unfold Endpoint_Write_8. apply wp_wr, HQ. cbn [reg_wrap].
  rewrite u8_small by done. apply (did_wr w).
Qed.

Lemma puts_16 v : puts (Endpoint_Write_16_LE v) (le_bytes 2 v).
Proof.
  intros nf Q w HQ. unfold Endpoint_Write_16_LE. apply wp_bind, wp_wr, wp_wr, HQ.
  rewrite (proj1 (le_bytes_shifts v)). split; [done|]. by eexists [_; _].
Qed.

Lemma puts_32 v : puts (Endpoint_Write_32_LE v) (le_bytes 4 v).
Proof.
  intros nf Q w HQ. unfold Endpoint_Write_32_LE. apply wp_bind, wp_wr, wp_bind, wp_wr, wp_bind, wp_wr, wp_wr, HQ.
  rewrite (proj2 (le_bytes_shifts v)). split; [done|]. by eexists [_; _; _; _].
Qed.

Lemma puts_seq m m' bs bs' : puts m bs -> puts m' bs' -> puts (m;;; m') (bs ++ bs').
Proof.
  intros Hm Hm' nf Q w HQ. apply wp_bind, Hm. intros w1 D1. pose proof D1 as [S1 _]. apply Hm'. intros w2 D2. rewrite S1 in D2.
  apply HQ. rewrite fmap_app. by eapply did_trans.
Qed.

Lemma sent_data_puts bs : sent_data ((UEDATX,.) <$> bs) = bs.
Proof. unfold sent_data. induction bs as [|b bs IH]; [done|]. cbn. by f_equal. Qed.

(** An answer of one short packet, after the acknowledgement. *)
Lemma short_answer_tail k nf m bs v v' Q w w1 :
  puts m bs -> status_flag (USB_ControlRequest (usb (st w))) = RXOUTI -> polls_end p k nf RXOUTI ->
  cleared [RXSTPI] v v' -> did w w1 (st w) [(UEINTX, v')] ->
  (forall ws w', answer_writes bs ws -> did w w' (st w) ws -> Q tt w') ->
  wp nf (m;;; Endpoint_ClearIN;;; Endpoint_ClearStatusStage) Q p w1.
Proof.
  intros Hm Hdir Hend Hc D1 HQ. pose proof D1 as [S1 _].
  apply wp_bind, Hm. intros w2 D2. pose proof D2 as [S2 _]. rewrite S1 in D2, S2.
  destruct flag_facts as ((B1 & _ & _ & B4) & _).
  apply wp_bind, clear_flags_did; [done|done|]. intros x x' w3 Hx _ D3. pose proof D3 as [S3 _]. rewrite S2 in D3, S3.
  apply (status_stage_did p k); rewrite S3, Hdir; [done|]. intros ss w4 Hss D4.
  pose proof (did_trans _ _ _ _ _ _ _ D1 (did_trans _ _ _ _ _ _ _ D2 (did_trans _ _ _ _ _ _ _ D3 D4))) as D.
  eapply HQ; [|exact D]. split_and!.
  - by apply (acked_cleared [RXSTPI] v v' []); [|left].
  - unfold data_and_flags. rewrite !Forall_app. split_and!; [apply Forall_singleton; by right| |apply Forall_singleton; by right|].
    + apply Forall_fmap, Forall_true. by left.
    + destruct Hss as [[-> _]|(y & y' & _ & ->)]; [done|apply Forall_singleton; by right].
  - unfold sent_data. rewrite !omap_app. fold (sent_data ((UEDATX,.) <$> bs)). rewrite sent_data_puts.
    by destruct Hss as [[-> _]|(y & y' & _ & ->)]; cbn; rewrite app_nil_r.
Qed.

(** The status word of the device. *)
Definition device_status (u : usb_globals) : Z :=
  (if USB_Device_CurrentlySelfPowered u then 1 else 0) + (if USB_Device_RemoteWakeupEnabled u then 2 else 0).

(** The stall bit of each endpoint while nothing changes it. *)
Definition stall_bits (f : Z -> bool) : Prop := forall h,
  bit_tst (reg_wrap UECONX (respond p h UECONX)) STALLRQ = f (selected h).

Lemma standard_handled nf r Q w (m : M G unit) :
  one_setup p (hist w) -> setup_at p (hist w) r -> is_standard r = true -> standard r = m ->
  (forall w1, usb (st w1) = set_request r (usb (st w)) -> st w1 = with_request r w ->
     wp nf m (fun _ w2 => exists g ws, did w1 w2 g ws /\ acked ws = true /\
       forall w', did w w' g ws -> Q tt w') p w1) ->
  wp nf process Q p w.
Proof.
  intros Hone Hat Hstd Hm Hw. apply (wp_process nf r); [done..|]. intros w1 D1. pose proof D1 as [S1 _].
  rewrite Hm. eapply wp_mono; [apply Hw; [by rewrite S1, with_request_usb|done]|].
  intros [] w2 (g & ws & D2 & Hack & HQ). exists g, ws. pose proof (did_trans _ _ _ _ _ _ _ D1 D2) as D.
  split; [done|]. by rewrite Hack.
Qed.

(** The end of a handler that answered with [bs]. *)
Definition answered (w : world G) r bs (pre : list (reg * Z)) (w' : world G) : Prop :=
  exists ws, did w w' (with_request r w) (pre ++ ws) /\ answer_writes bs ws.

Lemma send_status_run k nf v pre r status w w1 : polls_end p k nf RXOUTI ->
  status_flag r = RXOUTI -> st w1 = with_request r w -> le_bytes 2 status = v ->
  wp nf (send_status status) (fun _ w2 => exists ws, did w1 w2 (with_request r w) ws /\ acked ws = true /\
    forall w', did w w' (with_request r w) (pre ++ ws) -> answered w r v pre w') p w1.
Proof.
  intros Hend Hdir S1 <-. unfold send_status. apply wp_bind, clear_setup_did. intros x x' w2 Hc _ D.
  apply (short_answer_tail k _ _ (le_bytes 2 status) x x' _ w1); [apply puts_16| |done|done|done|].
  { by rewrite S1, with_request_usb. }
  rewrite S1. intros ws w3 Hws D'. exists ws. split; [done|]. split; [apply Hws|]. intros w' Dw. by exists ws.
Qed.

Lemma device_status_run k nf v i len w :
  let r := Request 0x80 0 v i len in
  polls_end p k nf RXOUTI -> one_setup p (hist w) -> setup_at p (hist w) r ->
  wp nf process (fun _ => answered w r (le_bytes 2 (device_status (usb (st w)))) []) p w.
Proof.
  intros r Hend Hone Hat. apply (standard_handled _ r _ _ USB_Device_GetStatus); [done..|]. intros w1 Er S1.
  unfold USB_Device_GetStatus. apply wp_bind, wp_get_usb. rewrite Er. cbn [USB_ControlRequest set_request].
  change (bmRequestType r =? reqtype REQDIR_DEVICETOHOST REQTYPE_STANDARD REQREC_DEVICE) with true. cbv iota zeta.
  eapply wp_mono; [apply (send_status_run k _ (le_bytes 2 (device_status (usb (st w)))) [] r _ w); [done..|]|].
  - f_equal. unfold device_status. by destruct (USB_Device_CurrentlySelfPowered _), (USB_Device_RemoteWakeupEnabled _).
  - intros [] w2 (ws & H'). by exists (with_request r w), ws.
Qed.

Lemma endpoint_status_run k nf f v i len w :
  let r := Request 0x82 0 v i len in
  polls_end p k nf RXOUTI -> one_setup p (hist w) -> setup_at p (hist w) r -> stall_bits f ->
  endpoint_index r < ENDPOINT_TOTAL_ENDPOINTS ->
  wp nf process (fun _ => answered w r (le_bytes 2 (if f (endpoint_index r) then 1 else 0))
    [(UENUM, endpoint_index r); (UENUM, 0)]) p w.
Proof.
  intros r Hend Hone Hat Hst He. apply (standard_handled _ r _ _ USB_Device_GetStatus); [done..|]. intros w1 Er S1.
  unfold USB_Device_GetStatus. apply wp_bind, wp_get_usb. rewrite Er. cbn [USB_ControlRequest set_request].
  change (bmRequestType r =? reqtype REQDIR_DEVICETOHOST REQTYPE_STANDARD REQREC_DEVICE) with false.
  change (bmRequestType r =? _) with true. cbv iota zeta. fold (endpoint_index r).
  pose proof (endpoint_index_range r) as Hr.
  replace (ENDPOINT_TOTAL_ENDPOINTS <=? endpoint_index r) with false by lia.
  unfold Endpoint_SelectEndpoint, Endpoint_IsStalled. wp_step. wp_step. wp_step. apply wp_reg_bit. intros c Hc.
  wp_step. wp_step. cbn [st hist reg_wrap] in *. rewrite Hc, Hst. cbn [selected].
  assert (u8 (Z.land (endpoint_index r) ENDPOINT_EPNUM_MASK) = endpoint_index r) as ->.
  { unfold ENDPOINT_EPNUM_MASK. change 15 with (Z.ones 4). rewrite Z.land_ones, Z.mod_small by lia.
    apply u8_small. unfold is_u8. lia. }
  change (u8 (Z.land ENDPOINT_CONTROLEP ENDPOINT_EPNUM_MASK)) with 0.
  match goal with |- wp _ _ _ _ ?w2 => set (w2' := w2) end.
  assert (did w1 w2' (with_request r w) [(UENUM, endpoint_index r); (UENUM, 0)]) as D1.
  { split; [done|]. by eexists [_; _; _]. }
  eapply wp_mono; [by eapply (send_status_run k _ _ [(UENUM, endpoint_index r); (UENUM, 0)] r _ w)|].
  intros [] w2 (ws & D2 & Ha & HQ). eexists _, _. split; [by eapply did_trans|]. done.
Qed.

Lemma get_configuration_run k nf v i len w :
  let r := Request 0x80 8 v i len in
  let n := USB_Device_ConfigurationNumber (usb (st w)) in
  polls_end p k nf RXOUTI -> one_setup p (hist w) -> setup_at p (hist w) r -> is_u8 n ->
  wp nf process (fun _ => answered w r [n] []) p w.
Proof.
  intros r n Hend Hone Hat Hn. apply (standard_handled _ r _ _ USB_Device_GetConfiguration); [done..|]. intros w1 Er S1.
  unfold USB_Device_GetConfiguration. apply wp_bind, clear_setup_did. intros x x' w2 Hc _ D. pose proof D as [S2 _].
  apply wp_bind, wp_get_usb. rewrite S2, Er. cbn [set_request USB_Device_ConfigurationNumber]. fold n.
  apply (short_answer_tail k _ _ [n] x x' _ w1); [by apply puts_8|by rewrite Er|done|done|done|].
  rewrite S1. intros ws w3 Hws D'. exists (with_request r w), ws. split; [done|]. split; [apply Hws|].
  intros w' Dw. by exists ws.
Qed.

(** [GET_STATUS] of the device answers the two bytes of the self-powered and
    remote-wakeup flags, [GET_STATUS] of an existing endpoint the two bytes of
    that endpoint's stall bit, read while it is selected and with the control
    endpoint selected again before the answer, and [GET_CONFIGURATION] the
    configuration number; nothing else is written and no object changes but
    the copy of the request. *)
Theorem status_requests k f v i len w :
  flag_within k UEINTX RXOUTI p -> (k < fuel p)%nat -> one_setup p (hist w) ->
  (let r := Request 0x80 0 v i len in setup_at p (hist w) r ->
   wp False process (fun _ => answered w r (le_bytes 2 (device_status (usb (st w)))) []) p w) /\
  (let r := Request 0x82 0 v i len in setup_at p (hist w) r -> stall_bits f ->
   endpoint_index r < ENDPOINT_TOTAL_ENDPOINTS ->
   wp False process (fun _ => answered w r (le_bytes 2 (if f (endpoint_index r) then 1 else 0))
     [(UENUM, endpoint_index r); (UENUM, 0)]) p w) /\
  (let r := Request 0x80 8 v i len in setup_at p (hist w) r ->
   is_u8 (USB_Device_ConfigurationNumber (usb (st w))) ->
   wp False process (fun _ => answered w r [USB_Device_ConfigurationNumber (usb (st w))] []) p w).
Proof.
  intros Hfl Hf Hone. assert (polls_end p k False RXOUTI) as Hend by (by right).
  split_and!; intros; [by eapply device_status_run|by eapply endpoint_status_run|by eapply get_configuration_run].
Qed.

(** ** Features *)

(** The writes that end a feature request. *)
Definition feature_writes (ws : list (reg * Z)) : Prop := exists v v' ss,
  cleared [RXSTPI] v v' /\ status_writes p TXINI ss /\ ws = [(UENUM, 0); (UEINTX, v')] ++ ss.

Lemma feature_done_did k nf Q w :
  polls_end p k nf TXINI -> status_flag (USB_ControlRequest (usb (st w))) = TXINI ->
  (forall ws w', feature_writes ws -> did w w' (st w) ws -> Q tt w') -> wp nf feature_done Q p w.
Proof.
  intros Hend Hdir HQ. unfold feature_done, Endpoint_SelectEndpoint. apply wp_bind, wp_wr.
  change (reg_wrap UENUM _) with 0. pose proof (did_wr w (st w) UENUM 0) as D0.
  generalize dependent (World (st w) (Wr UENUM 0 :: hist w)). intros w0 D0. pose proof D0 as [S0 _].
  apply wp_bind, clear_setup_did. intros v v' w1 Hc _ D1. pose proof D1 as [S1 _]. rewrite S0 in D1, S1.
  apply (status_stage_did p k); rewrite S1, Hdir; [done|]. intros ss w2 Hss D2.
  pose proof (did_trans _ _ _ _ _ _ _ (did_trans _ _ _ _ _ _ _ D0 D1) D2) as D.
  eapply HQ; [|exact D]. by exists v, v', ss.
Qed.

Lemma acked_feature ws1 ws2 : feature_writes ws2 -> acked (ws1 ++ ws2) = true.
Proof.
  intros (v & v' & ss & Hc & _ & ->). replace (ws1 ++ _) with ((ws1 ++ [(UENUM, 0)]) ++ (UEINTX, v') :: ss)
    by (by rewrite <- app_assoc). apply (acked_cleared [RXSTPI] v v'); [done|left].
Qed.

(** The enable bit of each endpoint. *)
Definition enable_bits (f : Z -> bool) : Prop := forall h,
  bit_tst (reg_wrap UECONX (respond p h UECONX)) EPEN = f (selected h).

(** What setting or clearing the halt feature of an enabled endpoint writes. *)
Definition halt_writes (halt : bool) (e : Z) (ws : list (reg * Z)) : Prop :=
  if halt then exists c, bit_tst c STALLRQ = true /\ ws = [(UECONX, c)]
  else exists c c', bit_tst c STALLRQC = true /\ bit_tst c' RSTDT = true /\
    ws = [(UECONX, c); (UERST, u8 (Z.shiftl 1 e)); (UERST, 0); (UECONX, c')].

Lemma ueconx_set b v : 0 <= b < 8 -> bit_tst (u8 (bit_set v b)) b = true.
Proof.
  intros Hb. rewrite bit_tst_testbit, testbit_u8, <- bit_tst_testbit, bit_tst_set, Z.eqb_refl by lia. done.
Qed.

Lemma clear_set_halt_did nf f halt e Q w : enable_bits f -> 0 <= e < 16 ->
  (forall ws w', (if f e then halt_writes halt e ws else ws = []) -> did w w' (st w) ((UENUM, e) :: ws) -> Q tt w') ->
  wp nf (clear_set_halt halt e) Q p w.
Proof.
  intros Hen He HQ. pose proof ueconx_bits as Hb. rewrite !Forall_cons_iff in Hb.
  destruct Hb as (_ & B1 & B2 & B3 & _).
  unfold clear_set_halt, Endpoint_SelectEndpoint, Endpoint_IsEnabled.
  assert (Z.land e ENDPOINT_EPNUM_MASK = e) as Em.
  { unfold ENDPOINT_EPNUM_MASK. change 15 with (Z.ones 4). rewrite Z.land_ones, Z.mod_small by lia. done. }
  assert (reg_wrap UENUM e = e) as Ee by (apply u8_small; unfold is_u8; lia).
  rewrite Em. wp_step. wp_step. wp_step. apply wp_reg_bit. intros c Hc. cbn [st hist] in *. rewrite Ee in *.
  rewrite Hc, Hen. cbn [selected]. rewrite <- Hc. destruct (f e) eqn:Ef; [|apply wp_ret].
  - cbn [when]. destruct halt; cbv iota.
    + unfold Endpoint_StallTransaction. wp_step. cbn [reg_wrap].
      eapply HQ; [eexists; split; [by apply ueconx_set|reflexivity]|]. split; [done|]. by eexists [_; _; _; _].
    + unfold Endpoint_ClearStall, Endpoint_ResetEndpoint, Endpoint_ResetDataToggle. wp_steps. cbn [reg_wrap]. rewrite Em.
      eapply HQ; [eexists _, _; split_and!; [by apply ueconx_set|by apply ueconx_set|reflexivity]|].
      split; [done|]. by eexists [_; _; _; _; _; _; _; _].
  - eapply HQ; [done|]. split; [done|]. by eexists [_; _].
Qed.

(** [SET_FEATURE] and [CLEAR_FEATURE] of remote wakeup set and clear the
    flag that [GET_STATUS] reports; of the halt of an enabled data endpoint
    they request a stall, or withdraw it and reset the endpoint and its data
    toggle, with that endpoint selected; both then select the control endpoint
    again, acknowledge the request and run the status stage.  A disabled
    endpoint is left alone. *)
Theorem feature_requests k f b v i len w :
  flag_within k UEINTX TXINI p -> (k < fuel p)%nat -> one_setup p (hist w) -> b = 1 \/ b = 3 ->
  (let r := Request 0 b v i len in setup_at p (hist w) r -> u8 v = 1 ->
   let g := with_request r w in
   wp False process (fun _ w' => exists ws, feature_writes ws /\
     did w w' (put_usb (set_remote_wakeup (b =? 3) (usb g)) g) ws) p w) /\
  (let r := Request 2 b v i len in setup_at p (hist w) r -> u8 v = 0 -> enable_bits f ->
   let e := endpoint_index r in 0 < e < ENDPOINT_TOTAL_ENDPOINTS ->
   wp False process (fun _ w' => exists hs ws, feature_writes ws /\
     (if f e then halt_writes (b =? 3) e hs else hs = []) /\
     did w w' (with_request r w) ((UENUM, e) :: hs ++ ws)) p w).
Proof.
  intros Hfl Hf Hone Hb. assert (polls_end p k False TXINI) as Hend by (by right). split.
  - intros r Hat Hv g. apply (standard_handled _ r _ _ USB_Device_ClearSetFeature); [done|done|done|by destruct Hb as [-> | ->]|].
    intros w1 Er S1. unfold USB_Device_ClearSetFeature. apply wp_bind, wp_get_request. rewrite Er.
    cbn [set_request USB_ControlRequest r bmRequestType bRequest wValue].
    change (Z.land 0 CONTROL_REQTYPE_RECIPIENT =? REQREC_DEVICE) with true. cbv iota zeta. rewrite Hv.
    change (1 =? FEATURE_SEL_DeviceRemoteWakeup) with true. cbv iota. cbn [request_code].
    apply wp_bind. unfold mod_usb. apply wp_modify. rewrite S1. fold g.
    apply (feature_done_did k); [done|cbn [st]; by rewrite usb_put; unfold g; rewrite with_request_usb|].
    cbn [st]. intros ws w2 Hws D2. eexists _, ws. split; [|split; [by apply (acked_feature [])|intros w' D'; by exists ws]].
    exact D2.
  - intros r Hat Hv Hen e He. apply (standard_handled _ r _ _ USB_Device_ClearSetFeature); [done|done|done|by destruct Hb as [-> | ->]|].
    intros w1 Er S1. unfold USB_Device_ClearSetFeature. apply wp_bind, wp_get_request. rewrite Er.
    cbn [set_request USB_ControlRequest]. fold (endpoint_index r). fold e. cbn [r bmRequestType bRequest wValue].
    change (Z.land 2 CONTROL_REQTYPE_RECIPIENT =? REQREC_DEVICE) with false.
    change (Z.land 2 CONTROL_REQTYPE_RECIPIENT =? REQREC_ENDPOINT) with true. cbv iota zeta. rewrite Hv.
    change (0 =? FEATURE_SEL_EndpointHalt) with true. cbv iota. cbn [request_code].
    replace ((e =? ENDPOINT_CONTROLEP) || (ENDPOINT_TOTAL_ENDPOINTS <=? e)) with false
      by (unfold ENDPOINT_CONTROLEP; lia).
    apply wp_bind, (clear_set_halt_did _ f); [done|apply endpoint_index_range|]. intros hs w2 Hhs D2. pose proof D2 as [S2 _].
    apply (feature_done_did k); [done|by rewrite S2, Er|]. intros ws w3 Hws D3. rewrite S2, S1 in D3.
    rewrite S1 in D2. pose proof (did_trans _ _ _ _ _ _ _ D2 D3) as D.
    exists (with_request r w), ((UENUM, e) :: hs ++ ws). split; [exact D|].
    split; [by apply (acked_feature ((UENUM, e) :: hs))|]. intros w' D'. by exists hs, ws.
Qed.
End Process.

(** ** The management task *)

Section Task.
Context {G : Type} `{UsbState G} `{Avr} `{UsbApplication G}.
Variable boot_signature_byte_get : Z -> Z.
Context (p : platform).
Implicit Types w : world G.

Lemma bind_done {A B} (m : M G A) (f : A -> M G B) b w w' : bind m f p w = Done b w' ->
  exists a w1, m p w = Done a w1 /\ f a p w1 = Done b w'.
Proof. unfold bind. destruct (m p w) as [a w1| |]; [|done|done]. by exists a, w1. Qed.

(** The selection register reads back. *)
Definition selection_reads : Prop := forall h, reg_wrap UENUM (respond p h UENUM) = u8 (selected h).

Lemma select_mask e d : 0 <= e < 16 -> d = ENDPOINT_DIR_IN \/ d = ENDPOINT_DIR_OUT ->
  reg_wrap UENUM (Z.land (Z.lor (Z.land e ENDPOINT_EPNUM_MASK) d) ENDPOINT_EPNUM_MASK) = e.
Proof.
  intros He Hd.
  assert (forallb (fun e => forallb (fun d => reg_wrap UENUM
      (Z.land (Z.lor (Z.land e ENDPOINT_EPNUM_MASK) d) ENDPOINT_EPNUM_MASK) =? e)
      [ENDPOINT_DIR_IN; ENDPOINT_DIR_OUT]) (Z.of_nat <$> seq 0 16) = true) as Hall by (by vm_compute).
  pose proof (forallb_range _ 16 Hall e He) as H'. cbn [forallb] in H'.
  apply andb_true_iff in H' as [E1 E2]. rewrite andb_true_r in E2. apply Z.eqb_eq in E1. apply Z.eqb_eq in E2.
  by destruct Hd as [-> | ->].
Qed.

(** [USB_USBTask] may be called while any endpoint is selected: whatever the
    application does in it, when it returns the endpoint selected before is
    selected again; on an unattached device it only looks at the device state;
    and without a SETUP packet it changes nothing but the selection, to the
    control endpoint and back. *)
Theorem usb_task_keeps_selection w : selection_reads -> 0 <= selected (hist w) < 16 ->
  (forall w', USB_USBTask boot_signature_byte_get p w = Done tt w' -> selected (hist w') = selected (hist w)) /\
  (reg_wrap V_USB_DeviceState (respond p (hist w) V_USB_DeviceState) = state_code DEVICE_STATE_Unattached ->
   USB_USBTask boot_signature_byte_get p w =
     Done tt (World (st w) (Rd V_USB_DeviceState (state_code DEVICE_STATE_Unattached) :: hist w))) /\
  ((forall h, reg_wrap V_USB_DeviceState (respond p h V_USB_DeviceState) <> state_code DEVICE_STATE_Unattached /\
              bit_tst (reg_wrap UEINTX (respond p h UEINTX)) RXSTPI = false) ->
   wp False (USB_USBTask boot_signature_byte_get)
     (fun _ w' => did w w' (st w) [(UENUM, 0); (UENUM, selected (hist w))]) p w).
Proof.
  intros Hsel He. split_and!.
  - intros w' Hrun. unfold USB_USBTask, USB_DeviceTask, is_DeviceState in Hrun.
    apply bind_done in Hrun as (u & w1 & Hst & Hrun). injection Hst as <- <-.
    destruct (_ =? _); [by injection Hrun as <-|].
    apply bind_done in Hrun as (prev & w2 & Hcur & Hrun). injection Hcur as <- <-.
    do 3 apply bind_done in Hrun as (? & ? & _ & Hrun). injection Hrun as <-. cbn [hist selected].
    rewrite Hsel. cbn [selected]. rewrite (u8_small (selected (hist w))) by (unfold is_u8; lia). apply select_mask; [done|]. case_match; auto.
  - intros Hu. unfold USB_USBTask, USB_DeviceTask, is_DeviceState, bind, rd, ret. by rewrite Hu.
  - intros Hq. unfold USB_USBTask, USB_DeviceTask, is_DeviceState, Endpoint_GetCurrentEndpoint,
      Endpoint_GetEndpointDirection, Endpoint_SelectEndpoint, Endpoint_IsSETUPReceived.
    apply wp_bind, wp_bind, wp_rd. intros s Hs. apply wp_ret. cbn [st hist].
    rewrite (proj2 (Z.eqb_neq _ _)) by (rewrite Hs; apply Hq).
    apply wp_bind, wp_bind, wp_rd. intros n Hn. cbn [st hist] in *. rewrite Hsel in Hn. cbn [selected] in Hn.
    rewrite u8_small in Hn by (unfold is_u8; lia).
    apply wp_bind, wp_bind, wp_reg_bit. intros c _. apply wp_ret, wp_ret. cbn [st hist].
    apply wp_bind, wp_wr, wp_bind, wp_reg_bit. intros v Hv. cbn [st hist] in *.
    rewrite Hv. rewrite (proj2 (Hq _)). apply wp_bind, wp_ret, wp_wr. cbn [st hist].
    rewrite Hn, select_mask by (done || (case_match; auto)).
    split; [done|]. by eexists [_; _; _; _; _; _].
Qed.
End Task.

(** ** Concrete runs *)

(** A device without events that serves the controller's descriptors. *)
#[export] Instance descriptor_app : UsbApplication usb_globals := {|
  EVENT_USB_Device_ControlRequest := USB_Event_Stub;
  EVENT_USB_Device_ConfigurationChanged := USB_Event_Stub;
  EVENT_USB_Device_Connect := USB_Event_Stub;
  EVENT_USB_Device_Disconnect := USB_Event_Stub;
  EVENT_USB_Device_Reset := USB_Event_Stub;
  EVENT_USB_Device_Suspend := USB_Event_Stub;
  EVENT_USB_Device_WakeUp := USB_Event_Stub;
  EVENT_USB_Device_StartOfFrame := USB_Event_Stub;
  GetDescriptor v i := let '(a, size) := CALLBACK_USB_GetDescriptor v i in (memory_at a, size)
|}.

(** The memory behind every descriptor pointer. *)
Lemma callback_memory v i : let '(a, size) := CALLBACK_USB_GetDescriptor v i in
  Forall is_u8 (memory_at a) /\ 0 <= size < 65536 /\ size <= Z.of_nat (length (memory_at a)).
Proof.
  unfold CALLBACK_USB_GetDescriptor.
  repeat match goal with |- context [if ?b then _ else _] => destruct b end;
    (split; [by apply (bool_decide_unpack _)|by apply (bool_decide_unpack _)]).
Qed.

#[export] Instance descriptor_app_ok : UsbApplicationOk usb_globals.
Proof.
  split; [done|..]; intros v i; pose proof (callback_memory v i) as Hm;
    cbn [GetDescriptor descriptor_app]; destruct (CALLBACK_USB_GetDescriptor v i); by apply Hm.
Qed.

Section Bus.
#[local] Instance chip : Avr := datasheet USB_SERIES_2_AVR.
#[local] Instance chip_ok : AvrOk := datasheet_ok USB_SERIES_2_AVR.

(** The accesses since the SETUP packet was acknowledged. *)
Fixpoint after_ack (h : log) : option log :=
  match h with
  | [] => None
  | e :: h' => match after_ack h' with
               | Some l => Some (e :: l)
               | None => match e with
                         | Wr UEINTX v => if bit_tst v RXSTPI then None else Some []
                         | _ => None
                         end
               end
  end.

(** A controller with one SETUP packet [r]; [out] says when the host has sent an
    OUT packet. *)
Definition setup_bus (r : USB_Request_Header_t) (out : log -> bool) (n : nat) : platform := {|
  respond h reg := match reg with
    | UEDATX => default 0 (pack r !! length (reads UEDATX h))
    | UEINTX => 1 + (if out h then 4 else 0) + (if acked (writes h) then 0 else 8)
    | UEBCLX => Z.of_nat (length (snd (packets h)))
    | UDADDR => last_value UDADDR (writes h) 0
    | UENUM => selected h
    | UECONX => 1
    | V_USB_DeviceState => state_code DEVICE_STATE_Default
    | _ => 0
    end;
  fuel := n
|}.

Definition bus_world : world usb_globals := World (request_for 0) [].

Lemma bus_flags r out n h :
  bit_tst (reg_wrap UEINTX (respond (setup_bus r out n) h UEINTX)) TXINI = true /\
  bit_tst (reg_wrap UEINTX (respond (setup_bus r out n) h UEINTX)) RXSTPI = negb (acked (writes h)) /\
  bit_tst (reg_wrap UEINTX (respond (setup_bus r out n) h UEINTX)) RXOUTI = out h.
Proof. cbn [setup_bus respond]. by destruct (out h), (acked (writes h)). Qed.

Lemma bus_one_setup r out n : one_setup (setup_bus r out n) [].
Proof. intros new. rewrite app_nil_r. apply bus_flags. Qed.

Lemma bus_in r out n : flag_within 1 UEINTX TXINI (setup_bus r out n).
Proof. intros h _. apply bus_flags. Qed.

(** The log since an acknowledgement. *)
Lemma after_ack_new new before v v' : acked (writes before) = false -> bit_tst v' RXSTPI = false ->
  let h := new ++ Wr UEINTX v' :: Rd UEINTX v :: before in acked (writes h) = true /\ after_ack h = Some new.
Proof.
  intros Ha Hv h. split.
  - unfold h. rewrite writes_app. unfold acked. rewrite existsb_app. change (existsb _ _) with (acked (writes
      (Wr UEINTX v' :: Rd UEINTX v :: before))) at 1.
    rewrite writes_wr, writes_rd. unfold acked. rewrite existsb_app. cbn [existsb]. rewrite Hv. by rewrite !orb_true_r.
  - assert (forall l, acked (writes l) = false -> after_ack l = None) as Hnone.
    { induction l as [|[r' x|r' x] l IH]; [done|by intros Hl; cbn; rewrite IH|]. rewrite writes_wr. unfold acked.
      rewrite existsb_app, orb_false_iff. intros [Hl Hx]. cbn [after_ack]. rewrite IH by done.
      destruct r'; try done. cbn [existsb] in Hx. rewrite orb_false_r, bool_decide_true in Hx by done. by destruct (bit_tst x RXSTPI). }
    unfold h. clear h. induction new as [|e new IH]; cbn [app after_ack]; [|by rewrite IH].
    by rewrite (Hnone before Ha), Hv.
Qed.

Lemma bus_host r asked n :
  host_reads (setup_bus r (fun h => match after_ack h with
    | Some l => host_done asked (fst (packets l)) | None => false end) n) asked [].
Proof.
  intros before v v' Ha Hv new. rewrite app_nil_r. cbv zeta.
  destruct (after_ack_new new before v v' Ha Hv) as [Hack Haft]. cbv zeta in Hack, Haft. set (h := new ++ _) in *.
  match goal with |- context [respond ?b h UEINTX] => pose proof (bus_flags r (fun h => match after_ack h with
    | Some l => host_done asked (fst (packets l)) | None => false end) n h) as (E1 & E2 & E3) end.
  rewrite Hack in E2. rewrite Haft in E3. split_and!; [done|done|done|]. cbn. by apply (bool_decide_unpack _).
Qed.

(** GET_INTERFACE is refused. *)
Lemma unsupported_requests_stall_witness :
  wp False (USB_Device_ProcessControlRequest (G := usb_globals) (fun _ => 0))
    (fun _ w' => exists fs, refused fs /\ did bus_world w' (with_request (Request 0x81 10 0 0 1) bus_world) fs)
    (setup_bus (Request 0x81 10 0 0 1) (fun _ => false) 0) bus_world.
Proof.
  refine (unsupported_requests_stall (fun _ => 0) (setup_bus (Request 0x81 10 0 0 1) (fun _ => false) 0)
    (Request 0x81 10 0 0 1) bus_world (bus_one_setup _ _ _) _ eq_refl eq_refl).
  split; [reflexivity|by apply (bool_decide_unpack _)].
Defined.

(** Address 5. *)
Lemma set_address_protocol_witness :
  wp False (USB_Device_ProcessControlRequest (G := usb_globals) (fun _ => 0))
    (fun _ w' => exists ws, address_writes (setup_bus (Request 0 5 5 0 0) (fun _ => false) 2) 0 5 ws /\
       did bus_world w' (with_request (Request 0 5 5 0 0) bus_world) ws)
    (setup_bus (Request 0 5 5 0 0) (fun _ => false) 2) bus_world.
Proof.
  refine (set_address_protocol (fun _ => 0) (setup_bus (Request 0 5 5 0 0) (fun _ => false) 2)
    1 0 5 0 0 bus_world (bus_one_setup _ _ _) _ _ (bus_in _ _ _) _).
  - split; [reflexivity|by apply (bool_decide_unpack _)].
  - intros h. reflexivity.
  - cbn. lia.
Defined.

(** The 18 bytes of the device descriptor. *)
Lemma get_descriptor_delivers_witness :
  let p := setup_bus (Request 0x80 6 0x0100 0 18) (fun h => match after_ack h with
    | Some l => host_done 18 (fst (packets l)) | None => false end) 100 in
  wp False (USB_Device_ProcessControlRequest (G := usb_globals) (fun _ => 0))
    (fun _ w' => exists ws, did bus_world w' (with_request (Request 0x80 6 0x0100 0 18) bus_world) ws /\
       answer_writes (take 18 (pack DeviceDescriptor)) ws) p bus_world.
Proof.
  intros p. refine (get_descriptor_delivers (fun _ => 0) p 0x80 0x0100 0 18 bus_world _ _ _ (bus_one_setup _ _ _) _
    (bus_host _ _ _) _ _).
  - by left.
  - done.
  - done.
  - split; [reflexivity|by apply (bool_decide_unpack _)].
  - intros h Hh. cbn [p setup_bus respond]. split; [|done]. apply u8_small. unfold is_u8. lia.
  - by apply (bool_decide_unpack _).
Defined.

Lemma status_requests_witness :
  let p := setup_bus (Request 0x82 0 0 1 2) (fun _ => true) 2 in
  wp False (USB_Device_ProcessControlRequest (G := usb_globals) (fun _ => 0))
    (fun _ => answered bus_world (Request 0x82 0 0 1 2) [0; 0] [(UENUM, 1); (UENUM, 0)]) p bus_world.
Proof.
  intros p. refine (proj1 (proj2 (status_requests (fun _ => 0) p 1 (fun _ => false) 0 1 2 bus_world _ _
    (bus_one_setup _ _ _))) _ _ _).
  - intros h _. by apply bus_flags.
  - cbn. lia.
  - split; [reflexivity|by apply (bool_decide_unpack _)].
  - intros h. reflexivity.
  - reflexivity.
Defined.

(** Halt of endpoint 1, which is enabled. *)
Lemma feature_requests_witness :
  let p := setup_bus (Request 2 3 0 1 0) (fun _ => true) 2 in
  wp False (USB_Device_ProcessControlRequest (G := usb_globals) (fun _ => 0))
    (fun _ w' => exists hs ws, feature_writes p ws /\ halt_writes true 1 hs /\
       did bus_world w' (with_request (Request 2 3 0 1 0) bus_world) ((UENUM, 1) :: hs ++ ws)) p bus_world.
Proof.
  intros p. refine (proj2 (feature_requests (fun _ => 0) p 1 (fun _ => true) 3 0 1 0 bus_world (bus_in _ _ _) _
    (bus_one_setup _ _ _) _) _ _ _ _).
  - cbn. lia.
  - by right.
  - split; [reflexivity|by apply (bool_decide_unpack _)].
  - reflexivity.
  - intros h. reflexivity.
  - by apply (bool_decide_unpack _).
Defined.

Lemma usb_task_keeps_selection_witness :
  let p := setup_bus (Request 0 9 1 0 0) (fun _ => true) 2 in
  let w := World (request_for 0) [Wr UENUM 1] in
  (exists w', USB_USBTask (G := usb_globals) (fun _ => 0) p w = Done tt w') /\
  (forall w', USB_USBTask (G := usb_globals) (fun _ => 0) p w = Done tt w' -> selected (hist w') = 1).
Proof.
  intros p w. split; [eexists; vm_compute; reflexivity|].
  refine (proj1 (usb_task_keeps_selection (fun _ => 0) p w _ _)).
  - intros h. reflexivity.
  - cbn. lia.
Defined.
End Bus.
