(* ===== verification/StreamTransfers.v ===== *)
(** * What the stream functions receive, and streams cut into several calls

    The reading side of EndpointStream_AVR8.c: the bytes a control read takes
    from the data register end up in the buffer, in order, and a control read
    ends when the host sends.  And the protocol of [BytesProcessed]: a data
    stream that returns after each packet, called again until it is complete,
    transfers what one call would. *)

From S2P Require Import Prelude StdDescriptors HIDClass Descriptors Machine UsbCore Endpoint EndpointStream DeviceStandardReq.

(** ** Sinks of bytes *)

(** What the read templates need of the macros that configure them: [buf bs] is
    the buffer and the pointer after the bytes [bs] were stored. *)
Class Sink {G B} (transfer : B -> M G B) (move : Z -> B -> B) (buf : list Z -> B) (Len : nat) : Prop :=
  sink_step bs p (w : world G) : (length bs < Len)%nat ->
    let v := u8 (respond p (hist w) UEDATX) in
    exists b', transfer (buf bs) p w = Done b' (World (st w) (Rd UEDATX v :: hist w)) /\ move 1 b' = buf (bs ++ [v]).

(** Upwards from the start of the buffer. *)
Definition filled (mem : list Z) (bs : list Z) : list Z := bs ++ drop (length bs) mem.
(** Downwards from byte [Len - 1]. *)
Definition filled_down (Len : nat) (mem : list Z) (bs : list Z) : list Z :=
  take (Len - length bs) mem ++ reverse bs ++ drop Len mem.

Lemma store_byte_run {G} mem (i : nat) p (w : world G) : (i < length mem)%nat ->
  let v := u8 (respond p (hist w) UEDATX) in
  store_byte (mem, Z.of_nat i) p w = Done (<[i := v]> mem, Z.of_nat i) (World (st w) (Rd UEDATX v :: hist w)).
Proof.
  intros Hi v. unfold store_byte, Endpoint_Read_8, bind, rd, mlift, ret. cbn [fst snd reg_wrap].
  rewrite aset_Some by lia. by rewrite Nat2Z.id.
Qed.

Lemma filled_snoc mem bs v : (length bs < length mem)%nat -> filled mem (bs ++ [v]) = <[length bs := v]> (filled mem bs).
Proof.
  intros Hl. unfold filled. rewrite insert_app_r_alt, Nat.sub_diag by lia. rewrite length_app, <- app_assoc. f_equal. cbn [length].
  destruct (lookup_lt_is_Some_2 mem (length bs)) as [x Hx]; [lia|]. rewrite (drop_S _ _ _ Hx). cbn. by rewrite Nat.add_1_r.
Qed.

Lemma sink_up {G} mem (Len : nat) : (Len <= length mem)%nat ->
  Sink (G := G) store_byte move_up_in (fun bs => (filled mem bs, Z.of_nat (length bs))) Len.
Proof.
  intros Hl bs p w Hbs v. unfold filled. eexists. split.
  - apply store_byte_run. rewrite length_app, length_drop. lia.
  - unfold move_up_in. cbn [fst snd]. f_equal; [|rewrite length_app; cbn [length]; lia].
    symmetry. apply filled_snoc. lia.
Qed.

Lemma sink_down {G} mem (Len : nat) : (Len <= length mem)%nat ->
  Sink (G := G) store_byte move_down_in (fun bs => (filled_down Len mem bs, Z.of_nat Len - 1 - Z.of_nat (length bs))) Len.
Proof.
  intros Hl bs p w Hbs v. unfold filled_down. set (k := (Len - S (length bs))%nat).
  replace (Z.of_nat Len - 1 - Z.of_nat (length bs)) with (Z.of_nat k) by (unfold k; lia).
  eexists. split.
  - apply store_byte_run. rewrite !length_app, length_take, length_reverse, length_drop. unfold k. lia.
  - unfold move_down_in. cbn [fst snd]. f_equal; [|rewrite length_app; cbn [length]; unfold k; lia].
    rewrite length_app. cbn [length]. replace (Len - (length bs + 1))%nat with k by (unfold k; lia).
    replace (Len - length bs)%nat with (S k) by (unfold k; lia).
    destruct (lookup_lt_is_Some_2 mem k) as [x Hx]; [unfold k; lia|]. rewrite (take_S_r _ _ _ Hx), reverse_snoc, <- app_assoc.
    rewrite insert_app_r_alt by (rewrite length_take; lia). rewrite length_take. replace (k - min k (length mem))%nat with 0%nat by (unfold k; lia).
    done.
Qed.

(** ** A host that sends *)

(** Packets acknowledged and bytes read of the open one. *)
Fixpoint out_place (h : log) : nat * nat :=
  match h with
  | [] => (0, 0)%nat
  | Rd UEDATX _ :: h' => let '(j, i) := out_place h' in (j, S i)
  | Wr UEINTX _ :: h' => let '(j, i) := out_place h' in (S j, 0%nat)
  | _ :: h' => out_place h'
  end.

(** Reads, and writes of flags. *)
Definition flag_log (h : log) : Prop := Forall (fun e => match e with Wr r _ => r = UEINTX | Rd _ _ => True end) h.

(** From [h0] on the host sends packets of [size 0], [size 1], ... bytes, none of
    them empty, and no other request; the device stays attached. *)
Definition host_sends `{Avr} (p : platform) (h0 : log) (size : nat -> nat) : Prop :=
  (forall j, 0 < size j <= 64)%nat /\
  forall new, flag_log new -> let '(j, i) := out_place new in let h := new ++ h0 in
    let flag := bit_tst (reg_wrap UEINTX (respond p h UEINTX)) in
    flag RXSTPI = false /\ flag RXOUTI = true /\ flag TXINI = true /\
    reg_wrap V_USB_DeviceState (respond p h V_USB_DeviceState) = state_code DEVICE_STATE_Configured /\
    u8 (respond p h UEBCLX) = Z.of_nat (size j - i) /\ u8 (respond p h UEBCHX) = 0.

(** Every byte read from the data register in [new] is the one the hardware had
    there. *)
Fixpoint genuine (p : platform) (h0 new : log) : Prop :=
  match new with
  | [] => True
  | Rd UEDATX v :: new' => v = u8 (respond p (new' ++ h0) UEDATX) /\ genuine p h0 new'
  | _ :: new' => genuine p h0 new'
  end.

(** The host sends the bytes [msg], then nothing of interest. *)
Definition host_data (p : platform) (h0 : log) (msg : list Z) : Prop := forall new, flag_log new ->
  forall x, msg !! length (read_from UEDATX new) = Some x -> u8 (respond p (new ++ h0) UEDATX) = x.

(** The data as it is read. *)
Lemma host_data_read p h x rest : host_data p h (x :: rest) -> host_data p (Rd UEDATX x :: h) rest.
Proof.
  intros Hd new Hf y Hy. specialize (Hd (new ++ [Rd UEDATX x])). rewrite <- app_assoc in Hd. apply Hd.
  - apply Forall_app. split; [done|]. by apply Forall_singleton.
  - rewrite read_from_app, length_app. exact Hy.
Qed.
Lemma host_data_reads p h rds msg : Forall is_read rds -> read_from UEDATX rds = [] -> host_data p h msg -> host_data p (rds ++ h) msg.
Proof.
  intros Hr Hn Hd new Hf y Hy. rewrite app_assoc. apply Hd.
  - apply Forall_app. split; [done|]. revert Hr. apply Forall_impl. by intros [].
  - rewrite read_from_app, Hn. exact Hy.
Qed.
Lemma wp_data_byte {G} nf p x rest Q (w : world G) : host_data p (hist w) (x :: rest) ->
  (forall w', st w' = st w -> hist w' = Rd UEDATX x :: hist w -> host_data p (hist w') rest -> Q x w') -> wp nf (rd UEDATX) Q p w.
Proof.
  intros Hd HQ. apply wp_rd. intros v Hv. cbn [reg_wrap] in Hv. pose proof (Hd [] ltac:(constructor) x eq_refl) as Hx. cbn [app] in Hx. rewrite Hx in Hv. subst v.
  apply HQ; [done|done|]. by apply host_data_read.
Qed.

Lemma genuine_data p h0 msg new : genuine p h0 new -> flag_log new -> host_data p h0 msg ->
  (length (read_from UEDATX new) <= length msg)%nat -> read_from UEDATX new = take (length (read_from UEDATX new)) msg.
Proof.
  intros Hg Hf Hd. induction new as [|e new IH]; intros Hl; [done|]. inversion_clear Hf as [|? ? He Hf'].
  destruct e as [r v|r v]; [|rewrite read_from_wr in *; by apply IH; [destruct r|..]].
  destruct (decide (r = UEDATX)) as [->|Hne]; [|rewrite read_from_rd_ne in * by done; by apply IH; [destruct r|..]].
  destruct Hg as [-> Hg]. rewrite read_from_rd, length_app in *. cbn [length] in *.
  specialize (IH Hg Hf' ltac:(lia)). destruct (lookup_lt_is_Some_2 msg (length (read_from UEDATX new))) as [x Hx]; [lia|].
  rewrite (Hd new Hf' x Hx), Nat.add_1_r, (take_S_r _ _ _ Hx). by rewrite <- IH.
Qed.

Lemma genuine_u8 p h0 new : genuine p h0 new -> Forall is_u8 (read_from UEDATX new).
Proof.
  induction new as [|[r v|r v] new IH]; intros Hg; [constructor| |rewrite read_from_wr; by apply IH; destruct r].
  destruct (decide (r = UEDATX)) as [->|Hne]; [|rewrite read_from_rd_ne by done; by apply IH; destruct r].
  destruct Hg as [-> Hg]. rewrite read_from_rd. apply Forall_app. split; [by apply IH|]. apply Forall_singleton, u8_range.
Qed.

Section ControlRead.
Context {G : Type} `{UsbState G} `{AvrOk} {B : Type}.
Context (transfer : B -> M G B) (move : Z -> B -> B) (buf : list Z -> B) (Len : nat) (Hwide : Z.of_nat Len < 65536).
Context `{!Sink transfer move buf Len}.
Context (p : platform) (w0 : world G) (size : nat -> nat).
Implicit Types w : world G.

(** The bytes [bs] have been read and stored, in the accesses [new]. *)
Definition taken (new : log) (bs : list Z) w : Prop :=
  w = World (st w0) (new ++ hist w0) /\ flag_log new /\ read_from UEDATX new = bs /\ (length bs <= Len)%nat /\ genuine p (hist w0) new.

(** Reading the byte counter. *)
Lemma wp_bytes nf new bs Q w : taken new bs w ->
  (forall n new', taken new' bs (World (st w0) (new' ++ hist w0)) -> out_place new' = out_place new ->
     (host_sends p (hist w0) size -> n = Z.of_nat (size (out_place new).1 - (out_place new).2)) ->
     Q n (World (st w0) (new' ++ hist w0))) ->
  wp nf Endpoint_BytesInEndpoint Q p w.
Proof.
  intros (-> & Hl & Hr & Hb & Hg) HQ. unfold Endpoint_BytesInEndpoint. destruct series.
  - apply wp_rd. intros v ->. cbn [st hist]. apply (HQ _ (Rd UEBCLX _ :: new)); [by repeat split; try constructor|done|].
    intros [_ Hs]. specialize (Hs new Hl). destruct (out_place new) as [j i]. cbn [fst snd reg_wrap]. apply Hs.
  - apply wp_bind, wp_rd. intros hi Ehi. apply wp_bind, wp_rd. intros lo Elo. apply wp_ret. cbn [st hist] in *.
    apply (HQ _ (Rd UEBCLX lo :: Rd UEBCHX hi :: new)); [by repeat split; try (repeat constructor)|done|].
    intros [_ Hs]. pose proof (Hs new Hl) as Hhi. pose proof (Hs (Rd UEBCHX hi :: new)) as Hlo.
    cbn [out_place] in Hlo. destruct (out_place new) as [j i]. cbn [fst snd reg_wrap] in *.
    destruct Hlo as (_ & _ & _ & _ & Hlo & _); [by constructor|]. destruct Hhi as (_ & _ & _ & _ & _ & Hhi).
    rewrite Elo, Ehi, Hhi. rewrite Ehi, Hhi in Hlo. cbn [app] in Hlo. by rewrite Hlo.
Qed.

(** One packet, or as much of it as fits. *)
Lemma wp_drain nf new bs Q w : taken new bs w -> (out_place new).2 = 0%nat -> (nf \/ (Len < fuel p)%nat) ->
  (forall new' more, taken new' (bs ++ more) (World (st w0) (new' ++ hist w0)) ->
     (host_sends p (hist w0) size -> (length bs < Len)%nat -> more <> []) ->
     Q (buf (bs ++ more), Z.of_nat (Len - length (bs ++ more))) (World (st w0) (new' ++ hist w0))) ->
  wp nf (drain_packet transfer move (buf bs) (Z.of_nat (Len - length bs))) Q p w.
Proof.
  intros Ht Hi Hf HQ. unfold drain_packet.
  apply (wp_while_either nf p (fun x w' => exists new' more, taken new' (bs ++ more) w' /\
      out_place new' = ((out_place new).1, length more) /\ x = (buf (bs ++ more), Z.of_nat (Len - length (bs ++ more))))
    (fun x _ => Z.to_nat x.2)).
  - intros [ds len] w1 (new' & more & Ht' & Ho & [= -> ->]). pose proof Ht' as (_ & _ & _ & Hle & _).
    destruct (Z.eqb_spec (Z.of_nat (Len - length (bs ++ more))) 0) as [E|E].
    { apply wp_ret. pose proof Ht' as (-> & _). apply (HQ new'); [done|]. intros _ Hlt ->. rewrite app_nil_r in E. lia. }
    apply wp_bind. eapply wp_bytes; [exact Ht'|]. intros n new2 Ht2 Ho2 Hn. rewrite Ho in Ho2.
    destruct (Z.eqb_spec n 0) as [->|En].
    { apply wp_ret. apply (HQ new2); [done|]. intros Hs _ ->. specialize (Hn Hs). rewrite Ho in Hn. cbn [fst snd length] in Hn.
      destruct Hs as [Hs _]. specialize (Hs (out_place new).1). lia. }
    destruct (sink_step (bs ++ more) p (World (st w0) (new2 ++ hist w0))) as (b' & Hrun & Hmv); [lia|].
    apply wp_bind. unfold wp at 1. rewrite Hrun. apply wp_ret. cbn [st hist] in *. rewrite Hmv.
    set (v := u8 _). split; [|rewrite u16_small by (unfold is_u16; lia); cbn; lia].
    exists (Rd UEDATX v :: new2), (more ++ [v]). rewrite app_assoc. split_and!.
    + destruct Ht2 as (_ & Hl2 & Hr2 & _ & Hg2). split_and!; [done|by constructor|by rewrite read_from_rd, Hr2| |by split].
      rewrite length_app. cbn [length]. lia.
    + cbn [out_place]. rewrite Ho2. f_equal. rewrite length_app. cbn [length]. lia.
    + f_equal. rewrite u16_small by (unfold is_u16; lia). rewrite (length_app _ [v]). cbn [length]. lia.
  - exists new, []. rewrite app_nil_r. split_and!; [done| |done]. revert Hi. destruct (out_place new) as [j i]. cbn. by intros ->.
  - destruct Hf as [Hf|Hf]; [by left|right]. cbn [snd]. lia.
Qed.

Lemma taken_rd new bs r v : r <> UEDATX -> taken new bs (World (st w0) (new ++ hist w0)) ->
  taken (Rd r v :: new) bs (World (st w0) ((Rd r v :: new) ++ hist w0)) /\ out_place (Rd r v :: new) = out_place new.
Proof.
  intros Hr (_ & Hl & Hb & Hle & Hg). split; [split_and!; [done|by constructor|by rewrite read_from_rd_ne|done|by destruct r]|].
  by destruct r.
Qed.

(** The data stage. *)
Definition read_inv (x : B * Z) w : Prop := exists new bs, taken new bs w /\ (out_place new).2 = 0%nat /\
  x = (buf bs, Z.of_nat (Len - length bs)).

(** What a control read left behind. *)
Definition read_post (c : Endpoint_ControlStream_RW_ErrorCodes_t) (ds : B) w : Prop := exists new bs,
  taken new bs w /\ ds = buf bs /\ (c = ENDPOINT_RWCSTREAM_NoError -> length bs = Len).

Lemma wp_gone {A} nf new bs (done_ : Endpoint_ControlStream_RW_ErrorCodes_t -> A) k Q w : taken new bs w ->
  (forall c v, c <> ENDPOINT_RWCSTREAM_NoError -> (host_sends p (hist w0) size -> False) ->
     Q (done_ c) (World (st w0) ((Rd V_USB_DeviceState v :: new) ++ hist w0))) ->
  (forall v, wp nf k Q p (World (st w0) ((Rd V_USB_DeviceState v :: new) ++ hist w0))) ->
  wp nf (unless_gone done_ k) Q p w.
Proof.
  intros (-> & Hl & _) Hgone Hk. unfold unless_gone. apply wp_bind, wp_rd. intros v Hv. cbn [st hist] in *.
  assert (host_sends p (hist w0) size -> v = state_code DEVICE_STATE_Configured) as Hs.
  { intros [_ Hs]. specialize (Hs new Hl). destruct (out_place new). rewrite Hv. apply Hs. }
  destruct (Z.eqb_spec v (state_code DEVICE_STATE_Unattached)) as [E|_].
  { apply wp_ret. apply (Hgone _ v); [done|]. intros Hh. by rewrite (Hs Hh) in E. }
  destruct (Z.eqb_spec v (state_code DEVICE_STATE_Suspended)) as [E|_]; [|apply Hk].
  apply wp_ret. apply (Hgone _ v); [done|]. intros Hh. by rewrite (Hs Hh) in E.
Qed.

(** A flag, with its value when the host sends. *)
Lemma wp_flag nf new bs b Q w : taken new bs w ->
  (forall v, (host_sends p (hist w0) size -> (b = RXSTPI -> v = false) /\ (b = RXOUTI \/ b = TXINI -> v = true)) ->
     forall x, Q v (World (st w0) ((Rd UEINTX x :: new) ++ hist w0))) ->
  wp nf (reg_bit UEINTX b) Q p w.
Proof.
  intros (-> & Hl & _) HQ. apply wp_reg_bit. intros v Hv. apply HQ. intros [_ Hs]. specialize (Hs new Hl). cbn [hist] in Hv.
  destruct (out_place new). cbv zeta in Hs. rewrite <- Hv in Hs. destruct Hs as (H1' & H2' & H3' & _).
  split; [by intros ->|by intros [-> | ->]].
Qed.

Lemma wp_read_round nf x w : read_inv x w -> (nf \/ (Len < fuel p)%nat) ->
  wp nf (let '(DataStream, Length) := x in
    if Length =? 0 then ret (inr (None, DataStream)) else
    unless_gone (fun c => inr (Some c, DataStream)) (
      setup <- Endpoint_IsSETUPReceived;;
      if setup then ret (inr (Some ENDPOINT_RWCSTREAM_HostAborted, DataStream)) else
      out <- Endpoint_IsOUTReceived;;
      if out then
        r <- drain_packet transfer move DataStream Length;;
        Endpoint_ClearOUT;;;
        ret (inl r)
      else ret (inl (DataStream, Length))))
    (fun y w' => match y with
       | inl x' => read_inv x' w' /\ (host_sends p (hist w0) size -> (Z.to_nat x'.2 < Z.to_nat x.2)%nat)
       | inr (None, ds) => exists new bs, taken new bs w' /\ ds = buf bs /\ length bs = Len
       | inr (Some c, ds) => c <> ENDPOINT_RWCSTREAM_NoError /\ (host_sends p (hist w0) size -> False) /\
           exists new bs, taken new bs w' /\ ds = buf bs
       end) p w.
Proof.
  intros (new & bs & Ht & Hi & ->) Hf. pose proof Ht as (_ & _ & _ & Hle & _).
  destruct (Z.eqb_spec (Z.of_nat (Len - length bs)) 0) as [E|E].
  { apply wp_ret. exists new, bs. split_and!; [done|done|lia]. }
  eapply wp_gone; [exact Ht|..].
  { intros c v Hc Hno. split_and!; [done|done|]. pose proof Ht as (-> & _).
    eexists _, bs. split; [by apply (taken_rd new bs V_USB_DeviceState v)|done]. }
  intros v0. pose proof Ht as (-> & _). destruct (taken_rd new bs V_USB_DeviceState v0) as [Ht1 Ho1]; [done|done|].
  apply wp_bind. unfold Endpoint_IsSETUPReceived. eapply wp_flag; [exact Ht1|]. intros setup Hset x1.
  destruct (taken_rd _ bs UEINTX x1 ltac:(done) Ht1) as [Ht2 Ho2].
  destruct setup.
  { apply wp_ret. split_and!; [done| |eexists _, bs; by split]. intros Hs. by destruct (Hset Hs) as [Hx _]; specialize (Hx eq_refl). }
  apply wp_bind. unfold Endpoint_IsOUTReceived. eapply wp_flag; [exact Ht2|]. intros out Hout x2.
  destruct (taken_rd _ bs UEINTX x2 ltac:(done) Ht2) as [Ht3 Ho3]. rewrite Ho1 in Ho2. rewrite Ho2 in Ho3.
  destruct out.
  - apply wp_bind. eapply wp_drain; [exact Ht3|by rewrite Ho3|done|]. intros new4 more Ht4 Hmore.
    destruct flag_facts as ((_ & B2 & _ & B4) & _). unfold Endpoint_ClearOUT. apply wp_bind.
    destruct (clear_flags_run RXOUTI FIFOCON p (World (st w0) (new4 ++ hist w0)) B2 B4) as (u & u' & Hr & _).
    unfold wp at 1. rewrite Hr. apply wp_ret. cbn [st hist]. destruct Ht4 as (_ & Hl4 & Hb4 & Hle4 & Hg4). split.
    + exists (Wr UEINTX u' :: Rd UEINTX u :: new4), (bs ++ more). split_and!; [|cbn; by destruct (out_place new4)|done].
      split_and!; [done|by repeat constructor|by rewrite read_from_wr, read_from_rd_ne|done|done].
    + intros Hs. specialize (Hmore Hs ltac:(lia)). cbn [snd]. rewrite length_app. destruct more as [|y more]; [done|]. cbn [length]. lia.
  - apply wp_ret. split; [exists (Rd UEINTX x2 :: Rd UEINTX x1 :: Rd V_USB_DeviceState v0 :: new), bs; by rewrite Ho3|].
    intros Hs. by destruct (Hout Hs) as [_ Hx]; specialize (Hx (or_introl eq_refl)).
Qed.

(** A loop whose rounds make progress when the host sends, and which may run out
    of fuel when it does not. *)
Lemma wp_while_host {X R} (nf : Prop) (I : X -> world G -> Prop) (mu : X -> nat) (body : X -> M G (X + R)) Q x w :
  (forall x w, I x w -> wp nf (body x) (fun y w' => match y with
     | inl x' => I x' w' /\ (host_sends p (hist w0) size -> (mu x' < mu x)%nat) | inr r => Q r w' end) p w) ->
  I x w -> (nf \/ host_sends p (hist w0) size /\ (mu x < fuel p)%nat) -> wp nf (while_ body x) Q p w.
Proof.
  intros Hb HI [Hnf|[Hs Hf]].
  - apply (wp_while nf p I); [done| |done]. intros x1 w1 H1'. eapply wp_mono; [by apply Hb|]. intros [x2|r] w2; [by intros [? _]|done].
  - apply (wp_while_variant nf p I (fun x _ => mu x)); [|done|done]. intros x1 w1 H1'. eapply wp_mono; [by apply Hb|].
    intros [x2|r] w2; [|done]. intros [? Hlt]. split; [done|by apply Hlt].
Qed.

Lemma wp_read_status nf new bs w : taken new bs w -> (nf \/ host_sends p (hist w0) size /\ (1 < fuel p)%nat) ->
  wp nf control_r_status (fun c w' => (exists new', taken new' bs w') /\
    (host_sends p (hist w0) size -> c = ENDPOINT_RWCSTREAM_NoError)) p w.
Proof.
  intros Ht Hf. unfold control_r_status. apply (wp_while_host nf (fun _ w' => exists new', taken new' bs w') (fun _ => 0%nat));
    [|by exists new|destruct Hf as [?|[? ?]]; [by left|right; split; [done|lia]]].
  intros u w1 [new1 Ht1]. apply wp_bind. unfold Endpoint_IsINReady. eapply wp_flag; [exact Ht1|]. intros v Hv x1.
  pose proof Ht1 as (-> & _). destruct (taken_rd _ bs UEINTX x1 ltac:(done) Ht1) as [Ht2 _].
  destruct v; [apply wp_ret; split; [by eexists|done]|].
  assert (host_sends p (hist w0) size -> False) as Hno.
  { intros Hs. by destruct (Hv Hs) as [_ Hx]; specialize (Hx (or_intror eq_refl)). }
  eapply wp_gone; [exact Ht2|..].
  - intros c v _ Hno'. split; [|by intros Hs; destruct (Hno' Hs)]. eexists. by apply (taken_rd _ bs V_USB_DeviceState v ltac:(done) Ht2).
  - intros v. apply wp_ret. split; [|by intros Hs; destruct (Hno Hs)]. eexists. by apply (taken_rd _ bs V_USB_DeviceState v ltac:(done) Ht2).
Qed.

Lemma wp_control_read nf : (nf \/ host_sends p (hist w0) size /\ (Len + 1 < fuel p)%nat) ->
  wp nf (Template_Endpoint_Control_R transfer move (buf []) (Z.of_nat Len))
    (fun x w' => read_post x.1 x.2 w' /\ (host_sends p (hist w0) size -> x.1 = ENDPOINT_RWCSTREAM_NoError)) p w0.
Proof.
  intros Hf. assert (nf \/ (Len < fuel p)%nat) as Hf' by (destruct Hf as [?|[_ ?]]; [by left|right; lia]).
  unfold Template_Endpoint_Control_R. apply wp_bind.
  assert (forall w, read_inv (buf [], Z.of_nat Len) w -> wp nf
    (r <- control_r_data transfer move (buf []) (Z.of_nat Len);;
     let '(e, DataStream) := r in
     match e with Some code => ret (code, DataStream) | None => code <- control_r_status;; ret (code, DataStream) end)
    (fun x w' => read_post x.1 x.2 w' /\ (host_sends p (hist w0) size -> x.1 = ENDPOINT_RWCSTREAM_NoError)) p w) as Hdata.
  { intros w Hi. apply wp_bind. unfold control_r_data. apply (wp_while_host nf read_inv (fun x => Z.to_nat x.2));
      [|done|destruct Hf as [?|[? ?]]; [by left|right; split; [done|cbn; lia]]].
    intros x w1 H1'. eapply wp_mono; [by apply (wp_read_round nf)|].
    intros [x'|[[c|] ds]] w2; [done|..].
    - intros (Hc & Hno & new & bs & Ht & ->). apply wp_ret. split; [|by intros Hs; destruct (Hno Hs)].
      exists new, bs. by split_and!.
    - intros (new & bs & Ht & -> & Hlen). apply wp_bind. eapply wp_mono; [apply (wp_read_status nf new bs w2 Ht)|].
      + destruct Hf as [?|[? ?]]; [by left|right; split; [done|lia]].
      + intros c w3 [[new' Ht'] Hc]. apply wp_ret. split; [|done]. exists new', bs. by split_and!. }
  assert (read_inv (buf [], Z.of_nat Len) w0) as Hi0.
  { exists [], []. cbn [length out_place]. rewrite Nat.sub_0_r. split_and!; [|done|done].
    split_and!; [by destruct w0|constructor|done|cbn; lia|done]. }
  destruct (Z.of_nat Len =? 0).
  - destruct flag_facts as ((_ & B2 & _ & B4) & _). unfold Endpoint_ClearOUT.
    destruct (clear_flags_run RXOUTI FIFOCON p w0 B2 B4) as (u & u' & Hr & _). unfold wp at 1. rewrite Hr. apply Hdata.
    exists [Wr UEINTX u'; Rd UEINTX u], []. cbn [length out_place]. rewrite Nat.sub_0_r. split_and!; [|done|done].
    split_and!; [done|by repeat constructor|done|cbn; lia|done].
  - apply wp_ret. by apply Hdata.
Qed.
End ControlRead.

(** ** The data stage of a request *)

Section DataStage.
Context {G : Type} `{UsbStateOk G} `{AvrOk} (p : platform).
Implicit Types w : world G.

Lemma flag_log_writes new : flag_log new -> data_and_flags (writes new).
Proof.
  induction 1 as [|[r v|r v] new He _ IH]; [constructor|done|]. rewrite writes_wr. apply Forall_app. split; [done|].
  apply Forall_singleton. by right.
Qed.

(** The host sends the bytes [msg] once its request is acknowledged, in packets of
    whatever sizes. *)
Definition host_commands (h0 : log) (msg : list Z) : Prop := exists size, forall before v v',
  acked (writes before) = false -> bit_tst v' RXSTPI = false ->
  let h := Wr UEINTX v' :: Rd UEINTX v :: before ++ h0 in host_sends p h size /\ host_data p h msg.

(** Reading it stores exactly [msg]. *)
Lemma wp_take_in nf msg b before u u' g h0 Q : host_commands h0 msg -> writes before = [] -> bit_tst u' RXSTPI = false ->
  (length msg <= length b)%nat -> Z.of_nat (length msg) < 65536 -> (length msg + 1 < fuel p)%nat ->
  (forall x new, data_and_flags (writes new) ->
     Q (x, (filled b msg, Z.of_nat (length msg))) (World g (new ++ Wr UEINTX u' :: Rd UEINTX u :: before ++ h0))) ->
  wp nf (Endpoint_Read_Control_Stream_LE b (Z.of_nat (length msg))) Q p (World (G := G) g (Wr UEINTX u' :: Rd UEINTX u :: before ++ h0)).
Proof.
  intros [size Hhost] Hw Hu' Hl Hwide Hf HQ. destruct (Hhost before u u') as [Hsends Hdata]; [by rewrite Hw|done|].
  set (w2 := World g _). change (Wr UEINTX u' :: Rd UEINTX u :: before ++ h0) with (hist w2) in Hsends, Hdata.
  pose proof (wp_control_read store_byte move_up_in (fun bs => (filled b bs, Z.of_nat (length bs))) (length msg) Hwide
    (Sink0 := sink_up b (length msg) Hl) p w2 size nf (or_intror (conj Hsends Hf))) as Hread.
  eapply wp_mono; [exact Hread|]. intros [c [buf ptr]] w3 [(new & bs & (Hw3 & Hlog & Hrd & _ & Hg) & [= -> ->] & Hlen) Hc]. cbn [fst snd] in *.
  specialize (Hlen (Hc Hsends)). assert (bs = msg) as ->.
  { pose proof (genuine_data p (hist w2) msg new Hg Hlog Hdata) as E. rewrite Hrd, Hlen in E.
    rewrite E by lia. by rewrite firstn_all. }
  subst w3. apply HQ. by apply flag_log_writes.
Qed.

Lemma host_reads_later asked h0 before : writes before = [] -> host_reads p asked h0 -> host_reads p asked (before ++ h0).
Proof.
  intros Hw Hh before' v v' Ha Hv. rewrite app_assoc. apply Hh; [|done]. by rewrite writes_app, Hw.
Qed.
End DataStage.

(** A control read stores what it reads.  Whatever the host does, the bytes
    the hardware had in the data register are exactly those stored, in order, from the
    start of the buffer upwards (from its end downwards for the BE function),
    at most [Length] of them, the rest of the buffer and every object are
    untouched and only flags are written; without an error code all [Length]
    bytes were received.  When the host sends packets, of whatever sizes, the
    function ends without error. *)
Theorem control_read_fills {G} `{UsbState G} `{AvrOk} mem (Len : nat) p (w : world G) size :
  (Len <= length mem)%nat -> Z.of_nat Len < 65536 ->
  let up := fun bs => (filled mem bs, Z.of_nat (length bs)) in
  let down := fun bs => (filled_down Len mem bs, Z.of_nat Len - 1 - Z.of_nat (length bs)) in
  wp True (Endpoint_Read_Control_Stream_LE mem (Z.of_nat Len)) (fun x w' => read_post up Len p w x.1 x.2 w') p w /\
  wp True (Endpoint_Read_Control_Stream_BE mem (Z.of_nat Len)) (fun x w' => read_post down Len p w x.1 x.2 w') p w /\
  (host_sends p (hist w) size -> (Len + 1 < fuel p)%nat ->
   wp False (Endpoint_Read_Control_Stream_LE mem (Z.of_nat Len))
     (fun x w' => x.1 = ENDPOINT_RWCSTREAM_NoError /\ read_post up Len p w x.1 x.2 w') p w /\
   wp False (Endpoint_Read_Control_Stream_BE mem (Z.of_nat Len))
     (fun x w' => x.1 = ENDPOINT_RWCSTREAM_NoError /\ read_post down Len p w x.1 x.2 w') p w).
Proof.
  intros Hl Hw up down.
  assert (forall nf, (nf \/ host_sends p (hist w) size /\ (Len + 1 < fuel p)%nat) ->
    wp nf (Endpoint_Read_Control_Stream_LE mem (Z.of_nat Len)) (fun x w' => read_post up Len p w x.1 x.2 w' /\
      (host_sends p (hist w) size -> x.1 = ENDPOINT_RWCSTREAM_NoError)) p w /\
    wp nf (Endpoint_Read_Control_Stream_BE mem (Z.of_nat Len)) (fun x w' => read_post down Len p w x.1 x.2 w' /\
      (host_sends p (hist w) size -> x.1 = ENDPOINT_RWCSTREAM_NoError)) p w) as Hboth.
  { intros nf Hf. split.
    - apply (wp_control_read store_byte move_up_in up Len Hw (Sink0 := sink_up mem Len Hl) p w size nf Hf).
    - unfold Endpoint_Read_Control_Stream_BE.
      replace (mem, Z.of_nat Len - 1) with (down []).
      + apply (wp_control_read store_byte move_down_in down Len Hw (Sink0 := sink_down mem Len Hl) p w size nf Hf).
      + unfold down, filled_down. cbn [length reverse app]. rewrite Nat.sub_0_r, Z.sub_0_r. f_equal. apply take_drop. }
  destruct (Hboth True) as [Hup Hdown]; [by left|]. split_and!.
  - eapply wp_mono; [exact Hup|]. by intros x w' [? _].
  - eapply wp_mono; [exact Hdown|]. by intros x w' [? _].
  - intros Hs Hf. destruct (Hboth False) as [Hu Hd]; [by right|].
    split; [eapply wp_mono; [exact Hu|]|eapply wp_mono; [exact Hd|]]; intros x w' [? Hc]; split; [by apply Hc|done|by apply Hc|done].
Qed.

(** ** Transfers in several calls *)

(** Accesses that move no byte and hand over no packet. *)
Definition quiet (e : event) : Prop :=
  match e with Rd UEDATX _ | Wr UEDATX _ | Wr UEINTX _ => False | _ => True end.

Lemma written_quiet l : Forall quiet l -> written UEDATX l = [].
Proof.
  induction 1 as [|[r v|r v] l He _ IH]; [done|by rewrite written_rd|]. rewrite written_wr_ne; [done|]. by intros ->.
Qed.
Lemma read_quiet l : Forall quiet l -> read_from UEDATX l = [].
Proof.
  induction 1 as [|[r v|r v] l He _ IH]; [done| |by rewrite read_from_wr]. rewrite read_from_rd_ne; [done|]. by intros ->.
Qed.

(** No byte was moved since the last packet was handed over, or since the start. *)
Fixpoint fresh_bank (h : log) : bool :=
  match h with
  | [] => true
  | Wr UEINTX _ :: _ => true
  | Rd UEDATX _ :: _ | Wr UEDATX _ :: _ => false
  | _ :: h' => fresh_bank h'
  end.

(** What the data-stream template needs of the macros that configure it.  The
    bytes moved so far are [bs]; [obs] reads them off a log; a call starts at
    [start bs] and is at [pos bs] after the pointer was moved over them. *)
Class Transfer {G B} (transfer : B -> M G B) (move : Z -> B -> B) (obs : log -> list Z)
    (valid : list Z -> Prop) (start pos : list Z -> B) (Len : nat) : Prop := {
  transfer_move bs : (length bs <= Len)%nat -> move (Z.of_nat (length bs)) (start bs) = pos bs;
  transfer_step bs p (w : world G) : valid bs -> (length bs < Len)%nat -> exists b' e v,
    transfer (pos bs) p w = Done b' (World (st w) (e :: hist w)) /\ move 1 b' = pos (bs ++ [v]) /\
    obs [e] = [v] /\ valid (bs ++ [v]) /\ fresh_bank [e] = false;
  obs_app new h : obs (new ++ h) = obs h ++ obs new;
  obs_quiet e : quiet e -> obs [e] = [];
  obs_flags v : obs [Wr UEINTX v] = []
}.

Lemma obs_silent {G B} (transfer : B -> M G B) move obs valid start pos Len
    `{!Transfer transfer move obs valid start pos Len} new : Forall quiet new -> obs new = [].
Proof.
  induction 1 as [|e new He _ IH].
  - pose proof (obs_app [] []) as E. cbn [app] in E. destruct (obs []) as [|x l]; [done|].
    apply (f_equal length) in E. rewrite length_app in E. cbn in E. lia.
  - change (e :: new) with ([e] ++ new). by rewrite obs_app, IH, obs_quiet.
Qed.

(** The loop of the documentation of the stream functions: call again while the
    transfer is incomplete; [b] is what the calls did to the buffer. *)
Definition resume {G B} (call : B -> Z -> M G (Endpoint_Stream_RW_ErrorCodes_t * B * option Z)) (b0 : B) :
    M G (Endpoint_Stream_RW_ErrorCodes_t * B) :=
  while_ (fun '(b, BytesProcessed) =>
    r <- call b BytesProcessed;;
    let '(code, b', bp) := r in
    ret (match code with
         | ENDPOINT_RWSTREAM_IncompleteTransfer => inl (b', default BytesProcessed bp)
         | _ => inr (code, b')
         end)) (b0, 0).

Section Resume.
Context {G : Type} `{UsbState G} `{AvrOk} {B : Type}.
Context (transfer : B -> M G B) (move : Z -> B -> B) (obs : log -> list Z) (valid : list Z -> Prop)
  (start pos : list Z -> B) (Len : nat) (Hwide : Z.of_nat Len < 65536).
Context `{!Transfer transfer move obs valid start pos Len}.
Context (task clear : M G unit) (p : platform) (nf : Prop).
Implicit Types w : world G.

(** Handing over a packet writes its flags; the task between packets is quiet, as
    [USB_USBTask] is while no control request waits. *)
Context (Hclear : exists a b, 0 <= a < 8 /\ 0 <= b < 8 /\ clear = clear_flags a b).
Context (Htask : forall w, wp nf task (fun _ w' => exists new, hist w' = new ++ hist w /\ Forall quiet new) p w).

(** From [h0] on the endpoint is ready when polled, and a fresh bank takes or
    holds at least one byte. *)
Definition serves (h0 : log) : Prop := forall new, let h := new ++ h0 in
  bit_tst (reg_wrap UEINTX (respond p (Rd UECFG0X (reg_wrap UECFG0X (respond p h UECFG0X)) :: h) UEINTX))
    (if bit_tst (reg_wrap UECFG0X (respond p h UECFG0X)) EPDIR then TXINI else RXOUTI) = true /\
  (fresh_bank new = true -> bit_tst (reg_wrap UEINTX (respond p h UEINTX)) RWAL = true).

Context (w0 : world G).
Definition goes_on : Prop := nf \/ serves (hist w0) /\ (Len + 1 < fuel p)%nat.

(** The wait only polls. *)
Lemma fresh_quiet rds new : Forall quiet rds -> fresh_bank (rds ++ new) = fresh_bank new.
Proof. induction 1 as [|[r v|r v] rds He _ IH]; [done|by destruct r|by destruct r]. Qed.

Lemma wp_wait_stream new w Q : goes_on -> hist w = new ++ hist w0 ->
  (forall code rds, Forall quiet rds -> (serves (hist w0) -> code = ENDPOINT_READYWAIT_NoError) ->
     Q code (World (st w) (rds ++ hist w))) ->
  wp nf Endpoint_WaitUntilReady Q p w.
Proof.
  intros Hgo Hh HQ. rewrite wait_unfold. unfold USB_Device_GetFrameNumber. apply wp_bind, wp_rd. intros f _. cbn [st hist].
  set (I := fun (_ : Z * Z) w' => exists rds, Forall quiet rds /\ w' = World (st w) (rds ++ hist w)).
  assert (forall x w', I x w' -> wp nf (wait_round x) (fun y w2 => match y with
    | inl x' => I x' w2 /\ (serves (hist w0) -> False) | inr c => Q c w2 end) p w') as Hround.
  { intros [rem prev] w' (rds & Hr & ->). unfold wait_round, Endpoint_GetEndpointDirection.
    apply wp_bind, wp_bind, wp_reg_bit. intros c Hc. apply wp_ret. cbn [st hist] in *.
    assert ((if (if bit_tst c EPDIR then ENDPOINT_DIR_IN else ENDPOINT_DIR_OUT) =? ENDPOINT_DIR_IN
             then Endpoint_IsINReady else Endpoint_IsOUTReceived) =
            reg_bit (G := G) UEINTX (if bit_tst c EPDIR then TXINI else RXOUTI)) as -> by (by destruct (bit_tst c EPDIR)).
    apply wp_bind, wp_reg_bit. intros v Hv. cbn [st hist] in *.
    assert (serves (hist w0) -> bit_tst v (if bit_tst c EPDIR then TXINI else RXOUTI) = true) as Hs.
    { intros Hs. rewrite Hv, Hc, Hh. rewrite app_assoc. apply Hs. }
    destruct (bit_tst v _).
    { apply wp_ret. apply (HQ _ (Rd UEINTX v :: Rd UECFG0X c :: rds)); [by repeat constructor|done]. }
    assert (serves (hist w0) -> False) as Hno by (intros Hx; by specialize (Hs Hx)).
    apply wp_bind, wp_rd. intros s _. cbn [st hist].
    destruct (s =? _); [apply wp_ret, (HQ _ (_ :: _ :: _ :: rds)); [by repeat constructor|by intros Hx; destruct (Hno Hx)]|].
    destruct (s =? _); [apply wp_ret, (HQ _ (_ :: _ :: _ :: rds)); [by repeat constructor|by intros Hx; destruct (Hno Hx)]|].
    apply wp_bind. unfold Endpoint_IsStalled. apply wp_reg_bit. intros u _. cbn [st hist].
    destruct (bit_tst u STALLRQ); [apply wp_ret, (HQ _ (_ :: _ :: _ :: _ :: rds)); [by repeat constructor|by intros Hx; destruct (Hno Hx)]|].
    apply wp_bind. unfold USB_Device_GetFrameNumber. apply wp_rd. intros f' _. apply wp_ret. cbn [st hist].
    assert (forall x', I x' (World (st w) (Rd UDFNUM f' :: Rd UECONX u :: Rd V_USB_DeviceState s :: Rd UEINTX v :: Rd UECFG0X c :: rds ++ hist w))) as HI
      by (intros x'; exists (Rd UDFNUM f' :: Rd UECONX u :: Rd V_USB_DeviceState s :: Rd UEINTX v :: Rd UECFG0X c :: rds); split; [by repeat constructor|done]).
    destruct (f' =? prev); [split; [apply HI|done]|].
    destruct (rem =? 0); [|split; [apply HI|done]].
    apply (HQ _ (_ :: _ :: _ :: _ :: _ :: rds)); [by repeat constructor|by intros Hx; destruct (Hno Hx)]. }
  assert (I (USB_STREAM_TIMEOUT_MS, f) (World (st w) (Rd UDFNUM f :: hist w))) as HI0 by (exists [Rd UDFNUM f]; split; [by repeat constructor|done]).
  destruct Hgo as [Hnf|[Hs Hf]].
  - apply (wp_while nf p I); [done| |done]. intros x w' HI. eapply wp_mono; [by apply Hround|]. intros [x'|c] w2; [by intros [? _]|done].
  - apply (wp_while_variant nf p I (fun _ _ => 0%nat)); [|done|lia]. intros x w' HI. eapply wp_mono; [by apply Hround|].
    intros [x'|c] w2; [|done]. intros [_ Hno]. by destruct (Hno Hs).
Qed.

(** The bytes [bs] have been moved in the accesses [new] since [w0]. *)
Definition moved (new : log) (bs : list Z) w : Prop :=
  hist w = new ++ hist w0 /\ obs new = bs /\ valid bs /\ (length bs <= Len)%nat.

Lemma moved_quiet new bs w rds g : moved new bs w -> Forall quiet rds ->
  moved (rds ++ new) bs (World g (rds ++ hist w)) /\ fresh_bank (rds ++ new) = fresh_bank new.
Proof.
  intros (Hh & Ho & Hv & Hl) Hr. split; [|by apply fresh_quiet]. split_and!; [|by rewrite obs_app, Ho, (obs_silent transfer move obs valid start pos Len), app_nil_r|done|done].
  cbn [hist]. by rewrite Hh, app_assoc.
Qed.

(** What one call returns, from [bs0] moved before. *)
Definition call_post (bs0 : list Z) (x : Endpoint_Stream_RW_ErrorCodes_t * B * option Z) w' : Prop :=
  let '(code, ds, bp) := x in exists new bs, moved new bs w' /\ bs0 `prefix_of` bs /\
    match code with
    | ENDPOINT_RWSTREAM_NoError => length bs = Len /\ ds = pos bs /\ bp = Some (Z.of_nat (length bs0))
    | ENDPOINT_RWSTREAM_IncompleteTransfer => ds = pos bs /\ bp = Some (Z.of_nat (length bs)) /\ fresh_bank new = true /\
        (serves (hist w0) -> (length bs0 < length bs)%nat)
    | _ => bs = bs0 /\ bp = Some (Z.of_nat (length bs0)) /\ (serves (hist w0) -> False)
    end.

(** The state of the loop inside one call. *)
Definition call_inv (bs0 : list Z) (x : B * Z * Z) w : Prop := exists new more,
  moved new (bs0 ++ more) w /\ x = (pos (bs0 ++ more), Z.of_nat (Len - length (bs0 ++ more)), Z.of_nat (length more)) /\
  (more = [] -> fresh_bank new = true).

(** The packet is full, or empty: it is handed over and the call ends. *)
Lemma wp_hand_over bs0 new more w : moved new (bs0 ++ more) w -> (more = [] -> serves (hist w0) -> False) ->
  wp nf (clear;;; task;;;
         ret (inr (ENDPOINT_RWSTREAM_IncompleteTransfer, pos (bs0 ++ more), Some (u16 (Z.of_nat (length bs0) + Z.of_nat (length more))))))
    (fun y w' => match y with inl x' => call_inv bs0 x' w' /\ False | inr r => call_post bs0 r w' end) p w.
Proof.
  intros Hm Hfr. destruct Hclear as (a & b & Ha & Hb & ->). destruct (clear_flags_run a b p w Ha Hb) as (u & u' & Hr & _).
  apply wp_bind. unfold wp at 1. rewrite Hr. apply wp_bind. eapply wp_mono; [apply Htask|].
  intros [] w2 (new2 & Hh2 & Hq2). cbn [hist] in Hh2. apply wp_ret.
  destruct Hm as (Hh & Ho & Hv & Hl). exists (new2 ++ Wr UEINTX u' :: Rd UEINTX u :: new), (bs0 ++ more).
  assert (obs (Wr UEINTX u' :: Rd UEINTX u :: new) = bs0 ++ more) as Hobs.
  { change (Wr UEINTX u' :: Rd UEINTX u :: new) with ([Wr UEINTX u'] ++ [Rd UEINTX u] ++ new).
    by rewrite !obs_app, obs_flags, obs_quiet, !app_nil_r. }
  split_and!; [| |done| | |].
  - split_and!; [rewrite Hh2, Hh; by rewrite <- app_assoc| |done|done].
    by rewrite obs_app, Hobs, (obs_silent transfer move obs valid start pos Len), app_nil_r.
  - by exists more.
  - rewrite length_app in *. rewrite u16_small by (unfold is_u16; lia). f_equal. lia.
  - by rewrite fresh_quiet.
  - intros Hs. rewrite length_app. destruct more as [|x more]; [by destruct (Hfr eq_refl Hs)|]. cbn [length]. lia.
Qed.

Lemma wp_call bs0 new0 w : goes_on -> moved new0 bs0 w -> fresh_bank new0 = true ->
  wp nf (Template_Endpoint_RW task transfer move clear (start bs0) (Z.of_nat Len) (Some (Z.of_nat (length bs0))))
    (call_post bs0) p w.
Proof.
  intros Hgo Hm0 Hf0. pose proof Hm0 as (Hh0 & _ & Hv0 & Hl0). unfold Template_Endpoint_RW. apply wp_bind.
  apply (wp_wait_stream new0); [done|done|]. intros code rds Hr Hc. destruct (moved_quiet new0 bs0 w rds (st w) Hm0 Hr) as [Hm1 Hf1].
  case_bool_decide as Ec; cbn [negb].
  2: { apply wp_ret. exists (rds ++ new0), bs0. split; [done|]. split; [done|].
       destruct code; try done; cbn [stream_code]; (split_and!; [done|done|]; intros Hs; by specialize (Hc Hs)). }
  rewrite transfer_move by done. rewrite u16_small by (unfold is_u16; lia).
  replace (Z.of_nat Len - Z.of_nat (length bs0)) with (Z.of_nat (Len - length bs0)) by lia.
  apply (wp_while_either nf p (call_inv bs0) (fun x _ => Z.to_nat x.1.2)).
  - intros x w1 (new & more & Hm & -> & Hfr). pose proof Hm as (Hh & Ho & Hv & Hl).
    destruct (Z.eqb_spec (Z.of_nat (Len - length (bs0 ++ more))) 0) as [E|E].
    { apply wp_ret. exists new, (bs0 ++ more). split_and!; [done|by exists more|lia|done|done]. }
    apply wp_bind. unfold Endpoint_IsReadWriteAllowed. apply wp_reg_bit. intros v Ev.
    destruct (moved_quiet new (bs0 ++ more) w1 [Rd UEINTX v] (st w1) Hm) as [Hm2 _]; [by repeat constructor|]. cbn [app] in Hm2.
    destruct (bit_tst v RWAL) eqn:Erw; cbn [negb].
    + destruct (transfer_step (bs0 ++ more) p (World (st w1) (Rd UEINTX v :: hist w1))) as (b' & e & y & Hrun & Hmv & Hobs & Hval & Hef); [done|lia|].
      apply wp_bind. unfold wp at 1. rewrite Hrun. apply wp_ret. cbn [st hist] in *. rewrite Hmv.
      rewrite length_app in E, Hl |- *. rewrite !u16_small by (unfold is_u16; lia). split; [|cbn [fst snd]; lia].
      exists (e :: Rd UEINTX v :: new), (more ++ [y]). rewrite app_assoc. split_and!; [| |by destruct more].
      * destruct Hm2 as (Hh2 & Ho2 & _ & _). split_and!; [cbn [hist] in *; by rewrite Hh2| |done|rewrite !length_app; cbn [length]; lia].
        change (e :: Rd UEINTX v :: new) with ([e] ++ Rd UEINTX v :: new). by rewrite obs_app, Ho2, Hobs.
      * rewrite !length_app. cbn [length]. repeat f_equal; lia.
    + eapply wp_mono; [eapply wp_hand_over; [exact Hm2|]|].
      * intros Hnil Hs. specialize (Hfr Hnil). rewrite Ev, Hh in Erw. by rewrite (proj2 (Hs new) Hfr) in Erw.
      * by intros [x'|r] w2; [intros [_ []]|].
  - exists (rds ++ new0), []. rewrite app_nil_r. split_and!; [done|done|]. by rewrite Hf1.
  - destruct Hgo as [?|[_ ?]]; [by left|right]. cbn [fst snd]. lia.
Qed.

(** The bytes moved by all calls together. *)
Definition resume_post (x : Endpoint_Stream_RW_ErrorCodes_t * B) w' : Prop :=
  exists new bs, moved new bs w' /\ x.1 <> ENDPOINT_RWSTREAM_IncompleteTransfer /\
    (x.1 = ENDPOINT_RWSTREAM_NoError -> length bs = Len /\ x.2 = pos bs) /\
    (serves (hist w0) -> x.1 = ENDPOINT_RWSTREAM_NoError).

Lemma wp_resume (call : B -> Z -> M G (Endpoint_Stream_RW_ErrorCodes_t * B * option Z)) :
  goes_on -> valid [] -> obs [] = [] ->
  (forall bs n, call (pos bs) n = Template_Endpoint_RW task transfer move clear (start bs) (Z.of_nat Len) (Some n)) ->
  wp nf (resume call (pos [])) resume_post p w0.
Proof.
  intros Hgo Hv0 Ho0 Hre. unfold resume.
  set (I := fun (x : B * Z) w => exists new bs, moved new bs w /\ fresh_bank new = true /\ x = (pos bs, Z.of_nat (length bs))).
  set (body := fun x : B * Z => _).
  assert (forall x w, I x w -> wp nf (body x) (fun y w' => match y with
    | inl x' => I x' w' /\ (serves (hist w0) -> (Len - Z.to_nat x'.2 < Len - Z.to_nat x.2)%nat)
    | inr r => resume_post r w' end) p w) as Hround.
  { intros x w (new & bs & Hm & Hf & ->). unfold body. rewrite Hre. apply wp_bind. eapply wp_mono; [by apply (wp_call bs new)|].
    intros [[code b'] bp] w' (new' & bs' & Hm' & Hpre & Hcode). apply wp_ret.
    destruct code; [|destruct Hcode as (-> & _ & Hno); exists new', bs; split_and!; [done|done|done|by intros Hs; destruct (Hno Hs)]..|].
    - destruct Hcode as (Hlen & -> & _). exists new', bs'. by split_and!.
    - destruct Hcode as (-> & -> & Hf' & Hlt). cbn [default]. split; [by exists new', bs'|].
      intros Hs. specialize (Hlt Hs). destruct Hm' as (_ & _ & _ & Hl'). cbn [snd id]. rewrite !Nat2Z.id. lia. }
  assert (I (pos [], 0) w0) as HI0 by (exists [], []; split_and!; [split_and!; [done|done|done|cbn; lia]|done|done]).
  destruct Hgo as [Hnf|[Hs Hf]].
  - apply (wp_while nf p I); [done| |done]. intros x w HI. eapply wp_mono; [by apply Hround|]. intros [x'|r] w2; [by intros [? _]|done].
  - apply (wp_while_variant nf p I (fun x _ => Len - Z.to_nat x.2)%nat); [|done|cbn [snd]; change (Z.to_nat 0) with 0%nat; lia]. intros x w HI.
    eapply wp_mono; [by apply Hround|]. intros [x'|r] w2; [|done]. intros [? Hlt]. split; [done|by apply Hlt].
Qed.
End Resume.

(** ** A transfer in one call *)

Section Whole.
Context {G : Type} `{UsbState G} `{AvrOk} {B : Type}.
Context (transfer : B -> M G B) (move : Z -> B -> B) (obs : log -> list Z) (valid : list Z -> Prop)
  (start pos : list Z -> B) (Len : nat) (Hwide : Z.of_nat Len < 65536).
Context `{!Transfer transfer move obs valid start pos Len}.
Context (task clear : M G unit) (p : platform) (nf : Prop).
Context (Hclear : exists a b, 0 <= a < 8 /\ 0 <= b < 8 /\ clear = clear_flags a b).
Context (Htask : forall w, wp nf task (fun _ w' => st w' = st w /\ exists new, hist w' = new ++ hist w /\ Forall quiet new) p w).
(** The endpoint is served from [ws] on; the stream starts at [w0]. *)
Context (ws w0 : world G) (base : log) (Hbase : hist w0 = base ++ hist ws).
Implicit Types w : world G.

(** Without [BytesProcessed] every packet takes two rounds of the same loop. *)
Definition goes_through : Prop := nf \/ serves p (hist ws) /\ (2 * Len + 1 < fuel p)%nat.

Definition since w : log := take (length (hist w) - length (hist ws)) (hist w).
Definition still_open w : nat := if fresh_bank (since w) then 0%nat else 1%nat.

Lemma since_new new w : hist w = new ++ hist w0 -> since w = new ++ base.
Proof. intros Hh. unfold since. rewrite Hh, Hbase, app_assoc, length_app. apply take_app_length'. lia. Qed.

Definition through (x : B * Z * Z) w : Prop := exists new bs,
  moved obs valid Len w0 new bs w /\ st w = st w0 /\ x.1 = (pos bs, Z.of_nat (Len - length bs)).
Definition whole_post (x : Endpoint_Stream_RW_ErrorCodes_t * B * option Z) w : Prop := exists new bs,
  moved obs valid Len w0 new bs w /\ st w = st w0 /\ (serves p (hist ws) -> x.1.1 = ENDPOINT_RWSTREAM_NoError) /\
  (x.1.1 = ENDPOINT_RWSTREAM_NoError -> length bs = Len /\ x.1.2 = pos bs).

(** A full bank is handed over, and the loop goes on when the endpoint is ready. *)
Lemma wp_next_packet new bs c w : goes_through -> moved obs valid Len w0 new bs w -> st w = st w0 ->
  (serves p (hist ws) -> fresh_bank (new ++ base) = false) ->
  wp nf (clear;;; task;;; code <- Endpoint_WaitUntilReady;;
         ret (if bool_decide (code = ENDPOINT_READYWAIT_NoError) then inl (pos bs, Z.of_nat (Len - length bs), c)
              else inr (stream_code code, pos bs, None)))
    (fun y w' => match y with
     | inl x' => through x' w' /\ (serves p (hist ws) ->
         (2 * Z.to_nat x'.1.2 + still_open w' < 2 * (Len - length bs) + still_open w)%nat)
     | inr r => whole_post r w' end) p w.
Proof.
  intros Hgo Hm Hst Hfr. destruct Hclear as (a & b & Ha & Hb & ->). destruct (clear_flags_run a b p w Ha Hb) as (u & u' & Hr & _).
  apply wp_bind. unfold wp at 1. rewrite Hr. apply wp_bind. eapply wp_mono; [apply Htask|].
  intros [] w2 (Hst2 & new2 & Hh2 & Hq2). cbn [hist st] in Hh2, Hst2.
  pose proof Hm as (Hh & Ho & Hv & Hl). apply wp_bind.
  apply (wp_wait_stream Len p nf ws (new2 ++ Wr UEINTX u' :: Rd UEINTX u :: new ++ base)).
  { destruct Hgo as [?|[??]]; [by left|right; split; [done|lia]]. }
  { rewrite Hh2, Hh, Hbase. rewrite <- app_assoc. cbn [app]. by rewrite <- app_assoc. }
  intros code rds Hrds Hc. apply wp_ret. set (new3 := rds ++ new2 ++ Wr UEINTX u' :: Rd UEINTX u :: new).
  assert (moved obs valid Len w0 new3 bs (World (st w2) (rds ++ hist w2))) as Hm3.
  { split_and!; [cbn [hist]; rewrite Hh2, Hh; unfold new3; by rewrite <- !app_assoc| |done|done]. unfold new3.
    change (Wr UEINTX u' :: Rd UEINTX u :: new) with ([Wr UEINTX u'] ++ [Rd UEINTX u] ++ new).
    rewrite !obs_app, obs_flags, obs_quiet by done.
    rewrite (obs_silent transfer move obs valid start pos Len rds), (obs_silent transfer move obs valid start pos Len new2) by done.
    by rewrite !app_nil_r. }
  assert (fresh_bank (new3 ++ base) = true) as Hf3 by (unfold new3; rewrite <- !app_assoc; by rewrite (fresh_quiet rds), (fresh_quiet new2)).
  case_bool_decide as Ec.
  - split; [exists new3, bs; split_and!; [done|by cbn [st]; rewrite Hst2|done]|]. intros Hs. cbn [fst snd]. rewrite Nat2Z.id.
    unfold still_open. destruct Hm3 as (Hh3 & _). rewrite (since_new new3 _ Hh3), (since_new new w Hh), Hf3, Hfr by done. lia.
  - exists new3, bs. cbn [fst snd]. split_and!; [done|by cbn [st]; rewrite Hst2|by intros Hs; specialize (Hc Hs)|]. by destruct code.
Qed.

Lemma wp_whole : goes_through -> valid [] -> obs [] = [] ->
  wp nf (Template_Endpoint_RW task transfer move clear (pos []) (Z.of_nat Len) None) whole_post p w0.
Proof.
  intros Hgo Hv0 Ho0. assert (goes_on Len p nf ws) as Hgo1 by (destruct Hgo as [?|[??]]; [by left|right; split; [done|lia]]).
  unfold Template_Endpoint_RW. apply wp_bind. apply (wp_wait_stream Len p nf ws base); [done|done|]. intros code rds Hr Hc.
  assert (moved obs valid Len w0 rds [] (World (st w0) (rds ++ hist w0))) as Hm0.
  { split_and!; [done|by rewrite (obs_silent transfer move obs valid start pos Len)|done|cbn; lia]. }
  case_bool_decide as Ec; cbn [negb].
  2: { apply wp_ret. exists rds, []. cbn [fst snd]. split_and!; [done|done|by intros Hs; specialize (Hc Hs)|]. by destruct code. }
  set (body := fun x : B * Z * Z => _).
  assert (forall x w, through x w -> wp nf (body x) (fun y w' => match y with
    | inl x' => through x' w' /\ (serves p (hist ws) -> (2 * Z.to_nat x'.1.2 + still_open w' < 2 * Z.to_nat x.1.2 + still_open w)%nat)
    | inr r => whole_post r w' end) p w) as Hround.
  { intros [[ds len] c] w (new & bs & Hm & Hst & [= -> ->]). pose proof Hm as (Hh & Ho & Hv & Hl). unfold body. cbn [fst snd].
    destruct (Z.eqb_spec (Z.of_nat (Len - length bs)) 0) as [E|E].
    { apply wp_ret. exists new, bs. cbn [fst snd]. split_and!; [done|done|done|]. intros _. split; [lia|done]. }
    apply wp_bind. unfold Endpoint_IsReadWriteAllowed. apply wp_reg_bit. intros v Ev. rewrite Nat2Z.id.
    destruct (moved_quiet transfer move obs valid start pos Len w0 new bs w [Rd UEINTX v] (st w) Hm) as [Hm2 Hf2]; [by repeat constructor|].
    cbn [app] in Hm2, Hf2. assert (still_open (World (st w) (Rd UEINTX v :: hist w)) = still_open w) as Hso.
    { unfold still_open. pose proof Hm2 as (Hh2 & _). by rewrite (since_new _ _ Hh2), (since_new new w Hh). }
    destruct (bit_tst v RWAL) eqn:Erw; cbn [negb].
    - destruct (transfer_step bs p (World (st w) (Rd UEINTX v :: hist w))) as (b' & e & y & Hrun & Hmv & Hobs & Hval & Hef); [done|lia|].
      apply wp_bind. unfold wp at 1. rewrite Hrun. apply wp_ret. cbn [st hist] in *. rewrite Hmv.
      rewrite !(u16_small (Z.of_nat _ - 1)) by (unfold is_u16; lia). split.
      + exists (e :: Rd UEINTX v :: new), (bs ++ [y]). destruct Hm2 as (Hh2 & Ho2 & _ & _). cbn [hist st fst] in *.
        split_and!; [split_and!|done|].
        * cbn [hist]. by rewrite Hh2.
        * change (e :: Rd UEINTX v :: new) with ([e] ++ Rd UEINTX v :: new). by rewrite obs_app, Ho2, Hobs.
        * done.
        * rewrite length_app. cbn [length]. lia.
        * rewrite length_app. cbn [length]. f_equal. lia.
      + intros _. cbn [fst snd]. unfold still_open at 1. destruct (fresh_bank (since _)); lia.
    - rewrite <- Hso. apply (wp_next_packet (Rd UEINTX v :: new)); [done|done|done|]. intros Hs. change ((Rd UEINTX v :: new) ++ base) with (Rd UEINTX v :: new ++ base). cbn [fresh_bank].
      destruct (fresh_bank (new ++ base)) eqn:Ef; [|done]. rewrite Ev, Hh, Hbase, app_assoc in Erw. by rewrite (proj2 (Hs (new ++ base)) Ef) in Erw. }
  assert (through (pos [], Z.of_nat Len, 0) (World (st w0) (rds ++ hist w0))) as HI0.
  { exists rds, []. cbn [fst length]. rewrite Nat.sub_0_r. by split_and!. }
  destruct Hgo as [Hnf|[Hs Hf]].
  - apply (wp_while nf p through); [done| |done]. intros x w HI. eapply wp_mono; [by apply Hround|]. intros [x'|r] w2; [by intros [? _]|done].
  - apply (wp_while_variant nf p through (fun x w => 2 * Z.to_nat x.1.2 + still_open w)%nat); [|done|].
    + intros x w HI. eapply wp_mono; [by apply Hround|]. intros [x'|r] w2; [|done]. intros [? Hlt]. split; [done|by apply Hlt].
    + cbn [fst snd]. unfold still_open. rewrite Nat2Z.id. destruct (fresh_bank (since _)); lia.
Qed.
End Whole.


(** ** The four data streams *)

Lemma transfer_of_source {G B} (transfer : B -> M G B) move ptr data b0 Len `{!Source transfer move ptr data} :
  (Len <= length data)%nat -> (forall n, move (Z.of_nat n) b0 = ptr n) ->
  Transfer transfer move (written UEDATX) (fun bs => bs = take (length bs) data) (fun _ => b0) (fun bs => ptr (length bs)) Len.
Proof.
  intros Hl Hmove. split.
  - intros bs _. apply Hmove.
  - intros bs p w Hbs Hlt. destruct (lookup_lt_is_Some_2 data (length bs)) as [v Hv]; [lia|].
    exists (ptr (length bs)), (Wr UEDATX v), v. split_and!; [by apply source_step| |done| |done].
    + rewrite source_move, length_app. cbn [length]. by rewrite Nat.add_1_r.
    + rewrite length_app. cbn [length]. rewrite Nat.add_1_r, (take_S_r _ _ _ Hv). by rewrite <- Hbs.
  - intros new h. unfold written. by rewrite omap_app, rev_app_distr.
  - by intros [r v|r v] Hq; [|destruct r].
  - done.
Qed.

Lemma transfer_of_sink {G B} (transfer : B -> M G B) move buf start Len `{!Sink transfer move buf Len} :
  (forall bs, (length bs <= Len)%nat -> move (Z.of_nat (length bs)) (start bs) = buf bs) ->
  Transfer transfer move (read_from UEDATX) (Forall is_u8) start buf Len.
Proof.
  intros Hmove. split.
  - done.
  - intros bs p w Hu Hlt. destruct (sink_step bs p w Hlt) as (b' & Hrun & Hmv). eexists b', _, _. split_and!; [done|done|done| |done].
    apply Forall_app. split; [done|]. apply Forall_singleton, u8_range.
  - intros new h. unfold read_from. by rewrite omap_app, rev_app_distr.
  - by intros [r v|r v] Hq; [destruct r|].
  - done.
Qed.

(** A whole write and a whole read, as the drivers call them. *)
Section WholeStreams.
Context {G : Type} `{UsbState G} `{AvrOk} (task : M G unit) (p : platform) (nf : Prop).
Context (Htask : forall w, wp nf task (fun _ w' => st w' = st w /\ exists new, hist w' = new ++ hist w /\ Forall quiet new) p w).

Lemma wp_write_whole mem (Len : nat) (ws w : world G) base Q : hist w = base ++ hist ws ->
  (Len <= length mem)%nat -> Z.of_nat Len < 65536 -> Forall is_u8 mem -> goes_through Len p nf ws ->
  (forall x new, (serves p (hist ws) -> x.1.1 = ENDPOINT_RWSTREAM_NoError) ->
     (x.1.1 = ENDPOINT_RWSTREAM_NoError -> written UEDATX new = take Len mem) -> Q x (World (st w) (new ++ hist w))) ->
  wp nf (Endpoint_Write_Stream_LE task mem (Z.of_nat Len) None) Q p w.
Proof.
  intros Hb Hl Hw Hu Hgo HQ. pose proof (source_up (G := G) mem Hu) as Hsrc.
  assert (Transfer (G := G) (send_byte mem) move_up (written UEDATX) (fun bs => bs = take (length bs) mem) (fun _ => 0) (fun bs => Z.of_nat (length bs)) Len) as HT
    by (exact (transfer_of_source (send_byte mem) move_up Z.of_nat mem 0 Len Hl (fun n => eq_refl))).
  destruct flag_facts as ((B1 & _ & _ & B4) & _).
  eapply wp_mono; [exact (wp_whole _ _ _ _ _ _ Len Hw task Endpoint_ClearIN p nf ltac:(by exists TXINI, FIFOCON) Htask ws w base Hb Hgo eq_refl eq_refl)|].
  intros x [g h] (new & bs & (Hh & Ho & Hv & _) & Hst & Hs & Hok). cbn [hist st] in *. subst h g. apply HQ; [done|].
  intros Hc. destruct (Hok Hc) as [Hlen _]. by rewrite Ho, Hv, Hlen.
Qed.

Lemma wp_read_whole mem (Len : nat) (ws w : world G) base Q : hist w = base ++ hist ws ->
  (Len <= length mem)%nat -> Z.of_nat Len < 65536 -> goes_through Len p nf ws ->
  (forall x new, (serves p (hist ws) -> x.1.1 = ENDPOINT_RWSTREAM_NoError) -> Forall is_u8 (read_from UEDATX new) ->
     (x.1.1 = ENDPOINT_RWSTREAM_NoError -> length (read_from UEDATX new) = Len /\ x.1.2.1 = filled mem (read_from UEDATX new)) ->
     Q x (World (st w) (new ++ hist w))) ->
  wp nf (Endpoint_Read_Stream_LE task mem (Z.of_nat Len) None) Q p w.
Proof.
  intros Hb Hl Hw Hgo HQ. pose proof (sink_up (G := G) mem Len Hl) as Hsink.
  assert (Transfer (G := G) store_byte move_up_in (read_from UEDATX) (Forall is_u8) (fun bs => (filled mem bs, 0))
    (fun bs => (filled mem bs, Z.of_nat (length bs))) Len) as HT.
  { apply (transfer_of_sink store_byte move_up_in (fun bs => (filled mem bs, Z.of_nat (length bs))) (fun bs => (filled mem bs, 0)) Len (Sink0 := Hsink)).
    intros bs _. unfold move_up_in. cbn [fst snd]. f_equal. }
  destruct flag_facts as ((_ & B2 & _ & B4) & _).
  eapply wp_mono; [exact (wp_whole _ _ _ _ _ _ Len Hw task Endpoint_ClearOUT p nf ltac:(by exists RXOUTI, FIFOCON) Htask ws w base Hb Hgo (Forall_nil_2 _) eq_refl)|].
  intros x [g h] (new & bs & (Hh & Ho & Hv & _) & Hst & Hs & Hok). cbn [hist st] in *. subst h g. apply HQ; [done|by rewrite Ho|].
  intros Hc. destruct (Hok Hc) as [Hlen E]. rewrite Ho. split; [done|]. by rewrite E.
Qed.
End WholeStreams.

(** All calls together sent, or received. *)
Definition all_sent {G B} `{Avr} (p : platform) (w : world G) (data : list Z)
    (x : Endpoint_Stream_RW_ErrorCodes_t * B) (w' : world G) : Prop := exists new,
  hist w' = new ++ hist w /\ written UEDATX new `prefix_of` data /\
  (serves p (hist w) -> x.1 = ENDPOINT_RWSTREAM_NoError) /\
  (x.1 = ENDPOINT_RWSTREAM_NoError -> written UEDATX new = data).
Definition all_received {G} `{Avr} (p : platform) (w : world G) (Len : nat) (place : list Z -> list Z)
    (x : Endpoint_Stream_RW_ErrorCodes_t * (list Z * Z)) (w' : world G) : Prop := exists new,
  hist w' = new ++ hist w /\ (serves p (hist w) -> x.1 = ENDPOINT_RWSTREAM_NoError) /\
  (x.1 = ENDPOINT_RWSTREAM_NoError ->
   length (read_from UEDATX new) = Len /\ x.2.1 = place (read_from UEDATX new)).

Section FourStreams.
Context {G : Type} `{UsbState G} `{AvrOk} (Len : nat) (Hw : Z.of_nat Len < 65536) (task : M G unit) (p : platform)
  (nf : Prop) (w : world G).
Context (Htask : forall w, wp nf task (fun _ w' => exists new, hist w' = new ++ hist w /\ Forall quiet new) p w).
Context (Hgo : goes_on Len p nf w).

Lemma resume_source {B} (transfer : B -> M G B) move ptr data b0 call `{!Source transfer move ptr data} :
  (Len <= length data)%nat -> (forall n, move (Z.of_nat n) b0 = ptr n) ->
  (forall b n, call b n = Template_Endpoint_RW task transfer move Endpoint_ClearIN b0 (Z.of_nat Len) (Some n)) ->
  wp nf (resume call (ptr 0%nat)) (all_sent p w (take Len data)) p w.
Proof.
  intros Hl Hmove Hcall. pose proof (transfer_of_source transfer move ptr data b0 Len Hl Hmove) as HT.
  destruct flag_facts as ((B1 & _ & _ & B4) & _). eapply wp_mono.
  - apply (wp_resume _ _ _ _ _ _ Len Hw (Transfer0 := HT) task Endpoint_ClearIN); [by exists TXINI, FIFOCON|done|done|done|done|done].
  - intros x w' (new & bs & (Hh & Ho & Hv & Hb) & Hne & Hok & Hs). exists new. rewrite Ho. split_and!; [done| |done|].
    + rewrite Hv. replace (take (length bs) data) with (take (length bs) (take Len data)); [apply prefix_take|].
      rewrite take_take. f_equal. lia.
    + intros Hc. destruct (Hok Hc) as [E _]. by rewrite Hv, E.
Qed.

Lemma resume_sink move place (from : list Z -> Z) off call
    `{!Sink (G := G) store_byte move (fun bs => (place bs, from bs)) Len} :
  (forall bs, (length bs <= Len)%nat -> move (Z.of_nat (length bs)) (place bs, off) = (place bs, from bs)) ->
  (forall b n, call b n = Template_Endpoint_RW task store_byte move Endpoint_ClearOUT (b.1, off) (Z.of_nat Len) (Some n)) ->
  wp nf (resume call (place [], from [])) (all_received p w Len place) p w.
Proof.
  intros Hmove Hcall.
  pose proof (transfer_of_sink store_byte move (fun bs => (place bs, from bs)) (fun bs => (place bs, off)) Len Hmove) as HT.
  destruct flag_facts as ((_ & B2 & _ & B4) & _). eapply wp_mono.
  - apply (wp_resume _ _ _ _ _ _ Len Hw (Transfer0 := HT) task Endpoint_ClearOUT); [by exists RXOUTI, FIFOCON|done|done|done|done|].
    intros bs n. apply Hcall.
  - intros x w' (new & bs & (Hh & Ho & _ & Hb) & Hne & Hok & Hs). exists new. rewrite Ho. split_and!; [done|done|].
    intros Hc. destruct (Hok Hc) as [E ->]. done.
Qed.
End FourStreams.

(** The stack's own task is such a task while no control request waits. *)
Lemma usb_task_quiet {G} `{UsbState G} `{Avr} `{UsbApplication G} boot_signature_byte_get p nf (w : world G) :
  (forall h, bit_tst (reg_wrap UEINTX (respond p h UEINTX)) RXSTPI = false) ->
  wp nf (USB_USBTask boot_signature_byte_get) (fun _ w' => exists new, hist w' = new ++ hist w /\ Forall quiet new) p w.
Proof.
  intros Hno. unfold USB_USBTask, USB_DeviceTask, is_DeviceState, Endpoint_GetCurrentEndpoint,
    Endpoint_GetEndpointDirection, Endpoint_SelectEndpoint, Endpoint_IsSETUPReceived.
  apply wp_bind, wp_bind, wp_rd. intros s Hs. apply wp_ret. cbn [st hist].
  destruct (s =? _); [apply wp_ret; by exists [Rd V_USB_DeviceState s]; split; [done|repeat constructor]|].
  apply wp_bind, wp_bind, wp_rd. intros n _. apply wp_bind, wp_bind, wp_reg_bit. intros c _. apply wp_ret, wp_ret. cbn [st hist].
  apply wp_bind, wp_wr, wp_bind, wp_reg_bit. intros v Hv. cbn [st hist] in *. rewrite Hv, Hno. apply wp_bind, wp_ret, wp_wr.
  cbn [st hist]. eexists [_; _; _; _; _; _]. split; [done|]. by repeat constructor.
Qed.

(** C32: a data stream cut into calls is the whole stream.  Calling a stream
    function again while it returns [ENDPOINT_RWSTREAM_IncompleteTransfer], as
    its documentation prescribes, moves no byte twice and skips none: when the
    last call reports success, the bytes written to the endpoint by all calls
    together are exactly the first [Length] bytes of the buffer (from the last
    one down for BE), or the bytes read are exactly those in the buffer, and
    everything beyond [Length] is untouched.  The loop ends in success with an
    endpoint that keeps being served.  [Length] may be any 16-bit number; the
    task run between packets must find no control request. *)
Theorem stream_resumption_complete {G} `{UsbState G} `{AvrOk} mem (Len : nat) (task : M G unit) p nf (w : world G) :
  (Len <= length mem)%nat -> Z.of_nat Len < 65536 ->
  (forall w, wp nf task (fun _ w' => exists new, hist w' = new ++ hist w /\ Forall quiet new) p w) ->
  goes_on Len p nf w ->
  (Forall is_u8 mem ->
   wp nf (resume (fun _ n => Endpoint_Write_Stream_LE task mem (Z.of_nat Len) (Some n)) 0)
     (all_sent p w (take Len mem)) p w /\
   wp nf (resume (fun _ n => Endpoint_Write_Stream_BE task mem (Z.of_nat Len) (Some n)) (Z.of_nat Len - 1))
     (all_sent p w (reverse (take Len mem))) p w) /\
  wp nf (resume (fun b n => Endpoint_Read_Stream_LE task b.1 (Z.of_nat Len) (Some n)) (mem, 0))
    (all_received p w Len (filled mem)) p w /\
  wp nf (resume (fun b n => Endpoint_Read_Stream_BE task b.1 (Z.of_nat Len) (Some n)) (mem, Z.of_nat Len - 1))
    (all_received p w Len (filled_down Len mem)) p w.
Proof.
  intros Hl Hw Htask Hgo. assert (length (take Len mem) = Len) as Hlen by (rewrite length_take; lia).
  split_and!; [intros Hm; split|..].
  - apply (resume_source Len Hw task p nf w Htask Hgo (send_byte mem) move_up Z.of_nat mem 0 _
      (Source0 := source_up mem Hm)); [done|intros; unfold move_up; lia|done].
  - replace (reverse (take Len mem)) with (take Len (reverse (take Len mem))) by (apply take_ge; rewrite length_reverse; lia).
    replace (Z.of_nat Len - 1) with (Z.of_nat Len - 1 - Z.of_nat 0) by lia.
    apply (resume_source Len Hw task p nf w Htask Hgo (send_byte mem) move_down (fun k => Z.of_nat Len - 1 - Z.of_nat k)
      (reverse (take Len mem)) (Z.of_nat Len - 1) _ (Source0 := source_down mem Len Hm Hl));
      [rewrite length_reverse; lia|intros; unfold move_down; lia|done].
  - apply (resume_sink Len Hw task p nf w Htask Hgo move_up_in (filled mem) (fun bs => Z.of_nat (length bs)) 0 _
      (Sink0 := sink_up mem Len Hl)); [intros; unfold move_up_in; cbn; f_equal; lia|done].
  - replace (mem, Z.of_nat Len - 1) with (filled_down Len mem [], Z.of_nat Len - 1 - Z.of_nat (length (@nil Z)))
      by (unfold filled_down; cbn [length reverse rev_append app]; rewrite Nat.sub_0_r, Z.sub_0_r; f_equal; apply take_drop).
    apply (resume_sink Len Hw task p nf w Htask Hgo move_down_in (filled_down Len mem) (fun bs => Z.of_nat Len - 1 - Z.of_nat (length bs))
      (Z.of_nat Len - 1) _ (Sink0 := sink_down mem Len Hl)); [intros; unfold move_down_in; cbn; f_equal; lia|done].
Qed.

(** ** Concrete runs *)

Section StreamRuns.
#[local] Instance stream_chip : Avr := datasheet USB_SERIES_2_AVR.
#[local] Instance stream_chip_ok : AvrOk := datasheet_ok USB_SERIES_2_AVR.

(** A host that sends the bytes 10, 11, 12, ... in packets of two. *)
Definition talking_host : platform := {|
  respond h r := match r with
    | UEINTX => 5
    | UEBCLX => Z.of_nat (2 - (out_place h).2)
    | UEDATX => 10 + Z.of_nat (length (read_from UEDATX h))
    | V_USB_DeviceState => state_code DEVICE_STATE_Configured
    | _ => 0
    end;
  fuel := 10
|}.

Lemma talking_host_sends : host_sends talking_host [] (fun _ => 2%nat).
Proof.
  split; [lia|]. intros new _. rewrite app_nil_r. destruct (out_place new) as [j i] eqn:E. cbv zeta.
  split_and!; [done..| |done]. cbn [talking_host respond]. rewrite E. apply u8_small. unfold is_u8. cbn [snd]. lia.
Qed.

(** Three bytes into a buffer of four. *)
Lemma control_read_fills_witness :
  let w := World (request_for 3) [] in
  wp False (Endpoint_Read_Control_Stream_LE [0; 0; 0; 99] 3)
    (fun x w' => x.1 = ENDPOINT_RWCSTREAM_NoError /\
       read_post (fun bs => (filled [0; 0; 0; 99] bs, Z.of_nat (length bs))) 3 talking_host w x.1 x.2 w') talking_host w /\
  (exists w', Endpoint_Read_Control_Stream_LE [0; 0; 0; 99] 3 talking_host w =
     Done (ENDPOINT_RWCSTREAM_NoError, ([10; 11; 12; 99], 3)) w').
Proof.
  intros w. split; [|eexists; vm_compute; reflexivity].
  refine (proj1 (proj2 (proj2 (control_read_fills [0; 0; 0; 99] 3 talking_host w (fun _ => 2%nat) _ _))
    talking_host_sends _)).
  - cbn. lia.
  - lia.
  - cbn. lia.
Defined.

(** An IN endpoint with a bank of two bytes that is always emptied in time. *)
Definition small_bank : platform := {|
  respond h r := match r with
    | UECFG0X => 1
    | UEINTX => if decide (length (snd (packets h)) < 2)%nat then 33 else 1
    | _ => 0
    end;
  fuel := 10
|}.

Lemma fresh_bank_empty h : fresh_bank h = true -> snd (packets h) = [].
Proof.
  induction h as [|[r v|r v] h IH]; [done|by destruct r|]. destruct r; try done; cbn [fresh_bank packets]; try done.
  intros _. by destruct (packets h).
Qed.

Lemma small_bank_serves : serves small_bank [].
Proof.
  intros new. rewrite app_nil_r. split.
  - cbn [small_bank respond]. by destruct (decide _).
  - intros Hf%fresh_bank_empty. cbn [small_bank respond]. rewrite Hf. by rewrite decide_True by (cbn; lia).
Qed.

(** Five bytes, in three calls. *)
Lemma stream_resumption_complete_witness :
  let w := World (request_for 0) [] in
  let call := fun (_ : Z) n => Endpoint_Write_Stream_LE (ret tt) [1; 2; 3; 4; 5; 6] 5 (Some n) in
  wp False (resume call 0) (all_sent small_bank w [1; 2; 3; 4; 5]) small_bank w /\
  match resume call 0 small_bank w with
  | Done x w' => x.1 = ENDPOINT_RWSTREAM_NoError /\ packets (hist w') = ([[1; 2]; [3; 4]], [5])
  | _ => False
  end.
Proof.
  intros w call. split; [|vm_compute; by split].
  refine (proj1 (proj1 (stream_resumption_complete [1; 2; 3; 4; 5; 6] 5 (ret tt) small_bank False w _ _ _ _) _)).
  - cbn. lia.
  - lia.
  - intros w1. apply wp_ret. by exists [].
  - right. split; [apply small_bank_serves|cbn; lia].
  - by apply (bool_decide_unpack _).
Defined.
End StreamRuns.

(** ** A host that sends the data of a request *)

Section CommandBus.
#[local] Instance command_chip : Avr := datasheet USB_SERIES_2_AVR.

(** A host that sends [msg] in packets of 64 bytes behind one request. *)
Definition command_bus (msg : list Z) (n : nat) : platform := {|
  respond h r := let l := default [] (after_ack h) in
    match r with
    | UEINTX => 5 + (if acked (writes h) then 0 else 8)
    | UEBCLX => Z.of_nat (64 - (out_place l).2)
    | UEDATX => default 0 (msg !! length (read_from UEDATX l))
    | V_USB_DeviceState => state_code DEVICE_STATE_Configured
    | _ => 0
    end;
  fuel := n
|}.

Lemma command_bus_log new before v v' : acked (writes before) = false -> bit_tst v' RXSTPI = false ->
  acked (writes (new ++ Wr UEINTX v' :: Rd UEINTX v :: before)) = true /\ after_ack (new ++ Wr UEINTX v' :: Rd UEINTX v :: before) = Some new.
Proof. exact (after_ack_new new before v v'). Qed.
Lemma command_bus_commands msg n : bool_decide (Forall is_u8 msg) = true -> host_commands (command_bus msg n) [] msg.
Proof.
  intros Hu%bool_decide_eq_true. exists (fun _ => 64%nat). intros before v v' Ha Hv. rewrite app_nil_r. split.
  - split; [lia|]. intros new _. destruct (command_bus_log new before v v' Ha Hv) as [Hack Haft].
    destruct (out_place new) as [j i] eqn:E. cbv zeta. cbn [command_bus respond]. rewrite Hack, Haft. cbn [from_option id]. rewrite E.
    split_and!; [done..| |done]. apply u8_small. unfold is_u8. cbn [snd]. lia.
  - intros new _ x Hx. destruct (command_bus_log new before v v' Ha Hv) as [_ Haft]. cbn [command_bus respond].
    rewrite Haft. cbn [from_option id]. rewrite Hx. apply u8_small. revert Hx. by apply Forall_lookup.
Qed.
Lemma command_bus_setup msg n : one_setup (command_bus msg n) [].
Proof. intros new. rewrite app_nil_r. cbn [command_bus respond]. by destruct (acked (writes new)). Qed.
End CommandBus.
