(* ===== verification/UsbController.v ===== *)
(** * The USB controller (LUFA USBController_AVR8.c, USBInterrupt_AVR8.c, Device_AVR8.c)

    Start-up and shutdown of the interface, the interrupt helpers and the
    general USB interrupt, for the two controller series of the README, with
    the options of LUFAConfig.h: device only, full speed, regulator on,
    automatic PLL.  The interrupt is related to an abstract machine of pending
    flags, enabled causes, device state and configuration. *)

From S2P Require Import Prelude StdDescriptors HIDClass Descriptors Machine UsbCore Endpoint EndpointStream DeviceStandardReq.

(** ** Options *)

Definition USB_OPT_REG_DISABLED : Z := Z.shiftl 1 1.
Definition USB_OPT_REG_ENABLED : Z := Z.shiftl 0 1.
Definition USB_OPT_REG_KEEP_ENABLED : Z := Z.shiftl 1 3.
Definition USB_OPT_MANUAL_PLL : Z := Z.shiftl 1 2.
Definition USB_OPT_AUTO_PLL : Z := Z.shiftl 0 2.
Definition USB_DEVICE_OPT_LOWSPEED : Z := Z.shiftl 1 0.
Definition USB_DEVICE_OPT_FULLSPEED : Z := Z.shiftl 0 0.

(** [USE_STATIC_OPTIONS] of LUFAConfig.h. *)
Definition USB_Options : Z := Z.lor (Z.lor USB_DEVICE_OPT_FULLSPEED USB_OPT_REG_ENABLED) USB_OPT_AUTO_PLL.
(** [USB_Options & o] *)
Definition has_option (o : Z) : bool := negb (Z.land USB_Options o =? 0).

(** ** Interrupt causes *)

(** The causes a device-only build has; [USB_INT_VBUSTI] exists on series 4. *)
Inductive USB_Interrupts_t :=
  | USB_INT_VBUSTI | USB_INT_WAKEUPI | USB_INT_SUSPI | USB_INT_EORSTI | USB_INT_SOFI | USB_INT_RXSTPI.

#[export] Instance USB_Interrupts_t_eq_dec : EqDecision USB_Interrupts_t.
Proof. solve_decision. Defined.

Section Controller.
Context {G : Type} `{UsbState G} `{Avr} `{UsbApplication G}.

Definition USB_INT_Enable (Interrupt : USB_Interrupts_t) : M G unit :=
  match Interrupt with
  | USB_INT_VBUSTI => match series with USB_SERIES_4_AVR => reg_or USBCON VBUSTE | USB_SERIES_2_AVR => ret tt end
  | USB_INT_WAKEUPI => reg_or UDIEN WAKEUPE
  | USB_INT_SUSPI => reg_or UDIEN SUSPE
  | USB_INT_EORSTI => reg_or UDIEN EORSTE
  | USB_INT_SOFI => reg_or UDIEN SOFE
  | USB_INT_RXSTPI => reg_or UEIENX RXSTPE
  end.

Definition USB_INT_Disable (Interrupt : USB_Interrupts_t) : M G unit :=
  match Interrupt with
  | USB_INT_VBUSTI => match series with USB_SERIES_4_AVR => reg_andn USBCON VBUSTE | USB_SERIES_2_AVR => ret tt end
  | USB_INT_WAKEUPI => reg_andn UDIEN WAKEUPE
  | USB_INT_SUSPI => reg_andn UDIEN SUSPE
  | USB_INT_EORSTI => reg_andn UDIEN EORSTE
  | USB_INT_SOFI => reg_andn UDIEN SOFE
  | USB_INT_RXSTPI => reg_andn UEIENX RXSTPE
  end.

Definition USB_INT_Clear (Interrupt : USB_Interrupts_t) : M G unit :=
  match Interrupt with
  | USB_INT_VBUSTI => match series with USB_SERIES_4_AVR => reg_andn USBINT VBUSTI | USB_SERIES_2_AVR => ret tt end
  | USB_INT_WAKEUPI => reg_andn UDINT WAKEUPI
  | USB_INT_SUSPI => reg_andn UDINT SUSPI
  | USB_INT_EORSTI => reg_andn UDINT EORSTI
  | USB_INT_SOFI => reg_andn UDINT SOFI
  | USB_INT_RXSTPI => reg_andn UEINTX RXSTPI
  end.

Definition USB_INT_IsEnabled (Interrupt : USB_Interrupts_t) : M G bool :=
  match Interrupt with
  | USB_INT_VBUSTI => match series with USB_SERIES_4_AVR => reg_bit USBCON VBUSTE | USB_SERIES_2_AVR => ret false end
  | USB_INT_WAKEUPI => reg_bit UDIEN WAKEUPE
  | USB_INT_SUSPI => reg_bit UDIEN SUSPE
  | USB_INT_EORSTI => reg_bit UDIEN EORSTE
  | USB_INT_SOFI => reg_bit UDIEN SOFE
  | USB_INT_RXSTPI => reg_bit UEIENX RXSTPE
  end.

Definition USB_INT_HasOccurred (Interrupt : USB_Interrupts_t) : M G bool :=
  match Interrupt with
  | USB_INT_VBUSTI => match series with USB_SERIES_4_AVR => reg_bit USBINT VBUSTI | USB_SERIES_2_AVR => ret false end
  | USB_INT_WAKEUPI => reg_bit UDINT WAKEUPI
  | USB_INT_SUSPI => reg_bit UDINT SUSPI
  | USB_INT_EORSTI => reg_bit UDINT EORSTI
  | USB_INT_SOFI => reg_bit UDINT SOFI
  | USB_INT_RXSTPI => reg_bit UEINTX RXSTPI
  end.

Definition USB_INT_DisableAllInterrupts : M G unit :=
  (match series with USB_SERIES_4_AVR => reg_andn USBCON VBUSTE | USB_SERIES_2_AVR => ret tt end);;;
  wr UDIEN 0.

Definition USB_INT_ClearAllInterrupts : M G unit :=
  (match series with USB_SERIES_4_AVR => wr USBINT 0 | USB_SERIES_2_AVR => ret tt end);;;
  wr UDINT 0.

(** ** Clocks, pads and the regulator *)

(** The PLL prescaler for a 16 MHz clock. *)
Definition USB_PLL_PSC : Z :=
  match series with USB_SERIES_2_AVR => Z.shiftl 1 PLLP0 | USB_SERIES_4_AVR => Z.shiftl 1 PINDIV end.

Definition USB_PLL_On : M G unit :=
  wr PLLCSR USB_PLL_PSC;;; wr PLLCSR (Z.lor USB_PLL_PSC (Z.shiftl 1 PLLE)).
Definition USB_PLL_Off : M G unit := wr PLLCSR 0.
Definition USB_PLL_IsReady : M G bool := reg_bit PLLCSR PLOCK.
(** [while (!(USB_PLL_IsReady()));] *)
Definition await_pll : M G unit :=
  while_ (fun _ : unit => r <- USB_PLL_IsReady;; if r then ret (inr tt) else ret (inl tt)) tt.
Definition USB_REG_On : M G unit :=
  match series with USB_SERIES_4_AVR => reg_or UHWCON UVREGE | USB_SERIES_2_AVR => reg_andn REGCR REGDIS end.
Definition USB_REG_Off : M G unit :=
  match series with USB_SERIES_4_AVR => reg_andn UHWCON UVREGE | USB_SERIES_2_AVR => reg_or REGCR REGDIS end.
Definition USB_OTGPAD_On : M G unit := reg_or USBCON OTGPADE.
Definition USB_OTGPAD_Off : M G unit := reg_andn USBCON OTGPADE.
Definition USB_CLK_Freeze : M G unit := reg_or USBCON FRZCLK.
Definition USB_CLK_Unfreeze : M G unit := reg_andn USBCON FRZCLK.
Definition USB_Controller_Enable : M G unit := reg_or USBCON USBE.
Definition USB_Controller_Disable : M G unit := reg_andn USBCON USBE.
Definition USB_Controller_Reset : M G unit := reg_andn USBCON USBE;;; reg_or USBCON USBE.
Definition USB_Detach : M G unit := reg_or UDCON DETACH.
Definition USB_Attach : M G unit := reg_andn UDCON DETACH.
Definition USB_VBUS_GetStatus : M G bool := reg_bit USBSTA VBUS.
(** Code compiled for series 4 only. *)
Definition series4 (m : M G unit) : M G unit :=
  match series with USB_SERIES_4_AVR => m | USB_SERIES_2_AVR => ret tt end.
Definition pll_on_wait : M G unit :=
  if has_option USB_OPT_MANUAL_PLL then ret tt else USB_PLL_On;;; await_pll.
Definition pll_off : M G unit := if has_option USB_OPT_MANUAL_PLL then ret tt else USB_PLL_Off.

(** Device_AVR8.c *)
Definition USB_Device_SendRemoteWakeup : M G unit :=
  pll_on_wait;;;
  USB_CLK_Unfreeze;;;
  reg_or UDCON RMWKUP;;;
  while_ (fun _ : unit => r <- reg_bit UDCON RMWKUP;; ret (if r then inl tt else inr tt)) tt.

(** ** Start-up and shutdown *)

Definition USB_Init_Device : M G unit :=
  set_DeviceState DEVICE_STATE_Unattached;;;
  mod_usb (set_configuration 0);;;
  mod_usb (set_remote_wakeup false);;;
  mod_usb (set_self_powered false);;;
  series4 ((if has_option USB_DEVICE_OPT_LOWSPEED then USB_Device_SetLowSpeed else USB_Device_SetFullSpeed);;;
           USB_INT_Enable USB_INT_VBUSTI);;;
  Endpoint_ConfigureEndpoint ENDPOINT_CONTROLEP EP_TYPE_CONTROL USB_Device_ControlEndpointSize 1;;;
  USB_INT_Clear USB_INT_SUSPI;;;
  USB_INT_Enable USB_INT_SUSPI;;;
  USB_INT_Enable USB_INT_EORSTI;;;
  USB_Attach.

Definition USB_ResetInterface : M G unit :=
  USB_INT_DisableAllInterrupts;;;
  USB_INT_ClearAllInterrupts;;;
  USB_Controller_Reset;;;
  USB_CLK_Unfreeze;;;
  (match series with USB_SERIES_2_AVR => pll_on_wait | USB_SERIES_4_AVR => pll_off end);;;
  USB_Init_Device;;;
  series4 USB_OTGPAD_On.

Definition USB_Init : M G unit :=
  series4 USB_OTGPAD_Off;;;
  (if has_option USB_OPT_REG_DISABLED then USB_REG_Off else USB_REG_On);;;
  (if has_option USB_OPT_MANUAL_PLL then ret tt else series4 (wr PLLFRQ (Z.shiftl 1 PDIV2)));;;
  wr V_USB_IsInitialized 1;;;
  USB_ResetInterface.

Definition USB_Disable : M G unit :=
  USB_INT_DisableAllInterrupts;;;
  USB_INT_ClearAllInterrupts;;;
  USB_Detach;;;
  USB_Controller_Disable;;;
  pll_off;;;
  (if has_option USB_OPT_REG_KEEP_ENABLED then ret tt else USB_REG_Off);;;
  series4 USB_OTGPAD_Off;;;
  wr V_USB_IsInitialized 0.

(** ** The general interrupt *)

(** [if (USB_INT_HasOccurred(i) && USB_INT_IsEnabled(i)) m] *)
Definition on_interrupt (i : USB_Interrupts_t) (m : M G unit) : M G unit :=
  o <- USB_INT_HasOccurred i;;
  e <- (if o then USB_INT_IsEnabled i else ret false);;
  when e m.

Definition sof_interrupt : M G unit := on_interrupt USB_INT_SOFI (
  USB_INT_Clear USB_INT_SOFI;;;
  EVENT_USB_Device_StartOfFrame).

Definition vbus_interrupt : M G unit := series4 (on_interrupt USB_INT_VBUSTI (
  USB_INT_Clear USB_INT_VBUSTI;;;
  v <- USB_VBUS_GetStatus;;
  if v then
    pll_on_wait;;;
    set_DeviceState DEVICE_STATE_Powered;;;
    EVENT_USB_Device_Connect
  else
    pll_off;;;
    set_DeviceState DEVICE_STATE_Unattached;;;
    EVENT_USB_Device_Disconnect)).

Definition suspend_interrupt : M G unit := on_interrupt USB_INT_SUSPI (
  USB_INT_Disable USB_INT_SUSPI;;;
  USB_INT_Enable USB_INT_WAKEUPI;;;
  USB_CLK_Freeze;;;
  pll_off;;;
  match series with
  | USB_SERIES_2_AVR => set_DeviceState DEVICE_STATE_Unattached;;; EVENT_USB_Device_Disconnect
  | USB_SERIES_4_AVR => set_DeviceState DEVICE_STATE_Suspended;;; EVENT_USB_Device_Suspend
  end).

Definition wakeup_interrupt : M G unit := on_interrupt USB_INT_WAKEUPI (
  pll_on_wait;;;
  USB_CLK_Unfreeze;;;
  USB_INT_Clear USB_INT_WAKEUPI;;;
  USB_INT_Disable USB_INT_WAKEUPI;;;
  USB_INT_Enable USB_INT_SUSPI;;;
  u <- get_usb;;
  (if negb (USB_Device_ConfigurationNumber u =? 0) then set_DeviceState DEVICE_STATE_Configured
   else
     a <- USB_Device_IsAddressSet;;
     set_DeviceState (if a then DEVICE_STATE_Addressed else DEVICE_STATE_Powered));;;
  match series with
  | USB_SERIES_2_AVR => EVENT_USB_Device_Connect
  | USB_SERIES_4_AVR => EVENT_USB_Device_WakeUp
  end).

Definition reset_interrupt : M G unit := on_interrupt USB_INT_EORSTI (
  USB_INT_Clear USB_INT_EORSTI;;;
  set_DeviceState DEVICE_STATE_Default;;;
  mod_usb (set_configuration 0);;;
  USB_INT_Clear USB_INT_SUSPI;;;
  USB_INT_Disable USB_INT_SUSPI;;;
  USB_INT_Enable USB_INT_WAKEUPI;;;
  Endpoint_ConfigureEndpoint ENDPOINT_CONTROLEP EP_TYPE_CONTROL USB_Device_ControlEndpointSize 1;;;
  EVENT_USB_Device_Reset).

Definition USB_GEN_vect : M G unit :=
  sof_interrupt;;; vbus_interrupt;;; suspend_interrupt;;; wakeup_interrupt;;; reset_interrupt.
End Controller.

(** ** The abstract interrupt machine *)

(** The causes of the device part of the controller. *)
Definition causes : list USB_Interrupts_t := [USB_INT_WAKEUPI; USB_INT_SUSPI; USB_INT_EORSTI; USB_INT_SOFI].

Record irq := Irq {
  pending : USB_Interrupts_t -> bool;
  enabled : USB_Interrupts_t -> bool;
  device : USB_Device_States_t;
  configuration : Z
}.

Definition set_bit (i : USB_Interrupts_t) (b : bool) (f : USB_Interrupts_t -> bool) : USB_Interrupts_t -> bool :=
  fun j => if decide (j = i) then b else f j.
Definition irq_clear (i : USB_Interrupts_t) (s : irq) : irq :=
  Irq (set_bit i false (pending s)) (enabled s) (device s) (configuration s).
Definition irq_enable (i : USB_Interrupts_t) (b : bool) (s : irq) : irq :=
  Irq (pending s) (set_bit i b (enabled s)) (device s) (configuration s).
Definition irq_device (d : USB_Device_States_t) (s : irq) : irq :=
  Irq (pending s) (enabled s) d (configuration s).
Definition irq_configuration (n : Z) (s : irq) : irq :=
  Irq (pending s) (enabled s) (device s) n.

Definition on_cause (i : USB_Interrupts_t) (f : irq -> irq) (s : irq) : irq :=
  if pending s i && enabled s i then f s else s.

(** A suspended series 2 controller counts as unplugged. *)
Definition suspended_state (sr : usb_series) : USB_Device_States_t :=
  match sr with USB_SERIES_2_AVR => DEVICE_STATE_Unattached | USB_SERIES_4_AVR => DEVICE_STATE_Suspended end.
(** The state the device wakes up into. *)
Definition awake_state (n : Z) (addressed : bool) : USB_Device_States_t :=
  if negb (n =? 0) then DEVICE_STATE_Configured
  else if addressed then DEVICE_STATE_Addressed else DEVICE_STATE_Powered.

Definition irq_sof : irq -> irq := on_cause USB_INT_SOFI (irq_clear USB_INT_SOFI).
Definition irq_suspend (sr : usb_series) : irq -> irq := on_cause USB_INT_SUSPI (fun s =>
  irq_device (suspended_state sr) (irq_enable USB_INT_WAKEUPI true (irq_enable USB_INT_SUSPI false s))).
Definition irq_wakeup (addressed : bool) : irq -> irq := on_cause USB_INT_WAKEUPI (fun s =>
  irq_device (awake_state (configuration s) addressed)
    (irq_enable USB_INT_SUSPI true (irq_enable USB_INT_WAKEUPI false (irq_clear USB_INT_WAKEUPI s)))).
Definition irq_reset : irq -> irq := on_cause USB_INT_EORSTI (fun s =>
  irq_enable USB_INT_WAKEUPI true (irq_enable USB_INT_SUSPI false (irq_clear USB_INT_SUSPI
    (irq_configuration 0 (irq_device DEVICE_STATE_Default (irq_clear USB_INT_EORSTI s)))))).
(** A change of the supply line, on series 4. *)
Definition irq_vbus (v : option bool) (s : irq) : irq :=
  match v with
  | None => s
  | Some true => irq_device DEVICE_STATE_Powered s
  | Some false => irq_device DEVICE_STATE_Unattached s
  end.

Definition irq_handler (sr : usb_series) (v : option bool) (addressed : bool) (s : irq) : irq :=
  irq_reset (irq_wakeup addressed (irq_suspend sr (irq_vbus v (irq_sof s)))).

(** Exactly one of suspend and wake-up is enabled: the device waits for the bus
    to fall idle, or for it to come back. *)
Definition irq_ok (s : irq) : Prop :=
  enabled s USB_INT_SUSPI = negb (enabled s USB_INT_WAKEUPI) /\ enabled s USB_INT_EORSTI = true.

Lemma irq_handler_ok sr v ad s : irq_ok s -> irq_ok (irq_handler sr v ad s).
Proof.
  intros [Hx Hr]. unfold irq_handler, irq_reset, irq_wakeup, irq_suspend, irq_sof, on_cause, irq_ok.
  repeat (match goal with |- context [if ?b then _ else _] => destruct b end || destruct v as [[]|]);
    cbn; rewrite ?Hx, ?Hr; done.
Qed.

(** ** Registers and the abstract machine *)

Definition flag_bit `{Avr} (i : USB_Interrupts_t) : Z :=
  match i with
  | USB_INT_WAKEUPI => WAKEUPI | USB_INT_SUSPI => SUSPI | USB_INT_EORSTI => EORSTI | USB_INT_SOFI => SOFI
  | USB_INT_VBUSTI => VBUSTI | USB_INT_RXSTPI => RXSTPI
  end.
Definition enable_bit `{Avr} (i : USB_Interrupts_t) : Z :=
  match i with
  | USB_INT_WAKEUPI => WAKEUPE | USB_INT_SUSPI => SUSPE | USB_INT_EORSTI => EORSTE | USB_INT_SOFI => SOFE
  | USB_INT_VBUSTI => VBUSTE | USB_INT_RXSTPI => RXSTPE
  end.

(** A flag of [UDINT] is dropped by writing it as zero. *)
Definition dropped `{Avr} (i : USB_Interrupts_t) (ws : list (reg * Z)) : bool :=
  existsb (fun '(r, v) => bool_decide (r = UDINT) && negb (bit_tst v (flag_bit i))) ws.

(** The controller from [h0] on: the flags [pd] are up and fall when dropped,
    the enable register reads back ([ie0] at first), and the address enable
    bit, the supply flag, its enable and the supply line do not move. *)
Record irq_bus `{Avr} (p : platform) (h0 : log) (pd : USB_Interrupts_t -> bool) (ie0 : Z)
    (addressed vflag venable vline : bool) : Prop := {
  bus_flags : forall new i, i ∈ causes ->
    bit_tst (reg_wrap UDINT (respond p (new ++ h0) UDINT)) (flag_bit i) = pd i && negb (dropped i (writes new));
  bus_enables : forall new,
    reg_wrap UDIEN (respond p (new ++ h0) UDIEN) = u8 (last_value UDIEN (writes new) ie0);
  bus_address : forall new, bit_tst (reg_wrap UDADDR (respond p (new ++ h0) UDADDR)) ADDEN = addressed;
  bus_vflag : forall new, bit_tst (reg_wrap USBINT (respond p (new ++ h0) USBINT)) VBUSTI = vflag;
  bus_venable : forall new, bit_tst (reg_wrap USBCON (respond p (new ++ h0) USBCON)) VBUSTE = venable;
  bus_vline : forall new, bit_tst (reg_wrap USBSTA (respond p (new ++ h0) USBSTA)) VBUS = vline
}.

(** ** Programs that leave the machine alone *)

(** Writes that do not concern the machine. *)
Definition elsewhere (ws : list (reg * Z)) : Prop :=
  Forall (fun x => x.1 ∉ [UDIEN; UDINT; V_USB_DeviceState]) ws.

(** A program that changes no object and writes none of the machine's registers. *)
Definition quiet {G A} (nf : Prop) (p : platform) (m : M G A) : Prop := forall w Q,
  (forall a ws w', did w w' (st w) ws -> elsewhere ws -> Q a w') -> wp nf m Q p w.

Create HintDb quiet.

Section Quiet.
Context {G : Type} (nf : Prop) (p : platform).

Lemma quiet_ret {A} (a : A) : quiet (G := G) nf p (ret a).
Proof. intros w Q HQ. apply wp_ret, (HQ a []); [apply did_nothing|constructor]. Qed.

Lemma quiet_bind {A B} (m : M G A) (k : A -> M G B) :
  quiet nf p m -> (forall a, quiet nf p (k a)) -> quiet nf p (bind m k).
Proof.
  intros Hm Hk w Q HQ. apply wp_bind, Hm. intros a ws w1 D1 E1. apply Hk. intros b ws' w2 D2 E2.
  pose proof D1 as [S1 _]. rewrite S1 in D2. eapply HQ; [by eapply did_trans|by apply Forall_app].
Qed.

Lemma quiet_rd r : quiet (G := G) nf p (rd r).
Proof.
  intros w Q HQ. apply wp_rd. intros v _. apply (HQ _ []); [|constructor].
  apply (did_reads w w (st w) [] [Rd r v]); [by repeat constructor|apply did_nothing].
Qed.

Lemma quiet_wr r v : r ∉ [UDIEN; UDINT; V_USB_DeviceState] -> quiet (G := G) nf p (wr r v).
Proof. intros Hr w Q HQ. eapply wp_wr, HQ; [apply did_wr|by apply Forall_singleton]. Qed.

Lemma quiet_reg_or r b : r ∉ [UDIEN; UDINT; V_USB_DeviceState] -> quiet (G := G) nf p (reg_or r b).
Proof. intros Hr. apply quiet_bind; [apply quiet_rd|]. intros v. by apply quiet_wr. Qed.
Lemma quiet_reg_andn r b : r ∉ [UDIEN; UDINT; V_USB_DeviceState] -> quiet (G := G) nf p (reg_andn r b).
Proof. intros Hr. apply quiet_bind; [apply quiet_rd|]. intros v. by apply quiet_wr. Qed.
Lemma quiet_reg_bit r b : quiet (G := G) nf p (reg_bit r b).
Proof. apply quiet_bind; [apply quiet_rd|]. intros v. apply quiet_ret. Qed.

Lemma quiet_if {A} (b : bool) (m m' : M G A) : quiet nf p m -> quiet nf p m' -> quiet nf p (if b then m else m').
Proof. by destruct b. Qed.

Lemma quiet_for_each {X R} (l : list X) (body : X -> M G (Datatypes.option R)) :
  (forall x, quiet nf p (body x)) -> quiet nf p (for_each l body).
Proof.
  intros Hb. induction l as [|x l IH]; [apply quiet_ret|]. cbn [for_each]. apply quiet_bind; [apply Hb|].
  intros [r|]; [apply quiet_ret|apply IH].
Qed.

Lemma quiet_poll r b k : poll_ends p k nf r b ->
  quiet (G := G) nf p (while_ (fun _ : unit => x <- reg_bit r b;; if x then ret (inr tt) else ret (inl tt)) tt).
Proof.
  intros Hend w Q HQ. apply (wp_poll_loop p k nf r b tt (ret (inl tt))); [done| |].
  - intros h Hh. apply wp_ret. by exists [].
  - intros h v Hh _. apply (HQ tt []); [|constructor].
    apply (did_reads w w (st w) [] (Rd r v :: h)); [by constructor|apply did_nothing].
Qed.
End Quiet.

#[export] Hint Resolve quiet_ret quiet_rd quiet_reg_bit : quiet.
Ltac quiet :=
  repeat (intros; lazymatch goal with
    | |- quiet _ _ (bind _ _) => apply quiet_bind
    | |- quiet _ _ (for_each _ _) => apply quiet_for_each
    | |- quiet _ _ (wr _ _) => apply quiet_wr
    | |- quiet _ _ (reg_or _ _) => apply quiet_reg_or
    | |- quiet _ _ (reg_andn _ _) => apply quiet_reg_andn
    | |- quiet _ _ (match ?x with _ => _ end) => destruct x
    | |- _ ∉ _ => by apply (bool_decide_unpack _)
    | |- quiet _ _ _ => solve [auto with quiet]
    end).

Section QuietEndpoint.
Context {G : Type} `{UsbState G} `{Avr} (nf : Prop) (p : platform).

Lemma quiet_epsize Bytes : 0 <= Bytes <= 32768 -> (13 <= fuel p)%nat ->
  quiet (G := G) nf p (Endpoint_BytesToEPSizeMask Bytes).
Proof.
  intros HB Hf w Q HQ. unfold Endpoint_BytesToEPSizeMask. apply wp_bind, wp_fuel.
  apply (epsize_rounds Bytes p w _ nf 0); [lia|cbn; lia|done|lia|lia|].
  intros j _ _ _. apply (HQ _ []); [apply did_nothing|constructor].
Qed.

Lemma quiet_configure a t n b : 0 <= n <= 32768 -> (13 <= fuel p)%nat ->
  quiet (G := G) nf p (Endpoint_ConfigureEndpoint a t n b).
Proof.
  intros Hn Hf. unfold Endpoint_ConfigureEndpoint. apply quiet_if; [apply quiet_ret|].
  apply quiet_bind; [by apply quiet_epsize|]. intros mask. unfold Endpoint_ConfigureEndpoint_Prv, write_configuration,
    Endpoint_SelectEndpoint, Endpoint_DisableEndpoint, Endpoint_EnableEndpoint, Endpoint_IsConfigured. quiet.
Qed.

Lemma quiet_pll_on k : poll_ends p k nf PLLCSR PLOCK -> quiet (G := G) nf p pll_on_wait.
Proof.
  intros Hk. unfold pll_on_wait, USB_PLL_On, await_pll, USB_PLL_IsReady. quiet. intros _. by eapply quiet_poll.
Qed.
Lemma quiet_pll_off : quiet (G := G) nf p pll_off.
Proof. unfold pll_off, USB_PLL_Off. quiet. Qed.
End QuietEndpoint.

Section Refinement.
Context {G : Type} `{UsbStateOk G} `{AvrOk} `{!UsbApplication G}.
Context (p : platform) (h0 : log) (g0 : G) (pd : USB_Interrupts_t -> bool) (ie0 : Z) (d0 : Z).
Context (addressed vflag venable vline : bool).
Context (Hbus : irq_bus p h0 pd ie0 addressed vflag venable vline).
Implicit Types w : world G.

(** The world [w], reached from [h0], is at the abstract state [s]: [d0] was the
    device state then, and [g0] holds the objects but the configuration. *)
Definition at_irq w (s : irq) : Prop := exists new,
  hist w = new ++ h0 /\
  (forall i, i ∈ causes -> pending s i = pd i && negb (dropped i (writes new))) /\
  (forall i, i ∈ causes -> enabled s i = bit_tst (u8 (last_value UDIEN (writes new) ie0)) (enable_bit i)) /\
  last_value V_USB_DeviceState (writes new) d0 = state_code (device s) /\
  st w = put_usb (set_configuration (configuration s) (usb g0)) g0.

Lemma elsewhere_last r ws d : r ∈ [UDIEN; UDINT; V_USB_DeviceState] -> elsewhere ws -> last_value r ws d = d.
Proof.
  intros Hr. unfold last_value. induction 1 as [|[r' v] ws Hx _ IH]; [done|]. cbn [fold_left].
  rewrite decide_False by (intros <-; done). done.
Qed.

Lemma elsewhere_dropped i ws : elsewhere ws -> dropped i ws = false.
Proof.
  unfold dropped. induction 1 as [|[r v] ws Hx _ IH]; [done|]. cbn [existsb]. rewrite IH, orb_false_r.
  rewrite bool_decide_false; [done|]. intros ->. apply Hx. by apply (bool_decide_unpack _).
Qed.

Lemma dropped_app i ws1 ws2 : dropped i (ws1 ++ ws2) = dropped i ws1 || dropped i ws2.
Proof. apply existsb_app. Qed.
Lemma last_value_app r ws1 ws2 d : last_value r (ws1 ++ ws2) d = last_value r ws2 (last_value r ws1 d).
Proof. apply fold_left_app. Qed.

(** Other writes leave the machine where it is. *)
Lemma at_irq_elsewhere w w' s ws : at_irq w s -> did w w' (st w) ws -> elsewhere ws -> at_irq w' s.
Proof.
  intros (new & Hh & Hp & He & Hd & Hs) (S' & new' & Hh' & Hw) Hel. exists (new' ++ new).
  rewrite Hh', Hh, app_assoc, writes_app, Hw. split_and!; [done|..].
  - intros i Hi. by rewrite dropped_app, (elsewhere_dropped i ws Hel), orb_false_r, Hp.
  - intros i Hi. rewrite last_value_app, elsewhere_last; [by apply He|by apply (bool_decide_unpack _)|done].
  - rewrite last_value_app, elsewhere_last; [done|by apply (bool_decide_unpack _)|done].
  - by rewrite S', Hs.
Qed.

Lemma cause_cases i : i ∈ causes ->
  i = USB_INT_WAKEUPI \/ i = USB_INT_SUSPI \/ i = USB_INT_EORSTI \/ i = USB_INT_SOFI.
Proof. unfold causes. rewrite !elem_of_cons, elem_of_nil. tauto. Qed.

Lemma flag_bit_facts i j : i ∈ causes -> j ∈ causes ->
  0 <= flag_bit i < 8 /\ (flag_bit i = flag_bit j <-> i = j).
Proof.
  pose proof udint_bits as Hb. pose proof udint_nodup as Hn.
  rewrite !Forall_cons_iff in Hb. rewrite !list.NoDup_cons, !not_elem_of_cons in Hn.
  intros Hi Hj. destruct (cause_cases i Hi) as [->|[->|[->| ->]]], (cause_cases j Hj) as [->|[->|[->| ->]]];
    cbn [flag_bit]; (split; [tauto|]); split; first [done|intros; exfalso; intuition congruence].
Qed.

Lemma enable_bit_facts i j : i ∈ causes -> j ∈ causes ->
  0 <= enable_bit i < 8 /\ (enable_bit i = enable_bit j <-> i = j).
Proof.
  pose proof udien_bits as Hb. pose proof udien_nodup as Hn.
  rewrite !Forall_cons_iff in Hb. rewrite !list.NoDup_cons, !not_elem_of_cons in Hn.
  intros Hi Hj. destruct (cause_cases i Hi) as [->|[->|[->| ->]]], (cause_cases j Hj) as [->|[->|[->| ->]]];
    cbn [enable_bit]; (split; [tauto|]); split; first [done|intros; exfalso; intuition congruence].
Qed.

(** A write to the enable register. *)
Lemma at_irq_enable i b v w s :
  at_irq w s -> i ∈ causes -> v = reg_wrap UDIEN (respond p (hist w) UDIEN) ->
  at_irq (World (st w) (Wr UDIEN (u8 (if b : bool then bit_set v (enable_bit i) else bit_clr v (enable_bit i)))
                        :: Rd UDIEN v :: hist w)) (irq_enable i b s).
Proof.
  intros (new & Hh & Hp & He & Hd & Hs) Hi Hv. eexists (_ :: _ :: new). cbn [hist]. rewrite Hh, writes_wr, writes_rd.
  split_and!; [done|..].
  - intros j Hj. rewrite dropped_app. cbn [dropped existsb]. rewrite bool_decide_false by done.
    rewrite !orb_false_r. by apply Hp.
  - intros j Hj. rewrite last_value_app. unfold last_value at 1. cbn [fold_left]. rewrite decide_True by done.
    destruct (enable_bit_facts j i Hj Hi) as [Bj Hji]. destruct (enable_bit_facts i i Hi Hi) as [Bi _].
    rewrite Hh, (bus_enables _ _ _ _ _ _ _ _ Hbus) in Hv. cbn [irq_enable enabled]. unfold set_bit.
    rewrite bit_tst_testbit, !testbit_u8, <- bit_tst_testbit by lia.
    destruct b; rewrite ?bit_tst_set, ?bit_tst_clr by lia; rewrite Hv, <- (He j Hj);
      (destruct (decide (j = i)) as [->|Hne]; [by rewrite Z.eqb_refl|]);
      rewrite (proj2 (Z.eqb_neq _ _)) by tauto; done.
  - rewrite last_value_app. done.
  - done.
Qed.

(** A flag cleared. *)
Lemma at_irq_clear i v w s :
  at_irq w s -> i ∈ causes -> v = reg_wrap UDINT (respond p (hist w) UDINT) ->
  at_irq (World (st w) (Wr UDINT (u8 (bit_clr v (flag_bit i))) :: Rd UDINT v :: hist w)) (irq_clear i s).
Proof.
  intros (new & Hh & Hp & He & Hd & Hs) Hi Hv. eexists (_ :: _ :: new). cbn [hist]. rewrite Hh, writes_wr, writes_rd.
  split_and!; [done|..].
  - intros j Hj. rewrite dropped_app. cbn [dropped existsb]. rewrite bool_decide_true by done.
    destruct (flag_bit_facts j i Hj Hi) as [Bj Hji]. destruct (flag_bit_facts i i Hi Hi) as [Bi _].
    rewrite bit_tst_testbit, testbit_u8, <- bit_tst_testbit, bit_tst_clr by lia.
    rewrite Hh in Hv. rewrite Hv, (bus_flags _ _ _ _ _ _ _ _ Hbus) by done.
    cbn [irq_clear pending]. unfold set_bit.
    destruct (decide (j = i)) as [->|Hne]; [rewrite Z.eqb_refl|rewrite (proj2 (Z.eqb_neq _ _)) by tauto];
      rewrite ?Hp by done; cbn [negb andb]; destruct (pd _), (dropped _ _); done.
  - intros j Hj. rewrite last_value_app. by apply He.
  - by rewrite last_value_app.
  - done.
Qed.

Lemma at_irq_device d w s : at_irq w s ->
  at_irq (World (st w) (Wr V_USB_DeviceState (u8 (state_code d)) :: hist w)) (irq_device d s).
Proof.
  intros (new & Hh & Hp & He & Hd & Hs). eexists (_ :: new). cbn [hist]. rewrite Hh, writes_wr.
  split_and!; [done| | | |done].
  - intros j Hj. rewrite dropped_app. cbn [dropped existsb]. rewrite bool_decide_false by done.
    rewrite !orb_false_r. by apply Hp.
  - intros j Hj. rewrite last_value_app. by apply He.
  - rewrite last_value_app. by destruct d.
Qed.

Lemma at_irq_configuration n w s : at_irq w s ->
  at_irq (World (put_usb (set_configuration n (usb (st w))) (st w)) (hist w)) (irq_configuration n s).
Proof.
  intros (new & Hh & Hp & He & Hd & Hs). exists new. split_and!; [done..|]. cbn [st]. rewrite Hs, usb_put, put_put. done.
Qed.

(** ** Handlers refine the machine *)

Context (nf : Prop).

(** Program [m] takes the machine from [s] to [f s]. *)
Definition refines (m : M G unit) (f : irq -> irq) : Prop := forall w s,
  at_irq w s -> wp nf m (fun _ w' => at_irq w' (f s)) p w.

Lemma refines_bind m m' f f' : refines m f -> refines m' f' -> refines (m;;; m') (fun s => f' (f s)).
Proof. intros Hm Hm' w s Hs. apply wp_bind. eapply wp_mono; [by apply Hm|]. intros [] w1 H1'. by apply Hm'. Qed.

Lemma refines_quiet {A} (m : M G A) : quiet nf p m -> refines (m;;; ret tt) id.
Proof.
  intros Hq w s Hs. apply wp_bind, Hq. intros a ws w' D E. apply wp_ret. by eapply at_irq_elsewhere.
Qed.

Lemma refines_then {A} (m : M G A) m' f : quiet nf p m -> refines m' f -> refines (m;;; m') f.
Proof.
  intros Hq Hm w s Hs. apply wp_bind, Hq. intros a ws w' D E. apply Hm. by eapply at_irq_elsewhere.
Qed.

Lemma refines_event m : quiet nf p m -> refines m id.
Proof. intros Hq w s Hs. apply Hq. intros a ws w' D E. by eapply at_irq_elsewhere. Qed.

Lemma refines_enable i : i ∈ causes -> refines (USB_INT_Enable i) (irq_enable i true).
Proof.
  intros Hi w s Hs. assert (USB_INT_Enable i = reg_or UDIEN (enable_bit i)) as ->
    by (by destruct (cause_cases i Hi) as [->|[->|[->| ->]]]).
  apply wp_reg_or. intros v Hv. by apply (at_irq_enable i true).
Qed.
Lemma refines_disable i : i ∈ causes -> refines (USB_INT_Disable i) (irq_enable i false).
Proof.
  intros Hi w s Hs. assert (USB_INT_Disable i = reg_andn UDIEN (enable_bit i)) as ->
    by (by destruct (cause_cases i Hi) as [->|[->|[->| ->]]]).
  apply wp_reg_andn. intros v Hv. by apply (at_irq_enable i false).
Qed.
Lemma refines_clear i : i ∈ causes -> refines (USB_INT_Clear i) (irq_clear i).
Proof.
  intros Hi w s Hs. assert (USB_INT_Clear i = reg_andn UDINT (flag_bit i)) as ->
    by (by destruct (cause_cases i Hi) as [->|[->|[->| ->]]]).
  apply wp_reg_andn. intros v Hv. by apply at_irq_clear.
Qed.
Lemma refines_state d : refines (set_DeviceState d) (irq_device d).
Proof. intros w s Hs. unfold set_DeviceState. apply wp_wr. by apply at_irq_device. Qed.
Lemma refines_configuration n : refines (mod_usb (set_configuration n)) (irq_configuration n).
Proof. intros w s Hs. unfold mod_usb. apply wp_modify. by apply at_irq_configuration. Qed.

Lemma at_irq_read r v w s : at_irq w s -> at_irq (World (st w) (Rd r v :: hist w)) s.
Proof.
  intros Hs. eapply (at_irq_elsewhere w _ s []); [done| |constructor].
  apply (did_reads w w (st w) [] [Rd r v]); [by repeat constructor|apply did_nothing].
Qed.

(** A handler runs when its flag is up and its interrupt enabled. *)
Lemma refines_on i m f : i ∈ causes -> refines m f -> refines (on_interrupt i m) (on_cause i f).
Proof.
  intros Hi Hm w s Hs. unfold on_interrupt, on_cause.
  assert (USB_INT_HasOccurred i = reg_bit UDINT (flag_bit i)) as ->
    by (by destruct (cause_cases i Hi) as [->|[->|[->| ->]]]).
  assert (USB_INT_IsEnabled i = reg_bit UDIEN (enable_bit i)) as ->
    by (by destruct (cause_cases i Hi) as [->|[->|[->| ->]]]).
  apply wp_bind, wp_reg_bit. intros v Hv. pose proof Hs as (new & Hh & Hp & _).
  rewrite Hv at 1. rewrite Hh at 1. rewrite (bus_flags _ _ _ _ _ _ _ _ Hbus), <- Hp by done.
  pose proof (at_irq_read UDINT v w s Hs) as H1'. generalize dependent (World (st w) (Rd UDINT v :: hist w)). intros w1 H1'.
  apply wp_bind. destruct (pending s i); [|by apply wp_ret]. cbn [andb].
  apply wp_reg_bit. intros u Hu. pose proof H1' as (new1 & Hh1 & _ & He & _).
  rewrite Hu at 1. rewrite Hh1 at 1. rewrite (bus_enables _ _ _ _ _ _ _ _ Hbus), <- He by done.
  pose proof (at_irq_read UDIEN u w1 s H1') as H2'. destruct (enabled s i); [by apply Hm|by apply wp_ret].
Qed.

Lemma refines_ext m f g : (forall s, f s = g s) -> refines m f -> refines m g.
Proof. intros E Hm w s Hs. rewrite <- E. by apply Hm. Qed.

(** What the handlers need: a PLL that locks, room for the loop of the endpoint
    size, and events that leave the machine alone. *)
Context (k : nat) (Hpll : poll_ends p k nf PLLCSR PLOCK) (Hfuel : (13 <= fuel p)%nat).
Context (Hsof : quiet nf p EVENT_USB_Device_StartOfFrame) (Hconn : quiet nf p EVENT_USB_Device_Connect).
Context (Hdisc : quiet nf p EVENT_USB_Device_Disconnect) (Hsusp : quiet nf p EVENT_USB_Device_Suspend).
Context (Hwake : quiet nf p EVENT_USB_Device_WakeUp) (Hreset : quiet nf p EVENT_USB_Device_Reset).

Ltac cause := by apply (bool_decide_unpack _).

Lemma refines_sof : refines sof_interrupt irq_sof.
Proof.
  apply refines_on; [cause|]. eapply refines_ext; [reflexivity|].
  eapply refines_ext; [|apply refines_bind; [apply refines_clear; cause|by apply refines_event]]. done.
Qed.

(** What the supply line tells. *)
Definition vbus_event : Datatypes.option bool :=
  match series with
  | USB_SERIES_4_AVR => if vflag && venable then Some vline else None
  | USB_SERIES_2_AVR => None
  end.

Lemma refines_vbus : refines vbus_interrupt (irq_vbus vbus_event).
Proof.
  unfold vbus_interrupt, series4, vbus_event, on_interrupt, USB_INT_HasOccurred, USB_INT_IsEnabled, USB_INT_Clear.
  destruct series; [intros w s Hs; by apply wp_ret|].
  intros w s Hs. apply wp_bind, wp_reg_bit. intros v Hv. pose proof Hs as (new & Hh & _).
  rewrite Hv at 1. rewrite Hh at 1. rewrite (bus_vflag _ _ _ _ _ _ _ _ Hbus).
  pose proof (at_irq_read USBINT v w s Hs) as H1'. generalize dependent (World (st w) (Rd USBINT v :: hist w)). intros w1 H1'.
  apply wp_bind. destruct vflag; [|by apply wp_ret, wp_ret]. apply wp_reg_bit. intros u Hu. pose proof H1' as (new1 & Hh1 & _).
  rewrite Hu at 1. rewrite Hh1 at 1. rewrite (bus_venable _ _ _ _ _ _ _ _ Hbus).
  pose proof (at_irq_read USBCON u w1 s H1') as H2'. generalize dependent (World (st w1) (Rd USBCON u :: hist w1)). intros w2 H2'.
  destruct venable; [|by apply wp_ret]. cbn [when andb]. apply wp_bind, quiet_reg_andn; [cause|]. intros [] ws w3 D3 E3.
  pose proof (at_irq_elsewhere _ _ _ _ H2' D3 E3) as H3'.
  unfold USB_VBUS_GetStatus. apply wp_bind, wp_reg_bit. intros x Hx. pose proof H3' as (new3 & Hh3 & _).
  rewrite Hx at 1. rewrite Hh3 at 1. rewrite (bus_vline _ _ _ _ _ _ _ _ Hbus). apply (at_irq_read USBSTA x) in H3'.
  destruct vline; revert H3'; [apply (refines_then pll_on_wait)|apply (refines_then pll_off)];
    try (by eapply quiet_pll_on); try apply quiet_pll_off;
    (eapply refines_ext; [|apply refines_bind; [apply refines_state|by apply refines_event]]); done.
Qed.

Lemma refines_suspend : refines suspend_interrupt (irq_suspend series).
Proof.
  apply refines_on; [cause|]. eapply refines_ext.
  2: { apply refines_bind; [apply refines_disable; cause|]. apply refines_bind; [apply refines_enable; cause|].
       apply refines_then; [unfold USB_CLK_Freeze; quiet|]. apply refines_then; [apply quiet_pll_off|].
       instantiate (1 := irq_device (suspended_state series)). destruct series;
         (eapply refines_ext; [|apply refines_bind; [apply refines_state|by apply refines_event]]); done. }
  done.
Qed.

Lemma refines_awake :
  refines (u <- get_usb;;
    (if negb (USB_Device_ConfigurationNumber u =? 0) then set_DeviceState DEVICE_STATE_Configured
     else a <- USB_Device_IsAddressSet;; set_DeviceState (if a then DEVICE_STATE_Addressed else DEVICE_STATE_Powered));;;
    match series with USB_SERIES_2_AVR => EVENT_USB_Device_Connect | USB_SERIES_4_AVR => EVENT_USB_Device_WakeUp end)
   (fun s => irq_device (awake_state (configuration s) addressed) s).
Proof.
  intros w s Hs. apply wp_bind. unfold get_usb. apply wp_bind, wp_get, wp_ret.
  pose proof Hs as (_ & _ & _ & _ & _ & Est). rewrite Est, usb_put. cbn [set_configuration USB_Device_ConfigurationNumber].
  unfold awake_state. apply wp_bind. destruct (configuration s =? 0); cbn [negb].
  - unfold USB_Device_IsAddressSet. apply wp_bind, wp_reg_bit. intros a Ha. pose proof Hs as (new & Hh & _).
    rewrite Ha at 1. rewrite Hh at 1. rewrite (bus_address _ _ _ _ _ _ _ _ Hbus). apply (at_irq_read UDADDR a) in Hs.
    eapply wp_mono; [by apply refines_state|]. intros [] w1 H1'.
    destruct series; (apply refines_event; [done|done]).
  - eapply wp_mono; [by apply refines_state|]. intros [] w1 H1'.
    destruct series; (apply refines_event; [done|done]).
Qed.

Lemma refines_wakeup : refines wakeup_interrupt (irq_wakeup addressed).
Proof.
  apply refines_on; [cause|]. apply refines_then; [by eapply quiet_pll_on|].
  apply refines_then; [unfold USB_CLK_Unfreeze; quiet|]. eapply refines_ext.
  2: { apply refines_bind; [apply refines_clear; cause|]. apply refines_bind; [apply refines_disable; cause|].
       apply refines_bind; [apply refines_enable; cause|apply refines_awake]. }
  done.
Qed.

Lemma refines_reset : refines reset_interrupt irq_reset.
Proof.
  apply refines_on; [cause|]. eapply refines_ext.
  2: { apply refines_bind; [apply refines_clear; cause|]. apply refines_bind; [apply refines_state|].
       apply refines_bind; [apply refines_configuration|]. apply refines_bind; [apply refines_clear; cause|].
       apply refines_bind; [apply refines_disable; cause|]. apply refines_bind; [apply refines_enable; cause|].
       apply refines_then; [apply quiet_configure; [unfold USB_Device_ControlEndpointSize, FIXED_CONTROL_ENDPOINT_SIZE; lia|done]|by apply refines_event]. }
  done.
Qed.

Lemma refines_handler : refines USB_GEN_vect (irq_handler series vbus_event addressed).
Proof.
  eapply refines_ext.
  2: { apply refines_bind; [apply refines_sof|]. apply refines_bind; [apply refines_vbus|].
       apply refines_bind; [apply refines_suspend|]. apply refines_bind; [apply refines_wakeup|apply refines_reset]. }
  done.
Qed.
End Refinement.

(** The events the interrupt fires leave the machine alone. *)
Definition quiet_events {G} `{UsbApplication G} (nf : Prop) (p : platform) : Prop :=
  quiet nf p EVENT_USB_Device_StartOfFrame /\ quiet nf p EVENT_USB_Device_Connect /\
  quiet nf p EVENT_USB_Device_Disconnect /\ quiet nf p EVENT_USB_Device_Suspend /\
  quiet nf p EVENT_USB_Device_WakeUp /\ quiet nf p EVENT_USB_Device_Reset.

(** C8: the general USB interrupt implements the abstract machine: with flags
    that stay up until they are written as zero and an enable register that
    reads back, the handler always ends, and takes pending flags, enabled
    causes, device state and configuration number to what [irq_handler] says
    of them, whichever causes are pending together, and touches no other
    object; and the machine keeps exactly one of suspend and wake-up enabled,
    and bus reset always. *)
Theorem usb_interrupt_refines {G} `{UsbStateOk G} `{AvrOk} `{!UsbApplication G}
    (p : platform) (w : world G) pd ie0 d0 addressed vflag venable vline k s :
  irq_bus p (hist w) pd ie0 addressed vflag venable vline ->
  quiet_events False p -> flag_within k PLLCSR PLOCK p -> (k < fuel p)%nat -> (13 <= fuel p)%nat ->
  at_irq (hist w) (st w) pd ie0 d0 w s ->
  let s' := irq_handler series (vbus_event vflag venable vline) addressed s in
  wp False USB_GEN_vect (fun _ w' => at_irq (hist w) (st w) pd ie0 d0 w' s') p w /\
  (irq_ok s -> irq_ok s').
Proof.
  intros Hbus (E1 & E2 & E3 & E4 & E5 & E6) Hk Hkf Hf Hs s'. split; [|apply irq_handler_ok].
  by apply (refines_handler p (hist w) (st w) pd ie0 d0 addressed vflag venable vline Hbus False k (or_intror (conj Hk Hkf)) Hf).
Qed.

(** ** Start-up *)

Section Startup.
Context {G : Type} `{UsbStateOk G} `{AvrOk} `{!UsbApplication G}.
Context (p : platform) (h0 : log) (pd : USB_Interrupts_t -> bool) (ie0 d0 : Z).
Context (addressed vflag venable vline : bool).
Context (Hbus : irq_bus p h0 pd ie0 addressed vflag venable vline).
Context (k : nat) (Hpll : poll_ends p k False PLLCSR PLOCK) (Hfuel : (13 <= fuel p)%nat).
Implicit Types (w : world G) (g : G).

(** All causes off, all flags down. *)
Definition irq_disable_all (s : irq) : irq := Irq (pending s) (fun _ => false) (device s) (configuration s).
Definition irq_clear_all (s : irq) : irq := Irq (fun _ => false) (enabled s) (device s) (configuration s).

Lemma bit_tst_0 b : bit_tst 0 b = false.
Proof. unfold bit_tst. by rewrite Z.land_0_l. Qed.

Lemma refines_disable_all g : refines p h0 g pd ie0 d0 False USB_INT_DisableAllInterrupts irq_disable_all.
Proof.
  unfold USB_INT_DisableAllInterrupts. apply refines_then; [quiet|].
  intros w s (new & Hh & Hp & He & Hd & Hs). apply wp_wr. eexists (_ :: new). cbn [hist]. rewrite Hh, writes_wr.
  split_and!; [done| | |by rewrite last_value_app|done].
  - intros j Hj. rewrite dropped_app. cbn [dropped existsb]. rewrite bool_decide_false by done.
    rewrite !orb_false_r. by apply Hp.
  - intros j Hj. rewrite last_value_app. unfold last_value at 1. cbn [fold_left]. rewrite decide_True by done.
    change (u8 (reg_wrap UDIEN 0)) with 0. by rewrite bit_tst_0.
Qed.

Lemma refines_clear_all g : refines p h0 g pd ie0 d0 False USB_INT_ClearAllInterrupts irq_clear_all.
Proof.
  unfold USB_INT_ClearAllInterrupts. apply refines_then; [quiet|].
  intros w s (new & Hh & Hp & He & Hd & Hs). apply wp_wr. eexists (_ :: new). cbn [hist]. rewrite Hh, writes_wr.
  split_and!; [done| | |by rewrite last_value_app|done].
  - intros j Hj. rewrite dropped_app. cbn [dropped existsb]. rewrite bool_decide_true by done.
    change (reg_wrap UDINT 0) with 0. rewrite bit_tst_0. by rewrite orb_true_r, andb_false_r.
  - intros j Hj. rewrite last_value_app. by apply He.
Qed.

(** The objects the start-up resets beside the configuration. *)
Definition fresh g : G :=
  let g' := put_usb (set_remote_wakeup false (usb g)) g in put_usb (set_self_powered false (usb g')) g'.

Lemma at_irq_fresh g w s : at_irq h0 g pd ie0 d0 w s ->
  at_irq h0 (fresh g) pd ie0 d0 (World (fresh (st w)) (hist w)) s.
Proof.
  intros (new & Hh & Hp & He & Hd & Hs). exists new. split_and!; [done..|]. cbn [st]. rewrite Hs.
  unfold fresh. cbv zeta. by rewrite ?usb_put, ?put_put, ?usb_put.
Qed.

(** The machine when the device has just been attached: flags down, suspend and
    bus reset enabled, unattached and not configured. *)
Definition irq_ready (s : irq) : Prop :=
  (forall i, i ∈ causes -> pending s i = false) /\
  (forall i, i ∈ causes -> enabled s i = bool_decide (i = USB_INT_SUSPI \/ i = USB_INT_EORSTI)) /\
  device s = DEVICE_STATE_Unattached /\ configuration s = 0.

(** The last step connects the pull-up; what follows leaves it alone. *)
Definition attached_after g w' : Prop := exists s w1 v v' tail,
  irq_ready s /\ at_irq h0 g pd ie0 d0 w1 s /\ at_irq h0 g pd ie0 d0 w' s /\
  hist w' = tail ++ Wr UDCON v' :: Rd UDCON v :: hist w1 /\ bit_tst v' DETACH = false /\
  Forall (fun e => match e with Wr r _ => r = USBCON | Rd _ _ => True end) tail.

Lemma wp_init_device g w s (Q : unit -> world G -> Prop) :
  at_irq h0 g pd ie0 d0 w s -> (forall i, i ∈ causes -> pending s i = false) ->
  (forall i, i ∈ causes -> enabled s i = false) ->
  (forall v v' w1 s', irq_ready s' -> at_irq h0 (fresh g) pd ie0 d0 w1 s' -> bit_tst v' DETACH = false ->
     Q tt (World (st w1) (Wr UDCON v' :: Rd UDCON v :: hist w1))) ->
  wp False USB_Init_Device Q p w.
Proof.
  intros Hs Hp He HQ. unfold USB_Init_Device.
  apply wp_bind. eapply wp_mono; [by apply (refines_state p h0 g pd ie0 d0 False)|]. intros [] w1 H1'.
  apply wp_bind. eapply wp_mono; [by apply (refines_configuration p h0 g pd ie0 d0 False 0)|]. intros [] w2 H2'.
  unfold mod_usb. apply wp_bind, wp_modify, wp_bind, wp_modify. cbn [st hist].
  apply at_irq_fresh in H2'. unfold fresh in H2' at 2. cbv zeta in H2'.
  match type of H2' with at_irq _ _ _ _ _ ?x _ => generalize dependent x end. intros w3 H3'.
  apply wp_bind. assert (quiet (G := G) False p (series4 ((if has_option USB_DEVICE_OPT_LOWSPEED
    then USB_Device_SetLowSpeed else USB_Device_SetFullSpeed);;; USB_INT_Enable USB_INT_VBUSTI))) as Hq.
  { unfold series4, USB_INT_Enable, USB_Device_SetLowSpeed, USB_Device_SetFullSpeed. quiet. }
  apply Hq. intros [] ws w4 D4 E4. pose proof (at_irq_elsewhere _ _ _ _ _ _ _ _ _ H3' D4 E4) as H4'.
  apply wp_bind, quiet_configure; [unfold USB_Device_ControlEndpointSize, FIXED_CONTROL_ENDPOINT_SIZE; lia|done|].
  intros ok ws5 w5 D5 E5. pose proof (at_irq_elsewhere _ _ _ _ _ _ _ _ _ H4' D5 E5) as H5'.
  apply wp_bind. eapply wp_mono; [apply (refines_clear p h0 (fresh g) pd ie0 d0 _ _ _ _ Hbus); [by apply (bool_decide_unpack _)|done]|].
  intros [] w6 H6'. apply wp_bind.
  eapply wp_mono; [apply (refines_enable p h0 (fresh g) pd ie0 d0 _ _ _ _ Hbus); [by apply (bool_decide_unpack _)|done]|].
  intros [] w7 H7'. apply wp_bind.
  eapply wp_mono; [apply (refines_enable p h0 (fresh g) pd ie0 d0 _ _ _ _ Hbus); [by apply (bool_decide_unpack _)|done]|].
  intros [] w8 H8'. unfold USB_Attach. apply wp_reg_andn. intros v _. eapply HQ; [|exact H8'|].
  - split_and!; [| |done|done].
    + intros i Hi. cbn. unfold set_bit. destruct (decide (i = USB_INT_SUSPI)); [done|by apply Hp].
    + intros i Hi. cbn. unfold set_bit.
      destruct (cause_cases i Hi) as [->|[->|[->| ->]]]; cbn; by rewrite ?He by done.
  - cbn [reg_wrap]. pose proof udcon_bits as Hb. rewrite bit_tst_testbit, testbit_u8, <- bit_tst_testbit by lia.
    by rewrite bit_tst_clr, Z.eqb_refl by lia.
Qed.

Lemma wp_reset_interface g w s : at_irq h0 g pd ie0 d0 w s ->
  wp False USB_ResetInterface (fun _ => attached_after (fresh g)) p w.
Proof.
  intros Hs. unfold USB_ResetInterface. apply wp_bind.
  eapply wp_mono; [by apply (refines_disable_all g)|]. intros [] w1 H1'. apply wp_bind.
  eapply wp_mono; [by apply (refines_clear_all g)|]. intros [] w2 H2'.
  assert (quiet (G := G) False p USB_Controller_Reset) as Q1 by (unfold USB_Controller_Reset; quiet).
  assert (quiet (G := G) False p USB_CLK_Unfreeze) as Q2 by (unfold USB_CLK_Unfreeze; quiet).
  assert (quiet (G := G) False p (match series with USB_SERIES_2_AVR => pll_on_wait | USB_SERIES_4_AVR => pll_off end)) as Q3
    by (destruct series; [by eapply quiet_pll_on|apply quiet_pll_off]).
  apply wp_bind, Q1. intros [] ws3 w3 D3 E3. pose proof (at_irq_elsewhere _ _ _ _ _ _ _ _ _ H2' D3 E3) as H3'.
  apply wp_bind, Q2. intros [] ws4 w4 D4 E4. pose proof (at_irq_elsewhere _ _ _ _ _ _ _ _ _ H3' D4 E4) as H4'.
  apply wp_bind, Q3. intros [] ws5 w5 D5 E5. pose proof (at_irq_elsewhere _ _ _ _ _ _ _ _ _ H4' D5 E5) as H5'.
  apply wp_bind. eapply wp_init_device; [exact H5'|done|done|]. intros v v' w6 s' Hr H6' Hv.
  assert (at_irq h0 (fresh g) pd ie0 d0 (World (st w6) (Wr UDCON v' :: Rd UDCON v :: hist w6)) s') as H7'.
  { eapply at_irq_elsewhere; [exact H6'|apply did_rw|]. apply Forall_singleton. by apply (bool_decide_unpack _). }
  unfold series4, USB_OTGPAD_On. destruct series.
  - apply wp_ret. by exists s', w6, v, v', [].
  - apply wp_reg_or. intros x _. eexists s', w6, v, v', [_; _]. split_and!; [done|done| |reflexivity|done|by repeat constructor].
    eapply at_irq_elsewhere; [exact H7'|apply did_rw|]. apply Forall_singleton. by apply (bool_decide_unpack _).
Qed.
End Startup.

(** [USB_Init] ends on any controller whose PLL locks, and leaves the
    interface ready: all flags dropped, exactly the suspend and bus-reset
    interrupts enabled, the device unattached and unconfigured with remote
    wakeup and self power off, and the pull-up connected last, after all of
    this and after the control endpoint has been set up. *)
Theorem usb_init_ready {G} `{UsbStateOk G} `{AvrOk} `{!UsbApplication G}
    (p : platform) (w : world G) pd ie0 d addressed vflag venable vline k :
  irq_bus p (hist w) pd ie0 addressed vflag venable vline ->
  flag_within k PLLCSR PLOCK p -> (k < fuel p)%nat -> (13 <= fuel p)%nat ->
  wp False USB_Init
    (fun _ => attached_after (hist w) pd ie0 (state_code d) (fresh (st w))) p w.
Proof.
  intros Hbus Hk Hkf Hf.
  assert (at_irq (hist w) (st w) pd ie0 (state_code d) w
    (Irq pd (fun i => bit_tst (u8 ie0) (enable_bit i)) d (USB_Device_ConfigurationNumber (usb (st w))))) as Hs.
  { exists []. split_and!; [done| |done|done|].
    - intros i Hi. cbn. by rewrite andb_true_r.
    - cbn [configuration]. replace (set_configuration _ _) with (usb (st w)) by (by destruct (usb (st w))).
      symmetry. apply put_same. }
  assert (quiet (G := G) False p (series4 USB_OTGPAD_Off)) as Q1 by (unfold series4, USB_OTGPAD_Off; quiet).
  assert (quiet (G := G) False p (if has_option USB_OPT_REG_DISABLED then USB_REG_Off else USB_REG_On)) as Q2
    by (unfold USB_REG_Off, USB_REG_On; quiet).
  assert (quiet (G := G) False p (if has_option USB_OPT_MANUAL_PLL then ret tt else series4 (wr PLLFRQ (Z.shiftl 1 PDIV2)))) as Q3
    by (unfold series4; quiet).
  unfold USB_Init.
  apply wp_bind, Q1. intros [] ws1 w1 D1 E1. pose proof (at_irq_elsewhere _ _ _ _ _ _ _ _ _ Hs D1 E1) as H1'.
  apply wp_bind, Q2. intros [] ws2 w2 D2 E2. pose proof (at_irq_elsewhere _ _ _ _ _ _ _ _ _ H1' D2 E2) as H2'.
  apply wp_bind, Q3. intros [] ws3 w3 D3 E3. pose proof (at_irq_elsewhere _ _ _ _ _ _ _ _ _ H2' D3 E3) as H3'.
  apply wp_bind, (quiet_wr False p V_USB_IsInitialized 1); [by apply (bool_decide_unpack _)|].
  intros [] ws4 w4 D4 E4. pose proof (at_irq_elsewhere _ _ _ _ _ _ _ _ _ H3' D4 E4) as H4'.
  by apply (wp_reset_interface p (hist w) pd ie0 (state_code d) addressed vflag venable vline Hbus k (or_intror (conj Hk Hkf)) Hf
    (st w) w4 _ H4').
Qed.

(** ** Concrete runs *)

Section Demo.
#[local] Instance demo_chip : Avr := datasheet USB_SERIES_2_AVR.
#[local] Instance demo_chip_ok : AvrOk := datasheet_ok USB_SERIES_2_AVR.

(** A controller with the flags [pd] up. *)
Definition irq_demo (pd : USB_Interrupts_t -> bool) (ie0 : Z) (n : nat) : platform := {|
  respond h r := match r with
    | UDINT => foldr (fun i a => (if pd i && negb (dropped i (writes h)) then 2 ^ flag_bit i else 0) + a) 0 causes
    | UDIEN => last_value UDIEN (writes h) ie0
    | PLLCSR => 1
    | _ => 0
    end;
  fuel := n
|}.

Lemma irq_demo_bus pd ie0 n : irq_bus (irq_demo pd ie0 n) [] pd ie0 false false false false.
Proof.
  split; [|intros new; by rewrite app_nil_r|done..]. intros new i Hi. rewrite app_nil_r. cbn [irq_demo respond foldr causes].
  destruct (cause_cases i Hi) as [->|[->|[->| ->]]];
    generalize (dropped USB_INT_WAKEUPI (writes new)) (dropped USB_INT_SUSPI (writes new))
      (dropped USB_INT_EORSTI (writes new)) (dropped USB_INT_SOFI (writes new)); intros [] [] [] [];
    destruct (pd USB_INT_WAKEUPI), (pd USB_INT_SUSPI), (pd USB_INT_EORSTI), (pd USB_INT_SOFI); done.
Qed.

Definition demo_pending (i : USB_Interrupts_t) : bool := bool_decide (i = USB_INT_WAKEUPI \/ i = USB_INT_EORSTI).
(** Wake-up (bit 4) and bus reset (bit 3) enabled, configuration 1, suspended. *)
Definition demo_irq : irq := Irq demo_pending (fun i => bit_tst 24 (enable_bit i)) DEVICE_STATE_Unattached 1.
Definition demo_world : world usb_globals := World (UsbGlobals (Request 0 0 0 0 0) 1 false true) [].

Lemma demo_quiet p : quiet_events (G := usb_globals) False p.
Proof. split_and!; apply quiet_ret. Qed.

(** A wake-up and a bus reset pending together: the device ends in the default
    state, unconfigured. *)
Lemma usb_interrupt_refines_witness :
  let p := irq_demo demo_pending 24 13 in
  let s' := irq_handler USB_SERIES_2_AVR None false demo_irq in
  wp False (USB_GEN_vect (G := usb_globals))
    (fun _ w' => at_irq [] (st demo_world) demo_pending 24 0 w' s') p demo_world /\
  device s' = DEVICE_STATE_Default /\ configuration s' = 0 /\ irq_ok s'.
Proof.
  intros p s'.
  assert (at_irq [] (st demo_world) demo_pending 24 0 demo_world demo_irq) as Hs.
  { exists []. split_and!; [done| |done|done|done]. intros i Hi. cbn. by rewrite andb_true_r. }
  destruct (usb_interrupt_refines p demo_world demo_pending 24 0 false false false false 1 demo_irq
    (irq_demo_bus _ _ _) (demo_quiet _) ltac:(intros h _; reflexivity) ltac:(cbn; lia) ltac:(cbn; lia) Hs) as [Hw Hok].
  split_and!; [exact Hw|done|done|]. apply Hok. by split.
Defined.

Lemma usb_init_ready_witness :
  let p := irq_demo demo_pending 24 13 in
  wp False (USB_Init (G := usb_globals))
    (fun _ => attached_after [] demo_pending 24 (state_code DEVICE_STATE_Configured) (fresh (st demo_world))) p demo_world.
Proof.
  intros p. apply (usb_init_ready p demo_world demo_pending 24 DEVICE_STATE_Configured false false false false 1
    (irq_demo_bus _ _ _)); [intros h _; reflexivity|cbn; lia|cbn; lia].
Defined.
End Demo.
