(* ===== verification/MemorySafety.v ===== *)
(** * No access outside an object, whatever the hardware answers

    A program is [safe] for an invariant of the objects when, from a state that
    satisfies it, every run of it that returns has stayed inside its objects
    and ends in a state that satisfies it again, for every behaviour of the
    hardware.  The stream templates are safe for buffers that hold the length
    they are given, and with them every handler of the USB stack. *)

From S2P Require Import Prelude StdDescriptors HIDClass Descriptors Machine UsbCore Endpoint EndpointStream DeviceStandardReq UsbController.

Definition safe {G A} (Inv : G -> Prop) (p : platform) (m : M G A) : Prop := forall w : world G,
  Inv (st w) -> wp True m (fun _ w' => Inv (st w')) p w.

(** The same with a property of the value returned. *)
Definition safe_to {G A} (Inv : G -> Prop) (p : platform) (J : A -> Prop) (m : M G A) : Prop := forall w : world G,
  Inv (st w) -> wp True m (fun a w' => Inv (st w') /\ J a) p w.

(** An invariant that asks nothing of the USB objects but that the length of
    the request is a 16-bit number. *)
Class UsbInv {G} `{UsbState G} (Inv : G -> Prop) : Prop := {
  inv_request g : Inv g -> is_u16 (wLength (USB_ControlRequest (usb g)));
  inv_put u g : Inv g -> is_u16 (wLength (USB_ControlRequest u)) -> Inv (put_usb u g)
}.

Section Safe.
Context {G : Type} (Inv : G -> Prop) (p : platform).
Implicit Types w : world G.

Lemma safe_ret {A} (a : A) : safe Inv p (ret a).
Proof. by intros w. Qed.
Lemma safe_seq {A B} (m : M G A) (k : A -> M G B) :
  safe Inv p m -> (forall a, safe Inv p (k a)) -> safe Inv p (bind m k).
Proof.
  intros Hm Hk w Hw. apply wp_bind. eapply wp_mono; [by apply Hm|]. intros a w1 H1. by apply Hk.
Qed.
Lemma safe_rd r : safe Inv p (rd (G := G) r).
Proof. intros w Hw. by apply wp_rd. Qed.
Lemma safe_wr r v : safe Inv p (wr (G := G) r v).
Proof. intros w Hw. by apply wp_wr. Qed.
Lemma safe_reg_or r b : safe Inv p (reg_or (G := G) r b).
Proof. intros w Hw. by apply wp_reg_or. Qed.
Lemma safe_reg_andn r b : safe Inv p (reg_andn (G := G) r b).
Proof. intros w Hw. by apply wp_reg_andn. Qed.
Lemma safe_reg_bit r b : safe Inv p (reg_bit (G := G) r b).
Proof. intros w Hw. by apply wp_reg_bit. Qed.
Lemma safe_get : safe Inv p (mget (G := G)).
Proof. intros w Hw. by apply wp_get. Qed.
Lemma safe_for_each {Y R} (l : list Y) (body : Y -> M G (Datatypes.option R)) :
  (forall x, safe Inv p (body x)) -> safe Inv p (for_each l body).
Proof.
  intros Hb. induction l as [|x l IH]; [apply safe_ret|]. cbn [for_each]. apply safe_seq; [apply Hb|].
  intros [r|]; [apply safe_ret|apply IH].
Qed.
(** A loop whose rounds are safe in any loop state. *)
Lemma safe_while {Y R} (body : Y -> M G (Y + R)) x : (forall y, safe Inv p (body y)) -> safe Inv p (while_ body x).
Proof.
  intros Hb w Hw. apply (wp_while True p (fun _ w' => Inv (st w'))); [done| |done].
  intros y w1 H1. eapply wp_mono; [by apply Hb|]. by intros [y'|r] w2 H2.
Qed.
Lemma safe_to_safe {A} (J : A -> Prop) (m : M G A) : safe_to Inv p J m -> safe Inv p m.
Proof. intros Hm w Hw. eapply wp_mono; [by apply Hm|]. by intros a w1 []. Qed.
Lemma safe_to_ret {A} (J : A -> Prop) (a : A) : J a -> safe_to Inv p J (ret a).
Proof. intros HJ w Hw. by apply wp_ret. Qed.
Lemma safe_to_bind {A B} (I : A -> Prop) (J : B -> Prop) (m : M G A) (k : A -> M G B) :
  safe_to Inv p I m -> (forall a, I a -> safe_to Inv p J (k a)) -> safe_to Inv p J (bind m k).
Proof.
  intros Hm Hk w Hw. apply wp_bind. eapply wp_mono; [by apply Hm|]. intros a w1 [H1 HI]. by apply Hk.
Qed.
Lemma safe_then {A B} (J : B -> Prop) (m : M G A) (k : A -> M G B) :
  safe Inv p m -> (forall a, safe_to Inv p J (k a)) -> safe_to Inv p J (bind m k).
Proof.
  intros Hm Hk. apply (safe_to_bind (fun _ => True)); [|auto].
  intros w Hw. eapply wp_mono; [by apply Hm|]. done.
Qed.
(** A loop with an invariant of its loop state. *)
Lemma safe_to_while {Y R} (I : Y -> Prop) (J : R -> Prop) (body : Y -> M G (Y + R)) x :
  (forall y, I y -> safe_to Inv p (fun y' => match y' with inl y2 => I y2 | inr r => J r end) (body y)) ->
  I x -> safe_to Inv p J (while_ body x).
Proof.
  intros Hb Hx w Hw. apply (wp_while True p (fun y w' => Inv (st w') /\ I y)); [done| |done].
  intros y w1 [H1 HI]. eapply wp_mono; [by apply Hb|]. by intros [y'|r] w2 [H2 H3].
Qed.
End Safe.

Section SafeObjects.
Context {G : Type} `{UsbState G} (Inv : G -> Prop) `{!UsbInv Inv} (p : platform).

Lemma safe_get_usb : safe Inv p (get_usb (G := G)).
Proof. apply safe_seq; [apply safe_get|intros g; apply safe_ret]. Qed.
Lemma safe_get_request : safe_to Inv p (fun r => is_u16 (wLength r)) (get_request (G := G)).
Proof.
  intros w Hw. unfold get_request, get_usb. apply wp_bind, wp_bind, wp_get, wp_ret, wp_ret.
  split; [done|by apply inv_request].
Qed.
Lemma safe_request_then {A} (k : USB_Request_Header_t -> M G A) :
  (forall r, is_u16 (wLength r) -> safe Inv p (k r)) -> safe Inv p (bind get_request k).
Proof.
  intros Hk. apply (safe_to_safe Inv p (fun _ => True)). eapply safe_to_bind; [apply safe_get_request|].
  intros r Hr. intros w Hw. eapply wp_mono; [by apply Hk|]. done.
Qed.
Lemma safe_mod_usb f : (forall u, is_u16 (wLength (USB_ControlRequest u)) -> is_u16 (wLength (USB_ControlRequest (f u)))) ->
  safe Inv p (mod_usb (G := G) f).
Proof. intros Hf w Hw. unfold mod_usb. apply wp_modify. cbn [st]. by apply inv_put, Hf, inv_request. Qed.
End SafeObjects.

Create HintDb safe.
#[export] Hint Resolve safe_ret safe_rd safe_wr safe_reg_or safe_reg_andn safe_reg_bit safe_get : safe.

Ltac safe :=
  repeat (intros; lazymatch goal with
    | |- safe _ _ (bind get_request _) => apply safe_request_then; [typeclasses eauto|]
    | |- safe _ _ (bind _ _) => apply safe_seq
    | |- safe _ _ (for_each _ _) => apply safe_for_each
    | |- safe _ _ (while_ _ _) => apply safe_while
    | |- safe _ _ (match ?x with _ => _ end) => destruct x
    | |- safe _ _ (when ?b _) => unfold when
    | |- safe _ _ (mod_usb _) => apply safe_mod_usb; [typeclasses eauto|done]
    | |- safe _ _ _ => solve [auto with safe]
    | |- safe_to _ _ _ (bind _ _) => apply safe_then; [|intros]
    | |- safe_to _ _ _ (match ?x with _ => _ end) => destruct x
    end).

(** ** Registers of the endpoints *)

Section SafeEndpoint.
Context {G : Type} `{UsbState G} (Inv : G -> Prop) `{!UsbInv Inv} `{Avr} (p : platform).

Lemma safe_wait : safe Inv p (Endpoint_WaitUntilReady (G := G)).
Proof.
  unfold Endpoint_WaitUntilReady, USB_Device_GetFrameNumber, Endpoint_GetEndpointDirection, Endpoint_IsINReady,
    Endpoint_IsOUTReceived, Endpoint_IsStalled. safe.
Qed.
Lemma safe_clear_in : safe Inv p (Endpoint_ClearIN (G := G)).
Proof. unfold Endpoint_ClearIN, clear_flags. safe. Qed.
Lemma safe_clear_out : safe Inv p (Endpoint_ClearOUT (G := G)).
Proof. unfold Endpoint_ClearOUT, clear_flags. safe. Qed.
Lemma safe_status_stage : safe Inv p (Endpoint_ClearStatusStage (G := G)).
Proof.
  unfold Endpoint_ClearStatusStage, status_wait, Endpoint_IsOUTReceived, Endpoint_IsINReady, is_DeviceState.
  apply safe_request_then; [done|]. intros r _. destruct (negb _); safe; first [apply safe_clear_out|apply safe_clear_in].
Qed.
Lemma safe_bytes : safe Inv p (Endpoint_BytesInEndpoint (G := G)).
Proof. unfold Endpoint_BytesInEndpoint. safe. Qed.
Lemma safe_configure a t n b : safe Inv p (Endpoint_ConfigureEndpoint (G := G) a t n b).
Proof.
  unfold Endpoint_ConfigureEndpoint, Endpoint_BytesToEPSizeMask, Endpoint_ConfigureEndpoint_Prv, write_configuration,
    Endpoint_SelectEndpoint, Endpoint_DisableEndpoint, Endpoint_EnableEndpoint, Endpoint_IsConfigured. safe.
Qed.
End SafeEndpoint.
#[export] Hint Resolve safe_get_usb safe_wait safe_clear_in safe_clear_out
  safe_status_stage safe_bytes safe_configure : safe.

(** ** Transfers over a buffer *)

(** [room b n]: from buffer state [b] on, [n] more bytes are inside the buffer. *)
Class Bounded {G B} (Inv : G -> Prop) (p : platform) (transfer : B -> M G B) (move : Z -> B -> B)
    (room : B -> Z -> Prop) : Prop :=
  bounded_step b n : 0 < n -> room b n -> safe_to Inv p (fun b' => room (move 1 b') (n - 1)) (transfer b).

Section Buffers.
Context {G : Type} (Inv : G -> Prop) (p : platform).

Definition room_up (mem : list Z) (i n : Z) : Prop := 0 <= i /\ i + n <= Z.of_nat (length mem).
Definition room_down (mem : list Z) (i n : Z) : Prop := i < Z.of_nat (length mem) /\ n <= i + 1.
Definition room_up_in (m : list Z * Z) (n : Z) : Prop := room_up m.1 m.2 n.
Definition room_down_in (m : list Z * Z) (n : Z) : Prop := room_down m.1 m.2 n.

Lemma safe_send_byte mem i (J : Z -> Prop) : 0 <= i < Z.of_nat (length mem) -> J i ->
  safe_to Inv p J (send_byte (G := G) mem i).
Proof.
  intros Hi HJ. destruct (aget_Some mem i Hi) as [b Hb]. unfold send_byte. rewrite Hb. cbn [mlift].
  unfold Endpoint_Write_8. safe. by apply safe_to_ret.
Qed.
Lemma safe_store_byte m (J : list Z * Z -> Prop) : 0 <= m.2 < Z.of_nat (length m.1) ->
  (forall mem', length mem' = length m.1 -> J (mem', m.2)) -> safe_to Inv p J (store_byte (G := G) m).
Proof.
  intros Hi HJ. unfold store_byte, Endpoint_Read_8. apply safe_then; [apply safe_rd|intros v].
  rewrite aset_Some by done. cbn [mlift].
  apply (safe_to_bind Inv p (fun mem' => length mem' = length m.1)); [|intros mem' E; by apply safe_to_ret, HJ].
  apply safe_to_ret. apply length_insert.
Qed.

#[export] Instance bounded_send_up mem : Bounded Inv p (send_byte (G := G) mem) move_up (room_up mem).
Proof. intros i n Hn [H1 H2]. apply safe_send_byte; unfold room_up, move_up; lia. Qed.
#[export] Instance bounded_send_down mem : Bounded Inv p (send_byte (G := G) mem) move_down (room_down mem).
Proof. intros i n Hn [H1 H2]. apply safe_send_byte; unfold room_down, move_down; lia. Qed.
#[export] Instance bounded_store_up : Bounded Inv p (store_byte (G := G)) move_up_in room_up_in.
Proof.
  intros [mem i] n Hn [H1 H2]. cbn [fst snd] in *. apply safe_store_byte; cbn [fst snd]; [lia|].
  intros mem' E. unfold room_up_in, room_up, move_up_in. cbn [fst snd]. lia.
Qed.
#[export] Instance bounded_store_down : Bounded Inv p (store_byte (G := G)) move_down_in room_down_in.
Proof.
  intros [mem i] n Hn [H1 H2]. cbn [fst snd] in *. apply safe_store_byte; cbn [fst snd]; [lia|].
  intros mem' E. unfold room_down_in, room_down, move_down_in. cbn [fst snd]. lia.
Qed.
End Buffers.

Section SafeStreams.
Context {G : Type} `{UsbState G} (Inv : G -> Prop) `{!UsbInv Inv} `{Avr} (p : platform).
Context {B : Type} (transfer : B -> M G B) (move : Z -> B -> B) (room : B -> Z -> Prop).
Context `{!Bounded Inv p transfer move room}.

(** A buffer state with a 16-bit number of bytes left in it. *)
Definition left_in (b : B) (n : Z) : Prop := is_u16 n /\ room b n.

Lemma safe_transfer b n {R} (J : R -> Prop) (k : B -> M G R) : left_in b n -> n <> 0 ->
  (forall b', left_in (move 1 b') (u16 (n - 1)) -> safe_to Inv p J (k b')) -> safe_to Inv p J (bind (transfer b) k).
Proof.
  unfold left_in, is_u16. intros [Hn Hr] Hne Hk.
  apply (safe_to_bind Inv p (fun b' => room (move 1 b') (n - 1))); [apply bounded_step; [lia|done]|].
  intros b' Hb'. apply Hk. rewrite u16_small by (unfold is_u16; lia). split; [lia|done].
Qed.

(** The data endpoint template. *)
Lemma safe_rw task clear b n done :
  safe Inv p task -> safe Inv p clear ->
  left_in (match done with Some k => move k b | None => b end)
          (match done with Some k => u16 (n - k) | None => n end) ->
  safe Inv p (Template_Endpoint_RW task transfer move clear b n done).
Proof.
  intros Ht Hc Hl. unfold Template_Endpoint_RW. apply safe_seq; [apply safe_wait|].
  intros code. destruct (negb _); [apply safe_ret|].
  set (x := match done with Some k => (_, _) | None => _ end).
  assert (left_in x.1 x.2) as Hx by (by destruct done). destruct x as [b1 n1]. cbn [fst snd] in Hx.
  apply (safe_to_safe Inv p (fun _ => True)), (safe_to_while Inv p (fun x => left_in x.1.1 x.1.2)); [|done].
  intros [[b2 n2] c] Hy. cbn [fst snd] in Hy. destruct (Z.eqb_spec n2 0) as [E|E]; [by apply safe_to_ret|].
  apply safe_then; [apply safe_reg_bit|]. intros [|]; cbn [negb].
  - apply (safe_transfer b2 n2); [done|done|]. intros b' Hb'. by apply safe_to_ret.
  - apply safe_then; [done|intros _]. apply safe_then; [done|intros _].
    destruct done; [by apply safe_to_ret|]. apply safe_then; [apply safe_wait|].
    intros code'. apply safe_to_ret. by case_bool_decide.
Qed.

(** With [BytesProcessed]: the count stays within the length. *)
Lemma safe_rw_resumed task clear b n k :
  safe Inv p task -> safe Inv p clear -> is_u16 n -> 0 <= k <= n -> room (move k b) (n - k) ->
  safe_to Inv p (fun r => exists k', r.2 = Some k' /\ 0 <= k' <= n) (Template_Endpoint_RW task transfer move clear b n (Some k)).
Proof.
  unfold is_u16. intros Ht Hc Hn Hk Hr. unfold Template_Endpoint_RW. apply safe_then; [apply safe_wait|].
  intros code. destruct (negb _); [apply safe_to_ret; by exists k|]. rewrite (u16_small (n - k)) by (unfold is_u16; lia).
  apply (safe_to_while Inv p (fun x => left_in x.1.1 x.1.2 /\ 0 <= x.2 /\ x.1.2 + x.2 = n - k)).
  - intros [[b2 n2] c] (Hy & Hc0 & Hsum). cbn [fst snd] in *. destruct (Z.eqb_spec n2 0) as [E|E]; [apply safe_to_ret; by exists k|].
    pose proof Hy as [Hn2 _]. unfold is_u16 in Hn2. apply safe_then; [apply safe_reg_bit|]. intros [|]; cbn [negb].
    + apply (safe_transfer b2 n2); [done|done|]. intros b' Hb'. apply safe_to_ret. split; [done|]. cbn [fst snd].
      rewrite !u16_small by (unfold is_u16; lia). lia.
    + apply safe_then; [done|intros _]. apply safe_then; [done|intros _]. apply safe_to_ret.
      exists (u16 (k + c)). split; [done|]. rewrite u16_small by (unfold is_u16; lia). lia.
  - cbn [fst snd]. split; [split; [unfold is_u16; lia|done]|lia].
Qed.

Lemma safe_unless_gone {A} (J : A -> Prop) f k :
  (forall c, J (f c)) -> safe_to Inv p J k -> safe_to Inv p J (unless_gone (G := G) f k).
Proof.
  intros Hf Hk. unfold unless_gone. apply safe_then; [apply safe_rd|]. intros v.
  destruct (_ =? _); [by apply safe_to_ret|]. destruct (_ =? _); [by apply safe_to_ret|done].
Qed.

(** One packet out, and one in. *)
Lemma safe_fill_packet b n m : left_in b n ->
  safe_to Inv p (fun r => left_in r.1.1 r.1.2) (fill_packet transfer move b n m).
Proof.
  intros Hl. apply (safe_to_while Inv p (fun x => left_in x.1.1 x.1.2)); [|done].
  intros [[b2 n2] c] Hy. cbn [fst snd] in Hy. destruct (negb (n2 =? 0) && _) eqn:E; [|by apply safe_to_ret].
  apply (safe_transfer b2 n2); [done|lia|]. intros b' Hb'. by apply safe_to_ret.
Qed.
Lemma safe_drain_packet b n : left_in b n ->
  safe_to Inv p (fun r => left_in r.1 r.2) (drain_packet transfer move b n).
Proof.
  intros Hl. apply (safe_to_while Inv p (fun x => left_in x.1 x.2)); [|done].
  intros [b2 n2] Hy. cbn [fst snd] in Hy. destruct (Z.eqb_spec n2 0) as [E|E]; [by apply safe_to_ret|].
  apply safe_then; [apply safe_bytes|]. intros m. destruct (m =? 0); [by apply safe_to_ret|].
  apply (safe_transfer b2 n2); [done|done|]. intros b' Hb'. by apply safe_to_ret.
Qed.

(** A data stage of at most the room of the buffer, then the status stage. *)
Lemma safe_control_w_data b n : left_in b n -> safe Inv p (control_w_data transfer move b n).
Proof.
  intros Hl. apply (safe_to_safe Inv p (fun _ => True)), (safe_to_while Inv p (fun x => left_in x.1.1 x.1.2)); [|done].
  intros [[b2 n2] last] Hy. unfold control_w_round. destruct (_ && _); [by apply safe_to_ret|].
  apply safe_unless_gone; [done|]. apply safe_then; [apply safe_reg_bit|]. intros [|]; [by apply safe_to_ret|].
  apply safe_then; [apply safe_reg_bit|]. intros [|]; [by apply safe_to_ret|].
  apply safe_then; [apply safe_reg_bit|]. intros [|]; [|by apply safe_to_ret].
  apply safe_then; [apply safe_bytes|]. intros m.
  eapply safe_to_bind; [by apply (safe_fill_packet b2 n2 m)|]. intros [[b3 n3] m3] H3.
  apply safe_then; [apply safe_clear_in|]. intros _. by apply safe_to_ret.
Qed.

Lemma safe_status_wait (m : M G Endpoint_ControlStream_RW_ErrorCodes_t) :
  m = control_w_status \/ m = control_r_status -> safe Inv p m.
Proof.
  intros [-> | ->]; unfold control_w_status, control_r_status, unless_gone, Endpoint_IsOUTReceived,
    Endpoint_IsSETUPReceived, Endpoint_IsINReady; safe.
Qed.

Lemma safe_control_w b n : is_u16 n -> (forall k, 0 <= k <= n -> room b k) ->
  safe Inv p (Template_Endpoint_Control_W transfer move b n).
Proof.
  intros Hn Hroom. apply safe_request_then; [done|]. intros r Hr. unfold is_u16 in *.
  apply (safe_to_safe Inv p (fun _ => True)), (safe_to_bind Inv p (fun k => is_u16 k /\ k <= n)).
  - unfold is_u16. destruct (Z.ltb_spec (wLength r) n); [apply safe_to_ret; lia|].
    destruct (n =? 0); [apply safe_then; [apply safe_clear_in|intros _]|]; apply safe_to_ret; lia.
  - intros k [Hk Hkn]. apply safe_then; [apply safe_control_w_data; split; [done|apply Hroom]; unfold is_u16 in Hk; lia|].
    intros [c|]; [by apply safe_to_ret|]. intros w Hw. eapply wp_mono; [apply safe_status_wait; [by left|done]|done].
Qed.

Lemma safe_control_r_data b n : left_in b n -> safe Inv p (control_r_data transfer move b n).
Proof.
  intros Hl. apply (safe_to_safe Inv p (fun _ => True)), (safe_to_while Inv p (fun x => left_in x.1 x.2)); [|done].
  intros [b2 n2] Hy. destruct (n2 =? 0); [by apply safe_to_ret|].
  apply safe_unless_gone; [done|]. apply safe_then; [apply safe_reg_bit|]. intros [|]; [by apply safe_to_ret|].
  apply safe_then; [apply safe_reg_bit|]. intros [|]; [|by apply safe_to_ret].
  eapply safe_to_bind; [by apply (safe_drain_packet b2 n2)|]. intros [b3 n3] H3.
  apply safe_then; [apply safe_clear_out|]. intros _. by apply safe_to_ret.
Qed.

Lemma safe_control_r b n : left_in b n -> safe Inv p (Template_Endpoint_Control_R transfer move b n).
Proof.
  intros Hl. unfold Template_Endpoint_Control_R.
  apply safe_seq; [destruct (n =? 0); [apply safe_clear_out|apply safe_ret]|intros _].
  apply safe_seq; [by apply safe_control_r_data|]. intros [[c|] b']; [apply safe_ret|].
  apply safe_seq; [apply safe_status_wait; by right|]. intros c. apply safe_ret.
Qed.
End SafeStreams.

(** ** The buffers of the stream functions *)

Section SafeBuffers.
Context {G : Type} `{UsbState G} (Inv : G -> Prop) `{!UsbInv Inv} `{Avr} (p : platform).

Lemma safe_write_control mem n : 0 <= n < 65536 -> n <= Z.of_nat (length mem) ->
  safe Inv p (Endpoint_Write_Control_Stream_LE mem n) /\ safe Inv p (Endpoint_Write_Control_Stream_BE mem n).
Proof.
  intros Hn Hl. split; [apply (safe_control_w Inv p _ _ (room_up mem))|apply (safe_control_w Inv p _ _ (room_down mem))];
    unfold is_u16, room_up, room_down; lia.
Qed.
Lemma safe_read_control mem n : 0 <= n < 65536 -> n <= Z.of_nat (length mem) ->
  safe Inv p (Endpoint_Read_Control_Stream_LE mem n) /\ safe Inv p (Endpoint_Read_Control_Stream_BE mem n).
Proof.
  intros Hn Hl. split; [apply (safe_control_r Inv p _ _ room_up_in)|apply (safe_control_r Inv p _ _ room_down_in)];
    unfold left_in, is_u16, room_up_in, room_down_in, room_up, room_down; cbn [fst snd]; lia.
Qed.
(** [n] bytes of which [k] were transferred before. *)
Lemma safe_data_streams task mem n done :
  safe Inv p task -> 0 <= n < 65536 -> n <= Z.of_nat (length mem) ->
  match done with Some k => 0 <= k <= n | None => True end ->
  safe Inv p (Endpoint_Write_Stream_LE task mem n done) /\ safe Inv p (Endpoint_Write_Stream_BE task mem n done) /\
  safe Inv p (Endpoint_Read_Stream_LE task mem n done) /\ safe Inv p (Endpoint_Read_Stream_BE task mem n done).
Proof.
  intros Ht Hn Hl Hd.
  split_and!; [apply (safe_rw Inv p _ _ (room_up mem))|apply (safe_rw Inv p _ _ (room_down mem))|
    apply (safe_rw Inv p _ _ room_up_in)|apply (safe_rw Inv p _ _ room_down_in)];
    first [done|apply safe_clear_in|apply safe_clear_out|
      unfold left_in, is_u16, room_up_in, room_down_in, room_up, room_down, move_up, move_down, move_up_in, move_down_in;
      destruct done; cbn [fst snd]; rewrite ?u16_small by (unfold is_u16; lia); lia].
Qed.
End SafeBuffers.

(** ** The handlers of the stack *)

(** What the stack needs of the application: handlers that are safe, and
    descriptors within their memory. *)
Class SafeApplication {G} `{UsbState G} (Inv : G -> Prop) (p : platform) `{UsbApplication G} : Prop := {
  safe_ControlRequest : safe Inv p EVENT_USB_Device_ControlRequest;
  safe_ConfigurationChanged : safe Inv p EVENT_USB_Device_ConfigurationChanged;
  safe_Connect : safe Inv p EVENT_USB_Device_Connect;
  safe_Disconnect : safe Inv p EVENT_USB_Device_Disconnect;
  safe_Reset : safe Inv p EVENT_USB_Device_Reset;
  safe_Suspend : safe Inv p EVENT_USB_Device_Suspend;
  safe_WakeUp : safe Inv p EVENT_USB_Device_WakeUp;
  safe_StartOfFrame : safe Inv p EVENT_USB_Device_StartOfFrame;
  safe_descriptor v i : 0 <= snd (GetDescriptor v i) < 65536 /\
    snd (GetDescriptor v i) <= Z.of_nat (length (fst (GetDescriptor v i)))
}.

Section SafeHandlers.
Context {G : Type} `{UsbState G} (Inv : G -> Prop) `{!UsbInv Inv} `{Avr} (p : platform).
Context `{UsbApplication G} `{!SafeApplication Inv p}.
Variable boot_signature_byte_get : Z -> Z.

Lemma safe_set_state s : safe Inv p (set_DeviceState (G := G) s).
Proof. apply safe_wr. Qed.
#[local] Hint Resolve safe_set_state : safe.
#[local] Hint Extern 0 (safe _ _ EVENT_USB_Device_ConfigurationChanged) => apply safe_ConfigurationChanged : safe.
#[local] Hint Extern 0 (safe _ _ EVENT_USB_Device_ControlRequest) => apply safe_ControlRequest : safe.

Lemma safe_read_bytes n : safe_to Inv p (fun bs => length bs = n /\ Forall is_u8 bs) (read_bytes (G := G) n).
Proof.
  induction n as [|n IH]; [by apply safe_to_ret|]. cbn [read_bytes].
  apply (safe_to_bind Inv p is_u8); [intros w Hw; apply wp_rd; intros v ->; split; [done|apply u8_range]|].
  intros b Hb. eapply safe_to_bind; [exact IH|]. intros bs [Hl Hbs]. apply safe_to_ret. cbn. by split; [f_equal|constructor].
Qed.

Lemma safe_read_request : safe Inv p (read_request (G := G)).
Proof.
  apply (safe_to_safe Inv p (fun _ => True)). eapply safe_to_bind; [apply safe_read_bytes|]. intros bs [Hl Hb].
  destruct (pack_unpack (A := USB_Request_Header_t) bs Hb) as (r & -> & _ & Hr); [rewrite Hl; by vm_compute|].
  apply (safe_to_bind Inv p (fun r => is_u16 (wLength r))).
  - apply safe_to_ret. destruct r as [bm b v i len].
    by apply (Forall2_lookup_lr fits [1; 1; 2; 2; 2]%nat [bm; b; v; i; len] 4 2%nat len Hr).
  - intros r' Hr'. intros w Hw. eapply wp_mono; [by apply safe_mod_usb|done].
Qed.

Lemma safe_SetAddress : safe Inv p (USB_Device_SetAddress (G := G)).
Proof. unfold USB_Device_SetAddress, USB_Device_SetDeviceAddress, USB_Device_EnableDeviceAddress, Endpoint_ClearSETUP, await_in, Endpoint_IsINReady. safe. Qed.
Lemma safe_SetConfiguration : safe Inv p USB_Device_SetConfiguration.
Proof.
  unfold USB_Device_SetConfiguration, USB_Device_IsAddressSet, Endpoint_ClearSETUP. safe.
Qed.
Lemma safe_GetConfiguration : safe Inv p (USB_Device_GetConfiguration (G := G)).
Proof. unfold USB_Device_GetConfiguration, Endpoint_Write_8, Endpoint_ClearSETUP. safe. Qed.

Lemma safe_GetInternalSerial : safe Inv p (USB_Device_GetInternalSerialDescriptor boot_signature_byte_get).
Proof.
  unfold USB_Device_GetInternalSerialDescriptor, USB_Device_GetSerialString, GetGlobalInterruptMask,
    GlobalInterruptDisable, SetGlobalInterruptMask, Endpoint_ClearSETUP.
  apply (safe_to_safe Inv p (fun _ => True)), (safe_to_bind Inv p (fun s => (length s <= 100)%nat)).
  - do 3 (apply safe_then; [auto with safe|intros ?]). apply safe_to_ret, Nat.leb_le. by vm_compute.
  - intros s Hs. set (d := signature_descriptor s).
    assert (Z.of_nat (length d) < 65536) as Hd.
    { unfold d, signature_descriptor. rewrite length_app, pack_length. change (sum_list _) with 2%nat.
      assert (length (flat_map (le_bytes 2) s) = 2 * length s)%nat as -> by (induction s; cbn in *; lia). lia. }
    destruct (safe_write_control Inv p d (Z.of_nat (length d))) as [Hw _]; [lia|lia|].
    apply safe_then; [auto with safe|intros _]. apply safe_then; [done|intros _].
    intros w Hi. eapply wp_mono; [by apply safe_clear_out|done].
Qed.
Lemma safe_GetDescriptor : safe Inv p (USB_Device_GetDescriptor boot_signature_byte_get).
Proof.
  apply safe_request_then; [done|]. intros r _. destruct (_ =? _); [apply safe_GetInternalSerial|].
  pose proof (safe_descriptor (wValue r) (wIndex r)) as [H2 H3]. destruct (GetDescriptor _ _) as [d size].
  cbn [fst snd] in *. destruct (size =? NO_DESCRIPTOR); [apply safe_ret|].
  apply safe_seq; [apply safe_reg_andn|intros _]. apply safe_seq; [exact (proj1 (safe_write_control Inv p d size H2 H3))|intros _]. apply safe_clear_out.
Qed.
Lemma safe_GetStatus : safe Inv p (USB_Device_GetStatus (G := G)).
Proof.
  unfold USB_Device_GetStatus, send_status, Endpoint_SelectEndpoint, Endpoint_IsStalled, Endpoint_ClearSETUP,
    Endpoint_Write_16_LE. safe.
Qed.
Lemma safe_ClearSetFeature : safe Inv p (USB_Device_ClearSetFeature (G := G)).
Proof.
  unfold USB_Device_ClearSetFeature, clear_set_halt, feature_done, Endpoint_SelectEndpoint, Endpoint_IsEnabled,
    Endpoint_StallTransaction, Endpoint_ClearStall, Endpoint_ResetEndpoint, Endpoint_ResetDataToggle, Endpoint_ClearSETUP.
  safe.
Qed.
#[local] Hint Resolve safe_read_request safe_SetAddress safe_SetConfiguration safe_GetConfiguration safe_GetDescriptor
  safe_GetStatus safe_ClearSetFeature : safe.

Lemma safe_ProcessControlRequest : safe Inv p (USB_Device_ProcessControlRequest boot_signature_byte_get).
Proof.
  unfold USB_Device_ProcessControlRequest, standard_request, Endpoint_IsSETUPReceived, Endpoint_ClearSETUP,
    Endpoint_StallTransaction. safe.
Qed.
Lemma safe_USBTask : safe Inv p (USB_USBTask boot_signature_byte_get).
Proof.
  unfold USB_USBTask, USB_DeviceTask, is_DeviceState, Endpoint_GetCurrentEndpoint, Endpoint_GetEndpointDirection,
    Endpoint_SelectEndpoint, Endpoint_IsSETUPReceived. safe. apply safe_ProcessControlRequest.
Qed.

(** ** The controller *)

Lemma safe_int_ops i : safe Inv p (USB_INT_Enable (G := G) i) /\ safe Inv p (USB_INT_Disable (G := G) i) /\
  safe Inv p (USB_INT_Clear (G := G) i) /\ safe Inv p (USB_INT_IsEnabled (G := G) i) /\
  safe Inv p (USB_INT_HasOccurred (G := G) i).
Proof.
  unfold USB_INT_Enable, USB_INT_Disable, USB_INT_Clear, USB_INT_IsEnabled, USB_INT_HasOccurred.
  split_and!; safe.
Qed.
Lemma safe_on_interrupt i m : safe Inv p m -> safe Inv p (on_interrupt i m).
Proof. intros Hm. destruct (safe_int_ops i) as (? & ? & ? & ? & ?). unfold on_interrupt. safe. Qed.
Lemma safe_pll : safe Inv p (pll_on_wait (G := G)) /\ safe Inv p (pll_off (G := G)).
Proof. unfold pll_on_wait, pll_off, USB_PLL_On, USB_PLL_Off, await_pll, USB_PLL_IsReady. split; safe. Qed.

#[local] Hint Extern 0 (safe _ _ (USB_INT_Enable _)) => apply safe_int_ops : safe.
#[local] Hint Extern 0 (safe _ _ (USB_INT_Disable _)) => apply safe_int_ops : safe.
#[local] Hint Extern 0 (safe _ _ (USB_INT_Clear _)) => apply safe_int_ops : safe.
#[local] Hint Extern 0 (safe _ _ pll_on_wait) => apply safe_pll : safe.
#[local] Hint Extern 0 (safe _ _ pll_off) => apply safe_pll : safe.
#[local] Hint Extern 0 (safe _ _ EVENT_USB_Device_Connect) => apply safe_Connect : safe.
#[local] Hint Extern 0 (safe _ _ EVENT_USB_Device_Disconnect) => apply safe_Disconnect : safe.
#[local] Hint Extern 0 (safe _ _ EVENT_USB_Device_Reset) => apply safe_Reset : safe.
#[local] Hint Extern 0 (safe _ _ EVENT_USB_Device_Suspend) => apply safe_Suspend : safe.
#[local] Hint Extern 0 (safe _ _ EVENT_USB_Device_WakeUp) => apply safe_WakeUp : safe.
#[local] Hint Extern 0 (safe _ _ EVENT_USB_Device_StartOfFrame) => apply safe_StartOfFrame : safe.

Lemma safe_USB_GEN_vect : safe Inv p USB_GEN_vect.
Proof.
  unfold USB_GEN_vect, sof_interrupt, vbus_interrupt, suspend_interrupt, wakeup_interrupt, reset_interrupt, series4,
    USB_VBUS_GetStatus, USB_CLK_Freeze, USB_CLK_Unfreeze, USB_Device_IsAddressSet.
  repeat (safe; try (intros; apply safe_on_interrupt)).
Qed.
Lemma safe_USB_Init : safe Inv p (USB_Init (G := G)).
Proof.
  unfold USB_Init, USB_ResetInterface, USB_Init_Device, USB_INT_DisableAllInterrupts, USB_INT_ClearAllInterrupts,
    USB_Controller_Reset, USB_CLK_Unfreeze, USB_Attach, USB_OTGPAD_On, USB_OTGPAD_Off, USB_REG_On, USB_REG_Off, series4,
    USB_Device_SetLowSpeed, USB_Device_SetFullSpeed. safe.
Qed.
End SafeHandlers.
