(* ===== verification/JoystickApp.v ===== *)
(** * The application: Joystick.c and Joystick.h

    The report structures, the event handlers, the task that serves the
    interrupt endpoints, hardware set-up and the main loop, over the serial
    input of [JoystickSerial] and the USB stack.  The application implements
    the interface [UsbApplication] of the stack, with the descriptors of
    Descriptors.c. *)

From S2P Require Import Prelude StdDescriptors HIDClass Descriptors Machine Serial JoystickSerial Bridge HIDParser UsbCore Endpoint EndpointStream DeviceStandardReq UsbController.

(** ** Joystick.h *)

Inductive JoystickButtons_t :=
  | SWITCH_Y | SWITCH_B | SWITCH_A | SWITCH_X | SWITCH_L | SWITCH_R | SWITCH_ZL | SWITCH_ZR
  | SWITCH_SELECT | SWITCH_START | SWITCH_LCLICK | SWITCH_RCLICK | SWITCH_HOME | SWITCH_CAPTURE | SWITCH_RELEASE.

Definition button_code (x : JoystickButtons_t) : Z :=
  match x with
  | SWITCH_Y => 0x01 | SWITCH_B => 0x02 | SWITCH_A => 0x04 | SWITCH_X => 0x08
  | SWITCH_L => 0x10 | SWITCH_R => 0x20 | SWITCH_ZL => 0x40 | SWITCH_ZR => 0x80
  | SWITCH_SELECT => 0x100 | SWITCH_START => 0x200 | SWITCH_LCLICK => 0x400 | SWITCH_RCLICK => 0x800
  | SWITCH_HOME => 0x1000 | SWITCH_CAPTURE => 0x2000 | SWITCH_RELEASE => 0x00
  end.

Record USB_JoystickReport_Input_t := InputReport {
  In_Button : Z; In_HAT : Z; In_LX : Z; In_LY : Z; In_RX : Z; In_RY : Z; In_VendorSpec : Z
}.
Record USB_JoystickReport_Output_t := OutputReport {
  Out_Button : Z; Out_HAT : Z; Out_LX : Z; Out_LY : Z; Out_RX : Z; Out_RY : Z
}.

#[export] Instance input_packed : Packed USB_JoystickReport_Input_t := {|
  widths := [2; 1; 1; 1; 1; 1; 1]%nat;
  fields r := [In_Button r; In_HAT r; In_LX r; In_LY r; In_RX r; In_RY r; In_VendorSpec r];
  of_fields vs := match vs with [a; b; c; d; e; f; g] => Some (InputReport a b c d e f g) | _ => None end
|}.
#[export] Instance input_packed_ok : PackedOk USB_JoystickReport_Input_t.
Proof. packed_ok. Qed.
#[export] Instance output_packed : Packed USB_JoystickReport_Output_t := {|
  widths := [2; 1; 1; 1; 1; 1]%nat;
  fields r := [Out_Button r; Out_HAT r; Out_LX r; Out_LY r; Out_RX r; Out_RY r];
  of_fields vs := match vs with [a; b; c; d; e; f] => Some (OutputReport a b c d e f) | _ => None end
|}.
#[export] Instance output_packed_ok : PackedOk USB_JoystickReport_Output_t.
Proof. packed_ok. Qed.

(** ** The state of the program *)

Record firmware := Firmware { fw_joystick : joystick; fw_usb : usb_globals }.

#[export] Instance firmware_usb : UsbState firmware := {|
  usb := fw_usb;
  put_usb u g := Firmware (fw_joystick g) u
|}.
#[export] Instance firmware_usb_ok : UsbStateOk firmware.
Proof. split; [done|done|by intros []]. Qed.

(** A program over the serial objects. *)
Definition on_joystick {A} : M joystick A -> M firmware A :=
  zoom fw_joystick (fun j g => Firmware j (fw_usb g)).

Section Application.
Context `{Avr}.
(** Bytes found in the stack slots of the two report structures, which the
    code does not initialise. *)
Variable stack : USB_JoystickReport_Input_t.
Variable stack_out : USB_JoystickReport_Output_t.
(** avr-libc. *)
Variable boot_signature_byte_get : Z -> Z.
Variables wdt_disable clock_prescale_set_div_1 : M firmware unit.

(** Every member is assigned but [VendorSpec]. *)
Definition GetNextReport (ReportData : USB_JoystickReport_Input_t) : M firmware USB_JoystickReport_Input_t :=
  g <- mget;;
  let q := jpad (fw_joystick g) in
  ret (InputReport (buttons q) (HAT2 q) (LX2 q) (LY2 q) (RX2 q) (RY2 q) (In_VendorSpec ReportData)).

(** ** Events *)

Definition joystick_Connect : M firmware unit := ret tt.
Definition joystick_Disconnect : M firmware unit := ret tt.

(** [ConfigSuccess] is not used afterwards. *)
Definition joystick_ConfigurationChanged : M firmware unit :=
  Endpoint_ConfigureEndpoint JOYSTICK_OUT_EPADDR EP_TYPE_INTERRUPT JOYSTICK_EPSIZE 1;;;
  Endpoint_ConfigureEndpoint JOYSTICK_IN_EPADDR EP_TYPE_INTERRUPT JOYSTICK_EPSIZE 1;;;
  ret tt.

Definition joystick_ControlRequest : M firmware unit :=
  r <- get_request;;
  if bRequest r =? HID_REQ_GetReport then
    when (bmRequestType r =? reqtype REQDIR_DEVICETOHOST REQTYPE_CLASS REQREC_INTERFACE) (
      JoystickInputData <- GetNextReport stack;;
      Endpoint_ClearSETUP;;;
      Endpoint_Write_Control_Stream_LE (pack JoystickInputData) (sizeof USB_JoystickReport_Input_t);;;
      Endpoint_ClearOUT)
  else if bRequest r =? HID_REQ_SetReport then
    when (bmRequestType r =? reqtype REQDIR_HOSTTODEVICE REQTYPE_CLASS REQREC_INTERFACE) (
      Endpoint_ClearSETUP;;;
      Endpoint_Read_Control_Stream_LE (pack stack_out) (sizeof USB_JoystickReport_Output_t);;;
      Endpoint_ClearIN)
  else ret tt.

#[export] Instance joystick_app : UsbApplication firmware := {|
  EVENT_USB_Device_ControlRequest := joystick_ControlRequest;
  EVENT_USB_Device_ConfigurationChanged := joystick_ConfigurationChanged;
  EVENT_USB_Device_Connect := joystick_Connect;
  EVENT_USB_Device_Disconnect := joystick_Disconnect;
  EVENT_USB_Device_Reset := USB_Event_Stub;
  EVENT_USB_Device_Suspend := USB_Event_Stub;
  EVENT_USB_Device_WakeUp := USB_Event_Stub;
  EVENT_USB_Device_StartOfFrame := USB_Event_Stub;
  GetDescriptor v i := let '(a, size) := CALLBACK_USB_GetDescriptor v i in (memory_at a, size)
|}.

(** ** The interrupt endpoints *)

Definition HID_Task : M firmware unit :=
  configured <- is_DeviceState DEVICE_STATE_Configured;;
  if negb configured then ret tt else
  Endpoint_SelectEndpoint JOYSTICK_OUT_EPADDR;;;
  out <- Endpoint_IsOUTReceived;;
  when out (
    rw <- Endpoint_IsReadWriteAllowed;;
    when rw (
      Endpoint_Read_Stream_LE (USB_USBTask boot_signature_byte_get) (pack stack_out)
        (sizeof USB_JoystickReport_Output_t) None;;;
      ret tt);;;
    Endpoint_ClearOUT);;;
  Endpoint_SelectEndpoint JOYSTICK_IN_EPADDR;;;
  ready <- Endpoint_IsINReady;;
  when ready (
    JoystickInputData <- GetNextReport stack;;
    Endpoint_Write_Stream_LE (USB_USBTask boot_signature_byte_get) (pack JoystickInputData)
      (sizeof USB_JoystickReport_Input_t) None;;;
    Endpoint_ClearIN;;;
    stdout_puts [chr_U]).

(** ** Start-up and the main loop *)

Definition SetupHardware : M firmware unit :=
  reg_andn MCUSR WDRF;;;
  wdt_disable;;;
  clock_prescale_set_div_1;;;
  USB_Init.

Definition main_init : M firmware unit :=
  Serial_Init 115200 true;;;
  GlobalInterruptEnable;;;
  reg_or UCSR1B RXCIE1;;;
  SetupHardware;;;
  GlobalInterruptEnable.

(** One round of the endless loop. *)
Definition main_round : M firmware unit :=
  HID_Task;;;
  USB_USBTask boot_signature_byte_get;;;
  on_joystick SerialTask.Serial_Task.

Definition main : M firmware unit :=
  main_init;;;
  while_ (fun _ : unit => main_round;;; ret (inl tt)) tt.
End Application.

Definition firmware_init : firmware :=
  Firmware joystick_init (UsbGlobals (Request 0 0 0 0 0) 0 false false).

(** ** The application keeps the stack's contract *)

Section AppTheorems.
Context `{AvrOk}.
Context (stack : USB_JoystickReport_Input_t) (stack_out : USB_JoystickReport_Output_t).
Variable boot_signature_byte_get : Z -> Z.
#[local] Instance this_app : UsbApplication firmware := joystick_app stack stack_out.
Implicit Types w : world firmware.

#[export] Instance joystick_app_ok : UsbApplicationOk firmware.
Proof.
  split.
  - intros p w Hs. cbn [EVENT_USB_Device_ControlRequest this_app joystick_app]. unfold joystick_ControlRequest, get_request, get_usb.
    unfold bind at 1 2 3, mget, ret at 1 2. unfold is_standard in Hs. apply Z.eqb_eq in Hs.
    set (r := USB_ControlRequest _) in *.
    assert (bmRequestType r <> reqtype REQDIR_DEVICETOHOST REQTYPE_CLASS REQREC_INTERFACE) as H1'
      by (intros E; rewrite E in Hs; done).
    assert (bmRequestType r <> reqtype REQDIR_HOSTTODEVICE REQTYPE_CLASS REQREC_INTERFACE) as H2'
      by (intros E; rewrite E in Hs; done).
    rewrite (proj2 (Z.eqb_neq _ _) H1'), (proj2 (Z.eqb_neq _ _) H2'). unfold when, ret. by repeat destruct (_ =? _).
  - intros v i. pose proof (callback_memory v i) as Hm. cbn [GetDescriptor this_app joystick_app].
    destruct (CALLBACK_USB_GetDescriptor v i). apply Hm.
  - intros v i. pose proof (callback_memory v i) as Hm. cbn [GetDescriptor this_app joystick_app].
    destruct (CALLBACK_USB_GetDescriptor v i). apply Hm.
Qed.

(** ** Selecting the configuration *)

(** The configuration bytes of an interrupt endpoint of 64 bytes and one bank. *)
Definition interrupt_cfg0 (dir_in : bool) : Z :=
  u8 (Z.lor (Z.shiftl EP_TYPE_INTERRUPT EPTYPE0) (if dir_in then Z.shiftl 1 EPDIR else 0)).
Definition interrupt_cfg1 : Z := u8 (Z.lor (Z.lor (Z.shiftl 1 ALLOC) 0) (u8 (Z.shiftl 3 EPSIZE0))).

Lemma interrupt_cfg1_alloc : bit_tst interrupt_cfg1 ALLOC = true.
Proof.
  pose proof uecfg_bits as Hb. rewrite !Forall_cons_iff in Hb. destruct Hb as (_ & _ & Ha & _).
  unfold interrupt_cfg1. rewrite bit_tst_testbit, testbit_u8, !Z.lor_spec, testbit_one, Z.eqb_refl by lia. done.
Qed.

(** [Endpoint_ConfigureEndpoint] of one of the two endpoints. *)
Lemma wp_configure_interrupt p addr ep dir_in w Q :
  readback p -> (13 <= fuel p)%nat -> 0 < ep < 5 ->
  Z.land addr ENDPOINT_EPNUM_MASK = ep -> (Z.land addr ENDPOINT_DIR_IN =? 0) = negb dir_in ->
  (forall ok w' es, did w w' (st w) es -> elsewhere es -> others_kept ep (hist w) (hist w') ->
     (ok = true -> configured_as ep (interrupt_cfg0 dir_in) interrupt_cfg1 0 (hist w')) ->
     (accepts p -> ok = true) -> Q ok w') ->
  wp False (Endpoint_ConfigureEndpoint addr EP_TYPE_INTERRUPT JOYSTICK_EPSIZE 1) Q p w.
Proof.
  intros Hrb Hf Hep Ha Hdir HQ.
  assert (wp False (Endpoint_ConfigureEndpoint addr EP_TYPE_INTERRUPT JOYSTICK_EPSIZE 1)
    (fun ok w' => (exists es, did w w' (st w) es /\ elsewhere es) /\ others_kept ep (hist w) (hist w') /\
       (ok = true -> configured_as ep (interrupt_cfg0 dir_in) interrupt_cfg1 0 (hist w')) /\
       (accepts p -> ok = true)) p w) as Hw.
  { apply wp_conj.
    - apply quiet_configure; [unfold JOYSTICK_EPSIZE; lia|done|]. intros ok es w' D E. by exists es.
    - unfold Endpoint_ConfigureEndpoint. rewrite Ha.
      replace (ENDPOINT_TOTAL_ENDPOINTS <=? ep) with false
        by (unfold ENDPOINT_TOTAL_ENDPOINTS; destruct series; lia).
      apply wp_bind. unfold Endpoint_BytesToEPSizeMask. apply wp_bind, wp_fuel.
      apply (epsize_rounds JOYSTICK_EPSIZE p w _ False 0); [lia|cbn; lia|unfold JOYSTICK_EPSIZE; lia|lia|lia|].
      intros j Hj Hge Hlt. assert (j = 3) as ->.
      { unfold JOYSTICK_EPSIZE in *. destruct (decide (j <= 2)) as [Hle|Hgt].
        - assert (2 ^ j <= 2 ^ 2) by (apply Z.pow_le_mono_r; lia). change (2 ^ 2) with 4 in *. lia.
        - destruct (decide (j = 3)); [done|]. specialize (Hlt 3 ltac:(lia)). change (2 ^ 3) with 8 in Hlt. lia. }
      rewrite Hdir. change (1 <? 1) with false. cbv iota. replace (if negb dir_in then 0 else Z.shiftl 1 EPDIR)
        with (if dir_in then Z.shiftl 1 EPDIR else 0) by (by destruct dir_in).
      eapply wp_mono; [apply (configure_run p Hrb ep);
        [unfold ENDPOINT_TOTAL_ENDPOINTS; destruct series; lia|apply u8_range|apply u8_range|apply interrupt_cfg1_alloc]|].
      intros ok w' (_ & Hk & Hc & Hacc). split_and!; [done|by intros E; apply Hc|done]. }
  eapply wp_mono; [exact Hw|]. intros ok w' ((es & D & E) & Hk & Hc & Hacc). by eapply HQ.
Qed.

(** C10: selecting a configuration.  Of the requests SET_CONFIGURATION, those for
    configuration 1, the only one, and for 0 are acknowledged: the configuration
    number is the requested one, and endpoint 1 is an IN and endpoint 2 an OUT
    interrupt endpoint of 64 bytes, on every controller that accepts endpoint
    configurations.  Configuration 1 makes the device state Configured.  For
    configuration 0, where the comment at the states asks for Addressed, a device
    with an address is left in state Configured and one without in state Powered.
    A request for any other configuration is refused with a stall and changes
    nothing but the copy of the request. *)
Theorem set_configuration_configures p k d v i len w :
  let r := Request 0 9 v i len in
  let g := with_configuration (u8 v) (with_request r w) in
  let addressed := bit_tst (last_value UDADDR (writes (hist w)) d) 7 in
  let state := if u8 v =? 1 then DEVICE_STATE_Configured else if addressed then DEVICE_STATE_Configured else DEVICE_STATE_Powered in
  one_setup p (hist w) -> setup_at p (hist w) r -> reads_back p UDADDR d ->
  flag_within k UEINTX TXINI p -> (k < fuel p)%nat -> (13 <= fuel p)%nat ->
  readback p -> accepts p ->
  wp False (USB_Device_ProcessControlRequest boot_signature_byte_get) (fun _ w' =>
    if u8 v <=? 1 then
      (exists u u' ss es, cleared [RXSTPI] u u' /\ status_writes p TXINI ss /\ elsewhere es /\
         did w w' g ([(UEINTX, u')] ++ ss ++ [(V_USB_DeviceState, state_code state)] ++ es)) /\
      configured_as 1 (interrupt_cfg0 true) interrupt_cfg1 0 (hist w') /\
      configured_as 2 (interrupt_cfg0 false) interrupt_cfg1 0 (hist w')
    else exists fs, refused fs /\ did w w' (with_request r w) fs) p w.
Proof.
  intros r g addressed state Hone Hat Hrb Hfl Hk Hf Hback Hacc. destruct (Z.leb_spec (u8 v) 1) as [Hv|Hv].
  2: { apply unsupported_requests_stall; [done..|]. unfold supported. cbn. lia. }
  assert (configuration_state (u8 v) addressed = state) as Estate.
  { unfold configuration_state, state. pose proof (u8_range v) as Hr. unfold is_u8 in Hr.
    destruct (Z.eqb_spec (u8 v) 0), (Z.eqb_spec (u8 v) 1); cbn [negb]; lia || done. }
  apply (wp_process_configuration _ p k False d v i len); [done..|by right|done|]. fold r. fold g.
  intros ws w1 Hws D1. cbn [EVENT_USB_Device_ConfigurationChanged this_app joystick_app]. unfold joystick_ConfigurationChanged.
  apply wp_bind, (wp_configure_interrupt p _ 2 false); [done|done|lia|done|done|].
  intros ok2 w2 es2 D2 E2 K2 C2 A2. pose proof D1 as [S1 _]. pose proof D2 as [S2 _]. rewrite S1 in D2, S2.
  apply wp_bind, (wp_configure_interrupt p _ 1 true); [done|done|lia|done|done|].
  intros ok1 w3 es1 D3 E3 K3 C3 A3. rewrite S2 in D3. apply wp_ret. exists (es2 ++ es1).
  pose proof (did_trans _ _ _ _ _ _ _ D2 D3) as D23. split; [done|]. intros w' D'.
  pose proof (did_trans _ _ _ _ _ _ _ D1 D23) as (_ & n3 & H3' & W3). pose proof D' as (_ & n' & H' & W').
  destruct (registers_of_writes (hist w') (hist w3)) as [_ Hb].
  { by rewrite H', H3', !writes_app, W3, W'. }
  split.
  { destruct Hws as (u & u' & ss & Hc & Hss & ->). fold addressed in D'. rewrite Estate, <- !app_assoc in D'.
    exists u, u', ss, (es2 ++ es1). split_and!; [done|done|by apply Forall_app|exact D']. }
  unfold configured_as. rewrite !Hb. split; [by apply C3, A3|].
  rewrite !(K3 _ 2) by (done || by apply (bool_decide_unpack _)). by apply C2, A2.
Qed.

(** ** Serving the IN endpoint *)

(** The report for pad [q]; [VendorSpec] keeps the byte of the stack slot. *)
Definition report_of (q : pad) : USB_JoystickReport_Input_t :=
  InputReport (buttons q) (HAT2 q) (LX2 q) (LY2 q) (RX2 q) (RY2 q) (In_VendorSpec stack).

Lemma wp_GetNextReport nf p Q w :
  Q (report_of (jpad (fw_joystick (st w)))) w -> wp nf (GetNextReport stack) Q p w.
Proof. intros HQ. unfold GetNextReport. by apply wp_bind, wp_get, wp_ret. Qed.

(** As long as no packet of endpoint 1 is handed over. *)
Fixpoint in_kept (h0 new : log) : Prop :=
  match new with
  | [] => True
  | Wr UEINTX _ :: new' => selected (new' ++ h0) <> 1 /\ in_kept h0 new'
  | _ :: new' => in_kept h0 new'
  end.

(** Endpoint 2 is an OUT endpoint where, until it is acknowledged, a packet of
    [out] bytes waits, or none; endpoint 1 is an IN endpoint with a bank of 64
    bytes, ready for a packet or not until one is handed over. *)
Definition hid_bus (p : platform) (h0 : log) (out : option nat) (ready : bool) : Prop := forall new,
  let r x := reg_wrap x (respond p (new ++ h0) x) in let flag := bit_tst (r UEINTX) in
  (selected (new ++ h0) = 2 -> Forall (fun x => x.1 <> UEINTX) (writes new) ->
     bit_tst (r UECFG0X) EPDIR = false /\ flag RXOUTI = bool_decide (out <> None) /\
     flag RWAL = bool_decide (length (read_from UEDATX new) < default 0 out)%nat) /\
  (selected (new ++ h0) = 1 -> in_kept h0 new -> (length (written UEDATX new) < 64)%nat ->
     bit_tst (r UECFG0X) EPDIR = true /\ flag TXINI = ready /\ flag RWAL = ready).

(** The packet is empty or holds an output report. *)
Definition output_report (out : option nat) : Prop := match out with Some n => n = 0%nat \/ (7 <= n)%nat | None => True end.

(** A stream read of what the packet holds ends, and only reads. *)
Lemma wp_read_held nf p mem (Len : nat) Q w : (0 < Len <= length mem)%nat -> Z.of_nat Len < 65536 -> (Len < fuel p)%nat ->
  (forall new, Forall is_read new -> (length (read_from UEDATX new) < Len)%nat ->
     bit_tst (reg_wrap UECFG0X (respond p (new ++ hist w) UECFG0X)) EPDIR = false /\
     bit_tst (reg_wrap UEINTX (respond p (new ++ hist w) UEINTX)) RXOUTI = true /\
     bit_tst (reg_wrap UEINTX (respond p (new ++ hist w) UEINTX)) RWAL = true) ->
  (forall x new, Forall is_read new -> Q x (World (st w) (new ++ hist w))) ->
  wp nf (Endpoint_Read_Stream_LE (USB_USBTask boot_signature_byte_get) mem (Z.of_nat Len) None) Q p w.
Proof.
  intros HL Hwide Hf Hheld HQ. unfold Endpoint_Read_Stream_LE, Template_Endpoint_RW.
  apply wp_bind. unfold Endpoint_WaitUntilReady, USB_Device_GetFrameNumber. apply wp_bind, wp_rd. intros f _. cbn [st hist].
  apply wp_bind, wp_fuel. destruct (fuel p) as [|m] eqn:Ef; [lia|]. cbn [loop].
  apply wp_bind. unfold Endpoint_GetEndpointDirection. apply wp_bind, wp_bind, wp_reg_bit. intros c Hc. cbn [st hist] in *.
  destruct (Hheld [Rd UDFNUM f]) as (Ed & _); [by apply Forall_singleton|change (0 < Len)%nat; lia|]. cbn [app] in Ed. rewrite <- Hc in Ed. rewrite Ed.
  apply wp_ret. change (ENDPOINT_DIR_OUT =? ENDPOINT_DIR_IN) with false. cbn iota. apply wp_bind. unfold Endpoint_IsOUTReceived.
  apply wp_reg_bit. intros v Hv. cbn [st hist] in *.
  destruct (Hheld [Rd UECFG0X c; Rd UDFNUM f]) as (_ & Et & _); [apply Forall_cons_iff; split; [done|by apply Forall_singleton]|change (0 < Len)%nat; lia|]. cbn [app] in Et.
  rewrite <- Hv in Et. rewrite Et. apply wp_ret, wp_ret. rewrite bool_decide_true by done. cbn [negb].
  apply (wp_while_either nf p (fun (x : list Z * Z * Z * Z) w' => exists (j : nat) new, (j <= Len)%nat /\ length x.1.1.1 = length mem /\ x.1.1.2 = Z.of_nat j /\
      x.1.2 = Z.of_nat (Len - j) /\ w' = World (st w) (new ++ hist w) /\ Forall is_read new /\ length (read_from UEDATX new) = j)
    (fun x _ => Z.to_nat x.1.2)).
  - intros [[[m' i] len] cnt] w1 (j & new & Hj & Hm & Hi & Hlen & -> & Hr & Hn). cbn [fst snd] in *. subst i len.
    destruct (Z.eqb_spec (Z.of_nat (Len - j)) 0) as [E|E]; [by apply wp_ret, HQ|].
    apply wp_bind. unfold Endpoint_IsReadWriteAllowed. apply wp_reg_bit. intros v1 Hv1. cbn [st hist] in *.
    destruct (Hheld new Hr) as (_ & _ & Erw); [lia|]. rewrite <- Hv1 in Erw. rewrite Erw. cbn [negb].
    apply wp_bind. unfold store_byte, Endpoint_Read_8. cbn [fst snd]. apply wp_bind, wp_rd. intros b _.
    apply wp_bind, (wp_lift _ _ _ (<[Z.to_nat (Z.of_nat j) := b]> m')); [rewrite aset_Some by lia; done|]. apply wp_ret, wp_ret. cbn [st hist fst snd].
    rewrite u16_small by (unfold is_u16; lia). split; [|lia]. exists (S j), (Rd UEDATX b :: Rd UEINTX v1 :: new). unfold move_up_in. cbn [fst snd].
    split_and!; [lia|by rewrite length_insert|lia|lia|done|by repeat constructor|].
    rewrite read_from_rd, read_from_rd_ne, length_app by done. cbn. lia.
  - exists 0%nat, [Rd UEINTX v; Rd UECFG0X c; Rd UDFNUM f]. cbn [fst snd]. split_and!; [lia|done|done|f_equal; lia|done|by repeat constructor|done].
  - right. cbn [fst snd]. rewrite Ef in *. lia.
Qed.

(** Sending one character through the USART. *)
Lemma wp_puts_U nf p k Q w : poll_ends p k nf UCSR1A UDRE1 ->
  (forall w', did w w' (st w) [(UDR1, chr_U)] -> Q tt w') -> wp nf (stdout_puts [chr_U]) Q p w.
Proof.
  intros Hend HQ. unfold stdout_puts. cbn [foldr]. unfold Serial_putchar, Serial_SendByte. apply wp_bind, wp_bind, wp_bind.
  unfold wp at 1. rewrite (while_ext p _ (fun _ : unit => x <- reg_bit UCSR1A UDRE1;; if x then ret (inr tt) else ret (inl tt))).
  2: { intros x p' w1. unfold Serial_IsSendReady, bind. destruct (reg_bit UCSR1A UDRE1 p' w1) as [[] ?| |]; done. }
  apply (wp_poll_loop p k nf UCSR1A UDRE1 tt (ret (inl tt))); [done| |].
  - intros h Hh. apply wp_ret. by exists [].
  - intros h v Hh _. apply wp_wr, wp_ret, wp_ret. apply HQ. cbn [st hist reg_wrap].
    split; [done|]. exists (Wr UDR1 chr_U :: Rd UCSR1A v :: h). split; [done|].
    rewrite writes_wr, writes_rd, (writes_reads h Hh). done.
Qed.

(** What [HID_Task] writes on a configured device: the acknowledgement of a packet
    that waits, and the report when the endpoint is ready for it. *)
Definition out_writes (out : option nat) (ws : list (reg * Z)) : Prop :=
  match out with
  | Some _ => exists v v', cleared [RXOUTI; FIFOCON] v v' /\ ws = [(UEINTX, v')]
  | None => ws = []
  end.
Definition in_writes (q : pad) (ready : bool) (ws : list (reg * Z)) : Prop :=
  if ready then exists v v', cleared [TXINI; FIFOCON] v v' /\ ws = ((UEDATX,.) <$> pack (report_of q)) ++ [(UEINTX, v'); (UDR1, chr_U)]
  else ws = [].
Definition hid_writes (q : pad) (out : option nat) (ready : bool) (ws : list (reg * Z)) : Prop :=
  exists o i, out_writes out o /\ in_writes q ready i /\ ws = (UENUM, 2) :: o ++ (UENUM, 1) :: i.

Lemma in_kept_data h0 new n : data_log new -> in_kept h0 n -> in_kept h0 (new ++ n).
Proof. induction 1 as [|[r v|r v] new Hr _ IH]; intros Hn; [exact Hn|exact (IH Hn)|]. subst r. exact (IH Hn). Qed.

Lemma written_none r l : Forall (fun x => x.1 <> r) (writes l) -> written r l = [].
Proof.
  induction l as [|[r' v|r' v] l IH]; [done|rewrite writes_rd, written_rd; exact IH|]. rewrite writes_wr. intros [Hl Hr]%Forall_app.
  apply Forall_cons_iff in Hr as [Hr _]. rewrite written_wr_ne by exact Hr. by apply IH.
Qed.

(** The packet on endpoint 2, the accesses [n0] having selected it. *)
Lemma wp_take_output p out ready n0 (k : M firmware unit) Q w : hid_bus p (hist w) out ready -> output_report out -> (7 < fuel p)%nat ->
  selected (n0 ++ hist w) = 2 -> Forall (fun x => x.1 <> UEINTX) (writes n0) -> read_from UEDATX n0 = [] -> in_kept (hist w) n0 ->
  (forall new, out_writes out (writes new) -> in_kept (hist w) (new ++ n0) -> wp False k Q p (World (st w) (new ++ n0 ++ hist w))) ->
  wp False (out <- Endpoint_IsOUTReceived;;
    when out (
      rw <- Endpoint_IsReadWriteAllowed;;
      when rw (
        Endpoint_Read_Stream_LE (USB_USBTask boot_signature_byte_get) (pack stack_out) (sizeof USB_JoystickReport_Output_t) None;;;
        ret tt);;;
      Endpoint_ClearOUT);;;
    k) Q p (World (st w) (n0 ++ hist w)).
Proof.
  intros Hbus Hout Hf Hsel Hn0 Hrd Hkept HQ.
  assert (forall new, Forall is_read new -> selected (new ++ n0 ++ hist w) = 2 /\ Forall (fun x => x.1 <> UEINTX) (writes (new ++ n0)) /\
    in_kept (hist w) (new ++ n0) /\ length (read_from UEDATX (new ++ n0)) = length (read_from UEDATX new)) as Hnew.
  { intros new Hr. pose proof (data_log_reads new Hr) as Hd. split_and!; [by rewrite data_log_selected|by rewrite writes_app, (writes_reads new Hr), app_nil_r| |].
    - by apply in_kept_data.
    - by rewrite read_from_app, Hrd. }
  assert (forall new, Forall is_read new -> let h := new ++ n0 ++ hist w in
    bit_tst (reg_wrap UECFG0X (respond p h UECFG0X)) EPDIR = false /\ bit_tst (reg_wrap UEINTX (respond p h UEINTX)) RXOUTI = bool_decide (out <> None) /\
    bit_tst (reg_wrap UEINTX (respond p h UEINTX)) RWAL = bool_decide (length (read_from UEDATX new) < default 0 out)%nat) as Hshow.
  { intros new Hr h. destruct (Hnew new Hr) as (E1 & E2 & _ & E4). destruct (Hbus (new ++ n0)) as [Ho _]. rewrite <- app_assoc in Ho. rewrite E4 in Ho. by apply Ho. }
  apply wp_bind. unfold Endpoint_IsOUTReceived. apply wp_reg_bit. intros v Hv. cbn [st hist] in *.
  destruct (Hshow [] (Forall_nil _)) as (_ & E & _). cbn [app] in E. rewrite <- Hv in E. rewrite E. clear E.
  destruct out as [n|]; [rewrite bool_decide_true by done|rewrite bool_decide_false by (by intros []); apply wp_bind, wp_ret; apply (HQ [Rd UEINTX v]); done].
  cbn [when]. apply wp_bind, wp_bind. unfold Endpoint_IsReadWriteAllowed. apply wp_reg_bit. intros v1 Hv1. cbn [st hist] in *.
  destruct (Hshow [Rd UEINTX v]) as (_ & _ & E); [by apply Forall_singleton|]. cbn [app] in E. rewrite <- Hv1 in E. rewrite E. clear E.
  change (read_from UEDATX [Rd UEINTX v]) with (@nil Z). cbn [length default from_option id].
  assert (forall new, Forall is_read new -> wp False Endpoint_ClearOUT (fun _ w' => wp False k Q p w') p (World (st w) (new ++ n0 ++ hist w))) as Hack.
  { intros new Hr. destruct (Hnew new Hr) as (E1 & _ & E3 & _). destruct flag_facts as ((_ & B2 & _ & B4) & _). unfold Endpoint_ClearOUT.
    destruct (clear_flags_cleared p RXOUTI FIFOCON (World (st w) (new ++ n0 ++ hist w)) B2 B4) as (u & u' & Hrun & Hu & _). unfold wp at 1. rewrite Hrun. cbn [st hist].
    apply (HQ (Wr UEINTX u' :: Rd UEINTX u :: new)).
    - exists u, u'. split; [done|]. by rewrite writes_wr, writes_rd, (writes_reads new Hr).
    - cbn [app in_kept]. rewrite <- app_assoc. split; [|done]. change (selected (Rd UEINTX u :: ?h)) with (selected h). by rewrite E1. }
  apply wp_bind. destruct n as [|n]; [rewrite bool_decide_false by lia; apply wp_ret; apply (Hack [_; _]); by repeat constructor|].
  rewrite bool_decide_true by lia. cbn [when]. destruct Hout as [?|Hout]; [done|]. apply wp_bind. change (sizeof USB_JoystickReport_Output_t) with (Z.of_nat 7).
  apply wp_read_held; [rewrite pack_length; cbn; lia|lia|done| |].
  - intros new Hr Hlt. cbn [hist]. destruct (Hshow (new ++ [Rd UEINTX v1; Rd UEINTX v])) as (E1 & E2 & E3); [apply Forall_app; by repeat constructor|].
    rewrite <- app_assoc in E1, E2, E3. cbn [app] in E1, E2, E3. rewrite bool_decide_true in E2 by done.
    rewrite bool_decide_true in E3; [done|]. rewrite read_from_app. change (read_from UEDATX [_; _]) with (@nil Z). rewrite app_nil_l. cbn [default from_option id]. lia.
  - intros x new Hr. apply wp_ret. cbn [st hist]. specialize (Hack (new ++ [Rd UEINTX v1; Rd UEINTX v])). rewrite <- app_assoc in Hack. apply Hack.
    apply Forall_app. by repeat constructor.
Qed.

Lemma wp_send_report nf p k w1 Q :
  poll_ends p k nf UCSR1A UDRE1 -> (nf \/ (8 < fuel p)%nat) -> in_room p 8 (hist w1) ->
  (forall v v' w', cleared [TXINI; FIFOCON] v v' ->
     did w1 w' (st w1) (((UEDATX,.) <$> pack (report_of (jpad (fw_joystick (st w1))))) ++ [(UEINTX, v'); (UDR1, chr_U)]) ->
     Q tt w') ->
  wp nf (JoystickInputData <- GetNextReport stack;;
    Endpoint_Write_Stream_LE (USB_USBTask boot_signature_byte_get) (pack JoystickInputData)
      (sizeof USB_JoystickReport_Input_t) None;;;
    Endpoint_ClearIN;;; stdout_puts [chr_U]) Q p w1.
Proof.
  intros Hend Hf Hroom HQ. apply wp_bind, wp_GetNextReport. set (r := report_of _) in *.
  pose proof (pack_u8 r) as Hu. assert (length (pack r) = 8%nat) as Hl by (by rewrite pack_length).
  apply wp_bind. unfold Endpoint_Write_Stream_LE. change 0 with (Z.of_nat 0) at 1.
  change (sizeof USB_JoystickReport_Input_t) with (Z.of_nat 8).
  apply (wp_write_room _ _ _ (pack r) (Source0 := source_up (pack r) Hu)); [lia|lia|done|done|].
  intros new Hlog Hwr. rewrite take_ge in Hwr by lia. destruct flag_facts as ((B1 & _ & _ & B4) & _).
  apply wp_bind, clear_flags_did; [done|done|]. intros v v' w2 Hc _ D2. cbn [st] in D2. pose proof D2 as [S2 _].
  apply (wp_puts_U nf p k); [done|]. intros w3 D3. rewrite S2 in D3. apply (HQ v v'); [done|].
  eapply did_trans; [|eapply (did_trans _ _ _ _ _ [_] [_]); [exact D2|exact D3]].
  rewrite <- Hwr, <- (data_log_writes new Hlog). apply did_log.
Qed.

(** C4: on a configured device [HID_Task] ends.  A packet that waits on the OUT
    endpoint, empty or with an output report of seven bytes or more, is acknowledged
    once, and its contents change no object.  Then, if the
    IN endpoint is ready, exactly the eight bytes of the report made of the current
    pad state (buttons little endian, hat, the four axes, and the uninitialised
    [VendorSpec] byte) are written and the packet is handed over, and the letter U
    is sent on the serial line, whose transmitter must become ready; if it is not
    ready, nothing is written but the selections and the acknowledgement.  A device
    that is not configured is left alone.  (A packet of one to six bytes makes the
    stream wait for the next packet and is not covered.) *)
Theorem hid_task_sends_report p k out ready w :
  let q := jpad (fw_joystick (st w)) in
  (reg_wrap V_USB_DeviceState (respond p (hist w) V_USB_DeviceState) = state_code DEVICE_STATE_Configured ->
   hid_bus p (hist w) out ready -> output_report out -> flag_within k UCSR1A UDRE1 p -> (k < fuel p)%nat -> (8 < fuel p)%nat ->
   wp False (HID_Task stack stack_out boot_signature_byte_get)
     (fun _ w' => exists ws, hid_writes q out ready ws /\ did w w' (st w) ws) p w) /\
  (reg_wrap V_USB_DeviceState (respond p (hist w) V_USB_DeviceState) <> state_code DEVICE_STATE_Configured ->
   wp False (HID_Task stack stack_out boot_signature_byte_get) (fun _ w' => did w w' (st w) []) p w).
Proof.
  intros q. unfold HID_Task, is_DeviceState. split.
  - intros Hst Hbus Hout Hfl Hk Hf. apply wp_bind, wp_bind, wp_rd. intros s Hs. apply wp_ret. cbn [st hist].
    rewrite Hst in Hs. rewrite Hs, Z.eqb_refl. cbn [negb]. unfold Endpoint_SelectEndpoint at 1.
    apply wp_bind, wp_wr. change (reg_wrap UENUM _) with 2. cbn [st hist].
    apply (wp_take_output p out ready [Wr UENUM 2; Rd V_USB_DeviceState (state_code DEVICE_STATE_Configured)]);
      [done|done|lia|done|by apply Forall_singleton|done|done|]. intros new Hnew Hkept.
    unfold Endpoint_SelectEndpoint at 1. apply wp_bind, wp_wr. change (reg_wrap UENUM _) with 1. cbn [st hist].
    apply wp_bind. unfold Endpoint_IsINReady. apply wp_reg_bit. intros v1 Hv1. cbn [st hist] in *.
    set (n1 := Wr UENUM 1 :: new ++ [Wr UENUM 2; Rd V_USB_DeviceState (state_code DEVICE_STATE_Configured)]).
    assert (Wr UENUM 1 :: new ++ [Wr UENUM 2; Rd V_USB_DeviceState (state_code DEVICE_STATE_Configured)] ++ hist w = n1 ++ hist w) as En
      by (unfold n1; cbn [app]; by rewrite <- app_assoc).
    rewrite En in *. assert (written UEDATX n1 = []) as Hw1.
    { unfold n1. rewrite written_wr_ne, written_app by done. change (written UEDATX [_; _]) with (@nil Z). rewrite app_nil_l.
      apply written_none. destruct out; [destruct Hnew as (u & u' & _ & ->)|rewrite Hnew]; by repeat constructor. }
    assert (in_kept (hist w) n1) as Hk1 by exact Hkept.
    destruct (Hbus n1) as [_ Hi]. destruct (Hi eq_refl Hk1) as (_ & Et & _); [rewrite Hw1; cbn; lia|]. rewrite <- Hv1 in Et. rewrite Et. clear Et.
    assert (did w (World (st w) (Rd UEINTX v1 :: n1 ++ hist w)) (st w) ((UENUM, 2) :: writes new ++ [(UENUM, 1)])) as D1.
    { split; [done|]. exists (Rd UEINTX v1 :: n1). split; [done|]. unfold n1. by rewrite writes_rd, writes_wr, writes_app. }
    destruct ready; [|apply wp_ret; eexists; split; [exists (writes new), []; split; [done|split; [done|reflexivity]]|exact D1]].
    apply (wp_send_report False p k); [by right|by right| |].
    + intros new2 Hlog Hlt. cbn [hist].
      assert (data_log (new2 ++ [Rd UEINTX v1])) as Hd by (apply Forall_app; by repeat constructor).
      assert (new2 ++ Rd UEINTX v1 :: n1 ++ hist w = ((new2 ++ [Rd UEINTX v1]) ++ n1) ++ hist w) as -> by (by rewrite <- !app_assoc).
      destruct (Hbus ((new2 ++ [Rd UEINTX v1]) ++ n1)) as [_ Hi']. destruct Hi' as (? & ? & ?); [| | |done].
      * by rewrite <- app_assoc, data_log_selected.
      * exact (in_kept_data _ _ _ Hd Hk1).
      * rewrite !written_app, Hw1. change (written UEDATX [_]) with (@nil Z). cbn [app]. lia.
    + intros u u' w' Hc D2. cbn [st] in D2. eexists. split; [|by eapply did_trans].
      exists (writes new), (((UEDATX,.) <$> pack (report_of q)) ++ [(UEINTX, u'); (UDR1, chr_U)]).
      split; [done|]. split; [by exists u, u'|]. cbn [app]. by rewrite <- app_assoc.
  - intros Hst. apply wp_bind, wp_bind, wp_rd. intros s Hs. apply wp_ret. cbn [st hist].
    rewrite (proj2 (Z.eqb_neq _ _)) by congruence. apply wp_ret.
    apply (did_reads w w (st w) [] [Rd V_USB_DeviceState s]); [by repeat constructor|apply did_nothing].
Qed.

(** ** What the host reads out of a report *)

(** The value of each item a host counts in a parsed report descriptor, from
    the bytes of a report. *)
Definition host_values (r : HID_ReportInfo_t) (data : list Z) : option (list Z) :=
  mapM (fun i => match USB_GetHIDReportItemInfo data i with Some (true, i') => Some (Value i') | _ => None end)
       (counted_items r).

(** Fourteen buttons, the hat and the four axes of a pad. *)
Definition pad_values (q : pad) : list Z :=
  ((fun n => Z.b2z (Z.testbit (buttons q) (Z.of_nat n))) <$> seq 0 14)
  ++ [Z.land (HAT2 q) 15; LX2 q; LY2 q; RX2 q; RY2 q].

Lemma field_div N o n : 0 <= o -> 0 <= n -> field N o n = (N / 2 ^ o) mod 2 ^ n.
Proof. intros. unfold field. by rewrite Z.land_ones, Z.shiftr_div_pow2. Qed.

Lemma field_bit N o : 0 <= o -> field N o 1 = Z.b2z (Z.testbit N o).
Proof. intros Ho. rewrite field_div by lia. change (2 ^ 1) with 2. by rewrite <- Z.testbit_spec' by done. Qed.

(** A report as one number. *)
Lemma report_number (rep : USB_JoystickReport_Input_t) : in_range rep ->
  of_le_bytes (pack rep) = In_Button rep + 2 ^ 16 * (In_HAT rep + 2 ^ 8 * (In_LX rep + 2 ^ 8 * (In_LY rep +
    2 ^ 8 * (In_RX rep + 2 ^ 8 * (In_RY rep + 2 ^ 8 * In_VendorSpec rep))))) /\
  is_u16 (In_Button rep) /\ Forall is_u8 [In_HAT rep; In_LX rep; In_LY rep; In_RX rep; In_RY rep; In_VendorSpec rep].
Proof.
  clear boot_signature_byte_get. intros Hr. unfold in_range in Hr. destruct rep as [b hat lx ly rx ry v]. cbn [widths fields input_packed In_Button In_HAT In_LX
    In_LY In_RX In_RY In_VendorSpec] in *.
  repeat match goal with H : Forall2 _ (_ :: _) (_ :: _) |- _ => apply Forall2_cons_1 in H as [? H] end.
  cbv beta in *. change (fits 1) with is_u8 in *. change (fits 2) with is_u16 in *. split; [|split; [done|by repeat (constructor; [done|])]].
  unfold pack. cbn [widths fields input_packed encode le_bytes app of_le_bytes In_Button In_HAT In_LX In_LY In_RX In_RY In_VendorSpec].
  rewrite (u8_small hat), (u8_small lx), (u8_small ly), (u8_small rx), (u8_small ry), (u8_small v) by done.
  unfold is_u16, is_u8 in *. change (2 ^ 16) with 65536. change (2 ^ 8) with 256. word_lia.
Qed.

(** The members of a report as the buttons, the hat and the axes. *)
Definition report_values (rep : USB_JoystickReport_Input_t) : list Z :=
  ((fun n => Z.b2z (Z.testbit (In_Button rep) (Z.of_nat n))) <$> seq 0 14)
  ++ [Z.land (In_HAT rep) 15; In_LX rep; In_LY rep; In_RX rep; In_RY rep].

Lemma report_fields rep : in_range rep ->
  (fun x : Z * Z * Z * Z => field (of_le_bytes (pack rep)) x.1.1.1 x.1.1.2) <$> joystick_layout = report_values rep.
Proof.
  clear boot_signature_byte_get. intros Hq. destruct (report_number rep Hq) as (-> & H1' & Hu).
  apply Forall_cons_iff in Hu as [H2' Hu]. apply Forall_cons_iff in Hu as [H3' Hu]. apply Forall_cons_iff in Hu as [H4' Hu].
  apply Forall_cons_iff in Hu as [H5' Hu]. apply Forall_cons_iff in Hu as [H6' _]. unfold is_u16, is_u8 in *.
  set (N := In_Button rep + _). unfold joystick_layout, report_values. rewrite fmap_app. f_equal.
  - rewrite <- list_fmap_compose. apply list_fmap_ext. intros i n Hn. apply lookup_seq in Hn as [-> Hn].
    cbn [compose fst snd]. rewrite field_bit by lia. f_equal.
    rewrite <- (Z.mod_pow2_bits_low N 16), <- (Z.mod_pow2_bits_low (In_Button rep) 16) by lia. f_equal.
    unfold N. rewrite Z.mul_comm, Z.mod_add by lia. done.
  - cbn [fmap list_fmap fst snd]. change 15 with (Z.ones 4). rewrite Z.land_ones by lia.
    rewrite !field_div by lia. unfold N.
    change (2 ^ 16) with 65536. change (2 ^ 8) with 256. change (2 ^ 4) with 16.
    change (2 ^ 24) with 16777216. change (2 ^ 32) with 4294967296. change (2 ^ 40) with 1099511627776.
    change (2 ^ 48) with 281474976710656.
    set (f1 := In_HAT rep) in *. set (f2 := In_LX rep) in *. set (f3 := In_LY rep) in *. set (f4 := In_RX rep) in *. set (f5 := In_RY rep) in *.
    set (b := In_Button rep) in *. clearbody b f1 f2 f3 f4 f5. clear N.
    assert (forall a c n, 0 <= a < n -> (a + n * c) / n = c) as Hdrop
      by (intros a c n Ha; rewrite Z.mul_comm, Z.div_add, Z.div_small by lia; done).
    assert (forall a c, 0 <= a < 256 -> (a + 256 * c) mod 256 = a) as Hlow
      by (intros a c Ha; rewrite Z.mul_comm, Z.mod_add, Z.mod_small by lia; done).
    change 16777216 with (65536 * 256). change 4294967296 with (65536 * 256 * 256).
    change 1099511627776 with (65536 * 256 * 256 * 256). change 281474976710656 with (65536 * 256 * 256 * 256 * 256).
    rewrite <- !Z.div_div by lia. rewrite !Hdrop by lia. rewrite !Hlow by lia. f_equal.
    match goal with |- (f1 + 256 * ?c) mod 16 = _ => replace (256 * c) with (16 * c * 16) by lia end.
    by rewrite Z.mod_add by lia.
Qed.

Lemma host_reads_report v0 v1 r rep : in_range rep ->
  USB_ProcessHIDReport accept_all v0 v1 JoystickReport (Z.of_nat (length JoystickReport)) = Some (HID_PARSE_Successful, r) ->
  host_values r (pack rep) = Some (report_values rep).
Proof.
  intros Hr Hparse. destruct (joystick_parse v0 v1) as (r' & Hp & Hl & Hid & _). assert (r' = r) as -> by congruence.
  rewrite <- (report_fields rep Hr), <- Hl, <- list_fmap_compose. unfold host_values.
  assert (Forall (fun x : Z * Z * Z * Z => 0 <= x.1.1.1 /\ 0 <= x.1.1.2 <= 32 /\ x.1.1.1 + x.1.1.2 <= 64)
            joystick_layout) as Hf by (by apply (bool_decide_unpack _)).
  rewrite <- Hl in Hf. apply Forall_fmap in Hf. clear Hl Hp Hparse.
  induction (counted_items r) as [|i l IH]; [done|].
  apply Forall_cons_iff in Hid as [[Hz _] Hid]. apply Forall_cons_iff in Hf as [(F1 & F2 & F3) Hf]. cbn in F1, F2, F3.
  cbn [mapM]. rewrite get_item_field; [|apply pack_u8| |done].
  - cbn [mbind option_bind]. rewrite IH by done. done.
  - unfold item_fits. rewrite pack_length. cbn. lia.
Qed.

Lemma host_reads_pad v0 v1 : exists r,
  USB_ProcessHIDReport accept_all v0 v1 JoystickReport (Z.of_nat (length JoystickReport)) = Some (HID_PARSE_Successful, r) /\
  forall q, pad_ok q -> host_values r (pack (report_of q)) = Some (pad_values q).
Proof.
  destruct (joystick_parse v0 v1) as (r & Hp & _). exists r. split; [done|]. intros q (H1' & H2' & H3' & H4' & H5' & H6').
  (* the byte left over is whatever the stack held *)
  set (rep := InputReport (buttons q) (HAT2 q) (LX2 q) (LY2 q) (RX2 q) (RY2 q) (u8 (In_VendorSpec stack))).
  assert (pack (report_of q) = pack rep) as ->.
  { unfold pack, report_of, rep. cbn [widths fields input_packed encode le_bytes app In_Button In_HAT In_LX In_LY In_RX In_RY In_VendorSpec].
    by rewrite (u8_small (u8 _)) by apply u8_range. }
  apply (host_reads_report v0 v1); [|done]. unfold rep, in_range. cbn [widths fields input_packed In_Button In_HAT In_LX In_LY In_RX In_RY In_VendorSpec].
  repeat (constructor; [first [assumption | apply u8_range]|]). constructor.
Qed.

(** C21: the report descriptor describes the report structure.  A host that parses
    the controller's report descriptor finds one input report without an ID, as
    long as the packed structure [USB_JoystickReport_Input_t], and no output
    report; and whatever a report holds, the items the host has found, read from
    the bytes of the report, are its members: the fourteen low bits of the button
    word, the low half of the hat byte, and the four axes, in this order. *)
Theorem joystick_report_layout v0 v1 rep : in_range rep ->
  exists r, USB_ProcessHIDReport accept_all v0 v1 JoystickReport (Z.of_nat (length JoystickReport)) = Some (HID_PARSE_Successful, r) /\
    Forall (fun i => Item_ReportID i = 0 /\ ItemType i = HID_REPORT_ITEM_In) (counted_items r) /\
    USB_GetHIDReportSize r 0 HID_REPORT_ITEM_In = Z.of_nat (length (pack rep)) /\ USB_GetHIDReportSize r 0 HID_REPORT_ITEM_Out = 0 /\
    host_values r (pack rep) = Some (report_values rep).
Proof.
  intros Hr. destruct (joystick_parse v0 v1) as (r & Hp & _ & Hid & Hin & Hout & _). exists r. rewrite pack_length.
  split; [done|]. split; [done|]. split; [done|]. split; [done|]. by apply (host_reads_report v0 v1).
Qed.

Lemma serial_task_run p w cs q' s' :
  SerialRing.ring_ok (jring (fw_joystick (st w))) -> SerialRing.contents (jring (fw_joystick (st w))) = cs ->
  (length cs < fuel p)%nat ->
  SerialLine.process_all cs (jpad (fw_joystick (st w)), jline (fw_joystick (st w))) = Some (q', s') ->
  on_joystick SerialTask.Serial_Task p w =
    Done tt (World (Firmware (Joystick q' s' (SerialTask.drained (jring (fw_joystick (st w))))) (fw_usb (st w))) (hist w)).
Proof.
  intros Hr Hc Hf Hp. unfold on_joystick, zoom, SerialTask.Serial_Task, while_, bind at 1, mfuel.
  by rewrite (SerialTask.Serial_Task_loop _ p _ _ cs), Hp.
Qed.

(** C5: end to end, from the controller in the player's hands to the console:
    whenever bridge.py yields a line for a state of buttons and axes, a
    firmware that has received that line at the start of a line takes it in,
    and the report it makes next, read by a host that has parsed the
    controller's own report descriptor, holds exactly that state: the fourteen
    button bits, the hat direction and the four axes. *)
Theorem bridge_state_reaches_host get_button get_axis ln p w v0 v1 :
  (forall x, is_bit (get_button x)) -> (forall x, -32768 <= get_axis x <= 32767) ->
  controller_state get_button get_axis = Some ln ->
  SerialRing.ring_ok (jring (fw_joystick (st w))) -> SerialRing.contents (jring (fw_joystick (st w))) = ln ->
  jline (fw_joystick (st w)) = line_init -> (15 < fuel p)%nat ->
  exists r rep w', USB_ProcessHIDReport accept_all v0 v1 JoystickReport (Z.of_nat (length JoystickReport))
                     = Some (HID_PARSE_Successful, r) /\
    (on_joystick SerialTask.Serial_Task;;; GetNextReport stack) p w = Done rep w' /\
    host_values r (pack rep) = Some (pad_values (sampled_pad get_button get_axis)).
Proof.
  intros Hb Ha Hln Hr Hc Hl Hf. destruct (host_reads_pad v0 v1) as (r & Hp & Hv).
  pose proof (controller_state_spec get_button get_axis Hb Ha) as Hs. rewrite Hln in Hs.
  destruct (_ && _ && _ && _); [done|]. destruct Hs as (ln' & [= <-] & Hlen & Hpr).
  exists r, (report_of (sampled_pad get_button get_axis)). eexists. split; [done|]. split; [|by apply Hv, sampled_pad_ok].
  unfold bind at 1. rewrite (serial_task_run p w ln (sampled_pad get_button get_axis) line_init);
    [by unfold GetNextReport, bind, mget, ret|done|done|lia|by rewrite Hl].
Qed.

(** ** Reports over the control endpoint *)

(** The HID class request GET_REPORT is answered, by the application before
    the stack looks at the request, with the first [min 8 wLength] bytes of the
    report of the current pad state; the stack then leaves the request alone,
    and nothing is stalled. *)
Theorem get_report_answers p v i len w :
  let r := Request 0xA1 HID_REQ_GetReport v i len in
  one_setup p (hist w) -> setup_at p (hist w) r -> host_reads p len (hist w) -> counts_bytes p -> (73 <= fuel p)%nat ->
  wp False (USB_Device_ProcessControlRequest boot_signature_byte_get) (fun _ w' => exists ws,
    did w w' (with_request r w) ws /\
    answer_writes (take (min 8 (Z.to_nat len)) (pack (report_of (jpad (fw_joystick (st w)))))) ws) p w.
Proof.
  intros r Hone Hat Hhost Hc Hf. unfold USB_Device_ProcessControlRequest.
  apply wp_bind, (wp_read_request p False r); [done|]. intros w1 D1. pose proof D1 as (S1 & n1 & Hh1 & Hw1).
  assert (usb (st w1) = set_request r (usb (st w))) as Er by (by rewrite S1, with_request_usb).
  apply wp_bind. cbn [EVENT_USB_Device_ControlRequest this_app joystick_app]. unfold joystick_ControlRequest.
  apply wp_bind, wp_get_request. rewrite Er. cbn [set_request USB_ControlRequest].
  change (bRequest r =? HID_REQ_GetReport) with true.
  change (bmRequestType r =? reqtype REQDIR_DEVICETOHOST REQTYPE_CLASS REQREC_INTERFACE) with true. cbv iota. cbn [when].
  apply wp_bind, wp_GetNextReport. rewrite S1. change (fw_joystick (with_request r w)) with (fw_joystick (st w)).
  set (q := jpad (fw_joystick (st w))).
  assert (asked_length w1 = len) as Ea by (unfold asked_length; by rewrite Er).
  assert (length (pack (report_of q)) = 8%nat) as Hl by (by rewrite pack_length).
  change (sizeof USB_JoystickReport_Input_t) with 8. eapply wp_mono.
  { apply (answer_did p (pack (report_of q)) 8 (fun _ w2 => exists ws, did w w2 (with_request r w) ws /\
      answer_writes (take (min 8 (Z.to_nat len)) (pack (report_of q))) ws)); rewrite ?Ea;
      [apply pack_u8|lia|lia|by eapply setup_at_length| |done|change (Z.to_nat 8) with 8%nat; lia|].
    - intros before. rewrite Hh1, app_assoc. intros u u' Ha Hu. apply Hhost; [|done]. by rewrite writes_app, Hw1.
    - intros ws w2 Hws D2. rewrite S1 in D2. exists ws. split; [|done]. apply (did_trans _ _ _ _ _ _ _ D1 D2). }
  intros [] w2 (ws & D & Hws). pose proof Hws as (Hack & _).
  apply wp_bind. eapply wp_setup_flag; [done|done|]. intros w3 D3. rewrite Hack. cbn [negb when].
  apply wp_bind, wp_ret, wp_bind. eapply wp_setup_flag; [done|exact D3|]. intros w4 D4. rewrite Hack.
  apply wp_ret. by exists ws.
Qed.
End AppTheorems.

(** ** Concrete runs *)

Section Runs.
#[local] Instance chip : Avr := datasheet USB_SERIES_2_AVR.
#[local] Instance chip_ok : AvrOk := datasheet_ok USB_SERIES_2_AVR.

Definition stack0 : USB_JoystickReport_Input_t := InputReport 0 0 0 0 0 0 0x55.
Definition stack1 : USB_JoystickReport_Output_t := OutputReport 0 0 0 0 0 0.
#[local] Instance run_app : UsbApplication firmware := joystick_app stack0 stack1.

(** SETUP packet [r] on a controller whose configuration registers read back. *)
Definition configuring_bus (r : USB_Request_Header_t) : platform :=
  register_file (fun h x => match x with UESTA0X => 0xFF | _ => respond (setup_bus r (fun _ => false) 20) h x end) 20.

(** SET_CONFIGURATION(1). *)
Lemma set_configuration_configures_witness :
  let p := configuring_bus (Request 0 9 1 0 0) in
  let w := World firmware_init [] in
  wp False (USB_Device_ProcessControlRequest (fun _ => 0)) (fun _ w' =>
    USB_Device_ConfigurationNumber (usb (st w')) = 1 /\
    configured_as 1 (interrupt_cfg0 true) interrupt_cfg1 0 (hist w') /\
    configured_as 2 (interrupt_cfg0 false) interrupt_cfg1 0 (hist w')) p w.
Proof.
  intros p w. eapply wp_mono; [refine (set_configuration_configures stack0 stack1 (fun _ => 0) p 1 0 1 0 0 w _ _ _ _ _ _ _ _)|].
  - intros new. cbn [p configuring_bus register_file respond]. rewrite bool_decide_false by (by apply (bool_decide_unpack _)).
    rewrite app_nil_r. apply (DeviceStandardReq.bus_flags (Request 0 9 1 0 0) (fun _ => false) 20 new).
  - split; [reflexivity|by apply (bool_decide_unpack _)].
  - intros h. reflexivity.
  - intros h _. apply (DeviceStandardReq.bus_flags (Request 0 9 1 0 0) (fun _ => false) 20 h).
  - cbn. lia.
  - cbn. lia.
  - apply register_file_readback.
  - intros h. reflexivity.
  - intros [] w' ((u & u' & ss & es & _ & _ & _ & [S1 _]) & H1 & H2). rewrite S1. done.
Defined.

(** A configured device: a packet of eight bytes waits on endpoint 2, and endpoint 1
    is ready. *)
Definition polling_bus : platform := {|
  respond h r := match r with
    | UEINTX => if selected h =? 1 then 0x21 else if bool_decide (length (read_from UEDATX h) < 8)%nat then 0x24 else 0x04
    | UECFG0X => if selected h =? 1 then 1 else 0
    | UCSR1A => 0x20
    | V_USB_DeviceState => 4
    | _ => 0
    end;
  fuel := 20
|}.

Definition pressed : pad := Pad 0x0004 8 0x80 0x80 0x80 0x80.
Definition playing : world firmware := World (Firmware (Joystick pressed line_init ring_init) (fw_usb firmware_init)) [].

(** Button A: the packet of the host is acknowledged, and the bytes of the report
    reach the data register. *)
Lemma hid_task_sends_report_witness :
  wp False (HID_Task stack0 stack1 (fun _ => 0))
    (fun _ w' => exists ws, hid_writes stack0 pressed (Some 8%nat) true ws /\ did playing w' (st playing) ws) polling_bus playing /\
  (exists w', HID_Task stack0 stack1 (fun _ => 0) polling_bus playing = Done tt w' /\
     length (read_from UEDATX (hist w')) = 7%nat /\ written UEDATX (hist w') = [4; 0; 8; 0x80; 0x80; 0x80; 0x80; 0x55]).
Proof.
  split.
  - refine (proj1 (hid_task_sends_report stack0 stack1 (fun _ => 0) polling_bus 1 (Some 8%nat) true playing) _ _ _ _ _ _).
    + reflexivity.
    + intros new. rewrite app_nil_r. cbn [polling_bus respond default from_option id]. split; intros ->; [|intros _ _; by split_and!].
      intros _. by case_bool_decide.
    + right. lia.
    + intros h _. reflexivity.
    + cbn. lia.
    + cbn. lia.
  - eexists. split; [vm_compute; reflexivity|]. split; vm_compute; reflexivity.
Defined.

(** Y and capture, the hat up, the sticks apart. *)
Lemma joystick_report_layout_witness :
  exists r, USB_ProcessHIDReport accept_all 0 0 JoystickReport (Z.of_nat (length JoystickReport)) = Some (HID_PARSE_Successful, r) /\
    host_values r [0x01; 0x20; 0; 1; 2; 3; 4; 0x55] = Some ([1; 0; 0; 0; 0; 0; 0; 0; 0; 0; 0; 0; 0; 1] ++ [0; 1; 2; 3; 4]).
Proof.
  destruct (joystick_report_layout 0 0 (InputReport 0x2001 0 1 2 3 4 0x55)) as (r & Hp & _ & _ & _ & Hv).
  - unfold in_range. by apply (bool_decide_unpack _).
  - exists r. split; [exact Hp|exact Hv].
Defined.

(** GET_REPORT. *)
Lemma get_report_answers_witness :
  let p := setup_bus (Request 0xA1 1 0x0100 0 8) (fun h => match after_ack h with
    | Some l => host_done 8 (fst (packets l)) | None => false end) 100 in
  wp False (USB_Device_ProcessControlRequest (fun _ => 0)) (fun _ w' => exists ws,
    did playing w' (with_request (Request 0xA1 1 0x0100 0 8) playing) ws /\
    answer_writes [4; 0; 8; 0x80; 0x80; 0x80; 0x80; 0x55] ws) p playing.
Proof.
  intros p. refine (get_report_answers stack0 stack1 (fun _ => 0) p 0x0100 0 8 playing (bus_one_setup _ _ _) _
    (bus_host _ _ _) _ _).
  - split; [reflexivity|by apply (bool_decide_unpack _)].
  - intros h Hh. cbn [p setup_bus respond]. split; [|done]. apply u8_small. unfold is_u8. lia.
  - by apply (bool_decide_unpack _).
Defined.

(** The line of the demo controller of [Bridge] waits in the circular buffer. *)
Definition demo_line : list Z := [48; 49; 48; 48; 52; 50; 102; 102; 56; 48; 56; 48; 56; 48; 10].
Definition received_line : world firmware :=
  World (Firmware (Joystick pad_init line_init (Ring (demo_line ++ replicate 241 0) 15 0)) (fw_usb firmware_init)) [].

Lemma bridge_state_reaches_host_witness : exists r rep w',
  USB_ProcessHIDReport accept_all 0 0 JoystickReport (Z.of_nat (length JoystickReport)) = Some (HID_PARSE_Successful, r) /\
  (on_joystick SerialTask.Serial_Task;;; GetNextReport stack0) polling_bus received_line = Done rep w' /\
  host_values r (pack rep) = Some ([0; 1; 0; 0; 0; 0; 1; 0; 0; 0; 0; 0; 0; 0] ++ [1; 255; 128; 128; 128]).
Proof.
  change ([0; 1; 0; 0; 0; 0; 1; 0; 0; 0; 0; 0; 0; 0] ++ _) with (pad_values (sampled_pad demo_button demo_axis)).
  refine (bridge_state_reaches_host stack0 demo_button demo_axis demo_line polling_bus received_line 0 0 _ _ _ _ _ _ _).
  - intros []; (left; reflexivity) || (right; reflexivity).
  - intros []; cbn; lia.
  - by vm_compute.
  - unfold SerialRing.ring_ok. cbn. unfold is_u8. lia.
  - by vm_compute.
  - reflexivity.
  - cbn. lia.
Defined.
End Runs.
