(* ===== verification/Firmware.v ===== *)
(** * The whole firmware: main loop, interrupts and start-up

    [JoystickApp] has the tasks of the main loop and the handlers of the two
    interrupts; here they run together.  A state of the system is a place in
    [main] with the objects and the access log; a step is the next call of
    [main], or an interrupt handler, which may run before any of the calls.
    (The receive handler inside [Serial_Task] is the subject of
    [JoystickSerial]; the other calls share no object with it.)  A call that
    accesses memory outside an object leads to [Crashed]. *)

From S2P Require Import Prelude StdDescriptors HIDClass Descriptors Machine Serial JoystickSerial Bridge HIDParser UsbCore Endpoint EndpointStream DeviceStandardReq UsbController MemorySafety JoystickApp.
Import SerialLine SerialRing.

(** ** The application is safe *)

(** The serial objects are [j], and the request length is a 16-bit number. *)
Definition serial_is (j : joystick) (g : firmware) : Prop :=
  fw_joystick g = j /\ is_u16 (wLength (USB_ControlRequest (usb g))).

#[export] Instance serial_is_inv j : UsbInv (serial_is j).
Proof. split; [by intros g []|intros u g [Hj _] Hu; by split]. Qed.

Section SafeApp.
Context `{Avr} (stack : USB_JoystickReport_Input_t) (stack_out : USB_JoystickReport_Output_t).
Variable boot_signature_byte_get : Z -> Z.
Context (p : platform) (j : joystick).
#[local] Instance safe_app_instance : UsbApplication firmware := joystick_app stack stack_out.

Lemma safe_GetNextReport : safe (serial_is j) p (GetNextReport stack).
Proof. unfold GetNextReport. safe. Qed.

Lemma safe_joystick_ControlRequest : safe (serial_is j) p (joystick_ControlRequest stack stack_out).
Proof.
  apply safe_request_then; [typeclasses eauto|]. intros r _. unfold when, Endpoint_ClearSETUP.
  destruct (_ =? HID_REQ_GetReport).
  - destruct (_ =? _); [|apply safe_ret]. apply safe_seq; [apply safe_GetNextReport|intros d].
    apply safe_seq; [apply safe_reg_andn|intros _]. apply safe_seq; [|intros _; apply safe_clear_out].
    refine (proj1 (safe_write_control (serial_is j) p (pack d) (sizeof USB_JoystickReport_Input_t) _ _)).
    + change (0 <= 8 < 65536). lia.
    + rewrite pack_length. change (8 <= 8). lia.
  - destruct (_ =? HID_REQ_SetReport); [|apply safe_ret]. destruct (_ =? _); [|apply safe_ret].
    apply safe_seq; [apply safe_reg_andn|intros _]. apply safe_seq; [|intros _; apply safe_clear_in].
    refine (proj1 (safe_read_control (serial_is j) p (pack stack_out) (sizeof USB_JoystickReport_Output_t) _ _)).
    + change (0 <= 7 < 65536). lia.
    + rewrite pack_length. change (7 <= 7). lia.
Qed.

#[export] Instance joystick_app_safe : SafeApplication (serial_is j) p.
Proof.
  split; try apply safe_ret; [apply safe_joystick_ControlRequest| |].
  - unfold EVENT_USB_Device_ConfigurationChanged, safe_app_instance, joystick_app, joystick_ConfigurationChanged. safe.
  - intros v i. pose proof (callback_memory v i) as Hm. cbn [GetDescriptor safe_app_instance joystick_app].
    destruct (CALLBACK_USB_GetDescriptor v i). apply Hm.
Qed.

Lemma safe_puts s : safe (serial_is j) p (stdout_puts s).
Proof.
  induction s as [|c s IH]; [apply safe_ret|]. cbn [stdout_puts foldr].
  unfold Serial_putchar, Serial_SendByte, Serial_IsSendReady. apply safe_seq; [safe|intros _; apply IH].
Qed.

(** The two report structures hold the lengths their transfers are given. *)
Lemma safe_report_streams task : safe (serial_is j) p task ->
  (forall d : USB_JoystickReport_Input_t, safe (serial_is j) p
     (Endpoint_Write_Stream_LE task (pack d) (sizeof USB_JoystickReport_Input_t) None)) /\
  safe (serial_is j) p (Endpoint_Read_Stream_LE task (pack stack_out) (sizeof USB_JoystickReport_Output_t) None).
Proof.
  intros Ht. split; [intros d|].
  - refine (proj1 (safe_data_streams (serial_is j) p task (pack d) _ None Ht _ _ I)).
    + change (0 <= 8 < 65536). lia.
    + rewrite pack_length. change (8 <= 8). lia.
  - refine (proj1 (proj2 (proj2 (safe_data_streams (serial_is j) p task (pack stack_out) _ None Ht _ _ I)))).
    + change (0 <= 7 < 65536). lia.
    + rewrite pack_length. change (7 <= 7). lia.
Qed.

Lemma safe_HID_Task : safe (serial_is j) p (HID_Task stack stack_out boot_signature_byte_get).
Proof.
  pose proof (safe_USBTask (serial_is j) p boot_signature_byte_get) as Ht.
  destruct (safe_report_streams _ Ht) as [Hw Hr]. pose proof safe_GetNextReport. pose proof safe_puts.
  unfold HID_Task, is_DeviceState, Endpoint_SelectEndpoint, Endpoint_IsOUTReceived, Endpoint_IsReadWriteAllowed,
    Endpoint_IsINReady. safe.
Qed.

(** avr-libc's watchdog and clock routines leave the objects alone. *)
Lemma safe_main_init wdt clock : safe (serial_is j) p wdt -> safe (serial_is j) p clock ->
  safe (serial_is j) p (main_init wdt clock).
Proof.
  intros Hw Hc. unfold main_init, SetupHardware, Serial_Init, GlobalInterruptEnable.
  pose proof (safe_USB_Init (serial_is j) p). safe.
Qed.
End SafeApp.

(** ** Bytes *)

(** The bytes of a line under assembly, and the pad, hold values of their types. *)
Definition line_ok (s : line) : Prop := Forall is_u8 (b s).

Lemma aget_u8 (bs : list Z) i x : Forall is_u8 bs -> aget bs i = Some x -> is_u8 x.
Proof. unfold aget. intros Hb. case_decide; [|done]. intros Hx. by apply (Forall_lookup_1 _ _ _ _ Hb Hx). Qed.

Lemma process_char_ok c q s q' s' : pad_ok q -> line_ok s ->
  process_char c (q, s) = Some (q', s') -> pad_ok q' /\ line_ok s'.
Proof.
  intros Hq Hs. assert (line_ok line_init) as Hi by (by apply (bool_decide_unpack _)). unfold process_char.
  destruct (_ || _).
  - unfold end_of_line. destruct (l s =? 14); [|by intros [= <- <-]].
    intros He. do 7 apply bind_Some in He as (? & ? & He). injection He as <- <-. split; [|done].
    unfold pad_ok. cbn. split_and!; [apply u16_range|eapply aget_u8; [exact Hs|eassumption]..].
  - destruct (_ =? 255); [by intros [= <- <-]|]. unfold store_digit.
    destruct (aget (b s) _) eqn:?; cbn [mbind option_bind]; [|done]. unfold aset. case_decide; cbn [mbind option_bind]; [|done].
    intros [= <- <-]. split; [done|]. apply Forall_insert; [done|apply u8_range].
Qed.

Lemma process_all_ok cs q s q' s' : pad_ok q -> line_ok s ->
  process_all cs (q, s) = Some (q', s') -> pad_ok q' /\ line_ok s'.
Proof.
  revert q s. induction cs as [|c cs IH]; intros q s Hq Hs; [by intros [= <- <-]|]. cbn [process_all].
  destruct (process_char c (q, s)) as [[q1 s1]|] eqn:E; [|done]. cbn [mbind option_bind].
  destruct (process_char_ok _ _ _ _ _ Hq Hs E). by apply IH.
Qed.

Lemma pad_init_ok : pad_ok pad_init /\ line_ok line_init.
Proof. split; [unfold pad_ok, is_u16, is_u8; cbn; lia|by apply (bool_decide_unpack _)]. Qed.

(** ** The running system *)

Section System.
Context `{Avr} (stack : USB_JoystickReport_Input_t) (stack_out : USB_JoystickReport_Output_t).
Variable boot_signature_byte_get : Z -> Z.
Variables wdt_disable clock_prescale_set_div_1 : M firmware unit.
Variable p : platform.
#[local] Instance system_app : UsbApplication firmware := joystick_app stack stack_out.

(** The next call of [main]. *)
Inductive place := Boot | Hid | Usb | Ser | Crashed.

Definition call_at (k : place) : option (M firmware unit * place) :=
  match k with
  | Boot => Some (main_init wdt_disable clock_prescale_set_div_1, Hid)
  | Hid => Some (HID_Task stack stack_out boot_signature_byte_get, Usb)
  | Usb => Some (USB_USBTask boot_signature_byte_get, Ser)
  | Ser => Some (on_joystick SerialTask.Serial_Task, Hid)
  | Crashed => None
  end.

Definition ring_of (w : world firmware) : ring := jring (fw_joystick (st w)).

Inductive sys_label := Call (k : place) | Received (c : Z) | Overrun | UsbInterrupt | Fell.

(** The receive interrupt delivers byte [c]: what it puts into the buffer. *)
Inductive sys_step : place * world firmware -> sys_label -> place * world firmware -> Prop :=
  | step_call k m k' w w' : call_at k = Some (m, k') -> m p w = Done tt w' -> sys_step (k, w) (Call k) (k', w')
  | step_rx k w w' c : k <> Crashed -> (count (ring_of w) < 255)%nat ->
      on_joystick SerialTask.USART1_RX_vect p w = Done tt w' ->
      contents (ring_of w') = contents (ring_of w) ++ [c] -> sys_step (k, w) (Received c) (k, w')
  | step_overrun k w w' : k <> Crashed -> count (ring_of w) = 255%nat ->
      on_joystick SerialTask.USART1_RX_vect p w = Done tt w' -> sys_step (k, w) Overrun (k, w')
  | step_usb k w w' : k <> Crashed -> USB_GEN_vect p w = Done tt w' -> sys_step (k, w) UsbInterrupt (k, w')
  | step_fault k m k' w : call_at k = Some (m, k') -> m p w = Fault -> sys_step (k, w) Fell (Crashed, w)
  | step_rx_fault k w : k <> Crashed -> on_joystick SerialTask.USART1_RX_vect p w = Fault -> sys_step (k, w) Fell (Crashed, w)
  | step_usb_fault k w : k <> Crashed -> USB_GEN_vect p w = Fault -> sys_step (k, w) Fell (Crashed, w).

Inductive sys_run : list sys_label -> place * world firmware -> Prop :=
  | run_init : sys_run [] (Boot, World firmware_init [])
  | run_step tr s lb s' : sys_run tr s -> sys_step s lb s' -> sys_run (tr ++ [lb]) s'.

Definition bytes_in (tr : list sys_label) : list Z :=
  omap (fun lb => match lb with Received c => Some c | _ => None end) tr.

(** ** The invariant *)

(** The pad and the line under assembly are what the bytes taken so far make
    them, and the rest waits in the buffer. *)
Definition sys_inv (cs : list Z) (g : firmware) : Prop :=
  let j := fw_joystick g in
  ring_ok (jring j) /\ is_u16 (wLength (USB_ControlRequest (usb g))) /\
  exists dn, cs = dn ++ contents (jring j) /\ process_all dn (pad_init, line_init) = Some (jpad j, jline j).

Lemma sys_inv_same cs j g g' : sys_inv cs g -> fw_joystick g = j -> serial_is j g' -> sys_inv cs g'.
Proof. intros (Hr & _ & Hd) <- [Hj Hu]. unfold sys_inv. rewrite Hj. done. Qed.

(** A call that is safe whatever the serial objects. *)
Lemma safe_step {A} cs (m : M firmware A) w : (forall j, safe (serial_is j) p m) -> sys_inv cs (st w) ->
  wp True m (fun _ w' => sys_inv cs (st w')) p w.
Proof.
  intros Hm Hi. eapply wp_mono; [apply (Hm (fw_joystick (st w)))|].
  - destruct Hi as (_ & Hu & _). by split.
  - intros a w' Hs. by apply (sys_inv_same cs (fw_joystick (st w)) (st w)).
Qed.

Lemma wp_done {A} (m : M firmware A) Q w a w' : wp True m Q p w -> m p w = Done a w' -> Q a w'.
Proof. unfold wp. intros Hw E. by rewrite E in Hw. Qed.
Lemma wp_no_fault {A} (m : M firmware A) Q w : wp True m Q p w -> m p w = Fault -> False.
Proof. unfold wp. intros Hw E. by rewrite E in Hw. Qed.

(** The task takes everything that waits. *)
Lemma serial_step cs q s w : (255 < fuel p)%nat -> process_all cs (pad_init, line_init) = Some (q, s) ->
  sys_inv cs (st w) ->
  wp True (on_joystick SerialTask.Serial_Task) (fun _ w' => sys_inv cs (st w') /\
    contents (ring_of w') = [] /\ jpad (fw_joystick (st w')) = q) p w.
Proof.
  intros Hf Hcs (Hr & Hu & dn & -> & Hd). rewrite process_all_app, Hd in Hcs. cbn [mbind option_bind] in Hcs.
  pose proof (count_lt (jring (fw_joystick (st w)))) as Hc. rewrite <- length_contents in Hc.
  unfold wp. rewrite (serial_task_run p w _ q s Hr eq_refl ltac:(lia) Hcs). unfold sys_inv, ring_of. cbn [st fw_joystick jring jpad jline usb].
  assert (ring_ok (SerialTask.drained (jring (fw_joystick (st w))))) as Hr' by (destruct Hr as (? & ? & ?); done).
  assert (contents (SerialTask.drained (jring (fw_joystick (st w)))) = []) as Hn by (by apply ring_empty).
  rewrite Hn. split_and!; [done|done| |done|done]. eexists. rewrite app_nil_r. split; [done|]. by rewrite process_all_app, Hd.
Qed.

(** The receive handler stores one byte. *)
Lemma rx_step w : ring_ok (ring_of w) ->
  wp True (on_joystick SerialTask.USART1_RX_vect) (fun _ w' => exists r' c,
    rx_store c (ring_of w) = Some r' /\ st w' = Firmware (set_ring r' (fw_joystick (st w))) (fw_usb (st w))) p w.
Proof.
  intros Hr. apply wp_zoom. eapply wp_mono; [by apply SerialTask.wp_USART1_RX_vect|].
  intros [] w' (c & r' & Hc & Hs & _). exists r', c. cbn [st]. by rewrite Hs.
Qed.

Lemma bytes_in_snoc tr lb : bytes_in (tr ++ [lb]) =
  bytes_in tr ++ match lb with Received c => [c] | _ => [] end.
Proof. unfold bytes_in. rewrite omap_app. by destruct lb. Qed.

Lemma process_prefix cs cs' qs : is_Some (process_all (cs ++ cs') qs) -> is_Some (process_all cs qs).
Proof. rewrite process_all_app. destruct (process_all cs qs); [by eexists|by intros [? ?]]. Qed.

(** ** No reachable state crashes *)

Context (Hfuel : (255 < fuel p)%nat).
Context (Hwdt : forall j, safe (serial_is j) p wdt_disable).
Context (Hclock : forall j, safe (serial_is j) p clock_prescale_set_div_1).

Lemma call_step cs k m k' w : call_at k = Some (m, k') -> is_Some (process_all cs (pad_init, line_init)) ->
  sys_inv cs (st w) -> wp True m (fun _ w' => sys_inv cs (st w')) p w.
Proof.
  intros Hk [[q s] Hcs] Hi. destruct k; simplify_eq/=.
  - apply safe_step; [|done]. intros j. by apply safe_main_init.
  - apply safe_step; [|done]. intros j. apply safe_HID_Task.
  - apply safe_step; [|done]. intros j. apply safe_USBTask; apply _.
  - eapply wp_mono; [by apply (serial_step cs q s)|]. by intros [] w' [].
Qed.

Lemma sys_inv_step cs s lb s' : sys_step s lb s' -> lb <> Overrun ->
  let cs' := cs ++ match lb with Received c => [c] | _ => [] end in
  is_Some (process_all cs' (pad_init, line_init)) ->
  s.1 <> Crashed /\ sys_inv cs (st s.2) -> s'.1 <> Crashed /\ sys_inv cs' (st s'.2).
Proof.
  intros Hstep Ho cs' Hp [Hk Hi]. pose proof (process_prefix _ _ _ Hp) as Hp0. unfold cs'. clear cs' Hp.
  assert (forall w, sys_inv cs (st w) -> wp True USB_GEN_vect (fun _ w' => sys_inv cs (st w')) p w) as Husb.
  { intros w Hw. apply safe_step; [|done]. intros j. apply safe_USB_GEN_vect; apply _. }
  destruct Hstep as [k m k' w w' Hc Hd|k w w' c _ _ Hd Hcs|k w w' _ _ Hd|k w w' _ Hd|k m k' w Hc Hd|k w _ Hd|k w _ Hd];
    cbn [fst snd] in *; rewrite ?app_nil_r.
  - split; [by destruct k; simplify_eq/=|]. exact (wp_done _ _ _ _ _ (call_step _ _ _ _ _ Hc Hp0 Hi) Hd).
  - split; [done|]. destruct Hi as (Hr & Hu & dn & -> & Hpd).
    destruct (wp_done _ _ _ _ _ (rx_step w Hr) Hd) as (r' & c' & Hst & Es).
    unfold sys_inv, ring_of in *. rewrite Es in *. cbn [fw_joystick set_ring jring jpad jline usb firmware_usb fw_usb] in *.
    split_and!; [by eapply rx_store_pres|done|]. exists dn. by rewrite Hcs, app_assoc.
  - done.
  - split; [done|]. exact (wp_done _ _ _ _ _ (Husb w Hi) Hd).
  - by destruct (wp_no_fault _ _ _ (call_step _ _ _ _ _ Hc Hp0 Hi) Hd).
  - by destruct (wp_no_fault _ _ _ (rx_step w (proj1 Hi)) Hd).
  - by destruct (wp_no_fault _ _ _ (Husb w Hi) Hd).
Qed.

Lemma sys_inv_run tr s : sys_run tr s -> Overrun ∉ tr ->
  is_Some (process_all (bytes_in tr) (pad_init, line_init)) -> s.1 <> Crashed /\ sys_inv (bytes_in tr) (st s.2).
Proof.
  intros Hrun. induction Hrun as [|tr s lb s' Hrun IH Hstep]; intros Ho Hp.
  { split; [done|]. split; [apply ring_init_ok|]. split; [unfold is_u16; cbn; lia|]. by exists []. }
  rewrite bytes_in_snoc in *. apply not_elem_of_app in Ho as [Ho Ho'].
  eapply sys_inv_step; [done|by intros ->; apply Ho'; left|done|]. apply IH; [done|by eapply process_prefix].
Qed.

(** C1: no run of the whole firmware goes wrong.  However the main loop, the
    receive interrupt and the USB interrupt follow each other, whatever the
    USB controller, the host and the USART do: as long as no line sent has more
    than fourteen digits and the receive buffer is not overrun, nothing is ever
    accessed outside its object; the bytes received are those taken followed by
    those waiting, the pad is what the bytes taken say, and it holds values of
    its types. *)
Theorem firmware_never_crashes tr s : sys_run tr s -> Overrun ∉ tr ->
  is_Some (process_all (bytes_in tr) (pad_init, line_init)) ->
  let j := fw_joystick (st s.2) in
  s.1 <> Crashed /\ pad_ok (jpad j) /\ exists taken, bytes_in tr = taken ++ contents (jring j) /\
    process_all taken (pad_init, line_init) = Some (jpad j, jline j).
Proof.
  intros Hrun Ho Hp j. destruct (sys_inv_run tr s Hrun Ho Hp) as (Hk & Hr & Hu & dn & Hd & Hpd).
  destruct pad_init_ok. split; [done|]. split; [by eapply process_all_ok|]. by exists dn.
Qed.

(** C2: the console sees the last frame.  When the bytes received so far are
    well-formed lines and [Serial_Task] has just run, the report the firmware
    makes next, read by a host that has parsed the firmware's own report
    descriptor, holds the buttons, the hat and the sticks of the last line of
    fourteen digits. *)
Theorem firmware_reports_last_frame tr s lns v0 v1 : sys_run (tr ++ [Call Ser]) s -> Overrun ∉ tr ->
  bytes_in tr = mjoin (text <$> lns) -> Forall line_text_ok lns ->
  Forall (fun ln => length (digits ln.1) <= 14)%nat lns ->
  exists r rep, USB_ProcessHIDReport accept_all v0 v1 JoystickReport (Z.of_nat (length JoystickReport))
                  = Some (HID_PARSE_Successful, r) /\
    GetNextReport stack p s.2 = Done rep s.2 /\ host_values r (pack rep) = Some (pad_values (pad_after pad_init lns)).
Proof.
  intros Hrun Ho Hb Hok Hlen. pose proof (process_lines pad_init lns Hok Hlen) as Hp. rewrite <- Hb in Hp.
  destruct (host_reads_pad stack v0 v1) as (r & Hr & Hv). exists r, (report_of stack (pad_after pad_init lns)).
  split; [done|]. destruct pad_init_ok as [Hq Hl]. split; [|by apply Hv; eapply process_all_ok].
  inversion Hrun as [|tr' s0 lb s' Hrun' Hstep E1 E2]; [by destruct tr|]. apply app_inj_tail in E1 as [-> ->]. subst s'.
  destruct (sys_inv_run tr s0 Hrun' Ho ltac:(by eexists)) as [_ Hi].
  inversion Hstep as [k m k' w w' Hc Hd| | | | | |]; subst. injection Hc as <- <-.
  destruct (wp_done _ _ _ _ _ (serial_step _ _ _ w Hfuel Hp Hi) Hd) as (_ & _ & E).
  unfold GetNextReport, bind, mget, ret, report_of. cbn [snd]. by rewrite E.
Qed.
End System.

(** ** Concrete runs *)

#[export] Instance place_eq_dec : EqDecision place.
Proof. solve_decision. Defined.
#[export] Instance sys_label_eq_dec : EqDecision sys_label.
Proof. solve_decision. Defined.

Section Exec.
Context `{Avr} (stack : USB_JoystickReport_Input_t) (stack_out : USB_JoystickReport_Output_t).
Variable boot_signature_byte_get : Z -> Z.
Variables wdt_disable clock_prescale_set_div_1 : M firmware unit.
Variable p : platform.
Abbreviation run := (sys_run stack stack_out boot_signature_byte_get wdt_disable clock_prescale_set_div_1 p).

(** Follow a label, when it is possible. *)
Definition follow (lb : sys_label) (s : place * world firmware) : option (place * world firmware) :=
  let '(k, w) := s in
  match lb with
  | Call k' =>
      if decide (k = k') then
        match call_at stack stack_out boot_signature_byte_get wdt_disable clock_prescale_set_div_1 k with
        | Some (m, k2) => match m p w with Done _ w' => Some (k2, w') | _ => None end
        | None => None
        end
      else None
  | Received c =>
      if decide (k <> Crashed /\ (count (ring_of w) < 255)%nat) then
        match on_joystick SerialTask.USART1_RX_vect p w with
        | Done _ w' => if decide (contents (ring_of w') = contents (ring_of w) ++ [c]) then Some (k, w') else None
        | _ => None
        end
      else None
  | _ => None
  end.

Lemma follow_run tr lb s s' : run tr s -> follow lb s = Some s' -> run (tr ++ [lb]) s'.
Proof.
  intros Hrun Hf. apply (run_step _ _ _ _ _ _ _ s); [done|]. destruct s as [k w]. destruct lb as [k'|c| | |]; try done; cbn [follow] in Hf.
  - case_decide; [subst k'|done]. destruct (call_at _ _ _ _ _ k) as [[m k2]|] eqn:E; [|done].
    destruct (m p w) as [[] w'| |] eqn:Ed; [|done..]. injection Hf as <-. by eapply step_call.
  - case_decide as Hd; [|done]. destruct Hd. destruct (on_joystick _ p w) as [[] w'| |] eqn:Ed; [|done..]. case_decide; [|done].
    injection Hf as <-. by apply step_rx.
Qed.

Lemma follow_all tr s0 lbs s : run tr s0 -> foldl (fun o lb => o ≫= follow lb) (Some s0) lbs = Some s -> run (tr ++ lbs) s.
Proof.
  revert tr s0. induction lbs as [|lb lbs IH]; intros tr s0 Hrun Hf; cbn [foldl] in Hf.
  - injection Hf as <-. by rewrite app_nil_r.
  - destruct (Some s0 ≫= follow lb) as [s1|] eqn:E.
    + change (lb :: lbs) with ([lb] ++ lbs). rewrite app_assoc. apply (IH _ s1); [|done]. by eapply follow_run.
    + exfalso. clear -Hf. induction lbs; cbn in *; [done|by apply IHlbs].
Qed.
End Exec.

Section Demo.
#[local] Instance chip : Avr := datasheet USB_SERIES_2_AVR.

(** No host yet: the USART delivers the line of the demo controller. *)
Definition serial_host : platform := {|
  respond h r := match r with
    | UCSR1A => 0xA0
    | UDR1 => default 0 (demo_line !! length (reads UDR1 h))
    | PLLCSR => 1
    | UESTA0X => 0x80
    | _ => 0
    end;
  fuel := 300
|}.
Definition demo_labels : list sys_label := Call Boot :: (Received <$> demo_line) ++ [Call Hid; Call Usb].
Abbreviation demo_sys := (sys_run stack0 stack1 (fun _ => 0) (ret tt) (ret tt) serial_host).

Lemma demo_sys_run : exists s s', demo_sys demo_labels s /\ demo_sys (demo_labels ++ [Call Ser]) s'.
Proof.
  assert (exists s s', foldl (fun o lb => o ≫= follow stack0 stack1 (fun _ => 0) (ret tt) (ret tt) serial_host lb)
    (Some (Boot, World firmware_init [])) demo_labels = Some s /\
    foldl (fun o lb => o ≫= follow stack0 stack1 (fun _ => 0) (ret tt) (ret tt) serial_host lb)
    (Some (Boot, World firmware_init [])) (demo_labels ++ [Call Ser]) = Some s') as (s & s' & E & E').
  { eexists _, _. split; [vm_compute; reflexivity|vm_compute; reflexivity]. }
  exists s, s'. split; by eapply (follow_all _ _ _ _ _ _ [] _ _ _ (run_init _ _ _ _ _ _)).
Qed.

Lemma demo_library j : safe (serial_is j) serial_host (ret tt).
Proof. apply safe_ret. Qed.

Lemma firmware_never_crashes_witness : exists s, demo_sys demo_labels s /\
  s.1 <> Crashed /\ pad_ok (jpad (fw_joystick (st s.2))).
Proof.
  destruct demo_sys_run as (s & _ & Hs & _). exists s. split; [exact Hs|].
  destruct (firmware_never_crashes stack0 stack1 (fun _ => 0) (ret tt) (ret tt) serial_host ltac:(cbn; lia)
    demo_library demo_library demo_labels s Hs) as (H1 & H2 & _).
  - by apply (bool_decide_unpack _).
  - eexists. by vm_compute.
  - split; [exact H1|exact H2].
Defined.

Lemma firmware_reports_last_frame_witness : exists s r rep,
  demo_sys (demo_labels ++ [Call Ser]) s /\
  USB_ProcessHIDReport accept_all 0 0 JoystickReport (Z.of_nat (length JoystickReport)) = Some (HID_PARSE_Successful, r) /\
  GetNextReport stack0 serial_host s.2 = Done rep s.2 /\
  host_values r (pack rep) = Some ([0; 1; 0; 0; 0; 0; 1; 0; 0; 0; 0; 0; 0; 0] ++ [1; 255; 128; 128; 128]).
Proof.
  destruct demo_sys_run as (_ & s & _ & Hs). exists s.
  destruct (firmware_reports_last_frame stack0 stack1 (fun _ => 0) (ret tt) (ret tt) serial_host ltac:(cbn; lia)
    demo_library demo_library demo_labels s [(take 14 demo_line, 10)] 0 0 Hs) as (r & rep & H1 & H2 & H3).
  - by apply (bool_decide_unpack _).
  - reflexivity.
  - by apply (bool_decide_unpack _).
  - by apply (bool_decide_unpack _).
  - exists r, rep. split; [exact Hs|]. split; [exact H1|]. split; [exact H2|exact H3].
Defined.
End Demo.
