(* ===== verification/Endianness.v ===== *)
(** * Byte order and bit order (LUFA Common/Endianness.h, Common/Common.h)

    The byte-swapping macros and functions, for the little-endian AVR, and the
    bit reversal of a byte. *)

From S2P Require Import Prelude StdDescriptors Machine.

(** ** Macros *)

Definition SWAPENDIAN_16 (x : Z) : Z :=
  u16 (Z.lor (Z.shiftr (Z.land x 0xFF00) 8) (Z.shiftl (Z.land x 0x00FF) 8)).

Definition SWAPENDIAN_32 (x : Z) : Z :=
  u32 (Z.lor (Z.lor (Z.shiftr (Z.land x 0xFF000000) 24) (Z.shiftr (Z.land x 0x00FF0000) 8))
             (Z.lor (Z.shiftl (Z.land x 0x0000FF00) 8) (Z.shiftl (Z.land x 0x000000FF) 24))).

(** ** Functions *)

(** [Temp = Bytes[i]; Bytes[i] = Bytes[j]; Bytes[j] = Temp;] *)
Definition swap_bytes (i j : nat) (Bytes : list Z) : list Z :=
  let Temp := default 0 (Bytes !! i) in
  <[j := Temp]> (<[i := default 0 (Bytes !! j)]> Bytes).

(** [constant]: whether the compiler knows the argument.  The union overlays the
    bytes in memory order, low byte first. *)
Definition SwapEndian_16 (constant : bool) (Word : Z) : Z :=
  if constant then SWAPENDIAN_16 Word
  else of_le_bytes (swap_bytes 0 1 (le_bytes 2 Word)).

Definition SwapEndian_32 (constant : bool) (DWord : Z) : Z :=
  if constant then SWAPENDIAN_32 DWord
  else of_le_bytes (swap_bytes 1 2 (swap_bytes 0 3 (le_bytes 4 DWord))).

(** The conversions of a little-endian processor. *)
Definition le16_to_cpu (x : Z) : Z := x.
Definition le32_to_cpu (x : Z) : Z := x.
Definition be16_to_cpu (constant : bool) (x : Z) : Z := SwapEndian_16 constant x.
Definition be32_to_cpu (constant : bool) (x : Z) : Z := SwapEndian_32 constant x.
Definition cpu_to_le16 (x : Z) : Z := x.
Definition cpu_to_le32 (x : Z) : Z := x.
Definition cpu_to_be16 (constant : bool) (x : Z) : Z := SwapEndian_16 constant x.
Definition cpu_to_be32 (constant : bool) (x : Z) : Z := SwapEndian_32 constant x.

Section SwapN.
Context {G : Type}.

(** [Data] is an offset into the memory [mem]; the result is the memory
    afterwards. *)
Definition SwapEndian_n (mem : list Z) (Data Length : Z) : M G (list Z) :=
  while_ (fun '(mem, CurrDataPos, Length) =>
    if 1 <? Length then
      Temp <- mlift (aget mem CurrDataPos);;
      other <- mlift (aget mem (CurrDataPos + Length - 1));;
      mem1 <- mlift (aset mem CurrDataPos other);;
      mem2 <- mlift (aset mem1 (CurrDataPos + Length - 1) Temp);;
      ret (inl (mem2, CurrDataPos + 1, u8 (Length - 2)))
    else ret (inr mem)) (mem, Data, Length).
End SwapN.

Definition BitReverse (Byte : Z) : Z :=
  let Byte := u8 (Z.lor (Z.shiftr (Z.land Byte 0xF0) 4) (Z.shiftl (Z.land Byte 0x0F) 4)) in
  let Byte := u8 (Z.lor (Z.shiftr (Z.land Byte 0xCC) 2) (Z.shiftl (Z.land Byte 0x33) 2)) in
  u8 (Z.lor (Z.shiftr (Z.land Byte 0xAA) 1) (Z.shiftl (Z.land Byte 0x55) 1)).

(** ** Fields of a word *)

(** Byte [i] of a word, masked in place. *)
Lemma land_byte x i : 0 <= i -> Z.land x (Z.shiftl 255 i) = Z.shiftl (u8 (x / 2 ^ i)) i.
Proof.
  intros Hi. rewrite <- land_255, <- Z.shiftr_div_pow2 by done. apply Z.bits_inj'. intros k Hk.
  rewrite Z.land_spec. destruct (decide (k < i)) as [Hlt|Hge].
  - rewrite !Z.shiftl_spec_low by done. apply andb_false_r.
  - rewrite !Z.shiftl_spec by lia. rewrite Z.land_spec, Z.shiftr_spec by lia. do 2 f_equal. lia.
Qed.

Lemma swap16_macro x : is_u16 x -> SWAPENDIAN_16 x = of_le_bytes (reverse (le_bytes 2 x)).
Proof.
  intros Hx. unfold SWAPENDIAN_16. change 0xFF00 with (Z.shiftl 255 8). change 0x00FF with 255.
  rewrite land_byte, land_255, Z.shiftr_shiftl_l, Z.sub_diag, Z.shiftl_0_r, Z.lor_comm by lia.
  rewrite lor_shiftl_add by (pose proof (u8_range (x / 2 ^ 8)); unfold is_u8 in *; lia).
  cbn [le_bytes reverse rev_append of_le_bytes].
  change (2 ^ 8) with 256. unfold is_u16 in Hx. word_lia.
Qed.

Lemma swap32_macro x : is_u32 x -> SWAPENDIAN_32 x = of_le_bytes (reverse (le_bytes 4 x)).
Proof.
  intros Hx. unfold SWAPENDIAN_32. change 0xFF000000 with (Z.shiftl 255 24). change 0x00FF0000 with (Z.shiftl 255 16).
  change 0x0000FF00 with (Z.shiftl 255 8). change 0x000000FF with 255.
  rewrite !land_byte, land_255 by lia. rewrite !Z.shiftr_shiftl_l, !Z.shiftl_shiftl by lia.
  change (24 - 24) with 0. change (16 - 8) with 8. change (8 + 8) with 16. rewrite Z.shiftl_0_r.
  set (b3 := u8 (x / 2 ^ 24)). set (b2 := u8 (x / 2 ^ 16)). set (b1 := u8 (x / 2 ^ 8)). set (b0 := u8 x).
  assert (is_u8 b3 /\ is_u8 b2 /\ is_u8 b1 /\ is_u8 b0) as (H3 & H2 & H1 & H0) by (split_and!; apply u8_range).
  unfold is_u8 in *. rewrite (Z.lor_comm b3), (Z.lor_comm (Z.shiftl b1 16)), (Z.lor_comm (Z.lor (Z.shiftl b2 8) b3)), <- Z.lor_assoc.
  rewrite (lor_shiftl_add b2), (lor_shiftl_add b1), (lor_shiftl_add b0); rewrite ?Z.shiftl_mul_pow2 by lia;
    change (2 ^ 8) with 256; change (2 ^ 16) with 65536; change (2 ^ 24) with 16777216; try lia.
  rewrite u32_small by (unfold is_u32; lia). cbn [le_bytes reverse rev_append of_le_bytes].
  rewrite !Z.div_div by lia. change (256 * 256) with 65536. change (256 * 65536) with 16777216.
  fold b0. unfold b1, b2, b3. change (2 ^ 8) with 256; change (2 ^ 16) with 65536; change (2 ^ 24) with 16777216. lia.
Qed.

(** ** Reversing bytes in memory *)

(** Memory [m] with the [n] bytes from [a] on reversed. *)
Definition reversed_at (a n : nat) (m : list Z) : list Z :=
  take a m ++ reverse (take n (drop a m)) ++ drop (a + n) m.

Lemma reversed_short a n m : (n <= 1)%nat -> reversed_at a n m = m.
Proof.
  intros Hn. unfold reversed_at. rewrite <- drop_drop. rewrite <- (take_drop a m) at 4. f_equal.
  destruct n as [|[|n]]; [by rewrite drop_0| |lia]. by destruct (drop a m).
Qed.

Lemma reversed_split A S B : reversed_at (length A) (length S) (A ++ S ++ B) = A ++ reverse S ++ B.
Proof. unfold reversed_at. by rewrite <- drop_drop, take_app_length, !drop_app_length, take_app_length. Qed.

(** Exchanging the ends leaves the rest to reverse. *)
Lemma reversed_ends A x mid y B :
  reversed_at (length A) (length mid + 2) (A ++ x :: mid ++ y :: B) =
  reversed_at (length A + 1) (length mid) (A ++ y :: mid ++ x :: B).
Proof.
  pose proof (reversed_split A (x :: mid ++ [y]) B) as E1. pose proof (reversed_split (A ++ [y]) mid (x :: B)) as E2.
  rewrite reverse_cons, reverse_app, reverse_singleton in E1. cbn [length app] in E1. rewrite !length_app in *. cbn [length] in *.
  rewrite <- !app_assoc in *. cbn [app] in *. rewrite <- E2 in E1. rewrite <- E1. f_equal; lia.
Qed.

Lemma split_ends (m : list Z) a n : (a + n + 2 <= length m)%nat -> exists A x mid y B,
  m = A ++ x :: mid ++ y :: B /\ length A = a /\ length mid = n.
Proof.
  intros Hl. exists (take a m). destruct (drop a m) as [|x l] eqn:E.
  { apply (f_equal length) in E. rewrite length_drop in E. cbn in E. lia. }
  assert (length l = length m - a - 1)%nat as Hll by (apply (f_equal length) in E; rewrite length_drop in E; cbn in E; lia).
  destruct (drop n l) as [|y B] eqn:E'.
  { apply (f_equal length) in E'. rewrite length_drop in E'. cbn in E'. lia. }
  exists x, (take n l), y, B. rewrite <- E', take_drop, <- E, take_drop, !length_take. split_and!; [done|lia|lia].
Qed.

Section SwapNProof.
Context {G : Type}.
Implicit Types w : world G.

Lemma aget_at (A : list Z) x B i : i = Z.of_nat (length A) -> aget (A ++ x :: B) i = Some x.
Proof. intros ->. unfold aget. by rewrite decide_True, Nat2Z.id, lookup_app_r, Nat.sub_diag by lia. Qed.
Lemma aset_at (A : list Z) x y B i : i = Z.of_nat (length A) -> aset (A ++ x :: B) i y = Some (A ++ y :: B).
Proof.
  intros ->. rewrite aset_Some by (rewrite length_app; cbn; lia). rewrite Nat2Z.id. f_equal.
  by rewrite insert_app_r_alt, Nat.sub_diag by lia.
Qed.

(** One round exchanges the ends. *)
Lemma swap_round (A mid B : list Z) x y len p w : len = Z.of_nat (length mid) + 2 ->
  (let m := A ++ x :: mid ++ y :: B in let pos := Z.of_nat (length A) in
   Temp <- mlift (aget m pos);; other <- mlift (aget m (pos + len - 1));;
   mem1 <- mlift (aset m pos other);; mlift (aset mem1 (pos + len - 1) Temp)) p w =
  Done (G := G) (A ++ y :: mid ++ x :: B) w.
Proof.
  intros ->. cbv zeta. unfold bind. rewrite aget_at by done. cbn [mlift ret].
  rewrite !app_comm_cons, !app_assoc, aget_at by (rewrite !length_app; cbn; lia). cbn [mlift ret].
  rewrite <- !app_assoc. cbn [app]. rewrite aset_at by done. cbn [mlift ret].
  rewrite !app_comm_cons, !app_assoc, aset_at by (rewrite !length_app; cbn; lia). cbn [mlift ret].
  by rewrite <- app_assoc.
Qed.

Lemma swap_loop n p w : forall m a len, (Z.to_nat len < n)%nat -> 0 <= len < 256 ->
  (a + Z.to_nat len <= length m)%nat ->
  loop n (fun '(mem, CurrDataPos, Length) =>
    if 1 <? Length then
      Temp <- mlift (aget mem CurrDataPos);;
      other <- mlift (aget mem (CurrDataPos + Length - 1));;
      mem1 <- mlift (aset mem CurrDataPos other);;
      mem2 <- mlift (aset mem1 (CurrDataPos + Length - 1) Temp);;
      ret (inl (mem2, CurrDataPos + 1, u8 (Length - 2)))
    else ret (inr mem)) (m, Z.of_nat a, len) p w = Done (reversed_at a (Z.to_nat len) m) w.
Proof.
  induction n as [|n IH]; intros m a len Hn Hl Hm; [lia|]. cbn [loop]. unfold bind at 1.
  destruct (Z.ltb_spec 1 len) as [Hlt|Hge]; [|unfold ret; rewrite reversed_short by lia; done].
  destruct (split_ends m a (Z.to_nat len - 2)) as (A & x & mid & y & B & -> & Ha & Hmid); [lia|].
  pose proof (swap_round A mid B x y len p w ltac:(lia)) as Hr. cbv zeta in Hr. rewrite Ha in Hr.
  unfold bind in Hr |- *. repeat (destruct (mlift _ p _) as [? ?| |]; [|done..]). injection Hr as -> ->. unfold ret.
  rewrite u8_small by (unfold is_u8; lia). replace (Z.of_nat a + 1) with (Z.of_nat (a + 1)) by lia.
  rewrite IH; [|lia|lia|].
  - f_equal. rewrite <- Ha. replace (Z.to_nat (len - 2)) with (length mid) by lia.
    replace (Z.to_nat len) with (length mid + 2)%nat by lia. by rewrite reversed_ends.
  - rewrite !length_app in *. cbn in *. rewrite !length_app in *. cbn in *. lia.
Qed.
End SwapNProof.

(** Byte swapping reverses bytes.  [SwapEndian_n] reverses exactly the
    [Length] bytes it is given, of any length up to 255, odd ones included,
    touches no byte around them, and ends; the 16- and 32-bit functions, which
    use a macro of masks and shifts or exchange bytes of a union depending on
    what the compiler knows, both compute the value with the bytes reversed, so
    that [be16_to_cpu] and [be32_to_cpu] read big-endian data. *)
Theorem swap_endian_reverses {G} mem (a : nat) len p (w : world G) :
  0 <= len < 256 -> (a + Z.to_nat len <= length mem)%nat -> (Z.to_nat len < fuel p)%nat ->
  SwapEndian_n mem (Z.of_nat a) len p w = Done (reversed_at a (Z.to_nat len) mem) w /\
  (forall constant x, is_u16 x -> SwapEndian_16 constant x = of_le_bytes (reverse (le_bytes 2 x))) /\
  (forall constant x, is_u32 x -> SwapEndian_32 constant x = of_le_bytes (reverse (le_bytes 4 x))) /\
  (forall constant bs, Forall is_u8 bs -> length bs = 2%nat ->
     be16_to_cpu constant (of_le_bytes bs) = of_le_bytes (reverse bs)) /\
  (forall constant bs, Forall is_u8 bs -> length bs = 4%nat ->
     be32_to_cpu constant (of_le_bytes bs) = of_le_bytes (reverse bs)).
Proof.
  intros Hl Hm Hf.
  assert (forall constant x, is_u16 x -> SwapEndian_16 constant x = of_le_bytes (reverse (le_bytes 2 x))) as H16
    by (intros [|] x Hx; [by apply swap16_macro|done]).
  assert (forall constant x, is_u32 x -> SwapEndian_32 constant x = of_le_bytes (reverse (le_bytes 4 x))) as H32
    by (intros [|] x Hx; [by apply swap32_macro|done]).
  split_and!; [|done|done| |].
  - unfold SwapEndian_n, while_, bind at 1, mfuel. by apply swap_loop.
  - intros c bs Hb Hbs. pose proof (of_le_bytes_range bs Hb) as Hr. rewrite Hbs in Hr. unfold be16_to_cpu.
    rewrite H16 by done. rewrite <- Hbs, le_bytes_of_le by done. done.
  - intros c bs Hb Hbs. pose proof (of_le_bytes_range bs Hb) as Hr. rewrite Hbs in Hr. unfold be32_to_cpu.
    rewrite H32 by done. rewrite <- Hbs, le_bytes_of_le by done. done.
Qed.

Lemma swap_endian_reverses_witness :
  SwapEndian_n [9; 1; 2; 3; 4; 5; 9] 1 5 {| respond := fun _ _ => 0; fuel := 6 |} (World tt [])
    = Done [9; 5; 4; 3; 2; 1; 9] (World tt []) /\ be32_to_cpu false 0x04030201 = 0x01020304.
Proof.
  destruct (swap_endian_reverses [9; 1; 2; 3; 4; 5; 9] 1 5 {| respond := fun _ _ => 0; fuel := 6 |} (World tt []))
    as (H1 & _ & _ & _ & H2); [lia|by apply (bool_decide_unpack _)|cbn; lia|].
  split; [exact H1|]. apply (H2 false [1; 2; 3; 4]); [by apply (bool_decide_unpack _)|reflexivity].
Defined.

(** [BitReverse] mirrors the bits of every byte, and is its own inverse. *)
Theorem bit_reverse_mirrors x : is_u8 x ->
  (forall i, 0 <= i < 8 -> Z.testbit (BitReverse x) i = Z.testbit x (7 - i)) /\ BitReverse (BitReverse x) = x.
Proof.
  intros Hx. set (P := fun x => forallb (fun i => Bool.eqb (Z.testbit (BitReverse x) i) (Z.testbit x (7 - i))) (Z.of_nat <$> seq 0 8)
    && (BitReverse (BitReverse x) =? x)).
  assert (forallb P (Z.of_nat <$> seq 0 256) = true) as Hall by (by vm_compute).
  pose proof (forallb_range P 256 Hall x Hx) as HP. unfold P in HP. apply andb_true_iff in HP as [H1 H2]. split; [|lia].
  intros i Hi. apply Bool.eqb_prop. exact (forallb_range _ 8 H1 i Hi).
Qed.

Lemma bit_reverse_mirrors_witness : BitReverse (BitReverse 0x35) = 0x35 /\ BitReverse 0x35 = 0xAC.
Proof.
  split; [|reflexivity]. refine (proj2 (bit_reverse_mirrors 0x35 _)). unfold is_u8. lia.
Defined.
