(* ===== verification/RingBuffer.v ===== *)
(** * The ring buffer of LUFA (Drivers/Misc/RingBuffer.h)

    A byte queue over an array, with one writer and one reader that may be
    different threads of execution: the main program and an interrupt handler.
    The operations are programs over the buffer structure and the array; each
    is made of the accesses its C statements make, so that [Interleaved] can run
    a writer and a reader against each other, access by access. *)

From S2P Require Import Prelude StdDescriptors Machine UsbCore.

(** Pointers are offsets into the memory that holds the array. *)
Record RingBuffer_t := RingBuffer {
  In : Z; Out : Z; Start : Z; End_ : Z; Size : Z; Count : Z
}.

(** The structure and the memory its pointers point into. *)
Record rb := Rb { Buffer : RingBuffer_t; Memory : list Z }.

Definition set_In (x : Z) (s : rb) : rb :=
  let r := Buffer s in Rb (RingBuffer x (Out r) (Start r) (End_ r) (Size r) (Count r)) (Memory s).
Definition set_Out (x : Z) (s : rb) : rb :=
  let r := Buffer s in Rb (RingBuffer (In r) x (Start r) (End_ r) (Size r) (Count r)) (Memory s).
Definition set_Count (x : Z) (s : rb) : rb :=
  let r := Buffer s in Rb (RingBuffer (In r) (Out r) (Start r) (End_ r) (Size r) x) (Memory s).

(** ** The accesses *)

(** [*Buffer->In = Data]; [None] outside the memory. *)
Definition store_in (Data : Z) (s : rb) : option rb :=
  m ← aset (Memory s) (In (Buffer s)) (u8 Data); Some (Rb (Buffer s) m).
(** [*Buffer->Out] *)
Definition load_out (s : rb) : option Z := aget (Memory s) (Out (Buffer s)).
(** [if (++Buffer->In == Buffer->End) Buffer->In = Buffer->Start;] *)
Definition advance (r : RingBuffer_t) (x : Z) : Z := if x + 1 =? End_ r then Start r else x + 1.
Definition advance_in (s : rb) : rb := set_In (advance (Buffer s) (In (Buffer s))) s.
Definition advance_out (s : rb) : rb := set_Out (advance (Buffer s) (Out (Buffer s))) s.
Definition count_up (s : rb) : rb := set_Count (u16 (Count (Buffer s) + 1)) s.
Definition count_down (s : rb) : rb := set_Count (u16 (Count (Buffer s) - 1)) s.

(** ** The operations *)

(** An access with interrupts disabled. *)
Definition atomically {A} (m : M rb A) : M rb A :=
  CurrentGlobalInt <- GetGlobalInterruptMask;;
  GlobalInterruptDisable;;;
  a <- m;;
  SetGlobalInterruptMask CurrentGlobalInt;;;
  ret a.

Definition RingBuffer_InitBuffer (DataPtr Size : Z) : M rb unit :=
  atomically (mmodify (fun s => Rb (RingBuffer DataPtr DataPtr DataPtr (DataPtr + Size) Size 0) (Memory s))).

Definition RingBuffer_GetCount : M rb Z := atomically (s <- mget;; ret (Count (Buffer s))).

Definition RingBuffer_GetFreeCount : M rb Z :=
  s <- mget;; n <- RingBuffer_GetCount;; ret (u16 (Size (Buffer s) - n)).

Definition RingBuffer_IsEmpty : M rb bool := n <- RingBuffer_GetCount;; ret (n =? 0).

Definition RingBuffer_IsFull : M rb bool :=
  n <- RingBuffer_GetCount;; s <- mget;; ret (n =? Size (Buffer s)).

Definition RingBuffer_Insert (Data : Z) : M rb unit :=
  s <- mget;;
  s1 <- mlift (store_in Data s);;
  mmodify (fun _ => s1);;;
  mmodify advance_in;;;
  atomically (mmodify count_up).

Definition RingBuffer_Remove : M rb Z :=
  s <- mget;;
  Data <- mlift (load_out s);;
  mmodify advance_out;;;
  atomically (mmodify count_down);;;
  ret Data.

Definition RingBuffer_Peek : M rb Z := s <- mget;; mlift (load_out s).

(** ** A writer and a reader *)

Module Interleaved.

(** Where the writer and the reader are in their operations; both test before
    they start, the writer with [RingBuffer_IsFull] and the reader with
    [RingBuffer_IsEmpty]. *)
Inductive wpc := WIdle | WStore (d : Z) | WAdvance (d : Z) | WCount (d : Z).
Inductive rpc := RIdle | RLoad | RAdvance (v : Z) | RCount (v : Z).

Record sys := Sys { writer : wpc; reader : rpc; shared : rb }.

Inductive label := Inserted (d : Z) | Removed (v : Z) | Silent | Fault_.

(** [None] is an access outside the memory. *)
Inductive step : sys -> label -> option sys -> Prop :=
  | w_test r s d : Count (Buffer s) <> Size (Buffer s) -> is_u8 d ->
      step (Sys WIdle r s) Silent (Some (Sys (WStore d) r s))
  | w_store r s d s' : store_in d s = Some s' -> step (Sys (WStore d) r s) Silent (Some (Sys (WAdvance d) r s'))
  | w_fault r s d : store_in d s = None -> step (Sys (WStore d) r s) Fault_ None
  | w_advance r s d : step (Sys (WAdvance d) r s) Silent (Some (Sys (WCount d) r (advance_in s)))
  | w_count r s d : step (Sys (WCount d) r s) (Inserted d) (Some (Sys WIdle r (count_up s)))
  | r_test w s : Count (Buffer s) <> 0 -> step (Sys w RIdle s) Silent (Some (Sys w RLoad s))
  | r_load w s v : load_out s = Some v -> step (Sys w RLoad s) Silent (Some (Sys w (RAdvance v) s))
  | r_fault w s : load_out s = None -> step (Sys w RLoad s) Fault_ None
  | r_advance w s v : step (Sys w (RAdvance v) s) Silent (Some (Sys w (RCount v) (advance_out s)))
  | r_count w s v : step (Sys w (RCount v) s) (Removed v) (Some (Sys w RIdle (count_down s))).

Inductive run (s0 : sys) : list label -> option sys -> Prop :=
  | run_nil : run s0 [] (Some s0)
  | run_snoc tr s lb s' : run s0 tr (Some s) -> step s lb s' -> run s0 (tr ++ [lb]) s'.

Definition inserted (tr : list label) : list Z :=
  omap (fun lb => match lb with Inserted d => Some d | _ => None end) tr.
Definition removed (tr : list label) : list Z :=
  omap (fun lb => match lb with Removed v => Some v | _ => None end) tr.
End Interleaved.

(** ** Places in the array *)

(** Where the [k]-th byte ever inserted is stored. *)
Definition slot (r : RingBuffer_t) (k : nat) : Z := Start r + Z.of_nat k mod Size r.

Definition layout (r : RingBuffer_t) (m : list Z) : Prop :=
  0 < Size r < 65536 /\ 0 <= Start r /\ End_ r = Start r + Size r /\ End_ r <= Z.of_nat (length m).

Section Slots.
Context (r : RingBuffer_t) (m : list Z) (Hl : layout r m).

Lemma slot_range k : 0 <= slot r k < Z.of_nat (length m).
Proof.
  destruct Hl as (Hs & H0 & He & Hm). unfold slot. pose proof (Z.mod_pos_bound (Z.of_nat k) (Size r)). lia.
Qed.

Lemma advance_slot k : advance r (slot r k) = slot r (S k).
Proof.
  destruct Hl as (Hs & H0 & He & Hm). unfold advance, slot. rewrite He, Nat2Z.inj_succ, <- Z.add_1_r.
  pose proof (Z.mod_pos_bound (Z.of_nat k) (Size r)) as Hb. set (q := Z.of_nat k mod Size r) in *.
  assert (Z.of_nat k = Size r * (Z.of_nat k / Size r) + q) as Hk by (apply Z.div_mod; lia).
  destruct (Z.eqb_spec (Start r + q + 1) (Start r + Size r)) as [E|E].
  - replace (Z.of_nat k + 1) with ((Z.of_nat k / Size r + 1) * Size r) by lia. rewrite Z.mod_mul by lia. lia.
  - rewrite <- (Z.mod_unique_pos (Z.of_nat k + 1) (Size r) (Z.of_nat k / Size r) (q + 1)) by lia. lia.
Qed.

Lemma slot_inj k k' : slot r k = slot r k' -> (k < k')%nat -> Z.of_nat (k' - k) < Size r -> False.
Proof.
  destruct Hl as (Hs & _). unfold slot. intros E Hlt Hd.
  assert (Z.of_nat k mod Size r = Z.of_nat k' mod Size r) as E' by lia.
  pose proof (Z.div_mod (Z.of_nat k) (Size r)) as D. pose proof (Z.div_mod (Z.of_nat k') (Size r)) as D'. rewrite E' in D.
  set (q := Z.of_nat k / Size r) in *. set (q' := Z.of_nat k' / Size r) in *.
  assert (Z.of_nat (k' - k) = Size r * (q' - q)) as Ed by lia. destruct (decide (q' - q <= 0)); nia.
Qed.
End Slots.

Lemma aset_aget (m m' : list Z) i j x : aset m i x = Some m' ->
  aget m' j = if decide (j = i) then Some x else aget m j.
Proof.
  unfold aset, aget. case_decide as Hi; [|done]. intros [= <-]. case_decide as Hj; [|by rewrite decide_False by lia].
  case_decide as E; [subst; by rewrite list_lookup_insert_eq by lia|]. by rewrite list_lookup_insert_ne by lia.
Qed.

Module QueueProof.
Import Interleaved.

(** The writer has moved [In], the reader has moved [Out]. *)
Definition moved_in (w : wpc) : nat := match w with WCount _ => 1 | _ => 0 end.
Definition moved_out (x : rpc) : nat := match x with RCount _ => 1 | _ => 0 end.

(** [ins] inserted and [h] removed so far. *)
Record inv (ins : list Z) (h : nat) (s : sys) : Prop := {
  inv_layout : layout (Buffer (shared s)) (Memory (shared s));
  inv_window : (h <= length ins)%nat /\ Z.of_nat (length ins - h) <= Size (Buffer (shared s));
  inv_count : Count (Buffer (shared s)) = Z.of_nat (length ins - h);
  inv_in : In (Buffer (shared s)) = slot (Buffer (shared s)) (length ins + moved_in (writer s));
  inv_out : Out (Buffer (shared s)) = slot (Buffer (shared s)) (h + moved_out (reader s));
  inv_bytes : forall k x, (h <= k)%nat -> ins !! k = Some x -> aget (Memory (shared s)) (slot (Buffer (shared s)) k) = Some x;
  inv_writer : match writer s with
    | WIdle => True
    | WStore d => is_u8 d /\ Z.of_nat (length ins - h) < Size (Buffer (shared s))
    | WAdvance d | WCount d => Z.of_nat (length ins - h) < Size (Buffer (shared s)) /\
        aget (Memory (shared s)) (slot (Buffer (shared s)) (length ins)) = Some d
    end;
  inv_reader : match reader s with
    | RIdle => True
    | RLoad => (h < length ins)%nat
    | RAdvance v | RCount v => ins !! h = Some v
    end
}.

(** What one label does to the bytes inserted and the number removed. *)
Definition after (ins : list Z) (h : nat) (lb : label) : list Z * nat :=
  match lb with Inserted d => (ins ++ [d], h) | Removed _ => (ins, S h) | _ => (ins, h) end.

(** The byte stored goes into a slot outside the window. *)
Lemma inv_store ins h r s d s' : store_in d s = Some s' -> inv ins h (Sys (WStore d) r s) -> inv ins h (Sys (WAdvance d) r s').
Proof.
  unfold store_in. intros Hst [Hl Hw Hc Hi Ho Hb Hwr Hrd]. cbn [writer reader shared moved_in moved_out] in *.
  destruct (aset _ _ _) as [m|] eqn:Es; [|done]. injection Hst as <-.
  destruct Hwr as [Hd Hlt]. rewrite u8_small in Es by done. rewrite Nat.add_0_r in Hi. rewrite Hi in Es.
  constructor; cbn [writer reader shared Buffer Memory moved_in]; try done.
  - unfold layout. by rewrite (aset_length _ _ _ _ Es).
  - by rewrite Nat.add_0_r.
  - intros k x Hk Hx. rewrite (aset_aget _ _ _ _ _ Es), decide_False; [by apply Hb|].
    intros E. apply lookup_lt_Some in Hx as Hlt'. by eapply (slot_inj _ _ Hl k (length ins)); [done|done|lia].
  - split; [done|]. by rewrite (aset_aget _ _ _ _ _ Es), decide_True.
Qed.

Lemma queue_inv_step ins h s lb o : inv ins h s -> step s lb o ->
  let '(ins', h') := after ins h lb in
  (forall v, lb = Removed v -> ins !! h = Some v) /\ exists s', o = Some s' /\ inv ins' h' s'.
Proof.
  intros [Hl Hw Hc Hi Ho Hb Hwr Hrd] Hstep. pose proof Hl as (Hs & H0 & He & Hm).
  destruct Hstep as [r s d Hf Hd|r s d s' Hst|r s d Hst|r s d|r s d|w s Hne|w s v Hld|w s Hld|w s v|w s v];
    cbn [writer reader shared moved_in moved_out after] in *; split; try (by intros v' [=]).
  - eexists. split; [done|]. constructor; cbn; try done. split; [done|lia].
  - eexists. split; [done|]. by apply inv_store with s.
  - exfalso. unfold store_in in Hst. rewrite Hi, aset_Some in Hst by (by apply slot_range). done.
  - eexists. split; [done|]. constructor; cbn; try done. rewrite Hi, (advance_slot _ _ Hl).
    unfold slot. cbn. do 3 f_equal. lia.
  - destruct Hwr as [Hlt Hd]. eexists. split; [done|]. constructor; cbn; rewrite ?length_app; cbn; try done.
    + lia.
    + rewrite Hc, u16_small by (unfold is_u16; lia). lia.
    + rewrite Hi. unfold slot. cbn. do 3 f_equal. lia.
    + intros k x Hk Hx. apply lookup_app_Some in Hx as [Hx|[Hge Hx]]; [by apply Hb|].
      destruct (k - length ins)%nat eqn:E; [|done]. injection Hx as <-. replace k with (length ins) by lia. done.
    + destruct r; [done|lia|by apply lookup_app_l_Some..].
  - eexists. split; [done|]. constructor; cbn; try done. lia.
  - eexists. split; [done|]. constructor; cbn; try done.
    unfold load_out in Hld. rewrite Ho, Nat.add_0_r in Hld. destruct (lookup_lt_is_Some_2 ins h) as [x Hx]; [lia|].
    rewrite (Hb h x) in Hld by done. congruence.
  - exfalso. unfold load_out in Hld. rewrite Ho in Hld.
    destruct (aget_Some (Memory s) _ (slot_range _ _ Hl (h + 0))) as [x Hx]. congruence.
  - eexists. split; [done|]. constructor; cbn; try done. rewrite Ho, (advance_slot _ _ Hl).
    unfold slot. cbn. do 3 f_equal. lia.
  - by intros v' [= <-].
  - apply lookup_lt_Some in Hrd as Hlt. eexists. split; [done|]. constructor; cbn; try done.
    + lia.
    + rewrite Hc, u16_small by (unfold is_u16; lia). lia.
    + rewrite Ho. unfold slot. cbn. do 3 f_equal. lia.
    + intros k x Hk Hx. apply Hb; [lia|done].
    + destruct w; [done|split; [apply Hwr|lia]|split; [lia|apply Hwr]..].
Qed.
End QueueProof.

Section RingTheorems.
Import Interleaved QueueProof.

Lemma queue_inv_run s0 tr o : inv [] 0 s0 -> run s0 tr o ->
  exists s, o = Some s /\ inv (inserted tr) (length (removed tr)) s /\
    removed tr = take (length (removed tr)) (inserted tr).
Proof.
  intros Hi. induction 1 as [|tr s lb s' _ IH Hstep]; [by exists s0|].
  destruct IH as (s1 & [= <-] & Hinv & Hrm). pose proof (queue_inv_step _ _ _ _ _ Hinv Hstep) as Hs.
  pose proof (inv_window _ _ _ Hinv) as [Hle _].
  unfold inserted, removed in *. rewrite !omap_app. destruct lb as [d|v| |]; cbn [after omap list_omap] in Hs |- *;
    rewrite ?app_nil_r; destruct Hs as (Hv & s2 & -> & Hinv'); exists s2; (split; [done|]); (split; [|]).
  - done.
  - rewrite take_app_le by done. done.
  - rewrite length_app. cbn. by rewrite Nat.add_1_r.
  - rewrite length_app. cbn. rewrite Nat.add_1_r. rewrite (take_S_r _ _ v) by (by apply Hv). by rewrite <- Hrm.
  - done.
  - done.
  - done.
  - done.
Qed.

(** The queue a buffer at rest holds. *)
Definition holds (s : rb) (q : list Z) : Prop :=
  exists ins h, inv ins h (Sys WIdle RIdle s) /\ drop h ins = q.

(** What [RingBuffer_InitBuffer] leaves. *)
Definition fresh (DataPtr Size : Z) (mem : list Z) : rb := Rb (RingBuffer DataPtr DataPtr DataPtr (DataPtr + Size) Size 0) mem.

Lemma fresh_inv DataPtr Size mem : 0 < Size < 65536 -> 0 <= DataPtr -> DataPtr + Size <= Z.of_nat (length mem) ->
  inv [] 0 (Sys WIdle RIdle (fresh DataPtr Size mem)).
Proof.
  intros. constructor; cbn; try done; unfold slot, layout; cbn; rewrite ?Z.mod_0_l by lia; lia.
Qed.

Lemma holds_count s q : holds s q -> Count (Buffer s) = Z.of_nat (length q) /\ Z.of_nat (length q) <= Size (Buffer s) /\
  0 < Size (Buffer s) < 65536.
Proof.
  intros (ins & h & [Hl Hw Hc _ _ _ _ _] & <-). rewrite length_drop. cbn in *. destruct Hl as (? & _). lia.
Qed.

Lemma holds_insert s q d : holds s q -> is_u8 d -> Z.of_nat (length q) < Size (Buffer s) ->
  exists s1, store_in d s = Some s1 /\ holds (count_up (advance_in s1)) (q ++ [d]).
Proof.
  intros Hq Hd Hlt. pose proof (holds_count s q Hq) as (Hc & _). destruct Hq as (ins & h & Hi & <-).
  destruct (queue_inv_step _ _ _ _ _ Hi (w_test RIdle s d ltac:(lia) Hd)) as (_ & s1 & [= <-] & H1).
  destruct (store_in d s) as [s1|] eqn:Es.
  - exists s1. split; [done|].
    destruct (queue_inv_step _ _ _ _ _ H1 (w_store RIdle s d s1 Es)) as (_ & s2 & [= <-] & H2).
    destruct (queue_inv_step _ _ _ _ _ H2 (w_advance RIdle s1 d)) as (_ & s3 & [= <-] & H3).
    destruct (queue_inv_step _ _ _ _ _ H3 (w_count RIdle (advance_in s1) d)) as (_ & s4 & [= <-] & H4).
    exists (ins ++ [d]), h. split; [done|]. apply drop_app_le, (inv_window _ _ _ Hi).
  - by destruct (queue_inv_step _ _ _ _ _ H1 (w_fault RIdle s d Es)) as (_ & s2 & ? & _).
Qed.

Lemma holds_remove s v q : holds s (v :: q) -> load_out s = Some v /\ holds (count_down (advance_out s)) q.
Proof.
  intros Hq. pose proof (holds_count s (v :: q) Hq) as (Hc & _). destruct Hq as (ins & h & Hi & Hdr).
  assert (ins !! h = Some v) as Hv by (by rewrite <- (Nat.add_0_r h), <- lookup_drop, Hdr).
  destruct (queue_inv_step _ _ _ _ _ Hi (r_test WIdle s ltac:(cbn in Hc; lia))) as (_ & s1 & [= <-] & H1).
  destruct (load_out s) as [x|] eqn:El.
  - destruct (queue_inv_step _ _ _ _ _ H1 (r_load WIdle s x El)) as (_ & s2 & [= <-] & H2).
    pose proof (inv_reader _ _ _ H2) as Hx. cbn in Hx. assert (x = v) as -> by congruence. split; [done|].
    destruct (queue_inv_step _ _ _ _ _ H2 (r_advance WIdle s v)) as (_ & s3 & [= <-] & H3).
    destruct (queue_inv_step _ _ _ _ _ H3 (r_count WIdle (advance_out s) v)) as (_ & s4 & [= <-] & H4).
    exists ins, (S h). split; [done|]. rewrite <- Nat.add_1_r, <- drop_drop, Hdr. done.
  - by destruct (queue_inv_step _ _ _ _ _ H1 (r_fault WIdle s El)) as (_ & s2 & ? & _).
Qed.

(** ** The operations *)

(** Interrupts end up as they were: the last access writes back the mask that
    was read first. *)
Definition restores (p : platform) (h h' : log) : Prop :=
  exists new, h' = Wr SREG (u8 (respond p h SREG)) :: new ++ h.

Lemma wp_atomically {A} nf (m : M rb A) p Q w :
  (forall h, wp nf m (fun a w' => hist w' = h /\ forall h2, restores p (hist w) h2 -> Q a (World (st w') h2)) p (World (st w) h)) ->
  wp nf (atomically m) Q p w.
Proof.
  intros Hm. unfold atomically, GetGlobalInterruptMask, GlobalInterruptDisable, SetGlobalInterruptMask.
  apply wp_bind, wp_rd. intros v ->. apply wp_bind, wp_reg_andn. intros v' _. cbn [st hist].
  apply wp_bind. eapply wp_mono; [apply Hm|]. intros a w' [Hh HQ]. apply wp_bind, wp_wr, wp_ret. rewrite Hh. apply HQ.
  cbn [reg_wrap]. rewrite (u8_small (u8 _)) by apply u8_range. by eexists [_; _; _].
Qed.

Lemma wp_count nf p Q w :
  (forall h', restores p (hist w) h' -> Q (Count (Buffer (st w))) (World (st w) h')) -> wp nf RingBuffer_GetCount Q p w.
Proof.
  intros HQ. apply wp_atomically. intros h. apply wp_bind, wp_get, wp_ret. cbn. by split.
Qed.

(** On its own, the ring buffer is a bounded queue of bytes.
    Initialisation empties it; [RingBuffer_Insert] on a buffer that is not full
    appends; [RingBuffer_Remove] on one that is not empty takes the oldest byte
    and [RingBuffer_Peek] shows it; the counts and the two tests tell its
    length.  Nothing is accessed outside the array, and each operation leaves
    the interrupt mask as it found it. *)
Theorem ring_buffer_is_queue p w q : holds (st w) q ->
  let n := Z.of_nat (length q) in let size := Size (Buffer (st w)) in
  (forall d, is_u8 d -> n < size -> wp False (RingBuffer_Insert d)
     (fun _ w' => holds (st w') (q ++ [d]) /\ restores p (hist w) (hist w')) p w) /\
  (forall v q', q = v :: q' -> wp False RingBuffer_Remove
     (fun x w' => x = v /\ holds (st w') q' /\ restores p (hist w) (hist w')) p w /\ RingBuffer_Peek p w = Done v w) /\
  wp False RingBuffer_GetCount (fun c w' => c = n /\ st w' = st w /\ restores p (hist w) (hist w')) p w /\
  wp False RingBuffer_GetFreeCount (fun c w' => c = size - n /\ st w' = st w) p w /\
  wp False RingBuffer_IsEmpty (fun e w' => e = bool_decide (q = []) /\ st w' = st w) p w /\
  wp False RingBuffer_IsFull (fun e w' => e = bool_decide (n = size) /\ st w' = st w) p w /\
  (forall DataPtr Size, 0 < Size < 65536 -> 0 <= DataPtr -> DataPtr + Size <= Z.of_nat (length (Memory (st w))) ->
     wp False (RingBuffer_InitBuffer DataPtr Size)
       (fun _ w' => st w' = fresh DataPtr Size (Memory (st w)) /\ holds (st w') [] /\ restores p (hist w) (hist w')) p w).
Proof.
  intros Hq n size. pose proof (holds_count _ _ Hq) as (Hc & Hle & Hs). fold n size in Hc, Hle, Hs. split_and!.
  - intros d Hd Hlt. destruct (holds_insert _ _ d Hq Hd Hlt) as (s1 & E & H'). unfold RingBuffer_Insert.
    apply wp_bind, wp_get, wp_bind. eapply wp_lift; [done|]. apply wp_bind, wp_modify, wp_bind, wp_modify.
    apply wp_atomically. intros h. apply wp_modify. split; [done|]. intros h2 Hh2. by split.
  - intros v q' ->. destruct (holds_remove _ _ _ Hq) as [E H']. split.
    + unfold RingBuffer_Remove. apply wp_bind, wp_get, wp_bind. eapply wp_lift; [done|]. apply wp_bind, wp_modify, wp_bind.
      apply wp_atomically. intros h. apply wp_modify. split; [done|]. intros h2 Hh2. by apply wp_ret.
    + unfold RingBuffer_Peek, bind, mget. by rewrite E.
  - apply wp_count. intros h' Hh'. by rewrite Hc.
  - apply wp_bind, wp_get, wp_bind, wp_count. intros h' _. apply wp_ret. rewrite Hc. fold size. split; [|done]. by rewrite u16_small by (unfold is_u16; lia).
  - apply wp_bind, wp_count. intros h' _. apply wp_ret. split; [|done]. rewrite Hc. unfold n. by destruct q.
  - apply wp_bind, wp_count. intros h' _. apply wp_bind, wp_get, wp_ret. split; [|done]. cbn [st]. rewrite Hc. fold size.
    case_bool_decide; lia.
  - intros dp sz H1 H2 H3. apply wp_atomically. intros h. apply wp_modify. split; [done|]. intros h2 Hh2. cbn.
    split; [done|]. split; [|done]. exists [], 0%nat. split; [by apply fresh_inv|done].
Qed.

Lemma size_run s0 tr o : run s0 tr o -> forall s, o = Some s -> Size (Buffer (shared s)) = Size (Buffer (shared s0)).
Proof.
  induction 1 as [|tr s lb s' _ IH Hstep]; [by intros s [= <-]|]. specialize (IH s eq_refl).
  intros s2 ->. inversion Hstep; subst; cbn in *; try done.
  unfold store_in in *. by destruct (aset _ _ _); simplify_eq/=.
Qed.

(** C22: one writer and one reader share a ring buffer without locks.  In every
    interleaving of their accesses, a writer that inserts only after
    [RingBuffer_IsFull] said no and a reader that removes only after
    [RingBuffer_IsEmpty] said no never access memory outside the array; the
    bytes removed are exactly the first bytes inserted, in order; and the count
    is their difference, never above the size. *)
Theorem ring_buffer_interleaved DataPtr Size mem tr o :
  0 < Size < 65536 -> 0 <= DataPtr -> DataPtr + Size <= Z.of_nat (length mem) ->
  run (Sys WIdle RIdle (fresh DataPtr Size mem)) tr o ->
  exists s, o = Some s /\ (exists rest, inserted tr = removed tr ++ rest /\
    Count (Buffer (shared s)) = Z.of_nat (length rest) /\ Z.of_nat (length rest) <= Size).
Proof.
  intros H1 H2 H3 Hrun. destruct (queue_inv_run _ tr o (fresh_inv _ _ _ H1 H2 H3) Hrun) as (s & -> & Hi & Hr).
  exists s. split; [done|]. exists (drop (length (removed tr)) (inserted tr)). rewrite length_drop.
  pose proof (inv_window _ _ _ Hi) as [Hw Hz]. pose proof (inv_count _ _ _ Hi) as Hc.
  split; [rewrite Hr at 1; by rewrite take_drop|]. split; [lia|].
  rewrite (size_run _ _ _ Hrun s eq_refl) in Hz. cbn in Hz. lia.
Qed.
End RingTheorems.

(** ** Concrete runs *)

Lemma ring_buffer_is_queue_witness :
  let p := {| respond := fun _ _ => 0x80; fuel := 0 |} in
  let w := World (fresh 1 2 [7; 0; 0; 7]) [] in
  wp False (RingBuffer_Insert 5) (fun _ w' => holds (st w') [5] /\ restores p [] (hist w')) p w.
Proof.
  intros p w. refine (proj1 (ring_buffer_is_queue p w [] _) 5 _ _).
  - exists [], 0%nat. split; [|reflexivity]. apply fresh_inv; cbn; lia.
  - unfold is_u8. lia.
  - cbn. lia.
Defined.

(** The writer stores its second byte while the reader is between taking the
    first and counting it out. *)
Import Interleaved.
Definition demo_trace : list label :=
  [Silent; Silent; Silent; Inserted 5; Silent; Silent; Silent; Silent; Silent; Silent; Removed 5; Inserted 6].

Lemma demo_interleaving : exists s, run (Sys WIdle RIdle (fresh 1 2 [7; 0; 0; 7])) demo_trace (Some s).
Proof.
  eexists. unfold demo_trace.
  change ([Silent; Silent; Silent; Inserted 5; Silent; Silent; Silent; Silent; Silent; Silent; Removed 5; Inserted 6]) with
    ((((((((((((([] ++ [Silent]) ++ [Silent]) ++ [Silent]) ++ [Inserted 5]) ++ [Silent]) ++ [Silent]) ++ [Silent]) ++ [Silent])
      ++ [Silent]) ++ [Silent]) ++ [Removed 5]) ++ [Inserted 6])).
  repeat (eapply run_snoc); [apply run_nil|..].
  - apply (w_test _ _ 5); [done|unfold is_u8; lia].
  - by apply w_store.
  - apply w_advance.
  - apply w_count.
  - by apply r_test.
  - by apply r_load.
  - apply r_advance.
  - apply (w_test _ _ 6); [done|unfold is_u8; lia].
  - by apply w_store.
  - apply w_advance.
  - apply r_count.
  - apply w_count.
Qed.

Lemma ring_buffer_interleaved_witness : exists s, run (Sys WIdle RIdle (fresh 1 2 [7; 0; 0; 7])) demo_trace (Some s) /\
  exists rest, inserted demo_trace = removed demo_trace ++ rest /\ Count (Buffer (shared s)) = Z.of_nat (length rest) /\
    Z.of_nat (length rest) <= 2.
Proof.
  destruct demo_interleaving as [s Hs]. exists s. split; [exact Hs|].
  destruct (ring_buffer_interleaved 1 2 [7; 0; 0; 7] demo_trace (Some s)) as (s' & [= <-] & H').
  - lia.
  - lia.
  - cbn. lia.
  - exact Hs.
  - exact H'.
Defined.
