(* ===== verification/HIDClassDevice.v ===== *)
(** * The HID class driver for devices (LUFA HIDClassDevice.c, HIDClassDevice.h)

    The driver keeps the state of one HID interface: the report of the previous
    frame, the protocol, and the idle period the host asked for.  The two
    callbacks are the application's and are parameters; the programs are
    polymorphic in the application's state, which holds the interface
    ([HidState]) and the USB objects ([UsbState]). *)

From S2P Require Import Prelude StdDescriptors HIDClass Descriptors Machine HIDParser UsbCore Endpoint EndpointStream DeviceStandardReq UsbController.

(** ** The interface *)

(** [PrevReportINBuffer] is the memory behind the pointer, [None] for [NULL]. *)
Record hid_config := HidConfig {
  InterfaceNumber : Z;
  ReportINEndpoint : USB_Endpoint_Table_t;
  PrevReportINBuffer : option (list Z);
  PrevReportINBufferSize : Z
}.
Record hid_state := HidStateOf {
  UsingReportProtocol : bool;
  PrevFrameNum : Z;
  IdleCount : Z;
  IdleMSRemaining : Z
}.
Record USB_ClassInfo_HID_Device_t := HidInfo { Config : hid_config; State : hid_state }.

Definition set_prev_report (b : option (list Z)) (i : USB_ClassInfo_HID_Device_t) : USB_ClassInfo_HID_Device_t :=
  HidInfo (HidConfig (InterfaceNumber (Config i)) (ReportINEndpoint (Config i)) b (PrevReportINBufferSize (Config i))) (State i).
Definition set_endpoint (e : USB_Endpoint_Table_t) (i : USB_ClassInfo_HID_Device_t) : USB_ClassInfo_HID_Device_t :=
  HidInfo (HidConfig (InterfaceNumber (Config i)) e (PrevReportINBuffer (Config i)) (PrevReportINBufferSize (Config i))) (State i).
Definition set_state (s : hid_state) (i : USB_ClassInfo_HID_Device_t) : USB_ClassInfo_HID_Device_t := HidInfo (Config i) s.
Definition set_protocol (b : bool) (s : hid_state) : hid_state :=
  HidStateOf b (PrevFrameNum s) (IdleCount s) (IdleMSRemaining s).
Definition set_prev_frame (f : Z) (s : hid_state) : hid_state :=
  HidStateOf (UsingReportProtocol s) f (IdleCount s) (IdleMSRemaining s).
Definition set_idle (n : Z) (s : hid_state) : hid_state :=
  HidStateOf (UsingReportProtocol s) (PrevFrameNum s) n (IdleMSRemaining s).
Definition set_idle_remaining (n : Z) (s : hid_state) : hid_state :=
  HidStateOf (UsingReportProtocol s) (PrevFrameNum s) (IdleCount s) n.

Class HidState (G : Type) := {
  hid : G -> USB_ClassInfo_HID_Device_t;
  put_hid : USB_ClassInfo_HID_Device_t -> G -> G
}.
Class HidStateOk (G : Type) `{UsbState G} `{HidState G} : Prop := {
  hid_put i g : hid (put_hid i g) = i;
  put_hid_put i i' g : put_hid i (put_hid i' g) = put_hid i g;
  usb_put_hid i g : usb (put_hid i g) = usb g;
  put_hid_same g : put_hid (hid g) g = g
}.

(** [memcpy(dst, src, n)] and [memcmp(a, b, n) != 0]; [None] outside an object. *)
Definition memcpy (dst src : list Z) (n : Z) : option (list Z) :=
  if decide (n <= Z.of_nat (length dst) /\ n <= Z.of_nat (length src))
  then Some (take (Z.to_nat n) src ++ drop (Z.to_nat n) dst) else None.
Definition memcmp_differ (a b : list Z) (n : Z) : option bool :=
  if decide (n <= Z.of_nat (length a) /\ n <= Z.of_nat (length b))
  then Some (negb (bool_decide (take (Z.to_nat n) a = take (Z.to_nat n) b))) else None.

Section Driver.
Context {G : Type} `{UsbState G} `{HidState G} `{Avr}.
(** The application's callbacks: report ID and type wanted and the zeroed buffer
    to fill, giving whether to force a transfer, the ID, the buffer and the
    report's size; and the processing of a report received. *)
Variable CALLBACK_HID_Device_CreateHIDReport : Z -> Z -> list Z -> M G (bool * Z * list Z * Z).
Variable CALLBACK_HID_Device_ProcessHIDReport : Z -> Z -> list Z -> Z -> M G unit.
(** The management task a data stream runs between packets. *)
Variable USB_USBTask : M G unit.
(** The contents of an uninitialised array of a given size. *)
Variable uninitialised : nat -> list Z.

Definition get_hid : M G USB_ClassInfo_HID_Device_t := g <- mget;; ret (hid g).
Definition mod_hid (f : USB_ClassInfo_HID_Device_t -> USB_ClassInfo_HID_Device_t) : M G unit :=
  mmodify (fun g => put_hid (f (hid g)) g).
Definition mod_state (f : hid_state -> hid_state) : M G unit := mod_hid (fun i => set_state (f (State i)) i).

(** The copy into [PrevReportINBuffer], unless it is null. *)
Definition save_report (ReportData : list Z) : M G unit :=
  i <- get_hid;;
  match PrevReportINBuffer (Config i) with
  | None => ret tt
  | Some prev =>
      prev' <- mlift (memcpy prev ReportData (PrevReportINBufferSize (Config i)));;
      mod_hid (set_prev_report (Some prev'))
  end.

(** ** Control requests *)

Definition hid_get_report (r : USB_Request_Header_t) : M G unit :=
  i <- get_hid;;
  x <- CALLBACK_HID_Device_CreateHIDReport (Z.land (wValue r) 0xFF) (u8 (Z.shiftr (wValue r) 8 - 1))
         (replicate (Z.to_nat (PrevReportINBufferSize (Config i))) 0);;
  let '(_, ReportID, ReportData, ReportSize) := x in
  save_report ReportData;;;
  Endpoint_SelectEndpoint ENDPOINT_CONTROLEP;;;
  Endpoint_ClearSETUP;;;
  when (negb (ReportID =? 0)) (Endpoint_Write_8 ReportID);;;
  Endpoint_Write_Control_Stream_LE ReportData ReportSize;;;
  Endpoint_ClearOUT.

Definition hid_set_report (r : USB_Request_Header_t) : M G unit :=
  let ReportSize := wLength r in
  let ReportID := Z.land (wValue r) 0xFF in
  let ReportType := u8 (Z.shiftr (wValue r) 8 - 1) in
  Endpoint_ClearSETUP;;;
  x <- Endpoint_Read_Control_Stream_LE (uninitialised (Z.to_nat ReportSize)) ReportSize;;
  let '(_, (ReportData, _)) := x in
  Endpoint_ClearIN;;;
  let off := if ReportID =? 0 then 0 else 1 in
  CALLBACK_HID_Device_ProcessHIDReport ReportID ReportType (drop (Z.to_nat off) ReportData) (u16 (ReportSize - off)).

(** The answer of one byte to GET_PROTOCOL and GET_IDLE. *)
Definition answer_byte (v : Z) : M G unit :=
  Endpoint_ClearSETUP;;;
  await_in;;;
  Endpoint_Write_8 v;;;
  Endpoint_ClearIN;;;
  Endpoint_ClearStatusStage.

(** The [switch] on the request. *)
Definition hid_request (r : USB_Request_Header_t) (i : USB_ClassInfo_HID_Device_t) : M G unit :=
  let to_host := bmRequestType r =? reqtype REQDIR_DEVICETOHOST REQTYPE_CLASS REQREC_INTERFACE in
  let to_device := bmRequestType r =? reqtype REQDIR_HOSTTODEVICE REQTYPE_CLASS REQREC_INTERFACE in
  if bRequest r =? HID_REQ_GetReport then when to_host (hid_get_report r)
  else if bRequest r =? HID_REQ_SetReport then when to_device (hid_set_report r)
  else if bRequest r =? HID_REQ_GetProtocol then
    when to_host (answer_byte (if UsingReportProtocol (State i) then 1 else 0))
  else if bRequest r =? HID_REQ_SetProtocol then
    when to_device (
      Endpoint_ClearSETUP;;;
      Endpoint_ClearStatusStage;;;
      mod_state (set_protocol (negb (Z.land (wValue r) 0xFF =? 0))))
  else if bRequest r =? HID_REQ_SetIdle then
    when to_device (
      Endpoint_ClearSETUP;;;
      Endpoint_ClearStatusStage;;;
      mod_state (set_idle (u16 (Z.shiftr (Z.land (wValue r) 0xFF00) 6))))
  else if bRequest r =? HID_REQ_GetIdle then
    when to_host (answer_byte (Z.shiftr (IdleCount (State i)) 2))
  else ret tt.

Definition HID_Device_ProcessControlRequest : M G unit :=
  setup <- Endpoint_IsSETUPReceived;;
  if negb setup then ret tt else
  r <- get_request;;
  i <- get_hid;;
  if negb (wIndex r =? InterfaceNumber (Config i)) then ret tt else
  hid_request r i.

(** ** Configuration and the report endpoint *)

Definition HID_Device_ConfigureEndpoints : M G bool :=
  mod_hid (set_state (HidStateOf true 0 500 0));;;
  mod_hid (fun i => let e := ReportINEndpoint (Config i) in
    set_endpoint (EndpointEntry (Entry_Address e) (Entry_Size e) EP_TYPE_INTERRUPT (Entry_Banks e)) i);;;
  i <- get_hid;;
  Endpoint_ConfigureEndpointTable [ReportINEndpoint (Config i)].

(** [USB_Options & USB_DEVICE_OPT_LOWSPEED], where the option exists. *)
Definition low_speed : bool :=
  match series with USB_SERIES_4_AVR => has_option USB_DEVICE_OPT_LOWSPEED | USB_SERIES_2_AVR => false end.

(** The comparison with the previous report, which is replaced. *)
Definition report_changed (ReportINData : list Z) (ReportINSize : Z) : M G bool :=
  i <- get_hid;;
  match PrevReportINBuffer (Config i) with
  | None => ret false
  | Some prev => mlift (memcmp_differ ReportINData prev ReportINSize)
  end.

(** The endpoint can take a packet: a report is made, and sent when it is due. *)
Definition report_opportunity (i : USB_ClassInfo_HID_Device_t) : M G unit :=
  x <- CALLBACK_HID_Device_CreateHIDReport 0 0 (replicate (Z.to_nat (PrevReportINBufferSize (Config i))) 0);;
  let '(ForceSend, ReportID, ReportINData, ReportINSize) := x in
  i' <- get_hid;;
  let IdlePeriodElapsed := negb (IdleCount (State i') =? 0) && (IdleMSRemaining (State i') =? 0) in
  StatesChanged <- report_changed ReportINData ReportINSize;;
  save_report ReportINData;;;
  when (negb (ReportINSize =? 0) && (ForceSend || StatesChanged || IdlePeriodElapsed)) (
    mod_state (set_idle_remaining (IdleCount (State i')));;;
    Endpoint_SelectEndpoint (Entry_Address (ReportINEndpoint (Config i')));;;
    when (negb (ReportID =? 0)) (Endpoint_Write_8 ReportID);;;
    Endpoint_Write_Stream_LE USB_USBTask ReportINData ReportINSize None;;;
    Endpoint_ClearIN);;;
  f' <- USB_Device_GetFrameNumber;;
  mod_state (set_prev_frame f').

Definition HID_Device_USBTask : M G unit :=
  configured <- is_DeviceState DEVICE_STATE_Configured;;
  if negb configured then ret tt else
  i <- get_hid;;
  f <- USB_Device_GetFrameNumber;;
  if (PrevFrameNum (State i) =? f) && negb low_speed then ret tt else
  Endpoint_SelectEndpoint (Entry_Address (ReportINEndpoint (Config i)));;;
  rw <- Endpoint_IsReadWriteAllowed;;
  when rw (report_opportunity i).

(** HIDClassDevice.h *)
Definition HID_Device_MillisecondElapsed : M G unit :=
  i <- get_hid;;
  when (negb (IdleMSRemaining (State i) =? 0)) (mod_state (set_idle_remaining (u16 (IdleMSRemaining (State i) - 1)))).
End Driver.

(** ** When a report is sent *)

Section Policy.
Context {G : Type} `{UsbStateOk G} `{!HidState G} `{!HidStateOk G} `{AvrOk}.
Context (process : Z -> Z -> list Z -> Z -> M G unit) (task : M G unit) (uninitialised : nat -> list Z).
Implicit Types w : world G.

(** A callback that builds the report from the objects, inside the buffer. *)
Context (create : Z -> Z -> list Z -> M G (bool * Z * list Z * Z)).
Context (make : G -> Z -> Z -> list Z -> bool * Z * list Z * Z).
Context (Hcreate : forall id ty buf p w, create id ty buf p w = Done (make (st w) id ty buf) w).

Definition report_wanted (g : G) (id ty : Z) : bool * Z * list Z * Z :=
  make g id ty (replicate (Z.to_nat (PrevReportINBufferSize (Config (hid g)))) 0).

Definition report_fits (g : G) (x : bool * Z * list Z * Z) : Prop :=
  let '(_, ReportID, data, size) := x in
  let n := PrevReportINBufferSize (Config (hid g)) in
  is_u8 n /\ is_u8 ReportID /\ Forall is_u8 data /\ Z.of_nat (length data) = n /\ 0 <= size <= n /\
  match PrevReportINBuffer (Config (hid g)) with Some prev => n <= Z.of_nat (length prev) | None => True end.

Definition changed (i : USB_ClassInfo_HID_Device_t) (data : list Z) (size : Z) : bool :=
  match PrevReportINBuffer (Config i) with
  | None => false
  | Some prev => negb (bool_decide (take (Z.to_nat size) data = take (Z.to_nat size) prev))
  end.
Definition idle_elapsed (s : hid_state) : bool := negb (IdleCount s =? 0) && (IdleMSRemaining s =? 0).
(** A report that is not empty is due when the application forces it, when it
    differs from the previous one, or when the idle period is over. *)
Definition report_due (i : USB_ClassInfo_HID_Device_t) (force : bool) (data : list Z) (size : Z) : bool :=
  negb (size =? 0) && (force || changed i data size || idle_elapsed (State i)).

(** The report with its ID, as the host sees it. *)
Definition report_bytes (ReportID : Z) (data : list Z) (size : Z) : list Z :=
  (if ReportID =? 0 then [] else [ReportID]) ++ take (Z.to_nat size) data.

(** The previous report is replaced. *)
Definition saved (data : list Z) (i : USB_ClassInfo_HID_Device_t) : USB_ClassInfo_HID_Device_t :=
  match PrevReportINBuffer (Config i) with
  | None => i
  | Some prev => set_prev_report (Some (data ++ drop (length data) prev)) i
  end.

Lemma memcmp_inside (a b : list Z) n : n <= Z.of_nat (length a) -> n <= Z.of_nat (length b) ->
  memcmp_differ a b n = Some (negb (bool_decide (take (Z.to_nat n) a = take (Z.to_nat n) b))).
Proof. intros. unfold memcmp_differ. by rewrite decide_True. Qed.

Lemma wp_get_hid nf p Q w : Q (hid (st w)) w -> wp nf get_hid Q p w.
Proof. intros HQ. by apply wp_bind, wp_get, wp_ret. Qed.

Lemma wp_changed nf p x Q w : report_fits (st w) x -> Q (changed (hid (st w)) x.1.2 x.2) w ->
  wp nf (report_changed x.1.2 x.2) Q p w.
Proof.
  destruct x as [[[f id] data] size]. cbn [fst snd]. intros (_ & _ & _ & Hl & Hs & Hp) HQ.
  unfold report_changed. apply wp_bind, wp_get_hid. unfold changed in HQ.
  destruct (PrevReportINBuffer (Config (hid (st w)))) as [prev|]; [|by apply wp_ret].
  eapply wp_lift; [apply memcmp_inside; lia|done].
Qed.

Lemma wp_save nf p x Q w : report_fits (st w) x ->
  Q tt (World (put_hid (saved x.1.2 (hid (st w))) (st w)) (hist w)) -> wp nf (save_report x.1.2) Q p w.
Proof.
  destruct x as [[[f id] data] size]. cbn [fst snd]. intros (_ & _ & _ & Hl & Hs & Hp) HQ.
  unfold save_report. apply wp_bind, wp_get_hid. unfold saved in HQ.
  destruct (PrevReportINBuffer (Config (hid (st w)))) as [prev|].
  - unfold memcpy. rewrite decide_True by lia. apply wp_bind, (wp_lift _ _ _ _ _ _ eq_refl).
    apply wp_modify. by rewrite take_ge, <- Hl, Nat2Z.id in * by lia.
  - rewrite put_hid_same in HQ. apply wp_ret. by destruct w.
Qed.

Lemma saved_state data i : State (saved data i) = State i /\ ReportINEndpoint (Config (saved data i)) = ReportINEndpoint (Config i).
Proof. unfold saved. by destruct (PrevReportINBuffer (Config i)). Qed.

(** Endpoint [ep], an IN endpoint, has room for [n] bytes: until a packet is
    handed over, and as long as [ep] is selected and fewer bytes are written. *)
Definition room_at (p : platform) (h0 : log) (ep : Z) (n : nat) : Prop := forall new,
  Forall (fun x => x.1 = UENUM \/ x.1 = UEDATX) (writes new) -> selected (new ++ h0) = ep ->
  (length (sent_data (writes new)) < n)%nat ->
  bit_tst (reg_wrap UECFG0X (respond p (new ++ h0) UECFG0X)) EPDIR = true /\
  bit_tst (reg_wrap UEINTX (respond p (new ++ h0) UEINTX)) TXINI = true /\
  bit_tst (reg_wrap UEINTX (respond p (new ++ h0) UEINTX)) RWAL = true.

Lemma room_in p h0 ep n new k : room_at p h0 ep n ->
  Forall (fun x => x.1 = UENUM \/ x.1 = UEDATX) (writes new) -> selected (new ++ h0) = ep ->
  (length (sent_data (writes new)) + k <= n)%nat -> in_room p k (new ++ h0).
Proof.
  intros Hroom Hw Hs Hn new' Hlog Hk. rewrite app_assoc. apply Hroom.
  - rewrite writes_app, (data_log_writes new' Hlog). apply Forall_app. split; [done|]. apply Forall_fmap, Forall_true. by right.
  - by rewrite <- app_assoc, data_log_selected.
  - rewrite writes_app, (data_log_writes new' Hlog). unfold sent_data in *. rewrite omap_app, length_app.
    fold (sent_data ((UEDATX,.) <$> written UEDATX new')). rewrite sent_data_puts. lia.
Qed.

(** The report goes out as one packet. *)
Lemma wp_send nf p id data size Q w : is_u8 id -> Forall is_u8 data -> 0 < size <= Z.of_nat (length data) -> size < 65536 ->
  (nf \/ (Z.to_nat size < fuel p)%nat) ->
  (forall k new, (k + Z.to_nat size <= length (report_bytes id data size))%nat -> data_log new ->
     (length (written UEDATX new) <= k)%nat -> in_room p (Z.to_nat size) (new ++ hist w)) ->
  (forall v v' w', cleared [TXINI; FIFOCON] v v' ->
     did w w' (st w) (((UEDATX,.) <$> report_bytes id data size) ++ [(UEINTX, v')]) -> Q tt w') ->
  wp nf (when (negb (id =? 0)) (Endpoint_Write_8 id);;;
         Endpoint_Write_Stream_LE task data size None;;; Endpoint_ClearIN) Q p w.
Proof.
  intros Hid Hd Hs Hw Hf Hroom HQ.
  set (pre := if id =? 0 then [] else [id]).
  assert (wp nf (when (negb (id =? 0)) (Endpoint_Write_8 id)) (fun _ w1 => w1 = World (st w) (rev ((fun b => Wr UEDATX b) <$> pre) ++ hist w)) p w) as Hpre.
  { unfold pre. destruct (id =? 0); cbn [negb when]; [by destruct w|]. unfold Endpoint_Write_8. apply wp_wr. cbn.
    by rewrite u8_small. }
  apply wp_bind. eapply wp_mono; [exact Hpre|]. intros [] w1 ->.
  assert (data_log (rev ((fun b => Wr UEDATX b) <$> pre)) /\ written UEDATX (rev ((fun b => Wr UEDATX b) <$> pre)) = pre) as [Hlog Hwp]
    by (unfold pre; destruct (id =? 0); split; [by repeat constructor|done|by repeat constructor|done]).
  set (h1 := rev _) in *. apply wp_bind. unfold Endpoint_Write_Stream_LE. change 0 with (Z.of_nat 0) at 1.
  rewrite <- (Z2Nat.id size) at 1 by lia.
  apply (wp_write_room _ _ _ data (Source0 := source_up data Hd)); [lia|lia| |done|].
  { cbn [hist]. apply (Hroom (length pre)); [|done|by rewrite Hwp]. unfold report_bytes. fold pre. rewrite length_app, length_take. lia. }
  intros new Hnew Hwr. cbn [st hist]. destruct flag_facts as ((B1 & _ & _ & B4) & _).
  apply clear_flags_did; [done|done|]. intros v v' w2 Hc _ D2. cbn [st] in D2. apply (HQ v v'); [done|].
  eapply did_trans; [|exact D2]. rewrite app_assoc. replace ((UEDATX,.) <$> report_bytes id data size) with (writes (new ++ h1)); [apply did_log|].
  rewrite data_log_writes by (by apply Forall_app). f_equal. unfold report_bytes. fold pre. unfold written in *.
  rewrite omap_app, rev_app_distr. by rewrite Hwp, Hwr.
Qed.

(** The number of the report endpoint. *)
Definition report_endpoint (g : G) : Z := Z.land (Entry_Address (ReportINEndpoint (Config (hid g)))) ENDPOINT_EPNUM_MASK.

Lemma report_endpoint_u8 g : u8 (report_endpoint g) = report_endpoint g.
Proof.
  apply u8_small. unfold report_endpoint, ENDPOINT_EPNUM_MASK. change 0x0F with (Z.ones 4). rewrite Z.land_ones by lia.
  change (2 ^ 4) with 16. unfold is_u8. pose proof (Z.mod_pos_bound (Entry_Address (ReportINEndpoint (Config (hid g)))) 16). lia.
Qed.

(** What an opportunity does with a report: the writes, and the interface
    afterwards. *)
Definition report_writes (ep : Z) (due : bool) (bytes : list Z) (ws : list (reg * Z)) : Prop :=
  if due then exists v v', cleared [TXINI; FIFOCON] v v' /\ ws = (UENUM, ep) :: ((UEDATX,.) <$> bytes) ++ [(UEINTX, v')]
  else ws = [].
Definition next_interface (due : bool) (f : Z) (data : list Z) (i : USB_ClassInfo_HID_Device_t) : USB_ClassInfo_HID_Device_t :=
  let s := State i in
  set_state (set_prev_frame f (if due then set_idle_remaining (IdleCount s) s else s)) (saved data i).

Lemma wp_mod_state nf p f Q w : Q tt (World (put_hid (set_state (f (State (hid (st w)))) (hid (st w))) (st w)) (hist w)) ->
  wp nf (mod_state f) Q p w.
Proof. done. Qed.

Lemma wp_opportunity nf p Q w :
  let x := report_wanted (st w) 0 0 in
  let '(force, ReportID, data, size) := x in
  let due := report_due (hid (st w)) force data size in
  let bytes := report_bytes ReportID data size in
  report_fits (st w) x -> (nf \/ (Z.to_nat size < fuel p)%nat) ->
  (forall rds, Forall is_read rds ->
     room_at p (rds ++ hist w) (report_endpoint (st w)) (length bytes)) ->
  (forall ws f w', report_writes (report_endpoint (st w)) due bytes ws -> is_u16 f ->
     did w w' (put_hid (next_interface due f data (hid (st w))) (st w)) ws -> Q tt w') ->
  wp nf (report_opportunity create task (hid (st w))) Q p w.
Proof.
  set (x := report_wanted (st w) 0 0). cbv zeta. destruct x as [[[force id] data] size] eqn:Ex. intros Hfit Hf Hroom HQ.
  unfold report_opportunity. apply wp_bind. unfold wp at 1. rewrite Hcreate. fold (report_wanted (st w) 0 0). fold x. rewrite Ex.
  apply wp_bind, wp_get_hid, wp_bind. apply (wp_changed nf p (force, id, data, size)); [done|]. cbn [fst snd].
  apply wp_bind. apply (wp_save nf p (force, id, data, size)); [done|]. cbn [fst snd].
  fold (idle_elapsed (State (hid (st w)))). fold (report_due (hid (st w)) force data size).
  set (due := report_due (hid (st w)) force data size) in *. set (g1 := put_hid _ _). set (i1 := saved data (hid (st w))) in *.
  assert (hid g1 = i1) as Hi1 by apply hid_put. destruct (saved_state data (hid (st w))) as [Hst Hep]. fold i1 in Hst, Hep.
  assert (forall g2 h2 ws, report_writes (report_endpoint (st w)) due (report_bytes id data size) ws ->
    did w (World g2 h2) g2 ws -> (forall i, put_hid i g2 = put_hid i (st w)) ->
    hid g2 = set_state (if due then set_idle_remaining (IdleCount (State (hid (st w)))) (State (hid (st w))) else State (hid (st w))) i1 ->
    wp nf (f' <- USB_Device_GetFrameNumber;; mod_state (set_prev_frame f')) Q p (World g2 h2)) as Hend.
  { intros g2 h2 ws Hws D2 Hput Hhid. unfold USB_Device_GetFrameNumber. apply wp_bind, wp_rd. intros f Ef. apply wp_mod_state.
    apply (HQ ws f); [done|rewrite Ef; apply u16_range|]. cbn [st hist]. rewrite Hhid, Hput. unfold next_interface. fold i1.
    destruct D2 as (_ & new & Hh & Hn). cbn [hist] in Hh. split; [done|]. exists (Rd UDFNUM f :: new). rewrite Hh. by rewrite writes_rd. }
  destruct due eqn:Ed; cbn [when].
  - destruct Hfit as (Hn & Hid & Hd & Hl & Hsz & _). unfold is_u8 in Hn. unfold report_due in due.
    assert (size <> 0) as Hne by (intros ->; done).
    apply wp_bind, wp_bind, wp_mod_state. cbn [st hist]. fold g1. rewrite Hi1, Hst.
    unfold g1. rewrite put_hid_put. fold i1. set (g2 := put_hid _ (st w)).
    apply wp_bind. unfold Endpoint_SelectEndpoint. apply wp_wr. cbn [st hist reg_wrap]. fold (report_endpoint (st w)).
    rewrite report_endpoint_u8. set (h2 := Wr UENUM (report_endpoint (st w)) :: hist w).
    apply wp_send; [done|done|lia|lia|done| |].
    + intros k new Hk Hlog Hwr. cbn [hist]. unfold h2. change (new ++ Wr UENUM ?e :: ?h) with (new ++ [Wr UENUM e] ++ h).
      rewrite app_assoc. apply (room_in p (hist w) (report_endpoint (st w)) (length (report_bytes id data size))).
      * apply (Hroom []). done.
      * rewrite writes_app, (data_log_writes new Hlog). apply Forall_app. split; [by repeat constructor; left|].
        apply Forall_fmap, Forall_true. by right.
      * rewrite <- app_assoc, data_log_selected by done. done.
      * rewrite writes_app, (data_log_writes new Hlog). unfold sent_data. rewrite omap_app, length_app.
        fold (sent_data ((UEDATX,.) <$> written UEDATX new)). rewrite sent_data_puts.
        change (length (omap _ (writes [_]))) with 0%nat. lia.
    + intros v v' [g3 h3] Hc D3. pose proof D3 as [S3 _]. cbn [st] in S3, D3. subst g3.
      apply (Hend g2 h3 ((UENUM, report_endpoint (st w)) :: ((UEDATX,.) <$> report_bytes id data size) ++ [(UEINTX, v')])).
      * by exists v, v'.
      * apply (did_trans w (World g2 h2) _ g2 g2 [_] _ (did_wr w g2 UENUM _) D3).
      * intros i. apply put_hid_put.
      * apply hid_put.
  - apply wp_bind, wp_ret. apply (Hend g1 (hist w) []); [done|split; [done|by exists []]|intros i; apply put_hid_put|].
    rewrite Hi1. destruct i1. cbn in *. by rewrite Hst.
Qed.

Lemma room_at_after p h0 ep n m new : room_at p h0 ep n -> (m <= n)%nat ->
  Forall (fun x => x.1 = UENUM) (writes new) -> room_at p (new ++ h0) ep m.
Proof.
  intros Hroom Hm Hw new' Hw' Hs Hn. rewrite app_assoc in *. apply Hroom.
  - rewrite writes_app. apply Forall_app. split; [|done]. revert Hw. apply Forall_impl. intros x ->. by left.
  - done.
  - rewrite writes_app. unfold sent_data in *. rewrite omap_app, length_app.
    replace (omap _ (writes new)) with (@nil Z); [cbn [length]; lia|]. clear -Hw.
    induction Hw as [|[r v] l Hr _ IH]; [done|]. cbn in *. by subst r.
Qed.

(** The selected endpoint [ep] cannot take a packet. *)
Definition busy_at (p : platform) (h0 : log) (ep : Z) : Prop := forall rds, Forall is_read rds ->
  bit_tst (reg_wrap UEINTX (respond p (Wr UENUM ep :: rds ++ h0) UEINTX)) RWAL = false.

Local Abbreviation driver_task := (HID_Device_USBTask create task).

(** The head of the task: what it reads before it turns to the endpoint. *)
Definition frame_now (p : platform) (w : world G) : Z :=
  reg_wrap UDFNUM (respond p (Rd V_USB_DeviceState (state_code DEVICE_STATE_Configured) :: hist w) UDFNUM).
Definition in_configured (p : platform) (w : world G) : Prop :=
  reg_wrap V_USB_DeviceState (respond p (hist w) V_USB_DeviceState) = state_code DEVICE_STATE_Configured.

Lemma wp_driver_task nf p Q w : in_configured p w ->
  (PrevFrameNum (State (hid (st w))) =? frame_now p w) && negb low_speed = false ->
  (forall v rds, Forall is_read rds ->
     v = reg_wrap UEINTX (respond p (Wr UENUM (report_endpoint (st w)) :: rds ++ hist w) UEINTX) ->
     wp nf (when (bit_tst v RWAL) (report_opportunity create task (hid (st w)))) Q p
       (World (st w) ([Rd UEINTX v; Wr UENUM (report_endpoint (st w))] ++ rds ++ hist w))) ->
  wp nf driver_task Q p w.
Proof.
  intros Hc Hf HQ. unfold HID_Device_USBTask, is_DeviceState. apply wp_bind, wp_bind, wp_rd. intros s Hs. apply wp_ret.
  cbn [st hist]. unfold in_configured in Hc. rewrite Hc in Hs. rewrite Hs, Z.eqb_refl. cbn [negb].
  apply wp_bind, wp_get_hid, wp_bind. unfold USB_Device_GetFrameNumber. apply wp_rd. intros f Ef. cbn [st hist] in *.
  unfold frame_now in Hf. rewrite <- Ef in Hf. rewrite Hf.
  apply wp_bind. unfold Endpoint_SelectEndpoint. apply wp_wr. cbn [st hist]. fold (report_endpoint (st w)).
  cbn [reg_wrap]. rewrite report_endpoint_u8. apply wp_bind. unfold Endpoint_IsReadWriteAllowed. apply wp_reg_bit.
  intros v Hv. cbn [st hist] in *.
  apply (HQ v [Rd UDFNUM f; Rd V_USB_DeviceState (state_code DEVICE_STATE_Configured)]); [by repeat constructor|done].
Qed.

(** C11: the sending policy of the HID class driver.  On a device that is not
    configured, and in a frame (on a full-speed device) in which it has already
    had its turn, the task writes no register and changes no object: there is
    at most one report per frame.  In a new frame, an endpoint that cannot take a
    packet is only selected.  Otherwise the application is asked for a report,
    and it is sent if and only if it is not empty and the application forces
    it, it differs from the previous one, or the idle period is over; what is
    sent is exactly the report ID, if there is one, and the report's bytes, as
    one packet.  The buffer of the previous report then holds the new one, the
    frame is marked as served, and the idle countdown restarts exactly if the
    report was sent. *)
Theorem hid_device_task_policy p w :
  let i := hid (st w) in
  let ep := report_endpoint (st w) in
  let served := (PrevFrameNum (State i) =? frame_now p w) && negb low_speed in
  let '(force, ReportID, data, size) := report_wanted (st w) 0 0 in
  let due := report_due i force data size in
  let bytes := report_bytes ReportID data size in
  (~ in_configured p w -> wp False driver_task (fun _ w' => did w w' (st w) []) p w) /\
  (in_configured p w -> served = true -> wp False driver_task (fun _ w' => did w w' (st w) []) p w) /\
  (in_configured p w -> served = false -> busy_at p (hist w) ep ->
   wp False driver_task (fun _ w' => did w w' (st w) [(UENUM, ep)]) p w) /\
  (in_configured p w -> served = false -> room_at p (hist w) ep (max 1 (length bytes)) ->
   report_fits (st w) (force, ReportID, data, size) -> (Z.to_nat size < fuel p)%nat ->
   wp False driver_task (fun _ w' => exists ws f, is_u16 f /\ report_writes ep due bytes ws /\
     did w w' (put_hid (next_interface due f data i) (st w)) ((UENUM, ep) :: ws)) p w).
Proof.
  cbv zeta. destruct (report_wanted (st w) 0 0) as [[[force id] data] size] eqn:Ex. split_and!.
  - intros Hc. unfold HID_Device_USBTask, is_DeviceState. apply wp_bind, wp_bind, wp_rd. intros s Hs. apply wp_ret.
    cbn [st hist]. rewrite (proj2 (Z.eqb_neq _ _)) by (unfold in_configured in Hc; congruence). apply wp_ret.
    apply (did_log w (st w) [Rd V_USB_DeviceState s]).
  - intros Hc Hf. unfold HID_Device_USBTask, is_DeviceState. apply wp_bind, wp_bind, wp_rd. intros s Hs. apply wp_ret.
    cbn [st hist]. unfold in_configured in Hc. rewrite Hc in Hs. rewrite Hs, Z.eqb_refl. cbn [negb].
    apply wp_bind, wp_get_hid, wp_bind. unfold USB_Device_GetFrameNumber. apply wp_rd. intros f Ef. cbn [st hist] in *.
    unfold frame_now in Hf. rewrite <- Ef in Hf. rewrite Hf. apply wp_ret.
    exact (did_log w (st w) [Rd UDFNUM f; Rd V_USB_DeviceState (state_code DEVICE_STATE_Configured)]).
  - intros Hc Hf Hb. apply wp_driver_task; [done|done|]. intros v rds Hr Hv. pose proof (Hb rds Hr) as Hv'. rewrite <- Hv in Hv'. rewrite Hv'. apply wp_ret.
    rewrite app_assoc.
    replace [(UENUM, report_endpoint (st w))] with (writes ([Rd UEINTX v; Wr UENUM (report_endpoint (st w))] ++ rds));
      [apply did_log|]. by rewrite writes_app, writes_reads.
  - intros Hc Hf Hroom Hfit Hfu. apply wp_driver_task; [done|done|]. intros v rds Hr Hv.
    set (n1 := [Rd UEINTX v; Wr UENUM (report_endpoint (st w))] ++ rds).
    assert (writes n1 = [(UENUM, report_endpoint (st w))]) as Hn1 by (unfold n1; by rewrite writes_app, writes_reads).
    assert (bit_tst v RWAL = true) as Hrw.
    { rewrite Hv. apply (Hroom (Wr UENUM (report_endpoint (st w)) :: rds)); [|done|];
        rewrite writes_wr, (writes_reads rds Hr); [apply Forall_singleton; by left|].
      change (length (sent_data _)) with 0%nat. lia. }
    rewrite Hrw. cbn [when]. rewrite app_assoc. fold n1.
    set (w1 := World (st w) (n1 ++ hist w)).
    pose proof (wp_opportunity False p (fun _ w' => exists ws f, is_u16 f /\
      report_writes (report_endpoint (st w)) (report_due (hid (st w)) force data size) (report_bytes id data size) ws /\
      did w w' (put_hid (next_interface (report_due (hid (st w)) force data size) f data (hid (st w))) (st w))
        ((UENUM, report_endpoint (st w)) :: ws)) w1) as Hop.
    cbn [st w1] in Hop. rewrite Ex in Hop. apply Hop; [done|by right| |].
    + intros rds' Hr'. cbn [hist w1]. rewrite app_assoc. eapply room_at_after; [exact Hroom|lia|].
      rewrite writes_app, (writes_reads rds'), Hn1 by done. by repeat constructor.
    + intros ws f w' Hws Hu D. exists ws, f. split; [done|]. split; [done|].
      apply (did_trans w w1 w' (st w) _ [_] ws); [|done]. rewrite <- Hn1. apply did_log.
Qed.
End Policy.

(** ** The class requests *)

Section ClassRequests.
Context {G : Type} `{UsbStateOk G} `{!HidState G} `{!HidStateOk G} `{AvrOk}.
Context (create : Z -> Z -> list Z -> M G (bool * Z * list Z * Z)) (process : Z -> Z -> list Z -> Z -> M G unit)
  (uninitialised : nat -> list Z) (p : platform) (k : nat).
Implicit Types w : world G.

Local Abbreviation requests := (HID_Device_ProcessControlRequest create process uninitialised).

(** The request [code] for this interface waits, already copied from its packet. *)
Definition class_request (bm code v len : Z) w : Prop :=
  USB_ControlRequest (usb (st w)) = Request bm code v (InterfaceNumber (Config (hid (st w)))) len /\
  one_setup p (hist w).

(** The host goes on to the next stage within [k] polls. *)
Definition polled_within : Prop :=
  flag_within k UEINTX TXINI p /\ flag_within k UEINTX RXOUTI p /\ (k < fuel p)%nat.

Lemma wp_class_request nf bm code v len Q w : class_request bm code v len w ->
  (forall w1, did w w1 (st w) [] ->
     wp nf (hid_request create process uninitialised
              (Request bm code v (InterfaceNumber (Config (hid (st w)))) len) (hid (st w))) Q p w1) ->
  wp nf requests Q p w.
Proof.
  intros [Hr Hone] HQ. eapply (wp_class_setup p); [exact Hr|done|]. intros w1 D1.
  pose proof D1 as [S1 _]. apply wp_bind, wp_get_hid. rewrite S1. cbn [wIndex].
  rewrite Z.eqb_refl. by apply HQ.
Qed.

(** A request that sets a part of the interface's state. *)
Lemma wp_set_request nf w f Q w1 bm code v len : class_request bm code v len w -> bm = 0x21 ->
  polls_end p k nf TXINI -> did w w1 (st w) [] ->
  (forall ws w', acked ws = true -> data_and_flags ws -> sent_data ws = [] ->
     did w w' (put_hid (set_state (f (State (hid (st w)))) (hid (st w))) (st w)) ws -> Q tt w') ->
  wp nf (Endpoint_ClearSETUP;;; Endpoint_ClearStatusStage;;; mod_state f) Q p w1.
Proof.
  intros [Hr _] -> Hend D1 HQ. pose proof D1 as [S1 _]. apply wp_bind, clear_setup_did. intros x x' w2 Hc _ D2.
  rewrite S1 in D2. pose proof D2 as [S2 _]. apply wp_bind, (status_stage_did p k); rewrite S2, Hr; [done|].
  intros ss w3 Hss D3. pose proof D3 as [S3 _]. apply wp_mod_state. rewrite S3.
  pose proof (did_trans _ _ _ _ _ _ _ D1 (did_trans _ _ _ _ _ _ _ D2 D3)) as (_ & D). cbn [app] in D.
  apply (HQ ((UEINTX, x') :: ss)); [| | |by split].
  - eapply acked_cleared with (cs := [RXSTPI]) (ws1 := []); [done..|left].
  - destruct Hss as [[-> _]|(y & y' & _ & ->)]; repeat (constructor; [by right|]); constructor.
  - by destruct Hss as [[-> _]|(y & y' & _ & ->)].
Qed.

(** A request answered with one byte. *)
Lemma wp_answer_byte nf w b Q w1 bm code v len : class_request bm code v len w -> bm = 0xA1 -> is_u8 b ->
  polls_end p k nf TXINI -> polls_end p k nf RXOUTI -> did w w1 (st w) [] ->
  (forall ws w', answer_writes [b] ws -> did w w' (st w) ws -> Q tt w') ->
  wp nf (answer_byte b) Q p w1.
Proof.
  intros [Hr _] -> Hb Hin Hout D1 HQ. pose proof D1 as [S1 _]. unfold answer_byte.
  apply wp_bind, clear_setup_did. intros x x' w2 Hc _ D2. rewrite S1 in D2. pose proof D2 as [S2 _].
  apply wp_bind, (await_in_did p k); [done|]. intros w3 D3. rewrite S2 in D3.
  pose proof (did_trans _ _ _ _ _ _ _ D1 (did_trans _ _ _ _ _ _ _ D2 D3)) as D. rewrite app_nil_r in D.
  apply (short_answer_tail p k _ _ [b] x x' _ w); [by apply puts_8|by rewrite Hr|done|done|done|done].
Qed.

(** The interface after a SET_IDLE and a SET_PROTOCOL of value [v]. *)
Definition after_idle (v : Z) (i : USB_ClassInfo_HID_Device_t) : USB_ClassInfo_HID_Device_t :=
  set_state (set_idle (4 * (v / 256)) (State i)) i.
Definition after_protocol (v : Z) (i : USB_ClassInfo_HID_Device_t) : USB_ClassInfo_HID_Device_t :=
  set_state (set_protocol (negb (v mod 256 =? 0)) (State i)) i.

Lemma idle_milliseconds v : is_u16 v -> u16 (Z.shiftr (Z.land v 0xFF00) 6) = 4 * (v / 256).
Proof.
  unfold is_u16. intros Hv. replace (Z.land v 0xFF00) with (Z.shiftl (Z.shiftr v 8) 8).
  - rewrite Z.shiftl_mul_pow2, !Z.shiftr_div_pow2 by lia. change (2 ^ 8) with (4 * 2 ^ 6). rewrite Z.mul_assoc, Z.div_mul by lia.
    change (4 * 2 ^ 6) with 256. pose proof (Z.div_mod v 256). pose proof (Z.mod_pos_bound v 256).
    rewrite u16_small by (unfold is_u16; lia). lia.
  - apply Z.bits_inj'. intros n Hn. rewrite Z.land_spec.
    change 0xFF00 with (Z.shiftl (Z.ones 8) 8). rewrite !Z.shiftl_spec by lia.
    destruct (decide (n < 8)); [rewrite !(Z.testbit_neg_r _ (n - 8)) by lia; by rewrite andb_false_r|].
    rewrite Z.shiftr_spec by lia. replace (n - 8 + 8) with n by lia.
    destruct (decide (n < 16)); [rewrite Z.ones_spec_low by lia; by rewrite andb_true_r|].
    rewrite Z.ones_spec_high, andb_false_r by lia. apply (Z.bits_above_log2 v n); [lia|].
    destruct (decide (v = 0)) as [->|]; [cbn; lia|]. apply Z.log2_lt_pow2; [lia|].
    apply (Z.lt_le_trans _ (2 ^ 16)); [lia|]. apply Z.pow_le_mono_r; lia.
Qed.

Lemma low_byte v : Z.land v 0xFF = v mod 256.
Proof. change 0xFF with (Z.ones 8). by rewrite Z.land_ones by lia. Qed.

(** The branch of the request. *)
Ltac switch :=
  cbn -[u8 u16 Endpoint_ClearSETUP Endpoint_ClearStatusStage mod_state answer_byte hid_get_report hid_set_report
        Z.shiftr Z.land Z.mul Z.div Z.modulo].

(** The settings of the HID interface read back as the host wrote them.
    SET_IDLE stores the period in milliseconds (four times the upper byte of
    [wValue]) and a later GET_IDLE, the interface being untouched in between,
    is answered with that upper byte; SET_PROTOCOL stores whether the lower
    byte is not zero and GET_PROTOCOL is answered with one or zero.  Each is
    acknowledged, its handling ends, and no other object changes. *)
Theorem hid_settings_roundtrip v len w : is_u16 v -> polled_within ->
  (class_request 0x21 HID_REQ_SetIdle v len w ->
   wp False requests (fun _ w1 => accepted (put_hid (after_idle v (hid (st w))) (st w)) w w1 /\
     forall v' len' w2, hid (st w2) = hid (st w1) -> class_request 0xA1 HID_REQ_GetIdle v' len' w2 ->
       wp False requests (fun _ => answered_with [v / 256] w2) p w2) p w) /\
  (class_request 0x21 HID_REQ_SetProtocol v len w ->
   wp False requests (fun _ w1 => accepted (put_hid (after_protocol v (hid (st w))) (st w)) w w1 /\
     forall v' len' w2, hid (st w2) = hid (st w1) -> class_request 0xA1 HID_REQ_GetProtocol v' len' w2 ->
       wp False requests (fun _ => answered_with [if v mod 256 =? 0 then 0 else 1] w2) p w2) p w).
Proof.
  intros Hv (Hin & Hout & Hf).
  assert (polls_end p k False TXINI) as HI by (by right). assert (polls_end p k False RXOUTI) as HO by (by right). split.
  - intros Hr. eapply wp_class_request; [exact Hr|]. intros w1 D1. switch.
    eapply wp_set_request; [exact Hr|done|done|done|]. intros ws w' Ha Hd Hs D. rewrite idle_milliseconds in D by done. split; [by exists ws|].
    intros v' len' w2 Hh Hr2. pose proof D as [S' _]. rewrite S', hid_put in Hh.
    eapply wp_class_request; [exact Hr2|]. intros w3 D3. rewrite Hh.
    switch.
    rewrite Z.shiftr_div_pow2 by lia. replace (4 * (v / 256)) with (v / 256 * 2 ^ 2) by lia. rewrite Z.div_mul by lia.
    eapply wp_answer_byte; [exact Hr2|done|unfold is_u16, is_u8 in *; split; [apply Z.div_pos|apply Z.div_lt_upper_bound]; lia|done|done|done|].
    intros ws' w4 Hws D4. by exists ws'.
  - intros Hr. eapply wp_class_request; [exact Hr|]. intros w1 D1. switch.
    eapply wp_set_request; [exact Hr|done|done|done|]. intros ws w' Ha Hd Hs D. rewrite low_byte in D. split; [by exists ws|].
    intros v' len' w2 Hh Hr2. pose proof D as [S' _]. rewrite S', hid_put in Hh.
    eapply wp_class_request; [exact Hr2|]. intros w3 D3. rewrite Hh.
    switch.
    destruct (v mod 256 =? 0); cbn [negb];
      (eapply wp_answer_byte; [exact Hr2|done|done|done|done|done|]; intros ws' w4 Hws D4; by exists ws').
Qed.

(** GET_REPORT without a report ID: the application is asked for the report of
    the ID and type in [wValue], the buffer of the previous report is replaced
    by it, and the host receives exactly its first [min size wLength] bytes. *)
Theorem hid_get_report_answers (make : G -> Z -> Z -> list Z -> bool * Z * list Z * Z) v len w :
  (forall id ty buf p w, create id ty buf p w = Done (make (st w) id ty buf) w) ->
  let '(force, ReportID, data, size) := report_wanted make (st w) (v mod 256) (u8 (Z.shiftr v 8 - 1)) in
  class_request 0xA1 HID_REQ_GetReport v len w -> is_u16 len ->
  report_fits (st w) (force, ReportID, data, size) -> ReportID = 0 ->
  host_reads p len (hist w) -> counts_bytes p -> (Z.to_nat size + 65 <= fuel p)%nat ->
  wp False requests (fun _ w' => exists ws,
    did w w' (put_hid (saved data (hid (st w))) (st w)) ((UENUM, 0) :: ws) /\
    answer_writes (take (min (Z.to_nat size) (Z.to_nat len)) data) ws) p w.
Proof.
  intros Hcreate. destruct (report_wanted _ _ _ _) as [[[force id] data] size] eqn:Ex.
  intros Hr Hlen Hfit -> Hhost Hcb Hf. eapply wp_class_request; [exact Hr|]. intros w1 D1. switch.
  unfold hid_get_report. pose proof D1 as (S1 & n1 & Hh1 & Hn1). apply wp_bind, wp_get_hid, wp_bind.
  unfold wp at 1. rewrite Hcreate, S1. cbn [wValue]. rewrite low_byte. fold (report_wanted make (st w) (v mod 256) (u8 (Z.shiftr v 8 - 1))).
  rewrite Ex. apply wp_bind. apply (wp_save False p (force, 0, data, size)); rewrite S1; [done|]. cbn [fst snd].
  set (g1 := put_hid _ _). apply wp_bind. unfold Endpoint_SelectEndpoint. apply wp_wr.
  change (reg_wrap UENUM _) with 0. cbn [st hist]. set (w2 := World g1 (Wr UENUM 0 :: hist w1)).
  destruct Hfit as (Hn & _ & Hd & Hl & Hs & _). unfold is_u8 in Hn.
  assert (asked_length w2 = len) as Ea by (unfold asked_length; cbn [w2 st]; unfold g1; rewrite usb_put_hid; by rewrite (proj1 Hr)).
  change (Z.eqb 0 0) with true. cbn [negb when].
  assert (forall Q, wp False (Endpoint_ClearSETUP;;; Endpoint_Write_Control_Stream_LE data size;;; Endpoint_ClearOUT) Q p w2 ->
    wp False (Endpoint_ClearSETUP;;; ret tt;;; Endpoint_Write_Control_Stream_LE data size;;; Endpoint_ClearOUT) Q p w2) as Hskip by done.
  apply Hskip, answer_did; rewrite ?Ea; [done|lia|lia|done| |done|done|].
  { intros before x x' Ha Hx. cbn [hist w2]. rewrite Hh1.
    change (before ++ Wr UENUM 0 :: n1 ++ hist w) with (before ++ (Wr UENUM 0 :: n1) ++ hist w). rewrite app_assoc.
    apply Hhost; [|done]. by rewrite writes_app, writes_wr, Hn1. }
  intros ws w3 Hws D3. exists ws. split; [|done]. cbn [w2 st] in D3.
  apply (did_trans w w2 w3 g1 g1 [(UENUM, 0)] ws); [|done]. split; [done|]. exists (Wr UENUM 0 :: n1).
  split; [cbn [w2 hist app]; by rewrite Hh1|by rewrite writes_wr, Hn1].
Qed.

(** A read of no bytes touches nothing but flags. *)
Lemma wp_read_nothing nf w Q : polls_end p k nf TXINI ->
  (forall c ws w', data_and_flags ws -> did w w' (st w) ws -> Q (c, ([], 0)) w') ->
  wp nf (Endpoint_Read_Control_Stream_LE [] 0) Q p w.
Proof.
  intros Hend HQ. unfold Endpoint_Read_Control_Stream_LE, Template_Endpoint_Control_R. cbn [Z.eqb].
  destruct flag_facts as ((_ & B2 & _ & B4) & _). apply wp_bind, clear_flags_did; [done|done|]. intros v v' w1 _ _ D1.
  pose proof D1 as [S1 _]. apply wp_bind. unfold control_r_data.
  apply (wp_while_either nf p (fun x w' => x = ([], 0, 0) /\ w' = w1) (fun _ _ => 0%nat));
    [|done|destruct Hend as [?|[_ ?]]; [by left|right; lia]].
  intros [ds l] w2 [[= -> ->] ->]. cbn [Z.eqb]. apply wp_ret, wp_bind. unfold control_r_status, Endpoint_IsINReady.
  assert (forall c rds, Forall is_read rds -> wp nf (ret (c, ([], 0))) Q p (World (st w1) (rds ++ hist w1))) as Hend2.
  { intros c rds Hr. apply wp_ret. apply (HQ c [(UEINTX, v')]); [apply Forall_singleton; by right|].
    by apply (did_reads w w1 (st w)). }
  apply (wp_poll_loop p k nf UEINTX TXINI ENDPOINT_RWCSTREAM_NoError); [done| |].
  - intros h Hh. unfold unless_gone. apply wp_bind, wp_rd. intros s _. cbn [st hist].
    assert (forall y : unit + Endpoint_ControlStream_RW_ErrorCodes_t, wp nf (ret y) (fun y w' => exists rds, Forall is_read rds /\
      misses UEINTX TXINI (rds ++ h ++ hist w1) = misses UEINTX TXINI (h ++ hist w1) /\ w' = World (st w1) (rds ++ h ++ hist w1) /\
      match y with inl _ => True | inr c => wp nf (ret (c, ([], 0))) Q p w' end) p
      (World (st w1) (Rd V_USB_DeviceState s :: h ++ hist w1))) as Hout.
    { intros y. apply wp_ret. exists [Rd V_USB_DeviceState s]. split_and!; [by repeat constructor|done|done|].
      destruct y as [|c]; [done|]. apply (Hend2 c (Rd V_USB_DeviceState s :: h)). by constructor. }
    destruct (s =? _); [apply Hout|]. destruct (s =? _); apply Hout.
  - intros h v1 Hh _. apply (Hend2 _ (Rd UEINTX v1 :: h)). by constructor.
Qed.

(** SET_REPORT with a report ID and no data: the size the application's
    callback is given is 65535, although the buffer it is given is empty. *)
Theorem hid_set_report_underflow v w : polled_within -> v mod 256 <> 0 ->
  uninitialised 0 = [] -> class_request 0x21 HID_REQ_SetReport v 0 w ->
  exists w1 ws, did w w1 (st w) ws /\ acked ws = true /\ data_and_flags ws /\
    requests p w = process (v mod 256) (u8 (Z.shiftr v 8 - 1)) [] 65535 p w1.
Proof.
  intros (Hin & _ & Hf) Hv Hnil [Hr Hone]. assert (polls_end p k False TXINI) as Hend by (by right).
  unfold HID_Device_ProcessControlRequest.
  set (R := fun o => exists w1 ws, did w w1 (st w) ws /\ acked ws = true /\ data_and_flags ws /\
    o = process (v mod 256) (u8 (Z.shiftr v 8 - 1)) [] 65535 p w1).
  apply (bind_outcome p R). apply (wp_setup_flag p _ _ w w (st w) []); [done|split; [done|by exists []]|].
  intros w1 D1. cbn [negb acked existsb]. pose proof D1 as [S1 _].
  apply (bind_outcome p R), wp_get_request. rewrite S1, Hr. apply (bind_outcome p R), wp_get_hid. rewrite S1. cbn [wIndex].
  rewrite Z.eqb_refl. switch. unfold hid_set_report. cbn [wLength wValue]. rewrite low_byte. change (Z.to_nat 0) with 0%nat. rewrite Hnil.
  apply (bind_outcome p R), clear_setup_did. intros x x' w2 Hc _ D2. pose proof D2 as [S2 _]. rewrite S1 in D2, S2.
  apply (bind_outcome p R), wp_read_nothing; [done|]. intros c ws w3 Hws D3. pose proof D3 as [S3 _]. rewrite S2 in D3, S3.
  destruct flag_facts as ((B1 & _ & _ & B4) & _).
  apply (bind_outcome p R), clear_flags_did; [done|done|]. intros y y' w4 _ _ D4. rewrite S3 in D4.
  rewrite (proj2 (Z.eqb_neq _ 0)) by done. exists w4, ((UEINTX, x') :: ws ++ [(UEINTX, y')]). split_and!.
  - exact (did_trans _ _ _ _ _ _ _ D1 (did_trans _ _ _ _ _ _ _ D2 (did_trans _ _ _ _ _ _ _ D3 D4))).
  - eapply acked_cleared with (cs := [RXSTPI]) (ws1 := []); [done..|left].
  - constructor; [by right|]. apply Forall_app. split; [done|]. apply Forall_singleton. by right.
  - done.
Qed.
End ClassRequests.

(** ** The idle period *)

Section Idle.
Context {G : Type} `{UsbStateOk G} `{!HidState G} `{!HidStateOk G}.
Implicit Types w : world G.

(** [n] ticks of the millisecond timer. *)
Fixpoint elapse (n : nat) : M G unit :=
  match n with O => ret tt | S n' => elapse n';;; HID_Device_MillisecondElapsed end.

(** The countdown of the idle period stops at zero; when it was restarted at the
    period, the period is over after exactly that many ticks, and a period
    of zero is never over. *)
Lemma idle_countdown n w p : let s := State (hid (st w)) in is_u16 (IdleMSRemaining s) ->
  let s' := set_idle_remaining (Z.max 0 (IdleMSRemaining s - Z.of_nat n)) s in
  elapse n p w = Done tt (World (put_hid (set_state s' (hid (st w))) (st w)) (hist w)) /\
  (IdleMSRemaining s = IdleCount s ->
   idle_elapsed s' = true <-> IdleCount s <> 0 /\ IdleCount s <= Z.of_nat n).
Proof.
  intros s Hr s'. unfold is_u16 in Hr. split.
  - unfold s'. clear s'. induction n as [|n IH].
    + cbn [elapse ret]. rewrite Z.sub_0_r, Z.max_r by lia. unfold ret. destruct w as [g h]. cbn [st hist] in *.
      replace (set_state (set_idle_remaining (IdleMSRemaining s) s) (hid g)) with (hid g) by (unfold s; by destruct (hid g) as [? []]).
      by rewrite put_hid_same.
    + cbn [elapse]. unfold bind. rewrite IH. unfold HID_Device_MillisecondElapsed, get_hid, mod_state, mod_hid, bind, mget, ret, mmodify.
      cbn [st hist]. rewrite !hid_put. cbn [State set_state set_idle_remaining IdleMSRemaining].
      destruct (Z.eqb_spec (Z.max 0 (IdleMSRemaining s - Z.of_nat n)) 0) as [E|E]; cbn [negb when].
      * unfold ret. replace (Z.max 0 (IdleMSRemaining s - Z.of_nat (S n))) with (Z.max 0 (IdleMSRemaining s - Z.of_nat n)) by lia. done.
      * cbn [st hist]. rewrite hid_put, put_hid_put. cbn [State set_state set_idle_remaining IdleMSRemaining]. rewrite u16_small by (unfold is_u16; lia).
        replace (Z.max 0 (IdleMSRemaining s - Z.of_nat n) - 1) with (Z.max 0 (IdleMSRemaining s - Z.of_nat (S n))) by lia. done.
  - intros Hc. unfold idle_elapsed, s'. cbn [IdleCount IdleMSRemaining set_idle_remaining].
    rewrite andb_true_iff, negb_true_iff, Z.eqb_neq, Z.eqb_eq. lia.
Qed.
End Idle.

(** ** Concrete runs *)

Section Runs.
#[local] Instance hid_chip : Avr := datasheet USB_SERIES_2_AVR.
#[local] Instance hid_chip_ok : AvrOk := datasheet_ok USB_SERIES_2_AVR.

(** A program with one HID interface. *)
Record hid_program := HidProgram { hp_usb : usb_globals; hp_hid : USB_ClassInfo_HID_Device_t }.
#[local] Instance hid_program_usb : UsbState hid_program :=
  {| usb := hp_usb; put_usb u g := HidProgram u (hp_hid g) |}.
#[local] Instance hid_program_usb_ok : UsbStateOk hid_program.
Proof. split; [done|done|]. by intros []. Qed.
#[local] Instance hid_program_hid : HidState hid_program :=
  {| hid := hp_hid; put_hid i g := HidProgram (hp_usb g) i |}.
#[local] Instance hid_program_hid_ok : HidStateOk hid_program.
Proof. split; [done|done|done|]. by intros []. Qed.

(** Interface 0, whose report endpoint is endpoint 1; its reports have two bytes. *)
Definition demo_interface : USB_ClassInfo_HID_Device_t :=
  HidInfo (HidConfig 0 (EndpointEntry 0x81 8 EP_TYPE_INTERRUPT 1) (Some [1; 2]) 2) (HidStateOf true 6 500 100).
Definition demo_program (r : USB_Request_Header_t) : hid_program := HidProgram (UsbGlobals r 1 false false) demo_interface.
(** An application whose report is always 1, 3. *)
Definition demo_make (g : hid_program) (id ty : Z) (buf : list Z) : bool * Z * list Z * Z := (false, 0, [1; 3], 2).
Definition demo_create (id ty : Z) (buf : list Z) : M hid_program (bool * Z * list Z * Z) :=
  g <- mget;; ret (demo_make g id ty buf).
Definition demo_process (id ty : Z) (data : list Z) (size : Z) : M hid_program unit := ret tt.

(** A configured device in frame 7 whose endpoint has room. *)
Definition ready_bus : platform := {|
  respond _ r := match r with
    | V_USB_DeviceState => 4 | UDFNUM => 7 | UEINTX => 0xA1 | UECFG0X => 0xC1 | _ => 0 end;
  fuel := 10
|}.

(** The report differs from the previous one, so it is sent before the idle
    period is over. *)
Lemma hid_device_task_policy_witness :
  let w := World (demo_program (Request 0 0 0 0 0)) [] in
  wp False (HID_Device_USBTask demo_create (ret tt))
    (fun _ w' => exists ws f, is_u16 f /\ report_writes 1 true [1; 3] ws /\
       did w w' (put_hid (next_interface true f [1; 3] demo_interface) (st w)) ((UENUM, 1) :: ws)) ready_bus w.
Proof.
  intros w.
  refine (proj2 (proj2 (proj2 (hid_device_task_policy (ret tt) demo_create demo_make _ ready_bus w))) _ _ _ _ _).
  - reflexivity.
  - reflexivity.
  - reflexivity.
  - intros new _ _ _. done.
  - cbn. unfold is_u8. split_and!; try lia. repeat constructor; lia.
  - cbn. lia.
Defined.

(** A bus with one SETUP packet, on which every stage is accepted at once. *)
Definition class_bus (n : nat) : platform := setup_bus (Request 0 0 0 0 0) (fun _ => true) n.

Lemma class_bus_polls : polled_within (class_bus 5) 1.
Proof. split; [apply bus_in|]. split; [intros h _; apply DeviceStandardReq.bus_flags|cbn; lia]. Qed.

(** An idle period of 12 units of four milliseconds. *)
Lemma hid_settings_roundtrip_witness :
  let w := World (demo_program (Request 0x21 10 0x0C00 0 0)) [] in
  wp False (HID_Device_ProcessControlRequest demo_create demo_process (fun n => replicate n 0))
    (fun _ w1 => accepted (put_hid (after_idle 0x0C00 demo_interface) (st w)) w w1) (class_bus 5) w.
Proof.
  intros w. eapply wp_mono.
  - refine (proj1 (hid_settings_roundtrip demo_create demo_process (fun n => replicate n 0) (class_bus 5) 1 0x0C00 0 w
      _ class_bus_polls) _).
    + unfold is_u16. lia.
    + split; [reflexivity|apply bus_one_setup].
  - by intros [] w1 [? _].
Defined.

(** The host asks for one byte of the report. *)
Lemma hid_get_report_answers_witness :
  let w := World (demo_program (Request 0xA1 1 0x0100 0 1)) [] in
  let p := setup_bus (Request 0 0 0 0 0) (fun h => match after_ack h with
    | Some l => host_done 1 (fst (packets l)) | None => false end) 100 in
  wp False (HID_Device_ProcessControlRequest demo_create demo_process (fun n => replicate n 0))
    (fun _ w' => exists ws, did w w' (put_hid (saved [1; 3] demo_interface) (st w)) ((UENUM, 0) :: ws) /\
       answer_writes [1] ws) p w.
Proof.
  intros w p.
  refine (hid_get_report_answers demo_create demo_process (fun n => replicate n 0) p demo_make 0x0100 1 w _ _ _ _ _
    (bus_host _ _ _) _ _).
  - reflexivity.
  - split; [reflexivity|apply bus_one_setup].
  - unfold is_u16. lia.
  - cbn. unfold is_u8. split_and!; try lia. repeat constructor; lia.
  - reflexivity.
  - intros h Hh. cbn [p setup_bus respond]. split; [|done]. apply u8_small. unfold is_u8. lia.
  - cbn. lia.
Defined.

(** Report 7 of type feature, without data. *)
Lemma hid_set_report_underflow_witness :
  let w := World (demo_program (Request 0x21 9 0x0307 0 0)) [] in
  exists w1 ws, did w w1 (st w) ws /\ acked ws = true /\ data_and_flags ws /\
    HID_Device_ProcessControlRequest demo_create demo_process (fun n => replicate n 0) (class_bus 5) w =
      demo_process 7 2 [] 65535 (class_bus 5) w1.
Proof.
  intros w. refine (hid_set_report_underflow demo_create demo_process (fun n => replicate n 0) (class_bus 5) 1 0x0307 w
    class_bus_polls _ _ _).
  - done.
  - done.
  - split; [reflexivity|apply bus_one_setup].
Defined.
End Runs.
