(* ===== verification/MassStorage.v ===== *)
(** * The mass storage class driver for devices (LUFA MassStorageClassDevice.c)

    The bulk-only transport: a command block arrives on the OUT endpoint, the
    application executes it, a status block is returned on the IN endpoint.
    The blocks are objects of the interface that the streams fill and read in
    place, while the management task runs between packets; so the transfers
    here access the objects of the program directly. *)

From S2P Require Import Prelude StdDescriptors HIDClass Descriptors Machine HIDParser UsbCore Endpoint EndpointStream DeviceStandardReq MemorySafety.

(** ** MassStorageClassCommon.h *)

Definition MS_CBW_SIGNATURE : Z := 0x43425355.
Definition MS_CSW_SIGNATURE : Z := 0x53425355.
Definition MS_COMMAND_DIR_DATA_IN : Z := Z.shiftl 1 7.
Definition MS_REQ_GetMaxLUN : Z := 0xFE.
Definition MS_REQ_MassStorageReset : Z := 0xFF.
Definition MS_SCSI_COMMAND_Pass : Z := 0.
Definition MS_SCSI_COMMAND_Fail : Z := 1.

(** [MS_CommandBlockWrapper_t] is received byte by byte: it is the 31 bytes of the
    packed structure, and these are its members. *)
Definition sizeof_CBW : Z := 31.
Definition CBW_Signature (cb : list Z) : Z := of_le_bytes (take 4 cb).
Definition CBW_Tag (cb : list Z) : Z := of_le_bytes (take 4 (drop 4 cb)).
Definition CBW_DataTransferLength (cb : list Z) : Z := of_le_bytes (take 4 (drop 8 cb)).
Definition CBW_Flags (cb : list Z) : Z := default 0 (cb !! 12%nat).
Definition CBW_LUN (cb : list Z) : Z := default 0 (cb !! 13%nat).
Definition CBW_SCSICommandLength (cb : list Z) : Z := default 0 (cb !! 14%nat).
Definition CBW_SCSICommandData (cb : list Z) : list Z := drop 15 cb.

Record MS_CommandStatusWrapper_t := CSW {
  CSW_Signature : Z; CSW_Tag : Z; CSW_DataTransferResidue : Z; CSW_Status : Z
}.
#[export] Instance csw_packed : Packed MS_CommandStatusWrapper_t := {|
  widths := [4; 4; 4; 1]%nat;
  fields r := [CSW_Signature r; CSW_Tag r; CSW_DataTransferResidue r; CSW_Status r];
  of_fields vs := match vs with [a; b; c; d] => Some (CSW a b c d) | _ => None end
|}.
#[export] Instance csw_packed_ok : PackedOk MS_CommandStatusWrapper_t.
Proof. packed_ok. Qed.

(** ** MassStorageClassDevice.h *)

Record ms_config := MsConfig {
  MS_InterfaceNumber : Z;
  DataINEndpoint : USB_Endpoint_Table_t;
  DataOUTEndpoint : USB_Endpoint_Table_t;
  TotalLUNs : Z
}.
Record ms_state := MsState {
  CommandBlock : list Z;
  CommandStatus : MS_CommandStatusWrapper_t;
  IsMassStoreReset : bool
}.
Record USB_ClassInfo_MS_Device_t := MsInfo { MS_Config : ms_config; MS_State : ms_state }.

Class MsDevice (G : Type) := {
  ms : G -> USB_ClassInfo_MS_Device_t;
  put_ms : USB_ClassInfo_MS_Device_t -> G -> G
}.
Class MsDeviceOk (G : Type) `{UsbState G} `{MsDevice G} : Prop := {
  ms_put i g : ms (put_ms i g) = i;
  put_ms_put i i' g : put_ms i (put_ms i' g) = put_ms i g;
  usb_put_ms i g : usb (put_ms i g) = usb g;
  put_ms_same g : put_ms (ms g) g = g
}.

Definition set_block (cb : list Z) (s : ms_state) : ms_state := MsState cb (CommandStatus s) (IsMassStoreReset s).
Definition set_status (c : MS_CommandStatusWrapper_t) (s : ms_state) : ms_state := MsState (CommandBlock s) c (IsMassStoreReset s).
Definition set_reset (b : bool) (s : ms_state) : ms_state := MsState (CommandBlock s) (CommandStatus s) b.
Definition bulk (e : USB_Endpoint_Table_t) : USB_Endpoint_Table_t :=
  EndpointEntry (Entry_Address e) (Entry_Size e) EP_TYPE_BULK (Entry_Banks e).

Section Driver.
Context {G : Type} `{UsbState G} `{MsDevice G} `{Avr}.
(** The application's command processing, and the management task. *)
Variable CALLBACK_MS_Device_SCSICommandReceived : M G bool.
Variable USB_USBTask : M G unit.

Definition get_ms : M G USB_ClassInfo_MS_Device_t := g <- mget;; ret (ms g).
Definition mod_ms (f : ms_state -> ms_state) : M G unit :=
  mmodify (fun g => put_ms (MsInfo (MS_Config (ms g)) (f (MS_State (ms g)))) g).
Definition block : M G (list Z) := i <- get_ms;; ret (CommandBlock (MS_State i)).
Definition is_reset : M G bool := i <- get_ms;; ret (IsMassStoreReset (MS_State i)).
Definition select_out : M G unit := i <- get_ms;; Endpoint_SelectEndpoint (Entry_Address (DataOUTEndpoint (MS_Config i))).
Definition select_in : M G unit := i <- get_ms;; Endpoint_SelectEndpoint (Entry_Address (DataINEndpoint (MS_Config i))).

(** A byte received goes into the command block, [base] bytes after its start. *)
Definition store_block (base i : Z) : M G Z :=
  v <- Endpoint_Read_8;;
  cb <- block;;
  cb' <- mlift (aset cb (base + i) v);;
  mod_ms (set_block cb');;;
  ret i.
(** A byte of the status block goes out. *)
Definition load_status (i : Z) : M G Z :=
  x <- get_ms;; send_byte (pack (CommandStatus (MS_State x))) i.

(** [while (stream(..., &BytesProcessed) == IncompleteTransfer) if (IsMassStoreReset) return;]:
    whether it was left by the [return]. *)
Definition resumed (call : Z -> M G (Endpoint_Stream_RW_ErrorCodes_t * Z * option Z)) : M G bool :=
  while_ (fun BytesProcessed =>
    r <- call BytesProcessed;;
    let '(code, _, bp) := r in
    match code with
    | ENDPOINT_RWSTREAM_IncompleteTransfer =>
        reset <- is_reset;; ret (if reset then inr true else inl (default BytesProcessed bp))
    | _ => ret (inr false)
    end) 0.

Definition read_block (base Length BytesProcessed : Z) :=
  Template_Endpoint_RW USB_USBTask (store_block base) move_up Endpoint_ClearOUT 0 Length (Some BytesProcessed).

(** The conditions under which a command block is refused. *)
Definition block_refused (luns : Z) (cb : list Z) : bool :=
  negb (CBW_Signature cb =? MS_CBW_SIGNATURE) || (luns <=? CBW_LUN cb) || negb (Z.land (CBW_Flags cb) 0x1F =? 0) ||
  (CBW_SCSICommandLength cb =? 0) || (16 <? CBW_SCSICommandLength cb).

Definition MS_Device_ReadInCommandBlock : M G bool :=
  select_out;;;
  aborted <- resumed (read_block 0 (sizeof_CBW - 16));;
  if aborted then ret false else
  i <- get_ms;;
  if block_refused (TotalLUNs (MS_Config i)) (CommandBlock (MS_State i)) then
    Endpoint_StallTransaction;;;
    select_in;;;
    Endpoint_StallTransaction;;;
    ret false
  else
    aborted <- resumed (fun n => cb <- block;; read_block 15 (CBW_SCSICommandLength cb) n);;
    if aborted then ret false else
    Endpoint_ClearOUT;;;
    ret true.

(** [while (Endpoint_IsStalled()) { USB_USBTask(); if (IsMassStoreReset) return; }]:
    whether it was left by the [return]. *)
Definition await_unstalled : M G bool :=
  while_ (fun _ : unit =>
    stalled <- Endpoint_IsStalled;;
    if stalled then
      USB_USBTask;;;
      reset <- is_reset;;
      ret (if reset then inr true else inl tt)
    else ret (inr false)) tt.

Definition MS_Device_ReturnCommandStatus : M G unit :=
  select_out;;;
  aborted <- await_unstalled;;
  if aborted then ret tt else
  select_in;;;
  aborted <- await_unstalled;;
  if aborted then ret tt else
  aborted <- resumed (fun n => Template_Endpoint_RW USB_USBTask load_status move_up Endpoint_ClearIN 0
                                 (sizeof MS_CommandStatusWrapper_t) (Some n));;
  if aborted then ret tt else
  Endpoint_ClearIN.

(** The status block of the command in the command block. *)
Definition status_of (cb : list Z) (result : bool) : MS_CommandStatusWrapper_t :=
  CSW MS_CSW_SIGNATURE (CBW_Tag cb) (CBW_DataTransferLength cb) (if result then MS_SCSI_COMMAND_Pass else MS_SCSI_COMMAND_Fail).

(** A command block was read: it is executed and answered. *)
Definition execute_command : M G unit :=
  cb <- block;;
  when (negb (Z.land (CBW_Flags cb) MS_COMMAND_DIR_DATA_IN =? 0)) select_in;;;
  SCSICommandResult <- CALLBACK_MS_Device_SCSICommandReceived;;
  cb' <- block;;
  mod_ms (set_status (status_of cb' SCSICommandResult));;;
  when (negb SCSICommandResult && negb (CBW_DataTransferLength cb' =? 0)) Endpoint_StallTransaction;;;
  MS_Device_ReturnCommandStatus.

Definition reset_interface : M G unit :=
  i <- get_ms;;
  let o := Entry_Address (DataOUTEndpoint (MS_Config i)) in
  let n := Entry_Address (DataINEndpoint (MS_Config i)) in
  Endpoint_ResetEndpoint o;;;
  Endpoint_ResetEndpoint n;;;
  Endpoint_SelectEndpoint o;;;
  Endpoint_ClearStall;;;
  Endpoint_ResetDataToggle;;;
  Endpoint_SelectEndpoint n;;;
  Endpoint_ClearStall;;;
  Endpoint_ResetDataToggle;;;
  mod_ms (set_reset false).

Definition MS_Device_USBTask : M G unit :=
  configured <- is_DeviceState DEVICE_STATE_Configured;;
  if negb configured then ret tt else
  select_out;;;
  out <- Endpoint_IsOUTReceived;;
  when out (
    ok <- MS_Device_ReadInCommandBlock;;
    when ok execute_command);;;
  reset <- is_reset;;
  when reset reset_interface.

Definition MS_Device_ConfigureEndpoints : M G bool :=
  mmodify (fun g => put_ms (MsInfo
    (MsConfig (MS_InterfaceNumber (MS_Config (ms g))) (bulk (DataINEndpoint (MS_Config (ms g))))
              (bulk (DataOUTEndpoint (MS_Config (ms g)))) (TotalLUNs (MS_Config (ms g))))
    (MsState (replicate 31 0) (CSW 0 0 0 0) false)) g);;;
  i <- get_ms;;
  ok <- Endpoint_ConfigureEndpointTable [DataINEndpoint (MS_Config i)];;
  if negb ok then ret false else
  Endpoint_ConfigureEndpointTable [DataOUTEndpoint (MS_Config i)].

Definition MS_Device_ProcessControlRequest : M G unit :=
  setup <- Endpoint_IsSETUPReceived;;
  if negb setup then ret tt else
  r <- get_request;;
  i <- get_ms;;
  if negb (wIndex r =? MS_InterfaceNumber (MS_Config i)) then ret tt else
  if bRequest r =? MS_REQ_MassStorageReset then
    when (bmRequestType r =? reqtype REQDIR_HOSTTODEVICE REQTYPE_CLASS REQREC_INTERFACE) (
      Endpoint_ClearSETUP;;;
      Endpoint_ClearStatusStage;;;
      mod_ms (set_reset true))
  else if bRequest r =? MS_REQ_GetMaxLUN then
    when (bmRequestType r =? reqtype REQDIR_DEVICETOHOST REQTYPE_CLASS REQREC_INTERFACE) (
      Endpoint_ClearSETUP;;;
      await_in;;;
      Endpoint_Write_8 (TotalLUNs (MS_Config i) - 1);;;
      Endpoint_ClearIN;;;
      Endpoint_ClearStatusStage)
  else ret tt.
End Driver.

(** ** No access outside the blocks *)

Section Safety.
Context {G : Type} `{UsbStateOk G} `{!MsDevice G} `{!MsDeviceOk G} `{Avr} (p : platform).
Context (Inv : G -> Prop) `{!UsbInv Inv}.
Context (command : M G bool) (task : M G unit).

(** The rest of the objects does not depend on the interface. *)
Context (Hput : forall i g, Inv g -> Inv (put_ms i g)) (Hms : forall u g, ms (put_usb u g) = ms g).

(** The command block has its 31 bytes, and satisfies [K]. *)
Definition block_inv (K : list Z -> Prop) (g : G) : Prop :=
  let cb := CommandBlock (MS_State (ms g)) in Inv g /\ length cb = 31%nat /\ Forall is_u8 cb /\ K cb.

#[local] Instance block_inv_usb K : UsbInv (block_inv K).
Proof.
  split.
  - intros g [Hi _]. by apply inv_request.
  - intros u g (Hi & Hl & Hk) Hu. unfold block_inv. rewrite Hms. split; [by apply inv_put|done].
Qed.

(** The task may do anything but touch the command block. *)
Context (Htask : forall K, safe (block_inv K) p task).
Context (Hcommand : safe (block_inv (fun _ => True)) p command).

Lemma safe_get_ms K : safe (block_inv K) p (get_ms (G := G)).
Proof. apply safe_seq; [apply safe_get|intros g; apply safe_ret]. Qed.
Lemma safe_is_reset K : safe (block_inv K) p (is_reset (G := G)).
Proof. apply safe_seq; [apply safe_get_ms|intros i; apply safe_ret]. Qed.
Lemma safe_mod_ms K f : (forall s, CommandBlock (f s) = CommandBlock s) -> safe (block_inv K) p (mod_ms (G := G) f).
Proof.
  intros Hf w (Hi & Hl & Hk). apply wp_modify. cbn [st]. unfold block_inv. rewrite ms_put. cbn [MS_State].
  rewrite Hf. split; [by apply Hput|done].
Qed.
Lemma safe_select_out K : safe (block_inv K) p (select_out (G := G)).
Proof. apply safe_seq; [apply safe_get_ms|]. intros i. apply safe_wr. Qed.
Lemma safe_select_in K : safe (block_inv K) p (select_in (G := G)).
Proof. apply safe_seq; [apply safe_get_ms|]. intros i. apply safe_wr. Qed.

(** Stores from [base] on keep [K]. *)
Definition kept (K : list Z -> Prop) (base : Z) : Prop := forall cb i v, K cb -> base <= i -> K (<[Z.to_nat i := v]> cb).

#[local] Instance bounded_block K base : 0 <= base -> kept K base ->
  Bounded (block_inv K) p (store_block (G := G) base) move_up (fun i n => 0 <= i /\ base + i + n <= 31).
Proof.
  intros Hb Hkept i n Hn [Hi Hr] w (HI & Hl & Hu & Hk). unfold store_block, Endpoint_Read_8, block, get_ms, mod_ms.
  apply wp_bind, wp_rd. intros v Hv. apply wp_bind, wp_bind, wp_bind, wp_get, wp_ret, wp_ret. cbn [st hist].
  rewrite aset_Some by lia. apply wp_bind, (wp_lift _ _ _ _ _ _ eq_refl), wp_bind, wp_modify, wp_ret. cbn [st].
  unfold block_inv. rewrite ms_put. cbn [MS_State set_block CommandBlock]. rewrite length_insert.
  split; [split_and!; [by apply Hput|done| |apply Hkept; [done|lia]]|unfold move_up; lia].
  apply Forall_insert; [done|]. rewrite Hv. by apply reg_wrap_u8.
Qed.

Lemma safe_resumed K (call : Z -> M G (Endpoint_Stream_RW_ErrorCodes_t * Z * option Z)) n : 0 <= n ->
  (forall k, 0 <= k <= n -> safe_to (block_inv K) p (fun r => exists k', r.2 = Some k' /\ 0 <= k' <= n) (call k)) ->
  safe (block_inv K) p (resumed call).
Proof.
  intros Hn Hcall. apply (safe_to_safe _ _ (fun _ => True)), (safe_to_while _ _ (fun k => 0 <= k <= n)); [|lia].
  intros k Hk. eapply safe_to_bind; [by apply Hcall|]. intros [[code b] bp] (k' & Hbp & Hk'). cbn [snd] in Hbp. subst bp.
  destruct code; try (by apply safe_to_ret). apply safe_then; [apply safe_is_reset|]. intros [|]; by apply safe_to_ret.
Qed.

Lemma safe_read_block K base n k : 0 <= base -> kept K base -> 0 <= n -> base + n <= 31 -> 0 <= k <= n ->
  safe_to (block_inv K) p (fun r => exists k', r.2 = Some k' /\ 0 <= k' <= n) (read_block (G := G) task base n k).
Proof.
  intros Hb Hkept Hn Hl Hk. pose proof (bounded_block K base Hb Hkept) as HB.
  apply (safe_rw_resumed _ _ _ _ (fun i n => 0 <= i /\ base + i + n <= 31)); [apply Htask|apply safe_clear_out|unfold is_u16; lia|done|].
  unfold move_up. lia.
Qed.

Lemma safe_ReadInCommandBlock : safe (block_inv (fun _ => True)) p (MS_Device_ReadInCommandBlock (G := G) task).
Proof.
  unfold MS_Device_ReadInCommandBlock. apply safe_seq; [apply safe_select_out|intros _].
  apply safe_seq; [apply (safe_resumed _ _ 15); [lia|intros k Hk; by apply safe_read_block]|]. intros [|]; [apply safe_ret|].
  intros w Hw. apply wp_bind, wp_bind, wp_get, wp_ret. destruct (block_refused _ _) eqn:Er.
  { assert (safe (block_inv (fun _ => True)) p
      (Endpoint_StallTransaction (G := G);;; select_in;;; Endpoint_StallTransaction;;; ret false)) as Hs
      by (unfold Endpoint_StallTransaction; safe; apply safe_select_in). by apply Hs. }
  unfold block_refused in Er. rewrite !orb_false_iff in Er. destruct Er as [[_ E0] E16].
  set (L := CBW_SCSICommandLength (CommandBlock (MS_State (ms (st w))))) in *.
  set (K := fun cb => CBW_SCSICommandLength cb = L).
  assert (kept K 15) as Hkept.
  { intros cb i v Hcb Hi. unfold K, CBW_SCSICommandLength in *. by rewrite list_lookup_insert_ne by lia. }
  assert (0 <= L <= 16) as HL.
  { destruct Hw as (_ & Hl & Hu & _). split; [|lia]. unfold L, CBW_SCSICommandLength.
    destruct (lookup_lt_is_Some_2 (CommandBlock (MS_State (ms (st w)))) 14) as [x Hx]; [lia|]. rewrite Hx. cbn.
    apply (Forall_lookup_1 _ _ _ _ Hu) in Hx. unfold is_u8 in Hx. lia. }
  assert (safe (block_inv K) p (aborted <- resumed (fun n => cb <- block;; read_block task 15 (CBW_SCSICommandLength cb) n);;
    if aborted then ret false else Endpoint_ClearOUT;;; ret true)) as Hs.
  { apply safe_seq; [|intros [|]; safe]. apply (safe_resumed _ _ L); [lia|]. intros k Hk w1 Hw1.
    pose proof Hw1 as (_ & _ & _ & HK). apply wp_bind. unfold block. apply wp_bind, wp_bind, wp_get, wp_ret, wp_ret. rewrite HK.
    by apply safe_read_block; [lia|done|lia|lia|done|]. }
  eapply wp_mono; [apply Hs|]; [by destruct Hw as (? & ? & ? & _); split_and!|]. intros a w' (? & ? & ? & _). by split_and!.
Qed.

#[local] Instance bounded_status K :
  Bounded (block_inv K) p (load_status (G := G)) move_up (fun i n => 0 <= i /\ i + n <= 13).
Proof.
  intros i n Hn [Hi Hr]. unfold load_status. apply safe_then; [apply safe_get_ms|]. intros x.
  apply safe_send_byte; [rewrite pack_length; cbn; lia|]. unfold move_up. lia.
Qed.

Lemma safe_await_unstalled : safe (block_inv (fun _ => True)) p (await_unstalled (G := G) task).
Proof. unfold await_unstalled, Endpoint_IsStalled. safe; first [apply Htask|apply safe_is_reset]. Qed.

Lemma safe_ReturnCommandStatus : safe (block_inv (fun _ => True)) p (MS_Device_ReturnCommandStatus (G := G) task).
Proof.
  unfold MS_Device_ReturnCommandStatus.
  apply safe_seq; [apply safe_select_out|intros _]. apply safe_seq; [apply safe_await_unstalled|intros [|]; [apply safe_ret|]].
  apply safe_seq; [apply safe_select_in|intros _]. apply safe_seq; [apply safe_await_unstalled|intros [|]; [apply safe_ret|]].
  apply safe_seq; [|intros [|]; safe]. change (sizeof MS_CommandStatusWrapper_t) with 13.
  apply (safe_resumed _ _ 13); [lia|]. intros k Hk.
  apply (safe_rw_resumed _ _ _ _ (fun i n => 0 <= i /\ i + n <= 13)); [apply Htask|apply safe_clear_in|unfold is_u16; lia|done|].
  unfold move_up. lia.
Qed.

Lemma safe_block K : safe (block_inv K) p (block (G := G)).
Proof. apply safe_seq; [apply safe_get_ms|intros i; apply safe_ret]. Qed.

Lemma safe_execute : safe (block_inv (fun _ => True)) p (execute_command (G := G) command task).
Proof.
  unfold execute_command, Endpoint_StallTransaction. apply safe_seq; [apply safe_block|intros cb].
  apply safe_seq; [destruct (negb _); [apply safe_select_in|apply safe_ret]|intros _].
  apply safe_seq; [apply Hcommand|intros r]. apply safe_seq; [apply safe_block|intros cb'].
  apply safe_seq; [by apply safe_mod_ms|intros _]. apply safe_seq; [destruct (_ && _); [apply safe_reg_or|apply safe_ret]|intros _].
  apply safe_ReturnCommandStatus.
Qed.

Lemma safe_reset_interface : safe (block_inv (fun _ => True)) p (reset_interface (G := G)).
Proof.
  unfold reset_interface, Endpoint_ResetEndpoint, Endpoint_SelectEndpoint, Endpoint_ClearStall, Endpoint_ResetDataToggle.
  apply safe_seq; [apply safe_get_ms|intros i]. repeat (apply safe_seq; [safe|intros _]). by apply safe_mod_ms.
Qed.
End Safety.

(** C24: the mass storage driver keeps the host inside its objects, as long as the
    management task run between packets leaves the command block alone.  Whatever
    bytes arrive as a command block and whatever the hardware answers, the
    task stores them inside the 31 bytes of the block (the second part of a
    command, whose length the host chooses, included), and its status block
    goes out from inside its 13 bytes; the block keeps holding 31 bytes.  The
    same holds of the control requests, and configuring the endpoints
    establishes it.  Otherwise the management task may do anything; what happens
    when it configures the interface in the middle of a command is computed below. *)
Theorem ms_driver_safe {G} `{UsbStateOk G} `{!MsDevice G} `{!MsDeviceOk G} `{Avr} (p : platform)
    (Inv : G -> Prop) `{!UsbInv Inv} (command : M G bool) (task : M G unit) :
  (forall i g, Inv g -> Inv (put_ms i g)) -> (forall u g, ms (put_usb u g) = ms g) ->
  (forall K, safe (block_inv Inv K) p task) -> safe (block_inv Inv (fun _ => True)) p command ->
  safe (block_inv Inv (fun _ => True)) p (MS_Device_USBTask command task) /\
  safe (block_inv Inv (fun _ => True)) p MS_Device_ProcessControlRequest /\
  (forall w, Inv (st w) -> wp True MS_Device_ConfigureEndpoints (fun _ w' => block_inv Inv (fun _ => True) (st w')) p w).
Proof.
  intros Hput Hms Htask Hcommand. pose proof (block_inv_usb Inv Hms) as HU. split_and!.
  - unfold MS_Device_USBTask, is_DeviceState, Endpoint_IsOUTReceived. apply safe_seq; [safe|intros [|]; [|apply safe_ret]].
    apply safe_seq; [apply safe_select_out|intros _]. apply safe_seq; [safe|intros out].
    apply safe_seq; [|intros _; apply safe_seq; [apply safe_is_reset|intros [|]; [by apply safe_reset_interface|apply safe_ret]]].
    destruct out; [|apply safe_ret]. apply safe_seq; [by apply safe_ReadInCommandBlock|intros [|]; [by apply safe_execute|apply safe_ret]].
  - unfold MS_Device_ProcessControlRequest, Endpoint_IsSETUPReceived, Endpoint_ClearSETUP, await_in, Endpoint_IsINReady, Endpoint_Write_8.
    apply safe_seq; [safe|intros [|]; [|apply safe_ret]]. apply safe_request_then; [done|]. intros r _.
    apply safe_seq; [apply safe_get_ms|intros i]. destruct (negb _); [apply safe_ret|].
    destruct (_ =? _); [destruct (_ =? _); [|apply safe_ret]|destruct (_ =? _); [destruct (_ =? _); [safe|apply safe_ret]|apply safe_ret]].
    do 2 (apply safe_seq; [safe|intros _]). by apply safe_mod_ms.
  - intros w Hw. unfold MS_Device_ConfigureEndpoints. apply wp_bind, wp_modify. cbn [st].
    set (g := put_ms _ _). assert (block_inv Inv (fun _ => True) g) as Hg.
    { unfold block_inv, g. rewrite ms_put. cbn [MS_State CommandBlock]. split_and!; [by apply Hput|done|by apply (bool_decide_unpack _)|done]. }
    assert (safe (block_inv Inv (fun _ => True)) p (
      i <- get_ms;; ok <- Endpoint_ConfigureEndpointTable [DataINEndpoint (MS_Config i)];;
      if negb ok then ret false else Endpoint_ConfigureEndpointTable [DataOUTEndpoint (MS_Config i)])) as Hs
      by (unfold Endpoint_ConfigureEndpointTable; safe; apply safe_get_ms).
    by apply Hs.
Qed.

(** ** A command and its status *)

Section Cycle.
Context {G : Type} `{UsbStateOk G} `{!MsDevice G} `{!MsDeviceOk G} `{AvrOk} (p : platform) (task : M G unit).
Implicit Types w : world G.

(** The wait for an endpoint that is ready at the first poll. *)
Lemma wp_wait_ready nf Q w :
  (forall rds, Forall is_read rds -> read_from UEDATX rds = [] ->
     bit_tst (reg_wrap UEINTX (respond p (rds ++ hist w) UEINTX))
       (if bit_tst (reg_wrap UECFG0X (respond p (tail rds ++ hist w) UECFG0X)) EPDIR then TXINI else RXOUTI) = true) ->
  (nf \/ (0 < fuel p)%nat) ->
  (forall rds, Forall is_read rds -> read_from UEDATX rds = [] -> Q ENDPOINT_READYWAIT_NoError (World (st w) (rds ++ hist w))) ->
  wp nf Endpoint_WaitUntilReady Q p w.
Proof.
  intros Hready Hf HQ. unfold Endpoint_WaitUntilReady, USB_Device_GetFrameNumber. apply wp_bind, wp_rd. intros f _. cbn [st hist].
  apply wp_bind, wp_fuel. destruct (fuel p) as [|m]; [by destruct Hf; [|lia]|]. cbn [loop].
  apply wp_bind. unfold Endpoint_GetEndpointDirection. apply wp_bind, wp_bind, wp_reg_bit. intros c Hc. cbn [st hist] in *. apply wp_ret.
  assert ((if (if bit_tst c EPDIR then ENDPOINT_DIR_IN else ENDPOINT_DIR_OUT) =? ENDPOINT_DIR_IN
           then Endpoint_IsINReady else Endpoint_IsOUTReceived) =
          reg_bit (G := G) UEINTX (if bit_tst c EPDIR then TXINI else RXOUTI)) as -> by (by destruct (bit_tst c EPDIR)).
  apply wp_bind, wp_reg_bit. intros v Hv. cbn [st hist] in *.
  pose proof (Hready [Rd UECFG0X c; Rd UDFNUM f]) as Hr. cbn [app tail] in Hr. rewrite <- Hv, <- Hc in Hr.
  rewrite Hr; [|by repeat constructor|done]. apply wp_ret, wp_ret. apply (HQ [_; _; _]); [by repeat constructor|done].
Qed.

(** A stream through an endpoint whose bank suffices: [I j] holds after [j] bytes. *)
Lemma wp_rw_allowed {B} nf (transfer : B -> M G B) move clear (I : nat -> B -> world G -> Prop) (n : nat) b Q w :
  Z.of_nat n < 65536 -> (nf \/ (n < fuel p)%nat) ->
  wp nf Endpoint_WaitUntilReady (fun c w1 => c = ENDPOINT_READYWAIT_NoError /\ I 0%nat (move 0 b) w1) p w ->
  (forall j b' w1, (j < n)%nat -> I j b' w1 -> let v := reg_wrap UEINTX (respond p (hist w1) UEINTX) in
     bit_tst v RWAL = true /\
     wp nf (transfer b') (fun b2 w2 => I (S j) (move 1 b2) w2) p (World (st w1) (Rd UEINTX v :: hist w1))) ->
  (forall b' w', I n b' w' -> Q (ENDPOINT_RWSTREAM_NoError, b', Some 0) w') ->
  wp nf (Template_Endpoint_RW task transfer move clear b (Z.of_nat n) (Some 0)) Q p w.
Proof.
  intros Hn Hf Hwait Hstep HQ. unfold Template_Endpoint_RW. apply wp_bind. eapply wp_mono; [exact Hwait|].
  intros c w1 [-> HI]. rewrite bool_decide_true by done. cbn [negb]. rewrite Z.sub_0_r, u16_small by (unfold is_u16; lia).
  apply (wp_while_either nf p (fun x w' => exists j, (j <= n)%nat /\ I j x.1.1 w' /\ x.1.2 = Z.of_nat (n - j) /\ x.2 = Z.of_nat j)
    (fun x _ => Z.to_nat x.1.2)).
  - intros [[b2 len] cnt] w2 (j & Hj & HIj & Hlen & Hcnt). cbn [fst snd] in *. subst len cnt.
    destruct (Z.eqb_spec (Z.of_nat (n - j)) 0) as [E|E]; [apply wp_ret, HQ; by replace n with j by lia|].
    destruct (Hstep j b2 w2 ltac:(lia) HIj) as [Hrw Htr]. apply wp_bind. unfold Endpoint_IsReadWriteAllowed. apply wp_reg_bit.
    intros v Hv. rewrite <- Hv in Hrw, Htr. rewrite Hrw. cbn [negb]. apply wp_bind. eapply wp_mono; [exact Htr|].
    intros b3 w3 H3. apply wp_ret. rewrite !u16_small by (unfold is_u16; lia). split; [|cbn [fst snd]; lia].
    exists (S j). cbn [fst snd]. split_and!; [lia|done|lia|lia].
  - exists 0%nat. cbn [fst snd]. rewrite Nat.sub_0_r. split_and!; [lia|done|done|done].
  - destruct Hf as [?|?]; [by left|right]. cbn [fst snd]. lia.
Qed.

(** The objects with another command block. *)
Definition with_block (cb : list Z) (g : G) : G := put_ms (MsInfo (MS_Config (ms g)) (set_block cb (MS_State (ms g)))) g.
Lemma with_block_same g : with_block (CommandBlock (MS_State (ms g))) g = g.
Proof. unfold with_block. destruct (ms g) as [c [cb cs r]] eqn:E. cbn. unfold set_block. cbn. rewrite <- E. apply put_ms_same. Qed.
Lemma with_block_block cb g : CommandBlock (MS_State (ms (with_block cb g))) = cb.
Proof. unfold with_block. by rewrite ms_put. Qed.
Lemma with_block_twice cb cb' g : with_block cb (with_block cb' g) = with_block cb g.
Proof. unfold with_block. rewrite ms_put, put_ms_put. done. Qed.

(** From [h0] on, until a packet is acknowledged, endpoint [ep] holds a packet of
    the bytes [bytes]. *)
Definition packet_waits (h0 : log) (ep : Z) (bytes : list Z) : Prop := forall new,
  Forall (fun x => x.1 = UENUM) (writes new) -> selected (new ++ h0) = ep ->
  let h := new ++ h0 in let k := length (read_from UEDATX new) in
  bit_tst (reg_wrap UECFG0X (respond p h UECFG0X)) EPDIR = false /\
  bit_tst (reg_wrap UEINTX (respond p h UEINTX)) RXOUTI = true /\
  ((k < length bytes)%nat -> bit_tst (reg_wrap UEINTX (respond p h UEINTX)) RWAL = true /\
     bytes !! k = Some (u8 (respond p h UEDATX))).

(** The log [new] since [h0]: the writes [ws], after which [ep] is selected, and
    the first [k] bytes of the packet read. *)
Definition reading (h0 : log) (ep : Z) (ws : list (reg * Z)) (bytes : list Z) (k : nat) (new : log) : Prop :=
  writes new = ws /\ selected (new ++ h0) = ep /\ read_from UEDATX new = take k bytes.

Lemma reading_rds h0 ep ws bytes k new rds : reading h0 ep ws bytes k new -> Forall is_read rds -> read_from UEDATX rds = [] ->
  reading h0 ep ws bytes k (rds ++ new).
Proof.
  intros (Hw & Hs & Hr) Hrd Hn. split_and!.
  - by rewrite writes_app, (writes_reads rds), app_nil_r.
  - rewrite <- app_assoc. clear -Hs Hrd. induction Hrd as [|[r v|r v] rds He _ IH]; done.
  - unfold read_from in *. by rewrite omap_app, rev_app_distr, Hn, app_nil_r.
Qed.

Lemma wp_read_part nf h0 ep ws bytes base n new Q w : packet_waits h0 ep bytes -> Forall (fun x => x.1 = UENUM) ws -> hist w = new ++ h0 ->
  reading h0 ep ws bytes base new -> (base + n <= length bytes)%nat -> (length bytes <= 31)%nat ->
  length (CommandBlock (MS_State (ms (st w)))) = 31%nat -> (nf \/ (n < fuel p)%nat) ->
  (forall new', reading h0 ep ws bytes (base + n) new' ->
     Q (ENDPOINT_RWSTREAM_NoError, Z.of_nat n, Some 0)
       (World (with_block (patch base (take n (drop base bytes)) (CommandBlock (MS_State (ms (st w))))) (st w)) (new' ++ h0))) ->
  wp nf (read_block task (Z.of_nat base) (Z.of_nat n) 0) Q p w.
Proof.
  intros Hpk Hws Hh Hrd Hn Hb Hcb Hf HQ.
  assert (forall new', writes new' = ws -> Forall (fun x => x.1 = UENUM) (writes new')) as Hall by (by intros ? ->). set (cb := CommandBlock (MS_State (ms (st w)))) in *. unfold read_block.
  apply (wp_rw_allowed nf _ _ _ (fun j b' w' => b' = Z.of_nat j /\ exists new', reading h0 ep ws bytes (base + j) new' /\
    w' = World (with_block (patch base (take j (drop base bytes)) cb) (st w)) (new' ++ h0))); [lia|done|..].
  - assert (forall rds, Forall is_read rds -> read_from UEDATX rds = [] -> reading h0 ep ws bytes base (rds ++ new)) as Hrds
      by (intros; by apply reading_rds).
    apply wp_wait_ready.
    + intros rds Hr Hn'. rewrite Hh, !app_assoc. destruct (Hrds rds Hr Hn') as (H1' & H2' & _).
      assert (reading h0 ep ws bytes base (tail rds ++ new)) as (H3' & H4' & _).
      { apply Hrds; [by destruct Hr|]. destruct rds as [|[r v|r v] rds]; [done| |done]. cbn [tail].
        destruct (decide (r = UEDATX)) as [->|Hne]; [rewrite read_from_rd in Hn'; by destruct (read_from UEDATX rds)|].
        by rewrite read_from_rd_ne in Hn'. }
      destruct (Hpk _ (Hall _ H3') H4') as (-> & _). by destruct (Hpk _ (Hall _ H1') H2') as (_ & -> & _).
    + destruct Hf as [?|?]; [by left|right; lia].
    + intros rds Hr Hn'. split; [done|]. split; [done|]. exists (rds ++ new). rewrite Nat.add_0_r. split; [by apply Hrds|].
      rewrite take_0, patch_nil. unfold cb. rewrite with_block_same. by rewrite Hh, app_assoc.
  - intros j b' w1 Hj (-> & new' & Hrd' & ->) v. pose proof Hrd' as (Hw' & Hs' & Hr').
    assert (length (read_from UEDATX new') = (base + j)%nat) as Hlen by (rewrite Hr', length_take; lia).
    destruct (Hpk new' (Hall _ Hw') Hs') as (_ & _ & Hrw). rewrite Hlen in Hrw. destruct (Hrw ltac:(lia)) as [Hallowed _].
    split; [exact Hallowed|]. assert (reading h0 ep ws bytes (base + j) (Rd UEINTX v :: new')) as Hrd2
      by (apply (reading_rds _ _ _ _ _ _ [Rd UEINTX v]); [done|by repeat constructor|done]).
    pose proof Hrd2 as (Hw2 & Hs2 & Hr2). destruct (Hpk _ (Hall _ Hw2) Hs2) as (_ & _ & Hrw2).
    rewrite Hr2, length_take in Hrw2. replace (min (base + j) (length bytes)) with (base + j)%nat in Hrw2 by lia.
    destruct (Hrw2 ltac:(lia)) as [_ Hbyte]. cbn [app hist st] in *.
    unfold store_block, Endpoint_Read_8, block, get_ms, mod_ms. apply wp_bind, wp_rd. intros x Hx. cbn [st hist reg_wrap] in *.
    rewrite <- Hx in Hbyte. apply wp_bind, wp_bind, wp_bind, wp_get, wp_ret, wp_ret. cbn [st hist]. rewrite with_block_block.
    set (bs := take j (drop base bytes)). assert (length bs = j) as Hbs by (unfold bs; rewrite length_take, length_drop; lia).
    rewrite aset_Some.
    2: { unfold patch. rewrite !length_app, length_take, length_drop. lia. }
    apply wp_bind, (wp_lift _ _ _ _ _ _ eq_refl), wp_bind, wp_modify, wp_ret. cbn [st hist].
    replace (Z.to_nat (Z.of_nat base + Z.of_nat j)) with (base + length bs)%nat by lia. rewrite patch_snoc by lia.
    split; [unfold move_up; lia|]. exists (Rd UEDATX x :: Rd UEINTX v :: new'). split.
    + split_and!; [by rewrite writes_rd|done|]. rewrite read_from_rd, Hr2. rewrite Nat.add_succ_r. symmetry. by apply take_S_r.
    + fold (with_block (patch base (bs ++ [x]) cb) (with_block (patch base bs cb) (st w))). rewrite with_block_twice.
      do 3 f_equal. unfold bs. symmetry. apply take_S_r. by rewrite lookup_drop.
  - intros b' w' (-> & new' & Hrd' & ->). by apply HQ.
Qed.

Lemma wp_resumed_once nf call Q w : (nf \/ (0 < fuel p)%nat) ->
  wp nf (call 0) (fun r w' => r.1.1 = ENDPOINT_RWSTREAM_NoError /\ Q false w') p w -> wp nf (resumed (G := G) call) Q p w.
Proof.
  intros Hf Hc. unfold resumed. apply wp_bind, wp_fuel. destruct (fuel p) as [|m]; [by destruct Hf; [|lia]|]. cbn [loop].
  apply wp_bind, wp_bind. eapply wp_mono; [exact Hc|]. intros [[code b] bp] w' [Hcode HQ]. cbn [fst] in Hcode. subst code.
  by apply wp_ret, wp_ret.
Qed.

(** The endpoints of the interface. *)
Definition out_ep (g : G) : Z := Z.land (Entry_Address (DataOUTEndpoint (MS_Config (ms g)))) ENDPOINT_EPNUM_MASK.
Definition in_ep (g : G) : Z := Z.land (Entry_Address (DataINEndpoint (MS_Config (ms g)))) ENDPOINT_EPNUM_MASK.

Lemma epnum_u8 a : u8 (Z.land a ENDPOINT_EPNUM_MASK) = Z.land a ENDPOINT_EPNUM_MASK.
Proof.
  apply u8_small. unfold ENDPOINT_EPNUM_MASK, is_u8. change 0x0F with (Z.ones 4). rewrite Z.land_ones by lia.
  change (2 ^ 4) with 16. pose proof (Z.mod_pos_bound a 16). lia.
Qed.

Lemma wp_select_out nf Q w : Q tt (World (st w) (Wr UENUM (out_ep (st w)) :: hist w)) -> wp nf select_out Q p w.
Proof.
  intros HQ. apply wp_bind, wp_bind, wp_get, wp_ret. unfold Endpoint_SelectEndpoint. apply wp_wr. cbn [reg_wrap]. by rewrite epnum_u8.
Qed.
Lemma wp_select_in nf Q w : Q tt (World (st w) (Wr UENUM (in_ep (st w)) :: hist w)) -> wp nf select_in Q p w.
Proof.
  intros HQ. apply wp_bind, wp_bind, wp_get, wp_ret. unfold Endpoint_SelectEndpoint. apply wp_wr. cbn [reg_wrap]. by rewrite epnum_u8.
Qed.

(** The header of a block decides whether it is refused. *)
Lemma header_decides luns cb bytes : (15 <= length bytes)%nat ->
  let cb1 := patch 0 (take 15 bytes) cb in
  block_refused luns cb1 = block_refused luns bytes /\ CBW_SCSICommandLength cb1 = CBW_SCSICommandLength bytes.
Proof.
  intros Hl cb1. assert (forall k, (k < 15)%nat -> cb1 !! k = bytes !! k) as Hk.
  { intros k Hk. unfold cb1, patch. rewrite take_0, app_nil_l. rewrite lookup_app_l by (rewrite length_take; lia). by rewrite lookup_take_lt. }
  assert (take 4 cb1 = take 4 bytes) as H4.
  { unfold cb1, patch. rewrite take_0, app_nil_l. rewrite take_app_le by (rewrite length_take; lia). rewrite take_take. f_equal. }
  unfold block_refused, CBW_Signature, CBW_LUN, CBW_Flags, CBW_SCSICommandLength. by rewrite H4, !Hk by lia.
Qed.

(** What reading a command block did: refused, both endpoints are stalled; taken,
    the block holds the header and the command, and the packet is acknowledged. *)
Definition read_result (bytes : list Z) (g : G) (ok : bool) (g' : G) (ws : list (reg * Z)) : Prop :=
  let cb := CommandBlock (MS_State (ms g)) in
  if block_refused (TotalLUNs (MS_Config (ms g))) bytes
  then ok = false /\ g' = with_block (patch 0 (take 15 bytes) cb) g /\ exists c c',
         bit_tst c STALLRQ = true /\ bit_tst c' STALLRQ = true /\
         ws = [(UENUM, out_ep g); (UECONX, c); (UENUM, in_ep g); (UECONX, c')]
  else ok = true /\ g' = with_block (patch 0 (take (15 + Z.to_nat (CBW_SCSICommandLength bytes)) bytes) cb) g /\
         exists v v', cleared [RXOUTI; FIFOCON] v v' /\ ws = [(UENUM, out_ep g); (UEINTX, v')].

Lemma stall_bit c : bit_tst (u8 (bit_set c STALLRQ)) STALLRQ = true.
Proof. pose proof ueconx_bit as Hb. rewrite bit_tst_testbit, testbit_u8, <- bit_tst_testbit, bit_tst_set, Z.eqb_refl by lia. done. Qed.

Lemma wp_ReadInCommandBlock nf bytes Q w : let g := st w in
  packet_waits (hist w) (out_ep g) bytes -> length bytes = 31%nat -> Forall is_u8 bytes ->
  length (CommandBlock (MS_State (ms g))) = 31%nat -> (nf \/ (16 < fuel p)%nat) ->
  (forall ok g' w' ws, read_result bytes g ok g' ws -> did w w' g' ws -> Q ok w') ->
  wp nf (MS_Device_ReadInCommandBlock task) Q p w.
Proof.
  intros g Hpk Hl Hu Hcb Hf HQ. unfold MS_Device_ReadInCommandBlock. apply wp_bind, wp_select_out. fold g.
  assert (nf \/ (0 < fuel p)%nat) as Hf0 by (destruct Hf; [by left|right; lia]).
  apply wp_bind, wp_resumed_once; [done|]. change 0 with (Z.of_nat 0) at 1. change (sizeof_CBW - 16) with (Z.of_nat 15).
  eapply (wp_read_part nf (hist w) (out_ep g) [(UENUM, out_ep g)] bytes 0 15 [Wr UENUM (out_ep g)]); [done|by apply Forall_singleton|done| |lia|lia|done|destruct Hf; [by left|right; lia]|].
  { by split_and!. }
  cbn [st]. intros n1 Hn1. split; [done|]. rewrite drop_0. set (cb1 := patch 0 (take 15 bytes) _).
  apply wp_bind, wp_bind, wp_get, wp_ret. cbn [st]. unfold with_block at 1 2. rewrite !ms_put. cbn [MS_Config MS_State set_block CommandBlock].
  destruct (header_decides (TotalLUNs (MS_Config (ms g))) (CommandBlock (MS_State (ms g))) bytes ltac:(lia)) as [Href Hlen].
  fold cb1 in Href, Hlen. fold g. rewrite Href. unfold read_result in HQ. destruct (block_refused _ bytes) eqn:Er.
  - unfold Endpoint_StallTransaction. apply wp_bind, wp_reg_or. intros c _. apply wp_bind, wp_select_in. apply wp_bind, wp_reg_or.
    intros c' _. apply wp_ret. cbn [st hist reg_wrap].
    assert (in_ep (with_block cb1 g) = in_ep g) as -> by (unfold in_ep, with_block; by rewrite ms_put).
    eapply HQ; [split_and!; [done|reflexivity|exists (u8 (bit_set c STALLRQ)), (u8 (bit_set c' STALLRQ)); split_and!; [apply stall_bit|apply stall_bit|reflexivity]]|].
    split; [done|]. exists (Wr UECONX (u8 (bit_set c' STALLRQ)) :: Rd UECONX c' :: Wr UENUM (in_ep g) :: Wr UECONX (u8 (bit_set c STALLRQ)) :: Rd UECONX c :: n1).
    destruct Hn1 as (Hw1 & _). split; [done|].
    by rewrite writes_wr, writes_rd, !writes_wr, writes_rd, Hw1.
  - unfold block_refused in Er. rewrite !orb_false_iff in Er. destruct Er as [[_ E0] E16].
    set (L := CBW_SCSICommandLength bytes) in *.
    assert (0 <= L <= 16) as HL.
    { split; [|lia]. unfold L, CBW_SCSICommandLength. destruct (lookup_lt_is_Some_2 bytes 14) as [x Hx]; [lia|]. rewrite Hx. cbn.
      apply (Forall_lookup_1 _ _ _ _ Hu) in Hx. unfold is_u8 in Hx. lia. }
    apply wp_bind, wp_resumed_once; [done|]. apply wp_bind. unfold block. apply wp_bind, wp_bind, wp_get, wp_ret, wp_ret. cbn [st].
    rewrite with_block_block, Hlen. fold L. rewrite <- (Z2Nat.id L) at 1 by lia. change 15 with (Z.of_nat 15).
    assert (length cb1 = 31%nat) as Hcb1 by (unfold cb1, patch; rewrite !length_app, !length_take, length_drop; lia).
    eapply (wp_read_part nf (hist w) (out_ep g) [(UENUM, out_ep g)] bytes 15 (Z.to_nat L) n1); [done|by apply Forall_singleton|done|done|lia|lia| |destruct Hf; [by left|right; lia]|].
    { cbn [st]. by rewrite with_block_block. }
    cbn [st]. intros n2 (Hw2 & _). split; [done|]. rewrite with_block_block, with_block_twice. unfold cb1. rewrite patch_patch by lia.
    destruct flag_facts as ((_ & B2 & _ & B4) & _). apply wp_bind, clear_flags_did; [done|done|]. intros v v' w2 Hc _ D2. apply wp_ret.
    cbn [st hist] in D2. eapply (HQ true); [split_and!; [done|reflexivity|by exists v, v']|].
    eapply (did_trans w _ w2 _ _ [(UENUM, out_ep g)] [(UEINTX, v')]); [|exact D2]. rewrite <- Hw2.
    split; [done|by exists n2].
Qed.

(** From [h0] on, until a packet is handed over: no endpoint is stalled, and
    endpoint [ep] takes [n] bytes. *)
Definition bank_free (h0 : log) (ep : Z) (n : nat) : Prop := forall new,
  Forall (fun x => x.1 = UENUM \/ x.1 = UEDATX) (writes new) -> let h := new ++ h0 in
  bit_tst (reg_wrap UECONX (respond p h UECONX)) STALLRQ = false /\
  (selected h = ep -> (length (written UEDATX new) < n)%nat ->
   bit_tst (reg_wrap UECFG0X (respond p h UECFG0X)) EPDIR = true /\
   bit_tst (reg_wrap UEINTX (respond p h UEINTX)) TXINI = true /\
   bit_tst (reg_wrap UEINTX (respond p h UEINTX)) RWAL = true).

Lemma wp_await_unstalled nf Q w : bit_tst (reg_wrap UECONX (respond p (hist w) UECONX)) STALLRQ = false ->
  (nf \/ (0 < fuel p)%nat) -> (forall v, Q false (World (st w) (Rd UECONX v :: hist w))) ->
  wp nf (await_unstalled task) Q p w.
Proof.
  intros Hs Hf HQ. unfold await_unstalled. apply wp_bind, wp_fuel. destruct (fuel p) as [|m]; [by destruct Hf; [|lia]|]. cbn [loop].
  apply wp_bind, wp_bind. unfold Endpoint_IsStalled. apply wp_reg_bit. intros v Hv. rewrite Hv, Hs. by apply wp_ret, wp_ret.
Qed.

Lemma wp_send_status nf h0 ep pre data Q w : bank_free h0 ep (length data) -> hist w = pre ++ h0 -> selected (hist w) = ep ->
  Forall (fun x => x.1 = UENUM) (writes pre) -> data = pack (CommandStatus (MS_State (ms (st w)))) -> Forall is_u8 data ->
  (0 < length data)%nat -> Z.of_nat (length data) < 65536 -> (nf \/ (length data < fuel p)%nat) ->
  (forall new, data_log new -> written UEDATX new = data ->
     Q (ENDPOINT_RWSTREAM_NoError, Z.of_nat (length data), Some 0) (World (st w) (new ++ hist w))) ->
  wp nf (Template_Endpoint_RW task load_status move_up Endpoint_ClearIN 0 (Z.of_nat (length data)) (Some 0)) Q p w.
Proof.
  intros Hfree Hh Hsel Hpre Hdata Hu Hpos Hwide Hf HQ.
  assert (written UEDATX pre = []) as Hpre0.
  { clear -Hpre. induction pre as [|[r v|r v] pre IH]; [done|by rewrite writes_rd in Hpre; rewrite written_rd; apply IH|].
    rewrite writes_wr in Hpre. apply Forall_app in Hpre as [H1 H2]. inversion_clear H2 as [|? ? Hr _]. cbn in Hr. subst r.
    rewrite written_wr_ne by done. by apply IH. }
  assert (forall new, data_log new -> (length (written UEDATX new) < length data)%nat ->
    bit_tst (reg_wrap UECFG0X (respond p (new ++ hist w) UECFG0X)) EPDIR = true /\
    bit_tst (reg_wrap UEINTX (respond p (new ++ hist w) UEINTX)) TXINI = true /\
    bit_tst (reg_wrap UEINTX (respond p (new ++ hist w) UEINTX)) RWAL = true) as Hok.
  { intros new Hlog Hlt. rewrite Hh, app_assoc. destruct (Hfree (new ++ pre)) as [_ Hf'].
    - rewrite writes_app, (data_log_writes new Hlog). apply Forall_app. split; [|apply Forall_fmap, Forall_true; by right].
      revert Hpre. apply Forall_impl. intros x ->. by left.
    - apply Hf'; [rewrite <- app_assoc, <- Hh; by rewrite data_log_selected|].
      unfold written in *. rewrite omap_app, rev_app_distr, Hpre0. by rewrite app_nil_l. }
  apply (wp_rw_allowed nf _ _ _ (fun j b' w' => b' = Z.of_nat j /\ exists new, data_log new /\ written UEDATX new = take j data /\
    w' = World (st w) (new ++ hist w))); [done|done|..].
  - apply (wp_wait_room p nf _ w (length data)); [intros new Hlog Hlt; by apply Hok|done|destruct Hf; [by left|right; lia]|].
    intros rds Hr. split; [done|]. split; [done|]. exists rds. split_and!; [by apply data_log_reads| |done].
    rewrite <- (app_nil_r rds), written_reads by done. done.
  - intros j b' w1 Hj (-> & new & Hlog & Hwr & ->) v. cbn [st hist] in *.
    assert (length (written UEDATX new) < length data)%nat as Hlt by (rewrite Hwr, length_take; lia).
    destruct (Hok new Hlog Hlt) as (_ & _ & Hrw). split; [exact Hrw|].
    destruct (lookup_lt_is_Some_2 data j Hj) as [x Hx].
    unfold load_status, get_ms. apply wp_bind, wp_bind, wp_get, wp_ret. cbn [st]. rewrite <- Hdata.
    unfold send_byte, Endpoint_Write_8, aget. rewrite decide_True, Nat2Z.id, Hx by lia. cbn [mlift].
    apply wp_bind, wp_ret, wp_bind, wp_wr, wp_ret. cbn [st hist reg_wrap].
    rewrite u8_small by (by eapply Forall_lookup_1). split; [unfold move_up; lia|].
    exists (Wr UEDATX x :: Rd UEINTX v :: new). split_and!; [by repeat constructor| |done].
    rewrite written_wr, written_rd, Hwr. symmetry. by apply take_S_r.
  - intros b' w' (-> & new & Hlog & Hwr & ->). apply HQ; [done|]. by rewrite Hwr, firstn_all.
Qed.

Lemma wp_ReturnCommandStatus nf Q w : let g := st w in
  bank_free (hist w) (in_ep g) 13 -> (nf \/ (13 < fuel p)%nat) ->
  (forall v v' w', cleared [TXINI; FIFOCON] v v' ->
     did w w' g ([(UENUM, out_ep g); (UENUM, in_ep g)] ++ ((UEDATX,.) <$> pack (CommandStatus (MS_State (ms g)))) ++ [(UEINTX, v')]) ->
     Q tt w') ->
  wp nf (MS_Device_ReturnCommandStatus task) Q p w.
Proof.
  intros g Hfree Hf HQ. unfold MS_Device_ReturnCommandStatus. set (data := pack (CommandStatus (MS_State (ms g)))) in *.
  assert (length data = 13%nat) as Hlen by (unfold data; by rewrite pack_length).
  assert (nf \/ (0 < fuel p)%nat) as Hf0 by (destruct Hf; [by left|right; lia]).
  apply wp_bind, wp_select_out, wp_bind. cbn [st hist]. fold g.
  apply wp_await_unstalled; [apply (Hfree [Wr UENUM (out_ep g)]); apply Forall_singleton; by left|done|]. intros u. cbn [st hist].
  apply wp_bind, wp_select_in, wp_bind. cbn [st hist]. fold g.
  apply wp_await_unstalled; [apply (Hfree [Wr UENUM (in_ep g); Rd UECONX u; Wr UENUM (out_ep g)]); by repeat constructor|done|].
  intros u'. cbn [st hist]. change (sizeof MS_CommandStatusWrapper_t) with (Z.of_nat 13). rewrite <- Hlen.
  set (pre := [Rd UECONX u'; Wr UENUM (in_ep g); Rd UECONX u; Wr UENUM (out_ep g)]).
  apply wp_bind, wp_resumed_once; [done|].
  apply (wp_send_status nf (hist w) (in_ep g) pre); [by rewrite Hlen|done|done|by repeat constructor|done|apply pack_u8|lia|lia|by rewrite Hlen|].
  intros new Hlog Hwr. split; [done|]. destruct flag_facts as ((B1 & _ & _ & B4) & _). cbn [st hist].
  apply clear_flags_did; [done|done|]. intros v v' w2 Hc _ D2. cbn [st] in D2. apply (HQ v v'); [done|].
  eapply (did_trans w (World (st w) (pre ++ hist w)) _ g); [apply (did_log w g pre)|].
  eapply did_trans; [|exact D2]. rewrite <- Hwr, <- (data_log_writes new Hlog). apply (did_log (World (st w) (pre ++ hist w))).
Qed.

Lemma bank_free_after h0 ep n new : bank_free h0 ep n -> Forall (fun x => x.1 = UENUM) (writes new) -> bank_free (new ++ h0) ep n.
Proof.
  intros Hfree Hw new' Hw'. rewrite app_assoc. destruct (Hfree (new' ++ new)) as [H1' H2'].
  - rewrite writes_app. apply Forall_app. split; [|done]. revert Hw. apply Forall_impl. intros x ->. by left.
  - split; [done|]. intros Hs Hn. apply H2'; [done|]. unfold written in *. rewrite omap_app, rev_app_distr, length_app.
    replace (length (rev (omap _ new))) with 0%nat; [lia|]. clear -Hw. rewrite length_rev.
    induction new as [|[r v|r v] new IH]; [done|by apply IH|]. rewrite writes_wr in Hw. apply Forall_app in Hw as [H1 H2].
    inversion_clear H2 as [|? ? Hr _]. cbn in Hr. subst r. by apply IH.
Qed.

(** The interface with another status block. *)
Definition with_status (c : MS_CommandStatusWrapper_t) (g : G) : G :=
  put_ms (MsInfo (MS_Config (ms g)) (set_status c (MS_State (ms g)))) g.

Lemma with_status_status c g : CommandStatus (MS_State (ms (with_status c g))) = c.
Proof. unfold with_status. by rewrite ms_put. Qed.

(** A callback without accesses of its own: [run] is what it does to the objects. *)
Context (command : M G bool) (run : G -> bool * G).
Context (Hcommand : forall w, command p w = Done (run (st w)).1 (World (run (st w)).2 (hist w))).

(** The outcome of a command block: its result, the objects, and the status that
    was returned, if any. *)
Definition outcome_of (bytes : list Z) (g : G) : G * option MS_CommandStatusWrapper_t :=
  let cb := CommandBlock (MS_State (ms g)) in
  if block_refused (TotalLUNs (MS_Config (ms g))) bytes then (with_block (patch 0 (take 15 bytes) cb) g, None) else
  let g1 := with_block (patch 0 (take (15 + Z.to_nat (CBW_SCSICommandLength bytes)) bytes) cb) g in
  let '(ok, g2) := run g1 in
  let c := status_of (CommandBlock (MS_State (ms g2))) ok in
  (with_status c g2, Some c).

(** The status of a command that failed with bytes left: the endpoint of its data is
    stalled. *)
Definition reports_stall (c : MS_CommandStatusWrapper_t) : bool :=
  (CSW_Status c =? MS_SCSI_COMMAND_Fail) && negb (CSW_DataTransferResidue c =? 0).
Definition to_host (cb : list Z) : bool := negb (Z.land (CBW_Flags cb) MS_COMMAND_DIR_DATA_IN =? 0).

(** The writes: a refused block stalls both endpoints.  Otherwise the packet is
    acknowledged, the endpoint of the data is selected and, where it has to be,
    stalled by [x], and the status goes out as one packet. *)
Definition data_writes (bytes : list Z) (g : G) (c : MS_CommandStatusWrapper_t) (x : Z) : list (reg * Z) :=
  (if to_host bytes then [(UENUM, in_ep g)] else []) ++ (if reports_stall c then [(UECONX, x)] else []).
Definition cycle_writes (bytes : list Z) (g : G) (o : option MS_CommandStatusWrapper_t) (ws : list (reg * Z)) : Prop :=
  match o with
  | None => exists c c', bit_tst c STALLRQ = true /\ bit_tst c' STALLRQ = true /\
      ws = [(UENUM, out_ep g); (UENUM, out_ep g); (UECONX, c); (UENUM, in_ep g); (UECONX, c')]
  | Some c => exists u u' x v v', cleared [RXOUTI; FIFOCON] u u' /\ bit_tst x STALLRQ = true /\ cleared [TXINI; FIFOCON] v v' /\
      ws = [(UENUM, out_ep g); (UENUM, out_ep g); (UEINTX, u')] ++ data_writes bytes g c x ++
           [(UENUM, out_ep g); (UENUM, in_ep g)] ++ ((UEDATX,.) <$> pack c) ++ [(UEINTX, v')]
  end.

(** The callback leaves the configuration and the reset flag alone. *)
Definition well_behaved (g : G) : Prop := let '(_, g2) := run g in
  MS_Config (ms g2) = MS_Config (ms g) /\ IsMassStoreReset (MS_State (ms g2)) = IsMassStoreReset (MS_State (ms g)).

Lemma status_stalls cb ok : reports_stall (status_of cb ok) = negb ok && negb (CBW_DataTransferLength cb =? 0).
Proof. by destruct ok. Qed.

Lemma wp_execute nf ok g2 Q w : let g := st w in let c := status_of (CommandBlock (MS_State (ms g2))) ok in
  run g = (ok, g2) -> well_behaved g ->
  (forall new, Forall (fun x => x.1 = UENUM \/ x.1 = UECONX) (writes new) -> bank_free (new ++ hist w) (in_ep g) 13) -> (nf \/ (13 < fuel p)%nat) ->
  (forall x v v' w', bit_tst x STALLRQ = true -> cleared [TXINI; FIFOCON] v v' ->
     did w w' (with_status c g2) (data_writes (CommandBlock (MS_State (ms g))) g c x ++ [(UENUM, out_ep g); (UENUM, in_ep g)] ++
       ((UEDATX,.) <$> pack c) ++ [(UEINTX, v')]) -> Q tt w') ->
  wp nf (execute_command command task) Q p w.
Proof.
  cbv zeta. intros Er. unfold well_behaved. rewrite Er. intros (Hcfg & _) Hfree Hf HQ.
  unfold execute_command. apply wp_bind. unfold block at 1. apply wp_bind, wp_bind, wp_get, wp_ret, wp_ret.
  fold (to_host (CommandBlock (MS_State (ms (st w))))). set (b := to_host _) in *.
  apply wp_bind. eapply (wp_mono _ _ _ (fun _ w1 => did w w1 (st w) (if b then [(UENUM, in_ep (st w))] else []))).
  { destruct b; [apply wp_select_in, did_wr|apply wp_ret, did_nothing]. }
  intros _ w1 D1. pose proof D1 as [S1 _]. apply wp_bind. unfold wp at 1. rewrite Hcommand, S1, Er. cbn [fst snd].
  apply wp_bind. unfold block. apply wp_bind, wp_bind, wp_get, wp_ret, wp_ret. cbn [st]. apply wp_bind. unfold mod_ms. apply wp_modify.
  cbn [st hist]. set (c := status_of _ ok) in *. fold (with_status c g2). rewrite <- status_stalls. fold c.
  set (w2 := World (with_status c g2) (hist w1)). assert (did w w2 (with_status c g2) (if b then [(UENUM, in_ep (st w))] else [])) as D2.
  { destruct D1 as (_ & n1 & Hh1 & Hw1). split; [done|]. by exists n1. }
  apply wp_bind. eapply (wp_mono _ _ _ (fun _ w3 => exists x, bit_tst x STALLRQ = true /\
    did w w3 (with_status c g2) (data_writes (CommandBlock (MS_State (ms (st w)))) (st w) c x))).
  { unfold data_writes. fold b. destruct (reports_stall c); cbn [when].
    - unfold Endpoint_StallTransaction. apply wp_reg_or. intros y _. exists (u8 (bit_set y STALLRQ)). split; [apply stall_bit|].
      eapply did_trans; [exact D2|]. split; [done|]. by exists [Wr UECONX (u8 (bit_set y STALLRQ)); Rd UECONX y].
    - apply wp_ret. exists (u8 (bit_set 0 STALLRQ)). split; [apply stall_bit|]. by rewrite app_nil_r. }
  intros _ w3 (x & Hx & D3). pose proof D3 as (S3 & n3 & Hh3 & Hw3).
  assert (out_ep (with_status c g2) = out_ep (st w) /\ in_ep (with_status c g2) = in_ep (st w)) as [Ho Hi].
  { unfold out_ep, in_ep, with_status. rewrite !ms_put. cbn [MS_Config]. by rewrite Hcfg. }
  apply wp_ReturnCommandStatus; rewrite ?S3.
  - rewrite Hi, Hh3. apply Hfree. rewrite Hw3. unfold data_writes. apply Forall_app. split; [destruct (to_host _)|destruct (reports_stall c)]; repeat constructor; by (left || right).
  - done.
  - intros v v' w4 Hc D4. rewrite with_status_status, Ho, Hi in D4. apply (HQ x v v'); [done|done|]. eapply did_trans; [exact D3|exact D4].
Qed.

(** The direction in the header. *)
Lemma header_direction cb bytes n : length bytes = 31%nat -> (15 <= n)%nat -> to_host (patch 0 (take n bytes) cb) = to_host bytes.
Proof.
  intros Hl Hn. unfold to_host, CBW_Flags, patch. rewrite take_0, app_nil_l. rewrite lookup_app_l by (rewrite length_take; lia). by rewrite lookup_take_lt by lia.
Qed.

(** C25: one turn of the mass storage driver, for an application that accesses no
    register while it executes a command.  On a configured device with a packet of
    31 bytes on the OUT endpoint, whatever those bytes are, the task ends.  A
    block with a wrong signature, unit, flags or command length is refused:
    both endpoints are stalled and the application is not called.  Any other
    block is acknowledged, the application is called exactly once, with the
    received header and command in the command block; when it fails with bytes
    left undone the endpoint of the data is stalled; and one status block goes
    out as one packet: it carries the tag of the command, the bytes the
    application left undone, and whether it succeeded.  Nothing is written
    apart from that.  The host is taken to have cleared a stall when the driver
    looks at it, and to have collected the last status. *)
Theorem ms_command_cycle bytes w : let g := st w in
  reg_wrap V_USB_DeviceState (respond p (hist w) V_USB_DeviceState) = state_code DEVICE_STATE_Configured ->
  packet_waits (hist w) (out_ep g) bytes -> length bytes = 31%nat -> Forall is_u8 bytes ->
  length (CommandBlock (MS_State (ms g))) = 31%nat -> IsMassStoreReset (MS_State (ms g)) = false ->
  well_behaved (with_block (patch 0 (take (15 + Z.to_nat (CBW_SCSICommandLength bytes)) bytes) (CommandBlock (MS_State (ms g)))) g) ->
  (forall new v, (UEINTX, v) ∈ writes new -> bank_free (new ++ hist w) (in_ep g) 13) -> (16 < fuel p)%nat ->
  wp False (MS_Device_USBTask command task) (fun _ w' => exists ws,
    did w w' (outcome_of bytes g).1 ws /\ cycle_writes bytes g (outcome_of bytes g).2 ws) p w.
Proof.
  intros g Hst Hpk Hl Hu Hcb Hres Hwb Hfree Hf. unfold MS_Device_USBTask, is_DeviceState.
  apply wp_bind, wp_bind, wp_rd. intros s Hs. apply wp_ret. rewrite Hst in Hs. rewrite Hs, Z.eqb_refl. cbn [negb].
  apply wp_bind, wp_select_out. cbn [st hist]. fold g. apply wp_bind. unfold Endpoint_IsOUTReceived. apply wp_reg_bit. intros v0 Hv0.
  set (n1 := [Rd UEINTX v0; Wr UENUM (out_ep g); Rd V_USB_DeviceState (state_code DEVICE_STATE_Configured)]).
  assert (bit_tst v0 RXOUTI = true) as ->.
  { rewrite Hv0. cbn [hist]. by apply (Hpk (tail n1)); [apply Forall_singleton|]. }
  set (w1 := World (st w) (n1 ++ hist w)). assert (did w w1 g [(UENUM, out_ep g)]) as D1 by (apply (did_log w g n1)).
  cbn [when]. apply wp_bind, wp_bind. change (World (st w) _) with w1.
  apply (wp_ReadInCommandBlock False bytes); cbn [w1 st hist].
  { intros new Hw' Hs'. pose proof (Hpk (new ++ n1)) as Hpk'. cbv zeta in *.
    assert (read_from UEDATX (new ++ n1) = read_from UEDATX new) as Hrf by (unfold read_from; by rewrite omap_app, app_nil_r).
    rewrite Hrf, <- app_assoc in Hpk'. apply Hpk'; [|done]. rewrite writes_app. apply Forall_app. split; [by apply Forall_singleton|done]. }
  { done. } { done. } { done. } { by right. }
  fold g. intros ok g' w2 ws Hr D2. unfold read_result in Hr. unfold outcome_of, cycle_writes.
  assert (forall Q w3, IsMassStoreReset (MS_State (ms (st w3))) = false -> Q tt w3 ->
    wp False (reset <- is_reset;; when reset reset_interface) Q p w3) as Hend.
  { intros Q w3 E HQ. unfold is_reset, get_ms. apply wp_bind, wp_bind, wp_bind, wp_get, wp_ret, wp_ret. rewrite E. by apply wp_ret. }
  pose proof (did_trans _ _ _ _ _ _ _ D1 D2) as D. pose proof D2 as [S2 _].
  destruct (block_refused _ bytes).
  - destruct Hr as (-> & -> & c & c' & Hc & Hc' & ->). apply wp_ret, Hend.
    + rewrite S2. unfold with_block. by rewrite ms_put.
    + eexists. split; [exact D|]. by exists c, c'.
  - destruct Hr as (-> & -> & u & u' & Hcl & ->). cbn [when]. set (g1 := with_block _ g) in *.
    pose proof Hwb as Hwb'. unfold well_behaved in Hwb'.
    destruct (run g1) as [ok g2] eqn:Erun. destruct Hwb' as (Hcfg & Hrs). cbn [fst snd] in *.
    assert (in_ep g1 = in_ep g /\ out_ep g1 = out_ep g) as [Hin Hout] by (unfold in_ep, out_ep, g1, with_block; by rewrite ms_put).
    apply (wp_execute False ok g2); [by rewrite S2|by rewrite S2| |right; lia|].
    + intros n2 _. rewrite S2, Hin. destruct D as (_ & new & -> & Hw). rewrite app_assoc. apply (Hfree (n2 ++ new) u'). rewrite writes_app, Hw. do 2 right. left.
    + rewrite S2. intros x v v' w3 Hx Hc D3. apply Hend.
      * destruct D3 as [-> _]. unfold with_status. rewrite ms_put. cbn [MS_State set_status IsMassStoreReset]. rewrite Hrs.
        unfold g1, with_block. by rewrite ms_put.
      * eexists. split; [exact (did_trans _ _ _ _ _ _ _ D D3)|]. exists u, u', x, v, v'. split_and!; [done|done|done|].
        unfold data_writes. rewrite Hin, Hout. unfold g1. rewrite with_block_block, header_direction by (done || lia). done.
Qed.
End Cycle.

(** ** Concrete runs *)

Section Runs.
#[local] Instance ms_chip : Avr := datasheet USB_SERIES_2_AVR.
#[local] Instance ms_chip_ok : AvrOk := datasheet_ok USB_SERIES_2_AVR.

(** A program with one mass storage interface. *)
Record ms_program := MsProgram { mp_usb : usb_globals; mp_ms : USB_ClassInfo_MS_Device_t }.
#[local] Instance ms_program_usb : UsbState ms_program :=
  {| usb := mp_usb; put_usb u g := MsProgram u (mp_ms g) |}.
#[local] Instance ms_program_usb_ok : UsbStateOk ms_program.
Proof. split; [done|done|]. by intros []. Qed.
#[local] Instance ms_program_ms : MsDevice ms_program :=
  {| ms := mp_ms; put_ms i g := MsProgram (mp_usb g) i |}.
#[local] Instance ms_program_ms_ok : MsDeviceOk ms_program.
Proof. split; [done|done|done|]. by intros []. Qed.

(** Interface 0 with one unit: IN on endpoint 3, OUT on endpoint 4. *)
Definition disk : USB_ClassInfo_MS_Device_t :=
  MsInfo (MsConfig 0 (EndpointEntry 0x83 64 EP_TYPE_BULK 1) (EndpointEntry 0x04 64 EP_TYPE_BULK 1) 1)
    (MsState (replicate 31 0) (CSW 0 0 0 0) false).
Definition disk_world : world ms_program := World (MsProgram (UsbGlobals (Request 0 0 0 0 0) 1 false false) disk) [].

(** The block of a TEST UNIT READY command with the tag 0x04030201. *)
Definition test_unit_ready : list Z := [0x55; 0x53; 0x42; 0x43; 1; 2; 3; 4; 0; 0; 0; 0; 0; 0; 6] ++ replicate 16 0.

(** A configured device: [bytes] come in, and [allowed] says while the bank is
    neither empty nor full. *)
Definition disk_bus (bytes : list Z) (allowed : log -> bool) (n : nat) : platform := {|
  respond h r := match r with
    | V_USB_DeviceState => 4
    | UECFG0X => if selected h =? 3 then 0x81 else 0x80
    | UEINTX => 0x85 + (if allowed h then 0x20 else 0)
    | UEDATX => default 0 (bytes !! length (read_from UEDATX h))
    | UECFG1X => 2
    | UESTA0X => 0x80
    | _ => 0
    end;
  fuel := n
|}.

(** The request has a 16-bit length. *)
Definition request_fits (g : ms_program) : Prop := is_u16 (wLength (USB_ControlRequest (mp_usb g))).
#[local] Instance request_fits_usb : UsbInv request_fits.
Proof. split; [done|]. by intros u g _ Hu. Qed.

Lemma ms_driver_safe_witness :
  wp True (MS_Device_USBTask (ret true) (ret tt)) (fun _ w' => length (CommandBlock (MS_State (ms (st w')))) = 31%nat)
    (disk_bus test_unit_ready (fun _ => true) 100) disk_world.
Proof.
  eapply wp_mono.
  - refine (proj1 (ms_driver_safe (disk_bus test_unit_ready (fun _ => true) 100) request_fits (ret true) (ret tt) _ _ _ _) disk_world _).
    + done.
    + done.
    + intros K. apply safe_ret.
    + apply safe_ret.
    + unfold block_inv, request_fits, is_u16. split_and!; [cbn; lia|cbn; lia|done|by apply (bool_decide_unpack _)|done].
  - by intros [] w' (_ & Hl & _).
Defined.

(** The block of a command that asks for 512 bytes. *)
Definition asks_data : list Z := [0x55; 0x53; 0x42; 0x43; 1; 2; 3; 4; 0; 2; 0; 0; 0x80; 0; 6] ++ replicate 16 0.
(** The command fails with its 512 bytes undone: the IN endpoint is stalled. *)
Lemma ms_command_cycle_witness :
  let g := st disk_world in let g1 := with_block asks_data g in
  let c := CSW MS_CSW_SIGNATURE 0x04030201 512 1 in
  wp False (MS_Device_USBTask (ret false) (ret tt)) (fun _ w' => exists ws,
    did disk_world w' (with_status c g1) ws /\ cycle_writes asks_data g (Some c) ws /\ exists x, (UECONX, x) ∈ ws /\ bit_tst x STALLRQ = true)
    (disk_bus asks_data (fun _ => true) 20) disk_world.
Proof.
  intros g g1 c.
  eapply wp_mono; [refine (ms_command_cycle (disk_bus asks_data (fun _ => true) 20) (ret tt) (ret false) (fun g => (false, g)) _
    asks_data disk_world _ _ _ _ _ _ _ _ _)|].
  - by intros [].
  - done.
  - intros new _ Hs. rewrite app_nil_r in *. cbv zeta. cbn [disk_bus respond]. change (out_ep (st disk_world)) with 4 in Hs.
    rewrite Hs. split_and!; [done|done|]. intros Hk. split; [done|].
    destruct (lookup_lt_is_Some_2 asks_data _ Hk) as [x Hx]. rewrite Hx. cbn [default]. f_equal. symmetry. apply u8_small.
    revert x Hx. apply Forall_lookup. by apply (bool_decide_unpack _).
  - done.
  - by apply (bool_decide_unpack _).
  - done.
  - done.
  - done.
  - intros new v _ new' _. split; [done|]. intros Hs _. cbn [disk_bus respond]. change (in_ep (st disk_world)) with 3 in Hs.
    by rewrite Hs.
  - cbn. lia.
  - cbv beta. intros _ w' (ws & Hd & u & u' & x & v & v' & Hu & Hx & Hv & Ews). exists ws. split_and!; [exact Hd|by exists u, u', x, v, v'|].
    exists x. split; [|exact Hx]. rewrite Ews. do 4 right. left.
Defined.

(** The host sends the first two bytes of a command and nothing more in that
    packet. *)
Definition split_packet (h : log) : bool :=
  negb (Nat.eqb (length (read_from UEDATX h)) 17) || existsb (fun x => bool_decide (x.1 = UEINTX)) (writes h).

(** A run: a configuration request in the middle of a command.  The header of a
    well-formed block and the first two bytes of its command arrive in one
    packet; before the next packet the management task configures the interface
    again, which clears the block.  The length of the command is then read
    again from the cleared block, the number of bytes left wraps around, and
    the bytes that follow are stored past the end of the block. *)
Theorem ms_reconfiguration_overruns :
  MS_Device_ReadInCommandBlock (MS_Device_ConfigureEndpoints;;; ret tt) (disk_bus test_unit_ready split_packet 200) disk_world = Fault /\
  match MS_Device_ReadInCommandBlock (ret tt) (disk_bus test_unit_ready split_packet 200) disk_world with
  | Done ok w' => ok = true /\ CommandBlock (MS_State (ms (st w'))) = test_unit_ready
  | _ => False
  end.
Proof. split; vm_compute; [reflexivity|split; reflexivity]. Qed.
End Runs.
