(* ===== verification/RNDISMessages.v ===== *)
(** * Control messages of the RNDIS class driver (LUFA RNDISClassDevice.c)

    A host configures the network adapter with encapsulated messages.  The
    driver keeps one buffer: a message is received in it and its response is
    built over it, member by member, as the C code lays the structures of
    RNDISClassCommon.h over the same bytes.  So a message is processed here by
    stores and loads in one list of bytes, in the order of the source; a load or
    store outside the buffer is [None].

    The specification reads a message from the buffer once, and gives the next
    state of the adapter and the bytes of the response ([ndis_step]). *)

From S2P Require Import Prelude StdDescriptors UsbCore Machine Endpoint.

(** ** RNDISClassCommon.h *)

Definition RNDIS_ERROR_LOGICAL_CMD_FAILED : Z := 0x80.
Definition REMOTE_NDIS_VERSION_MAJOR : Z := 0x01.
Definition REMOTE_NDIS_VERSION_MINOR : Z := 0x00.
Definition REMOTE_NDIS_PACKET_MSG : Z := 0x00000001.
Definition REMOTE_NDIS_INITIALIZE_MSG : Z := 0x00000002.
Definition REMOTE_NDIS_HALT_MSG : Z := 0x00000003.
Definition REMOTE_NDIS_QUERY_MSG : Z := 0x00000004.
Definition REMOTE_NDIS_SET_MSG : Z := 0x00000005.
Definition REMOTE_NDIS_RESET_MSG : Z := 0x00000006.
Definition REMOTE_NDIS_KEEPALIVE_MSG : Z := 0x00000008.
Definition REMOTE_NDIS_INITIALIZE_CMPLT : Z := 0x80000002.
Definition REMOTE_NDIS_QUERY_CMPLT : Z := 0x80000004.
Definition REMOTE_NDIS_SET_CMPLT : Z := 0x80000005.
Definition REMOTE_NDIS_RESET_CMPLT : Z := 0x80000006.
Definition REMOTE_NDIS_KEEPALIVE_CMPLT : Z := 0x80000008.
Definition REMOTE_NDIS_STATUS_SUCCESS : Z := 0x00000000.
Definition REMOTE_NDIS_STATUS_NOT_SUPPORTED : Z := 0xC00000BB.
Definition REMOTE_NDIS_MEDIA_STATE_CONNECTED : Z := 0x00000000.
Definition REMOTE_NDIS_MEDIUM_802_3 : Z := 0x00000000.
Definition REMOTE_NDIS_DF_CONNECTIONLESS : Z := 0x00000001.
Definition OID_GEN_SUPPORTED_LIST : Z := 0x00010101.
Definition OID_GEN_HARDWARE_STATUS : Z := 0x00010102.
Definition OID_GEN_MEDIA_SUPPORTED : Z := 0x00010103.
Definition OID_GEN_MEDIA_IN_USE : Z := 0x00010104.
Definition OID_GEN_MAXIMUM_FRAME_SIZE : Z := 0x00010106.
Definition OID_GEN_LINK_SPEED : Z := 0x00010107.
Definition OID_GEN_TRANSMIT_BLOCK_SIZE : Z := 0x0001010A.
Definition OID_GEN_RECEIVE_BLOCK_SIZE : Z := 0x0001010B.
Definition OID_GEN_VENDOR_ID : Z := 0x0001010C.
Definition OID_GEN_VENDOR_DESCRIPTION : Z := 0x0001010D.
Definition OID_GEN_CURRENT_PACKET_FILTER : Z := 0x0001010E.
Definition OID_GEN_MAXIMUM_TOTAL_SIZE : Z := 0x00010111.
Definition OID_GEN_MEDIA_CONNECT_STATUS : Z := 0x00010114.
Definition OID_GEN_PHYSICAL_MEDIUM : Z := 0x00010202.
Definition OID_GEN_XMIT_OK : Z := 0x00020101.
Definition OID_GEN_RCV_OK : Z := 0x00020102.
Definition OID_GEN_XMIT_ERROR : Z := 0x00020103.
Definition OID_GEN_RCV_ERROR : Z := 0x00020104.
Definition OID_GEN_RCV_NO_BUFFER : Z := 0x00020105.
Definition OID_802_3_PERMANENT_ADDRESS : Z := 0x01010101.
Definition OID_802_3_CURRENT_ADDRESS : Z := 0x01010102.
Definition OID_802_3_MULTICAST_LIST : Z := 0x01010103.
Definition OID_802_3_MAXIMUM_LIST_SIZE : Z := 0x01010104.
Definition OID_802_3_RCV_ERROR_ALIGNMENT : Z := 0x01020101.
Definition OID_802_3_XMIT_ONE_COLLISION : Z := 0x01020102.
Definition OID_802_3_XMIT_MORE_COLLISIONS : Z := 0x01020103.
Definition ETHERNET_FRAME_SIZE_MAX : Z := 1500.
Definition RNDIS_REQ_SendEncapsulatedCommand : Z := 0x00.
Definition RNDIS_REQ_GetEncapsulatedResponse : Z := 0x01.
Definition RNDIS_NOTIF_ResponseAvailable : Z := 0x01.
Definition NDIS_HardwareStatus_Ready : Z := 0.

Inductive RNDIS_States_t := RNDIS_Uninitialized | RNDIS_Initialized | RNDIS_Data_Initialized.
#[export] Instance rndis_states_eq_dec : EqDecision RNDIS_States_t.
Proof. solve_decision. Defined.

Record RNDIS_Message_Header_t := MH {
  MH_MessageType : Z; MH_MessageLength : Z
}.
#[export] Instance mh_packed : Packed RNDIS_Message_Header_t := {|
  widths := replicate 2 4%nat;
  fields r := [MH_MessageType r; MH_MessageLength r];
  of_fields vs := match vs with [x0; x1] => Some (MH x0 x1) | _ => None end
|}.
#[export] Instance mh_packed_ok : PackedOk RNDIS_Message_Header_t.
Proof. packed_ok. Qed.
Record RNDIS_Initialize_Message_t := IM {
  IM_MessageType : Z; IM_MessageLength : Z; IM_RequestId : Z; IM_MajorVersion : Z; IM_MinorVersion : Z;
  IM_MaxTransferSize : Z
}.
#[export] Instance im_packed : Packed RNDIS_Initialize_Message_t := {|
  widths := replicate 6 4%nat;
  fields r := [IM_MessageType r; IM_MessageLength r; IM_RequestId r; IM_MajorVersion r; IM_MinorVersion r;
    IM_MaxTransferSize r];
  of_fields vs := match vs with [x0; x1; x2; x3; x4; x5] => Some (IM x0 x1 x2 x3 x4 x5) | _ => None end
|}.
#[export] Instance im_packed_ok : PackedOk RNDIS_Initialize_Message_t.
Proof. packed_ok. Qed.
Record RNDIS_KeepAlive_Message_t := KM {
  KM_MessageType : Z; KM_MessageLength : Z; KM_RequestId : Z
}.
#[export] Instance km_packed : Packed RNDIS_KeepAlive_Message_t := {|
  widths := replicate 3 4%nat;
  fields r := [KM_MessageType r; KM_MessageLength r; KM_RequestId r];
  of_fields vs := match vs with [x0; x1; x2] => Some (KM x0 x1 x2) | _ => None end
|}.
#[export] Instance km_packed_ok : PackedOk RNDIS_KeepAlive_Message_t.
Proof. packed_ok. Qed.
Record RNDIS_Set_Message_t := SM {
  SM_MessageType : Z; SM_MessageLength : Z; SM_RequestId : Z; SM_Oid : Z; SM_InformationBufferLength : Z;
  SM_InformationBufferOffset : Z; SM_DeviceVcHandle : Z
}.
#[export] Instance sm_packed : Packed RNDIS_Set_Message_t := {|
  widths := replicate 7 4%nat;
  fields r := [SM_MessageType r; SM_MessageLength r; SM_RequestId r; SM_Oid r; SM_InformationBufferLength r;
    SM_InformationBufferOffset r; SM_DeviceVcHandle r];
  of_fields vs := match vs with [x0; x1; x2; x3; x4; x5; x6] => Some (SM x0 x1 x2 x3 x4 x5 x6) | _ => None end
|}.
#[export] Instance sm_packed_ok : PackedOk RNDIS_Set_Message_t.
Proof. packed_ok. Qed.
Record RNDIS_Query_Message_t := QM {
  QM_MessageType : Z; QM_MessageLength : Z; QM_RequestId : Z; QM_Oid : Z; QM_InformationBufferLength : Z;
  QM_InformationBufferOffset : Z; QM_DeviceVcHandle : Z
}.
#[export] Instance qm_packed : Packed RNDIS_Query_Message_t := {|
  widths := replicate 7 4%nat;
  fields r := [QM_MessageType r; QM_MessageLength r; QM_RequestId r; QM_Oid r; QM_InformationBufferLength r;
    QM_InformationBufferOffset r; QM_DeviceVcHandle r];
  of_fields vs := match vs with [x0; x1; x2; x3; x4; x5; x6] => Some (QM x0 x1 x2 x3 x4 x5 x6) | _ => None end
|}.
#[export] Instance qm_packed_ok : PackedOk RNDIS_Query_Message_t.
Proof. packed_ok. Qed.
Record RNDIS_Packet_Message_t := PM {
  PM_MessageType : Z; PM_MessageLength : Z; PM_DataOffset : Z; PM_DataLength : Z; PM_OOBDataOffset : Z;
  PM_OOBDataLength : Z; PM_NumOOBDataElements : Z; PM_PerPacketInfoOffset : Z; PM_PerPacketInfoLength : Z;
  PM_VcHandle : Z; PM_Reserved : Z
}.
#[export] Instance pm_packed : Packed RNDIS_Packet_Message_t := {|
  widths := replicate 11 4%nat;
  fields r := [PM_MessageType r; PM_MessageLength r; PM_DataOffset r; PM_DataLength r; PM_OOBDataOffset r;
    PM_OOBDataLength r; PM_NumOOBDataElements r; PM_PerPacketInfoOffset r; PM_PerPacketInfoLength r;
    PM_VcHandle r; PM_Reserved r];
  of_fields vs := match vs with [x0; x1; x2; x3; x4; x5; x6; x7; x8; x9; x10] => Some (PM x0 x1 x2 x3 x4 x5 x6 x7 x8 x9 x10) | _ => None end
|}.
#[export] Instance pm_packed_ok : PackedOk RNDIS_Packet_Message_t.
Proof. packed_ok. Qed.
Record RNDIS_Initialize_Complete_t := IC {
  IC_MessageType : Z; IC_MessageLength : Z; IC_RequestId : Z; IC_Status : Z; IC_MajorVersion : Z;
  IC_MinorVersion : Z; IC_DeviceFlags : Z; IC_Medium : Z; IC_MaxPacketsPerTransfer : Z;
  IC_MaxTransferSize : Z; IC_PacketAlignmentFactor : Z; IC_AFListOffset : Z; IC_AFListSize : Z
}.
#[export] Instance ic_packed : Packed RNDIS_Initialize_Complete_t := {|
  widths := replicate 13 4%nat;
  fields r := [IC_MessageType r; IC_MessageLength r; IC_RequestId r; IC_Status r; IC_MajorVersion r; IC_MinorVersion r;
    IC_DeviceFlags r; IC_Medium r; IC_MaxPacketsPerTransfer r; IC_MaxTransferSize r;
    IC_PacketAlignmentFactor r; IC_AFListOffset r; IC_AFListSize r];
  of_fields vs := match vs with [x0; x1; x2; x3; x4; x5; x6; x7; x8; x9; x10; x11; x12] => Some (IC x0 x1 x2 x3 x4 x5 x6 x7 x8 x9 x10 x11 x12) | _ => None end
|}.
#[export] Instance ic_packed_ok : PackedOk RNDIS_Initialize_Complete_t.
Proof. packed_ok. Qed.
Record RNDIS_KeepAlive_Complete_t := KC {
  KC_MessageType : Z; KC_MessageLength : Z; KC_RequestId : Z; KC_Status : Z
}.
#[export] Instance kc_packed : Packed RNDIS_KeepAlive_Complete_t := {|
  widths := replicate 4 4%nat;
  fields r := [KC_MessageType r; KC_MessageLength r; KC_RequestId r; KC_Status r];
  of_fields vs := match vs with [x0; x1; x2; x3] => Some (KC x0 x1 x2 x3) | _ => None end
|}.
#[export] Instance kc_packed_ok : PackedOk RNDIS_KeepAlive_Complete_t.
Proof. packed_ok. Qed.
Record RNDIS_Reset_Complete_t := RC {
  RC_MessageType : Z; RC_MessageLength : Z; RC_Status : Z; RC_AddressingReset : Z
}.
#[export] Instance rc_packed : Packed RNDIS_Reset_Complete_t := {|
  widths := replicate 4 4%nat;
  fields r := [RC_MessageType r; RC_MessageLength r; RC_Status r; RC_AddressingReset r];
  of_fields vs := match vs with [x0; x1; x2; x3] => Some (RC x0 x1 x2 x3) | _ => None end
|}.
#[export] Instance rc_packed_ok : PackedOk RNDIS_Reset_Complete_t.
Proof. packed_ok. Qed.
Record RNDIS_Set_Complete_t := SC {
  SC_MessageType : Z; SC_MessageLength : Z; SC_RequestId : Z; SC_Status : Z
}.
#[export] Instance sc_packed : Packed RNDIS_Set_Complete_t := {|
  widths := replicate 4 4%nat;
  fields r := [SC_MessageType r; SC_MessageLength r; SC_RequestId r; SC_Status r];
  of_fields vs := match vs with [x0; x1; x2; x3] => Some (SC x0 x1 x2 x3) | _ => None end
|}.
#[export] Instance sc_packed_ok : PackedOk RNDIS_Set_Complete_t.
Proof. packed_ok. Qed.
Record RNDIS_Query_Complete_t := QC {
  QC_MessageType : Z; QC_MessageLength : Z; QC_RequestId : Z; QC_Status : Z;
  QC_InformationBufferLength : Z; QC_InformationBufferOffset : Z
}.
#[export] Instance qc_packed : Packed RNDIS_Query_Complete_t := {|
  widths := replicate 6 4%nat;
  fields r := [QC_MessageType r; QC_MessageLength r; QC_RequestId r; QC_Status r; QC_InformationBufferLength r;
    QC_InformationBufferOffset r];
  of_fields vs := match vs with [x0; x1; x2; x3; x4; x5] => Some (QC x0 x1 x2 x3 x4 x5) | _ => None end
|}.
#[export] Instance qc_packed_ok : PackedOk RNDIS_Query_Complete_t.
Proof. packed_ok. Qed.
(** ** The interface (RNDISClassDevice.h) *)

(** [AdapterVendorDescription] holds the characters before the terminating zero;
    [MessageBuffer] is the memory behind the pointer, [None] for [NULL]. *)
Record rndis_config := RndisConfig {
  ControlInterfaceNumber : Z;
  DataINEndpoint : USB_Endpoint_Table_t;
  DataOUTEndpoint : USB_Endpoint_Table_t;
  NotificationEndpoint : USB_Endpoint_Table_t;
  AdapterVendorDescription : list Z;
  AdapterMACAddress : list Z;
  MessageBuffer : option (list Z);
  MessageBufferLength : Z
}.
Record rndis_state := RndisState {
  ResponseReady : bool;
  CurrRNDISState : RNDIS_States_t;
  CurrPacketFilter : Z
}.
Record USB_ClassInfo_RNDIS_Device_t := RndisInfo { Config : rndis_config; State : rndis_state }.
Abbreviation info := USB_ClassInfo_RNDIS_Device_t.

Definition set_buffer (b : list Z) (i : info) : info :=
  let c := Config i in
  RndisInfo (RndisConfig (ControlInterfaceNumber c) (DataINEndpoint c) (DataOUTEndpoint c) (NotificationEndpoint c)
    (AdapterVendorDescription c) (AdapterMACAddress c) (Some b) (MessageBufferLength c)) (State i).
Definition set_ready (b : bool) (i : info) : info :=
  RndisInfo (Config i) (RndisState b (CurrRNDISState (State i)) (CurrPacketFilter (State i))).
Definition set_rndis_state (s : RNDIS_States_t) (i : info) : info :=
  RndisInfo (Config i) (RndisState (ResponseReady (State i)) s (CurrPacketFilter (State i))).
Definition set_filter (f : Z) (i : info) : info :=
  RndisInfo (Config i) (RndisState (ResponseReady (State i)) (CurrRNDISState (State i)) f).

(** ** Scalars in the buffer *)

(** The 32-bit scalar at offset [at_], and bytes stored there. *)
Definition get32 (b : list Z) (at_ : Z) : option Z :=
  if decide (0 <= at_ /\ at_ + 4 <= Z.of_nat (length b)) then Some (of_le_bytes (take 4 (drop (Z.to_nat at_) b))) else None.
Definition put_bytes (b : list Z) (at_ : Z) (bs : list Z) : option (list Z) :=
  if decide (0 <= at_ /\ at_ + Z.of_nat (length bs) <= Z.of_nat (length b)) then Some (patch (Z.to_nat at_) bs b) else None.

Definition load (at_ : Z) (i : info) : option Z := b ← MessageBuffer (Config i); get32 b at_.
Definition store_bytes (at_ : Z) (bs : list Z) (i : info) : option info :=
  b ← MessageBuffer (Config i); b' ← put_bytes b at_ bs; Some (set_buffer b' i).
Definition store (at_ v : Z) (i : info) : option info := store_bytes at_ (le_bytes 4 v) i.

(** Offsets of the members: those of the header, then of the messages and
    responses. *)
Definition MessageType_at : Z := 0.
Definition MessageLength_at : Z := 4.
Definition RequestId_at : Z := 8.
Definition Status_at : Z := 12.
Definition Oid_at : Z := 12.
Definition InformationBufferLength_at : Z := 16.
Definition InformationBufferOffset_at : Z := 20.

(** ** RNDIS_Device_ProcessNDISQuery and RNDIS_Device_ProcessNDISSet *)

Definition AdapterSupportedOIDList : list Z := [
  OID_GEN_SUPPORTED_LIST; OID_GEN_PHYSICAL_MEDIUM; OID_GEN_HARDWARE_STATUS; OID_GEN_MEDIA_SUPPORTED;
  OID_GEN_MEDIA_IN_USE; OID_GEN_MAXIMUM_FRAME_SIZE; OID_GEN_MAXIMUM_TOTAL_SIZE; OID_GEN_LINK_SPEED;
  OID_GEN_TRANSMIT_BLOCK_SIZE; OID_GEN_RECEIVE_BLOCK_SIZE; OID_GEN_VENDOR_ID; OID_GEN_VENDOR_DESCRIPTION;
  OID_GEN_CURRENT_PACKET_FILTER; OID_GEN_MAXIMUM_TOTAL_SIZE; OID_GEN_MEDIA_CONNECT_STATUS; OID_GEN_XMIT_OK;
  OID_GEN_RCV_OK; OID_GEN_XMIT_ERROR; OID_GEN_RCV_ERROR; OID_GEN_RCV_NO_BUFFER; OID_802_3_PERMANENT_ADDRESS;
  OID_802_3_CURRENT_ADDRESS; OID_802_3_MULTICAST_LIST; OID_802_3_MAXIMUM_LIST_SIZE; OID_802_3_RCV_ERROR_ALIGNMENT;
  OID_802_3_XMIT_ONE_COLLISION; OID_802_3_XMIT_MORE_COLLISIONS].
Definition oid_list_bytes : list Z := flat_map (le_bytes 4) AdapterSupportedOIDList.

Definition ResponseData_at : Z := sizeof RNDIS_Query_Complete_t.

(** A response of [ResponseSize] bytes of [bs] in [ResponseData]. *)
Definition respond_bytes (ResponseSize : Z) (bs : list Z) (i : info) : option (option Z * info) :=
  i' ← store_bytes ResponseData_at (take (Z.to_nat ResponseSize) bs) i; Some (Some ResponseSize, i').
Definition respond_32 (v : Z) (i : info) : option (option Z * info) := respond_bytes 4 (le_bytes 4 v) i.

(** [Some] of the size of the response, or [None] when the function returns
    [false]. *)
Definition RNDIS_Device_ProcessNDISQuery (OId : Z) (i : info) : option (option Z * info) :=
  let oid := Z.eqb OId in
  if oid OID_GEN_SUPPORTED_LIST then respond_bytes (Z.of_nat (length oid_list_bytes)) oid_list_bytes i
  else if oid OID_GEN_PHYSICAL_MEDIUM then respond_32 0 i
  else if oid OID_GEN_HARDWARE_STATUS then respond_32 NDIS_HardwareStatus_Ready i
  else if oid OID_GEN_MEDIA_SUPPORTED || oid OID_GEN_MEDIA_IN_USE then respond_32 REMOTE_NDIS_MEDIUM_802_3 i
  else if oid OID_GEN_VENDOR_ID then respond_32 0x00FFFFFF i
  else if oid OID_GEN_MAXIMUM_FRAME_SIZE || oid OID_GEN_TRANSMIT_BLOCK_SIZE || oid OID_GEN_RECEIVE_BLOCK_SIZE
  then respond_32 ETHERNET_FRAME_SIZE_MAX i
  else if oid OID_GEN_VENDOR_DESCRIPTION then
    let d := AdapterVendorDescription (Config i) in
    respond_bytes (u16 (Z.of_nat (length d) + 1)) (d ++ [0]) i
  else if oid OID_GEN_MEDIA_CONNECT_STATUS then respond_32 REMOTE_NDIS_MEDIA_STATE_CONNECTED i
  else if oid OID_GEN_LINK_SPEED then respond_32 100000 i
  else if oid OID_802_3_PERMANENT_ADDRESS || oid OID_802_3_CURRENT_ADDRESS then respond_bytes 6 (AdapterMACAddress (Config i)) i
  else if oid OID_802_3_MAXIMUM_LIST_SIZE then respond_32 1 i
  else if oid OID_GEN_CURRENT_PACKET_FILTER then respond_32 (CurrPacketFilter (State i)) i
  else if oid OID_GEN_XMIT_OK || oid OID_GEN_RCV_OK || oid OID_GEN_XMIT_ERROR || oid OID_GEN_RCV_ERROR ||
          oid OID_GEN_RCV_NO_BUFFER || oid OID_802_3_RCV_ERROR_ALIGNMENT || oid OID_802_3_XMIT_ONE_COLLISION ||
          oid OID_802_3_XMIT_MORE_COLLISIONS
  then respond_32 0 i
  else if oid OID_GEN_MAXIMUM_TOTAL_SIZE then respond_32 (u16 (MessageBufferLength (Config i) + ETHERNET_FRAME_SIZE_MAX)) i
  else Some (None, i).

(** [SetData] is an offset into the buffer. *)
Definition RNDIS_Device_ProcessNDISSet (OId SetData : Z) (i : info) : option (bool * info) :=
  if OId =? OID_GEN_CURRENT_PACKET_FILTER then
    f ← load SetData i;
    let i := set_filter f i in
    Some (true, set_rndis_state (if negb (f =? 0) then RNDIS_Data_Initialized else RNDIS_Initialized) i)
  else if OId =? OID_802_3_MULTICAST_LIST then Some (true, i)
  else Some (false, i).

(** ** RNDIS_Device_ProcessRNDISControlMessage *)

Definition process_initialize (i : info) : option info :=
  let i := set_ready true i in
  i ← store MessageType_at REMOTE_NDIS_INITIALIZE_CMPLT i;
  i ← store MessageLength_at (sizeof RNDIS_Initialize_Complete_t) i;
  id ← load RequestId_at i;
  i ← store RequestId_at id i;
  i ← store Status_at REMOTE_NDIS_STATUS_SUCCESS i;
  i ← store 16 REMOTE_NDIS_VERSION_MAJOR i;
  i ← store 20 REMOTE_NDIS_VERSION_MINOR i;
  i ← store 24 REMOTE_NDIS_DF_CONNECTIONLESS i;
  i ← store 28 REMOTE_NDIS_MEDIUM_802_3 i;
  i ← store 32 1 i;
  i ← store 36 (sizeof RNDIS_Packet_Message_t + ETHERNET_FRAME_SIZE_MAX) i;
  i ← store 40 0 i;
  i ← store 44 0 i;
  i ← store 48 0 i;
  Some (set_rndis_state RNDIS_Initialized i).

Definition process_halt (i : info) : option info :=
  let i := set_ready false i in
  i ← store MessageLength_at 0 i;
  Some (set_rndis_state RNDIS_Uninitialized i).

Definition process_query (i : info) : option info :=
  let i := set_ready true i in
  Query_Oid ← load Oid_at i;
  i ← store MessageType_at REMOTE_NDIS_QUERY_CMPLT i;
  '(r, i) ← RNDIS_Device_ProcessNDISQuery Query_Oid i;
  match r with
  | Some ResponseSize =>
      i ← store Status_at REMOTE_NDIS_STATUS_SUCCESS i;
      i ← store MessageLength_at (u16 (sizeof RNDIS_Query_Complete_t + ResponseSize)) i;
      i ← store InformationBufferLength_at ResponseSize i;
      store InformationBufferOffset_at (sizeof RNDIS_Query_Complete_t - sizeof RNDIS_Message_Header_t) i
  | None =>
      i ← store Status_at REMOTE_NDIS_STATUS_NOT_SUPPORTED i;
      i ← store MessageLength_at (sizeof RNDIS_Query_Complete_t) i;
      i ← store InformationBufferLength_at 0 i;
      store InformationBufferOffset_at 0 i
  end.

Definition process_set (i : info) : option info :=
  let i := set_ready true i in
  SET_Oid ← load Oid_at i;
  i ← store MessageType_at REMOTE_NDIS_SET_CMPLT i;
  i ← store MessageLength_at (sizeof RNDIS_Set_Complete_t) i;
  id ← load RequestId_at i;
  i ← store RequestId_at id i;
  off ← load InformationBufferOffset_at i;
  '(ok, i) ← RNDIS_Device_ProcessNDISSet SET_Oid (u32 (sizeof RNDIS_Message_Header_t + off)) i;
  store Status_at (if (ok : bool) then REMOTE_NDIS_STATUS_SUCCESS else REMOTE_NDIS_STATUS_NOT_SUPPORTED) i.

Definition process_reset (i : info) : option info :=
  let i := set_ready true i in
  i ← store MessageType_at REMOTE_NDIS_RESET_CMPLT i;
  i ← store MessageLength_at (sizeof RNDIS_Reset_Complete_t) i;
  i ← store 8 REMOTE_NDIS_STATUS_SUCCESS i;
  store 12 0 i.

Definition process_keepalive (i : info) : option info :=
  let i := set_ready true i in
  i ← store MessageType_at REMOTE_NDIS_KEEPALIVE_CMPLT i;
  i ← store MessageLength_at (sizeof RNDIS_KeepAlive_Complete_t) i;
  id ← load RequestId_at i;
  i ← store RequestId_at id i;
  store Status_at REMOTE_NDIS_STATUS_SUCCESS i.

Definition RNDIS_Device_ProcessRNDISControlMessage (i : info) : option info :=
  ty ← load MessageType_at i;
  if ty =? REMOTE_NDIS_INITIALIZE_MSG then process_initialize i
  else if ty =? REMOTE_NDIS_HALT_MSG then process_halt i
  else if ty =? REMOTE_NDIS_QUERY_MSG then process_query i
  else if ty =? REMOTE_NDIS_SET_MSG then process_set i
  else if ty =? REMOTE_NDIS_RESET_MSG then process_reset i
  else if ty =? REMOTE_NDIS_KEEPALIVE_MSG then process_keepalive i
  else Some i.

(** ** Specification *)

Inductive ndis_message :=
  | NInitialize (id : Z)
  | NHalt
  | NQuery (id oid : Z)
  | NSet (id oid value : Z)
  | NReset
  | NKeepAlive (id : Z)
  | NUnknown.

(** The offset in the buffer of the information a SET message carries. *)
Definition set_data_at (m : RNDIS_Set_Message_t) : Z := u32 (sizeof RNDIS_Message_Header_t + SM_InformationBufferOffset m).

(** The message a buffer holds. *)
Definition parse_message (b : list Z) : option ndis_message :=
  h ← unpack (A := RNDIS_Message_Header_t) b;
  let ty := MH_MessageType h in
  if ty =? REMOTE_NDIS_INITIALIZE_MSG then m ← unpack (A := RNDIS_Initialize_Message_t) b; Some (NInitialize (IM_RequestId m))
  else if ty =? REMOTE_NDIS_HALT_MSG then Some NHalt
  else if ty =? REMOTE_NDIS_QUERY_MSG then m ← unpack (A := RNDIS_Query_Message_t) b; Some (NQuery (QM_RequestId m) (QM_Oid m))
  else if ty =? REMOTE_NDIS_SET_MSG then
    m ← unpack (A := RNDIS_Set_Message_t) b;
    if SM_Oid m =? OID_GEN_CURRENT_PACKET_FILTER
    then v ← get32 b (set_data_at m); if set_data_at m <? 12 then None else Some (NSet (SM_RequestId m) (SM_Oid m) v)
    else Some (NSet (SM_RequestId m) (SM_Oid m) 0)
  else if ty =? REMOTE_NDIS_RESET_MSG then Some NReset
  else if ty =? REMOTE_NDIS_KEEPALIVE_MSG then m ← unpack (A := RNDIS_KeepAlive_Message_t) b; Some (NKeepAlive (KM_RequestId m))
  else Some NUnknown.

(** The objects a query can ask for and their values. *)
Definition oid_table (c : rndis_config) (filter : Z) : list (Z * list Z) := [
  (OID_GEN_SUPPORTED_LIST, oid_list_bytes);
  (OID_GEN_PHYSICAL_MEDIUM, le_bytes 4 0);
  (OID_GEN_HARDWARE_STATUS, le_bytes 4 NDIS_HardwareStatus_Ready);
  (OID_GEN_MEDIA_SUPPORTED, le_bytes 4 REMOTE_NDIS_MEDIUM_802_3);
  (OID_GEN_MEDIA_IN_USE, le_bytes 4 REMOTE_NDIS_MEDIUM_802_3);
  (OID_GEN_VENDOR_ID, le_bytes 4 0xFFFFFF);
  (OID_GEN_MAXIMUM_FRAME_SIZE, le_bytes 4 ETHERNET_FRAME_SIZE_MAX);
  (OID_GEN_TRANSMIT_BLOCK_SIZE, le_bytes 4 ETHERNET_FRAME_SIZE_MAX);
  (OID_GEN_RECEIVE_BLOCK_SIZE, le_bytes 4 ETHERNET_FRAME_SIZE_MAX);
  (OID_GEN_VENDOR_DESCRIPTION, AdapterVendorDescription c ++ [0]);
  (OID_GEN_MEDIA_CONNECT_STATUS, le_bytes 4 REMOTE_NDIS_MEDIA_STATE_CONNECTED);
  (OID_GEN_LINK_SPEED, le_bytes 4 100000);
  (OID_802_3_PERMANENT_ADDRESS, AdapterMACAddress c);
  (OID_802_3_CURRENT_ADDRESS, AdapterMACAddress c);
  (OID_802_3_MAXIMUM_LIST_SIZE, le_bytes 4 1);
  (OID_GEN_CURRENT_PACKET_FILTER, le_bytes 4 filter);
  (OID_GEN_XMIT_OK, le_bytes 4 0); (OID_GEN_RCV_OK, le_bytes 4 0);
  (OID_GEN_XMIT_ERROR, le_bytes 4 0); (OID_GEN_RCV_ERROR, le_bytes 4 0);
  (OID_GEN_RCV_NO_BUFFER, le_bytes 4 0); (OID_802_3_RCV_ERROR_ALIGNMENT, le_bytes 4 0);
  (OID_802_3_XMIT_ONE_COLLISION, le_bytes 4 0); (OID_802_3_XMIT_MORE_COLLISIONS, le_bytes 4 0);
  (OID_GEN_MAXIMUM_TOTAL_SIZE, le_bytes 4 (u16 (MessageBufferLength c + ETHERNET_FRAME_SIZE_MAX)))].
Definition oid_value (c : rndis_config) (filter oid : Z) : option (list Z) :=
  snd <$> find (fun x => oid =? x.1) (oid_table c filter).

(** What the adapter does with a message: it responds with some bytes, it stops
    without a response, or it ignores the message. *)
Inductive reaction := Respond (bs : list Z) | Stop | Ignore.
Record adapter := Adapter { a_state : RNDIS_States_t; a_filter : Z }.

Definition query_response (id : Z) (v : option (list Z)) : list Z :=
  match v with
  | Some bs => pack (QC REMOTE_NDIS_QUERY_CMPLT (24 + Z.of_nat (length bs)) id REMOTE_NDIS_STATUS_SUCCESS (Z.of_nat (length bs)) 16) ++ bs
  | None => pack (QC REMOTE_NDIS_QUERY_CMPLT 24 id REMOTE_NDIS_STATUS_NOT_SUPPORTED 0 0)
  end.
Definition set_response (id status : Z) : list Z := pack (SC REMOTE_NDIS_SET_CMPLT 16 id status).

Definition ndis_step (c : rndis_config) (a : adapter) (m : ndis_message) : adapter * reaction :=
  match m with
  | NInitialize id => (Adapter RNDIS_Initialized (a_filter a),
      Respond (pack (IC REMOTE_NDIS_INITIALIZE_CMPLT 52 id REMOTE_NDIS_STATUS_SUCCESS 1 0 REMOTE_NDIS_DF_CONNECTIONLESS
                       REMOTE_NDIS_MEDIUM_802_3 1 1544 0 0 0)))
  | NHalt => (Adapter RNDIS_Uninitialized (a_filter a), Stop)
  | NQuery id oid => (a, Respond (query_response id (oid_value c (a_filter a) oid)))
  | NSet id oid v =>
      if oid =? OID_GEN_CURRENT_PACKET_FILTER
      then (Adapter (if v =? 0 then RNDIS_Initialized else RNDIS_Data_Initialized) v, Respond (set_response id REMOTE_NDIS_STATUS_SUCCESS))
      else (a, Respond (set_response id (if oid =? OID_802_3_MULTICAST_LIST then REMOTE_NDIS_STATUS_SUCCESS
                                         else REMOTE_NDIS_STATUS_NOT_SUPPORTED)))
  | NReset => (a, Respond (pack (RC REMOTE_NDIS_RESET_CMPLT 16 REMOTE_NDIS_STATUS_SUCCESS 0)))
  | NKeepAlive id => (a, Respond (pack (KC REMOTE_NDIS_KEEPALIVE_CMPLT 16 id REMOTE_NDIS_STATUS_SUCCESS)))
  | NUnknown => (a, Ignore)
  end.

Definition adapter_of (i : info) : adapter := Adapter (CurrRNDISState (State i)) (CurrPacketFilter (State i)).

(** The interface after a reaction: the response lies at the start of the buffer
    and the rest of the buffer is as it was. *)
Definition reacted (b : list Z) (i : info) (a : adapter) (r : reaction) : info :=
  match r with
  | Respond bs => set_buffer (patch 0 bs b) (RndisInfo (Config i) (RndisState true (a_state a) (a_filter a)))
  | Stop => set_buffer (patch 4 (le_bytes 4 0) b) (RndisInfo (Config i) (RndisState false (a_state a) (a_filter a)))
  | Ignore => i
  end.

(** ** A buffer as words *)

Definition word (w : list Z) : Prop := length w = 4%nat /\ Forall is_u8 w.

Lemma word_le v : word (le_bytes 4 v).
Proof. split; [apply le_bytes_length|apply le_bytes_u8]. Qed.

Lemma words_split n b : (4 * n <= length b)%nat -> Forall is_u8 b ->
  exists ws rest, b = concat ws ++ rest /\ length ws = n /\ Forall word ws /\ Forall is_u8 rest.
Proof.
  revert b. induction n as [|n IH]; intros b Hl Hu; [by exists [], b|].
  destruct (IH (drop 4 b)) as (ws & rest & Hb & Hn & Hw & Hr); [rewrite length_drop; lia|by apply Forall_drop|].
  exists (take 4 b :: ws), rest. cbn [concat length]. rewrite <- app_assoc, <- Hb, take_drop. split_and!; [done|by f_equal| |done].
  constructor; [|done]. split; [rewrite length_take; lia|by apply Forall_take].
Qed.

Lemma length_words ws : Forall word ws -> length (concat ws) = (4 * length ws)%nat.
Proof. induction 1 as [|w ws [Hw _] _ IH]; [done|]. cbn [concat length]. rewrite length_app. lia. Qed.

Lemma words_at ws rest k w : Forall word ws -> ws !! k = Some w ->
  concat ws ++ rest = concat (take k ws) ++ w ++ concat (drop (S k) ws) ++ rest /\ length (concat (take k ws)) = (4 * k)%nat /\ word w.
Proof.
  intros Hw Hk. split_and!.
  - rewrite <- (take_drop_middle ws k w Hk) at 1. rewrite concat_app. cbn [concat]. by rewrite <- !app_assoc.
  - rewrite length_words by (by apply Forall_take). rewrite length_take. apply lookup_lt_Some in Hk. lia.
  - by apply (Forall_lookup_1 _ _ _ _ Hw Hk).
Qed.

Lemma get32_words ws rest k w : Forall word ws -> ws !! k = Some w ->
  get32 (concat ws ++ rest) (4 * Z.of_nat k) = Some (of_le_bytes w).
Proof.
  intros Hw Hk. destruct (words_at ws rest k w Hw Hk) as (E & Hl & Hlen & _). unfold get32. rewrite E.
  rewrite decide_True by (rewrite !length_app; lia). replace (Z.to_nat (4 * Z.of_nat k)) with (4 * k)%nat by lia.
  rewrite drop_app_length' by done. by rewrite take_app_length'.
Qed.

Lemma put_words ws rest k v : Forall word ws -> (k < length ws)%nat ->
  put_bytes (concat ws ++ rest) (4 * Z.of_nat k) (le_bytes 4 v) = Some (concat (<[k := le_bytes 4 v]> ws) ++ rest).
Proof.
  intros Hw Hk. destruct (lookup_lt_is_Some_2 ws k Hk) as [w Hkw].
  destruct (words_at ws rest k w Hw Hkw) as (E & Hl & Hlen & _).
  unfold put_bytes. rewrite E, le_bytes_length. rewrite decide_True by (rewrite !length_app; lia). f_equal.
  replace (Z.to_nat (4 * Z.of_nat k)) with (4 * k)%nat by lia. unfold patch. rewrite le_bytes_length.
  rewrite take_app_length' by done. rewrite <- drop_drop, drop_app_length' by done. rewrite drop_app_length' by done.
  rewrite (insert_take_drop _ _ _ Hk), concat_app. cbn [concat]. by rewrite <- !app_assoc.
Qed.

(** The interface with the buffer [concat ws ++ rest]. *)
Definition over (i : info) (ws : list (list Z)) (rest : list Z) : info := set_buffer (concat ws ++ rest) i.

Lemma over_same i b : MessageBuffer (Config i) = Some b -> i = set_buffer b i.
Proof. destruct i as [[] s]. cbn. by intros ->. Qed.

Lemma load_over i ws rest k at_ w : at_ = 4 * Z.of_nat k -> Forall word ws -> ws !! k = Some w ->
  load at_ (over i ws rest) = Some (of_le_bytes w).
Proof. intros -> **. unfold load. cbn. by apply get32_words. Qed.

Lemma store_over i ws rest k at_ v : at_ = 4 * Z.of_nat k -> Forall word ws -> (k < length ws)%nat ->
  store at_ v (over i ws rest) = Some (over i (<[k := le_bytes 4 v]> ws) rest).
Proof. intros -> **. unfold store, store_bytes. cbn [over set_buffer Config MessageBuffer mbind option_bind]. by rewrite put_words. Qed.

(** Bytes stored right behind the words. *)
Lemma store_behind i ws rest at_ bs : at_ = 4 * Z.of_nat (length ws) -> Forall word ws -> (length bs <= length rest)%nat ->
  store_bytes at_ bs (over i ws rest) = Some (over i ws (bs ++ drop (length bs) rest)).
Proof.
  intros -> Hw Hl. unfold store_bytes. cbn [over set_buffer Config MessageBuffer mbind option_bind].
  unfold put_bytes. pose proof (length_words ws Hw) as Hc. rewrite decide_True by (rewrite length_app; lia).
  cbn [option_bind]. f_equal. unfold over, set_buffer, patch. cbn [Config State]. do 3 f_equal.
  replace (Z.to_nat (4 * Z.of_nat (length ws))) with (length (concat ws)) by lia.
  rewrite take_app_length, <- drop_drop, drop_app_length. done.
Qed.

Lemma encode_words vs : encode (replicate (length vs) 4%nat) vs = concat (le_bytes 4 <$> vs).
Proof. induction vs as [|v vs IH]; [done|]. cbn [length replicate encode]. by rewrite IH. Qed.

Lemma decode_words n ws rest : Forall word ws -> (n <= length ws)%nat ->
  decode (replicate n 4%nat) (concat ws ++ rest) = of_le_bytes <$> take n ws.
Proof.
  intros Hw. revert n. induction Hw as [|w ws [Hl _] _ IH]; intros [|n] Hn; [done|cbn in Hn; lia|done|].
  cbn [replicate decode concat take]. rewrite <- app_assoc, take_app_length', drop_app_length', IH by (cbn in *; lia). done.
Qed.

(** A response of words, then bytes, at the start of the buffer. *)
Lemma patch_words ws ws' rest bs : Forall word ws -> Forall word ws' -> length ws = length ws' ->
  patch 0 (concat ws' ++ bs) (concat ws ++ rest) = concat ws' ++ bs ++ drop (length bs) rest.
Proof.
  intros Hw Hw' Hl. unfold patch. rewrite take_0, app_nil_l, <- app_assoc, length_app. do 2 f_equal.
  cbn [Nat.add]. pose proof (length_words _ Hw). pose proof (length_words _ Hw').
  rewrite <- drop_drop, drop_app_length' by lia. done.
Qed.

Lemma of_le_word w : word w -> is_u32 (of_le_bytes w) /\ le_bytes 4 (of_le_bytes w) = w.
Proof.
  intros [Hl Hu]. split; [|rewrite <- Hl; by apply le_bytes_of_le]. pose proof (of_le_bytes_range w Hu) as Hr.
  rewrite Hl in Hr. exact Hr.
Qed.

Ltac words := repeat first [apply Forall_nil_2 | apply Forall_cons_2; [first [assumption | apply word_le]|]].
(** The next load or store of a program over a buffer of explicit words. *)
Ltac mem :=
  lazymatch goal with
  | |- context [load ?at_ (over ?i ?ws ?rest)] =>
      let k := eval vm_compute in (Z.to_nat (at_ / 4)) in
      erewrite (load_over i ws rest k at_) by (first [reflexivity | solve [words]])
  | |- context [store ?at_ ?v (over ?i ?ws ?rest)] =>
      let k := eval vm_compute in (Z.to_nat (at_ / 4)) in
      rewrite (store_over i ws rest k at_ v) by (first [reflexivity | solve [words] | cbn; lia])
  end; cbn [mbind option_bind insert list_insert].

Section Refinement.
Variables (i : info) (rest : list Z).

Lemma initialize_words w0 w1 w2 w3 w4 w5 w6 w7 w8 w9 w10 w11 w12 :
  let ws := [w0; w1; w2; w3; w4; w5; w6; w7; w8; w9; w10; w11; w12] in Forall word ws ->
  process_initialize (over i ws rest) =
    Some (over (set_rndis_state RNDIS_Initialized (set_ready true i))
      (le_bytes 4 <$> [REMOTE_NDIS_INITIALIZE_CMPLT; 52; of_le_bytes w2; REMOTE_NDIS_STATUS_SUCCESS; 1; 0; REMOTE_NDIS_DF_CONNECTIONLESS;
                       REMOTE_NDIS_MEDIUM_802_3; 1; 1544; 0; 0; 0]) rest).
Proof.
  intros ws Hw. unfold ws in *. repeat (inversion_clear Hw as [|? ? ? Hw']; rename Hw' into Hw).
  unfold process_initialize. change (set_ready true (over i ?ws rest)) with (over (set_ready true i) ws rest).
  repeat mem. reflexivity.
Qed.
Ltac split_words Hw := repeat (let H := fresh in inversion_clear Hw as [|? ? ? H]; rename H into Hw).

Lemma halt_words w0 w1 : Forall word [w0; w1] ->
  process_halt (over i [w0; w1] rest) = Some (over (set_rndis_state RNDIS_Uninitialized (set_ready false i)) [w0; le_bytes 4 0] rest).
Proof. intros Hw. split_words Hw. unfold process_halt. change (set_ready false (over i ?ws rest)) with (over (set_ready false i) ws rest). repeat mem. reflexivity. Qed.

Lemma reset_words w0 w1 w2 w3 : Forall word [w0; w1; w2; w3] ->
  process_reset (over i [w0; w1; w2; w3] rest) =
    Some (over (set_ready true i) (le_bytes 4 <$> [REMOTE_NDIS_RESET_CMPLT; 16; REMOTE_NDIS_STATUS_SUCCESS; 0]) rest).
Proof. intros Hw. split_words Hw. unfold process_reset. change (set_ready true (over i ?ws rest)) with (over (set_ready true i) ws rest). repeat mem. reflexivity. Qed.

Lemma keepalive_words w0 w1 w2 w3 : Forall word [w0; w1; w2; w3] ->
  process_keepalive (over i [w0; w1; w2; w3] rest) =
    Some (over (set_ready true i) (le_bytes 4 <$> [REMOTE_NDIS_KEEPALIVE_CMPLT; 16; of_le_bytes w2; REMOTE_NDIS_STATUS_SUCCESS]) rest).
Proof. intros Hw. split_words Hw. unfold process_keepalive. change (set_ready true (over i ?ws rest)) with (over (set_ready true i) ws rest). repeat mem. reflexivity. Qed.

(** Room for every value behind the six words of a query response. *)
Definition values_fit : Prop :=
  (108 <= length rest)%nat /\ (length (AdapterVendorDescription (Config i)) < length rest)%nat /\
  24 + Z.of_nat (length rest) < 65536 /\ length (AdapterMACAddress (Config i)) = 6%nat.

Lemma respond_over ws bs n : Forall word ws -> length ws = 6%nat -> n = Z.of_nat (length bs) -> (length bs <= length rest)%nat ->
  respond_bytes n bs (over i ws rest) = Some (Some (Z.of_nat (length bs)), over i ws (bs ++ drop (length bs) rest)).
Proof.
  intros Hw H6 -> Hl. unfold respond_bytes. rewrite Nat2Z.id, firstn_all.
  rewrite (store_behind i ws rest) by (first [done | by rewrite H6]). done.
Qed.


(** The branches of the query are the rows of the table. *)
Lemma query_rows oid j : values_fit -> let c := Config i in
  MessageBufferLength (Config j) = MessageBufferLength c -> AdapterVendorDescription (Config j) = AdapterVendorDescription c ->
  AdapterMACAddress (Config j) = AdapterMACAddress c ->
  RNDIS_Device_ProcessNDISQuery oid j =
    match oid_value c (CurrPacketFilter (State j)) oid with
    | Some bs => respond_bytes (Z.of_nat (length bs)) bs j
    | None => Some (None, j)
    end.
Proof.
  intros (_ & Hv & Hwide & Hmac) c E1 E2 E3. unfold RNDIS_Device_ProcessNDISQuery. cbv zeta. rewrite E1, E2, E3.
  assert (u16 (Z.of_nat (length (AdapterVendorDescription c)) + 1) = Z.of_nat (length (AdapterVendorDescription c ++ [0]))) as ->.
  { rewrite length_app, u16_small by (unfold is_u16; fold c in Hv; lia). cbn [length]. lia. }
  replace (respond_bytes 6) with (respond_bytes (Z.of_nat (length (AdapterMACAddress c)))) by (fold c in Hmac; by rewrite Hmac).
  clear. unfold oid_value, oid_table. cbn [find fst].
  repeat match goal with |- context [oid =? ?K] =>
    destruct (Z.eqb_spec oid K) as [->|?]; [reflexivity|] end.
  reflexivity.
Qed.

Lemma values_sized oid f bs : values_fit -> oid_value (Config i) f oid = Some bs -> (length bs <= length rest)%nat.
Proof.
  intros (H108 & Hv & _ & Hmac). unfold oid_value, oid_table. cbn [find fst].
  repeat (destruct (oid =? _); [cbn [fmap option_fmap option_map snd]; intros [= <-];
    rewrite ?le_bytes_length, ?length_app; first [lia | cbn [length]; lia | vm_compute in H108 |- *; lia]|]). done.
Qed.
Lemma query_words w0 w1 w2 w3 w4 w5 : Forall word [w0; w1; w2; w3; w4; w5] -> values_fit ->
  process_query (over i [w0; w1; w2; w3; w4; w5] rest) =
    Some (match oid_value (Config i) (CurrPacketFilter (State i)) (of_le_bytes w3) with
    | Some bs => over (set_ready true i) (le_bytes 4 <$> [REMOTE_NDIS_QUERY_CMPLT; 24 + Z.of_nat (length bs); of_le_bytes w2;
                   REMOTE_NDIS_STATUS_SUCCESS; Z.of_nat (length bs); 16]) (bs ++ drop (length bs) rest)
    | None => over (set_ready true i) (le_bytes 4 <$> [REMOTE_NDIS_QUERY_CMPLT; 24; of_le_bytes w2; REMOTE_NDIS_STATUS_NOT_SUPPORTED; 0; 0]) rest
    end).
Proof.
  intros Hw Hfit. split_words Hw. unfold process_query. change (set_ready true (over i ?ws rest)) with (over (set_ready true i) ws rest).
  assert (w2 = le_bytes 4 (of_le_bytes w2)) as E2 by (symmetry; by apply of_le_word).
  do 2 mem. rewrite query_rows by done. change (CurrPacketFilter _) with (CurrPacketFilter (State i)).
  destruct (oid_value _ _ _) as [bs|] eqn:Eo.
  - pose proof (values_sized _ _ _ Hfit Eo) as Hl. destruct Hfit as (_ & _ & Hwide & _).
    unfold respond_bytes. rewrite Nat2Z.id, firstn_all.
    rewrite (store_behind (set_ready true i)) by (first [reflexivity | solve [words] | done]). cbn [mbind option_bind].
    rewrite u16_small by (change (sizeof RNDIS_Query_Complete_t) with 24; unfold is_u16; lia).
    repeat mem. rewrite E2 at 1. reflexivity.
  - cbn [mbind option_bind]. repeat mem. rewrite E2 at 1. reflexivity.
Qed.

(** Where the information of a SET message lies, its first four bytes are not
    among those the response has replaced by then. *)
Lemma set_words w0 w1 w2 w3 w4 w5 : let b := concat [w0; w1; w2; w3; w4; w5] ++ rest in
  let at_ := u32 (8 + of_le_bytes w5) in let oid := of_le_bytes w3 in
  Forall word [w0; w1; w2; w3; w4; w5] ->
  forall v, (oid = OID_GEN_CURRENT_PACKET_FILTER -> get32 b at_ = Some v /\ 12 <= at_) ->
  process_set (over i [w0; w1; w2; w3; w4; w5] rest) =
    let response st := le_bytes 4 <$> [REMOTE_NDIS_SET_CMPLT; 16; of_le_bytes w2; st] in
    Some (if oid =? OID_GEN_CURRENT_PACKET_FILTER
          then over (set_rndis_state (if v =? 0 then RNDIS_Initialized else RNDIS_Data_Initialized) (set_filter v (set_ready true i)))
                 (response REMOTE_NDIS_STATUS_SUCCESS ++ [w4; w5]) rest
          else over (set_ready true i) (response (if oid =? OID_802_3_MULTICAST_LIST then REMOTE_NDIS_STATUS_SUCCESS
                                                  else REMOTE_NDIS_STATUS_NOT_SUPPORTED) ++ [w4; w5]) rest).
Proof.
  intros b at_ oid Hw v Hv. split_words Hw. unfold process_set. change (set_ready true (over i ?ws rest)) with (over (set_ready true i) ws rest).
  repeat mem. change (sizeof RNDIS_Message_Header_t) with 8. fold at_ oid. unfold RNDIS_Device_ProcessNDISSet.
  destruct (Z.eqb_spec oid OID_GEN_CURRENT_PACKET_FILTER) as [E|E].
  - destruct (Hv E) as [Hg H12]. set (ws' := [_; _; _; _; _; _]).
    assert (load at_ (over (set_ready true i) ws' rest) = Some v) as ->.
    { rewrite <- Hg. unfold load. cbn [over set_buffer Config MessageBuffer mbind option_bind]. unfold b, ws', get32. cbn [concat].
      rewrite !length_app, !le_bytes_length. assert (length w0 = 4%nat /\ length w1 = 4%nat /\ length w2 = 4%nat) as (L0 & L1 & L2)
        by (split_and!; match goal with H : word ?w |- length ?w = _ => apply H end). rewrite L0, L1, L2.
      case_decide; [|done]. do 2 f_equal. rewrite <- !app_assoc.
      assert (forall x y z t : list Z, length x = 4%nat -> length y = 4%nat -> length z = 4%nat ->
        drop (Z.to_nat at_) (x ++ y ++ z ++ t) = drop (Z.to_nat at_ - 12) t) as Hd.
      { intros x y z t Hx Hy Hz. rewrite !app_assoc. rewrite drop_app_ge by (rewrite !length_app; lia). rewrite !length_app. f_equal. lia. }
      by rewrite !Hd by (by rewrite ?le_bytes_length). }
    cbn [mbind option_bind]. change (set_rndis_state ?s (set_filter ?f (over (set_ready true i) ?ws rest)))
      with (over (set_rndis_state s (set_filter f (set_ready true i))) ws rest).
    unfold ws'. mem. by destruct (v =? 0).
  - destruct (Z.eqb_spec oid OID_802_3_MULTICAST_LIST); cbn [mbind option_bind]; mem; reflexivity.
Qed.
End Refinement.

(** What the driver relies on: the buffer has the length it is said to have, at
    least the minimum, and the vendor's description fits behind a response. *)
Definition well_sized (b : list Z) (i : info) : Prop :=
  (132 <= length b)%nat /\ Z.of_nat (length b) < 65536 /\ Forall is_u8 b /\
  (25 + length (AdapterVendorDescription (Config i)) <= length b)%nat /\ length (AdapterMACAddress (Config i)) = 6%nat /\
  Forall is_u8 (AdapterVendorDescription (Config i) ++ AdapterMACAddress (Config i)).

Lemma unpack_words {A} `{Packed A} n ws rest : widths (A := A) = replicate n 4%nat -> Forall word ws -> (n <= length ws)%nat ->
  unpack (A := A) (concat ws ++ rest) = of_fields (of_le_bytes <$> take n ws).
Proof.
  intros Hn Hw Hl. unfold unpack. rewrite Hn, decide_True; [by rewrite decode_words|].
  rewrite length_app, length_words by done. assert (sum_list (replicate n 4%nat) = 4 * n)%nat as ->; [|lia].
  clear. induction n as [|n IH]; [done|]. cbn in *. lia.
Qed.

Lemma patch_response {A} `{Packed A} (r : A) ws rest bs : widths (A := A) = replicate (length (fields r)) 4%nat ->
  Forall word ws -> length ws = length (fields r) ->
  patch 0 (pack r ++ bs) (concat ws ++ rest) = concat (le_bytes 4 <$> fields r) ++ bs ++ drop (length bs) rest.
Proof.
  intros Hr Hw Hl. unfold pack. rewrite Hr, encode_words. apply patch_words; [done| |by rewrite length_fmap].
  apply Forall_fmap, Forall_true. intros v. apply word_le.
Qed.

(** The buffer seen as [n] words and the rest. *)
Lemma over_words n b i : MessageBuffer (Config i) = Some b -> (4 * n <= length b)%nat -> Forall is_u8 b ->
  exists ws rest, b = concat ws ++ rest /\ i = over i ws rest /\ length ws = n /\ Forall word ws /\ length rest = (length b - 4 * n)%nat.
Proof.
  intros Hb Hl Hu. destruct (words_split n b Hl Hu) as (ws & rest & -> & Hn & Hw & _). exists ws, rest.
  split_and!; [done|by apply over_same|done|done|]. rewrite length_app, length_words, Hn by done. lia.
Qed.


(** The interface [i] with the response [r] (and [bs] behind it) over [b]. *)
Lemma reacted_words {A} `{Packed A} (r : A) ws rest bs i s f : widths (A := A) = replicate (length (fields r)) 4%nat ->
  Forall word ws -> length ws = length (fields r) ->
  reacted (concat ws ++ rest) i (Adapter s f) (Respond (pack r ++ bs)) =
    over (RndisInfo (Config i) (RndisState true s f)) (le_bytes 4 <$> fields r) (bs ++ drop (length bs) rest).
Proof. intros Hr Hw Hl. cbn [reacted a_state a_filter]. by rewrite patch_response. Qed.

Section Messages.
Variables (b : list Z) (i : info).
Hypotheses (Hb : MessageBuffer (Config i) = Some b) (Hsized : well_sized b i).

(** [b] as [n] words, with [i] the interface over them. *)
Ltac words_of n :=
  let ws := fresh "ws" in let Hn := fresh in
  destruct (over_words n b i Hb ltac:(unfold well_sized in *; lia) ltac:(apply Hsized)) as (ws & rest & Eb & Hover & Hn & Hw & Hrest);
  repeat (destruct ws as [|? ws]; [discriminate Hn|]); destruct ws; [|discriminate Hn]; clear Hn.

Lemma initialize_refines m : unpack b = Some m ->
  process_initialize i = Some (let '(a, r) := ndis_step (Config i) (adapter_of i) (NInitialize (IM_RequestId m)) in reacted b i a r).
Proof.
  words_of 13%nat. rewrite Eb, (unpack_words 6) by (done || cbn; lia). intros [= <-].
  rewrite Hover at 1. rewrite initialize_words by done. cbn [ndis_step]. 
  rewrite <- (app_nil_r (pack _)), reacted_words by done. done.
Qed.
Lemma keepalive_refines m : unpack b = Some m ->
  process_keepalive i = Some (let '(a, r) := ndis_step (Config i) (adapter_of i) (NKeepAlive (KM_RequestId m)) in reacted b i a r).
Proof.
  words_of 4%nat. rewrite Eb, (unpack_words 3) by (done || cbn; lia). intros [= <-].
  rewrite Hover at 1. rewrite keepalive_words by done. cbn [ndis_step]. unfold adapter_of.
  rewrite <- (app_nil_r (pack _)), reacted_words by done. done.
Qed.

Lemma reset_refines : process_reset i = Some (let '(a, r) := ndis_step (Config i) (adapter_of i) NReset in reacted b i a r).
Proof.
  words_of 4%nat. rewrite Hover at 1. rewrite Eb, reset_words by done. cbn [ndis_step]. unfold adapter_of.
  rewrite <- (app_nil_r (pack _)), reacted_words by done. done.
Qed.

Lemma halt_refines : process_halt i = Some (let '(a, r) := ndis_step (Config i) (adapter_of i) NHalt in reacted b i a r).
Proof.
  words_of 2%nat. rewrite Hover at 1. rewrite halt_words by done. cbn [ndis_step adapter_of reacted a_state a_filter]. f_equal.
  unfold over, set_buffer. cbn [Config State]. do 3 f_equal. rewrite Eb. inversion_clear Hw as [|? ? [L0 _] Hw']. inversion_clear Hw' as [|? ? [L1 _] _].
  unfold patch. cbn [concat]. rewrite app_nil_r, <- !app_assoc, take_app_length' by done. do 2 f_equal.
  rewrite le_bytes_length, app_assoc, drop_app_length' by (rewrite length_app; lia). done.
Qed.


(** Seven words, the last of them counted with the rest. *)
Lemma seven_words : exists w0 w1 w2 w3 w4 w5 w6 rest, let ws := [w0; w1; w2; w3; w4; w5] in
  b = concat (ws ++ [w6]) ++ rest /\ b = concat ws ++ w6 ++ rest /\ i = over i ws (w6 ++ rest) /\
  Forall word ws /\ Forall word (ws ++ [w6]) /\ values_fit i (w6 ++ rest).
Proof.
  words_of 7%nat. do 8 eexists. cbv zeta. split; [exact Eb|]. pose proof Hw as Hw'. change [l; l0; l1; l2; l3; l4; l5] with ([l; l0; l1; l2; l3; l4] ++ [l5]) in Eb, Hw', Hover.
  assert (b = concat [l; l0; l1; l2; l3; l4] ++ l5 ++ rest) as E.
  { rewrite Eb, concat_app, <- app_assoc. f_equal. cbn [concat]. by rewrite app_nil_r. }
  apply Forall_app in Hw' as [H6 H7]. split; [exact E|]. split; [unfold over; rewrite <- E; by apply over_same|]. split; [exact H6|]. split; [exact Hw|].
  destruct Hsized as (H132 & Hwide & _ & Hd & Hmac & _). apply Forall_singleton in H7 as [H7 _].
  unfold values_fit. rewrite !length_app. rewrite H7. rewrite Hrest. split_and!; [lia|lia|lia|done].
Qed.

Lemma query_refines m : unpack b = Some m ->
  process_query i = Some (let '(a, r) := ndis_step (Config i) (adapter_of i) (NQuery (QM_RequestId m) (QM_Oid m)) in reacted b i a r).
Proof.
  destruct seven_words as (w0 & w1 & w2 & w3 & w4 & w5 & w6 & rest & E7 & E6 & Hover & Hw6 & Hw7 & Hfit).
  rewrite E7 at 1. rewrite (unpack_words 7) by (done || cbn; lia). intros [= <-]. rewrite Hover at 1. rewrite E6.
  rewrite query_words by done. cbn [ndis_step QM_Oid QM_RequestId]. unfold adapter_of. cbn [a_filter].
  destruct (oid_value _ _ _) as [bs|]; cbn [query_response].
  - by rewrite reacted_words.
  - by rewrite <- (app_nil_r (pack _)), reacted_words.
Qed.

Lemma set_refines m v : unpack b = Some m ->
  (SM_Oid m = OID_GEN_CURRENT_PACKET_FILTER -> get32 b (set_data_at m) = Some v /\ 12 <= set_data_at m) ->
  process_set i = Some (let '(a, r) := ndis_step (Config i) (adapter_of i) (NSet (SM_RequestId m) (SM_Oid m) v) in reacted b i a r).
Proof.
  destruct seven_words as (w0 & w1 & w2 & w3 & w4 & w5 & w6 & rest & E7 & E6 & Hover & Hw6 & Hw7 & Hfit).
  rewrite E7 at 1. rewrite (unpack_words 7) by (done || cbn; lia). intros [= <-]. cbn [SM_Oid SM_RequestId]. intros Hv.
  rewrite Hover at 1. rewrite E6 in Hv |- *. rewrite (set_words _ _ _ _ _ _ _ _ Hw6 v Hv). cbv zeta. cbn [ndis_step]. unfold adapter_of.
  assert (forall st s f, reacted (concat [w0; w1; w2; w3; w4; w5] ++ w6 ++ rest) i (Adapter s f) (Respond (set_response (of_le_bytes w2) st)) =
    over (RndisInfo (Config i) (RndisState true s f))
      ((le_bytes 4 <$> [REMOTE_NDIS_SET_CMPLT; 16; of_le_bytes w2; st]) ++ [w4; w5]) (w6 ++ rest)) as Hr.
  { intros st s f. replace (concat [w0; w1; w2; w3; w4; w5] ++ w6 ++ rest) with (concat [w0; w1; w2; w3] ++ (w4 ++ w5 ++ w6 ++ rest))
      by (cbn [concat]; by rewrite !app_nil_r, <- !app_assoc).
    unfold set_response. rewrite <- (app_nil_r (pack _)), reacted_words; [|done|exact (Forall_take word 4 _ Hw6)|done].
    unfold over. f_equal. rewrite concat_app, <- app_assoc. cbn [concat]. by rewrite !app_nil_r, <- app_assoc. }
  destruct (_ =? OID_GEN_CURRENT_PACKET_FILTER); by rewrite Hr.
Qed.

(** A response is as long as it says. *)
Lemma response_length {A} `{PackedOk A} (r : A) bs : widths (A := A) = replicate (length (fields r)) 4%nat ->
  (2 <= length (fields r))%nat -> (length (pack r ++ bs) <= length b)%nat -> fields r !! 1%nat = Some (Z.of_nat (length (pack r ++ bs))) ->
  8 <= Z.of_nat (length (pack r ++ bs)) <= Z.of_nat (length b) /\
  get32 (patch 0 (pack r ++ bs) b) MessageLength_at = Some (Z.of_nat (length (pack r ++ bs))).
Proof.
  intros Hr H2 Hl Hf. destruct Hsized as (_ & Hwide & Hu & _).
  assert (length (pack r) = 4 * length (fields r))%nat as Hp.
  { unfold pack. rewrite Hr, encode_words, length_words, length_fmap; [done|]. apply Forall_fmap, Forall_true. intros. apply word_le. }
  rewrite length_app in *. split; [lia|].
  destruct (words_split (length (fields r)) b) as (ws & rest & -> & Hn & Hw & _); [lia|done|].
  rewrite patch_response by done. change MessageLength_at with (4 * Z.of_nat 1).
  rewrite (get32_words _ _ 1 (le_bytes 4 (Z.of_nat (length (pack r) + length bs)))).
  - f_equal. apply of_le_bytes_le. change (256 ^ Z.of_nat 4) with 4294967296. lia.
  - apply Forall_fmap, Forall_true. intros. apply word_le.
  - by rewrite list_lookup_fmap, Hf.
Qed.
Lemma message_type : load MessageType_at i = MH_MessageType <$> unpack (A := RNDIS_Message_Header_t) b.
Proof.
  words_of 2%nat. rewrite Hover at 1. rewrite Eb. rewrite (load_over _ _ _ 0 _ l) by done. by rewrite (unpack_words 2) by (done || cbn; lia).
Qed.

Lemma step_length m a bs : ndis_step (Config i) (adapter_of i) m = (a, Respond bs) ->
  8 <= Z.of_nat (length bs) <= Z.of_nat (length b) /\ get32 (patch 0 bs b) MessageLength_at = Some (Z.of_nat (length bs)).
Proof.
  assert (forall A (P : Packed A) (r : A), PackedOk A -> widths (A := A) = replicate (length (fields r)) 4%nat ->
    (2 <= length (fields r))%nat -> (length (pack r) <= length b)%nat -> fields r !! 1%nat = Some (Z.of_nat (length (pack r))) ->
    8 <= Z.of_nat (length (pack r)) <= Z.of_nat (length b) /\ get32 (patch 0 (pack r) b) MessageLength_at = Some (Z.of_nat (length (pack r)))) as Hnil.
  { intros A P r HP H1 H2 H3 H4. rewrite <- (app_nil_r (pack r)) in H3, H4 |- *. by apply response_length. }
  pose proof Hsized as (H132 & _ & _ & _).
  destruct m as [id| |id oid|id oid v| |id|]; cbn [ndis_step].
  - intros [= _ <-]. apply Hnil; try apply _; rewrite ?pack_length; cbn; [done|lia|lia|done].
  - done.
  - intros [= _ <-]. destruct (oid_value _ _ oid) as [bs|] eqn:Eo; cbn [query_response].
    + destruct seven_words as (w0 & w1 & w2 & w3 & w4 & w5 & w6 & rest & E7 & E6 & Hover & Hw6 & Hw7 & Hfit).
      pose proof (values_sized _ _ _ _ _ Hfit Eo) as Hbs. assert (24 + length (w6 ++ rest) = length b)%nat as Hb6.
      { rewrite E6. rewrite (length_app (concat _)), length_words by done. done. }
      apply response_length; [done|cbn; lia|rewrite length_app, pack_length; cbn; lia|].
      cbn [fields qc_packed lookup list_lookup QC_MessageLength]. rewrite length_app, pack_length. cbn [widths qc_packed]. f_equal. change (sum_list (replicate 6 4%nat)) with 24%nat. lia.
    + apply Hnil; try apply _; rewrite ?pack_length; cbn; [done|lia|lia|done].
  - destruct (oid =? _); intros [= _ <-]; (apply Hnil; try apply _; rewrite ?pack_length; cbn; [done|lia|lia|done]).
  - intros [= _ <-]. apply Hnil; try apply _; rewrite ?pack_length; cbn; [done|lia|lia|done].
  - intros [= _ <-]. apply Hnil; try apply _; rewrite ?pack_length; cbn; [done|lia|lia|done].
  - done.
Qed.

(** A response is made of bytes. *)
Lemma step_u8 m a bs : ndis_step (Config i) (adapter_of i) m = (a, Respond bs) -> Forall is_u8 bs.
Proof.
  destruct Hsized as (_ & _ & _ & _ & _ & [Hdesc Haddr]%Forall_app).
  destruct m as [id| |id oid|id oid v| |id|]; cbn [ndis_step]; try (by intros [= _ <-]; apply pack_u8); try done.
  - intros [= _ <-]. unfold oid_value. destruct (find _ _) as [[o v]|] eqn:Ef; cbn [fmap option_fmap option_map query_response snd]; [|apply pack_u8].
    apply Forall_app. split; [apply pack_u8|]. apply find_some in Ef as [Hin _].
    assert (Forall (fun x => Forall is_u8 x.2) (oid_table (Config i) (a_filter (adapter_of i)))) as Hall.
    { unfold oid_table. repeat (apply Forall_cons_2; [cbn [snd]; first [apply le_bytes_u8 | done | by apply (bool_decide_unpack _) | apply Forall_app; split; [done|by apply (bool_decide_unpack _)]]|]).
      apply Forall_nil_2. }
    rewrite Forall_forall in Hall. exact (Hall (o, v) Hin).
  - destruct (oid =? _); intros [= _ <-]; apply pack_u8.
Qed.

Lemma message_refines m : parse_message b = Some m ->
  RNDIS_Device_ProcessRNDISControlMessage i = Some (let '(a, r) := ndis_step (Config i) (adapter_of i) m in reacted b i a r).
Proof.
  unfold RNDIS_Device_ProcessRNDISControlMessage, parse_message. rewrite message_type.
  destruct (unpack (A := RNDIS_Message_Header_t) b) as [h|]; cbn [fmap option_fmap option_map mbind option_bind]; [|done].
  destruct (_ =? _); [destruct (unpack (A := RNDIS_Initialize_Message_t) b) as [x|] eqn:Ex; cbn [mbind option_bind]; [|done]; intros [= <-]; by apply initialize_refines|].
  destruct (_ =? _); [intros [= <-]; apply halt_refines|].
  destruct (_ =? _); [destruct (unpack (A := RNDIS_Query_Message_t) b) as [x|] eqn:Ex; cbn [mbind option_bind]; [|done]; intros [= <-]; by apply query_refines|].
  destruct (_ =? _).
  { destruct (unpack (A := RNDIS_Set_Message_t) b) as [x|] eqn:Ex; cbn [mbind option_bind]; [|done].
    destruct (Z.eqb_spec (SM_Oid x) OID_GEN_CURRENT_PACKET_FILTER) as [E|E].
    - destruct (get32 b (set_data_at x)) as [v|] eqn:Ev; cbn [mbind option_bind]; [|done].
      destruct (Z.ltb_spec (set_data_at x) 12); [done|]. intros [= <-]. by apply set_refines.
    - intros [= <-]. by apply set_refines. }
  destruct (_ =? _); [intros [= <-]; apply reset_refines|].
  destruct (_ =? _); [destruct (unpack (A := RNDIS_KeepAlive_Message_t) b) as [x|] eqn:Ex; cbn [mbind option_bind]; [|done]; intros [= <-]; by apply keepalive_refines|].
  by intros [= <-].
Qed.
End Messages.

(** C26: the control messages of the network adapter.  Although a response is built
    over the message it answers, the driver does with every well-formed message
    what the specification says of the message as it was received: the state of
    the adapter and its packet filter follow the specification, the response
    lies at the start of the buffer with the rest of the buffer unchanged, its
    length member is its length and it fits the buffer, and a response is
    announced exactly when there is one.  A message of an unknown type changes
    nothing. *)
Theorem rndis_message_refines b i m : MessageBuffer (Config i) = Some b -> well_sized b i -> parse_message b = Some m ->
  let '(a, r) := ndis_step (Config i) (adapter_of i) m in
  RNDIS_Device_ProcessRNDISControlMessage i = Some (reacted b i a r) /\
  match r with
  | Respond bs => 8 <= Z.of_nat (length bs) <= Z.of_nat (length b) /\
      get32 (patch 0 bs b) MessageLength_at = Some (Z.of_nat (length bs))
  | _ => True
  end.
Proof.
  intros Hb Hs Hp. pose proof (message_refines b i Hb Hs m Hp) as Hm. pose proof (step_length b i Hb Hs m) as Hl.
  destruct (ndis_step _ _ m) as [a r]. split; [done|]. destruct r as [bs| |]; [|done..]. by eapply Hl.
Qed.


(** The objects of the table. *)
Lemma oid_value_None c f oid : oid_value c f oid = None <-> oid ∉ (fst <$> oid_table c f).
Proof.
  unfold oid_value. induction (oid_table c f) as [|[o v] l IH]; [split; [intros _; apply not_elem_of_nil|done]|].
  cbn [find fst]. change (fst <$> (o, v) :: l) with (o :: (fst <$> l)). rewrite not_elem_of_cons.
  destruct (Z.eqb_spec oid o) as [->|Hne]; [by split; [|intros []]|]. rewrite IH. by split; [|intros [_ ?]].
Qed.

Lemma supported_keys c f oid : oid ∈ AdapterSupportedOIDList <-> oid ∈ (fst <$> oid_table c f) \/ oid = OID_802_3_MULTICAST_LIST.
Proof.
  assert (forall l l' : list Z, forallb (fun x => existsb (Z.eqb x) l') l = true -> forall x, x ∈ l -> x ∈ l') as Hsub.
  { intros l l' H x Hx. rewrite forallb_forall in H. apply list_elem_of_In, H, existsb_exists in Hx as (y & Hy & ->%Z.eqb_eq).
    by apply list_elem_of_In. }
  rewrite <- list_elem_of_singleton, <- elem_of_app. split; apply Hsub; reflexivity.
Qed.

(** The list of supported objects is right.  An object is in the list the
    adapter reports exactly when a query of it is answered or setting it is
    accepted; so what the adapter advertises and what it does agree. *)
Theorem rndis_supported_list b i oid at_ : MessageBuffer (Config i) = Some b -> well_sized b i ->
  0 <= at_ /\ at_ + 4 <= Z.of_nat (length b) ->
  oid ∈ AdapterSupportedOIDList <->
    (exists n i', RNDIS_Device_ProcessNDISQuery oid i = Some (Some n, i')) \/
    (exists i', RNDIS_Device_ProcessNDISSet oid at_ i = Some (true, i')).
Proof.
  intros Hb Hs Hat. set (f := CurrPacketFilter (State i)). rewrite (supported_keys (Config i) f).
  destruct (seven_words b i Hb Hs) as (w0 & w1 & w2 & w3 & w4 & w5 & w6 & rest & E7 & E6 & Hover & Hw6 & Hw7 & Hfit).
  assert ((exists n i', RNDIS_Device_ProcessNDISQuery oid i = Some (Some n, i')) <-> oid ∈ (fst <$> oid_table (Config i) f)) as ->.
  { rewrite (query_rows i (w6 ++ rest)) by done. fold f. pose proof (oid_value_None (Config i) f oid) as Hn.
    destruct (oid_value _ f oid) as [bs|] eqn:Eo.
    - pose proof (values_sized _ _ _ _ _ Hfit Eo). split; [intros _|intros _].
      + destruct (decide (oid ∈ (fst <$> oid_table (Config i) f))); [done|]. by apply Hn in n.
      + rewrite Hover. rewrite respond_over by done. by do 2 eexists.
    - split; [by intros (n & i' & ?)|]. intros Hin. exfalso. by apply Hn. }
  unfold RNDIS_Device_ProcessNDISSet, load. rewrite Hb. cbn [mbind option_bind]. unfold get32. rewrite decide_True by done. cbn [option_bind].
  destruct (Z.eqb_spec oid OID_GEN_CURRENT_PACKET_FILTER) as [->|Hne].
  - split; [intros _; right; by eexists|]. intros _. left. unfold oid_table. do 15 right. left.
  - destruct (Z.eqb_spec oid OID_802_3_MULTICAST_LIST) as [->|Hm].
    + split; [intros _; right; by eexists|by right].
    + split; [intros [?|?]; [by left|done]|]. intros [?|(i' & [=])]. by left.
Qed.

(** ** Concrete runs *)

(** An adapter with a buffer of the minimum size, holding [bs] and zeros. *)
Definition card (bs : list Z) : info :=
  RndisInfo (RndisConfig 0 (EndpointEntry 0x81 64 0x02 1) (EndpointEntry 0x02 64 0x02 1)
    (EndpointEntry 0x83 8 0x03 1) [76; 85; 70; 65] [2; 0; 2; 0; 2; 0] (Some (bs ++ replicate (132 - length bs) 0)) 132)
    (RndisState false RNDIS_Uninitialized 0).

(** The messages INITIALIZE, with the identifier 7, and SET of the packet filter
    to 13, whose information lies behind the message. *)
Definition initialize_message : list Z := pack (IM REMOTE_NDIS_INITIALIZE_MSG 24 7 1 0 0x4000).
Definition set_message : list Z := pack (SM REMOTE_NDIS_SET_MSG 32 8 OID_GEN_CURRENT_PACKET_FILTER 4 20 0) ++ [13; 0; 0; 0].

Lemma card_sized bs : bool_decide (length bs <= 132)%nat = true -> bool_decide (Forall is_u8 bs) = true ->
  well_sized (bs ++ replicate (132 - length bs) 0) (card bs).
Proof.
  intros Hl%bool_decide_eq_true Hu%bool_decide_eq_true. unfold well_sized. rewrite length_app, length_replicate.
  split_and!; [lia|lia| |cbn; lia|done|by apply (bool_decide_unpack _)].
  apply Forall_app. split; [done|]. apply Forall_replicate. unfold is_u8. lia.
Qed.

Lemma rndis_message_refines_witness :
  let b := set_message ++ replicate 100 0 in
  RNDIS_Device_ProcessRNDISControlMessage (card set_message) =
    Some (reacted b (card set_message) (Adapter RNDIS_Data_Initialized 13) (Respond (set_response 8 REMOTE_NDIS_STATUS_SUCCESS))).
Proof.
  intros b. exact (proj1 (rndis_message_refines b (card set_message) (NSet 8 OID_GEN_CURRENT_PACKET_FILTER 13) eq_refl
    (card_sized set_message eq_refl eq_refl) eq_refl)).
Defined.

Lemma rndis_supported_list_witness :
  (exists n i', RNDIS_Device_ProcessNDISQuery OID_802_3_CURRENT_ADDRESS (card []) = Some (Some n, i')) \/
  (exists i', RNDIS_Device_ProcessNDISSet OID_802_3_CURRENT_ADDRESS 24 (card []) = Some (true, i')).
Proof.
  apply (rndis_supported_list (replicate 132 0) (card []) OID_802_3_CURRENT_ADDRESS 24 eq_refl (card_sized [] eq_refl eq_refl)).
  - cbn. lia.
  - by apply (bool_decide_unpack _).
Defined.
