(* ===== verification/BulkPort.v ===== *)
(** * Pairs of data endpoints (LUFA CDCClassDevice.c, PrinterClassDevice.c)

    The serial and the printer driver move bytes over a pair of bulk endpoints
    with the same functions; they differ in the guard and in where the addresses
    of the endpoints are kept.  [port] is what such a pair of endpoints holds:
    the packets handed over, the bank being filled, and the packets of the host
    that wait.  The functions implement a small machine on it.  The drivers of
    MIDI and of audio move items of one size over such a pair. *)

From S2P Require Import Prelude StdDescriptors HIDClass Descriptors Machine UsbCore Endpoint EndpointStream DeviceStandardReq StreamTransfers.

(** ** The functions of the drivers *)

Section Functions.
Context {G : Type} `{UsbState G} `{Avr}.
(** The guard of every function, and the addresses of its endpoints. *)
Variable ready : M G bool.
Variables in_address out_address : G -> Z.
(** The management task a stream runs between packets. *)
Variable USB_USBTask : M G unit.

Definition select (address : G -> Z) : M G unit := g <- mget;; Endpoint_SelectEndpoint (address g).

Definition port_SendData (Buffer : list Z) (Length : Z) : M G Z :=
  ok <- ready;;
  if negb ok then ret (stream_value ENDPOINT_RWSTREAM_DeviceDisconnected) else
  select in_address;;;
  x <- Endpoint_Write_Stream_LE USB_USBTask Buffer Length None;;
  let '(code, _, _) := x in ret (stream_value code).

(** The characters before the terminating zero. *)
Definition port_SendString (String : list Z) : M G Z :=
  port_SendData (String ++ [0]) (u16 (Z.of_nat (length String))).

Definition port_SendByte (Data : Z) : M G Z :=
  ok <- ready;;
  if negb ok then ret (stream_value ENDPOINT_RWSTREAM_DeviceDisconnected) else
  select in_address;;;
  rw <- Endpoint_IsReadWriteAllowed;;
  ErrorCode <- (if negb rw then Endpoint_ClearIN;;; Endpoint_WaitUntilReady else ret ENDPOINT_READYWAIT_NoError);;
  if negb (bool_decide (ErrorCode = ENDPOINT_READYWAIT_NoError)) then ret (stream_value (stream_code ErrorCode)) else
  Endpoint_Write_8 Data;;;
  ret (stream_value ENDPOINT_RWSTREAM_NoError).

Definition port_Flush : M G Z :=
  ok <- ready;;
  if negb ok then ret (stream_value ENDPOINT_RWSTREAM_DeviceDisconnected) else
  select in_address;;;
  n <- Endpoint_BytesInEndpoint;;
  if n =? 0 then ret (stream_value ENDPOINT_RWSTREAM_NoError) else
  rw <- Endpoint_IsReadWriteAllowed;;
  let BankFull := negb rw in
  Endpoint_ClearIN;;;
  if BankFull then
    ErrorCode <- Endpoint_WaitUntilReady;;
    if negb (bool_decide (ErrorCode = ENDPOINT_READYWAIT_NoError)) then ret (stream_value (stream_code ErrorCode)) else
    Endpoint_ClearIN;;;
    ret (stream_value ENDPOINT_RWSTREAM_NoError)
  else ret (stream_value ENDPOINT_RWSTREAM_NoError).

(** The automatic flush of the management task. *)
Definition port_USBTask : M G unit :=
  ok <- ready;;
  if negb ok then ret tt else
  select in_address;;;
  ready_in <- Endpoint_IsINReady;;
  when ready_in (port_Flush;;; ret tt).

Definition port_BytesReceived : M G Z :=
  ok <- ready;;
  if negb ok then ret 0 else
  select out_address;;;
  out <- Endpoint_IsOUTReceived;;
  if out then
    n <- Endpoint_BytesInEndpoint;;
    if n =? 0 then Endpoint_ClearOUT;;; ret 0 else Endpoint_BytesInEndpoint
  else ret 0.

Definition port_ReceiveByte : M G Z :=
  ok <- ready;;
  if negb ok then ret (-1) else
  select out_address;;;
  out <- Endpoint_IsOUTReceived;;
  if out then
    n <- Endpoint_BytesInEndpoint;;
    ReceivedByte <- (if n =? 0 then ret (-1) else Endpoint_Read_8);;
    n <- Endpoint_BytesInEndpoint;;
    when (n =? 0) Endpoint_ClearOUT;;;
    ret ReceivedByte
  else ret (-1).
End Functions.

(** ** What a pair of bulk endpoints holds *)

Record port := Port {
  p_sel : Z;                     (** the endpoint selected *)
  p_sent : list (list Z);        (** packets handed over to the host *)
  p_open : list Z;               (** the bank being filled *)
  p_waiting : list (list Z)      (** packets of the host, the first one read in part *)
}.

Definition submit (s : port) : port := Port (p_sel s) (p_sent s ++ [p_open s]) [] (p_waiting s).
Definition release (s : port) : port := Port (p_sel s) (p_sent s) (p_open s) (tail (p_waiting s)).
Definition selecting (n : Z) (s : port) : port := Port n (p_sent s) (p_open s) (p_waiting s).
Definition with_open (bs : list Z) (s : port) : port := Port (p_sel s) (p_sent s) bs (p_waiting s).
Definition first_read (s : port) : port :=
  Port (p_sel s) (p_sent s) (p_open s) (match p_waiting s with (_ :: q) :: ps => q :: ps | ps => ps end).

Inductive port_op :=
  | OSendByte (b : Z) | OSendData (bs : list Z) | OSendString (bs : list Z) | OFlush | OTask
  | OBytesReceived | OReceiveByte.
(** The bytes an operation sends. *)
Definition op_bytes (o : port_op) : list Z :=
  match o with OSendByte b => [b] | OSendData bs | OSendString bs => bs | _ => [] end.

Section Hardware.
Context `{Avr}.
(** The numbers of the two endpoints, and the size of the banks. *)
Variables (NI NO : Z) (size : nat).

Definition full (s : port) : bool := bool_decide (size <= length (p_open s))%nat.

(** What an access does to the endpoints: a byte written beyond the size of the
    bank is lost, and a bank changes hands when FIFOCON is written as zero. *)
Definition on_event (e : event) (s : port) : port :=
  match e with
  | Wr UENUM v => selecting (u8 v) s
  | Wr UEDATX v => if (p_sel s =? NI) && negb (full s) then with_open (p_open s ++ [v]) s else s
  | Wr UEINTX v => if bit_tst v FIFOCON then s else if p_sel s =? NI then submit s else if p_sel s =? NO then release s else s
  | Rd UEDATX _ => if p_sel s =? NO then first_read s else s
  | _ => s
  end.
Fixpoint after (new : log) (s : port) : port :=
  match new with [] => s | e :: new' => on_event e (after new' s) end.

(** What a log says of the endpoint to the host, from reset on, where endpoint 0 is
    selected and no bank is in use: the endpoint selected, the packets handed over
    with their bytes, and the bytes in the bank. *)
Definition replay (h : log) : port := after h (Port 0 [] [] []).
Definition handed (h : log) : list (list Z) := p_sent (replay h).
Definition logged (s : port) (h : log) : Prop :=
  p_sel s = p_sel (replay h) /\ p_sent s = p_sent (replay h) /\ p_open s = p_open (replay h).

Context (p : platform).

(** How the registers show what the endpoints hold, while the device is
    configured, the host collects its packets in time and sends no request. *)
Definition shows (s : port) (h : log) : Prop :=
  let r x := reg_wrap x (respond p h x) in let flag := bit_tst (r UEINTX) in
  let count n := r UEBCLX = Z.of_nat n /\ r UEBCHX = 0 in
  r V_USB_DeviceState = state_code DEVICE_STATE_Configured /\ r UENUM = p_sel s /\
  (p_sel s = NI -> bit_tst (r UECFG0X) EPDIR = true /\ flag TXINI = true /\ flag RWAL = negb (full s) /\ count (length (p_open s))) /\
  (p_sel s = NO -> bit_tst (r UECFG0X) EPDIR = false /\ flag RXOUTI = bool_decide (p_waiting s <> []) /\
     let q := default [] (head (p_waiting s)) in
     flag RWAL = bool_decide (q <> []) /\ count (length q) /\ (forall b, head q = Some b -> r UEDATX = b)) /\
  (p_sel s = 0 -> flag RXSTPI = false).
(** The log put into the endpoints what [s] says, and the registers show it now and
    after any further accesses. *)
Definition served (s : port) (h0 : log) : Prop := logged s h0 /\ forall new, shows (after new s) (new ++ h0).

(** ** The machine the functions implement *)

Definition put (b : Z) (s : port) : port := let s1 := if full s then submit s else s in with_open (p_open s1 ++ [b]) s1.
Definition put_all (bs : list Z) (s : port) : port := foldl (fun s b => put b s) s bs.
Definition flush (s : port) : port :=
  if bool_decide (p_open s = []) then s else if full s then submit (submit s) else submit s.
Definition count_waiting (s : port) : Z * port :=
  match p_waiting s with
  | [] => (0, s)
  | [] :: _ => (0, release s)
  | q :: _ => (Z.of_nat (length q), s)
  end.
Definition take_waiting (s : port) : Z * port :=
  match p_waiting s with
  | [] => (-1, s)
  | [] :: _ => (-1, release s)
  | [b] :: _ => (b, release s)
  | (b :: _) :: _ => (b, first_read s)
  end.

(** A call of one of the functions, and what it does to the machine. *)
Definition port_step (o : port_op) (s : port) : Z * port :=
  match o with
  | OSendByte b => (0, put b (selecting NI s))
  | OSendData bs | OSendString bs => (0, put_all bs (selecting NI s))
  | OFlush | OTask => (0, flush (selecting NI s))
  | OBytesReceived => count_waiting (selecting NO s)
  | OReceiveByte => take_waiting (selecting NO s)
  end.
Fixpoint port_run (os : list port_op) (s : port) : list Z * port :=
  match os with
  | [] => ([], s)
  | o :: os' => let '(r, s1) := port_step o s in let '(rs, s2) := port_run os' s1 in (r :: rs, s2)
  end.
End Hardware.

(** Calls one after the other. *)
Fixpoint in_turn {G O A} (call : O -> M G A) (os : list O) : M G (list A) :=
  match os with
  | [] => ret []
  | o :: os' => r <- call o;; rs <- in_turn call os';; ret (r :: rs)
  end.

(** ** Accesses *)

(** The number in an address. *)
Lemma small_number x N : Z.land x ENDPOINT_EPNUM_MASK = N -> 0 <= N < 16 /\ u8 (Z.land x ENDPOINT_EPNUM_MASK) = N.
Proof.
  change ENDPOINT_EPNUM_MASK with (Z.ones 4). rewrite Z.land_ones by lia. intros E. pose proof (Z.mod_pos_bound x (2 ^ 4) ltac:(lia)) as Hm.
  rewrite E in Hm |- *. change (2 ^ 4) with 16 in Hm. split; [done|]. apply u8_small. unfold is_u8. lia.
Qed.

Section Accesses.
Context {G : Type} `{UsbState G} `{AvrOk} (p : platform).
Variables (NI NO : Z) (size : nat).
Context (Hne : NI <> NO).
Abbreviation served := (served NI NO size p).
Abbreviation after := (after NI NO size).
Abbreviation full := (full size).
Implicit Types (w : world G) (s : port).

Lemma after_app new old s : after (new ++ old) s = after new (after old s).
Proof. induction new as [|e new IH]; [done|]. cbn [app after]. by rewrite IH. Qed.
Lemma logged_step e s h : logged NI NO size s h -> logged NI NO size (on_event NI NO size e s) (e :: h).
Proof.
  intros (E1 & E2 & E3). unfold logged, replay in *. cbn [BulkPort.after]. set (t := after h _) in *.
  destruct e as [[] v|[] v]; cbn [on_event]; try done.
  - rewrite E1. by destruct (_ =? NO).
  - rewrite E1. destruct (bit_tst v FIFOCON); [done|]. destruct (_ =? NI); [|by destruct (_ =? NO)].
    unfold submit. cbn [p_sel p_sent p_open]. by rewrite E2, E3.
  - unfold BulkPort.full. rewrite E1, E3. destruct (_ && _); [|done]. cbn [with_open p_sel p_sent p_open]. done.
Qed.
Lemma served_now s h : served s h -> shows NI NO size p s h.
Proof. intros [_ Hs]. apply (Hs []). Qed.
Lemma served_step e s h : served s h -> served (on_event NI NO size e s) (e :: h).
Proof.
  intros [Hl Hs]. split; [by apply logged_step|]. intros new. specialize (Hs (new ++ [e])). by rewrite after_app, <- app_assoc in Hs.
Qed.
(** What was handed over is what the log holds. *)
Lemma served_handed s h : served s h -> handed NI NO size h = p_sent s.
Proof. intros [(_ & Hl & _) _]. by symmetry. Qed.

(** A register is read, but not the data register. *)
Lemma wp_look nf r s Q w : r <> UEDATX -> served s (hist w) ->
  (forall w', st w' = st w -> served s (hist w') -> Q (reg_wrap r (respond p (hist w) r)) w') -> wp nf (rd r) Q p w.
Proof.
  intros Hr Hs HQ. apply wp_rd. intros v ->. apply HQ; [done|]. cbn [hist]. set (v := reg_wrap _ _).
  pose proof (served_step (Rd r v) s _ Hs) as Hs1. by destruct r.
Qed.
Lemma wp_look_bit nf r b s Q w : r <> UEDATX -> served s (hist w) ->
  (forall w', st w' = st w -> served s (hist w') -> Q (bit_tst (reg_wrap r (respond p (hist w) r)) b) w') ->
  wp nf (reg_bit r b) Q p w.
Proof.
  intros Hr Hs HQ. apply wp_reg_bit. intros v ->. apply HQ; [done|]. cbn [hist]. set (v := reg_wrap _ _).
  pose proof (served_step (Rd r v) s _ Hs) as Hs1. by destruct r.
Qed.

(** The flags of the bank are cleared. *)
Lemma wp_hand nf a s s' Q w : 0 <= a < 8 -> 0 <= FIFOCON < 8 -> served s (hist w) ->
  (forall v, bit_tst v FIFOCON = false -> on_event NI NO size (Wr UEINTX v) s = s') ->
  (forall w', st w' = st w -> served s' (hist w') -> Q tt w') -> wp nf (clear_flags a FIFOCON) Q p w.
Proof.
  intros Ha Hb Hs He HQ. destruct (clear_flags_run a FIFOCON p w Ha Hb) as (v & v' & Hrun & Hv'). unfold wp. rewrite Hrun.
  apply HQ; [done|]. cbn [hist]. rewrite <- (He v') by (rewrite Hv' by done; by rewrite Z.eqb_refl, andb_false_r).
  exact (served_step (Wr UEINTX v') s _ (served_step (Rd UEINTX v) s _ Hs)).
Qed.
Lemma wp_hand_in nf s Q w : served s (hist w) -> p_sel s = NI ->
  (forall w', st w' = st w -> served (submit s) (hist w') -> Q tt w') -> wp nf Endpoint_ClearIN Q p w.
Proof.
  intros Hs Hsel. destruct flag_facts as ((B1 & _ & _ & B4) & _). apply (wp_hand _ _ s); [done|done|done|].
  intros v Hv. cbn [on_event]. by rewrite Hv, Hsel, Z.eqb_refl.
Qed.
Lemma wp_hand_out nf s Q w : served s (hist w) -> p_sel s = NO ->
  (forall w', st w' = st w -> served (release s) (hist w') -> Q tt w') -> wp nf Endpoint_ClearOUT Q p w.
Proof.
  intros Hs Hsel. destruct flag_facts as ((_ & B2 & _ & B4) & _). apply (wp_hand _ _ s); [done|done|done|].
  intros v Hv. cbn [on_event]. rewrite Hv, Hsel, Z.eqb_refl. by rewrite (proj2 (Z.eqb_neq _ _)) by done.
Qed.

Lemma wp_pick nf address N s Q w : served s (hist w) -> u8 (Z.land (address (st w)) ENDPOINT_EPNUM_MASK) = N ->
  (forall w', st w' = st w -> served (selecting N s) (hist w') -> Q tt w') -> wp nf (select address) Q p w.
Proof.
  intros Hs HN HQ. unfold select, Endpoint_SelectEndpoint. apply wp_bind, wp_get, wp_wr. apply HQ; [done|]. cbn [hist reg_wrap].
  pose proof (served_step (Wr UENUM N) s _ Hs) as Hs1. cbn [on_event] in Hs1. rewrite HN.
  rewrite u8_small in Hs1; [done|]. rewrite <- HN. apply u8_range.
Qed.

(** The count of a bank. *)
Lemma wp_counted nf n s Q w : served s (hist w) ->
  (forall h, shows NI NO size p s h -> reg_wrap UEBCLX (respond p h UEBCLX) = Z.of_nat n /\ reg_wrap UEBCHX (respond p h UEBCHX) = 0) ->
  (forall w', st w' = st w -> served s (hist w') -> Q (Z.of_nat n) w') -> wp nf Endpoint_BytesInEndpoint Q p w.
Proof.
  intros Hs Hn HQ. unfold Endpoint_BytesInEndpoint. destruct series.
  - apply (wp_look _ _ s); [done|done|]. intros w' Hst Hs'. rewrite (proj1 (Hn _ (served_now _ _ Hs))). by apply HQ.
  - apply wp_bind, (wp_look _ _ s); [done|done|]. intros w1 S1 Hs1. rewrite (proj2 (Hn _ (served_now _ _ Hs))).
    apply wp_bind, (wp_look _ _ s); [done|done|]. intros w2 S2 Hs2. rewrite (proj1 (Hn _ (served_now _ _ Hs1))).
    apply wp_ret. cbn [Z.shiftl Z.lor]. apply HQ; [by rewrite S2|done].
Qed.
Lemma wp_count_in nf s Q w : served s (hist w) -> p_sel s = NI ->
  (forall w', st w' = st w -> served s (hist w') -> Q (Z.of_nat (length (p_open s))) w') -> wp nf Endpoint_BytesInEndpoint Q p w.
Proof. intros Hs Hsel. apply (wp_counted _ _ s); [done|]. intros h (_ & _ & Hi & _). by destruct (Hi Hsel) as (_ & _ & _ & ?). Qed.
Lemma wp_count_out nf s Q w : served s (hist w) -> p_sel s = NO ->
  (forall w', st w' = st w -> served s (hist w') -> Q (Z.of_nat (length (default [] (head (p_waiting s))))) w') ->
  wp nf Endpoint_BytesInEndpoint Q p w.
Proof. intros Hs Hsel. apply (wp_counted _ _ s); [done|]. intros h (_ & _ & _ & Ho & _). by destruct (Ho Hsel) as (_ & _ & _ & ? & _). Qed.

(** The bank has room, or holds a byte. *)
Lemma wp_room nf s Q w : served s (hist w) -> p_sel s = NI ->
  (forall w', st w' = st w -> served s (hist w') -> Q (negb (full s)) w') -> wp nf Endpoint_IsReadWriteAllowed Q p w.
Proof.
  intros Hs Hsel HQ. apply (wp_look_bit _ _ _ s); [done|done|]. intros w' Hst Hs'.
  destruct (served_now _ _ Hs) as (_ & _ & Hi & _). destruct (Hi Hsel) as (_ & _ & -> & _). by apply HQ.
Qed.
Lemma wp_out nf s Q w : served s (hist w) -> p_sel s = NO ->
  (forall w', st w' = st w -> served s (hist w') -> Q (bool_decide (p_waiting s <> [])) w') -> wp nf Endpoint_IsOUTReceived Q p w.
Proof.
  intros Hs Hsel HQ. apply (wp_look_bit _ _ _ s); [done|done|]. intros w' Hst Hs'.
  destruct (served_now _ _ Hs) as (_ & _ & _ & Ho & _). destruct (Ho Hsel) as (_ & -> & _). by apply HQ.
Qed.
Lemma wp_first nf s b q ps Q w : served s (hist w) -> p_sel s = NO -> p_waiting s = (b :: q) :: ps ->
  (forall w', st w' = st w -> served (first_read s) (hist w') -> Q b w') -> wp nf Endpoint_Read_8 Q p w.
Proof.
  intros Hs Hsel Hw HQ. apply wp_rd. intros v Hv. destruct (served_now _ _ Hs) as (_ & _ & _ & Ho & _).
  destruct (Ho Hsel) as (_ & _ & _ & _ & Hd). rewrite Hw in Hd. rewrite (Hd b eq_refl) in Hv. subst v. apply HQ; [done|]. cbn [hist].
  pose proof (served_step (Rd UEDATX b) s _ Hs) as Hs1. cbn [on_event] in Hs1. by rewrite Hsel, Z.eqb_refl in Hs1.
Qed.
Lemma wp_put_byte nf b s Q w : served s (hist w) -> p_sel s = NI -> full s = false -> is_u8 b ->
  (forall w', st w' = st w -> served (with_open (p_open s ++ [b]) s) (hist w') -> Q tt w') -> wp nf (Endpoint_Write_8 b) Q p w.
Proof.
  intros Hs Hsel Hf Hb HQ. apply wp_wr. cbn [reg_wrap]. rewrite u8_small by done. apply HQ; [done|]. cbn [hist].
  pose proof (served_step (Wr UEDATX b) s _ Hs) as Hs1. cbn [on_event] in Hs1. by rewrite Hsel, Z.eqb_refl, Hf in Hs1.
Qed.

(** The wait ends at the first look. *)
Lemma wp_wait_served nf s Q w : served s (hist w) -> p_sel s = NI \/ p_sel s = NO /\ p_waiting s <> [] -> (0 < fuel p)%nat ->
  (forall w', st w' = st w -> served s (hist w') -> Q ENDPOINT_READYWAIT_NoError w') -> wp nf Endpoint_WaitUntilReady Q p w.
Proof.
  intros Hs Hsel Hf HQ. unfold Endpoint_WaitUntilReady, USB_Device_GetFrameNumber. apply wp_bind, (wp_look _ _ s); [done|done|]. intros w1 S1 Hs1.
  apply (wp_while_variant nf p (fun _ w' => st w' = st w /\ served s (hist w')) (fun _ _ => 0%nat)); [|done|done].
  intros [rem prev] w2 [S2 Hs2]. unfold Endpoint_GetEndpointDirection. apply wp_bind, wp_bind, (wp_look_bit _ _ _ s); [done|done|]. intros w3 S3 Hs3.
  apply wp_ret. destruct (served_now _ _ Hs2) as (_ & _ & Hi2 & Ho2 & _). destruct (served_now _ _ Hs3) as (_ & _ & Hi3 & Ho3 & _).
  destruct Hsel as [Hsel|[Hsel Hw]].
  - destruct (Hi2 Hsel) as (-> & _). change (ENDPOINT_DIR_IN =? ENDPOINT_DIR_IN) with true. apply wp_bind. unfold Endpoint_IsINReady.
    apply (wp_look_bit _ _ _ s); [done|done|]. intros w4 S4 Hs4. destruct (Hi3 Hsel) as (_ & -> & _). apply wp_ret, HQ; [congruence|done].
  - destruct (Ho2 Hsel) as (-> & _). change (ENDPOINT_DIR_OUT =? ENDPOINT_DIR_IN) with false. apply wp_bind. unfold Endpoint_IsOUTReceived.
    apply (wp_look_bit _ _ _ s); [done|done|]. intros w4 S4 Hs4. destruct (Ho3 Hsel) as (_ & -> & _). rewrite bool_decide_true by done.
    apply wp_ret, HQ; [congruence|done].
Qed.
End Accesses.

(** ** The functions implement the machine *)

Section Refinement.
Context {G : Type} `{UsbState G} `{AvrOk} (p : platform).
Variables (NI NO : Z) (size : nat).
Context (Hne : NI <> NO) (Hsize : (1 <= size)%nat).
Abbreviation served := (served NI NO size p).
Abbreviation full := (full size).
Abbreviation put := (put size).
Abbreviation put_all := (put_all size).
Abbreviation flush := (flush size).
Implicit Types (w : world G) (s : port).

(** The objects for which the guard passes and the addresses are those of the
    two endpoints. *)
Context (ready : M G bool) (in_address out_address : G -> Z) (task : M G unit) (ok : G -> Prop).
Context (Hready : forall Q s w, ok (st w) -> served s (hist w) ->
  (forall w', st w' = st w -> served s (hist w') -> Q true w') -> wp False ready Q p w).
Context (Hin : forall g, ok g -> u8 (Z.land (in_address g) ENDPOINT_EPNUM_MASK) = NI).
Context (Hout : forall g, ok g -> u8 (Z.land (out_address g) ENDPOINT_EPNUM_MASK) = NO).
Context (Htask : forall Q s w, served s (hist w) -> p_sel s = NI -> (forall w', st w' = st w -> served s (hist w') -> Q tt w') -> wp False task Q p w).
Context (Hfuel : (0 < fuel p)%nat).

(** The head of every function. *)
Lemma wp_enter {A} address N (k : M G A) (no : A) s Q w : ok (st w) -> served s (hist w) ->
  (forall g, ok g -> u8 (Z.land (address g) ENDPOINT_EPNUM_MASK) = N) ->
  (forall w', st w' = st w -> served (selecting N s) (hist w') -> wp False k Q p w') ->
  wp False (ok <- ready;; if negb ok then ret no else select address;;; k) Q p w.
Proof.
  intros Hok Hs HN HQ. apply wp_bind, (Hready _ s); [done|done|]. intros w1 S1 Hs1. cbn [negb].
  apply wp_bind, (wp_pick p NI NO size _ _ N s); [done|apply HN; by rewrite S1|]. intros w2 S2 Hs2. apply HQ; [congruence|done].
Qed.

Lemma submit_room s : full (submit s) = false.
Proof. unfold BulkPort.full, submit. cbn. rewrite bool_decide_false by lia. done. Qed.

Lemma wp_port_SendByte b s Q w : ok (st w) -> served s (hist w) -> is_u8 b ->
  (forall w', st w' = st w -> served (put b (selecting NI s)) (hist w') -> Q 0 w') ->
  wp False (port_SendByte ready in_address b) Q p w.
Proof.
  intros Hok Hs Hb HQ. unfold port_SendByte. apply (wp_enter _ NI _ _ s); [done|done|exact Hin|]. intros w1 S1 Hs1.
  set (s1 := selecting NI s) in *. apply wp_bind, (wp_room p NI NO size _ s1); [done|done|]. intros w2 S2 Hs2. rewrite negb_involutive.
  apply wp_bind. unfold BulkPort.put in HQ. destruct (full s1) eqn:Ef.
  - apply wp_bind, (wp_hand_in p NI NO size _ s1); [done|done|]. intros w3 S3 Hs3.
    apply (wp_wait_served p NI NO size _ (submit s1)); [done|by left|done|]. intros w4 S4 Hs4. rewrite bool_decide_true by done. cbn [negb].
    apply wp_bind, (wp_put_byte p NI NO size _ _ (submit s1)); [done|done|apply submit_room|done|]. intros w5 S5 Hs5.
    apply wp_ret, HQ; [congruence|done].
  - apply wp_ret. rewrite bool_decide_true by done. cbn [negb].
    apply wp_bind, (wp_put_byte p NI NO size _ _ s1); [done|done|done|done|]. intros w5 S5 Hs5. apply wp_ret, HQ; [congruence|done].
Qed.

Lemma wp_port_Flush s Q w : ok (st w) -> served s (hist w) ->
  (forall w', st w' = st w -> served (flush (selecting NI s)) (hist w') -> Q 0 w') ->
  wp False (port_Flush ready in_address) Q p w.
Proof.
  intros Hok Hs HQ. unfold port_Flush. apply (wp_enter _ NI _ _ s); [done|done|exact Hin|]. intros w1 S1 Hs1.
  set (s1 := selecting NI s) in *. apply wp_bind, (wp_count_in p NI NO size _ s1); [done|done|]. intros w2 S2 Hs2.
  unfold BulkPort.flush in HQ. destruct (Z.eqb_spec (Z.of_nat (length (p_open s1))) 0) as [E|E].
  - apply wp_ret, HQ; [congruence|]. rewrite bool_decide_true; [done|]. destruct (p_open s1); [done|cbn in E; lia].
  - rewrite bool_decide_false in HQ by (by intros E2; rewrite E2 in E).
    apply wp_bind, (wp_room p NI NO size _ s1); [done|done|]. intros w3 S3 Hs3. cbv zeta. rewrite negb_involutive.
    apply wp_bind, (wp_hand_in p NI NO size _ s1); [done|done|]. intros w4 S4 Hs4. destruct (full s1).
    + apply wp_bind, (wp_wait_served p NI NO size _ (submit s1)); [done|by left|done|]. intros w5 S5 Hs5. rewrite bool_decide_true by done. cbn [negb].
      apply wp_bind, (wp_hand_in p NI NO size _ (submit s1)); [done|done|]. intros w6 S6 Hs6. apply wp_ret, HQ; [congruence|done].
    + apply wp_ret, HQ; [congruence|done].
Qed.

Lemma wp_port_USBTask s Q w : ok (st w) -> served s (hist w) ->
  (forall w', st w' = st w -> served (flush (selecting NI s)) (hist w') -> Q tt w') ->
  wp False (port_USBTask ready in_address) Q p w.
Proof.
  intros Hok Hs HQ. unfold port_USBTask. apply (wp_enter _ NI _ _ s); [done|done|exact Hin|]. intros w1 S1 Hs1.
  set (s1 := selecting NI s) in *. apply wp_bind. unfold Endpoint_IsINReady. apply (wp_look_bit p NI NO size _ _ _ s1); [done|done|]. intros w2 S2 Hs2.
  destruct (served_now p NI NO size _ _ Hs1) as (_ & _ & Hi & _). destruct (Hi eq_refl) as (_ & -> & _). cbn [when].
  apply wp_bind, (wp_port_Flush s1); [by rewrite S2, S1|done|]. intros w3 S3 Hs3. apply wp_ret, HQ; [congruence|done].
Qed.

Lemma wp_port_BytesReceived s Q w : ok (st w) -> served s (hist w) ->
  (forall w', st w' = st w -> let '(n, s') := count_waiting (selecting NO s) in served s' (hist w') -> Q n w') ->
  wp False (port_BytesReceived ready out_address) Q p w.
Proof.
  intros Hok Hs HQ. unfold port_BytesReceived. apply (wp_enter _ NO _ _ s); [done|done|exact Hout|]. intros w1 S1 Hs1.
  set (s1 := selecting NO s) in *. apply wp_bind, (wp_out p NI NO size _ s1); [done|done|]. intros w2 S2 Hs2.
  unfold count_waiting in HQ. destruct (p_waiting s1) as [|q ps] eqn:Ew.
  { rewrite bool_decide_false by (by intros []). apply wp_ret, HQ; [congruence|done]. }
  rewrite bool_decide_true by done. apply wp_bind, (wp_count_out p NI NO size _ s1); [done|done|]. intros w3 S3 Hs3. rewrite Ew. cbn [head from_option id].
  destruct q as [|b q].
  - cbn [length Z.of_nat Z.eqb]. apply wp_bind, (wp_hand_out p NI NO size Hne _ s1); [done|done|]. intros w4 S4 Hs4. apply wp_ret, HQ; [congruence|done].
  - rewrite (proj2 (Z.eqb_neq _ 0)) by (cbn; lia). apply (wp_count_out p NI NO size _ s1); [done|done|]. intros w4 S4 Hs4. rewrite Ew.
    apply HQ; [congruence|done].
Qed.

Lemma wp_port_ReceiveByte s Q w : ok (st w) -> served s (hist w) ->
  (forall w', st w' = st w -> let '(b, s') := take_waiting (selecting NO s) in served s' (hist w') -> Q b w') ->
  wp False (port_ReceiveByte ready out_address) Q p w.
Proof.
  intros Hok Hs HQ. unfold port_ReceiveByte. apply (wp_enter _ NO _ _ s); [done|done|exact Hout|]. intros w1 S1 Hs1.
  set (s1 := selecting NO s) in *. apply wp_bind, (wp_out p NI NO size _ s1); [done|done|]. intros w2 S2 Hs2.
  unfold take_waiting in HQ. destruct (p_waiting s1) as [|q ps] eqn:Ew.
  { rewrite bool_decide_false by (by intros []). apply wp_ret, HQ; [congruence|done]. }
  rewrite bool_decide_true by done. apply wp_bind, (wp_count_out p NI NO size _ s1); [done|done|]. intros w3 S3 Hs3. rewrite Ew. cbn [head from_option id].
  destruct q as [|b q].
  - cbn [length Z.of_nat Z.eqb]. apply wp_bind, wp_ret, wp_bind, (wp_count_out p NI NO size _ s1); [done|done|]. intros w4 S4 Hs4. rewrite Ew.
    cbn [head from_option id length Z.of_nat Z.eqb when]. apply wp_bind, (wp_hand_out p NI NO size Hne _ s1); [done|done|]. intros w5 S5 Hs5.
    apply wp_ret, HQ; [congruence|done].
  - rewrite (proj2 (Z.eqb_neq _ 0)) by (cbn; lia). apply wp_bind, (wp_first p NI NO size _ s1 b q ps); [done|done|done|]. intros w4 S4 Hs4.
    assert (p_waiting (first_read s1) = q :: ps) as Ew1 by (unfold first_read; by rewrite Ew).
    apply wp_bind, (wp_count_out p NI NO size _ (first_read s1)); [done|done|]. intros w5 S5 Hs5. rewrite Ew1. cbn [head from_option id].
    destruct q as [|b' q].
    + cbn [length Z.of_nat Z.eqb when]. apply wp_bind, (wp_hand_out p NI NO size Hne _ (first_read s1)); [done|done|]. intros w6 S6 Hs6.
      apply wp_ret, HQ; [congruence|]. unfold release in *. by rewrite Ew1 in Hs6; rewrite Ew.
    + rewrite (proj2 (Z.eqb_neq _ 0)) by (cbn; lia). apply wp_bind, wp_ret, wp_ret, HQ; [congruence|done].
Qed.
Lemma put_sel b s : p_sel (put b s) = p_sel s.
Proof. unfold BulkPort.put. by destruct (full s). Qed.
Lemma put_all_sel bs s : p_sel (put_all bs s) = p_sel s.
Proof. revert s. induction bs as [|b bs IH]; intros s; [done|]. change (put_all (b :: bs) s) with (put_all bs (put b s)). by rewrite IH, put_sel. Qed.
Lemma put_all_snoc bs b s : put_all (bs ++ [b]) s = put b (put_all bs s).
Proof. unfold BulkPort.put_all. by rewrite foldl_app. Qed.

(** A stream puts its bytes one after the other; a full bank takes a round of
    its own. *)
Lemma wp_stream_write mem (n : nat) s Q w : served s (hist w) -> p_sel s = NI -> Forall is_u8 mem -> (n <= length mem)%nat ->
  Z.of_nat n < 65536 -> (2 * n + 1 < fuel p)%nat ->
  (forall x w', st w' = st w -> served (put_all (take n mem) s) (hist w') -> x.1.1 = ENDPOINT_RWSTREAM_NoError -> Q x w') ->
  wp False (Endpoint_Write_Stream_LE task mem (Z.of_nat n) None) Q p w.
Proof.
  intros Hs Hsel Hu Hn Hwide Hf HQ. unfold Endpoint_Write_Stream_LE, Template_Endpoint_RW.
  apply wp_bind, (wp_wait_served p NI NO size _ s); [done|by left|lia|]. intros w1 S1 Hs1. rewrite bool_decide_true by done. cbn [negb].
  set (at_ := fun k => put_all (take k mem) s). set (I := fun (x : Z * Z * Z) w' => st w' = st w /\ exists k,
    x.1 = (Z.of_nat k, Z.of_nat (n - k)) /\ (k <= n)%nat /\
    (served (at_ k) (hist w') \/ full (at_ k) = true /\ (k < n)%nat /\ served (submit (at_ k)) (hist w'))).
  set (mu := fun (x : Z * Z * Z) w' => (2 * Z.to_nat x.1.2 +
    if negb (bit_tst (reg_wrap UEINTX (respond p (hist w') UEINTX)) RWAL) then 1 else 0)%nat).
  assert (forall k, p_sel (at_ k) = NI) as Hat by (intros k; unfold at_; by rewrite put_all_sel).
  assert (forall s' h, served s' h -> p_sel s' = NI -> bit_tst (reg_wrap UEINTX (respond p h UEINTX)) RWAL = negb (full s')) as Hrw.
  { intros s' h Hs' Hsel'. destruct (served_now p NI NO size _ _ Hs') as (_ & _ & Hi & _). by destruct (Hi Hsel') as (_ & _ & ? & _). }
  apply (wp_while_variant False p I mu).
  - intros [[i len] c] w2 (S2 & k & [= -> ->] & Hk & Hcase). unfold mu. cbn [fst snd]. rewrite Nat2Z.id.
    destruct (Z.eqb_spec (Z.of_nat (n - k)) 0) as [E|E].
    { apply wp_ret. assert (k = n) as -> by lia. destruct Hcase as [Hs2|(_ & ? & _)]; [|lia]. apply HQ; [done|done|done]. }
    assert (exists v, mem !! k = Some v /\ is_u8 v) as (v & Hv & Huv).
    { destruct (lookup_lt_is_Some_2 mem k) as [v Hv]; [lia|]. exists v. split; [done|]. by apply (Forall_lookup_1 _ _ _ _ Hu Hv). }
    assert (at_ (S k) = put v (at_ k)) as HS by (unfold at_; by rewrite (take_S_r _ _ _ Hv), put_all_snoc).
    (* one byte into a bank with room *)
    assert (forall s' w3, st w3 = st w -> served s' (hist w3) -> p_sel s' = NI -> full s' = false -> with_open (p_open s' ++ [v]) s' = put v (at_ k) ->
      wp False (b <- send_byte mem (Z.of_nat k);; ret (inl (move_up 1 b, u16 (Z.of_nat (n - k) - 1), u16 (c + 1))))
        (fun y w' => match y with
         | inl x' => I x' w' /\ (2 * Z.to_nat x'.1.2 + (if negb (bit_tst (reg_wrap UEINTX (respond p (hist w') UEINTX)) RWAL) then 1 else 0) < 2 * (n - k))%nat
         | inr r => Q r w' end) p w3) as Hbyte.
    { intros s' w3 S3 Hs3 Hsel3 Hroom Hput. unfold send_byte. apply wp_bind, wp_bind, (wp_lift _ _ _ v).
      { unfold aget. rewrite decide_True by lia. by rewrite Nat2Z.id. }
      apply wp_bind, (wp_put_byte p NI NO size _ _ s'); [done|done|done|done|]. intros w4 S4 Hs4. apply wp_ret, wp_ret. rewrite Hput in Hs4.
      rewrite u16_small by (unfold is_u16; lia). split.
      - split; [congruence|]. exists (S k). cbn [fst]. unfold move_up. split; [f_equal; lia|]. split; [lia|]. left. by rewrite HS.
      - cbn [fst snd]. destruct (negb _); lia. }
    destruct Hcase as [Hs2|(Hfull & Hlt & Hs2)].
    + apply wp_bind, (wp_room p NI NO size _ (at_ k)); [done|done|]. intros w3 S3 Hs3. rewrite negb_involutive.
      rewrite (Hrw _ _ Hs2 (Hat k)), negb_involutive. destruct (full (at_ k)) eqn:Ef.
      * apply wp_bind, (wp_hand_in p NI NO size _ (at_ k)); [done|done|]. intros w4 S4 Hs4. apply wp_bind, (Htask _ (submit (at_ k))); [done|apply Hat|].
        intros w5 S5 Hs5. apply wp_bind, (wp_wait_served p NI NO size _ (submit (at_ k))); [done|left; apply Hat|lia|]. intros w6 S6 Hs6.
        apply wp_ret. rewrite bool_decide_true by done. split.
        -- split; [congruence|]. exists k. cbn [fst]. split; [done|]. split; [done|]. right. split; [done|]. split; [lia|done].
        -- cbn [fst snd]. rewrite Nat2Z.id, (Hrw _ _ Hs6 (Hat k)), submit_room. cbn. lia.
      * eapply wp_mono; [apply (Hbyte (at_ k)); [congruence|done|done|done|]|]. { unfold BulkPort.put. by rewrite Ef. }
        intros [x'|r] w4; [|done]. intros [HI Hmu]. split; [done|]. lia.
    + apply wp_bind, (wp_room p NI NO size _ (submit (at_ k))); [done|apply Hat|]. intros w3 S3 Hs3. rewrite submit_room. cbn [negb].
      eapply wp_mono; [apply (Hbyte (submit (at_ k))); [congruence|done|apply Hat|apply submit_room|]|]. { unfold BulkPort.put. by rewrite Hfull. }
      intros [x'|r] w4; [|done]. intros [HI Hmu]. split; [done|]. lia.
  - split; [done|]. exists 0%nat. cbn [fst]. rewrite Nat.sub_0_r. split; [done|]. split; [lia|]. by left.
  - unfold mu. cbn [fst snd]. rewrite Nat2Z.id. destruct (negb _); lia.
Qed.

Lemma wp_port_SendData mem (n : nat) s Q w : ok (st w) -> served s (hist w) -> Forall is_u8 mem -> (n <= length mem)%nat ->
  Z.of_nat n < 65536 -> (2 * n + 1 < fuel p)%nat ->
  (forall w', st w' = st w -> served (put_all (take n mem) (selecting NI s)) (hist w') -> Q 0 w') ->
  wp False (port_SendData ready in_address task mem (Z.of_nat n)) Q p w.
Proof.
  intros Hok Hs Hu Hn Hwide Hf HQ. unfold port_SendData. apply (wp_enter _ NI _ _ s); [done|done|exact Hin|]. intros w1 S1 Hs1.
  apply wp_bind, (wp_stream_write mem n (selecting NI s)); [done|done|done|done|done|done|]. intros [[code b] bp] w2 S2 Hs2 Hc.
  cbn [fst] in Hc. subst code. apply wp_ret, HQ; [congruence|done].
Qed.
Lemma wp_port_SendString str s Q w : ok (st w) -> served s (hist w) -> Forall is_u8 str -> Z.of_nat (length str) < 65536 ->
  (2 * length str + 1 < fuel p)%nat ->
  (forall w', st w' = st w -> served (put_all str (selecting NI s)) (hist w') -> Q 0 w') ->
  wp False (port_SendString ready in_address task str) Q p w.
Proof.
  intros Hok Hs Hu Hwide Hf HQ. unfold port_SendString. rewrite u16_small by (unfold is_u16; lia).
  apply (wp_port_SendData _ _ s); [done|done| |rewrite length_app; lia|done|done|by rewrite take_app_length].
  apply Forall_app. split; [done|]. apply Forall_singleton. unfold is_u8. lia.
Qed.

(** The call of an operation, and of a sequence of them. *)
Definition port_call (o : port_op) : M G Z :=
  match o with
  | OSendByte b => port_SendByte ready in_address b
  | OSendData bs => port_SendData ready in_address task bs (Z.of_nat (length bs))
  | OSendString bs => port_SendString ready in_address task bs
  | OFlush => port_Flush ready in_address
  | OTask => port_USBTask ready in_address;;; ret 0
  | OBytesReceived => port_BytesReceived ready out_address
  | OReceiveByte => port_ReceiveByte ready out_address
  end.

Lemma wp_port_call o s Q w : ok (st w) -> served s (hist w) -> Forall is_u8 (op_bytes o) -> Z.of_nat (length (op_bytes o)) < 65536 ->
  (2 * length (op_bytes o) + 1 < fuel p)%nat ->
  (forall w', st w' = st w -> let '(r, s') := port_step NI NO size o s in served s' (hist w') -> Q r w') ->
  wp False (port_call o) Q p w.
Proof.
  intros Hok Hs Hu Hwide Hf HQ. destruct o as [b|bs|bs| | | |]; cbn [port_call op_bytes port_step] in *.
  - apply (wp_port_SendByte b s); [done|done|by apply Forall_singleton|done].
  - apply (wp_port_SendData bs (length bs) s); [done|done|done|done|done|done|by rewrite firstn_all].
  - by apply (wp_port_SendString bs s).
  - by apply (wp_port_Flush s).
  - apply wp_bind, (wp_port_USBTask s); [done|done|]. intros w' S1 Hs1. by apply wp_ret, HQ.
  - by apply (wp_port_BytesReceived s).
  - by apply (wp_port_ReceiveByte s).
Qed.

Lemma wp_port_calls os s w : ok (st w) -> served s (hist w) ->
  Forall (fun o => Forall is_u8 (op_bytes o) /\ Z.of_nat (length (op_bytes o)) < 65536 /\ (2 * length (op_bytes o) + 1 < fuel p)%nat) os ->
  wp False (in_turn port_call os) (fun rs w' => st w' = st w /\ let '(rs', s') := port_run NI NO size os s in rs = rs' /\ served s' (hist w')) p w.
Proof.
  revert s w. induction os as [|o os IH]; intros s w Hok Hs Hos; [by apply wp_ret|]. inversion_clear Hos as [|? ? (Hu & Hwide & Hf) Hos'].
  cbn [in_turn port_run]. apply wp_bind, (wp_port_call o s); [done|done|done|done|done|]. intros w1 S1.
  destruct (port_step NI NO size o s) as [r s1]. intros Hs1. apply wp_bind. eapply wp_mono; [apply (IH s1); [by rewrite S1|done|done]|].
  intros rs w2 [S2 Hr]. destruct (port_run NI NO size os s1) as [rs' s2]. destruct Hr as [-> Hs2]. apply wp_ret. split; [congruence|done].
Qed.
End Refinement.

(** ** What the machine does with the bytes *)

Section Machine.
Variables (NI NO : Z) (size : nat).
Abbreviation put := (put size).
Abbreviation put_all := (put_all size).
Abbreviation flush := (flush size).
Implicit Types s : port.

(** Everything put in so far, in order. *)
Definition stream_of (s : port) : list Z := concat (p_sent s) ++ p_open s.

Lemma submit_stream s : stream_of (submit s) = stream_of s /\ p_waiting (submit s) = p_waiting s.
Proof. split; [|done]. unfold stream_of, submit. cbn [p_sent p_open]. by rewrite concat_app, app_nil_r; cbn [concat]; rewrite app_nil_r. Qed.
Lemma put_stream b s : stream_of (put b s) = stream_of s ++ [b] /\ p_waiting (put b s) = p_waiting s.
Proof.
  unfold BulkPort.put. destruct (full size s); split; try done; unfold stream_of; cbn [with_open p_sent p_open].
  - rewrite app_assoc. f_equal. apply (submit_stream s).
  - apply app_assoc.
Qed.
Lemma put_all_stream bs s : stream_of (put_all bs s) = stream_of s ++ bs /\ p_waiting (put_all bs s) = p_waiting s.
Proof.
  revert s. induction bs as [|b bs IH]; intros s; [by rewrite app_nil_r|]. change (put_all (b :: bs) s) with (put_all bs (put b s)).
  destruct (IH (put b s)) as [-> ->], (put_stream b s) as [-> ->]. by rewrite <- app_assoc.
Qed.
Lemma flush_stream s : stream_of (flush s) = stream_of s /\ p_waiting (flush s) = p_waiting s.
Proof.
  unfold BulkPort.flush. case_bool_decide; [done|]. destruct (full size s); [|apply submit_stream].
  destruct (submit_stream (submit s)) as [-> ->]. apply submit_stream.
Qed.

(** The bytes a call returns. *)
Definition op_received (o : port_op) (r : Z) : list Z :=
  match o with OReceiveByte => if r =? -1 then [] else [r] | _ => [] end.

Lemma take_stream s : Forall (Forall is_u8) (p_waiting s) -> let '(b, s') := take_waiting s in
  stream_of s' = stream_of s /\ op_received OReceiveByte b ++ concat (p_waiting s') = concat (p_waiting s).
Proof.
  intros Hu. unfold take_waiting, op_received, first_read, release. destruct (p_waiting s) as [|[|b q] ps] eqn:Ew; [by rewrite Ew|done|].
  apply Forall_cons_iff in Hu as [[Hb _]%Forall_cons_iff _]. unfold is_u8 in Hb.
  destruct q as [|b' q]; cbn [p_waiting tail]; rewrite ?Ew; rewrite (proj2 (Z.eqb_neq b (-1))) by lia; done.
Qed.

Lemma step_waiting_u8 o s : Forall (Forall is_u8) (p_waiting s) -> Forall (Forall is_u8) (p_waiting (port_step NI NO size o s).2).
Proof.
  intros Hu. destruct o as [b|bs|bs| | | |]; cbn [port_step snd].
  - by rewrite (proj2 (put_stream b _)).
  - by rewrite (proj2 (put_all_stream bs _)).
  - by rewrite (proj2 (put_all_stream bs _)).
  - by rewrite (proj2 (flush_stream _)).
  - by rewrite (proj2 (flush_stream _)).
  - unfold count_waiting. cbn [selecting p_waiting]. destruct (p_waiting s) as [|[|b q] ps] eqn:Ew; cbn [snd release p_waiting selecting tail];
      rewrite ?Ew; [done|by apply Forall_cons_iff in Hu as [_ ?]|done].
  - unfold take_waiting, first_read. cbn [selecting p_waiting]. destruct (p_waiting s) as [|[|b [|b' q]] ps] eqn:Ew; cbn [snd release p_waiting selecting tail];
      rewrite ?Ew; [done|by apply Forall_cons_iff in Hu as [_ ?]|by apply Forall_cons_iff in Hu as [_ ?]|].
    apply Forall_cons_iff in Hu as [[_ Hq]%Forall_cons_iff Hps]. by constructor.
Qed.

(** No byte is lost, repeated or reordered by a sequence of calls. *)
Lemma run_conserves os s : Forall (Forall is_u8) (p_waiting s) -> let '(rs, s') := port_run NI NO size os s in
  stream_of s' = stream_of s ++ concat (op_bytes <$> os) /\
  concat (zip_with op_received os rs) ++ concat (p_waiting s') = concat (p_waiting s).
Proof.
  revert s. induction os as [|o os IH]; intros s Hu; [by rewrite app_nil_r|]. cbn [port_run]. pose proof (step_waiting_u8 o s Hu) as Hu1.
  assert (let '(r, s1) := port_step NI NO size o s in stream_of s1 = stream_of s ++ op_bytes o /\
    op_received o r ++ concat (p_waiting s1) = concat (p_waiting s)) as Hstep.
  { destruct o as [b|bs|bs| | | |]; cbn [port_step op_bytes op_received].
    - destruct (put_stream b (selecting NI s)) as [-> ->]. done.
    - destruct (put_all_stream bs (selecting NI s)) as [-> ->]. done.
    - destruct (put_all_stream bs (selecting NI s)) as [-> ->]. done.
    - destruct (flush_stream (selecting NI s)) as [-> ->]. by rewrite app_nil_r.
    - destruct (flush_stream (selecting NI s)) as [-> ->]. by rewrite app_nil_r.
    - unfold count_waiting. cbn [selecting p_waiting]. rewrite app_nil_r. destruct (p_waiting s) as [|[|b q] ps] eqn:Ew; cbn [release p_waiting selecting tail]; by rewrite ?Ew.
    - pose proof (take_stream (selecting NO s) Hu) as Ht. destruct (take_waiting (selecting NO s)) as [b s']. rewrite app_nil_r. exact Ht. }
  destruct (port_step NI NO size o s) as [r s1]. specialize (IH s1 Hu1). destruct (port_run NI NO size os s1) as [rs s2].
  destruct Hstep as [E1 E2], IH as [E3 E4]. cbn [fmap list_fmap concat zip_with]. rewrite E3, E1, <- app_assoc. split; [done|].
  by rewrite <- app_assoc, E4.
Qed.

(** [ps] is the data [bs] cut into full packets and a last one that is shorter,
    possibly empty, so that the host sees where the data ends. *)
Definition delimited (bs : list Z) (ps : list (list Z)) : Prop :=
  exists fulls last, ps = fulls ++ [last] /\ concat ps = bs /\ Forall (fun q => length q = size) fulls /\ (length last < size)%nat.

Context (Hsize : (1 <= size)%nat).

Lemma put_all_packets bs s : (length (p_open s) <= size)%nat -> exists P cur,
  put_all bs s = Port (p_sel s) (p_sent s ++ P) cur (p_waiting s) /\ concat P ++ cur = p_open s ++ bs /\
  Forall (fun q => length q = size) P /\ (length cur <= size)%nat /\ (cur = [] -> p_open s = [] /\ bs = []).
Proof.
  revert s. induction bs as [|b bs IH]; intros s Hl.
  - exists [], (p_open s). rewrite !app_nil_r. split_and!; [by destruct s|done|by constructor|done|done].
  - change (put_all (b :: bs) s) with (put_all bs (put b s)).
    assert (p_open (put b s) = (if full size s then [] else p_open s) ++ [b] /\ p_sent (put b s) = p_sent s ++ (if full size s then [p_open s] else []) /\
      p_sel (put b s) = p_sel s /\ p_waiting (put b s) = p_waiting s) as (Eo & Es & El & Ew).
    { unfold BulkPort.put. destruct (full size s); split_and!; try done. cbn. by rewrite app_nil_r. }
    destruct (IH (put b s)) as (P & cur & E & Hc & Hp & Hlc & Hcur).
    { rewrite Eo. unfold full. case_bool_decide; cbn [app length]; [lia|]. rewrite length_app. cbn. lia. }
    rewrite Es, El, Ew in E. rewrite Eo in Hc, Hcur. exists ((if full size s then [p_open s] else []) ++ P), cur. rewrite E, app_assoc. split; [done|].
    assert (cur = [] -> False) as Hno by (intros Hx; destruct (Hcur Hx) as [Hy _]; by apply app_eq_nil in Hy as [_ ?]).
    unfold full in *. case_bool_decide as Hf; cbn [app concat] in *.
    + rewrite <- app_assoc, Hc. split_and!; [done|constructor; [lia|done]|done|by intros ?%Hno].
    + rewrite Hc, <- app_assoc. split_and!; [done|done|done|by intros ?%Hno].
Qed.

(** The data [bs] in packets of the endpoint. *)
Definition cut (bs : list Z) (ds : list (list Z)) : Prop := concat ds = bs /\ Forall (fun q => (length q <= size)%nat) ds.

(** Data put into an empty bank, the last bank being handed over as it is. *)
Lemma submit_cut bs s : p_open s = [] ->
  exists ds, cut bs ds /\ submit (put_all bs s) = Port (p_sel s) (p_sent s ++ ds) [] (p_waiting s).
Proof.
  intros Ho. destruct (put_all_packets bs s) as (P & cur & E & Hc & HP & Hl & _); [rewrite Ho; cbn; lia|]. rewrite Ho in Hc. cbn [app] in Hc.
  exists (P ++ [cur]). rewrite E. unfold submit. cbn [p_sel p_sent p_open p_waiting]. split; [|by rewrite <- app_assoc].
  split; [rewrite concat_app; cbn [concat]; by rewrite app_nil_r|]. apply Forall_app. split; [|by apply Forall_singleton].
  eapply Forall_impl; [|exact HP]. intros q Hq. cbn beta in Hq. lia.
Qed.

(** A transfer into an empty bank, flushed. *)
Lemma transfer_delimited bs s : p_open s = [] -> bs <> [] ->
  exists ps, flush (put_all bs s) = Port (p_sel s) (p_sent s ++ ps) [] (p_waiting s) /\ delimited bs ps.
Proof.
  intros Ho Hb. destruct (put_all_packets bs s) as (P & cur & E & Hc & Hp & Hl & Hcur); [rewrite Ho; cbn; lia|]. rewrite Ho in Hc. cbn [app] in Hc.
  assert (cur <> []) as Hne by (by intros Hx; destruct (Hcur Hx)). rewrite E. unfold BulkPort.flush, full. cbn [p_open].
  rewrite bool_decide_false by done. case_bool_decide as Hf.
  - exists (P ++ [cur; []]). unfold submit. cbn [p_sel p_sent p_open p_waiting]. split; [by rewrite <- !app_assoc|].
    exists (P ++ [cur]), []. rewrite <- app_assoc. split_and!; [done| |apply Forall_app; split; [done|apply Forall_singleton; lia]|cbn; lia].
    rewrite concat_app. cbn [concat]. by rewrite !app_nil_r.
  - exists (P ++ [cur]). split; [unfold submit; cbn [p_sel p_sent p_open p_waiting]; by rewrite <- app_assoc|].
    exists P, cur. split_and!; [done| |done|lia]. rewrite concat_app. cbn [concat]. by rewrite app_nil_r.
Qed.
End Machine.

(** ** The management task and reading streams *)

Section Streams.
Context {G : Type} `{UsbState G} `{AvrOk} (p : platform).
Variables (NI NO : Z) (size : nat).
Context (Hne : NI <> NO).
Abbreviation served := (served NI NO size p).
Implicit Types (w : world G) (s : port).

Lemma selecting_back s : selecting (p_sel s) (selecting 0 s) = s.
Proof. by destruct s. Qed.

(** The stack's task finds no request and selects the endpoint again. *)
Lemma wp_task_served `{UsbApplication G} boot_signature_byte_get Q s w : served s (hist w) -> 0 <= p_sel s < 16 ->
  (forall w', st w' = st w -> served s (hist w') -> Q tt w') -> wp False (USB_USBTask boot_signature_byte_get) Q p w.
Proof.
  intros Hs Hsel HQ. unfold USB_USBTask, USB_DeviceTask, is_DeviceState, Endpoint_GetCurrentEndpoint,
    Endpoint_GetEndpointDirection, Endpoint_IsSETUPReceived.
  apply wp_bind, wp_bind, (wp_look p NI NO size _ _ s); [done|done|]. intros w1 S1 Hs1. apply wp_ret.
  destruct (served_now p NI NO size _ _ Hs) as (-> & _). change (_ =? _) with false. cbn iota.
  apply wp_bind, wp_bind, (wp_look p NI NO size _ _ s); [done|done|]. intros w2 S2 Hs2.
  destruct (served_now p NI NO size _ _ Hs1) as (_ & -> & _).
  apply wp_bind, wp_bind, (wp_look_bit p NI NO size _ _ _ s); [done|done|]. intros w3 S3 Hs3. apply wp_ret, wp_ret.
  set (d := if bit_tst _ EPDIR then ENDPOINT_DIR_IN else ENDPOINT_DIR_OUT).
  assert (u8 (Z.land (Z.lor (Z.land (p_sel s) ENDPOINT_EPNUM_MASK) d) ENDPOINT_EPNUM_MASK) = p_sel s) as Hback.
  { rewrite Z.land_lor_distr_l. replace (Z.land d ENDPOINT_EPNUM_MASK) with 0 by (unfold d; by destruct (bit_tst _ _)).
    rewrite Z.lor_0_r. change ENDPOINT_EPNUM_MASK with (Z.ones 4). rewrite !Z.land_ones by lia. rewrite Z.mod_mod by lia.
    rewrite Z.mod_small by (change (2 ^ 4) with 16; lia). apply u8_small. unfold is_u8. lia. }
  clearbody d. unfold Endpoint_SelectEndpoint.
  apply wp_bind, wp_wr. cbn [reg_wrap]. change (u8 (Z.land ENDPOINT_CONTROLEP ENDPOINT_EPNUM_MASK)) with 0.
  pose proof (served_step p NI NO size (Wr UENUM 0) s _ Hs3) as Hs4. cbn [on_event] in Hs4.
  apply wp_bind, (wp_look_bit p NI NO size _ _ _ (selecting 0 s)); [done|done|]. cbn [st hist]. intros w5 S5 Hs5.
  destruct (served_now p NI NO size _ _ Hs4) as (_ & _ & _ & _ & Hno). rewrite (Hno eq_refl). apply wp_bind, wp_ret, wp_wr. cbn [reg_wrap].
  rewrite Hback. apply HQ; [cbn [st]; congruence|]. cbn [hist].
  pose proof (served_step p NI NO size (Wr UENUM (p_sel s)) _ _ Hs5) as Hs6. cbn [on_event] in Hs6.
  by rewrite u8_small, selecting_back in Hs6 by (unfold is_u8; lia).
Qed.

(** A read of no more than the first waiting packet holds. *)
Lemma wp_stream_read task mem bs q ps s Q w : served s (hist w) -> p_sel s = NO -> p_waiting s = (bs ++ q) :: ps ->
  (length bs <= length mem)%nat -> Z.of_nat (length bs) < 65536 -> (length bs < fuel p)%nat ->
  (forall x w', st w' = st w -> served (Port NO (p_sent s) (p_open s) (q :: ps)) (hist w') ->
     x.1.1 = ENDPOINT_RWSTREAM_NoError -> x.1.2.1 = filled mem bs -> Q x w') ->
  wp False (Endpoint_Read_Stream_LE task mem (Z.of_nat (length bs)) None) Q p w.
Proof.
  intros Hs Hsel Hw Hl Hwide Hf HQ. unfold Endpoint_Read_Stream_LE, Template_Endpoint_RW.
  apply wp_bind, (wp_wait_served p NI NO size _ s); [done|right; split; [done|by rewrite Hw]|lia|]. intros w1 S1 Hs1. rewrite bool_decide_true by done. cbn [negb].
  set (at_ := fun k => Port NO (p_sent s) (p_open s) ((drop k bs ++ q) :: ps)).
  assert (s = at_ 0%nat) as E0 by (destruct s; cbn in *; by subst).
  apply (wp_while_variant False p (fun (x : list Z * Z * Z * Z) w' => st w' = st w /\ exists k, (k <= length bs)%nat /\
    x.1 = ((filled mem (take k bs), Z.of_nat k), Z.of_nat (length bs - k)) /\ served (at_ k) (hist w')) (fun x _ => Z.to_nat x.1.2)).
  - intros [[[m i] len] c] w2 (S2 & k & Hk & [= -> -> ->] & Hs2). cbn [fst snd]. rewrite Nat2Z.id.
    destruct (Z.eqb_spec (Z.of_nat (length bs - k)) 0) as [E|E].
    { assert (k = length bs) as -> by lia. apply wp_ret, HQ; [done| |done|by rewrite firstn_all]. unfold at_ in Hs2. by rewrite drop_all in Hs2. }
    destruct (lookup_lt_is_Some_2 bs k) as [v Hv]; [lia|].
    assert (p_waiting (at_ k) = (v :: (drop (S k) bs ++ q)) :: ps) as Ew by (unfold at_; cbn [p_waiting]; by rewrite (drop_S _ _ _ Hv)).
    apply wp_bind. unfold Endpoint_IsReadWriteAllowed. apply (wp_look_bit p NI NO size _ _ _ (at_ k)); [done|done|]. intros w3 S3 Hs3.
    destruct (served_now p NI NO size _ _ Hs2) as (_ & _ & _ & Ho & _). destruct (Ho eq_refl) as (_ & _ & -> & _). rewrite Ew. cbn [head from_option id].
    rewrite bool_decide_true by done. cbn [negb]. apply wp_bind. unfold store_byte. cbn [fst snd].
    apply wp_bind, (wp_first p NI NO size _ (at_ k) v (drop (S k) bs ++ q) ps); [done|done|done|]. intros w4 S4 Hs4.
    assert (length (filled mem (take k bs)) = length mem) as Hfl by (unfold filled; rewrite length_app, length_drop, length_take; lia).
    apply wp_bind, (wp_lift _ _ _ (filled mem (take (S k) bs))).
    { rewrite aset_Some by (rewrite Hfl; lia). rewrite Nat2Z.id, (take_S_r _ _ _ Hv), filled_snoc; [|rewrite length_take; lia].
      f_equal. rewrite length_take. f_equal. lia. }
    apply wp_ret, wp_ret. rewrite u16_small by (unfold is_u16; lia). split; [|cbn [fst snd]; lia]. split; [congruence|]. exists (S k).
    unfold move_up_in. cbn [fst snd]. split_and!; [lia|repeat f_equal; lia|]. unfold first_read in Hs4. rewrite Ew in Hs4. exact Hs4.
  - split; [done|]. exists 0%nat. cbn [fst]. rewrite take_0, Nat.sub_0_r. unfold filled. cbn [length app drop]. rewrite <- E0. split_and!; [lia|done|done].
  - cbn [fst snd]. lia.
Qed.
End Streams.

(** A read across packets: of the bytes of [q] and [qs], [n] are taken, and each
    packet is released when a byte of the next one is needed. *)
Section Across.
Context {G : Type} `{UsbState G} `{AvrOk} (p : platform).
Variables (NI NO : Z) (size : nat).
Context (Hne : NI <> NO) (task : M G unit).
Abbreviation served := (served NI NO size p).
Implicit Types (w : world G) (s : port).
Context (Htask : forall Q s w, served s (hist w) -> p_sel s = NO ->
  (forall w', st w' = st w -> served s (hist w') -> Q tt w') -> wp False task Q p w).

Lemma wp_stream_read_across mem (n : nat) q0 qs0 rest s Q w : served s (hist w) -> p_sel s = NO -> p_waiting s = (q0 :: qs0) ++ rest ->
  Forall (fun q => q <> []) qs0 -> (n <= length (q0 ++ concat qs0))%nat -> (n <= length mem)%nat -> Z.of_nat n < 65536 -> (2 * n + 1 < fuel p)%nat ->
  (forall x w' q qs, st w' = st w -> q ++ concat qs = drop n (q0 ++ concat qs0) -> Forall (fun q => q <> []) qs ->
     served (Port NO (p_sent s) (p_open s) ((q :: qs) ++ rest)) (hist w') ->
     x.1.1 = ENDPOINT_RWSTREAM_NoError -> x.1.2.1 = filled mem (take n (q0 ++ concat qs0)) -> Q x w') ->
  wp False (Endpoint_Read_Stream_LE task mem (Z.of_nat n) None) Q p w.
Proof.
  intros Hs Hsel Hw Hnn Hl Hm Hwide Hf HQ. set (bs := q0 ++ concat qs0) in *. unfold Endpoint_Read_Stream_LE, Template_Endpoint_RW.
  apply wp_bind, (wp_wait_served p NI NO size _ s); [done|right; split; [done|by rewrite Hw]|lia|]. intros w1 S1 Hs1.
  rewrite bool_decide_true by done. cbn [negb].
  set (at_ := fun (k : nat) q qs => Port NO (p_sent s) (p_open s) ((q :: qs) ++ rest)).
  set (I := fun (x : list Z * Z * Z * Z) w' => st w' = st w /\ exists k q qs, (k <= n)%nat /\
    x.1 = ((filled mem (take k bs), Z.of_nat k), Z.of_nat (n - k)) /\ q ++ concat qs = drop k bs /\ Forall (fun q => q <> []) qs /\
    served (at_ k q qs) (hist w')).
  set (rwal := fun w' => bit_tst (reg_wrap UEINTX (respond p (hist w') UEINTX)) RWAL).
  assert (forall k q qs w', served (at_ k q qs) (hist w') -> rwal w' = bool_decide (q <> [])) as Hrw.
  { intros k q qs w' Hs'. destruct (served_now p NI NO size _ _ Hs') as (_ & _ & _ & Ho & _). by destruct (Ho eq_refl) as (_ & _ & ? & _). }
  apply (wp_while_variant False p I (fun x w' => 2 * Z.to_nat x.1.2 + if rwal w' then 0 else 1)%nat).
  - intros [[[m i] len] c] w2 (S2 & k & q & qs & Hk & [= -> -> ->] & Hcat & Hqs & Hs2). cbn [fst snd]. rewrite Nat2Z.id.
    destruct (Z.eqb_spec (Z.of_nat (n - k)) 0) as [E|E].
    { assert (k = n) as -> by lia. apply wp_ret. by apply (HQ _ _ q qs). }
    destruct (lookup_lt_is_Some_2 bs k) as [v Hv]; [lia|]. rewrite (drop_S _ _ _ Hv) in Hcat.
    apply wp_bind. unfold Endpoint_IsReadWriteAllowed. apply (wp_look_bit p NI NO size _ _ _ (at_ k q qs)); [done|done|]. intros w3 S3 Hs3.
    fold (rwal w2). rewrite (Hrw _ _ _ _ Hs2). destruct q as [|v' q].
    + rewrite bool_decide_false by (by intros []). cbn [negb]. destruct Hqs as [|[|v' q] qs Hq Hqs]; [done|done|].
      apply wp_bind, (wp_hand_out p NI NO size Hne _ (at_ k [] ((v' :: q) :: qs))); [done|done|]. intros w4 S4 Hs4.
      change (release (at_ k [] ((v' :: q) :: qs))) with (at_ k (v' :: q) qs) in Hs4.
      apply wp_bind, (Htask _ (at_ k (v' :: q) qs)); [done|done|]. intros w5 S5 Hs5.
      apply wp_bind, (wp_wait_served p NI NO size _ (at_ k (v' :: q) qs)); [done|by right|lia|]. intros w6 S6 Hs6.
      rewrite bool_decide_true by done. apply wp_ret. split.
      * split; [congruence|]. exists k, (v' :: q), qs. split_and!; [done|done|by rewrite (drop_S _ _ _ Hv)|done|done].
      * cbn [fst snd]. rewrite (Hrw _ _ _ _ Hs6), bool_decide_true, Nat2Z.id by done. lia.
    + rewrite bool_decide_true by done. cbn [negb]. cbn [app] in Hcat. injection Hcat as -> Hcat. apply wp_bind. unfold store_byte. cbn [fst snd].
      apply wp_bind, (wp_first p NI NO size _ (at_ k (v :: q) qs) v q (qs ++ rest)); [done|done|done|]. intros w4 S4 Hs4.
      assert (length (filled mem (take k bs)) = length mem) as Hfl by (unfold filled; rewrite length_app, length_drop, length_take; lia).
      apply wp_bind, (wp_lift _ _ _ (filled mem (take (S k) bs))).
      { rewrite aset_Some by (rewrite Hfl; lia). rewrite Nat2Z.id, (take_S_r _ _ _ Hv), filled_snoc; [|rewrite length_take; lia].
        f_equal. rewrite length_take. f_equal. lia. }
      apply wp_ret, wp_ret. rewrite u16_small by (unfold is_u16; lia). split.
      * split; [congruence|]. exists (S k), q, qs. unfold move_up_in. cbn [fst snd]. split_and!; [lia|repeat f_equal; lia|done|done|done].
      * cbn [fst snd]. destruct (rwal w4); lia.
  - split; [done|]. exists 0%nat, q0, qs0. cbn [fst].
    rewrite take_0, Nat.sub_0_r. unfold filled. cbn [length app]. rewrite drop_0. split_and!; [lia|done|done|done|].
    unfold at_. destruct s as [sl st_ op wt]. cbn in Hsel, Hw. subst sl wt. exact Hs1.
  - cbn [fst snd]. rewrite Nat2Z.id. destruct (rwal w1); lia.
Qed.

(** All the bytes of the packets [ps] are read; the last one is not yet released. *)
Lemma wp_stream_read_packets mem ps rest s Q w : served s (hist w) -> p_sel s = NO -> p_waiting s = ps ++ rest ->
  ps <> [] -> Forall (fun q => q <> []) ps -> (length (concat ps) <= length mem)%nat -> Z.of_nat (length (concat ps)) < 65536 ->
  (2 * length (concat ps) + 1 < fuel p)%nat ->
  (forall x w', st w' = st w -> served (Port NO (p_sent s) (p_open s) ([] :: rest)) (hist w') ->
     x.1.1 = ENDPOINT_RWSTREAM_NoError -> x.1.2.1 = filled mem (concat ps) -> Q x w') ->
  wp False (Endpoint_Read_Stream_LE task mem (Z.of_nat (length (concat ps))) None) Q p w.
Proof.
  intros Hs Hsel Hw Hps Hnn Hl Hwide Hf HQ. destruct ps as [|q0 qs0]; [done|]. apply Forall_cons_iff in Hnn as [_ Hnn]. cbn [concat] in *.
  apply (wp_stream_read_across mem _ q0 qs0 rest s); [done|done|done|done|lia|done|done|done|]. intros x w' q qs S' Hcat Hqs Hs' Hc Hx.
  rewrite drop_all in Hcat. apply app_eq_nil in Hcat as [-> Hcat]. rewrite firstn_all in Hx.
  assert (qs = []) as -> by (destruct Hqs as [|q qs Hq _]; [done|]; by destruct q). by apply HQ.
Qed.
End Across.

(** ** Items of one size

    An item is never split between packets: the drivers of MIDI and of audio hand
    a bank over when an item fills it, and release one when its last item is
    read. *)

Section Items.
Context {G E : Type} `{UsbState G} `{AvrOk} (p : platform).
Variables (bytes : E -> list Z) (n m : nat) (NI NO : Z).
Abbreviation size := (n * m)%nat.
Abbreviation served := (served NI NO size p).
Context (Hn : (1 <= n)%nat) (Hm : (1 <= m)%nat) (Hbytes : forall e, length (bytes e) = n).
Implicit Types (w : world G) (s : port).

Definition items_bytes (es : list E) : list Z := concat (bytes <$> es).

(** The packets [ps] hold the items [es], in order, whole and none of them empty. *)
Definition packets_of (es : list E) (ps : list (list Z)) : Prop :=
  exists ess, es = concat ess /\ ps = items_bytes <$> ess /\ Forall (fun l => l <> []) ess /\ Forall (fun q => (length q <= size)%nat) ps.

Lemma items_bytes_length es : length (items_bytes es) = (n * length es)%nat.
Proof using Hbytes. clear Hn Hm. unfold items_bytes. induction es as [|e es IH]; [cbn; lia|]. cbn [fmap list_fmap concat length]. rewrite length_app, Hbytes. lia. Qed.
Lemma items_bytes_snoc es e : items_bytes (es ++ [e]) = items_bytes es ++ bytes e.
Proof. unfold items_bytes. rewrite fmap_app, concat_app. cbn [fmap list_fmap concat]. by rewrite app_nil_r. Qed.
Lemma items_bytes_concat ess : items_bytes (concat ess) = concat (items_bytes <$> ess).
Proof.
  induction ess as [|l ess IH]; [done|]. cbn [fmap list_fmap concat]. rewrite <- IH. unfold items_bytes. by rewrite fmap_app, concat_app.
Qed.
Lemma items_bytes_nil es : items_bytes es = [] -> es = [].
Proof using Hn Hbytes. clear Hm. intros Hc. apply (f_equal length) in Hc. rewrite items_bytes_length in Hc. destruct es; [done|cbn in Hc; lia]. Qed.

(** The bank after an item was put into it. *)
Definition put_item (e : E) (s : port) : port :=
  let o := p_open s ++ bytes e in
  if bool_decide (length o = size) then Port NI (p_sent s ++ [o]) [] (p_waiting s) else Port NI (p_sent s) o (p_waiting s).

Context (ok : G -> Prop).

(** Calls that put an item each fill one bank after the other. *)
Lemma wp_put_items {A} (call : E -> M G A) (r0 : A) es pre s Q w :
  (forall e s Q w, ok (st w) -> served s (hist w) -> (length (p_open s) + n <= size)%nat ->
     (forall w', st w' = st w -> served (put_item e s) (hist w') -> Q r0 w') -> wp False (call e) Q p w) ->
  ok (st w) -> served s (hist w) -> p_open s = items_bytes pre -> (length (p_open s) < size)%nat ->
  (forall ess cur w', st w' = st w -> pre ++ es = concat ess ++ cur -> Forall (fun l => length l = m) ess -> (length (items_bytes cur) < size)%nat ->
     served (Port (if bool_decide (es = []) then p_sel s else NI) (p_sent s ++ (items_bytes <$> ess)) (items_bytes cur) (p_waiting s)) (hist w') ->
     Q (replicate (length es) r0) w') ->
  wp False (in_turn call es) Q p w.
Proof.
  intros Hcall. revert pre s Q w. induction es as [|e es IH]; intros pre s Q w Hat Hs Ho Hl HQ; cbn [in_turn].
  { apply wp_ret, (HQ [] pre); [done|by rewrite app_nil_r|constructor|by rewrite <- Ho|].
    rewrite bool_decide_true by done. cbn [fmap list_fmap]. rewrite app_nil_r, <- Ho. by destruct s. }
  pose proof (items_bytes_length pre) as Hlp.
  assert (length pre < m)%nat as Hpre by (rewrite Ho, Hlp in Hl; by apply Nat.mul_lt_mono_pos_l in Hl).
  apply wp_bind, (Hcall e s); [done|done|rewrite Ho, Hlp; nia|]. intros w1 S1. unfold put_item. cbv zeta.
  rewrite Ho, <- items_bytes_snoc, items_bytes_length, length_app. cbn [length]. intros Hs1. apply wp_bind. case_bool_decide as Hfull.
  - apply (IH [] (Port NI (p_sent s ++ [items_bytes (pre ++ [e])]) [] (p_waiting s))); [by rewrite S1|done|done|cbn; nia|].
    intros ess cur w2 S2 Hes Hsz Hcur Hs2. apply wp_ret. apply (HQ ((pre ++ [e]) :: ess) cur).
    + congruence.
    + cbn [app concat] in *. rewrite Hes, <- !app_assoc. done.
    + constructor; [rewrite length_app; cbn [length]; nia|done].
    + done.
    + rewrite bool_decide_false by done. cbn [p_sel p_sent p_waiting] in Hs2. cbn [fmap list_fmap]. rewrite <- app_assoc in Hs2. by destruct (bool_decide (es = [])).
  - apply (IH (pre ++ [e]) (Port NI (p_sent s) (items_bytes (pre ++ [e])) (p_waiting s)));
      [by rewrite S1|done|done|cbn [p_open]; rewrite items_bytes_length, length_app; cbn [length]; nia|].
    intros ess cur w2 S2 Hes Hsz Hcur Hs2. apply wp_ret. apply (HQ ess cur); [congruence|by rewrite <- Hes, <- !app_assoc|done|done|].
    rewrite bool_decide_false by done. cbn [p_sel p_sent p_waiting] in Hs2. by destruct (bool_decide (es = [])).
Qed.

(** Calls that take an item each return the items of the packets. *)
Lemma wp_get_items {X A} (call : X -> M G A) (got : E -> A) (good : E -> Prop) xs ess s Q w :
  (forall x e q ps s Q w, ok (st w) -> served s (hist w) -> p_waiting s = (bytes e ++ q) :: ps -> good e ->
     (forall w', st w' = st w -> served (Port NO (p_sent s) (p_open s) (if bool_decide (q = []) then ps else q :: ps)) (hist w') -> Q (got e) w') ->
     wp False (call x) Q p w) ->
  ok (st w) -> served s (hist w) -> p_waiting s = items_bytes <$> ess -> Forall (fun l => l <> []) ess -> Forall good (concat ess) ->
  length xs = length (concat ess) ->
  (forall w' s', st w' = st w -> served s' (hist w') -> p_waiting s' = [] -> Q (got <$> concat ess) w') ->
  wp False (in_turn call xs) Q p w.
Proof.
  intros Hcall. revert ess s Q w. induction xs as [|x xs IH]; intros ess s Q w Hat Hs Hw Hnn Hr Hl HQ; cbn [in_turn].
  { destruct ess as [|[|e l] ess]; [|by inversion Hnn|done]. by apply wp_ret, (HQ w s). }
  destruct ess as [|[|e l] ess]; [done|by inversion Hnn|]. inversion_clear Hnn as [|? ? _ Hnn']. cbn [concat app] in Hr, Hl, HQ.
  apply Forall_cons_iff in Hr as [He Hr]. apply wp_bind, (Hcall x e (items_bytes l) (items_bytes <$> ess) s); [done|done|done|done|].
  intros w1 S1 Hs1. apply wp_bind.
  assert (exists ess', (if bool_decide (items_bytes l = []) then items_bytes <$> ess else items_bytes l :: (items_bytes <$> ess)) = items_bytes <$> ess' /\
    Forall (fun l => l <> []) ess' /\ concat ess' = l ++ concat ess) as (ess' & E1 & E2 & E3).
  { case_bool_decide as Hc; [apply items_bytes_nil in Hc as ->; by exists ess|]. exists (l :: ess). split; [done|]. split; [|done].
    constructor; [by intros ->|done]. }
  rewrite E1 in Hs1. rewrite <- E3 in *.
  apply (IH ess' (Port NO (p_sent s) (p_open s) (items_bytes <$> ess'))); [by rewrite S1|done|done|done|done|cbn in Hl; lia|].
  intros w2 s' S2 Hs2 Hw2. apply wp_ret, (HQ w2 s'); [congruence|done|done].
Qed.
End Items.

(** ** Scalars in a bank *)

Section Scalars.
Context {G : Type} `{UsbState G} `{AvrOk} (p : platform).
Variables (NI NO : Z) (size : nat).
Abbreviation served := (served NI NO size p).
Implicit Types (w : world G) (s : port).

(** Programs that put the bytes [bs] into a bank with room for them. *)
Definition fills (c : M G unit) (bs : list Z) : Prop := forall Q s w, served s (hist w) -> p_sel s = NI -> (length (p_open s) + length bs <= size)%nat ->
  (forall w', st w' = st w -> served (with_open (p_open s ++ bs) s) (hist w') -> Q tt w') -> wp False c Q p w.

Lemma fills_wr v : fills (wr UEDATX v) [u8 v].
Proof.
  intros Q s w Hs Hsel Hroom HQ. cbn [length] in Hroom. apply wp_wr. cbn [reg_wrap]. apply HQ; [done|]. cbn [hist].
  pose proof (served_step p NI NO size (Wr UEDATX (u8 v)) s _ Hs) as Hs1. cbn [on_event] in Hs1.
  rewrite Hsel, Z.eqb_refl in Hs1. unfold full in Hs1. by rewrite bool_decide_false in Hs1 by lia.
Qed.
Lemma fills_seq c c' bs bs' : fills c bs -> fills c' bs' -> fills (c;;; c') (bs ++ bs').
Proof.
  intros Hc Hc' Q s w Hs Hsel Hroom HQ. rewrite length_app in Hroom. apply wp_bind, (Hc _ s); [done|done|lia|]. intros w1 S1 Hs1.
  eapply Hc'; [exact Hs1|done|cbn [with_open p_open]; rewrite length_app; lia|]. intros w2 S2 Hs2. apply HQ; [congruence|].
  cbn [with_open p_open p_sel p_sent p_waiting] in Hs2. by rewrite <- app_assoc in Hs2.
Qed.
Lemma fills_16 v : fills (Endpoint_Write_16_LE v) (le_bytes 2 v).
Proof. rewrite (proj1 (le_bytes_shifts v)). apply (fills_seq _ _ [_] [_]); apply fills_wr. Qed.

(** Programs that read [n] bytes of the first waiting packet and return [f] of them. *)
Definition takes {A} (n : nat) (c : M G A) (f : list Z -> A) : Prop := forall Q bs q ps s w, served s (hist w) -> p_sel s = NO ->
  length bs = n -> p_waiting s = (bs ++ q) :: ps ->
  (forall w', st w' = st w -> served (Port NO (p_sent s) (p_open s) (q :: ps)) (hist w') -> Q (f bs) w') -> wp False c Q p w.

Lemma takes_8 : takes 1 Endpoint_Read_8 (fun bs => of_le_bytes bs).
Proof.
  intros Q bs q ps s w Hs Hsel Hl Hw HQ. destruct bs as [|b [|]]; [done| |done]. apply (wp_first p NI NO size _ s b q ps); [done|done|done|].
  intros w' S Hs'. cbn [of_le_bytes] in HQ. rewrite Z.add_0_r in HQ. apply HQ; [done|]. unfold first_read in Hs'. by rewrite Hw, Hsel in Hs'.
Qed.
Lemma takes_16 : takes 2 Endpoint_Read_16_LE of_le_bytes.
Proof.
  intros Q bs q ps s w Hs Hsel Hl Hw HQ. destruct bs as [|b0 [|b1 [|]]]; try done. unfold Endpoint_Read_16_LE.
  apply wp_bind, (wp_first p NI NO size _ s b0 (b1 :: q) ps); [done|done|done|]. intros w1 S1 Hs1.
  assert (first_read s = Port NO (p_sent s) (p_open s) ((b1 :: q) :: ps)) as E by (unfold first_read; by rewrite Hw, Hsel). rewrite E in Hs1.
  apply wp_bind, (wp_first p NI NO size _ (Port NO (p_sent s) (p_open s) ((b1 :: q) :: ps)) b1 q ps); [done|done|done|]. intros w2 S2 Hs2. apply wp_ret, HQ; [congruence|done].
Qed.
End Scalars.

(** ** A pair of endpoints that behaves so *)

Section Bus.
#[local] Instance port_chip : Avr := datasheet USB_SERIES_2_AVR.
#[local] Instance port_chip_ok : AvrOk := datasheet_ok USB_SERIES_2_AVR.
Variables (NI NO : Z) (size : nat).
Context (Hne : NI <> NO) (Hsize : (size <= 255)%nat).

Definition port_bus (s0 : port) (n : nat) : platform := {|
  respond h r :=
    let s := after NI NO size h s0 in let q := default [] (head (p_waiting s)) in
    match r with
    | V_USB_DeviceState => state_code DEVICE_STATE_Configured
    | UENUM => p_sel s
    | UECFG0X => if p_sel s =? NI then 1 else 0
    | UEINTX => 1 + (if bool_decide (p_waiting s <> []) then 4 else 0) +
        (if if p_sel s =? NI then negb (full size s) else bool_decide (q <> []) then 32 else 0)
    | UEBCLX => Z.of_nat (length (if p_sel s =? NI then p_open s else q))
    | UEDATX => default 0 (head q)
    | _ => 0
    end;
  fuel := n
|}.

Definition port_sound (s : port) : Prop :=
  is_u8 (p_sel s) /\ (length (p_open s) <= size)%nat /\ Forall (fun q => (length q <= 255)%nat /\ Forall is_u8 q) (p_waiting s).

Lemma on_event_sound e s : port_sound s -> port_sound (on_event NI NO size e s).
Proof.
  intros (Hsel & Hop & Hw). assert (Forall (fun q => (length q <= 255)%nat /\ Forall is_u8 q) (tail (p_waiting s))) as Ht
    by (destruct (p_waiting s); [done|]; by apply Forall_cons_iff in Hw as [_ ?]).
  destruct e as [r v|r v]; destruct r; try (by split_and!); cbn [on_event].
  - destruct (p_sel s =? NO); [|by split_and!]. split_and!; [done|done|]. unfold first_read. cbn [p_waiting].
    destruct (p_waiting s) as [|[|b q] ps]; [done|done|]. apply Forall_cons_iff in Hw as [[Hl [_ Hu]%Forall_cons_iff] Hps].
    constructor; [split; [cbn in Hl; lia|done]|done].
  - split_and!; [apply u8_range|done|done].
  - destruct (bit_tst v FIFOCON); [by split_and!|]. destruct (p_sel s =? NI); [split_and!; [done|cbn; lia|done]|]. destruct (p_sel s =? NO); by split_and!.
  - destruct ((p_sel s =? NI) && negb (full size s)) eqn:E; [|by split_and!]. apply andb_true_iff in E as [_ E].
    split_and!; [done| |done]. cbn [with_open p_open]. unfold full in E. apply negb_true_iff, bool_decide_eq_false in E.
    rewrite length_app. cbn [length]. lia.
Qed.

Lemma port_bus_served ws n : port_sound (Port 0 [] [] ws) -> served NI NO size (port_bus (Port 0 [] [] ws) n) (Port 0 [] [] ws) [].
Proof.
  set (s0 := Port 0 [] [] ws). intros H0. split; [by split_and!|]. intros new. rewrite app_nil_r. assert (port_sound (after NI NO size new s0)) as (Hsel & Hop & Hw).
  { induction new as [|e new IH]; [done|]. by apply on_event_sound. }
  unfold shows. cbn [port_bus respond]. set (s := after NI NO size new s0) in *. set (q := default [] (head (p_waiting s))).
  assert ((length q <= 255)%nat /\ Forall is_u8 q) as [Hq Huq].
  { unfold q. destruct (p_waiting s) as [|q' ps]; cbn [head from_option id]; [split; [cbn; lia|done]|]. by apply Forall_cons_iff in Hw as [? _]. }
  split; [done|]. split; [by apply u8_small|]. split_and!.
  - intros Es. rewrite Es, Z.eqb_refl. destruct (bool_decide (p_waiting s <> [])), (full size s) eqn:Ef; cbn [negb];
      (split_and!; [done|done|done|apply u8_small; unfold is_u8; lia|done]).
  - intros Es. rewrite Es, (proj2 (Z.eqb_neq _ _)) by done. destruct (bool_decide (p_waiting s <> [])), (bool_decide (q <> []));
      (split_and!; [done|done|done|apply u8_small; unfold is_u8; lia|done|]);
      (intros b Hb; destruct q as [|b' q']; [done|]; injection Hb as ->; cbn; apply u8_small; by apply Forall_cons_iff in Huq as [? _]).
  - intros _. destruct (bool_decide (p_waiting s <> [])), (if p_sel s =? NI then negb (full size s) else bool_decide (q <> [])); done.
Qed.
(** The same with an endpoint selected. *)
Lemma port_bus_selected ps n sel : port_sound (Port 0 [] [] ps) -> is_u8 sel ->
  served NI NO size (port_bus (Port 0 [] [] ps) n) (Port sel [] [] ps) [Wr UENUM sel].
Proof.
  intros H0 Hsel. pose proof (served_step _ NI NO size (Wr UENUM sel) _ _ (port_bus_served ps n H0)) as Hs. cbn [on_event] in Hs.
  by rewrite u8_small in Hs.
Qed.
End Bus.
