(* ===== verification/RNDISClassDevice.v ===== *)
(** * The RNDIS class driver for devices (LUFA RNDISClassDevice.c)

    The control requests that carry the messages of [RNDISMessages], the
    notification that a response is ready, and the packets of the data
    endpoints: an Ethernet frame behind a header of 44 bytes. *)

From S2P Require Import Prelude StdDescriptors HIDClass Descriptors Machine UsbCore Endpoint EndpointStream DeviceStandardReq UsbController MemorySafety StreamTransfers RNDISMessages BulkPort.

Class RndisDevice (G : Type) := {
  rndis : G -> info;
  put_rndis : info -> G -> G
}.
Class RndisDeviceOk (G : Type) `{UsbState G} `{RndisDevice G} : Prop := {
  rndis_put i g : rndis (put_rndis i g) = i;
  put_rndis_put i i' g : put_rndis i (put_rndis i' g) = put_rndis i g;
  usb_put_rndis i g : usb (put_rndis i g) = usb g;
  put_rndis_same g : put_rndis (rndis g) g = g
}.

Definition RNDIS_DEVICE_MIN_MESSAGE_BUFFER_LENGTH : Z :=
  Z.of_nat (length oid_list_bytes) + sizeof RNDIS_Query_Complete_t.

Section Driver.
Context {G : Type} `{UsbState G} `{RndisDevice G} `{Avr}.
(** The management task a data stream runs between packets. *)
Variable USB_USBTask : M G unit.
(** The contents of an uninitialised array of a given size. *)
Variable uninitialised : nat -> list Z.

Definition get_rndis : M G info := g <- mget;; ret (rndis g).
Definition mod_rndis (f : info -> info) : M G unit := mmodify (fun g => put_rndis (f (rndis g)) g).
(** A step on the interface that may leave the message buffer. *)
Definition on_rndis (f : info -> option info) : M G unit :=
  i <- get_rndis;; i' <- mlift (f i);; mod_rndis (fun _ => i').
Definition message_buffer : M G (list Z) := i <- get_rndis;; mlift (MessageBuffer (Config i)).

(** ** Control requests *)

Definition send_encapsulated_command (r : USB_Request_Header_t) : M G unit :=
  Endpoint_ClearSETUP;;;
  b <- message_buffer;;
  x <- Endpoint_Read_Control_Stream_LE b (wLength r);;
  let '(_, (received, _)) := x in
  mod_rndis (set_buffer received);;;
  Endpoint_ClearIN;;;
  on_rndis RNDIS_Device_ProcessRNDISControlMessage.

(** [if (!(MessageHeader->MessageLength))]: a response of one zero byte. *)
Definition empty_response (i : info) : option info :=
  len ← load MessageLength_at i;
  if len =? 0 then
    b ← MessageBuffer (Config i);
    b' ← aset b 0 0;
    store MessageLength_at 1 (set_buffer b' i)
  else Some i.

Definition get_encapsulated_response : M G unit :=
  on_rndis empty_response;;;
  i <- get_rndis;;
  b <- message_buffer;;
  len <- mlift (load MessageLength_at i);;
  (Endpoint_ClearSETUP;;;
   Endpoint_Write_Control_Stream_LE b (u16 len);;;
   Endpoint_ClearOUT);;;
  on_rndis (store MessageLength_at 0).

Definition RNDIS_Device_ProcessControlRequest : M G unit :=
  setup <- Endpoint_IsSETUPReceived;;
  if negb setup then ret tt else
  r <- get_request;;
  i <- get_rndis;;
  if negb (wIndex r =? ControlInterfaceNumber (Config i)) then ret tt else
  if bRequest r =? RNDIS_REQ_SendEncapsulatedCommand then
    when (bmRequestType r =? reqtype REQDIR_HOSTTODEVICE REQTYPE_CLASS REQREC_INTERFACE) (send_encapsulated_command r)
  else if bRequest r =? RNDIS_REQ_GetEncapsulatedResponse then
    when (bmRequestType r =? reqtype REQDIR_DEVICETOHOST REQTYPE_CLASS REQREC_INTERFACE) get_encapsulated_response
  else ret tt.

(** ** Configuration and the management task *)

Definition set_types (i : info) : info :=
  let c := Config i in
  RndisInfo (RndisConfig (ControlInterfaceNumber c) (of_type EP_TYPE_BULK (DataINEndpoint c))
    (of_type EP_TYPE_BULK (DataOUTEndpoint c)) (of_type EP_TYPE_INTERRUPT (NotificationEndpoint c))
    (AdapterVendorDescription c) (AdapterMACAddress c) (MessageBuffer c) (MessageBufferLength c))
    (RndisState false RNDIS_Uninitialized 0).

Definition RNDIS_Device_ConfigureEndpoints : M G bool :=
  mod_rndis set_types;;;
  i <- get_rndis;;
  match MessageBuffer (Config i) with
  | None => ret false
  | Some _ =>
      if MessageBufferLength (Config i) <? RNDIS_DEVICE_MIN_MESSAGE_BUFFER_LENGTH then ret false else
      ok <- Endpoint_ConfigureEndpointTable [DataINEndpoint (Config i)];;
      if negb ok then ret false else
      ok <- Endpoint_ConfigureEndpointTable [DataOUTEndpoint (Config i)];;
      if negb ok then ret false else
      Endpoint_ConfigureEndpointTable [NotificationEndpoint (Config i)]
  end.

(** The notification of a response: a request header of the class. *)
Definition response_available : USB_Request_Header_t :=
  Request (reqtype REQDIR_DEVICETOHOST REQTYPE_CLASS REQREC_INTERFACE) RNDIS_NOTIF_ResponseAvailable 0 0 0.

Definition RNDIS_Device_USBTask : M G unit :=
  configured <- is_DeviceState DEVICE_STATE_Configured;;
  if negb configured then ret tt else
  i <- get_rndis;;
  Endpoint_SelectEndpoint (Entry_Address (NotificationEndpoint (Config i)));;;
  ready <- Endpoint_IsINReady;;
  i <- get_rndis;;
  when (ready && ResponseReady (State i)) (
    Endpoint_Write_Stream_LE USB_USBTask (pack response_available) (sizeof USB_Request_Header_t) None;;;
    Endpoint_ClearIN;;;
    mod_rndis (set_ready false)).

(** ** Packets *)

(** Whether data may be transferred: the guard of the three functions. *)
Definition data_ready : M G bool :=
  configured <- is_DeviceState DEVICE_STATE_Configured;;
  if negb configured then ret false else
  i <- get_rndis;;
  ret (bool_decide (CurrRNDISState (State i) = RNDIS_Data_Initialized)).

Definition RNDIS_Device_IsPacketReceived : M G bool :=
  ok <- data_ready;;
  if negb ok then ret false else
  i <- get_rndis;;
  Endpoint_SelectEndpoint (Entry_Address (DataOUTEndpoint (Config i)));;;
  Endpoint_IsOUTReceived.

(** The code, [Buffer] and [*PacketLength]. *)
Definition RNDIS_Device_ReadPacket (Buffer : list Z) (PacketLength : Z) : M G (Z * list Z * Z) :=
  ok <- data_ready;;
  if negb ok then ret (stream_value ENDPOINT_RWSTREAM_DeviceDisconnected, Buffer, PacketLength) else
  i <- get_rndis;;
  Endpoint_SelectEndpoint (Entry_Address (DataOUTEndpoint (Config i)));;;
  out <- Endpoint_IsOUTReceived;;
  if negb out then ret (stream_value ENDPOINT_RWSTREAM_NoError, Buffer, 0) else
  x <- Endpoint_Read_Stream_LE USB_USBTask (uninitialised 44) (sizeof RNDIS_Packet_Message_t) None;;
  let '(_, (header, _), _) := x in
  RNDISPacketHeader <- mlift (unpack (A := RNDIS_Packet_Message_t) header);;
  if ETHERNET_FRAME_SIZE_MAX <? PM_DataLength RNDISPacketHeader then
    Endpoint_StallTransaction;;;
    ret (RNDIS_ERROR_LOGICAL_CMD_FAILED, Buffer, 0)
  else
    let Length := u16 (PM_DataLength RNDISPacketHeader) in
    x <- Endpoint_Read_Stream_LE USB_USBTask Buffer Length None;;
    let '(_, (frame, _), _) := x in
    Endpoint_ClearOUT;;;
    ret (stream_value ENDPOINT_RWSTREAM_NoError, frame, Length).

Definition packet_header (PacketLength : Z) : RNDIS_Packet_Message_t :=
  PM REMOTE_NDIS_PACKET_MSG (u16 (sizeof RNDIS_Packet_Message_t + PacketLength))
    (sizeof RNDIS_Packet_Message_t - sizeof RNDIS_Message_Header_t) PacketLength 0 0 0 0 0 0 0.

Definition RNDIS_Device_SendPacket (Buffer : list Z) (PacketLength : Z) : M G Z :=
  ok <- data_ready;;
  if negb ok then ret (stream_value ENDPOINT_RWSTREAM_DeviceDisconnected) else
  i <- get_rndis;;
  Endpoint_SelectEndpoint (Entry_Address (DataINEndpoint (Config i)));;;
  code <- Endpoint_WaitUntilReady;;
  if negb (bool_decide (code = ENDPOINT_READYWAIT_NoError)) then ret (stream_value (stream_code code)) else
  Endpoint_Write_Stream_LE USB_USBTask (pack (packet_header PacketLength)) (sizeof RNDIS_Packet_Message_t) None;;;
  Endpoint_Write_Stream_LE USB_USBTask Buffer PacketLength None;;;
  Endpoint_ClearIN;;;
  ret (stream_value ENDPOINT_RWSTREAM_NoError).
End Driver.

(** ** Commands and responses *)

Section Dialogue.
Context {G : Type} `{UsbStateOk G} `{!RndisDevice G} `{!RndisDeviceOk G} `{AvrOk} (p : platform).
Implicit Types w : world G.

Lemma wp_get_rndis nf Q w : Q (rndis (st w)) w -> wp nf get_rndis Q p w.
Proof. intros HQ. by apply wp_bind, wp_get, wp_ret. Qed.
Lemma wp_mod_rndis nf f Q w : Q tt (World (put_rndis (f (rndis (st w))) (st w)) (hist w)) -> wp nf (mod_rndis f) Q p w.
Proof. intros HQ. by apply wp_modify. Qed.
Lemma wp_on_rndis nf f i' Q w : f (rndis (st w)) = Some i' ->
  Q tt (World (put_rndis i' (st w)) (hist w)) -> wp nf (on_rndis f) Q p w.
Proof. intros Hf HQ. apply wp_bind, wp_get_rndis, wp_bind, (wp_lift _ _ _ _ _ _ Hf). by apply wp_mod_rndis. Qed.
Lemma wp_message_buffer nf b Q w : MessageBuffer (Config (rndis (st w))) = Some b -> Q b w -> wp nf message_buffer Q p w.
Proof. intros Hb HQ. apply wp_bind, wp_get_rndis, (wp_lift _ _ _ _ _ _ Hb). done. Qed.

(** A request of the class for this interface, already copied from its packet. *)
Definition rndis_request (bm code v len : Z) w : Prop :=
  USB_ControlRequest (usb (st w)) = Request bm code v (ControlInterfaceNumber (Config (rndis (st w)))) len /\
  one_setup p (hist w).

Lemma wp_rndis_request nf bm code v len Q w : rndis_request bm code v len w ->
  (forall w1, did w w1 (st w) [] ->
     let r := Request bm code v (ControlInterfaceNumber (Config (rndis (st w)))) len in
     wp nf (if code =? RNDIS_REQ_SendEncapsulatedCommand then when (bm =? 0x21) (send_encapsulated_command r)
            else if code =? RNDIS_REQ_GetEncapsulatedResponse then when (bm =? 0xA1) get_encapsulated_response else ret tt) Q p w1) ->
  wp nf RNDIS_Device_ProcessControlRequest Q p w.
Proof.
  intros [Hr Hone] HQ. eapply (wp_class_setup p); [exact Hr|done|]. intros w1 D1.
  pose proof D1 as [S1 _]. apply wp_bind, wp_get_rndis. rewrite S1. cbn [wIndex bRequest bmRequestType].
  rewrite Z.eqb_refl. by apply HQ.
Qed.

(** The interface after the message [m] arrived in [msg]. *)
Definition commanded (msg b : list Z) (m : ndis_message) (i : info) : info :=
  let i1 := set_buffer (filled b msg) i in
  let '(a, r) := ndis_step (Config i1) (adapter_of i1) m in reacted (filled b msg) i1 a r.

Lemma wp_command nf msg b m v Q w : rndis_request 0x21 RNDIS_REQ_SendEncapsulatedCommand v (Z.of_nat (length msg)) w ->
  MessageBuffer (Config (rndis (st w))) = Some b -> well_sized b (rndis (st w)) -> (length msg <= length b)%nat ->
  Forall is_u8 msg -> parse_message (filled b msg) = Some m -> host_commands p (hist w) msg -> (length msg + 1 < fuel p)%nat ->
  (forall ws w', acked ws = true -> data_and_flags ws -> did w w' (put_rndis (commanded msg b m (rndis (st w))) (st w)) ws -> Q tt w') ->
  wp nf RNDIS_Device_ProcessControlRequest Q p w.
Proof.
  intros Hr Hb Hs Hl Hu Hm Hhost Hf HQ. eapply wp_rndis_request; [exact Hr|]. intros w1 D1 r. cbn [Z.eqb when].
  pose proof D1 as (S1 & before & Hh1 & Hw1).
  unfold send_encapsulated_command. apply wp_bind, clear_setup_log. intros u u' Hu'.
  apply wp_bind, (wp_message_buffer _ b); cbn [st]; [by rewrite S1|]. apply wp_bind. rewrite Hh1.
  apply (wp_take_in p); [done|done|done|done|unfold well_sized in Hs; lia|done|]. intros c new Hnew.
  apply wp_bind, wp_mod_rndis. cbn [st hist]. destruct flag_facts as ((B1 & _ & _ & B4) & _).
  apply wp_bind, clear_flags_did; [done|done|]. intros x x' w4 Hcl _ D4. pose proof D4 as [S4 _]. cbn [st] in S4.
  rewrite S1 in *.
  set (i1 := set_buffer (filled b msg) (rndis (st w))) in *.
  assert (length (filled b msg) = length b) as Hfl by (unfold filled; rewrite length_app, length_drop; lia).
  assert (well_sized (filled b msg) i1) as Hs1.
  { destruct Hs as (H132 & Hwide & Hub & Hrest). unfold well_sized. rewrite Hfl. split; [done|]. split; [done|]. split; [|done].
    unfold filled. apply Forall_app. split; [done|by apply Forall_drop]. }
  eapply wp_on_rndis; [rewrite S4, rndis_put; exact (message_refines _ i1 eq_refl Hs1 m Hm)|]. fold (commanded msg b m (rndis (st w))).
  eapply (HQ ((UEINTX, u') :: writes new ++ [(UEINTX, x')])).
  - cbn [acked existsb]. by rewrite bool_decide_true, Hu'.
  - constructor; [by right|]. apply Forall_app. split; [done|]. apply Forall_singleton. by right.
  - destruct D4 as (_ & n4 & Hh4 & Hw4). split; [by rewrite S4, put_rndis_put|]. cbn [hist] in *.
    exists (n4 ++ new ++ [Wr UEINTX u'; Rd UEINTX u] ++ before). split; [rewrite Hh4; by rewrite <- !app_assoc|].
    rewrite !writes_app, Hw1, Hw4. by rewrite <- app_assoc.
Qed.

(** The length member of a buffer, and the buffer with another length. *)
Lemma load_length b i n : MessageBuffer (Config i) = Some b -> get32 b MessageLength_at = Some n -> load MessageLength_at i = Some n.
Proof. intros Hb Hg. unfold load. rewrite Hb. exact Hg. Qed.
Lemma store_length b i v : MessageBuffer (Config i) = Some b -> (8 <= length b)%nat ->
  store MessageLength_at v i = Some (set_buffer (patch 4 (le_bytes 4 v) b) i).
Proof.
  intros Hb Hl. unfold store, store_bytes. rewrite Hb. cbn [mbind option_bind]. unfold put_bytes.
  rewrite le_bytes_length, decide_True by (unfold MessageLength_at; lia). done.
Qed.

Definition taken_away (b : list Z) (i : info) : info := set_buffer (patch 4 (le_bytes 4 0) b) i.

(** The response that waits, and the single zero byte sent when none does. *)
Definition response_buffer (b : list Z) (n : Z) : list Z := if n =? 0 then patch 4 (le_bytes 4 1) (<[0%nat := 0]> b) else b.

Lemma response_ready b i n : MessageBuffer (Config i) = Some b -> (8 <= length b)%nat -> get32 b MessageLength_at = Some n ->
  empty_response i = Some (set_buffer (response_buffer b n) i) /\ length (response_buffer b n) = length b /\
  get32 (response_buffer b n) MessageLength_at = Some (if n =? 0 then 1 else n).
Proof.
  intros Hb Hl Hn. unfold empty_response, response_buffer. rewrite (load_length b i n Hb Hn). cbn [mbind option_bind].
  destruct (n =? 0).
  - rewrite Hb. cbn [mbind option_bind]. rewrite aset_Some by lia. cbn [mbind option_bind]. change (Z.to_nat 0) with 0%nat.
    set (b1 := <[0%nat := 0]> b). assert (length b1 = length b) as Hl1 by apply length_insert.
    rewrite (store_length b1) by (done || lia). split; [done|].
    assert (length (patch 4 (le_bytes 4 1) b1) = length b) as Hp.
    { unfold patch. rewrite !length_app, le_bytes_length, length_take, length_drop. lia. }
    split; [done|]. unfold get32. rewrite decide_True by (rewrite Hp; unfold MessageLength_at; lia). unfold patch.
    rewrite drop_app_length' by (rewrite length_take; unfold MessageLength_at; lia). by rewrite take_app_length'.
  - split; [f_equal; by apply over_same|done].
Qed.

Lemma wp_response b n v len Q w : rndis_request 0xA1 RNDIS_REQ_GetEncapsulatedResponse v len w -> is_u16 len ->
  MessageBuffer (Config (rndis (st w))) = Some b -> (8 <= length b)%nat -> Forall is_u8 b -> Z.of_nat (length b) < 65536 ->
  get32 b MessageLength_at = Some n -> 0 <= n <= Z.of_nat (length b) ->
  host_reads p len (hist w) -> counts_bytes p -> (length b + 65 <= fuel p)%nat ->
  let size := if n =? 0 then 1%nat else Z.to_nat n in
  (forall ws w', answer_writes (take (min size (Z.to_nat len)) (response_buffer b n)) ws ->
     did w w' (put_rndis (taken_away (response_buffer b n) (rndis (st w))) (st w)) ws -> Q tt w') ->
  wp False RNDIS_Device_ProcessControlRequest Q p w.
Proof.
  intros Hr Hlen Hb Hl Hu Hwide Hn Hn2 Hhost Hc Hf size HQ. eapply wp_rndis_request; [exact Hr|]. intros w1 D1 r.
  cbn [Z.eqb when]. pose proof D1 as (S1 & before & Hh1 & Hw1). destruct (response_ready b (rndis (st w)) n Hb Hl Hn) as (He & Hlb & Hg).
  set (b1 := response_buffer b n) in *. set (i1 := set_buffer b1 (rndis (st w))) in *.
  assert (Forall is_u8 b1) as Hu1.
  { unfold b1, response_buffer. destruct (n =? 0); [|done]. unfold patch. rewrite !Forall_app.
    split_and!; [apply Forall_take|apply le_bytes_u8|apply Forall_drop]; by apply Forall_insert. }
  unfold get_encapsulated_response. apply wp_bind. eapply wp_on_rndis; [rewrite S1; exact He|]. rewrite S1.
  apply wp_bind, wp_get_rndis. cbn [st]. rewrite rndis_put. apply wp_bind, (wp_message_buffer _ b1); cbn [st]; [by rewrite rndis_put|].
  apply wp_bind, (wp_lift _ _ _ (if n =? 0 then 1 else n)); [by apply (load_length b1)|]. apply wp_bind.
  set (w2 := World _ (hist w1)). assert (asked_length w2 = len) as Ha.
  { unfold asked_length, w2. cbn [st]. rewrite usb_put_rndis. by destruct Hr as [-> _]. }
  assert (0 <= (if n =? 0 then 1 else n) <= Z.of_nat (length b)) as Hsz by (destruct (n =? 0); lia).
  rewrite u16_small by (unfold is_u16; lia).
  apply answer_did; rewrite ?Ha; [done|lia|lia|done|unfold w2; cbn [hist]; rewrite Hh1; by apply host_reads_later|done|lia|].
  intros ws w3 Hws D3. pose proof D3 as [S3 _]. cbn [w2 st] in S3.
  eapply wp_on_rndis; [rewrite S3, rndis_put; apply (store_length b1 i1); [done|lia]|]. rewrite S3, put_rndis_put.
  eapply (HQ ws).
  - unfold size. by destruct (n =? 0).
  - destruct D3 as (_ & new & Hh3 & Hw3). split; [done|]. exists (new ++ before). cbn [hist w2] in *. rewrite Hh3, Hh1, app_assoc.
    split; [done|]. by rewrite writes_app, Hw1, Hw3.
Qed.
End Dialogue.

(** C27: a command and its response.  When the host sends a well-formed message
    that fits the buffer, in packets of whatever sizes, the driver acknowledges
    the request and the adapter does what the specification says of the message;
    and when the host then asks for the response, the interface being untouched
    in between, it receives exactly the bytes the specification gives, as many
    as it asked for (whatever the bus, [p'], does by then), and the response is gone from the buffer: the length is
    zero.  Both requests end, and no other object changes. *)
Theorem rndis_dialogue {G} `{UsbStateOk G} `{!RndisDevice G} `{!RndisDeviceOk G} `{AvrOk} (p : platform) msg b m v (w : world G) :
  rndis_request p 0x21 RNDIS_REQ_SendEncapsulatedCommand v (Z.of_nat (length msg)) w ->
  MessageBuffer (Config (rndis (st w))) = Some b -> well_sized b (rndis (st w)) -> (length msg <= length b)%nat ->
  Forall is_u8 msg -> parse_message (filled b msg) = Some m -> host_commands p (hist w) msg -> (length msg + 1 < fuel p)%nat ->
  wp False RNDIS_Device_ProcessControlRequest (fun _ w1 => exists ws,
    acked ws = true /\ data_and_flags ws /\ did w w1 (put_rndis (commanded msg b m (rndis (st w))) (st w)) ws /\
    forall a bs, ndis_step (Config (rndis (st w))) (adapter_of (rndis (st w))) m = (a, Respond bs) ->
    forall (p' : platform) v' len (w2 : world G), rndis (st w2) = rndis (st w1) -> is_u16 len ->
      rndis_request p' 0xA1 RNDIS_REQ_GetEncapsulatedResponse v' len w2 -> host_reads p' len (hist w2) ->
      counts_bytes p' -> (length b + 65 <= fuel p')%nat ->
      wp False RNDIS_Device_ProcessControlRequest (fun _ w3 => exists ws' b3,
        answer_writes (take (Z.to_nat len) bs) ws' /\ did w2 w3 (put_rndis (set_buffer b3 (rndis (st w2))) (st w2)) ws' /\
        get32 b3 MessageLength_at = Some 0) p' w2) p w.
Proof.
  intros Hr Hb Hs Hl Hu Hm Hcmd Hf. pose proof Hs as (H132 & Hwide & Hub & Hrest).
  eapply (wp_command p False msg b m); [exact Hr|done|done|done|done|done|done|lia|]. intros ws w1 Ha Hd D.
  exists ws. split; [done|]. split; [done|]. split; [done|]. intros a bs Hstep p' v' len w2 Hsame Hlen Hr2 Hreads Hc Hf'.
  destruct D as [S1 _]. rewrite S1, rndis_put in Hsame. unfold commanded in Hsame.
  set (b1 := filled b msg) in *. set (i1 := set_buffer b1 (rndis (st w))) in *.
  assert (ndis_step (Config i1) (adapter_of i1) m = ndis_step (Config (rndis (st w))) (adapter_of (rndis (st w))) m) as Es by done.
  assert (length b1 = length b) as Hfl by (unfold b1, filled; rewrite length_app, length_drop; lia).
  assert (Forall is_u8 b1) as Hu1 by (unfold b1, filled; apply Forall_app; split; [done|by apply Forall_drop]).
  assert (well_sized b1 i1) as Hs1 by (unfold well_sized; rewrite Hfl; split; [done|]; split; [done|]; by split).
  destruct (step_length b1 i1 eq_refl Hs1 m a bs) as [Hbl Hg]; [by rewrite Es|]. rewrite Es, Hstep in Hsame. cbn [reacted] in Hsame.
  assert (length (patch 0 bs b1) = length b) as Hpl by (unfold patch; rewrite take_0, !length_app, length_drop; cbn [length]; lia).
  assert (Forall is_u8 (patch 0 bs b1)) as Hpu.
  { unfold patch. rewrite take_0, app_nil_l. apply Forall_app. split; [by apply (step_u8 b1 i1 Hs1 m a); rewrite Es|by apply Forall_drop]. }
  eapply (wp_response p' (patch 0 bs b1) (Z.of_nat (length bs))); [exact Hr2|done|by rewrite Hsame|lia|done|lia|done|lia|done|done|lia|].
  intros ws' w3 Hws D3. unfold response_buffer in *. rewrite (proj2 (Z.eqb_neq _ 0)) in Hws, D3 by lia.
  eexists ws', _. split; [|split; [exact D3|]].
  - rewrite Nat2Z.id in Hws. unfold patch in Hws. rewrite take_0, app_nil_l in Hws.
    rewrite take_app_le in Hws by lia. replace (take (length bs `min` Z.to_nat len) bs) with (take (Z.to_nat len) bs) in Hws; [done|].
    rewrite Nat.min_comm, <- take_take, firstn_all. done.
  - unfold get32. set (b2 := patch 0 bs b1) in *. unfold patch. rewrite decide_True.
    + rewrite drop_app_length' by (rewrite length_take; unfold MessageLength_at; lia). by rewrite take_app_length'.
    + rewrite !length_app, length_take, length_drop, le_bytes_length. unfold MessageLength_at. lia.
Qed.

(** ** Packets *)

Definition packet_bytes (frame : list Z) : list Z := pack (packet_header (Z.of_nat (length frame))) ++ frame.

Lemma unpack_header n : is_u16 n -> unpack (pack (packet_header n)) = Some (packet_header n).
Proof.
  intros Hn. unfold is_u16 in Hn. rewrite <- (app_nil_r (pack _)). apply unpack_pack.
  unfold in_range. assert (forall z, 0 <= z < 65536 -> fits 4 z) as Hfit by (unfold fits; intros z Hz; change (256 ^ Z.of_nat 4) with 4294967296; lia).
  pose proof (u16_range (sizeof RNDIS_Packet_Message_t + n)) as Hw. unfold is_u16 in Hw.
  repeat (constructor; [apply Hfit; first [exact Hn | exact Hw | by apply (bool_decide_unpack _)]|]). constructor.
Qed.

Section Packets.
Context {G : Type} `{UsbState G} `{!RndisDevice G} `{AvrOk} `{!UsbApplication G} (p : platform).
Variables (NI NO : Z) (size : nat) (boot_signature_byte_get : Z -> Z) (uninitialised : nat -> list Z).
Context (Hne : NI <> NO) (Hsize : (1 <= size)%nat).
Abbreviation served := (served NI NO size p).
Abbreviation task := (USB_USBTask boot_signature_byte_get).
Implicit Types (w : world G) (s : port).

(** The adapter was initialised for data, and its data endpoints are [NI] and [NO]. *)
Definition rndis_open (g : G) : Prop :=
  CurrRNDISState (State (rndis g)) = RNDIS_Data_Initialized /\
  Z.land (Entry_Address (DataINEndpoint (Config (rndis g)))) ENDPOINT_EPNUM_MASK = NI /\
  Z.land (Entry_Address (DataOUTEndpoint (Config (rndis g)))) ENDPOINT_EPNUM_MASK = NO.

(** The head of the functions: the guard and the selection. *)
Lemma wp_data_select {A} (f : info -> USB_Endpoint_Table_t) N (k : M G A) (no : A) s Q w : rndis_open (st w) -> served s (hist w) ->
  Z.land (Entry_Address (f (rndis (st w)))) ENDPOINT_EPNUM_MASK = N ->
  (forall w', st w' = st w -> served (selecting N s) (hist w') -> wp False k Q p w') ->
  wp False (ok <- data_ready;; if negb ok then ret no else
            i <- get_rndis;; Endpoint_SelectEndpoint (Entry_Address (f i));;; k) Q p w.
Proof.
  intros (Hi & _) Hs HN HQ. destruct (small_number _ _ HN) as [_ HN'].
  apply wp_bind. unfold data_ready, is_DeviceState. apply wp_bind, wp_bind, (wp_look p NI NO size _ _ s); [done|done|]. intros w1 S1 Hs1.
  apply wp_ret. destruct (served_now p NI NO size _ _ Hs) as (-> & _). rewrite Z.eqb_refl. cbn [negb].
  apply wp_bind, wp_get_rndis, wp_ret. rewrite S1, bool_decide_true by done. cbn [negb].
  apply wp_bind, wp_get_rndis, wp_bind. rewrite S1. unfold Endpoint_SelectEndpoint. apply wp_wr. cbn [reg_wrap]. rewrite HN'. apply HQ; [done|]. cbn [hist].
  pose proof (served_step p NI NO size (Wr UENUM N) s _ Hs1) as Hs2. cbn [on_event] in Hs2. rewrite u8_small in Hs2; [done|].
  rewrite <- HN'. apply u8_range.
Qed.

Lemma wp_send_packet frame s Q w : rndis_open (st w) -> served s (hist w) -> p_open s = [] ->
  Forall is_u8 frame -> Z.of_nat (length frame) < 65536 -> (2 * (44 + length frame) + 1 < fuel p)%nat ->
  (forall ds w', st w' = st w -> cut size (packet_bytes frame) ds -> served (Port NI (p_sent s ++ ds) [] (p_waiting s)) (hist w') -> Q 0 w') ->
  wp False (RNDIS_Device_SendPacket task frame (Z.of_nat (length frame))) Q p w.
Proof.
  intros Hopen Hs Ho Hu Hw Hf HQ. pose proof Hopen as (_ & Hin & _). destruct (small_number _ _ Hin) as [HNI _].
  unfold RNDIS_Device_SendPacket. apply (wp_data_select (fun i => DataINEndpoint (Config i)) NI _ _ s); [done|done|done|]. intros w1 S1 Hs1.
  set (s1 := selecting NI s) in *. apply wp_bind, (wp_wait_served p NI NO size _ s1); [done|by left|lia|]. intros w2 S2 Hs2.
  rewrite bool_decide_true by done. cbn [negb]. change (sizeof RNDIS_Packet_Message_t) with (Z.of_nat 44).
  assert (forall Q s w, served s (hist w) -> p_sel s = NI -> (forall w', st w' = st w -> served s (hist w') -> Q tt w') -> wp False task Q p w) as Htask.
  { intros Q' s' w' Hs' Hsel' HQ'. apply (wp_task_served p NI NO size _ _ s'); [done|by rewrite Hsel'|done]. }
  apply wp_bind, (wp_stream_write p NI NO size Hsize task Htask ltac:(lia) _ 44 s1); [done|done|apply pack_u8|by rewrite pack_length|lia|lia|].
  intros x w3 S3 Hs3 _. rewrite take_ge in Hs3 by (by rewrite pack_length).
  apply wp_bind, (wp_stream_write p NI NO size Hsize task Htask ltac:(lia) frame (length frame) _ _ _ Hs3); [by rewrite put_all_sel|done|lia|lia|lia|].
  intros x' w4 S4 Hs4 _. rewrite firstn_all in Hs4. unfold put_all in Hs4. rewrite <- foldl_app in Hs4.
  change (foldl _ s1 _) with (put_all size (packet_bytes frame) s1) in Hs4.
  apply wp_bind, (wp_hand_in p NI NO size _ _ _ _ Hs4); [by rewrite put_all_sel|]. intros w5 S5 Hs5. apply wp_ret.
  destruct (submit_cut size Hsize (packet_bytes frame) s1 Ho) as (ds & Hcut & E).
  rewrite E in Hs5. apply (HQ ds); [congruence|done|done].
Qed.

Lemma wp_task_out Q s w : 0 <= NO < 16 -> served s (hist w) -> p_sel s = NO ->
  (forall w', st w' = st w -> served s (hist w') -> Q tt w') -> wp False task Q p w.
Proof. intros HNO Hs Hsel HQ. apply (wp_task_served p NI NO size _ _ s); [done|by rewrite Hsel|done]. Qed.

(** The header is read, whatever packets of the endpoint it spans. *)
Lemma wp_packet_head {A} (k : RNDIS_Packet_Message_t -> M G A) (no no' : A) ps rest h s Q w : rndis_open (st w) -> served s (hist w) ->
  p_waiting s = ps ++ rest -> Forall (fun q => q <> []) ps -> (44 <= length (concat ps))%nat ->
  unpack (take 44 (concat ps)) = Some h -> length (uninitialised 44) = 44%nat -> (89 < fuel p)%nat ->
  (forall w' q qs, st w' = st w -> q ++ concat qs = drop 44 (concat ps) -> Forall (fun q => q <> []) qs ->
     served (Port NO (p_sent s) (p_open s) ((q :: qs) ++ rest)) (hist w') -> wp False (k h) Q p w') ->
  wp False (ok <- data_ready;; if negb ok then ret no else
    i <- get_rndis;; Endpoint_SelectEndpoint (Entry_Address (DataOUTEndpoint (Config i)));;;
    out <- Endpoint_IsOUTReceived;; if negb out then ret no' else
    x <- Endpoint_Read_Stream_LE task (uninitialised 44) (sizeof RNDIS_Packet_Message_t) None;;
    let '(_, (header, _), _) := x in header <- mlift (unpack header);; k header) Q p w.
Proof.
  intros Hopen Hs Hw Hnn Hlong Hh Hun Hf HQ. pose proof Hopen as (_ & _ & Hout). destruct (small_number _ _ Hout) as [HNO _].
  apply (wp_data_select (fun i => DataOUTEndpoint (Config i)) NO _ _ s); [done|done|done|]. intros w1 S1 Hs1.
  set (s1 := selecting NO s) in *. assert (p_waiting s1 = ps ++ rest) as Hw1 by done. destruct ps as [|q0 qs0]; [cbn in Hlong; lia|].
  apply wp_bind, (wp_out p NI NO size _ s1); [done|done|]. intros w2 S2 Hs2. rewrite Hw1, bool_decide_true by done. cbn [negb].
  change (sizeof RNDIS_Packet_Message_t) with (Z.of_nat 44). apply Forall_cons_iff in Hnn as [_ Hnn]. cbn [concat] in *.
  apply wp_bind, (wp_stream_read_across p NI NO size Hne task (fun Q s w => wp_task_out Q s w HNO) _ 44 q0 qs0 rest s1);
    [done|done|done|done|done|by rewrite Hun|lia|lia|].
  intros [[c [hd ptr]] bp] w3 q qs S3 Hcat Hqs Hs3 _ Hhd. cbn [fst snd] in Hhd.
  assert (hd = take 44 (q0 ++ concat qs0)) as -> by (rewrite Hhd; unfold filled; rewrite drop_ge by (rewrite length_take; lia); apply app_nil_r).
  apply wp_bind, (wp_lift _ _ _ _ _ _ Hh). by apply (HQ w3 q qs); [congruence| | |].
Qed.

(** The frame behind the header is stored, and the last packet is released. *)
Lemma wp_take_packet Buffer L0 ps rest h data s Q w : rndis_open (st w) -> served s (hist w) ->
  p_waiting s = ps ++ rest -> Forall (fun q => q <> []) ps -> (44 <= length (concat ps))%nat ->
  unpack (take 44 (concat ps)) = Some h -> drop 44 (concat ps) = data -> PM_DataLength h = Z.of_nat (length data) ->
  (length data <= 1500)%nat -> (length data <= length Buffer)%nat -> length (uninitialised 44) = 44%nat -> (3001 < fuel p)%nat ->
  (forall w', st w' = st w -> served (Port NO (p_sent s) (p_open s) rest) (hist w') -> Q (0, filled Buffer data, Z.of_nat (length data)) w') ->
  wp False (RNDIS_Device_ReadPacket task uninitialised Buffer L0) Q p w.
Proof.
  intros Hopen Hs Hw Hnn Hlong Hh Hd Hn Hfit Hbuf Hun Hf HQ. pose proof Hopen as (_ & _ & Hout). destruct (small_number _ _ Hout) as [HNO _].
  unfold RNDIS_Device_ReadPacket. eapply wp_packet_head; [done|exact Hs|exact Hw|done|done|exact Hh|done|lia|].
  intros w1 q qs S1 Hcat Hqs Hs1. unfold ETHERNET_FRAME_SIZE_MAX. rewrite Hd in Hcat. rewrite Hn, (proj2 (Z.ltb_ge _ _)) by lia.
  cbv zeta. rewrite u16_small by (unfold is_u16; lia).
  apply wp_bind, (wp_stream_read_across p NI NO size Hne task (fun Q s w => wp_task_out Q s w HNO) Buffer (length data) q qs rest _ _ _ Hs1);
    [done|done|done|by rewrite Hcat|done|lia|lia|].
  intros [[c [frame ptr]] bp] w2 q' qs' S2 Hcat2 Hqs2 Hs2 _ Hfr. cbn [fst snd] in Hfr. rewrite Hcat in *. rewrite drop_all in Hcat2. rewrite firstn_all in Hfr.
  apply app_eq_nil in Hcat2 as [-> Hnil]. assert (qs' = []) as -> by (destruct Hqs2 as [|x l Hx _]; [done|]; by destruct x).
  apply wp_bind, (wp_hand_out p NI NO size Hne _ _ _ _ Hs2); [done|]. intros w3 S3 Hs3. apply wp_ret. rewrite Hfr. apply HQ; [congruence|exact Hs3].
Qed.

(** A header that announces more than a frame: the endpoint is stalled. *)
Lemma wp_refuse_packet Buffer L0 ps rest h s Q w : rndis_open (st w) -> served s (hist w) ->
  p_waiting s = ps ++ rest -> Forall (fun q => q <> []) ps -> (44 <= length (concat ps))%nat ->
  unpack (take 44 (concat ps)) = Some h -> 1500 < PM_DataLength h -> length (uninitialised 44) = 44%nat -> (89 < fuel p)%nat ->
  (forall v h' w', st w' = st w -> hist w' = Wr UECONX v :: h' -> bit_tst v STALLRQ = true -> p_sel (replay NI NO size h') = NO ->
     handed NI NO size h' = p_sent s -> Q (RNDIS_ERROR_LOGICAL_CMD_FAILED, Buffer, 0) w') ->
  wp False (RNDIS_Device_ReadPacket task uninitialised Buffer L0) Q p w.
Proof.
  intros Hopen Hs Hw Hnn Hlong Hh Hbig Hun Hf HQ. unfold RNDIS_Device_ReadPacket. eapply wp_packet_head; [done|exact Hs|exact Hw|done|done|exact Hh|done|done|].
  intros w1 q qs S1 _ _ Hs1. unfold ETHERNET_FRAME_SIZE_MAX. rewrite (proj2 (Z.ltb_lt _ _)) by lia.
  apply wp_bind. unfold Endpoint_StallTransaction. apply wp_reg_or. intros u _. apply wp_ret.
  pose proof (served_step p NI NO size (Rd UECONX u) _ _ Hs1) as [(E1 & E2 & _) _]. cbn [on_event p_sel p_sent] in E1, E2.
  eapply HQ; [exact S1|reflexivity|apply ueconx_set, ueconx_bit|by symmetry|by symmetry].
Qed.

(** C28: an Ethernet frame crosses the adapter unchanged.  The device is configured,
    the adapter initialised for data, and the host takes the packets of the one data
    endpoint and has sent the ones that wait on the other; banks have any size.
    Sending a frame hands over to the host, as the log of register accesses shows
    byte by byte, packets that hold exactly the header of 44 bytes and the frame,
    and leaves the bank empty.  Reading, when the bytes that wait are those of one
    such message in packets of whatever sizes, stores exactly that frame at the
    start of the buffer, leaves the rest of the buffer alone, reports its length
    and releases all its packets, and no packet behind them.  A header that
    announces more than 1500 bytes is refused: the endpoint is stalled by the last
    access, the error is returned, and the buffer is not touched.  Both functions
    end. *)
Theorem rndis_packet_roundtrip frame (Buffer : list Z) (L0 : Z) s w :
  rndis_open (st w) -> served s (hist w) -> p_open s = [] -> Forall is_u8 frame -> (length frame <= 1500)%nat ->
  (length frame <= length Buffer)%nat -> length (uninitialised 44) = 44%nat -> (3089 < fuel p)%nat ->
  wp False (RNDIS_Device_SendPacket task frame (Z.of_nat (length frame))) (fun c w' => c = 0 /\ st w' = st w /\ exists ds,
    cut size (packet_bytes frame) ds /\ handed NI NO size (hist w') = handed NI NO size (hist w) ++ ds /\
    served (Port NI (p_sent s ++ ds) [] (p_waiting s)) (hist w')) p w /\
  forall ps rest, p_waiting s = ps ++ rest -> Forall (fun q => q <> []) ps ->
  (concat ps = packet_bytes frame ->
   wp False (RNDIS_Device_ReadPacket task uninitialised Buffer L0) (fun x w' => st w' = st w /\
     x = (0, frame ++ drop (length frame) Buffer, Z.of_nat (length frame)) /\ served (Port NO (p_sent s) [] rest) (hist w')) p w) /\
  (forall h, (44 <= length (concat ps))%nat -> unpack (take 44 (concat ps)) = Some h -> 1500 < PM_DataLength h ->
   wp False (RNDIS_Device_ReadPacket task uninitialised Buffer L0) (fun x w' => st w' = st w /\
     x = (RNDIS_ERROR_LOGICAL_CMD_FAILED, Buffer, 0) /\ exists v h', hist w' = Wr UECONX v :: h' /\ bit_tst v STALLRQ = true /\
     p_sel (replay NI NO size h') = NO /\ handed NI NO size h' = handed NI NO size (hist w)) p w).
Proof.
  intros Hopen Hs Ho Hu Hfl Hbuf Hun Hf. pose proof (served_handed p NI NO size s _ Hs) as Hh0. split.
  - apply (wp_send_packet frame s); [done|done|done|done|lia|lia|]. intros ds w' S' Hcut Hs'. split; [done|]. split; [done|]. exists ds.
    split; [done|]. split; [|done]. by rewrite (served_handed p NI NO size _ _ Hs'), Hh0.
  - intros ps rest Hw Hnn. split.
    + intros Hps. assert (length (pack (packet_header (Z.of_nat (length frame)))) = 44%nat) as H44 by (by rewrite pack_length).
      apply (wp_take_packet Buffer L0 ps rest (packet_header (Z.of_nat (length frame))) frame s); try done; rewrite ?Hps; unfold packet_bytes.
      * rewrite length_app. lia.
      * rewrite take_app_length' by done. apply unpack_header. unfold is_u16. lia.
      * by rewrite drop_app_length' by done.
      * lia.
      * intros w' S' Hs'. rewrite Ho in Hs'. done.
    + intros h Hlong Hh Hbig. apply (wp_refuse_packet Buffer L0 ps rest h s); try done; [lia|].
      intros v h' w' S' Hw' Hv Hsel Hsent. split; [done|]. split; [done|]. exists v, h'. by rewrite Hh0.
Qed.
End Packets.

(** ** Concrete runs *)

Section Runs.
#[local] Instance rndis_chip : Avr := datasheet USB_SERIES_2_AVR.
#[local] Instance rndis_chip_ok : AvrOk := datasheet_ok USB_SERIES_2_AVR.

(** A program with one network interface. *)
Record rndis_program := RndisProgram { rp_usb : usb_globals; rp_rndis : info }.
#[local] Instance rndis_program_usb : UsbState rndis_program :=
  {| usb := rp_usb; put_usb u g := RndisProgram u (rp_rndis g) |}.
#[local] Instance rndis_program_usb_ok : UsbStateOk rndis_program.
Proof. split; [done|done|]. by intros []. Qed.
#[local] Instance rndis_program_rndis : RndisDevice rndis_program :=
  {| rndis := rp_rndis; put_rndis i g := RndisProgram (rp_usb g) i |}.
#[local] Instance rndis_program_rndis_ok : RndisDeviceOk rndis_program.
Proof. split; [done|done|done|]. by intros []. Qed.

(** A request has been copied from its packet. *)
Definition asked_of (r : USB_Request_Header_t) (i : info) : world rndis_program :=
  World (RndisProgram (UsbGlobals r 1 false false) i) [].

(** INITIALIZE, and its response. *)
Lemma rndis_dialogue_witness :
  let w := asked_of (Request 0x21 0 0 0 24) (card []) in
  wp False RNDIS_Device_ProcessControlRequest (fun _ w1 =>
    CurrRNDISState (State (rndis (st w1))) = RNDIS_Initialized /\
    wp False RNDIS_Device_ProcessControlRequest (fun _ w3 => exists ws b3,
      answer_writes (pack (IC REMOTE_NDIS_INITIALIZE_CMPLT 52 7 REMOTE_NDIS_STATUS_SUCCESS REMOTE_NDIS_VERSION_MAJOR REMOTE_NDIS_VERSION_MINOR
        REMOTE_NDIS_DF_CONNECTIONLESS REMOTE_NDIS_MEDIUM_802_3 1 (44 + ETHERNET_FRAME_SIZE_MAX) 0 0 0)) ws /\
      MessageBuffer (Config (rndis (st w3))) = Some b3 /\ get32 b3 MessageLength_at = Some 0)
      (setup_bus (Request 0 0 0 0 0) (fun h => match after_ack h with
        | Some l => host_done 0x1000 (fst (packets l)) | None => false end) 300) (asked_of (Request 0xA1 1 0 0 0x1000) (rndis (st w1))))
    (command_bus initialize_message 100) w.
Proof.
  intros w. eapply wp_mono.
  - refine (rndis_dialogue (command_bus initialize_message 100) initialize_message (replicate 132 0) (NInitialize 7) 0 w
      _ eq_refl (card_sized [] eq_refl eq_refl) _ _ eq_refl (command_bus_commands initialize_message 100 eq_refl) _).
    + split; [reflexivity|]. apply command_bus_setup.
    + cbn. lia.
    + by apply (bool_decide_unpack _).
    + cbn. lia.
  - intros [] w1 (ws & _ & _ & [S1 _] & Hnext). split; [by rewrite S1|]. eapply wp_mono.
    + eapply (Hnext _ _ eq_refl _ 0 0x1000); [reflexivity|unfold is_u16; lia|split; [by rewrite S1|apply bus_one_setup]|apply bus_host| |cbn; lia].
      intros h Hh. cbn [setup_bus respond]. split; [|done]. apply u8_small. unfold is_u8. lia.
    + intros [] w3 (ws' & b3 & Hws & [S3 _] & Hg). exists ws', b3. split; [exact Hws|]. by rewrite S3.
Defined.

#[local] Instance rndis_program_app : UsbApplication rndis_program := {|
  EVENT_USB_Device_ControlRequest := RNDIS_Device_ProcessControlRequest;
  EVENT_USB_Device_ConfigurationChanged := RNDIS_Device_ConfigureEndpoints;;; ret tt;
  EVENT_USB_Device_Connect := ret tt; EVENT_USB_Device_Disconnect := ret tt; EVENT_USB_Device_Reset := ret tt;
  EVENT_USB_Device_Suspend := ret tt; EVENT_USB_Device_WakeUp := ret tt; EVENT_USB_Device_StartOfFrame := ret tt;
  GetDescriptor _ _ := ([], 0)
|}.
Definition online : info := RndisInfo (Config (card [])) (RndisState false RNDIS_Data_Initialized 13).
Definition online_world : world rndis_program := asked_of (Request 0 0 0 0 0) online.

(** A frame of three bytes behind its header, in packets of 40 and 7 bytes, and a
    header that announces 1501 bytes. *)
Definition frame_packets : list (list Z) := [take 40 (packet_bytes [1; 2; 3]); drop 40 (packet_bytes [1; 2; 3])].
Definition too_long : list (list Z) := [pack (packet_header 1501)].

Lemma rndis_packet_roundtrip_witness :
  let arrives := port_bus 1 2 64 (Port 0 [] [] frame_packets) (Z.to_nat 3100) in let breaks := port_bus 1 2 64 (Port 0 [] [] too_long) (Z.to_nat 3100) in
  let buffer := replicate (Z.to_nat 1500) 0 in let stack n := replicate n 0xAA in let task := USB_USBTask (fun _ => 0) in
  wp False (RNDIS_Device_SendPacket task [1; 2; 3] 3) (fun c w1 => c = 0 /\ concat (handed 1 2 64 (hist w1)) = packet_bytes [1; 2; 3]) arrives online_world /\
  wp False (RNDIS_Device_ReadPacket task stack buffer 0) (fun x w1 => x = (0, [1; 2; 3] ++ drop 3 buffer, 3)) arrives online_world /\
  wp False (RNDIS_Device_ReadPacket task stack buffer 0) (fun x w1 => x = (RNDIS_ERROR_LOGICAL_CMD_FAILED, buffer, 0)) breaks online_world.
Proof.
  intros arrives breaks buffer stack task.
  assert (rndis_open 1 2 (st online_world)) as Hopen by (by split).
  assert (Forall is_u8 [1; 2; 3]) as Hu by (by apply (bool_decide_unpack _)).
  assert (port_sound 64 (Port 0 [] [] frame_packets)) as Hfine by (apply (bool_decide_unpack _); vm_compute; exact I).
  assert (port_sound 64 (Port 0 [] [] too_long)) as Hlong by (apply (bool_decide_unpack _); vm_compute; exact I).
  assert ((3 <= length buffer)%nat) as Hb by (unfold buffer; rewrite length_replicate; lia).
  refine (_ (rndis_packet_roundtrip arrives 1 2 64 (fun _ => 0) stack _ _ [1; 2; 3] buffer 0 (Port 0 [] [] frame_packets) online_world
              Hopen (port_bus_served 1 2 64 _ _ _ _ Hfine) eq_refl Hu _ Hb eq_refl _)
            (rndis_packet_roundtrip breaks 1 2 64 (fun _ => 0) stack _ _ [1; 2; 3] buffer 0 (Port 0 [] [] too_long) online_world
              Hopen (port_bus_served 1 2 64 _ _ _ _ Hlong) eq_refl Hu _ Hb eq_refl _)); try (cbn; lia).
  intros [Hsend Hread] [_ Hrefuse]. split_and!.
  - eapply wp_mono; [exact Hsend|]. intros c w1 (-> & _ & ds & [Hcat _] & Hh & _). split; [done|]. exact (eq_trans (f_equal (@concat Z) Hh) Hcat).
  - destruct (Hread frame_packets [] (eq_sym (app_nil_r _))) as [Htake _]; [apply (bool_decide_unpack _); vm_compute; exact I|].
    assert (concat frame_packets = packet_bytes [1; 2; 3]) as Hcat by (vm_compute; reflexivity). eapply wp_mono; [exact (Htake Hcat)|]. by intros x w1 (_ & -> & _).
  - destruct (Hrefuse too_long [] (eq_sym (app_nil_r _))) as [_ Hno]; [apply (bool_decide_unpack _); vm_compute; exact I|].
    eapply wp_mono; [refine (Hno (packet_header 1501) _ _ _); [vm_compute; lia|vm_compute; reflexivity|cbn; lia]|]. by intros x w1 (_ & -> & _).
Defined.

(** Runs: what the driver does not check.  A command longer than the message buffer
    is stored past its end.  A message of an unknown type is left in the buffer
    with the length it claims, and the next request for a response sends that
    many bytes, past the end of the buffer.  A SET message of the packet filter
    may place its information anywhere, and the driver reads it outside the
    buffer. *)
Theorem rndis_host_overruns :
  RNDIS_Device_ProcessControlRequest (command_bus (replicate 133 0) 300) (asked_of (Request 0x21 0 0 0 133) (card [])) = Fault /\
  (let msg := pack (MH 99 133) in exists w1,
   RNDIS_Device_ProcessControlRequest (command_bus msg 300) (asked_of (Request 0x21 0 0 0 8) (card [])) = Done tt w1 /\
   rndis (st w1) = card msg /\
   RNDIS_Device_ProcessControlRequest (setup_bus (Request 0 0 0 0 0) (fun _ => false) 300)
     (asked_of (Request 0xA1 1 0 0 0x1000) (rndis (st w1))) = Fault) /\
  (let msg := pack (SM REMOTE_NDIS_SET_MSG 28 1 OID_GEN_CURRENT_PACKET_FILTER 4 0x7000 0) in
   RNDIS_Device_ProcessControlRequest (command_bus msg 300) (asked_of (Request 0x21 0 0 0 28) (card [])) = Fault).
Proof.
  split; [vm_compute; reflexivity|]. split; [|vm_compute; reflexivity].
  intros msg. eexists. split; [vm_compute; reflexivity|]. split; vm_compute; reflexivity.
Qed.
End Runs.
