(* ===== verification/CDCClassDevice.v ===== *)
(** * The CDC class driver for devices (LUFA CDCClassDevice.c)

    The virtual serial port: its line settings, set and read by the host over
    the control endpoint, its byte functions ([BulkPort]), the notification of
    the control lines and the character stream functions. *)

From S2P Require Import Prelude StdDescriptors HIDClass Descriptors Machine UsbCore Endpoint EndpointStream DeviceStandardReq StreamTransfers BulkPort.

Definition CDC_REQ_SetLineEncoding : Z := 0x20.
Definition CDC_REQ_GetLineEncoding : Z := 0x21.
Definition CDC_REQ_SetControlLineState : Z := 0x22.
Definition CDC_REQ_SendBreak : Z := 0x23.
Definition CDC_NOTIF_SerialState : Z := 0x20.

Record CDC_LineEncoding_t := LineEncodingOf { BaudRateBPS : Z; CharFormat : Z; ParityType : Z; DataBits : Z }.
#[export] Instance line_encoding_packed : Packed CDC_LineEncoding_t := {|
  widths := [4; 1; 1; 1]%nat;
  fields r := [BaudRateBPS r; CharFormat r; ParityType r; DataBits r];
  of_fields vs := match vs with [a; b; c; d] => Some (LineEncodingOf a b c d) | _ => None end
|}.
#[export] Instance line_encoding_packed_ok : PackedOk CDC_LineEncoding_t.
Proof. packed_ok. Qed.

Record cdc_config := CdcConfig {
  ControlInterfaceNumber : Z;
  DataINEndpoint : USB_Endpoint_Table_t;
  DataOUTEndpoint : USB_Endpoint_Table_t;
  NotificationEndpoint : USB_Endpoint_Table_t
}.
(** [HostToDevice] and [DeviceToHost] are the members of [ControlLineStates]. *)
Record cdc_state := CdcState { HostToDevice : Z; DeviceToHost : Z; LineEncoding : CDC_LineEncoding_t }.
Record USB_ClassInfo_CDC_Device_t := CdcInfo { Config : cdc_config; State : cdc_state }.

Definition set_encoding (e : CDC_LineEncoding_t) (i : USB_ClassInfo_CDC_Device_t) : USB_ClassInfo_CDC_Device_t :=
  CdcInfo (Config i) (CdcState (HostToDevice (State i)) (DeviceToHost (State i)) e).
Definition set_host_lines (v : Z) (i : USB_ClassInfo_CDC_Device_t) : USB_ClassInfo_CDC_Device_t :=
  CdcInfo (Config i) (CdcState v (DeviceToHost (State i)) (LineEncoding (State i))).

Class CdcDevice (G : Type) := {
  cdc : G -> USB_ClassInfo_CDC_Device_t;
  put_cdc : USB_ClassInfo_CDC_Device_t -> G -> G
}.
Class CdcDeviceOk (G : Type) `{UsbState G} `{CdcDevice G} : Prop := {
  cdc_put i g : cdc (put_cdc i g) = i;
  put_cdc_put i i' g : put_cdc i (put_cdc i' g) = put_cdc i g;
  usb_put_cdc i g : usb (put_cdc i g) = usb g
}.

Section Driver.
Context {G : Type} `{UsbState G} `{CdcDevice G} `{Avr}.
Variable USB_USBTask : M G unit.
(** The events of the application; an empty function where it defines none. *)
Variables EVENT_CDC_Device_LineEncodingChanged EVENT_CDC_Device_ControLineStateChanged : M G unit.
Variable EVENT_CDC_Device_BreakSent : Z -> M G unit.
(** The results of the character functions in the C library. *)
Variables FDEV_ERR FDEV_EOF : Z.

Definition get_cdc : M G USB_ClassInfo_CDC_Device_t := g <- mget;; ret (cdc g).
Definition mod_cdc (f : USB_ClassInfo_CDC_Device_t -> USB_ClassInfo_CDC_Device_t) : M G unit :=
  mmodify (fun g => put_cdc (f (cdc g)) g).

(** ** Control requests *)

Definition get_line_encoding : M G unit :=
  Endpoint_ClearSETUP;;;
  await_in;;;
  i <- get_cdc;;
  let e := LineEncoding (State i) in
  (Endpoint_Write_32_LE (BaudRateBPS e);;;
   Endpoint_Write_8 (CharFormat e);;;
   Endpoint_Write_8 (ParityType e);;;
   Endpoint_Write_8 (DataBits e));;;
  Endpoint_ClearIN;;;
  Endpoint_ClearStatusStage.

(** The members are stored as they are read. *)
Definition read_line_encoding : M G unit :=
  let member f := i <- get_cdc;; mod_cdc (set_encoding (f (LineEncoding (State i)))) in
  v <- Endpoint_Read_32_LE;;
  member (fun e => LineEncodingOf v (CharFormat e) (ParityType e) (DataBits e));;;
  v <- Endpoint_Read_8;;
  member (fun e => LineEncodingOf (BaudRateBPS e) v (ParityType e) (DataBits e));;;
  v <- Endpoint_Read_8;;
  member (fun e => LineEncodingOf (BaudRateBPS e) (CharFormat e) v (DataBits e));;;
  v <- Endpoint_Read_8;;
  member (fun e => LineEncodingOf (BaudRateBPS e) (CharFormat e) (ParityType e) v).

Definition set_line_encoding : M G unit :=
  Endpoint_ClearSETUP;;;
  status_wait Endpoint_IsOUTReceived (
    read_line_encoding;;;
    Endpoint_ClearOUT;;;
    Endpoint_ClearStatusStage;;;
    EVENT_CDC_Device_LineEncodingChanged).

Definition CDC_Device_ProcessControlRequest : M G unit :=
  setup <- Endpoint_IsSETUPReceived;;
  if negb setup then ret tt else
  r <- get_request;;
  i <- get_cdc;;
  if negb (wIndex r =? ControlInterfaceNumber (Config i)) then ret tt else
  let out := bmRequestType r =? reqtype REQDIR_HOSTTODEVICE REQTYPE_CLASS REQREC_INTERFACE in
  if bRequest r =? CDC_REQ_GetLineEncoding then
    when (bmRequestType r =? reqtype REQDIR_DEVICETOHOST REQTYPE_CLASS REQREC_INTERFACE) get_line_encoding
  else if bRequest r =? CDC_REQ_SetLineEncoding then when out set_line_encoding
  else if bRequest r =? CDC_REQ_SetControlLineState then
    when out (
      Endpoint_ClearSETUP;;;
      Endpoint_ClearStatusStage;;;
      r <- get_request;;
      mod_cdc (set_host_lines (wValue r));;;
      EVENT_CDC_Device_ControLineStateChanged)
  else if bRequest r =? CDC_REQ_SendBreak then
    when out (
      Endpoint_ClearSETUP;;;
      Endpoint_ClearStatusStage;;;
      r <- get_request;;
      EVENT_CDC_Device_BreakSent (u8 (wValue r)))
  else ret tt.

(** ** Configuration *)

Definition cdc_types (i : USB_ClassInfo_CDC_Device_t) : USB_ClassInfo_CDC_Device_t :=
  let c := Config i in
  CdcInfo (CdcConfig (ControlInterfaceNumber c) (of_type EP_TYPE_BULK (DataINEndpoint c))
    (of_type EP_TYPE_BULK (DataOUTEndpoint c)) (of_type EP_TYPE_INTERRUPT (NotificationEndpoint c)))
    (CdcState 0 0 (LineEncodingOf 0 0 0 0)).

Definition CDC_Device_ConfigureEndpoints : M G bool :=
  mod_cdc cdc_types;;;
  i <- get_cdc;;
  ok <- Endpoint_ConfigureEndpointTable [DataINEndpoint (Config i)];;
  if negb ok then ret false else
  ok <- Endpoint_ConfigureEndpointTable [DataOUTEndpoint (Config i)];;
  if negb ok then ret false else
  Endpoint_ConfigureEndpointTable [NotificationEndpoint (Config i)].

(** ** The byte functions *)

(** [(USB_DeviceState == DEVICE_STATE_Configured) && LineEncoding.BaudRateBPS] *)
Definition cdc_ready : M G bool :=
  configured <- is_DeviceState DEVICE_STATE_Configured;;
  if negb configured then ret false else
  i <- get_cdc;;
  ret (negb (BaudRateBPS (LineEncoding (State i)) =? 0)).
Definition cdc_in (g : G) : Z := Entry_Address (DataINEndpoint (Config (cdc g))).
Definition cdc_out (g : G) : Z := Entry_Address (DataOUTEndpoint (Config (cdc g))).

Definition CDC_Device_USBTask : M G unit := port_USBTask cdc_ready cdc_in.
Definition CDC_Device_SendString : list Z -> M G Z := port_SendString cdc_ready cdc_in USB_USBTask.
Definition CDC_Device_SendString_P : list Z -> M G Z := port_SendString cdc_ready cdc_in USB_USBTask.
Definition CDC_Device_SendData : list Z -> Z -> M G Z := port_SendData cdc_ready cdc_in USB_USBTask.
Definition CDC_Device_SendData_P : list Z -> Z -> M G Z := port_SendData cdc_ready cdc_in USB_USBTask.
Definition CDC_Device_SendByte : Z -> M G Z := port_SendByte cdc_ready cdc_in.
Definition CDC_Device_Flush : M G Z := port_Flush cdc_ready cdc_in.
Definition CDC_Device_BytesReceived : M G Z := port_BytesReceived cdc_ready cdc_out.
Definition CDC_Device_ReceiveByte : M G Z := port_ReceiveByte cdc_ready cdc_out.

Definition serial_state : USB_Request_Header_t :=
  Request (reqtype REQDIR_DEVICETOHOST REQTYPE_CLASS REQREC_INTERFACE) CDC_NOTIF_SerialState 0 0 2.

Definition CDC_Device_SendControlLineStateChange : M G unit :=
  ok <- cdc_ready;;
  if negb ok then ret tt else
  i <- get_cdc;;
  Endpoint_SelectEndpoint (Entry_Address (NotificationEndpoint (Config i)));;;
  Endpoint_Write_Stream_LE USB_USBTask (pack serial_state) (sizeof USB_Request_Header_t) None;;;
  i <- get_cdc;;
  Endpoint_Write_Stream_LE USB_USBTask (le_bytes 2 (DeviceToHost (State i))) 2 None;;;
  Endpoint_ClearIN.

(** ** Character streams *)

Definition CDC_Device_putchar (c : Z) : M G Z :=
  r <- CDC_Device_SendByte (u8 c);; ret (if r =? 0 then 0 else FDEV_ERR).
Definition CDC_Device_getchar : M G Z :=
  ReceivedByte <- CDC_Device_ReceiveByte;; ret (if ReceivedByte <? 0 then FDEV_EOF else ReceivedByte).
Definition CDC_Device_getchar_Blocking : M G Z :=
  while_ (fun _ : unit =>
    ReceivedByte <- CDC_Device_ReceiveByte;;
    if negb (ReceivedByte <? 0) then ret (inr ReceivedByte) else
    u <- is_DeviceState DEVICE_STATE_Unattached;;
    if u then ret (inr FDEV_EOF) else
    CDC_Device_USBTask;;;
    USB_USBTask;;;
    ret (inl tt)) tt.
End Driver.

(** ** The serial port *)

Section SerialPort.
Context {G : Type} `{UsbStateOk G} `{!CdcDevice G} `{!CdcDeviceOk G} `{AvrOk} `{!UsbApplication G} (p : platform).
Variable boot_signature_byte_get : Z -> Z.
Variables (NI NO : Z) (size : nat).
Implicit Types w : world G.

(** A call of a function of the driver, with the stack's own task. *)
Definition cdc_call (o : port_op) : M G Z :=
  let task := USB_USBTask boot_signature_byte_get in
  match o with
  | OSendByte b => CDC_Device_SendByte b
  | OSendData bs => CDC_Device_SendData task bs (Z.of_nat (length bs))
  | OSendString bs => CDC_Device_SendString task bs
  | OFlush => CDC_Device_Flush
  | OTask => CDC_Device_USBTask;;; ret 0
  | OBytesReceived => CDC_Device_BytesReceived
  | OReceiveByte => CDC_Device_ReceiveByte
  end.

(** The line settings were set, and the data endpoints are [NI] and [NO]. *)
Definition cdc_open (g : G) : Prop :=
  BaudRateBPS (LineEncoding (State (cdc g))) <> 0 /\ Z.land (cdc_in g) ENDPOINT_EPNUM_MASK = NI /\
  Z.land (cdc_out g) ENDPOINT_EPNUM_MASK = NO.

Lemma wp_cdc_ready Q s w : cdc_open (st w) -> served NI NO size p s (hist w) ->
  (forall w', st w' = st w -> served NI NO size p s (hist w') -> Q true w') -> wp False cdc_ready Q p w.
Proof.
  intros [Hb _] Hs HQ. unfold cdc_ready, is_DeviceState. apply wp_bind, wp_bind, (wp_look p NI NO size _ _ s); [done|done|]. intros w1 S1 Hs1.
  apply wp_ret. destruct (served_now p NI NO size _ _ Hs) as (-> & _). rewrite Z.eqb_refl. cbn [negb].
  unfold get_cdc. apply wp_bind, wp_bind, wp_get, wp_ret, wp_ret. rewrite S1, (proj2 (Z.eqb_neq _ 0) Hb). by apply HQ.
Qed.

(** What the bytes of the operations need. *)
Definition op_fits (o : port_op) : Prop :=
  Forall is_u8 (op_bytes o) /\ Z.of_nat (length (op_bytes o)) < 65536 /\ (2 * length (op_bytes o) + 1 < fuel p)%nat.

(** C29: the virtual serial port is a pair of byte streams.  Whatever sequence of
    the driver's byte functions the application calls, while the host collects
    its packets and the banks have any size, every call returns what the
    machine [port_run] returns and leaves the endpoints as the machine does; no
    call fails.  The packets of the machine are those the log of register
    accesses shows to be handed over, byte by byte; the bytes handed over and
    still in the bank are exactly those sent so far, in order, and the bytes returned to the application, followed
    by those that wait, are exactly those the host sent: none is lost,
    repeated or reordered, and empty packets are skipped. *)
Theorem cdc_port_refines os s w : (1 <= size)%nat -> NI <> NO -> cdc_open (st w) -> served NI NO size p s (hist w) ->
  Forall (Forall is_u8) (p_waiting s) -> Forall op_fits os -> (1 < fuel p)%nat ->
  wp False (in_turn cdc_call os) (fun rs w' => st w' = st w /\ exists s', port_run NI NO size os s = (rs, s') /\
    served NI NO size p s' (hist w') /\ handed NI NO size (hist w') = p_sent s' /\ p_open (replay NI NO size (hist w')) = p_open s' /\
    stream_of s' = stream_of s ++ concat (op_bytes <$> os) /\
    concat (zip_with op_received os rs) ++ concat (p_waiting s') = concat (p_waiting s)) p w.
Proof.
  intros Hsize Hne Hopen Hs Hu Hos Hf. pose proof (run_conserves NI NO size os s Hu) as Hc. pose proof Hopen as (_ & Hin & Hout).
  eapply wp_mono.
  - apply (wp_port_calls p NI NO size Hne Hsize cdc_ready cdc_in cdc_out (USB_USBTask boot_signature_byte_get) cdc_open) with (s := s);
      [intros; by apply (wp_cdc_ready Q s0)|intros g (_ & Hg & _); by apply small_number|intros g (_ & _ & Hg); by apply small_number| |lia|done|done|exact Hos].
    intros Q s0 w0 Hs0 Hsel HQ. apply (wp_task_served p NI NO size _ _ s0); [done|rewrite Hsel; exact (proj1 (small_number _ _ Hin))|done].
  - intros rs w' [S' Hr]. split; [done|]. destruct (port_run NI NO size os s) as [rs' s']. destruct Hr as [-> Hs']. exists s'.
    pose proof Hs' as [(_ & E2 & E3) _]. destruct Hc as [C1 C2]. split_and!; [done|done|by rewrite E2|by rewrite E3|done|done].
Qed.

(** A blocking read ends with the next byte.  When the host has sent a byte,
    behind any number of empty packets, reading a character from a blocking
    stream returns that byte and leaves the ones behind it, and flushes what
    was to be sent while it waited. *)
Theorem cdc_getchar_blocks_until_byte FDEV_EOF s b rest w : (1 <= size)%nat -> NI <> NO -> cdc_open (st w) ->
  served NI NO size p s (hist w) -> Forall (Forall is_u8) (p_waiting s) -> concat (p_waiting s) = b :: rest ->
  (S (length (p_waiting s)) < fuel p)%nat ->
  wp False (CDC_Device_getchar_Blocking (USB_USBTask boot_signature_byte_get) FDEV_EOF) (fun c w' => c = b /\ st w' = st w /\
    exists s', served NI NO size p s' (hist w') /\ concat (p_waiting s') = rest /\ stream_of s' = stream_of s) p w.
Proof.
  intros Hsize Hne Hopen Hs Hu Hc Hf. pose proof Hopen as (_ & Hin & Hout).
  assert (forall Q s w, cdc_open (st w) -> served NI NO size p s (hist w) ->
    (forall w', st w' = st w -> served NI NO size p s (hist w') -> Q true w') -> wp False cdc_ready Q p w) as Hready by (intros; by apply (wp_cdc_ready Q s0)).
  unfold CDC_Device_getchar_Blocking, while_. apply wp_bind, wp_fuel. set (body := fun _ : unit => _).
  assert (forall n s' w', (length (p_waiting s') < n)%nat -> st w' = st w -> served NI NO size p s' (hist w') ->
    Forall (Forall is_u8) (p_waiting s') -> concat (p_waiting s') = b :: rest -> stream_of s' = stream_of s ->
    wp False (loop n body tt) (fun c w' => c = b /\ st w' = st w /\
      exists s', served NI NO size p s' (hist w') /\ concat (p_waiting s') = rest /\ stream_of s' = stream_of s) p w') as Hloop; [|apply (Hloop _ s); [lia|done..]].
  induction n as [|n IH]; intros s' w' Hn S' Hs' Hu' Hc' Hst'; [lia|]. cbn [loop]. apply wp_bind. unfold body at 1. apply wp_bind.
  apply (wp_port_ReceiveByte p NI NO size Hne Hsize cdc_ready cdc_out cdc_open Hready) with (s := s');
    [intros g (_ & _ & Hg); by apply small_number|lia|by rewrite S'|done|]. intros w1 S1.
  pose proof (take_stream (selecting NO s') Hu') as Ht. unfold take_waiting in *. cbn [selecting p_waiting] in *.
  destruct (p_waiting s') as [|[|c q] ps] eqn:Ew; [done| |].
  - intros Hs1. destruct Ht as [E1 _]. cbn [Z.ltb Z.compare negb].
    apply wp_bind. unfold is_DeviceState. apply wp_bind, (wp_look p NI NO size _ _ (release (selecting NO s'))); [done|done|]. intros w2 S2 Hs2. apply wp_ret.
    destruct (served_now p NI NO size _ _ Hs1) as (-> & _). change (_ =? state_code DEVICE_STATE_Unattached) with false. cbn iota.
    apply wp_bind, (wp_port_USBTask p NI NO size Hsize cdc_ready cdc_in cdc_open Hready) with (s := release (selecting NO s'));
      [intros g (_ & Hg & _); by apply small_number|lia|by rewrite S2, S1, S'|done|]. intros w3 S3 Hs3.
    set (s3 := flush size (selecting NI (release (selecting NO s')))) in *.
    destruct (flush_stream size (selecting NI (release (selecting NO s')))) as [F1 F2]. fold s3 in F1, F2.
    assert (p_waiting s3 = ps) as F3 by (rewrite F2; cbn [selecting release p_waiting]; by rewrite Ew).
    apply wp_bind, (wp_task_served p NI NO size _ _ s3); [done| |].
    { assert (p_sel s3 = NI) as -> by (unfold s3, flush; case_bool_decide; [done|]; by destruct (full _ _)). exact (proj1 (small_number _ _ Hin)). }
    intros w4 S4 Hs4. apply wp_ret. apply (IH s3); [rewrite F3; cbn in Hn; lia|congruence|done| | |].
    + rewrite F3. by apply Forall_cons_iff in Hu' as [_ ?].
    + rewrite F3. exact Hc'.
    + rewrite F1. change (stream_of (selecting NI ?x)) with (stream_of x). rewrite E1. exact Hst'.
  - apply Forall_cons_iff in Hu' as [[Huc _]%Forall_cons_iff _]. unfold is_u8 in Huc.
    cbn [concat app] in Hc'. injection Hc' as -> Hrest.
    destruct q as [|c' q]; intros Hs1; destruct Ht as [E1 E2]; rewrite (proj2 (Z.ltb_ge b 0)) by lia; cbn [negb];
      (apply wp_ret, wp_ret; split; [done|]; split; [congruence|]; eexists; split; [exact Hs1|]);
      cbn [op_received] in E2; rewrite (proj2 (Z.eqb_neq b (-1))) in E2 by lia; cbn [app concat] in E2; injection E2 as E2;
      (split; [etransitivity; [exact E2|exact Hrest]|rewrite E1; exact Hst']).
Qed.
End SerialPort.

(** ** The line settings *)

Section LineSettings.
Context {G : Type} `{UsbStateOk G} `{!CdcDevice G} `{!CdcDeviceOk G} `{AvrOk} (p : platform) (k : nat).
Context (changed lines : M G unit) (break : Z -> M G unit).
Implicit Types w : world G.
Abbreviation requests := (CDC_Device_ProcessControlRequest changed lines break).

Definition cdc_request (bm code v len : Z) w : Prop :=
  USB_ControlRequest (usb (st w)) = Request bm code v (ControlInterfaceNumber (Config (cdc (st w)))) len /\
  one_setup p (hist w).

Lemma wp_get_cdc nf Q w : Q (cdc (st w)) w -> wp nf get_cdc Q p w.
Proof. intros HQ. by apply wp_bind, wp_get, wp_ret. Qed.
Lemma wp_mod_cdc nf f Q w : Q tt (World (put_cdc (f (cdc (st w))) (st w)) (hist w)) -> wp nf (mod_cdc f) Q p w.
Proof. intros HQ. by apply wp_modify. Qed.

(** The settings as bytes. *)
Lemma encoding_bytes e : in_range e ->
  pack e = le_bytes 4 (BaudRateBPS e) ++ [CharFormat e; ParityType e; DataBits e] /\
  of_le_bytes (le_bytes 4 (BaudRateBPS e)) = BaudRateBPS e /\ is_u8 (CharFormat e) /\ is_u8 (ParityType e) /\ is_u8 (DataBits e).
Proof.
  intros He. destruct e as [b c d f]. unfold in_range in He. cbn [widths fields line_encoding_packed] in He.
  inversion_clear He as [|? ? ? ? Hb He1]. inversion_clear He1 as [|? ? ? ? Hc He2]. inversion_clear He2 as [|? ? ? ? Hd He3].
  inversion_clear He3 as [|? ? ? ? Hf _]. change (fits 1) with is_u8 in *. cbn [BaudRateBPS CharFormat ParityType DataBits].
  split_and!; [|by apply of_le_bytes_le|done|done|done].
  unfold pack. cbn [widths fields line_encoding_packed encode BaudRateBPS CharFormat ParityType DataBits]. f_equal.
  cbn [le_bytes app]. by rewrite !u8_small by done.
Qed.

(** After the acknowledgement the host sends [msg]. *)
Definition host_writes (h0 : log) (msg : list Z) : Prop := forall before v v',
  acked (writes before) = false -> bit_tst v' RXSTPI = false -> host_data p (Wr UEINTX v' :: Rd UEINTX v :: before ++ h0) msg.

(** The seven bytes become the settings. *)
Lemma wp_read_encoding nf e Q w : host_data p (hist w) (pack e) -> in_range e ->
  (forall new, Forall is_read new -> Q tt (World (put_cdc (set_encoding e (cdc (st w))) (st w)) (new ++ hist w))) ->
  wp nf read_line_encoding Q p w.
Proof.
  intros Hd He HQ. destruct (encoding_bytes e He) as (Ep & Eb & _). rewrite Ep in Hd. cbn [le_bytes app] in Hd, Eb.
  unfold read_line_encoding, Endpoint_Read_32_LE, Endpoint_Read_8. cbv zeta.
  apply wp_bind, wp_bind, (wp_data_byte _ _ _ _ _ _ Hd). intros w1 S1 H1' D1. apply wp_bind, (wp_data_byte _ _ _ _ _ _ D1). intros w2 S2 H2' D2.
  apply wp_bind, (wp_data_byte _ _ _ _ _ _ D2). intros w3 S3 H3' D3. apply wp_bind, (wp_data_byte _ _ _ _ _ _ D3). intros w4 S4 H4' D4.
  apply wp_ret. rewrite Eb. apply wp_bind, wp_bind, wp_get_cdc, wp_mod_cdc, wp_bind. eapply wp_data_byte; [exact D4|]. cbn [st hist]. intros w5 S5 H5' D5.
  apply wp_bind, wp_bind, wp_get_cdc, wp_mod_cdc, wp_bind. eapply wp_data_byte; [exact D5|]. cbn [st hist]. intros w6 S6 H6' D6.
  apply wp_bind, wp_bind, wp_get_cdc, wp_mod_cdc, wp_bind. eapply wp_data_byte; [exact D6|]. cbn [st hist]. intros w7 S7 H7' D7.
  apply wp_bind, wp_get_cdc, wp_mod_cdc.
  rewrite S7, !cdc_put, S6, !cdc_put, S5, !cdc_put, !put_cdc_put, S4, S3, S2, S1. cbn [set_encoding State LineEncoding BaudRateBPS CharFormat ParityType DataBits].
  rewrite H7', H6', H5', H4', H3', H2', H1'. destruct e as [b c d f]. refine (HQ [_; _; _; _; _; _; _] _). by repeat constructor.
Qed.

Lemma polling_reads h : Forall polling h -> Forall is_read h /\ read_from UEDATX h = [].
Proof.
  induction 1 as [|[r v|r v] h He _ [IH1 IH2]]; [done| |done]. split; [by constructor|]. rewrite read_from_rd_ne; [done|].
  by destruct He as [-> | ->].
Qed.

Lemma wp_set_encoding e v len Q w : cdc_request 0x21 CDC_REQ_SetLineEncoding v len w -> host_writes (hist w) (pack e) -> in_range e ->
  attached p -> polls_end p k False RXOUTI -> polls_end p k False TXINI ->
  (forall w1, accepted (put_cdc (set_encoding e (cdc (st w))) (st w)) w w1 -> wp False changed Q p w1) ->
  wp False requests Q p w.
Proof.
  intros [Hr Hone] Hdata He Hatt Hout Hin HQ. eapply (wp_class_setup p); [exact Hr|done|]. intros w1 D1. pose proof D1 as (S1 & before & Hh1 & Hw1).
  apply wp_bind, wp_get_cdc. rewrite S1. cbn [wIndex bRequest bmRequestType]. rewrite Z.eqb_refl. cbv zeta. cbn [Z.eqb when negb].
  unfold set_line_encoding. apply wp_bind, clear_setup_log. intros u u' Hu'. set (w2 := World (st w1) _).
  assert (hist w2 = Wr UEINTX u' :: Rd UEINTX u :: before ++ hist w) as Hh2 by (unfold w2; cbn [hist]; by rewrite Hh1).
  apply (wp_status_wait p k); [done|done|]. intros h Hp. destruct (polling_reads h Hp) as [Hh Hn].
  apply wp_bind, (wp_read_encoding _ e); [|done|].
  { cbn [hist]. apply host_data_reads; [done|done|]. rewrite Hh2. apply Hdata; [by rewrite Hw1|done]. }
  cbn [st hist]. intros new Hnew. set (w3 := World _ _). assert (did w2 w3 (put_cdc (set_encoding e (cdc (st w))) (st w)) []) as D3.
  { split; [unfold w3, w2; cbn [st]; by rewrite S1|]. exists (new ++ h). cbn [hist w3]. split; [by rewrite app_assoc|].
    rewrite writes_app, !writes_reads by done. done. }
  destruct flag_facts as ((_ & B2 & _ & B4) & _). apply wp_bind, clear_flags_did; [done|done|]. intros x x' w4 _ _ D4.
  assert (st w3 = put_cdc (set_encoding e (cdc (st w))) (st w)) as S3 by apply D3. rewrite S3 in D4. pose proof D4 as [S4 _].
  apply wp_bind, (status_stage_did p k); rewrite S4, usb_put_cdc, Hr; [done|]. intros ss w5 Hss D5. rewrite <- S4 in D5.
  apply HQ. pose proof (did_rw w1 (st w1) UEINTX u u') as D2. change (World (st w1) _) with w2 in D2.
  pose proof (did_trans _ _ _ _ _ _ _ D1 (did_trans _ _ _ _ _ _ _ D2 (did_trans _ _ _ _ _ _ _ D3 (did_trans _ _ _ _ _ _ _ D4 D5)))) as D.
  cbn [app] in D. rewrite S4 in D. eapply (accepted_status p _ _ [(UEINTX, u'); (UEINTX, x')]); [by repeat constructor| |exact Hss|exact D].
  cbn [acked existsb]. by rewrite bool_decide_true, Hu'.
Qed.

Lemma wp_get_encoding v len Q w : cdc_request 0xA1 CDC_REQ_GetLineEncoding v len w -> in_range (LineEncoding (State (cdc (st w)))) ->
  polls_end p k False RXOUTI -> polls_end p k False TXINI ->
  (forall w', answered_with (pack (LineEncoding (State (cdc (st w))))) w w' -> Q tt w') -> wp False requests Q p w.
Proof.
  intros [Hr Hone] He Hout Hin HQ. eapply (wp_class_setup p); [exact Hr|done|]. intros w1 D1. pose proof D1 as [S1 _].
  apply wp_bind, wp_get_cdc. rewrite S1. cbn [wIndex bRequest bmRequestType]. rewrite Z.eqb_refl. cbv zeta. cbn [Z.eqb when negb].
  unfold get_line_encoding. apply wp_bind, clear_setup_did. intros x x' w2 Hc _ D2. rewrite S1 in D2. pose proof D2 as [S2 _].
  apply wp_bind, (await_in_did p k); [done|]. intros w3 D3. rewrite S2 in D3. pose proof D3 as [S3 _]. apply wp_bind, wp_get_cdc. rewrite S3. cbv zeta.
  pose proof (did_trans _ _ _ _ _ _ _ D1 (did_trans _ _ _ _ _ _ _ D2 D3)) as D. rewrite app_nil_r in D.
  set (e := LineEncoding (State (cdc (st w)))) in *. destruct (encoding_bytes e He) as (Ep & _ & H4 & H5 & H6).
  apply (short_answer_tail p k _ _ (pack e) x x' _ w); [|by rewrite Hr|done|done|done|].
  - rewrite Ep. apply puts_seq; [apply puts_32|]. apply (puts_seq _ _ _ [CharFormat e] [ParityType e; DataBits e]); [by apply puts_8|].
    apply (puts_seq _ _ _ [ParityType e] [DataBits e]); by apply puts_8.
  - intros ws w' Hws D'. apply HQ. by exists ws.
Qed.

End LineSettings.

(** ** Concrete runs *)

Section Runs.
#[local] Instance cdc_chip : Avr := datasheet USB_SERIES_2_AVR.
#[local] Instance cdc_chip_ok : AvrOk := datasheet_ok USB_SERIES_2_AVR.

(** A program with one serial port, which handles its class requests. *)
Record cdc_program := CdcProgram { cp_usb : usb_globals; cp_cdc : USB_ClassInfo_CDC_Device_t }.
#[local] Instance cdc_program_usb : UsbState cdc_program :=
  {| usb := cp_usb; put_usb u g := CdcProgram u (cp_cdc g) |}.
#[local] Instance cdc_program_usb_ok : UsbStateOk cdc_program.
Proof. split; [done|done|]. by intros []. Qed.
#[local] Instance cdc_program_cdc : CdcDevice cdc_program :=
  {| cdc := cp_cdc; put_cdc i g := CdcProgram (cp_usb g) i |}.
#[local] Instance cdc_program_cdc_ok : CdcDeviceOk cdc_program.
Proof. split; done. Qed.
#[local] Instance cdc_program_app : UsbApplication cdc_program := {|
  EVENT_USB_Device_ControlRequest := CDC_Device_ProcessControlRequest (ret tt) (ret tt) (fun _ => ret tt);
  EVENT_USB_Device_ConfigurationChanged := CDC_Device_ConfigureEndpoints;;; ret tt;
  EVENT_USB_Device_Connect := ret tt; EVENT_USB_Device_Disconnect := ret tt; EVENT_USB_Device_Reset := ret tt;
  EVENT_USB_Device_Suspend := ret tt; EVENT_USB_Device_WakeUp := ret tt; EVENT_USB_Device_StartOfFrame := ret tt;
  GetDescriptor _ _ := ([], 0)
|}.

(** 9600 baud, eight data bits; IN on endpoint 3, OUT on endpoint 4. *)
Definition terminal : USB_ClassInfo_CDC_Device_t :=
  CdcInfo (CdcConfig 0 (EndpointEntry 0x83 4 EP_TYPE_BULK 1) (EndpointEntry 0x04 4 EP_TYPE_BULK 1) (EndpointEntry 0x82 8 EP_TYPE_INTERRUPT 1))
    (CdcState 0 0 (LineEncodingOf 9600 0 0 8)).
Definition terminal_asked (r : USB_Request_Header_t) : world cdc_program := World (CdcProgram (UsbGlobals r 1 false false) terminal) [].
Definition terminal_port : port := Port 0 [] [] [[10; 20]; []; [30]].

(** Five bytes out in banks of four, while three come in. *)
Lemma cdc_port_refines_witness :
  wp False (in_turn (cdc_call (fun _ => 0)) [OSendData [1; 2; 3; 4; 5]; OReceiveByte; OFlush; OBytesReceived; OReceiveByte; OReceiveByte; OReceiveByte])
    (fun rs w' => rs = [0; 10; 0; 1; 20; -1; 30] /\ handed 3 4 4 (hist w') = [[1; 2; 3; 4]; [5]])
    (port_bus 3 4 4 terminal_port 20) (terminal_asked (Request 0 0 0 0 0)).
Proof.
  eapply wp_mono.
  - refine (cdc_port_refines (port_bus 3 4 4 terminal_port 20) (fun _ => 0) 3 4 4 _ terminal_port (terminal_asked (Request 0 0 0 0 0)) _ _ _ _ _ _ _).
    + lia.
    + lia.
    + by split_and!.
    + apply port_bus_served; [lia|lia|]. by apply (bool_decide_unpack _).
    + by apply (bool_decide_unpack _).
    + repeat (constructor; [split_and!; [by apply (bool_decide_unpack _)|cbn; lia|cbn; lia]|]). constructor.
    + cbn. lia.
  - intros rs w' (_ & s' & Hrun & _ & Hh & _). vm_compute in Hrun. injection Hrun as <- <-. split; [done|exact Hh].
Defined.

Lemma cdc_getchar_blocks_until_byte_witness :
  let s := Port 0 [] [] [[]; []; [65; 66]] in
  wp False (CDC_Device_getchar_Blocking (USB_USBTask (fun _ => 0)) (-2)) (fun c w' => c = 65)
    (port_bus 3 4 4 s 20) (terminal_asked (Request 0 0 0 0 0)).
Proof.
  intros s. eapply wp_mono.
  - refine (cdc_getchar_blocks_until_byte (port_bus 3 4 4 s 20) (fun _ => 0) 3 4 4 (-2) s 65 [66] (terminal_asked (Request 0 0 0 0 0)) _ _ _ _ _ eq_refl _).
    + lia.
    + lia.
    + by split_and!.
    + apply port_bus_served; [lia|lia|]. by apply (bool_decide_unpack _).
    + by apply (bool_decide_unpack _).
    + cbn. lia.
  - by intros c w' [-> _].
Defined.

(** A host that sends the bytes of 115200 baud behind its request. *)
Definition encoding_bus (msg : list Z) : platform := {|
  respond h r := let l := default [] (after_ack h) in
    match r with
    | UEINTX => 5 + (if acked (writes h) then 0 else 8)
    | UEDATX => default 0 (msg !! length (read_from UEDATX l))
    | V_USB_DeviceState => state_code DEVICE_STATE_Configured
    | _ => 0
    end;
  fuel := 10
|}.

End Runs.
