(* ===== verification/PrinterClassDevice.v ===== *)
(** * The printer class driver for devices (LUFA PrinterClassDevice.c)

    A pair of byte streams ([BulkPort]) with the requests for the identification
    string, the port status and a reset. *)

From S2P Require Import Prelude StdDescriptors HIDClass Descriptors Machine UsbCore Endpoint EndpointStream DeviceStandardReq StreamTransfers BulkPort.

Definition PRNT_PORTSTATUS_NOTERROR : Z := Z.shiftl 1 3.
Definition PRNT_PORTSTATUS_SELECT : Z := Z.shiftl 1 4.
Definition PRNT_REQ_GetDeviceID : Z := 0x00.
Definition PRNT_REQ_GetPortStatus : Z := 0x01.
Definition PRNT_REQ_SoftReset : Z := 0x02.

(** [IEEE1284String] holds the characters before the terminating zero. *)
Record prnt_config := PrntConfig {
  InterfaceNumber : Z;
  DataINEndpoint : USB_Endpoint_Table_t;
  DataOUTEndpoint : USB_Endpoint_Table_t;
  IEEE1284String : list Z
}.
Record prnt_state := PrntState { PortStatus : Z; IsPrinterReset : bool }.
Record USB_ClassInfo_PRNT_Device_t := PrntInfo { Config : prnt_config; State : prnt_state }.

Definition set_printer_reset (b : bool) (i : USB_ClassInfo_PRNT_Device_t) : USB_ClassInfo_PRNT_Device_t :=
  PrntInfo (Config i) (PrntState (PortStatus (State i)) b).

Class PrntDevice (G : Type) := {
  prnt : G -> USB_ClassInfo_PRNT_Device_t;
  put_prnt : USB_ClassInfo_PRNT_Device_t -> G -> G
}.

Section Driver.
Context {G : Type} `{UsbState G} `{PrntDevice G} `{Avr}.
Variable USB_USBTask : M G unit.
Variable EVENT_PRNT_Device_SoftReset : M G unit.
(** The results of the character functions in the C library. *)
Variables FDEV_ERR FDEV_EOF : Z.

Definition get_prnt : M G USB_ClassInfo_PRNT_Device_t := g <- mget;; ret (prnt g).
Definition mod_prnt (f : USB_ClassInfo_PRNT_Device_t -> USB_ClassInfo_PRNT_Device_t) : M G unit :=
  mmodify (fun g => put_prnt (f (prnt g)) g).

(** ** Control requests *)

Definition get_device_id : M G unit :=
  Endpoint_ClearSETUP;;;
  status_wait Endpoint_IsINReady (
    i <- get_prnt;;
    let IEEEStringLen := u16 (Z.of_nat (length (IEEE1284String (Config i)))) in
    Endpoint_Write_16_BE IEEEStringLen;;;
    Endpoint_Write_Control_Stream_LE (IEEE1284String (Config i) ++ [0]) IEEEStringLen;;;
    Endpoint_ClearStatusStage).

Definition get_port_status : M G unit :=
  Endpoint_ClearSETUP;;;
  status_wait Endpoint_IsINReady (
    i <- get_prnt;;
    Endpoint_Write_8 (PortStatus (State i));;;
    Endpoint_ClearStatusStage).

Definition soft_reset : M G unit :=
  Endpoint_ClearSETUP;;;
  Endpoint_ClearStatusStage;;;
  mod_prnt (set_printer_reset true);;;
  EVENT_PRNT_Device_SoftReset.

Definition PRNT_Device_ProcessControlRequest : M G unit :=
  setup <- Endpoint_IsSETUPReceived;;
  if negb setup then ret tt else
  r <- get_request;;
  i <- get_prnt;;
  if negb (wIndex r =? InterfaceNumber (Config i)) then ret tt else
  let from_device := bmRequestType r =? reqtype REQDIR_DEVICETOHOST REQTYPE_CLASS REQREC_INTERFACE in
  if bRequest r =? PRNT_REQ_GetDeviceID then when from_device get_device_id
  else if bRequest r =? PRNT_REQ_GetPortStatus then when from_device get_port_status
  else if bRequest r =? PRNT_REQ_SoftReset then
    when (bmRequestType r =? reqtype REQDIR_HOSTTODEVICE REQTYPE_CLASS REQREC_INTERFACE) soft_reset
  else ret tt.

(** ** Configuration and the management task *)

Definition prnt_types (i : USB_ClassInfo_PRNT_Device_t) : USB_ClassInfo_PRNT_Device_t :=
  let c := Config i in
  PrntInfo (PrntConfig (InterfaceNumber c) (of_type EP_TYPE_BULK (DataINEndpoint c)) (of_type EP_TYPE_BULK (DataOUTEndpoint c)) (IEEE1284String c))
    (PrntState (Z.lor PRNT_PORTSTATUS_NOTERROR PRNT_PORTSTATUS_SELECT) false).

Definition PRNT_Device_ConfigureEndpoints : M G bool :=
  mod_prnt prnt_types;;;
  i <- get_prnt;;
  ok <- Endpoint_ConfigureEndpointTable [DataINEndpoint (Config i)];;
  if negb ok then ret false else
  Endpoint_ConfigureEndpointTable [DataOUTEndpoint (Config i)].

Definition prnt_ready : M G bool := is_DeviceState DEVICE_STATE_Configured.
Definition prnt_in (g : G) : Z := Entry_Address (DataINEndpoint (Config (prnt g))).
Definition prnt_out (g : G) : Z := Entry_Address (DataOUTEndpoint (Config (prnt g))).

Definition reset_printer : M G unit :=
  i <- get_prnt;;
  Endpoint_ResetEndpoint (Entry_Address (DataOUTEndpoint (Config i)));;;
  Endpoint_ResetEndpoint (Entry_Address (DataINEndpoint (Config i)));;;
  Endpoint_SelectEndpoint (Entry_Address (DataOUTEndpoint (Config i)));;;
  Endpoint_ClearStall;;;
  Endpoint_ResetDataToggle;;;
  Endpoint_SelectEndpoint (Entry_Address (DataINEndpoint (Config i)));;;
  Endpoint_ClearStall;;;
  Endpoint_ResetDataToggle;;;
  mod_prnt (set_printer_reset false).

Definition PRNT_Device_Flush : M G Z := port_Flush prnt_ready prnt_in.

Definition PRNT_Device_USBTask : M G unit :=
  ok <- prnt_ready;;
  if negb ok then ret tt else
  select prnt_in;;;
  ready_in <- Endpoint_IsINReady;;
  when ready_in (PRNT_Device_Flush;;; ret tt);;;
  i <- get_prnt;;
  when (IsPrinterReset (State i)) reset_printer.

Definition PRNT_Device_SendString : list Z -> M G Z := port_SendString prnt_ready prnt_in USB_USBTask.
Definition PRNT_Device_SendData : list Z -> Z -> M G Z := port_SendData prnt_ready prnt_in USB_USBTask.
Definition PRNT_Device_SendByte : Z -> M G Z := port_SendByte prnt_ready prnt_in.
Definition PRNT_Device_BytesReceived : M G Z := port_BytesReceived prnt_ready prnt_out.
Definition PRNT_Device_ReceiveByte : M G Z := port_ReceiveByte prnt_ready prnt_out.

(** ** Character streams *)

Definition PRNT_Device_putchar (c : Z) : M G Z :=
  r <- PRNT_Device_SendByte (u8 c);; ret (if r =? 0 then 0 else FDEV_ERR).
Definition PRNT_Device_getchar : M G Z :=
  ReceivedByte <- PRNT_Device_ReceiveByte;; ret (if ReceivedByte <? 0 then FDEV_EOF else ReceivedByte).
Definition PRNT_Device_getchar_Blocking : M G Z :=
  while_ (fun _ : unit =>
    ReceivedByte <- PRNT_Device_ReceiveByte;;
    if negb (ReceivedByte <? 0) then ret (inr ReceivedByte) else
    u <- is_DeviceState DEVICE_STATE_Unattached;;
    if u then ret (inr FDEV_EOF) else
    PRNT_Device_USBTask;;;
    USB_USBTask;;;
    ret (inl tt)) tt.
End Driver.

(** ** A transfer to the host *)

Section Transfers.
Context {G : Type} `{UsbStateOk G} `{!PrntDevice G} `{AvrOk} `{!UsbApplication G} (p : platform).
Variable boot_signature_byte_get : Z -> Z.
Variables (NI NO : Z) (size : nat).
Implicit Types w : world G.

Lemma wp_prnt_ready Q s w : served NI NO size p s (hist w) ->
  (forall w', st w' = st w -> served NI NO size p s (hist w') -> Q true w') -> wp False prnt_ready Q p w.
Proof.
  intros Hs HQ. unfold prnt_ready, is_DeviceState. apply wp_bind, (wp_look p NI NO size _ _ s); [done|done|]. intros w1 S1 Hs1.
  apply wp_ret. destruct (served_now p NI NO size _ _ Hs) as (-> & _). rewrite Z.eqb_refl. by apply HQ.
Qed.

(** The bulk endpoints of the interface are [NI] and [NO]. *)
Definition prnt_at (g : G) : Prop :=
  Z.land (prnt_in g) ENDPOINT_EPNUM_MASK = NI /\ Z.land (prnt_out g) ENDPOINT_EPNUM_MASK = NO.

(** C37: a transfer of the printer reaches the host whole and with an end.  Sending
    bytes into an empty bank and flushing hands over, as the log of register
    accesses shows, exactly those bytes, in order, in packets that all fill the bank but the last, which is shorter: it
    is empty when the bytes end at the end of a bank, so that the host sees the
    end of the transfer for every number of bytes.  Both calls succeed, the
    packets handed over before are untouched and the bank is empty again. *)
Theorem printer_transfer_delimited bs s w : (1 <= size)%nat -> prnt_at (st w) -> served NI NO size p s (hist w) ->
  p_open s = [] -> bs <> [] -> Forall is_u8 bs -> Z.of_nat (length bs) < 65536 -> (2 * length bs + 1 < fuel p)%nat ->
  wp False (a <- PRNT_Device_SendData (USB_USBTask boot_signature_byte_get) bs (Z.of_nat (length bs));; b <- PRNT_Device_Flush;; ret (a, b))
    (fun r w' => r = (0, 0) /\ st w' = st w /\ exists ps, delimited size bs ps /\
       handed NI NO size (hist w') = handed NI NO size (hist w) ++ ps /\ served NI NO size p (Port NI (p_sent s ++ ps) [] (p_waiting s)) (hist w')) p w.
Proof.
  intros Hsize [Hin Hout] Hs Ho Hb Hu Hl Hf.
  destruct (transfer_delimited size Hsize bs (selecting NI s) Ho Hb) as (ps & Eps & Hps). destruct (small_number _ _ Hin) as [Hrange Hsmall].
  assert (forall Q s w, prnt_at (st w) -> served NI NO size p s (hist w) ->
    (forall w', st w' = st w -> served NI NO size p s (hist w') -> Q true w') -> wp False prnt_ready Q p w) as Hready by (intros Q s0 w0 _; apply wp_prnt_ready).
  assert (forall g, prnt_at g -> u8 (Z.land (prnt_in g) ENDPOINT_EPNUM_MASK) = NI) as Hnum by (intros g [Hg _]; by apply small_number).
  apply wp_bind, (wp_port_SendData p NI NO size Hsize prnt_ready prnt_in (USB_USBTask boot_signature_byte_get) prnt_at Hready Hnum) with (s := s);
    [|lia|done|done|done|done|done|done|].
  { intros Q s0 w0 Hs0 Hsel HQ. apply (wp_task_served p NI NO size _ _ s0); [done|by rewrite Hsel|done]. }
  intros w1 S1 Hs1. rewrite firstn_all in Hs1.
  apply wp_bind, (wp_port_Flush p NI NO size Hsize prnt_ready prnt_in prnt_at Hready Hnum) with (s := put_all size bs (selecting NI s));
    [lia|by rewrite S1|done|]. intros w2 S2 Hs2. apply wp_ret. split; [done|]. split; [congruence|]. exists ps. split; [done|].
  assert (selecting NI (put_all size bs (selecting NI s)) = put_all size bs (selecting NI s)) as E.
  { pose proof (put_all_sel size bs (selecting NI s)) as El. destruct (put_all size bs (selecting NI s)) as [l a b c]. cbn in El. by subst l. }
  rewrite E, Eps in Hs2. split; [|exact Hs2]. by rewrite (served_handed p NI NO _ _ _ Hs2), (served_handed p NI NO _ _ _ Hs).
Qed.
End Transfers.

(** ** The port status *)

Section PortStatus.
Context {G : Type} `{UsbStateOk G} `{!PrntDevice G} `{AvrOk} (p : platform) (reset : M G unit).
Implicit Types w : world G.

Definition prnt_request (bm code v len : Z) w : Prop :=
  USB_ControlRequest (usb (st w)) = Request bm code v (InterfaceNumber (Config (prnt (st w)))) len /\
  one_setup p (hist w).

Definition no_flags (e : event) : Prop := match e with Wr r _ => r <> UEINTX | Rd _ _ => True end.

(** The host starts the status stage only when it has received a packet: no OUT
    packet arrives while none was handed over since the acknowledgement. *)
Definition status_after_data (h0 : log) : Prop := forall before v v' new,
  acked (writes before) = false -> bit_tst v' RXSTPI = false -> Forall no_flags new ->
  bit_tst (reg_wrap UEINTX (respond p (new ++ Wr UEINTX v' :: Rd UEINTX v :: before ++ h0) UEINTX)) RXOUTI = false.

(** A wait for a flag that never comes. *)
Lemma status_wait_forever a m (I : log -> Prop) w : attached p -> I (hist w) ->
  (forall h r v, I h -> I (Rd r v :: h)) -> (forall h, I h -> bit_tst (reg_wrap UEINTX (respond p h UEINTX)) a = false) ->
  status_wait (reg_bit UEINTX a) m p w = NoFuel.
Proof.
  intros Hatt HI Hstep Hno. unfold status_wait, while_. unfold bind at 1. unfold bind at 1, mfuel. generalize (fuel p) as n. intros n.
  match goal with |- match loop n ?b tt p w with _ => _ end = _ => assert (loop n b tt p w = NoFuel) as ->; [|done] end.
  revert w HI. induction n as [|n IH]; intros w HI; [done|]. cbn [loop].
  apply (bind_outcome p (fun o => o = NoFuel)), wp_bind, wp_reg_bit. intros v Hv. rewrite Hv, Hno by done.
  unfold is_DeviceState. apply wp_bind, wp_bind, wp_rd. intros s Hs. cbn [st hist] in *. apply wp_ret, wp_ret.
  rewrite (proj2 (Z.eqb_neq _ _)) by (rewrite Hs; apply Hatt). apply IH. cbn [hist]. by apply Hstep, Hstep.
Qed.

(** A request for the port status hangs the device.  The handler writes the
    status byte but never hands the packet over, and then waits for the status
    stage; a host that waits for the data first, as it must, never starts it.
    Whatever the number of rounds allowed, the handler does not return while
    the device stays attached. *)
Theorem printer_port_status_hangs k v len w : prnt_request 0xA1 PRNT_REQ_GetPortStatus v len w -> attached p ->
  flag_within k UEINTX TXINI p -> (k < fuel p)%nat -> status_after_data (hist w) ->
  PRNT_Device_ProcessControlRequest reset p w = NoFuel.
Proof.
  intros [Hr Hone] Hatt Hin Hf Hhost. set (R := fun o : outcome G unit => o = NoFuel). change (R (PRNT_Device_ProcessControlRequest reset p w)).
  apply (bind_outcome p R). apply (wp_setup_flag p _ _ w w (st w) []); [done|split; [done|by exists []]|]. intros w1 D1.
  cbn [negb acked existsb]. pose proof D1 as (S1 & before & Hh1 & Hw1). apply (bind_outcome p R), wp_get_request. rewrite S1, Hr.
  unfold get_prnt. apply (bind_outcome p R), wp_bind, wp_get, wp_ret. rewrite S1. cbn [wIndex bRequest bmRequestType]. rewrite Z.eqb_refl.
  cbv zeta. cbn [Z.eqb when negb]. unfold get_port_status. apply (bind_outcome p R), clear_setup_log. intros u u' Hu'.
  unfold status_wait. apply (bind_outcome p R), (wp_poll_only p k polling False UEINTX TXINI true); [by left|by right| |].
  - intros h Hh. unfold is_DeviceState. apply wp_bind, wp_bind, wp_rd. intros s Hs. cbn [st hist] in *.
    apply wp_ret, wp_ret. exists [Rd V_USB_DeviceState s]. split_and!; [constructor; [by right|done]|done|done|].
    destruct (Z.eqb_spec s (state_code DEVICE_STATE_Unattached)) as [->|_]; [|done]. by destruct (Hatt _ (eq_sym Hs)).
  - intros h x Hh _. cbn [st hist]. apply (bind_outcome p R), wp_bind, wp_get, wp_ret. cbn [st]. apply (bind_outcome p R).
    unfold Endpoint_Write_8. apply wp_wr. cbn [st hist]. unfold Endpoint_ClearStatusStage. apply (bind_outcome p R), wp_get_request. cbn [st].
    rewrite S1, Hr. cbn [bmRequestType]. change (negb _) with true. cbn iota.
    apply (status_wait_forever _ _ (fun h' => exists new, Forall no_flags new /\ h' = new ++ Wr UEINTX u' :: Rd UEINTX u :: before ++ hist w)); [done| | |].
    + eexists (_ :: _ :: h). cbn [hist app]. rewrite Hh1. split; [|done]. constructor; [done|]. constructor; [done|].
      revert Hh. apply Forall_impl. by intros [].
    + intros h' r y (new & Hn & ->). exists (Rd r y :: new). split; [by constructor|done].
    + intros h' (new & Hn & ->). apply Hhost; [by rewrite Hw1|done|done].
Qed.
End PortStatus.

(** ** Concrete runs *)

Section Runs.
#[local] Instance prnt_chip : Avr := datasheet USB_SERIES_2_AVR.
#[local] Instance prnt_chip_ok : AvrOk := datasheet_ok USB_SERIES_2_AVR.

(** A program with one printer interface. *)
Record prnt_program := PrntProgram { pp_usb : usb_globals; pp_prnt : USB_ClassInfo_PRNT_Device_t }.
#[local] Instance prnt_program_usb : UsbState prnt_program :=
  {| usb := pp_usb; put_usb u g := PrntProgram u (pp_prnt g) |}.
#[local] Instance prnt_program_usb_ok : UsbStateOk prnt_program.
Proof. split; [done|done|]. by intros []. Qed.
#[local] Instance prnt_program_prnt : PrntDevice prnt_program :=
  {| prnt := pp_prnt; put_prnt i g := PrntProgram (pp_usb g) i |}.
#[local] Instance prnt_program_app : UsbApplication prnt_program := {|
  EVENT_USB_Device_ControlRequest := PRNT_Device_ProcessControlRequest (ret tt);
  EVENT_USB_Device_ConfigurationChanged := PRNT_Device_ConfigureEndpoints;;; ret tt;
  EVENT_USB_Device_Connect := ret tt; EVENT_USB_Device_Disconnect := ret tt; EVENT_USB_Device_Reset := ret tt;
  EVENT_USB_Device_Suspend := ret tt; EVENT_USB_Device_WakeUp := ret tt; EVENT_USB_Device_StartOfFrame := ret tt;
  GetDescriptor _ _ := ([], 0)
|}.

(** Interface 0 with the identification string MFG:; IN on endpoint 3, OUT on endpoint 4. *)
Definition printer : USB_ClassInfo_PRNT_Device_t :=
  PrntInfo (PrntConfig 0 (EndpointEntry 0x83 4 EP_TYPE_BULK 1) (EndpointEntry 0x04 4 EP_TYPE_BULK 1) [77; 70; 71; 58]) (PrntState 24 false).
Definition printer_asked (r : USB_Request_Header_t) : world prnt_program := World (PrntProgram (UsbGlobals r 1 false false) printer) [].

(** Eight bytes end at the end of a bank of four. *)
Lemma printer_transfer_delimited_witness :
  let bs := [1; 2; 3; 4; 5; 6; 7; 8] in let s := Port 0 [] [] [] in
  wp False (a <- PRNT_Device_SendData (USB_USBTask (fun _ => 0)) bs 8;; b <- PRNT_Device_Flush;; ret (a, b))
    (fun r w' => r = (0, 0) /\ exists ps, delimited 4 bs ps /\ handed 3 4 4 (hist w') = ps)
    (port_bus 3 4 4 s 30) (printer_asked (Request 0 0 0 0 0)).
Proof.
  intros bs s. eapply wp_mono.
  - refine (printer_transfer_delimited (port_bus 3 4 4 s 30) (fun _ => 0) 3 4 4 bs s (printer_asked (Request 0 0 0 0 0)) _ _ _ _ _ _ _ _).
    + lia.
    + by split_and!.
    + apply port_bus_served; [lia|lia|]. by apply (bool_decide_unpack _).
    + done.
    + done.
    + by apply (bool_decide_unpack _).
    + cbn. lia.
    + cbn. lia.
  - intros r w' (-> & _ & ps & Hps & Hs & _). split; [done|]. by exists ps.
Defined.

(** A host that starts the status stage when it has a packet. *)
Definition strict_bus (r : USB_Request_Header_t) (n : nat) : platform := setup_bus r (fun h => match after_ack h with
  | Some l => negb (bool_decide (fst (packets l) = [])) | None => false end) n.

Lemma no_flags_packets new : Forall no_flags new -> fst (packets new) = [].
Proof.
  induction 1 as [|[r v|r v] new He _ IH]; [done|by destruct r|]. destruct r; cbn [packets]; try done.
  destruct (packets new). exact IH.
Qed.

Lemma printer_port_status_hangs_witness :
  PRNT_Device_ProcessControlRequest (ret tt) (strict_bus (Request 0 0 0 0 0) 1000) (printer_asked (Request 0xA1 1 0 0 1)) = NoFuel.
Proof.
  refine (printer_port_status_hangs (strict_bus (Request 0 0 0 0 0) 1000) (ret tt) 1 0 1 (printer_asked (Request 0xA1 1 0 0 1)) _ _ _ _ _).
  - split; [reflexivity|apply bus_one_setup].
  - by intros h.
  - apply bus_in.
  - cbn [strict_bus setup_bus fuel]. lia.
  - intros before v v' new Ha Hv Hn'. rewrite app_nil_r. assert (after_ack (new ++ Wr UEINTX v' :: Rd UEINTX v :: before) = Some new) as E
      by exact (proj2 (after_ack_new new before v v' Ha Hv)).
    etransitivity; [exact (proj2 (proj2 (bus_flags _ _ 1000 _)))|]. rewrite E, (no_flags_packets new Hn'). done.
Defined.

(** The identification string is sent past the length the host asked for.
    The two bytes of the length, which do not count themselves, are put into
    the bank before the string, and only the string is cut to the length of
    the request: a host that asks for the two bytes of the length gets four
    bytes, the first two of the string behind them; a host that asks for
    enough gets the length of the string and the string. *)
Theorem printer_device_id_overlong :
  let run len := PRNT_Device_ProcessControlRequest (ret tt) (setup_bus (Request 0 0 0 0 0) (fun h => match after_ack h with
        | Some l => host_done len (fst (packets l)) | None => false end) 200) (printer_asked (Request 0xA1 0 0 0 len)) in
  (exists w', run 2 = Done tt w' /\ sent_data (writes (hist w')) = [0; 4; 77; 70]) /\
  (exists w', run 1024 = Done tt w' /\ sent_data (writes (hist w')) = [0; 4; 77; 70; 71; 58]).
Proof. cbv zeta. split; (eexists; split; vm_compute; reflexivity). Qed.
End Runs.
