(* ===== verification/MIDIClassDevice.v ===== *)
(** * The MIDI class driver for devices (LUFA MIDIClassDevice.c)

    Events of four bytes over a pair of bulk endpoints: several events share a
    packet, and an event is never split between two. *)

From S2P Require Import Prelude StdDescriptors HIDClass Descriptors Machine UsbCore Endpoint EndpointStream DeviceStandardReq StreamTransfers BulkPort.

Record MIDI_EventPacket_t := MidiEvent { Event : Z; Data1 : Z; Data2 : Z; Data3 : Z }.
#[export] Instance midi_event_packed : Packed MIDI_EventPacket_t := {|
  widths := [1; 1; 1; 1]%nat;
  fields r := [Event r; Data1 r; Data2 r; Data3 r];
  of_fields vs := match vs with [a; b; c; d] => Some (MidiEvent a b c d) | _ => None end
|}.
#[export] Instance midi_event_packed_ok : PackedOk MIDI_EventPacket_t.
Proof. packed_ok. Qed.

Record midi_config := MidiConfig {
  StreamingInterfaceNumber : Z;
  DataINEndpoint : USB_Endpoint_Table_t;
  DataOUTEndpoint : USB_Endpoint_Table_t
}.
Record midi_state := MidiState { RESERVED : Z }.
Record USB_ClassInfo_MIDI_Device_t := MidiInfo { Config : midi_config; State : midi_state }.

Class MidiDevice (G : Type) := {
  midi : G -> USB_ClassInfo_MIDI_Device_t;
  put_midi : USB_ClassInfo_MIDI_Device_t -> G -> G
}.

Section Driver.
Context {G : Type} `{UsbState G} `{MidiDevice G} `{Avr}.
Variable USB_USBTask : M G unit.

Definition get_midi : M G USB_ClassInfo_MIDI_Device_t := g <- mget;; ret (midi g).
Definition midi_in (g : G) : Z := Entry_Address (DataINEndpoint (Config (midi g))).
Definition midi_out (g : G) : Z := Entry_Address (DataOUTEndpoint (Config (midi g))).

Definition midi_types (i : USB_ClassInfo_MIDI_Device_t) : USB_ClassInfo_MIDI_Device_t :=
  let c := Config i in
  MidiInfo (MidiConfig (StreamingInterfaceNumber c) (of_type EP_TYPE_BULK (DataINEndpoint c)) (of_type EP_TYPE_BULK (DataOUTEndpoint c))) (MidiState 0).

Definition MIDI_Device_ConfigureEndpoints : M G bool :=
  mmodify (fun g => put_midi (midi_types (midi g)) g);;;
  i <- get_midi;;
  ok <- Endpoint_ConfigureEndpointTable [DataINEndpoint (Config i)];;
  if negb ok then ret false else
  Endpoint_ConfigureEndpointTable [DataOUTEndpoint (Config i)].

Definition MIDI_Device_Flush : M G Z :=
  ok <- is_DeviceState DEVICE_STATE_Configured;;
  if negb ok then ret (stream_value ENDPOINT_RWSTREAM_DeviceDisconnected) else
  select midi_in;;;
  n <- Endpoint_BytesInEndpoint;;
  if n =? 0 then ret (stream_value ENDPOINT_RWSTREAM_NoError) else
  Endpoint_ClearIN;;;
  ErrorCode <- Endpoint_WaitUntilReady;;
  ret (stream_value (stream_code ErrorCode)).

Definition MIDI_Device_USBTask : M G unit :=
  ok <- is_DeviceState DEVICE_STATE_Configured;;
  if negb ok then ret tt else
  select midi_in;;;
  ready_in <- Endpoint_IsINReady;;
  when ready_in (MIDI_Device_Flush;;; ret tt).

Definition MIDI_Device_SendEventPacket (e : MIDI_EventPacket_t) : M G Z :=
  ok <- is_DeviceState DEVICE_STATE_Configured;;
  if negb ok then ret (stream_value ENDPOINT_RWSTREAM_DeviceDisconnected) else
  select midi_in;;;
  x <- Endpoint_Write_Stream_LE USB_USBTask (pack e) (sizeof MIDI_EventPacket_t) None;;
  let '(ErrorCode, _, _) := x in
  if negb (stream_value ErrorCode =? 0) then ret (stream_value ErrorCode) else
  rw <- Endpoint_IsReadWriteAllowed;;
  when (negb rw) Endpoint_ClearIN;;;
  ret (stream_value ENDPOINT_RWSTREAM_NoError).

(** Whether an event was received, and [*Event]. *)
Definition MIDI_Device_ReceiveEventPacket (e : MIDI_EventPacket_t) : M G (bool * MIDI_EventPacket_t) :=
  ok <- is_DeviceState DEVICE_STATE_Configured;;
  if negb ok then ret (false, e) else
  select midi_out;;;
  out <- Endpoint_IsOUTReceived;;
  if negb out then ret (false, e) else
  rw <- Endpoint_IsReadWriteAllowed;;
  if negb rw then ret (false, e) else
  x <- Endpoint_Read_Stream_LE USB_USBTask (pack e) (sizeof MIDI_EventPacket_t) None;;
  let '(_, (mem, _), _) := x in
  received <- mlift (unpack (A := MIDI_EventPacket_t) mem);;
  rw <- Endpoint_IsReadWriteAllowed;;
  when (negb rw) Endpoint_ClearOUT;;;
  ret (true, received).

Definition MIDI_Device_ProcessControlRequest : M G unit := ret tt.
End Driver.

(** ** Events in packets *)

Lemma pack_event_length e : length (pack e) = 4%nat.
Proof. by rewrite pack_length. Qed.
Lemma put_all_room size bs s : (length (p_open s) + length bs <= size)%nat -> put_all size bs s = with_open (p_open s ++ bs) s.
Proof.
  revert s. induction bs as [|b bs IH]; intros s Hl; [destruct s; cbn; by rewrite app_nil_r|].
  change (put_all size (b :: bs) s) with (put_all size bs (put size b s)). cbn [length] in Hl.
  assert (put size b s = with_open (p_open s ++ [b]) s) as ->.
  { unfold put, full. rewrite bool_decide_false by lia. done. }
  rewrite IH by (cbn [with_open p_open]; rewrite length_app; cbn [length]; lia). cbn [with_open p_open p_sel p_sent p_waiting]. by rewrite <- app_assoc.
Qed.

Section Events.
Context {G : Type} `{UsbStateOk G} `{!MidiDevice G} `{AvrOk} `{!UsbApplication G} (p : platform).
Variable boot_signature_byte_get : Z -> Z.
Variables (NI NO : Z) (m : nat).
Context (Hne : NI <> NO) (Hm : (1 <= m)%nat).
Abbreviation size := (4 * m)%nat.
Abbreviation served := (served NI NO size p).
Abbreviation task := (USB_USBTask boot_signature_byte_get).
Implicit Types w : world G.

(** The bulk endpoints of the interface are [NI] and [NO]. *)
Definition midi_at (g : G) : Prop :=
  Z.land (midi_in g) ENDPOINT_EPNUM_MASK = NI /\ Z.land (midi_out g) ENDPOINT_EPNUM_MASK = NO.

Lemma wp_midi_enter {A} address N (k : M G A) (no : A) s Q w : served s (hist w) -> Z.land (address (st w)) ENDPOINT_EPNUM_MASK = N ->
  (forall w', st w' = st w -> served (selecting N s) (hist w') -> wp False k Q p w') ->
  wp False (ok <- is_DeviceState DEVICE_STATE_Configured;; if negb ok then ret no else select address;;; k) Q p w.
Proof.
  intros Hs HN HQ. unfold is_DeviceState. apply wp_bind, wp_bind, (wp_look p NI NO size _ _ s); [done|done|]. intros w1 S1 Hs1.
  apply wp_ret. destruct (served_now p NI NO size _ _ Hs) as (-> & _). rewrite Z.eqb_refl. cbn [negb].
  apply wp_bind, (wp_pick p NI NO size _ _ N s); [done|rewrite S1; by apply small_number|]. intros w2 S2 Hs2. apply HQ; [congruence|done].
Qed.

(** An event is put behind those in the bank, which is handed over when full. *)
Lemma wp_send_event e s Q w : midi_at (st w) -> served s (hist w) -> (length (p_open s) + 4 <= size)%nat -> (9 < fuel p)%nat ->
  (forall w', st w' = st w -> served (put_item pack 4 m NI e s) (hist w') -> Q 0 w') ->
  wp False (MIDI_Device_SendEventPacket task e) Q p w.
Proof.
  intros [Hin _] Hs Hroom Hf HQ. unfold MIDI_Device_SendEventPacket. apply (wp_midi_enter midi_in NI _ _ s); [done|done|]. intros w1 S1 Hs1.
  set (s1 := selecting NI s) in *. change (sizeof MIDI_EventPacket_t) with (Z.of_nat 4).
  apply wp_bind, (wp_stream_write p NI NO size) with (s := s1);
    [lia|intros Q0 s0 w0 Hs0 Hsel0 HQ0; apply (wp_task_served p NI NO size _ _ s0); [done|rewrite Hsel0; exact (proj1 (small_number _ _ Hin))|done]
    |lia|done|done|apply pack_u8|by rewrite pack_event_length|lia|lia|].
  intros [[code b] bp] w2 S2 Hs2 Hc. cbn [fst] in Hc. subst code. cbn [stream_value Z.eqb negb].
  rewrite take_ge, put_all_room in Hs2 by (rewrite ?pack_event_length; cbn; lia).
  apply wp_bind, (wp_room p NI NO size _ _ _ _ Hs2); [done|]. intros w3 S3 Hs3. rewrite negb_involutive. unfold full in *.
  unfold put_item in HQ. cbv zeta in HQ. change (p_open s1) with (p_open s) in *. set (o := p_open s ++ pack e) in *.
  assert (length o = length (p_open s) + 4)%nat as Hlo by (unfold o; by rewrite length_app, pack_event_length).
  destruct (decide (length o = size)) as [Hfull|Hfull].
  - rewrite (bool_decide_true (size <= _)%nat), bool_decide_true in * by (cbn; lia). cbn [when].
    apply wp_bind, (wp_hand_in p NI NO size _ (with_open o s1)); [done|done|]. intros w4 S4 Hs4. apply wp_ret, HQ; [congruence|]. exact Hs4.
  - rewrite (bool_decide_false (size <= _)%nat), bool_decide_false in * by (cbn; lia). cbn [when].
    apply wp_bind, wp_ret, wp_ret, HQ; [congruence|]. exact Hs3.
Qed.

Lemma wp_midi_flush s Q w : midi_at (st w) -> served s (hist w) -> (0 < fuel p)%nat ->
  (forall w', st w' = st w -> served (if bool_decide (p_open s = []) then selecting NI s else submit (selecting NI s)) (hist w') -> Q 0 w') ->
  wp False MIDI_Device_Flush Q p w.
Proof.
  intros [Hin _] Hs Hf HQ. unfold MIDI_Device_Flush. apply (wp_midi_enter midi_in NI _ _ s); [done|done|]. intros w1 S1 Hs1.
  set (s1 := selecting NI s) in *. apply wp_bind, (wp_count_in p NI NO size _ s1); [done|done|]. intros w2 S2 Hs2. change (p_open s1) with (p_open s).
  destruct (Z.eqb_spec (Z.of_nat (length (p_open s))) 0) as [E|E].
  - apply wp_ret, HQ; [congruence|]. rewrite bool_decide_true; [done|]. destruct (p_open s); [done|cbn in E; lia].
  - rewrite bool_decide_false in HQ by (by intros E2; rewrite E2 in E).
    apply wp_bind, (wp_hand_in p NI NO size _ s1); [done|done|]. intros w3 S3 Hs3.
    apply wp_bind, (wp_wait_served p NI NO size _ (submit s1)); [done|by left|done|]. intros w4 S4 Hs4. apply wp_ret, HQ; [congruence|done].
Qed.

(** The bank holds a byte. *)
Lemma wp_holds nf s Q w : served s (hist w) -> p_sel s = NO ->
  (forall w', st w' = st w -> served s (hist w') -> Q (bool_decide (default [] (head (p_waiting s)) <> [])) w') -> wp nf Endpoint_IsReadWriteAllowed Q p w.
Proof.
  intros Hs Hsel HQ. apply (wp_look_bit p NI NO size _ _ _ s); [done|done|]. intros w' Hst Hs'.
  destruct (served_now p NI NO size _ _ Hs) as (_ & _ & _ & Ho & _). destruct (Ho Hsel) as (_ & _ & -> & _). by apply HQ.
Qed.

Lemma wp_receive_event e0 e q ps s Q w : midi_at (st w) -> served s (hist w) -> p_waiting s = (pack e ++ q) :: ps -> in_range e -> (4 < fuel p)%nat ->
  (forall w', st w' = st w -> served (Port NO (p_sent s) (p_open s) (if bool_decide (q = []) then ps else q :: ps)) (hist w') -> Q (true, e) w') ->
  wp False (MIDI_Device_ReceiveEventPacket task e0) Q p w.
Proof.
  intros [_ Hout] Hs Hw He Hf HQ. unfold MIDI_Device_ReceiveEventPacket. apply (wp_midi_enter midi_out NO _ _ s); [done|done|]. intros w1 S1 Hs1.
  set (s1 := selecting NO s) in *. assert (p_waiting s1 = (pack e ++ q) :: ps) as Hw1 by exact Hw.
  assert (pack e ++ q <> []) as Hnn by (intros E; apply (f_equal length) in E; rewrite length_app, pack_event_length in E; cbn in E; lia).
  apply wp_bind, (wp_out p NI NO size _ s1); [done|done|]. intros w2 S2 Hs2. rewrite Hw1, bool_decide_true by done. cbn [negb].
  apply wp_bind, (wp_holds _ s1); [done|done|]. intros w3 S3 Hs3. rewrite Hw1. cbn [head from_option id]. rewrite bool_decide_true by done. cbn [negb].
  change (sizeof MIDI_EventPacket_t) with (Z.of_nat 4). rewrite <- (pack_event_length e). apply wp_bind.
  apply (wp_stream_read p NI NO size task (pack e0) (pack e) q ps s1); [done|done|done|by rewrite !pack_event_length|by rewrite pack_event_length|by rewrite pack_event_length|].
  intros [[code [mem ptr]] bp] w4 S4 Hs4 _ Hmem. cbn [fst snd] in Hmem. subst mem. unfold filled.
  rewrite drop_ge, app_nil_r by (by rewrite !pack_event_length).
  apply wp_bind, (wp_lift _ _ _ e); [rewrite <- (app_nil_r (pack e)); by apply unpack_pack|].
  set (s4 := Port NO (p_sent s1) (p_open s1) (q :: ps)) in *.
  apply wp_bind, (wp_holds _ s4); [done|done|]. intros w5 S5 Hs5. cbn [s4 p_waiting head from_option id].
  destruct q as [|b q].
  - rewrite bool_decide_false by (by intros []). rewrite bool_decide_true in HQ by done. cbn [negb when].
    apply wp_bind, (wp_hand_out p NI NO size Hne _ s4); [done|done|]. intros w6 S6 Hs6. apply wp_ret, HQ; [congruence|done].
  - rewrite bool_decide_true by done. rewrite bool_decide_false in HQ by done. cbn [negb when].
    apply wp_bind, wp_ret, wp_ret, HQ; [congruence|done].
Qed.

End Events.

(** C30: MIDI events cross the bus whole and in order.  For banks that hold a whole
    number of events, sending events and flushing hands over, as the log of register
    accesses shows byte by byte, packets that hold exactly these events, in order, none of them split between two packets and
    no packet empty; every call succeeds and the bank is empty again.  And a
    device that receives such packets returns, one per call, exactly the events
    they hold, releasing each packet with its last event. *)
Theorem midi_events_roundtrip {G} `{UsbStateOk G} `{!MidiDevice G} `{AvrOk} `{!UsbApplication G} (p p' : platform)
    boot_signature_byte_get NI NO m es e0s s s' (w w' : world G) :
  (1 <= m)%nat -> NI <> NO -> midi_at NI NO (st w) -> midi_at NI NO (st w') -> (9 < fuel p)%nat -> (4 < fuel p')%nat ->
  served NI NO (4 * m)%nat p s (hist w) -> p_open s = [] -> served NI NO (4 * m)%nat p' s' (hist w') ->
  Forall in_range es -> length e0s = length es ->
  wp False (rs <- in_turn (MIDI_Device_SendEventPacket (USB_USBTask boot_signature_byte_get)) es;; f <- MIDI_Device_Flush;; ret (rs, f))
    (fun r w1 => r = (replicate (length es) 0, 0) /\ st w1 = st w /\ exists ps, packets_of pack 4 m es ps /\
       handed NI NO (4 * m)%nat (hist w1) = handed NI NO (4 * m)%nat (hist w) ++ ps /\
       served NI NO (4 * m)%nat p (Port NI (p_sent s ++ ps) [] (p_waiting s)) (hist w1)) p w /\
  (packets_of pack 4 m es (p_waiting s') ->
   wp False (in_turn (MIDI_Device_ReceiveEventPacket (USB_USBTask boot_signature_byte_get)) e0s)
    (fun r w1 => r = (fun e => (true, e)) <$> es /\ st w1 = st w' /\ exists s1, served NI NO (4 * m)%nat p' s1 (hist w1) /\ p_waiting s1 = []) p' w').
Proof.
  intros Hm Hne Hat Hat' Hf Hf' Hs Ho Hs' Hr Hl. split.
  - assert (forall l : list MIDI_EventPacket_t, length (items_bytes pack l) = (4 * length l)%nat) as Hlen by (apply items_bytes_length, pack_event_length).
    apply wp_bind, (wp_put_items p pack 4 m NI NO ltac:(lia) Hm pack_event_length (midi_at NI NO) _ 0 es [] s);
      [intros; by eapply wp_send_event|done|done|by rewrite Ho|rewrite Ho; cbn; lia|].
    intros ess cur w1 S1 Hes Hsz Hcur Hs1. set (s1 := Port _ _ _ _) in Hs1. rewrite Hlen in Hcur.
    assert (Forall (fun l : list MIDI_EventPacket_t => l <> []) ess /\ Forall (fun q => (length q <= 4 * m)%nat) (items_bytes pack <$> ess)) as [Hnn Hle].
    { split; [|apply Forall_fmap]; revert Hsz; apply Forall_impl; intros l Hl'; cbn; [intros ->; cbn in Hl'; lia|rewrite Hlen; lia]. }
    apply wp_bind, (wp_midi_flush p NI NO m Hm s1); [by rewrite S1|done|lia|]. intros w2 S2 Hs2. apply wp_ret.
    split; [done|]. split; [congruence|]. cbn [app] in Hes. cbn [s1 p_open] in Hs2.
    enough (exists ps, packets_of pack 4 m es ps /\ served NI NO (4 * m)%nat p (Port NI (p_sent s ++ ps) [] (p_waiting s)) (hist w2)) as (ps & Hps & Hsv).
    { exists ps. split_and!; [done| |done]. by rewrite (served_handed p NI NO _ _ _ Hsv), (served_handed p NI NO _ _ _ Hs). }
    case_bool_decide as Hc.
    + apply (items_bytes_nil pack 4 ltac:(lia) pack_event_length) in Hc as ->.
      exists (items_bytes pack <$> ess). split; [|exact Hs2]. exists ess. rewrite app_nil_r in Hes. by split_and!.
    + exists (items_bytes pack <$> (ess ++ [cur])). split; [|unfold submit in Hs2; cbn [s1 selecting p_sel p_sent p_open p_waiting] in Hs2; rewrite fmap_app; by rewrite <- app_assoc in Hs2].
      exists (ess ++ [cur]). split_and!; [by rewrite concat_app; cbn [concat]; rewrite app_nil_r|done| |].
      * apply Forall_app. split; [done|]. apply Forall_singleton. by intros ->.
      * rewrite fmap_app. apply Forall_app. split; [done|]. apply Forall_singleton. rewrite Hlen. lia.
  - intros (ess & -> & Hw & Hnn & _).
    apply (wp_get_items p' pack 4 m NI NO ltac:(lia) Hm pack_event_length (midi_at NI NO) _ (fun e => (true, e)) in_range e0s ess s');
      [intros; by eapply wp_receive_event|done|done|done|done|done|done|]. intros w1 s1 S1 Hs1 Hw1.
    split; [done|]. split; [done|]. by exists s1.
Qed.

(** An empty packet stops reception.  A packet without data from the host is
    legal on a bulk endpoint, yet [MIDI_Device_ReceiveEventPacket] returns before
    it releases one: however often the device asks, it gets no event and its
    argument is left as it was, while the packets behind the empty one keep
    waiting. *)
Theorem midi_empty_packet_blocks {G} `{UsbStateOk G} `{!MidiDevice G} `{AvrOk} `{!UsbApplication G} (p : platform)
    boot_signature_byte_get NI NO m e0s ps s (w : world G) :
  NI <> NO -> midi_at NI NO (st w) -> served NI NO (4 * m)%nat p s (hist w) -> p_waiting s = [] :: ps ->
  wp False (in_turn (MIDI_Device_ReceiveEventPacket (USB_USBTask boot_signature_byte_get)) e0s)
    (fun r w1 => r = (fun e => (false, e)) <$> e0s /\ st w1 = st w /\ exists s1, served NI NO (4 * m)%nat p s1 (hist w1) /\ p_waiting s1 = [] :: ps) p w.
Proof.
  intros Hne [Hin Hout] Hs Hw. revert s w Hin Hout Hs Hw. induction e0s as [|e0 e0s IH]; intros s w Hin Hout Hs Hw; cbn [in_turn].
  { apply wp_ret. split; [done|]. split; [done|]. by exists s. }
  apply wp_bind. unfold MIDI_Device_ReceiveEventPacket at 1. apply (wp_midi_enter p NI NO m midi_out NO _ _ s); [done|done|]. intros w1 S1 Hs1.
  set (s1 := selecting NO s) in *. assert (p_waiting s1 = [] :: ps) as Hw1 by exact Hw.
  apply wp_bind, (wp_out p NI NO (4 * m)%nat _ s1); [done|done|]. intros w2 S2 Hs2. rewrite Hw1, bool_decide_true by done. cbn [negb].
  apply wp_bind, (wp_holds p NI NO m _ s1); [done|done|]. intros w3 S3 Hs3. rewrite Hw1. cbn [head from_option id].
  rewrite bool_decide_false by (by intros []). cbn [negb]. apply wp_ret, wp_bind. eapply wp_mono.
  - apply (IH s1 w3); [congruence|congruence|done|done].
  - intros r w4 (-> & S4 & Hs4). apply wp_ret. split; [done|]. split; [congruence|done].
Qed.

(** ** Concrete runs *)

Section Runs.
#[local] Instance midi_chip : Avr := datasheet USB_SERIES_2_AVR.
#[local] Instance midi_chip_ok : AvrOk := datasheet_ok USB_SERIES_2_AVR.

(** A program with one MIDI interface. *)
Record midi_program := MidiProgram { mp_usb : usb_globals; mp_midi : USB_ClassInfo_MIDI_Device_t }.
#[local] Instance midi_program_usb : UsbState midi_program :=
  {| usb := mp_usb; put_usb u g := MidiProgram u (mp_midi g) |}.
#[local] Instance midi_program_usb_ok : UsbStateOk midi_program.
Proof. split; [done|done|]. by intros []. Qed.
#[local] Instance midi_program_midi : MidiDevice midi_program :=
  {| midi := mp_midi; put_midi i g := MidiProgram (mp_usb g) i |}.
#[local] Instance midi_program_app : UsbApplication midi_program := {|
  EVENT_USB_Device_ControlRequest := MIDI_Device_ProcessControlRequest;
  EVENT_USB_Device_ConfigurationChanged := MIDI_Device_ConfigureEndpoints;;; ret tt;
  EVENT_USB_Device_Connect := ret tt; EVENT_USB_Device_Disconnect := ret tt; EVENT_USB_Device_Reset := ret tt;
  EVENT_USB_Device_Suspend := ret tt; EVENT_USB_Device_WakeUp := ret tt; EVENT_USB_Device_StartOfFrame := ret tt;
  GetDescriptor _ _ := ([], 0)
|}.

Definition keyboard : world midi_program :=
  World (MidiProgram (UsbGlobals (Request 0 0 0 0 0) 1 false false)
    (MidiInfo (MidiConfig 1 (EndpointEntry 0x83 8 EP_TYPE_BULK 1) (EndpointEntry 0x04 8 EP_TYPE_BULK 1)) (MidiState 0))) [].

(** Three notes in banks of two, and the same three back. *)
Definition notes : list MIDI_EventPacket_t := [MidiEvent 9 0x90 60 64; MidiEvent 8 0x80 60 0; MidiEvent 9 0x90 62 64].
Definition silence : list MIDI_EventPacket_t := replicate 3 (MidiEvent 0 0 0 0).
Definition notes_packets : list (list Z) := [[9; 0x90; 60; 64; 8; 0x80; 60; 0]; [9; 0x90; 62; 64]].

Lemma notes_packed : packets_of pack 4 2 notes notes_packets.
Proof.
  exists [[MidiEvent 9 0x90 60 64; MidiEvent 8 0x80 60 0]; [MidiEvent 9 0x90 62 64]]. split_and!; [done|done|by repeat constructor|].
  repeat constructor.
Qed.

Lemma midi_events_roundtrip_witness :
  let play := port_bus 3 4 8 (Port 0 [] [] []) 20 in let hear := port_bus 3 4 8 (Port 0 [] [] notes_packets) 20 in
  wp False (rs <- in_turn (MIDI_Device_SendEventPacket (USB_USBTask (fun _ => 0))) notes;; f <- MIDI_Device_Flush;; ret (rs, f))
    (fun r w1 => r = ([0; 0; 0], 0) /\ concat (handed 3 4 8 (hist w1)) = concat notes_packets) play keyboard /\
  wp False (in_turn (MIDI_Device_ReceiveEventPacket (USB_USBTask (fun _ => 0))) silence)
    (fun r w1 => r = (fun e => (true, e)) <$> notes) hear keyboard.
Proof.
  intros play hear. refine (_ (midi_events_roundtrip play hear (fun _ => 0) 3 4 2 notes silence (Port 0 [] [] []) (Port 0 [] [] notes_packets)
    keyboard keyboard _ _ _ _ _ _ _ _ _ _ _)).
  - intros [Hsend Hget]. split.
    + eapply wp_mono; [exact Hsend|]. intros r w1 (-> & _ & ps & (ess & Hes & -> & _) & Hh & _). split; [reflexivity|].
      change (4 * 2)%nat with 8%nat in Hh. rewrite Hh. change (handed 3 4 8 (hist keyboard)) with (@nil (list Z)). cbn [app].
      change (concat notes_packets) with (items_bytes pack notes). rewrite Hes. symmetry. apply items_bytes_concat.
    + eapply wp_mono; [exact (Hget notes_packed)|]. by intros r w1 [-> _].
  - lia.
  - lia.
  - by split.
  - by split.
  - cbn. lia.
  - cbn. lia.
  - apply port_bus_served; [lia|lia|]. by apply (bool_decide_unpack _).
  - done.
  - apply port_bus_served; [lia|lia|]. by apply (bool_decide_unpack _).
  - by apply (bool_decide_unpack _).
  - done.
Defined.

Lemma midi_empty_packet_blocks_witness :
  let p := port_bus 3 4 8 (Port 0 [] [] ([] :: notes_packets)) 20 in
  wp False (in_turn (MIDI_Device_ReceiveEventPacket (USB_USBTask (fun _ => 0))) silence)
    (fun r w1 => r = (fun e => (false, e)) <$> silence) p keyboard.
Proof.
  intros p. eapply wp_mono.
  - refine (midi_empty_packet_blocks p (fun _ => 0) 3 4 2 silence notes_packets (Port 0 [] [] ([] :: notes_packets)) keyboard _ _ _ eq_refl).
    + lia.
    + by split.
    + apply port_bus_served; [lia|lia|]. by apply (bool_decide_unpack _).
  - by intros r w1 [-> _].
Defined.
End Runs.
