(* ===== verification/AudioClassDevice.v ===== *)
(** * The audio class driver for devices (LUFA AudioClassDevice.c)

    Requests for the properties of entities and streaming endpoints, which the
    application's callbacks answer, the switch of the stream, and samples of one,
    two or three bytes over a pair of isochronous endpoints. *)

From S2P Require Import Prelude StdDescriptors HIDClass Descriptors Machine UsbCore Endpoint EndpointStream DeviceStandardReq StreamTransfers BulkPort.

Definition AUDIO_REQ_SetCurrent : Z := 0x01.
Definition AUDIO_REQ_SetMinimum : Z := 0x02.
Definition AUDIO_REQ_SetMaximum : Z := 0x03.
Definition AUDIO_REQ_SetResolution : Z := 0x04.
Definition AUDIO_REQ_GetCurrent : Z := 0x81.
Definition AUDIO_REQ_GetMinimum : Z := 0x82.
Definition AUDIO_REQ_GetMaximum : Z := 0x83.
Definition AUDIO_REQ_GetResolution : Z := 0x84.
Definition AUDIO_REQ_GetStatus : Z := 0xFF.

Record audio_config := AudioConfig {
  ControlInterfaceNumber : Z;
  StreamingInterfaceNumber : Z;
  DataINEndpoint : USB_Endpoint_Table_t;
  DataOUTEndpoint : USB_Endpoint_Table_t
}.
Record audio_state := AudioState { InterfaceEnabled : bool }.
Record USB_ClassInfo_Audio_Device_t := AudioInfo { Config : audio_config; State : audio_state }.

Definition set_enabled (b : bool) (i : USB_ClassInfo_Audio_Device_t) : USB_ClassInfo_Audio_Device_t :=
  AudioInfo (Config i) (AudioState b).

Class AudioDevice (G : Type) := {
  audio : G -> USB_ClassInfo_Audio_Device_t;
  put_audio : USB_ClassInfo_Audio_Device_t -> G -> G
}.
Class AudioDeviceOk (G : Type) `{UsbState G} `{AudioDevice G} : Prop := {
  audio_put i g : audio (put_audio i g) = i;
  usb_put_audio i g : usb (put_audio i g) = usb g
}.

(** The signed value of a byte or of two. *)
Definition s8 (z : Z) : Z := if z <? 128 then z else z - 256.
Definition s16 (z : Z) : Z := if z <? 32768 then z else z - 65536.

Section Driver.
Context {G : Type} `{UsbState G} `{AudioDevice G} `{Avr}.
(** The callbacks: property, endpoint address or entity, parameter, and
    [*DataLength] with [Data] unless they are null; the answer, and what
    [*DataLength] and [Data] hold afterwards. *)
Variables CALLBACK_Audio_Device_GetSetEndpointProperty CALLBACK_Audio_Device_GetSetInterfaceProperty :
  Z -> Z -> Z -> option (Z * list Z) -> M G (bool * (Z * list Z)).
Variable EVENT_Audio_Device_StreamStartStop : M G unit.
(** The contents of an uninitialised array of a given size. *)
Variable uninitialised : nat -> list Z.
(** Whether the right operand of the expression of [Audio_Device_ReadSample24] is
    evaluated first; the language leaves the order open. *)
Variable right_first : bool.

Definition get_audio : M G USB_ClassInfo_Audio_Device_t := g <- mget;; ret (audio g).
Definition mod_audio (f : USB_ClassInfo_Audio_Device_t -> USB_ClassInfo_Audio_Device_t) : M G unit :=
  mmodify (fun g => put_audio (f (audio g)) g).

(** ** Control requests *)

(** Whether the request is for this interface or one of its endpoints; requests
    with another recipient pass. *)
Definition for_us (r : USB_Request_Header_t) (c : audio_config) : bool :=
  let recipient := Z.land (bmRequestType r) CONTROL_REQTYPE_RECIPIENT in
  let index := Z.land (wIndex r) 0xFF in
  if recipient =? REQREC_INTERFACE then
    (index =? ControlInterfaceNumber c) || (index =? StreamingInterfaceNumber c)
  else if recipient =? REQREC_ENDPOINT then
    (index =? Entry_Address (DataINEndpoint c)) || (index =? Entry_Address (DataOUTEndpoint c))
  else true.

(** The body of the two branches of a request that sets a property, for the
    callback of the recipient with its three arguments. *)
Definition set_property (callback : option (Z * list Z) -> M G (bool * (Z * list Z))) : M G unit :=
  x <- callback None;;
  when (fst x) (
    r <- get_request;;
    let ValueLength := wLength r in
    Endpoint_ClearSETUP;;;
    x <- Endpoint_Read_Control_Stream_LE (uninitialised (Z.to_nat ValueLength)) ValueLength;;
    let '(_, (Value, _)) := x in
    Endpoint_ClearIN;;;
    callback (Some (ValueLength, Value));;;
    ret tt).

Definition get_property (callback : option (Z * list Z) -> M G (bool * (Z * list Z))) : M G unit :=
  r <- get_request;;
  let ValueLength := wLength r in
  x <- callback (Some (ValueLength, uninitialised (Z.to_nat ValueLength)));;
  let '(ok, (ValueLength, Value)) := x in
  when ok (
    Endpoint_ClearSETUP;;;
    Endpoint_Write_Control_Stream_LE Value ValueLength;;;
    Endpoint_ClearOUT).

(** The callback of the recipient. *)
Definition with_recipient (r : USB_Request_Header_t) (body : (option (Z * list Z) -> M G (bool * (Z * list Z))) -> M G unit) : M G unit :=
  let recipient := Z.land (bmRequestType r) CONTROL_REQTYPE_RECIPIENT in
  if recipient =? REQREC_ENDPOINT then
    body (CALLBACK_Audio_Device_GetSetEndpointProperty (bRequest r) (u8 (wIndex r)) (u8 (Z.shiftr (wValue r) 8)))
  else if recipient =? REQREC_INTERFACE then
    body (CALLBACK_Audio_Device_GetSetInterfaceProperty (bRequest r) (u8 (Z.shiftr (wIndex r) 8)) (wValue r))
  else ret tt.

Definition Audio_Device_ProcessControlRequest : M G unit :=
  setup <- Endpoint_IsSETUPReceived;;
  if negb setup then ret tt else
  r <- get_request;;
  i <- get_audio;;
  if negb (for_us r (Config i)) then ret tt else
  if bRequest r =? request_code REQ_SetInterface then
    when (bmRequestType r =? reqtype REQDIR_HOSTTODEVICE REQTYPE_STANDARD REQREC_INTERFACE) (
      Endpoint_ClearSETUP;;;
      Endpoint_ClearStatusStage;;;
      r <- get_request;;
      mod_audio (set_enabled (negb (Z.land (wValue r) 0xFF =? 0)));;;
      EVENT_Audio_Device_StreamStartStop)
  else if bRequest r =? AUDIO_REQ_GetStatus then
    when ((bmRequestType r =? reqtype REQDIR_HOSTTODEVICE REQTYPE_CLASS REQREC_INTERFACE) ||
          (bmRequestType r =? reqtype REQDIR_HOSTTODEVICE REQTYPE_CLASS REQREC_ENDPOINT)) (
      Endpoint_ClearSETUP;;;
      Endpoint_ClearStatusStage)
  else if bool_decide (bRequest r ∈ [AUDIO_REQ_SetCurrent; AUDIO_REQ_SetMinimum; AUDIO_REQ_SetMaximum; AUDIO_REQ_SetResolution]) then
    with_recipient r set_property
  else if bool_decide (bRequest r ∈ [AUDIO_REQ_GetCurrent; AUDIO_REQ_GetMinimum; AUDIO_REQ_GetMaximum; AUDIO_REQ_GetResolution]) then
    with_recipient r get_property
  else ret tt.

(** ** Configuration and samples *)

Definition audio_types (i : USB_ClassInfo_Audio_Device_t) : USB_ClassInfo_Audio_Device_t :=
  let c := Config i in
  AudioInfo (AudioConfig (ControlInterfaceNumber c) (StreamingInterfaceNumber c)
    (of_type EP_TYPE_ISOCHRONOUS (DataINEndpoint c)) (of_type EP_TYPE_ISOCHRONOUS (DataOUTEndpoint c))) (AudioState false).

Definition Audio_Device_ConfigureEndpoints : M G bool :=
  mod_audio audio_types;;;
  i <- get_audio;;
  ok <- Endpoint_ConfigureEndpointTable [DataINEndpoint (Config i)];;
  if negb ok then ret false else
  Endpoint_ConfigureEndpointTable [DataOUTEndpoint (Config i)].

Definition Audio_Device_USBTask : M G unit := ret tt.

Definition audio_in (g : G) : Z := Entry_Address (DataINEndpoint (Config (audio g))).
Definition audio_out (g : G) : Z := Entry_Address (DataOUTEndpoint (Config (audio g))).
(** The guard of the two functions that select an endpoint. *)
Definition streaming : M G bool :=
  ok <- is_DeviceState DEVICE_STATE_Configured;;
  if negb ok then ret false else i <- get_audio;; ret (InterfaceEnabled (State i)).

Definition Audio_Device_IsSampleReceived : M G bool :=
  ok <- streaming;;
  if negb ok then ret false else
  select audio_out;;;
  Endpoint_IsOUTReceived.
Definition Audio_Device_IsReadyForNextSample : M G bool :=
  ok <- streaming;;
  if negb ok then ret false else
  select audio_in;;;
  Endpoint_IsINReady.

(** An empty bank is released. *)
Definition sample_read (Sample : Z) : M G Z :=
  n <- Endpoint_BytesInEndpoint;;
  when (n =? 0) Endpoint_ClearOUT;;;
  ret Sample.
Definition Audio_Device_ReadSample8 : M G Z :=
  v <- Endpoint_Read_8;; sample_read (s8 v).
Definition Audio_Device_ReadSample16 : M G Z :=
  v <- Endpoint_Read_16_LE;; sample_read (s16 v).
Definition Audio_Device_ReadSample24 : M G Z :=
  x <- (if right_first then low <- Endpoint_Read_16_LE;; high <- Endpoint_Read_8;; ret (high, low)
        else high <- Endpoint_Read_8;; low <- Endpoint_Read_16_LE;; ret (high, low));;
  let '(high, low) := x in
  sample_read (Z.lor (u32 (Z.shiftl high 16)) low).

(** A full bank is handed over. *)
Definition sample_written : M G unit :=
  n <- Endpoint_BytesInEndpoint;;
  i <- get_audio;;
  when (n =? Entry_Size (DataINEndpoint (Config i))) Endpoint_ClearIN.
Definition Audio_Device_WriteSample8 (Sample : Z) : M G unit :=
  Endpoint_Write_8 (u8 Sample);;; sample_written.
Definition Audio_Device_WriteSample16 (Sample : Z) : M G unit :=
  Endpoint_Write_16_LE (u16 Sample);;; sample_written.
Definition Audio_Device_WriteSample24 (Sample : Z) : M G unit :=
  Endpoint_Write_16_LE (u16 Sample);;; Endpoint_Write_8 (u8 (Z.shiftr Sample 16));;; sample_written.
End Driver.

(** ** Samples over the bus *)

Inductive sample_width := Sample8 | Sample16 | Sample24.
Definition width_bytes (k : sample_width) : nat := match k with Sample8 => 1 | Sample16 => 2 | Sample24 => 3 end.
Definition sample_bytes (k : sample_width) (x : Z) : list Z := le_bytes (width_bytes k) x.
Definition sample_range (k : sample_width) (x : Z) : Prop :=
  let b := 2 ^ (8 * Z.of_nat (width_bytes k) - 1) in - b <= x < b.

(** What reading the bytes of the sample [x] returns: the sample, for one or two
    bytes.  Three bytes are not extended by their sign, and are put together in
    another order when the left operand is evaluated first. *)
Definition heard (right_first : bool) (k : sample_width) (x : Z) : Z :=
  match k with
  | Sample24 => if right_first then x mod 2 ^ 24 else of_le_bytes (rotate 1 (sample_bytes Sample24 x))
  | _ => x
  end.

Section Calls.
Context {G : Type} `{UsbState G} `{AudioDevice G} `{Avr} (right_first : bool).
Definition WriteSample (k : sample_width) : Z -> M G unit :=
  match k with Sample8 => Audio_Device_WriteSample8 | Sample16 => Audio_Device_WriteSample16 | Sample24 => Audio_Device_WriteSample24 end.
Definition ReadSample (k : sample_width) : M G Z :=
  match k with Sample8 => Audio_Device_ReadSample8 | Sample16 => Audio_Device_ReadSample16 | Sample24 => Audio_Device_ReadSample24 right_first end.

(** The documented use: a sample is moved right after the function that selects
    the endpoint said it can be. *)
Definition play (k : sample_width) (x : Z) : M G bool :=
  ready <- Audio_Device_IsReadyForNextSample;;
  if ready then WriteSample k x;;; ret true else ret false.
Definition record (k : sample_width) : M G (option Z) :=
  ready <- Audio_Device_IsSampleReceived;;
  if ready then x <- ReadSample k;; ret (Some x) else ret None.
End Calls.

Section Samples.
Context {G : Type} `{UsbStateOk G} `{!AudioDevice G} `{AvrOk} (p : platform).
Variables (k : sample_width) (m : nat) (NI NO : Z).
Context (Hne : NI <> NO) (Hm : (1 <= m)%nat).
Abbreviation n := (width_bytes k).
Abbreviation size := (n * m)%nat.
Abbreviation served := (served NI NO size p).
Implicit Types (w : world G) (s : port).

(** The stream is on, its endpoints are [NI] and [NO], and the bank has the size of
    the table. *)
Definition audio_on (g : G) : Prop :=
  InterfaceEnabled (State (audio g)) = true /\ Z.land (audio_in g) ENDPOINT_EPNUM_MASK = NI /\
  Z.land (audio_out g) ENDPOINT_EPNUM_MASK = NO /\ Entry_Size (DataINEndpoint (Config (audio g))) = Z.of_nat size.

Lemma wp_streaming Q s w : audio_on (st w) -> served s (hist w) ->
  (forall w', st w' = st w -> served s (hist w') -> Q true w') -> wp False streaming Q p w.
Proof.
  intros (Hon & _) Hs HQ. unfold streaming, is_DeviceState. apply wp_bind, wp_bind, (wp_look p NI NO size _ _ s); [done|done|]. intros w1 S1 Hs1.
  apply wp_ret. destruct (served_now p NI NO size _ _ Hs) as (-> & _). rewrite Z.eqb_refl. cbn [negb].
  unfold get_audio. apply wp_bind, wp_bind, wp_get, wp_ret, wp_ret. rewrite S1, Hon. by apply HQ.
Qed.

End Samples.

(** Every function writes the bytes of its sample, and looks at the bank. *)
Lemma wp_write_sample {G} `{UsbStateOk G} `{!AudioDevice G} `{AvrOk} p NI NO size k x s Q (w : world G) :
  served NI NO size p s (hist w) -> p_sel s = NI -> (length (p_open s) + width_bytes k <= size)%nat ->
  (forall w', st w' = st w -> served NI NO size p (with_open (p_open s ++ sample_bytes k x) s) (hist w') -> wp False sample_written Q p w') ->
  wp False (WriteSample k x) Q p w.
Proof.
  intros Hs Hsel Hroom HQ. assert (le_bytes 2 (u16 x) = le_bytes 2 x) as E2 
    by (cbn [le_bytes]; assert (u8 (u16 x) = u8 x) as -> by word_lia; assert (u8 (u16 x / 256) = u8 (x / 256)) as -> by word_lia; done).
  destruct k; cbn [WriteSample]; unfold Audio_Device_WriteSample8, Audio_Device_WriteSample16, Audio_Device_WriteSample24.
  - apply wp_bind, (fills_wr p NI NO size (u8 x) _ s); [done|done|done|]. assert ([u8 (u8 x)] = sample_bytes Sample8 x) as -> by (unfold sample_bytes; cbn; f_equal; word_lia). exact HQ.
  - apply wp_bind, (fills_16 p NI NO size (u16 x) _ s); [done|done|done|]. rewrite E2. exact HQ.
  - apply wp_bind, (fills_16 p NI NO size (u16 x) _ s); [done|done|cbn in *; lia|]. intros w1 S1 Hs1.
    apply wp_bind. eapply (fills_wr p NI NO size (u8 (Z.shiftr x 16))); [exact Hs1|done|cbn [with_open p_open]; rewrite length_app, le_bytes_length; cbn in *; lia|].
    intros w2 S2 Hs2. apply HQ; [congruence|]. cbn [with_open p_open p_sel p_sent p_waiting] in Hs2. rewrite E2, <- app_assoc in Hs2.
    assert (le_bytes 2 x ++ [u8 (u8 (Z.shiftr x 16))] = sample_bytes Sample24 x) as Es; [|by rewrite Es in Hs2].
    unfold sample_bytes. cbn [le_bytes width_bytes app]. rewrite Z.shiftr_div_pow2 by lia. change (2 ^ 16) with (256 * 256).
    rewrite <- Z.div_div by lia. by rewrite (u8_small (u8 _)) by apply u8_range.
Qed.

Lemma lor_shifted h l n : 0 <= n -> 0 <= l < 2 ^ n -> Z.lor (h * 2 ^ n) l = h * 2 ^ n + l.
Proof.
  intros Hn Hl. assert (Z.land (h * 2 ^ n) l = 0) as E; [|by rewrite Z.add_nocarry_lxor, Z.lxor_lor].
  apply Z.bits_inj'. intros i Hi. rewrite Z.land_spec, Z.bits_0. destruct (Z.ltb_spec i n) as [Hlt|Hge]; [by rewrite Z.mul_pow2_bits_low by lia|].
  assert (Z.testbit l i = false) as ->; [|by rewrite andb_false_r]. destruct (decide (l = 0)) as [->|Hne]; [apply Z.bits_0|].
  apply Z.bits_above_log2; [lia|]. apply Z.lt_le_trans with n; [apply Z.log2_lt_pow2; lia|done].
Qed.

(** Every function reads the bytes of its sample, and looks at the bank. *)
Lemma wp_read_sample {G} `{UsbStateOk G} `{!AudioDevice G} `{AvrOk} p right_first NI NO size k x q ps s Q (w : world G) :
  served NI NO size p s (hist w) -> p_sel s = NO -> p_waiting s = (sample_bytes k x ++ q) :: ps -> sample_range k x ->
  (forall w', st w' = st w -> served NI NO size p (Port NO (p_sent s) (p_open s) (q :: ps)) (hist w') -> wp False (sample_read (heard right_first k x)) Q p w') ->
  wp False (ReadSample right_first k) Q p w.
Proof.
  intros Hs Hsel Hw Hx HQ. destruct k; cbn [ReadSample]; unfold Audio_Device_ReadSample8, Audio_Device_ReadSample16, Audio_Device_ReadSample24, sample_range in *.
  - apply wp_bind, (takes_8 p NI NO size _ (sample_bytes Sample8 x) q ps s); [done|done|done|done|].
    assert (s8 (of_le_bytes (sample_bytes Sample8 x)) = x) as ->; [|exact HQ]. unfold sample_bytes, s8. cbn [width_bytes le_bytes of_le_bytes].
    cbn in Hx. destruct (Z.ltb_spec (u8 x + 256 * 0) 128); word_lia.
  - apply wp_bind, (takes_16 p NI NO size _ (sample_bytes Sample16 x) q ps s); [done|done|done|done|].
    assert (s16 (of_le_bytes (sample_bytes Sample16 x)) = x) as ->; [|exact HQ]. unfold sample_bytes, s16. cbn [width_bytes le_bytes of_le_bytes].
    cbn in Hx. destruct (Z.ltb_spec (u8 x + 256 * (u8 (x / 256) + 256 * 0)) 32768); word_lia.
  - set (b0 := u8 x). set (b1 := u8 (x / 256)). set (b2 := u8 (x / 256 / 256)). change (sample_bytes Sample24 x) with [b0; b1; b2] in *.
    assert (forall high low, is_u8 high -> is_u16 low -> Z.lor (u32 (Z.shiftl high 16)) low = low + 65536 * high) as Hlor.
    { intros high low Hh Hlow. rewrite Z.shiftl_mul_pow2 by lia. rewrite u32_small by (change (2 ^ 16) with 65536; word_lia).
      rewrite lor_shifted by (lia || exact Hlow). lia. }
    destruct right_first; apply wp_bind.
    + apply wp_bind, (takes_16 p NI NO size _ [b0; b1] (b2 :: q) ps s); [done|done|done|done|]. intros w1 S1 Hs1.
      apply wp_bind, (takes_8 p NI NO size _ [b2] q ps _ _ Hs1); [done|done|done|]. intros w2 S2 Hs2. apply wp_ret. rewrite Hlor.
      * assert (of_le_bytes [b0; b1] + 65536 * of_le_bytes [b2] = heard true Sample24 x) as ->; [|apply HQ; [congruence|done]].
        cbn [heard of_le_bytes]. unfold b0, b1, b2. change (2 ^ 24) with 16777216. word_lia.
      * cbn [of_le_bytes]. unfold b2. word_lia.
      * cbn [of_le_bytes]. unfold b0, b1. word_lia.
    + apply wp_bind, (takes_8 p NI NO size _ [b0] (b1 :: b2 :: q) ps s); [done|done|done|done|]. intros w1 S1 Hs1.
      apply wp_bind, (takes_16 p NI NO size _ [b1; b2] q ps _ _ Hs1); [done|done|done|]. intros w2 S2 Hs2. apply wp_ret. rewrite Hlor.
      * assert (of_le_bytes [b1; b2] + 65536 * of_le_bytes [b0] = heard false Sample24 x) as ->; [|apply HQ; [congruence|done]].
        cbn [heard]. change (sample_bytes Sample24 x) with [b0; b1; b2]. change (rotate 1 [b0; b1; b2]) with [b1; b2; b0]. cbn [of_le_bytes]. lia.
      * cbn [of_le_bytes]. unfold b0. word_lia.
      * cbn [of_le_bytes]. unfold b1, b2. word_lia.
Qed.

Lemma width_pos k : (1 <= width_bytes k)%nat.
Proof. destruct k; cbn; lia. Qed.
Lemma sample_bytes_length k x : length (sample_bytes k x) = width_bytes k.
Proof. apply le_bytes_length. Qed.

Section Streaming.
Context {G : Type} `{UsbStateOk G} `{!AudioDevice G} `{AvrOk} (p : platform) (right_first : bool).
Variables (k : sample_width) (m : nat) (NI NO : Z).
Context (Hne : NI <> NO) (Hm : (1 <= m)%nat).
Abbreviation size := (width_bytes k * m)%nat.
Abbreviation served := (served NI NO size p).
Implicit Types (w : world G) (s : port).

Lemma wp_play x s Q w : audio_on k m NI NO (st w) -> served s (hist w) -> (length (p_open s) + width_bytes k <= size)%nat ->
  (forall w', st w' = st w -> served (put_item (sample_bytes k) (width_bytes k) m NI x s) (hist w') -> Q true w') ->
  wp False (play k x) Q p w.
Proof.
  intros Hon Hs Hroom HQ. pose proof Hon as (_ & Hin & _ & Hsize). unfold play, Audio_Device_IsReadyForNextSample.
  apply wp_bind, wp_bind, (wp_streaming p k m NI NO _ s); [done|done|]. intros w1 S1 Hs1. cbn [negb].
  apply wp_bind, (wp_pick p NI NO size _ _ NI s); [done|rewrite S1; by apply small_number|]. intros w2 S2 Hs2.
  set (s1 := selecting NI s) in *. unfold Endpoint_IsINReady. apply (wp_look_bit p NI NO size _ _ _ s1); [done|done|]. intros w3 S3 Hs3.
  destruct (served_now p NI NO size _ _ Hs2) as (_ & _ & Hi & _). destruct (Hi eq_refl) as (_ & -> & _).
  apply wp_bind, (wp_write_sample p NI NO size k x s1); [done|done|done|]. intros w4 S4 Hs4.
  set (o := p_open s ++ sample_bytes k x). change (p_open s1) with (p_open s) in Hs4. fold o in Hs4.
  unfold sample_written. apply wp_bind, (wp_count_in p NI NO size _ (with_open o s1)); [done|done|]. intros w5 S5 Hs5. cbn [with_open p_open].
  unfold get_audio. apply wp_bind, wp_bind, wp_get, wp_ret. rewrite S5, S4, S3, S2, S1, Hsize. unfold put_item in HQ. cbv zeta in HQ. fold o in HQ.
  destruct (Z.eqb_spec (Z.of_nat (length o)) (Z.of_nat size)) as [E|E]; cbn [when].
  - rewrite bool_decide_true in HQ by lia. apply (wp_hand_in p NI NO size _ (with_open o s1)); [done|done|]. intros w6 S6 Hs6.
    apply wp_ret, HQ; [congruence|exact Hs6].
  - rewrite bool_decide_false in HQ by lia. apply wp_ret, wp_ret, HQ; [congruence|exact Hs5].
Qed.

Lemma wp_record x q ps s Q w : audio_on k m NI NO (st w) -> served s (hist w) -> p_waiting s = (sample_bytes k x ++ q) :: ps -> sample_range k x ->
  (forall w', st w' = st w -> served (Port NO (p_sent s) (p_open s) (if bool_decide (q = []) then ps else q :: ps)) (hist w') ->
     Q (Some (heard right_first k x)) w') ->
  wp False (record right_first k) Q p w.
Proof.
  intros Hon Hs Hw Hx HQ. pose proof Hon as (_ & _ & Hout & _). unfold record, Audio_Device_IsSampleReceived.
  apply wp_bind, wp_bind, (wp_streaming p k m NI NO _ s); [done|done|]. intros w1 S1 Hs1. cbn [negb].
  apply wp_bind, (wp_pick p NI NO size _ _ NO s); [done|rewrite S1; by apply small_number|]. intros w2 S2 Hs2.
  set (s1 := selecting NO s) in *. apply (wp_out p NI NO size _ s1); [done|done|]. intros w3 S3 Hs3.
  change (p_waiting s1) with (p_waiting s). rewrite bool_decide_true by (by rewrite Hw).
  apply wp_bind, (wp_read_sample p right_first NI NO size k x q ps s1); [done|done|done|done|]. intros w4 S4 Hs4.
  set (s4 := Port NO _ _ _) in Hs4. unfold sample_read. apply wp_bind, (wp_count_out p NI NO size _ s4); [done|done|]. intros w5 S5 Hs5. cbn [s4 p_waiting head from_option id].
  destruct q as [|b q]; cbn [length Z.of_nat Z.eqb when].
  - rewrite bool_decide_true in HQ by done. apply wp_bind, (wp_hand_out p NI NO size Hne _ s4); [done|done|]. intros w6 S6 Hs6.
    apply wp_ret, wp_ret, HQ; [congruence|exact Hs6].
  - rewrite bool_decide_false in HQ by done. apply wp_bind, wp_ret, wp_ret, wp_ret, HQ; [congruence|exact Hs5].
Qed.
End Streaming.

(** C31: samples cross the bus in order.  While the stream is on and the size of the
    banks is a number of samples, playing samples one by one, each as the
    functions document it, always finds the bank ready and hands over, as the log of
    register accesses shows byte by byte, exactly the bytes of the samples in full
    packets, what is left being in the bank;
    and recording from packets that hold whole samples returns them one by one,
    releasing each packet with its last sample: samples of one or two bytes as
    they were played.  Those of three bytes come back without their sign, and,
    when the compiler evaluates the left operand first, with their bytes in
    another order. *)
Theorem audio_samples_cross {G} `{UsbStateOk G} `{!AudioDevice G} `{AvrOk} (p p' : platform) right_first k m NI NO xs s s' (w w' : world G) :
  (1 <= m)%nat -> NI <> NO -> audio_on k m NI NO (st w) -> audio_on k m NI NO (st w') ->
  served NI NO (width_bytes k * m)%nat p s (hist w) -> p_open s = [] -> served NI NO (width_bytes k * m)%nat p' s' (hist w') ->
  Forall (sample_range k) xs ->
  wp False (in_turn (play k) xs)
    (fun r w1 => r = replicate (length xs) true /\ st w1 = st w /\ exists ps rest sel,
       concat ps ++ rest = items_bytes (sample_bytes k) xs /\ Forall (fun q => length q = (width_bytes k * m)%nat) ps /\ (length rest < width_bytes k * m)%nat /\
       handed NI NO (width_bytes k * m)%nat (hist w1) = handed NI NO (width_bytes k * m)%nat (hist w) ++ ps /\
       p_open (replay NI NO (width_bytes k * m)%nat (hist w1)) = rest /\
       served NI NO (width_bytes k * m)%nat p (Port sel (p_sent s ++ ps) rest (p_waiting s)) (hist w1)) p w /\
  (packets_of (sample_bytes k) (width_bytes k) m xs (p_waiting s') ->
   wp False (in_turn (fun _ : unit => record right_first k) (replicate (length xs) tt))
    (fun r w1 => r = (fun x => Some (heard right_first k x)) <$> xs /\ st w1 = st w' /\
       exists s1, served NI NO (width_bytes k * m)%nat p' s1 (hist w1) /\ p_waiting s1 = []) p' w').
Proof.
  intros Hm Hne Hon Hon' Hs Ho Hs' Hx. pose proof (width_pos k) as Hn. assert (forall x, length (sample_bytes k x) = width_bytes k) as Hb by (apply sample_bytes_length).
  split.
  - apply (wp_put_items p (sample_bytes k) (width_bytes k) m NI NO Hn Hm Hb (audio_on k m NI NO) _ true xs [] s);
      [intros x0 s0 Q0 w0; by apply (wp_play p k m NI NO Hm)|done|done|by rewrite Ho|rewrite Ho; cbn; nia|].
    intros ess cur w1 S1 Hes Hsz Hcur Hs1. split; [done|]. split; [done|].
    eexists (items_bytes (sample_bytes k) <$> ess), (items_bytes (sample_bytes k) cur), _. split_and!; [| |done| | |exact Hs1].
    + cbn [app] in Hes. rewrite Hes, <- items_bytes_concat. unfold items_bytes. by rewrite fmap_app, concat_app.
    + apply Forall_fmap. revert Hsz. apply Forall_impl. intros l Hl. cbn. rewrite (items_bytes_length _ _ Hb). by rewrite Hl.
    + by rewrite (served_handed p NI NO _ _ _ Hs1), (served_handed p NI NO _ _ _ Hs).
    + destruct Hs1 as [(_ & _ & E) _]. by symmetry.
  - intros (ess & Exs & Hw & Hnn & _). rewrite Exs in *.
    apply (wp_get_items p' (sample_bytes k) (width_bytes k) m NI NO Hn Hm Hb (audio_on k m NI NO) _ (fun x => Some (heard right_first k x)) (sample_range k) _ ess s');
      [intros u x0 q ps s0 Q0 w0; by apply (wp_record p' right_first k m NI NO Hne)|done|done|done|done|done|by rewrite length_replicate|]. intros w1 s1 S1 Hs1 Hw1.
    split; [done|]. split; [done|]. by exists s1.
Qed.

(** ** Properties and the stream switch *)

Definition set_requests : list Z := [AUDIO_REQ_SetCurrent; AUDIO_REQ_SetMinimum; AUDIO_REQ_SetMaximum; AUDIO_REQ_SetResolution].
Definition get_requests : list Z := [AUDIO_REQ_GetCurrent; AUDIO_REQ_GetMinimum; AUDIO_REQ_GetMaximum; AUDIO_REQ_GetResolution].
Definition recipient (r : USB_Request_Header_t) : Z := Z.land (bmRequestType r) CONTROL_REQTYPE_RECIPIENT.

Section Requests.
Context {G : Type} `{UsbStateOk G} `{!AudioDevice G} `{!AudioDeviceOk G} `{AvrOk} (p : platform).
Context (endpoint_property interface_property : Z -> Z -> Z -> option (Z * list Z) -> M G (bool * (Z * list Z))).
Context (start_stop : M G unit) (uninitialised : nat -> list Z).
Context (Hun : forall n, length (uninitialised n) = n).
Implicit Types (w : world G) (r : USB_Request_Header_t).
Abbreviation requests := (Audio_Device_ProcessControlRequest endpoint_property interface_property start_stop uninitialised).

(** The request waits and is for this interface. *)
Definition audio_request r w : Prop :=
  USB_ControlRequest (usb (st w)) = r /\ one_setup p (hist w) /\ for_us r (Config (audio (st w))) = true.

(** The application's callback for the recipient of the request. *)
Definition callback_of r : option (Z * list Z) -> M G (bool * (Z * list Z)) :=
  if recipient r =? REQREC_ENDPOINT then endpoint_property (bRequest r) (u8 (wIndex r)) (u8 (Z.shiftr (wValue r) 8))
  else interface_property (bRequest r) (u8 (Z.shiftr (wIndex r) 8)) (wValue r).

Lemma recipient_callback r body : recipient r = REQREC_INTERFACE \/ recipient r = REQREC_ENDPOINT ->
  with_recipient endpoint_property interface_property r body = body (callback_of r).
Proof. unfold with_recipient, callback_of. fold (recipient r). by intros [-> | ->]. Qed.

Lemma wp_get_audio nf Q w : Q (audio (st w)) w -> wp nf get_audio Q p w.
Proof. intros HQ. by apply wp_bind, wp_get, wp_ret. Qed.

Lemma get_not_set code : code ∈ get_requests -> code ∉ set_requests.
Proof.
  intros Hg. repeat (apply elem_of_cons in Hg as [-> |Hg]; [by apply (bool_decide_unpack _)|]). by apply elem_of_nil in Hg.
Qed.

(** A request of one of the two groups reaches its body. *)
Lemma wp_property_request nf r Q w : audio_request r w -> recipient r = REQREC_INTERFACE \/ recipient r = REQREC_ENDPOINT ->
  bRequest r ∈ set_requests ++ get_requests ->
  (forall w1, did w w1 (st w) [] ->
     wp nf (if bool_decide (bRequest r ∈ set_requests) then set_property uninitialised (callback_of r) else get_property uninitialised (callback_of r)) Q p w1) ->
  wp nf requests Q p w.
Proof.
  intros (Hr & Hone & Hus) Hrec Hcode HQ. eapply (wp_class_setup p); [exact Hr|done|]. intros w1 D1. pose proof D1 as [S1 _].
  apply wp_bind, wp_get_audio. rewrite S1, Hus. cbn [negb].
  assert (bRequest r <> 11 /\ bRequest r <> 255) as [H11 H255].
  { repeat (apply elem_of_cons in Hcode as [-> |Hcode]; [done|]). by apply elem_of_nil in Hcode. }
  rewrite (proj2 (Z.eqb_neq _ _)) by exact H11. rewrite (proj2 (Z.eqb_neq _ _)) by exact H255.
  fold set_requests get_requests. rewrite !recipient_callback by done. specialize (HQ w1 D1).
  destruct (decide (bRequest r ∈ set_requests)) as [Hs|Hs].
  - by rewrite bool_decide_true in * by done.
  - rewrite (bool_decide_false (bRequest r ∈ set_requests)) in * by done. apply elem_of_app in Hcode as [?|Hg]; [done|].
    by rewrite bool_decide_true by done.
Qed.

(** A callback that only says whether the operation is valid, as documented. *)
Definition only_says (c : M G (bool * (Z * list Z))) (agrees : bool) (g : G) : Prop := forall w, st w = g ->
  wp False c (fun x w' => fst x = agrees /\ did w w' g []) p w.

Lemma wp_set_value r msg Q w : audio_request r w -> recipient r = REQREC_INTERFACE \/ recipient r = REQREC_ENDPOINT -> bRequest r ∈ set_requests ->
  only_says (callback_of r None) true (st w) -> wLength r = Z.of_nat (length msg) -> is_u16 (wLength r) -> host_commands p (hist w) msg -> (length msg + 1 < fuel p)%nat ->
  (forall ws w1, acked ws = true -> data_and_flags ws -> did w w1 (st w) ws -> wp False (callback_of r (Some (wLength r, msg))) (fun _ => Q tt) p w1) ->
  wp False requests Q p w.
Proof.
  intros Hr Hrec Hcode Hsays Hlen Hwide Hhost Hf HQ. eapply wp_property_request; [exact Hr|done|by apply elem_of_app; left|]. intros w1 D1.
  rewrite bool_decide_true by done. pose proof D1 as [S1 _]. unfold set_property. apply wp_bind. eapply wp_mono; [apply (Hsays w1 S1)|].
  intros x w2 [-> D2]. cbn [when]. pose proof (did_trans _ _ _ _ _ _ _ D1 D2) as (S2 & before & Hh2 & Hw2).
  apply wp_bind, wp_get_request. destruct Hr as (Hr & _). rewrite S2, Hr. cbv zeta. apply wp_bind, clear_setup_log. intros u u' Hu'. cbn [st hist].
  rewrite Hh2, S2, Hlen, Nat2Z.id. apply wp_bind. unfold is_u16 in Hwide.
  apply (wp_take_in p); [done|done|done|by rewrite Hun|lia|done|]. intros c new Hnew.
  destruct flag_facts as ((B1 & _ & _ & B4) & _). apply wp_bind, clear_flags_did; [done|done|]. intros y y' w4 _ _ D4.
  assert (filled (uninitialised (length msg)) msg = msg) as -> by (unfold filled; rewrite drop_ge, app_nil_r; [done|by rewrite Hun]).
  cbn [st hist] in D4. rewrite <- Hlen. apply wp_bind. eapply wp_mono.
  - apply (HQ ((UEINTX, u') :: writes new ++ [(UEINTX, y')])).
    + cbn [acked existsb]. by rewrite bool_decide_true, Hu'.
    + constructor; [by right|]. apply Forall_app. split; [done|]. apply Forall_singleton. by right.
    + destruct D4 as (S4 & n4 & Hh4 & Hw4). split; [done|]. cbn [hist] in Hh4.
      exists (n4 ++ new ++ [Wr UEINTX u'; Rd UEINTX u] ++ before). split; [rewrite Hh4; by rewrite <- !app_assoc|].
      rewrite !writes_app, Hw2, Hw4. by rewrite <- app_assoc.
  - intros z w5 HQ5. by apply wp_ret.
Qed.

Lemma wp_get_value r n value g Q w : audio_request r w -> recipient r = REQREC_INTERFACE \/ recipient r = REQREC_ENDPOINT -> bRequest r ∈ get_requests ->
  (forall w1, st w1 = st w -> wp False (callback_of r (Some (wLength r, uninitialised (Z.to_nat (wLength r)))))
     (fun x w' => x = (true, (n, value)) /\ did w1 w' g []) p w1) -> usb g = usb (st w) ->
  is_u16 (wLength r) -> 0 <= n <= wLength r -> n <= Z.of_nat (length value) -> Forall is_u8 value ->
  host_reads p (wLength r) (hist w) -> counts_bytes p -> (Z.to_nat n + 65 <= fuel p)%nat ->
  (forall ws w', answer_writes (take (Z.to_nat n) value) ws -> did w w' g ws -> Q tt w') ->
  wp False requests Q p w.
Proof.
  intros Hr Hrec Hcode Hcall Hg Hwide Hn Hnv Hu Hhost Hc Hf HQ. eapply wp_property_request; [exact Hr|done|by apply elem_of_app; right|]. intros w1 D1.
  rewrite bool_decide_false by (by apply get_not_set).
  pose proof D1 as [S1 _]. destruct Hr as (Hr & _). unfold get_property. apply wp_bind, wp_get_request. rewrite S1, Hr. cbv zeta.
  apply wp_bind. eapply wp_mono; [apply (Hcall w1 S1)|]. intros x w2 [-> D2]. cbn [when].
  pose proof (did_trans _ _ _ _ _ _ _ D1 D2) as D. pose proof D as (S2 & before & Hh2 & Hw2). unfold is_u16 in Hwide.
  assert (asked_length w2 = wLength r) as Ha by (unfold asked_length; by rewrite S2, Hg, Hr).
  apply answer_did; rewrite ?Ha; [done|lia|lia|done|rewrite Hh2; by apply host_reads_later|done|done|].
  intros ws w3 Hws D3. rewrite S2 in D3. apply (HQ ws); [|exact (did_trans _ _ _ _ _ _ _ D D3)]. by rewrite Nat.min_l in Hws by lia.
Qed.

Lemma wp_refused r g Q w : audio_request r w -> recipient r = REQREC_INTERFACE \/ recipient r = REQREC_ENDPOINT -> bRequest r ∈ set_requests ++ get_requests ->
  let data := if bool_decide (bRequest r ∈ set_requests) then None else Some (wLength r, uninitialised (Z.to_nat (wLength r))) in
  (forall w1, st w1 = st w -> wp False (callback_of r data) (fun x w' => fst x = false /\ did w1 w' g []) p w1) ->
  (forall w', did w w' g [] -> Q tt w') -> wp False requests Q p w.
Proof.
  intros Hr Hrec Hcode data Hcall HQ. eapply wp_property_request; [exact Hr|done|done|]. intros w1 D1. pose proof D1 as [S1 _]. specialize (Hcall w1 S1).
  unfold data in Hcall. destruct Hr as (Hr & _). case_bool_decide.
  - apply wp_bind. eapply wp_mono; [exact Hcall|]. intros x w2 [-> D2]. apply wp_ret, HQ. exact (did_trans _ _ _ _ _ _ _ D1 D2).
  - apply wp_bind, wp_get_request. rewrite S1, Hr. apply wp_bind. eapply wp_mono; [exact Hcall|]. intros [ok [n v]] w2 [E D2]. cbn [fst] in E. subst ok.
    apply wp_ret, HQ. exact (did_trans _ _ _ _ _ _ _ D1 D2).
Qed.

(** Requests for properties do what they name.  A request that sets a property
    first asks the application whether the operation is valid; if it is, the
    request is acknowledged, the callback receives exactly the bytes the host
    sends, in packets of whatever sizes, with their number, and no other object
    changed before it did.  A request that gets a property delivers to the host
    exactly the value the callback gave.  A request the callback refuses is not
    touched, and left to the stack, which stalls it.  Neither the direction nor
    the type of a request is looked at: any request of these codes for this
    interface or its endpoints, a standard one too, is handled so. *)
Theorem audio_property_requests r w : audio_request r w -> recipient r = REQREC_INTERFACE \/ recipient r = REQREC_ENDPOINT -> is_u16 (wLength r) ->
  (bRequest r ∈ set_requests -> only_says (callback_of r None) true (st w) -> forall msg, wLength r = Z.of_nat (length msg) ->
   host_commands p (hist w) msg -> (length msg + 1 < fuel p)%nat -> forall Q : unit -> world G -> Prop,
   (forall ws w1, acked ws = true -> data_and_flags ws -> did w w1 (st w) ws -> wp False (callback_of r (Some (wLength r, msg))) (fun _ => Q tt) p w1) ->
   wp False requests Q p w) /\
  (bRequest r ∈ get_requests -> forall n value g,
   (forall w1, st w1 = st w -> wp False (callback_of r (Some (wLength r, uninitialised (Z.to_nat (wLength r)))))
      (fun x w' => x = (true, (n, value)) /\ did w1 w' g []) p w1) -> usb g = usb (st w) ->
   0 <= n <= wLength r -> n <= Z.of_nat (length value) -> Forall is_u8 value ->
   host_reads p (wLength r) (hist w) -> counts_bytes p -> (Z.to_nat n + 65 <= fuel p)%nat ->
   wp False requests (fun _ w' => exists ws, answer_writes (take (Z.to_nat n) value) ws /\ did w w' g ws) p w) /\
  (bRequest r ∈ set_requests ++ get_requests -> forall g,
   (forall w1, st w1 = st w ->
      wp False (callback_of r (if bool_decide (bRequest r ∈ set_requests) then None else Some (wLength r, uninitialised (Z.to_nat (wLength r)))))
        (fun x w' => fst x = false /\ did w1 w' g []) p w1) ->
   wp False requests (fun _ w' => did w w' g []) p w).
Proof.
  intros Hr Hrec Hwide. split_and!.
  - intros Hcode Hsays msg Hlen Hhost Hf Q HQ. by eapply (wp_set_value r msg).
  - intros Hcode n value g Hcall Hg Hn Hnv Hu Hhost Hc Hf. eapply (wp_get_value r n value g); try done. intros ws w' Hws D. by exists ws.
  - intros Hcode g Hcall. by eapply (wp_refused r g).
Qed.

(** The host switches the stream.  SET_INTERFACE for the interface of the stream
    is acknowledged, the new setting stored (on unless its number is zero) and
    then announced to the application.  While the stream is off, or the device
    is not configured, no sample can be read or written: both readiness functions
    return false and touch no endpoint. *)
Theorem audio_stream_switch k v index len w : flag_within k UEINTX TXINI p -> (k < fuel p)%nat ->
  (audio_request (Request 0x01 11 v index len) w -> forall Q : unit -> world G -> Prop,
   (forall w1, accepted (put_audio (set_enabled (negb (Z.land v 0xFF =? 0)) (audio (st w))) (st w)) w w1 -> wp False start_stop Q p w1) ->
   wp False requests Q p w) /\
  (InterfaceEnabled (State (audio (st w))) = false \/ reg_wrap V_USB_DeviceState (respond p (hist w) V_USB_DeviceState) <> state_code DEVICE_STATE_Configured ->
   wp False Audio_Device_IsSampleReceived (fun b w' => b = false /\ did w w' (st w) []) p w /\
   wp False Audio_Device_IsReadyForNextSample (fun b w' => b = false /\ did w w' (st w) []) p w).
Proof.
  intros Hin Hf. assert (polls_end p k False TXINI) as HI by (by right). split.
  - intros (Hr & Hone & Hus) Q HQ. eapply (wp_class_setup p); [exact Hr|done|]. intros w1 D1. pose proof D1 as [S1 _].
    apply wp_bind, wp_get_audio. rewrite S1, Hus. cbn [negb bRequest bmRequestType]. cbn [request_code Z.eqb Pos.eqb when].
    apply wp_bind, clear_setup_did. intros x x' w2 Hc _ D2. rewrite S1 in D2. pose proof D2 as [S2 _].
    apply wp_bind, (status_stage_did p k); rewrite S2, Hr; [done|]. intros ss w3 Hss D3. pose proof D3 as [S3 _].
    apply wp_bind, wp_get_request. rewrite S3, Hr. cbn [wValue]. apply wp_bind. unfold mod_audio. apply wp_modify. rewrite S3. apply HQ.
    pose proof (did_trans _ _ _ _ _ _ _ D1 (did_trans _ _ _ _ _ _ _ D2 D3)) as (_ & D). cbn [app] in D.
    eapply (accepted_status p _ _ [(UEINTX, x')]); [by repeat constructor| |exact Hss|split; [done|exact D]].
    by apply (acked_cleared [RXSTPI] x x' []); [|left].
  - intros Hoff. assert (forall Q, (forall w', did w w' (st w) [] -> Q false w') -> wp False streaming Q p w) as Hs.
    { intros Q HQ. unfold streaming, is_DeviceState. apply wp_bind, wp_bind, wp_rd. intros s Hs. apply wp_ret.
      destruct (Z.eqb_spec s (state_code DEVICE_STATE_Configured)) as [E|E]; cbn [negb].
      - apply wp_bind, wp_get_audio, wp_ret. cbn [st]. destruct Hoff as [-> |Hn]; [|congruence]. apply HQ. exact (did_log w (st w) [Rd V_USB_DeviceState s]).
      - apply wp_ret, HQ. exact (did_log w (st w) [Rd V_USB_DeviceState s]). }
    by split; apply wp_bind, Hs; intros w' D; apply wp_ret.
Qed.
End Requests.

(** ** Concrete runs *)

Section Runs.
#[local] Instance audio_chip : Avr := datasheet USB_SERIES_2_AVR.
#[local] Instance audio_chip_ok : AvrOk := datasheet_ok USB_SERIES_2_AVR.

(** A program with one audio interface and the value of its volume. *)
Record audio_program := AudioProgram { ap_usb : usb_globals; ap_audio : USB_ClassInfo_Audio_Device_t; ap_volume : list Z }.
#[local] Instance audio_program_usb : UsbState audio_program :=
  {| usb := ap_usb; put_usb u g := AudioProgram u (ap_audio g) (ap_volume g) |}.
#[local] Instance audio_program_usb_ok : UsbStateOk audio_program.
Proof. split; [done|done|]. by intros []. Qed.
#[local] Instance audio_program_audio : AudioDevice audio_program :=
  {| audio := ap_audio; put_audio i g := AudioProgram (ap_usb g) i (ap_volume g) |}.
#[local] Instance audio_program_audio_ok : AudioDeviceOk audio_program.
Proof. split; done. Qed.

(** Entity 2 has a volume of two bytes, which can be set and got. *)
Definition volume (property entity parameter : Z) (data : option (Z * list Z)) : M audio_program (bool * (Z * list Z)) :=
  match data with
  | None => ret (entity =? 2, (0, []))
  | Some (len, value) =>
      if property =? AUDIO_REQ_SetCurrent then
        mmodify (fun g => AudioProgram (ap_usb g) (ap_audio g) value);;; ret (true, (len, value))
      else g <- mget;; ret (entity =? 2, (2, ap_volume g))
  end.
Definition zeros (n : nat) : list Z := replicate n 0.
Abbreviation requests := (Audio_Device_ProcessControlRequest volume volume (ret tt) zeros).

Definition speaker (on : bool) : USB_ClassInfo_Audio_Device_t :=
  AudioInfo (AudioConfig 0 1 (EndpointEntry 0x83 6 EP_TYPE_ISOCHRONOUS 2) (EndpointEntry 0x04 6 EP_TYPE_ISOCHRONOUS 2)) (AudioState on).
Definition speaker_asked (on : bool) (r : USB_Request_Header_t) : world audio_program :=
  World (AudioProgram (UsbGlobals r 1 false false) (speaker on) [0x34; 0x12]) [].

(** The volume is set to the two bytes sent, and delivered as it is. *)
Lemma audio_property_requests_witness :
  wp False requests (fun _ w1 => ap_volume (st w1) = [0x78; 0x56]) (command_bus [0x78; 0x56] 100) (speaker_asked true (Request 0x21 0x01 0x0200 0x0200 2)) /\
  wp False requests (fun _ w1 => exists ws, answer_writes [0x34; 0x12] ws)
    (setup_bus (Request 0 0 0 0 0) (fun h => match after_ack h with Some l => host_done 2 (fst (packets l)) | None => false end) 300)
    (speaker_asked true (Request 0xA1 0x81 0x0200 0x0200 2)).
Proof.
  split.
  - set (w := speaker_asked true _). refine (proj1 (audio_property_requests (command_bus [0x78; 0x56] 100) volume volume (ret tt) zeros (fun n => length_replicate n 0)
      (Request 0x21 0x01 0x0200 0x0200 2) w _ _ _) _ _ [0x78; 0x56] _ _ _ _ _).
    + split; [reflexivity|]. split; [apply command_bus_setup|reflexivity].
    + by left.
    + cbn. unfold is_u16. lia.
    + by apply (bool_decide_unpack _).
    + intros w1 S1. apply wp_ret. split; [done|]. split; [done|]. by exists [].
    + reflexivity.
    + apply command_bus_commands. reflexivity.
    + cbn. lia.
    + intros ws w1 _ _ [S1 _]. apply wp_bind, wp_modify, wp_ret. reflexivity.
  - set (p := setup_bus _ _ _). set (w := speaker_asked true _). eapply wp_mono.
    + refine (proj1 (proj2 (audio_property_requests p volume volume (ret tt) zeros (fun n => length_replicate n 0)
        (Request 0xA1 0x81 0x0200 0x0200 2) w _ _ _)) _ 2 [0x34; 0x12] (st w) _ _ _ _ _ _ _ _).
      * split; [reflexivity|]. split; [apply bus_one_setup|reflexivity].
      * by left.
      * cbn. unfold is_u16. lia.
      * by apply (bool_decide_unpack _).
      * intros w1 S1. apply wp_bind, wp_get, wp_ret. rewrite S1. split; [done|]. split; [done|]. by exists [].
      * reflexivity.
      * cbn. lia.
      * cbn. lia.
      * by apply (bool_decide_unpack _).
      * apply bus_host.
      * intros h Hh. cbn [p setup_bus respond]. split; [|done]. apply u8_small. unfold is_u8. lia.
      * cbn. lia.
    + intros [] w1 (ws & Hws & _). by exists ws.
Defined.

(** The stream is switched on; while it is off nothing is read. *)
Lemma audio_stream_switch_witness :
  let p := setup_bus (Request 0 0 0 0 0) (fun _ => false) 10 in let w := speaker_asked false (Request 0x01 11 1 1 0) in
  wp False requests (fun _ w1 => InterfaceEnabled (State (audio (st w1))) = true) p w /\
  wp False Audio_Device_IsSampleReceived (fun b w' => b = false /\ did w w' (st w) []) p w.
Proof.
  intros p w. refine (_ (audio_stream_switch p volume volume (ret tt) zeros 1 1 1 0 w _ _)).
  - intros [Hon Hoff]. split.
    + apply Hon; [split; [reflexivity|]; split; [apply bus_one_setup|reflexivity]|]. intros w1 (ws & [S1 _] & _). apply wp_ret. by rewrite S1.
    + apply Hoff. by left.
  - apply bus_in.
  - cbn. lia.
Defined.

(** Three samples of two bytes in banks of three, and the same three back. *)
Lemma audio_samples_cross_witness :
  let melody := [-1; 300; -32768] in let w := speaker_asked true (Request 0 0 0 0 0) in
  let out := port_bus 3 4 6 (Port 0 [] [] []) 20 in let back := port_bus 3 4 6 (Port 0 [] [] [[255; 255; 44; 1]; [0; 128]]) 20 in
  wp False (in_turn (play Sample16) melody) (fun r w1 => r = [true; true; true] /\
    concat (handed 3 4 6 (hist w1)) ++ p_open (replay 3 4 6 (hist w1)) = [255; 255; 44; 1; 0; 128]) out w /\
  wp False (in_turn (fun _ : unit => record false Sample16) [tt; tt; tt]) (fun r w1 => r = [Some (-1); Some 300; Some (-32768)]) back w.
Proof.
  intros melody w out back. refine (_ (audio_samples_cross out back false Sample16 3 3 4 melody (Port 0 [] [] []) (Port 0 [] [] [[255; 255; 44; 1]; [0; 128]]) w w _ _ _ _ _ _ _ _)).
  - intros [Hplay Hrec]. split.
    + eapply wp_mono; [exact Hplay|]. intros r w1 (-> & _ & ps & rest & sel & Hb & _ & _ & Hh & Ho & _). split; [reflexivity|].
      change (width_bytes Sample16 * 3)%nat with 6%nat in Hh, Ho. rewrite Hh, Ho. exact Hb.
    + eapply wp_mono; [apply Hrec|by intros r w1 [-> _]]. exists [[-1; 300]; [-32768]]. split_and!; [reflexivity|reflexivity|by apply (bool_decide_unpack _)|by apply (bool_decide_unpack _)].
  - lia.
  - lia.
  - by split_and!.
  - by split_and!.
  - apply port_bus_served; [lia|cbn; lia|]. by apply (bool_decide_unpack _).
  - done.
  - apply port_bus_served; [lia|cbn; lia|]. by apply (bool_decide_unpack _).
  - repeat (constructor; [unfold sample_range; cbn; lia|]). constructor.
Defined.
End Runs.
