(* ===== verification/VirtualFAT.v ===== *)
(** * The virtual disk of the mass storage bootloader (Bootloaders/MassStorage/Lib/VirtualFAT.c)

    The bootloader shows the program memory and the EEPROM of the processor as
    two files of a FAT12 disk that exists nowhere: blocks are made up when they
    are read, and a block written to a file programs the memory behind it.  The
    functions of BootloaderAPI.c program the memory through the operations of
    the processor, which are modelled on the memory and its page buffer. *)

From Stdlib Require Import Ascii String.
From S2P Require Import Prelude StdDescriptors HIDClass Descriptors Machine UsbCore Endpoint EndpointStream DeviceStandardReq StreamTransfers BulkPort.

(** ** The processor *)

(** The sizes of <avr/io.h> and of the makefile the sources use. *)
Class BootChip := {
  FLASHEND : Z;
  E2END : Z;
  SPM_PAGESIZE : Z;
  BOOT_START_ADDR : Z;
  AUX_BOOT_SECTION_SIZE : Z
}.

(** The memories: program memory, its temporary page buffer (a byte is [None] until
    it is filled), whether the section is blocked by an operation, and the EEPROM. *)
Record nvm := Nvm {
  flash : list Z;
  page_buffer : list (option Z);
  rww_busy : bool;
  eeprom : list Z
}.

Section Memory.
Context `{BootChip}.

Definition empty_buffer : list (option Z) := replicate (Z.to_nat SPM_PAGESIZE) None.
(** The bytes of the page of an address are replaced. *)
Definition on_page (Address : Z) (f : list Z -> list Z) (m : nvm) : option nvm :=
  let base := Z.to_nat (Address - Address mod SPM_PAGESIZE) in
  if decide (0 <= Address < Z.of_nat (length (flash m))) then
    let page := take (Z.to_nat SPM_PAGESIZE) (drop base (flash m)) in
    Some (Nvm (patch base (f page) (flash m)) (page_buffer m) true (eeprom m))
  else None.

(** [boot_page_erase], [boot_page_write]: a page is set to ones; the page buffer can
    only clear bits, and is empty again. *)
Definition boot_page_erase (Address : Z) (m : nvm) : option nvm :=
  on_page Address (fun page => replicate (length page) 0xFF) m.
Definition boot_page_write (Address : Z) (m : nvm) : option nvm :=
  m' ← on_page Address (fun page => zip_with (fun b o => Z.land b (default 0xFF o)) page (page_buffer m)) m;
  Some (Nvm (flash m') empty_buffer (rww_busy m') (eeprom m')).
(** [boot_rww_enable] makes the section readable and empties the page buffer. *)
Definition boot_rww_enable (m : nvm) : nvm := Nvm (flash m) empty_buffer false (eeprom m).
(** [boot_page_fill]: a word of the buffer can be filled once. *)
Definition boot_page_fill (Address Word : Z) (m : nvm) : option nvm :=
  let o := Address mod SPM_PAGESIZE in
  match aget (page_buffer m) o, aget (page_buffer m) (o + 1) with
  | Some None, Some None =>
      b1 ← aset (page_buffer m) o (Some (u8 Word));
      b2 ← aset b1 (o + 1) (Some (u8 (Z.shiftr Word 8)));
      Some (Nvm (flash m) b2 (rww_busy m) (eeprom m))
  | _, _ => None
  end.
(** [pgm_read_byte]: the program memory can be read while it is not blocked. *)
Definition pgm_read_byte (Address : Z) (m : nvm) : option Z := if rww_busy m then None else aget (flash m) Address.
Definition eeprom_read_byte (Address : Z) (m : nvm) : option Z := aget (eeprom m) Address.
Definition eeprom_update_byte (Address Data : Z) (m : nvm) : option nvm :=
  e ← aset (eeprom m) Address Data; Some (Nvm (flash m) (page_buffer m) (rww_busy m) e).

(** ** BootloaderAPI.c *)

Definition BootloaderAPI_ErasePage (Address : Z) (m : nvm) : option nvm :=
  m' ← boot_page_erase Address m; Some (boot_rww_enable m').
Definition BootloaderAPI_WritePage (Address : Z) (m : nvm) : option nvm :=
  m' ← boot_page_write Address m; Some (boot_rww_enable m').
Definition BootloaderAPI_FillWord (Address Word : Z) (m : nvm) : option nvm := boot_page_fill Address Word m.
End Memory.

(** ** VirtualFAT.h *)

Section Layout.
Context `{BootChip}.
Definition FLASH_FILE_SIZE_BYTES : Z := FLASHEND - (FLASHEND - BOOT_START_ADDR) - AUX_BOOT_SECTION_SIZE.
Definition EEPROM_FILE_SIZE_BYTES : Z := E2END.
Definition SECTOR_PER_CLUSTER : Z := 4.
Definition SECTOR_SIZE_BYTES : Z := 512.
Definition CLUSTER_SIZE_BYTES : Z := SECTOR_PER_CLUSTER * SECTOR_SIZE_BYTES.
Definition FILE_SECTORS (size : Z) : Z := size / SECTOR_SIZE_BYTES + (if size mod SECTOR_SIZE_BYTES =? 0 then 0 else 1).
Definition FILE_CLUSTERS (size : Z) : Z := size / CLUSTER_SIZE_BYTES + (if size mod CLUSTER_SIZE_BYTES =? 0 then 0 else 1).
Definition LUN_MEDIA_BLOCKS : Z := FILE_SECTORS FLASH_FILE_SIZE_BYTES + FILE_SECTORS EEPROM_FILE_SIZE_BYTES + 32.
End Layout.

Definition FAT_TIME (hh mm ss : Z) : Z := Z.lor (Z.lor (Z.shiftl hh 11) (Z.shiftl mm 5)) (Z.shiftr ss 1).
Definition FAT_DATE (dd mm yyyy : Z) : Z := Z.lor (Z.lor (Z.shiftl (yyyy - 1980) 9) (Z.shiftl mm 5)) (Z.shiftl dd 0).
Definition ROT8 (x : Z) : Z := Z.lor (Z.shiftr (Z.land x 0xFE) 1) (if Z.land x 1 =? 0 then 0x00 else 0x80).
(** The nested applications of the macro: rotate the sum so far and add. *)
Definition FAT_CHECKSUM (name : list Z) : Z :=
  match name with [] => 0 | n0 :: rest => u8 (foldl (fun x c => ROT8 x + c) n0 rest) end.

Definition FAT_FLAG_VOLUME_NAME : Z := Z.shiftl 1 3.
Definition FAT_FLAG_LONG_FILE_NAME : Z := 0x0F.
Definition FAT_ORDINAL_LAST_ENTRY : Z := Z.shiftl 1 6.

Definition DISK_FILE_ENTRY_VolumeID : nat := 0.
Definition DISK_FILE_ENTRY_FLASH_LFN : nat := 1.
Definition DISK_FILE_ENTRY_FLASH_MSDOS : nat := 2.
Definition DISK_FILE_ENTRY_EEPROM_LFN : nat := 3.
Definition DISK_FILE_ENTRY_EEPROM_MSDOS : nat := 4.
Definition DISK_BLOCK_BootBlock : Z := 0.
Definition DISK_BLOCK_FATBlock1 : Z := 1.
Definition DISK_BLOCK_FATBlock2 : Z := 2.
Definition DISK_BLOCK_RootFilesBlock : Z := 3.
Definition DISK_BLOCK_DataStartBlock : Z := 4.

(** The characters of a string literal, in an array of [n] bytes. *)
Definition chars (n : nat) (s : string) : list Z :=
  take n ((fun a => Z.of_N (N_of_ascii a)) <$> list_ascii_of_string s) ++ replicate (n - String.length s) 0.

Record FATBootBlock_t := BootBlockOf {
  Bootstrap : list Z; Description : list Z; SectorSize : Z; SectorsPerCluster : Z; ReservedSectors : Z; FATCopies : Z;
  RootDirectoryEntries : Z; TotalSectors16 : Z; MediaDescriptor : Z; SectorsPerFAT : Z; SectorsPerTrack : Z; Heads : Z;
  HiddenSectors : Z; TotalSectors32 : Z; PhysicalDriveNum : Z; ExtendedBootRecordSig : Z; VolumeSerialNumber : Z;
  VolumeLabel : list Z; FilesystemIdentifier : list Z
}.
(** The structure in memory: the processor aligns nothing. *)
Definition boot_block_bytes (b : FATBootBlock_t) : list Z :=
  Bootstrap b ++ Description b ++
  encode [2; 1; 2; 1; 2; 2; 1; 2; 2; 2; 4; 4; 2; 1; 4]%nat
    [SectorSize b; SectorsPerCluster b; ReservedSectors b; FATCopies b; RootDirectoryEntries b; TotalSectors16 b; MediaDescriptor b;
     SectorsPerFAT b; SectorsPerTrack b; Heads b; HiddenSectors b; TotalSectors32 b; PhysicalDriveNum b; ExtendedBootRecordSig b;
     VolumeSerialNumber b] ++
  VolumeLabel b ++ FilesystemIdentifier b.

(** The three views of an entry of 32 bytes; the members of each in order. *)
Inductive FATDirectoryEntry_t :=
  | VFAT_LongFileName (Ordinal : Z) (Unicode1_5 : list Z) (Attribute Reserved1 Checksum : Z) (Unicode6_11 : list Z) (Reserved2 : Z) (Unicode12_13 : list Z)
  | MSDOS_File (Filename Extension : list Z) (Attributes : Z) (Reserved : list Z) (CreationTime CreationDate StartingCluster FileSizeBytes : Z)
  | MSDOS_Directory (Name : list Z) (Attributes : Z) (Reserved : list Z) (CreationTime CreationDate StartingCluster Reserved2 : Z).
Definition entry_bytes (e : FATDirectoryEntry_t) : list Z :=
  match e with
  | VFAT_LongFileName o u1 a r1 c u6 r2 u12 => [o] ++ concat (le_bytes 2 <$> u1) ++ [a; r1; c] ++ concat (le_bytes 2 <$> u6) ++ le_bytes 2 r2 ++ concat (le_bytes 2 <$> u12)
  | MSDOS_File f x a r t d s n => f ++ x ++ [a] ++ r ++ le_bytes 2 t ++ le_bytes 2 d ++ le_bytes 2 s ++ le_bytes 4 n
  | MSDOS_Directory f a r t d s n => f ++ [a] ++ r ++ le_bytes 2 t ++ le_bytes 2 d ++ le_bytes 2 s ++ le_bytes 4 n
  end.
Definition sizeof_FATDirectoryEntry_t : Z := 32.

(** ** VirtualFAT.c *)

Section Disk.
Context `{BootChip}.

Definition BootBlock : FATBootBlock_t := {|
  Bootstrap := [0xEB; 0x3C; 0x90];
  Description := chars 8 "mkdosfs";
  SectorSize := SECTOR_SIZE_BYTES;
  SectorsPerCluster := SECTOR_PER_CLUSTER;
  ReservedSectors := 1;
  FATCopies := 2;
  RootDirectoryEntries := SECTOR_SIZE_BYTES / sizeof_FATDirectoryEntry_t;
  TotalSectors16 := LUN_MEDIA_BLOCKS;
  MediaDescriptor := 0xF8;
  SectorsPerFAT := 1;
  SectorsPerTrack := LUN_MEDIA_BLOCKS mod 64;
  Heads := LUN_MEDIA_BLOCKS / 64;
  HiddenSectors := 0;
  TotalSectors32 := 0;
  PhysicalDriveNum := 0;
  ExtendedBootRecordSig := 0x29;
  VolumeSerialNumber := 0x12345678;
  VolumeLabel := chars 11 "LUFA BOOT  ";
  FilesystemIdentifier := chars 8 "FAT12   "
|}.

(** The initial directory. *)
Definition FirmwareFileEntries_init : list FATDirectoryEntry_t := [
  MSDOS_Directory (chars 11 "LUFA BOOT  ") FAT_FLAG_VOLUME_NAME (replicate 10 0) 0 0 0 0;
  VFAT_LongFileName (Z.lor 1 FAT_ORDINAL_LAST_ENTRY) (chars 5 "FLASH") FAT_FLAG_LONG_FILE_NAME 0 (FAT_CHECKSUM (chars 11 "FLASH   BIN"))
    (chars 4 ".BIN" ++ [0; 0]) 0 [0; 0];
  MSDOS_File (chars 8 "FLASH   ") (chars 3 "BIN") 0 (replicate 10 0) (FAT_TIME 1 1 0) (FAT_DATE 14 2 1989) 2 FLASH_FILE_SIZE_BYTES;
  VFAT_LongFileName (Z.lor 1 FAT_ORDINAL_LAST_ENTRY) (chars 5 "EEPRO") FAT_FLAG_LONG_FILE_NAME 0 (FAT_CHECKSUM (chars 11 "EEPROM  BIN"))
    (chars 5 "M.BIN" ++ [0]) 0 [0; 0];
  MSDOS_File (chars 8 "EEPROM  ") (chars 3 "BIN") 0 (replicate 10 0) (FAT_TIME 1 1 0) (FAT_DATE 14 2 1989)
    (2 + FILE_CLUSTERS FLASH_FILE_SIZE_BYTES) EEPROM_FILE_SIZE_BYTES
].

(** The objects of the disk: the bytes of [FirmwareFileEntries], and the memories. *)
Record vdisk := Disk { FirmwareFileEntries : list Z; memory : nvm }.
Definition initial_entries : list Z := concat (entry_bytes <$> FirmwareFileEntries_init).
Definition sizeof_FirmwareFileEntries : nat := 160.

(** [FirmwareFileEntries[n].MSDOS_File.StartingCluster]. *)
Definition starting_cluster (n : nat) (entries : list Z) : Z := of_le_bytes (take 2 (drop (32 * n + 26) entries)).
Definition FLASHFileStartCluster (d : vdisk) : Z := starting_cluster DISK_FILE_ENTRY_FLASH_MSDOS (FirmwareFileEntries d).
Definition EEPROMFileStartCluster (d : vdisk) : Z := starting_cluster DISK_FILE_ENTRY_EEPROM_MSDOS (FirmwareFileEntries d).

Definition ReadEEPROMByte (Address : Z) (m : nvm) : option Z := eeprom_read_byte Address m.
Definition WriteEEPROMByte (Address Data : Z) (m : nvm) : option nvm := eeprom_update_byte Address Data m.

Definition UpdateFAT12ClusterEntry (FATTable : list Z) (Index ChainEntry : Z) : option (list Z) :=
  let FATOffset := u8 (Index + Z.shiftr Index 1) in
  let UpperNibble := negb (Z.land Index 1 =? 0) in
  if UpperNibble then
    v ← aget FATTable FATOffset;
    t ← aset FATTable FATOffset (u8 (Z.lor (Z.land v 0x0F) (Z.shiftl (Z.land ChainEntry 0x0F) 4)));
    aset t (FATOffset + 1) (u8 (Z.shiftr ChainEntry 4))
  else
    t ← aset FATTable FATOffset (u8 ChainEntry);
    v ← aget t FATOffset;
    aset t (FATOffset + 1) (u8 (Z.lor (Z.land v 0xF0) (Z.shiftr ChainEntry 8))).

(** [for (i = from; ...; i += step)], [n] rounds. *)
Fixpoint for_up {S} (body : Z -> S -> option S) (i step : Z) (n : nat) (s : S) : option S :=
  match n with
  | O => Some s
  | Datatypes.S n' => s' ← body i s; for_up body (i + step) step n' s'
  end.

Definition UpdateFAT12ClusterChain (FATTable : list Z) (Index ChainLength : Z) : option (list Z) :=
  for_up (fun i t =>
    let CurrentCluster := u16 (Index + i) in
    let NextCluster := if i =? ChainLength - 1 then 0xFFF else u16 (CurrentCluster + 1) in
    UpdateFAT12ClusterEntry t CurrentCluster NextCluster) 0 1 (Z.to_nat ChainLength) FATTable.

(** The range of the blocks of a file. *)
Definition file_start (cluster : Z) : Z := u16 (DISK_BLOCK_DataStartBlock + (cluster - 2) * SECTOR_PER_CLUSTER).
Definition file_end (start size : Z) : Z := u16 (start + (FILE_SECTORS size - 1)).
(** The type of [FlashAddress] depends on the size of the memory. *)
Definition flash_address (z : Z) : Z := if 0xFFFF <? FLASHEND then u32 z else u16 z.

Definition read_flash_byte (i : Z) (s : list Z * Z) (m : nvm) : option (list Z * Z) :=
  let '(BlockBuffer, FlashAddress) := s in
  v ← pgm_read_byte FlashAddress m;
  b ← aset BlockBuffer i v;
  Some (b, flash_address (FlashAddress + 1)).
Definition write_flash_word (BlockBuffer : list Z) (i : Z) (s : nvm * Z) : option (nvm * Z) :=
  let '(m, FlashAddress) := s in
  m ← (if FlashAddress mod SPM_PAGESIZE =? 0 then BootloaderAPI_ErasePage FlashAddress m else Some m);
  high ← aget BlockBuffer (i + 1);
  low ← aget BlockBuffer i;
  m ← BootloaderAPI_FillWord FlashAddress (Z.lor (Z.shiftl high 8) low) m;
  let FlashAddress := flash_address (FlashAddress + 2) in
  m ← (if FlashAddress mod SPM_PAGESIZE =? 0 then BootloaderAPI_WritePage (flash_address (FlashAddress - SPM_PAGESIZE)) m else Some m);
  Some (m, FlashAddress).

Definition ReadWriteFLASHFileBlock (BlockNumber : Z) (BlockBuffer : list Z) (Read : bool) (d : vdisk) : option (list Z * vdisk) :=
  let FileStartBlock := file_start (FLASHFileStartCluster d) in
  let FileEndBlock := file_end FileStartBlock FLASH_FILE_SIZE_BYTES in
  if negb ((FileStartBlock <=? BlockNumber) && (BlockNumber <=? FileEndBlock)) then Some (BlockBuffer, d) else
  let FlashAddress := flash_address ((BlockNumber - FileStartBlock) * SECTOR_SIZE_BYTES) in
  if Read then
    s ← for_up (fun i s => read_flash_byte i s (memory d)) 0 1 (Z.to_nat SECTOR_SIZE_BYTES) (BlockBuffer, FlashAddress);
    Some (fst s, d)
  else
    s ← for_up (write_flash_word BlockBuffer) 0 2 (Z.to_nat (SECTOR_SIZE_BYTES / 2)) (memory d, FlashAddress);
    Some (BlockBuffer, Disk (FirmwareFileEntries d) (fst s)).

Definition read_eeprom_byte (i : Z) (s : list Z * Z) (m : nvm) : option (list Z * Z) :=
  let '(BlockBuffer, EEPROMAddress) := s in
  v ← ReadEEPROMByte EEPROMAddress m;
  b ← aset BlockBuffer i v;
  Some (b, u16 (EEPROMAddress + 1)).
Definition write_eeprom_byte (BlockBuffer : list Z) (i : Z) (s : nvm * Z) : option (nvm * Z) :=
  let '(m, EEPROMAddress) := s in
  v ← aget BlockBuffer i;
  m ← WriteEEPROMByte EEPROMAddress v m;
  Some (m, u16 (EEPROMAddress + 1)).

Definition ReadWriteEEPROMFileBlock (BlockNumber : Z) (BlockBuffer : list Z) (Read : bool) (d : vdisk) : option (list Z * vdisk) :=
  let FileStartBlock := file_start (EEPROMFileStartCluster d) in
  let FileEndBlock := file_end FileStartBlock EEPROM_FILE_SIZE_BYTES in
  if negb ((FileStartBlock <=? BlockNumber) && (BlockNumber <=? FileEndBlock)) then Some (BlockBuffer, d) else
  let EEPROMAddress := u16 ((BlockNumber - FileStartBlock) * SECTOR_SIZE_BYTES) in
  if Read then
    s ← for_up (fun i s => read_eeprom_byte i s (memory d)) 0 1 (Z.to_nat SECTOR_SIZE_BYTES) (BlockBuffer, EEPROMAddress);
    Some (fst s, d)
  else
    s ← for_up (write_eeprom_byte BlockBuffer) 0 1 (Z.to_nat SECTOR_SIZE_BYTES) (memory d, EEPROMAddress);
    Some (BlockBuffer, Disk (FirmwareFileEntries d) (fst s)).

(** The [switch] of [VirtualFAT_WriteBlock] and of [VirtualFAT_ReadBlock]. *)
Definition disk_write (BlockNumber : Z) (BlockBuffer : list Z) (d : vdisk) : option vdisk :=
  if BlockNumber =? DISK_BLOCK_BootBlock then Some d
  else if BlockNumber =? DISK_BLOCK_FATBlock1 then Some d
  else if BlockNumber =? DISK_BLOCK_FATBlock2 then Some d
  else if BlockNumber =? DISK_BLOCK_RootFilesBlock then Some (Disk (take sizeof_FirmwareFileEntries BlockBuffer) (memory d))
  else
    x ← ReadWriteFLASHFileBlock BlockNumber BlockBuffer false d;
    y ← ReadWriteEEPROMFileBlock BlockNumber (fst x) false (snd x);
    Some (snd y).

Definition fat_block (BlockBuffer : list Z) (d : vdisk) : option (list Z) :=
  t ← UpdateFAT12ClusterEntry BlockBuffer 0 (Z.lor 0xF00 (MediaDescriptor BootBlock));
  t ← UpdateFAT12ClusterEntry t 1 0xFFF;
  t ← UpdateFAT12ClusterChain t (FLASHFileStartCluster d) (u8 (FILE_CLUSTERS FLASH_FILE_SIZE_BYTES));
  UpdateFAT12ClusterChain t (EEPROMFileStartCluster d) (u8 (FILE_CLUSTERS EEPROM_FILE_SIZE_BYTES)).

Definition disk_read (BlockNumber : Z) (d : vdisk) : option (list Z) :=
  let BlockBuffer := replicate (Z.to_nat SECTOR_SIZE_BYTES) 0 in
  if BlockNumber =? DISK_BLOCK_BootBlock then
    b ← aset (patch 0 (boot_block_bytes BootBlock) BlockBuffer) (SECTOR_SIZE_BYTES - 2) 0x55;
    aset b (SECTOR_SIZE_BYTES - 1) 0xAA
  else if (BlockNumber =? DISK_BLOCK_FATBlock1) || (BlockNumber =? DISK_BLOCK_FATBlock2) then fat_block BlockBuffer d
  else if BlockNumber =? DISK_BLOCK_RootFilesBlock then Some (patch 0 (FirmwareFileEntries d) BlockBuffer)
  else
    x ← ReadWriteFLASHFileBlock BlockNumber BlockBuffer true d;
    y ← ReadWriteEEPROMFileBlock BlockNumber (fst x) true (snd x);
    Some (fst y).
End Disk.

Class DiskState (G : Type) := {
  the_disk : G -> vdisk;
  put_disk : vdisk -> G -> G
}.
Class DiskStateOk (G : Type) `{UsbState G} `{DiskState G} : Prop := {
  disk_put d g : the_disk (put_disk d g) = d;
  put_disk_put d d' g : put_disk d (put_disk d' g) = put_disk d g;
  put_disk_same g : put_disk (the_disk g) g = g;
  usb_put_disk d g : usb (put_disk d g) = usb g
}.

Section Transfers.
Context {G : Type} `{UsbState G} `{DiskState G} `{Avr} `{BootChip}.
(** The management task a stream runs between packets, and the contents of an
    uninitialised array. *)
Variable USB_USBTask : M G unit.
Variable uninitialised : nat -> list Z.

Definition VirtualFAT_WriteBlock (BlockNumber : Z) : M G unit :=
  x <- Endpoint_Read_Stream_LE USB_USBTask (uninitialised 512) SECTOR_SIZE_BYTES None;;
  let '(_, (BlockBuffer, _), _) := x in
  Endpoint_ClearOUT;;;
  g <- mget;;
  d <- mlift (disk_write BlockNumber BlockBuffer (the_disk g));;
  mmodify (put_disk d).

Definition VirtualFAT_ReadBlock (BlockNumber : Z) : M G unit :=
  g <- mget;;
  BlockBuffer <- mlift (disk_read BlockNumber (the_disk g));;
  Endpoint_Write_Stream_LE USB_USBTask BlockBuffer SECTOR_SIZE_BYTES None;;;
  Endpoint_ClearIN.
End Transfers.

(** ** Programming a block *)

(** What the sources rely on of the processor: pages divide a sector, the sizes are
    whole sectors, and the files fit the table of one sector. *)
Class BootChipOk `{BootChip} : Prop := {
  page_divides : 0 < SPM_PAGESIZE /\ 512 mod SPM_PAGESIZE = 0 /\ SPM_PAGESIZE mod 2 = 0;
  flash_sectors : 0 < FLASH_FILE_SIZE_BYTES <= FLASHEND /\ FLASH_FILE_SIZE_BYTES mod 512 = 0 /\ FLASHEND < 2 ^ 31;
  eeprom_sectors : 0 < E2END < 32768 /\ (E2END + 1) mod 512 = 0;
  files_fit : FILE_CLUSTERS FLASH_FILE_SIZE_BYTES + FILE_CLUSTERS EEPROM_FILE_SIZE_BYTES <= 168
}.

Lemma for_up_inv {S} (body : Z -> S -> option S) (step : Z) (state : nat -> S) i n : forall k,
  (forall j, (k <= j < k + n)%nat -> body (i + step * Z.of_nat (j - k)) (state j) = Some (state (j + 1)%nat)) ->
  for_up body i step n (state k) = Some (state (k + n)%nat).
Proof.
  revert i. induction n as [|n IH]; intros i k Hb; cbn [for_up]; [by rewrite Nat.add_0_r|].
  pose proof (Hb k ltac:(lia)) as H0. rewrite Nat.sub_diag, Z.mul_0_r, Z.add_0_r in H0. rewrite H0. cbn [mbind option_bind].
  rewrite (IH (i + step) (k + 1)%nat); [f_equal; f_equal; lia|]. intros j Hj. rewrite <- Hb by lia. f_equal.
  replace (Z.of_nat (j - k)) with (1 + Z.of_nat (j - (k + 1))) by lia. ring.
Qed.

Lemma for_up_ext {S} (f g : Z -> S -> option S) i step n s : (forall j x, f j x = g j x) -> for_up f i step n s = for_up g i step n s.
Proof.
  intros Hfg. revert i s. induction n as [|n IH]; intros i s; [done|]. cbn [for_up]. rewrite Hfg. destruct (g i s); [apply IH|done].
Qed.

Section Program.
Context `{BootChipOk}.
Implicit Types (m : nvm) (a k : nat).

Lemma flash_address_small z : 0 <= z <= FLASHEND -> flash_address z = z.
Proof.
  intros Hz. pose proof flash_sectors as (_ & _ & Hw). unfold flash_address. destruct (Z.ltb_spec 0xFFFF FLASHEND).
  - apply u32_small. unfold is_u32. lia.
  - apply u16_small. unfold is_u16. lia.
Qed.

Definition page_bytes : nat := Z.to_nat SPM_PAGESIZE.
Lemma page_facts : (0 < page_bytes)%nat /\ SPM_PAGESIZE = Z.of_nat page_bytes /\ exists n, (512 = n * page_bytes /\ 0 < n)%nat.
Proof.
  pose proof page_divides as (Hp & Hd & _). unfold page_bytes. split_and!; [lia|lia|].
  apply Z.mod_divide in Hd as [q Hq]; [|lia]. exists (Z.to_nat q). split; nia.
Qed.

Lemma page_room n : (n mod 2 = 0)%nat -> (n mod page_bytes + 2 <= page_bytes)%nat.
Proof.
  intros He. pose proof page_divides as (Hp & _ & Hd). destruct page_facts as (Hp' & Ep & _). rewrite Ep in Hd.
  apply Z.mod_divide in Hd as [c Hc]; [|lia]. apply Nat.Lcm0.mod_divide in He as [d Hd].
  pose proof (Nat.div_mod_eq n page_bytes). pose proof (Nat.mod_upper_bound n page_bytes). nia.
Qed.
Lemma next_word n : (n mod 2 = 0)%nat ->
  ((n + 2) mod page_bytes = if decide (n mod page_bytes + 2 = page_bytes) then 0 else n mod page_bytes + 2)%nat.
Proof.
  intros He. pose proof (page_room n He). rewrite Nat.Div0.add_mod. destruct page_facts as (Hp & _ & _).
  rewrite <- Nat.Div0.add_mod_idemp_l. rewrite Nat.Div0.add_mod_idemp_r. case_decide as Hd.
  - rewrite Nat.Div0.mod_mod, Hd. apply Nat.Div0.mod_same.
  - rewrite Nat.Div0.mod_mod. apply Nat.mod_small. lia.
Qed.
Lemma page_start n : ((n - n mod page_bytes) mod page_bytes = 0)%nat.
Proof.
  pose proof (Nat.div_mod_eq n page_bytes) as Hd. replace (n - n mod page_bytes)%nat with (n / page_bytes * page_bytes)%nat by lia. apply Nat.Div0.mod_mul.
Qed.

(** A word into the buffer, behind the bytes [x] already there. *)
Lemma fill_word m x Address low high : page_buffer m = (Some <$> x) ++ replicate (page_bytes - length x) None ->
  (length x + 2 <= page_bytes)%nat -> 0 <= Address -> Address mod SPM_PAGESIZE = Z.of_nat (length x) -> is_u8 low -> is_u8 high ->
  BootloaderAPI_FillWord Address (Z.lor (Z.shiftl high 8) low) m =
  Some (Nvm (flash m) ((Some <$> (x ++ [low; high])) ++ replicate (page_bytes - (length x + 2)) None) (rww_busy m) (eeprom m)).
Proof.
  intros Hb Hl Ha Hmod Hlow Hhigh. unfold BootloaderAPI_FillWord, boot_page_fill. rewrite Hmod, Hb.
  replace (page_bytes - length x)%nat with (S (S (page_bytes - (length x + 2)))) by lia. cbn [replicate].
  assert (forall (y : list (option Z)) n, n = length x -> ((Some <$> x) ++ y) !! n = y !! 0%nat /\ ((Some <$> x) ++ y) !! (S n) = y !! 1%nat) as Hlk.
  { intros y n ->. rewrite !lookup_app_r by (rewrite length_fmap; lia). rewrite length_fmap. split; f_equal; lia. }
  unfold aget. rewrite !decide_True by lia. rewrite Nat2Z.id. replace (Z.to_nat (Z.of_nat (length x) + 1)) with (S (length x)) by lia.
  rewrite !(proj1 (Hlk _ _ eq_refl)), !(proj2 (Hlk _ _ eq_refl)). cbn [lookup list_lookup].
  rewrite lor_shiftl_add by (unfold is_u8 in *; lia). rewrite Z.shiftr_div_pow2 by lia. change (2 ^ 8) with 256.
  assert (u8 (high * 256 + low) = low) as -> by word_lia. assert (u8 ((high * 256 + low) / 256) = high) as -> by word_lia.
  rewrite aset_Some by (rewrite length_app, length_fmap; cbn [length]; lia). cbn [mbind option_bind]. rewrite Nat2Z.id.
  rewrite aset_Some by (rewrite length_insert, length_app, length_fmap; cbn [length]; lia). cbn [mbind option_bind].
  replace (Z.to_nat (Z.of_nat (length x) + 1)) with (S (length x)) by lia. do 2 f_equal.
  rewrite insert_app_r_alt by (rewrite length_fmap; lia). rewrite length_fmap, Nat.sub_diag. cbn [insert list_insert].
  rewrite insert_app_r_alt by (rewrite length_fmap; lia). rewrite length_fmap. replace (S (length x) - length x)%nat with 1%nat by lia.
  cbn [insert list_insert]. rewrite fmap_app, <- app_assoc. done.
Qed.

Variables (F : list Z) (E : list Z) (bs : list Z) (a : nat).
Context (Hlen : length bs = 512%nat) (Hu : Forall is_u8 bs) (Hroom : (a + 512 < length F)%nat).
Context (Hfit : Z.of_nat (length F) = FLASHEND + 1) (Halign : (a mod 512 = 0)%nat).

(** After [n] bytes: whole pages are programmed, the page begun is erased and its
    bytes are in the buffer. *)
Definition progress (n : nat) : nvm :=
  let j := (n mod page_bytes)%nat in
  Nvm (patch a (take (n - j) bs ++ (if decide (j = 0%nat) then [] else replicate page_bytes 0xFF)) F)
    ((Some <$> take j (drop (n - j) bs)) ++ replicate (page_bytes - j) None) false E.

Lemma align_page n : (Z.of_nat a + Z.of_nat n) mod SPM_PAGESIZE = Z.of_nat (n mod page_bytes)%nat.
Proof.
  destruct page_facts as (Hp & -> & q & Hq & _). rewrite <- Nat2Z.inj_add, <- Nat2Z.inj_mod. f_equal.
  apply Nat.Lcm0.mod_divide in Halign as [c Hc]. rewrite Hc, Hq, Nat.mul_assoc, Nat.add_comm. apply Nat.Div0.mod_add.
Qed.

Lemma progress_whole n : (n mod page_bytes = 0)%nat -> progress n = Nvm (patch a (take n bs) F) empty_buffer false E.
Proof. intros Hj. unfold progress. rewrite Hj, decide_True, !Nat.sub_0_r, take_0, app_nil_r by done. done. Qed.

(** A whole page fits behind a page boundary. *)
Lemma page_fits n : (n mod page_bytes = 0)%nat -> (n < 512)%nat -> (n + page_bytes <= 512)%nat.
Proof.
  intros Hj Hn. destruct page_facts as (Hp & _ & q & Hq & Hq0). apply Nat.Lcm0.mod_divide in Hj as [c Hc].
  assert (c < q)%nat by nia. nia.
Qed.

Lemma erase_progress n : (n mod page_bytes = 0)%nat -> (n < 512)%nat ->
  BootloaderAPI_ErasePage (Z.of_nat a + Z.of_nat n) (progress n) =
  Some (Nvm (patch a (take n bs ++ replicate page_bytes 0xFF) F) empty_buffer false E).
Proof.
  intros Hj Hn. pose proof (page_fits n Hj Hn) as HnP. rewrite progress_whole by done.
  unfold BootloaderAPI_ErasePage, boot_page_erase, on_page. rewrite align_page, Hj, Z.sub_0_r. cbn [flash page_buffer eeprom].
  assert (length (take n bs) = n) as Htn by (rewrite length_take; lia).
  rewrite decide_True by (rewrite patch_length; lia). cbn [mbind option_bind].
  unfold boot_rww_enable. cbn [flash eeprom]. do 2 f_equal. rewrite <- Nat2Z.inj_add, Nat2Z.id.
  assert (length (take (Z.to_nat SPM_PAGESIZE) (drop (a + n) (patch a (take n bs) F))) = page_bytes) as ->.
  { rewrite length_take, length_drop, patch_length by lia. unfold page_bytes in *. lia. }
  pose proof (patch_next a (take n bs) (replicate page_bytes 0xFF) [] F) as Hpn. rewrite app_nil_r, Htn, length_replicate in Hpn.
  apply Hpn; cbn [length]; lia.
Qed.

(** A page of ones keeps the bytes written over it. *)
Lemma write_over_ones (l : list Z) : Forall is_u8 l ->
  zip_with (fun b o => Z.land b (default 0xFF o)) (replicate (length l) 0xFF) (Some <$> l) = l.
Proof.
  induction 1 as [|b l Hb Hl IH]; [done|]. cbn [length replicate fmap list_fmap zip_with]. cbn [fmap list_fmap] in IH. rewrite IH.
  f_equal. cbn [default from_option id]. rewrite Z.land_comm. change 0xFF with 255. rewrite land_255. by apply u8_small.
Qed.

Lemma write_progress base : (base mod page_bytes = 0)%nat -> (base + page_bytes <= 512)%nat ->
  BootloaderAPI_WritePage (Z.of_nat a + Z.of_nat base)
    (Nvm (patch a (take base bs ++ replicate page_bytes 0xFF) F) (Some <$> take page_bytes (drop base bs)) false E) = Some (progress (base + page_bytes)).
Proof.
  intros Hj Hn. destruct page_facts as (Hp & Ep & _).
  rewrite progress_whole by (rewrite Nat.Div0.add_mod, Hj, Nat.Div0.mod_same; apply Nat.Div0.mod_0_l).
  unfold BootloaderAPI_WritePage, boot_page_write, on_page.
  rewrite align_page, Hj, Z.sub_0_r. cbn [flash page_buffer eeprom rww_busy].
  assert (length (take base bs) = base) as Htn by (rewrite length_take; lia).
  assert (length (take page_bytes (drop base bs)) = page_bytes) as Hl by (rewrite length_take, length_drop; lia).
  rewrite decide_True by (rewrite patch_length; rewrite ?length_app, ?length_replicate; lia). cbn [mbind option_bind flash eeprom rww_busy].
  unfold boot_rww_enable. cbn [flash eeprom]. rewrite <- Nat2Z.inj_add, Nat2Z.id. do 2 f_equal.
  pose proof (patch_segment a (take base bs) (replicate page_bytes 0xFF) F page_bytes) as Hseg. rewrite Htn, length_replicate in Hseg. fold page_bytes. rewrite Hseg by lia.
  pose proof (write_over_ones (take page_bytes (drop base bs))) as Hones. rewrite Hl in Hones. rewrite Hones by (by apply Forall_take, Forall_drop).
  pose proof (patch_next a (take base bs) (take page_bytes (drop base bs)) (replicate page_bytes 0xFF) F) as Hpn. rewrite Htn in Hpn.
  rewrite length_replicate, Hl in Hpn. rewrite Hpn by lia. by rewrite take_take_drop.
Qed.

(** The page of byte [n] is erased before the byte is filled in. *)
Definition begun (n : nat) : nvm :=
  let j := (n mod page_bytes)%nat in
  Nvm (patch a (take (n - j) bs ++ replicate page_bytes 0xFF) F) ((Some <$> take j (drop (n - j) bs)) ++ replicate (page_bytes - j) None) false E.
Lemma begin_word n : (n < 512)%nat ->
  (if (Z.of_nat a + Z.of_nat n) mod SPM_PAGESIZE =? 0 then BootloaderAPI_ErasePage (Z.of_nat a + Z.of_nat n) (progress n) else Some (progress n))
  = Some (begun n).
Proof.
  intros Hn. rewrite align_page. destruct (Z.eqb_spec (Z.of_nat (n mod page_bytes)) 0) as [Hj|Hj].
  - assert (n mod page_bytes = 0)%nat as Hj' by lia. rewrite erase_progress by done. unfold begun. rewrite Hj', !Nat.sub_0_r, take_0. done.
  - unfold progress, begun. rewrite decide_False by lia. done.
Qed.

Lemma fill_begun n low high : (n mod 2 = 0)%nat -> bs !! n = Some low -> bs !! (n + 1)%nat = Some high ->
  BootloaderAPI_FillWord (Z.of_nat a + Z.of_nat n) (Z.lor (Z.shiftl high 8) low) (begun n) =
  Some (let j := (n mod page_bytes)%nat in
        Nvm (patch a (take (n - j) bs ++ replicate page_bytes 0xFF) F) ((Some <$> take (j + 2) (drop (n - j) bs)) ++ replicate (page_bytes - (j + 2)) None) false E).
Proof.
  intros He Hlow Hhigh. destruct page_facts as (Hp & Ep & _). pose proof (page_room n He) as Hj.
  pose proof (Nat.Div0.mod_le n page_bytes) as Hle. pose proof (lookup_lt_Some _ _ _ Hhigh) as Hlt.
  assert (length (take (n mod page_bytes) (drop (n - n mod page_bytes) bs)) = (n mod page_bytes)%nat) as Hx by (rewrite length_take, length_drop; lia).
  rewrite (fill_word _ (take (n mod page_bytes) (drop (n - n mod page_bytes) bs)) _ low high); rewrite ?Hx;
    [|done|lia|lia|apply align_page|by eapply Forall_lookup_1|by eapply Forall_lookup_1].
  unfold begun. cbn [flash rww_busy eeprom]. do 3 f_equal. f_equal.
  rewrite <- take_take_drop. f_equal. rewrite drop_drop. replace (n - n mod page_bytes + n mod page_bytes)%nat with n by lia.
  rewrite (drop_S bs low n), (drop_S bs high (S n)) by (done || by rewrite <- Hhigh; f_equal; lia). done.
Qed.

Lemma word_progress k : (k < 256)%nat ->
  write_flash_word bs (0 + 2 * Z.of_nat (k - 0)) (progress (2 * k), Z.of_nat a + Z.of_nat (2 * k)) =
  Some (progress (2 * (k + 1)), Z.of_nat a + Z.of_nat (2 * (k + 1))).
Proof.
  intros Hk. set (n := (2 * k)%nat). assert (n mod 2 = 0)%nat as He by (unfold n; rewrite Nat.mul_comm; apply Nat.Div0.mod_mul).
  destruct page_facts as (Hp & Ep & _). pose proof (page_room n He) as Hj. pose proof (Nat.Div0.mod_le n page_bytes) as Hle.
  destruct (lookup_lt_is_Some_2 bs n) as [low Hlow]; [lia|]. destruct (lookup_lt_is_Some_2 bs (n + 1)) as [high Hhigh]; [lia|].
  unfold write_flash_word. rewrite begin_word by lia. cbn [mbind option_bind].
  unfold aget. rewrite !decide_True by lia. replace (Z.to_nat (0 + 2 * Z.of_nat (k - 0) + 1)) with (n + 1)%nat by lia.
  replace (Z.to_nat (0 + 2 * Z.of_nat (k - 0))) with n by lia. rewrite Hhigh, Hlow. cbn [mbind option_bind].
  rewrite (fill_begun n low high) by done. cbn [mbind option_bind].
  replace (2 * (k + 1))%nat with (n + 2)%nat by lia.
  replace (Z.of_nat a + Z.of_nat n + 2) with (Z.of_nat a + Z.of_nat (n + 2)) by lia.
  rewrite !flash_address_small by lia. rewrite align_page. pose proof (next_word n He) as Hnext.
  destruct (Z.eqb_spec (Z.of_nat ((n + 2) mod page_bytes)) 0) as [Hz|Hz].
  - assert (n mod page_bytes + 2 = page_bytes)%nat as Ej by (case_decide; lia). rewrite flash_address_small by lia.
    replace (Z.of_nat a + Z.of_nat (n + 2) - SPM_PAGESIZE) with (Z.of_nat a + Z.of_nat (n - n mod page_bytes)) by lia.
    rewrite Ej, Nat.sub_diag, app_nil_r. rewrite write_progress by (apply page_start || lia). cbn [mbind option_bind].
    do 3 f_equal. lia.
  - assert ((n + 2) mod page_bytes = n mod page_bytes + 2)%nat as Ej by (case_decide; lia). cbn [mbind option_bind]. do 2 f_equal.
    unfold progress. rewrite Ej, decide_False by lia. replace (n + 2 - (n mod page_bytes + 2))%nat with (n - n mod page_bytes)%nat by lia. done.
Qed.

(** Writing a block programs its bytes at the address, and leaves the buffer empty. *)
Lemma write_flash_block :
  for_up (write_flash_word bs) 0 2 256 (Nvm F empty_buffer false E, Z.of_nat a) =
  Some (Nvm (patch a bs F) empty_buffer false E, Z.of_nat (a + 512)).
Proof.
  destruct page_facts as (Hp & _ & q & Hq & _).
  pose proof (for_up_inv (write_flash_word bs) 2 (fun k => (progress (2 * k), Z.of_nat a + Z.of_nat (2 * k))) 0 256 0) as Hf.
  cbn beta in Hf. change (2 * (0 + 256))%nat with 512%nat in Hf. change (2 * 0)%nat with 0%nat in Hf.
  rewrite (progress_whole 0), (progress_whole 512) in Hf by (rewrite ?Hq; apply Nat.Div0.mod_0_l || apply Nat.Div0.mod_mul).
  rewrite take_0, take_ge in Hf by lia.
  unfold patch at 1 in Hf. cbn [length app] in Hf. rewrite Nat.add_0_r, take_drop in Hf. rewrite Z.add_0_r in Hf.
  rewrite Hf; [by rewrite Nat2Z.inj_add|]. intros j Hj. apply word_progress. lia.
Qed.
End Program.

(** A loop that copies bytes into the buffer. *)
Lemma copy_loop (rd : Z -> option Z) (nx : Z -> Z) (src : list Z) a n buf : length buf = n -> (a + n <= length src)%nat ->
  (forall k, (k < n)%nat -> rd (Z.of_nat (a + k)) = src !! (a + k)%nat) ->
  (forall k, (k < n)%nat -> nx (Z.of_nat (a + k) + 1) = Z.of_nat (a + (k + 1))) ->
  for_up (fun i (s : list Z * Z) => v ← rd (snd s); b ← aset (fst s) i v; Some (b, nx (snd s + 1))) 0 1 n (buf, Z.of_nat a) =
  Some (take n (drop a src), Z.of_nat (a + n)).
Proof.
  intros Hb Hs Hrd Hnx.
  pose proof (for_up_inv (fun i (s : list Z * Z) => v ← rd (snd s); b ← aset (fst s) i v; Some (b, nx (snd s + 1))) 1
    (fun k => (patch 0 (take k (drop a src)) buf, Z.of_nat (a + k))) 0 n 0) as Hf. cbn beta in Hf.
  rewrite take_0, patch_nil, Nat.add_0_r in Hf. cbn [Nat.add] in Hf.
  rewrite Hf.
  - f_equal. f_equal. unfold patch. rewrite take_0. cbn [app]. rewrite (drop_ge buf) by (rewrite length_take, length_drop; lia). apply app_nil_r.
  - intros j Hj. cbn [fst snd]. rewrite Hrd, Hnx by lia. destruct (lookup_lt_is_Some_2 src (a + j)) as [v Hv]; [lia|].
    rewrite Hv. cbn [mbind option_bind].
    assert (length (take j (drop a src)) = j) as Hl by (rewrite length_take, length_drop; lia).
    rewrite aset_Some by (rewrite patch_length; lia). cbn [mbind option_bind]. do 2 f_equal.
    replace (Z.to_nat (0 + 1 * Z.of_nat (j - 0))) with (0 + length (take j (drop a src)))%nat by lia.
    rewrite patch_snoc by lia. f_equal. rewrite Nat.add_1_r. symmetry. apply take_S_r. by rewrite lookup_drop.
Qed.

Section Blocks.
Context `{BootChipOk}.

(** The state of the memories between two blocks. *)
Definition memory_ok (m : nvm) : Prop :=
  Z.of_nat (length (flash m)) = FLASHEND + 1 /\ Z.of_nat (length (eeprom m)) = E2END + 1 /\
  page_buffer m = empty_buffer /\ rww_busy m = false.
Definition disk_ok (d : vdisk) : Prop := memory_ok (memory d) /\ length (FirmwareFileEntries d) = 160%nat.

Lemma read_flash_block m a : memory_ok m -> (a + 512 < length (flash m))%nat ->
  for_up (fun i s => read_flash_byte i s m) 0 1 512 (replicate 512 0, Z.of_nat a) =
  Some (take 512 (drop a (flash m)), Z.of_nat (a + 512)).
Proof.
  intros (Hf & _ & _ & Hbusy) Ha.
  pose proof (copy_loop (fun x => pgm_read_byte x m) flash_address (flash m) a 512 (replicate 512 0) eq_refl ltac:(lia)) as Hc.
  etransitivity; [|apply Hc].
  - apply for_up_ext. by intros i [b x].
  - intros k Hk. unfold pgm_read_byte. rewrite Hbusy. unfold aget. rewrite decide_True by lia. by rewrite Nat2Z.id.
  - intros k Hk. rewrite flash_address_small by lia. lia.
Qed.

Lemma read_eeprom_block m a buf : length buf = 512%nat -> memory_ok m -> (a + 512 <= length (eeprom m))%nat ->
  for_up (fun i s => read_eeprom_byte i s m) 0 1 512 (buf, Z.of_nat a) =
  Some (take 512 (drop a (eeprom m)), Z.of_nat (a + 512)).
Proof.
  intros Hb (_ & He & _ & _) Ha. pose proof eeprom_sectors as (Hs & _).
  pose proof (copy_loop (fun x => ReadEEPROMByte x m) u16 (eeprom m) a 512 buf Hb ltac:(lia)) as Hc.
  etransitivity; [|apply Hc].
  - apply for_up_ext. by intros i [b x].
  - intros k Hk. unfold ReadEEPROMByte, eeprom_read_byte, aget. rewrite decide_True by lia. by rewrite Nat2Z.id.
  - intros k Hk. rewrite u16_small by (unfold is_u16; lia). lia.
Qed.

Lemma write_eeprom_block m a bs : memory_ok m -> length bs = 512%nat -> (a + 512 <= length (eeprom m))%nat ->
  for_up (write_eeprom_byte bs) 0 1 512 (m, Z.of_nat a) =
  Some (Nvm (flash m) (page_buffer m) (rww_busy m) (patch a bs (eeprom m)), Z.of_nat (a + 512)).
Proof.
  intros (_ & He & _ & _) Hb Ha. pose proof eeprom_sectors as (Hs & _).
  pose proof (for_up_inv (write_eeprom_byte bs) 1
    (fun k => (Nvm (flash m) (page_buffer m) (rww_busy m) (patch a (take k bs) (eeprom m)), Z.of_nat (a + k))) 0 512 0) as Hf.
  cbn beta in Hf. rewrite take_0, patch_nil, Nat.add_0_r in Hf. cbn [Nat.add] in Hf. rewrite take_ge in Hf by lia.
  replace m with (Nvm (flash m) (page_buffer m) (rww_busy m) (eeprom m)) at 1 by (by destruct m). apply Hf. clear Hf.
  intros j Hj. unfold write_eeprom_byte. destruct (lookup_lt_is_Some_2 bs j) as [v Hv]; [lia|].
  unfold aget. rewrite decide_True by lia. replace (Z.to_nat (0 + 1 * Z.of_nat (j - 0))) with j by lia. rewrite Hv. cbn [mbind option_bind].
  assert (length (take j bs) = j) as Hl by (rewrite length_take; lia).
  unfold WriteEEPROMByte, eeprom_update_byte. cbn [eeprom flash page_buffer rww_busy].
  rewrite aset_Some by (rewrite patch_length; lia). cbn [mbind option_bind]. rewrite u16_small by (unfold is_u16; lia).
  do 2 f_equal; [|lia]. f_equal. rewrite Nat2Z.id. replace (a + j)%nat with (a + length (take j bs))%nat by lia.
  rewrite patch_snoc by lia. f_equal. rewrite Nat.add_1_r. symmetry. by apply take_S_r.
Qed.
End Blocks.

(** ** The disk as two files *)

Section Files.
Context `{BootChipOk}.
Implicit Types (d : vdisk) (b : Z) (bs : list Z).

(** The sector of a file a block is, for a file that starts at [cluster]. *)
Definition sector_of (cluster size b : Z) : option nat :=
  if decide (file_start cluster <= b <= file_end (file_start cluster) size) then Some (Z.to_nat (b - file_start cluster)) else None.
Definition flash_sector d b : option nat := sector_of (FLASHFileStartCluster d) FLASH_FILE_SIZE_BYTES b.
Definition eeprom_sector d b : option nat := sector_of (EEPROMFileStartCluster d) EEPROM_FILE_SIZE_BYTES b.

Lemma flash_sectors_eq : FILE_SECTORS FLASH_FILE_SIZE_BYTES * 512 = FLASH_FILE_SIZE_BYTES.
Proof.
  pose proof flash_sectors as (_ & Hm & _). unfold FILE_SECTORS, SECTOR_SIZE_BYTES. rewrite Hm. cbn.
  pose proof (Z.div_mod FLASH_FILE_SIZE_BYTES 512). lia.
Qed.
Lemma eeprom_sectors_eq : FILE_SECTORS EEPROM_FILE_SIZE_BYTES * 512 = E2END + 1.
Proof.
  pose proof eeprom_sectors as (_ & Hm). unfold FILE_SECTORS, SECTOR_SIZE_BYTES, EEPROM_FILE_SIZE_BYTES.
  destruct (Z.eqb_spec (E2END mod 512) 0); word_lia.
Qed.
Lemma sectors_small : 0 < FILE_SECTORS FLASH_FILE_SIZE_BYTES <= 672 /\ 0 < FILE_SECTORS EEPROM_FILE_SIZE_BYTES <= 64.
Proof.
  pose proof flash_sectors_eq as Ef. pose proof eeprom_sectors_eq as Ee. pose proof flash_sectors as (Hf & _ & _).
  pose proof eeprom_sectors as (He & _). pose proof files_fit as Hfit. assert (0 <= FILE_CLUSTERS EEPROM_FILE_SIZE_BYTES).
  { unfold FILE_CLUSTERS, CLUSTER_SIZE_BYTES, SECTOR_PER_CLUSTER, SECTOR_SIZE_BYTES, EEPROM_FILE_SIZE_BYTES.
    destruct (_ =? _); word_lia. }
  split; [|lia]. revert Hfit. unfold FILE_CLUSTERS at 1, CLUSTER_SIZE_BYTES, SECTOR_PER_CLUSTER, SECTOR_SIZE_BYTES.
  destruct (Z.eqb_spec (FLASH_FILE_SIZE_BYTES mod (4 * 512)) 0); word_lia.
Qed.

(** Also where the computation of the last block wraps around, a block in the range
    is a sector of the file. *)
Lemma sector_of_bound cluster size b k : 0 < FILE_SECTORS size <= 65535 -> sector_of cluster size b = Some k ->
  Z.of_nat k = b - file_start cluster /\ Z.of_nat k < FILE_SECTORS size.
Proof.
  intros Hs. unfold sector_of. case_decide as Hb; [|done]. intros [= <-].
  assert (is_u16 (file_start cluster)) as Hu by apply u16_range. revert Hb. generalize (file_start cluster) as s, Hu.
  intros s [] Hb. unfold file_end in Hb. split; word_lia.
Qed.
Lemma flash_sector_room d b k : disk_ok d -> flash_sector d b = Some k ->
  Z.of_nat k = b - file_start (FLASHFileStartCluster d) /\ (512 * k + 512 <= Z.to_nat FLASH_FILE_SIZE_BYTES < length (flash (memory d)))%nat.
Proof.
  intros [(Hf & _) _] Hk. pose proof sectors_small as [Hs _]. apply sector_of_bound in Hk as [Hk Hlt]; [|lia].
  pose proof flash_sectors_eq. pose proof flash_sectors. lia.
Qed.
Lemma eeprom_sector_room d b k : disk_ok d -> eeprom_sector d b = Some k ->
  Z.of_nat k = b - file_start (EEPROMFileStartCluster d) /\ (512 * k + 512 <= length (eeprom (memory d)))%nat.
Proof.
  intros [(_ & He & _) _] Hk. pose proof sectors_small as [_ Hs]. apply sector_of_bound in Hk as [Hk Hlt]; [|lia].
  pose proof eeprom_sectors_eq. lia.
Qed.

Lemma sector_of_range cluster size b : negb ((file_start cluster <=? b) && (b <=? file_end (file_start cluster) size)) =
  match sector_of cluster size b with Some _ => false | None => true end.
Proof. unfold sector_of. destruct (Z.leb_spec (file_start cluster) b), (Z.leb_spec b (file_end (file_start cluster) size)); case_decide; done || lia. Qed.

Definition program_flash (k : option nat) bs (m : nvm) : nvm :=
  Nvm (match k with Some k => patch (512 * k) bs (flash m) | None => flash m end) (page_buffer m) (rww_busy m) (eeprom m).
Definition program_eeprom (k : option nat) bs (m : nvm) : nvm :=
  Nvm (flash m) (page_buffer m) (rww_busy m) (match k with Some k => patch (512 * k) bs (eeprom m) | None => eeprom m end).
Definition sector (k : nat) (l : list Z) : list Z := take 512 (drop (512 * k) l).

Lemma flash_write d b bs : disk_ok d -> length bs = 512%nat -> Forall is_u8 bs ->
  ReadWriteFLASHFileBlock b bs false d = Some (bs, Disk (FirmwareFileEntries d) (program_flash (flash_sector d b) bs (memory d))).
Proof.
  intros Hd Hl Hu. unfold ReadWriteFLASHFileBlock. rewrite sector_of_range. fold (flash_sector d b).
  destruct (flash_sector d b) as [k|] eqn:Hk; [|by destruct d as [e []]].
  destruct (flash_sector_room d b k Hd Hk) as [Ek Hroom]. destruct Hd as [(Hf & He & Hp & Hb) _].
  change (Z.to_nat (SECTOR_SIZE_BYTES / 2)) with 256%nat. unfold SECTOR_SIZE_BYTES. rewrite <- Ek.
  rewrite flash_address_small by lia. replace (Z.of_nat k * 512) with (Z.of_nat (512 * k)) by lia.
  unfold program_flash. destruct (memory d) as [F pb rb E]. cbn [flash page_buffer rww_busy eeprom] in *. subst pb rb.
  rewrite write_flash_block by (lia || done || (rewrite Nat.mul_comm; apply Nat.Div0.mod_mul)). done.
Qed.

Lemma flash_read d b : disk_ok d ->
  ReadWriteFLASHFileBlock b (replicate 512 0) true d =
  Some (match flash_sector d b with Some k => sector k (flash (memory d)) | None => replicate 512 0 end, d).
Proof.
  intros Hd. unfold ReadWriteFLASHFileBlock. rewrite sector_of_range. fold (flash_sector d b).
  destruct (flash_sector d b) as [k|] eqn:Hk; [|done].
  destruct (flash_sector_room d b k Hd Hk) as [Ek Hroom]. destruct Hd as [Hm _]. pose proof Hm as (Hf & _).
  change (Z.to_nat SECTOR_SIZE_BYTES) with 512%nat. unfold SECTOR_SIZE_BYTES. rewrite <- Ek.
  rewrite flash_address_small by lia. replace (Z.of_nat k * 512) with (Z.of_nat (512 * k)) by lia.
  rewrite read_flash_block by (done || lia). done.
Qed.

Lemma eeprom_write d b bs : disk_ok d -> length bs = 512%nat ->
  ReadWriteEEPROMFileBlock b bs false d = Some (bs, Disk (FirmwareFileEntries d) (program_eeprom (eeprom_sector d b) bs (memory d))).
Proof.
  intros Hd Hl. unfold ReadWriteEEPROMFileBlock. rewrite sector_of_range. fold (eeprom_sector d b).
  destruct (eeprom_sector d b) as [k|] eqn:Hk; [|by destruct d as [e []]].
  destruct (eeprom_sector_room d b k Hd Hk) as [Ek Hroom]. destruct Hd as [Hm _]. pose proof Hm as (_ & He & _).
  pose proof eeprom_sectors as (Hs & _). change (Z.to_nat SECTOR_SIZE_BYTES) with 512%nat. unfold SECTOR_SIZE_BYTES. rewrite <- Ek.
  rewrite u16_small by (unfold is_u16; lia). replace (Z.of_nat k * 512) with (Z.of_nat (512 * k)) by lia.
  rewrite write_eeprom_block by (done || lia). done.
Qed.

Lemma eeprom_read d b buf : disk_ok d -> length buf = 512%nat ->
  ReadWriteEEPROMFileBlock b buf true d = Some (match eeprom_sector d b with Some k => sector k (eeprom (memory d)) | None => buf end, d).
Proof.
  intros Hd Hl. unfold ReadWriteEEPROMFileBlock. rewrite sector_of_range. fold (eeprom_sector d b).
  destruct (eeprom_sector d b) as [k|] eqn:Hk; [|done].
  destruct (eeprom_sector_room d b k Hd Hk) as [Ek Hroom]. destruct Hd as [Hm _]. pose proof Hm as (_ & He & _).
  pose proof eeprom_sectors as (Hs & _). change (Z.to_nat SECTOR_SIZE_BYTES) with 512%nat. unfold SECTOR_SIZE_BYTES. rewrite <- Ek.
  rewrite u16_small by (unfold is_u16; lia). replace (Z.of_nat k * 512) with (Z.of_nat (512 * k)) by lia.
  rewrite read_eeprom_block by (done || lia). done.
Qed.
End Files.

(** ** The file allocation table *)

(** The entry of a cluster as the FAT12 layout defines it: 12 bits of two bytes. *)
Definition byte_at (t : list Z) (i : nat) : Z := default 0 (t !! i).
Definition fat_entry (t : list Z) (n : nat) : Z :=
  let w := byte_at t (n + n / 2) + 256 * byte_at t (n + n / 2 + 1) in
  if Nat.odd n then w / 16 else w mod 4096.

Lemma byte_at_insert t i v j : (i < length t)%nat -> byte_at (<[i := v]> t) j = if decide (i = j) then v else byte_at t j.
Proof.
  intros Hi. unfold byte_at. case_decide as Hd; [subst; by rewrite list_lookup_insert_eq by done|by rewrite list_lookup_insert_ne by done].
Qed.
Lemma byte_at_u8 t i : Forall is_u8 t -> is_u8 (byte_at t i).
Proof. intros Hu. unfold byte_at. destruct (t !! i) eqn:Hi; [by eapply Forall_lookup_1|]. cbn. unfold is_u8. lia. Qed.

Lemma fat_entry_even t q : Forall is_u8 t -> fat_entry t (2 * q) = byte_at t (3 * q) + 256 * (byte_at t (3 * q + 1) mod 16).
Proof.
  intros Hu. unfold fat_entry. replace (2 * q + 2 * q / 2)%nat with (3 * q)%nat by (rewrite (Nat.mul_comm 2 q), Nat.div_mul; lia).
  rewrite Nat.odd_mul. cbn [Nat.odd andb negb Nat.even]. pose proof (byte_at_u8 t (3 * q) Hu). pose proof (byte_at_u8 t (3 * q + 1) Hu). word_lia.
Qed.
Lemma fat_entry_odd t q : Forall is_u8 t -> fat_entry t (2 * q + 1) = byte_at t (3 * q + 1) / 16 + 16 * byte_at t (3 * q + 2).
Proof.
  intros Hu. unfold fat_entry. replace ((2 * q + 1) / 2)%nat with q by (rewrite (Nat.mul_comm 2 q), Nat.div_add_l, Nat.div_small; lia).
  replace (2 * q + 1 + q)%nat with (3 * q + 1)%nat by lia. replace (3 * q + 1 + 1)%nat with (3 * q + 2)%nat by lia.
  rewrite Nat.odd_add, Nat.odd_mul. cbn [Nat.odd andb negb Nat.even xorb]. pose proof (byte_at_u8 t (3 * q + 1) Hu). word_lia.
Qed.

Lemma land_240 v : is_u8 v -> Z.land v 0xF0 = Z.shiftl (v / 16) 4.
Proof.
  intros Hv. assert (forallb (fun n => Z.land (Z.of_nat n) 0xF0 =? Z.shiftl (Z.of_nat n / 16) 4) (seq 0 256) = true) as Hall by reflexivity.
  rewrite forallb_forall in Hall. specialize (Hall (Z.to_nat v)). rewrite Z2Nat.id in Hall by (unfold is_u8 in Hv; lia).
  apply Z.eqb_eq, Hall, in_seq. unfold is_u8 in Hv. lia.
Qed.

Lemma update_even t q e : length t = 512%nat -> (2 * q <= 170)%nat -> 0 <= e < 4096 ->
  UpdateFAT12ClusterEntry t (Z.of_nat (2 * q)) e =
  Some (<[(3 * q + 1)%nat := e mod 256 / 16 * 16 + e / 256]> (<[(3 * q)%nat := e mod 256]> t)).
Proof.
  intros Hl Hq He. unfold UpdateFAT12ClusterEntry. rewrite Z.shiftr_div_pow2 by lia. change (2 ^ 1) with 2.
  replace (u8 (Z.of_nat (2 * q) + Z.of_nat (2 * q) / 2)) with (Z.of_nat (3 * q)) by word_lia.
  change 1 with (Z.ones 1) at 1. rewrite Z.land_ones by lia. change (2 ^ 1) with 2. replace (Z.of_nat (2 * q) mod 2) with 0 by word_lia.
  cbn [Z.eqb negb]. rewrite aset_Some by lia. cbn [mbind option_bind]. rewrite Nat2Z.id.
  unfold aget. rewrite decide_True by lia. rewrite Nat2Z.id, list_lookup_insert_eq by lia. cbn [mbind option_bind].
  rewrite aset_Some by (rewrite length_insert; lia). replace (Z.to_nat (Z.of_nat (3 * q) + 1)) with (3 * q + 1)%nat by lia.
  do 2 f_equal. rewrite land_240 by apply u8_range. rewrite Z.shiftr_div_pow2 by lia. change (2 ^ 8) with 256.
  rewrite lor_shiftl_add by (change (2 ^ 4) with 16; word_lia). change (2 ^ 4) with 16. word_lia.
Qed.
Lemma update_odd t q e : length t = 512%nat -> (2 * q + 1 <= 170)%nat -> 0 <= e < 4096 ->
  UpdateFAT12ClusterEntry t (Z.of_nat (2 * q + 1)) e =
  Some (<[(3 * q + 2)%nat := e / 16]> (<[(3 * q + 1)%nat := byte_at t (3 * q + 1) mod 16 + e mod 16 * 16]> t)).
Proof.
  intros Hl Hq He. unfold UpdateFAT12ClusterEntry. rewrite Z.shiftr_div_pow2 by lia. change (2 ^ 1) with 2.
  replace (u8 (Z.of_nat (2 * q + 1) + Z.of_nat (2 * q + 1) / 2)) with (Z.of_nat (3 * q + 1)) by word_lia.
  change 1 with (Z.ones 1) at 1. rewrite Z.land_ones by lia. change (2 ^ 1) with 2. replace (Z.of_nat (2 * q + 1) mod 2) with 1 by word_lia.
  cbn [Z.eqb negb]. unfold byte_at. destruct (lookup_lt_is_Some_2 t (3 * q + 1)) as [v Hv]; [lia|].
  unfold aget. rewrite decide_True by lia. rewrite Nat2Z.id, Hv. cbn [mbind option_bind default from_option].
  rewrite aset_Some by lia. cbn [mbind option_bind]. rewrite Nat2Z.id.
  rewrite aset_Some by (rewrite length_insert; lia). replace (Z.to_nat (Z.of_nat (3 * q + 1) + 1)) with (3 * q + 2)%nat by lia.
  rewrite Z.shiftr_div_pow2 by lia. change (2 ^ 4) with 16. do 2 f_equal; [word_lia|]. f_equal.
  change 0x0F with (Z.ones 4). rewrite !Z.land_ones by lia. change (2 ^ 4) with 16. rewrite Z.lor_comm.
  rewrite lor_shiftl_add by (change (2 ^ 4) with 16; word_lia). change (2 ^ 4) with 16. unfold id. word_lia.
Qed.

(** What one update does to the table: the entry is set; after an even entry, the
    low digit of the next one is overwritten with a digit of the new value. *)
Definition set_entry (tab : nat -> Z) (i : nat) (e : Z) (j : nat) : Z :=
  if decide (j = i) then e
  else if Nat.even i && bool_decide (j = S i) then tab j / 16 * 16 + e mod 256 / 16
  else tab j.
Definition table_ok (t : list Z) : Prop := length t = 512%nat /\ Forall is_u8 t.

Lemma update_entry t i e : table_ok t -> (i <= 170)%nat -> 0 <= e < 4096 ->
  exists t', UpdateFAT12ClusterEntry t (Z.of_nat i) e = Some t' /\ table_ok t' /\ forall j, fat_entry t' j = set_entry (fat_entry t) i e j.
Proof.
  intros [Hl Hu] Hi He. destruct (Nat.even i) eqn:Hpar.
  - apply Nat.even_spec in Hpar as [q ->]. rewrite (update_even t q e) by done. eexists. split; [done|].
    assert (Forall is_u8 (<[(3 * q + 1)%nat := e mod 256 / 16 * 16 + e / 256]> (<[(3 * q)%nat := e mod 256]> t))) as Hu'.
    { repeat apply Forall_insert; [done|word_lia..]. }
    split; [split; [by rewrite !length_insert|done]|]. intros j. unfold set_entry. rewrite Nat.even_mul. cbn [Nat.even orb andb].
    destruct (Nat.Even_or_Odd j) as [[p ->]|[p ->]].
    + rewrite !fat_entry_even, !byte_at_insert by (done || rewrite ?length_insert; lia). pose proof (byte_at_u8 t (3 * p + 1) Hu).
      repeat case_decide; try lia; rewrite ?bool_decide_eq_false_2 by lia; word_lia.
    + rewrite !fat_entry_odd, !byte_at_insert by (done || rewrite ?length_insert; lia). pose proof (byte_at_u8 t (3 * p + 1) Hu).
      repeat case_decide; try lia; [rewrite bool_decide_eq_true_2 by lia|rewrite bool_decide_eq_false_2 by lia]; word_lia.
  - assert (Nat.Odd i) as [q ->] by (apply Nat.odd_spec; unfold Nat.odd; by rewrite Hpar). rewrite (update_odd t q e) by done. eexists. split; [done|].
    pose proof (byte_at_u8 t (3 * q + 1) Hu).
    assert (Forall is_u8 (<[(3 * q + 2)%nat := e / 16]> (<[(3 * q + 1)%nat := byte_at t (3 * q + 1) mod 16 + e mod 16 * 16]> t))) as Hu'.
    { repeat apply Forall_insert; [done|word_lia..]. }
    split; [split; [by rewrite !length_insert|done]|]. intros j. unfold set_entry. rewrite Hpar. cbn [andb].
    destruct (Nat.Even_or_Odd j) as [[p ->]|[p ->]].
    + rewrite !fat_entry_even, !byte_at_insert by (done || rewrite ?length_insert; lia).
      repeat case_decide; try lia. replace p with q by lia. word_lia.
    + rewrite !fat_entry_odd, !byte_at_insert by (done || rewrite ?length_insert; lia). repeat case_decide; try lia. word_lia.
Qed.

Lemma for_up_rule {A} (body : Z -> A -> option A) (I : nat -> A -> Prop) i n : forall k s, i = Z.of_nat k -> I k s ->
  (forall j x, (k <= j < k + n)%nat -> I j x -> exists x', body (Z.of_nat j) x = Some x' /\ I (j + 1)%nat x') ->
  exists s', for_up body i 1 n s = Some s' /\ I (k + n)%nat s'.
Proof.
  revert i. induction n as [|n IH]; intros i k s Hi Hs Hb; cbn [for_up]; [exists s; by rewrite Nat.add_0_r|].
  destruct (Hb k s ltac:(lia) Hs) as (s1 & H1 & HI1). rewrite Hi, H1. cbn [mbind option_bind].
  destruct (IH (i + 1) (k + 1)%nat s1 ltac:(lia) HI1) as (s' & Hf & HI'); [intros j x Hj; apply Hb; lia|].
  exists s'. split; [by rewrite <- Hi|]. by replace (k + S n)%nat with (k + 1 + n)%nat by lia.
Qed.

(** A chain of [n] clusters from [idx] on: each entry names the next cluster, the
    last one ends the file; where the last one is even, a digit of the entry behind
    it is spoiled. *)
Definition link (tab : nat -> Z) (idx n j : nat) : Z :=
  if decide (idx <= j < idx + n)%nat then (if decide (S j = idx + n)%nat then 0xFFF else Z.of_nat (S j))
  else if Nat.odd j && bool_decide (j = idx + n)%nat && bool_decide (0 < n)%nat then tab j / 16 * 16 + 15
  else tab j.

Lemma set_entry_ext tab tab' i e : (forall j, tab j = tab' j) -> forall j, set_entry tab i e j = set_entry tab' i e j.
Proof. intros Ht j. unfold set_entry. by rewrite !Ht. Qed.
Lemma link_ext tab tab' idx n : (forall j, tab j = tab' j) -> forall j, link tab idx n j = link tab' idx n j.
Proof. intros Ht j. unfold link. by rewrite !Ht. Qed.

(** The chain while it is written, [k] entries of it. *)
Definition linking (tab : nat -> Z) (idx n k j : nat) : Z :=
  if decide (idx <= j < idx + k)%nat then (if decide (S j = idx + n)%nat then 0xFFF else Z.of_nat (S j))
  else if Nat.odd j && bool_decide (j = idx + k)%nat && bool_decide (0 < k)%nat
    then tab j / 16 * 16 + (if decide (k = n) then 15 else Z.of_nat j mod 256 / 16)
  else tab j.

Lemma linking_step tab idx n k j : (k < n)%nat -> (idx + n <= 171)%nat ->
  set_entry (linking tab idx n k) (idx + k) (if decide (S k = n) then 0xFFF else Z.of_nat (S (idx + k))) j = linking tab idx n (k + 1) j.
Proof.
  intros Hk Hn. unfold set_entry. case_decide as Hj.
  { subst j. unfold linking. repeat case_decide; lia. }
  destruct (Nat.even (idx + k) && bool_decide (j = S (idx + k))) eqn:Hnext.
  - apply andb_prop in Hnext as [Hev ->%bool_decide_eq_true_1].
    assert (linking tab idx n k (S (idx + k)) = tab (S (idx + k))) as ->.
    { unfold linking. rewrite decide_False by lia. rewrite (bool_decide_eq_false_2 (S (idx + k) = idx + k)%nat) by lia. by rewrite andb_false_r. }
    unfold linking. rewrite (decide_False (P := (idx <= S (idx + k) < idx + (k + 1))%nat)) by lia.
    rewrite Nat.odd_succ, Hev, (bool_decide_eq_true_2 (S (idx + k) = idx + (k + 1))%nat), (bool_decide_eq_true_2 (0 < k + 1)%nat) by lia.
    cbn [andb]. f_equal. repeat case_decide; try lia; word_lia.
  - assert (Nat.even (idx + k) = false \/ j <> S (idx + k)) as Hnx.
    { apply andb_false_iff in Hnext as [He|He]; [by left|right; by apply bool_decide_eq_false_1 in He]. }
    clear Hnext. unfold linking. repeat case_decide; try lia.
    all: destruct (Nat.odd j) eqn:Ho; cbn [andb]; try done.
    all: repeat case_bool_decide; cbn [andb]; try lia; try done.
    all: destruct Hnx as [Hf|Hf]; try lia.
    all: subst j; replace (idx + (k + 1))%nat with (S (idx + k)) in Ho by lia; rewrite Nat.odd_succ in Ho; congruence.
Qed.

Lemma update_chain t idx n : table_ok t -> (idx + n <= 171)%nat ->
  exists t', UpdateFAT12ClusterChain t (Z.of_nat idx) (Z.of_nat n) = Some t' /\ table_ok t' /\
    forall j, fat_entry t' j = link (fat_entry t) idx n j.
Proof.
  intros Ht Hn. unfold UpdateFAT12ClusterChain. rewrite Nat2Z.id.
  destruct (for_up_rule (fun i t => UpdateFAT12ClusterEntry t (u16 (Z.of_nat idx + i))
      (if i =? Z.of_nat n - 1 then 0xFFF else u16 (u16 (Z.of_nat idx + i) + 1)))
    (fun k t' => table_ok t' /\ forall j, fat_entry t' j = linking (fat_entry t) idx n k j) 0 n 0 t) as (t' & Hf & Ht' & He).
  - done.
  - split; [done|]. intros j. unfold linking. rewrite decide_False by lia. rewrite (bool_decide_eq_false_2 (0 < 0)%nat) by lia.
    by rewrite andb_false_r.
  - intros k x Hk [Hx Hex]. rewrite !u16_small by (unfold is_u16; rewrite ?u16_small; unfold is_u16; lia).
    replace (Z.of_nat idx + Z.of_nat k) with (Z.of_nat (idx + k)) by lia.
    replace (if Z.of_nat k =? Z.of_nat n - 1 then 0xFFF else Z.of_nat (idx + k) + 1)
      with (if decide (S k = n) then 0xFFF else Z.of_nat (S (idx + k))) by (case_decide; case Z.eqb_spec; lia).
    destruct (update_entry x (idx + k) (if decide (S k = n) then 0xFFF else Z.of_nat (S (idx + k)))) as (x' & Hup & Hx' & Hset);
      [done|lia|case_decide; lia|].
    exists x'. split_and!; [done|done|]. intros j. rewrite Hset, (set_entry_ext _ _ _ _ Hex). apply linking_step; lia.
  - exists t'. split_and!; [done|done|]. intros j. rewrite He. unfold linking, link. cbn [Nat.add]. by rewrite (decide_True (P := n = n)) by done.
Qed.

Section Table.
Context `{BootChipOk}.
Implicit Types (d : vdisk).

Definition flash_clusters : nat := Z.to_nat (FILE_CLUSTERS FLASH_FILE_SIZE_BYTES).
Definition eeprom_clusters : nat := Z.to_nat (FILE_CLUSTERS EEPROM_FILE_SIZE_BYTES).
Definition flash_start d : nat := Z.to_nat (FLASHFileStartCluster d).
Definition eeprom_start d : nat := Z.to_nat (EEPROMFileStartCluster d).

(** The table of a disk: the two reserved entries, the chain of FLASH.BIN, and the
    chain of EEPROM.BIN over it. *)
Definition reserved (j : nat) : Z := match j with 0%nat => 0xFF8 | 1%nat => 0xFFF | _ => 0 end.
Definition table d : nat -> Z := link (link reserved (flash_start d) flash_clusters) (eeprom_start d) eeprom_clusters.

Lemma clusters_eq : Z.of_nat flash_clusters = FILE_CLUSTERS FLASH_FILE_SIZE_BYTES /\ Z.of_nat eeprom_clusters = FILE_CLUSTERS EEPROM_FILE_SIZE_BYTES /\
  (0 < flash_clusters)%nat /\ (0 < eeprom_clusters)%nat /\ (flash_clusters + eeprom_clusters <= 168)%nat.
Proof.
  pose proof files_fit as Hfit. pose proof flash_sectors as (Hf & _). pose proof eeprom_sectors as (He & _). revert Hfit.
  unfold flash_clusters, eeprom_clusters.
  assert (forall size, 0 < size -> 0 < FILE_CLUSTERS size) as Hc.
  { intros size Hs. unfold FILE_CLUSTERS, CLUSTER_SIZE_BYTES, SECTOR_PER_CLUSTER, SECTOR_SIZE_BYTES.
    destruct (Z.eqb_spec (size mod (4 * 512)) 0); word_lia. }
  pose proof (Hc _ (proj1 Hf)). pose proof (Hc EEPROM_FILE_SIZE_BYTES (proj1 He)). lia.
Qed.

Lemma table_ok_zero : table_ok (replicate 512 0).
Proof. split; [done|]. apply Forall_replicate. unfold is_u8. lia. Qed.
Lemma fat_entry_zero j : fat_entry (replicate 512 0) j = 0.
Proof.
  assert (forall i, byte_at (replicate 512 0) i = 0) as Hb.
  { intros i. unfold byte_at. destruct (replicate 512 0 !! i) as [v|] eqn:Hv; [|done]. by apply lookup_replicate in Hv as [-> _]. }
  unfold fat_entry. rewrite !Hb. by destruct (Nat.odd j).
Qed.

Lemma fat_block_table d : (flash_start d + flash_clusters <= 171)%nat -> (eeprom_start d + eeprom_clusters <= 171)%nat ->
  0 <= FLASHFileStartCluster d -> 0 <= EEPROMFileStartCluster d ->
  exists t, fat_block (replicate 512 0) d = Some t /\ table_ok t /\ forall j, fat_entry t j = table d j.
Proof.
  intros Hf He Hf0 He0. destruct clusters_eq as (Ef & Ee & _ & _ & Hsum). unfold fat_block.
  change (Z.lor 0xF00 (MediaDescriptor BootBlock)) with 0xFF8.
  destruct (update_entry (replicate 512 0) 0 0xFF8) as (t0 & Ht0 & Hok0 & Hs0); [apply table_ok_zero|lia|lia|].
  change (Z.of_nat 0) with 0 in Ht0. rewrite Ht0. cbn [mbind option_bind].
  destruct (update_entry t0 1 0xFFF) as (t1 & Ht1 & Hok1 & Hs1); [done|lia|lia|]. change (Z.of_nat 1) with 1 in Ht1. rewrite Ht1. cbn [mbind option_bind].
  rewrite <- Ef, <- Ee. rewrite !u8_small by (unfold is_u8; lia).
  replace (FLASHFileStartCluster d) with (Z.of_nat (flash_start d)) by (unfold flash_start; lia).
  replace (EEPROMFileStartCluster d) with (Z.of_nat (eeprom_start d)) by (unfold eeprom_start; lia).
  destruct (update_chain t1 (flash_start d) flash_clusters Hok1 Hf) as (t2 & -> & Hok2 & Hs2). cbn [mbind option_bind].
  destruct (update_chain t2 (eeprom_start d) eeprom_clusters Hok2 He) as (t3 & -> & Hok3 & Hs3).
  exists t3. split_and!; [done|done|]. intros j. rewrite Hs3. unfold table. apply link_ext. clear j. intros j. rewrite Hs2. apply link_ext. clear j.
  intros j. rewrite Hs1, (set_entry_ext _ _ _ _ Hs0). unfold set_entry. rewrite !fat_entry_zero.
  destruct j as [|[|j]]; [done|done|]. cbn [Nat.even andb]. rewrite !decide_False by lia. rewrite bool_decide_eq_false_2 by lia. done.
Qed.

(** ** A reader of FAT12 volumes *)

(** The clusters of a chain, from [c] up to an end of file mark. *)
Fixpoint follow_clusters (tab : nat -> Z) (fuel : nat) (c : nat) : option (list nat) :=
  match fuel with
  | O => None
  | S fuel' =>
      if decide (c < 2)%nat then None
      else if decide (0xFF8 <= tab c) then Some [c]
      else cs ← follow_clusters tab fuel' (Z.to_nat (tab c)); Some (c :: cs)
  end.

Lemma follow_chain tab n : forall fuel c, (0 < n <= fuel)%nat -> (2 <= c)%nat -> (c + n <= 171)%nat ->
  (forall j, (c <= j < c + n)%nat -> tab j = if decide (S j = c + n)%nat then 0xFFF else Z.of_nat (S j)) ->
  follow_clusters tab fuel c = Some (seq c n).
Proof.
  induction n as [|n IH]; intros fuel c Hn Hc Hcn Ht; [lia|]. destruct fuel as [|fuel]; [lia|]. cbn [follow_clusters].
  rewrite decide_False by lia. rewrite (Ht c) by lia. destruct (decide (S c = c + S n)%nat) as [He|He].
  - assert (n = 0)%nat as -> by lia. done.
  - rewrite decide_False by lia. rewrite Nat2Z.id, (IH fuel (S c)) by (lia || (intros j Hj; rewrite Ht by lia; repeat case_decide; lia || done)).
    done.
Qed.
End Table.

(** ** What the disk does *)

Section Spec.
Context `{BootChipOk}.
Implicit Types (d : vdisk) (b : Z) (bs : list Z).

(** The disk after a block is written, and the block read from it. *)
Definition written_disk b bs d : vdisk :=
  if decide (b < 3) then d
  else if decide (b = 3) then Disk (take 160 bs) (memory d)
  else Disk (FirmwareFileEntries d) (program_eeprom (eeprom_sector d b) bs (program_flash (flash_sector d b) bs (memory d))).
Definition on_file d b : bool := bool_decide (is_Some (flash_sector d b) \/ is_Some (eeprom_sector d b)).
Definition shown b d : list Z :=
  match eeprom_sector d b, flash_sector d b with
  | Some k, _ => sector k (eeprom (memory d))
  | None, Some k => sector k (flash (memory d))
  | None, None => replicate 512 0
  end.

Lemma program_flash_ok d k bs b : disk_ok d -> length bs = 512%nat -> flash_sector d b = k -> memory_ok (program_flash k bs (memory d)).
Proof.
  intros Hd Hl Hk. pose proof Hd as [(Hf & He & Hp & Hb) _]. unfold program_flash, memory_ok. cbn [flash eeprom page_buffer rww_busy].
  destruct k as [k|]; [|done]. apply flash_sector_room in Hk as [_ Hk]; [|done]. by rewrite patch_length by lia.
Qed.
Lemma program_eeprom_ok d k bs b : disk_ok d -> length bs = 512%nat -> eeprom_sector d b = k -> memory_ok (program_eeprom k bs (memory d)).
Proof.
  intros Hd Hl Hk. pose proof Hd as [(Hf & He & Hp & Hb) _]. unfold program_eeprom, memory_ok. cbn [flash eeprom page_buffer rww_busy].
  destruct k as [k|]; [|done]. apply eeprom_sector_room in Hk as [_ Hk]; [|done]. by rewrite patch_length by lia.
Qed.

Lemma disk_write_spec d b bs : disk_ok d -> 0 <= b -> length bs = 512%nat -> Forall is_u8 bs ->
  disk_write b bs d = Some (written_disk b bs d) /\ disk_ok (written_disk b bs d).
Proof.
  intros Hd Hb Hl Hu. unfold disk_write, written_disk, DISK_BLOCK_BootBlock, DISK_BLOCK_FATBlock1, DISK_BLOCK_FATBlock2, DISK_BLOCK_RootFilesBlock.
  destruct (Z.eqb_spec b 0); [by rewrite decide_True by lia|]. destruct (Z.eqb_spec b 1); [by rewrite decide_True by lia|].
  destruct (Z.eqb_spec b 2); [by rewrite decide_True by lia|]. rewrite decide_False by lia.
  destruct (Z.eqb_spec b 3).
  - rewrite decide_True by done. split; [done|]. destruct Hd as [Hm _]. split; [done|]. cbn [FirmwareFileEntries]. rewrite length_take. lia.
  - rewrite decide_False by done. rewrite flash_write by done. cbn [mbind option_bind fst snd].
    set (d1 := Disk (FirmwareFileEntries d) (program_flash (flash_sector d b) bs (memory d))).
    assert (disk_ok d1) as Hd1 by (split; [by eapply program_flash_ok|apply Hd]). rewrite eeprom_write by done. cbn [mbind option_bind snd].
    split; [done|]. split; [|apply Hd]. change (eeprom_sector d b) with (eeprom_sector d1 b). by eapply (program_eeprom_ok d1).
Qed.

Lemma disk_read_data d b : disk_ok d -> 4 <= b -> disk_read b d = Some (shown b d).
Proof.
  intros Hd Hb. unfold disk_read, DISK_BLOCK_BootBlock, DISK_BLOCK_FATBlock1, DISK_BLOCK_FATBlock2, DISK_BLOCK_RootFilesBlock.
  destruct (Z.eqb_spec b 0); [lia|]. destruct (Z.eqb_spec b 1); [lia|]. destruct (Z.eqb_spec b 2); [lia|]. destruct (Z.eqb_spec b 3); [lia|]. cbn [orb].
  change (Z.to_nat SECTOR_SIZE_BYTES) with 512%nat. rewrite flash_read by done. cbn [mbind option_bind fst snd].
  rewrite eeprom_read; [|done|].
  - unfold shown. cbn [mbind option_bind fst]. by destruct (eeprom_sector d b).
  - destruct (flash_sector d b) as [k|] eqn:Hk; [|by rewrite length_replicate].
    apply flash_sector_room in Hk as [_ Hk]; [|done]. unfold sector. rewrite length_take, length_drop. lia.
Qed.

Lemma sector_patch k k' bs (l : list Z) : length bs = 512%nat -> (512 * k + 512 <= length l)%nat -> (512 * k' + 512 <= length l)%nat ->
  sector k' (patch (512 * k) bs l) = if decide (k' = k) then bs else sector k' l.
Proof.
  intros Hl Hk Hk'. unfold sector. apply list_eq. intros i. destruct (decide (i < 512)%nat) as [Hi|Hi].
  - rewrite lookup_take_lt, lookup_drop, patch_lookup by lia. destruct (decide (k' = k)) as [->|Hne].
    + rewrite decide_True by lia. f_equal. lia.
    + rewrite decide_False by lia. by rewrite lookup_take_lt, lookup_drop by lia.
  - rewrite lookup_take_ge by lia. case_decide; [by rewrite lookup_ge_None_2 by lia|by rewrite lookup_take_ge by lia].
Qed.

(** Sectors of a file are told apart by their blocks. *)
Lemma sector_of_eq cluster size b b' k : 0 < FILE_SECTORS size <= 65535 ->
  sector_of cluster size b = Some k -> sector_of cluster size b' = Some k -> b = b'.
Proof. intros Hs [H1 _]%sector_of_bound [H2 _]%sector_of_bound; [lia|done..]. Qed.

Lemma shown_written d b b' bs : disk_ok d -> length bs = 512%nat -> 4 <= b ->
  shown b' (written_disk b bs d) = if bool_decide (b' = b) && on_file d b then bs else shown b' d.
Proof.
  intros Hd Hl Hb. pose proof sectors_small as [Hsf Hse]. unfold written_disk. rewrite !decide_False by lia. unfold shown.
  change (eeprom_sector (Disk _ _) b') with (eeprom_sector d b'). change (flash_sector (Disk _ _) b') with (flash_sector d b').
  cbn [memory program_eeprom program_flash flash eeprom]. unfold on_file.
  destruct (eeprom_sector d b') as [k'|] eqn:He'.
  - pose proof (proj2 (eeprom_sector_room _ _ _ Hd He')). destruct (eeprom_sector d b) as [k|] eqn:He.
    + pose proof (proj2 (eeprom_sector_room _ _ _ Hd He)). rewrite sector_patch by lia. destruct (decide (k' = k)) as [->|Hne].
      * assert (b' = b) as -> by (eapply sector_of_eq; [|exact He'|exact He]; lia). rewrite !bool_decide_eq_true_2 by eauto. done.
      * assert (b' <> b) by congruence. by rewrite (bool_decide_eq_false_2 (b' = b)) by done.
    + assert (b' <> b) by congruence. by rewrite (bool_decide_eq_false_2 (b' = b)) by done.
  - destruct (flash_sector d b') as [k'|] eqn:Hf'.
    + pose proof (proj2 (flash_sector_room _ _ _ Hd Hf')). destruct (flash_sector d b) as [k|] eqn:Hf.
      * pose proof (proj2 (flash_sector_room _ _ _ Hd Hf)). rewrite sector_patch by lia. destruct (decide (k' = k)) as [->|Hne].
        -- assert (b' = b) as -> by (eapply sector_of_eq; [|exact Hf'|exact Hf]; lia). rewrite !bool_decide_eq_true_2 by eauto. done.
        -- assert (b' <> b) by congruence. by rewrite (bool_decide_eq_false_2 (b' = b)) by done.
      * assert (b' <> b) by congruence. by rewrite (bool_decide_eq_false_2 (b' = b)) by done.
    + destruct (bool_decide (b' = b)) eqn:Hbb; [|done]. apply bool_decide_eq_true_1 in Hbb as ->. rewrite bool_decide_eq_false_2; [done|].
      intros [[? ?]|[? ?]]; congruence.
Qed.

(** The blocks in front of the data only depend on the directory. *)
Lemma disk_read_front d d' b : FirmwareFileEntries d = FirmwareFileEntries d' -> 0 <= b < 4 -> disk_read b d = disk_read b d'.
Proof.
  intros He Hb. unfold disk_read, fat_block, FLASHFileStartCluster, EEPROMFileStartCluster, DISK_BLOCK_BootBlock, DISK_BLOCK_FATBlock1,
    DISK_BLOCK_FATBlock2, DISK_BLOCK_RootFilesBlock. rewrite He.
  destruct (Z.eqb_spec b 0); [done|]. destruct (Z.eqb_spec b 1); [done|]. destruct (Z.eqb_spec b 2); [done|]. destruct (Z.eqb_spec b 3); [done|lia].
Qed.

(** Programming a file leaves the program memory behind the file as it is. *)
Lemma written_boot_section d b bs : disk_ok d -> length bs = 512%nat ->
  drop (Z.to_nat FLASH_FILE_SIZE_BYTES) (flash (memory (written_disk b bs d))) = drop (Z.to_nat FLASH_FILE_SIZE_BYTES) (flash (memory d)).
Proof.
  intros Hd Hl. unfold written_disk. repeat case_decide; try done. cbn [memory program_eeprom program_flash flash].
  destruct (flash_sector d b) as [k|] eqn:Hk; [|done]. destruct (flash_sector_room _ _ _ Hd Hk) as [_ Hk'].
  apply list_eq. intros i. rewrite !lookup_drop, patch_lookup by lia. by rewrite decide_False by lia.
Qed.
End Spec.

Definition volume_field (o n : nat) (bs : list Z) : Z := of_le_bytes (take n (drop o bs)).
(** The first entry of a directory with the name, that is no label and no part of a
    long name: the cluster the file starts at and its size. *)
Fixpoint find_entry (n : nat) (name dir : list Z) : option (Z * Z) :=
  match n with
  | O => None
  | S n' =>
      let e := take 32 dir in
      if bool_decide (take 11 e = name) && (Z.land (volume_field 11 1 e) 0x08 =? 0) then Some (volume_field 26 2 e, volume_field 28 4 e)
      else find_entry n' name (drop 32 dir)
  end.
Definition cluster_blocks (data spc : Z) (c : nat) : list Z :=
  (fun j => data + (Z.of_nat c - 2) * spc + Z.of_nat j) <$> seq 0 (Z.to_nat spc).
Definition blocks_from (start : Z) (n : nat) : list Z := (fun i => start + Z.of_nat i) <$> seq 0 n.

(** A file of a FAT12 volume, by what its boot block, table and directory say; a
    chain has fewer clusters than the table has bytes. *)
Definition read_file (read : Z -> option (list Z)) (name : list Z) : option (list Z) :=
  boot ← read 0;
  let sector_size := volume_field 11 2 boot in
  let spc := volume_field 13 1 boot in
  let fat := volume_field 14 2 boot in
  let root := fat + volume_field 16 1 boot * volume_field 22 2 boot in
  let root_entries := volume_field 17 2 boot in
  let root_sectors := root_entries * 32 / sector_size in
  table ← mapM read (blocks_from fat (Z.to_nat (volume_field 22 2 boot)));
  dir ← mapM read (blocks_from root (Z.to_nat root_sectors));
  '(c, size) ← find_entry (Z.to_nat root_entries) name (concat dir);
  chain ← follow_clusters (fat_entry (concat table)) (length (concat table)) (Z.to_nat c);
  sectors ← mapM read (chain ≫= cluster_blocks (root + root_sectors) spc);
  Some (take (Z.to_nat size) (concat sectors)).

Lemma mapM_total {A B} (f : A -> option B) (g : A -> B) (l : list A) : Forall (fun x => f x = Some (g x)) l -> mapM f l = Some (g <$> l).
Proof. induction 1 as [|x l Hx _ IH]; [done|]. cbn [mapM fmap list_fmap]. rewrite Hx. cbn [mbind option_bind]. by rewrite IH. Qed.

Lemma chain_blocks data c n : seq c n ≫= cluster_blocks data 4 = blocks_from (data + (Z.of_nat c - 2) * 4) (4 * n).
Proof.
  induction n as [|n IH]; [done|]. rewrite seq_S, bind_app, IH. cbn [mbind list_bind]. rewrite app_nil_r.
  unfold blocks_from, cluster_blocks. replace (4 * S n)%nat with (4 * n + 4)%nat by lia. rewrite seq_app, fmap_app. f_equal.
  change (Z.to_nat 4) with 4%nat. cbn [seq fmap list_fmap]. repeat (apply (f_equal2 cons); [lia|]). done.
Qed.

Lemma concat_sectors (l : list Z) n : concat ((fun i => sector i l) <$> seq 0 n) = take (512 * n) l.
Proof.
  induction n as [|n IH]; [done|]. rewrite seq_S, fmap_app, concat_app, IH. cbn [fmap list_fmap concat Nat.add]. rewrite app_nil_r. unfold sector.
  rewrite take_take_drop. f_equal. lia.
Qed.
Lemma concat_prefix (l : list Z) (X : nat -> list Z) S n size : (forall i, (i < S)%nat -> X i = sector i l) -> (S <= n)%nat ->
  (size <= 512 * S <= length l)%nat -> take size (concat (X <$> seq 0 n)) = take size l.
Proof.
  intros HX HS Hsize. replace n with (S + (n - S))%nat by lia. rewrite seq_app, fmap_app, concat_app.
  assert (X <$> seq 0 S = (fun i => sector i l) <$> seq 0 S) as ->.
  { apply list_fmap_ext. intros i x [Hx Hi]%lookup_seq. apply HX. lia. }
  rewrite concat_sectors, take_app_le by (rewrite length_take; lia). rewrite take_take. f_equal. lia.
Qed.

Section Volume.
Context `{BootChipOk}.
Implicit Types (d : vdisk).

Lemma clusters_sectors size : 0 < size -> FILE_SECTORS size <= 4 * FILE_CLUSTERS size.
Proof.
  intros Hs. unfold FILE_CLUSTERS, FILE_SECTORS, CLUSTER_SIZE_BYTES, SECTOR_PER_CLUSTER, SECTOR_SIZE_BYTES.
  destruct (Z.eqb_spec (size mod 512) 0), (Z.eqb_spec (size mod (4 * 512)) 0); word_lia.
Qed.

(** A directory whose files lie behind the reserved entries, inside the table and
    apart, and where EEPROM.BIN does not spoil the entry FLASH.BIN starts with. *)
Definition placed d : Prop :=
  2 <= FLASHFileStartCluster d /\ 2 <= EEPROMFileStartCluster d /\
  (flash_start d + flash_clusters <= 171)%nat /\ (eeprom_start d + eeprom_clusters <= 171)%nat /\
  ((flash_start d + flash_clusters <= eeprom_start d)%nat \/ (eeprom_start d + eeprom_clusters < flash_start d)%nat \/
   (eeprom_start d + eeprom_clusters = flash_start d)%nat /\ Nat.even (flash_start d) = true).

Lemma sector_of_small (c : nat) size b : (2 <= c <= 171)%nat -> 0 < FILE_SECTORS size <= 672 ->
  sector_of (Z.of_nat c) size b =
  if decide (4 + (Z.of_nat c - 2) * 4 <= b < 4 + (Z.of_nat c - 2) * 4 + FILE_SECTORS size) then Some (Z.to_nat (b - (4 + (Z.of_nat c - 2) * 4))) else None.
Proof.
  intros Hc Hs. unfold sector_of, file_end, file_start, DISK_BLOCK_DataStartBlock, SECTOR_PER_CLUSTER.
  rewrite !(u16_small (4 + _)) by (unfold is_u16; lia). rewrite u16_small by (unfold is_u16; lia). repeat case_decide; lia || done.
Qed.

Lemma placed_start d : placed d -> FLASHFileStartCluster d = Z.of_nat (flash_start d) /\ EEPROMFileStartCluster d = Z.of_nat (eeprom_start d).
Proof. intros (Hf & He & _). unfold flash_start, eeprom_start. lia. Qed.

(** The blocks of the two chains. *)
Lemma flash_chain_blocks d i : placed d -> (Z.of_nat i < FILE_SECTORS FLASH_FILE_SIZE_BYTES) ->
  shown (4 + (Z.of_nat (flash_start d) - 2) * 4 + Z.of_nat i) d = sector i (flash (memory d)).
Proof.
  intros Hp Hi. pose proof (placed_start d Hp) as [Ef Ee]. destruct Hp as (Hf & He & Hf1 & He1 & Hapart).
  pose proof sectors_small as [Hsf Hse]. pose proof clusters_eq as (Ecf & Ece & _). pose proof (clusters_sectors _ (proj1 (proj1 flash_sectors))).
  pose proof (clusters_sectors EEPROM_FILE_SIZE_BYTES (proj1 (proj1 eeprom_sectors))).
  unfold shown, eeprom_sector, flash_sector. rewrite Ef, Ee, !sector_of_small by lia.
  rewrite decide_False by lia. rewrite decide_True by lia. f_equal. lia.
Qed.
Lemma eeprom_chain_blocks d i : placed d -> (Z.of_nat i < FILE_SECTORS EEPROM_FILE_SIZE_BYTES) ->
  shown (4 + (Z.of_nat (eeprom_start d) - 2) * 4 + Z.of_nat i) d = sector i (eeprom (memory d)).
Proof.
  intros Hp Hi. pose proof (placed_start d Hp) as [Ef Ee]. destruct Hp as (Hf & He & Hf1 & He1 & Hapart). pose proof sectors_small as [Hsf Hse].
  unfold shown, eeprom_sector. rewrite Ee, !sector_of_small by lia. rewrite decide_True by lia. f_equal. lia.
Qed.

(** The chains of the table. *)
Lemma table_flash d j : placed d -> (flash_start d <= j < flash_start d + flash_clusters)%nat ->
  table d j = if decide (S j = flash_start d + flash_clusters)%nat then 0xFFF else Z.of_nat (S j).
Proof.
  intros (_ & _ & _ & _ & Hapart) Hj. unfold table. unfold link at 1. rewrite decide_False by lia.
  assert (Nat.odd j && bool_decide (j = eeprom_start d + eeprom_clusters)%nat = false) as ->.
  { destruct (decide (j = eeprom_start d + eeprom_clusters)%nat) as [He|He]; [|by rewrite (bool_decide_eq_false_2 _ He), andb_false_r].
    destruct Hapart as [?|[?|[Heq Hev]]]; [lia|lia|]. replace j with (flash_start d) by lia. unfold Nat.odd. by rewrite Hev. }
  cbn [andb]. unfold link. by rewrite decide_True by lia.
Qed.
Lemma table_eeprom d j : (eeprom_start d <= j < eeprom_start d + eeprom_clusters)%nat ->
  table d j = if decide (S j = eeprom_start d + eeprom_clusters)%nat then 0xFFF else Z.of_nat (S j).
Proof. intros Hj. unfold table, link at 1. by rewrite decide_True by lia. Qed.
End Volume.

(** The steps of the reader on a volume of the geometry of the boot block. *)
Lemma read_file_steps (read : Z -> option (list Z)) name boot t dir (g : Z -> list Z) (c n : nat) size :
  read 0 = Some boot ->
  (volume_field 11 2 boot = 512 /\ volume_field 13 1 boot = 4 /\ volume_field 14 2 boot = 1 /\ volume_field 16 1 boot = 2 /\ volume_field 22 2 boot = 1 /\ volume_field 17 2 boot = 16) ->
  read 1 = Some t -> read 3 = Some dir -> find_entry 16 name dir = Some (Z.of_nat c, size) -> (2 <= c)%nat ->
  follow_clusters (fat_entry t) (length t) c = Some (seq c n) -> (forall b, 4 <= b -> read b = Some (g b)) ->
  read_file read name = Some (take (Z.to_nat size) (concat (g <$> blocks_from (4 + (Z.of_nat c - 2) * 4) (4 * n)))).
Proof.
  intros Hboot (H11 & H13 & H14 & H16 & H22 & H17) Ht Hdir Hfind Hc Hchain Hg. unfold read_file. rewrite Hboot. cbn [mbind option_bind].
  rewrite H11, H13, H14, H16, H22, H17. assert (Z.to_nat 1 = 1%nat) as -> by done. assert (Z.to_nat 16 = 16%nat) as -> by done.
  assert (16 * 32 / 512 = 1) as -> by done. assert (Z.to_nat 1 = 1%nat) as -> by done. assert (1 + 2 * 1 = 3) as -> by done.
  assert (3 + 1 = 4) as -> by done. assert (blocks_from 1 1 = [1]) as -> by done. assert (blocks_from 3 1 = [3]) as -> by done. cbn [mapM]. rewrite Ht, Hdir. cbn [mbind option_bind mret option_ret concat app].
  rewrite !app_nil_r, Hfind. cbn [mbind option_bind]. rewrite Nat2Z.id, Hchain. cbn [mbind option_bind].
  rewrite chain_blocks, (mapM_total _ g); [done|]. unfold blocks_from. apply Forall_fmap, Forall_forall. intros i _. apply Hg. lia.
Qed.

Section Reading.
Context `{BootChipOk}.
Implicit Types (d : vdisk).

Lemma field_take o n k bs : (o + n <= k)%nat -> volume_field o n (take k bs) = volume_field o n bs.
Proof. intros Hk. unfold volume_field. rewrite skipn_firstn_comm, take_take, Nat.min_l by lia. done. Qed.

Lemma boot_block_read d : exists boot, disk_read 0 d = Some boot /\ take 62 boot = boot_block_bytes BootBlock.
Proof.
  unfold disk_read. cbn [Z.eqb DISK_BLOCK_BootBlock]. change (Z.to_nat SECTOR_SIZE_BYTES) with 512%nat.
  assert (length (boot_block_bytes BootBlock) = 62%nat) as Hl by reflexivity.
  assert (length (patch 0 (boot_block_bytes BootBlock) (replicate 512 0)) = 512%nat) as Hp by (rewrite patch_length; rewrite length_replicate; lia).
  rewrite aset_Some by (rewrite Hp; cbv; split; done). cbn [mbind option_bind].
  rewrite aset_Some by (rewrite length_insert, Hp; cbv; split; done). eexists. split; [done|].
  rewrite !take_insert_ge by (cbv; lia). unfold patch. rewrite take_0, app_nil_l. rewrite <- Hl at 1. apply take_app_length.
Qed.

Lemma boot_fields d : exists boot, disk_read 0 d = Some boot /\
  volume_field 11 2 boot = 512 /\ volume_field 13 1 boot = 4 /\ volume_field 14 2 boot = 1 /\ volume_field 16 1 boot = 2 /\ volume_field 22 2 boot = 1 /\ volume_field 17 2 boot = 16.
Proof.
  destruct (boot_block_read d) as (boot & Hr & Ht). exists boot. split; [done|].
  rewrite <- !(field_take _ _ 62 boot) by lia. rewrite Ht. split_and!; reflexivity.
Qed.

Lemma root_read d : length (FirmwareFileEntries d) = 160%nat -> disk_read 3 d = Some (FirmwareFileEntries d ++ replicate 352 0).
Proof. intros Hl. unfold disk_read. cbn. unfold patch. rewrite take_0, app_nil_l, Hl. done. Qed.

Lemma fat_read d b : b = 1 \/ b = 2 -> disk_read b d = fat_block (replicate 512 0) d.
Proof.
  intros Hb. unfold disk_read, DISK_BLOCK_BootBlock, DISK_BLOCK_FATBlock1, DISK_BLOCK_FATBlock2. change (Z.to_nat SECTOR_SIZE_BYTES) with 512%nat.
  by destruct Hb as [-> | ->].
Qed.

(** What the directory says of a file. *)
Definition listed (name : string) (c size : Z) d : Prop :=
  find_entry 16 (chars 11 name) (FirmwareFileEntries d ++ replicate 352 0) = Some (c, size).

(** Reading a file whose chain holds its sectors. *)
Lemma read_file_chain d name c n size S l : disk_ok d -> placed d ->
  listed name (Z.of_nat c) (Z.of_nat size) d -> (2 <= c)%nat -> (0 < n)%nat -> (c + n <= 171)%nat ->
  (forall j, (c <= j < c + n)%nat -> table d j = if decide (Datatypes.S j = c + n)%nat then 0xFFF else Z.of_nat (Datatypes.S j)) ->
  (forall i, (i < S)%nat -> shown (4 + (Z.of_nat c - 2) * 4 + Z.of_nat i) d = sector i l) ->
  (S <= 4 * n)%nat -> (size <= 512 * S <= length l)%nat ->
  read_file (fun b => disk_read b d) (chars 11 name) = Some (take size l).
Proof.
  intros Hd Hp Hlist Hc Hn Hcn Htab Hshown HS Hsize.
  destruct (boot_fields d) as (boot & Hboot & Hfields).
  destruct (fat_block_table d) as (t & Ht & Htok & Hent); [apply Hp|apply Hp|destruct Hp; lia|destruct Hp as (_ & ? & _); lia|].
  rewrite <- (fat_read d 1) in Ht by lia.
  rewrite (read_file_steps _ _ boot t (FirmwareFileEntries d ++ replicate 352 0) (fun b => shown b d) c n (Z.of_nat size));
    [|done|done|done|by apply root_read, Hd|done|lia|by apply follow_chain; [destruct Htok; lia|lia|lia|intros j Hj; rewrite Hent; apply Htab]|].
  - rewrite Nat2Z.id. f_equal. unfold blocks_from. rewrite <- list_fmap_compose. by apply (concat_prefix l _ S).
  - intros b Hb. by apply disk_read_data.
Qed.

(** The initial directory satisfies it all. *)
Lemma initial_start m : FLASHFileStartCluster (Disk initial_entries m) = 2 /\ EEPROMFileStartCluster (Disk initial_entries m) = 2 + FILE_CLUSTERS FLASH_FILE_SIZE_BYTES.
Proof.
  destruct clusters_eq as (Ef & _ & _ & _ & Hs). unfold FLASHFileStartCluster, EEPROMFileStartCluster, starting_cluster. cbn [FirmwareFileEntries]. split; [reflexivity|].
  transitivity (of_le_bytes (le_bytes 2 (2 + FILE_CLUSTERS FLASH_FILE_SIZE_BYTES))); [reflexivity|]. apply of_le_bytes_le. lia.
Qed.
Lemma initial_placed m : placed (Disk initial_entries m).
Proof.
  destruct (initial_start m) as [Hf He]. destruct clusters_eq as (Ef & Ee & H1 & H2 & Hs). unfold placed, flash_start, eeprom_start.
  rewrite Hf, He. split_and!; try lia.
Qed.
Lemma initial_listed m : let d := Disk initial_entries m in
  listed "FLASH   BIN" (FLASHFileStartCluster d) FLASH_FILE_SIZE_BYTES d /\ listed "EEPROM  BIN" (EEPROMFileStartCluster d) EEPROM_FILE_SIZE_BYTES d.
Proof.
  cbv zeta. destruct (initial_start m) as [Hf He]. rewrite Hf, He. pose proof flash_sectors. pose proof eeprom_sectors. destruct clusters_eq as (Ef & _ & _ & _ & Hs).
  unfold listed. cbn [FirmwareFileEntries]. split.
  - transitivity (Some (2, of_le_bytes (le_bytes 4 FLASH_FILE_SIZE_BYTES))); [reflexivity|]. rewrite of_le_bytes_le by lia. done.
  - transitivity (Some (of_le_bytes (le_bytes 2 (2 + FILE_CLUSTERS FLASH_FILE_SIZE_BYTES)), of_le_bytes (le_bytes 4 EEPROM_FILE_SIZE_BYTES)));
      [reflexivity|]. rewrite !of_le_bytes_le; [done|unfold EEPROM_FILE_SIZE_BYTES; lia|lia].
Qed.
Lemma initial_length : length initial_entries = 160%nat.
Proof. reflexivity. Qed.
End Reading.

(** ** Every block, every directory *)

Section Total.
Context `{BootChipOk}.
Implicit Types (d : vdisk) (b : Z) (bs : list Z).

Lemma entry_total t i e : length t = 512%nat -> exists t', UpdateFAT12ClusterEntry t i e = Some t' /\ length t' = 512%nat.
Proof.
  intros Hl. unfold UpdateFAT12ClusterEntry. pose proof (u8_range (i + Z.shiftr i 1)) as Ho. unfold is_u8 in Ho.
  destruct (negb _).
  - destruct (aget_Some t (u8 (i + Z.shiftr i 1))) as [v Hv]; [lia|]. rewrite Hv. cbn [mbind option_bind].
    rewrite aset_Some by lia. cbn [mbind option_bind]. rewrite aset_Some by (rewrite length_insert; lia).
    eexists. split; [done|]. by rewrite !length_insert.
  - rewrite aset_Some by lia. cbn [mbind option_bind].
    destruct (aget_Some (<[Z.to_nat (u8 (i + Z.shiftr i 1)) := u8 e]> t) (u8 (i + Z.shiftr i 1))) as [v Hv]; [rewrite length_insert; lia|].
    rewrite Hv. cbn [mbind option_bind]. rewrite aset_Some by (rewrite length_insert; lia). eexists. split; [done|]. by rewrite !length_insert.
Qed.
Lemma chain_total t idx n : length t = 512%nat -> exists t', UpdateFAT12ClusterChain t idx n = Some t' /\ length t' = 512%nat.
Proof.
  intros Hl. unfold UpdateFAT12ClusterChain.
  destruct (for_up_rule (fun i t => UpdateFAT12ClusterEntry t (u16 (idx + i)) (if i =? n - 1 then 0xFFF else u16 (u16 (idx + i) + 1)))
    (fun _ t => length t = 512%nat) 0 (Z.to_nat n) 0 t eq_refl Hl) as (t' & Ht & Hl'); [|by exists t'].
  intros j x _ Hx. by apply entry_total.
Qed.
Lemma disk_read_total d b : disk_ok d -> 0 <= b -> exists bs, disk_read b d = Some bs /\ length bs = 512%nat.
Proof.
  intros Hd Hb. destruct (decide (4 <= b)) as [Hb4|Hb4].
  - rewrite disk_read_data by done. eexists. split; [done|]. unfold shown.
    destruct (eeprom_sector d b) as [k|] eqn:Hk; [apply eeprom_sector_room in Hk as [_ Hk]; [|done]; unfold sector; rewrite length_take, length_drop; lia|].
    destruct (flash_sector d b) as [k'|] eqn:Hk'; [|by rewrite length_replicate].
    apply flash_sector_room in Hk' as [_ Hk']; [|done]; unfold sector; rewrite length_take, length_drop; lia.
  - assert (b = 0 \/ (b = 1 \/ b = 2) \/ b = 3) as [->|[Hfat|Hroot]] by lia.
    + destruct (boot_block_read d) as (boot & Hr & _). exists boot. split; [done|]. unfold disk_read in Hr. cbn [Z.eqb DISK_BLOCK_BootBlock] in Hr.
      apply bind_Some in Hr as (b1 & H1 & H2). apply aset_length in H1, H2. rewrite H2, H1, patch_length; [by rewrite length_replicate|].
      rewrite length_replicate. apply Nat.leb_le. reflexivity.
    + rewrite fat_read by done. unfold fat_block.
      destruct (entry_total (replicate 512 0) 0 (Z.lor 0xF00 (MediaDescriptor BootBlock))) as (t0 & -> & Hl0); [done|]. cbn [mbind option_bind].
      destruct (entry_total t0 1 0xFFF) as (t1 & -> & Hl1); [done|]. cbn [mbind option_bind].
      destruct (chain_total t1 (FLASHFileStartCluster d) (u8 (FILE_CLUSTERS FLASH_FILE_SIZE_BYTES))) as (t2 & -> & Hl2); [done|]. cbn [mbind option_bind].
      by apply chain_total.
    + subst b. rewrite root_read by apply Hd. eexists. split; [done|]. rewrite length_app, length_replicate. destruct Hd as [_ ->]. done.
Qed.

(** Blocks written one after the other. *)
Fixpoint write_blocks (ws : list (Z * list Z)) (d : vdisk) : option vdisk :=
  match ws with
  | [] => Some d
  | (b, bs) :: ws' => d' ← disk_write b bs d; write_blocks ws' d'
  end.
Definition block_ok (w : Z * list Z) : Prop := 0 <= fst w /\ length (snd w) = 512%nat /\ Forall is_u8 (snd w).
End Total.

Section Sequences.
Context `{BootChipOk}.
Implicit Types (d : vdisk) (b : Z) (bs : list Z).

Lemma write_blocks_ok d ws : disk_ok d -> Forall block_ok ws ->
  exists d', write_blocks ws d = Some d' /\ disk_ok d' /\
    drop (Z.to_nat FLASH_FILE_SIZE_BYTES) (flash (memory d')) = drop (Z.to_nat FLASH_FILE_SIZE_BYTES) (flash (memory d)).
Proof.
  intros Hd Hws. revert d Hd. induction Hws as [|[b bs] ws (Hb & Hl & Hu) Hws IH]; intros d Hd; [by exists d|]. cbn [write_blocks fst snd] in *.
  destruct (disk_write_spec d b bs Hd Hb Hl Hu) as [-> Hd1]. cbn [mbind option_bind].
  destruct (IH _ Hd1) as (d' & Hw & Hd' & Hk). exists d'. split_and!; [done|done|]. by rewrite Hk, written_boot_section.
Qed.

(** Copying an image: its sectors written to the blocks of FLASH.BIN. *)
Definition image_blocks d (image : list Z) (order : list nat) : list (Z * list Z) :=
  (fun i => (4 + (Z.of_nat (flash_start d) - 2) * 4 + Z.of_nat i, sector i image)) <$> order.

Lemma flash_sector_at d i : placed d -> Z.of_nat i < FILE_SECTORS FLASH_FILE_SIZE_BYTES ->
  flash_sector d (4 + (Z.of_nat (flash_start d) - 2) * 4 + Z.of_nat i) = Some i /\
  eeprom_sector d (4 + (Z.of_nat (flash_start d) - 2) * 4 + Z.of_nat i) = None.
Proof.
  intros Hp Hi. pose proof (placed_start d Hp) as [Ef Ee]. destruct Hp as (Hf & He & Hf1 & He1 & Hapart).
  pose proof sectors_small as [Hsf Hse]. pose proof clusters_eq as (Ecf & Ece & _). pose proof (clusters_sectors _ (proj1 (proj1 flash_sectors))).
  pose proof (clusters_sectors EEPROM_FILE_SIZE_BYTES (proj1 (proj1 eeprom_sectors))).
  unfold eeprom_sector, flash_sector. rewrite Ef, Ee, !sector_of_small by lia.
  rewrite decide_True by lia. rewrite decide_False by lia. split; [f_equal; lia|done].
Qed.

(** The sectors written so far hold the image, the others what they held. *)
Lemma copy_image d image order : disk_ok d -> placed d -> Forall is_u8 image -> length image = Z.to_nat FLASH_FILE_SIZE_BYTES ->
  Forall (fun i => Z.of_nat i < FILE_SECTORS FLASH_FILE_SIZE_BYTES) order ->
  exists d', write_blocks (image_blocks d image order) d = Some d' /\ disk_ok d' /\ FirmwareFileEntries d' = FirmwareFileEntries d /\
    eeprom (memory d') = eeprom (memory d) /\
    forall i, Z.of_nat i < FILE_SECTORS FLASH_FILE_SIZE_BYTES ->
      sector i (flash (memory d')) = if bool_decide (i ∈ order) then sector i image else sector i (flash (memory d)).
Proof.
  intros Hd Hp Hu Hl Hord. revert d Hd Hp. induction Hord as [|i order Hi Hord IH]; intros d Hd Hp.
  { exists d. split_and!; [done..|]. intros i _. by rewrite (bool_decide_eq_false_2 _ (not_elem_of_nil i)). }
  cbn [image_blocks fmap list_fmap write_blocks]. destruct (flash_sector_at d i Hp Hi) as [Hfs Hes]. pose proof flash_sectors_eq as Esz.
  set (b := 4 + (Z.of_nat (flash_start d) - 2) * 4 + Z.of_nat i) in *. assert (4 <= b) as Hb by (destruct Hp as (Hf & _); unfold flash_start in b; subst b; lia).
  assert (forall j, Z.of_nat j < FILE_SECTORS FLASH_FILE_SIZE_BYTES -> length (sector j image) = 512%nat) as Hlen
    by (intros j Hj; unfold sector; rewrite length_take, length_drop; lia).
  destruct (disk_write_spec d b (sector i image) Hd ltac:(lia) (Hlen i Hi)) as [-> Hd1]; [by apply Forall_take, Forall_drop|].
  cbn [mbind option_bind]. unfold written_disk in *. rewrite !decide_False, Hfs, Hes in * by lia. set (d1 := Disk _ _) in *.
  destruct (IH d1 Hd1 Hp) as (d' & Hw & Hd' & Hent & Hee & Hsec). exists d'. split_and!; [done|done|done|done|].
  intros j Hj. rewrite Hsec by done. cbn [d1 memory program_eeprom program_flash flash].
  destruct (flash_sector_room _ _ _ Hd Hfs) as [_ Hr1]. destruct (flash_sector_room d _ j Hd (proj1 (flash_sector_at d j Hp Hj))) as [_ Hr2].
  rewrite sector_patch by (lia || by apply Hlen).
  destruct (decide (j ∈ order)) as [Hin|Hin].
  - rewrite !bool_decide_eq_true_2 by (done || by apply list_elem_of_further). done.
  - rewrite (bool_decide_eq_false_2 _ Hin). destruct (decide (j = i)) as [->|Hne].
    + rewrite bool_decide_eq_true_2; [done|]. apply list_elem_of_here.
    + rewrite bool_decide_eq_false_2; [done|]. rewrite elem_of_cons. intros [?|?]; done.
Qed.

Lemma sectors_flash (m : nvm) (image : list Z) : Z.of_nat (length (flash m)) = FLASHEND + 1 -> length image = Z.to_nat FLASH_FILE_SIZE_BYTES ->
  (forall i, Z.of_nat i < FILE_SECTORS FLASH_FILE_SIZE_BYTES -> sector i (flash m) = sector i image) ->
  take (Z.to_nat FLASH_FILE_SIZE_BYTES) (flash m) = image.
Proof.
  intros Hf Hl Hs. pose proof flash_sectors_eq. pose proof sectors_small. pose proof flash_sectors.
  set (S := Z.to_nat (FILE_SECTORS FLASH_FILE_SIZE_BYTES)). replace (Z.to_nat FLASH_FILE_SIZE_BYTES) with (512 * S)%nat in * by lia.
  transitivity (take (512 * S) image); [|by rewrite take_ge by lia]. rewrite <- !concat_sectors. f_equal.
  apply list_fmap_ext. intros i x [-> Hi]%lookup_seq. apply Hs. lia.
Qed.

(** Every sector written: the program memory holds the image. *)
Lemma image_copied d image order : disk_ok d -> placed d -> Forall is_u8 image -> length image = Z.to_nat FLASH_FILE_SIZE_BYTES ->
  Forall (fun i => Z.of_nat i < FILE_SECTORS FLASH_FILE_SIZE_BYTES) order ->
  (forall i, Z.of_nat i < FILE_SECTORS FLASH_FILE_SIZE_BYTES -> i ∈ order) ->
  exists d', write_blocks (image_blocks d image order) d = Some d' /\
    flash (memory d') = image ++ drop (Z.to_nat FLASH_FILE_SIZE_BYTES) (flash (memory d)) /\
    eeprom (memory d') = eeprom (memory d) /\ FirmwareFileEntries d' = FirmwareFileEntries d.
Proof.
  intros Hd Hp Hu Hl Hord Hall. destruct (copy_image d image order Hd Hp Hu Hl Hord) as (d' & Hw & Hd' & Hent & Hee & Hsec).
  exists d'. split_and!; [done| |done|done]. rewrite <- (take_drop (Z.to_nat FLASH_FILE_SIZE_BYTES) (flash (memory d'))). f_equal.
  - apply sectors_flash; [apply Hd'|done|]. intros i Hi. rewrite Hsec by done. by rewrite bool_decide_eq_true_2 by auto.
  - destruct (write_blocks_ok d (image_blocks d image order) Hd) as (d2 & Hw2 & _ & Hk); [|by simplify_eq].
    unfold image_blocks. apply Forall_fmap. eapply Forall_impl; [|exact Hord]. intros i Hi. cbv beta in Hi. pose proof flash_sectors_eq. destruct Hp as (Hf & _).
    unfold block_ok. cbn. unfold flash_start, sector. split_and!; [lia| |by apply Forall_take, Forall_drop]. rewrite length_take, length_drop. lia.
Qed.
End Sequences.

(** ** The processors *)

(** The AT90USB1287 of the makefile, the AT90USB647 and the ATmega32U4. *)
Definition at90usb1287_boot : BootChip := Build_BootChip 0x1FFFF 4095 256 0x1E000 0.
Definition at90usb647_boot : BootChip := Build_BootChip 0xFFFF 0x7FF 256 0xE000 0.
Definition atmega32u4_boot : BootChip := Build_BootChip 0x7FFF 0x3FF 128 0x7000 2048.

Ltac boot_chip := constructor; vm_compute; repeat split; congruence.
Lemma at90usb1287_boot_ok : @BootChipOk at90usb1287_boot.
Proof. boot_chip. Qed.
Lemma at90usb647_boot_ok : @BootChipOk at90usb647_boot.
Proof. boot_chip. Qed.
Lemma atmega32u4_boot_ok : @BootChipOk atmega32u4_boot.
Proof. boot_chip. Qed.

(** A processor as it comes: every byte of both memories is erased. *)
Definition blank (chip : BootChip) : vdisk :=
  Disk initial_entries (Nvm (replicate (Z.to_nat (FLASHEND + 1)) 0xFF) empty_buffer false (replicate (Z.to_nat (E2END + 1)) 0xFF)).
Lemma blank_ok chip : @BootChipOk chip -> disk_ok (blank chip).
Proof.
  intros Hc. pose proof flash_sectors as (Hf & _). pose proof eeprom_sectors as (He & _). split; [|apply initial_length].
  unfold memory_ok, blank. cbn [memory flash eeprom page_buffer rww_busy]. rewrite !length_replicate. split_and!; [lia|lia|done|done].
Qed.

(** ** The properties *)

Section Properties.
Context `{BootChipOk}.
Implicit Types (d : vdisk) (b : Z) (bs : list Z).

(** C15: The data blocks are a memory.  Whatever directory the host has written,
    writing a block of 512 bytes into the data area succeeds; every block then reads
    as before, except that a block of FLASH.BIN or EEPROM.BIN reads the bytes written. *)
Theorem virtual_disk_blocks d b bs : disk_ok d -> 4 <= b -> length bs = 512%nat -> Forall is_u8 bs ->
  exists d', disk_write b bs d = Some d' /\ disk_ok d' /\
    forall b', 0 <= b' -> disk_read b' d' = if bool_decide (b' = b) && on_file d b then Some bs else disk_read b' d.
Proof.
  intros Hd Hb Hl Hu. destruct (disk_write_spec d b bs Hd ltac:(lia) Hl Hu) as [Hw Hd']. exists (written_disk b bs d). split_and!; [done|done|].
  intros b' Hb'. destruct (decide (4 <= b')) as [H4|H4].
  - rewrite !disk_read_data by done. rewrite shown_written by done. by destruct (_ && _).
  - rewrite bool_decide_eq_false_2 by lia. cbn [andb]. apply disk_read_front; [|lia]. unfold written_disk. by rewrite !decide_False by lia.
Qed.

(** C14: The bootloader does not overwrite itself.  Any sequence of blocks, the
    directory among them, is accepted; the program memory from the end of FLASH.BIN on
    (the bootloader and its auxiliary section) is as before, the page buffer is empty
    again, and every block of the disk can be read. *)
Theorem bootloader_section_kept d ws : disk_ok d -> Forall block_ok ws ->
  exists d', write_blocks ws d = Some d' /\
    drop (Z.to_nat FLASH_FILE_SIZE_BYTES) (flash (memory d')) = drop (Z.to_nat FLASH_FILE_SIZE_BYTES) (flash (memory d)) /\
    page_buffer (memory d') = empty_buffer /\ forall b, 0 <= b -> exists bs, disk_read b d' = Some bs /\ length bs = 512%nat.
Proof.
  intros Hd Hws. destruct (write_blocks_ok d ws Hd Hws) as (d' & Hw & Hd' & Hk). exists d'. split_and!; [done|done|apply Hd'|].
  intros b Hb. by apply disk_read_total.
Qed.

(** C13: A reader of FAT12 volumes that knows nothing of the program, following boot
    block, directory and table of a disk whose files are apart, reads the application
    section as FLASH.BIN and the EEPROM, but for its last byte, as EEPROM.BIN. *)
Theorem fat12_files d : disk_ok d -> placed d ->
  listed "FLASH   BIN" (FLASHFileStartCluster d) FLASH_FILE_SIZE_BYTES d -> listed "EEPROM  BIN" (EEPROMFileStartCluster d) EEPROM_FILE_SIZE_BYTES d ->
  read_file (fun b => disk_read b d) (chars 11 "FLASH   BIN") = Some (take (Z.to_nat FLASH_FILE_SIZE_BYTES) (flash (memory d))) /\
  read_file (fun b => disk_read b d) (chars 11 "EEPROM  BIN") = Some (take (Z.to_nat E2END) (eeprom (memory d))).
Proof.
  intros Hd Hp Hlf Hle. pose proof (placed_start d Hp) as [Ef Ee]. destruct clusters_eq as (Ecf & Ece & Hcf & Hce & _).
  pose proof flash_sectors_eq as Esf. pose proof eeprom_sectors_eq as Ese. pose proof flash_sectors as (Hsf & _). pose proof eeprom_sectors as (Hse & _).
  pose proof (clusters_sectors _ (proj1 Hsf)). pose proof (clusters_sectors EEPROM_FILE_SIZE_BYTES (proj1 Hse)). pose proof sectors_small.
  pose proof Hd as [(Hlenf & Hlene & _) _]. pose proof Hp as (Hf2 & He2 & Hf1 & He1 & _). split.
  - apply (read_file_chain d _ (flash_start d) flash_clusters _ (Z.to_nat (FILE_SECTORS FLASH_FILE_SIZE_BYTES))); try done || lia.
    + rewrite Z2Nat.id by lia. by rewrite <- Ef.
    + intros j. by apply table_flash.
    + intros i Hi. apply flash_chain_blocks; [done|lia].
  - apply (read_file_chain d _ (eeprom_start d) eeprom_clusters _ (Z.to_nat (FILE_SECTORS EEPROM_FILE_SIZE_BYTES))); try done || lia.
    + rewrite Z2Nat.id by lia. by rewrite <- Ee.
    + intros j. by apply table_eeprom.
    + intros i Hi. apply eeprom_chain_blocks; [done|lia].
Qed.

(** C40: In the table of the initial directory, the entry behind the last cluster of
    EEPROM.BIN belongs to no file; where its number is odd it is not shown as free but
    as chained to cluster 15. *)
Theorem free_cluster_chained m : let d := Disk initial_entries m in let last := (2 + flash_clusters + eeprom_clusters)%nat in
  exists t, disk_read DISK_BLOCK_FATBlock1 d = Some t /\ fat_entry t last = (if Nat.odd last then 0x00F else 0) /\
    forall j, (last < j)%nat -> fat_entry t j = 0.
Proof.
  cbv zeta. pose proof (initial_placed m) as Hp. destruct (initial_start m) as [Hf He]. destruct clusters_eq as (Ef & Ee & H1 & H2 & Hs).
  destruct (fat_block_table (Disk initial_entries m)) as (t & Ht & _ & Hent); [apply Hp|apply Hp|rewrite Hf; lia|rewrite He; lia|].
  exists t. split; [by rewrite fat_read by (by left)|]. assert (flash_start (Disk initial_entries m) = 2%nat) as E1 by (unfold flash_start; by rewrite Hf).
  assert (eeprom_start (Disk initial_entries m) = 2 + flash_clusters)%nat as E2 by (unfold eeprom_start; rewrite He; lia).
  assert (forall j, (2 + flash_clusters + eeprom_clusters <= j)%nat -> link reserved 2 flash_clusters j = 0) as Hin.
  { intros j Hj. unfold link. rewrite decide_False by lia. rewrite (bool_decide_eq_false_2 (j = 2 + flash_clusters)%nat) by lia.
    rewrite andb_false_r. cbn [andb]. destruct j as [|[|j]]; [lia|lia|done]. }
  split; [|intros j Hj]; rewrite Hent; unfold table; rewrite E1, E2; unfold link at 1; rewrite decide_False by lia; rewrite Hin by lia.
  - rewrite !bool_decide_eq_true_2 by lia. rewrite !andb_true_r. by destruct (Nat.odd _).
  - rewrite (bool_decide_eq_false_2 (j = _)) by lia. by rewrite andb_false_r.
Qed.
End Properties.

Lemma virtual_disk_blocks_witness : let d := blank at90usb1287_boot in let bs := replicate 512 0xA5 in
  exists d', @disk_write at90usb1287_boot 4 bs d = Some d' /\ @disk_read at90usb1287_boot 4 d' = Some bs.
Proof.
  pose proof (blank_ok _ at90usb1287_boot_ok) as Hd.
  destruct (virtual_disk_blocks (H0 := at90usb1287_boot_ok) (blank at90usb1287_boot) 4 (replicate 512 0xA5) Hd) as (d' & Hw & _ & Hr).
  - lia.
  - reflexivity.
  - apply Forall_replicate. unfold is_u8. lia.
  - exists d'. split; [exact Hw|]. rewrite Hr by lia.
    assert (@on_file at90usb1287_boot (blank at90usb1287_boot) 4 = true) as -> by (vm_compute; reflexivity). reflexivity.
Defined.

Lemma bootloader_section_kept_witness : let d := blank atmega32u4_boot in
  exists d', @write_blocks atmega32u4_boot [(3, replicate 512 0x41); (4, replicate 512 0); (65535, replicate 512 7)] d = Some d' /\
    drop (Z.to_nat 26624) (flash (memory d')) = drop (Z.to_nat 26624) (flash (memory d)).
Proof.
  destruct (bootloader_section_kept (H0 := atmega32u4_boot_ok) (blank atmega32u4_boot)
    [(3, replicate 512 0x41); (4, replicate 512 0); (65535, replicate 512 7)] (blank_ok _ atmega32u4_boot_ok)) as (d' & Hw & Hk & _).
  - repeat (apply Forall_cons; [split; [cbn; lia|split; [reflexivity|apply Forall_replicate; unfold is_u8; lia]]|]). apply Forall_nil.
  - exists d'. split; [exact Hw|exact Hk].
Defined.

Lemma fat12_files_witness : let d := blank at90usb1287_boot in
  @read_file (fun b => @disk_read at90usb1287_boot b d) (chars 11 "FLASH   BIN") = Some (take (Z.to_nat 0x1E000) (flash (memory d))) /\
  @read_file (fun b => @disk_read at90usb1287_boot b d) (chars 11 "EEPROM  BIN") = Some (take 4095 (eeprom (memory d))).
Proof.
  pose proof (@initial_listed _ at90usb1287_boot_ok (memory (blank at90usb1287_boot))) as [Hf He].
  exact (fat12_files (H0 := at90usb1287_boot_ok) (blank at90usb1287_boot) (blank_ok _ at90usb1287_boot_ok)
    (@initial_placed _ at90usb1287_boot_ok _) Hf He).
Defined.

Lemma free_cluster_chained_witness : exists t, @disk_read at90usb647_boot 1 (blank at90usb647_boot) = Some t /\ fat_entry t 31 = 0x00F.
Proof.
  destruct (free_cluster_chained (H0 := at90usb647_boot_ok) (memory (blank at90usb647_boot))) as (t & Ht & Hl & _).
  exists t. split; [exact Ht|exact Hl].
Defined.
