(* ===== verification/BootloaderSCSI.v ===== *)
(** * The SCSI commands of the mass storage bootloader (Bootloaders/MassStorage/Lib/SCSI.c)

    The callback of the mass storage driver decodes the command in the command
    block, moves its data through the endpoints, and accounts for the bytes moved
    in the transfer length of the block.  READ (10) and WRITE (10) pass blocks of
    the virtual disk. *)

From Stdlib Require Import String.
From S2P Require Import Prelude StdDescriptors HIDClass Descriptors Machine HIDParser UsbCore Endpoint EndpointStream DeviceStandardReq StreamTransfers MemorySafety Endianness MassStorage BulkPort VirtualFAT.

(** ** MassStorageClassCommon.h *)

Definition SCSI_CMD_INQUIRY : Z := 0x12.
Definition SCSI_CMD_REQUEST_SENSE : Z := 0x03.
Definition SCSI_CMD_TEST_UNIT_READY : Z := 0x00.
Definition SCSI_CMD_READ_CAPACITY_10 : Z := 0x25.
Definition SCSI_CMD_START_STOP_UNIT : Z := 0x1B.
Definition SCSI_CMD_SEND_DIAGNOSTIC : Z := 0x1D.
Definition SCSI_CMD_PREVENT_ALLOW_MEDIUM_REMOVAL : Z := 0x1E.
Definition SCSI_CMD_WRITE_10 : Z := 0x2A.
Definition SCSI_CMD_READ_10 : Z := 0x28.
Definition SCSI_CMD_VERIFY_10 : Z := 0x2F.
Definition SCSI_CMD_MODE_SENSE_6 : Z := 0x1A.
Definition SCSI_SENSE_KEY_GOOD : Z := 0x00.
Definition SCSI_SENSE_KEY_ILLEGAL_REQUEST : Z := 0x05.
Definition SCSI_ASENSE_NO_ADDITIONAL_INFORMATION : Z := 0x00.
Definition SCSI_ASENSE_INVALID_FIELD_IN_CDB : Z := 0x24.
Definition SCSI_ASENSE_INVALID_COMMAND : Z := 0x20.
Definition SCSI_ASENSE_LOGICAL_BLOCK_ADDRESS_OUT_OF_RANGE : Z := 0x21.
Definition SCSI_ASENSEQ_NO_QUALIFIER : Z := 0x00.

(** Bit fields of a byte, the first one in the lowest bits: widths and values. *)
Definition bit_fields (fs : list (Z * Z)) : Z :=
  u8 (foldr (fun f rest => Z.lor (Z.shiftl rest (fst f)) (snd f mod 2 ^ fst f)) 0 fs).

Record SCSI_Request_Sense_Response_t := Sense {
  ResponseCode : Z; SegmentNumber : Z;
  SenseKey : Z; Reserved : Z; ILI : Z; EOM : Z; FileMark : Z;
  Information : list Z; AdditionalLength : Z; CmdSpecificInformation : list Z;
  AdditionalSenseCode : Z; AdditionalSenseQualifier : Z; FieldReplaceableUnitCode : Z; SenseKeySpecific : list Z
}.
Definition sense_bytes (s : SCSI_Request_Sense_Response_t) : list Z :=
  [u8 (ResponseCode s); u8 (SegmentNumber s);
   bit_fields [(4, SenseKey s); (1, Reserved s); (1, ILI s); (1, EOM s); (1, FileMark s)]] ++
  (u8 <$> Information s) ++ [u8 (AdditionalLength s)] ++ (u8 <$> CmdSpecificInformation s) ++
  [u8 (AdditionalSenseCode s); u8 (AdditionalSenseQualifier s); u8 (FieldReplaceableUnitCode s)] ++ (u8 <$> SenseKeySpecific s).
Definition sizeof_SenseData : Z := 18.

Record SCSI_Inquiry_Response_t := Inquiry {
  DeviceType : Z; PeripheralQualifier : Z; Inq_Reserved : Z; Removable : Z; Version : Z;
  ResponseDataFormat : Z; Reserved2 : Z; NormACA : Z; TrmTsk : Z; AERC : Z;
  Inq_AdditionalLength : Z; Reserved3 : list Z;
  SoftReset : Z; CmdQue : Z; Reserved4 : Z; Linked : Z; Sync : Z; WideBus16Bit : Z; WideBus32Bit : Z; RelAddr : Z;
  VendorID : list Z; ProductID : list Z; RevisionID : list Z
}.
Definition inquiry_bytes (r : SCSI_Inquiry_Response_t) : list Z :=
  [bit_fields [(5, DeviceType r); (3, PeripheralQualifier r)];
   bit_fields [(7, Inq_Reserved r); (1, Removable r)];
   u8 (Version r);
   bit_fields [(4, ResponseDataFormat r); (1, Reserved2 r); (1, NormACA r); (1, TrmTsk r); (1, AERC r)];
   u8 (Inq_AdditionalLength r)] ++ (u8 <$> Reserved3 r) ++
  [bit_fields [(1, SoftReset r); (1, CmdQue r); (1, Reserved4 r); (1, Linked r); (1, Sync r); (1, WideBus16Bit r); (1, WideBus32Bit r); (1, RelAddr r)]] ++
  (u8 <$> VendorID r) ++ (u8 <$> ProductID r) ++ (u8 <$> RevisionID r).
Definition sizeof_InquiryData : Z := 36.

(** ** The objects of SCSI.c *)

Definition DEVICE_TYPE_BLOCK : Z := 0x00.
Definition InquiryData : SCSI_Inquiry_Response_t := {|
  DeviceType := DEVICE_TYPE_BLOCK; PeripheralQualifier := 0; Inq_Reserved := 0; Removable := 1; Version := 0;
  ResponseDataFormat := 2; Reserved2 := 0; NormACA := 0; TrmTsk := 0; AERC := 0;
  Inq_AdditionalLength := 0x1F; Reserved3 := [0; 0];
  SoftReset := 0; CmdQue := 0; Reserved4 := 0; Linked := 0; Sync := 0; WideBus16Bit := 0; WideBus32Bit := 0; RelAddr := 0;
  VendorID := chars 8 "LUFA"; ProductID := chars 16 "Bootloader"; RevisionID := chars 4 "0.00"
|}.
Definition SenseData_init : SCSI_Request_Sense_Response_t :=
  Sense 0x70 0 0 0 0 0 0 [0; 0; 0; 0] 0x0A [0; 0; 0; 0] 0 0 0 [0; 0; 0].

(** [SenseData], and the flag of BootloaderMassStorage.c. *)
Class ScsiState (G : Type) := {
  SenseData : G -> SCSI_Request_Sense_Response_t;
  put_sense : SCSI_Request_Sense_Response_t -> G -> G;
  RunBootloader : G -> bool;
  put_run : bool -> G -> G
}.

Definition set_sense (Key Acode Aqual : Z) (s : SCSI_Request_Sense_Response_t) : SCSI_Request_Sense_Response_t :=
  Sense (ResponseCode s) (SegmentNumber s) Key (Reserved s) (ILI s) (EOM s) (FileMark s) (Information s) (AdditionalLength s)
    (CmdSpecificInformation s) Acode Aqual (FieldReplaceableUnitCode s) (SenseKeySpecific s).

Section Commands.
Context {G : Type} `{UsbState G} `{MsDevice G} `{DiskState G} `{ScsiState G} `{Avr} `{BootChip}.
Variable USB_USBTask : M G unit.
Variable uninitialised : nat -> list Z.

Definition SCSI_SET_SENSE (Key Acode Aqual : Z) : M G unit := mmodify (fun g => put_sense (set_sense Key Acode Aqual (SenseData g)) g).

(** [SCSICommandData], and a value of [n] bytes at an offset of it. *)
Definition command_data : M G (list Z) := cb <- block;; ret (CBW_SCSICommandData cb).
Definition loaded (n off : nat) (data : list Z) : Z := of_le_bytes (take n (drop off data)).
(** [DataTransferLength = ...]. *)
Definition set_length (v : Z) (cb : list Z) : list Z := patch 8 (le_bytes 4 (u32 v)) cb.
Definition mod_length (f : Z -> Z) : M G unit :=
  mod_ms (fun s => set_block (set_length (f (CBW_DataTransferLength (CommandBlock s))) (CommandBlock s)) s).

Definition SCSI_Command_Inquiry : M G bool :=
  data <- command_data;;
  let AllocationLength := SwapEndian_16 false (loaded 2 3 data) in
  let BytesTransferred := Z.min AllocationLength sizeof_InquiryData in
  if negb (Z.land (loaded 1 1 data) (Z.lor (Z.shiftl 1 0) (Z.shiftl 1 1)) =? 0) || negb (loaded 1 2 data =? 0) then
    SCSI_SET_SENSE SCSI_SENSE_KEY_ILLEGAL_REQUEST SCSI_ASENSE_INVALID_FIELD_IN_CDB SCSI_ASENSEQ_NO_QUALIFIER;;;
    ret false
  else
    Endpoint_Write_Stream_LE USB_USBTask (inquiry_bytes InquiryData) BytesTransferred None;;;
    Endpoint_Null_Stream (AllocationLength - BytesTransferred) None;;;
    Endpoint_ClearIN;;;
    mod_length (fun n => n - BytesTransferred);;;
    ret true.

Definition SCSI_Command_Request_Sense : M G bool :=
  data <- command_data;;
  let AllocationLength := loaded 1 4 data in
  let BytesTransferred := Z.min AllocationLength sizeof_SenseData in
  g <- mget;;
  Endpoint_Write_Stream_LE USB_USBTask (sense_bytes (SenseData g)) BytesTransferred None;;;
  Endpoint_Null_Stream (AllocationLength - BytesTransferred) None;;;
  Endpoint_ClearIN;;;
  mod_length (fun n => n - BytesTransferred);;;
  ret true.

Definition SCSI_Command_Read_Capacity_10 : M G bool :=
  Endpoint_Write_32_BE (LUN_MEDIA_BLOCKS - 1);;;
  Endpoint_Write_32_BE SECTOR_SIZE_BYTES;;;
  Endpoint_ClearIN;;;
  mod_length (fun n => n - 8);;;
  ret true.

Definition SCSI_Command_ReadWrite_10 (IsDataRead : bool) : M G bool :=
  data <- command_data;;
  let BlockAddress := u16 (SwapEndian_32 false (loaded 4 2 data)) in
  let TotalBlocks := SwapEndian_16 false (loaded 2 7 data) in
  if LUN_MEDIA_BLOCKS <=? BlockAddress then
    SCSI_SET_SENSE SCSI_SENSE_KEY_ILLEGAL_REQUEST SCSI_ASENSE_LOGICAL_BLOCK_ADDRESS_OUT_OF_RANGE SCSI_ASENSEQ_NO_QUALIFIER;;;
    ret false
  else
    for_each (seq 0 (Z.to_nat TotalBlocks)) (fun i =>
      (if IsDataRead then VirtualFAT_ReadBlock USB_USBTask (u16 (BlockAddress + Z.of_nat i))
       else VirtualFAT_WriteBlock USB_USBTask uninitialised (u16 (BlockAddress + Z.of_nat i)));;;
      ret (None (A := unit)));;;
    mod_length (fun n => n - TotalBlocks * SECTOR_SIZE_BYTES);;;
    ret true.

Definition SCSI_Command_ModeSense_6 : M G bool :=
  Endpoint_Write_32_LE 0;;;
  Endpoint_ClearIN;;;
  mod_length (fun n => n - 4);;;
  ret true.

(** The commands that just succeed. *)
Definition no_data_command : M G bool := mod_length (fun _ => 0);;; ret true.

Definition SCSI_DecodeSCSICommand : M G bool :=
  data <- command_data;;
  let c := loaded 1 0 data in
  CommandSuccess <- (
    if c =? SCSI_CMD_INQUIRY then SCSI_Command_Inquiry
    else if c =? SCSI_CMD_REQUEST_SENSE then SCSI_Command_Request_Sense
    else if c =? SCSI_CMD_READ_CAPACITY_10 then SCSI_Command_Read_Capacity_10
    else if c =? SCSI_CMD_WRITE_10 then SCSI_Command_ReadWrite_10 false
    else if c =? SCSI_CMD_READ_10 then SCSI_Command_ReadWrite_10 true
    else if c =? SCSI_CMD_MODE_SENSE_6 then SCSI_Command_ModeSense_6
    else if c =? SCSI_CMD_START_STOP_UNIT then
      mmodify (put_run (negb (Z.land (loaded 1 4 data) 0x03 =? 0x02)));;;
      no_data_command
    else if (c =? SCSI_CMD_SEND_DIAGNOSTIC) || (c =? SCSI_CMD_TEST_UNIT_READY) || (c =? SCSI_CMD_PREVENT_ALLOW_MEDIUM_REMOVAL) || (c =? SCSI_CMD_VERIFY_10)
      then no_data_command
    else
      SCSI_SET_SENSE SCSI_SENSE_KEY_ILLEGAL_REQUEST SCSI_ASENSE_INVALID_COMMAND SCSI_ASENSEQ_NO_QUALIFIER;;;
      ret false);;
  if CommandSuccess : bool then
    SCSI_SET_SENSE SCSI_SENSE_KEY_GOOD SCSI_ASENSE_NO_ADDITIONAL_INFORMATION SCSI_ASENSEQ_NO_QUALIFIER;;;
    ret true
  else ret false.
End Commands.

(** ** Blocks of the disk through the endpoints *)

Section DiskBytes.
Context `{BootChipOk}.
Implicit Types (d : vdisk).

(** The memories and the directory hold bytes. *)
Definition disk_u8 d : Prop := Forall is_u8 (flash (memory d)) /\ Forall is_u8 (eeprom (memory d)) /\ Forall is_u8 (FirmwareFileEntries d).

Lemma patch_u8 base (bs l : list Z) : Forall is_u8 bs -> Forall is_u8 l -> Forall is_u8 (patch base bs l).
Proof. intros Hb Hl. unfold patch. apply Forall_app. split; [by apply Forall_take|]. apply Forall_app. split; [done|by apply Forall_drop]. Qed.
Lemma zeros_u8 n : Forall is_u8 (replicate n 0).
Proof. apply Forall_replicate. unfold is_u8. lia. Qed.

Lemma aset_u8 l k v l' : Forall is_u8 l -> is_u8 v -> aset l k v = Some l' -> Forall is_u8 l'.
Proof. intros Hl Hv. unfold aset. case_decide; [|done]. intros [= <-]. by apply Forall_insert. Qed.
Lemma entry_u8 t i e t' : Forall is_u8 t -> UpdateFAT12ClusterEntry t i e = Some t' -> Forall is_u8 t'.
Proof.
  intros Hu. pose proof (fun l k v l' Hl => aset_u8 l k (u8 v) l' Hl (u8_range v)) as Hset. unfold UpdateFAT12ClusterEntry. destruct (negb _).
  - intros (v & _ & (t1 & H1 & H2)%bind_Some)%bind_Some. eapply Hset; [|exact H2]. by eapply Hset.
  - intros (t1 & H1 & (v & _ & H2)%bind_Some)%bind_Some. eapply Hset; [|exact H2]. by eapply Hset.
Qed.
Lemma for_up_pres {A} (body : Z -> A -> option A) (I : A -> Prop) n : (forall i x x', I x -> body i x = Some x' -> I x') ->
  forall i inc x x', I x -> for_up body i inc n x = Some x' -> I x'.
Proof.
  intros Hb. induction n as [|n IH]; intros i inc x x' Hx; cbn [for_up]; [by intros [= <-]|].
  intros (x1 & H1 & H2)%bind_Some. eapply IH; [|exact H2]. by eapply Hb.
Qed.
Lemma chain_u8 t i n t' : Forall is_u8 t -> UpdateFAT12ClusterChain t i n = Some t' -> Forall is_u8 t'.
Proof. intros Hu. apply (for_up_pres _ (fun t => Forall is_u8 t)); [|done]. intros j x x' Hx. by apply entry_u8. Qed.

Lemma encode_u8 ws vs : Forall is_u8 (encode ws vs).
Proof. revert vs. induction ws as [|n ws IH]; intros [|v vs]; cbn [encode]; [done..|]. apply Forall_app. split; [apply le_bytes_u8|apply IH]. Qed.
Lemma boot_block_u8 : Forall is_u8 (boot_block_bytes BootBlock).
Proof.
  unfold boot_block_bytes. rewrite app_assoc. apply Forall_app. split; [by apply (bool_decide_unpack _)|].
  apply Forall_app. split; [apply encode_u8|by apply (bool_decide_unpack _)].
Qed.

Lemma disk_read_u8 d b bs : disk_ok d -> disk_u8 d -> 0 <= b -> disk_read b d = Some bs -> Forall is_u8 bs.
Proof.
  intros Hd (Hf & He & Hen) Hb Hr. destruct (decide (4 <= b)) as [Hb4|Hb4].
  - rewrite disk_read_data in Hr by done. injection Hr as <-. unfold shown, sector.
    destruct (eeprom_sector d b); [by apply Forall_take, Forall_drop|]. destruct (flash_sector d b); [by apply Forall_take, Forall_drop|apply zeros_u8].
  - assert (b = 0 \/ (b = 1 \/ b = 2) \/ b = 3) as [->|[Hfat|Hroot]] by lia.
    + unfold disk_read in Hr. cbn [Z.eqb DISK_BLOCK_BootBlock] in Hr. apply bind_Some in Hr as (b1 & H1 & H2). 
      assert (is_u8 0x55 /\ is_u8 0xAA) as [H55 HAA] by (unfold is_u8; lia).
      refine (aset_u8 _ _ _ _ (aset_u8 _ _ _ _ _ H55 H1) HAA H2). apply patch_u8; [apply boot_block_u8|apply zeros_u8].
    + rewrite fat_read in Hr by done. unfold fat_block in Hr. apply bind_Some in Hr as (t0 & E0 & (t1 & E1 & (t2 & E2 & E3)%bind_Some)%bind_Some).
      eapply chain_u8; [|exact E3]. eapply chain_u8; [|exact E2]. eapply entry_u8; [|exact E1]. eapply entry_u8; [|exact E0]. apply zeros_u8.
    + subst b. rewrite root_read in Hr by apply Hd. assert (bs = FirmwareFileEntries d ++ replicate 352 0) as -> by congruence. apply Forall_app. split; [done|apply zeros_u8].
Qed.
Lemma written_u8 d b bs : disk_u8 d -> Forall is_u8 bs -> disk_u8 (written_disk b bs d).
Proof.
  intros (Hf & He & Hen) Hu. unfold written_disk. repeat case_decide; [done|split_and!; [done|done|by apply Forall_take]|].
  split_and!; cbn [memory program_eeprom program_flash flash eeprom FirmwareFileEntries]; [| |done].
  - destruct (flash_sector d b); [by apply patch_u8|done].
  - destruct (eeprom_sector d b); [by apply patch_u8|done].
Qed.
End DiskBytes.

Section BlockTransfers.
Context {G : Type} `{UsbState G} `{!DiskState G} `{AvrOk} `{BootChipOk} (p : platform).
Variables (NI NO : Z) (size : nat).
Context (Hne : NI <> NO) (Hsize : (1 <= size)%nat) (task : M G unit) (uninitialised : nat -> list Z).
Abbreviation served := (served NI NO size p).
Implicit Types (w : world G) (s : port).
Context (Htask : forall Q s w, served s (hist w) -> p_sel s = NI \/ p_sel s = NO ->
  (forall w', st w' = st w -> served s (hist w') -> Q tt w') -> wp False task Q p w).
Context (Huninit : forall n, length (uninitialised n) = n) (Hfuel : (1026 <= fuel p)%nat).

Abbreviation cut := (cut size).

Lemma wp_ReadBlock b bs s Q w : served s (hist w) -> p_sel s = NI -> p_open s = [] ->
  disk_read b (the_disk (st w)) = Some bs -> length bs = 512%nat -> Forall is_u8 bs ->
  (forall ds w', st w' = st w -> cut bs ds -> served (Port NI (p_sent s ++ ds) [] (p_waiting s)) (hist w') -> Q tt w') ->
  wp False (VirtualFAT_ReadBlock task b) Q p w.
Proof.
  intros Hs Hsel Ho Hr Hl Hu HQ. unfold VirtualFAT_ReadBlock. apply wp_bind, wp_get, wp_bind. rewrite Hr. apply wp_ret. change SECTOR_SIZE_BYTES with (Z.of_nat 512).
  assert (forall Q s w, served s (hist w) -> p_sel s = NI -> (forall w', st w' = st w -> served s (hist w') -> Q tt w') -> wp False task Q p w) as Htask'
    by (intros Q' s' w' H1' H2' H3'; apply (Htask Q' s'); [done|by left|done]).
  apply wp_bind, (wp_stream_write p NI NO size Hsize task Htask' ltac:(lia) bs 512 s); [done|done|done|lia|lia|lia|].
  intros x w1 S1 Hs1 _. rewrite take_ge in Hs1 by lia. destruct (submit_cut size Hsize bs s Ho) as (ds & Hcut & E).
  apply (wp_hand_in p NI NO size _ _ _ _ Hs1); [by rewrite put_all_sel|]. intros w2 S2 Hs2. rewrite E, Hsel in Hs2.
  apply (HQ ds); [congruence|done|done].
Qed.

Lemma wp_WriteBlock b ps rest s Q w : served s (hist w) -> p_sel s = NO -> p_waiting s = ps ++ rest ->
  Forall (fun q => q <> []) ps -> length (concat ps) = 512%nat -> Forall is_u8 (concat ps) -> disk_ok (the_disk (st w)) -> 0 <= b ->
  (forall w', st w' = put_disk (written_disk b (concat ps) (the_disk (st w))) (st w) ->
     served (Port NO (p_sent s) (p_open s) rest) (hist w') -> Q tt w') ->
  wp False (VirtualFAT_WriteBlock task uninitialised b) Q p w.
Proof.
  intros Hs Hsel Hw Hnn Hl Hu Hd Hb HQ. unfold VirtualFAT_WriteBlock. apply wp_bind.
  replace SECTOR_SIZE_BYTES with (Z.of_nat (length (concat ps))) by (by rewrite Hl).
  apply (wp_stream_read_packets p NI NO size Hne task (fun Q s w H1 H2 => Htask Q s w H1 (or_intror H2))) with (rest := rest) (s := s);
    [done|done|done|by intros ->|done|rewrite Huninit; lia|lia|lia|].
  intros [[code [buf i]] bp] w1 S1 Hs1 _ Hbuf. cbn [fst snd] in Hbuf.
  assert (buf = concat ps) as -> by (rewrite Hbuf; unfold filled; rewrite drop_ge by (rewrite Huninit; lia); apply app_nil_r).
  apply wp_bind, (wp_hand_out p NI NO size Hne _ (Port NO (p_sent s) (p_open s) ([] :: rest))); [done|done|]. intros w2 S2 Hs2.
  apply wp_bind, wp_get, wp_bind. rewrite S2, S1. destruct (disk_write_spec _ b (concat ps) Hd Hb Hl Hu) as [-> _]. apply wp_ret, wp_modify.
  apply HQ; [cbn [st]; by rewrite S2, S1|exact Hs2].
Qed.
End BlockTransfers.

(** ** A command with its data *)

(** The objects of the program are kept apart. *)
Class BootObjectsOk (G : Type) `{UsbState G} `{MsDevice G} `{DiskState G} `{ScsiState G} : Prop := {
  bo_disk_put d g : the_disk (put_disk d g) = d;
  bo_sense_put s g : SenseData (put_sense s g) = s;
  bo_run_put b g : RunBootloader (put_run b g) = b;
  bo_put_ms i g : the_disk (put_ms i g) = the_disk g /\ SenseData (put_ms i g) = SenseData g /\ RunBootloader (put_ms i g) = RunBootloader g;
  bo_put_disk d g : ms (put_disk d g) = ms g /\ SenseData (put_disk d g) = SenseData g /\ RunBootloader (put_disk d g) = RunBootloader g;
  bo_put_sense s g : ms (put_sense s g) = ms g /\ the_disk (put_sense s g) = the_disk g /\ RunBootloader (put_sense s g) = RunBootloader g;
  bo_put_run b g : ms (put_run b g) = ms g /\ the_disk (put_run b g) = the_disk g /\ SenseData (put_run b g) = SenseData g
}.

Section Cycles.
Context {G : Type} `{UsbState G} `{!MsDevice G} `{!MsDeviceOk G} `{AvrOk} (p : platform).
Variables (NI NO : Z) (size : nat).
Context (Hne : NI <> NO) (Hsize : (31 <= size)%nat) (task : M G unit) (command : M G bool).
Abbreviation served := (served NI NO size p).
Implicit Types (w : world G) (s : port) (g : G).
(** No endpoint stays stalled: the host clears a stall as soon as it is there. *)
Context (Hstall : forall h, bit_tst (reg_wrap UECONX (respond p h UECONX)) STALLRQ = false) (Hfuel : (1026 <= fuel p)%nat).

Definition endpoints_are g : Prop := out_ep g = NO /\ in_ep g = NI.

Lemma wp_to_out nf s Q w : served s (hist w) -> endpoints_are (st w) ->
  (forall w', st w' = st w -> served (selecting NO s) (hist w') -> Q tt w') -> wp nf select_out Q p w.
Proof.
  intros Hs [Ho _] HQ. apply wp_select_out, HQ; [done|]. cbn [hist]. rewrite Ho.
  assert (is_u8 NO) as Hu by (rewrite <- Ho; unfold out_ep; rewrite <- epnum_u8; apply u8_range).
  pose proof (served_step p NI NO size (Wr UENUM NO) s _ Hs) as Hs1. cbn [on_event] in Hs1. by rewrite u8_small in Hs1.
Qed.
Lemma wp_to_in nf s Q w : served s (hist w) -> endpoints_are (st w) ->
  (forall w', st w' = st w -> served (selecting NI s) (hist w') -> Q tt w') -> wp nf select_in Q p w.
Proof.
  intros Hs [_ Hi] HQ. apply wp_select_in, HQ; [done|]. cbn [hist]. rewrite Hi.
  assert (is_u8 NI) as Hu by (rewrite <- Hi; unfold in_ep; rewrite <- epnum_u8; apply u8_range).
  pose proof (served_step p NI NO size (Wr UENUM NI) s _ Hs) as Hs1. cbn [on_event] in Hs1. by rewrite u8_small in Hs1.
Qed.

(** A part of the command block is read from the waiting packet. *)
Lemma wp_read_served base n bytes ps s Q w : served s (hist w) -> p_sel s = NO -> p_waiting s = drop base bytes :: ps ->
  (base + n <= length bytes)%nat -> length bytes = 31%nat -> length (CommandBlock (MS_State (ms (st w)))) = 31%nat ->
  (forall w', st w' = with_block (patch base (take n (drop base bytes)) (CommandBlock (MS_State (ms (st w))))) (st w) ->
     served (Port NO (p_sent s) (p_open s) (drop (base + n) bytes :: ps)) (hist w') -> Q (ENDPOINT_RWSTREAM_NoError, Z.of_nat n, Some 0) w') ->
  wp False (read_block task (Z.of_nat base) (Z.of_nat n) 0) Q p w.
Proof.
  intros Hs Hsel Hw Hn Hb Hcb HQ. set (cb := CommandBlock (MS_State (ms (st w)))) in *. unfold read_block.
  set (at_ := fun k => Port NO (p_sent s) (p_open s) (drop (base + k) bytes :: ps)).
  assert (s = at_ 0%nat) as E0 by (unfold at_; rewrite Nat.add_0_r; destruct s; cbn in *; by subst).
  apply (wp_rw_allowed p task False _ _ _ (fun j b' w' => b' = Z.of_nat j /\
    st w' = with_block (patch base (take j (drop base bytes)) cb) (st w) /\ served (at_ j) (hist w'))); [lia|right; lia|..].
  - apply (wp_wait_served p NI NO size _ s); [done|right; split; [done|by rewrite Hw]|lia|]. intros w1 S1 Hs1. split; [done|]. split; [done|].
    rewrite take_0, patch_nil. unfold cb. rewrite with_block_same, <- E0. done.
  - intros j b' w1 Hj (-> & S1 & Hs1) v. destruct (lookup_lt_is_Some_2 bytes (base + j)) as [x Hx]; [lia|].
    assert (p_waiting (at_ j) = (x :: drop (S (base + j)) bytes) :: ps) as Ew by (unfold at_; cbn [p_waiting]; by rewrite (drop_S _ _ _ Hx)).
    destruct (served_now p NI NO size _ _ Hs1) as (_ & _ & _ & Ho & _). destruct (Ho eq_refl) as (_ & _ & Hrw & _). split.
    { unfold v. rewrite Hrw, Ew. cbn [head from_option id]. by rewrite bool_decide_true. }
    assert (served (at_ j) (Rd UEINTX v :: hist w1)) as Hs2 by exact (served_step p NI NO size (Rd UEINTX v) _ _ Hs1).
    unfold store_block, block, get_ms, mod_ms. apply wp_bind, (wp_first p NI NO size _ (at_ j) x (drop (S (base + j)) bytes) ps); [done|done|done|].
    cbn [st]. intros w3 S3 Hs3. apply wp_bind, wp_bind, wp_bind, wp_get, wp_ret, wp_ret. rewrite S3, S1, with_block_block.
    set (bs := take j (drop base bytes)). assert (length bs = j) as Hbs by (unfold bs; rewrite length_take, length_drop; lia).
    rewrite aset_Some by (rewrite patch_length; lia). apply wp_bind, (wp_lift _ _ _ _ _ _ eq_refl), wp_bind, wp_modify, wp_ret. cbn [st hist].
    replace (Z.to_nat (Z.of_nat base + Z.of_nat j)) with (base + length bs)%nat by lia. rewrite patch_snoc by lia. rewrite S3, S1.
    split; [unfold move_up; lia|]. split.
    + transitivity (with_block (patch base (bs ++ [x]) cb) (with_block (patch base bs cb) (st w))); [reflexivity|]. rewrite with_block_twice.
      do 2 f_equal. unfold bs. symmetry. apply take_S_r. by rewrite lookup_drop.
    + unfold first_read in Hs3. rewrite Ew in Hs3. unfold at_. by replace (base + S j)%nat with (S (base + j)) by lia.
  - intros b' w' (-> & S' & Hs'). by apply HQ.
Qed.

Lemma wp_unstalled s Q w : served s (hist w) -> (forall w', st w' = st w -> served s (hist w') -> Q false w') ->
  wp False (await_unstalled task) Q p w.
Proof.
  intros Hs HQ. apply wp_await_unstalled; [apply Hstall|right; lia|]. intros v. apply HQ; [done|].
  exact (served_step p NI NO size (Rd UECONX v) s _ Hs).
Qed.

(** The status goes out as a packet of its own. *)
Lemma wp_status_served s Q w : let data := pack (CommandStatus (MS_State (ms (st w)))) in
  served s (hist w) -> endpoints_are (st w) -> p_open s = [] ->
  (forall w', st w' = st w -> served (Port NI (p_sent s ++ [data]) [] (p_waiting s)) (hist w') -> Q tt w') ->
  wp False (MS_Device_ReturnCommandStatus task) Q p w.
Proof.
  intros data Hs He Ho HQ. assert (length data = 13%nat) as Hlen by (unfold data; by rewrite pack_length).
  unfold MS_Device_ReturnCommandStatus. apply wp_bind, (wp_to_out _ s); [done|done|]. intros w1 S1 Hs1.
  apply wp_bind, (wp_unstalled _ _ _ Hs1). intros w2 S2 Hs2. apply wp_bind, (wp_to_in _ _ _ _ Hs2); [by rewrite S2, S1|]. intros w3 S3 Hs3.
  set (s1 := Port NI (p_sent s) [] (p_waiting s)). change (selecting NI (selecting NO s)) with (Port NI (p_sent s) (p_open s) (p_waiting s)) in Hs3.
  rewrite Ho in Hs3. fold s1 in Hs3. apply wp_bind, (wp_unstalled _ _ _ Hs3). intros w4 S4 Hs4.
  change (sizeof MS_CommandStatusWrapper_t) with (Z.of_nat 13). apply wp_bind, wp_resumed_once; [right; lia|].
  apply (wp_rw_allowed p task False _ _ _ (fun j b' w' => b' = Z.of_nat j /\ st w' = st w /\ served (with_open (take j data) s1) (hist w')));
    [lia|right; lia|..].
  - apply (wp_wait_served p NI NO size _ s1); [done|by left|lia|]. intros w5 S5 Hs5. split; [done|]. split; [done|]. split; [congruence|done].
  - intros j b' w5 Hj (-> & S5 & Hs5) v.
    assert (full size (with_open (take j data) s1) = false) as Hroom.
    { unfold full. cbn [with_open p_open]. rewrite bool_decide_false; [done|]. rewrite length_take. lia. }
    destruct (served_now p NI NO size _ _ Hs5) as (_ & _ & Hi & _). destruct (Hi eq_refl) as (_ & _ & Hrw & _). rewrite Hroom in Hrw. split; [exact Hrw|].
    assert (served (with_open (take j data) s1) (Rd UEINTX v :: hist w5)) as Hs6 by exact (served_step p NI NO size (Rd UEINTX v) _ _ Hs5).
    destruct (lookup_lt_is_Some_2 data j) as [x Hx]; [lia|]. unfold load_status, get_ms. apply wp_bind, wp_bind, wp_get, wp_ret. cbn [st]. rewrite S5. fold data.
    unfold send_byte. apply wp_bind, (wp_lift _ _ _ x); [unfold aget; rewrite decide_True by lia; by rewrite Nat2Z.id|].
    apply wp_bind, (wp_put_byte p NI NO size _ _ (with_open (take j data) s1)); [done|done|done| |].
    { assert (Forall is_u8 data) as Hu by apply pack_u8. by apply (Forall_lookup_1 _ _ _ _ Hu Hx). }
    cbn [st]. intros w7 S7 Hs7. apply wp_ret. split; [unfold move_up; lia|]. split; [congruence|]. by rewrite (take_S_r _ _ _ Hx).
  - intros b' w5 (-> & S5 & Hs5). split; [done|]. rewrite take_ge in Hs5 by lia.
    apply (wp_hand_in p NI NO size _ _ _ _ Hs5); [done|]. intros w6 S6 Hs6. by apply HQ; [congruence|].
Qed.

(** One turn of the driver for a command block that waits: the application's
    command runs with the block in place and the endpoint of its direction selected;
    the status follows.  [ok] and the objects and the port after the command are
    those of its postcondition. *)
Definition taken_block (bytes : list Z) g : G :=
  with_block (patch 0 (take (15 + Z.to_nat (CBW_SCSICommandLength bytes)) bytes) (CommandBlock (MS_State (ms g)))) g.
Definition data_endpoint (cb : list Z) (s : port) : port :=
  selecting (if Z.land (CBW_Flags cb) MS_COMMAND_DIR_DATA_IN =? 0 then NO else NI) s.

Lemma taken_flags bytes g : length bytes = 31%nat -> CBW_Flags (CommandBlock (MS_State (ms (taken_block bytes g)))) = CBW_Flags bytes.
Proof.
  intros Hl. unfold taken_block. rewrite with_block_block. unfold CBW_Flags, patch. rewrite take_0, app_nil_l.
  rewrite lookup_app_l by (rewrite length_take; lia). by rewrite lookup_take_lt by lia.
Qed.

Lemma taken_flags_port bytes g s : length bytes = 31%nat -> data_endpoint (CommandBlock (MS_State (ms (taken_block bytes g)))) s = data_endpoint bytes s.
Proof. intros Hl. unfold data_endpoint. by rewrite taken_flags. Qed.
Lemma taken_config bytes g : MS_Config (ms (taken_block bytes g)) = MS_Config (ms g).
Proof. unfold taken_block, with_block. by rewrite ms_put. Qed.

Lemma wp_execute_served s Q w : served s (hist w) -> p_sel s = NO -> endpoints_are (st w) ->
  (forall w1, st w1 = st w -> served (data_endpoint (CommandBlock (MS_State (ms (st w)))) s) (hist w1) ->
     wp False command (fun ok w2 => exists s2, served s2 (hist w2) /\ p_open s2 = [] /\ MS_Config (ms (st w2)) = MS_Config (ms (st w)) /\
       let c := status_of (CommandBlock (MS_State (ms (st w2)))) ok in
       forall w3, st w3 = with_status c (st w2) -> served (Port NI (p_sent s2 ++ [pack c]) [] (p_waiting s2)) (hist w3) -> Q tt w3) p w1) ->
  wp False (execute_command command task) Q p w.
Proof.
  intros Hs Hsel He Hcmd. unfold execute_command. set (cb := CommandBlock (MS_State (ms (st w)))) in *.
  apply wp_bind. unfold block at 1. apply wp_bind, wp_bind, wp_get, wp_ret, wp_ret. fold cb.
  assert (forall Q', (forall w1, st w1 = st w -> served (data_endpoint cb s) (hist w1) -> Q' tt w1) ->
    wp False (when (negb (Z.land (CBW_Flags cb) MS_COMMAND_DIR_DATA_IN =? 0)) select_in) Q' p w) as Hpick.
  { intros Q' HQ'. unfold data_endpoint in HQ'. destruct (_ =? 0); cbn [negb when].
    - apply wp_ret, HQ'; [done|]. destruct s. cbn in Hsel. subst. exact Hs.
    - by apply (wp_to_in _ s). }
  apply wp_bind, Hpick. intros w1 S1 Hs1. apply wp_bind. eapply wp_mono; [by apply Hcmd|]. cbv beta.
  intros ok w2 (s2 & Hs2 & Ho2 & Hcfg & HQ). apply wp_bind. unfold block. apply wp_bind, wp_bind, wp_get, wp_ret, wp_ret.
  set (c := status_of _ ok) in *. apply wp_bind. unfold mod_ms. apply wp_modify. fold (with_status c (st w2)).
  assert (endpoints_are (with_status c (st w2))) as He2.
  { unfold endpoints_are, out_ep, in_ep, with_status in *. rewrite !ms_put. cbn [MS_Config]. by rewrite Hcfg. }
  assert (forall Q', (forall w3, st w3 = with_status c (st w2) -> served s2 (hist w3) -> Q' tt w3) ->
    wp False (when (negb ok && negb (CBW_DataTransferLength (CommandBlock (MS_State (ms (st w2)))) =? 0)) Endpoint_StallTransaction) Q' p
      (World (with_status c (st w2)) (hist w2))) as Hst.
  { intros Q' HQ'. destruct (_ && _); cbn [when]; [|by apply wp_ret, HQ'].
    unfold Endpoint_StallTransaction. apply wp_reg_or. intros v _. apply HQ'; [done|]. cbn [hist st].
    exact (served_step p NI NO size (Wr UECONX _) _ _ (served_step p NI NO size (Rd UECONX v) _ _ Hs2)). }
  apply wp_bind, Hst. intros w3 S3 Hs3. apply (wp_status_served s2); [done|by rewrite S3|done|]. rewrite S3, with_status_status.
  intros w4 S4 Hs4. by apply HQ.
Qed.

Lemma wp_cycle bytes ps s Q w : served s (hist w) -> endpoints_are (st w) -> p_open s = [] -> p_waiting s = bytes :: ps ->
  length bytes = 31%nat -> Forall is_u8 bytes -> length (CommandBlock (MS_State (ms (st w)))) = 31%nat ->
  block_refused (TotalLUNs (MS_Config (ms (st w)))) bytes = false ->
  (forall w1, st w1 = taken_block bytes (st w) -> served (data_endpoint bytes (Port NO (p_sent s) [] ps)) (hist w1) ->
     wp False command (fun ok w2 => exists s2, served s2 (hist w2) /\ p_open s2 = [] /\
       MS_Config (ms (st w2)) = MS_Config (ms (st w)) /\ IsMassStoreReset (MS_State (ms (st w2))) = false /\
       let c := status_of (CommandBlock (MS_State (ms (st w2)))) ok in
       forall w3, st w3 = with_status c (st w2) -> served (Port NI (p_sent s2 ++ [pack c]) [] (p_waiting s2)) (hist w3) -> Q tt w3) p w1) ->
  wp False (MS_Device_USBTask command task) Q p w.
Proof.
  intros Hs He Ho Hw Hl Hu Hcb Href Hcmd. unfold MS_Device_USBTask, is_DeviceState.
  apply wp_bind, wp_bind, (wp_look p NI NO size _ _ s); [done|done|]. intros w1 S1 Hs1. apply wp_ret.
  destruct (served_now p NI NO size _ _ Hs) as (-> & _). rewrite Z.eqb_refl. cbn [negb].
  apply wp_bind, (wp_to_out _ s); [done|by rewrite S1|]. intros w2 S2 Hs2. set (s2 := selecting NO s) in *.
  apply wp_bind, (wp_out p NI NO size _ s2); [done|done|]. intros w3 S3 Hs3. assert (p_waiting s2 = bytes :: ps) as Hw2 by exact Hw. rewrite Hw2.
  rewrite bool_decide_true by done. cbn [when]. apply wp_bind, wp_bind. unfold MS_Device_ReadInCommandBlock.
  apply wp_bind, (wp_to_out _ s2); [done|by rewrite S3, S2, S1|]. intros w4 S4 Hs4. change (selecting NO s2) with s2 in Hs4.
  change 0 with (Z.of_nat 0) at 1. change (sizeof_CBW - 16) with (Z.of_nat 15).
  assert (st w4 = st w) as E4 by congruence.
  apply wp_bind, wp_resumed_once; [right; lia|].
  apply (wp_read_served 0 15 bytes ps s2); [done|done|by rewrite drop_0|lia|done|by rewrite E4|]. rewrite E4, drop_0. intros w5 S5 Hs5. split; [done|]. cbn [Nat.add] in Hs5.
  set (cb1 := patch 0 (take 15 bytes) _) in *. apply wp_bind, wp_bind, wp_get, wp_ret. rewrite S5. unfold with_block at 1 2. rewrite !ms_put.
  cbn [MS_Config MS_State set_block CommandBlock].
  destruct (header_decides (TotalLUNs (MS_Config (ms (st w)))) (CommandBlock (MS_State (ms (st w)))) bytes ltac:(lia)) as [Href1 Hlen].
  fold cb1 in Href1, Hlen. rewrite Href1, Href. set (L := CBW_SCSICommandLength bytes) in *.
  assert (0 <= L <= 16) as HL.
  { unfold block_refused in Href. rewrite !orb_false_iff in Href. destruct Href as [_ H16]. fold L in H16. split; [|lia].
    unfold L, CBW_SCSICommandLength. destruct (lookup_lt_is_Some_2 bytes 14) as [x Hx]; [lia|]. rewrite Hx. cbn.
    apply (Forall_lookup_1 _ _ _ _ Hu) in Hx. unfold is_u8 in Hx. lia. }
  assert (length cb1 = 31%nat) as Hcb1 by (unfold cb1; rewrite patch_length; rewrite ?length_take; lia).
  apply wp_bind, wp_resumed_once; [right; lia|]. apply wp_bind. unfold block. apply wp_bind, wp_bind, wp_get, wp_ret, wp_ret.
  rewrite S5, with_block_block, Hlen. rewrite <- (Z2Nat.id L) by lia. change 15 with (Z.of_nat 15).
  apply (wp_read_served 15 (Z.to_nat L) bytes ps (Port NO (p_sent s2) (p_open s2) (drop 15 bytes :: ps)));
    [done|done|done|lia|done|by rewrite S5, with_block_block|]. rewrite S5, with_block_block, with_block_twice. unfold cb1. rewrite patch_patch by lia.
  cbn [p_sent p_open]. intros w6 S6 Hs6. split; [done|].
  apply wp_bind, (wp_hand_out p NI NO size Hne _ _ _ _ Hs6); [done|]. intros w7 S7 Hs7. apply wp_ret. cbn [when].
  unfold release in Hs7. cbn [p_sel p_sent p_open p_waiting tail s2 selecting] in Hs7. rewrite Ho in Hs7.
  rewrite S6 in S7. change (st w7 = taken_block bytes (st w)) in S7.
  apply (wp_execute_served (Port NO (p_sent s) [] ps)); [done|done|unfold endpoints_are, out_ep, in_ep in *; by rewrite S7, taken_config|]. rewrite S7, taken_flags_port, taken_config by done.
  intros w8 S8 Hs8. eapply wp_mono; [apply Hcmd; [congruence|done]|]. intros ok w9 (s9 & Hs9 & Ho9 & Hcfg & Hres & HQ). exists s9. split_and!; try done.
  intros c w10 S10 Hs10. apply wp_bind, wp_bind, wp_bind, wp_get, wp_ret, wp_ret. rewrite S10. unfold with_status. rewrite ms_put. cbn [MS_State set_status IsMassStoreReset].
  rewrite Hres. cbn [when]. apply wp_ret. by apply HQ.
Qed.
End Cycles.

(** ** READ (10) and WRITE (10) *)

(** The blocks of a command, and what each is written with. *)
Definition blocks_read `{BootChip} (a : Z) (i n : nat) (d : vdisk) : list Z :=
  concat ((fun k => default [] (disk_read (u16 (a + Z.of_nat k)) d)) <$> seq i n).
Fixpoint blocks_sent (a : Z) (i : nat) (pss : list (list (list Z))) : list (Z * list Z) :=
  match pss with [] => [] | ps :: pss' => (u16 (a + Z.of_nat i), concat ps) :: blocks_sent a (S i) pss' end.
(** The packets of a block of data. *)
Definition block_packets (ps : list (list Z)) : Prop := Forall (fun q => q <> []) ps /\ length (concat ps) = 512%nat /\ Forall is_u8 (concat ps).

Section ReadWrite.
Context {G : Type} `{UsbState G} `{!MsDevice G} `{!MsDeviceOk G} `{!DiskState G} `{!ScsiState G} `{!BootObjectsOk G}.
Context `{AvrOk} `{BootChipOk} (p : platform).
Variables (NI NO : Z) (size : nat).
Context (Hne : NI <> NO) (Hsize : (31 <= size)%nat) (task : M G unit) (uninitialised : nat -> list Z).
Abbreviation served := (served NI NO size p).
Implicit Types (w : world G) (s : port) (g : G).
Context (Htask : forall Q s w, served s (hist w) -> p_sel s = NI \/ p_sel s = NO ->
  (forall w', st w' = st w -> served s (hist w') -> Q tt w') -> wp False task Q p w).
Context (Huninit : forall n, length (uninitialised n) = n) (Hfuel : (1026 <= fuel p)%nat).

(** The objects apart from the disk. *)
Definition same_but_disk g g' : Prop := ms g' = ms g /\ SenseData g' = SenseData g /\ RunBootloader g' = RunBootloader g.

Lemma wp_read_loop a n : forall i s Q w, served s (hist w) -> p_sel s = NI -> p_open s = [] -> disk_ok (the_disk (st w)) -> disk_u8 (the_disk (st w)) ->
  (forall ds w', st w' = st w -> cut size (blocks_read a i n (the_disk (st w))) ds ->
     served (Port NI (p_sent s ++ ds) [] (p_waiting s)) (hist w') -> Q None w') ->
  wp False (for_each (seq i n) (fun i => VirtualFAT_ReadBlock task (u16 (a + Z.of_nat i));;; ret (None (A := unit)))) Q p w.
Proof.
  induction n as [|n IH]; intros i s Q w Hs Hsel Ho Hd Hu HQ; cbn [seq for_each].
  { apply wp_ret, (HQ []); [done|by split|]. rewrite app_nil_r. destruct s. cbn in Hsel, Ho. by subst. }
  pose proof (u16_range (a + Z.of_nat i)) as Hb. unfold is_u16 in Hb. destruct (disk_read_total _ (u16 (a + Z.of_nat i)) Hd) as (bs & Hr & Hl); [lia|].
  apply wp_bind, wp_bind, (wp_ReadBlock p NI NO size ltac:(lia) task Htask Hfuel _ bs s); [done|done|done|done|done|by eapply disk_read_u8; [..|exact Hr]; [|done|lia]|].
  intros ds w1 S1 Hds Hs1. apply wp_ret. apply (IH (S i) _ Q w1 Hs1); [done|done|by rewrite S1|by rewrite S1|]. rewrite S1.
  intros ds' w2 S2 Hds' Hs2. cbn [p_sent p_waiting] in Hs2. rewrite <- app_assoc in Hs2. apply (HQ (ds ++ ds')); [congruence| |done].
  destruct Hds as [E1 H1'], Hds' as [E2 H2']. split; [|by apply Forall_app].
  unfold blocks_read. cbn [seq fmap list_fmap concat]. rewrite Hr. cbn [default from_option]. rewrite concat_app, E1, E2. done.
Qed.

Lemma wp_write_loop a pss rest : forall i s Q w, served s (hist w) -> p_sel s = NO -> p_waiting s = concat pss ++ rest -> Forall block_packets pss ->
  disk_ok (the_disk (st w)) -> disk_u8 (the_disk (st w)) ->
  (forall d' w', write_blocks (blocks_sent a i pss) (the_disk (st w)) = Some d' -> disk_ok d' -> disk_u8 d' -> the_disk (st w') = d' ->
     same_but_disk (st w) (st w') -> served (Port NO (p_sent s) (p_open s) rest) (hist w') -> Q None w') ->
  wp False (for_each (seq i (length pss)) (fun i => VirtualFAT_WriteBlock task uninitialised (u16 (a + Z.of_nat i));;; ret (None (A := unit)))) Q p w.
Proof.
  induction pss as [|ps pss IH]; intros i s Q w Hs Hsel Hw Hps Hd Hu HQ; cbn [length seq for_each].
  { apply wp_ret, (HQ (the_disk (st w))); [done|done|done|done|by split_and!|]. destruct s. cbn in Hsel, Hw. by subst. }
  apply Forall_cons_iff in Hps as [(Hnn & Hl & Hub) Hps]. pose proof (u16_range (a + Z.of_nat i)) as Hb. unfold is_u16 in Hb.
  cbn [concat] in Hw. rewrite <- app_assoc in Hw. set (b := u16 (a + Z.of_nat i)) in *.
  destruct (disk_write_spec (the_disk (st w)) b (concat ps) Hd ltac:(lia) Hl Hub) as [Hwr Hd1].
  apply wp_bind, wp_bind, (wp_WriteBlock p NI NO size Hne ltac:(lia) task uninitialised Htask Huninit Hfuel _ ps (concat pss ++ rest) s);
    [done|done|done|done|done|done|done|lia|].
  intros w1 S1 Hs1. apply wp_ret. assert (the_disk (st w1) = written_disk b (concat ps) (the_disk (st w))) as E1 by (by rewrite S1, bo_disk_put).
  apply (IH (S i) _ Q w1 Hs1); [done|done|done|by rewrite E1|rewrite E1; by apply written_u8|]. rewrite E1.
  intros d' w2 Hw2 Hd' Hu' Ed Hsame Hs2. apply (HQ d'); [|done|done|done| |done].
  - cbn [blocks_sent write_blocks]. fold b. rewrite Hwr. exact Hw2.
  - destruct Hsame as (A1 & A2 & A3). rewrite S1 in A1, A2, A3. destruct (bo_put_disk (written_disk b (concat ps) (the_disk (st w))) (st w)) as (B1 & B2 & B3).
    rewrite B1 in A1. rewrite B2 in A2. rewrite B3 in A3. by split_and!.
Qed.
End ReadWrite.

(** The command blocks a host sends: a header, and the command. *)
Definition be_bytes (n : nat) (v : Z) : list Z := reverse (le_bytes n v).
Definition command_block (tag len flags : Z) (cmd : list Z) : list Z :=
  le_bytes 4 MS_CBW_SIGNATURE ++ le_bytes 4 tag ++ le_bytes 4 len ++ [flags; 0; Z.of_nat (length cmd)] ++ cmd ++ replicate (16 - length cmd) 0.
Definition rw10 (opcode lba n : Z) : list Z := [opcode; 0] ++ be_bytes 4 lba ++ [0] ++ be_bytes 2 n ++ [0].
Definition read10 (tag lba n : Z) : list Z := command_block tag (n * 512) 0x80 (rw10 SCSI_CMD_READ_10 lba n).
Definition write10 (tag lba n : Z) : list Z := command_block tag (n * 512) 0 (rw10 SCSI_CMD_WRITE_10 lba n).

Lemma be_bytes_of n v : le_bytes n (of_le_bytes (be_bytes n v)) = be_bytes n v.
Proof.
  pose proof (le_bytes_of_le (be_bytes n v)) as Hb. unfold be_bytes at 1 2 in Hb. rewrite length_reverse, le_bytes_length in Hb. apply Hb.
  apply Forall_reverse, le_bytes_u8.
Qed.
Lemma swap_32 v : 0 <= v < 2 ^ 32 -> SwapEndian_32 false (of_le_bytes (be_bytes 4 v)) = v.
Proof.
  intros Hv. unfold SwapEndian_32. rewrite be_bytes_of. transitivity (of_le_bytes (le_bytes 4 v)); [reflexivity|]. apply of_le_bytes_le. lia.
Qed.
Lemma swap_16 v : 0 <= v < 2 ^ 16 -> SwapEndian_16 false (of_le_bytes (be_bytes 2 v)) = v.
Proof.
  intros Hv. unfold SwapEndian_16. rewrite be_bytes_of. transitivity (of_le_bytes (le_bytes 2 v)); [reflexivity|]. apply of_le_bytes_le. lia.
Qed.

(** The members of a command block. *)
Lemma command_block_members tag len flags cmd : (length cmd <= 16)%nat -> 0 <= tag < 2 ^ 32 -> 0 <= len < 2 ^ 32 -> is_u8 flags -> Forall is_u8 cmd ->
  let cb := command_block tag len flags cmd in
  length cb = 31%nat /\ Forall is_u8 cb /\ CBW_Signature cb = MS_CBW_SIGNATURE /\ CBW_Tag cb = tag /\ CBW_DataTransferLength cb = len /\
  CBW_Flags cb = flags /\ CBW_LUN cb = 0 /\ CBW_SCSICommandLength cb = Z.of_nat (length cmd) /\
  CBW_SCSICommandData cb = cmd ++ replicate (16 - length cmd) 0.
Proof.
  intros Hl Ht Hn Hf Hu cb. unfold cb, command_block. split_and!.
  - rewrite !length_app, !le_bytes_length, length_replicate. cbn [length]. lia.
  - do 3 (apply Forall_app; split; [apply le_bytes_u8|]). apply Forall_app. split; [|apply Forall_app; split; [done|apply zeros_u8]].
    repeat (apply Forall_cons; [unfold is_u8 in *; lia|]). apply Forall_nil.
  - reflexivity.
  - transitivity (of_le_bytes (le_bytes 4 tag)); [reflexivity|]. apply of_le_bytes_le. lia.
  - transitivity (of_le_bytes (le_bytes 4 len)); [reflexivity|]. apply of_le_bytes_le. lia.
  - reflexivity.
  - reflexivity.
  - reflexivity.
  - reflexivity.
Qed.

Section Decode.
Context {G : Type} `{UsbState G} `{!MsDevice G} `{!MsDeviceOk G} `{!DiskState G} `{!ScsiState G} `{!BootObjectsOk G}.
Context `{AvrOk} `{BootChipOk} (p : platform).
Variables (NI NO : Z) (size : nat).
Context (Hne : NI <> NO) (Hsize : (31 <= size)%nat) (task : M G unit) (uninitialised : nat -> list Z).
Abbreviation served := (served NI NO size p).
Implicit Types (w : world G) (s : port) (g : G).
Context (Htask : forall Q s w, served s (hist w) -> p_sel s = NI \/ p_sel s = NO ->
  (forall w', st w' = st w -> served s (hist w') -> Q tt w') -> wp False task Q p w).
Context (Huninit : forall n, length (uninitialised n) = n) (Hfuel : (1026 <= fuel p)%nat).

Definition the_block g : list Z := CommandBlock (MS_State (ms g)).
(** A command succeeded, with a new transfer length. *)
Definition succeeded (len : Z) g g' : Prop :=
  ms g' = MsInfo (MS_Config (ms g)) (set_block (set_length len (the_block g)) (MS_State (ms g))) /\
  SenseData g' = set_sense SCSI_SENSE_KEY_GOOD SCSI_ASENSE_NO_ADDITIONAL_INFORMATION SCSI_ASENSEQ_NO_QUALIFIER (SenseData g).

Lemma wp_command_data nf Q w : Q (CBW_SCSICommandData (the_block (st w))) w -> wp nf command_data Q p w.
Proof. intros HQ. unfold command_data, block, get_ms. by apply wp_bind, wp_bind, wp_bind, wp_get, wp_ret, wp_ret, wp_ret. Qed.

(** The end of a successful command: the length is updated, and the sense data. *)
Lemma wp_succeed f Q w : (forall g', succeeded (f (CBW_DataTransferLength (the_block (st w)))) (st w) g' -> the_disk g' = the_disk (st w) ->
    RunBootloader g' = RunBootloader (st w) -> Q true (World g' (hist w))) ->
  wp False (mod_length f;;; ret true) (fun CommandSuccess w' => wp False (if CommandSuccess : bool then
      SCSI_SET_SENSE SCSI_SENSE_KEY_GOOD SCSI_ASENSE_NO_ADDITIONAL_INFORMATION SCSI_ASENSEQ_NO_QUALIFIER;;; ret true
    else ret false) Q p w') p w.
Proof.
  intros HQ. apply wp_bind. unfold mod_length, mod_ms. apply wp_modify, wp_ret. unfold SCSI_SET_SENSE. apply wp_bind, wp_modify, wp_ret. cbn [st hist].
  set (i := MsInfo _ _). set (sn := set_sense _ _ _ _). destruct (bo_put_ms i (st w)) as (A1 & A2 & A3). destruct (bo_put_sense sn (put_ms i (st w))) as (B1 & B2 & B3).
  apply HQ; [|by rewrite B2|by rewrite B3]. split; [by rewrite B1, ms_put|]. rewrite bo_sense_put. unfold sn. by rewrite A2.
Qed.

(** What the command block in place says of a READ (10) or WRITE (10). *)
Definition is_rw10 (opcode lba n : Z) (data : list Z) : Prop :=
  loaded 1 0 data = opcode /\ SwapEndian_32 false (loaded 4 2 data) = lba /\ SwapEndian_16 false (loaded 2 7 data) = n.

Lemma wp_decode_read10 lba n s Q w : served s (hist w) -> p_sel s = NI -> p_open s = [] -> disk_ok (the_disk (st w)) -> disk_u8 (the_disk (st w)) ->
  is_rw10 SCSI_CMD_READ_10 lba (Z.of_nat n) (CBW_SCSICommandData (the_block (st w))) -> u16 lba < LUN_MEDIA_BLOCKS ->
  (forall ds w', succeeded (CBW_DataTransferLength (the_block (st w)) - Z.of_nat n * 512) (st w) (st w') -> the_disk (st w') = the_disk (st w) ->
     RunBootloader (st w') = RunBootloader (st w) -> cut size (blocks_read (u16 lba) 0 n (the_disk (st w))) ds ->
     served (Port NI (p_sent s ++ ds) [] (p_waiting s)) (hist w') -> Q true w') ->
  wp False (SCSI_DecodeSCSICommand task uninitialised) Q p w.
Proof.
  intros Hs Hsel Ho Hd Hu (Hop & Hlba & Hn) Hin HQ. unfold SCSI_DecodeSCSICommand. apply wp_bind, wp_command_data. rewrite Hop.
  change (SCSI_CMD_READ_10 =? SCSI_CMD_INQUIRY) with false. change (SCSI_CMD_READ_10 =? SCSI_CMD_REQUEST_SENSE) with false.
  change (SCSI_CMD_READ_10 =? SCSI_CMD_READ_CAPACITY_10) with false. change (SCSI_CMD_READ_10 =? SCSI_CMD_WRITE_10) with false. rewrite Z.eqb_refl.
  unfold SCSI_Command_ReadWrite_10. apply wp_bind, wp_bind, wp_command_data. rewrite Hlba, Hn.
  destruct (Z.leb_spec LUN_MEDIA_BLOCKS (u16 lba)); [lia|]. rewrite Nat2Z.id.
  apply wp_bind, (wp_read_loop p NI NO size ltac:(lia) task Htask Hfuel (u16 lba) n 0 s); [done|done|done|done|done|].
  intros ds w1 S1 Hds Hs1. apply wp_succeed. rewrite S1. intros g' Hg Hdisk Hrun. by apply (HQ ds).
Qed.

Lemma wp_decode_write10 lba pss rest s Q w : let n := Z.of_nat (length pss) in
  served s (hist w) -> p_sel s = NO -> p_waiting s = concat pss ++ rest -> Forall block_packets pss ->
  disk_ok (the_disk (st w)) -> disk_u8 (the_disk (st w)) ->
  is_rw10 SCSI_CMD_WRITE_10 lba n (CBW_SCSICommandData (the_block (st w))) -> 0 <= lba < LUN_MEDIA_BLOCKS -> LUN_MEDIA_BLOCKS < 65536 ->
  (forall d' w', succeeded (CBW_DataTransferLength (the_block (st w)) - n * 512) (st w) (st w') ->
     write_blocks (blocks_sent lba 0 pss) (the_disk (st w)) = Some d' -> disk_ok d' -> disk_u8 d' -> the_disk (st w') = d' ->
     RunBootloader (st w') = RunBootloader (st w) -> served (Port NO (p_sent s) (p_open s) rest) (hist w') -> Q true w') ->
  wp False (SCSI_DecodeSCSICommand task uninitialised) Q p w.
Proof.
  intros n Hs Hsel Hw Hps Hd Hu (Hop & Hlba & Hn) Hin Hlun HQ. unfold SCSI_DecodeSCSICommand. apply wp_bind, wp_command_data. rewrite Hop.
  change (SCSI_CMD_WRITE_10 =? SCSI_CMD_INQUIRY) with false. change (SCSI_CMD_WRITE_10 =? SCSI_CMD_REQUEST_SENSE) with false.
  change (SCSI_CMD_WRITE_10 =? SCSI_CMD_READ_CAPACITY_10) with false. rewrite Z.eqb_refl.
  unfold SCSI_Command_ReadWrite_10. apply wp_bind, wp_bind, wp_command_data. rewrite Hlba, Hn, u16_small by (unfold is_u16; lia).
  destruct (Z.leb_spec LUN_MEDIA_BLOCKS lba); [lia|]. unfold n. rewrite Nat2Z.id.
  apply wp_bind, (wp_write_loop p NI NO size Hne ltac:(lia) task uninitialised Htask Huninit Hfuel lba pss rest 0 s); [done|done|done|done|done|done|].
  intros d' w1 Hwb Hd' Hu' Ed (A1 & A2 & A3) Hs1. apply wp_succeed. unfold succeeded, the_block in *. rewrite A1, A2, A3. intros g' Hg Hdisk Hrun.
  apply (HQ d'); [done|done|done|done|cbn [st]; by rewrite Hdisk|done|done].
Qed.
End Decode.

(** ** The commands that answer *)

Section Answers.
Context {G : Type} `{UsbState G} `{AvrOk} (p : platform).
Variables (NI NO : Z) (size : nat).
Context (Hne : NI <> NO) (Hsize : (1 <= size)%nat) (task : M G unit).
Abbreviation served := (served NI NO size p).
Abbreviation full := (full size).
Implicit Types (w : world G) (s : port).
Context (Htask : forall Q s w, served s (hist w) -> p_sel s = NI \/ p_sel s = NO ->
  (forall w', st w' = st w -> served s (hist w') -> Q tt w') -> wp False task Q p w).

Lemma replicate_snoc {A} k (x : A) : replicate (S k) x = replicate k x ++ [x].
Proof. induction k as [|k IH]; [done|]. cbn [replicate app] in *. by rewrite <- IH. Qed.

(** Zeros are put like the bytes of a stream. *)
Lemma wp_null_stream (n : nat) s Q w : served s (hist w) -> p_sel s = NI -> Z.of_nat n < 65536 -> (2 * n + 1 < fuel p)%nat ->
  (forall x w', st w' = st w -> served (put_all size (replicate n 0) s) (hist w') -> Q x w') ->
  wp False (Endpoint_Null_Stream (Z.of_nat n) None) Q p w.
Proof using H1 Hsize.
  intros Hs Hsel Hwide Hf HQ. unfold Endpoint_Null_Stream, plain_stream.
  apply wp_bind, (wp_wait_served p NI NO size _ s); [done|by left|lia|]. intros w1 S1 Hs1. rewrite bool_decide_true by done. cbn [negb].
  assert (forall s', full (submit s') = false) as Hsub by (intros s'; unfold BulkPort.full, submit; cbn; by rewrite bool_decide_false by lia).
  set (at_ := fun k => put_all size (replicate k 0) s).
  set (I := fun (x : Z * Z) w' => st w' = st w /\ exists k s', x.1 = Z.of_nat (n - k) /\ (k <= n)%nat /\ served s' (hist w') /\ p_sel s' = NI /\
    (s' = at_ k \/ full (at_ k) = true /\ (k < n)%nat /\ s' = submit (at_ k))).
  set (room := fun w' => bit_tst (reg_wrap UEINTX (respond p (hist w') UEINTX)) RWAL).
  assert (forall k, p_sel (at_ k) = NI) as Hat by (intros k; unfold at_; by rewrite put_all_sel).
  assert (forall s' w', served s' (hist w') -> p_sel s' = NI -> room w' = negb (full s')) as Hroom.
  { intros s' w' Hs' Hsel'. destruct (served_now p NI NO size _ _ Hs') as (_ & _ & Hi & _). by destruct (Hi Hsel') as (_ & _ & ? & _). }
  apply (wp_while_variant False p I (fun x w' => 2 * Z.to_nat x.1 + if room w' then 0 else 1)%nat).
  - intros [len c] w2 (S2 & k & s' & Hlen & Hk & Hs2 & Hsel2 & Hcase). cbn [fst snd] in *. subst len. rewrite Nat2Z.id.
    destruct (Z.eqb_spec (Z.of_nat (n - k)) 0) as [E|E].
    { apply wp_ret. assert (k = n) as -> by lia. destruct Hcase as [->|(_ & ? & _)]; [|lia]. by apply HQ. }
    rewrite (Hroom _ _ Hs2 Hsel2). apply wp_bind, (wp_room p NI NO size _ s'); [done|done|]. intros w3 S3 Hs3. rewrite negb_involutive.
    destruct (full s') eqn:Ef; cbn [negb].
    + assert (s' = at_ k) as -> by (destruct Hcase as [->|(_ & _ & ->)]; [done|by rewrite Hsub in Ef]).
      apply wp_bind, (wp_hand_in p NI NO size _ (at_ k)); [done|done|]. intros w4 S4 Hs4.
      apply wp_bind, (wp_wait_served p NI NO size _ (submit (at_ k))); [done|left; apply Hat|lia|]. intros w5 S5 Hs5. rewrite bool_decide_true by done.
      apply wp_ret. split.
      * split; [congruence|]. exists k, (submit (at_ k)). split_and!; [done|lia|done|apply Hat|]. right. split; [done|]. split; [lia|done].
      * cbn [fst]. rewrite (Hroom _ _ Hs5 (Hat k)), Hsub, Nat2Z.id by done. cbn [negb]. lia.
    + apply wp_bind, (wp_put_byte p NI NO size _ _ s'); [done|done|done|unfold is_u8; lia|]. intros w4 S4 Hs4. apply wp_ret.
      rewrite u16_small by (unfold is_u16; lia). assert (with_open (p_open s' ++ [0]) s' = at_ (S k)) as Ep.
      { unfold at_. rewrite replicate_snoc, put_all_snoc. fold (at_ k). unfold put. destruct Hcase as [->|(Hfull & _ & ->)]; [by rewrite Ef|by rewrite Hfull]. }
      split.
      * split; [congruence|]. exists (S k), (at_ (S k)). cbn [fst]. split_and!; [lia|lia|by rewrite <- Ep|apply Hat|by left].
      * cbn [fst]. destruct (room w4); lia.
  - split; [done|]. exists 0%nat, s. cbn [fst]. rewrite Nat.sub_0_r. split_and!; [done|lia|done|done|by left].
  - cbn [fst]. rewrite Nat2Z.id. destruct (room w1); lia.
Qed.

Lemma put_all_app bs bs' s : put_all size (bs ++ bs') s = put_all size bs' (put_all size bs s).
Proof. unfold put_all. apply foldl_app. Qed.

(** Data, padding, and the end of the transfer. *)
Lemma wp_answer mem (n m : nat) s Q w : served s (hist w) -> p_sel s = NI -> p_open s = [] -> Forall is_u8 mem -> (n <= length mem)%nat ->
  Z.of_nat (n + m) < 65536 -> (2 * (n + m) + 1 < fuel p)%nat ->
  (forall ds w', st w' = st w -> cut size (take n mem ++ replicate m 0) ds -> served (Port NI (p_sent s ++ ds) [] (p_waiting s)) (hist w') -> Q tt w') ->
  wp False (Endpoint_Write_Stream_LE task mem (Z.of_nat n) None;;; Endpoint_Null_Stream (Z.of_nat m) None;;; Endpoint_ClearIN) Q p w.
Proof.
  intros Hs Hsel Ho Hu Hn Hwide Hf HQ.
  assert (forall Q s w, served s (hist w) -> p_sel s = NI -> (forall w', st w' = st w -> served s (hist w') -> Q tt w') -> wp False task Q p w) as Htask'
    by (intros Q' s' w' H1' H2' H3'; apply (Htask Q' s'); [done|by left|done]).
  apply wp_bind, (wp_stream_write p NI NO size Hsize task Htask' ltac:(lia) mem n s); [done|done|done|lia|lia|lia|]. intros x w1 S1 Hs1 _.
  apply wp_bind, (wp_null_stream m _ _ _ Hs1); [by rewrite put_all_sel|lia|lia|]. intros x' w2 S2 Hs2. rewrite <- put_all_app in Hs2.
  destruct (put_all_packets size Hsize (take n mem ++ replicate m 0) s) as (P & cur & Ep & Hc & HP & Hcur & _); [rewrite Ho; cbn; lia|].
  rewrite Ho in Hc. cbn [app] in Hc. rewrite Ep in Hs2. apply (wp_hand_in p NI NO size _ _ _ _ Hs2); [done|]. intros w3 S3 Hs3.
  apply (HQ (P ++ [cur])); [congruence| |].
  - split; [rewrite concat_app; cbn [concat]; by rewrite app_nil_r|]. apply Forall_app. split; [|by apply Forall_singleton].
    eapply Forall_impl; [|exact HP]. intros q Hq. cbn beta in Hq. lia.
  - unfold submit in Hs3. cbn [p_sel p_sent p_open p_waiting] in Hs3. rewrite Hsel, <- app_assoc in Hs3. exact Hs3.
Qed.
End Answers.

Lemma inquiry_facts : length (inquiry_bytes InquiryData) = 36%nat /\ Forall is_u8 (inquiry_bytes InquiryData).
Proof. split; [reflexivity|]. by apply (bool_decide_unpack _). Qed.
Lemma sense_u8 sense : Forall is_u8 (sense_bytes sense).
Proof.
  assert (forall l, Forall is_u8 (u8 <$> l)) as Hf by (intros l; apply Forall_fmap, Forall_forall; intros x _; apply u8_range).
  unfold sense_bytes. repeat (apply Forall_app; split); try apply Hf; repeat (apply Forall_cons; [apply u8_range|]); apply Forall_nil.
Qed.

Lemma loaded_range n off data : Forall is_u8 data -> 0 <= loaded n off data < 256 ^ Z.of_nat n.
Proof.
  intros Hu. unfold loaded. pose proof (of_le_bytes_range (take n (drop off data)) ltac:(by apply Forall_take, Forall_drop)) as Hr.
  split; [lia|]. eapply Z.lt_le_trans; [apply Hr|]. apply Z.pow_le_mono_r; [lia|]. rewrite length_take. lia.
Qed.
Lemma swap_16_range x : 0 <= SwapEndian_16 false x < 65536.
Proof.
  unfold SwapEndian_16. change (swap_bytes 0 1 (le_bytes 2 x)) with [u8 (x / 256); u8 x]. cbn [of_le_bytes].
  pose proof (u8_range x). pose proof (u8_range (x / 256)). unfold is_u8 in *. lia.
Qed.

Section Decoding.
Context {G : Type} `{UsbState G} `{!MsDevice G} `{!MsDeviceOk G} `{!DiskState G} `{!ScsiState G} `{!BootObjectsOk G}.
Context `{AvrOk} `{BootChipOk} (p : platform).
Variables (NI NO : Z) (size : nat).
Context (Hne : NI <> NO) (Hsize : (31 <= size)%nat) (task : M G unit) (uninitialised : nat -> list Z).
Abbreviation served := (served NI NO size p).
Implicit Types (w : world G) (s : port) (g : G).
Context (Htask : forall Q s w, served s (hist w) -> p_sel s = NI \/ p_sel s = NO ->
  (forall w', st w' = st w -> served s (hist w') -> Q tt w') -> wp False task Q p w).

(** The data a command is answered with, and the bytes it accounts for. *)
Definition padded (alloc : Z) (bs : list Z) : list Z * Z :=
  let n := Z.min alloc (Z.of_nat (length bs)) in (take (Z.to_nat n) bs ++ replicate (Z.to_nat (alloc - n)) 0, n).
Definition response (sense : SCSI_Request_Sense_Response_t) (data : list Z) : option (list Z * Z) :=
  let c := loaded 1 0 data in
  if c =? SCSI_CMD_INQUIRY then
    if (Z.land (loaded 1 1 data) 3 =? 0) && (loaded 1 2 data =? 0) then Some (padded (SwapEndian_16 false (loaded 2 3 data)) (inquiry_bytes InquiryData)) else None
  else if c =? SCSI_CMD_REQUEST_SENSE then Some (padded (loaded 1 4 data) (sense_bytes sense))
  else if c =? SCSI_CMD_READ_CAPACITY_10 then Some (be_bytes 4 (LUN_MEDIA_BLOCKS - 1) ++ be_bytes 4 512, 8)
  else if c =? SCSI_CMD_MODE_SENSE_6 then Some (replicate 4 0, 4)
  else None.

(** A padded answer. *)
Lemma wp_padded alloc n bs s Q w : n = Z.min alloc (Z.of_nat (length bs)) -> served s (hist w) -> p_sel s = NI -> p_open s = [] -> Forall is_u8 bs -> 0 <= alloc < 65536 -> 131072 <= Z.of_nat (fuel p) ->
  (forall ds w', st w' = st w -> cut size (padded alloc bs).1 ds -> served (Port NI (p_sent s ++ ds) [] (p_waiting s)) (hist w') -> Q tt w') ->
  wp False (Endpoint_Write_Stream_LE task bs n None;;; Endpoint_Null_Stream (alloc - n) None;;; Endpoint_ClearIN) Q p w.
Proof.
  intros En Hs Hsel Ho Hu Ha Hf HQ. unfold padded in HQ. rewrite <- En in HQ. assert (n <= alloc /\ n <= Z.of_nat (length bs)) as [Hm1 Hm2] by lia.
  assert (0 <= n) as Hn by lia. replace n with (Z.of_nat (Z.to_nat n)) at 1 by lia. replace (alloc - n) with (Z.of_nat (Z.to_nat (alloc - n))) by lia.
  apply (wp_answer p NI NO size ltac:(lia) task Htask bs (Z.to_nat n) (Z.to_nat (alloc - n)) s); [done|done|done|done|lia|lia|lia|exact HQ].
Qed.

Lemma fills_32_be v : fills p NI NO size (Endpoint_Write_32_BE (G := G) v) (be_bytes 4 v).
Proof using H1. clear Hsize Hne Htask.
  assert (be_bytes 4 v = [u8 (Z.shiftr v 24)] ++ [u8 (Z.shiftr v 16)] ++ [u8 (Z.shiftr v 8)] ++ [u8 (Z.land v 0xFF)]) as ->.
  { unfold be_bytes. cbn [le_bytes reverse rev_append app]. rewrite !Z.shiftr_div_pow2 by lia. change 0xFF with 255. rewrite land_255.
    change (2 ^ 24) with (256 * 256 * 256). change (2 ^ 16) with (256 * 256). change (2 ^ 8) with 256. rewrite <- !Z.div_div by lia.
    rewrite (u8_small (u8 v)) by apply u8_range. done. }
  repeat (apply fills_seq; [apply fills_wr|]). apply fills_wr.
Qed.
Lemma fills_32_zero : fills p NI NO size (Endpoint_Write_32_LE (G := G) 0) (replicate 4 0).
Proof using H1. clear Hsize Hne Htask. change (replicate 4 0) with ([u8 (Z.land 0 0xFF)] ++ [u8 (Z.shiftr 0 8)] ++ [u8 (Z.shiftr 0 16)] ++ [u8 (Z.shiftr 0 24)]).
  repeat (apply fills_seq; [apply fills_wr|]). apply fills_wr. Qed.

(** One packet filled and handed over. *)
Lemma wp_packet c bs s Q w : fills p NI NO size c bs -> served s (hist w) -> p_sel s = NI -> p_open s = [] -> (length bs <= size)%nat ->
  (forall w', st w' = st w -> served (Port NI (p_sent s ++ [bs]) [] (p_waiting s)) (hist w') -> Q tt w') ->
  wp False (c;;; Endpoint_ClearIN) Q p w.
Proof using H1. clear Hsize Hne Htask.
  intros Hc Hs Hsel Ho Hl HQ. apply wp_bind, (Hc _ s); [done|done|rewrite Ho; cbn; lia|]. intros w1 S1 Hs1. rewrite Ho in Hs1. cbn [app] in Hs1.
  apply (wp_hand_in p NI NO size _ _ _ _ Hs1); [done|]. intros w2 S2 Hs2. apply HQ; [congruence|].
  unfold submit in Hs2. cbn [with_open p_sel p_sent p_open p_waiting] in Hs2. by rewrite Hsel in Hs2.
Qed.
(** [;;;] associates to the right. *)
Lemma wp_first_three {A B C D} (a : M G A) (b : M G B) (c : M G C) (k : M G D) Q w :
  wp False (a;;; b;;; c) (fun _ w' => wp False k Q p w') p w -> wp False (a;;; b;;; c;;; k) Q p w.
Proof. unfold wp, bind. destruct (a p w) as [? w1| |]; [|done..]. destruct (b p w1) as [? w2| |]; [|done..]. by destruct (c p w2). Qed.
Lemma wp_first_two {A B C} (a : M G A) (b : M G B) (k : M G C) Q w :
  wp False (a;;; b) (fun _ w' => wp False k Q p w') p w -> wp False (a;;; b;;; k) Q p w.
Proof. unfold wp, bind. destruct (a p w) as [? w1| |]; [|done..]. by destruct (b p w1). Qed.
Lemma wp_assoc {A B C} (a : M G A) (b : M G B) (c : M G C) Q w : wp False ((a;;; b);;; c) Q p w -> wp False (a;;; b;;; c) Q p w.
Proof. unfold wp, bind. by destruct (a p w). Qed.
End Decoding.

Section Outcomes.
Context {G : Type} `{UsbState G} `{!MsDevice G} `{!MsDeviceOk G} `{!DiskState G} `{!ScsiState G} `{!BootObjectsOk G}.
Context `{AvrOk} `{BootChipOk} (p : platform).
Variables (NI NO : Z) (size : nat).
Context (Hne : NI <> NO) (Hsize : (31 <= size)%nat) (task : M G unit) (uninitialised : nat -> list Z).
Abbreviation served := (served NI NO size p).
Implicit Types (w : world G) (s : port) (g : G).

(** Why a command is refused: the additional sense code.  Of the address of a transfer
    only the lower half counts. *)
Definition refusal (data : list Z) : option Z :=
  let c := loaded 1 0 data in
  if c =? SCSI_CMD_INQUIRY then
    if negb (Z.land (loaded 1 1 data) 3 =? 0) || negb (loaded 1 2 data =? 0) then Some SCSI_ASENSE_INVALID_FIELD_IN_CDB else None
  else if (c =? SCSI_CMD_WRITE_10) || (c =? SCSI_CMD_READ_10) then
    if LUN_MEDIA_BLOCKS <=? u16 (SwapEndian_32 false (loaded 4 2 data)) then Some SCSI_ASENSE_LOGICAL_BLOCK_ADDRESS_OUT_OF_RANGE else None
  else if bool_decide (c ∈ [SCSI_CMD_REQUEST_SENSE; SCSI_CMD_READ_CAPACITY_10; SCSI_CMD_MODE_SENSE_6; SCSI_CMD_START_STOP_UNIT; SCSI_CMD_SEND_DIAGNOSTIC;
                            SCSI_CMD_TEST_UNIT_READY; SCSI_CMD_PREVENT_ALLOW_MEDIUM_REMOVAL; SCSI_CMD_VERIFY_10]) then None
  else Some SCSI_ASENSE_INVALID_COMMAND.

(** C19: A command the bootloader does not support, an INQUIRY for vital product data,
    or a READ (10) or WRITE (10) whose address, cut to sixteen bits, is behind the
    disk fails at once (an address of 65536 or more whose lower half is on the disk
    does not): no register is accessed, and of the objects only the sense data changes, to ILLEGAL
    REQUEST with the reason. *)
Theorem scsi_refused w reason : refusal (CBW_SCSICommandData (the_block (st w))) = Some reason ->
  SCSI_DecodeSCSICommand task uninitialised p w =
  Done false (World (put_sense (set_sense SCSI_SENSE_KEY_ILLEGAL_REQUEST reason SCSI_ASENSEQ_NO_QUALIFIER (SenseData (st w))) (st w)) (hist w)).
Proof.
  set (data := CBW_SCSICommandData _). intros Hr.
  assert (wp False (SCSI_DecodeSCSICommand task uninitialised) (fun ok w' => ok = false /\ w' =
    World (put_sense (set_sense SCSI_SENSE_KEY_ILLEGAL_REQUEST reason SCSI_ASENSEQ_NO_QUALIFIER (SenseData (st w))) (st w)) (hist w)) p w) as Hwp.
  { unfold SCSI_DecodeSCSICommand. apply wp_bind, wp_command_data. fold data. unfold refusal in Hr. set (c := loaded 1 0 data) in *.
    destruct (Z.eqb_spec c SCSI_CMD_INQUIRY) as [Ec|Ec].
    { destruct (negb _ || negb _) eqn:Eb; [|done]. injection Hr as <-. apply wp_bind. unfold SCSI_Command_Inquiry. apply wp_bind, wp_command_data. fold data.
      change (Z.lor (Z.shiftl 1 0) (Z.shiftl 1 1)) with 3. rewrite Eb. apply wp_bind, wp_modify, wp_ret, wp_ret. done. }
    destruct (Z.eqb_spec c SCSI_CMD_REQUEST_SENSE) as [->|E1]; [by cbn in Hr|]. destruct (Z.eqb_spec c SCSI_CMD_READ_CAPACITY_10) as [->|E2]; [by cbn in Hr|].
    assert (forall b, (LUN_MEDIA_BLOCKS <=? u16 (SwapEndian_32 false (loaded 4 2 data))) = true -> reason = SCSI_ASENSE_LOGICAL_BLOCK_ADDRESS_OUT_OF_RANGE ->
      wp False (SCSI_Command_ReadWrite_10 task uninitialised b) (fun ok w' => wp False (if ok : bool then
        SCSI_SET_SENSE SCSI_SENSE_KEY_GOOD SCSI_ASENSE_NO_ADDITIONAL_INFORMATION SCSI_ASENSEQ_NO_QUALIFIER;;; ret true else ret false)
        (fun ok w' => ok = false /\ w' = World (put_sense (set_sense SCSI_SENSE_KEY_ILLEGAL_REQUEST reason SCSI_ASENSEQ_NO_QUALIFIER (SenseData (st w))) (st w)) (hist w)) p w') p w) as Hrw.
    { intros b Hb ->. unfold SCSI_Command_ReadWrite_10. apply wp_bind, wp_command_data. fold data. rewrite Hb. apply wp_bind, wp_modify, wp_ret, wp_ret. done. }
    destruct (Z.eqb_spec c SCSI_CMD_WRITE_10) as [E3|E3]; [cbn [orb] in Hr; destruct (_ <=? _) eqn:El; [|done]; injection Hr as <-; by apply wp_bind, Hrw|].
    destruct (Z.eqb_spec c SCSI_CMD_READ_10) as [E4|E4]; [cbn [orb] in Hr; destruct (_ <=? _) eqn:El; [|done]; injection Hr as <-; by apply wp_bind, Hrw|].
    cbn [orb] in Hr. case_bool_decide as Hin; [done|]. injection Hr as <-. rewrite !not_elem_of_cons in Hin. destruct Hin as (_ & _ & N1 & N2 & N3 & N4 & N5 & N6 & _).
    rewrite !(proj2 (Z.eqb_neq c _)) by done. cbn [orb]. apply wp_bind, wp_bind, wp_modify, wp_ret, wp_ret. done. }
  unfold wp in Hwp. destruct (SCSI_DecodeSCSICommand _ _ _ _) as [ok w'| |]; [|done|done]. by destruct Hwp as [-> ->].
Qed.

(** The eject command stops the bootloader, a load command keeps it running. *)
Lemma scsi_start_stop Q w : let data := CBW_SCSICommandData (the_block (st w)) in loaded 1 0 data = SCSI_CMD_START_STOP_UNIT ->
  (forall g', succeeded 0 (st w) g' -> the_disk g' = the_disk (st w) -> RunBootloader g' = negb (Z.land (loaded 1 4 data) 0x03 =? 0x02) ->
     Q true (World g' (hist w))) ->
  wp False (SCSI_DecodeSCSICommand task uninitialised) Q p w.
Proof.
  intros data Hc HQ. unfold SCSI_DecodeSCSICommand. apply wp_bind, wp_command_data. fold data. rewrite Hc.
  change (SCSI_CMD_START_STOP_UNIT =? SCSI_CMD_INQUIRY) with false. change (SCSI_CMD_START_STOP_UNIT =? SCSI_CMD_REQUEST_SENSE) with false.
  change (SCSI_CMD_START_STOP_UNIT =? SCSI_CMD_READ_CAPACITY_10) with false. change (SCSI_CMD_START_STOP_UNIT =? SCSI_CMD_WRITE_10) with false.
  change (SCSI_CMD_START_STOP_UNIT =? SCSI_CMD_READ_10) with false. change (SCSI_CMD_START_STOP_UNIT =? SCSI_CMD_MODE_SENSE_6) with false. rewrite Z.eqb_refl.
  apply wp_bind, wp_bind, wp_modify. apply wp_succeed. cbn [st]. set (b := negb _). destruct (bo_put_run b (st w)) as (A1 & A2 & A3).
  intros g' Hg Hd Hr. rewrite bo_run_put in Hr. rewrite A2 in Hd. apply HQ; [|done|done]. unfold succeeded, the_block in *. by rewrite A1, A3 in Hg.
Qed.

Context (Htask : forall Q s w, served s (hist w) -> p_sel s = NI \/ p_sel s = NO ->
  (forall w', st w' = st w -> served s (hist w') -> Q tt w') -> wp False task Q p w) (Hfuel : 131072 <= Z.of_nat (fuel p)).

(** C18: INQUIRY, REQUEST SENSE, READ CAPACITY (10) and MODE SENSE (6) send their data to
    the host, however long the allocation: the packets handed over, as the log of
    register accesses shows them byte by byte, are the answer cut to the endpoint,
    padded with zeros to the allocation length; the command succeeds, and
    the bytes of the answer are taken off the transfer length. *)
Theorem scsi_answers bs moved s w : served s (hist w) -> p_sel s = NI -> p_open s = [] -> Forall is_u8 (the_block (st w)) ->
  length (sense_bytes (SenseData (st w))) = 18%nat -> response (SenseData (st w)) (CBW_SCSICommandData (the_block (st w))) = Some (bs, moved) ->
  wp False (SCSI_DecodeSCSICommand task uninitialised) (fun ok w' => ok = true /\ exists ds, cut size bs ds /\
    handed NI NO size (hist w') = handed NI NO size (hist w) ++ ds /\ served (Port NI (p_sent s ++ ds) [] (p_waiting s)) (hist w') /\
    succeeded (CBW_DataTransferLength (the_block (st w)) - moved) (st w) (st w') /\ the_disk (st w') = the_disk (st w)) p w.
Proof.
  intros Hs Hsel Ho Hu Hlen Hr. set (data := CBW_SCSICommandData (the_block (st w))) in *.
  assert (Forall is_u8 data) as Hud by (by apply Forall_drop). set (Q := fun (ok : bool) w' => _).
  assert (forall ds w1, st w1 = st w -> cut size bs ds -> served (Port NI (p_sent s ++ ds) [] (p_waiting s)) (hist w1) ->
    wp False (mod_length (fun n => n - moved);;; ret true) (fun ok w' => wp False (if ok : bool then
      SCSI_SET_SENSE SCSI_SENSE_KEY_GOOD SCSI_ASENSE_NO_ADDITIONAL_INFORMATION SCSI_ASENSEQ_NO_QUALIFIER;;; ret true else ret false) Q p w') p w1) as Hend.
  { intros ds w1 S1 Hds Hs1. apply wp_succeed. rewrite S1. intros g' Hg Hd _. unfold Q. split; [done|]. exists ds. split_and!; [done| |done|done|done].
    cbn [hist]. by rewrite (served_handed p NI NO _ _ _ Hs1), (served_handed p NI NO _ _ _ Hs). }
  unfold SCSI_DecodeSCSICommand. apply wp_bind, wp_command_data. fold data. unfold response in Hr. set (c := loaded 1 0 data) in *. apply wp_bind.
  pose proof inquiry_facts as [Hil Hiu]. destruct (Z.eqb_spec c SCSI_CMD_INQUIRY) as [Ec|Ec].
  { destruct (_ && _) eqn:Eb; [|done]. apply (inj Some) in Hr. pose proof (f_equal fst Hr) as Hbs. pose proof (f_equal snd Hr) as Hm. unfold padded in Hm. cbn [fst snd] in Hbs, Hm. rewrite Hil in Hm. unfold SCSI_Command_Inquiry. apply wp_bind, wp_command_data. fold data.
    change (Z.lor (Z.shiftl 1 0) (Z.shiftl 1 1)) with 3. apply andb_true_iff in Eb as [-> ->]. cbn [negb orb].
    set (alloc := SwapEndian_16 false (loaded 2 3 data)) in *. change (Z.of_nat 36) with sizeof_InquiryData in Hm. rewrite Hm. apply wp_first_three.
    apply (wp_padded p NI NO size ltac:(lia) task Htask alloc moved (inquiry_bytes InquiryData) s); [by rewrite Hil|done|done|done|done|apply swap_16_range|done|].
    intros ds w1 S1 Hds Hs1. apply (Hend ds); [done|by rewrite <- Hbs|done]. }
  destruct (Z.eqb_spec c SCSI_CMD_REQUEST_SENSE) as [Ec1|Ec1].
  { apply (inj Some) in Hr. pose proof (f_equal fst Hr) as Hbs. pose proof (f_equal snd Hr) as Hm. unfold padded in Hm. cbn [fst snd] in Hbs, Hm. rewrite Hlen in Hm. unfold SCSI_Command_Request_Sense. apply wp_bind, wp_command_data. fold data. apply wp_bind, wp_get.
    set (alloc := loaded 1 4 data) in *. change (Z.of_nat 18) with sizeof_SenseData in Hm. rewrite Hm. apply wp_first_three.
    apply (wp_padded p NI NO size ltac:(lia) task Htask alloc moved (sense_bytes (SenseData (st w))) s); [by rewrite Hlen|done|done|done|apply sense_u8| |done|].
    { pose proof (loaded_range 1 4 data Hud). unfold alloc. lia. }
    intros ds w1 S1 Hds Hs1. apply (Hend ds); [done|by rewrite <- Hbs|done]. }
  assert (forall b, (length b <= size)%nat -> cut size b [b]) as Hone.
  { intros b Hb. split; [cbn; apply app_nil_r|by apply Forall_singleton]. }
  destruct (Z.eqb_spec c SCSI_CMD_READ_CAPACITY_10) as [Ec2|Ec2].
  { assert (bs = be_bytes 4 (LUN_MEDIA_BLOCKS - 1) ++ be_bytes 4 512 /\ moved = 8) as [-> ->] by (split; congruence).
    unfold SCSI_Command_Read_Capacity_10. apply wp_first_three, wp_assoc.
    apply (wp_packet p NI NO size _ (be_bytes 4 (LUN_MEDIA_BLOCKS - 1) ++ be_bytes 4 512) s); [apply fills_seq; apply fills_32_be|done|done|done|cbn; lia|].
    intros w1 S1 Hs1. apply (Hend [be_bytes 4 (LUN_MEDIA_BLOCKS - 1) ++ be_bytes 4 512]); [done|apply Hone; cbn; lia|done]. }
  destruct (Z.eqb_spec c SCSI_CMD_MODE_SENSE_6) as [Ec3|Ec3]; [|done]. assert (bs = replicate 4 0 /\ moved = 4) as [-> ->] by (split; congruence).
  rewrite Ec3. unfold SCSI_Command_ModeSense_6. apply wp_first_two.
  apply (wp_packet p NI NO size _ (replicate 4 0) s); [apply fills_32_zero|done|done|done|cbn; lia|].
  intros w1 S1 Hs1. apply (Hend [replicate 4 0]); [done|apply Hone; cbn; lia|done].
Qed.
End Outcomes.
