(* ===== verification/BootloaderMassStorage.v ===== *)
(** * The mass storage bootloader (Bootloaders/MassStorage/BootloaderMassStorage.c, Descriptors.c)

    The program that owns the interface of the mass storage driver and the virtual
    disk: its descriptors, its events, the callback that executes a command, the
    loop that runs until the disk is ejected, and the check at start that decides
    between the bootloader and the application. *)

From Stdlib Require Import String.
From S2P Require Import Prelude StdDescriptors HIDClass Descriptors Machine HIDParser UsbCore Endpoint EndpointStream DeviceStandardReq StreamTransfers UsbController MemorySafety Endianness MassStorage BulkPort VirtualFAT BootloaderSCSI.

(** ** Descriptors.h, Descriptors.c and LUFAConfig.h *)

Definition MASS_STORAGE_IN_EPADDR : Z := Z.lor ENDPOINT_DIR_IN 3.
Definition MASS_STORAGE_OUT_EPADDR : Z := Z.lor ENDPOINT_DIR_OUT 4.
Definition MASS_STORAGE_IO_EPSIZE : Z := 64.
Definition INTERFACE_ID_MassStorage : Z := 0.
Definition BOOT_CONTROL_ENDPOINT_SIZE : Z := 8.
Definition MS_CSCP_MassStorageClass : Z := 0x08.
Definition MS_CSCP_SCSITransparentSubclass : Z := 0x06.
Definition MS_CSCP_BulkOnlyTransportProtocol : Z := 0x50.

Definition boot_DeviceDescriptor : USB_Descriptor_Device_t := {|
  Device_Header := {| Header_Size := sizeof USB_Descriptor_Device_t; Header_Type := dtype DTYPE_Device |};
  Device_USBSpecification := VERSION_BCD 1 1 0;
  Device_Class := USB_CSCP_NoDeviceClass;
  Device_SubClass := USB_CSCP_NoDeviceSubclass;
  Device_Protocol := USB_CSCP_NoDeviceProtocol;
  Device_Endpoint0Size := BOOT_CONTROL_ENDPOINT_SIZE;
  Device_VendorID := 0x03EB;
  Device_ProductID := 0x2045;
  Device_ReleaseNumber := VERSION_BCD 0 0 1;
  Device_ManufacturerStrIndex := NO_DESCRIPTOR;
  Device_ProductStrIndex := NO_DESCRIPTOR;
  Device_SerialNumStrIndex := NO_DESCRIPTOR;
  Device_NumberOfConfigurations := 1
|}.

Record boot_Configuration_t := {
  Boot_Config : USB_Descriptor_Configuration_Header_t;
  MS_Interface : USB_Descriptor_Interface_t;
  MS_DataInEndpoint : USB_Descriptor_Endpoint_t;
  MS_DataOutEndpoint : USB_Descriptor_Endpoint_t
}.
Definition sizeof_boot_Configuration : Z :=
  sizeof USB_Descriptor_Configuration_Header_t + sizeof USB_Descriptor_Interface_t + sizeof USB_Descriptor_Endpoint_t + sizeof USB_Descriptor_Endpoint_t.
Definition boot_configuration_bytes (c : boot_Configuration_t) : list Z :=
  pack (Boot_Config c) ++ pack (MS_Interface c) ++ pack (MS_DataInEndpoint c) ++ pack (MS_DataOutEndpoint c).

Definition boot_endpoint (EndpointAddress : Z) : USB_Descriptor_Endpoint_t := {|
  Endpoint_Header := {| Header_Size := sizeof USB_Descriptor_Endpoint_t; Header_Type := dtype DTYPE_Endpoint |};
  Endpoint_EndpointAddress := EndpointAddress;
  Endpoint_Attributes := Z.lor (Z.lor EP_TYPE_BULK ENDPOINT_ATTR_NO_SYNC) ENDPOINT_USAGE_DATA;
  Endpoint_EndpointSize := MASS_STORAGE_IO_EPSIZE;
  Endpoint_PollingIntervalMS := 0x05
|}.
Definition boot_ConfigurationDescriptor : boot_Configuration_t := {|
  Boot_Config := {|
    Config_Header := {| Header_Size := sizeof USB_Descriptor_Configuration_Header_t; Header_Type := dtype DTYPE_Configuration |};
    Config_TotalConfigurationSize := sizeof_boot_Configuration;
    Config_TotalInterfaces := 1;
    Config_ConfigurationNumber := 1;
    Config_ConfigurationStrIndex := NO_DESCRIPTOR;
    Config_ConfigAttributes := USB_CONFIG_ATTR_RESERVED;
    Config_MaxPowerConsumption := USB_CONFIG_POWER_MA 100 |};
  MS_Interface := {|
    Interface_Header := {| Header_Size := sizeof USB_Descriptor_Interface_t; Header_Type := dtype DTYPE_Interface |};
    Interface_InterfaceNumber := INTERFACE_ID_MassStorage;
    Interface_AlternateSetting := 0;
    Interface_TotalEndpoints := 2;
    Interface_Class := MS_CSCP_MassStorageClass;
    Interface_SubClass := MS_CSCP_SCSITransparentSubclass;
    Interface_Protocol := MS_CSCP_BulkOnlyTransportProtocol;
    Interface_InterfaceStrIndex := NO_DESCRIPTOR |};
  MS_DataInEndpoint := boot_endpoint MASS_STORAGE_IN_EPADDR;
  MS_DataOutEndpoint := boot_endpoint MASS_STORAGE_OUT_EPADDR
|}.

(** The bytes at the address and the size; a null address has none. *)
Definition boot_GetDescriptor (wValue wIndex : Z) : list Z * Z :=
  let DescriptorType := u8 (Z.shiftr wValue 8) in
  if DescriptorType =? dtype DTYPE_Device then (pack boot_DeviceDescriptor, sizeof USB_Descriptor_Device_t)
  else if DescriptorType =? dtype DTYPE_Configuration then (boot_configuration_bytes boot_ConfigurationDescriptor, sizeof_boot_Configuration)
  else ([], NO_DESCRIPTOR).

(** ** BootloaderMassStorage.h and the objects of BootloaderMassStorage.c *)

Definition MAGIC_BOOT_KEY : Z := 0xDC42.
Definition Disk_MS_Interface : USB_ClassInfo_MS_Device_t :=
  MsInfo (MsConfig INTERFACE_ID_MassStorage (EndpointEntry MASS_STORAGE_IN_EPADDR MASS_STORAGE_IO_EPSIZE 0 1)
            (EndpointEntry MASS_STORAGE_OUT_EPADDR MASS_STORAGE_IO_EPSIZE 0 1) 1)
    (MsState (replicate 31 0) (CSW 0 0 0 0) false).

Class BootState (G : Type) := {
  TicksSinceLastCommand : G -> Z;
  put_ticks : Z -> G -> G;
  MagicBootKey : G -> Z;
  put_key : Z -> G -> G
}.

Section Program.
Context {G : Type} `{UsbState G} `{MsDevice G} `{DiskState G} `{ScsiState G} `{BootState G} `{Avr} `{BootChip}.
(** The board's LEDs, and avr-libc. *)
Variables LEDS_LED1 LEDS_LED2 LEDS_LED3 LEDS_LED4 : Z.
Variable LEDs_SetAllLEDs : Z -> M G unit.
Variable boot_lock_fuse_bits_get : M G Z.
Variables wdt_disable wdt_enable_250ms : M G unit.
Variables FUSE_BOOTRST EXTRF : Z.
Variable boot_signature_byte_get : Z -> Z.
(** The contents of an uninitialised array. *)
Variable uninitialised : nat -> list Z.

Definition LEDMASK_USB_NOTREADY : Z := LEDS_LED1.
Definition LEDMASK_USB_ENUMERATING : Z := Z.lor LEDS_LED2 LEDS_LED3.
Definition LEDMASK_USB_READY : Z := Z.lor LEDS_LED2 LEDS_LED4.
Definition LEDMASK_USB_ERROR : Z := Z.lor LEDS_LED1 LEDS_LED3.
Definition LEDMASK_USB_BUSY : Z := LEDS_LED2.

Definition boot_Connect : M G unit := LEDs_SetAllLEDs LEDMASK_USB_ENUMERATING.
Definition boot_Disconnect : M G unit := LEDs_SetAllLEDs LEDMASK_USB_NOTREADY.
Definition boot_ConfigurationChanged : M G unit :=
  ConfigSuccess <- MS_Device_ConfigureEndpoints;;
  LEDs_SetAllLEDs (if ConfigSuccess : bool then LEDMASK_USB_READY else LEDMASK_USB_ERROR).
Definition boot_ControlRequest : M G unit := MS_Device_ProcessControlRequest.

#[local] Instance boot_app : UsbApplication G := {|
  EVENT_USB_Device_ControlRequest := boot_ControlRequest;
  EVENT_USB_Device_ConfigurationChanged := boot_ConfigurationChanged;
  EVENT_USB_Device_Connect := boot_Connect;
  EVENT_USB_Device_Disconnect := boot_Disconnect;
  EVENT_USB_Device_Reset := USB_Event_Stub;
  EVENT_USB_Device_Suspend := USB_Event_Stub;
  EVENT_USB_Device_WakeUp := USB_Event_Stub;
  EVENT_USB_Device_StartOfFrame := USB_Event_Stub;
  GetDescriptor := boot_GetDescriptor
|}.
Definition boot_task : M G unit := USB_USBTask boot_signature_byte_get.
(** The bootloader is built with INTERRUPT_CONTROL_ENDPOINT: between two packets the
    streams and the driver do not call the management task. *)
Definition between_packets : M G unit := ret tt.

Definition boot_command : M G bool :=
  LEDs_SetAllLEDs LEDMASK_USB_BUSY;;;
  CommandSuccess <- SCSI_DecodeSCSICommand between_packets uninitialised;;
  LEDs_SetAllLEDs LEDMASK_USB_READY;;;
  mmodify (put_ticks 0);;;
  ret CommandSuccess.

(** The condition of the loop, with the increment it contains. *)
Definition keep_running : M G bool :=
  g <- mget;;
  if RunBootloader g then ret true else
  mmodify (put_ticks (u8 (TicksSinceLastCommand g + 1)));;;
  ret (TicksSinceLastCommand g <? 0xFF).
Definition main_loop : M G unit :=
  while_ (fun _ : unit =>
    go <- keep_running;;
    if go then
      MS_Device_USBTask boot_command between_packets;;;
      boot_task;;;
      ret (inl tt)
    else ret (inr tt)) tt.
(** From the end of the loop to the endless wait for the watchdog. *)
Definition main_exit : M G unit :=
  USB_Detach;;;
  mmodify (put_key MAGIC_BOOT_KEY);;;
  wdt_enable_250ms.

(** [pgm_read_word_near(0)]. *)
Definition reset_vector (g : G) : option Z :=
  low ← pgm_read_byte 0 (memory (the_disk g)); high ← pgm_read_byte 1 (memory (the_disk g)); Some (Z.lor (Z.shiftl high 8) low).

(** Whether the application is started, for a board without a pin of its own. *)
Definition Application_Jump_Check : M G bool :=
  fuses <- boot_lock_fuse_bits_get;;
  JumpToApplication <- (
    if negb (Z.land fuses FUSE_BOOTRST =? 0) then
      external <- reg_bit MCUSR EXTRF;;
      g <- mget;;
      reg_andn MCUSR EXTRF;;;
      ret (negb external || (MagicBootKey g =? MAGIC_BOOT_KEY))
    else
      watchdog <- reg_bit MCUSR WDRF;;
      g <- mget;;
      reg_andn MCUSR WDRF;;;
      ret (watchdog && (MagicBootKey g =? MAGIC_BOOT_KEY)));;
  g <- mget;;
  word <- mlift (reset_vector g);;
  let ApplicationValid := negb (word =? 0xFFFF) in
  if JumpToApplication && ApplicationValid then
    reg_andn MCUSR WDRF;;;
    wdt_disable;;;
    mmodify (put_key 0);;;
    ret true
  else ret false.
End Program.

(** ** The commands of a host *)

Definition eject (tag : Z) : list Z := command_block tag 0 0 [SCSI_CMD_START_STOP_UNIT; 0; 0; 0; 0x02; 0].

Lemma write_blocks_app `{BootChip} ws ws' d : write_blocks (ws ++ ws') d = (d' ← write_blocks ws d; write_blocks ws' d').
Proof. revert d. induction ws as [|[b bs] ws IH]; intros d; [done|]. cbn [app write_blocks]. destruct (disk_write b bs d); [apply IH|done]. Qed.

Section Taken.
Context {G : Type} `{UsbState G} `{!MsDevice G} `{!MsDeviceOk G}.
Implicit Types g : G.

(** What the driver left in the command block of a command with [L] bytes. *)
Lemma taken_members bytes g (L : nat) : length bytes = 31%nat -> length (the_block g) = 31%nat -> CBW_SCSICommandLength bytes = Z.of_nat L -> (L <= 16)%nat ->
  let cb := the_block (taken_block bytes g) in
  length cb = 31%nat /\ CBW_Tag cb = CBW_Tag bytes /\ CBW_DataTransferLength cb = CBW_DataTransferLength bytes /\
  forall n off, (off + n <= L)%nat -> loaded n off (CBW_SCSICommandData cb) = loaded n off (CBW_SCSICommandData bytes).
Proof.
  intros Hl Hg HL Hle cb. assert (cb = take (15 + L) bytes ++ drop (15 + L) (the_block g)) as Ecb.
  { unfold cb, the_block, taken_block. rewrite with_block_block, HL, Nat2Z.id. unfold patch. rewrite take_0, app_nil_l. do 2 f_equal. rewrite length_take. lia. }
  assert (forall a n, (a + n <= 15 + L)%nat -> take n (drop a cb) = take n (drop a bytes)) as Hpart.
  { intros a n Ha. rewrite Ecb, drop_app_le by (rewrite length_take; lia). rewrite take_app_le by (rewrite length_drop, length_take; lia).
    rewrite skipn_firstn_comm, take_take. f_equal. lia. }
  split_and!.
  - rewrite Ecb, length_app, length_take, length_drop. lia.
  - unfold CBW_Tag. by rewrite Hpart by lia.
  - unfold CBW_DataTransferLength. by rewrite Hpart by lia.
  - intros n off Hn. unfold loaded, CBW_SCSICommandData. rewrite !drop_drop. by rewrite Hpart by lia.
Qed.

(** The status of a command block with another length. *)
Lemma status_set_length v cb ok : (12 <= length cb)%nat -> status_of (set_length v cb) ok =
  CSW MS_CSW_SIGNATURE (CBW_Tag cb) (u32 v) (if ok then MS_SCSI_COMMAND_Pass else MS_SCSI_COMMAND_Fail).
Proof.
  intros Hl. unfold status_of. f_equal.
  - unfold CBW_Tag, set_length, patch. rewrite drop_app_le by (rewrite length_take; lia). rewrite take_app_le by (rewrite length_drop, length_take; lia).
    rewrite skipn_firstn_comm, take_take. done.
  - unfold CBW_DataTransferLength, set_length, patch. rewrite drop_app_length' by (rewrite length_take; lia).
    rewrite take_app_length' by (by rewrite le_bytes_length). apply of_le_bytes_le. pose proof (u32_range v). unfold is_u32 in *. lia.
Qed.
Lemma set_length_length v cb : (12 <= length cb)%nat -> length (set_length v cb) = length cb.
Proof. intros Hl. unfold set_length. rewrite patch_length; rewrite ?le_bytes_length; lia. Qed.
End Taken.

(** The members of the commands. *)
Lemma rw10_members opcode tag lba n flags : is_u8 opcode -> 0 <= tag < 2 ^ 32 -> 0 <= lba < 2 ^ 32 -> 0 <= n < 2 ^ 16 -> is_u8 flags ->
  let bytes := command_block tag (n * 512) flags (rw10 opcode lba n) in
  length bytes = 31%nat /\ Forall is_u8 bytes /\ CBW_Tag bytes = tag /\ CBW_DataTransferLength bytes = n * 512 /\ CBW_Flags bytes = flags /\
  CBW_SCSICommandLength bytes = 10 /\ (flags = 0 \/ flags = 0x80 -> block_refused 1 bytes = false) /\ is_rw10 opcode lba n (CBW_SCSICommandData bytes).
Proof.
  intros Hop Ht Hlba Hn Hf bytes.
  assert (Forall is_u8 (rw10 opcode lba n)) as Hu.
  { unfold rw10, be_bytes. apply Forall_app. split; [repeat (apply Forall_cons; [unfold is_u8 in *; lia|]); apply Forall_nil|].
    apply Forall_app. split; [apply Forall_reverse, le_bytes_u8|]. apply Forall_app. split; [apply Forall_singleton; unfold is_u8; lia|].
    apply Forall_app. split; [apply Forall_reverse, le_bytes_u8|apply Forall_singleton; unfold is_u8; lia]. }
  destruct (command_block_members tag (n * 512) flags (rw10 opcode lba n)) as (E1 & E2 & E3 & E4 & E5 & E6 & E7 & E8 & E9); [cbn; lia|done|lia|done|done|].
  fold bytes in E1, E2, E3, E4, E5, E6, E7, E8, E9. change (Z.of_nat (length (rw10 opcode lba n))) with 10 in E8. split_and!; try done.
  - intros Hfl. unfold block_refused. rewrite E3, E6, E7, E8. by destruct Hfl as [-> | ->].
  - rewrite E9. split_and!.
    + change (of_le_bytes [opcode] = opcode). cbn [of_le_bytes]. lia.
    + change (SwapEndian_32 false (of_le_bytes (be_bytes 4 lba)) = lba). by apply swap_32.
    + change (SwapEndian_16 false (of_le_bytes (be_bytes 2 n)) = n). by apply swap_16.
Qed.

Class BootStateOk (G : Type) `{UsbState G} `{MsDevice G} `{DiskState G} `{ScsiState G} `{BootState G} : Prop := {
  ticks_put t g : TicksSinceLastCommand (put_ticks t g) = t;
  ticks_put_ms i g : TicksSinceLastCommand (put_ms i g) = TicksSinceLastCommand g;
  bs_put_ticks t g : ms (put_ticks t g) = ms g /\ the_disk (put_ticks t g) = the_disk g /\ SenseData (put_ticks t g) = SenseData g /\
    RunBootloader (put_ticks t g) = RunBootloader g;
  key_put k g : MagicBootKey (put_key k g) = k;
  disk_put_key k g : the_disk (put_key k g) = the_disk g
}.

Section Loop.
Context {G : Type} `{UsbState G} `{!MsDevice G} `{!MsDeviceOk G} `{!DiskState G} `{!ScsiState G} `{!BootState G} `{!BootObjectsOk G} `{!BootStateOk G}.
Context `{AvrOk} `{BootChipOk} (p : platform).
Variables LEDS_LED1 LEDS_LED2 LEDS_LED3 LEDS_LED4 : Z.
Variable LEDs_SetAllLEDs : Z -> M G unit.
Variable boot_signature_byte_get : Z -> Z.
Variable uninitialised : nat -> list Z.
Abbreviation served := (served 3 4 64 p).
Abbreviation boot_task := (boot_task LEDS_LED1 LEDS_LED2 LEDS_LED3 LEDS_LED4 LEDs_SetAllLEDs boot_signature_byte_get).
Abbreviation boot_command := (boot_command LEDS_LED2 LEDS_LED4 LEDs_SetAllLEDs uninitialised).
Abbreviation main_loop := (main_loop LEDS_LED1 LEDS_LED2 LEDS_LED3 LEDS_LED4 LEDs_SetAllLEDs boot_signature_byte_get uninitialised).
Implicit Types (w : world G) (s : port) (g : G).

(** The board's LEDs are other registers; stalls are cleared by the host. *)
Context (Hleds : forall m Q s w, served s (hist w) -> (forall w', st w' = st w -> served s (hist w') -> Q tt w') -> wp False (LEDs_SetAllLEDs m) Q p w).
Context (Hstall : forall h, bit_tst (reg_wrap UECONX (respond p h UECONX)) STALLRQ = false).
Context (Huninit : forall n, length (uninitialised n) = n) (Hfuel : (1026 <= fuel p)%nat).

Lemma lun_blocks : 32 <= LUN_MEDIA_BLOCKS < 65536.
Proof using H3. clear Hfuel. pose proof sectors_small. unfold LUN_MEDIA_BLOCKS. lia. Qed.

Lemma boot_task_served Q s w : served s (hist w) -> p_sel s = 3 \/ p_sel s = 4 ->
  (forall w', st w' = st w -> served s (hist w') -> Q tt w') -> wp False boot_task Q p w.
Proof. intros Hs Hsel HQ. unfold BootloaderMassStorage.boot_task. apply (wp_task_served p 3 4 64) with (s := s); [done|clear -Hsel; lia|done]. Qed.

Lemma between_served Q s w : served s (hist w) -> p_sel s = 3 \/ p_sel s = 4 ->
  (forall w', st w' = st w -> served s (hist w') -> Q tt w') -> wp False between_packets Q p w.
Proof. intros Hs _ HQ. by apply wp_ret, HQ. Qed.

(** The objects between two commands. *)
Definition ready_for g : Prop :=
  endpoints_are 3 4 g /\ TotalLUNs (MS_Config (ms g)) = 1 /\ length (the_block g) = 31%nat /\ IsMassStoreReset (MS_State (ms g)) = false /\
  disk_ok (the_disk g) /\ disk_u8 (the_disk g).

(** The callback around the command. *)
Lemma wp_boot_command s Q w : served s (hist w) ->
  (forall w1, st w1 = st w -> served s (hist w1) -> wp False (SCSI_DecodeSCSICommand between_packets uninitialised)
     (fun ok w2 => exists s2, served s2 (hist w2) /\ forall w3, st w3 = put_ticks 0 (st w2) -> served s2 (hist w3) -> Q ok w3) p w1) ->
  wp False boot_command Q p w.
Proof.
  intros Hs Hc. unfold BootloaderMassStorage.boot_command. apply wp_bind, (Hleds _ _ s); [done|]. intros w1 S1 Hs1. apply wp_bind. eapply wp_mono; [by apply Hc|]. cbv beta.
  intros ok w2 (s2 & Hs2 & HQ). apply wp_bind, (Hleds _ _ s2); [done|]. intros w3 S3 Hs3. apply wp_bind, wp_modify, wp_ret.
  apply HQ; [cbn [st]; by rewrite S3|done].
Qed.

(** After a command that succeeded, and its status. *)
Lemma after_success bytes (L : nat) len g g2 : ready_for g -> length bytes = 31%nat -> CBW_SCSICommandLength bytes = Z.of_nat L -> (L <= 16)%nat ->
  succeeded len (taken_block bytes g) g2 -> disk_ok (the_disk g2) -> disk_u8 (the_disk g2) ->
  let c := status_of (the_block g2) true in let g3 := with_status c (put_ticks 0 g2) in
  c = CSW MS_CSW_SIGNATURE (CBW_Tag bytes) (u32 len) MS_SCSI_COMMAND_Pass /\
  MS_Config (ms g2) = MS_Config (ms g) /\ IsMassStoreReset (MS_State (ms g2)) = false /\
  ready_for g3 /\ the_disk g3 = the_disk g2 /\ RunBootloader g3 = RunBootloader g2 /\ TicksSinceLastCommand g3 = 0.
Proof.
  intros (He & Hlun & Hlb & Hres & _ & _) Hl HL HL16 (Hms & _) Hd Hu c g3. destruct (taken_members bytes g L Hl Hlb HL HL16) as (T1 & T2 & _ & _).
  assert (MS_Config (ms g2) = MS_Config (ms g)) as Hcfg by (rewrite Hms; cbn [MS_Config]; apply taken_config).
  assert (the_block g2 = set_length len (the_block (taken_block bytes g))) as Hblk by (unfold the_block at 1; by rewrite Hms).
  assert (IsMassStoreReset (MS_State (ms g2)) = false) as Hrs.
  { rewrite Hms. cbn [MS_State set_block IsMassStoreReset]. unfold taken_block, with_block. by rewrite ms_put. }
  destruct (bs_put_ticks 0 g2) as (A1 & A2 & A3 & A4). set (i := MsInfo (MS_Config (ms (put_ticks 0 g2))) (set_status c (MS_State (ms (put_ticks 0 g2))))) in *.
  destruct (bo_put_ms i (put_ticks 0 g2)) as (B1 & B2 & B3). change g3 with (put_ms i (put_ticks 0 g2)).
  split_and!; [|done|done| |by rewrite B1|by rewrite B3|by rewrite ticks_put_ms, ticks_put].
  - unfold c. rewrite Hblk, status_set_length by lia. by rewrite T2.
  - unfold ready_for, endpoints_are, out_ep, in_ep, the_block. rewrite ms_put, B1, A2. unfold i. rewrite A1. cbn [MS_Config MS_State set_status CommandBlock IsMassStoreReset].
    rewrite Hcfg. fold (the_block g2). rewrite Hblk, set_length_length by lia. unfold endpoints_are, out_ep, in_ep in He. destruct He. by split_and!.
Qed.

Definition passed (tag : Z) : list Z := pack (CSW MS_CSW_SIGNATURE tag 0 MS_SCSI_COMMAND_Pass).
Abbreviation disk_task := (MS_Device_USBTask boot_command between_packets).

(** The premises of a turn of the driver. *)
Lemma wp_turn bytes ps s Q w : served s (hist w) -> ready_for (st w) -> p_open s = [] -> p_waiting s = bytes :: ps ->
  length bytes = 31%nat -> Forall is_u8 bytes -> block_refused 1 bytes = false ->
  (forall w1, st w1 = taken_block bytes (st w) -> served (data_endpoint 3 4 bytes (Port 4 (p_sent s) [] ps)) (hist w1) ->
     wp False (SCSI_DecodeSCSICommand between_packets uninitialised) (fun ok w2 => exists s2, served s2 (hist w2) /\ p_open s2 = [] /\
       MS_Config (ms (st w2)) = MS_Config (ms (st w)) /\ IsMassStoreReset (MS_State (ms (st w2))) = false /\
       let c := status_of (the_block (st w2)) ok in
       forall w3, st w3 = with_status c (put_ticks 0 (st w2)) -> served (Port 3 (p_sent s2 ++ [pack c]) [] (p_waiting s2)) (hist w3) -> Q tt w3) p w1) ->
  wp False disk_task Q p w.
Proof.
  intros Hs (He & Hlun & Hlb & Hres & _) Ho Hw Hl Hu Href Hc.
  apply (wp_cycle p 3 4 64 ltac:(lia) ltac:(lia) between_packets boot_command Hstall Hfuel bytes ps s); [done|done|done|done|done|done|done|by rewrite Hlun|].
  intros w1 S1 Hs1. apply (wp_boot_command _ _ _ Hs1). intros w2 S2 Hs2. eapply wp_mono; [apply Hc; [congruence|done]|]. cbv beta.
  intros ok w3 (s3 & Hs3 & Ho3 & Hcfg & Hrs & HQ). exists s3. split; [done|]. intros w4 S4 Hs4. exists s3. rewrite S4.
  destruct (bs_put_ticks 0 (st w3)) as (A1 & _). unfold the_block in HQ. rewrite A1. split_and!; try done.
Qed.

(** C16: READ (10) as the host sees it: one turn of the driver, with the callback of
    the bootloader, hands over, as the log of register accesses shows byte by byte,
    the blocks of the disk in packets of the endpoint, and a status block that carries
    the tag, with nothing left to transfer and the command passed.  Only the lower
    half of the address counts, so that an address of 65536 or more may be served
    from the start of the disk; the disk and the other packets of the host are as before. *)
Theorem read10_served tag lba (n : nat) ps s w : served s (hist w) -> ready_for (st w) -> p_open s = [] -> p_waiting s = read10 tag lba (Z.of_nat n) :: ps ->
  0 <= tag < 2 ^ 32 -> 0 <= lba < 2 ^ 32 -> u16 lba < LUN_MEDIA_BLOCKS -> Z.of_nat n < 2 ^ 16 ->
  wp False disk_task (fun _ w' => exists ds, cut 64 (blocks_read (u16 lba) 0 n (the_disk (st w))) ds /\
    handed 3 4 64 (hist w') = handed 3 4 64 (hist w) ++ ds ++ [passed tag] /\
    served (Port 3 (p_sent s ++ ds ++ [passed tag]) [] ps) (hist w') /\ ready_for (st w') /\ the_disk (st w') = the_disk (st w)) p w.
Proof.
  intros Hs Hrd Ho Hw Ht Hlba Hin Hn.
  destruct (rw10_members SCSI_CMD_READ_10 tag lba (Z.of_nat n) 0x80) as (E1 & E2 & E3 & E4 & E5 & E6 & E7 & Hop & Hl & Hc);
    [unfold is_u8, SCSI_CMD_READ_10; lia|done|lia|lia|unfold is_u8; lia|].
  fold (read10 tag lba (Z.of_nat n)) in E1, E2, E3, E4, E5, E6, E7, Hop, Hl, Hc. set (bytes := read10 tag lba (Z.of_nat n)) in *.
  pose proof Hrd as (_ & _ & Hlb & _ & Hd & Hdu).
  destruct (taken_members bytes (st w) 10 E1 Hlb E6 ltac:(lia)) as (T1 & T2 & T3 & T4).
  assert (the_disk (taken_block bytes (st w)) = the_disk (st w)) as Etd by (unfold taken_block, with_block; apply bo_put_ms).
  apply (wp_turn bytes ps s); [done|done|done|done|done|done|apply E7; by right|]. intros w1 S1 Hs1.
  unfold data_endpoint in Hs1. rewrite E5 in Hs1. change (Z.land 0x80 MS_COMMAND_DIR_DATA_IN =? 0) with false in Hs1. cbn [selecting p_sent p_open p_waiting] in Hs1.
  apply (wp_decode_read10 p 3 4 64 ltac:(lia) between_packets uninitialised between_served Hfuel lba n _ _ _ Hs1);
    rewrite ?S1, ?Etd; try (done || lia).
  { split_and!; rewrite T4 by lia; done. }
  cbn [p_sent p_waiting]. intros ds w2 Hsucc Hdisk Hrun Hds Hs2.
  destruct (after_success bytes 10 _ (st w) (st w2) Hrd E1 E6 ltac:(lia) Hsucc) as (F1 & F2 & F3 & F4 & F5 & _); [by rewrite Hdisk|by rewrite Hdisk|].
  rewrite T3, E4, Z.sub_diag, E3 in F1. eexists. split; [exact Hs2|]. split_and!; [done|done|done|]. intros w3 S3 Hs3. exists ds. split; [done|].
  cbn [p_sent p_waiting] in Hs3. rewrite S3, F5, Hdisk. rewrite F1, <- app_assoc in Hs3. fold (passed tag) in Hs3.
  split_and!; [|exact Hs3|done|done]. by rewrite (served_handed p 3 4 _ _ _ Hs3), (served_handed p 3 4 _ _ _ Hs).
Qed.

Lemma write10_served tag lba pss rest s Q w : let n := Z.of_nat (length pss) in
  served s (hist w) -> ready_for (st w) -> p_open s = [] -> p_waiting s = write10 tag lba n :: concat pss ++ rest -> Forall block_packets pss ->
  0 <= tag < 2 ^ 32 -> 0 <= lba < LUN_MEDIA_BLOCKS -> n < 2 ^ 16 ->
  (forall w', served (Port 3 (p_sent s ++ [passed tag]) [] rest) (hist w') -> ready_for (st w') ->
     write_blocks (blocks_sent lba 0 pss) (the_disk (st w)) = Some (the_disk (st w')) -> RunBootloader (st w') = RunBootloader (st w) -> Q tt w') ->
  wp False disk_task Q p w.
Proof.
  intros n Hs Hrd Ho Hw Hps Ht Hlba Hn HQ. pose proof lun_blocks as Hlun.
  destruct (rw10_members SCSI_CMD_WRITE_10 tag lba n 0) as (E1 & E2 & E3 & E4 & E5 & E6 & E7 & Hop & Hl & Hc);
    [unfold is_u8, SCSI_CMD_WRITE_10; lia|done|lia|lia|unfold is_u8; lia|].
  fold (write10 tag lba n) in E1, E2, E3, E4, E5, E6, E7, Hop, Hl, Hc. set (bytes := write10 tag lba n) in *.
  pose proof Hrd as (_ & _ & Hlb & _ & Hd & Hdu). destruct (taken_members bytes (st w) 10 E1 Hlb E6 ltac:(lia)) as (T1 & T2 & T3 & T4).
  destruct (bo_put_ms (MsInfo (MS_Config (ms (st w))) (set_block (patch 0 (take (15 + Z.to_nat (CBW_SCSICommandLength bytes)) bytes) (the_block (st w))) (MS_State (ms (st w))))) (st w))
    as (Etd & _ & Erun). fold (with_block (patch 0 (take (15 + Z.to_nat (CBW_SCSICommandLength bytes)) bytes) (the_block (st w))) (st w)) in Etd, Erun.
  change (the_disk (taken_block bytes (st w)) = the_disk (st w)) in Etd. change (RunBootloader (taken_block bytes (st w)) = RunBootloader (st w)) in Erun.
  apply (wp_turn bytes (concat pss ++ rest) s); [done|done|done|done|done|done|apply E7; by left|]. intros w1 S1 Hs1.
  unfold data_endpoint in Hs1. rewrite E5 in Hs1. change (Z.land 0 MS_COMMAND_DIR_DATA_IN =? 0) with true in Hs1. cbn [selecting p_sent p_open p_waiting] in Hs1.
  apply (wp_decode_write10 p 3 4 64 ltac:(lia) ltac:(lia) between_packets uninitialised between_served Huninit Hfuel lba pss rest _ _ _ Hs1);
    rewrite ?S1, ?Etd; try (done || lia).
  { split_and!; rewrite T4 by lia; done. }
  cbn [p_sent p_open]. intros d' w2 Hsucc Hwb Hd' Hu' Edisk Hrun Hs2.
  destruct (after_success bytes 10 _ (st w) (st w2) Hrd E1 E6 ltac:(lia) Hsucc) as (F1 & F2 & F3 & F4 & F5 & F6 & _); [by rewrite Edisk|by rewrite Edisk|].
  rewrite T3, E4, Z.sub_diag, E3 in F1. eexists. split; [exact Hs2|]. split_and!; [done|done|done|]. intros w3 S3 Hs3. cbn [p_sent p_waiting] in Hs3.
  rewrite F1 in Hs3. apply HQ; [done|by rewrite S3|rewrite S3, F5, Edisk; exact Hwb|by rewrite S3, F6, Hrun].
Qed.

Lemma eject_served tag rest s Q w : served s (hist w) -> ready_for (st w) -> p_open s = [] -> p_waiting s = eject tag :: rest -> 0 <= tag < 2 ^ 32 ->
  (forall w', served (Port 3 (p_sent s ++ [passed tag]) [] rest) (hist w') -> ready_for (st w') -> the_disk (st w') = the_disk (st w) ->
     RunBootloader (st w') = false -> TicksSinceLastCommand (st w') = 0 -> Q tt w') ->
  wp False disk_task Q p w.
Proof.
  intros Hs Hrd Ho Hw Ht HQ.
  destruct (command_block_members tag 0 0 [SCSI_CMD_START_STOP_UNIT; 0; 0; 0; 0x02; 0]) as (E1 & E2 & E3 & E4 & E5 & E6 & E7 & E8 & E9);
    [cbn; lia|done|lia|unfold is_u8; lia|by apply (bool_decide_unpack _)|].
  fold (eject tag) in E1, E2, E3, E4, E5, E6, E7, E8, E9. set (bytes := eject tag) in *. change (Z.of_nat (length _)) with (Z.of_nat 6) in E8.
  pose proof Hrd as (_ & _ & Hlb & _ & Hd & Hdu). destruct (taken_members bytes (st w) 6 E1 Hlb E8 ltac:(lia)) as (T1 & T2 & T3 & T4).
  assert (the_disk (taken_block bytes (st w)) = the_disk (st w)) as Etd by (unfold taken_block, with_block; apply bo_put_ms).
  apply (wp_turn bytes rest s); [done|done|done|done|done|done| |].
  { unfold block_refused. by rewrite E3, E6, E7, E8. }
  intros w1 S1 Hs1. unfold data_endpoint in Hs1. rewrite E6 in Hs1. change (Z.land 0 MS_COMMAND_DIR_DATA_IN =? 0) with true in Hs1. cbn [selecting p_sent p_open p_waiting] in Hs1.
  apply scsi_start_stop; rewrite S1; [rewrite T4 by lia; by rewrite E9|].
  intros g' Hsucc Hdisk Hrun. rewrite Etd in Hdisk. rewrite T4, E9 in Hrun by lia.
  destruct (after_success bytes 6 _ (st w) g' Hrd E1 E8 ltac:(lia) Hsucc) as (F1 & F2 & F3 & F4 & F5 & F6 & F7); [by rewrite Hdisk|by rewrite Hdisk|].
  rewrite E4 in F1. cbn [st hist]. eexists. split; [exact Hs1|]. split_and!; [done|done|done|]. intros w3 S3 Hs3. cbn [p_sent p_waiting] in Hs3.
  rewrite F1 in Hs3. apply HQ; [done|by rewrite S3|by rewrite S3, F5, Hdisk|by rewrite S3, F6, Hrun|by rewrite S3].
Qed.

(** Nothing waits: the driver looks at the endpoint and leaves. *)
Lemma idle_served s Q w : served s (hist w) -> ready_for (st w) -> p_waiting s = [] ->
  (forall w', st w' = st w -> served (selecting 4 s) (hist w') -> Q tt w') -> wp False disk_task Q p w.
Proof.
  intros Hs (He & _ & _ & Hres & _) Hw HQ. unfold MS_Device_USBTask, is_DeviceState.
  apply wp_bind, wp_bind, (wp_look p 3 4 64 _ _ s); [done|done|]. intros w1 S1 Hs1. apply wp_ret.
  destruct (served_now p 3 4 64 _ _ Hs) as (-> & _). rewrite Z.eqb_refl. cbn [negb].
  apply wp_bind, (wp_to_out p 3 4 64 _ s); [done|by rewrite S1|]. intros w2 S2 Hs2.
  apply wp_bind, (wp_out p 3 4 64 _ (selecting 4 s)); [done|done|]. intros w3 S3 Hs3. change (p_waiting (selecting 4 s)) with (p_waiting s). rewrite Hw.
  rewrite bool_decide_false by (by intros []). cbn [when]. apply wp_bind, wp_ret. unfold is_reset, get_ms. apply wp_bind, wp_bind, wp_bind, wp_get, wp_ret, wp_ret.
  assert (st w3 = st w) as E3 by congruence. rewrite E3, Hres. cbn [when]. apply wp_ret. by apply HQ.
Qed.

(** ** The loop *)

(** The port up to the endpoint that happens to be selected. *)
Definition quiet s (h : log) : Prop := exists sel, (sel = 3 \/ sel = 4) /\ served (selecting sel s) h.

Definition round : unit -> M G (unit + unit) := fun _ =>
  go <- keep_running;; if go then disk_task;;; boot_task;;; ret (inl tt) else ret (inr tt).

(** A round in which the loop goes on. *)
Lemma wp_loop_round (n : nat) Q s2 w : RunBootloader (st w) = true \/ RunBootloader (st w) = false /\ TicksSinceLastCommand (st w) < 0xFF ->
  (forall w1, hist w1 = hist w -> st w1 = (if RunBootloader (st w) then st w else put_ticks (u8 (TicksSinceLastCommand (st w) + 1)) (st w)) ->
     wp False disk_task (fun _ w2 => served s2 (hist w2) /\ (p_sel s2 = 3 \/ p_sel s2 = 4) /\
       forall w3, st w3 = st w2 -> served s2 (hist w3) -> wp False (loop n round tt) Q p w3) p w1) ->
  wp False (loop (S n) round tt) Q p w.
Proof.
  intros Hgo Hd. cbn [loop]. apply wp_bind. unfold round at 1. apply wp_bind. unfold keep_running. apply wp_bind, wp_get.
  assert (forall w1, wp False disk_task (fun _ w2 => served s2 (hist w2) /\ (p_sel s2 = 3 \/ p_sel s2 = 4) /\
       forall w3, st w3 = st w2 -> served s2 (hist w3) -> wp False (loop n round tt) Q p w3) p w1 ->
    wp False (disk_task;;; boot_task;;; ret (inl tt)) (fun y w' => wp False (match y with inl x' => loop n round x' | inr r => ret r end) Q p w') p w1) as Hrest.
  { intros w1 H1'. apply wp_bind. eapply wp_mono; [exact H1'|]. intros _ w2 (Hs2 & Hsel2 & Hk). apply wp_bind, (boot_task_served _ s2); [done|done|].
    intros w3 S3 Hs3. apply wp_ret. by apply Hk. }
  destruct (RunBootloader (st w)) eqn:Er.
  - apply wp_ret, Hrest, Hd; done.
  - destruct Hgo as [?|[_ Ht]]; [done|]. apply wp_bind, wp_modify, wp_ret. destruct (Z.ltb_spec (TicksSinceLastCommand (st w)) 255); [|lia]. apply Hrest, Hd; done.
Qed.

(** The last rounds: [255 - t] rounds without a command, then the loop ends. *)
Lemma wp_wind_down k : forall n s Q w, (k < n)%nat -> quiet s (hist w) -> p_waiting s = [] -> ready_for (st w) -> RunBootloader (st w) = false ->
  TicksSinceLastCommand (st w) = 255 - Z.of_nat k -> (k <= 255)%nat ->
  (forall w', quiet s (hist w') -> the_disk (st w') = the_disk (st w) -> Q tt w') -> wp False (loop n round tt) Q p w.
Proof.
  induction k as [|k IH]; intros n s Q w Hn (sel & Hsel & Hs) Hw Hrd Hrun Ht Hk HQ; (destruct n as [|n]; [lia|]).
  - cbn [loop]. apply wp_bind. unfold round at 1. apply wp_bind. unfold keep_running. apply wp_bind, wp_get. rewrite Hrun. apply wp_bind, wp_modify, wp_ret.
    rewrite Ht. change (255 - Z.of_nat 0 <? 255) with false. apply wp_ret, wp_ret, HQ; [by exists sel|cbn [st]; apply bs_put_ticks].
  - apply (wp_loop_round n Q (selecting 4 s)); [right; split; [done|lia]|]. rewrite Hrun. intros w1 Hh1 S1.
    destruct (bs_put_ticks (u8 (TicksSinceLastCommand (st w) + 1)) (st w)) as (A1 & A2 & A3 & A4).
    assert (ready_for (st w1)) as Hrd1.
    { rewrite S1. unfold ready_for, endpoints_are, out_ep, in_ep, the_block in *. by rewrite A1, A2. }
    apply (idle_served (selecting sel s)); [by rewrite Hh1|done|done|]. intros w2 S2 Hs2. split; [exact Hs2|]. split; [by right|]. intros w3 S3 Hs3.
    apply (IH n s); [lia|by exists 4; split; [right|]|done|by rewrite S3, S2|by rewrite S3, S2, S1, A4| |lia|].
    + rewrite S3, S2, S1, ticks_put, Ht, u8_small by (unfold is_u8; lia). lia.
    + intros w4 Hq4 Hd4. apply HQ; [done|]. by rewrite Hd4, S3, S2, S1, A2.
Qed.

(** A WRITE (10) with its tag, its address and the packets of its blocks. *)
Definition write_command : Type := Z * Z * list (list (list Z)).
Definition command_packets (c : write_command) : list (list Z) := write10 c.1.1 c.1.2 (Z.of_nat (length c.2)) :: concat c.2.
Definition command_blocks (c : write_command) : list (Z * list Z) := blocks_sent c.1.2 0 c.2.
Definition command_ok (c : write_command) : Prop :=
  Forall block_packets c.2 /\ 0 <= c.1.1 < 2 ^ 32 /\ 0 <= c.1.2 < LUN_MEDIA_BLOCKS /\ Z.of_nat (length c.2) < 2 ^ 16.

Lemma wp_update cmds tag : forall n s Q w, (length cmds + 256 < n)%nat -> quiet s (hist w) -> p_open s = [] ->
  p_waiting s = concat (command_packets <$> cmds) ++ [eject tag] -> Forall command_ok cmds -> 0 <= tag < 2 ^ 32 -> ready_for (st w) -> RunBootloader (st w) = true ->
  (forall w', quiet (Port (p_sel s) (p_sent s ++ ((fun c => passed c.1.1) <$> cmds) ++ [passed tag]) [] []) (hist w') ->
     write_blocks (concat (command_blocks <$> cmds)) (the_disk (st w)) = Some (the_disk (st w')) -> Q tt w') ->
  wp False (loop n round tt) Q p w.
Proof.
  induction cmds as [|[[t lba] pss] cmds IH]; intros n s Q w Hn (sel & Hsel & Hs) Ho Hw Hok Htag Hrd Hrun HQ; (destruct n as [|n]; [lia|]).
  - apply (wp_loop_round n Q (Port 3 (p_sent s ++ [passed tag]) [] [])); [by left|]. rewrite Hrun. intros w1 Hh1 S1.
    apply (eject_served tag [] (selecting sel s)); [by rewrite Hh1|by rewrite S1|done|done|done|]. intros w2 Hs2 Hrd2 Hd2 Hrun2 Ht2.
    cbn [selecting p_sent] in Hs2. split; [done|]. split; [by left|]. intros w3 S3 Hs3. rewrite S1 in Hd2.
    apply (wp_wind_down 255 n (Port (p_sel s) (p_sent s ++ [passed tag]) [] []));
      [cbn [length] in Hn; lia|exists 3; split; [by left|done]|done|by rewrite S3|by rewrite S3|rewrite S3, Ht2; lia|lia|].
    intros w4 Hq4 Hd4. apply HQ; [done|]. cbn [fmap list_fmap concat write_blocks]. by rewrite Hd4, S3, Hd2.
  - apply Forall_cons_iff in Hok as [(Hps & Ht & Hlba & Hlen) Hok]. cbn [fst snd] in *.
    apply (wp_loop_round n Q (Port 3 (p_sent s ++ [passed t]) [] (concat (command_packets <$> cmds) ++ [eject tag]))); [by left|]. rewrite Hrun. intros w1 Hh1 S1.
    apply (write10_served t lba pss (concat (command_packets <$> cmds) ++ [eject tag]) (selecting sel s));
      [by rewrite Hh1|by rewrite S1|done|cbn [selecting p_waiting]; rewrite Hw; cbn; by rewrite <- app_assoc|done|done|done|done|].
    rewrite S1. intros w2 Hs2 Hrd2 Hwb Hrun2. cbn [selecting p_sent] in Hs2. split; [done|]. split; [by left|]. intros w3 S3 Hs3.
    apply (IH n (Port (p_sel s) (p_sent s ++ [passed t]) [] (concat (command_packets <$> cmds) ++ [eject tag])));
      [cbn [length] in Hn; lia|exists 3; split; [by left|done]|done|done|done|done|by rewrite S3|by rewrite S3, Hrun2|].
    intros w4 Hq4 Hwb4. cbn [p_sel p_sent] in Hq4. rewrite <- app_assoc in Hq4. apply HQ; [done|].
    cbn [fmap list_fmap concat]. rewrite write_blocks_app. change (command_blocks (t, lba, pss)) with (blocks_sent lba 0 pss). rewrite Hwb. cbn [mbind option_bind].
    by rewrite <- S3.
Qed.

(** C12: Updating the firmware.  The host writes an image to the blocks of FLASH.BIN, with
    any number of WRITE (10) commands, in any order, and ejects the disk.  The loop of
    the bootloader ends, and then the application section holds the image, the
    bootloader section and the EEPROM are as before, and the packets handed over,
    as the log of register accesses shows byte by byte, are one status block per
    command, with its tag, that reports success. *)
Theorem firmware_update image order cmds tag s w : let d := the_disk (st w) in
  served s (hist w) -> p_sel s = 3 \/ p_sel s = 4 -> p_open s = [] -> p_waiting s = concat (command_packets <$> cmds) ++ [eject tag] ->
  Forall command_ok cmds -> 0 <= tag < 2 ^ 32 -> ready_for (st w) -> RunBootloader (st w) = true -> (length cmds + 256 < fuel p)%nat ->
  placed d -> Forall is_u8 image -> length image = Z.to_nat FLASH_FILE_SIZE_BYTES ->
  concat (command_blocks <$> cmds) = image_blocks d image order ->
  Forall (fun i => Z.of_nat i < FILE_SECTORS FLASH_FILE_SIZE_BYTES) order ->
  (forall i, Z.of_nat i < FILE_SECTORS FLASH_FILE_SIZE_BYTES -> i ∈ order) ->
  wp False main_loop (fun _ w' => let d' := the_disk (st w') in
    flash (memory d') = image ++ drop (Z.to_nat FLASH_FILE_SIZE_BYTES) (flash (memory d)) /\ eeprom (memory d') = eeprom (memory d) /\
    handed 3 4 64 (hist w') = handed 3 4 64 (hist w) ++ ((fun c => passed c.1.1) <$> cmds) ++ [passed tag] /\
    exists sel, served (Port sel (p_sent s ++ ((fun c => passed c.1.1) <$> cmds) ++ [passed tag]) [] []) (hist w')) p w.
Proof.
  intros d Hs Hsel Ho Hw Hok Htag Hrd Hrun Hn Hp Hu Hl Hblk Hord Hall. unfold BootloaderMassStorage.main_loop, while_. apply wp_bind, wp_fuel. fold round.
  pose proof Hrd as (_ & _ & _ & _ & Hd & _). destruct (image_copied d image order Hd Hp Hu Hl Hord Hall) as (d' & Hwb & Hf & He & _).
  apply (wp_update cmds tag (fuel p) s); [done| |done|done|done|done|done|done|].
  - exists (p_sel s). split; [done|]. by destruct s.
  - intros w' (sel & _ & Hq) Hwb'. rewrite Hblk in Hwb'. fold d in Hwb'. assert (the_disk (st w') = d') as -> by congruence. split_and!; [done|done| |by exists sel].
    by rewrite (served_handed p 3 4 _ _ _ Hq), (served_handed p 3 4 _ _ _ Hs).
Qed.

(** The bootloader does not leave by itself: while it was not told to stop and the
    host sends nothing, the loop goes on, however many rounds it is watched. *)
Theorem idle_keeps_running s w : served s (hist w) -> p_sel s = 3 \/ p_sel s = 4 -> p_waiting s = [] -> ready_for (st w) -> RunBootloader (st w) = true ->
  main_loop p w = NoFuel.
Proof.
  intros Hs Hsel Hw Hrd Hrun. change (main_loop p w) with (loop (fuel p) round tt p w).
  assert (quiet s (hist w)) as Hq by (exists (p_sel s); split; [done|by destruct s]). clear Hs Hsel. generalize (fuel p) as n. intros n. revert w Hq Hrd Hrun.
  induction n as [|n IH]; intros w (sel & Hsel & Hs) Hrd Hrun; [done|].
  assert (wp False (round tt) (fun y w' => y = inl tt /\ quiet s (hist w') /\ st w' = st w) p w) as Hround.
  { unfold round, keep_running. apply wp_bind, wp_bind, wp_get. rewrite Hrun. apply wp_ret, wp_bind, (idle_served (selecting sel s)); [done|done|done|].
    intros w1 S1 Hs1. apply wp_bind, (boot_task_served _ _ _ Hs1); [by right|]. intros w2 S2 Hs2. apply wp_ret. split; [done|]. split; [|congruence].
    exists 4. split; [by right|exact Hs2]. }
  cbn [loop]. unfold bind. unfold wp in Hround. destruct (round tt p w) as [y w'| |]; [|done|done]. destruct Hround as (-> & Hq & S').
  apply IH; [done|by rewrite S'|by rewrite S'].
Qed.
End Loop.

(** ** The start *)

Section Start.
Context {G : Type} `{UsbState G} `{!MsDevice G} `{!DiskState G} `{!ScsiState G} `{!BootState G} `{!BootStateOk G} `{Avr} `{BootChip} (p : platform).
Variables (boot_lock_fuse_bits_get : M G Z) (wdt_disable : M G unit) (FUSE_BOOTRST EXTRF fuses : Z).
(** avr-libc reads the fuses without a write to the reset flags, and the watchdog is no
    object of the program. *)
Definition keeps_flags (e : event) : Prop := forall v, e <> Wr MCUSR v.
Context (Hfuses : forall w, exists new, Forall keeps_flags new /\ boot_lock_fuse_bits_get p w = Done fuses (World (st w) (new ++ hist w))).
Context (Hwdt : forall w, exists new, wdt_disable p w = Done tt (World (st w) (new ++ hist w))).
Implicit Types (w : world G).

(** The reset that started the processor asks for the application. *)
Definition wants_application (flags key : Z) : bool :=
  if Z.land fuses FUSE_BOOTRST =? 0 then bit_tst flags WDRF && (key =? MAGIC_BOOT_KEY) else negb (bit_tst flags EXTRF) || (key =? MAGIC_BOOT_KEY).

(** The decision. *)
Lemma jump_decided flags word w : (forall h, Forall keeps_flags h -> reg_wrap MCUSR (respond p (h ++ hist w) MCUSR) = flags) -> reset_vector (st w) = Some word ->
  wp False (Application_Jump_Check boot_lock_fuse_bits_get wdt_disable FUSE_BOOTRST EXTRF) (fun jump w' =>
    jump = wants_application flags (MagicBootKey (st w)) && negb (word =? 0xFFFF) /\ st w' = (if jump then put_key 0 (st w) else st w)) p w.
Proof.
  intros Hflags Hword. unfold Application_Jump_Check. apply wp_bind. destruct (Hfuses w) as (n0 & Hn0 & E0). unfold wp at 1. rewrite E0.
  set (w0 := World (st w) (n0 ++ hist w)). set (key := MagicBootKey (st w)). set (J := wants_application flags key).
  apply wp_bind. eapply (wp_mono _ _ _ (fun j w1 => j = J /\ st w1 = st w)).
  { unfold J, wants_application. destruct (_ =? 0); cbn [negb].
    - apply wp_bind, wp_reg_bit. intros v Hv. apply wp_bind, wp_get, wp_bind, wp_reg_andn. intros v' _. apply wp_ret. cbn [st hist].
      rewrite Hv. unfold w0. cbn [hist]. by rewrite Hflags by done.
    - apply wp_bind, wp_reg_bit. intros v Hv. apply wp_bind, wp_get, wp_bind, wp_reg_andn. intros v' _. apply wp_ret. cbn [st hist].
      rewrite Hv. unfold w0. cbn [hist]. by rewrite Hflags by done. }
  cbv beta. intros j w1 [-> S1]. apply wp_bind, wp_get, wp_bind. rewrite S1, Hword. apply wp_ret. destruct (J && negb (word =? 0xFFFF)).
  - apply wp_bind, wp_reg_andn. intros v _. cbn [st hist]. apply wp_bind. destruct (Hwdt (World (st w1) (Wr MCUSR (reg_wrap MCUSR (bit_clr v WDRF)) :: Rd MCUSR v :: hist w1))) as (n1 & E1).
    unfold wp at 1. rewrite E1. apply wp_bind, wp_modify, wp_ret. cbn [st]. by rewrite S1.
  - apply wp_ret. done.
Qed.

(** The end of [main]: the objects but for the key are as before. *)
Lemma wp_main_exit q wdt_enable_250ms Q w : (forall w, exists new, wdt_enable_250ms q w = Done tt (World (st w) (new ++ hist w))) ->
  (forall w', st w' = put_key MAGIC_BOOT_KEY (st w) -> Q tt w') -> wp False (main_exit wdt_enable_250ms) Q q w.
Proof.
  intros Hon HQ. unfold main_exit, USB_Detach. apply wp_bind, wp_reg_or. intros v _. apply wp_bind, wp_modify. unfold wp.
  edestruct Hon as (new & ->). by apply HQ.
Qed.

(** C39: The check at start: the application is started exactly when the reset asks for
    it and there is one, that is its reset vector is not blank; then the key is
    cleared.  Otherwise no object changes. *)
Theorem jump_check flags word w : (forall h, Forall keeps_flags h -> reg_wrap MCUSR (respond p (h ++ hist w) MCUSR) = flags) -> reset_vector (st w) = Some word ->
  wp False (Application_Jump_Check boot_lock_fuse_bits_get wdt_disable FUSE_BOOTRST EXTRF) (fun jump w' =>
    jump = wants_application flags (MagicBootKey (st w)) && negb (word =? 0xFFFF) /\ st w' = (if jump then put_key 0 (st w) else st w)) p w.
Proof. apply jump_decided. Qed.

(** C17: Leaving the bootloader.  What [main] does after its loop makes the check at
    start take the reset by the watchdog for a request to start the application,
    whichever way the fuses set the reset vector: the key survives the reset, and the
    application is started exactly when its reset vector is not blank, with the key
    cleared. *)
Theorem leaving_starts_application q wdt_enable_250ms word w :
  (forall w, exists new, wdt_enable_250ms q w = Done tt (World (st w) (new ++ hist w))) -> reset_vector (st w) = Some word ->
  wp False (main_exit wdt_enable_250ms) (fun _ w1 => forall flags w2,
    MagicBootKey (st w2) = MagicBootKey (st w1) -> memory (the_disk (st w2)) = memory (the_disk (st w1)) ->
    (forall h, Forall keeps_flags h -> reg_wrap MCUSR (respond p (h ++ hist w2) MCUSR) = flags) -> bit_tst flags WDRF = true ->
    wp False (Application_Jump_Check boot_lock_fuse_bits_get wdt_disable FUSE_BOOTRST EXTRF) (fun jump w3 =>
      jump = negb (word =? 0xFFFF) /\ (jump = true -> MagicBootKey (st w3) = 0)) p w2) q w.
Proof.
  intros Hon Hword. apply wp_main_exit; [done|]. intros w1 S1 flags w2 Hkey Hmem Hflags Hwd. rewrite S1, key_put in Hkey. rewrite S1, disk_put_key in Hmem.
  eapply wp_mono; [apply (jump_decided flags word w2); [done|unfold reset_vector; by rewrite Hmem]|]. cbv beta. intros jump w3 [-> ->].
  assert (wants_application flags (MagicBootKey (st w2)) = true) as ->.
  { unfold wants_application. rewrite Hkey, Hwd, Z.eqb_refl, orb_true_r. by destruct (_ =? 0). }
  cbn [andb]. split; [done|]. intros ->. apply key_put.
Qed.
End Start.

(** ** Concrete runs *)

Section Runs.
#[local] Instance boot_avr : Avr := datasheet USB_SERIES_4_AVR.
#[local] Instance boot_avr_ok : AvrOk := datasheet_ok USB_SERIES_4_AVR.
#[local] Instance boot_32u4 : BootChip := atmega32u4_boot.
#[local] Instance boot_32u4_ok : BootChipOk := atmega32u4_boot_ok.

(** The objects of the bootloader. *)
Record boot_program := BootProgram {
  bp_usb : usb_globals; bp_ms : USB_ClassInfo_MS_Device_t; bp_disk : vdisk; bp_sense : SCSI_Request_Sense_Response_t;
  bp_run : bool; bp_ticks : Z; bp_key : Z
}.
#[local] Instance boot_program_usb : UsbState boot_program := {|
  usb := bp_usb; put_usb u g := BootProgram u (bp_ms g) (bp_disk g) (bp_sense g) (bp_run g) (bp_ticks g) (bp_key g) |}.
#[local] Instance boot_program_ms : MsDevice boot_program := {|
  ms := bp_ms; put_ms i g := BootProgram (bp_usb g) i (bp_disk g) (bp_sense g) (bp_run g) (bp_ticks g) (bp_key g) |}.
#[local] Instance boot_program_disk : DiskState boot_program := {|
  the_disk := bp_disk; put_disk d g := BootProgram (bp_usb g) (bp_ms g) d (bp_sense g) (bp_run g) (bp_ticks g) (bp_key g) |}.
#[local] Instance boot_program_scsi : ScsiState boot_program := {|
  SenseData := bp_sense; put_sense s g := BootProgram (bp_usb g) (bp_ms g) (bp_disk g) s (bp_run g) (bp_ticks g) (bp_key g);
  RunBootloader := bp_run; put_run b g := BootProgram (bp_usb g) (bp_ms g) (bp_disk g) (bp_sense g) b (bp_ticks g) (bp_key g) |}.
#[local] Instance boot_program_state : BootState boot_program := {|
  TicksSinceLastCommand := bp_ticks; put_ticks t g := BootProgram (bp_usb g) (bp_ms g) (bp_disk g) (bp_sense g) (bp_run g) t (bp_key g);
  MagicBootKey := bp_key; put_key k g := BootProgram (bp_usb g) (bp_ms g) (bp_disk g) (bp_sense g) (bp_run g) (bp_ticks g) k |}.
#[local] Instance boot_program_ms_ok : MsDeviceOk boot_program.
Proof. split; [done|done|done|]. by intros []. Qed.
#[local] Instance boot_program_objects : BootObjectsOk boot_program.
Proof. by split. Qed.
#[local] Instance boot_program_state_ok : BootStateOk boot_program.
Proof. by split. Qed.

Definition boot_start (d : vdisk) : boot_program :=
  BootProgram (UsbGlobals (Request 0 0 0 0 0) 1 false false) Disk_MS_Interface d SenseData_init true 0 0.
Definition no_leds (m : Z) : M boot_program unit := ret tt.
Definition no_bytes (n : nat) : list Z := replicate n 0.

Lemma u8_check l : forallb (fun b => (0 <=? b) && (b <? 256)) l = true -> Forall is_u8 l.
Proof.
  intros Hl. apply Forall_forall. intros b Hb. rewrite forallb_forall in Hl. apply Hl in Hb. apply andb_true_iff in Hb as [H1 H2].
  unfold is_u8. lia.
Qed.
Lemma no_leds_served p m Q s w : served 3 4 64 p s (hist w) -> (forall w', st w' = st w -> served 3 4 64 p s (hist w') -> Q tt w') -> wp False (no_leds m) Q p w.
Proof. intros Hs HQ. by apply wp_ret, HQ. Qed.
Lemma blank_ready : ready_for (boot_start (blank atmega32u4_boot)).
Proof.
  unfold ready_for. split; [by split|]. split; [reflexivity|]. split; [reflexivity|]. split; [reflexivity|]. split; [apply (blank_ok _ atmega32u4_boot_ok)|].
  assert (forall n, Forall is_u8 (replicate n 0xFF)) as Hff by (intros n; apply Forall_replicate; unfold is_u8; lia).
  split; [apply Hff|]. split; [apply Hff|]. apply u8_check. vm_compute. reflexivity.
Qed.

(** A host that copies an image of one byte value, and ejects the disk. *)
Definition image_32u4 : list Z := replicate (Z.to_nat 26624) 0x95.
Definition copy_32u4 : write_command := (1, 4, replicate 52 (replicate 8 (replicate 64 0x95))).
Definition host_32u4 : list (list Z) := command_packets copy_32u4 ++ [eject 2].
Definition copy_bus : platform := port_bus 3 4 64 (Port 0 [] [] host_32u4) 2000.

Lemma host_32u4_served : served 3 4 64 copy_bus (Port 4 [] [] host_32u4) [Wr UENUM 4].
Proof.
  apply port_bus_selected; [done|lia| |unfold is_u8; lia]. split; [unfold is_u8; cbn; lia|]. split; [cbn; lia|].
  assert (forallb (fun q => (length q <=? 255)%nat && forallb (fun b => (0 <=? b) && (b <? 256)) q) host_32u4 = true) as Hall by (vm_compute; reflexivity).
  apply Forall_forall. intros q Hq. rewrite forallb_forall in Hall. apply Hall in Hq. apply andb_true_iff in Hq as [H1 H2].
  split; [by apply Nat.leb_le|by apply u8_check].
Qed.

Lemma firmware_update_witness :
  wp False (main_loop 1 2 4 8 no_leds (fun _ => 0) no_bytes) (fun _ w' => take (Z.to_nat 26624) (flash (memory (bp_disk (st w')))) = image_32u4 /\
      handed 3 4 64 (hist w') = [passed 1; passed 2])
    copy_bus (World (boot_start (blank atmega32u4_boot)) [Wr UENUM 4]).
Proof.
  eapply wp_mono.
  - apply (firmware_update copy_bus 1 2 4 8 no_leds (fun _ => 0) no_bytes) with
      (image := image_32u4) (order := seq 0 52) (cmds := [copy_32u4]) (tag := 2) (s := Port 4 [] [] host_32u4).
    + apply no_leds_served.
    + reflexivity.
    + intros n. apply length_replicate.
    + cbn [fuel copy_bus port_bus]. lia.
    + exact host_32u4_served.
    + right. reflexivity.
    + reflexivity.
    + reflexivity.
    + apply Forall_singleton. split_and!; cbn [fst snd copy_32u4]; [|lia|lia|lia|vm_compute; reflexivity|vm_compute; reflexivity].
      apply Forall_replicate. split_and!; [|reflexivity|by apply (bool_decide_unpack _)]. by apply Forall_replicate.
    + lia.
    + exact blank_ready.
    + reflexivity.
    + cbn [fuel copy_bus port_bus length]. lia.
    + apply (@initial_placed _ atmega32u4_boot_ok).
    + apply Forall_replicate. unfold is_u8. lia.
    + unfold image_32u4. rewrite length_replicate. reflexivity.
    + vm_compute. reflexivity.
    + apply Forall_seq. intros i Hi. change (Z.of_nat i < 52). lia.
    + intros i Hi. change (Z.of_nat i < 52) in Hi. apply elem_of_seq. lia.
  - cbv beta zeta. intros _ w' (Hf & _ & Hh & _). split; [|exact Hh]. change (bp_disk (st w')) with (the_disk (st w')). rewrite Hf.
    apply take_app_length'. unfold image_32u4. rewrite length_replicate. reflexivity.
Defined.

(** The first block is read by an address of 65536: packets and a status. *)
Definition reader_bus (n : nat) : platform := port_bus 3 4 64 (Port 0 [] [] [read10 7 65536 1]) n.
Lemma reader_served sel n : is_u8 sel -> served 3 4 64 (reader_bus n) (Port sel [] [] [read10 7 65536 1]) [Wr UENUM sel].
Proof.
  intros Hsel. apply port_bus_selected; [done|lia| |done]. split; [unfold is_u8; cbn; lia|]. split; [cbn; lia|]. apply Forall_singleton.
  split; [cbn; lia|]. apply u8_check. vm_compute. reflexivity.
Qed.
Lemma read10_served_witness :
  wp False (MS_Device_USBTask (boot_command 2 8 no_leds no_bytes) between_packets)
    (fun _ w' => exists ds, cut 64 (blocks_read 0 0 1 (blank atmega32u4_boot)) ds /\ handed 3 4 64 (hist w') = ds ++ [passed 7])
    (reader_bus 2000) (World (boot_start (blank atmega32u4_boot)) [Wr UENUM 4]).
Proof.
  eapply wp_mono.
  - apply (read10_served (reader_bus 2000) 2 8 no_leds no_bytes) with (tag := 7) (lba := 65536) (n := 1%nat) (ps := []) (s := Port 4 [] [] [read10 7 65536 1]).
    + apply no_leds_served.
    + reflexivity.
    + cbn [fuel reader_bus port_bus]. lia.
    + apply reader_served. unfold is_u8. lia.
    + exact blank_ready.
    + reflexivity.
    + reflexivity.
    + lia.
    + lia.
    + vm_compute. reflexivity.
    + lia.
  - cbv beta. intros _ w' (ds & Hds & Hh & _). exists ds. split; [exact Hds|exact Hh].
Defined.

(** A command block in place. *)
Definition boot_with (cmd : list Z) : boot_program :=
  let g := boot_start (blank atmega32u4_boot) in
  BootProgram (bp_usb g) (MsInfo (MS_Config (bp_ms g)) (set_block (command_block 1 36 0x80 cmd) (MS_State (bp_ms g)))) (bp_disk g) (bp_sense g) true 0 0.

(** A read from behind the disk. *)
Lemma scsi_refused_witness : exists w', SCSI_DecodeSCSICommand (ret tt) no_bytes (reader_bus 2000)
    (World (boot_with (rw10 SCSI_CMD_READ_10 LUN_MEDIA_BLOCKS 1)) []) = Done false w' /\ hist w' = [] /\ AdditionalSenseCode (bp_sense (st w')) = 0x21.
Proof.
  eexists. split.
  - apply (scsi_refused (reader_bus 2000) (ret tt) no_bytes (World (boot_with (rw10 SCSI_CMD_READ_10 LUN_MEDIA_BLOCKS 1)) [])
      SCSI_ASENSE_LOGICAL_BLOCK_ADDRESS_OUT_OF_RANGE). vm_compute. reflexivity.
  - split; reflexivity.
Defined.

(** INQUIRY with room for the whole answer. *)
Lemma scsi_answers_witness :
  wp False (SCSI_DecodeSCSICommand (ret tt) no_bytes) (fun ok w' => ok = true /\ concat (handed 3 4 64 (hist w')) = inquiry_bytes InquiryData)
    (reader_bus (Z.to_nat 140000)) (World (boot_with [SCSI_CMD_INQUIRY; 0; 0; 0; 36; 0]) [Wr UENUM 3]).
Proof.
  eapply wp_mono.
  - apply (scsi_answers (reader_bus (Z.to_nat 140000)) 3 4 64) with
      (bs := inquiry_bytes InquiryData) (moved := 36) (s := Port 3 [] [] [read10 7 65536 1]).
    + lia.
    + intros Q s w Hs _ HQ. by apply wp_ret, HQ.
    + cbn [fuel reader_bus port_bus]. lia.
    + apply reader_served. unfold is_u8. lia.
    + reflexivity.
    + reflexivity.
    + apply u8_check. vm_compute. reflexivity.
    + reflexivity.
    + vm_compute. reflexivity.
  - cbv beta. intros ok w' (-> & ds & [Hds _] & Hh & _). split; [reflexivity|]. rewrite Hh. exact Hds.
Defined.

(** After the watchdog, with the key of the bootloader and a program in place. *)
Definition with_program : boot_program :=
  let g := boot_start (Disk initial_entries (Nvm image_32u4 [] false [])) in BootProgram (bp_usb g) (bp_ms g) (bp_disk g) (bp_sense g) false 0 MAGIC_BOOT_KEY.
Lemma jump_check_witness :
  wp False (Application_Jump_Check (ret 0) (ret tt) 1 1) (fun jump w' => jump = true /\ bp_key (st w') = 0)
    {| respond _ _ := 8; fuel := 0 |} (World with_program []).
Proof.
  eapply wp_mono.
  - apply (jump_check {| respond _ _ := 8; fuel := 0 |} (ret 0) (ret tt) 1 1 0) with (flags := 8) (word := 0x9595).
    + intros w. exists []. split; [apply Forall_nil|by destruct w].
    + intros w. exists []. by destruct w.
    + intros h _. reflexivity.
    + vm_compute. reflexivity.
  - cbv beta. intros jump w' (-> & ->). split; reflexivity.
Defined.

(** The program leaves, and the watchdog resets it. *)
Lemma leaving_starts_application_witness :
  wp False (main_exit (ret tt)) (fun _ w1 =>
    wp False (Application_Jump_Check (ret 0) (ret tt) 1 1) (fun jump w3 => jump = true /\ bp_key (st w3) = 0)
      {| respond _ _ := 8; fuel := 0 |} (World (st w1) []))
    {| respond _ _ := 0; fuel := 0 |} (World with_program []).
Proof.
  eapply wp_mono.
  - apply (leaving_starts_application {| respond _ _ := 8; fuel := 0 |} (ret 0) (ret tt) 1 1 0) with (word := 0x9595).
    + intros w. exists []. split; [apply Forall_nil|by destruct w].
    + intros w. exists []. by destruct w.
    + intros w. exists []. by destruct w.
    + vm_compute. reflexivity.
  - cbv beta. intros _ w1 Hj. eapply wp_mono; [apply (Hj 8); reflexivity|]. cbv beta. intros jump w3 (-> & Hk). split; [reflexivity|by apply Hk].
Defined.
End Runs.
